(* ===== verification/_CoqProject ===== *)
-Q . S2P
Prelude.v
Counter.v
Print.v
Lookup3.v
Sha256.v
Bloom.v
Utils.v
MsgQueue.v
BloomMgr.v
AddrUtils.v
InetText.v
HelperDns.v
HelperLoop.v
DnsHeap.v
ThreadPool.v
Worker.v
Checks.v
Stats.v
QueryLog.v
SyncMgr.v
Sync.v
Conf.v
Postfix.v
Sjsms.v
Grosscheck.v
Clients.v
Milter.v
Gross.v
Servers.v
StateFile.v
Process.v
StartUp.v
MsgQueueTest.v
CounterTest.v
BloomTest.v
Sha256Test.v
Sha256Vectors.v
AddrTest.v
DnsTest.v
