(* ===== verification/Prelude.v ===== *)
(** * A verification of grossd, the greylisting server

    grossd answers mail servers that ask whether a message may come in.  A
    query names a client address, a sender and a recipient.  The triplet (with
    the address masked to a network) is hashed; when its digest is in a ring of
    bloom filters the sender has tried before and is let through, otherwise the
    checks decide whether it is trusted, blocked or told to try again later.
    The filters age by rotation, are shared with a peer, survive a restart in a
    mapped file, and are changed by one thread only, the manager, which takes
    its orders from a message queue.

    ** The parts and the files

    - [Prelude] (this file): faults ([Res]: a computation ends in a value, or in
      an assertion that fails, an access out of bounds, undefined behaviour, a
      wait for a lock of its own or an exit), a state monad over it ([stt]), one
      that also records what is done to the outside, machine integers ([u32],
      [s32], [u64], [int_val] for [int] arithmetic that must not overflow),
      arrays with checked accesses ([aget], [aset]), counted loops, C strings,
      bytes of integers in either order, sums over lists, interleavings of
      threads and finite systems whose reachable states are computed.
    - [Print]: what the program prints: decimal, hexadecimal and fixed-point
      numbers, formats, and the pattern of [src/src/stats.c] and
      [src/src/worker.c] that moves on by the value [snprintf] returned.
    - [Sha256]: [src/src/sha256.c].  The byte order of the machine is the
      argument [le].  Module [Fips] is the standard, written on its own.
    - [Bloom]: [src/src/bloom.c].  Filters with their arrays of words, groups,
      rings; an abstract ring of sets of bit positions ([aring]) that the ring
      is proved to refine.
    - [BloomMgr]: [src/src/bloommgr.c].  The manager on raw message buffers.
    - [StateFile]: [src/src/srvutils.c], the ring in one block of bytes, the
      creation of the state file, its mapping and the moving of its pointers.
    - [Utils]: [src/src/utils.c].  A descriptor is the list of what the next
      calls of read or write will do; strings live in buffers.
    - [MsgQueue]: [src/src/msgqueue.c].  A heap of messages, queues, integers
      and times behind the table of queues, the free list of queues included;
      the functions are computations on the heap that may wait.  Abstract FIFO
      queues ([aqs]) are the specification, and what [ThreadPool], [HelperDns]
      and [MsgQueueTest] use.
    - [Counter]: [src/src/counter.c].  The table of counters, which is doubled
      when it is full, and the free list; a finite map is the specification.
    - [AddrUtils]: [src/src/addrutils.c].  The conversions of addresses are the
      class [Inet] with the laws [InetLaws]; module [Dotted] is an instance.
    - [InetText]: those conversions with the short forms of IPv6 addresses (a gap
      for a run of zeros, a mapped IPv4 address), an instance too.
    - [ThreadPool]: [src/src/thread_pool.c].  Edicts and their references; the
      threads of a pool as a step relation with a step for each of their critical
      sections, with the clock readings as arguments and the moving average computed in the
      precision of the source.
    - [Worker]: [src/src/worker.c], [test_tuple] with its wait for the checks;
      the turns of the wait (clock and reply) are an argument, what the handler
      does to other components is the list of effects it returns.
    - [Stats]: [src/src/stats.c], with [update_counters] and
      [update_delay_stats] of [src/src/worker.c], [statstr] of
      [src/src/srvutils.c] and the report of [src/src/srvstatus.c].  The delays
      are IEEE doubles; the lock is part of the state.
    - [QueryLog]: the rest of [src/src/worker.c]: [init_status], [finalize] and
      the line of the query log.  The class [Finish] is what the protocols need
      of it.
    - [Lookup3]: [src/src/lookup3.c].  The hash in its three ways of reading
      memory.
    - [HelperDns]: [src/src/helper_dns.c], the cache of names and the lookups,
      and [HelperLoop]: the thread that hands the requests to c-ares, mixed with
      the lookups, whose memory the requests point to, and the handshake at its
      start.  What c-ares answers is an input.
    - [DnsHeap]: the same lookups on a heap of host entries, arrays of pointers,
      strings and records of requests, with [hostent_deepcopy], [free_hostent] and
      replies that come late; triples over lists of objects say who owns what.  In
      both a lookup has a step for each lock it takes.
    - [Checks]: [src/src/check_dnsbl.c], [check_helo.c], [check_reverse.c],
      [check_blocker.c], [check_random.c], [check_spf.c], from the request to the
      results they send.
    - [SyncMgr]: [src/src/syncmgr.c], the messages between peers, and [Sync]: the
      thread that makes and accepts their connections.
    - [Conf]: [src/src/conf.c] and the tables of [src/include/conf.h].
    - [Gross]: [src/src/gross.c]: the command line, the settings of the
      configuration in the context, the checks that are started, and the loop
      of periodic tasks.
    - [Process]: [main] of [src/src/gross.c] up to that loop, with logging, pid
      files, going into the background and ending the process
      ([src/src/srvutils.c]); what the operating system answers is a record.
    - [StartUp]: main, the manager and the synchroniser on the semaphore that
      keeps the servers from starting too early, as programs taken from
      [Process], [StateFile] (building the ring) and [Sync], with the calls of
      [syncmgr] that can fail.
    - [Postfix]: [src/src/worker_postfix.c].  The class [Judge] is what a
      protocol needs of [Worker]; [worker_judge] is the instance.
    - [Sjsms]: [src/src/proto_sjsms.c] and [src/src/worker_sjsms.c], the datagram
      protocol; [Grosscheck]: [src/src/grosscheck.c], its client in the mail
      server.
    - [Milter]: [src/src/worker_milter.c], the callbacks on a heap of strings.
    - [Servers]: the loops that accept connections and datagrams, with what
      they allocate and give back: [worker_postfix.c], [worker_sjsms.c],
      [srvstatus.c], [worker_milter.c], [free_client_info] of [worker.c].
    - [Clients]: the test clients [gclient.c], [client_postfix.c],
      [client_sjsms.c], [testgrosscheck.c].
    - [MsgQueueTest], [CounterTest], [BloomTest], [Sha256Test], [AddrTest],
      [DnsTest]: the test programs of those components, with what only they use
      of [bloom.c] and [sha256.c].  The threads of the first two are programs
      that interleave freely; in the first a wait can reach its limit.
      [Sha256Vectors] is the table of
      [src/include/sha256-test.h].

    ** What is shown

    - The core: [Sha256] equals FIPS 180-4; the ring of filters has no false
      negatives within its rotations and forgets after them; the manager keeps
      a triplet for the retention time; a greylisted triplet is matched when it
      comes back ([Worker.greylisted_then_matched] goes through all of these).
      The main loop makes the rotation catch up with the clock from any state
      ([Gross.rotation_keeps_up]), and the ring is the same after a restart with
      the file mapped elsewhere ([StateFile.state_file_restart]).
    - The verdict is a function of the results in time; the wait ends; stopping
      early does not change a verdict.  The checks send the results they should
      for all answers of the libraries behind them ([Checks]), the cache of
      names is sound ([HelperDns.cache_sound]), the helper thread with its pipe
      and the lookups of all threads do what the lookups of [HelperDns] do
      ([HelperLoop.helper_thread_refines]), lookups free nothing twice and what
      they leave behind is known object by object ([DnsHeap.dns_memory]), and the
      hash depends on the key alone.
    - Queues are FIFO, identifiers are not given out twice, edicts are freed
      once, the counters of a pool are exact and no verdict is lost in the
      statistics under every interleaving, and the counters are a finite map.
      The tests that use queues and counters from many threads pass however the
      threads are interleaved ([MsgQueueTest.msgqueue_test_passes], unless a wait
      takes ten seconds, and [CounterTest.counter_test_passes]); the test of the filters fails only on
      a collision ([BloomTest.bloom_test_verdict]), that of the hash only on a
      reference that is not SHA-256 ([Sha256Vectors.sha256_table_verdict]), those
      of the addresses pass ([AddrTest.address_tests_pass]) and that of the DNS
      helper compares the address it is given ([DnsTest.dns_test_verdict]).
    - Round trips: lines and streams for every way reads and writes are cut
      short, configuration files, peer messages and filters across byte orders,
      queries and answers of the protocols.
    - From end to end: a session with the peer over the bytes of its connection,
      with what the filters it carries come to ([Sync.peer_session]), a call of the
      mail server's mapping ([Grosscheck.grosscheck_end_to_end]), the Postfix
      client against the server ([Clients.postfix_client_end_to_end]).
    - From the file to the server: an accepted configuration is in the ranges
      the components rely on, the checks that run are those of the file, main
      keeps its order for every answer of the system ([Process.main_discipline]),
      no server starts before the filters are there, and none at all when the
      synchroniser cannot listen ([StartUp.servers_start_in_sync]), and the loops of the servers give
      nothing back twice ([Servers.server_ledger]).
    - Where the code does not do what it means to, a theorem says what it does:
      [QueryLog.long_addresses_overrun_log], [Sjsms.datagram_overruns_log],
      [HelperDns.late_reply_poisons_cache], [HelperLoop.spurious_wakeup_too_early],
      [HelperLoop.short_address_read], [HelperLoop.request_read_after_timeout],
      [StartUp.syncmgr_gives_up], [Stats.healthy_status_never_answers],
      [Stats.log_stats_report], [StateFile.ring_built_iff_bits_counted],
      [StateFile.release_keeps_mapping], [Gross.accepted_settings_fault],
      [Checks.address_as_helo_passes], [Checks.helo_overreads_cached_address],
      [Checks.definitive_checks_disable_cutoff], [Milter.milter_connection],
      [SyncMgr.oper_sync_stale_word], [SyncMgr.aggregate_sync_fails_assertion],
      [Sync.peer_connection_fails_assertion],
      [MsgQueue.walk_queue_misses_ready_messages],
      [ThreadPool.late_refusal_fails_assertion],
      [Worker.threshold_cut_off_disabled], [Bloom.four_bit_filter_out_of_bounds],
      [Conf.empty_name_reads_before_buffer], [Postfix.long_sender_replaces_client],
      [Sjsms.spaced_reason_overruns_buffer], [Sjsms.sjsms_datagram_safety],
      [Process.version_removes_pidfile], [Servers.network_error_ends_daemon],
      [Servers.milter_unlinks_local], [Clients.receive_error_writes_before_buffer],
      [BloomTest.removal_never_looks_for_kept], [DnsHeap.nameless_copy_not_freed],
      [Process.create_thread_all_or_none], [DnsTest.not_found_faults].

    ** Bounds and fuel

    Loops over streams have as fuel one more than [fd_size], the bytes and
    events left, which every read decreases; loops over strings, keys and blocks
    the length of what they walk.  The theorems that a function returns a result
    prove that this is enough.  Loops that wait (for checks, for name servers,
    for connections, the main loop) take the list of what happens in each turn;
    the theorems that they end ask that the clock pass the limit in one of them.
    The block loop of [sha256] has a 32-bit counter compared with a 64-bit size;
    its theorem bounds the message accordingly.  Structures are laid out as on a
    64-bit machine.

    ** What is not modelled

    The system calls themselves, c-ares, libmilter, the SPF library and the
    mathematical functions of libm: their answers are inputs.  Memory that is
    released is not tracked outside [MsgQueue], [ThreadPool], [Counter],
    [Milter], [Servers] and [DnsHeap]; the functions that only release memory of
    other parts have no definition.  Text that is only printed on the way is left
    out of the test programs, the threads of [DnsTest] run one after another, and
    of the 517 references of the SHA-256 test sixteen are evaluated, those where
    the padding changes among them. *)

From Stdlib Require Export ZArith Lia.
From Stdlib Require Export Ascii.
From stdpp Require Export base numbers list gmap strings.

#[global] Open Scope Z_scope.
#[global] Open Scope list_scope.
#[global] Set Default Goal Selector "!".

(** ** Faults and the error monad

    A C function that can hit an [assert], read or write outside an object,
    run into undefined behaviour, wait for a lock its own thread holds, or end
    the process with [exit] is modelled as a computation in [Res]. *)
Inductive fault :=
| AssertFail
| OutOfBounds
| Undefined
| SelfDeadlock
| Exit (code : Z).

#[export] Instance fault_eq_dec : EqDecision fault.
Proof. solve_decision. Defined.

Inductive Res (A : Type) :=
| Ok (a : A)
| Fail (f : fault).
Arguments Ok {A} _.
Arguments Fail {A} _.

Definition rbind {A B} (m : Res A) (k : A -> Res B) : Res B :=
  match m with Ok a => k a | Fail f => Fail f end.

Declare Scope res_scope.
Notation "x ← m ; k" := (rbind m (fun x => k))
  (at level 20, m at level 100, k at level 200, only parsing) : res_scope.
Notation "' x ← m ; k" := (rbind m (fun x => k))
  (at level 20, x pattern, m at level 100, k at level 200, only parsing) : res_scope.
#[global] Open Scope res_scope.

Definition c_assert (b : bool) : Res unit := if b then Ok tt else Fail AssertFail.

(** Whether a computation ends without a fault. *)
Definition is_ok {A} (m : Res A) : bool := match m with Ok _ => true | Fail _ => false end.

Lemma bind_Ok {A B} (a : A) (k : A -> Res B) : rbind (Ok a) k = k a.
Proof. reflexivity. Qed.

Lemma rbind_assoc {A B C} (m : Res A) (f : A -> Res B) (g : B -> Res C) :
  rbind (rbind m f) g = rbind m (fun a => rbind (f a) g).
Proof. by destruct m. Qed.

Lemma bind_Ok_inv {A B} (m : Res A) (k : A -> Res B) b :
  rbind m k = Ok b -> exists a, m = Ok a /\ k a = Ok b.
Proof. destruct m; cbn; [eauto | discriminate]. Qed.

(** Takes apart a successful sequence of binds in the hypotheses. *)
Ltac inv_ok :=
  repeat match goal with
  | H : rbind _ _ = Ok _ |- _ =>
      let a := fresh "a" in let E := fresh "E" in
      apply bind_Ok_inv in H as (a & E & H)
  | H : Ok _ = Ok _ |- _ => injection H as H; try subst
  | H : Fail _ = Ok _ |- _ => discriminate H
  | H : c_assert ?b = Ok ?u |- _ => destruct b eqn:?; [destruct u; clear H | discriminate H]
  end.

(** *** State and faults

    Code that works on global variables: a function of the state before it that
    gives its result and the state after it, or a fault. *)
Definition stt (S A : Type) : Type := S -> Res (A * S).

Section State.
Context {S : Type}.

Definition st_ret {A} (a : A) : stt S A := fun s => Ok (a, s).
Definition st_bind {A B} (m : stt S A) (k : A -> stt S B) : stt S B := fun s =>
  match m s with Ok (a, s') => k a s' | Fail f => Fail f end.
Definition st_lift {A} (r : Res A) : stt S A := fun s =>
  match r with Ok a => Ok (a, s) | Fail f => Fail f end.
Definition st_get : stt S S := fun s => Ok (s, s).
Definition st_put (s : S) : stt S unit := fun _ => Ok (tt, s).
Definition st_mod (f : S -> S) : stt S unit := fun s => Ok (tt, f s).

Lemma st_bind_inv {A B} (m : stt S A) (k : A -> stt S B) s r :
  st_bind m k s = Ok r -> exists a s1, m s = Ok (a, s1) /\ k a s1 = Ok r.
Proof. unfold st_bind. destruct (m s) as [[a s1]|]; [eauto | discriminate]. Qed.

Lemma st_bind_ok {A B} (m : stt S A) (k : A -> stt S B) s a s1 :
  m s = Ok (a, s1) -> st_bind m k s = k a s1.
Proof. intros E. unfold st_bind. by rewrite E. Qed.

Lemma st_bind_assoc {A B C} (m : stt S A) (f : A -> stt S B) (g : B -> stt S C) s :
  st_bind (st_bind m f) g s = st_bind m (fun a => st_bind (f a) g) s.
Proof. unfold st_bind. by destruct (m s) as [[a s1]|]. Qed.
End State.

Declare Scope st_scope.
Delimit Scope st_scope with st.
Notation "'let*' x := m 'in' k" := (st_bind m (fun x => k))
  (at level 10, x binder, m at level 200, k at level 200) : st_scope.
Notation "m ;;; k" := (st_bind m (fun _ => k))
  (at level 100, k at level 200, right associativity) : st_scope.

(** *** Traces

    Code whose effects on the outside matter up to the point where it stops: the
    effects so far, and a result or a fault. *)
Definition traced (E A : Type) : Type := list E * Res A.

Section Traced.
Context {E : Type}.

Definition tr_ret {A} (a : A) : traced E A := ([], Ok a).
Definition tr_act (e : E) : traced E unit := ([e], Ok tt).
Definition tr_acts (l : list E) : traced E unit := (l, Ok tt).
Definition tr_lift {A} (r : Res A) : traced E A := ([], r).
Definition tr_bind {A B} (m : traced E A) (k : A -> traced E B) : traced E B :=
  match m.2 with Ok a => (m.1 ++ (k a).1, (k a).2) | Fail f => (m.1, Fail f) end.

Lemma tr_bind_ok {A B} (m : traced E A) (k : A -> traced E B) t a :
  m = (t, Ok a) -> tr_bind m k = (t ++ (k a).1, (k a).2).
Proof. by intros ->. Qed.

(** What holds of all effects of both parts holds of all effects. *)
Lemma tr_bind_Forall {A B} (P : E -> Prop) (m : traced E A) (k : A -> traced E B) :
  Forall P m.1 -> (forall a, m.2 = Ok a -> Forall P (k a).1) -> Forall P (tr_bind m k).1.
Proof.
  intros H1 H2. unfold tr_bind. destruct m as [t [a|f]]; cbn in *; [|done].
  apply Forall_app. split; [done|]. by apply H2.
Qed.

Lemma tr_bind_inv {A B} (m : traced E A) (k : A -> traced E B) e :
  e ∈ (tr_bind m k).1 -> e ∈ m.1 \/ exists a, m.2 = Ok a /\ e ∈ (k a).1.
Proof.
  unfold tr_bind. destruct m as [t [a|f]]; cbn [fst snd]; [|by left].
  rewrite elem_of_app. intros [?|?]; [by left|]. right. by exists a.
Qed.
End Traced.

Declare Scope tr_scope.
Delimit Scope tr_scope with tr.
Notation "'let~' x := m 'in' k" := (tr_bind m (fun x => k))
  (at level 10, x binder, m at level 200, k at level 200) : tr_scope.
Notation "'let~' ' x := m 'in' k" := (tr_bind m (fun x => k))
  (at level 10, x pattern, m at level 200, k at level 200) : tr_scope.
Notation "m ~> k" := (tr_bind m (fun _ => k))
  (at level 100, k at level 200, right associativity) : tr_scope.

(** ** Machine integers *)

Definition u8 (z : Z) : Z := z mod 2 ^ 8.
Definition u16 (z : Z) : Z := z mod 2 ^ 16.
Definition u32 (z : Z) : Z := z mod 2 ^ 32.
Definition u64 (z : Z) : Z := z mod 2 ^ 64.

(** Two's complement reading of a 32-bit value, as a conversion to [int] does. *)
Definition s32 (z : Z) : Z := (z + 2 ^ 31) mod 2 ^ 32 - 2 ^ 31.

Definition INT_MAX : Z := 2 ^ 31 - 1.
Definition INT_MIN : Z := - 2 ^ 31.

(** The value of a signed [int] expression: out of range is undefined. *)
Definition int_val (z : Z) : Res Z :=
  if (INT_MIN <=? z) && (z <=? INT_MAX) then Ok z else Fail Undefined.

Lemma int_val_ok z : INT_MIN <= z <= INT_MAX -> int_val z = Ok z.
Proof.
  intros [H1 H2]. unfold int_val. by rewrite (proj2 (Z.leb_le _ _) H1), (proj2 (Z.leb_le _ _) H2).
Qed.

Lemma int_val_inv z y : int_val z = Ok y -> y = z /\ INT_MIN <= z <= INT_MAX.
Proof.
  unfold int_val. destruct (Z.leb_spec INT_MIN z), (Z.leb_spec z INT_MAX); cbn; try done.
  intros [= <-]. done.
Qed.

Definition INT64_MAX : Z := 2 ^ 63 - 1.
Definition INT64_MIN : Z := - 2 ^ 63.

(** The value of an [int64_t] expression. *)
Definition int64_val (z : Z) : Res Z :=
  if (INT64_MIN <=? z) && (z <=? INT64_MAX) then Ok z else Fail Undefined.

Lemma int64_val_ok z : INT64_MIN <= z <= INT64_MAX -> int64_val z = Ok z.
Proof.
  intros [H1 H2]. unfold int64_val. by rewrite (proj2 (Z.leb_le _ _) H1), (proj2 (Z.leb_le _ _) H2).
Qed.

(** [1 << n] computed in [int]. *)
Definition shl_int (x n : Z) : Res Z :=
  if (0 <=? n) && (n <? 32) then int_val (Z.shiftl x n) else Fail Undefined.

(** Truncating division and remainder of C. *)
Definition c_div (a b : Z) : Z := Z.quot a b.
Definition c_rem (a b : Z) : Z := Z.rem a b.

(** Bitwise complement of a 32-bit unsigned value. *)
Definition not32 (x : Z) : Z := Z.lxor x (2 ^ 32 - 1).

Definition is_u32 (z : Z) : Prop := 0 <= z < 2 ^ 32.
Definition is_u64 (z : Z) : Prop := 0 <= z < 2 ^ 64.
Definition is_byte (z : Z) : Prop := 0 <= z < 256.

Lemma u32_is_u32 z : is_u32 (u32 z).
Proof. unfold is_u32, u32. apply Z.mod_pos_bound. lia. Qed.

Lemma u32_id z : is_u32 z -> u32 z = z.
Proof. unfold is_u32, u32. intros. by apply Z.mod_small. Qed.

Lemma u64_id z : is_u64 z -> u64 z = z.
Proof. unfold is_u64, u64. intros. by apply Z.mod_small. Qed.

Lemma u32_land z : u32 z = Z.land z (Z.ones 32).
Proof. unfold u32. rewrite Z.land_ones; lia. Qed.

(** *** Bit-level facts *)

Lemma testbit_high n z i : 0 <= z < 2 ^ n -> 0 <= n <= i -> Z.testbit z i = false.
Proof.
  intros Hz Hi. rewrite <-(Z.mod_small z (2 ^ n)) by done.
  apply Z.mod_pow2_bits_high. lia.
Qed.

Lemma bits_bound n z :
  0 <= n -> (forall i, n <= i -> Z.testbit z i = false) -> 0 <= z < 2 ^ n.
Proof.
  intros Hn H. replace z with (z mod 2 ^ n); [apply Z.mod_pos_bound; lia|].
  apply Z.bits_inj'. intros i Hi. destruct (Z.lt_ge_cases i n).
  - apply Z.mod_pow2_bits_low; lia.
  - rewrite Z.mod_pow2_bits_high by lia. symmetry. auto.
Qed.

Lemma lor_bound n a b : 0 <= n -> 0 <= a < 2 ^ n -> 0 <= b < 2 ^ n -> 0 <= Z.lor a b < 2 ^ n.
Proof.
  intros Hn Ha Hb. apply bits_bound; [done|]. intros i Hi.
  by rewrite Z.lor_spec, !(testbit_high n) by (done || lia).
Qed.

Lemma lxor_bound n a b : 0 <= n -> 0 <= a < 2 ^ n -> 0 <= b < 2 ^ n -> 0 <= Z.lxor a b < 2 ^ n.
Proof.
  intros Hn Ha Hb. apply bits_bound; [done|]. intros i Hi.
  by rewrite Z.lxor_spec, !(testbit_high n) by (done || lia).
Qed.

Lemma land_bound_l n a b : 0 <= n -> 0 <= a < 2 ^ n -> 0 <= Z.land a b < 2 ^ n.
Proof.
  intros Hn Ha. apply bits_bound; [done|]. intros i Hi.
  by rewrite Z.land_spec, (testbit_high n) by (done || lia).
Qed.

Lemma land_bound_r n a b : 0 <= n -> 0 <= b < 2 ^ n -> 0 <= Z.land a b < 2 ^ n.
Proof. intros. rewrite Z.land_comm. by apply land_bound_l. Qed.

Lemma shiftr_bound n a k : 0 <= n -> 0 <= k -> 0 <= a < 2 ^ n -> 0 <= Z.shiftr a k < 2 ^ n.
Proof.
  intros Hn Hk Ha. apply bits_bound; [done|]. intros i Hi.
  rewrite Z.shiftr_spec by lia. apply (testbit_high n); [done | lia].
Qed.

Create HintDb machine.
#[export] Hint Resolve u32_is_u32 : machine.
#[export] Hint Extern 1 (0 <= _ <= _) => lia : machine.
#[export] Hint Extern 1 (0 <= _) => lia : machine.

(** ** Arrays

    A C array is a list; an access outside it is a fault. *)

Definition aget {A} (l : list A) (i : Z) : Res A :=
  if 0 <=? i then match l !! Z.to_nat i with Some x => Ok x | None => Fail OutOfBounds end
  else Fail OutOfBounds.

Definition aset {A} (l : list A) (i : Z) (x : A) : Res (list A) :=
  if (0 <=? i) && (i <? Z.of_nat (length l)) then Ok (<[Z.to_nat i := x]> l)
  else Fail OutOfBounds.

Lemma aget_Ok {A} (l : list A) i x :
  0 <= i -> l !! Z.to_nat i = Some x -> aget l i = Ok x.
Proof. intros ? E. unfold aget. by rewrite (proj2 (Z.leb_le _ _)), E. Qed.

Lemma aget_lt {A} (l : list A) i :
  0 <= i < Z.of_nat (length l) -> exists x, l !! Z.to_nat i = Some x /\ aget l i = Ok x.
Proof.
  intros H. destruct (lookup_lt_is_Some_2 l (Z.to_nat i)) as [x E]; [lia|].
  exists x. split; [done|]. apply aget_Ok; [lia | done].
Qed.

Lemma aget_inv {A} (l : list A) i x :
  aget l i = Ok x -> 0 <= i < Z.of_nat (length l) /\ l !! Z.to_nat i = Some x.
Proof.
  unfold aget. destruct (Z.leb_spec 0 i); [|done].
  destruct (l !! Z.to_nat i) eqn:E; [|done]. intros [= ->]. split; [|done].
  apply lookup_lt_Some in E. lia.
Qed.

Lemma aset_lt {A} (l : list A) i x :
  0 <= i < Z.of_nat (length l) -> aset l i x = Ok (<[Z.to_nat i := x]> l).
Proof.
  intros H. unfold aset.
  by rewrite (proj2 (Z.leb_le _ _)), (proj2 (Z.ltb_lt _ _)) by lia.
Qed.

Lemma aset_inv {A} (l l' : list A) i x :
  aset l i x = Ok l' -> 0 <= i < Z.of_nat (length l) /\ l' = <[Z.to_nat i := x]> l.
Proof.
  unfold aset. destruct (Z.leb_spec 0 i); cbn; [|done].
  destruct (Z.ltb_spec i (Z.of_nat (length l))); [|done]. intros [= <-]. done.
Qed.

(** ** Loops *)

(** [for (i = 0; i < n; i++) body] with a body that can fault. *)
Fixpoint for_loop {S} (n : nat) (body : nat -> S -> Res S) (s : S) : Res S :=
  match n with
  | O => Ok s
  | S m => s' ← for_loop m body s; body m s'
  end.

Lemma for_loop_ext {S} n (f g : nat -> S -> Res S) s : (forall i s, f i s = g i s) -> for_loop n f s = for_loop n g s.
Proof. intros H. induction n as [|n IH]; [done|]. cbn. rewrite IH. by destruct (for_loop n g s); cbn. Qed.

(** A loop keeps an invariant that mentions the counter. *)
Lemma for_loop_inv {S} (I : nat -> S -> Prop) n body (s : S) :
  I O s ->
  (forall i s, (i < n)%nat -> I i s -> exists s', body i s = Ok s' /\ I (Datatypes.S i) s') ->
  exists s', for_loop n body s = Ok s' /\ I n s'.
Proof.
  intros H0 Hstep. induction n as [|n IH]; cbn [for_loop]; [eauto|].
  destruct IH as (s1 & E & HI); [intros; apply Hstep; [lia|done]|].
  rewrite E. cbn. destruct (Hstep n s1) as (s2 & E2 & HI2); [lia|done|]. eauto.
Qed.

(** ** Strings

    A C string is the list of its characters, without the terminator. *)
Abbreviation cstr := (list ascii).

Definition cs (s : string) : cstr := String.list_ascii_of_string s.

Definition chr_eqb (a b : ascii) : bool := bool_decide (a = b).

Definition cstr_eqb (a b : cstr) : bool := bool_decide (a = b).

Lemma chr_eqb_eq a b : chr_eqb a b = true <-> a = b.
Proof. unfold chr_eqb. by rewrite bool_decide_eq_true. Qed.

Lemma cstr_eqb_eq a b : cstr_eqb a b = true <-> a = b.
Proof. unfold cstr_eqb. by rewrite bool_decide_eq_true. Qed.

Definition nul : ascii := "000"%char.
Definition nl : ascii := "010"%char.
Definition cr : ascii := "013"%char.
Definition tab : ascii := "009"%char.
Definition sp : ascii := " "%char.

(** Number of a character as [unsigned char]. *)
Definition byte_of (c : ascii) : Z := Z.of_nat (nat_of_ascii c).

Lemma byte_of_range c : is_byte (byte_of c).
Proof. unfold is_byte, byte_of. pose proof (nat_ascii_bounded c). lia. Qed.

(** ** Byte encodings of integers *)

Fixpoint le_split (n : nat) (w : Z) : list Z :=
  match n with
  | O => []
  | S m => w mod 256 :: le_split m (w / 256)
  end.

Definition be_split (n : nat) (w : Z) : list Z := reverse (le_split n w).

Fixpoint le_join (l : list Z) : Z :=
  match l with
  | [] => 0
  | b :: t => b + 256 * le_join t
  end.

Definition be_join (l : list Z) : Z := le_join (reverse l).

Lemma length_le_split n w : length (le_split n w) = n.
Proof. revert w. induction n; intros; cbn; [done|]. by rewrite IHn. Qed.

Lemma length_be_split n w : length (be_split n w) = n.
Proof. unfold be_split. by rewrite length_reverse, length_le_split. Qed.

Lemma le_split_bytes n w : Forall is_byte (le_split n w).
Proof.
  revert w. induction n; intros; cbn; constructor; [|done].
  unfold is_byte. apply Z.mod_pos_bound. lia.
Qed.

Lemma le_join_split n w : le_join (le_split n w) = w mod 2 ^ (8 * Z.of_nat n).
Proof.
  revert w. induction n as [|n IH]; intros w; cbn [le_split le_join].
  { by rewrite Z.mod_1_r. }
  rewrite IH. replace (8 * Z.of_nat (S n)) with (8 + 8 * Z.of_nat n) by lia.
  rewrite Z.pow_add_r by lia. change (2 ^ 8) with 256.
  rewrite Z.rem_mul_r by lia. lia.
Qed.

Lemma le_join_bound l : Forall is_byte l -> 0 <= le_join l < 2 ^ (8 * Z.of_nat (length l)).
Proof.
  induction 1 as [|b t Hb _ IH]; cbn [le_join length]; [done|].
  replace (8 * Z.of_nat (S (length t))) with (8 + 8 * Z.of_nat (length t)) by lia.
  rewrite Z.pow_add_r by lia. change (2 ^ 8) with 256. unfold is_byte in Hb. lia.
Qed.

Lemma le_split_join l : Forall is_byte l -> le_split (length l) (le_join l) = l.
Proof.
  induction 1 as [|b t Hb _ IH]; cbn [le_split le_join length]; [done|].
  unfold is_byte in Hb. f_equal.
  - rewrite (Z.mul_comm 256), Z.mod_add by lia. rewrite Z.mod_small; lia.
  - etrans; [|exact IH]. f_equal. rewrite (Z.mul_comm 256), Z.div_add by lia.
    rewrite Z.div_small; lia.
Qed.

Lemma be_join_bound l : Forall is_byte l -> 0 <= be_join l < 2 ^ (8 * Z.of_nat (length l)).
Proof.
  intros H. unfold be_join. rewrite <-(length_reverse l).
  apply le_join_bound. by apply Forall_reverse.
Qed.

Lemma be_split_join l : Forall is_byte l -> be_split (length l) (be_join l) = l.
Proof.
  intros H. unfold be_split, be_join. rewrite <-(length_reverse l).
  rewrite le_split_join by (by apply Forall_reverse). apply reverse_involutive.
Qed.

Lemma be_join_split n w : be_join (be_split n w) = w mod 2 ^ (8 * Z.of_nat n).
Proof. unfold be_split, be_join. rewrite reverse_involutive. apply le_join_split. Qed.

(** The bytes of an [n]-byte integer in the memory of a machine; [le] tells
    whether the machine is little-endian. *)
Definition store (le : bool) (n : nat) (w : Z) : list Z := if le then le_split n w else be_split n w.
Definition load (le : bool) (l : list Z) : Z := if le then le_join l else be_join l.

Lemma load_store le n w : load le (store le n w) = w mod 2 ^ (8 * Z.of_nat n).
Proof. destruct le; [apply le_join_split | apply be_join_split]. Qed.

Lemma be_split_bytes n w : Forall is_byte (be_split n w).
Proof. apply Forall_reverse, le_split_bytes. Qed.

Lemma store_bytes le n w : Forall is_byte (store le n w).
Proof. destruct le; [apply le_split_bytes | apply be_split_bytes]. Qed.

Lemma store_load le n b : Forall is_byte b -> length b = n -> store le n (load le b) = b.
Proof. intros Hb <-. destruct le; [by apply le_split_join | by apply be_split_join]. Qed.

(** [memcpy(dst + off, src, length src)] on the bytes of one object. *)
Definition memcpy_at {A} (dst : list A) (off : nat) (src : list A) : list A :=
  take off dst ++ src ++ drop (off + length src) dst.

Lemma length_memcpy_at {A} (dst src : list A) off :
  (off + length src <= length dst)%nat -> length (memcpy_at dst off src) = length dst.
Proof. intros. unfold memcpy_at. rewrite !length_app, length_take, length_drop. lia. Qed.

(** Two left folds over [seq] agree when their steps agree on an invariant. *)
Lemma foldl_seq_ext {A} (I : nat -> A -> Prop) (f g : A -> nat -> A) a n k :
  I k a ->
  (forall j x, (k <= j < k + n)%nat -> I j x -> f x j = g x j /\ I (S j) (f x j)) ->
  foldl f a (seq k n) = foldl g a (seq k n) /\ I (k + n)%nat (foldl f a (seq k n)).
Proof.
  revert a k. induction n as [|n IH]; intros a k H0 Hstep; cbn.
  { by rewrite Nat.add_0_r. }
  destruct (Hstep k a) as [E HI]; [lia|done|].
  destruct (IH (f a k) (S k)) as [E1 E2]; [done | intros; apply Hstep; [lia|done]|].
  rewrite <-E. split; [done|]. by rewrite Nat.add_succ_r.
Qed.

Lemma lookup_total_Forall {A} `{!Inhabited A} (P : A -> Prop) (l : list A) i :
  Forall P l -> (i < length l)%nat -> P (l !!! i).
Proof. intros H Hi. rewrite Forall_lookup in H. eapply H. by apply list_lookup_lookup_total_lt. Qed.

(** ** Sums over a list *)

Definition sumZ {A} (f : A -> Z) (l : list A) : Z := foldr (fun a z => f a + z) 0 l.

Definition countZ {A} (f : A -> bool) (l : list A) : Z := sumZ (fun a => if f a then 1 else 0) l.

Lemma sumZ_app {A} (f : A -> Z) l k : sumZ f (l ++ k) = sumZ f l + sumZ f k.
Proof. unfold sumZ. induction l as [|a l IH]; cbn [foldr app]; [done|]. rewrite IH. lia. Qed.

Lemma sumZ_bind {A B} (f : B -> Z) (g : A -> list B) l : sumZ f (l ≫= g) = sumZ (fun a => sumZ f (g a)) l.
Proof.
  induction l as [|a l IH]; [done|]. change ((a :: l) ≫= g) with (g a ++ (l ≫= g)).
  rewrite sumZ_app, IH. done.
Qed.

Lemma sumZ_ext {A} (f g : A -> Z) l : (forall a, f a = g a) -> sumZ f l = sumZ g l.
Proof. intros H. unfold sumZ. induction l as [|a l IH]; cbn [foldr]; [done|]. by rewrite H, IH. Qed.

#[export] Instance sumZ_perm {A} (f : A -> Z) : Proper ((≡ₚ) ==> eq) (sumZ f).
Proof.
  intros l k H. unfold sumZ. induction H as [|x l k _ IH|x y l|l k j _ IH1 _ IH2]; cbn [foldr];
    [done | by rewrite IH | lia | by rewrite IH1].
Qed.

Lemma sum_insert {A} (f : A -> nat) (l : list A) i x y :
  l !! i = Some x -> (sum_list_with f (<[i := y]> l) + f x = sum_list_with f l + f y)%nat.
Proof.
  revert i. induction l as [|z l IH]; intros [|i] H; simpl in *; simplify_eq; [lia|]. specialize (IH _ H). lia.
Qed.

Lemma sum_zero {A} (f : A -> nat) (l : list A) : Forall (fun x => f x = 0%nat) l -> sum_list_with f l = 0%nat.
Proof. induction 1 as [|x l Hx _ IH]; cbn; [done|]. by rewrite Hx, IH. Qed.

(** ** Interleavings

    The threads are sequences of steps; a run of the program takes the next
    step of some thread until none has a step left. *)
Inductive interleaving {A} : list (list A) -> list A -> Prop :=
| il_done ts : Forall (eq []) ts -> interleaving ts []
| il_step pre a t post tr :
    interleaving (pre ++ t :: post) tr -> interleaving (pre ++ (a :: t) :: post) (a :: tr).

Lemma interleaving_perm {A} (ts : list (list A)) tr : interleaving ts tr -> concat ts ≡ₚ tr.
Proof.
  induction 1 as [ts H|pre a t post tr _ IH].
  - induction H as [|t ts <- _ IH]; [done | exact IH].
  - rewrite <-IH, !concat_app. cbn [concat app]. symmetry. apply Permutation_middle.
Qed.

(** ** Finite systems

    A system given by the successors of its states: a list of states that holds
    the first one and is closed under steps holds all that can be reached. *)
Section Reach.
Context {S : Type} `{!EqDecision S} (succs : S -> list S).

Definition closed_under (l : list S) : bool := forallb (fun s => forallb (fun t => bool_decide (t ∈ l)) (succs s)) l.

(** All states that can be reached within [fuel] rounds. *)
Fixpoint explore (fuel : nat) (todo seen : list S) : list S :=
  match fuel with
  | O => seen
  | Datatypes.S fuel =>
      let new := list_difference (remove_dups (todo ≫= succs)) seen in
      match new with [] => seen | _ => explore fuel new (seen ++ new) end
  end.

Lemma closed_reach l s t :
  closed_under l = true -> s ∈ l -> rtc (fun a b => b ∈ succs a) s t -> t ∈ l.
Proof.
  intros Hc Hs Hr. induction Hr as [|a b c Hab _ IH]; [done|]. apply IH.
  unfold closed_under in Hc. rewrite forallb_forall in Hc. pose proof (Hc a ltac:(by apply list_elem_of_In)) as Ha.
  rewrite forallb_forall in Ha. specialize (Ha b ltac:(by apply list_elem_of_In)). by apply bool_decide_eq_true in Ha.
Qed.

(** What a test finds in all of these states holds in all that can be reached. *)
Lemma reach_check (P : S -> bool) fuel s t :
  let l := explore fuel [s] [s] in
  closed_under l && bool_decide (s ∈ l) && forallb P l = true -> rtc (fun a b => b ∈ succs a) s t -> P t = true.
Proof.
  intros l H Hr. apply andb_true_iff in H as [H HP]. apply andb_true_iff in H as [Hc Hs].
  rewrite forallb_forall in HP. apply HP, list_elem_of_In. eapply closed_reach; [exact Hc | by apply bool_decide_eq_true in Hs | done].
Qed.
End Reach.
