(* ===== verification/Counter.v ===== *)
(** Generic counters ([counter.c], [counter.h]).

    A counter is an object of the heap; the global array [counters] holds a
    pointer to every counter ever made and a list of free counters keeps the
    released ones for the next [counter_create].  Counter objects have the
    addresses of the model's allocator, so that the array, the free list and
    the clients share them.

    Every function takes the locks it needs and gives them back before it
    returns, in one order, and never calls out with one held: a call is one
    step of the model.

    [counters_refine] shows that to clients that use a counter between its
    creation and its release the module is a finite map from identifiers to
    values. *)
From S2P Require Import Prelude.
#[local] Open Scope st_scope.

(** ** Data *)

Record counter_t := Counter {
  value : Z;
  id : Z;
  name : option cstr;
  description : option cstr;
  publish : bool;
  active : bool }.

(** An element of the array: [calloc] clears it, [realloc] does not. *)
Inductive slot := Null | Garbage | Slot (p : nat).

Record state := State {
  numcounters : Z;
  counterspace : Z;
  counters : list slot;
  freecounters : list nat;       (* the nodes of the list, first to last *)
  objects : gmap nat counter_t;
  fresh : nat }.                 (* addresses not below it are free *)

Definition state0 : state := State 0 1 [] [] ∅ 0.

Definition set_counters (s : state) t : state :=
  State (numcounters s) (counterspace s) t (freecounters s) (objects s) (fresh s).
Definition set_free (s : state) l : state :=
  State (numcounters s) (counterspace s) (counters s) l (objects s) (fresh s).
Definition set_object (s : state) p c : state :=
  State (numcounters s) (counterspace s) (counters s) (freecounters s) (<[p := c]> (objects s)) (fresh s).
Definition set_value (c : counter_t) v : counter_t :=
  Counter v (id c) (name c) (description c) (publish c) (active c).

Definition object (p : nat) : stt state counter_t :=
  let* s := st_get in
  st_lift (match objects s !! p with Some c => Ok c | None => Fail OutOfBounds end).

(** ** Operations *)

Definition counter_realloc : stt state unit :=
  let* s := st_get in
  let space := if counterspace s =? 0 then 1 else counterspace s in
  let* twice := st_lift (int_val (space * 2)) in
  let size := Z.to_nat twice in
  st_put (State (numcounters s) twice
    (take size (counters s) ++ replicate (size - length (counters s)) Garbage)
    (freecounters s) (objects s) (fresh s)).

Definition counterbyid (cid : Z) : stt state (option nat) :=
  let* s := st_get in
  let* x := st_lift (aget (counters s) cid) in
  match x with
  | Null => st_ret None
  | Garbage => st_lift (Fail Undefined)
  | Slot p => st_ret (Some p)
  end.

Definition check_freelist : stt state (option nat) :=
  let* s := st_get in
  match freecounters s with
  | p :: next => st_put (set_free s next) ;;; st_ret (Some p)
  | [] => st_ret None
  end.

(** [Malloc] and [memset] of a counter. *)
Definition new_counter (c : counter_t) : stt state nat :=
  let* s := st_get in
  st_put (State (numcounters s) (counterspace s) (counters s) (freecounters s)
    (<[fresh s := c]> (objects s)) (S (fresh s))) ;;;
  st_ret (fresh s).

Definition counter_create (name description : option cstr) : stt state Z :=
  let* s := st_get in
  (if numcounters s =? 0
   then st_put (set_counters s (replicate (Z.to_nat (counterspace s)) Null)) else st_ret tt) ;;;
  let* free := check_freelist in
  let* '(i, p) :=
    match free with
    | Some p => let* c := object p in st_ret (id c, p)
    | None =>
        let* s := st_get in
        let i := numcounters s in
        let* n := st_lift (int_val (i + 1)) in
        st_put (State n (counterspace s) (counters s) (freecounters s) (objects s) (fresh s)) ;;;
        let* p := new_counter (Counter 0 i None None false false) in
        (if counterspace s <? n then counter_realloc else st_ret tt) ;;;
        let* s := st_get in
        let* t := st_lift (aset (counters s) i (Slot p)) in
        st_put (set_counters s t) ;;;
        st_ret (i, p)
    end in
  let* c := object p in
  st_mod (fun s => set_object s p (Counter (value c) (id c) name description (publish c) true)) ;;;
  st_ret i.

(** There is no test for a null pointer: [counter->mx] is read through it. *)
Definition counter_release (cid : Z) : stt state Z :=
  let* q := counterbyid cid in
  let* p := st_lift (match q with Some p => Ok p | None => Fail OutOfBounds end) in
  let* c := object p in
  st_mod (fun s => set_object s p (Counter 0 (id c) None None false false)) ;;;
  st_mod (fun s => set_free s (p :: freecounters s)) ;;;
  st_ret 0.

Definition counter_read (cid : Z) : stt state Z :=
  let* q := counterbyid cid in
  match q with
  | None => st_ret 0
  | Some p => let* c := object p in st_ret (value c)
  end.

Definition counter_increment (cid : Z) : stt state Z :=
  let* q := counterbyid cid in
  match q with
  | None => st_ret 0
  | Some p =>
      let* c := object p in
      let* v := st_lift (int64_val (value c + 1)) in
      st_mod (fun s => set_object s p (set_value c v)) ;;;
      st_ret v
  end.

Definition counter_decrement (cid : Z) : stt state Z :=
  let* q := counterbyid cid in
  match q with
  | None => st_ret 0
  | Some p =>
      let* c := object p in
      let* v := st_lift (int64_val (value c - 1)) in
      st_mod (fun s => set_object s p (set_value c v)) ;;;
      st_ret v
  end.

Definition counter_restart (cid : Z) : stt state Z :=
  let* q := counterbyid cid in
  match q with
  | None => st_ret 0
  | Some p =>
      let* c := object p in
      st_mod (fun s => set_object s p (set_value c 0)) ;;;
      st_ret (value c)
  end.

Definition counter_set (cid newvalue : Z) : stt state Z :=
  let* q := counterbyid cid in
  match q with
  | None => st_ret 0
  | Some p =>
      let* c := object p in
      st_mod (fun s => set_object s p (set_value c newvalue)) ;;;
      st_ret (value c)
  end.

(** ** Calls of clients *)

Inductive op :=
| Create (name description : option cstr)
| Release (cid : Z)
| Read (cid : Z)
| Increment (cid : Z)
| Decrement (cid : Z)
| Restart (cid : Z)
| SetTo (cid newvalue : Z).

Definition call (o : op) : stt state Z :=
  match o with
  | Create n d => counter_create n d
  | Release i => counter_release i
  | Read i => counter_read i
  | Increment i => counter_increment i
  | Decrement i => counter_decrement i
  | Restart i => counter_restart i
  | SetTo i v => counter_set i v
  end.

(** A client decides on its next call from the results of the calls before it,
    the last first; [n] calls and their results. *)
Fixpoint run (n : nat) (client : list Z -> op) : stt state (list Z) :=
  match n with
  | O => st_ret []
  | S n =>
      let* results := run n client in
      let* r := call (client results) in
      st_ret (r :: results)
  end.

(** ** The abstract specification: a map from the identifiers in use to values *)

Inductive spec_step (m : gmap Z Z) : op -> Z -> gmap Z Z -> Prop :=
| spec_create n d i : m !! i = None -> spec_step m (Create n d) i (<[i := 0]> m)
| spec_release i : spec_step m (Release i) 0 (delete i m)
| spec_read i v : m !! i = Some v -> spec_step m (Read i) v m
| spec_increment i v : m !! i = Some v -> spec_step m (Increment i) (v + 1) (<[i := v + 1]> m)
| spec_decrement i v : m !! i = Some v -> spec_step m (Decrement i) (v - 1) (<[i := v - 1]> m)
| spec_restart i v : m !! i = Some v -> spec_step m (Restart i) v (<[i := 0]> m)
| spec_set i v w : m !! i = Some v -> spec_step m (SetTo i w) v (<[i := w]> m).

Inductive spec_run (client : list Z -> op) : list Z -> gmap Z Z -> Prop :=
| spec_start : spec_run client [] ∅
| spec_more rs m r m' :
    spec_run client rs m -> spec_step m (client rs) r m' -> spec_run client (r :: rs) m'.

(** A call that is within the contract: the counter is in use and the value
    stays an [int64_t]. *)
Definition legal (m : gmap Z Z) (o : op) : Prop :=
  match o with
  | Create _ _ => True
  | Release i | Read i | Restart i | SetTo i _ => is_Some (m !! i)
  | Increment i => exists v, m !! i = Some v /\ INT64_MIN <= v + 1 <= INT64_MAX
  | Decrement i => exists v, m !! i = Some v /\ INT64_MIN <= v - 1 <= INT64_MAX
  end.

(** ** The invariant that relates the module's state to the abstract map *)

Record rel (s : state) (m : gmap Z Z) : Prop := {
  rel_num : 0 <= numcounters s <= counterspace s;
  rel_space : 1 <= counterspace s;
  rel_len : numcounters s = 0 \/ Z.of_nat (length (counters s)) = counterspace s;
  rel_obj p c : objects s !! p = Some c ->
    (p < fresh s)%nat /\ 0 <= id c < numcounters s /\
    counters s !! Z.to_nat (id c) = Some (Slot p);
  rel_nodup : NoDup (freecounters s);
  rel_free p : p ∈ freecounters s -> exists c, objects s !! p = Some c /\ value c = 0;
  rel_map i v : m !! i = Some v <->
    exists p c, objects s !! p = Some c /\ id c = i /\ value c = v /\ p ∉ freecounters s }.

Lemma rel0 : rel state0 ∅.
Proof.
  split; cbn; try (intros; set_solver || lia). apply NoDup_nil_2.
Qed.

(** Two counters have two identifiers. *)
Lemma rel_inj s m p q c d :
  rel s m -> objects s !! p = Some c -> objects s !! q = Some d -> id c = id d -> p = q.
Proof.
  intros R Hp Hq E. destruct (rel_obj _ _ R _ _ Hp) as (_ & _ & H1).
  destruct (rel_obj _ _ R _ _ Hq) as (_ & _ & H2). rewrite E, H2 in H1. congruence.
Qed.

(** A counter in use is found by its identifier. *)
Lemma rel_lookup s m i v :
  rel s m -> m !! i = Some v ->
  exists p c, objects s !! p = Some c /\ id c = i /\ value c = v /\ p ∉ freecounters s /\
    counterbyid i s = Ok (Some p, s).
Proof.
  intros R Hi. apply (rel_map _ _ R) in Hi as (p & c & Hp & Hid & Hv & Hf).
  exists p, c. repeat split; [done..|].
  destruct (rel_obj _ _ R _ _ Hp) as (_ & Hb & Ht). rewrite Hid in *.
  unfold counterbyid, st_bind, st_get, st_lift. by rewrite (aget_Ok _ _ (Slot p)) by (done || lia).
Qed.

Lemma object_ok s p c : objects s !! p = Some c -> object p s = Ok (c, s).
Proof. intros E. unfold object, st_bind, st_get, st_lift. by rewrite E. Qed.

(** Writing a counter in use updates the map at its identifier. *)
Lemma rel_write s m p c d :
  rel s m -> objects s !! p = Some c -> id d = id c -> p ∉ freecounters s ->
  rel (set_object s p d) (<[id c := value d]> m).
Proof.
  intros R Hp Hid Hf. split; cbn; try apply R.
  - intros q e Hq. apply lookup_insert_Some in Hq as [[<- <-]|[_ Hq]]; [|by apply R].
    rewrite Hid. by apply R.
  - intros q Hq. rewrite lookup_insert_ne by congruence. by apply R.
  - intros i v. rewrite lookup_insert_Some, (rel_map _ _ R). split.
    + intros [[<- <-]|[Hne (q & e & Hq & He & ? & ?)]].
      * exists p, d. rewrite lookup_insert_eq. auto.
      * exists q, e. rewrite lookup_insert_ne by congruence. auto.
    + intros (q & e & Hq & He & Hv & Hqf).
      apply lookup_insert_Some in Hq as [[<- <-]|[Hne Hq]]; [left; split; congruence|].
      right. split; [|eauto 10]. intros E. apply Hne. eapply (rel_inj s m p q); eauto; congruence.
Qed.

(** Releasing takes the identifier out of the map. *)
Lemma rel_release s m p c d :
  rel s m -> objects s !! p = Some c -> id d = id c -> value d = 0 -> p ∉ freecounters s ->
  rel (set_free (set_object s p d) (p :: freecounters s)) (delete (id c) m).
Proof.
  intros R Hp Hid Hv Hf. pose proof (rel_write _ _ _ _ d R Hp Hid Hf) as W.
  split; cbn; try apply W.
  - apply NoDup_cons_2; [done | apply R].
  - intros q. rewrite elem_of_cons. intros [->|Hq]; [exists d; by rewrite lookup_insert_eq | by apply W].
  - intros i v. rewrite lookup_delete_Some. split.
    + intros [Hne Hi].
      assert (<[id c := value d]> m !! i = Some v) as Hi' by (by rewrite lookup_insert_ne).
      apply (rel_map _ _ W) in Hi' as (q & e & Hq & He & ? & Hqf). exists q, e.
      repeat split; try done. apply not_elem_of_cons. split; [|done].
      intros ->. cbn in Hq. rewrite lookup_insert_eq in Hq. congruence.
    + intros (q & e & Hq & He & Hev & Hqf). apply not_elem_of_cons in Hqf as [Hne Hqf].
      assert (<[id c := value d]> m !! i = Some v) as Hi by (apply (rel_map _ _ W); eauto 10).
      apply lookup_insert_Some in Hi as [[Hic _]|[? Hi]]; [|done].
      exfalso. apply Hne. rewrite lookup_insert_ne in Hq by done.
      eapply (rel_inj s m q p); eauto. congruence.
Qed.

(** Taking a free counter into use enters its identifier with the value 0. *)
Lemma rel_reuse s m p l :
  rel s m -> freecounters s = p :: l ->
  exists c, objects s !! p = Some c /\ value c = 0 /\ m !! id c = None /\
    rel (set_free s l) (<[id c := 0]> m).
Proof.
  intros R El. pose proof (rel_nodup _ _ R) as Hnd. rewrite El in Hnd.
  apply NoDup_cons in Hnd as [Hpl Hnd].
  destruct (rel_free _ _ R p) as (c & Hc & Hv); [rewrite El; left|].
  assert (m !! id c = None) as Hn.
  { destruct (m !! id c) as [v|] eqn:E; [|done]. apply (rel_map _ _ R) in E as (q & e & Hq & He & _ & Hf).
    destruct Hf. rewrite (rel_inj _ _ q p _ _ R Hq Hc He), El. left. }
  exists c. split_and!; try done. split; cbn; try apply R; try done.
  - intros q Hq. apply R. rewrite El. by right.
  - intros i v. rewrite lookup_insert_Some. split.
    + intros [[<- <-]|[Hne Hm]]; [eauto 10|].
      apply (rel_map _ _ R) in Hm as (q & e & Hq & He & ? & Hf). exists q, e.
      split_and!; try done. intros ?. apply Hf. rewrite El. by right.
    + intros (q & e & Hq & He & Hve & Hqf).
      destruct (decide (q = p)) as [->|Hne]; [left; split; congruence|]. right. split.
      * intros E. apply Hne. eapply (rel_inj s m q p); eauto; congruence.
      * apply (rel_map _ _ R). exists q, e. split_and!; try done. rewrite El. set_solver.
Qed.

(** The array after the growth that a new counter may need. *)
Lemma realloc_room s :
  0 <= numcounters s -> 1 <= counterspace s -> counterspace s * 2 <= INT_MAX ->
  Z.of_nat (length (counters s)) = counterspace s ->
  exists t, counter_realloc s = Ok (tt, State (numcounters s) (counterspace s * 2) t
      (freecounters s) (objects s) (fresh s)) /\
    Z.of_nat (length t) = counterspace s * 2 /\
    forall i x, counters s !! i = Some x -> t !! i = Some x.
Proof.
  intros Hn Hs Hm Hl. unfold counter_realloc, st_bind, st_get, st_lift, st_put.
  destruct (Z.eqb_spec (counterspace s) 0); [lia|].
  rewrite int_val_ok by (unfold INT_MIN, INT_MAX in *; lia). eexists. split; [done|].
  rewrite take_ge by lia. split; [rewrite length_app, length_replicate; lia|].
  intros i x E. by apply lookup_app_l_Some.
Qed.

(** A new counter at the end of the array. *)
Lemma rel_new s m t sp c :
  rel s m -> id c = numcounters s -> value c = 0 ->
  numcounters s + 1 <= sp -> Z.of_nat (length t) = sp ->
  (forall i x, (i < Z.to_nat (numcounters s))%nat -> counters s !! i = Some x -> t !! i = Some x) ->
  m !! numcounters s = None /\
  rel (State (numcounters s + 1) sp (<[Z.to_nat (numcounters s) := Slot (fresh s)]> t) (freecounters s)
      (<[fresh s := c]> (objects s)) (S (fresh s))) (<[numcounters s := 0]> m).
Proof.
  intros R Hid Hv Hsp Hlen Ht. pose proof (rel_num _ _ R).
  assert (forall p d, objects s !! p = Some d -> p <> fresh s /\ id d <> numcounters s) as Hold.
  { intros p d Hd. apply (rel_obj _ _ R) in Hd as (? & ? & _). lia. }
  split.
  { destruct (m !! numcounters s) eqn:E; [|done].
    apply (rel_map _ _ R) in E as (p & d & Hd & ? & _). by destruct (Hold _ _ Hd). }
  split; cbn; try lia.
  - rewrite length_insert. auto.
  - intros p d [[<- <-]|[Hne Hd]]%lookup_insert_Some.
    + rewrite Hid, list_lookup_insert_eq by lia. split; [lia | split; [lia | done]].
    + destruct (rel_obj _ _ R _ _ Hd) as (? & ? & Hs). split; [lia | split; [lia|]].
      rewrite list_lookup_insert_ne by lia. apply Ht; [lia | done].
  - apply R.
  - intros p Hp. destruct (rel_free _ _ R _ Hp) as (d & Hd & ?).
    exists d. by rewrite lookup_insert_ne by (symmetry; apply (Hold _ _ Hd)).
  - intros i v. rewrite lookup_insert_Some, (rel_map _ _ R). split.
    + intros [[<- <-]|[Hne (p & d & Hd & ?)]].
      * exists (fresh s), c. rewrite lookup_insert_eq. split_and!; try done.
        intros Hf. apply (rel_free _ _ R) in Hf as (d & Hd & _). by apply Hold in Hd as [? _].
      * exists p, d. by rewrite lookup_insert_ne by (symmetry; apply (Hold _ _ Hd)).
    + intros (p & d & Hd & Hi & Hvd & Hf).
      apply lookup_insert_Some in Hd as [[<- <-]|[Hne Hd]]; [left; split; congruence|].
      right. split; [rewrite <-Hi; symmetry; apply (Hold _ _ Hd) | eauto 10].
Qed.

(** The first call allocates the array. *)
Lemma rel_calloc s m :
  rel s m ->
  exists s1,
    (if numcounters s =? 0
     then st_put (set_counters s (replicate (Z.to_nat (counterspace s)) Null)) else st_ret tt) s
      = Ok (tt, s1) /\
    rel s1 m /\ Z.of_nat (length (counters s1)) = counterspace s1 /\ numcounters s1 = numcounters s.
Proof.
  intros R. destruct (Z.eqb_spec (numcounters s) 0) as [E|E].
  - eexists. split; [done|].
    assert (Z.of_nat (length (replicate (Z.to_nat (counterspace s)) Null)) = counterspace s).
    { rewrite length_replicate. pose proof (rel_space _ _ R). lia. }
    split_and!; [|done..]. split; cbn; try apply R; [by right|].
    intros p c Hc. apply (rel_obj _ _ R) in Hc as (_ & ? & _). lia.
  - exists s. split_and!; try done. by destruct (rel_len _ _ R).
Qed.

Lemma take_free s p l :
  freecounters s = p :: l -> check_freelist s = Ok (Some p, set_free s l).
Proof. intros E. unfold check_freelist, st_bind, st_get, st_put, st_ret. by rewrite E. Qed.

Lemma create_ok s m n d :
  rel s m -> 2 * numcounters s + 2 <= INT_MAX ->
  exists i s', counter_create n d s = Ok (i, s') /\ m !! i = None /\
    rel s' (<[i := 0]> m) /\ numcounters s' <= numcounters s + 1.
Proof.
  intros R Hb. destruct (rel_calloc _ _ R) as (s1 & Hs1 & R1 & Hlen & Hnum).
  pose proof (rel_num _ _ R1). pose proof (rel_space _ _ R1).
  unfold counter_create. rewrite (st_bind_ok st_get _ _ s s) by done. cbv beta.
  rewrite (st_bind_ok _ _ _ _ _ Hs1).
  destruct (freecounters s1) as [|p l] eqn:Ef.
  - rewrite (st_bind_ok _ _ _ None s1) by (unfold check_freelist, st_bind, st_get; by rewrite Ef).
    set (s2 := State (numcounters s1 + 1) (counterspace s1) (counters s1) (freecounters s1)
      (<[fresh s1 := Counter 0 (numcounters s1) None None false false]> (objects s1)) (S (fresh s1))).
    assert (exists t sp, (if counterspace s1 <? numcounters s1 + 1 then counter_realloc else st_ret tt) s2
        = Ok (tt, State (numcounters s1 + 1) sp t (freecounters s1) (objects s2) (S (fresh s1))) /\
      numcounters s1 + 1 <= sp /\ Z.of_nat (length t) = sp /\
      forall i x, counters s1 !! i = Some x -> t !! i = Some x) as (t & sp & E2 & Hsp & Hlt & Ht).
    { destruct (Z.ltb_spec (counterspace s1) (numcounters s1 + 1)).
      - destruct (realloc_room s2) as (t & ? & ? & ?); cbn; try lia. exists t. eexists. split; [done|].
        cbn in *. split; [lia | done].
      - exists (counters s1), (counterspace s1). done. }
    set (c := Counter 0 (numcounters s1) n d false true).
    destruct (rel_new s1 m t sp c R1 eq_refl eq_refl Hsp Hlt) as [Hn R2]; [eauto|].
    exists (numcounters s1). eexists. split_and!; [|exact Hn|exact R2|cbn; lia].
    unfold new_counter, st_bind, st_get, st_lift, st_put.
    rewrite int_val_ok by (unfold INT_MIN, INT_MAX in *; lia).
    cbn [st_ret numcounters counterspace counters freecounters objects fresh]. unfold st_ret in *.
    fold s2. rewrite E2. cbn [counters]. rewrite aset_lt by lia.
    unfold object, st_bind, st_get, st_lift, st_mod, set_counters, set_object, s2. cbn.
    rewrite lookup_insert_eq. cbn. by rewrite insert_insert_eq.
  - destruct (rel_reuse _ _ _ _ R1 Ef) as (c & Hc & Hv & Hn & R2).
    set (e := Counter (value c) (id c) n d (publish c) true).
    exists (id c), (set_object (set_free s1 l) p e). split_and!; [|done| |cbn; lia].
    + rewrite (st_bind_ok _ _ _ _ _ (take_free _ _ _ Ef)).
      unfold st_bind, st_ret, st_mod. rewrite !(object_ok (set_free s1 l) p c) by done. done.
    + rewrite <-(insert_insert_eq m (id c) 0 0). replace 0 with (value e) at 1 by done.
      pose proof (rel_nodup _ _ R1) as Hnd. rewrite Ef in Hnd. apply NoDup_cons in Hnd as [? _].
      by apply (rel_write _ _ p c).
Qed.

(** Calls on a counter in use: the pointer is found and the object is there. *)
Ltac use_counter R H :=
  let p := fresh "p" in let c := fresh "c" in
  destruct (rel_lookup _ _ _ _ R H) as (p & c & Hp & Hid & Hv & Hf & Hby);
  unfold call, counter_release, counter_read, counter_increment, counter_decrement,
    counter_restart, counter_set;
  rewrite (st_bind_ok _ _ _ _ _ Hby);
  unfold st_bind, st_ret, st_mod, st_lift; rewrite ?(object_ok _ _ _ Hp).

(** The simulation: a legal call returns, with a result the specification allows. *)
Lemma call_refines s m o :
  rel s m -> legal m o -> 2 * numcounters s + 2 <= INT_MAX ->
  exists r s' m', call o s = Ok (r, s') /\ spec_step m o r m' /\ rel s' m' /\
    numcounters s' <= numcounters s + 1.
Proof.
  intros R L Hb. destruct o as [n d|i|i|i|i|i|i w]; cbn [legal] in L.
  - destruct (create_ok s m n d R Hb) as (i & s' & E & Hn & R' & ?).
    exists i, s', (<[i := 0]> m). split_and!; try done. by constructor.
  - destruct L as [v L]. use_counter R L. eexists _, _, (delete i m). split; [done|].
    split_and!; [constructor | | cbn; lia]. rewrite <-Hid. by apply (rel_release s m p c).
  - destruct L as [v L]. use_counter R L. exists v, s, m. rewrite Hv. split_and!; try done; [by constructor | lia].
  - destruct L as (v & L & Hr). use_counter R L. rewrite Hv, int64_val_ok by done.
    eexists _, _, (<[i := v + 1]> m). split; [done|]. split_and!; [by constructor | | cbn; lia].
    rewrite <-Hid. by apply (rel_write s m p c (set_value c (v + 1))).
  - destruct L as (v & L & Hr). use_counter R L. rewrite Hv, int64_val_ok by done.
    eexists _, _, (<[i := v - 1]> m). split; [done|]. split_and!; [by constructor | | cbn; lia].
    rewrite <-Hid. by apply (rel_write s m p c (set_value c (v - 1))).
  - destruct L as [v L]. use_counter R L. eexists _, _, (<[i := 0]> m). rewrite Hv. split; [done|].
    split_and!; [by constructor | | cbn; lia]. rewrite <-Hid. by apply (rel_write s m p c (set_value c 0)).
  - destruct L as [v L]. use_counter R L. eexists _, _, (<[i := w]> m). rewrite Hv. split; [done|].
    split_and!; [by constructor | | cbn; lia]. rewrite <-Hid. by apply (rel_write s m p c (set_value c w)).
Qed.

(** C13: the counters implement a finite map.  For every client whose calls are
    within the contract in every behaviour the specification allows (it names
    only counters it has created and not released, and values stay within
    [int64_t]), any number of calls below 2^30 - 1 runs without a fault, in
    whatever order it creates, releases, changes and reads counters, and the
    results are those of the abstract map: an identifier that is not in use and
    has the value 0 for a creation, the values of the map for the rest. *)
Theorem counters_refine (client : list Z -> op) (n : nat) :
  (forall rs m, spec_run client rs m -> legal m (client rs)) ->
  Z.of_nat n < 2 ^ 30 - 1 ->
  exists rs s m, run n client state0 = Ok (rs, s) /\ spec_run client rs m /\ rel s m.
Proof.
  intros L Hn.
  enough (exists rs s m, run n client state0 = Ok (rs, s) /\ spec_run client rs m /\ rel s m /\
    numcounters s <= Z.of_nat n) as (rs & s & m & ? & ? & ? & _) by eauto 10.
  induction n as [|n IH].
  { exists [], state0, ∅. split_and!; [done | constructor | apply rel0 | done]. }
  destruct IH as (rs & s & m & E & Hs & R & Hk); [lia|].
  destruct (call_refines s m (client rs) R) as (r & s' & m' & Ec & Hst & R' & Hk');
    [by apply L | unfold INT_MAX; lia|].
  exists (r :: rs), s', m'. split_and!; [|by econstructor|done|lia].
  cbn [run]. rewrite (st_bind_ok _ _ _ _ _ E), (st_bind_ok _ _ _ _ _ Ec). done.
Qed.

(** A client that makes a counter, counts it up, releases it, makes another one
    and reads that for ever. *)
Definition demo_client (rs : list Z) : op :=
  match length rs, rs with
  | 1%nat, [i] => Increment i
  | 2%nat, [_; i] => Release i
  | S (S (S (S k))), _ => Read (rs !!! k)
  | _, _ => Create (Some (cs "demo")) None
  end.

Definition demo_inv (rs : list Z) (m : gmap Z Z) : Prop :=
  match length rs, rs with
  | 1%nat, [i] => m = {[i := 0]}
  | 2%nat, [_; i] => m = {[i := 1]}
  | S (S (S (S k))), _ => m !! (rs !!! k) = Some 0
  | _, _ => m = ∅
  end.

Lemma demo_inv_run rs m : spec_run demo_client rs m -> demo_inv rs m.
Proof.
  induction 1 as [|rs m r m' _ IH Hs]; [done|].
  destruct rs as [|a [|b [|c [|d rs]]]]; cbn in *; subst.
  - inversion Hs; subst. done.
  - inversion Hs as [| | |i v Hv| | |]; subst. rewrite lookup_singleton_eq in Hv. injection Hv as <-.
    by rewrite insert_singleton_eq.
  - inversion Hs; subst. by rewrite delete_singleton_eq.
  - inversion Hs; subst. by rewrite lookup_insert_eq.
  - inversion Hs; subst. done.
Qed.

Lemma demo_legal rs m : spec_run demo_client rs m -> legal m (demo_client rs).
Proof.
  intros H%demo_inv_run. destruct rs as [|a [|b [|c [|d rs]]]]; cbn in *; subst; try done.
  { exists 0. rewrite lookup_singleton_eq. split; [done | unfold INT64_MIN, INT64_MAX; lia]. }
  rewrite lookup_singleton_eq. eauto.
Qed.

Lemma counters_refine_witness :
  (exists rs s m, run 6 demo_client state0 = Ok (rs, s) /\ spec_run demo_client rs m /\ rel s m) /\
  match run 6 demo_client state0 with Ok (rs, _) => rs = [0; 0; 0; 0; 1; 0] | Fail _ => False end.
Proof. split; [apply (counters_refine demo_client 6); [exact demo_legal | lia] | vm_compute; reflexivity]. Defined.
