(* ===== verification/Print.v ===== *)
(** Printing: the conversions of [printf] the code uses, and chains of
    [snprintf] into one buffer.

    A buffer is the list of its bytes.  [emit] is the step that [dnsbl_stats]
    ([stats.c]) and [querylogwrite] ([worker.c]) repeat: an [snprintf] at the
    pointer with the size left, after which pointer and size move by the length
    the text has, whether or not it was cut.  Past the end of the buffer the
    size has become negative, and as a [size_t] it is huge. *)
From Stdlib Require Import SpecFloat.
From stdpp Require Import pretty.
From S2P Require Import Prelude.

(** ** Conversions *)

(** [%llu], [%d] *)
Definition udec (z : Z) : cstr := cs (pretty (Z.to_N z)).
Definition sdec (z : Z) : cstr := cs (pretty z).

(** [%x] of a 32-bit value *)
Definition hex_digit (d : Z) : ascii := ascii_of_nat (Z.to_nat (if d <? 10 then 48 + d else 87 + d)).

Fixpoint hex_digits (fuel : nat) (z : Z) (acc : cstr) : cstr :=
  match fuel with
  | O => acc
  | S fuel =>
      let acc := hex_digit (z mod 16) :: acc in
      if z / 16 =? 0 then acc else hex_digits fuel (z / 16) acc
  end.

Definition hex (z : Z) : cstr := hex_digits 8 (u32 z) [].

(** *** Reading hexadecimal digits back *)

Definition hex_char (c : ascii) : Z := let n := Z.of_nat (nat_of_ascii c) in if n <? 58 then n - 48 else n - 87.
Definition hex_val (l : cstr) (acc : Z) : Z := foldl (fun z c => 16 * z + hex_char c) acc l.

(** The characters [%x] prints. *)
Definition hex_printed (c : ascii) : Prop := c = hex_digit (hex_char c) /\ c <> Ascii.zero /\ 0 <= hex_char c < 16.

Lemma hex_char_digit d : 0 <= d < 16 -> hex_char (hex_digit d) = d /\ hex_printed (hex_digit d).
Proof.
  assert (Forall (fun d => hex_char (hex_digit d) = d /\ hex_printed (hex_digit d)) (seqZ 0 16)) as H
    by (repeat constructor; vm_compute; discriminate).
  rewrite Forall_forall in H. intros Hd. apply H, elem_of_seqZ. lia.
Qed.

Lemma hex_digits_spec fuel k z acc :
  0 <= z < 16 ^ Z.of_nat k -> (0 < k <= fuel)%nat ->
  exists l, hex_digits fuel z acc = l ++ acc /\ (0 < length l <= k)%nat /\
    (forall a, hex_val l a = a * 16 ^ Z.of_nat (length l) + z) /\ Forall hex_printed l.
Proof.
  revert k z acc. induction fuel as [|fuel IH]; intros k z acc Hz Hk; [lia|]. cbn [hex_digits].
  pose proof (Z.mod_pos_bound z 16 ltac:(lia)) as Hm. pose proof (Z.div_mod z 16 ltac:(lia)) as Hdm.
  destruct (hex_char_digit (z mod 16) Hm) as [Hc Hp]. destruct (Z.eqb_spec (z / 16) 0) as [E|E].
  - exists [hex_digit (z mod 16)]. split_and!; [done | cbn; lia | cbn; lia | | by constructor]. intros a. cbn. rewrite Hc. lia.
  - assert (0 <= z / 16) by (apply Z.div_pos; lia).
    destruct k as [|[|k]]; [lia | change (16 ^ Z.of_nat 1) with 16 in Hz; lia |].
    destruct (IH (S k) (z / 16) (hex_digit (z mod 16) :: acc)) as (l & -> & Hl & Hv & Hln); [|lia|].
    { split; [done|]. apply Z.div_lt_upper_bound; [lia|]. rewrite <-Z.pow_succ_r by lia. rewrite <-Nat2Z.inj_succ. apply Hz. }
    exists (l ++ [hex_digit (z mod 16)]).
    split_and!; [by rewrite <-app_assoc | rewrite length_app; cbn; lia | rewrite length_app; cbn; lia | | apply Forall_app; split; [done | by constructor]].
    intros a. unfold hex_val in *. rewrite foldl_app, Hv. cbn [foldl]. rewrite Hc, length_app. cbn [length].
    rewrite Nat2Z.inj_add, Z.pow_add_r by lia. change (16 ^ Z.of_nat 1) with 16. lia.
Qed.

(** *** Formats *)

Inductive arg := AInt (z : Z) | AHex (z : Z) | AStr (s : cstr).

(** [vsnprintf] without the limit: a conversion for which there is no argument,
    or not of its type, and one that is not among these, are undefined. *)
Fixpoint vformat (fmt : cstr) (args : list arg) : Res cstr :=
  match fmt with
  | [] => Ok []
  | c :: fmt =>
      if negb (chr_eqb c "%") then r ← vformat fmt args; Ok (c :: r)
      else
        match fmt with
        | [] => Fail Undefined
        | d :: fmt =>
            if chr_eqb d "%" then r ← vformat fmt args; Ok (d :: r)
            else
              match args with
              | AInt z :: args => if chr_eqb d "d" then r ← vformat fmt args; Ok (sdec z ++ r) else Fail Undefined
              | AHex z :: args => if chr_eqb d "x" then r ← vformat fmt args; Ok (hex z ++ r) else Fail Undefined
              | AStr s :: args => if chr_eqb d "s" then r ← vformat fmt args; Ok (s ++ r) else Fail Undefined
              | [] => Fail Undefined
              end
        end
  end.

Definition no_conv (s : cstr) : Prop := "%"%char ∉ s.

Lemma vformat_no_conv s args : no_conv s -> vformat s args = Ok s.
Proof.
  induction s as [|c s IH]; intros H; [done|]. apply not_elem_of_cons in H as [Hc Hs]. cbn.
  unfold chr_eqb. rewrite bool_decide_eq_false_2 by congruence. cbn. by rewrite IH.
Qed.

Lemma vformat_app s fmt args : no_conv s -> vformat (s ++ fmt) args = rbind (vformat fmt args) (fun r => Ok (s ++ r)).
Proof.
  induction s as [|c s IH]; intros H; [cbn; by destruct (vformat fmt args)|].
  apply not_elem_of_cons in H as [Hc Hs]. cbn.
  unfold chr_eqb. rewrite bool_decide_eq_false_2 by congruence. cbn. rewrite IH by done. by destruct (vformat fmt args).
Qed.

(** [a / b] rounded to the nearest integer, ties to even. *)
Definition round_div (a b : Z) : Z :=
  let q := a / b in
  match 2 * (a mod b) ?= b with Lt => q | Gt => q + 1 | Eq => if Z.even q then q else q + 1 end.

(** [%.<p>lf]; [nan] is what the C library prints for a NaN. *)
Definition fixed (nan : cstr) (p : nat) (x : spec_float) : cstr :=
  let digits (neg : bool) (scaled : Z) :=
    let frac := udec (scaled mod 10 ^ Z.of_nat p) in
    (if neg then cs "-" else []) ++ udec (scaled / 10 ^ Z.of_nat p) ++ cs "." ++
      replicate (p - length frac) "0"%char ++ frac in
  match x with
  | S754_zero neg => digits neg 0
  | S754_infinity neg => (if neg then cs "-" else []) ++ cs "inf"
  | S754_nan => nan
  | S754_finite neg m e =>
      digits neg (if 0 <=? e then Zpos m * 2 ^ e * 10 ^ Z.of_nat p
                  else round_div (Zpos m * 10 ^ Z.of_nat p) (2 ^ (- e)))
  end.

(** ** Buffers *)

Definition NUL : ascii := Ascii.zero.

(** The bytes of the buffer, where [tick] points to, and the [size] variable. *)
Record out := Out { o_buf : list ascii; o_tick : Z; o_size : Z }.

(** [snprintf(buf + off, n, ...)] where the format gives [text]; [n] is
    converted to [size_t]. *)
Definition snprintf_at (buf : list ascii) (off n : Z) (text : cstr) : Res (list ascii) :=
  let n := u64 n in
  let w := if n =? 0 then []
    else (if Z.of_nat (length text) <? n then text else take (Z.to_nat (n - 1)) text) ++ [NUL] in
  if Z.of_nat (length w) =? 0 then Ok buf
  else if off + Z.of_nat (length w) <=? Z.of_nat (length buf)
  then Ok (memcpy_at buf (Z.to_nat off) w) else Fail OutOfBounds.

(** [count = snprintf(tick, size, ...); tick += count; size = size - count;] A
    pointer more than one past the end of the buffer is undefined. *)
Definition emit (text : cstr) (o : out) : Res out :=
  let count := Z.of_nat (length text) in
  buf ← snprintf_at (o_buf o) (o_tick o) (o_size o) text;
  tick ← (if o_tick o + count <=? Z.of_nat (length (o_buf o)) then Ok (o_tick o + count) else Fail Undefined);
  size ← int_val (o_size o - count);
  Ok (Out buf tick size).

(** The string a buffer holds from a position on. *)
Fixpoint c_string (l : list ascii) : cstr :=
  match l with [] => [] | c :: l => if chr_eqb c NUL then [] else c :: c_string l end.

Lemma c_string_app t rest : NUL ∉ t -> c_string (t ++ NUL :: rest) = t.
Proof.
  induction t as [|c t IH]; [done|]. intros [H1 H2]%not_elem_of_cons. cbn.
  destruct (chr_eqb c NUL) eqn:E; [apply chr_eqb_eq in E; congruence|]. by rewrite IH.
Qed.

Fixpoint emits (ts : list cstr) (o : out) : Res out :=
  match ts with [] => Ok o | t :: ts => o ← emit t o; emits ts o end.

Lemma emits_app ts us o : emits (ts ++ us) o = rbind (emits ts o) (emits us).
Proof.
  revert o. induction ts as [|t ts IH]; intros o; [done|]. cbn. destruct (emit t o); [apply IH | done].
Qed.

(** ** What a chain does *)

Lemma length_snprintf_at b off n t b' :
  0 <= off -> snprintf_at b off n t = Ok b' -> length b' = length b.
Proof.
  unfold snprintf_at. intros Hn H. repeat case_match; inv_ok; try done;
    (apply length_memcpy_at; match goal with E : (_ <=? _) = true |- _ => apply Z.leb_le in E; lia end).
Qed.

(** A text that fits, with its terminator, in the size and in the buffer. *)
Lemma snprintf_at_fits b off n t :
  0 <= off -> Z.of_nat (length t) < n <= INT_MAX -> off + n <= Z.of_nat (length b) ->
  snprintf_at b off n t = Ok (memcpy_at b (Z.to_nat off) (t ++ [NUL])).
Proof.
  intros Ht Hs Hb. unfold snprintf_at, INT_MAX in *. rewrite u64_id by (unfold is_u64; lia).
  destruct (Z.eqb_spec n 0); [lia|].
  destruct (Z.ltb_spec (Z.of_nat (length t)) n); [|lia].
  rewrite length_app; cbn [length].
  destruct (Z.eqb_spec (Z.of_nat (length t + 1)) 0); [lia|].
  by destruct (Z.leb_spec (off + Z.of_nat (length t + 1)) (Z.of_nat (length b))); [|lia].
Qed.

(** Pointer and size always move by the length of the text, and the pointer
    stays within the buffer. *)
Lemma emit_moves t o o' :
  0 <= o_tick o -> emit t o = Ok o' ->
  o_tick o' = o_tick o + Z.of_nat (length t) /\ o_size o' = o_size o - Z.of_nat (length t) /\
  length (o_buf o') = length (o_buf o) /\ o_tick o' <= Z.of_nat (length (o_buf o')).
Proof.
  unfold emit. intros Hn H. inv_ok.
  destruct (Z.leb_spec (o_tick o + Z.of_nat (length t)) (Z.of_nat (length (o_buf o)))); inv_ok.
  match goal with E : int_val _ = _ |- _ => apply int_val_inv in E as [-> _] end.
  cbn [o_tick o_size o_buf].
  match goal with E : snprintf_at _ _ _ _ = _ |- _ => apply length_snprintf_at in E as ->; done end.
Qed.

Lemma emit_fits t o :
  0 <= o_tick o -> Z.of_nat (length t) < o_size o <= INT_MAX ->
  o_tick o + o_size o <= Z.of_nat (length (o_buf o)) ->
  emit t o = Ok (Out (memcpy_at (o_buf o) (Z.to_nat (o_tick o)) (t ++ [NUL]))
                  (o_tick o + Z.of_nat (length t)) (o_size o - Z.of_nat (length t))).
Proof.
  intros Ht Hs Hb. unfold emit. rewrite snprintf_at_fits by done. cbn [rbind]. unfold INT_MAX in *.
  destruct (Z.leb_spec (o_tick o + Z.of_nat (length t)) (Z.of_nat (length (o_buf o)))); [|lia].
  cbn [rbind]. by rewrite int_val_ok by (unfold INT_MIN, INT_MAX; lia).
Qed.

(** The second text overwrites the terminator of the first. *)
Lemma memcpy_chain {A} (b t u : list A) (z y : A) n :
  (n + length (t ++ u) + 1 <= length b)%nat ->
  memcpy_at (memcpy_at b n (t ++ [z])) (n + length t) (u ++ [y]) = memcpy_at b n ((t ++ u) ++ [y]).
Proof.
  intros H. rewrite length_app in H.
  assert (memcpy_at b n (t ++ [z]) = (take n b ++ t) ++ z :: drop (n + length t + 1) b) as ->.
  { unfold memcpy_at. rewrite length_app, <-!(assoc_L (++)). cbn. by rewrite Nat.add_assoc. }
  unfold memcpy_at at 1. rewrite take_app_length' by (rewrite length_app, length_take; lia).
  rewrite drop_app_ge by (rewrite !length_app, length_take; cbn; lia).
  rewrite !length_app, length_take. cbn [length].
  replace (n + length t + (length u + 1) - (n `min` length b + length t))%nat with (S (length u)) by lia.
  unfold memcpy_at. cbn [drop]. rewrite drop_drop, !length_app, <-!(assoc_L (++)). cbn [length].
  do 4 f_equal. f_equal. lia.
Qed.

(** A chain whose whole text fits leaves just that text in the buffer. *)
Lemma emits_fit ts o :
  ts <> [] -> 0 <= o_tick o -> Z.of_nat (length (concat ts)) < o_size o <= INT_MAX ->
  o_tick o + o_size o <= Z.of_nat (length (o_buf o)) ->
  emits ts o = Ok (Out (memcpy_at (o_buf o) (Z.to_nat (o_tick o)) (concat ts ++ [NUL]))
                  (o_tick o + Z.of_nat (length (concat ts))) (o_size o - Z.of_nat (length (concat ts)))).
Proof.
  revert o. induction ts as [|t ts IH]; intros o Hne Ht Hs Hb; [done|]. cbn [emits concat] in *.
  rewrite length_app in Hs. rewrite emit_fits by lia. cbn [rbind].
  destruct ts as [|u ts]; [cbn; by rewrite app_nil_r|].
  rewrite IH; cbn [o_tick o_size o_buf]; [|done|lia|lia|].
  - rewrite length_app. f_equal. f_equal; [|lia|lia].
    rewrite Z2Nat.inj_add, Nat2Z.id by lia. apply memcpy_chain. rewrite length_app. lia.
  - rewrite length_memcpy_at; [lia|]. rewrite length_app. cbn [length]. lia.
Qed.

Lemma emits_moves ts o o' :
  0 <= o_tick o -> emits ts o = Ok o' ->
  o_tick o' = o_tick o + Z.of_nat (length (concat ts)) /\
  length (o_buf o') = length (o_buf o) /\
  (o_tick o <= Z.of_nat (length (o_buf o)) -> o_tick o' <= Z.of_nat (length (o_buf o'))).
Proof.
  revert o. induction ts as [|t ts IH]; intros o Hn H; cbn [emits concat] in *.
  { inv_ok. cbn. split; [lia | done]. }
  inv_ok. match goal with E : emit _ _ = _ |- _ => apply emit_moves in E as (E1 & _ & E2 & E3); [|done] end.
  apply IH in H as (H1 & H2 & H3); [|lia]. rewrite length_app. split; [lia|]. split; [congruence|].
  intros _. by apply H3.
Qed.

(** A chain whose text is longer than the room left has no defined behaviour. *)
Lemma emits_overrun ts o :
  0 <= o_tick o <= Z.of_nat (length (o_buf o)) ->
  Z.of_nat (length (o_buf o)) < o_tick o + Z.of_nat (length (concat ts)) ->
  exists f, emits ts o = Fail f.
Proof.
  intros Ht Hb. destruct (emits ts o) as [o'|f] eqn:E; [|eauto].
  apply emits_moves in E as (E1 & E2 & E3); [|lia]. rewrite E2 in E3. lia.
Qed.
