(* ===== verification/Lookup3.v ===== *)
(** The hash function of the DNS cache ([lookup3.c], [lookup3.h]).

    [hashlittle] reads its key in one of three ways, by the alignment of the
    address: 32-bit words, 16-bit words, or bytes.  The memory at the address is
    a function from offsets to bytes: the first reading looks past the end of
    the key, up to the end of the last word, and masks what it should not see.
    [le] tells whether the machine is little-endian; the preprocessor takes the
    word readings on both kinds, as the C library defines [LITTLE_ENDIAN] as
    well as [BIG_ENDIAN].  The variant for VALGRIND is not modelled.

    [hash_spec] is the function on the bytes of the key alone;
    [hashlittle_reads_key_only] shows that on a little-endian machine all three
    readings compute it. *)
From S2P Require Import Prelude.

(** ** Mixing *)

Definition add32 (x y : Z) : Z := u32 (x + y).
Definition sub32 (x y : Z) : Z := u32 (x - y).

Definition rot (x k : Z) : Z := Z.lor (u32 (Z.shiftl x k)) (Z.shiftr x (32 - k)).

Definition mix (s : Z * Z * Z) : Z * Z * Z :=
  let '(a, b, c) := s in
  let a := sub32 a c in let a := Z.lxor a (rot c 4) in let c := add32 c b in
  let b := sub32 b a in let b := Z.lxor b (rot a 6) in let a := add32 a c in
  let c := sub32 c b in let c := Z.lxor c (rot b 8) in let b := add32 b a in
  let a := sub32 a c in let a := Z.lxor a (rot c 16) in let c := add32 c b in
  let b := sub32 b a in let b := Z.lxor b (rot a 19) in let a := add32 a c in
  let c := sub32 c b in let c := Z.lxor c (rot b 4) in let b := add32 b a in
  (a, b, c).

(** The macro's third argument is the value. *)
Definition final (s : Z * Z * Z) : Z :=
  let '(a, b, c) := s in
  let c := Z.lxor c b in let c := sub32 c (rot b 14) in
  let a := Z.lxor a c in let a := sub32 a (rot c 11) in
  let b := Z.lxor b a in let b := sub32 b (rot a 25) in
  let c := Z.lxor c b in let c := sub32 c (rot b 16) in
  let a := Z.lxor a c in let a := sub32 a (rot c 4) in
  let b := Z.lxor b a in let b := sub32 b (rot a 14) in
  let c := Z.lxor c b in sub32 c (rot b 24).

(** ** Reading *)

Definition memory : Type := nat -> Z.

Definition advance (m : memory) (n : nat) : memory := fun i => m (n + i)%nat.

Definition k16 (le : bool) (m : memory) (i : nat) : Z := load le [m (2 * i)%nat; m (2 * i + 1)%nat].
Definition k32 (le : bool) (m : memory) (i : nat) : Z :=
  load le [m (4 * i)%nat; m (4 * i + 1)%nat; m (4 * i + 2)%nat; m (4 * i + 3)%nat].

(** [while (length > 12)]: a block is read and mixed in. *)
Fixpoint blocks (read : memory -> Z * Z * Z -> Z * Z * Z) (fuel : nat) (m : memory) (len : nat) (s : Z * Z * Z)
    : memory * nat * (Z * Z * Z) :=
  match fuel with
  | O => (m, len, s)
  | S fuel =>
      if (12 <? len)%nat then blocks read fuel (advance m 12) (len - 12) (mix (read m s)) else (m, len, s)
  end.

(** *** 32-bit words *)

Definition read_words (le : bool) (m : memory) (s : Z * Z * Z) : Z * Z * Z :=
  let '(a, b, c) := s in (add32 a (k32 le m 0), add32 b (k32 le m 1), add32 c (k32 le m 2)).

Definition last_words (le : bool) (m : memory) (len : nat) (s : Z * Z * Z) : Z * Z * Z :=
  let '(a, b, c) := s in
  let k := k32 le m in
  match len with
  | 12 => (add32 a (k 0), add32 b (k 1), add32 c (k 2))
  | 11 => (add32 a (k 0), add32 b (k 1), add32 c (Z.land (k 2) 0xffffff))
  | 10 => (add32 a (k 0), add32 b (k 1), add32 c (Z.land (k 2) 0xffff))
  | 9 => (add32 a (k 0), add32 b (k 1), add32 c (Z.land (k 2) 0xff))
  | 8 => (add32 a (k 0), add32 b (k 1), c)
  | 7 => (add32 a (k 0), add32 b (Z.land (k 1) 0xffffff), c)
  | 6 => (add32 a (k 0), add32 b (Z.land (k 1) 0xffff), c)
  | 5 => (add32 a (k 0), add32 b (Z.land (k 1) 0xff), c)
  | 4 => (add32 a (k 0), b, c)
  | 3 => (add32 a (Z.land (k 0) 0xffffff), b, c)
  | 2 => (add32 a (Z.land (k 0) 0xffff), b, c)
  | 1 => (add32 a (Z.land (k 0) 0xff), b, c)
  | _ => (a, b, c)
  end%nat.

(** *** 16-bit words *)

Definition pair16 (le : bool) (m : memory) (i : nat) : Z := u32 (k16 le m i + Z.shiftl (k16 le m (i + 1)) 16).

Definition read_halves (le : bool) (m : memory) (s : Z * Z * Z) : Z * Z * Z :=
  let '(a, b, c) := s in (add32 a (pair16 le m 0), add32 b (pair16 le m 2), add32 c (pair16 le m 4)).

Definition last_halves (le : bool) (m : memory) (len : nat) (s : Z * Z * Z) : Z * Z * Z :=
  let '(a, b, c) := s in
  let k := k16 le m in
  let p := pair16 le m in
  match len with
  | 12 => (add32 a (p 0), add32 b (p 2), add32 c (p 4))
  | 11 => (add32 a (p 0), add32 b (p 2), add32 (add32 c (Z.shiftl (m 10) 16)) (k 4))
  | 10 => (add32 a (p 0), add32 b (p 2), add32 c (k 4))
  | 9 => (add32 a (p 0), add32 b (p 2), add32 c (m 8))
  | 8 => (add32 a (p 0), add32 b (p 2), c)
  | 7 => (add32 a (p 0), add32 (add32 b (Z.shiftl (m 6) 16)) (k 2), c)
  | 6 => (add32 a (p 0), add32 b (k 2), c)
  | 5 => (add32 a (p 0), add32 b (m 4), c)
  | 4 => (add32 a (p 0), b, c)
  | 3 => (add32 (add32 a (Z.shiftl (m 2) 16)) (k 0), b, c)
  | 2 => (add32 a (k 0), b, c)
  | 1 => (add32 a (m 0), b, c)
  | _ => (a, b, c)
  end%nat.

(** *** Bytes *)

Definition read_bytes (m : memory) (s : Z * Z * Z) : Z * Z * Z :=
  let '(a, b, c) := s in
  let four x i := add32 (add32 (add32 (add32 x (m i)) (Z.shiftl (m (i + 1)%nat) 8)) (Z.shiftl (m (i + 2)%nat) 16))
    (Z.shiftl (m (i + 3)%nat) 24) in
  (four a 0%nat, four b 4%nat, four c 8%nat).

(** The cases fall through from the longest to the shortest. *)
Definition last_bytes (m : memory) (len : nat) (s : Z * Z * Z) : Z * Z * Z :=
  let '(a, b, c) := s in
  let upto n x y := if (n <=? len)%nat then add32 x y else x in
  let c := upto 12%nat c (Z.shiftl (m 11%nat) 24) in
  let c := upto 11%nat c (Z.shiftl (m 10%nat) 16) in
  let c := upto 10%nat c (Z.shiftl (m 9%nat) 8) in
  let c := upto 9%nat c (m 8%nat) in
  let b := upto 8%nat b (Z.shiftl (m 7%nat) 24) in
  let b := upto 7%nat b (Z.shiftl (m 6%nat) 16) in
  let b := upto 6%nat b (Z.shiftl (m 5%nat) 8) in
  let b := upto 5%nat b (m 4%nat) in
  let a := upto 4%nat a (Z.shiftl (m 3%nat) 24) in
  let a := upto 3%nat a (Z.shiftl (m 2%nat) 16) in
  let a := upto 2%nat a (Z.shiftl (m 1%nat) 8) in
  let a := upto 1%nat a (m 0%nat) in
  (a, b, c).

(** *** The function *)

Definition hash_by (read : memory -> Z * Z * Z -> Z * Z * Z) (last : memory -> nat -> Z * Z * Z -> Z * Z * Z)
    (m : memory) (len : nat) (s : Z * Z * Z) : Z :=
  let '(m, len, s) := blocks read len m len s in
  match len with O => s.2 | _ => final (last m len s) end.

(** [addr]: the address of the key. *)
Definition hashlittle (le : bool) (addr : Z) (m : memory) (len : nat) (initval : Z) : Z :=
  let x := u32 (0xdeadbeef + u32 (Z.of_nat len) + initval) in
  if Z.land addr 3 =? 0 then hash_by (read_words le) (last_words le) m len (x, x, x)
  else if Z.land addr 1 =? 0 then hash_by (read_halves le) (last_halves le) m len (x, x, x)
  else hash_by read_bytes last_bytes m len (x, x, x).

Definition HASHSIZE : Z := 2 ^ 10.
Definition HASHMASK : Z := HASHSIZE - 1.

Definition hashfunc (le : bool) (addr : Z) (m : memory) (len : nat) : Z :=
  Z.land (hashlittle le addr m len 0x715517) HASHMASK.

(** ** Specification *)

(** The value of at most twelve bytes, zeros for those that are missing. *)
Definition block_of (l : list Z) : Z * Z * Z :=
  (le_join (take 4 l), le_join (take 4 (drop 4 l)), le_join (take 4 (drop 8 l))).

Definition add3 (s t : Z * Z * Z) : Z * Z * Z :=
  let '(a, b, c) := s in let '(x, y, z) := t in (add32 a x, add32 b y, add32 c z).

Fixpoint spec_blocks (fuel : nat) (key : list Z) (s : Z * Z * Z) : list Z * (Z * Z * Z) :=
  match fuel with
  | O => (key, s)
  | S fuel =>
      if (12 <? length key)%nat then spec_blocks fuel (drop 12 key) (mix (add3 s (block_of (take 12 key)))) else (key, s)
  end.

Definition hash_spec (key : list Z) (initval : Z) : Z :=
  let x := u32 (0xdeadbeef + u32 (Z.of_nat (length key)) + initval) in
  let '(rest, s) := spec_blocks (length key) key (x, x, x) in
  match rest with [] => s.2 | _ :: _ => final (add3 s (block_of rest)) end.

(** The key at an address. *)
Definition key_at (m : memory) (len : nat) : list Z := m <$> seq 0 len.

(** ** Proofs *)

Definition u32s (s : Z * Z * Z) : Prop := is_u32 s.1.1 /\ is_u32 s.1.2 /\ is_u32 s.2.

Definition bytes (m : memory) : Prop := forall i, is_byte (m i).

Lemma add32_add32 a x y : add32 (add32 a x) y = add32 a (x + y).
Proof. unfold add32, u32. rewrite Zplus_mod_idemp_l. f_equal. lia. Qed.

Lemma add32_0 a : is_u32 a -> add32 a 0 = a.
Proof. intros. unfold add32. by rewrite Z.add_0_r, u32_id. Qed.

Lemma add32_u32 a x : add32 a (u32 x) = add32 a x.
Proof. unfold add32, u32. apply Zplus_mod_idemp_r. Qed.

Lemma mask24 b0 b1 b2 b3 : is_byte b0 -> is_byte b1 -> is_byte b2 ->
  Z.land (le_join [b0; b1; b2; b3]) 0xffffff = le_join [b0; b1; b2].
Proof.
  intros. change 0xffffff with (Z.ones 24). rewrite Z.land_ones by lia. cbn [le_join].
  unfold is_byte in *. change (2 ^ 24) with 16777216. Z.to_euclidean_division_equations. lia.
Qed.

Lemma mask16 b0 b1 b2 b3 : is_byte b0 -> is_byte b1 ->
  Z.land (le_join [b0; b1; b2; b3]) 0xffff = le_join [b0; b1].
Proof.
  intros. change 0xffff with (Z.ones 16). rewrite Z.land_ones by lia. cbn [le_join].
  unfold is_byte in *. change (2 ^ 16) with 65536. Z.to_euclidean_division_equations. lia.
Qed.

Lemma mask8 b0 b1 b2 b3 : is_byte b0 -> Z.land (le_join [b0; b1; b2; b3]) 0xff = le_join [b0].
Proof.
  intros. change 0xff with (Z.ones 8). rewrite Z.land_ones by lia. cbn [le_join].
  unfold is_byte in *. change (2 ^ 8) with 256. Z.to_euclidean_division_equations. lia.
Qed.

(** Brings both sides of an equation of sums of shifted bytes to one form. *)
Ltac sums :=
  repeat match goal with |- (_, _) = (_, _) => f_equal end;
  unfold pair16, k16, k32, load; cbn [Nat.mul Nat.add];
  rewrite ?add32_u32, ?add32_add32, ?mask24, ?mask16, ?mask8 by auto;
  try (symmetry; apply add32_0; done); try reflexivity;
  f_equal; rewrite ?Z.shiftl_mul_pow2 by lia; cbn [le_join]; lia.

Lemma read_words_ok m s : read_words true m s = add3 s (block_of (key_at m 12)).
Proof. destruct s as [[a b] c]. reflexivity. Qed.

Lemma read_halves_ok m s : read_halves true m s = add3 s (block_of (key_at m 12)).
Proof. destruct s as [[a b] c]. cbn -[Z.shiftl Z.mul add32 pair16 le_join]. sums. Qed.

Lemma read_bytes_ok m s : read_bytes m s = add3 s (block_of (key_at m 12)).
Proof. destruct s as [[a b] c]. cbn -[Z.shiftl Z.mul add32 le_join]. sums. Qed.

(** The last block, for each of the lengths it can have. *)
Ltac lengths len :=
  destruct len as [|[|[|[|[|[|[|[|[|[|[|[|[|?]]]]]]]]]]]]]; try lia.

Lemma last_words_ok m len s :
  bytes m -> u32s s -> (0 < len <= 12)%nat -> last_words true m len s = add3 s (block_of (key_at m len)).
Proof.
  intros Hm (Ha & Hb & Hc) Hl. destruct s as [[a b] c]. cbn in Ha, Hb, Hc.
  assert (forall i, is_byte (m i)) by done.
  lengths len; cbn -[Z.land Z.mul add32 k32 le_join Nat.mul]; sums.
Qed.

Lemma last_halves_ok m len s :
  bytes m -> u32s s -> (0 < len <= 12)%nat -> last_halves true m len s = add3 s (block_of (key_at m len)).
Proof.
  intros Hm (Ha & Hb & Hc) Hl. destruct s as [[a b] c]. cbn in Ha, Hb, Hc.
  lengths len; cbn -[Z.shiftl Z.mul add32 pair16 k16 le_join Nat.mul]; sums.
Qed.

Lemma last_bytes_ok m len s :
  u32s s -> (0 < len <= 12)%nat -> last_bytes m len s = add3 s (block_of (key_at m len)).
Proof.
  intros (Ha & Hb & Hc) Hl. destruct s as [[a b] c]. cbn in Ha, Hb, Hc.
  lengths len; cbn -[Z.shiftl Z.mul add32 le_join]; sums.
Qed.

Lemma rot_u32 x k : is_u32 x -> 0 <= k <= 32 -> is_u32 (rot x k).
Proof.
  intros Hx Hk. unfold rot. apply (lor_bound 32); [lia | apply u32_is_u32|].
  apply shiftr_bound; [lia | lia | exact Hx].
Qed.

Lemma add32_is_u32 x y : is_u32 (add32 x y).
Proof. apply u32_is_u32. Qed.

Lemma sub32_is_u32 x y : is_u32 (sub32 x y).
Proof. apply u32_is_u32. Qed.

Lemma lxor_u32 x y : is_u32 x -> is_u32 y -> is_u32 (Z.lxor x y).
Proof. intros. apply (lxor_bound 32); [lia | done..]. Qed.

#[local] Hint Resolve add32_is_u32 sub32_is_u32 lxor_u32 rot_u32 : machine.

Lemma add3_u32s s t : u32s (add3 s t).
Proof. destruct s as [[a b] c], t as [[x y] z]. split; [|split]; apply u32_is_u32. Qed.

(** The lines of [mix] are one step, on the three variables in turn, and each
    can be undone. *)
Definition mix_line (k a b c : Z) : Z * Z := (Z.lxor (sub32 a c) (rot c k), add32 c b).

Definition unmix_line (k a b c : Z) : Z * Z := let c := sub32 c b in (add32 (Z.lxor a (rot c k)) c, c).

Lemma mix_lines s :
  mix s =
  let '(a, b, c) := s in
  let '(a, c) := mix_line 4 a b c in
  let '(b, a) := mix_line 6 b c a in
  let '(c, b) := mix_line 8 c a b in
  let '(a, c) := mix_line 16 a b c in
  let '(b, a) := mix_line 19 b c a in
  let '(c, b) := mix_line 4 c a b in
  (a, b, c).
Proof. destruct s as [[a b] c]. reflexivity. Qed.

Definition unmix (s : Z * Z * Z) : Z * Z * Z :=
  let '(a, b, c) := s in
  let '(c, b) := unmix_line 4 c a b in
  let '(b, a) := unmix_line 19 b c a in
  let '(a, c) := unmix_line 16 a b c in
  let '(c, b) := unmix_line 8 c a b in
  let '(b, a) := unmix_line 6 b c a in
  let '(a, c) := unmix_line 4 a b c in
  (a, b, c).

Lemma mix_line_spec k a b c :
  is_u32 a -> is_u32 c -> 0 <= k <= 32 ->
  exists a' c', mix_line k a b c = (a', c') /\ is_u32 a' /\ is_u32 c' /\ unmix_line k a' b c' = (a, c).
Proof.
  intros Ha Hc Hk. do 2 eexists. split; [done|]. split_and!; [auto with machine..|]. unfold unmix_line.
  assert (sub32 (add32 c b) b = c) as ->.
  { unfold sub32, add32, u32. rewrite Zminus_mod_idemp_l. replace (c + b - b) with c by lia. by apply u32_id. }
  rewrite Z.lxor_assoc, Z.lxor_nilpotent, Z.lxor_0_r.
  unfold sub32, add32, u32. rewrite Zplus_mod_idemp_l. replace (a - c + c) with a by lia. f_equal. by apply u32_id.
Qed.

(** The mixing step keeps the width and loses nothing, as its comment says. *)
Lemma mix_reversible s : u32s s -> u32s (mix s) /\ unmix (mix s) = s.
Proof.
  destruct s as [[a b] c]. intros (Ha & Hb & Hc). cbn in Ha, Hb, Hc. rewrite mix_lines.
  destruct (mix_line_spec 4 a b c) as (a1 & c1 & -> & ? & ? & E1); [done || lia..|].
  destruct (mix_line_spec 6 b c1 a1) as (b2 & a2 & -> & ? & ? & E2); [done || lia..|].
  destruct (mix_line_spec 8 c1 a2 b2) as (c3 & b3 & -> & ? & ? & E3); [done || lia..|].
  destruct (mix_line_spec 16 a2 b3 c3) as (a4 & c4 & -> & ? & ? & E4); [done || lia..|].
  destruct (mix_line_spec 19 b3 c4 a4) as (b5 & a5 & -> & ? & ? & E5); [done || lia..|].
  destruct (mix_line_spec 4 c4 a5 b5) as (c6 & b6 & -> & ? & ? & E6); [done || lia..|].
  split; [done|]. unfold unmix. by rewrite E6, E5, E4, E3, E2, E1.
Qed.

Lemma take_key m n len : (n <= len)%nat -> take n (key_at m len) = key_at m n.
Proof. intros. unfold key_at. rewrite <-fmap_take, take_seq. f_equal. f_equal. lia. Qed.

Lemma drop_key m n len : drop n (key_at m len) = key_at (advance m n) (len - n).
Proof.
  unfold key_at, advance. rewrite <-fmap_drop, drop_seq.
  apply list_eq. intros i. rewrite !list_lookup_fmap.
  destruct (decide (i < len - n)%nat).
  - rewrite !lookup_seq_lt by lia. done.
  - rewrite !lookup_seq_ge by lia. done.
Qed.

Lemma length_key m len : length (key_at m len) = len.
Proof. unfold key_at. by rewrite length_fmap, length_seq. Qed.

Lemma blocks_ok read fuel : forall m len s,
  (forall m s, read m s = add3 s (block_of (key_at m 12))) ->
  bytes m -> u32s s -> (len <= fuel)%nat ->
  exists m' len' s', blocks read fuel m len s = (m', len', s') /\
    spec_blocks fuel (key_at m len) s = (key_at m' len', s') /\
    bytes m' /\ u32s s' /\ (len' <= 12)%nat.
Proof.
  induction fuel as [|fuel IH]; intros m len s Hr Hm Hs Hl; cbn [blocks spec_blocks].
  { exists m, len, s. split_and!; try done. lia. }
  rewrite length_key. destruct (Nat.ltb_spec 12 len).
  - rewrite take_key, drop_key, Hr by lia. apply IH; [done | intros i; apply Hm | apply mix_reversible, add3_u32s | lia].
  - exists m, len, s. split_and!; try done.
Qed.

Lemma hash_by_ok read last m len x :
  (forall m s, read m s = add3 s (block_of (key_at m 12))) ->
  (forall m len s, bytes m -> u32s s -> (0 < len <= 12)%nat -> last m len s = add3 s (block_of (key_at m len))) ->
  bytes m -> is_u32 x ->
  hash_by read last m len (x, x, x) =
    let '(rest, s) := spec_blocks len (key_at m len) (x, x, x) in
    match rest with [] => s.2 | _ :: _ => final (add3 s (block_of rest)) end.
Proof.
  intros Hr Hl Hm Hx. unfold hash_by.
  destruct (blocks_ok read len m len (x, x, x) Hr Hm) as (m' & len' & s' & -> & -> & Hm' & Hs' & Hle); [done | lia|].
  destruct len' as [|n]; [done|]. rewrite Hl by (done || lia). done.
Qed.

(** C31: the hash of a key is a function of its bytes.  On a little-endian
    machine the three readings of [hashlittle] (aligned 32-bit words with the
    excess masked off, 16-bit words, single bytes) compute the same value, the
    one of the reference definition on the bytes of the key: it depends neither
    on the address of the key nor on the memory behind it. *)
Theorem hashlittle_reads_key_only (addr : Z) (m : memory) (len : nat) (initval : Z) :
  bytes m -> hashlittle true addr m len initval = hash_spec (key_at m len) initval.
Proof.
  intros Hm. unfold hashlittle, hash_spec. rewrite length_key.
  destruct (Z.land addr 3 =? 0); [|destruct (Z.land addr 1 =? 0)]; apply hash_by_ok; try done;
    try apply u32_is_u32; auto using read_words_ok, read_halves_ok, read_bytes_ok, last_words_ok, last_halves_ok, last_bytes_ok.
Qed.

(** The bytes of a text, then others. *)
Definition demo_memory (l : list Z) (after : Z) : memory := fun i => default after (l !! i).

Definition demo_key : list Z := [109; 97; 105; 108; 46; 101; 120; 97; 109; 112; 108; 101; 46; 99; 111; 109].

Lemma hashlittle_reads_key_only_witness :
  hashlittle true 4097 (demo_memory demo_key 255) 16 7 = hash_spec demo_key 7 /\
  hashlittle true 4096 (demo_memory demo_key 255) 15 7 = hashlittle true 4098 (demo_memory demo_key 0) 15 7.
Proof.
  assert (forall after, is_byte after -> bytes (demo_memory demo_key after)) as Hb.
  { intros after Ha i. unfold demo_memory. destruct (demo_key !! i) as [b|] eqn:E; [|exact Ha].
    assert (Forall is_byte demo_key) as Hf by (repeat constructor; unfold is_byte; lia).
    exact (Forall_lookup_1 _ _ _ _ Hf E). }
  split.
  - apply (hashlittle_reads_key_only 4097 (demo_memory demo_key 255) 16 7). apply Hb. unfold is_byte. lia.
  - vm_compute. reflexivity.
Defined.

(** On a big-endian machine it does depend on the address. *)
Example big_endian_depends_on_address :
  hashlittle false 4096 (demo_memory demo_key 0) 15 7 <> hashlittle false 4097 (demo_memory demo_key 0) 15 7.
Proof. vm_compute. discriminate. Qed.
