(* ===== verification/Sha256.v ===== *)
(** * SHA-256 ([src/src/sha256.c])

    The digest of the greylisting triplet.  [sha256] is translated with the
    block-by-block padding of the C code, on a machine of either endianness;
    [fips_sha256] is the standard's definition (pad the whole message, cut it
    into blocks, fold the compression function). *)

From S2P Require Import Prelude.

(** ** The code *)

Record sha_256_t := Sha256 {
  h0 : Z; h1 : Z; h2 : Z; h3 : Z; h4 : Z; h5 : Z; h6 : Z; h7 : Z }.

Definition DEFAULT_SHA256 : sha_256_t :=
  Sha256 0x6a09e667 0xbb67ae85 0x3c6ef372 0xa54ff53a 0x510e527f 0x9b05688c 0x1f83d9ab 0x5be0cd19.

Definition ROUND_CONSTANTS : list Z :=
  [0x428a2f98; 0x71374491; 0xb5c0fbcf; 0xe9b5dba5] ++ [0x3956c25b; 0x59f111f1; 0x923f82a4; 0xab1c5ed5] ++
  [0xd807aa98; 0x12835b01; 0x243185be; 0x550c7dc3] ++ [0x72be5d74; 0x80deb1fe; 0x9bdc06a7; 0xc19bf174] ++
  [0xe49b69c1; 0xefbe4786; 0x0fc19dc6; 0x240ca1cc] ++ [0x2de92c6f; 0x4a7484aa; 0x5cb0a9dc; 0x76f988da] ++
  [0x983e5152; 0xa831c66d; 0xb00327c8; 0xbf597fc7] ++ [0xc6e00bf3; 0xd5a79147; 0x06ca6351; 0x14292967] ++
  [0x27b70a85; 0x2e1b2138; 0x4d2c6dfc; 0x53380d13] ++ [0x650a7354; 0x766a0abb; 0x81c2c92e; 0x92722c85] ++
  [0xa2bfe8a1; 0xa81a664b; 0xc24b8b70; 0xc76c51a3] ++ [0xd192e819; 0xd6990624; 0xf40e3585; 0x106aa070] ++
  [0x19a4c116; 0x1e376c08; 0x2748774c; 0x34b0bcb5] ++ [0x391c0cb3; 0x4ed8aa4a; 0x5b9cca4f; 0x682e6ff3] ++
  [0x748f82ee; 0x78a5636f; 0x84c87814; 0x8cc70208] ++ [0x90befffa; 0xa4506ceb; 0xbef9a3f7; 0xc67178f2].

Definition rotate_right (num amount : Z) : Z :=
  Z.lor (Z.shiftr num amount) (u32 (Z.shiftl num (32 - amount))).

(** The byte at the lowest address of the [int] 1 is 1. *)
Definition little_endian (le : bool) : bool :=
  match store le 4 1 with b :: _ => b =? 1 | [] => false end.

Definition swap_bytes (a b : nat) (l : list Z) : list Z :=
  <[b := l !!! a]> (<[a := l !!! b]> l).

Definition convert_int64_little_endian (num : list Z) : list Z :=
  swap_bytes 3 4 (swap_bytes 2 5 (swap_bytes 1 6 (swap_bytes 0 7 num))).
Definition convert_int64_big_endian (num : list Z) : list Z := num.
Definition convert_int32_little_endian (num : list Z) : list Z :=
  swap_bytes 1 2 (swap_bytes 0 3 num).
Definition convert_int32_big_endian (num : list Z) : list Z := num.

(** The function pointers, after the test at the top of [sha256]. *)
Definition p_convert_int64_to_big_endian (le : bool) : list Z -> list Z :=
  if little_endian le then convert_int64_little_endian else convert_int64_big_endian.
Definition p_convert_int32_to_big_endian (le : bool) : list Z -> list Z :=
  if little_endian le then convert_int32_little_endian else convert_int32_big_endian.

(** Words 0..15: read four bytes as a [sha_uint_t], convert, read again. *)
Definition block_word (le : bool) (block : list Z) (j : nat) : Z :=
  load le (p_convert_int32_to_big_endian le (take 4 (drop (4 * j) block))).

Definition block_words (le : bool) (block : list Z) : list Z := block_word le block <$> seq 0 16.

(** One iteration of the loop that fills words 16..63. *)
Definition extend_word (w : list Z) (j : nat) : list Z :=
  let s0 := Z.lxor (Z.lxor (rotate_right (w !!! (j - 15)%nat) 7) (rotate_right (w !!! (j - 15)%nat) 18))
                   (Z.shiftr (w !!! (j - 15)%nat) 3) in
  let s1 := Z.lxor (Z.lxor (rotate_right (w !!! (j - 2)%nat) 17) (rotate_right (w !!! (j - 2)%nat) 19))
                   (Z.shiftr (w !!! (j - 2)%nat) 10) in
  w ++ [u32 (w !!! (j - 16)%nat + s0 + w !!! (j - 7)%nat + s1)].

Definition message_words (le : bool) (block : list Z) : list Z :=
  foldl extend_word (block_words le block) (seq 16 48).

(** One iteration of the main loop. *)
Definition sha_round (w : list Z) (d : sha_256_t) (j : nat) : sha_256_t :=
  let s0 := Z.lxor (Z.lxor (rotate_right (h0 d) 2) (rotate_right (h0 d) 13)) (rotate_right (h0 d) 22) in
  let maj := Z.lxor (Z.lxor (Z.land (h0 d) (h1 d)) (Z.land (h1 d) (h2 d))) (Z.land (h2 d) (h0 d)) in
  let t2 := u32 (s0 + maj) in
  let s1 := Z.lxor (Z.lxor (rotate_right (h4 d) 6) (rotate_right (h4 d) 11)) (rotate_right (h4 d) 25) in
  let ch := Z.lxor (Z.land (h4 d) (h5 d)) (Z.land (not32 (h4 d)) (h6 d)) in
  let t1 := u32 (h7 d + s1 + ch + ROUND_CONSTANTS !!! j + w !!! j) in
  Sha256 (u32 (t2 + t1)) (h0 d) (h1 d) (h2 d) (u32 (h3 d + t1)) (h4 d) (h5 d) (h6 d).

Definition add_digest (d t : sha_256_t) : sha_256_t :=
  Sha256 (u32 (h0 d + h0 t)) (u32 (h1 d + h1 t)) (u32 (h2 d + h2 t)) (u32 (h3 d + h3 t))
         (u32 (h4 d + h4 t)) (u32 (h5 d + h5 t)) (u32 (h6 d + h6 t)) (u32 (h7 d + h7 t)).

Definition digest_block (le : bool) (block : list Z) (d : sha_256_t) : sha_256_t :=
  add_digest d (foldl (sha_round (message_words le block)) d (seq 0 64)).

Definition padded_size (size : Z) : Z :=
  u64 (size + 1 + 8 + u64 (448 - u64 (8 * u64 (size + 1))) mod 512 / 8).

(** The three [if]s that build [digestable_block] for offset [i]. *)
Definition digestable_block (message : list Z) (size new_size : Z) (tmp_size : list Z) (i : Z) : list Z :=
  let b0 := replicate 64 0 in
  let b1 := if u32 (i + 64) <=? size
            then memcpy_at b0 0 (take 64 (drop (Z.to_nat i) message)) else b0 in
  let b2 := if (size <? u32 (i + 64)) && (i <=? size)
            then <[Z.to_nat (size mod 64) := 0x80]>
                   (memcpy_at b1 0 (take (Z.to_nat (size mod 64)) (drop (Z.to_nat i) message)))
            else b1 in
  if new_size <=? u32 (i + 64) then memcpy_at b2 56 (take 8 tmp_size) else b2.

(** The loop over the blocks; [i] is a 32-bit counter compared with a 64-bit
    size.  [None] is a loop that has not ended. *)
Fixpoint sha256_loop (fuel : nat) (le : bool) (message : list Z) (size new_size : Z)
    (tmp_size : list Z) (i : Z) (d : sha_256_t) : option sha_256_t :=
  if i <? new_size then
    match fuel with
    | O => None
    | S f => sha256_loop f le message size new_size tmp_size (u32 (i + 64))
               (digest_block le (digestable_block message size new_size tmp_size i) d)
    end
  else Some d.

Definition sha256 (le : bool) (message : list Z) : option sha_256_t :=
  let size := Z.of_nat (length message) in
  let new_size := padded_size size in
  let tmp_size := p_convert_int64_to_big_endian le (store le 8 (u64 (size * 8))) in
  sha256_loop (Z.to_nat (new_size / 64)) le message size new_size tmp_size 0 DEFAULT_SHA256.

Definition sha256_string (le : bool) (message : cstr) : option sha_256_t :=
  sha256 le (byte_of <$> message).

Example sha256_abc :
  sha256_string true (cs "abc") =
  Some (Sha256 0xba7816bf 0x8f01cfea 0x414140de 0x5dae2223 0xb00361a3 0x96177a9c 0xb410ff61 0xf20015ad).
Proof. vm_compute. reflexivity. Qed.

Example sha256_empty_be :
  sha256_string false [] =
  Some (Sha256 0xe3b0c442 0x98fc1c14 0x9afbf4c8 0x996fb924 0x27ae41e4 0x649b934c 0xa495991b 0x7852b855).
Proof. vm_compute. reflexivity. Qed.

(** 56 bytes: the padding needs a second block. *)
Example sha256_two_blocks :
  sha256_string true (cs "abcdbcdecdefdefgefghfghighijhijkijkljklmklmnlmnomnopnopq") =
  Some (Sha256 0x248d6a61 0xd20638b8 0xe5c02693 0x0c3e6039 0xa33ce459 0x64ff2167 0xf6ecedd4 0x19db06c1).
Proof. vm_compute. reflexivity. Qed.

(** ** The standard's definition (FIPS 180-4) *)

Module Fips.

(** The constants: the first 32 bits of the fractional parts of the cube roots
    of the first 64 primes, and of the square roots of the first 8. *)
Definition is_prime (n : Z) : bool := forallb (fun d => negb (n mod d =? 0)) (seqZ 2 (n - 2)).

Definition primes : list Z := filter (fun n => is_prime n = true) (seqZ 2 310).

(** The largest [r] below [acc + 2 ^ bits] with [r ^ 3 <= n], bit by bit. *)
Fixpoint cbrt (bits : nat) (n acc : Z) : Z :=
  match bits with
  | O => acc
  | S bits =>
      let r := acc + 2 ^ Z.of_nat bits in
      cbrt bits n (if r * r * r <=? n then r else acc)
  end.

Definition K : list Z := (fun q => cbrt 36 (q * 2 ^ 96) 0 mod 2 ^ 32) <$> take 64 primes.

Definition root (i : nat) : Z := Z.sqrt (primes !!! i * 2 ^ 64) mod 2 ^ 32.

Definition H0 : sha_256_t :=
  Sha256 (root 0) (root 1) (root 2) (root 3) (root 4) (root 5) (root 6) (root 7).

Definition ROTR (n x : Z) : Z := x / 2 ^ n + x mod 2 ^ n * 2 ^ (32 - n).
Definition SHR (n x : Z) : Z := x / 2 ^ n.
Definition Ch (x y z : Z) : Z := Z.lxor (Z.land x y) (Z.ldiff z x).
Definition Maj (x y z : Z) : Z := Z.lxor (Z.land x y) (Z.lxor (Z.land x z) (Z.land y z)).
Definition Sigma0 (x : Z) : Z := Z.lxor (ROTR 2 x) (Z.lxor (ROTR 13 x) (ROTR 22 x)).
Definition Sigma1 (x : Z) : Z := Z.lxor (ROTR 6 x) (Z.lxor (ROTR 11 x) (ROTR 25 x)).
Definition sigma0 (x : Z) : Z := Z.lxor (ROTR 7 x) (Z.lxor (ROTR 18 x) (SHR 3 x)).
Definition sigma1 (x : Z) : Z := Z.lxor (ROTR 17 x) (Z.lxor (ROTR 19 x) (SHR 10 x)).

(** [len] bytes of message, the bit 1, zeros up to 56 modulo 64, the length in bits. *)
Definition pad (m : list Z) : list Z :=
  m ++ [0x80] ++ replicate (Z.to_nat ((55 - Z.of_nat (length m)) mod 64)) 0
    ++ be_split 8 (8 * Z.of_nat (length m)).

Definition word (M : list Z) (t : nat) : Z := be_join (take 4 (drop (4 * t) M)).

Definition next_W (W : list Z) (t : nat) : list Z :=
  W ++ [(sigma1 (W !!! (t - 2)%nat) + W !!! (t - 7)%nat + sigma0 (W !!! (t - 15)%nat)
         + W !!! (t - 16)%nat) mod 2 ^ 32].

Definition schedule (M : list Z) : list Z := foldl next_W (word M <$> seq 0 16) (seq 16 48).

Definition round (W : list Z) (v : sha_256_t) (t : nat) : sha_256_t :=
  let '(Sha256 a b c d e f g h) := v in
  let T1 := (h + Sigma1 e + Ch e f g + K !!! t + W !!! t) mod 2 ^ 32 in
  let T2 := (Sigma0 a + Maj a b c) mod 2 ^ 32 in
  Sha256 ((T1 + T2) mod 2 ^ 32) a b c ((d + T1) mod 2 ^ 32) e f g.

Definition compress (H : sha_256_t) (M : list Z) : sha_256_t :=
  let '(Sha256 a b c d e f g h) := foldl (round (schedule M)) H (seq 0 64) in
  Sha256 ((a + h0 H) mod 2 ^ 32) ((b + h1 H) mod 2 ^ 32) ((c + h2 H) mod 2 ^ 32) ((d + h3 H) mod 2 ^ 32)
         ((e + h4 H) mod 2 ^ 32) ((f + h5 H) mod 2 ^ 32) ((g + h6 H) mod 2 ^ 32) ((h + h7 H) mod 2 ^ 32).

(** The blocks [64 * j .. 64 * j + 63] of the padded message. *)
Definition block (P : list Z) (j : nat) : list Z := take 64 (drop (64 * j) P).

Definition sha256 (m : list Z) : sha_256_t :=
  foldl (fun H j => compress H (block (pad m) j)) H0 (seq 0 (length (pad m) / 64)).

End Fips.

(** ** Words *)

Definition is_digest (d : sha_256_t) : Prop :=
  is_u32 (h0 d) /\ is_u32 (h1 d) /\ is_u32 (h2 d) /\ is_u32 (h3 d) /\
  is_u32 (h4 d) /\ is_u32 (h5 d) /\ is_u32 (h6 d) /\ is_u32 (h7 d).

Lemma rotate_right_ROTR x n : is_u32 x -> 0 < n < 32 -> rotate_right x n = Fips.ROTR n x.
Proof.
  intros Hx Hn. unfold rotate_right, Fips.ROTR.
  rewrite Z.shiftr_div_pow2, Z.shiftl_mul_pow2 by lia.
  assert (u32 (x * 2 ^ (32 - n)) = x mod 2 ^ n * 2 ^ (32 - n)) as ->.
  { unfold u32. replace (2 ^ 32) with (2 ^ n * 2 ^ (32 - n)) by (rewrite <-Z.pow_add_r by lia; f_equal; lia).
    rewrite Z.mul_mod_distr_r; lia. }
  rewrite Z.add_comm, Z.lor_comm. rewrite <-Z.shiftl_mul_pow2 by lia.
  apply Z.bits_inj'. intros i Hi. rewrite Z.lor_spec.
  assert (x / 2 ^ n < 2 ^ (32 - n)) as Hlt.
  { apply Z.div_lt_upper_bound; [lia|]. rewrite <-Z.pow_add_r by lia.
    replace (n + (32 - n)) with 32 by lia. unfold is_u32 in Hx. lia. }
  assert (0 <= x / 2 ^ n) by (apply Z.div_pos; unfold is_u32 in Hx; lia).
  rewrite Z.add_nocarry_lxor.
  2: { apply Z.bits_inj'. intros j Hj. rewrite Z.land_spec, Z.bits_0, Z.shiftl_spec by lia.
       destruct (Z.lt_ge_cases j (32 - n)).
       - rewrite Z.testbit_neg_r by lia. done.
       - rewrite (testbit_high (32 - n) (x / 2 ^ n)) by lia. apply andb_false_r. }
  rewrite Z.lxor_spec. rewrite Z.shiftl_spec by lia.
  destruct (Z.lt_ge_cases i (32 - n)).
  - rewrite Z.testbit_neg_r by lia. by destruct (Z.testbit _ i).
  - rewrite (testbit_high (32 - n) (x / 2 ^ n)) by lia. by destruct (Z.testbit _ (i - _)).
Qed.

Lemma not32_land x y : is_u32 x -> is_u32 y -> Z.land (not32 x) y = Z.ldiff y x.
Proof.
  intros Hx Hy. unfold not32. change (2 ^ 32 - 1) with (Z.ones 32).
  apply Z.bits_inj'. intros i Hi. rewrite Z.land_spec, Z.lxor_spec, Z.ldiff_spec.
  destruct (Z.lt_ge_cases i 32).
  - rewrite Z.ones_spec_low by lia. by destruct (Z.testbit x i), (Z.testbit y i).
  - rewrite (testbit_high 32 y) by (exact Hy || lia). by rewrite andb_false_r.
Qed.

Lemma block_word_be le block j :
  (4 * j + 4 <= length block)%nat -> block_word le block j = Fips.word block j.
Proof.
  intros Hlen. unfold block_word, Fips.word.
  assert (length (take 4 (drop (4 * j) block)) = 4%nat) as H4
    by (rewrite length_take, length_drop; lia).
  destruct (take 4 (drop (4 * j) block)) as [|a [|b [|c [|d [|]]]]]; try discriminate H4.
  destruct le; reflexivity.
Qed.

Lemma tmp_size_be le n : p_convert_int64_to_big_endian le (store le 8 n) = be_split 8 n.
Proof. destruct le; reflexivity. Qed.

(** ** The compression function *)

Lemma extend_word_next_W w j :
  Forall is_u32 w -> length w = j -> (16 <= j)%nat ->
  extend_word w j = Fips.next_W w j /\
  (Forall is_u32 (extend_word w j) /\ length (extend_word w j) = S j).
Proof.
  intros Hw Hl Hj. split.
  - unfold extend_word, Fips.next_W. do 2 f_equal. unfold u32. f_equal.
    unfold Fips.sigma0, Fips.sigma1, Fips.SHR.
    rewrite !rotate_right_ROTR by (lia || (apply lookup_total_Forall; [done|lia])).
    rewrite !Z.shiftr_div_pow2, !Z.lxor_assoc by lia. lia.
  - unfold extend_word. rewrite length_app, Forall_app. cbn [length]. repeat split; [done| |lia].
    constructor; [apply u32_is_u32 | constructor].
Qed.

Lemma Forall_take_drop {A} (P : A -> Prop) (l : list A) n m :
  Forall P l -> Forall P (take n (drop m l)).
Proof. intros. by apply Forall_take, Forall_drop. Qed.

Lemma word_is_u32 block j :
  Forall is_byte block -> is_u32 (Fips.word block j).
Proof.
  intros Hb. unfold is_u32, Fips.word.
  pose proof (be_join_bound _ (Forall_take_drop _ _ 4 (4 * j) Hb)) as H.
  split; [lia|]. eapply Z.lt_le_trans; [apply H|]. apply Z.pow_le_mono_r; [lia|].
  rewrite length_take. lia.
Qed.

Lemma message_words_schedule le block :
  Forall is_byte block -> length block = 64%nat ->
  message_words le block = Fips.schedule block /\
  Forall is_u32 (Fips.schedule block) /\ length (Fips.schedule block) = 64%nat.
Proof.
  intros Hb Hl. unfold message_words, Fips.schedule.
  assert (block_words le block = Fips.word block <$> seq 0 16) as ->.
  { unfold block_words. apply list_fmap_ext. intros i x Hx.
    apply block_word_be. apply lookup_seq in Hx. lia. }
  destruct (foldl_seq_ext (fun j w => Forall is_u32 w /\ length w = j) extend_word Fips.next_W
              (Fips.word block <$> seq 0 16) 48 16) as [E [HF HL]].
  - split; [|done]. apply Forall_fmap, Forall_true. intros. by apply word_is_u32.
  - intros j w Hj [Hw Hwl]. apply extend_word_next_W; [done..|lia].
  - rewrite E in HF, HL |- *. exact (conj eq_refl (conj HF HL)).
Qed.

(** The tables of the code are the constants of the standard. *)
Lemma round_constants_K : ROUND_CONSTANTS = Fips.K.
Proof. vm_compute. reflexivity. Qed.

Lemma default_H0 : DEFAULT_SHA256 = Fips.H0.
Proof. vm_compute. reflexivity. Qed.

Lemma sha_round_round W d t :
  is_digest d -> (t < 64)%nat -> sha_round W d t = Fips.round W d t /\ is_digest (sha_round W d t).
Proof.
  intros Hd Ht. destruct d as [a b c dd e f g h]. unfold is_digest in Hd. cbn in Hd.
  destruct Hd as (Ha & Hb & Hc & Hdd & He & Hf & Hg & Hh).
  unfold sha_round, Fips.round. rewrite <-round_constants_K. cbn [h0 h1 h2 h3 h4 h5 h6 h7].
  rewrite !rotate_right_ROTR by (done || lia).
  rewrite not32_land by done.
  assert (Z.lxor (Z.lxor (Fips.ROTR 2 a) (Fips.ROTR 13 a)) (Fips.ROTR 22 a) = Fips.Sigma0 a) as ->
    by (unfold Fips.Sigma0; by rewrite Z.lxor_assoc).
  assert (Z.lxor (Z.lxor (Fips.ROTR 6 e) (Fips.ROTR 11 e)) (Fips.ROTR 25 e) = Fips.Sigma1 e) as ->
    by (unfold Fips.Sigma1; by rewrite Z.lxor_assoc).
  assert (Z.lxor (Z.lxor (Z.land a b) (Z.land b c)) (Z.land c a) = Fips.Maj a b c) as ->.
  { unfold Fips.Maj. rewrite Z.lxor_assoc, (Z.land_comm c a). f_equal. apply Z.lxor_comm. }
  fold (Fips.Ch e f g). split.
  - f_equal. unfold u32. f_equal. apply Z.add_comm.
  - unfold is_digest. cbn [h0 h1 h2 h3 h4 h5 h6 h7]. split_and!; first [assumption | apply u32_is_u32].
Qed.

Lemma rounds_agree W d :
  is_digest d ->
  foldl (sha_round W) d (seq 0 64) = foldl (Fips.round W) d (seq 0 64) /\
  is_digest (foldl (sha_round W) d (seq 0 64)).
Proof.
  intros Hd. apply (foldl_seq_ext (fun _ => is_digest)); [exact Hd|].
  intros j x Hj Hx. apply sha_round_round; [exact Hx|lia].
Qed.

Lemma digest_block_compress le block d :
  Forall is_byte block -> length block = 64%nat -> is_digest d ->
  digest_block le block d = Fips.compress d block /\ is_digest (digest_block le block d).
Proof.
  intros Hb Hl Hd. unfold digest_block, Fips.compress.
  destruct (message_words_schedule le block Hb Hl) as (-> & _ & _).
  destruct (rounds_agree (Fips.schedule block) d Hd) as [-> _].
  destruct (foldl (Fips.round _) _ _). unfold add_digest. cbn [h0 h1 h2 h3 h4 h5 h6 h7]. split.
  - f_equal; unfold u32; f_equal; apply Z.add_comm.
  - unfold is_digest. cbn [h0 h1 h2 h3 h4 h5 h6 h7]. split_and!; apply u32_is_u32.
Qed.

Lemma is_digest_default : is_digest DEFAULT_SHA256.
Proof. unfold is_digest, is_u32; cbn; lia. Qed.

(** ** Padding *)

Lemma padded_size_eq n :
  0 <= n -> n + 73 <= 2 ^ 64 -> padded_size n = n + 9 + (55 - n) mod 64.
Proof.
  intros H0 H1. unfold padded_size, u64.
  rewrite (Z.mod_small (n + 1)) by lia.
  replace (2 ^ 64) with (512 * 2 ^ 55) by lia.
  assert (forall z, z mod (512 * 2 ^ 55) mod 512 = z mod 512) as Hm.
  { intros z. rewrite Z.rem_mul_r by lia. rewrite Z.mul_comm, Z.mod_add by lia. by rewrite Z.mod_mod. }
  rewrite Hm, Zminus_mod, Hm, <-Zminus_mod.
  replace (448 - 8 * (n + 1)) with ((55 - n) * 8) by lia.
  replace 512 with (64 * 8) at 1 by lia. rewrite Z.mul_mod_distr_r, Z.div_mul by lia.
  pose proof (Z.mod_pos_bound (55 - n) 64 ltac:(lia)).
  rewrite Z.mod_small; lia.
Qed.

Lemma length_pad m : Z.of_nat (length (Fips.pad m)) = Z.of_nat (length m) + 9 + (55 - Z.of_nat (length m)) mod 64.
Proof.
  unfold Fips.pad. rewrite !length_app, length_replicate, length_be_split. cbn [length].
  pose proof (Z.mod_pos_bound (55 - Z.of_nat (length m)) 64 ltac:(lia)). lia.
Qed.

Lemma length_pad_blocks m : exists q, length (Fips.pad m) = (64 * q)%nat.
Proof.
  exists (Z.to_nat ((Z.of_nat (length m) + 9 + (55 - Z.of_nat (length m)) mod 64) / 64)).
  pose proof (length_pad m) as H. remember (length m) as n. apply Nat2Z.inj. rewrite H.
  pose proof (Z.div_mod (55 - Z.of_nat n) 64 ltac:(lia)) as E.
  set (r := (55 - Z.of_nat n) mod 64) in *. set (q := (55 - Z.of_nat n) / 64) in *.
  assert (0 <= r < 64) by (apply Z.mod_pos_bound; lia).
  replace (Z.of_nat n + 9 + r) with ((1 - q) * 64) by lia. rewrite Z.div_mul by lia. lia.
Qed.

Lemma pad_bytes m : Forall is_byte m -> Forall is_byte (Fips.pad m).
Proof.
  intros H. unfold Fips.pad. rewrite !Forall_app. repeat split; [done| | |].
  - constructor; [unfold is_byte; lia | constructor].
  - apply Forall_replicate. unfold is_byte; lia.
  - unfold be_split. apply Forall_reverse, le_split_bytes.
Qed.

(** The block the code builds at offset [64 * j] is the block of the padded
    message: a full block, the block with the bit 1, or a block of zeros; the
    last one ends with the length. *)
Lemma digestable_block_pad m j :
  Z.of_nat (length m) + 72 < 2 ^ 32 -> (64 * j < length (Fips.pad m))%nat ->
  digestable_block m (Z.of_nat (length m)) (Z.of_nat (length (Fips.pad m)))
    (be_split 8 (8 * Z.of_nat (length m))) (Z.of_nat (64 * j)) = Fips.block (Fips.pad m) j.
Proof.
  intros Hn Hj. pose proof (length_pad m) as HL. destruct (length_pad_blocks m) as [q Hq].
  pose proof (length_be_split 8 (8 * Z.of_nat (length m))) as H8.
  unfold Fips.block, digestable_block.
  unfold Fips.pad at 2. set (B := be_split 8 _) in *.
  assert (take 8 B = B) as -> by (apply take_ge; lia).
  set (n := length m) in *. set (k := (55 - Z.of_nat n) mod 64) in *.
  assert (0 <= k < 64) as Hk by (apply Z.mod_pos_bound; lia).
  assert (u32 (Z.of_nat (64 * j) + 64) = Z.of_nat (64 * j) + 64) as -> by (apply u32_id; unfold is_u32; lia).
  rewrite Nat2Z.id.
  destruct (Z.leb_spec (Z.of_nat (64 * j) + 64) (Z.of_nat n)) as [HA|HA];
    [rewrite (proj2 (Z.ltb_ge _ _)) by lia; rewrite (proj2 (Z.leb_gt _ _)) by lia
    |rewrite (proj2 (Z.ltb_lt _ _)) by lia]; cbn [andb].
  - (* a full block *)
    unfold memcpy_at. rewrite take_0, Nat.add_0_l, app_nil_l, length_take, length_drop.
    rewrite (drop_ge (replicate 64 0)) by (rewrite length_replicate; lia). rewrite app_nil_r.
    rewrite drop_app_le by lia. rewrite take_app_le by (rewrite length_drop; lia). done.
  - destruct (Z.leb_spec (Z.of_nat (64 * j)) (Z.of_nat n)) as [HB|HB].
    + (* the block with the bit 1 *)
      assert (Z.of_nat n mod 64 = Z.of_nat (n - 64 * j)) as ->.
      { replace (Z.of_nat n) with (Z.of_nat (n - 64 * j) + Z.of_nat j * 64) by lia.
        rewrite Z.mod_add, Z.mod_small; lia. }
      rewrite Nat2Z.id. set (r := (n - 64 * j)%nat) in *.
      assert (length (drop (64 * j) m) = r) as Hr by (rewrite length_drop; lia).
      rewrite (take_ge _ r) by lia. rewrite drop_app_le by lia.
      set (t := drop (64 * j) m) in *.
      assert (memcpy_at (replicate 64 0) 0 t = t ++ replicate (64 - r) 0) as ->.
      { unfold memcpy_at. rewrite take_0, app_nil_l, Nat.add_0_l, drop_replicate. by rewrite Hr. }
      assert (<[r := 0x80]> (t ++ replicate (64 - r) 0) = t ++ 0x80 :: replicate (63 - r) 0) as ->.
      { rewrite insert_app_r_alt by lia. rewrite Hr, Nat.sub_diag.
        replace (64 - r)%nat with (S (63 - r)) by lia. done. }
      destruct (Z.leb_spec (Z.of_nat (length (Fips.pad m))) (Z.of_nat (64 * j) + 64)) as [HC|HC].
      * (* and the length *)
        assert (Z.to_nat k = (55 - r)%nat) as -> by lia.
        unfold memcpy_at. rewrite H8.
        rewrite (drop_ge _ (56 + 8)) by (rewrite length_app; cbn [length]; rewrite length_replicate, Hr; lia).
        rewrite app_nil_r. rewrite take_app, Hr, take_ge by lia.
        replace (56 - r)%nat with (S (55 - r)) by lia. cbn [take].
        rewrite take_replicate. replace ((55 - r) `min` (63 - r))%nat with (55 - r)%nat by lia.
        rewrite take_ge; [by rewrite <-app_assoc|].
        rewrite !length_app, length_replicate, H8, Hr. cbn [length]. lia.
      * assert (63 - r <= Z.to_nat k)%nat by lia.
        rewrite take_app, Hr, take_ge by lia. f_equal.
        replace (64 - r)%nat with (S (63 - r)) by lia. cbn [app take]. f_equal.
        rewrite take_app_le by (rewrite length_replicate; lia).
        rewrite take_replicate. f_equal. lia.
    + (* zeros and the length *)
      rewrite (proj2 (Z.leb_le _ _)) by lia.
      rewrite drop_app_ge by lia. replace (64 * j - length m)%nat with (S (64 * j - n - 1)) by lia.
      cbn [app drop]. rewrite drop_app_le by (rewrite length_replicate; lia). rewrite drop_replicate.
      unfold memcpy_at. rewrite H8, take_replicate, drop_replicate.
      replace (64 - (56 + 8))%nat with 0%nat by lia. cbn [replicate]. rewrite app_nil_r.
      rewrite take_ge by (rewrite length_app, length_replicate, H8; lia).
      f_equal. f_equal. lia.
Qed.

Lemma sha256_loop_blocks le m P fuel j d :
  P = Fips.pad m -> Forall is_byte m -> Z.of_nat (length m) + 72 < 2 ^ 32 -> is_digest d ->
  length P = (64 * (j + fuel))%nat ->
  sha256_loop fuel le m (Z.of_nat (length m)) (Z.of_nat (length P))
    (be_split 8 (8 * Z.of_nat (length m))) (Z.of_nat (64 * j)) d =
  Some (foldl (fun H j => Fips.compress H (Fips.block P j)) d (seq j fuel)).
Proof.
  intros -> Hm Hn. revert j d. induction fuel as [|fuel IH]; intros j d Hd HP; cbn [sha256_loop seq foldl].
  - rewrite (proj2 (Z.ltb_ge _ _)) by lia. done.
  - rewrite (proj2 (Z.ltb_lt _ _)) by lia. rewrite digestable_block_pad by lia.
    pose proof (length_pad m) as HL. pose proof (Z.mod_pos_bound (55 - Z.of_nat (length m)) 64 ltac:(lia)).
    rewrite u32_id by (unfold is_u32; lia).
    assert (length (Fips.block (Fips.pad m) j) = 64%nat) as Hb64
      by (unfold Fips.block; rewrite length_take, length_drop; lia).
    destruct (digest_block_compress le (Fips.block (Fips.pad m) j) d) as [<- Hd'];
      [by apply Forall_take_drop, pad_bytes | done..|].
    replace (Z.of_nat (64 * j) + 64) with (Z.of_nat (64 * S j)) by lia.
    apply IH; [done | lia].
Qed.

Lemma sha256_Fips le m :
  Forall is_byte m -> Z.of_nat (length m) + 72 < 2 ^ 32 -> sha256 le m = Some (Fips.sha256 m).
Proof.
  intros Hm Hn. unfold sha256. rewrite padded_size_eq by lia. rewrite <-length_pad.
  rewrite tmp_size_be, u64_id by (unfold is_u64; lia). rewrite Z.mul_comm.
  change 0 with (Z.of_nat (64 * 0)). destruct (length_pad_blocks m) as [q Hq].
  unfold Fips.sha256. rewrite <-default_H0, (sha256_loop_blocks le m (Fips.pad m)) with (j := 0%nat);
    [ | done | done | done | apply is_digest_default | ].
  - do 2 f_equal.
    rewrite Hq, Nat2Z.inj_mul, Z.mul_comm, Z.div_mul, Nat2Z.id, Nat.mul_comm, Nat.div_mul by lia. done.
  - rewrite Hq, Nat2Z.inj_mul, Z.mul_comm, Z.div_mul, Nat2Z.id by lia. lia.
Qed.

(** ** Properties *)

(** Every digest is made of 32-bit words. *)
Lemma sha256_is_digest le message d : sha256 le message = Some d -> is_digest d.
Proof.
  unfold sha256. generalize (Z.to_nat (padded_size (Z.of_nat (length message)) / 64)), 0.
  assert (is_digest DEFAULT_SHA256) as H0 by (unfold is_digest, is_u32; cbn; lia). revert H0.
  generalize DEFAULT_SHA256. intros d0 H0 n. revert d0 H0.
  induction n as [|n IH]; intros d0 H0 i; cbn [sha256_loop]; destruct (i <? _).
  - discriminate.
  - intros E. injection E as <-. exact H0.
  - apply IH. unfold digest_block, add_digest, is_digest. cbn [h0 h1 h2 h3 h4 h5 h6 h7].
    split_and!; apply u32_is_u32.
  - intros E. injection E as <-. exact H0.
Qed.

(** C7: on every message shorter than 2^32 - 72 bytes, and on a machine of
    either endianness, [sha256_string] returns, and its result is the SHA-256
    of FIPS 180-4, whose constants are computed from the primes there. *)
Theorem sha256_string_is_fips le (message : cstr) :
  Z.of_nat (length message) + 72 < 2 ^ 32 ->
  sha256_string le message = Some (Fips.sha256 (byte_of <$> message)).
Proof.
  intros Hn. apply sha256_Fips; [|by rewrite length_fmap].
  apply Forall_fmap, Forall_true. intros. apply byte_of_range.
Qed.

Lemma sha256_string_is_fips_witness :
  Z.of_nat (length (cs "abc")) + 72 < 2 ^ 32 /\
  sha256_string true (cs "abc") = Some (Fips.sha256 (byte_of <$> cs "abc")).
Proof.
  assert (Z.of_nat (length (cs "abc")) + 72 < 2 ^ 32) as H by (vm_compute; reflexivity).
  exact (conj H (sha256_string_is_fips true (cs "abc") H)).
Defined.
