(* ===== verification/Bloom.v ===== *)
(** * Bloom filters and the ring of filters ([src/src/bloom.c])

    Bit arrays of 32-bit words, filters, groups, and the ring queue whose
    [aggregate] is the filter queries look at.  The second half gives the
    abstract ring (a list of sets of bit positions) and proves that every
    operation refines it. *)

From S2P Require Import Prelude Sha256.

(** ** Data *)

Record array_index_t := ArrayIndex { array_idx : Z; intra_index : Z }.

Record bloom_filter_t := BloomFilter {
  bf_filter : list Z;   (* bitarray_base_t[] *)
  bf_bitsize : Z;
  bf_mask : Z;
  bf_size : Z }.

Record bloom_filter_group_t := FilterGroup {
  filter_group : list bloom_filter_t;
  group_size : Z }.

Record bloom_ring_queue_t := RingQueue {
  brq_group : bloom_filter_group_t;
  brq_aggregate : bloom_filter_t;
  brq_current_index : Z }.

Definition BITARRAY_BASE_SIZE : Z := 32.
Definition BITS_PER_CHAR : Z := 8.

Definition set_filter (f : bloom_filter_t) (l : list Z) : bloom_filter_t :=
  BloomFilter l (bf_bitsize f) (bf_mask f) (bf_size f).

(** ** Bits *)

Definition array_index (bit_index : Z) : array_index_t :=
  ArrayIndex (bit_index / BITARRAY_BASE_SIZE) (bit_index mod BITARRAY_BASE_SIZE).

Definition add_mask (intra : Z) : Res Z :=
  _ ← c_assert (intra <=? 32);
  if intra <? 32 then Ok (Z.shiftl 1 intra) else Fail Undefined.

Definition get_bit (array : list Z) (bit_index : Z) : Res Z :=
  let index := array_index bit_index in
  _ ← c_assert (intra_index index <=? 32);
  w ← aget array (array_idx index);
  Ok (Z.land (Z.shiftr w (intra_index index)) 1).

Definition insert_bit (array : list Z) (bit_index : Z) : Res (list Z) :=
  let index := array_index bit_index in
  _ ← c_assert (intra_index index <=? 32);
  w ← aget array (array_idx index);
  m ← add_mask (intra_index index);
  aset array (array_idx index) (Z.lor w m).

Definition init_bit_array (array : list Z) (size : Z) : Res (list Z) :=
  for_loop (Z.to_nat size) (fun i a => aset a (Z.of_nat i) 0) array.

Definition int_to_index (value mask : Z) : Z := Z.land value mask.

(** ** Filters *)

Definition insert_digest (f : bloom_filter_t) (digest : sha_256_t) : Res bloom_filter_t :=
  a ← insert_bit (bf_filter f) (int_to_index (h0 digest) (bf_mask f));
  a ← insert_bit a (int_to_index (h1 digest) (bf_mask f));
  a ← insert_bit a (int_to_index (h2 digest) (bf_mask f));
  a ← insert_bit a (int_to_index (h3 digest) (bf_mask f));
  a ← insert_bit a (int_to_index (h4 digest) (bf_mask f));
  a ← insert_bit a (int_to_index (h5 digest) (bf_mask f));
  a ← insert_bit a (int_to_index (h6 digest) (bf_mask f));
  a ← insert_bit a (int_to_index (h7 digest) (bf_mask f));
  Ok (set_filter f a).

(** [&&]: the right operand is evaluated only if the left one is not zero. *)
Definition c_and (a b : Res bool) : Res bool := x ← a; if x then b else Ok false.

Definition test_bit (f : bloom_filter_t) (h : Z) : Res bool :=
  b ← get_bit (bf_filter f) (int_to_index h (bf_mask f)); Ok (negb (b =? 0)).

Definition is_in_array (f : bloom_filter_t) (digest : sha_256_t) : Res bool :=
  c_and (c_and (c_and (c_and (c_and (c_and (c_and
    (test_bit f (h0 digest)) (test_bit f (h1 digest))) (test_bit f (h2 digest)))
    (test_bit f (h3 digest))) (test_bit f (h4 digest))) (test_bit f (h5 digest)))
    (test_bit f (h6 digest))) (test_bit f (h7 digest)).

Definition zero_bloom_filter (f : bloom_filter_t) : Res bloom_filter_t :=
  a ← init_bit_array (bf_filter f) (bf_size f); Ok (set_filter f a).

(** [Malloc] of [bytes] bytes used as an array of words: the words that lie
    wholly inside the block, with arbitrary contents [junk]. *)
Definition malloc_words (junk : nat -> Z) (bytes : Z) : Res (list Z) :=
  _ ← c_assert (negb (bytes =? 0));
  Ok (junk <$> seq 0 (Z.to_nat (bytes / 4))).

(** [memcpy] of [bytes] bytes between two arrays of words. *)
Definition memcpy_words (dst src : list Z) (bytes : Z) : Res (list Z) :=
  let n := Z.to_nat (bytes / 4) in
  if (n <=? length dst)%nat && (n <=? length src)%nat then Ok (take n src ++ drop n dst)
  else Fail OutOfBounds.

Definition create_bloom_filter (junk : nat -> Z) (num_bits : Z) : Res bloom_filter_t :=
  _ ← c_assert (num_bits <? 4 * BITS_PER_CHAR);
  _ ← c_assert (4 <=? num_bits);
  _ ← c_assert (num_bits <=? 32);
  bitsize ← shl_int 1 num_bits;
  let mask := Z.shiftr (2 ^ 32 - 1) (BITARRAY_BASE_SIZE - num_bits) in
  a ← malloc_words junk (bitsize / BITS_PER_CHAR);
  zero_bloom_filter (BloomFilter a bitsize mask (bitsize / BITARRAY_BASE_SIZE)).

Definition copy_bloom_filter (junk : nat -> Z) (f : bloom_filter_t) (empty : bool) : Res bloom_filter_t :=
  a ← malloc_words junk (bf_bitsize f / BITS_PER_CHAR);
  let tmp := set_filter f a in
  if empty then zero_bloom_filter tmp
  else b ← memcpy_words a (bf_filter f) (bf_bitsize f / BITS_PER_CHAR); Ok (set_filter tmp b).

Definition add_filter (lvalue rvalue : bloom_filter_t) : Res bloom_filter_t :=
  _ ← c_assert (bf_size lvalue =? bf_size rvalue);
  _ ← c_assert (bf_mask lvalue =? bf_mask rvalue);
  a ← for_loop (Z.to_nat (bf_size lvalue)) (fun i a =>
        x ← aget a (Z.of_nat i);
        y ← aget (bf_filter rvalue) (Z.of_nat i);
        aset a (Z.of_nat i) (Z.lor x y)) (bf_filter lvalue);
  Ok (set_filter lvalue a).

(** ** Groups *)

Definition create_bloom_filter_group (junk : nat -> nat -> Z) (num num_bits : Z) : Res bloom_filter_group_t :=
  _ ← c_assert (0 <? num);
  l ← for_loop (Z.to_nat num) (fun i l =>
        f ← create_bloom_filter (junk i) num_bits; Ok (l ++ [f])) [];
  Ok (FilterGroup l num).

Definition insert_digest_to_group_member (g : bloom_filter_group_t) (member_index : Z)
    (digest : sha_256_t) : Res bloom_filter_group_t :=
  _ ← c_assert (member_index <? group_size g);
  f ← aget (filter_group g) member_index;
  f' ← insert_digest f digest;
  l ← aset (filter_group g) member_index f';
  Ok (FilterGroup l (group_size g)).

(** ** The ring *)

Definition create_bloom_ring_queue (junk : nat -> nat -> Z) (num num_bits : Z) : Res bloom_ring_queue_t :=
  g ← create_bloom_filter_group junk num num_bits;
  a ← create_bloom_filter (junk (Z.to_nat num)) num_bits;
  Ok (RingQueue g a 0).

Definition insert_digest_bloom_ring_queue (brq : bloom_ring_queue_t) (digest : sha_256_t)
    : Res bloom_ring_queue_t :=
  a ← insert_digest (brq_aggregate brq) digest;
  g ← insert_digest_to_group_member (brq_group brq) (brq_current_index brq) digest;
  Ok (RingQueue g a (brq_current_index brq)).

Definition is_in_ring_queue (brq : bloom_ring_queue_t) (digest : sha_256_t) : Res bool :=
  is_in_array (brq_aggregate brq) digest.

Definition bloom_ring_queue_next_index (brq : bloom_ring_queue_t) : Z :=
  if group_size (brq_group brq) <=? u32 (brq_current_index brq + 1) then 0
  else u32 (brq_current_index brq + 1).

Definition advance_bloom_ring_queue (brq : bloom_ring_queue_t) : bloom_ring_queue_t :=
  RingQueue (brq_group brq) (brq_aggregate brq) (bloom_ring_queue_next_index brq).

(** Member [i] of the group is replaced by what [k] makes of it. *)
Definition with_member (g : bloom_filter_group_t) (i : Z)
    (k : bloom_filter_t -> Res bloom_filter_t) : Res bloom_filter_group_t :=
  f ← aget (filter_group g) i;
  f' ← k f;
  l ← aset (filter_group g) i f';
  Ok (FilterGroup l (group_size g)).

Definition rotate_bloom_ring_queue (junk : nat -> Z) (brq : bloom_ring_queue_t) : Res bloom_ring_queue_t :=
  tmp ← copy_bloom_filter junk (brq_aggregate brq) true;
  g ← with_member (brq_group brq) (bloom_ring_queue_next_index brq) zero_bloom_filter;
  tmp ← for_loop (Z.to_nat (group_size g)) (fun i tmp =>
          f ← aget (filter_group g) (Z.of_nat i); add_filter tmp f) tmp;
  let brq := advance_bloom_ring_queue (RingQueue g (brq_aggregate brq) (brq_current_index brq)) in
  a ← memcpy_words (bf_filter (brq_aggregate brq)) (bf_filter tmp) (bf_bitsize tmp / BITS_PER_CHAR);
  Ok (RingQueue (brq_group brq) (set_filter (brq_aggregate brq) a) (brq_current_index brq)).

Definition zero_bloom_ring_queue (brq : bloom_ring_queue_t) : Res bloom_ring_queue_t :=
  a ← zero_bloom_filter (brq_aggregate brq);
  g ← for_loop (Z.to_nat (group_size (brq_group brq))) (fun i g =>
        with_member g (Z.of_nat i) zero_bloom_filter) (brq_group brq);
  Ok (RingQueue g a 0).

Definition insert_absolute_bloom_ring_queue (brq : bloom_ring_queue_t) (buffer : list Z)
    (size index buf_index : Z) : Res bloom_ring_queue_t :=
  _ ← c_assert (buf_index <? group_size (brq_group brq));
  g ← with_member (brq_group brq) buf_index (fun f =>
        let size := if bf_size f <? size then bf_size f else size in
        a ← for_loop (Z.to_nat size) (fun i a =>
              _ ← c_assert (u32 (index + Z.of_nat i) <? bf_size f);
              x ← aget a (u32 (index * size + Z.of_nat i));
              y ← aget buffer (Z.of_nat i);
              aset a (u32 (index * size + Z.of_nat i)) (Z.lor x y)) (bf_filter f);
        Ok (set_filter f a));
  Ok (RingQueue g (brq_aggregate brq) (brq_current_index brq)).

Definition sync_aggregate (brq : bloom_ring_queue_t) : Res bloom_ring_queue_t :=
  let g := brq_group brq in
  a ← zero_bloom_filter (brq_aggregate brq);
  r ← for_loop (Z.to_nat (group_size g)) (fun _ '(index, a) =>
        f ← aget (filter_group g) index;
        a ← add_filter a f;
        let index := u32 (index + 1) in
        Ok (if group_size g <=? index then 0 else index, a)) (brq_current_index brq, a);
  Ok (RingQueue g r.2 (brq_current_index brq)).

Example ring_insert_then_found :
  let d := Sha256 1 2 3 4 5 6 7 8 in
  (q ← create_bloom_ring_queue (fun _ _ => 7) 3 6;
   q ← insert_digest_bloom_ring_queue q d;
   q ← rotate_bloom_ring_queue (fun _ => 9) q;
   is_in_ring_queue q d) = Ok true.
Proof. vm_compute. reflexivity. Qed.

(** ** Filters as sets of bit positions *)

Section Filters.
Context (nb : Z) (Hnb : 5 <= nb <= 30).

(** What [create_bloom_filter nb] sets up. *)
Definition wf_filter (f : bloom_filter_t) : Prop :=
  bf_bitsize f = 2 ^ nb /\ bf_mask f = 2 ^ nb - 1 /\ bf_size f = 2 ^ (nb - 5) /\
  Z.of_nat (length (bf_filter f)) = bf_size f /\ Forall is_u32 (bf_filter f).

Definition array_bit (a : list Z) (i : Z) : bool :=
  Z.testbit (a !!! Z.to_nat (i / 32)) (i mod 32).

(** [f] holds exactly the bits of [s]. *)
Definition rep_filter (f : bloom_filter_t) (s : gset Z) : Prop :=
  wf_filter f /\ forall i, 0 <= i < 2 ^ nb -> array_bit (bf_filter f) i = bool_decide (i ∈ s).

Definition digest_words (d : sha_256_t) : list Z :=
  [h0 d; h1 d; h2 d; h3 d; h4 d; h5 d; h6 d; h7 d].

(** The eight positions of a digest: its words modulo the number of bits. *)
Definition digest_bits (d : sha_256_t) : gset Z :=
  list_to_set ((fun h => h mod 2 ^ nb) <$> digest_words d).

Lemma pow_split : 2 ^ nb = 32 * 2 ^ (nb - 5).
Proof. change 32 with (2 ^ 5). rewrite <-Z.pow_add_r by lia. f_equal. lia. Qed.

Lemma int_to_index_mod h : int_to_index h (2 ^ nb - 1) = h mod 2 ^ nb.
Proof. unfold int_to_index. rewrite Z.sub_1_r, <-Z.ones_equiv, Z.land_ones; lia. Qed.

Lemma index_in_range i (a : list Z) :
  Z.of_nat (length a) = 2 ^ (nb - 5) -> 0 <= i < 2 ^ nb -> 0 <= i / 32 < Z.of_nat (length a).
Proof.
  intros -> Hi. rewrite pow_split in Hi. split; [apply Z.div_pos; lia|].
  apply Z.div_lt_upper_bound; lia.
Qed.

Lemma get_bit_spec a i :
  Z.of_nat (length a) = 2 ^ (nb - 5) -> 0 <= i < 2 ^ nb ->
  get_bit a i = Ok (Z.b2z (array_bit a i)).
Proof.
  intros Ha Hi. pose proof (Z.mod_pos_bound i 32 ltac:(lia)).
  unfold get_bit, array_index, array_bit, BITARRAY_BASE_SIZE; cbn [intra_index array_idx].
  rewrite (proj2 (Z.leb_le (i mod 32) 32)) by lia. cbn [c_assert rbind].
  destruct (aget_lt a (i / 32)) as (x & Ex & ->); [by apply index_in_range|]. cbn [rbind].
  rewrite (list_lookup_total_correct _ _ _ Ex).
  f_equal. change 1 with (Z.ones 1). rewrite Z.land_ones by lia.
  rewrite Z.testbit_spec', Z.shiftr_div_pow2 by lia. done.
Qed.

Lemma array_bit_insert a i j w :
  0 <= i / 32 < Z.of_nat (length a) -> 0 <= i -> 0 <= j ->
  a !! Z.to_nat (i / 32) = Some w ->
  array_bit (<[Z.to_nat (i / 32) := Z.lor w (Z.shiftl 1 (i mod 32))]> a) j =
  array_bit a j || (i =? j).
Proof.
  intros Hlen Hi Hj Hw. unfold array_bit.
  pose proof (Z.mod_pos_bound i 32 ltac:(lia)). pose proof (Z.mod_pos_bound j 32 ltac:(lia)).
  pose proof (Z.div_mod i 32 ltac:(lia)). pose proof (Z.div_mod j 32 ltac:(lia)).
  assert (0 <= j / 32) by (apply Z.div_pos; lia).
  destruct (decide (i / 32 = j / 32)) as [E|E].
  - rewrite <-E, list_lookup_total_insert_eq by lia.
    rewrite (list_lookup_total_correct _ _ _ Hw).
    rewrite Z.lor_spec, Z.shiftl_1_l. f_equal.
    rewrite Z.pow2_bits_eqb by lia.
    destruct (Z.eqb_spec (i mod 32) (j mod 32)), (Z.eqb_spec i j); try done; lia.
  - rewrite list_lookup_total_insert_ne by lia.
    rewrite (proj2 (Z.eqb_neq i j)) by congruence. by rewrite orb_false_r.
Qed.

Lemma insert_bit_spec a i :
  Z.of_nat (length a) = 2 ^ (nb - 5) -> Forall is_u32 a -> 0 <= i < 2 ^ nb ->
  exists a', insert_bit a i = Ok a' /\ length a' = length a /\ Forall is_u32 a' /\
    forall j, 0 <= j -> array_bit a' j = array_bit a j || (i =? j).
Proof.
  intros Ha Hf Hi. pose proof (Z.mod_pos_bound i 32 ltac:(lia)).
  unfold insert_bit, array_index, BITARRAY_BASE_SIZE; cbn [intra_index array_idx].
  rewrite (proj2 (Z.leb_le (i mod 32) 32)) by lia. cbn [c_assert rbind].
  assert (0 <= i / 32 < Z.of_nat (length a)) as Hr by (by apply index_in_range).
  destruct (aget_lt a (i / 32) Hr) as (x & Ex & ->). cbn [rbind].
  unfold add_mask. rewrite (proj2 (Z.leb_le (i mod 32) 32)) by lia. cbn [c_assert rbind].
  rewrite (proj2 (Z.ltb_lt (i mod 32) 32)) by lia. cbn [rbind]. rewrite aset_lt by done.
  eexists; split; [done|]. split; [apply length_insert|]. split.
  - apply Forall_insert; [done|]. apply (lor_bound 32); [lia | by eapply (Forall_lookup_1 is_u32) |].
    rewrite Z.shiftl_1_l. split; [lia|]. apply Z.pow_lt_mono_r; lia.
  - intros j Hj. apply array_bit_insert; [done | lia.. | done].
Qed.

Lemma mod_range h : 0 <= h mod 2 ^ nb < 2 ^ nb.
Proof. apply Z.mod_pos_bound. lia. Qed.

Lemma rep_filter_insert f s h :
  rep_filter f s ->
  exists a, insert_bit (bf_filter f) (int_to_index h (bf_mask f)) = Ok a /\
    rep_filter (set_filter f a) ({[h mod 2 ^ nb]} ∪ s).
Proof.
  intros [(Hb & Hm & Hs & Hl & Hu) Hbits]. rewrite Hm, int_to_index_mod.
  destruct (insert_bit_spec (bf_filter f) (h mod 2 ^ nb)) as (a & E & Hla & Hua & Ha);
    [by rewrite Hl, Hs | done | apply mod_range |].
  exists a. split; [done|]. split; [unfold wf_filter; cbn; by rewrite Hla|].
  intros i Hi. cbn. rewrite Ha, Hbits by lia.
  destruct (Z.eqb_spec (h mod 2 ^ nb) i).
  - rewrite orb_true_r. symmetry. apply bool_decide_eq_true. set_solver.
  - rewrite orb_false_r. apply bool_decide_ext. set_solver.
Qed.

Lemma set_filter_set f a b : set_filter (set_filter f a) b = set_filter f b.
Proof. done. Qed.

(** The eight insertions, as one fold over the words of the digest. *)
Lemma insert_digest_spec f s d :
  rep_filter f s ->
  exists f', insert_digest f d = Ok f' /\ rep_filter f' (digest_bits d ∪ s).
Proof.
  intros H. unfold insert_digest.
  destruct (rep_filter_insert f s (h0 d) H) as (a0 & -> & H0); cbn [rbind].
  destruct (rep_filter_insert _ _ (h1 d) H0) as (a1 & E1 & H1); cbn in E1; rewrite E1; cbn [rbind].
  destruct (rep_filter_insert _ _ (h2 d) H1) as (a2 & E2 & H2); cbn in E2; rewrite E2; cbn [rbind].
  destruct (rep_filter_insert _ _ (h3 d) H2) as (a3 & E3 & H3); cbn in E3; rewrite E3; cbn [rbind].
  destruct (rep_filter_insert _ _ (h4 d) H3) as (a4 & E4 & H4); cbn in E4; rewrite E4; cbn [rbind].
  destruct (rep_filter_insert _ _ (h5 d) H4) as (a5 & E5 & H5); cbn in E5; rewrite E5; cbn [rbind].
  destruct (rep_filter_insert _ _ (h6 d) H5) as (a6 & E6 & H6); cbn in E6; rewrite E6; cbn [rbind].
  destruct (rep_filter_insert _ _ (h7 d) H6) as (a7 & E7 & H7); cbn in E7; rewrite E7; cbn [rbind].
  eexists; split; [done|]. rewrite !set_filter_set in H7.
  replace (digest_bits d ∪ s) with ({[h7 d mod 2 ^ nb]} ∪ ({[h6 d mod 2 ^ nb]} ∪ ({[h5 d mod 2 ^ nb]} ∪
    ({[h4 d mod 2 ^ nb]} ∪ ({[h3 d mod 2 ^ nb]} ∪ ({[h2 d mod 2 ^ nb]} ∪ ({[h1 d mod 2 ^ nb]} ∪
    ({[h0 d mod 2 ^ nb]} ∪ s)))))))); [done|].
  unfold digest_bits, digest_words. cbn [fmap list_fmap list_to_set]. set_solver.
Qed.

Lemma test_bit_spec f s h :
  rep_filter f s -> test_bit f h = Ok (bool_decide (h mod 2 ^ nb ∈ s)).
Proof.
  intros [(Hb & Hm & Hs & Hl & Hu) Hbits]. unfold test_bit. rewrite Hm, int_to_index_mod.
  rewrite get_bit_spec by (apply mod_range || by rewrite Hl, Hs). cbn [rbind].
  rewrite Hbits by apply mod_range. by destruct (bool_decide _).
Qed.

Lemma c_and_Ok a b : c_and (Ok a) (Ok b) = Ok (a && b).
Proof. by destruct a. Qed.

Lemma is_in_array_spec f s d :
  rep_filter f s -> is_in_array f d = Ok (bool_decide (digest_bits d ⊆ s)).
Proof.
  intros H. unfold is_in_array. rewrite !(test_bit_spec f s _ H), !c_and_Ok.
  f_equal. apply eq_true_iff_eq. rewrite !andb_true_iff, !bool_decide_eq_true.
  unfold digest_bits, digest_words. cbn [fmap list_fmap list_to_set]. set_solver.
Qed.

(** *** Words *)

Lemma array_bit_zero n j : (Z.to_nat (j / 32) < n)%nat -> array_bit (replicate n 0) j = false.
Proof. intros. unfold array_bit. rewrite lookup_total_replicate_2 by done. apply Z.bits_0. Qed.

Lemma init_bit_array_spec a :
  init_bit_array a (Z.of_nat (length a)) = Ok (replicate (length a) 0).
Proof.
  unfold init_bit_array. rewrite Nat2Z.id.
  destruct (for_loop_inv (fun i b => b = replicate i 0 ++ drop i a) (length a)
              (fun i b => aset b (Z.of_nat i) 0) a) as (b & -> & ->); [done| |].
  - intros i b Hi ->. rewrite aset_lt.
    2: { rewrite length_app, length_replicate, length_drop. lia. }
    eexists; split; [done|]. rewrite Nat2Z.id.
    rewrite insert_app_r_alt by (rewrite length_replicate; lia).
    rewrite length_replicate, Nat.sub_diag.
    destruct (drop i a) as [|x t] eqn:E; [apply (f_equal length) in E; rewrite length_drop in E; cbn in E; lia|].
    assert (drop (S i) a = t) as -> by (rewrite <-Nat.add_1_r, <-drop_drop, E; done).
    rewrite replicate_S_end, <-app_assoc. done.
  - rewrite drop_all, app_nil_r. done.
Qed.

Lemma zero_bloom_filter_spec f :
  bf_bitsize f = 2 ^ nb -> bf_mask f = 2 ^ nb - 1 -> bf_size f = 2 ^ (nb - 5) ->
  Z.of_nat (length (bf_filter f)) = bf_size f ->
  exists f', zero_bloom_filter f = Ok f' /\ rep_filter f' ∅.
Proof.
  intros Hb Hm Hs Hl. unfold zero_bloom_filter. rewrite <-Hl, init_bit_array_spec. cbn [rbind].
  eexists; split; [done|]. split.
  - unfold wf_filter; cbn. rewrite length_replicate. split_and!; [done..|].
    apply Forall_replicate. unfold is_u32; lia.
  - intros i Hi. cbn. rewrite array_bit_zero
      by (pose proof (index_in_range i (bf_filter f) ltac:(lia) Hi); lia). symmetry. apply bool_decide_eq_false. set_solver.
Qed.

Lemma zero_wf_filter f :
  wf_filter f -> exists f', zero_bloom_filter f = Ok f' /\ rep_filter f' ∅.
Proof. intros (? & ? & ? & ? & ?). by apply zero_bloom_filter_spec. Qed.

Lemma malloc_words_spec junk :
  exists a, malloc_words junk (2 ^ nb / BITS_PER_CHAR) = Ok a /\ Z.of_nat (length a) = 2 ^ (nb - 5).
Proof.
  unfold malloc_words, BITS_PER_CHAR. rewrite pow_split.
  assert (0 < 2 ^ (nb - 5)) by (apply Z.pow_pos_nonneg; lia).
  replace (32 * 2 ^ (nb - 5)) with (4 * 2 ^ (nb - 5) * 8) by lia. rewrite Z.div_mul by lia.
  rewrite (proj2 (Z.eqb_neq _ _)) by lia. cbn [negb c_assert rbind].
  eexists; split; [done|]. rewrite length_fmap, length_seq, Z.mul_comm, Z.div_mul by lia. lia.
Qed.

(** The sizes of a filter, as they are computed. *)
Lemma shl_bits : shl_int 1 nb = Ok (2 ^ nb).
Proof.
  unfold shl_int. rewrite (proj2 (Z.leb_le 0 nb)), (proj2 (Z.ltb_lt nb 32)) by lia. cbn [andb].
  rewrite Z.shiftl_1_l. assert (2 ^ nb <= 2 ^ 30) by (apply Z.pow_le_mono_r; lia).
  assert (0 < 2 ^ nb) by (apply Z.pow_pos_nonneg; lia). apply int_val_ok. unfold INT_MIN, INT_MAX. lia.
Qed.

Lemma mask_bits : Z.shiftr (2 ^ 32 - 1) (BITARRAY_BASE_SIZE - nb) = 2 ^ nb - 1.
Proof.
  unfold BITARRAY_BASE_SIZE. rewrite Z.shiftr_div_pow2 by lia.
  replace (2 ^ 32) with (2 ^ nb * 2 ^ (32 - nb)) by (rewrite <-Z.pow_add_r by lia; f_equal; lia).
  assert (0 < 2 ^ (32 - nb)) by (apply Z.pow_pos_nonneg; lia).
  replace (2 ^ nb * 2 ^ (32 - nb) - 1) with ((2 ^ nb - 1) * 2 ^ (32 - nb) + (2 ^ (32 - nb) - 1)) by lia.
  rewrite Z.div_add_l, Z.div_small by lia. lia.
Qed.

Lemma size_bits : 2 ^ nb / BITARRAY_BASE_SIZE = 2 ^ (nb - 5).
Proof. rewrite pow_split, Z.mul_comm. apply Z.div_mul. unfold BITARRAY_BASE_SIZE. lia. Qed.

Lemma create_bloom_filter_spec junk :
  exists f, create_bloom_filter junk nb = Ok f /\ rep_filter f ∅.
Proof.
  unfold create_bloom_filter.
  rewrite (proj2 (Z.ltb_lt nb (4 * BITS_PER_CHAR))) by (unfold BITS_PER_CHAR; lia).
  rewrite (proj2 (Z.leb_le 4 nb)), (proj2 (Z.leb_le nb 32)) by lia. cbn [c_assert rbind]. rewrite shl_bits. cbn [rbind].
  destruct (malloc_words_spec junk) as (a & -> & Ha). cbn [rbind]. rewrite mask_bits, size_bits.
  by apply zero_bloom_filter_spec.
Qed.

Lemma copy_empty_spec junk f :
  wf_filter f -> exists f', copy_bloom_filter junk f true = Ok f' /\ rep_filter f' ∅.
Proof.
  intros (Hb & Hm & Hs & Hl & Hu). unfold copy_bloom_filter. rewrite Hb.
  destruct (malloc_words_spec junk) as (a & -> & Ha). cbn [rbind].
  apply zero_bloom_filter_spec; cbn; [done..|]. by rewrite Hs.
Qed.

Lemma add_filter_loop la ra :
  length la = length ra ->
  exists a, for_loop (length la) (fun i a =>
        x ← aget a (Z.of_nat i); y ← aget ra (Z.of_nat i); aset a (Z.of_nat i) (Z.lor x y)) la = Ok a /\
    a = zip_with Z.lor la ra.
Proof.
  intros Hlen.
  destruct (for_loop_inv (fun i b => b = zip_with Z.lor (take i la) (take i ra) ++ drop i la) (length la)
    (fun i a => x ← aget a (Z.of_nat i); y ← aget ra (Z.of_nat i); aset a (Z.of_nat i) (Z.lor x y)) la)
    as (b & E & Hb); [done| |].
  - intros i b Hi ->.
    destruct (lookup_lt_is_Some_2 la i Hi) as [x Hx].
    destruct (lookup_lt_is_Some_2 ra i ltac:(lia)) as [y Hy].
    assert (length (zip_with Z.lor (take i la) (take i ra)) = i) as Hz
      by (rewrite length_zip_with, !length_take; lia).
    rewrite (drop_S _ _ _ Hx).
    rewrite (aget_Ok _ _ x); [|lia|].
    2: { rewrite Nat2Z.id, lookup_app_r, Hz, Nat.sub_diag by lia. done. }
    cbn [rbind]. rewrite (aget_Ok ra _ y) by (lia || by rewrite Nat2Z.id). cbn [rbind].
    rewrite aset_lt by (rewrite length_app, Hz; cbn [length]; rewrite length_drop; lia).
    eexists; split; [done|]. rewrite Nat2Z.id, insert_app_r_alt, Hz, Nat.sub_diag by lia. cbn.
    rewrite (take_S_r _ _ _ Hx), (take_S_r _ _ _ Hy), zip_with_app by (rewrite !length_take; lia).
    rewrite <-app_assoc. done.
  - exists b. split; [done|]. rewrite Hb, drop_all, app_nil_r, !take_ge by lia. done.
Qed.

Lemma add_filter_spec f g s t :
  rep_filter f s -> rep_filter g t ->
  exists f', add_filter f g = Ok f' /\ rep_filter f' (s ∪ t).
Proof.
  intros [(Hb & Hm & Hs & Hl & Hu) Hf] [(Hb' & Hm' & Hs' & Hl' & Hu') Hg].
  unfold add_filter. rewrite Hs, Hs', Hm, Hm', !Z.eqb_refl. cbn [c_assert rbind].
  assert (Z.to_nat (2 ^ (nb - 5)) = length (bf_filter f)) as -> by lia.
  destruct (add_filter_loop (bf_filter f) (bf_filter g)) as (a & -> & ->); [lia|]. cbn [rbind].
  eexists; split; [done|]. split.
  - unfold wf_filter; cbn. rewrite length_zip_with. split_and!; [done|done|done|lia|].
    apply Forall_lookup. intros i z Hz. apply lookup_zip_with_Some in Hz as (x & y & -> & Hx & Hy).
    apply (lor_bound 32); [lia | exact (Forall_lookup_1 is_u32 _ _ _ Hu Hx) | exact (Forall_lookup_1 is_u32 _ _ _ Hu' Hy)].
  - intros i Hi. cbn. specialize (Hf i Hi). specialize (Hg i Hi).
    pose proof (index_in_range i (bf_filter f) ltac:(lia) Hi) as Hr.
    destruct (lookup_lt_is_Some_2 (bf_filter f) (Z.to_nat (i / 32))) as [x Hx]; [lia|].
    destruct (lookup_lt_is_Some_2 (bf_filter g) (Z.to_nat (i / 32))) as [y Hy]; [lia|].
    unfold array_bit in *.
    rewrite (list_lookup_total_correct _ _ _ Hx) in Hf. rewrite (list_lookup_total_correct _ _ _ Hy) in Hg.
    erewrite list_lookup_total_correct by (rewrite lookup_zip_with, Hx, Hy; done).
    rewrite Z.lor_spec, Hf, Hg. rewrite <-bool_decide_or. apply bool_decide_ext. set_solver.
Qed.

(** ** The abstract ring *)

Record aring := ARing { slots : list (gset Z); agg : gset Z; cur : nat }.

Definition a_create (num : nat) : aring := ARing (replicate num ∅) ∅ 0.
Definition a_insert (d : sha_256_t) (a : aring) : aring :=
  ARing (<[cur a := digest_bits d ∪ default ∅ (slots a !! cur a)]> (slots a)) (digest_bits d ∪ agg a) (cur a).
Definition a_next (a : aring) : nat := if (S (cur a) <? length (slots a))%nat then S (cur a) else O.
Definition a_rotate (a : aring) : aring :=
  ARing (<[a_next a := ∅]> (slots a)) (⋃ (<[a_next a := ∅]> (slots a))) (a_next a).
Definition a_zero (a : aring) : aring := ARing (replicate (length (slots a)) ∅) ∅ 0.
Definition a_sync (a : aring) : aring := ARing (slots a) (⋃ slots a) (cur a).
Definition a_query (d : sha_256_t) (a : aring) : bool := bool_decide (digest_bits d ⊆ agg a).

(** ** Representation *)

Definition rep_group (g : bloom_filter_group_t) (l : list (gset Z)) : Prop :=
  group_size g = Z.of_nat (length l) /\ Forall2 rep_filter (filter_group g) l.

(** The members represent the slots; the aggregate has the right shape. *)
Definition rep_members (q : bloom_ring_queue_t) (a : aring) : Prop :=
  rep_group (brq_group q) (slots a) /\ wf_filter (brq_aggregate q) /\
  brq_current_index q = Z.of_nat (cur a) /\ (cur a < length (slots a))%nat /\
  Z.of_nat (length (slots a)) < 2 ^ 32.

(** And the aggregate filter represents the aggregate set. *)
Definition rep_ring (q : bloom_ring_queue_t) (a : aring) : Prop :=
  rep_members q a /\ rep_filter (brq_aggregate q) (agg a).

Lemma rep_group_lookup g l i s :
  rep_group g l -> l !! i = Some s ->
  exists f, filter_group g !! i = Some f /\ rep_filter f s /\ aget (filter_group g) (Z.of_nat i) = Ok f.
Proof.
  intros [_ H] Hi. destruct (Forall2_lookup_r _ _ _ _ _ H Hi) as (f & Hf & Hr).
  exists f. split_and!; [done..|]. apply aget_Ok; [lia | by rewrite Nat2Z.id].
Qed.

Lemma with_member_spec g l i s s' k :
  rep_group g l -> l !! i = Some s ->
  (forall f, rep_filter f s -> exists f', k f = Ok f' /\ rep_filter f' s') ->
  exists g', with_member g (Z.of_nat i) k = Ok g' /\ rep_group g' (<[i := s']> l).
Proof.
  intros Hg Hi Hk. destruct (rep_group_lookup g l i s Hg Hi) as (f & Hf & Hrep & E).
  unfold with_member. rewrite E. cbn [rbind]. destruct (Hk f Hrep) as (f' & -> & Hf'). cbn [rbind].
  rewrite aset_lt by (apply lookup_lt_Some in Hf; lia). cbn [rbind].
  eexists; split; [done|]. destruct Hg as [Hs Hfl]. split; cbn.
  - by rewrite length_insert.
  - rewrite Nat2Z.id. by apply Forall2_insert.
Qed.

Lemma member_range g l i : rep_group g l -> (i < length l)%nat -> (Z.of_nat i <? group_size g) = true.
Proof. intros [-> _] ?. apply Z.ltb_lt. lia. Qed.

Lemma elem_of_ring (l : list (gset Z)) x : x ∈ ⋃ l <-> exists i s, l !! i = Some s /\ x ∈ s.
Proof.
  rewrite elem_of_union_list. setoid_rewrite list_elem_of_lookup. split.
  - intros (s & [i Hi] & Hx). eauto.
  - intros (i & s & Hi & Hx). eauto.
Qed.

Lemma elem_of_ring_insert (l : list (gset Z)) i t x :
  (i < length l)%nat ->
  (x ∈ ⋃ (<[i := t]> l)) <-> (x ∈ t) \/ exists j s, j <> i /\ l !! j = Some s /\ x ∈ s.
Proof.
  intros Hi. rewrite elem_of_ring. split.
  - intros (j & s & Hj & Hx). apply list_lookup_insert_Some in Hj as [(<- & <- & _)|(Hne & Hj)]; eauto 10.
  - intros [Hx|(j & s & Hne & Hj & Hx)].
    + exists i, t. by rewrite list_lookup_insert_eq.
    + exists j, s. by rewrite list_lookup_insert_ne by congruence.
Qed.

Lemma union_insert_add (l : list (gset Z)) i t :
  (i < length l)%nat -> ⋃ (<[i := t ∪ default ∅ (l !! i)]> l) = t ∪ ⋃ l.
Proof.
  intros Hi. destruct (lookup_lt_is_Some_2 l i Hi) as [s Hs]. apply set_eq. intros x.
  rewrite elem_of_ring_insert, Hs, !elem_of_union, elem_of_ring by done. cbn. split.
  - intros [[?|?]|(j & s' & _ & ? & ?)]; eauto 10.
  - intros [?|(j & s' & Hj & Hx)]; [eauto|].
    destruct (decide (j = i)) as [->|]; [|eauto 10]. left. right. congruence.
Qed.

Lemma insert_ring_spec q a d :
  rep_ring q a ->
  exists q', insert_digest_bloom_ring_queue q d = Ok q' /\ rep_ring q' (a_insert d a).
Proof.
  intros [(Hg & Hw & Hc & Hlt & Hlen) Hagg]. unfold insert_digest_bloom_ring_queue.
  destruct (insert_digest_spec _ _ d Hagg) as (f & -> & Hf). cbn [rbind].
  destruct (lookup_lt_is_Some_2 (slots a) (cur a) Hlt) as [s Hs].
  unfold insert_digest_to_group_member. rewrite Hc, (member_range _ _ _ Hg Hlt). cbn [c_assert rbind].
  destruct (with_member_spec (brq_group q) (slots a) (cur a) s (digest_bits d ∪ s)
              (fun f => insert_digest f d) Hg Hs) as (g & Eg & Hg').
  { intros f0 Hf0. by apply insert_digest_spec. }
  unfold with_member in Eg. rewrite Eg. cbn [rbind]. eexists; split; [done|].
  unfold a_insert. split; [split_and!|]; cbn; rewrite ?length_insert; try done.
  - by rewrite Hs.
  - apply Hf.
Qed.

Lemma next_index_spec q a :
  rep_members q a -> bloom_ring_queue_next_index q = Z.of_nat (a_next a).
Proof.
  intros ([Hgs _] & _ & Hc & Hlt & Hlen). unfold bloom_ring_queue_next_index, a_next.
  rewrite Hc, Hgs, u32_id by (unfold is_u32; lia).
  destruct (Z.leb_spec (Z.of_nat (length (slots a))) (Z.of_nat (cur a) + 1)),
    (Nat.ltb_spec (S (cur a)) (length (slots a))); lia.
Qed.

Lemma a_next_lt a : (cur a < length (slots a))%nat -> (a_next a < length (slots a))%nat.
Proof. intros. unfold a_next. destruct (Nat.ltb_spec (S (cur a)) (length (slots a))); lia. Qed.

(** The loop of [rotate_bloom_ring_queue]: [tmp] collects the members. *)
Lemma collect_members g l tmp :
  rep_group g l -> rep_filter tmp ∅ ->
  exists f, for_loop (Z.to_nat (group_size g)) (fun i tmp =>
      f ← aget (filter_group g) (Z.of_nat i); add_filter tmp f) tmp = Ok f /\ rep_filter f (⋃ l).
Proof.
  intros Hg Ht. rewrite (proj1 Hg), Nat2Z.id.
  destruct (for_loop_inv (fun i f => rep_filter f (⋃ take i l)) (length l)
    (fun i tmp => f ← aget (filter_group g) (Z.of_nat i); add_filter tmp f) tmp) as (f & E & Hf);
    [done| |].
  - intros i f Hi Hf. destruct (lookup_lt_is_Some_2 l i Hi) as [s Hs].
    destruct (rep_group_lookup g l i s Hg Hs) as (m & _ & Hm & ->). cbn [rbind].
    rewrite (take_S_r _ _ _ Hs), union_list_app_L. cbn [union_list foldr].
    rewrite union_empty_r_L. by apply add_filter_spec.
  - exists f. by rewrite take_ge in Hf.
Qed.

Lemma memcpy_whole f g s :
  wf_filter f -> rep_filter g s ->
  exists a, memcpy_words (bf_filter f) (bf_filter g) (bf_bitsize g / BITS_PER_CHAR) = Ok a /\
    rep_filter (set_filter f a) s.
Proof.
  intros (Hb & Hm & Hs & Hl & Hu) [(Hb' & Hm' & Hs' & Hl' & Hu') Hg]. rewrite Hb'.
  unfold memcpy_words, BITS_PER_CHAR. rewrite pow_split.
  replace (32 * 2 ^ (nb - 5)) with (2 ^ (nb - 5) * 4 * 8) by lia. rewrite !Z.div_mul by lia.
  rewrite !(proj2 (Nat.leb_le _ _)) by lia. cbn [andb]. eexists; split; [done|].
  rewrite take_ge, drop_ge, app_nil_r by lia. split; [|done].
  unfold wf_filter; cbn. split_and!; [done..|lia|done].
Qed.

Lemma rotate_ring_spec junk q a :
  rep_ring q a -> exists q', rotate_bloom_ring_queue junk q = Ok q' /\ rep_ring q' (a_rotate a).
Proof.
  intros [Hmem Hagg]. pose proof Hmem as (Hg & Hw & Hc & Hlt & Hlen).
  unfold rotate_bloom_ring_queue.
  destruct (copy_empty_spec junk _ Hw) as (tmp & -> & Htmp). cbn [rbind].
  rewrite (next_index_spec q a Hmem). pose proof (a_next_lt a Hlt) as Hn.
  destruct (lookup_lt_is_Some_2 (slots a) (a_next a) Hn) as [s Hs].
  destruct (with_member_spec _ _ _ s ∅ zero_bloom_filter Hg Hs) as (g & -> & Hg').
  { intros f [Hf _]. by apply zero_wf_filter. }
  cbn [rbind]. destruct (collect_members g _ tmp Hg' Htmp) as (f & -> & Hf). cbn [rbind].
  unfold advance_bloom_ring_queue. cbn [brq_aggregate brq_group brq_current_index].
  destruct (memcpy_whole (brq_aggregate q) f _ Hw Hf) as (w & -> & Hw'). cbn [rbind].
  eexists; split; [done|].
  assert (bloom_ring_queue_next_index (RingQueue g (brq_aggregate q) (brq_current_index q)) =
          Z.of_nat (a_next a)) as ->.
  { rewrite <-(next_index_spec q a Hmem). unfold bloom_ring_queue_next_index. cbn.
    rewrite (proj1 Hg'), (proj1 Hg), length_insert. done. }
  split; [split_and!|]; cbn; rewrite ?length_insert; try done. apply Hw'.
Qed.

Lemma zero_ring_spec q a :
  rep_members q a -> exists q', zero_bloom_ring_queue q = Ok q' /\ rep_ring q' (a_zero a).
Proof.
  intros (Hg & Hw & Hc & Hlt & Hlen). unfold zero_bloom_ring_queue.
  destruct (zero_wf_filter _ Hw) as (f & -> & Hf). cbn [rbind].
  assert (Z.to_nat (group_size (brq_group q)) = length (slots a)) as -> by (rewrite (proj1 Hg); lia).
  destruct (for_loop_inv (fun i g => rep_group g (replicate i ∅ ++ drop i (slots a))) (length (slots a))
    (fun i g => with_member g (Z.of_nat i) zero_bloom_filter) (brq_group q)) as (g & -> & Hg').
  - done.
  - intros i g Hi Hgi. destruct (lookup_lt_is_Some_2 (slots a) i Hi) as [s Hs].
    destruct (with_member_spec g _ i s ∅ zero_bloom_filter Hgi) as (g' & E & Hg').
    + rewrite lookup_app_r; rewrite length_replicate; [|lia].
      by rewrite Nat.sub_diag, lookup_drop, Nat.add_0_r.
    + intros f' [Hf' _]. by apply zero_wf_filter.
    + exists g'. split; [done|].
      rewrite insert_app_r_alt, length_replicate, Nat.sub_diag in Hg' by (rewrite length_replicate; lia).
      rewrite (drop_S _ _ _ Hs) in Hg'. cbn in Hg'.
      rewrite replicate_S_end, <-app_assoc. done.
  - cbn [rbind]. eexists; split; [done|]. rewrite drop_all, app_nil_r in Hg'.
    split; [split_and!|]; cbn; rewrite ?length_replicate; try done; [apply Hf | lia].
Qed.

(** [sync_aggregate] visits the members cyclically from the current one. *)
Lemma cyclic_union (l : list (gset Z)) c :
  (c < length l)%nat ->
  ⋃ ((fun k => default ∅ (l !! ((c + k) mod length l)%nat)) <$> seq 0 (length l)) = ⋃ l.
Proof.
  intros Hc. apply set_eq. intros x. rewrite !elem_of_ring. split.
  - intros (i & s & Hi & Hx). rewrite list_lookup_fmap in Hi.
    destruct (seq 0 (length l) !! i) as [k|] eqn:Ek; [|done]. cbn in Hi. injection Hi as <-.
    destruct (l !! ((c + k) mod length l)%nat) as [s|] eqn:Es; [eauto|set_solver].
  - intros (i & s & Hi & Hx). pose proof (lookup_lt_Some _ _ _ Hi) as Hlt.
    exists ((i + (length l - c)) mod length l)%nat, s. split; [|done].
    rewrite list_lookup_fmap, lookup_seq_lt by (apply Nat.mod_upper_bound; lia). cbn. f_equal.
    rewrite Nat.Div0.add_mod_idemp_r. replace (c + (i + (length l - c)))%nat with (i + 1 * length l)%nat by lia.
    rewrite Nat.Div0.mod_add, Nat.mod_small, Hi by done. done.
Qed.

Lemma succ_mod_wrap c n : (c < n)%nat -> (S c mod n)%nat = if (n <=? S c)%nat then O else S c.
Proof.
  intros. destruct (Nat.leb_spec n (S c)).
  - replace (S c) with n by lia. apply Nat.Div0.mod_same.
  - apply Nat.mod_small. lia.
Qed.

Lemma sync_aggregate_spec q a :
  rep_members q a -> exists q', sync_aggregate q = Ok q' /\ rep_ring q' (a_sync a).
Proof.
  intros Hmem. pose proof Hmem as (Hg & Hw & Hc & Hlt & Hlen). unfold sync_aggregate.
  destruct (zero_wf_filter _ Hw) as (f & -> & Hf). cbn [rbind].
  set (l := slots a) in *. set (n := length l) in *. set (g := brq_group q) in *.
  assert (group_size g = Z.of_nat n) as Hgs by apply Hg. rewrite Hgs, Nat2Z.id.
  set (body := fun (_ : nat) (st : Z * bloom_filter_t) => _).
  destruct (for_loop_inv (fun i st => st.1 = Z.of_nat ((cur a + i) mod n) /\
      rep_filter st.2 (⋃ ((fun k => default ∅ (l !! ((cur a + k) mod n)%nat)) <$> seq 0 i)))
      n body (brq_current_index q, f)) as (st & -> & Hst).
  - rewrite Nat.add_0_r, Nat.mod_small by done. done.
  - intros i [ix f'] Hi [Hix Hf']. cbn in Hix, Hf'. subst ix. unfold body.
    pose proof (Nat.mod_upper_bound (cur a + i) n ltac:(lia)) as Hm.
    set (m := ((cur a + i) mod n)%nat) in *.
    destruct (lookup_lt_is_Some_2 l m Hm) as [s Hs].
    destruct (rep_group_lookup g l m s Hg Hs) as (fm & _ & Hfm & ->). cbn [rbind].
    destruct (add_filter_spec f' fm _ s Hf' Hfm) as (f2 & -> & Hf2). cbn [rbind].
    eexists; split; [done|]. cbn [fst snd]. split.
    + rewrite u32_id by (unfold is_u32; lia).
      replace (cur a + S i)%nat with (S (cur a + i)) by lia.
      assert ((S (cur a + i)) mod n = (S m) mod n)%nat as ->.
      { unfold m. change (S ((cur a + i) mod n)) with (1 + (cur a + i) mod n)%nat.
        by rewrite Nat.Div0.add_mod_idemp_r. }
      rewrite succ_mod_wrap by done.
      destruct (Z.leb_spec (Z.of_nat n) (Z.of_nat m + 1)), (Nat.leb_spec n (S m)); lia.
    + rewrite seq_S, fmap_app, union_list_app_L. cbn [fmap list_fmap union_list foldr Nat.add].
      fold m. rewrite Hs, union_empty_r_L. done.
  - destruct st as [ix f']. cbn [rbind snd]. destruct Hst as [_ Hf']. cbn in Hf'.
    unfold n in Hf'. rewrite cyclic_union in Hf' by done.
    eexists; split; [done|]. split; [|done]. split_and!; [done | apply Hf' | done..].
Qed.

Lemma create_group_spec junk num :
  0 < num -> exists g, create_bloom_filter_group junk num nb = Ok g /\ rep_group g (replicate (Z.to_nat num) ∅).
Proof.
  intros Hnum. unfold create_bloom_filter_group. rewrite (proj2 (Z.ltb_lt 0 num)) by lia. cbn [c_assert rbind].
  destruct (for_loop_inv (fun i l => Forall2 rep_filter l (replicate i ∅)) (Z.to_nat num)
    (fun i l => f ← create_bloom_filter (junk i) nb; Ok (l ++ [f])) []) as (l & -> & Hl).
  - constructor.
  - intros i l _ Hl. destruct (create_bloom_filter_spec (junk i)) as (f & -> & Hf). cbn [rbind].
    eexists; split; [done|]. rewrite replicate_S_end. apply Forall2_app; [done|]. constructor; [done | constructor].
  - eexists; split; [done|]. split; cbn; [rewrite length_replicate; lia | done].
Qed.

Lemma create_ring_spec junk num :
  0 < num < 2 ^ 32 ->
  exists q, create_bloom_ring_queue junk num nb = Ok q /\ rep_ring q (a_create (Z.to_nat num)).
Proof.
  intros Hnum. unfold create_bloom_ring_queue. destruct (create_group_spec junk num ltac:(lia)) as (g & -> & Hg).
  destruct (create_bloom_filter_spec (junk (Z.to_nat num))) as (f & -> & Hf). cbn [rbind].
  eexists; split; [done|]. split; [split_and!|]; cbn; rewrite ?length_replicate; try lia; try done. apply Hf.
Qed.

(** ** Absolute updates *)

(** The words of [b] or-ed into [a] from offset [off]. *)
Definition or_words (a : list Z) (off : nat) (b : list Z) : list Z :=
  take off a ++ zip_with Z.lor (drop off a) b ++ drop (off + length b) a.

Lemma lookup_or_words a off b i x :
  (off + length b <= length a)%nat -> a !! i = Some x ->
  or_words a off b !! i =
  Some (if decide (off <= i < off + length b)%nat then Z.lor x (b !!! (i - off)%nat) else x).
Proof.
  intros Hl Hx. pose proof (lookup_lt_Some _ _ _ Hx) as Hi. unfold or_words.
  destruct (decide (i < off)%nat) as [Ho|Ho].
  { rewrite lookup_app_l by (rewrite length_take; lia). rewrite lookup_take_lt by done.
    rewrite decide_False by lia. done. }
  rewrite lookup_app_r by (rewrite length_take; lia). rewrite length_take_le by lia.
  assert (length (zip_with Z.lor (drop off a) b) = length b) as Hz
    by (rewrite length_zip_with, length_drop; lia).
  destruct (decide (off <= i < off + length b)%nat).
  - rewrite lookup_app_l by lia.
    destruct (lookup_lt_is_Some_2 b (i - off)) as [y Hy]; [lia|].
    rewrite lookup_zip_with, lookup_drop. replace (off + (i - off))%nat with i by lia.
    rewrite Hx, Hy. cbn. by rewrite (list_lookup_total_correct _ _ _ Hy).
  - rewrite lookup_app_r by lia. rewrite Hz, lookup_drop.
    by replace (off + length b + (i - off - length b))%nat with i by lia.
Qed.

Lemma length_or_words a off b : (off + length b <= length a)%nat -> length (or_words a off b) = length a.
Proof. intros. unfold or_words. rewrite !length_app, length_zip_with, length_take, !length_drop. lia. Qed.

(** One more word. *)
Lemma or_words_step a off b y i x :
  i = (off + length b)%nat -> (i < length a)%nat -> a !! i = Some x ->
  <[i := Z.lor x y]> (or_words a off b) = or_words a off (b ++ [y]).
Proof.
  intros -> Hi Hx.
  assert (length (<[(off + length b)%nat := Z.lor x y]> (or_words a off b)) = length a) as L1
    by (rewrite length_insert, length_or_words; lia).
  assert (length (or_words a off (b ++ [y])) = length a) as L2
    by (apply length_or_words; rewrite length_app; cbn; lia).
  apply list_eq. intros k. destruct (decide (k < length a)%nat) as [Hk|Hk].
  2: { rewrite !lookup_ge_None_2 by lia. done. }
  destruct (lookup_lt_is_Some_2 a k Hk) as [z Hz].
  rewrite (lookup_or_words a off (b ++ [y]) k z); [|rewrite length_app; cbn; lia | done].
  rewrite length_app. cbn [length]. destruct (decide (k = off + length b)%nat) as [->|Hne].
  - rewrite list_lookup_insert_eq by (rewrite length_or_words; lia).
    rewrite decide_True by lia. rewrite Hx in Hz. injection Hz as <-.
    rewrite lookup_total_app_r by lia. by replace (off + length b - off - length b)%nat with 0%nat by lia.
  - rewrite list_lookup_insert_ne by done. rewrite (lookup_or_words a off b k z) by (lia || done).
    f_equal. repeat case_decide; try lia. by rewrite lookup_total_app_l by lia.
Qed.

(** The values for which the loop of [insert_absolute_bloom_ring_queue] stays
    inside the filter and the buffer. *)
Definition valid_chunk (buffer : list Z) (sz index : Z) : Prop :=
  0 < sz /\ sz <= Z.of_nat (length buffer) /\ 0 <= index /\ (index + 1) * sz <= 2 ^ (nb - 5) /\
  Forall is_u32 buffer.

Lemma absolute_loop f buffer sz index :
  wf_filter f -> valid_chunk buffer sz index ->
  for_loop (Z.to_nat sz) (fun i a =>
     _ ← c_assert (u32 (index + Z.of_nat i) <? bf_size f);
     x ← aget a (u32 (index * sz + Z.of_nat i));
     y ← aget buffer (Z.of_nat i);
     aset a (u32 (index * sz + Z.of_nat i)) (Z.lor x y)) (bf_filter f) =
  Ok (or_words (bf_filter f) (Z.to_nat (index * sz)) (take (Z.to_nat sz) buffer)).
Proof.
  intros (Hb & Hm & Hs & Hl & Hu) (Hsz & Hbuf & Hix & Hfit & _).
  assert (2 ^ (nb - 5) <= 2 ^ 25) by (apply Z.pow_le_mono_r; lia).
  set (off := Z.to_nat (index * sz)). set (body := fun i a => _).
  assert (0 <= index * sz /\ index * sz + sz <= 2 ^ (nb - 5)) as [Ho1 Ho2] by lia.
  destruct (for_loop_inv (fun i a => a = or_words (bf_filter f) off (take i buffer)) (Z.to_nat sz)
              body (bf_filter f)) as (a & -> & ->); [| |done].
  - unfold or_words. rewrite take_0, Nat.add_0_r. cbn. rewrite zip_with_nil_r. by rewrite app_nil_l, take_drop.
  - intros i a Hi ->. unfold body.
    rewrite u32_id by (unfold is_u32; nia). rewrite (proj2 (Z.ltb_lt _ _)) by nia. cbn [c_assert rbind].
    rewrite !u32_id by (unfold is_u32; lia).
    assert (length (take i buffer) = i) as Hti by (rewrite length_take; lia).
    destruct (lookup_lt_is_Some_2 (bf_filter f) (off + i)) as [x Hx]; [lia|].
    destruct (lookup_lt_is_Some_2 buffer i) as [y Hy]; [lia|].
    rewrite (aget_Ok _ _ x); [|lia|].
    2: { replace (Z.to_nat (index * sz + Z.of_nat i)) with (off + i)%nat by lia.
         rewrite (lookup_or_words _ off (take i buffer) _ x); [|lia|done]. by rewrite decide_False by lia. }
    cbn [rbind]. rewrite (aget_Ok buffer _ y) by (lia || by rewrite Nat2Z.id). cbn [rbind].
    rewrite aset_lt by (rewrite length_or_words; lia). eexists; split; [done|].
    replace (Z.to_nat (index * sz + Z.of_nat i)) with (off + i)%nat by lia.
    rewrite (take_S_r _ _ _ Hy). apply or_words_step; [lia | lia | done].
Qed.

(** The positions a chunk of words covers. *)
Definition chunk_bits (buffer : list Z) (sz index : Z) : gset Z :=
  list_to_set (base.filter (fun j =>
    index * sz * 32 <= j < (index + 1) * sz * 32 /\
    Z.testbit (buffer !!! Z.to_nat (j / 32 - index * sz)) (j mod 32) = true) (seqZ 0 (2 ^ nb))).

Lemma div32_range lo hi j : lo * 32 <= j < hi * 32 <-> lo <= j / 32 < hi.
Proof.
  pose proof (Z.div_mod j 32 ltac:(lia)). pose proof (Z.mod_pos_bound j 32 ltac:(lia)). lia.
Qed.

Lemma rep_or_words f s buffer sz index :
  rep_filter f s -> valid_chunk buffer sz index ->
  rep_filter (set_filter f (or_words (bf_filter f) (Z.to_nat (index * sz)) (take (Z.to_nat sz) buffer)))
    (chunk_bits buffer sz index ∪ s).
Proof.
  intros [(Hb & Hm & Hs & Hl & Hu) Hf] (Hsz & Hbuf & Hix & Hfit & Hub).
  set (off := Z.to_nat (index * sz)). set (b := take (Z.to_nat sz) buffer).
  assert (length b = Z.to_nat sz) as Hlb by (unfold b; rewrite length_take; lia).
  assert (off + length b <= length (bf_filter f))%nat as Hoff by lia.
  split.
  - unfold wf_filter; cbn. rewrite length_or_words by done. split_and!; try done.
    apply Forall_lookup. intros i z Hz.
    destruct (lookup_lt_is_Some_2 (bf_filter f) i) as [x Hx].
    { apply lookup_lt_Some in Hz. by rewrite length_or_words in Hz. }
    rewrite (lookup_or_words _ _ _ _ _ Hoff Hx) in Hz. injection Hz as <-.
    pose proof (Forall_lookup_1 is_u32 _ _ _ Hu Hx) as Hxu. case_decide; [|done].
    apply (lor_bound 32); [lia | done |]. apply (lookup_total_Forall is_u32 b); [by apply Forall_take|lia].
  - intros j Hj. cbn. specialize (Hf j Hj). unfold array_bit in *.
    pose proof (index_in_range j (bf_filter f) ltac:(lia) Hj) as Hr.
    destruct (lookup_lt_is_Some_2 (bf_filter f) (Z.to_nat (j / 32))) as [x Hx]; [lia|].
    rewrite (list_lookup_total_correct _ _ _ Hx) in Hf.
    rewrite (list_lookup_total_correct _ _ _ (lookup_or_words _ _ _ _ _ Hoff Hx)).
    assert (j ∈ chunk_bits buffer sz index <->
      (off <= Z.to_nat (j / 32) < off + length b)%nat /\
      Z.testbit (b !!! (Z.to_nat (j / 32) - off)%nat) (j mod 32) = true) as Hc.
    { unfold chunk_bits. rewrite elem_of_list_to_set, list_elem_of_filter, elem_of_seqZ.
      rewrite div32_range. assert (0 <= index * sz) by nia.
      split.
      - intros ([Hrange Htb] & _). split; [lia|]. unfold b. rewrite lookup_total_take_lt by lia.
        by replace (Z.to_nat (j / 32) - off)%nat with (Z.to_nat (j / 32 - index * sz)) by lia.
      - intros [Hrange Htb]. split; [|lia]. split; [lia|]. unfold b in Htb.
        rewrite lookup_total_take_lt in Htb by lia.
        by replace (Z.to_nat (j / 32 - index * sz)) with (Z.to_nat (j / 32) - off)%nat by lia. }
    destruct (decide (off <= Z.to_nat (j / 32) < off + length b)%nat) as [Hd|Hd].
    + rewrite Z.lor_spec, Hf. apply eq_true_iff_eq.
      rewrite orb_true_iff, !bool_decide_eq_true, elem_of_union, Hc. naive_solver.
    + rewrite Hf. apply bool_decide_ext. rewrite elem_of_union, Hc. naive_solver.
Qed.

Definition a_absolute (buffer : list Z) (size index : Z) (buf_index : nat) (a : aring) : aring :=
  let sz := Z.min size (2 ^ (nb - 5)) in
  ARing (<[buf_index := chunk_bits buffer sz index ∪ default ∅ (slots a !! buf_index)]> (slots a))
        (agg a) (cur a).

Lemma insert_absolute_spec q a buffer size index buf_index :
  rep_ring q a -> (buf_index < length (slots a))%nat ->
  valid_chunk buffer (Z.min size (2 ^ (nb - 5))) index ->
  exists q', insert_absolute_bloom_ring_queue q buffer size index (Z.of_nat buf_index) = Ok q' /\
    rep_ring q' (a_absolute buffer size index buf_index a).
Proof.
  intros [(Hg & Hw & Hc & Hlt & Hlen) Hagg] Hbi Hv. unfold insert_absolute_bloom_ring_queue.
  rewrite (member_range _ _ _ Hg Hbi). cbn [c_assert rbind].
  destruct (lookup_lt_is_Some_2 (slots a) buf_index Hbi) as [s Hs].
  set (sz := Z.min size (2 ^ (nb - 5))) in *.
  match goal with |- context [with_member _ _ ?f] => set (k := f) end.
  destruct (with_member_spec (brq_group q) (slots a) buf_index s (chunk_bits buffer sz index ∪ s) k Hg Hs)
    as (g & -> & Hg').
  - intros f Hf. pose proof Hf as [Hwf _]. unfold k.
    assert ((if bf_size f <? size then bf_size f else size) = sz) as ->.
    { pose proof Hwf as (_ & _ & -> & _). unfold sz. destruct (Z.ltb_spec (2 ^ (nb - 5)) size); lia. }
    rewrite absolute_loop by done. cbn [rbind]. eexists; split; [done|]. by apply rep_or_words.
  - cbn [rbind]. eexists; split; [done|]. unfold a_absolute.
    split; [split_and!|]; cbn; rewrite ?length_insert; try done. by rewrite Hs.
Qed.

(** ** Sequences of operations *)

Inductive ring_op :=
| OpInsert (d : sha_256_t)
| OpRotate (junk : nat -> Z)
| OpZero
| OpSync
| OpAbsolute (buffer : list Z) (size index : Z) (buf_index : nat).

Definition ring_step (q : bloom_ring_queue_t) (o : ring_op) : Res bloom_ring_queue_t :=
  match o with
  | OpInsert d => insert_digest_bloom_ring_queue q d
  | OpRotate junk => rotate_bloom_ring_queue junk q
  | OpZero => zero_bloom_ring_queue q
  | OpSync => sync_aggregate q
  | OpAbsolute b s i k => insert_absolute_bloom_ring_queue q b s i (Z.of_nat k)
  end.

Definition a_step (a : aring) (o : ring_op) : aring :=
  match o with
  | OpInsert d => a_insert d a
  | OpRotate _ => a_rotate a
  | OpZero => a_zero a
  | OpSync => a_sync a
  | OpAbsolute b s i k => a_absolute b s i k a
  end.

(** An absolute update must name a member of the ring and stay inside it. *)
Definition valid_op (num : nat) (o : ring_op) : Prop :=
  match o with
  | OpAbsolute b s i k => (k < num)%nat /\ valid_chunk b (Z.min s (2 ^ (nb - 5))) i
  | _ => True
  end.

Fixpoint ring_run (q : bloom_ring_queue_t) (ops : list ring_op) : Res bloom_ring_queue_t :=
  match ops with
  | [] => Ok q
  | o :: t => q' ← ring_step q o; ring_run q' t
  end.

Definition a_run (a : aring) (ops : list ring_op) : aring := foldl a_step a ops.

Lemma ring_step_spec q a o :
  rep_ring q a -> valid_op (length (slots a)) o ->
  exists q', ring_step q o = Ok q' /\ rep_ring q' (a_step a o).
Proof.
  intros H Hv. destruct o; cbn.
  - by apply insert_ring_spec.
  - by apply rotate_ring_spec.
  - apply zero_ring_spec, H.
  - apply sync_aggregate_spec, H.
  - apply insert_absolute_spec; [done | apply Hv | apply Hv].
Qed.

Lemma length_a_step a o : length (slots (a_step a o)) = length (slots a).
Proof. destruct o; cbn; by rewrite ?length_insert, ?length_replicate. Qed.

Lemma length_a_run a ops : length (slots (a_run a ops)) = length (slots a).
Proof.
  revert a. induction ops as [|o ops IH]; intros a; [done|]. cbn. rewrite IH. apply length_a_step.
Qed.

Lemma ring_run_spec ops q a :
  rep_ring q a -> Forall (valid_op (length (slots a))) ops ->
  exists q', ring_run q ops = Ok q' /\ rep_ring q' (a_run a ops).
Proof.
  revert q a. induction ops as [|o ops IH]; intros q a H Hv; cbn [ring_run a_run foldl]; [eauto|].
  inversion_clear Hv as [|? ? Ho Hops].
  destruct (ring_step_spec q a o H Ho) as (q1 & -> & H1). cbn [rbind]. apply IH; [done|].
  by rewrite length_a_step.
Qed.

Lemma ring_run_app q ops1 ops2 : ring_run q (ops1 ++ ops2) = (q' ← ring_run q ops1; ring_run q' ops2).
Proof.
  revert q. induction ops1 as [|o ops1 IH]; intros q; [done|]. cbn [ring_run app].
  destruct (ring_step q o); cbn [rbind]; [apply IH | done].
Qed.

Lemma is_in_ring_spec q a d : rep_ring q a -> is_in_ring_queue q d = Ok (a_query d a).
Proof. intros [_ H]. by apply is_in_array_spec. Qed.

(** *** What the ring remembers *)

Lemma cur_a_step a o : (cur a < length (slots a))%nat -> (cur (a_step a o) < length (slots a))%nat.
Proof. destruct o; cbn; intros; [done | by apply a_next_lt | lia | done | done]. Qed.

Lemma cur_a_run a ops : (cur a < length (slots a))%nat -> (cur (a_run a ops) < length (slots a))%nat.
Proof.
  revert a. induction ops as [|o ops IH]; intros a H; [done|]. cbn.
  rewrite <-(length_a_step a o). apply IH. rewrite length_a_step. by apply cur_a_step.
Qed.

(** How many rotations happen before slot [k] is emptied: the distance from
    the current slot to [k] around the ring, counting a full turn for the
    current slot itself. *)
Definition rotations_left (a : aring) (k : nat) : nat :=
  if (k <=? cur a)%nat then (k + length (slots a) - cur a)%nat else (k - cur a)%nat.

Lemma rotations_left_rotate a k :
  (cur a < length (slots a))%nat -> (k < length (slots a))%nat ->
  if decide (a_next a = k) then rotations_left a k = 1%nat
  else (rotations_left (a_rotate a) k + 1 = rotations_left a k)%nat.
Proof.
  intros Hc Hk. unfold rotations_left, a_rotate. cbn [cur slots]. rewrite length_insert.
  unfold a_next. destruct (Nat.ltb_spec (S (cur a)) (length (slots a))); case_decide;
    repeat match goal with |- context [(?x <=? ?y)%nat] => destruct (Nat.leb_spec x y) end; lia.
Qed.

Fixpoint count_rotations (ops : list ring_op) : nat :=
  match ops with
  | [] => O
  | OpRotate _ :: t => S (count_rotations t)
  | _ :: t => count_rotations t
  end.

(** A bit that is in slot [k] and in the aggregate stays in both until slot
    [k] is emptied. *)
Definition remembered (a : aring) (k : nat) (x : Z) : Prop :=
  (exists s, slots a !! k = Some s /\ x ∈ s) /\ x ∈ agg a.

Lemma remembered_insert_slot (l : list (gset Z)) k x i t (s : gset Z) :
  l !! k = Some s -> x ∈ s -> exists s', <[i := t ∪ default ∅ (l !! i)]> l !! k = Some s' /\ x ∈ s'.
Proof.
  intros Hs Hx. destruct (decide (i = k)) as [->|Hne].
  - exists (t ∪ s). rewrite list_lookup_insert_eq, Hs by (by eapply lookup_lt_Some). set_solver.
  - exists s. by rewrite list_lookup_insert_ne.
Qed.

Lemma remembered_step a o k x :
  (cur a < length (slots a))%nat -> remembered a k x -> o <> OpZero ->
  (forall junk, o = OpRotate junk -> a_next a <> k) -> remembered (a_step a o) k x.
Proof.
  intros Hc [(s & Hs & Hx) Ha] Hz Hr. destruct o as [d|junk| | |b sz ix m]; [| |done| |].
  - split; [by eapply remembered_insert_slot | cbn; set_solver].
  - assert (slots (a_rotate a) !! k = Some s) as Hs'
      by (cbn; rewrite list_lookup_insert_ne; [done | by eapply Hr]).
    split; [eauto | apply elem_of_ring; eauto].
  - split; [eauto | apply elem_of_ring; eauto].
  - split; [by eapply remembered_insert_slot | done].
Qed.

Lemma slot_kept ops a k x :
  (cur a < length (slots a))%nat -> remembered a k x ->
  OpZero ∉ ops -> (count_rotations ops < rotations_left a k)%nat -> remembered (a_run a ops) k x.
Proof.
  revert a. induction ops as [|o ops IH]; intros a Hc Hx Hz Hn; [done|]. cbn [a_run foldl].
  pose proof Hx as [(s & Hs & _) _]. pose proof (lookup_lt_Some _ _ _ Hs) as Hk.
  assert (OpZero ∉ ops /\ o <> OpZero) as [Hz' Hoz] by set_solver.
  pose proof (rotations_left_rotate a k Hc Hk) as Hr.
  apply IH; [rewrite length_a_step; by apply cur_a_step | | done |].
  - apply remembered_step; try done. intros junk ->. case_decide; [cbn in Hn; lia | done].
  - destruct o as [d|junk| | |b sz ix m]; cbn in Hn |- *; [| |done| |].
    + unfold rotations_left in *. cbn. by rewrite length_insert.
    + case_decide; lia.
    + done.
    + unfold rotations_left in *. cbn. by rewrite length_insert.
Qed.

(** The bits of an inserted digest stay until the ring has turned once. *)
Lemma inserted_kept a d ops :
  (cur a < length (slots a))%nat -> OpZero ∉ ops ->
  (count_rotations ops < length (slots a))%nat ->
  a_query d (a_run (a_insert d a) ops) = true.
Proof.
  intros Hc Hz Hn. unfold a_query. apply bool_decide_eq_true. intros x Hx.
  apply (slot_kept ops (a_insert d a) (cur a) x); try done.
  - cbn. by rewrite length_insert.
  - split; [|cbn; set_solver]. eexists. split; [cbn; by rewrite list_lookup_insert_eq | set_solver].
  - unfold rotations_left. cbn. rewrite length_insert, Nat.leb_refl. lia.
Qed.

(** Bits of the operations' own insertions. *)
Fixpoint inserted_bits (ops : list ring_op) : gset Z :=
  match ops with
  | [] => ∅
  | OpInsert d :: t => digest_bits d ∪ inserted_bits t
  | OpAbsolute b s i _ :: t => chunk_bits b (Z.min s (2 ^ (nb - 5))) i ∪ inserted_bits t
  | _ :: t => inserted_bits t
  end.

Lemma absent_insert_slot (l : list (gset Z)) k x i t s' :
  (forall s, l !! k = Some s -> x ∉ s) -> x ∉ t ->
  <[i := t ∪ default ∅ (l !! i)]> l !! k = Some s' -> x ∉ s'.
Proof.
  intros Hl Ht. destruct (decide (i = k)) as [->|Hne]; [|rewrite list_lookup_insert_ne by done; apply Hl].
  destruct (l !! k) as [s|] eqn:E; intros H.
  - rewrite list_lookup_insert_eq in H by (by eapply lookup_lt_Some). injection H as <-. cbn.
    specialize (Hl s eq_refl). set_solver.
  - rewrite list_insert_ge, E in H by (by apply lookup_ge_None). done.
Qed.

(** A slot that is turned over holds only what was inserted since. *)
Lemma slot_forgets ops a k s' x :
  (cur a < length (slots a))%nat -> (k < length (slots a))%nat ->
  (rotations_left a k <= count_rotations ops \/ forall s, slots a !! k = Some s -> x ∉ s)%nat ->
  OpZero ∉ ops -> slots (a_run a ops) !! k = Some s' -> x ∈ s' -> x ∈ inserted_bits ops.
Proof.
  revert a. induction ops as [|o ops IH]; intros a Hc Hk Hr Hz Hs Hx; cbn [a_run foldl] in Hs.
  - destruct Hr as [Hr|Hr]; [|by destruct (Hr s')].
    unfold rotations_left in Hr. cbn in Hr. destruct (Nat.leb_spec k (cur a)); lia.
  - assert (OpZero ∉ ops /\ o <> OpZero) as [Hz' Hoz] by set_solver.
    assert (cur (a_step a o) < length (slots (a_step a o)))%nat as Hc'
      by (rewrite length_a_step; by apply cur_a_step).
    assert (k < length (slots (a_step a o)))%nat as Hk' by (by rewrite length_a_step).
    destruct o as [d|junk| | |b sz ix m]; [| |done| |]; cbn [inserted_bits].
    + destruct (decide (x ∈ digest_bits d)) as [|Hd]; [set_solver|]. apply elem_of_union_r.
      apply (IH _ Hc' Hk'); [|done..]. destruct Hr as [Hr|Hr].
      * left. cbn in Hr. unfold rotations_left in *. cbn. by rewrite length_insert.
      * right. cbn. intros s. by apply absent_insert_slot.
    + apply (IH _ Hc' Hk'); [|done..]. destruct (decide (a_next a = k)) as [<-|Hne].
      { right. cbn. intros s. rewrite list_lookup_insert_eq by (by apply a_next_lt). intros [= <-]. set_solver. }
      destruct Hr as [Hr|Hr].
      * left. cbn in Hr. pose proof (rotations_left_rotate a k Hc Hk) as Hr'.
        rewrite decide_False in Hr' by done. cbn [a_step]. lia.
      * right. cbn. intros s. rewrite list_lookup_insert_ne by done. apply Hr.
    + apply (IH _ Hc' Hk'); [|done..]. destruct Hr as [Hr|Hr]; [by left | by right].
    + destruct (decide (x ∈ chunk_bits b (Z.min sz (2 ^ (nb - 5))) ix)) as [|Hd]; [set_solver|].
      apply elem_of_union_r. apply (IH _ Hc' Hk'); [|done..]. destruct Hr as [Hr|Hr].
      * left. cbn in Hr. unfold rotations_left in *. cbn. by rewrite length_insert.
      * right. cbn. intros s. by apply absent_insert_slot.
Qed.

(** The aggregate never holds a bit that no member holds. *)
Lemma agg_sub_step a o :
  (cur a < length (slots a))%nat -> agg a ⊆ ⋃ slots a -> agg (a_step a o) ⊆ ⋃ slots (a_step a o).
Proof.
  intros Hc H. destruct o as [d|junk| | |b sz ix m]; cbn; [|set_solver..|].
  - rewrite union_insert_add by done. set_solver.
  - destruct (decide (m < length (slots a))%nat).
    + rewrite union_insert_add by done. set_solver.
    + by rewrite list_insert_ge by lia.
Qed.

Lemma agg_sub_run ops a :
  (cur a < length (slots a))%nat -> agg a ⊆ ⋃ slots a -> agg (a_run a ops) ⊆ ⋃ slots (a_run a ops).
Proof.
  revert a. induction ops as [|o ops IH]; intros a Hc H; [done|]. cbn. apply IH.
  - rewrite length_a_step. by apply cur_a_step.
  - by apply agg_sub_step.
Qed.

Lemma ring_forgets ops a :
  (cur a < length (slots a))%nat -> agg a ⊆ ⋃ slots a -> OpZero ∉ ops ->
  (length (slots a) <= count_rotations ops)%nat ->
  agg (a_run a ops) ⊆ inserted_bits ops.
Proof.
  intros Hc Ha Hz Hn x Hx. apply agg_sub_run in Hx; [|done..].
  apply elem_of_ring in Hx as (k & s & Hs & Hx).
  assert (k < length (slots a))%nat as Hk
    by (apply lookup_lt_Some in Hs; by rewrite length_a_run in Hs).
  apply (slot_forgets ops a k s); try done. left. unfold rotations_left.
  destruct (Nat.leb_spec k (cur a)); lia.
Qed.

End Filters.

(** ** Properties *)

(** C3: a ring created by [create_bloom_ring_queue] and taken through any
    sequence of insertions, rotations, zeroings, aggregate synchronisations and
    in-range absolute updates never faults, and [is_in_ring_queue] answers as
    the abstract ring of sets of bit positions does. *)
Theorem ring_queue_refines_sets nb junk num ops d :
  5 <= nb <= 30 -> 0 < num < 2 ^ 32 -> Forall (valid_op nb (Z.to_nat num)) ops ->
  exists q, (q0 ← create_bloom_ring_queue junk num nb; ring_run q0 ops) = Ok q /\
    is_in_ring_queue q d = Ok (a_query nb d (a_run nb (a_create (Z.to_nat num)) ops)).
Proof.
  intros Hnb Hnum Hv. destruct (create_ring_spec nb Hnb junk num Hnum) as (q0 & -> & H0). cbn [rbind].
  destruct (ring_run_spec nb Hnb ops q0 _ H0) as (q & -> & Hq); [cbn; by rewrite length_replicate|].
  exists q. split; [done|]. by apply is_in_ring_spec.
Qed.

Lemma ring_queue_refines_sets_witness :
  let ops := [OpInsert DEFAULT_SHA256; OpRotate (fun _ => 3); OpAbsolute [1; 2] 2 0 1; OpSync] in
  exists q, (q0 ← create_bloom_ring_queue (fun _ _ => 5) 2 6; ring_run q0 ops) = Ok q /\
    is_in_ring_queue q DEFAULT_SHA256 = Ok (a_query 6 DEFAULT_SHA256 (a_run 6 (a_create 2) ops)).
Proof.
  intros ops. apply (ring_queue_refines_sets 6 (fun _ _ => 5) 2 ops DEFAULT_SHA256); [lia | lia |].
  unfold ops. repeat constructor; unfold valid_op, valid_chunk, is_u32; cbn; lia.
Defined.

(** C9: no false negatives: a digest inserted in a ring of [num] filters is
    found after any further operations, as long as the ring was not zeroed and
    was rotated less than [num] times since. *)
Theorem inserted_digest_found nb junk num ops1 d ops2 :
  5 <= nb <= 30 -> 0 < num < 2 ^ 32 ->
  Forall (valid_op nb (Z.to_nat num)) (ops1 ++ OpInsert d :: ops2) ->
  OpZero ∉ ops2 -> Z.of_nat (count_rotations ops2) < num ->
  exists q, (q0 ← create_bloom_ring_queue junk num nb; ring_run q0 (ops1 ++ OpInsert d :: ops2)) = Ok q /\
    is_in_ring_queue q d = Ok true.
Proof.
  intros Hnb Hnum Hv Hz Hn. destruct (create_ring_spec nb Hnb junk num Hnum) as (q0 & -> & H0). cbn [rbind].
  destruct (ring_run_spec nb Hnb (ops1 ++ OpInsert d :: ops2) q0 _ H0) as (q & -> & Hq); [cbn; rewrite length_replicate; exact Hv|].
  exists q. split; [done|]. rewrite (is_in_ring_spec nb Hnb q _ d Hq). f_equal.
  unfold a_run. rewrite foldl_app. cbn [foldl].
  apply (inserted_kept nb Hnb (a_run nb _ ops1) d ops2); [|done|].
  - rewrite length_a_run. apply cur_a_run. cbn. rewrite length_replicate. lia.
  - rewrite length_a_run. cbn. rewrite length_replicate. lia.
Qed.

Lemma inserted_digest_found_witness :
  exists q, (q0 ← create_bloom_ring_queue (fun _ _ => 5) 2 6;
             ring_run q0 ([OpZero] ++ OpInsert DEFAULT_SHA256 :: [OpRotate (fun _ => 3); OpSync])) = Ok q /\
    is_in_ring_queue q DEFAULT_SHA256 = Ok true.
Proof.
  apply (inserted_digest_found 6 (fun _ _ => 5) 2 [OpZero] DEFAULT_SHA256 [OpRotate (fun _ => 3); OpSync]);
    [lia | lia | repeat constructor | | cbn; lia].
  rewrite not_elem_of_cons, list_elem_of_singleton. split; discriminate.
Defined.

(** C10: entries expire: once a ring of [num] filters has been rotated [num]
    times, [is_in_ring_queue] says yes only to digests all of whose positions
    were set by insertions made since, whatever was stored before. *)
Theorem rotated_out_entries_forgotten nb junk num ops1 ops2 d :
  5 <= nb <= 30 -> 0 < num < 2 ^ 32 ->
  Forall (valid_op nb (Z.to_nat num)) (ops1 ++ ops2) ->
  OpZero ∉ ops2 -> num <= Z.of_nat (count_rotations ops2) ->
  exists q b, (q0 ← create_bloom_ring_queue junk num nb; ring_run q0 (ops1 ++ ops2)) = Ok q /\
    is_in_ring_queue q d = Ok b /\ (b = true -> digest_bits nb d ⊆ inserted_bits nb ops2).
Proof.
  intros Hnb Hnum Hv Hz Hn. destruct (create_ring_spec nb Hnb junk num Hnum) as (q0 & -> & H0). cbn [rbind].
  destruct (ring_run_spec nb Hnb (ops1 ++ ops2) q0 _ H0) as (q & -> & Hq); [cbn; rewrite length_replicate; exact Hv|].
  exists q. eexists. split; [done|]. split; [exact (is_in_ring_spec nb Hnb q _ d Hq)|].
  unfold a_query. rewrite bool_decide_eq_true. intros Hd. etrans; [exact Hd|].
  unfold a_run. rewrite foldl_app. apply (ring_forgets nb Hnb ops2 (a_run nb _ ops1)); [| |done|].
  - rewrite length_a_run. apply cur_a_run. cbn. rewrite length_replicate. lia.
  - apply (agg_sub_run nb Hnb); cbn; [rewrite length_replicate; lia | set_solver].
  - rewrite length_a_run. cbn. rewrite length_replicate. lia.
Qed.

Lemma rotated_out_entries_forgotten_witness :
  exists q b, (q0 ← create_bloom_ring_queue (fun _ _ => 5) 2 6;
     ring_run q0 ([OpInsert DEFAULT_SHA256] ++ [OpRotate (fun _ => 3); OpRotate (fun _ => 4)])) = Ok q /\
    is_in_ring_queue q DEFAULT_SHA256 = Ok b /\
    (b = true -> digest_bits 6 DEFAULT_SHA256 ⊆ inserted_bits 6 [OpRotate (fun _ => 3); OpRotate (fun _ => 4)]).
Proof.
  apply (rotated_out_entries_forgotten 6 (fun _ _ => 5) 2 [OpInsert DEFAULT_SHA256]
    [OpRotate (fun _ => 3); OpRotate (fun _ => 4)] DEFAULT_SHA256);
    [lia | lia | repeat constructor | | cbn; lia].
  rewrite not_elem_of_cons, list_elem_of_singleton. split; discriminate.
Defined.

(** [create_bloom_filter] accepts 4 bits, but the filter it makes has no
    whole word, and every insertion and every query writes or reads outside it. *)
Theorem four_bit_filter_out_of_bounds junk d :
  exists f, create_bloom_filter junk 4 = Ok f /\
    insert_digest f d = Fail OutOfBounds /\ is_in_array f d = Fail OutOfBounds.
Proof.
  eexists. split; [vm_compute; reflexivity|].
  assert (forall i, aget (@nil Z) i = Fail OutOfBounds) as Hget
    by (intros i; unfold aget; by destruct (0 <=? i)).
  assert (forall i, 0 <= i -> (array_index i).(intra_index) <=? 32 = true) as Hi.
  { intros i Hi. apply Z.leb_le. cbn. pose proof (Z.mod_pos_bound i 32). unfold BITARRAY_BASE_SIZE. lia. }
  assert (0 <= Z.land (h0 d) 15) as Hp by (apply Z.land_nonneg; right; lia).
  unfold insert_digest, is_in_array, test_bit, insert_bit, get_bit, int_to_index. cbn [bf_filter bf_mask].
  rewrite (Hi _ Hp). cbn [c_assert rbind]. rewrite Hget. done.
Qed.
