(* ===== verification/Utils.v ===== *)
(** * Descriptor and string helpers ([src/src/utils.c])

    A descriptor being read is the list of things the kernel will hand over:
    chunks of data, interrupted calls, errors; the end of the list is the end
    of the stream.  A descriptor being written is the list of answers of
    [write].  The theorems say that the results of [readline], [readn] and
    [writen] depend on the data alone, never on how the kernel cuts it up. *)

From S2P Require Import Prelude.

(** ** Descriptors *)

Inductive rd_event (A : Type) :=
| Chunk (l : list A)
| Intr
| IoErr.
Arguments Chunk {A} _.
Arguments Intr {A}.
Arguments IoErr {A}.

Inductive read_ret (A : Type) :=
| RData (l : list A)   (* a positive count *)
| REof
| RIntr
| RErr.
Arguments RData {A} _.
Arguments REof {A}.
Arguments RIntr {A}.
Arguments RErr {A}.

Notation rfd A := (list (rd_event A)).

(** [read(fd, ptr, n)] with [n > 0]. *)
Definition read {A} (fd : rfd A) (n : nat) : read_ret A * rfd A :=
  match fd with
  | [] => (REof, [])
  | Chunk [] :: fd' => (REof, fd')
  | Chunk l :: fd' =>
      if (length l <=? n)%nat then (RData l, fd') else (RData (take n l), Chunk (drop n l) :: fd')
  | Intr :: fd' => (RIntr, fd')
  | IoErr :: fd' => (RErr, fd')
  end.

(** Bytes and events left: every call of [read] that is not at the end uses
    some of them up. *)
Fixpoint fd_size {A} (fd : rfd A) : nat :=
  match fd with
  | [] => 0
  | Chunk l :: fd' => S (length l + fd_size fd')
  | _ :: fd' => S (fd_size fd')
  end.

Inductive readlineret := ERROR | EMPTY | DATA (line : cstr).

(** The loop of [readline] from counter [n]; [line] is what [ptr] has passed. *)
Fixpoint readline_loop (fuel : nat) (fd : rfd ascii) (n maxlen : Z) (line : cstr)
    : option (readlineret * rfd ascii) :=
  match fuel with
  | O => None
  | S fuel =>
      if n <? maxlen then
        match read fd 1 with
        | (RData l, fd) =>
            match l with
            | c :: _ =>
                if chr_eqb c nl then Some (DATA line, fd)
                else readline_loop fuel fd (n + 1) maxlen (if chr_eqb c cr then line else line ++ [c])
            | [] => None
            end
        | (REof, fd) => if n =? 1 then Some (EMPTY, fd) else Some (DATA line, fd)
        | (RIntr, fd) => readline_loop fuel fd n maxlen line
        | (RErr, fd) => Some (ERROR, fd)
        end
      else Some (DATA line, fd)
  end.

Definition readline (fd : rfd ascii) (maxlen : Z) : option (readlineret * rfd ascii) :=
  readline_loop (S (fd_size fd)) fd 1 maxlen [].

(** [readn]: what was stored and the value returned ([None] for -1). *)
Fixpoint readn_loop {A} (fuel : nat) (fd : rfd A) (nleft : nat) (acc : list A)
    : option (option (list A) * rfd A) :=
  match fuel with
  | O => None
  | S fuel =>
      if (0 <? nleft)%nat then
        match read fd nleft with
        | (RErr, fd) => Some (None, fd)
        | (RIntr, fd) => readn_loop fuel fd nleft acc
        | (REof, fd) => Some (Some acc, fd)
        | (RData l, fd) => readn_loop fuel fd (nleft - length l) (acc ++ l)
        end
      else Some (Some acc, fd)
  end.

Definition readn {A} (fd : rfd A) (n : nat) : option (option (list A) * rfd A) :=
  readn_loop (S (fd_size fd)) fd n [].

(** An answer of [write]: it takes at least one byte, is interrupted, or
    fails; after the listed answers it takes everything. *)
Inductive wr_event := Accept (k : nat) | WIntr | WErr.

Notation wfd := (list wr_event).

Inductive write_ret := Wrote (k : nat) | WInterrupted | WFailed.

Definition write (fd : wfd) (n : nat) : write_ret * wfd :=
  match fd with
  | [] => (Wrote n, [])
  | Accept k :: fd' => (Wrote (min n (S k)), fd')
  | WIntr :: fd' => (WInterrupted, fd')
  | WErr :: fd' => (WFailed, fd')
  end.

(** [writen]: whether it returned [n], what went out, and the descriptor. *)
Fixpoint writen_loop {A} (fuel : nat) (fd : wfd) (todo out : list A) : option (bool * list A * wfd) :=
  match fuel with
  | O => None
  | S fuel =>
      if (0 <? length todo)%nat then
        match write fd (length todo) with
        | (WFailed, fd) => Some (false, out, fd)
        | (WInterrupted, fd) => writen_loop fuel fd todo out
        | (Wrote k, fd) => writen_loop fuel fd (drop k todo) (out ++ take k todo)
        end
      else Some (true, out, fd)
  end.

Definition writen {A} (fd : wfd) (data : list A) : option (bool * list A * wfd) :=
  writen_loop (S (S (length data + length fd))) fd data [].

Definition writet (fd : wfd) (line terminator : cstr) : option (bool * cstr * wfd) :=
  writen fd (line ++ terminator).

Definition writeline (fd : wfd) (line : cstr) : option (bool * cstr * wfd) :=
  writet fd line [cr; nl].

Definition respond (fd : wfd) (response : cstr) : option (bool * cstr * wfd) :=
  writet fd response [nl; nl].

(** ** Strings in a buffer

    A buffer is its characters, terminators included. *)

Fixpoint strlen_from (buf : list ascii) : Res nat :=
  match buf with
  | [] => Fail OutOfBounds
  | c :: t => if chr_eqb c nul then Ok O else n ← strlen_from t; Ok (S n)
  end.

Definition strlen_at (buf : list ascii) (off : nat) : Res nat := strlen_from (drop off buf).

Definition is_blank (c : ascii) : bool := chr_eqb c sp || chr_eqb c tab.

Fixpoint strspn_blank (buf : list ascii) : Res nat :=
  match buf with
  | [] => Fail OutOfBounds
  | c :: t => if is_blank c then n ← strspn_blank t; Ok (S n) else Ok O
  end.

Definition chomp (buf : list ascii) : Res (Z * list ascii) :=
  len ← strlen_at buf 0;
  let len := Z.of_nat len in
  if len <? 2 then Ok (-1, buf)
  else
    c ← aget buf (len - 1);
    buf ← (if chr_eqb c nl then aset buf (len - 1) nul else Ok buf);
    c ← aget buf (len - 2);
    buf ← (if chr_eqb c cr then aset buf (len - 2) nul else Ok buf);
    Ok (0, buf).

(** [isspace] and [isdigit] of the C locale, and [atoi]: white space, a sign,
    then as many digits as there are. *)
Definition isspace (c : ascii) : bool := chr_eqb c sp || ((9 <=? nat_of_ascii c) && (nat_of_ascii c <=? 13))%nat.
Definition isdigit (c : ascii) : bool := ((48 <=? nat_of_ascii c) && (nat_of_ascii c <=? 57))%nat.

Fixpoint digits_value (s : cstr) (acc : Z) : Z :=
  match s with
  | c :: t => if isdigit c then digits_value t (10 * acc + Z.of_nat (nat_of_ascii c - 48)) else acc
  | [] => acc
  end.

Fixpoint skip_spaces (s : cstr) : cstr :=
  match s with
  | c :: t => if isspace c then skip_spaces t else s
  | [] => []
  end.

Definition atoi (s : cstr) : Z :=
  match skip_spaces s with
  | c :: t =>
      if chr_eqb c "-"%char then - digits_value t 0
      else if chr_eqb c "+"%char then digits_value t 0
      else digits_value (c :: t) 0
  | [] => 0
  end.

(** The backward loop of [trim]: blanks from [endp] down become terminators. *)
Fixpoint trim_end (fuel : nat) (buf : list ascii) (endp : Z) : Res (list ascii) :=
  match fuel with
  | O => Fail OutOfBounds
  | S fuel =>
      c ← aget buf endp;
      if is_blank c then buf ← aset buf endp nul; trim_end fuel buf (endp - 1) else Ok buf
  end.

(** The buffer, the new offset and the length of the string there. *)
Definition trim (buf : list ascii) (off : nat) : Res (list ascii * nat * nat) :=
  k ← strspn_blank (drop off buf);
  let off := (off + k)%nat in
  len ← strlen_at buf off;
  buf ← trim_end (S (length buf)) buf (Z.of_nat off + Z.of_nat len - 1);
  len ← strlen_at buf off;
  Ok (buf, off, len).

(** ** Times *)

Record timespec := Timespec { tv_sec : Z; tv_nsec : Z }.
Record timeval := Timeval { tvv_sec : Z; tvv_usec : Z }.

Definition SI_KILO : Z := 1000.
Definition SI_MEGA : Z := 1000000.
Definition SI_GIGA : Z := 1000000000.

(** The [long] sum is converted to [int] by the return. *)
Definition ms_diff (t1 t2 : timespec) : Z :=
  s32 ((tv_sec t1 - tv_sec t2) * SI_KILO + c_div (tv_nsec t1 - tv_nsec t2) SI_MEGA).

Definition ts_sum (t1 t2 : timespec) : timespec :=
  let sec := tv_sec t1 + tv_sec t2 in
  let nsec := c_rem (tv_nsec t1 + tv_nsec t2) SI_GIGA in
  Timespec (if 0 <? c_div (tv_nsec t1 + tv_nsec t2) SI_GIGA then sec + 1 else sec) nsec.

Definition ts_diff (t1 t2 : timespec) : Z * timespec :=
  let sec := tv_sec t1 - tv_sec t2 in
  let nsec := tv_nsec t1 - tv_nsec t2 in
  let '(sec, nsec) := if nsec <? 0 then (sec - 1, nsec + SI_GIGA) else (sec, nsec) in
  (if sec <? 0 then -1 else 0, Timespec sec nsec).

Definition mstotimespec (mseconds : Z) : timespec :=
  Timespec (c_div mseconds SI_KILO) (Z.abs (c_rem mseconds SI_KILO) * SI_MEGA).

Definition tvtots (tv : timeval) : timespec := Timespec (tvv_sec tv) (tvv_usec tv * SI_KILO).

Definition tstotv (ts : timespec) : timeval := Timeval (tv_sec ts) (c_div (tv_nsec ts) SI_KILO).

(** ** Reading: the data alone decides *)

(** The bytes of a descriptor up to its end; [None] if an error or an empty
    chunk comes first. *)
Fixpoint fd_data {A} (fd : rfd A) : option (list A) :=
  match fd with
  | [] => Some []
  | Chunk [] :: _ => None
  | Chunk l :: fd' => match fd_data fd' with Some d => Some (l ++ d) | None => None end
  | Intr :: fd' => fd_data fd'
  | IoErr :: _ => None
  end.

(** The line a reader with room for [k] characters takes from [d]. *)
Fixpoint split_line (k : nat) (d : cstr) : cstr * cstr :=
  match k, d with
  | O, _ => ([], d)
  | _, [] => ([], [])
  | S k, c :: t =>
      if chr_eqb c nl then ([], t) else let '(l, r) := split_line k t in (c :: l, r)
  end.

Definition drop_cr (l : cstr) : cstr := filter (fun c => chr_eqb c cr = false) l.

Definition readline_ref (maxlen : Z) (d : cstr) : readlineret * cstr :=
  match d with
  | [] => if 1 <? maxlen then (EMPTY, []) else (DATA [], [])
  | _ => let '(l, r) := split_line (Z.to_nat (maxlen - 1)) d in (DATA (drop_cr l), r)
  end.

Lemma fd_data_chunk {A} (l : list A) fd d :
  fd_data (Chunk l :: fd) = Some d ->
  exists d', fd_data fd = Some d' /\ d = l ++ d' /\ l <> [].
Proof.
  destruct l; [done|]. cbn. destruct (fd_data fd) as [d'|]; [|done]. intros [= <-]. eauto.
Qed.

(** One call of [read]: what it can do on a descriptor that only holds data. *)
Lemma read_data {A} (fd : rfd A) n d :
  (0 < n)%nat -> fd_data fd = Some d ->
  (read fd n = (REof, []) /\ d = []) \/
  (exists fd', read fd n = (RIntr, fd') /\ fd_data fd' = Some d /\ (fd_size fd' < fd_size fd)%nat) \/
  (exists l fd' d', read fd n = (RData l, fd') /\ fd_data fd' = Some d' /\ d = l ++ d' /\
     (0 < length l <= n)%nat /\ (fd_size fd' < fd_size fd)%nat).
Proof.
  intros Hn. destruct fd as [|[l| |] fd]; cbn [fd_data].
  - intros [= <-]. by left.
  - intros H. apply fd_data_chunk in H as (d' & Hd & -> & Hl). right; right.
    destruct l as [|x l]; [done|]. unfold read. destruct (Nat.leb_spec (length (x :: l)) n).
    + exists (x :: l), fd, d'. cbn in *. repeat split; try done; lia.
    + exists (take n (x :: l)), (Chunk (drop n (x :: l)) :: fd), (drop n (x :: l) ++ d').
      assert (length (drop n (x :: l)) = S (length l) - n)%nat as Hdl by (by rewrite length_drop).
      repeat split.
      * cbn [fd_data]. destruct (drop n (x :: l)); [cbn in *; lia|]. by rewrite Hd.
      * by rewrite app_assoc, take_drop.
      * rewrite length_take. cbn in *. lia.
      * rewrite length_take. cbn in *. lia.
      * cbn [fd_size]. rewrite Hdl. cbn in *. lia.
  - intros H. right; left. exists fd. cbn. auto.
  - done.
Qed.

Lemma split_line_nil k : split_line k [] = ([], []).
Proof. by destruct k. Qed.

Lemma readline_loop_spec fuel fd d n maxlen line :
  (fd_size fd < fuel)%nat -> fd_data fd = Some d -> 1 <= n -> (d = [] -> n <> 1 \/ maxlen <= 1) ->
  exists fd', fd_data fd' = Some (split_line (Z.to_nat (maxlen - n)) d).2 /\
    readline_loop fuel fd n maxlen line =
      Some (DATA (line ++ drop_cr (split_line (Z.to_nat (maxlen - n)) d).1), fd').
Proof.
  revert fd d n line. induction fuel as [|fuel IH]; intros fd d n line Hf Hd Hn Hnil; [lia|].
  cbn [readline_loop]. destruct (Z.ltb_spec n maxlen) as [Hlt|Hge]; last first.
  { replace (Z.to_nat (maxlen - n)) with O by lia. exists fd. cbn. split; [done|]. by rewrite app_nil_r. }
  destruct (read_data fd 1 d ltac:(lia) Hd)
    as [[-> ->]|[(fd' & -> & Hd' & Hs)|(l & fd' & d' & -> & Hd' & -> & Hl & Hs)]].
  - rewrite split_line_nil. destruct (Hnil eq_refl); [|lia].
    rewrite (proj2 (Z.eqb_neq n 1)) by done. exists []. cbn. by rewrite app_nil_r.
  - apply IH; [lia|done..].
  - destruct l as [|c [|? ?]]; cbn in Hl; [lia| |lia]. cbn [app].
    replace (Z.to_nat (maxlen - n)) with (S (Z.to_nat (maxlen - (n + 1)))) by lia. cbn [split_line].
    destruct (chr_eqb c nl) eqn:Ec; [exists fd'; cbn; by rewrite app_nil_r|].
    destruct (IH fd' d' (n + 1) (if chr_eqb c cr then line else line ++ [c])) as (fd2 & H2 & E2);
      [lia | done | lia | left; lia |].
    exists fd2. rewrite E2. destruct (split_line _ d') as [l r]. cbn [fst snd] in *. split; [done|].
    unfold drop_cr. rewrite filter_cons. destruct (chr_eqb c cr); cbn; [done|]. by rewrite <-app_assoc.
Qed.

Lemma readline_loop_empty fuel fd maxlen :
  (fd_size fd < fuel)%nat -> fd_data fd = Some [] -> 1 < maxlen ->
  readline_loop fuel fd 1 maxlen [] = Some (EMPTY, []).
Proof.
  revert fd. induction fuel as [|fuel IH]; intros fd Hf Hd Hm; [lia|]. cbn [readline_loop].
  rewrite (proj2 (Z.ltb_lt 1 maxlen)) by done.
  destruct (read_data fd 1 [] ltac:(lia) Hd)
    as [[-> _]|[(fd' & -> & Hd' & Hs)|(l & fd' & d' & -> & Hd' & E & Hl & Hs)]]; [done| |].
  - apply IH; [lia|done..].
  - destruct l; cbn in *; [lia|done].
Qed.

Lemma length_split_line k d : (length (split_line k d).1 <= k)%nat.
Proof.
  revert d. induction k as [|k IH]; intros [|c d]; cbn; try lia. destruct (chr_eqb c nl); cbn; [lia|].
  specialize (IH d). destruct (split_line k d). cbn in *. lia.
Qed.

Lemma readn_loop_spec {A} fuel (fd : rfd A) d n acc :
  (fd_size fd < fuel)%nat -> fd_data fd = Some d ->
  exists fd', fd_data fd' = Some (drop n d) /\
    readn_loop fuel fd n acc = Some (Some (acc ++ take n d), fd').
Proof.
  revert fd d n acc. induction fuel as [|fuel IH]; intros fd d n acc Hf Hd; [lia|]. cbn [readn_loop].
  destruct (Nat.ltb_spec 0 n) as [Hn|Hn]; last first.
  { replace n with O by lia. exists fd. by rewrite take_0, app_nil_r. }
  destruct (read_data fd n d Hn Hd)
    as [[-> ->]|[(fd' & -> & Hd' & Hs)|(l & fd' & d' & -> & Hd' & -> & Hl & Hs)]].
  - exists []. by rewrite take_nil, drop_nil, app_nil_r.
  - apply IH; [lia|done].
  - destruct (IH fd' d' (n - length l)%nat (acc ++ l)) as (fd2 & H2 & ->); [lia|done|].
    exists fd2. rewrite drop_app, (drop_ge l), take_app, (take_ge l) by lia. by rewrite app_assoc.
Qed.

(** [readn] on a descriptor that holds data only. *)
Lemma readn_spec {A} (fd : rfd A) d n :
  fd_data fd = Some d ->
  exists fd', fd_data fd' = Some (drop n d) /\ readn fd n = Some (Some (take n d), fd').
Proof. intros Hd. apply (readn_loop_spec (S (fd_size fd)) fd d n []); [lia|done]. Qed.

(** ** Writing *)

Lemma writen_loop_spec {A} fuel fd (todo out : list A) :
  WErr ∉ fd -> (length todo + length fd < fuel)%nat ->
  exists fd', writen_loop fuel fd todo out = Some (true, out ++ todo, fd') /\ WErr ∉ fd'.
Proof.
  revert fd todo out. induction fuel as [|fuel IH]; intros fd todo out He Hf; [lia|]. cbn [writen_loop].
  destruct (Nat.ltb_spec 0 (length todo)) as [Hn|Hn]; last first.
  { destruct todo; [|cbn in *; lia]. exists fd. by rewrite app_nil_r. }
  destruct fd as [|[k| |] fd]; cbn [write].
  - rewrite drop_all, firstn_all. destruct fuel as [|fuel]; [cbn in *; lia|]. cbn. by exists [].
  - rewrite not_elem_of_cons in He.
    destruct (IH fd (drop (length todo `min` S k) todo) (out ++ take (length todo `min` S k) todo))
      as (fd' & -> & Hf'); [naive_solver | rewrite length_drop; cbn in *; lia |].
    exists fd'. by rewrite <-app_assoc, take_drop.
  - rewrite not_elem_of_cons in He. apply IH; [naive_solver | cbn in *; lia].
  - rewrite not_elem_of_cons in He. naive_solver.
Qed.

(** Without a write error everything goes out, once and in order. *)
Lemma writen_spec {A} fd (data : list A) :
  WErr ∉ fd -> exists fd', writen fd data = Some (true, data, fd') /\ WErr ∉ fd'.
Proof. intros He. apply (writen_loop_spec _ fd data []); [done|lia]. Qed.

Lemma writen_loop_prefix {A} fuel fd (todo out : list A) :
  (length todo + length fd + 1 < fuel)%nat ->
  exists ok k fd', writen_loop fuel fd todo out = Some (ok, out ++ take k todo, fd') /\
    (ok = true -> take k todo = todo).
Proof.
  revert fd todo out. induction fuel as [|fuel IH]; intros fd todo out Hf; [lia|]. cbn [writen_loop].
  destruct (Nat.ltb_spec 0 (length todo)) as [Hn|Hn]; last first.
  { destruct todo; [|cbn in *; lia]. exists true, O, fd. by rewrite app_nil_r. }
  destruct fd as [|[k| |] fd]; cbn [write].
  - rewrite drop_all, firstn_all. destruct fuel as [|fuel]; [cbn in *; lia|]. cbn.
    exists true, (length todo), []. by rewrite firstn_all.
  - set (m := (length todo `min` S k)%nat).
    destruct (IH fd (drop m todo) (out ++ take m todo)) as (ok & j & fd' & -> & Hok);
      [rewrite length_drop; cbn in *; lia|].
    exists ok, (m + j)%nat, fd'. rewrite <-app_assoc, take_take_drop. split; [done|].
    intros H. rewrite <-take_take_drop, Hok by done. apply take_drop.
  - apply IH. cbn in *; lia.
  - exists false, O, fd. by rewrite take_0, app_nil_r.
Qed.

(** ** Strings *)

Definition no_nul (l : cstr) : Prop := nul ∉ l.

Lemma strlen_from_app l rest : no_nul l -> strlen_from (l ++ nul :: rest) = Ok (length l).
Proof.
  unfold no_nul. induction l as [|c l IH]; intros H; [done|].
  rewrite not_elem_of_cons in H. destruct H as [Hc Hl]. cbn.
  destruct (chr_eqb c nul) eqn:E; [apply chr_eqb_eq in E; congruence|]. by rewrite IH.
Qed.

Lemma strlen_at_app pre l rest :
  no_nul l -> strlen_at (pre ++ l ++ nul :: rest) (length pre) = Ok (length l).
Proof. intros. unfold strlen_at. rewrite drop_app_length. by apply strlen_from_app. Qed.

Lemma strspn_blank_app bl c rest :
  Forall (fun c => is_blank c = true) bl -> is_blank c = false ->
  strspn_blank (bl ++ c :: rest) = Ok (length bl).
Proof. intros Hb Hc. induction Hb as [|b bl Hb _ IH]; cbn; [by rewrite Hc|]. by rewrite Hb, IH. Qed.

Lemma aget_middle {A} (pre : list A) c post i :
  i = Z.of_nat (length pre) -> aget (pre ++ c :: post) i = Ok c.
Proof. intros ->. apply aget_Ok; [lia|]. rewrite Nat2Z.id. by rewrite list_lookup_middle. Qed.

Lemma aset_middle {A} (pre : list A) c c' post i :
  i = Z.of_nat (length pre) -> aset (pre ++ c :: post) i c' = Ok (pre ++ c' :: post).
Proof.
  intros ->. rewrite aset_lt by (rewrite length_app; cbn; lia).
  rewrite Nat2Z.id, <-(Nat.add_0_r (length pre)). by rewrite insert_app_r.
Qed.

Lemma trim_end_spec fuel pre c bl post :
  Forall (fun c => is_blank c = true) bl -> is_blank c = false -> (length bl < fuel)%nat ->
  trim_end fuel (pre ++ c :: bl ++ post) (Z.of_nat (length pre + length bl)) =
  Ok (pre ++ c :: replicate (length bl) nul ++ post).
Proof.
  intros Hb Hc. revert fuel post. induction bl as [|b bl IH] using rev_ind; intros fuel post Hf.
  - destruct fuel as [|fuel]; [cbn in Hf; lia|]. cbn [trim_end app length replicate].
    rewrite aget_middle by lia. cbn. by rewrite Hc.
  - apply Forall_app in Hb as [Hb Hb']. apply Forall_cons_1 in Hb' as [Hb' _].
    rewrite length_app in *. cbn [length] in *. destruct fuel as [|fuel]; [lia|]. cbn [trim_end].
    assert (forall x, pre ++ c :: (bl ++ [x]) ++ post = (pre ++ c :: bl) ++ x :: post) as Ea
      by (intros; by rewrite <-!app_assoc).
    rewrite Ea, aget_middle by (rewrite length_app; cbn; lia). cbn [rbind]. rewrite Hb'.
    rewrite aset_middle by (rewrite length_app; cbn; lia). cbn [rbind].
    rewrite <-Ea, <-!app_assoc. cbn [app].
    replace (Z.of_nat (length pre + (length bl + 1)) - 1) with (Z.of_nat (length pre + length bl)) by lia.
    rewrite (IH Hb fuel (nul :: post)) by lia. rewrite replicate_add. by rewrite <-app_assoc.
Qed.

Lemma is_blank_nul : is_blank nul = false.
Proof. reflexivity. Qed.

Lemma blank_no_nul l : Forall (fun c => is_blank c = true) l -> no_nul l.
Proof. intros H Hn. rewrite Forall_forall in H. by specialize (H _ Hn). Qed.

Lemma no_nul_app l k : no_nul (l ++ k) <-> no_nul l /\ no_nul k.
Proof. unfold no_nul. rewrite elem_of_app. naive_solver. Qed.

Lemma replicate_middle {A} n (x : A) post : replicate n x ++ x :: post = x :: replicate n x ++ post.
Proof. induction n as [|n IH]; cbn; [done|]. by rewrite IH. Qed.

(** A string that neither starts nor ends with a blank. *)
Definition is_word (w : cstr) : Prop :=
  no_nul w /\ (exists a y, w = a :: y /\ is_blank a = false) /\ (exists x c, w = x ++ [c] /\ is_blank c = false).

Definition blanks (l : cstr) : Prop := Forall (fun c => is_blank c = true) l.

(** [trim] of a word between blanks. *)
Lemma trim_spec pre b1 w b2 post :
  blanks b1 -> blanks b2 -> is_word w ->
  trim (pre ++ b1 ++ w ++ b2 ++ nul :: post) (length pre) =
  Ok (pre ++ b1 ++ w ++ replicate (length b2) nul ++ nul :: post, length pre + length b1, length w)%nat.
Proof.
  intros Hb1 Hb2 (Hn & (a & y & Ea & Ha) & (x & c & Ec & Hc)). unfold trim. rewrite drop_app_length.
  rewrite Ea at 1. cbn [app]. rewrite strspn_blank_app by done. cbn [rbind].
  replace (length pre + length b1)%nat with (length (pre ++ b1)) by apply length_app.
  replace (pre ++ b1 ++ w ++ b2 ++ nul :: post) with ((pre ++ b1) ++ (w ++ b2) ++ nul :: post)
    by (by rewrite <-!app_assoc).
  rewrite strlen_at_app by (apply no_nul_app; split; [done | by apply blank_no_nul]). cbn [rbind].
  replace ((pre ++ b1) ++ (w ++ b2) ++ nul :: post) with ((pre ++ b1 ++ x) ++ c :: b2 ++ nul :: post)
    by (rewrite Ec, <-!app_assoc; done).
  replace (_ - 1) with (Z.of_nat (length (pre ++ b1 ++ x) + length b2))
    by (rewrite Ec; repeat (rewrite length_app; cbn [length]); lia).
  rewrite trim_end_spec; [|done..|repeat (rewrite length_app; cbn [length]); lia]. cbn [rbind].
  replace ((pre ++ b1 ++ x) ++ c :: replicate (length b2) nul ++ nul :: post)
    with ((pre ++ b1) ++ w ++ nul :: replicate (length b2) nul ++ post)
    by (rewrite replicate_middle, Ec, <-!app_assoc; done).
  rewrite strlen_at_app by done. cbn [rbind]. f_equal. f_equal. f_equal.
  by rewrite replicate_middle, <-!app_assoc.
Qed.

(** ** Times *)

(** A normalised time and the nanoseconds it stands for. *)
Definition ts_norm (t : timespec) : Prop := 0 <= tv_nsec t < SI_GIGA.
Definition ts_ns (t : timespec) : Z := tv_sec t * SI_GIGA + tv_nsec t.

Lemma ts_sum_spec t1 t2 :
  ts_norm t1 -> ts_norm t2 ->
  ts_norm (ts_sum t1 t2) /\ ts_ns (ts_sum t1 t2) = ts_ns t1 + ts_ns t2.
Proof.
  unfold ts_norm, ts_ns, ts_sum, c_rem, c_div, SI_GIGA. destruct t1 as [s1 n1], t2 as [s2 n2]; cbn.
  intros H1 H2. rewrite Z.rem_mod_nonneg, Z.quot_div_nonneg by lia.
  destruct (Z.ltb_spec 0 ((n1 + n2) / 1000000000)); Z.to_euclidean_division_equations; lia.
Qed.

Lemma ts_diff_spec t1 t2 :
  ts_norm t1 -> ts_norm t2 ->
  ts_norm (ts_diff t1 t2).2 /\ ts_ns (ts_diff t1 t2).2 = ts_ns t1 - ts_ns t2 /\
  (ts_diff t1 t2).1 = (if ts_ns t2 <=? ts_ns t1 then 0 else -1).
Proof.
  unfold ts_norm, ts_ns, ts_diff, SI_GIGA. destruct t1 as [s1 n1], t2 as [s2 n2]; cbn. intros H1 H2.
  destruct (Z.ltb_spec (n1 - n2) 0); cbn;
    destruct (Z.leb_spec (s2 * 1000000000 + n2) (s1 * 1000000000 + n1)).
  all: split; [lia|]; split; [lia|]; destruct (Z.ltb_spec (s1 - s2 - 1) 0), (Z.ltb_spec (s1 - s2) 0); lia.
Qed.

Lemma mstotimespec_spec m :
  0 <= m -> ts_norm (mstotimespec m) /\ ts_ns (mstotimespec m) = m * SI_MEGA.
Proof.
  unfold ts_norm, ts_ns, mstotimespec, c_rem, c_div, SI_GIGA, SI_MEGA, SI_KILO. cbn. intros H.
  rewrite Z.rem_mod_nonneg, Z.quot_div_nonneg by lia.
  Z.to_euclidean_division_equations; lia.
Qed.

(** Milliseconds, rounded towards zero in the nanosecond part, while they fit in an [int]. *)
Lemma ms_diff_close t1 t2 :
  ts_norm t1 -> ts_norm t2 -> Z.abs (ts_ns t1 - ts_ns t2) < (2 ^ 31 - 1) * SI_MEGA ->
  Z.abs (ms_diff t1 t2 * SI_MEGA - (ts_ns t1 - ts_ns t2)) < SI_MEGA.
Proof.
  unfold ts_norm, ts_ns, ms_diff, c_div, SI_GIGA, SI_MEGA, SI_KILO.
  destruct t1 as [s1 n1], t2 as [s2 n2]; cbn [tv_sec tv_nsec]. intros H1 H2 H.
  assert (exists q r, n1 - n2 = 1000000 * q + r /\ Z.abs r < 1000000 /\ Z.quot (n1 - n2) 1000000 = q) as
    (q & r & E & Hr & ->).
  { exists (Z.quot (n1 - n2) 1000000), (Z.rem (n1 - n2) 1000000). split; [apply Z.quot_rem; lia|].
    split; [|done]. apply (Z.rem_bound_abs (n1 - n2) 1000000). lia. }
  unfold s32. rewrite Z.mod_small by lia. lia.
Qed.

(** Absence of a character, by evaluation. *)
Lemma not_in_check (c : ascii) w : existsb (chr_eqb c) w = false -> c ∉ w.
Proof.
  intros E Hin. assert (existsb (chr_eqb c) w = true); [|congruence].
  apply existsb_exists. exists c. by rewrite <-list_elem_of_In, chr_eqb_eq.
Qed.

(** One call of [readline] on any cut-up of the data. *)
Lemma readline_spec fd d maxlen :
  fd_data fd = Some d -> 1 <= maxlen ->
  exists fd', readline fd maxlen = Some ((readline_ref maxlen d).1, fd') /\ fd_data fd' = Some (readline_ref maxlen d).2.
Proof.
  intros Hd Hm. destruct (decide (d = [] /\ 1 < maxlen)) as [[-> Hlt]|Hne].
  { exists []. unfold readline. rewrite readline_loop_empty by (done || lia).
    unfold readline_ref. rewrite (proj2 (Z.ltb_lt 1 maxlen)) by done. done. }
  destruct (readline_loop_spec (S (fd_size fd)) fd d 1 maxlen []) as (fd' & Hd' & E); [lia|done|lia| |].
  { intros ->. right. destruct (decide (maxlen <= 1)); [done|]. destruct Hne. split; [done|lia]. }
  exists fd'.
  assert (readline_ref maxlen d =
    (DATA (drop_cr (split_line (Z.to_nat (maxlen - 1)) d).1), (split_line (Z.to_nat (maxlen - 1)) d).2)) as ->.
  { unfold readline_ref. destruct d as [|c d].
    - rewrite split_line_nil. destruct (Z.ltb_spec 1 maxlen); [|done]. destruct Hne. done.
    - by destruct (split_line _ (c :: d)). }
  by split.
Qed.

Lemma readline_ref_fits maxlen d line :
  1 <= maxlen -> (readline_ref maxlen d).1 = DATA line -> Z.of_nat (length line) + 1 <= maxlen.
Proof.
  intros Hm. unfold readline_ref. pose proof (length_split_line (Z.to_nat (maxlen - 1)) d).
  pose proof (length_filter (fun c => chr_eqb c cr = false) (split_line (Z.to_nat (maxlen - 1)) d).1).
  destruct d as [|c d]; [destruct (1 <? maxlen)|destruct (split_line _ (c :: d))]; cbn; intros [= <-]; cbn; try lia.
  unfold drop_cr. cbn in *. lia.
Qed.

Lemma split_line_nl k l rest :
  nl ∉ l -> (length l < k)%nat -> split_line k (l ++ nl :: rest) = (l, rest).
Proof.
  revert k. induction l as [|c l IH]; intros [|k] Hn Hk; cbn in *; try lia; [done|].
  rewrite not_elem_of_cons in Hn. destruct (chr_eqb c nl) eqn:E; [apply chr_eqb_eq in E; naive_solver|].
  by rewrite IH by (naive_solver || lia).
Qed.

Lemma drop_cr_none l : cr ∉ l -> drop_cr l = l.
Proof.
  unfold drop_cr. induction l as [|c l IH]; intros H; [done|]. rewrite not_elem_of_cons in H.
  rewrite filter_cons, decide_True by (destruct (chr_eqb c cr) eqn:E; [apply chr_eqb_eq in E; naive_solver | done]).
  f_equal. naive_solver.
Qed.

Lemma fd_data_size {A} (fd : rfd A) d : fd_data fd = Some d -> (length d <= fd_size fd)%nat.
Proof.
  revert d. induction fd as [|[l| |] fd IH]; intros d.
  - intros [= <-]. done.
  - intros H. apply fd_data_chunk in H as (d' & Hd & -> & _). rewrite length_app. cbn. apply IH in Hd. lia.
  - cbn. intros H. apply IH in H. lia.
  - done.
Qed.

Lemma split_line_full a b : nl ∉ a -> split_line (length a) (a ++ b) = (a, b).
Proof.
  induction a as [|c a IH]; intros Hn; cbn; [done|]. rewrite not_elem_of_cons in Hn.
  destruct (chr_eqb c nl) eqn:E; [apply chr_eqb_eq in E; naive_solver|]. by rewrite IH by naive_solver.
Qed.

(** A line that [readline] has room for. *)
Lemma readline_line fd l rest maxlen :
  nl ∉ l -> cr ∉ l -> Z.of_nat (length l) + 2 <= maxlen -> fd_data fd = Some (l ++ nl :: rest) ->
  exists fd', readline fd maxlen = Some (DATA l, fd') /\ fd_data fd' = Some rest.
Proof.
  intros Hnl Hcr Hlen Hd. destruct (readline_spec fd _ maxlen Hd) as (fd' & E & Hd'); [lia|].
  assert (readline_ref maxlen (l ++ nl :: rest) = (DATA l, rest)) as Er.
  { unfold readline_ref. destruct (l ++ nl :: rest) eqn:El; [by destruct l|]. rewrite <-El.
    rewrite split_line_nl by (done || lia). by rewrite drop_cr_none. }
  rewrite Er in *. eauto.
Qed.

(** A line longer than its buffer: the rest is left for the next call. *)
Lemma readline_long fd a b maxlen :
  nl ∉ a -> cr ∉ a -> Z.of_nat (length a) + 1 = maxlen -> a <> [] -> fd_data fd = Some (a ++ b) ->
  exists fd', readline fd maxlen = Some (DATA a, fd') /\ fd_data fd' = Some b.
Proof.
  intros Hnl Hcr Hlen Ha Hd. destruct (readline_spec fd _ maxlen Hd) as (fd' & E & Hd'); [lia|].
  assert (readline_ref maxlen (a ++ b) = (DATA a, b)) as Er.
  { unfold readline_ref. destruct (a ++ b) eqn:El; [by destruct a|]. rewrite <-El.
    replace (Z.to_nat (maxlen - 1)) with (length a) by lia. rewrite split_line_full by done. by rewrite drop_cr_none. }
  rewrite Er in *. eauto.
Qed.

(** The end of the data. *)
Lemma readline_end fd maxlen :
  1 < maxlen -> fd_data fd = Some [] -> exists fd', readline fd maxlen = Some (EMPTY, fd') /\ fd_data fd' = Some [].
Proof.
  intros Hm Hd. destruct (readline_spec fd _ maxlen Hd) as (fd' & E & Hd'); [lia|].
  unfold readline_ref in *. rewrite (proj2 (Z.ltb_lt 1 maxlen) Hm) in *. eauto.
Qed.

(** ** Properties *)

(** [readline] gives the next line of the data, without its terminator
    and its carriage returns, and leaves exactly what follows, for every way
    the kernel can split the data over interrupted and short reads; and what
    it stores fits in a buffer of [maxlen] bytes with the terminator. *)
Theorem readline_any_chunking fd d maxlen :
  fd_data fd = Some d -> 1 <= maxlen ->
  exists r fd', readline fd maxlen = Some (r, fd') /\
    fd_data fd' = Some (readline_ref maxlen d).2 /\ r = (readline_ref maxlen d).1 /\
    (forall line, r = DATA line -> Z.of_nat (length line) + 1 <= maxlen).
Proof.
  intros Hd Hm. destruct (readline_spec fd d maxlen Hd Hm) as (fd' & E & Hd').
  exists (readline_ref maxlen d).1, fd'. split_and!; [done..|]. intros line. by apply readline_ref_fits.
Qed.

Lemma readline_any_chunking_witness :
  let fd := [Chunk (cs "HE"); Intr; Chunk (cs "LO"); Chunk [cr; nl; "x"%char]] in
  exists r fd', readline fd 16 = Some (r, fd') /\
    fd_data fd' = Some (readline_ref 16 (cs "HELO" ++ [cr; nl; "x"%char])).2 /\
    r = (readline_ref 16 (cs "HELO" ++ [cr; nl; "x"%char])).1 /\
    (forall line, r = DATA line -> Z.of_nat (length line) + 1 <= 16).
Proof. intros fd. apply readline_any_chunking; [reflexivity | lia]. Defined.

(** What [writen] sends over a descriptor that accepts it in any pieces is
    what [readn] of the same length receives at the other end, however the
    stream is cut up there; the rest of the stream stays unread. *)
Theorem writen_readn_roundtrip {A} (w : wfd) (r : rfd A) (data rest : list A) :
  WErr ∉ w -> fd_data r = Some (data ++ rest) ->
  exists w' r', writen w data = Some (true, data, w') /\
    readn r (length data) = Some (Some data, r') /\ fd_data r' = Some rest.
Proof.
  intros Hw Hr. destruct (writen_spec w data Hw) as (w' & -> & _).
  destruct (readn_spec r (data ++ rest) (length data) Hr) as (r' & Hr' & E).
  exists w', r'. rewrite drop_app_length in Hr'. rewrite take_app_length in E. done.
Qed.

Lemma writen_readn_roundtrip_witness :
  exists w' r', writen [Accept 0; WIntr] [1; 2; 3] = Some (true, [1; 2; 3], w') /\
    readn [Chunk [1; 2]; Intr; Chunk [3; 4]] (length [1; 2; 3]) = Some (Some [1; 2; 3], r') /\
    fd_data r' = Some [4].
Proof.
  apply (writen_readn_roundtrip [Accept 0; WIntr] [Chunk [1; 2]; Intr; Chunk [3; 4]] [1; 2; 3] [4]);
    [|reflexivity].
  rewrite not_elem_of_cons, list_elem_of_singleton. split; discriminate.
Defined.
