(* ===== verification/MsgQueue.v ===== *)
(** * Message queues ([src/src/msgqueue.c])

    Queues and messages live in a heap and point at each other with
    [head], [tail], [next] and [delaypair], as in the source.  A call is a
    function on the heap that returns, faults, or waits (the queue is empty or
    its mutex is held, [Wait]: nothing has changed and the call can be made
    again).  Every call holds the queue's mutex while it changes the queue, so
    calls are the atomic steps of the concurrent program.

    The second half defines the abstract queues (lists of messages, a free
    list of identifiers) and proves that the heap refines them. *)

From S2P Require Import Prelude Utils.

(** ** Data *)

Section Queues.
Context {B : Type}.

(** What [msgp] points to: the copy of a message, or a queue in the metaqueue. *)
Inductive mptr := Payload (l : list B) | QueuePtr (q : nat).

Record msg_t := Msg {
  msgp : mptr;
  msgsz : Z;
  next : option nat;
  timestamp : timespec }.

Record msgqueue_t := MsgQueue {
  mx : bool;                     (* the mutex is held *)
  head : option nat;
  tail : option nat;
  msgcount : Z;
  delaypair : option nat;
  delay_ts : option nat;         (* a shared struct timespec *)
  impose_delay : option nat;     (* a shared int *)
  active : bool;
  id : Z }.

(** An element of the array of queues: [calloc] clears it, [realloc] does not. *)
Inductive qslot := Null | Garbage | Slot (q : nat).

Record heap := Heap {
  h_msgs : gmap nat msg_t;
  h_queues : gmap nat msgqueue_t;
  h_times : gmap nat timespec;
  h_ints : gmap nat Z;
  h_fresh : nat;                 (* addresses not below it are free *)
  queues : list qslot;
  metaqueue : option nat;
  queuespace : Z;
  numqueues : Z;
  initialized : bool }.

Definition heap0 : heap := Heap ∅ ∅ ∅ ∅ 0 [] None 1 0 false.

(** ** Calls *)

Inductive outcome (A : Type) := Ret (a : A) (h : heap) | Wait.
Arguments Ret {A} _ _.
Arguments Wait {A}.

Definition call (A : Type) : Type := heap -> Res (outcome A).

Definition cret {A} (a : A) : call A := fun h => Ok (Ret a h).
Definition cbind {A C} (m : call A) (k : A -> call C) : call C := fun h =>
  match m h with
  | Ok (Ret a h') => k a h'
  | Ok Wait => Ok Wait
  | Fail f => Fail f
  end.
Definition lift {A} (r : Res A) : call A := fun h => a ← r; Ok (Ret a h).
Definition wait {A} : call A := fun _ => Ok Wait.
Definition gets {A} (f : heap -> A) : call A := fun h => Ok (Ret (f h) h).

Notation "'let!' x := m 'in' k" := (cbind m (fun x => k)) (at level 10, x binder, m at level 200, k at level 200).
Notation "m ;; k" := (cbind m (fun _ => k)) (at level 100, k at level 200, right associativity).

Definition deref {A} (o : option A) : Res A := match o with Some a => Ok a | None => Fail OutOfBounds end.

Definition with_msgs (h : heap) m : heap :=
  Heap m (h_queues h) (h_times h) (h_ints h) (h_fresh h) (queues h) (metaqueue h) (queuespace h)
    (numqueues h) (initialized h).
Definition with_queues (h : heap) q : heap :=
  Heap (h_msgs h) q (h_times h) (h_ints h) (h_fresh h) (queues h) (metaqueue h) (queuespace h)
    (numqueues h) (initialized h).
Definition with_table (h : heap) t mq sp nq i : heap :=
  Heap (h_msgs h) (h_queues h) (h_times h) (h_ints h) (h_fresh h) t mq sp nq i.

Definition read_msg (m : nat) : call msg_t := let! h := gets h_msgs in lift (deref (h !! m)).
Definition read_queue (q : nat) : call msgqueue_t := let! h := gets h_queues in lift (deref (h !! q)).
Definition write_msg (m : nat) (v : msg_t) : call unit := fun h =>
  Ok (Ret tt (with_msgs h (<[m := v]> (h_msgs h)))).
Definition write_queue (q : nat) (v : msgqueue_t) : call unit := fun h =>
  Ok (Ret tt (with_queues h (<[q := v]> (h_queues h)))).
Definition free_msg (m : nat) : call unit := fun h =>
  Ok (Ret tt (with_msgs h (delete m (h_msgs h)))).

(** [Malloc]s of a message and of a queue. *)
Definition bump (h : heap) : heap :=
  Heap (h_msgs h) (h_queues h) (h_times h) (h_ints h) (S (h_fresh h)) (queues h) (metaqueue h)
    (queuespace h) (numqueues h) (initialized h).
Definition new_msg (v : msg_t) : call nat := fun h =>
  Ok (Ret (h_fresh h) (bump (with_msgs h (<[h_fresh h := v]> (h_msgs h))))).
Definition new_queue (v : msgqueue_t) : call nat := fun h =>
  Ok (Ret (h_fresh h) (bump (with_queues h (<[h_fresh h := v]> (h_queues h))))).

Definition set_links (mq : msgqueue_t) hd tl count : msgqueue_t :=
  MsgQueue (mx mq) hd tl count (delaypair mq) (delay_ts mq) (impose_delay mq) (active mq) (id mq).
Definition set_active (mq : msgqueue_t) a : msgqueue_t :=
  MsgQueue (mx mq) (head mq) (tail mq) (msgcount mq) (delaypair mq) (delay_ts mq) (impose_delay mq) a (id mq).
Definition set_mx (mq : msgqueue_t) l : msgqueue_t :=
  MsgQueue l (head mq) (tail mq) (msgcount mq) (delaypair mq) (delay_ts mq) (impose_delay mq) (active mq) (id mq).
Definition set_pair (mq : msgqueue_t) p ts imp : msgqueue_t :=
  MsgQueue (mx mq) (head mq) (tail mq) (msgcount mq) p ts imp (active mq) (id mq).
Definition set_next (m : msg_t) n : msg_t := Msg (msgp m) (msgsz m) n (timestamp m).

(** [pthread_mutex_lock]: waits while the mutex is held. *)
Definition lock (q : nat) : call unit :=
  let! mq := read_queue q in if mx mq then wait else cret tt.

(** ** The table of queues *)

Definition queue_realloc : call unit := fun h =>
  let space := if queuespace h =? 0 then 1 else queuespace h in
  sp ← int_val (space * 2);
  let size := Z.to_nat sp in
  Ok (Ret tt (with_table h (take size (queues h) ++ replicate (size - length (queues h)) Garbage)
    (metaqueue h) sp (numqueues h) (initialized h))).

Definition queuebyid (msqid : Z) : call (option nat) :=
  let! t := gets queues in
  let! s := lift (aget t msqid) in
  match s with
  | Null => cret None
  | Garbage => lift (Fail Undefined)
  | Slot q => cret (Some q)
  end.

Definition create_queue : call nat :=
  new_queue (MsgQueue false None None 0 None None None false 0).

(** ** Raw messages *)

Definition put_msg_raw (q m : nat) : call Z :=
  let! mq := read_queue q in
  if negb (active mq) then cret (-1)
  else
    lock q ;;
    let! mq := read_queue q in
    let! hd := match tail mq with
      | Some t =>
          lift (c_assert (bool_decide (is_Some (head mq)))) ;;
          let! tm := read_msg t in
          write_msg t (set_next tm (Some m)) ;;
          cret (head mq)
      | None =>
          lift (c_assert (bool_decide (head mq = None))) ;; cret (Some m)
      end in
    let! new := read_msg m in
    lift (c_assert (bool_decide (next new = None))) ;;
    let! count := lift (int_val (msgcount mq + 1)) in
    write_queue q (set_links mq hd (Some m) count) ;;
    cret 0.

(** [expired]: the timed wait ran out.  A message that comes in while the
    expired wait gets its mutex back is left in the queue, as one that comes
    after the call. *)
Definition get_msg_raw (q : nat) (timeout : Z) (expired : bool) : call (option nat) :=
  let! mq := read_queue q in
  if negb (active mq) then cret None
  else
    lock q ;;
    let! ret := match head mq with
      | Some _ => cret 0
      | None =>
          if 0 <=? timeout then
            if timeout =? 0 then wait else if expired then cret 110 else wait
          else cret (-1)
      end in
    if negb (ret =? 0) then cret None
    else
      lift (c_assert (bool_decide (is_Some (head mq)))) ;;
      lift (c_assert (bool_decide (is_Some (tail mq)))) ;;
      let! m := lift (deref (head mq)) in
      let! msg := read_msg m in
      let hd := next msg in
      write_msg m (set_next msg None) ;;
      let! count := lift (int_val (msgcount mq - 1)) in
      let! tl := match hd with
        | None =>
            lift (c_assert (bool_decide (tail mq = Some m))) ;;
            lift (c_assert (count =? 0)) ;;
            cret None
        | Some _ => cret (tail mq)
        end in
      write_queue q (set_links mq hd tl count) ;;
      cret (Some m).

Definition try_available : call (option nat) :=
  let! meta := gets metaqueue in
  let! meta := lift (deref meta) in
  let! msg := get_msg_raw meta (-1) false in
  match msg with
  | None => cret None
  | Some m =>
      let! msg := read_msg m in
      match msgp msg with
      | QueuePtr q =>
          let! mq := read_queue q in
          write_queue q (set_active mq true) ;;
          free_msg m ;;
          cret (Some q)
      | Payload _ => lift (Fail Undefined)
      end
  end.

(** ** Queues *)

Definition get_queue : call Z :=
  let! i := gets initialized in
  (if i then cret tt
   else
     let! meta := create_queue in
     let! mq := read_queue meta in
     write_queue meta (set_active mq true) ;;
     fun h => Ok (Ret tt (with_table h (replicate (Z.to_nat (queuespace h)) Null) (Some meta)
       (queuespace h) (numqueues h) true))) ;;
  let! avail := try_available in
  match avail with
  | Some q => let! mq := read_queue q in cret (id mq)
  | None =>
      let! i := gets numqueues in
      let! n := lift (int_val (i + 1)) in
      (fun h => Ok (Ret tt (with_table h (queues h) (metaqueue h) (queuespace h) n (initialized h)))) ;;
      let! q := create_queue in
      write_queue q (MsgQueue false None None 0 None None None true i) ;;
      let! space := gets queuespace in
      (if space <? n then queue_realloc else cret tt) ;;
      let! t := gets queues in
      let! t := lift (aset t i (Slot q)) in
      (fun h => Ok (Ret tt (with_table h t (metaqueue h) (queuespace h) (numqueues h) (initialized h)))) ;;
      cret i
  end.

Definition release_queue (msqid : Z) : call Z :=
  let! q := queuebyid msqid in
  let! q := lift (deref q) in
  let! mq := read_queue q in
  match delaypair mq, head mq with
  | Some _, _ => cret (-1)
  | None, Some _ => cret (-1)
  | None, None =>
      lock q ;;
      write_queue q (set_active mq false) ;;
      let! m := new_msg (Msg (QueuePtr q) 0 None (Timespec 0 0)) in
      let! meta := gets metaqueue in
      let! meta := lift (deref meta) in
      let! ret := put_msg_raw meta m in
      lift (c_assert (ret =? 0)) ;;
      cret 0
  end.

(** [Malloc(msgsz)] refuses a size of zero. *)
Definition put_copy (q : nat) (now : timespec) (data : list B) : call Z :=
  lift (c_assert (negb (Nat.eqb (length data) 0))) ;;
  let! m := new_msg (Msg (Payload data) (Z.of_nat (length data)) None now) in
  put_msg_raw q m.

Definition put_msg (msqid : Z) (now : timespec) (data : list B) : call Z :=
  let! q := queuebyid msqid in
  lift (c_assert (bool_decide (is_Some q))) ;;
  let! q := lift (deref q) in
  put_copy q now data.

Definition instant_msg (msqid : Z) (now : timespec) (data : list B) : call Z :=
  let! q := queuebyid msqid in
  lift (c_assert (bool_decide (is_Some q))) ;;
  let! q := lift (deref q) in
  let! mq := read_queue q in
  put_copy (default q (delaypair mq)) now data.

(** The length returned and what is copied to the caller's buffer. *)
Definition get_msg_timed (msqid : Z) (maxsize : Z) (timeout : Z) (expired : bool) : call (Z * list B) :=
  let! q := queuebyid msqid in
  lift (c_assert (bool_decide (is_Some q))) ;;
  let! q := lift (deref q) in
  let! mq := read_queue q in
  let! msg := get_msg_raw (default q (delaypair mq)) timeout expired in
  match msg with
  | None => cret (0, [])
  | Some m =>
      let! msg := read_msg m in
      let msglen := if maxsize <? msgsz msg then maxsize else msgsz msg in
      match msgp msg with
      | Payload l => free_msg m ;; cret (msglen, take (Z.to_nat msglen) l)
      | QueuePtr _ => lift (Fail Undefined)
      end
  end.

Definition get_msg (msqid maxsize : Z) : call (Z * list B) := get_msg_timed msqid maxsize 0 false.

Definition in_queue_len (msqid : Z) : call Z :=
  let! q := queuebyid msqid in
  lift (c_assert (bool_decide (is_Some q))) ;;
  let! q := lift (deref q) in
  let! mq := read_queue q in
  cret (msgcount mq).

Definition out_queue_len (msqid : Z) : call Z :=
  let! q := queuebyid msqid in
  lift (c_assert (bool_decide (is_Some q))) ;;
  let! q := lift (deref q) in
  let! mq := read_queue q in
  match delaypair mq with
  | Some p => let! pq := read_queue p in cret (msgcount pq)
  | None => in_queue_len msqid
  end.

(** ** Delay queues *)

Definition new_time (t : timespec) : call nat := fun h =>
  Ok (Ret (h_fresh h) (bump (Heap (h_msgs h) (h_queues h) (<[h_fresh h := t]> (h_times h)) (h_ints h)
    (h_fresh h) (queues h) (metaqueue h) (queuespace h) (numqueues h) (initialized h)))).

Definition set_int (p : nat) (v : Z) : call unit := fun h =>
  Ok (Ret tt (Heap (h_msgs h) (h_queues h) (h_times h) (<[p := v]> (h_ints h))
    (h_fresh h) (queues h) (metaqueue h) (queuespace h) (numqueues h) (initialized h))).

Definition set_time (p : nat) (v : timespec) : call unit := fun h =>
  Ok (Ret tt (Heap (h_msgs h) (h_queues h) (<[p := v]> (h_times h)) (h_ints h)
    (h_fresh h) (queues h) (metaqueue h) (queuespace h) (numqueues h) (initialized h))).

Definition new_int (v : Z) : call nat := fun h =>
  Ok (Ret (h_fresh h) (bump (Heap (h_msgs h) (h_queues h) (h_times h) (<[h_fresh h := v]> (h_ints h))
    (h_fresh h) (queues h) (metaqueue h) (queuespace h) (numqueues h) (initialized h)))).

(** The identifier for the clients, and the two queues the [delay] thread works on. *)
Definition get_delay_queue (ts : option nat) : call (Z * option (nat * nat)) :=
  match ts with
  | None => cret (-1, None)
  | Some _ =>
      let! putqid := get_queue in
      let! getqid := get_queue in
      let! imp := new_int 1 in
      let! inq := queuebyid putqid in
      lift (c_assert (bool_decide (is_Some inq))) ;;
      let! inq := lift (deref inq) in
      let! outq := queuebyid getqid in
      lift (c_assert (bool_decide (is_Some outq))) ;;
      let! outq := lift (deref outq) in
      let! mi := read_queue inq in
      write_queue inq (set_pair mi (Some outq) ts (Some imp)) ;;
      let! mo := read_queue outq in
      write_queue outq (set_pair mo (Some inq) ts (Some imp)) ;;
      cret (putqid, Some (inq, outq))
  end.

Definition set_delay_status (msqid state : Z) : call Z :=
  let! q := queuebyid msqid in
  match q with
  | None => cret (-1)
  | Some q =>
      let! mq := read_queue q in
      match delaypair mq with
      | None => cret (-1)
      | Some _ =>
          lock q ;;
          let! p := lift (deref (impose_delay mq)) in
          set_int p state ;;
          cret 0
      end
  end.

Definition disable_delay (msqid : Z) : call Z := set_delay_status msqid 0.
Definition enable_delay (msqid : Z) : call Z := set_delay_status msqid 1.

Definition set_delay (msqid : Z) (ts : timespec) : call Z :=
  let! q := queuebyid msqid in
  match q with
  | None => cret (-1)
  | Some q =>
      let! mq := read_queue q in
      match delaypair mq, delay_ts mq with
      | Some _, Some p => lock q ;; set_time p ts ;; cret 0
      | _, _ => cret (-1)
      end
  end.

(** [queue_freeze] holds the mutexes of the queue and its pair, [queue_thaw]
    gives them back. *)
Definition set_frozen (q : nat) (b : bool) : call unit :=
  let! mq := read_queue q in write_queue q (set_mx mq b).

Definition queue_freeze (msqid : Z) : call Z :=
  let! q := queuebyid msqid in
  match q with
  | None => cret (-1)
  | Some q =>
      lock q ;; set_frozen q true ;;
      let! mq := read_queue q in
      match delaypair mq with
      | Some p => lock p ;; set_frozen p true ;; cret 0
      | None => cret 0
      end
  end.

Definition queue_thaw (msqid : Z) : call Z :=
  let! q := queuebyid msqid in
  match q with
  | None => cret (-1)
  | Some q =>
      set_frozen q false ;;
      let! mq := read_queue q in
      match delaypair mq with
      | Some p => set_frozen p false ;; cret 0
      | None => cret 0
      end
  end.

Definition peek_msg_timestamp (q : nat) : call (option timespec) :=
  let! mq := read_queue q in
  if negb (active mq) then cret None
  else
    lock q ;;
    match head mq with
    | None => wait
    | Some m =>
        lift (c_assert (bool_decide (is_Some (tail mq)))) ;;
        let! msg := read_msg m in
        cret (Some (timestamp msg))
    end.

(** First half of a round of the [delay] thread: how long to sleep at time
    [now] ([None]: not at all). *)
Definition delay_sleep (inq : nat) (now : timespec) : call (option timespec) :=
  let! ts := peek_msg_timestamp inq in
  let! mq := read_queue inq in
  let! ints := gets h_ints in
  let! times := gets h_times in
  match ts with
  | None => cret None
  | Some t =>
      let! imp := lift (deref (impose_delay mq)) in
      let! imp := lift (deref (ints !! imp)) in
      if imp =? 0 then cret None
      else
        match delay_ts mq with
        | None => cret None
        | Some p =>
            let! d := lift (deref (times !! p)) in
            if negb (tv_sec d =? 0) || negb (tv_nsec d =? 0) then
              let reftime := ts_sum t d in
              let '(ret, sleeptime) := ts_diff reftime now in
              cret (if ret =? 0 then Some sleeptime else None)
            else cret None
        end
  end.

(** Second half: the first message moves to the other queue. *)
Definition delay_pass (inq outq : nat) : call Z :=
  let! m := get_msg_raw inq 0 false in
  let! m := lift (deref m) in
  let! msg := read_msg m in
  lift (c_assert (bool_decide (next msg = None))) ;;
  put_msg_raw outq m.

(** ** Walking a queue *)

(** The messages shown to the callback, in order, and its verdict. *)
Fixpoint walk_msgs (fuel : nat) (callback : mptr -> Z) (p : option nat) (seen : list mptr)
    : call (bool * list mptr) :=
  match p, fuel with
  | None, _ => cret (true, seen)
  | Some _, O => wait
  | Some m, S fuel =>
      let! msg := read_msg m in
      if callback (msgp msg) <? 0 then cret (false, seen ++ [msgp msg])
      else walk_msgs fuel callback (next msg) (seen ++ [msgp msg])
  end.

Definition walk_queue (msqid : Z) (callback : mptr -> Z) : call (Z * list mptr) :=
  let! q := queuebyid msqid in
  lift (c_assert (bool_decide (is_Some q))) ;;
  let! q := lift (deref q) in
  let! mq := read_queue q in
  if negb (active mq) then cret (-1, [])
  else
    let! msgs := gets h_msgs in
    let! r := walk_msgs (S (size msgs)) callback (head mq) [] in
    if negb r.1 then cret (-1, r.2)
    else
      match delaypair mq with
      | None => cret (0, r.2)
      | Some p =>
          let! pq := read_queue p in
          match head pq with
          | None => cret (0, r.2)
          | Some _ =>
              let! r' := walk_msgs (S (size msgs)) callback (head mq) r.2 in
              cret (if r'.1 then 0 else -1, r'.2)
          end
      end.

End Queues.

Arguments mptr B : clear implicits.
Arguments msg_t B : clear implicits.
Arguments heap B : clear implicits.
Arguments call B A : clear implicits.
Arguments outcome B A : clear implicits.
Arguments Ret {B A} _ _.
Arguments Wait {B A}.

(** ** Linked lists of messages *)

Section Lists.
Context {B : Type}.
Implicit Types (h : heap B) (msgs : gmap nat (msg_t B)) (l : list nat) (c : gmap nat (list nat)).

(** From [p], following [next], the messages are [l]. *)
Fixpoint seg msgs (p : option nat) l : Prop :=
  match l with
  | [] => p = None
  | x :: t => p = Some x /\ exists m, msgs !! x = Some m /\ seg msgs (next m) t
  end.

Definition queue_ok msgs (mq : msgqueue_t) l : Prop :=
  seg msgs (head mq) l /\ tail mq = last l /\ msgcount mq = Z.of_nat (length l).

(** The part of a message that moves around: all but its link. *)
Definition info msgs (x : nat) : option (mptr B * Z * timespec) :=
  match msgs !! x with Some m => Some (msgp m, msgsz m, timestamp m) | None => None end.

Lemma seg_ext msgs msgs' p l :
  (forall x, x ∈ l -> msgs' !! x = msgs !! x) -> seg msgs p l -> seg msgs' p l.
Proof.
  revert p. induction l as [|x l IH]; intros p He; cbn; [done|].
  intros (-> & m & Hm & Hs). split; [done|]. exists m. rewrite He by left. split; [done|].
  apply IH; [|done]. intros y Hy. apply He. by right.
Qed.

Lemma seg_insert msgs p l x v : x ∉ l -> seg msgs p l -> seg (<[x := v]> msgs) p l.
Proof. intros Hx. apply seg_ext. intros y Hy. apply lookup_insert_ne. congruence. Qed.

Lemma seg_elem msgs p l x : seg msgs p l -> x ∈ l -> is_Some (msgs !! x).
Proof.
  revert p. induction l as [|y l IH]; intros p Hs Hx; [by apply not_elem_of_nil in Hx|].
  destruct Hs as (-> & m & Hm & Hs). apply elem_of_cons in Hx as [->|Hx]; eauto.
Qed.

(** Linking [x] behind the last message. *)
Lemma seg_snoc msgs p l t tm x :
  NoDup l -> x ∉ l -> (exists xm, msgs !! x = Some xm /\ next xm = None) ->
  seg msgs p l -> last l = Some t -> msgs !! t = Some tm ->
  seg (<[t := set_next tm (Some x)]> msgs) p (l ++ [x]).
Proof.
  intros Hn Hx (xm & Hxm & Hxn). revert p. induction l as [|y l IH]; intros p Hs Hl Ht; [done|].
  destruct Hs as (-> & m & Hm & Hs). apply NoDup_cons in Hn as [Hy Hn]. rewrite not_elem_of_cons in Hx.
  destruct l as [|z l].
  - cbn in Hl. injection Hl as ->. cbn. split; [done|].
    exists (set_next tm (Some x)). rewrite lookup_insert_eq. split; [done|]. cbn. split; [done|].
    exists xm. rewrite lookup_insert_ne by naive_solver. done.
  - cbn [app seg]. split; [done|]. exists m. rewrite last_cons_cons in Hl. split.
    + rewrite lookup_insert_ne; [done|]. intros ->. apply Hy. by apply last_Some_elem_of.
    + apply (IH Hn); [naive_solver|done..].
Qed.

(** The invariant of the heap: [c] gives the messages of every queue. *)
Record wf h c : Prop := {
  wf_queue : forall q mq, h_queues h !! q = Some mq -> exists l, c !! q = Some l /\ queue_ok (h_msgs h) mq l;
  wf_disj : forall q1 q2 l1 l2 x, c !! q1 = Some l1 -> c !! q2 = Some l2 -> x ∈ l1 -> x ∈ l2 -> q1 = q2;
  wf_nodup : forall q l, c !! q = Some l -> NoDup l;
  wf_dom : forall q l, c !! q = Some l -> is_Some (h_queues h !! q);
  wf_mfresh : forall x m, h_msgs h !! x = Some m -> (x < h_fresh h)%nat;
  wf_qfresh : forall q mq, h_queues h !! q = Some mq -> (q < h_fresh h)%nat }.

Definition loose c (x : nat) : Prop := forall q l, c !! q = Some l -> x ∉ l.

Lemma wf_elem h c q l x : wf h c -> c !! q = Some l -> x ∈ l -> is_Some (h_msgs h !! x).
Proof.
  intros W Hc Hx. destruct (wf_dom h c W q l Hc) as [mq Hq].
  destruct (wf_queue h c W q mq Hq) as (l' & Hc' & Hs & _). rewrite Hc in Hc'. injection Hc' as <-.
  by eapply seg_elem.
Qed.

(** Changing the messages and one queue, when the other queues do not use
    what changed. *)
Lemma wf_update h c q mq mq' l l' msgs' :
  wf h c -> h_queues h !! q = Some mq -> c !! q = Some l ->
  queue_ok msgs' mq' l' -> NoDup l' ->
  (forall x, x ∈ l' -> x ∈ l \/ loose c x) ->
  (forall x, msgs' !! x = h_msgs h !! x \/ x ∈ l \/ loose c x) ->
  (forall x m, msgs' !! x = Some m -> (x < h_fresh h)%nat) ->
  wf (with_msgs (with_queues h (<[q := mq']> (h_queues h))) msgs') (<[q := l']> c).
Proof.
  intros W Hq Hc Hok Hnd Hl' Hch Hfr. split; cbn.
  - intros q2 mq2 H2. destruct (decide (q2 = q)) as [->|Hne].
    + rewrite lookup_insert_eq in H2. injection H2 as <-. exists l'. by rewrite lookup_insert_eq.
    + rewrite lookup_insert_ne in H2 by done. rewrite lookup_insert_ne by done.
      destruct (wf_queue h c W q2 mq2 H2) as (l2 & Hc2 & Hs & Ht). exists l2. split; [done|].
      split; [|done]. apply (seg_ext (h_msgs h)); [|done]. intros x Hx.
      destruct (Hch x) as [|[Hin|Hlo]]; [done| |by destruct (Hlo q2 l2)].
      destruct Hne. by eapply (wf_disj h c W q2 q).
  - intros q1 q2 l1 l2 x H1 H2 Hx1 Hx2.
    destruct (decide (q1 = q)) as [->|N1], (decide (q2 = q)) as [->|N2]; try done.
    + rewrite lookup_insert_eq in H1. rewrite lookup_insert_ne in H2 by done. injection H1 as <-.
      destruct (Hl' x Hx1) as [Hin|Hlo]; [by eapply (wf_disj h c W) | by destruct (Hlo q2 l2)].
    + rewrite lookup_insert_eq in H2. rewrite lookup_insert_ne in H1 by done. injection H2 as <-.
      destruct (Hl' x Hx2) as [Hin|Hlo]; [by eapply (wf_disj h c W) | by destruct (Hlo q1 l1)].
    + rewrite lookup_insert_ne in H1, H2 by done. by eapply (wf_disj h c W).
  - intros q2 l2 H2. destruct (decide (q2 = q)) as [->|Hne].
    + rewrite lookup_insert_eq in H2. by injection H2 as <-.
    + rewrite lookup_insert_ne in H2 by done. by eapply (wf_nodup h c W).
  - intros q2 l2 H2. destruct (decide (q2 = q)) as [->|Hne].
    + rewrite lookup_insert_eq. eauto.
    + rewrite lookup_insert_ne in H2 by done. rewrite lookup_insert_ne by done. by eapply (wf_dom h c W).
  - done.
  - intros q2 mq2 H2. destruct (decide (q2 = q)) as [->|Hne].
    + by eapply (wf_qfresh h c W).
    + rewrite lookup_insert_ne in H2 by done. by eapply (wf_qfresh h c W).
Qed.

Lemma info_insert msgs x m m' :
  msgs !! x = Some m -> msgp m' = msgp m -> msgsz m' = msgsz m -> timestamp m' = timestamp m ->
  forall y, info (<[x := m']> msgs) y = info msgs y.
Proof.
  intros Hx H1 H2 H3 y. unfold info. destruct (decide (y = x)) as [->|N].
  - by rewrite lookup_insert_eq, Hx, H1, H2, H3.
  - by rewrite lookup_insert_ne.
Qed.

(** *** Evaluating calls *)

Section Steps.
Context {A C : Type}.
Implicit Types (k : A -> call B C).

Lemma cbind_cret (a : A) k h : cbind (cret a) k h = k a h.
Proof. done. Qed.

Lemma cbind_gets (f : heap B -> A) k h : cbind (gets f) k h = k (f h) h.
Proof. done. Qed.

Lemma cbind_assoc {D} (m : call B D) (f : D -> call B A) k h :
  cbind (cbind m f) k h = cbind m (fun d => cbind (f d) k) h.
Proof. unfold cbind. destruct (m h) as [[|]|]; done. Qed.

Lemma cbind_lift r (a : A) k h : r = Ok a -> cbind (lift r) k h = k a h.
Proof. by intros ->. Qed.

Lemma cbind_ok (m : call B A) k h a h' : m h = Ok (Ret a h') -> cbind m k h = k a h'.
Proof. unfold cbind. by intros ->. Qed.

Lemma cbind_wait (m : call B A) k h : m h = Ok Wait -> cbind m k h = Ok Wait.
Proof. unfold cbind. by intros ->. Qed.
End Steps.

Section Steps2.
Context {C : Type}.

Lemma cbind_assert b (k : unit -> call B C) h : b = true -> cbind (lift (c_assert b)) k h = k tt h.
Proof. by intros ->. Qed.

Lemma cbind_read_queue q mq (k : msgqueue_t -> call B C) h :
  h_queues h !! q = Some mq -> cbind (read_queue q) k h = k mq h.
Proof. intros H. unfold read_queue, gets, lift, cbind, deref. by rewrite H. Qed.

Lemma cbind_read_msg m mm (k : msg_t B -> call B C) h :
  h_msgs h !! m = Some mm -> cbind (read_msg m) k h = k mm h.
Proof. intros H. unfold read_msg, gets, lift, cbind, deref. by rewrite H. Qed.

Lemma cbind_lock q mq (k : unit -> call B C) h :
  h_queues h !! q = Some mq -> mx mq = false -> cbind (lock q) k h = k tt h.
Proof. intros H Hx. unfold lock, read_queue, gets, lift, cbind, deref. rewrite H. cbn. by rewrite Hx. Qed.

Lemma cbind_write_queue q mq (k : unit -> call B C) h :
  cbind (write_queue q mq) k h = k tt (with_queues h (<[q := mq]> (h_queues h))).
Proof. done. Qed.

Lemma cbind_write_msg m mm (k : unit -> call B C) h :
  cbind (write_msg m mm) k h = k tt (with_msgs h (<[m := mm]> (h_msgs h))).
Proof. done. Qed.

Lemma cbind_free_msg m (k : unit -> call B C) h :
  cbind (free_msg m) k h = k tt (with_msgs h (delete m (h_msgs h))).
Proof. done. Qed.

Lemma cbind_new_msg v (k : nat -> call B C) h :
  cbind (new_msg v) k h = k (h_fresh h) (bump (with_msgs h (<[h_fresh h := v]> (h_msgs h)))).
Proof. done. Qed.

Lemma cbind_new_queue v (k : nat -> call B C) h :
  cbind (new_queue v) k h = k (h_fresh h) (bump (with_queues h (<[h_fresh h := v]> (h_queues h)))).
Proof. done. Qed.
End Steps2.

Ltac look := cbn; first [eassumption | by simplify_map_eq].

(** One call of a sequence; side conditions come from the hypotheses. *)
Ltac step := first
  [ rewrite cbind_assoc | rewrite cbind_cret | rewrite cbind_gets | rewrite cbind_write_queue
  | rewrite cbind_write_msg | rewrite cbind_free_msg | rewrite cbind_new_msg | rewrite cbind_new_queue
  | rewrite cbind_assert by first [eassumption | apply bool_decide_eq_true_2; first [eassumption | done | by eauto]]
  | erewrite cbind_read_queue by look | erewrite cbind_read_msg by look
  | erewrite cbind_lock by look
  | erewrite cbind_lift by first [eassumption | reflexivity] ];
  cbv beta iota.
Ltac steps := cbv beta iota; repeat step.

Definition put_heap h q mq l m : heap B :=
  with_msgs
    (with_queues h (<[q := set_links mq (match head mq with Some p => Some p | None => Some m end) (Some m)
      (Z.of_nat (length l) + 1)]> (h_queues h)))
    (match last l with
     | Some t => match h_msgs h !! t with Some tm => <[t := set_next tm (Some m)]> (h_msgs h) | None => h_msgs h end
     | None => h_msgs h end).

(** Queueing the message [m] on an active queue. *)
Lemma put_raw_ok h c q mq l m mm :
  wf h c -> h_queues h !! q = Some mq -> c !! q = Some l -> active mq = true -> mx mq = false ->
  h_msgs h !! m = Some mm -> next mm = None -> loose c m -> Z.of_nat (length l) < INT_MAX ->
  put_msg_raw q m h = Ok (Ret 0 (put_heap h q mq l m)) /\
  wf (put_heap h q mq l m) (<[q := l ++ [m]]> c) /\
  forall x, info (h_msgs (put_heap h q mq l m)) x = info (h_msgs h) x.
Proof.
  intros W Hq Hc Ha Hx Hm Hn Hlo Hlen. pose proof (wf_nodup h c W q l Hc) as Hnd.
  destruct (wf_queue h c W q mq Hq) as (l0 & Hc0 & Hok).
  rewrite Hc in Hc0. injection Hc0 as <-. destruct Hok as (Hs & Ht & Hcnt).
  assert (m ∉ l) as Hml by (by eapply Hlo).
  assert (NoDup (l ++ [m])) as Hnd'
    by (apply NoDup_app; split; [done|]; split; [|apply NoDup_singleton]; set_solver).
  assert (Hel : forall x, x ∈ l ++ [m] -> x ∈ l \/ loose c x) by set_solver.
  assert (int_val (msgcount mq + 1) = Ok (Z.of_nat (length l) + 1)) as Hiv
    by (rewrite Hcnt; apply int_val_ok; unfold INT_MIN in *; lia).
  unfold put_heap. destruct (last l) as [t|] eqn:El.
  - assert (t ∈ l) as Htl by (by apply last_Some_elem_of).
    destruct (seg_elem _ _ _ t Hs Htl) as [tm Htm]. rewrite Htm.
    assert (t <> m) as Htm' by congruence.
    destruct (head mq) as [hd|] eqn:Eh; [|by destruct l as [|? ?]; cbn in Hs; [done | destruct Hs]].
    split; [|split].
    + unfold put_msg_raw. steps. rewrite Ha. cbn [negb]. steps. rewrite Ht. steps. by rewrite Eh.
    + eapply wf_update; try done.
      * split; cbn; [|split; [by rewrite last_snoc | rewrite length_app; cbn; lia]].
        rewrite <-Eh. apply seg_snoc; eauto. by rewrite Eh.
      * intros x. destruct (decide (x = t)) as [->|]; [auto | left; by apply lookup_insert_ne].
      * intros x v Hxv. destruct (decide (x = t)) as [->|].
        -- by eapply (wf_mfresh h c W).
        -- rewrite lookup_insert_ne in Hxv by done. by eapply (wf_mfresh h c W).
    + by apply (info_insert _ _ tm).
  - apply last_None in El as ->. cbn in Hs. rewrite Hs.
    split; [|split; [|done]].
    + unfold put_msg_raw. steps. rewrite Ha. cbn [negb]. steps. rewrite Ht. steps. by destruct h.
    + eapply wf_update; try done; [|by left|by eapply wf_mfresh].
      split; cbn; [|done]. eauto.
Qed.

Lemma put_raw_inactive h q mq m :
  h_queues h !! q = Some mq -> active mq = false -> put_msg_raw q m h = Ok (Ret (-1) h).
Proof. intros Hq Ha. unfold put_msg_raw. steps. by rewrite Ha. Qed.

Definition get_heap h q mq l m mm : heap B :=
  with_msgs
    (with_queues h (<[q := set_links mq (next mm) (match next mm with Some _ => tail mq | None => None end)
      (Z.of_nat (length l))]> (h_queues h)))
    (<[m := set_next mm None]> (h_msgs h)).

(** Taking the first message of a queue that has one. *)
Lemma get_raw_ok h c q mq m l timeout expired :
  wf h c -> h_queues h !! q = Some mq -> c !! q = Some (m :: l) -> active mq = true -> mx mq = false ->
  Z.of_nat (length l) < INT_MAX ->
  exists mm, h_msgs h !! m = Some mm /\
  get_msg_raw q timeout expired h = Ok (Ret (Some m) (get_heap h q mq l m mm)) /\
  wf (get_heap h q mq l m mm) (<[q := l]> c) /\
  (forall x, info (h_msgs (get_heap h q mq l m mm)) x = info (h_msgs h) x) /\
  loose (<[q := l]> c) m.
Proof.
  intros W Hq Hc Ha Hx Hlen. pose proof (wf_nodup h c W q _ Hc) as Hnd.
  destruct (wf_queue h c W q mq Hq) as (l0 & Hc0 & Hok).
  rewrite Hc in Hc0. injection Hc0 as <-. destruct Hok as ((Hh & mm & Hm & Hs) & Ht & Hcnt).
  apply NoDup_cons in Hnd as [Hml Hnd]. exists mm. split; [done|].
  assert (int_val (msgcount mq - 1) = Ok (Z.of_nat (length l))) as Hiv.
  { rewrite Hcnt. cbn [length]. replace (Z.of_nat (S (length l)) - 1) with (Z.of_nat (length l)) by lia.
    apply int_val_ok. unfold INT_MIN. lia. }
  split; [|split; [|split]].
  - assert (is_Some (tail mq)) as Ht' by (rewrite Ht; by apply last_is_Some).
    unfold get_msg_raw. steps. rewrite Ha. cbn [negb]. steps. rewrite Hh. steps. cbn [negb Z.eqb]. steps.
    unfold get_heap. destruct l as [|y l]; cbn in Hs.
    + rewrite Hs. steps. done.
    + destruct Hs as [-> _]. steps. done.
  - unfold get_heap. eapply wf_update; try done.
    + split; cbn; [by apply seg_insert|]. split; [|done].
      destruct l as [|y l]; cbn in Hs; [by rewrite Hs|]. destruct Hs as [-> _].
      by rewrite Ht, last_cons_cons.
    + intros x Hxl. left. by right.
    + intros x. destruct (decide (x = m)) as [->|]; [right; left; by left | left; by apply lookup_insert_ne].
    + intros x v Hxv. destruct (decide (x = m)) as [->|].
      * by eapply (wf_mfresh h c W).
      * rewrite lookup_insert_ne in Hxv by done. by eapply (wf_mfresh h c W).
  - by apply (info_insert _ _ mm).
  - intros q2 l2 H2 Hin. destruct (decide (q2 = q)) as [->|Hne].
    + rewrite lookup_insert_eq in H2. by injection H2 as <-.
    + rewrite lookup_insert_ne in H2 by done. destruct Hne.
      eapply (wf_disj h c W q2 q l2 (m :: l) m); try done. by left.
Qed.

(** An empty queue: a call waits, times out, or comes back at once. *)
Lemma get_raw_empty h c q mq timeout expired :
  wf h c -> h_queues h !! q = Some mq -> c !! q = Some [] -> active mq = true -> mx mq = false ->
  get_msg_raw q timeout expired h =
    if (0 <=? timeout) && ((timeout =? 0) || negb expired) then Ok Wait else Ok (Ret None h).
Proof.
  intros W Hq Hc Ha Hx. destruct (wf_queue h c W q mq Hq) as (l0 & Hc0 & (Hs & _)).
  rewrite Hc in Hc0. injection Hc0 as <-. cbn in Hs.
  unfold get_msg_raw. steps. rewrite Ha. cbn [negb]. steps. rewrite Hs.
  destruct (0 <=? timeout); [|done]. cbn. destruct (timeout =? 0); [done|]. by destruct expired.
Qed.

(** *** Allocation *)

Lemma loose_fresh h c x : wf h c -> (h_fresh h <= x)%nat -> loose c x.
Proof.
  intros W Hx q l Hc Hin. destruct (wf_elem h c q l x W Hc Hin) as [m Hm].
  apply (wf_mfresh h c W) in Hm. lia.
Qed.

Lemma wf_new_msg h c v :
  wf h c -> wf (bump (with_msgs h (<[h_fresh h := v]> (h_msgs h)))) c.
Proof.
  intros W. pose proof (loose_fresh h c (h_fresh h) W ltac:(lia)) as Hlo. split; cbn.
  - intros q mq Hq. destruct (wf_queue h c W q mq Hq) as (l & Hc & Hs & Ht). exists l. split; [done|].
    split; [|done]. apply seg_insert; [by eapply Hlo | done].
  - apply (wf_disj h c W).
  - apply (wf_nodup h c W).
  - apply (wf_dom h c W).
  - intros x m Hx. destruct (decide (x = h_fresh h)) as [->|]; [lia|].
    rewrite lookup_insert_ne in Hx by done. apply (wf_mfresh h c W) in Hx. lia.
  - intros q mq Hq. apply (wf_qfresh h c W) in Hq. lia.
Qed.

Lemma wf_free_msg h c m : wf h c -> loose c m -> wf (with_msgs h (delete m (h_msgs h))) c.
Proof.
  intros W Hlo. split; cbn; try apply W.
  - intros q mq Hq. destruct (wf_queue h c W q mq Hq) as (l & Hc & Hs & Ht). exists l. split; [done|].
    split; [|done]. apply (seg_ext (h_msgs h)); [|done]. intros x Hx.
    apply lookup_delete_ne. intros ->. by eapply Hlo.
  - intros x v Hx. apply lookup_delete_Some in Hx as [_ Hx]. by eapply (wf_mfresh h c W).
Qed.

(** A change of a queue that leaves its links alone. *)
Lemma wf_set_queue h c q mq mq' :
  wf h c -> h_queues h !! q = Some mq ->
  head mq' = head mq -> tail mq' = tail mq -> msgcount mq' = msgcount mq ->
  wf (with_queues h (<[q := mq']> (h_queues h))) c.
Proof.
  intros W Hq Eh Et Ec. split; cbn; try apply W.
  - intros q2 mq2 H2. destruct (decide (q2 = q)) as [->|].
    + rewrite lookup_insert_eq in H2. injection H2 as <-. unfold queue_ok. rewrite Eh, Et, Ec.
      by apply (wf_queue h c W).
    + rewrite lookup_insert_ne in H2 by done. by apply (wf_queue h c W).
  - intros q2 l2 H2. destruct (decide (q2 = q)) as [->|]; [by rewrite lookup_insert_eq|].
    rewrite lookup_insert_ne by done. by eapply (wf_dom h c W).
  - intros q2 mq2 H2. destruct (decide (q2 = q)) as [->|]; [by eapply (wf_qfresh h c W)|].
    rewrite lookup_insert_ne in H2 by done. by eapply (wf_qfresh h c W).
Qed.

Lemma wf_new_queue h c mq :
  wf h c -> head mq = None -> tail mq = None -> msgcount mq = 0 ->
  wf (bump (with_queues h (<[h_fresh h := mq]> (h_queues h)))) (<[h_fresh h := []]> c).
Proof.
  intros W Eh Et Ec.
  assert (c !! h_fresh h = None) as Hf.
  { destruct (c !! h_fresh h) as [l|] eqn:E; [|done]. destruct (wf_dom h c W _ _ E) as [v Hv].
    apply (wf_qfresh h c W) in Hv. lia. }
  split; cbn.
  - intros q2 mq2 H2. destruct (decide (q2 = h_fresh h)) as [->|].
    + rewrite lookup_insert_eq in H2. injection H2 as <-. exists []. by rewrite lookup_insert_eq.
    + rewrite lookup_insert_ne in H2 by done. rewrite lookup_insert_ne by done. by apply (wf_queue h c W).
  - intros q1 q2 l1 l2 x H1 H2 Hx1 Hx2.
    destruct (decide (q1 = h_fresh h)) as [->|]; [rewrite lookup_insert_eq in H1; injection H1 as <-; set_solver|].
    destruct (decide (q2 = h_fresh h)) as [->|]; [rewrite lookup_insert_eq in H2; injection H2 as <-; set_solver|].
    rewrite lookup_insert_ne in H1, H2 by done. by eapply (wf_disj h c W).
  - intros q l H. destruct (decide (q = h_fresh h)) as [->|].
    + rewrite lookup_insert_eq in H. injection H as <-. constructor.
    + rewrite lookup_insert_ne in H by done. by eapply (wf_nodup h c W).
  - intros q l H. destruct (decide (q = h_fresh h)) as [->|]; [by rewrite lookup_insert_eq|].
    rewrite lookup_insert_ne in H by done. rewrite lookup_insert_ne by done. by eapply (wf_dom h c W).
  - intros x m Hx. apply (wf_mfresh h c W) in Hx. lia.
  - intros q mq2 H2. destruct (decide (q = h_fresh h)) as [->|]; [lia|].
    rewrite lookup_insert_ne in H2 by done. apply (wf_qfresh h c W) in H2. lia.
Qed.

(** ** Abstract queues *)

(** The messages of the queues in use, the identifiers to give out again, and
    how many identifiers there are. *)
Record aqs := Aqs { live : gmap nat (list (list B)); free : list nat; count : nat }.

Definition aqs0 : aqs := Aqs ∅ [] 0.

Inductive qop :=
| QNew
| QPut (i : nat) (now : timespec) (d : list B)
| QGet (i : nat) (maxsize : Z)
| QRelease (i : nat).

Inductive answer := AnInt (z : Z) | AnMsg (len : Z) (d : list B).

(** [None]: the call waits. *)
Definition a_qstep (a : aqs) (o : qop) : option (answer * aqs) :=
  match o with
  | QNew =>
      match free a with
      | i :: f => Some (AnInt (Z.of_nat i), Aqs (<[i := []]> (live a)) f (count a))
      | [] => Some (AnInt (Z.of_nat (count a)), Aqs (<[count a := []]> (live a)) [] (S (count a)))
      end
  | QPut i _ d =>
      match live a !! i with
      | Some l => Some (AnInt 0, Aqs (<[i := l ++ [d]]> (live a)) (free a) (count a))
      | None => Some (AnInt (-1), a)
      end
  | QGet i maxsize =>
      match live a !! i with
      | Some (d :: l) =>
          let len := if maxsize <? Z.of_nat (length d) then maxsize else Z.of_nat (length d) in
          Some (AnMsg len (take (Z.to_nat len) d), Aqs (<[i := l]> (live a)) (free a) (count a))
      | Some [] => None
      | None => Some (AnMsg 0 [], a)
      end
  | QRelease i =>
      match live a !! i with
      | Some [] => Some (AnInt 0, Aqs (delete i (live a)) (free a ++ [i]) (count a))
      | _ => Some (AnInt (-1), a)
      end
  end.

Definition q_step (o : qop) : call B answer :=
  match o with
  | QNew => cbind get_queue (fun z => cret (AnInt z))
  | QPut i now d => cbind (put_msg (Z.of_nat i) now d) (fun z => cret (AnInt z))
  | QGet i maxsize => cbind (get_msg (Z.of_nat i) maxsize) (fun r => cret (AnMsg r.1 r.2))
  | QRelease i => cbind (release_queue (Z.of_nat i)) (fun z => cret (AnInt z))
  end.

(** What the clients must respect: identifiers that were given out, messages
    that are not empty, no queue released twice, and counts that fit. *)
Definition q_valid (a : aqs) (o : qop) : Prop :=
  match o with
  | QNew => Z.of_nat (count a) < 2 ^ 28 /\ Z.of_nat (length (free a)) < INT_MAX
  | QPut i _ d => (i < count a)%nat /\ d <> [] /\
      (forall ds, live a !! i = Some ds -> Z.of_nat (length ds) < INT_MAX)
  | QGet i _ => (i < count a)%nat /\
      (forall ds, live a !! i = Some ds -> Z.of_nat (length ds) < INT_MAX)
  | QRelease i => is_Some (live a !! i) /\ Z.of_nat (length (free a)) < INT_MAX
  end.

(** ** The heap refines the abstract queues *)

(** Message [m] of the heap carries the data [d]; or gives queue [i] back. *)
Definition holds h (m : nat) (d : list B) : Prop :=
  exists ts, info (h_msgs h) m = Some (Payload d, Z.of_nat (length d), ts).
Definition points h (qof : nat -> nat) (m i : nat) : Prop :=
  exists sz ts, info (h_msgs h) m = Some (QueuePtr (qof i), sz, ts).

(** Queue [q] has the identifier [i] and the messages [ds] ([None]: not in use). *)
Definition has_queue h c (q i : nat) (ds : option (list (list B))) : Prop :=
  exists mq l, h_queues h !! q = Some mq /\ c !! q = Some l /\
    id mq = Z.of_nat i /\ delaypair mq = None /\ mx mq = false /\
    active mq = bool_decide (is_Some ds) /\ Forall2 (holds h) l (default [] ds).

Definition has_meta h c (meta : nat) qof (f : list nat) : Prop :=
  exists mq l, h_queues h !! meta = Some mq /\ c !! meta = Some l /\
    mx mq = false /\ active mq = true /\ Forall2 (points h qof) l f.

(** [qof] maps identifiers to queues. *)
Record refines h (a : aqs) c (meta : nat) (qof : nat -> nat) : Prop := {
  r_wf : wf h c;
  r_init : initialized h = true;
  r_meta : metaqueue h = Some meta;
  r_num : numqueues h = Z.of_nat (count a);
  r_space : queuespace h = Z.of_nat (length (queues h));
  r_cap : (count a <= length (queues h) <= 2 * S (count a))%nat;
  r_slot : forall i, (i < count a)%nat -> queues h !! i = Some (Slot (qof i));
  r_queue : forall i, (i < count a)%nat -> has_queue h c (qof i) i (live a !! i);
  r_notmeta : forall i, (i < count a)%nat -> qof i <> meta;
  r_metaq : has_meta h c meta qof (free a);
  r_live : forall i, is_Some (live a !! i) -> (i < count a)%nat;
  r_free : forall i, i ∈ free a -> (i < count a)%nat /\ live a !! i = None;
  r_nodup : NoDup (free a) }.

Lemma qof_inj h a c meta qof i j :
  refines h a c meta qof -> (i < count a)%nat -> (j < count a)%nat -> qof i = qof j -> i = j.
Proof.
  intros R Hi Hj E. destruct (r_queue _ _ _ _ _ R i Hi) as (mi & li & Hmi & _ & Ei & _).
  destruct (r_queue _ _ _ _ _ R j Hj) as (mj & lj & Hmj & _ & Ej & _).
  rewrite E, Hmj in Hmi. injection Hmi as ->. lia.
Qed.

Lemma holds_ext h h' (l : list nat) ds :
  (forall x, x ∈ l -> info (h_msgs h') x = info (h_msgs h) x) ->
  Forall2 (holds h) l ds -> Forall2 (holds h') l ds.
Proof.
  intros He H. induction H as [|x d l ds (ts & Hx) H IH]; constructor.
  - exists ts. rewrite He; [done|left].
  - apply IH. intros y Hy. apply He. by right.
Qed.

Lemma points_ext h h' qof (l : list nat) f :
  (forall x, x ∈ l -> info (h_msgs h') x = info (h_msgs h) x) ->
  Forall2 (points h qof) l f -> Forall2 (points h' qof) l f.
Proof.
  intros He H. induction H as [|x d l ds (sz & ts & Hx) H IH]; constructor.
  - exists sz, ts. rewrite He; [done|left].
  - apply IH. intros y Hy. apply He. by right.
Qed.

Definition same_table h h' : Prop :=
  initialized h' = initialized h /\ metaqueue h' = metaqueue h /\ numqueues h' = numqueues h /\
  queuespace h' = queuespace h /\ queues h' = queues h.

(** A call that only touches queue [i] and the metaqueue. *)
Lemma refines_update h a c meta qof h' c' i live' free' :
  refines h a c meta qof -> (i < count a)%nat -> wf h' c' -> same_table h h' ->
  (forall q, q <> qof i -> q <> meta -> h_queues h' !! q = h_queues h !! q /\ c' !! q = c !! q) ->
  (forall q l x, q <> qof i -> q <> meta -> c !! q = Some l -> x ∈ l ->
     info (h_msgs h') x = info (h_msgs h) x) ->
  has_queue h' c' (qof i) i (live' !! i) -> has_meta h' c' meta qof free' ->
  (forall j, j <> i -> live' !! j = live a !! j) ->
  (forall j, j ∈ free' -> (j < count a)%nat /\ live' !! j = None) -> NoDup free' ->
  refines h' (Aqs live' free' (count a)) c' meta qof.
Proof.
  intros R Hi W (E1 & E2 & E3 & E4 & E5) Hq Hx Hi' Hm' Hl Hf Hnd.
  split; cbn; rewrite ?E1, ?E2, ?E3, ?E4, ?E5; try apply R; try done.
  - intros j Hj. destruct (decide (j = i)) as [->|Hne]; [done|].
    rewrite Hl by done. destruct (r_queue _ _ _ _ _ R j Hj) as (mq & l & H1 & H2 & H3 & H4 & H5 & H6 & H7).
    assert (qof j <> qof i) as N1 by (intros E; apply Hne; by eapply qof_inj).
    assert (qof j <> meta) as N2 by (by apply (r_notmeta _ _ _ _ _ R)).
    destruct (Hq (qof j) N1 N2) as [Eq1 Eq2]. exists mq, l. rewrite Eq1, Eq2. repeat split; try done.
    apply (holds_ext h); [|done]. intros x Hin. by eapply Hx.
  - intros j Hj. destruct (decide (j = i)) as [->|Hne]; [done|]. rewrite Hl in Hj by done.
    by apply (r_live _ _ _ _ _ R).
Qed.

Lemma has_meta_frame h h' c c' meta qof f :
  has_meta h c meta qof f ->
  h_queues h' !! meta = h_queues h !! meta -> c' !! meta = c !! meta ->
  (forall l x, c !! meta = Some l -> x ∈ l -> info (h_msgs h') x = info (h_msgs h) x) ->
  has_meta h' c' meta qof f.
Proof.
  intros (mq & l & H1 & H2 & H3 & H4 & H5) E1 E2 E3. exists mq, l. rewrite E1, E2.
  repeat split; try done. eapply points_ext; [|done]. intros x Hx. by eapply E3.
Qed.

(** *** Looking up an identifier *)

Lemma queuebyid_ok {C} h a c meta qof i (k : option nat -> call B C) :
  refines h a c meta qof -> (i < count a)%nat ->
  cbind (queuebyid (Z.of_nat i)) k h = k (Some (qof i)) h.
Proof.
  intros R Hi. unfold queuebyid. steps.
  erewrite cbind_lift; [|apply aget_Ok; [lia|rewrite Nat2Z.id; by apply (r_slot _ _ _ _ _ R)]].
  by steps.
Qed.

Lemma listed_lt h c q l x : wf h c -> c !! q = Some l -> x ∈ l -> (x < h_fresh h)%nat.
Proof. intros W Hc Hx. destruct (wf_elem h c q l x W Hc Hx) as [m Hm]. by eapply (wf_mfresh h c W). Qed.

Lemma info_new msgs x v y : x <> y -> info (<[x := v]> msgs) y = info msgs y.
Proof. intros. unfold info. by rewrite lookup_insert_ne. Qed.

Lemma info_delete msgs x y : x <> y -> info (delete x msgs) y = info msgs y.
Proof. intros. unfold info. by rewrite lookup_delete_ne. Qed.

Lemma info_lookup msgs x v : msgs !! x = Some v -> info msgs x = Some (msgp v, msgsz v, timestamp v).
Proof. intros H. unfold info. by rewrite H. Qed.

(** A new message that is in no queue changes nothing. *)
Lemma refines_new_msg h a c meta qof v :
  refines h a c meta qof -> refines (bump (with_msgs h (<[h_fresh h := v]> (h_msgs h)))) a c meta qof.
Proof.
  intros R. pose proof (r_wf _ _ _ _ _ R) as W.
  assert (forall q l x, c !! q = Some l -> x ∈ l -> info (<[h_fresh h := v]> (h_msgs h)) x = info (h_msgs h) x)
    as Hinfo.
  { intros q l x Hc Hx. apply info_new. pose proof (listed_lt h c q l x W Hc Hx). lia. }
  split; cbn; try apply R.
  - by apply wf_new_msg.
  - intros i Hi. destruct (r_queue _ _ _ _ _ R i Hi) as (mq & l & H1 & H2 & H3 & H4 & H5 & H6 & H7).
    exists mq, l. repeat split; try done. apply (holds_ext h); [|done]. intros x Hx. by eapply Hinfo.
  - eapply has_meta_frame; [apply (r_metaq _ _ _ _ _ R) | done | done |]. intros l x. apply Hinfo.
Qed.

Lemma put_refines h a c meta qof i now d :
  refines h a c meta qof -> q_valid a (QPut i now d) ->
  exists r a' h' c', a_qstep a (QPut i now d) = Some (r, a') /\
    q_step (QPut i now d) h = Ok (Ret r h') /\ refines h' a' c' meta qof.
Proof.
  intros R (Hi & Hd & Hlen). cbn [a_qstep q_step]. unfold put_msg, put_copy. steps.
  erewrite queuebyid_ok by done. steps.
  rewrite cbind_assert by (by destruct d). steps.
  set (h1 := bump _). pose proof (refines_new_msg h a c meta qof _ R : refines h1 a c meta qof) as R1.
  pose proof (r_wf _ _ _ _ _ R1) as W1.
  destruct (r_queue _ _ _ _ _ R1 i Hi) as (mq & l & H1 & H2 & H3 & H4 & H5 & H6 & H7).
  destruct (live a !! i) as [ds|] eqn:El; cbn in H6, H7.
  - assert (length l = length ds) as Hll by (by eapply Forall2_length).
    destruct (put_raw_ok h1 c (qof i) mq l (h_fresh h) (Msg (Payload d) (Z.of_nat (length d)) None now))
      as (E & W2 & Hinfo); try done.
    { apply lookup_insert_eq. } { apply (loose_fresh h c); [apply R | lia]. }
    { rewrite Hll. by apply Hlen. }
    erewrite cbind_ok by exact E. do 4 eexists. split; [done|]. split; [done|].
    assert (qof i <> meta) as Hne by (by apply (r_notmeta _ _ _ _ _ R)).
    apply (refines_update h1 a c meta qof _ _ i); try done.
    + intros q N1 N2. cbn. by rewrite !lookup_insert_ne.
    + rewrite lookup_insert_eq. eexists _, _. cbn.
      rewrite !lookup_insert_eq. repeat split; try done.
      apply Forall2_app; [by apply (holds_ext h1)|]. constructor; [|done]. exists now.
      rewrite Hinfo. by rewrite (info_lookup _ _ (Msg (Payload d) (Z.of_nat (length d)) None now))
        by apply lookup_insert_eq.
    + eapply has_meta_frame; [apply (r_metaq _ _ _ _ _ R1) | | |]; cbn; try by rewrite lookup_insert_ne.
      intros. apply Hinfo.
    + intros j Hj. by rewrite lookup_insert_ne.
    + intros j Hj. destruct (r_free _ _ _ _ _ R j Hj) as [? Hn]. split; [done|].
      rewrite lookup_insert_ne; [done | congruence].
    + apply R.
  - erewrite cbind_ok by (by apply (put_raw_inactive h1 (qof i) mq)). do 4 eexists. split; [done|].
    split; [done|]. done.
Qed.

Lemma get_refines h a c meta qof i maxsize :
  refines h a c meta qof -> q_valid a (QGet i maxsize) ->
  match a_qstep a (QGet i maxsize) with
  | Some (r, a') => exists h' c', q_step (QGet i maxsize) h = Ok (Ret r h') /\ refines h' a' c' meta qof
  | None => q_step (QGet i maxsize) h = Ok Wait
  end.
Proof.
  intros R (Hi & Hlen). cbn [a_qstep q_step]. unfold get_msg, get_msg_timed. rewrite cbind_assoc.
  erewrite queuebyid_ok by done. pose proof (r_wf _ _ _ _ _ R) as W.
  destruct (r_queue _ _ _ _ _ R i Hi) as (mq & l & H1 & H2 & H3 & H4 & H5 & H6 & H7).
  steps. rewrite H4. cbn [default].
  destruct (live a !! i) as [[|d ds]|] eqn:El; cbn in H6, H7.
  - apply Forall2_nil_inv_r in H7 as ->. rewrite (cbind_wait _ _ h); [done|].
    by rewrite (get_raw_empty h c (qof i) mq).
  - apply Forall2_cons_inv_r in H7 as (m & l' & Hm & H7 & ->).
    specialize (Hlen _ eq_refl). cbn in Hlen.
    destruct (get_raw_ok h c (qof i) mq m l' 0 false) as (mm & Emm & E & W2 & Hinfo & Hlo); try done.
    { pose proof (Forall2_length _ _ _ H7). lia. }
    erewrite cbind_ok by exact E. set (h2 := get_heap _ _ _ _ _ _) in *.
    assert (h_msgs h2 !! m = Some (set_next mm None)) as Hm2 by apply lookup_insert_eq.
    destruct Hm as (ts & Hm). rewrite (info_lookup _ _ _ Emm) in Hm. injection Hm as Hp Hs Ht.
    rewrite cbind_assoc. rewrite (cbind_read_msg m (set_next mm None)) by done. cbn [set_next msgp msgsz].
    rewrite Hp, Hs. steps. eexists _, _. split; [reflexivity|].
    assert (qof i <> meta) as Hne by (by apply (r_notmeta _ _ _ _ _ R)).
    assert (forall q l x, q <> qof i -> c !! q = Some l -> x ∈ l ->
              info (delete m (h_msgs h2)) x = info (h_msgs h) x) as Hinfo'.
    { intros q l x N Hc Hx. rewrite info_delete; [apply Hinfo|]. intros ->.
      apply (Hlo q l); [by rewrite lookup_insert_ne | done]. }
    apply (refines_update h a c meta qof _ (<[qof i := l']> c) i); try done.
    + by apply wf_free_msg.
    + intros q N1 N2. cbn. by rewrite !lookup_insert_ne.
    + intros q l x N1 N2. by apply Hinfo'.
    + rewrite lookup_insert_eq. eexists _, _. cbn. rewrite !lookup_insert_eq. repeat split; try done.
      apply (holds_ext h); [|done]. intros x Hx. cbn. rewrite info_delete; [apply Hinfo|]. intros ->.
      eapply Hlo; [apply lookup_insert_eq | done].
    + eapply has_meta_frame; [apply (r_metaq _ _ _ _ _ R) | | |]; cbn; try by rewrite lookup_insert_ne.
      intros l x Hc Hx. by eapply Hinfo'.
    + intros j Hj. by rewrite lookup_insert_ne.
    + intros j Hj. destruct (r_free _ _ _ _ _ R j Hj) as [? Hn]. split; [done|].
      rewrite lookup_insert_ne; [done | congruence].
    + apply R.
  - eexists h, c. split; [|done]. assert (get_msg_raw (qof i) 0 false h = Ok (Ret None h)) as E.
    { unfold get_msg_raw. steps. by rewrite H6. }
    by erewrite cbind_ok by exact E.
Qed.

Lemma release_refines h a c meta qof i :
  refines h a c meta qof -> q_valid a (QRelease i) ->
  exists r a' h' c', a_qstep a (QRelease i) = Some (r, a') /\
    q_step (QRelease i) h = Ok (Ret r h') /\ refines h' a' c' meta qof.
Proof.
  intros R ([ds El] & Hfl). cbn [a_qstep q_step]. pose proof (r_wf _ _ _ _ _ R) as W.
  assert (i < count a)%nat as Hi by (apply (r_live _ _ _ _ _ R); by rewrite El).
  unfold release_queue. rewrite cbind_assoc. erewrite queuebyid_ok by done.
  destruct (r_queue _ _ _ _ _ R i Hi) as (mq & l & H1 & H2 & H3 & H4 & H5 & H6 & H7).
  destruct (wf_queue h c W _ _ H1) as (l0 & Hc0 & Hs & _). rewrite H2 in Hc0. injection Hc0 as <-.
  steps. rewrite H4. rewrite El in H6, H7. cbn in H6, H7. rewrite El. destruct ds as [|d ds].
  2:{ apply Forall2_cons_inv_r in H7 as (m & l' & Hm & H7 & ->). destruct Hs as [-> _].
      eexists _, _, h, c. done. }
  apply Forall2_nil_inv_r in H7 as ->. cbn in Hs. rewrite Hs. steps.
  destruct (r_metaq _ _ _ _ _ R) as (mm & ml & M1 & M2 & M3 & M4 & M5).
  assert (qof i <> meta) as Hne by (by apply (r_notmeta _ _ _ _ _ R)).
  erewrite cbind_lift by (cbn; by rewrite (r_meta _ _ _ _ _ R)).
  match goal with |- context [put_msg_raw meta _ ?x] => set (h2 := x) | |- context [cbind _ _ ?x] => set (h2 := x) end.
  assert (wf h2 c) as W2 by (by apply wf_new_msg, (wf_set_queue _ _ _ mq)).
  assert (forall q l x, c !! q = Some l -> x ∈ l -> info (h_msgs h2) x = info (h_msgs h) x) as Hinfo2.
  { intros q l x Hc Hx. apply info_new. pose proof (listed_lt h c q l x W Hc Hx). cbn; lia. }
  destruct (put_raw_ok h2 c meta mm ml (h_fresh h) (Msg (QueuePtr (qof i)) 0 None (Timespec 0 0)))
    as (E & W3 & Hinfo); try done.
  { cbn. by rewrite lookup_insert_ne. } { apply lookup_insert_eq. } { by apply (loose_fresh h c). }
  { by rewrite (Forall2_length _ _ _ M5). }
  rewrite cbind_assoc. erewrite cbind_ok by exact E. steps. eexists _, _, _, _. split; [done|]. split; [done|].
  apply (refines_update h a c meta qof _ _ i); try done.
  - intros q N1 N2. cbn. by rewrite !lookup_insert_ne.
  - intros q l x N1 N2 Hc Hx. rewrite Hinfo. by eapply Hinfo2.
  - rewrite lookup_delete_eq. exists (set_active mq false), []. cbn.
    rewrite (lookup_insert_ne _ meta), (lookup_insert_ne c meta), lookup_insert_eq by done. done.
  - eexists _, _. cbn. rewrite !lookup_insert_eq. repeat split; try done.
    apply Forall2_app; [|constructor; [|done]].
    + apply (points_ext h); [|done]. intros x Hx. rewrite Hinfo. by eapply Hinfo2.
    + exists 0, (Timespec 0 0). rewrite Hinfo.
      by rewrite (info_lookup _ _ (Msg (QueuePtr (qof i)) 0 None (Timespec 0 0))) by apply lookup_insert_eq.
  - intros j Hj. by rewrite lookup_delete_ne.
  - intros j Hj. apply elem_of_app in Hj as [Hj|Hj].
    + destruct (r_free _ _ _ _ _ R j Hj) as [? Hn]. split; [done|]. by rewrite lookup_delete_ne by congruence.
    + apply list_elem_of_singleton in Hj as ->. split; [done|]. apply lookup_delete_eq.
  - apply NoDup_app. split; [apply R|]. split; [|apply NoDup_singleton].
    intros j Hj Hj'. apply list_elem_of_singleton in Hj' as ->.
    destruct (r_free _ _ _ _ _ R i Hj) as [_ Hn]. congruence.
Qed.

(** A released identifier is given out again, oldest first. *)
Lemma reuse_refines h a c meta qof i f :
  refines h a c meta qof -> free a = i :: f -> Z.of_nat (length (free a)) < INT_MAX ->
  exists h' c', q_step QNew h = Ok (Ret (AnInt (Z.of_nat i)) h') /\
    refines h' (Aqs (<[i := []]> (live a)) f (count a)) c' meta qof.
Proof.
  intros R Hf Hlen. cbn [q_step]. pose proof (r_wf _ _ _ _ _ R) as W.
  destruct (r_free _ _ _ _ _ R i) as [Hi Hin]; [rewrite Hf; left|].
  pose proof (r_nodup _ _ _ _ _ R) as Hnd. rewrite Hf in Hnd. apply NoDup_cons in Hnd as [Hif Hnd].
  destruct (r_metaq _ _ _ _ _ R) as (mm & ml & M1 & M2 & M3 & M4 & M5). rewrite Hf in M5, Hlen.
  apply Forall2_cons_inv_r in M5 as (m & ml' & Hm & M5 & ->).
  assert (qof i <> meta) as Hne by (by apply (r_notmeta _ _ _ _ _ R)).
  destruct (r_queue _ _ _ _ _ R i Hi) as (mq & l & H1 & H2 & H3 & H4 & H5 & H6 & H7).
  unfold get_queue, try_available. steps. rewrite (r_init _ _ _ _ _ R). steps.
  erewrite cbind_lift by (cbn; by rewrite (r_meta _ _ _ _ _ R)).
  destruct (get_raw_ok h c meta mm m ml' (-1) false) as (mv & Emv & E & W2 & Hinfo & Hlo); try done.
  { cbn in Hlen. pose proof (Forall2_length _ _ _ M5). lia. }
  rewrite cbind_assoc. erewrite cbind_ok by exact E. set (h2 := get_heap _ _ _ _ _ _) in *.
  assert (h_msgs h2 !! m = Some (set_next mv None)) as Hm2 by apply lookup_insert_eq.
  destruct Hm as (sz & ts & Hm). rewrite (info_lookup _ _ _ Emv) in Hm. injection Hm as Hp _ _.
  rewrite cbind_assoc, (cbind_read_msg m (set_next mv None)) by done. cbn [set_next msgp]. rewrite Hp.
  assert (h_queues h2 !! qof i = Some mq) as Hq2 by (cbn; by rewrite lookup_insert_ne).
  steps. eexists _, (<[meta := ml']> c). split; [unfold cret; cbn; by rewrite H3|].
  assert (forall q l x, q <> meta -> c !! q = Some l -> x ∈ l ->
            info (delete m (h_msgs h2)) x = info (h_msgs h) x) as Hinfo'.
  { intros q l' x N Hc Hx. rewrite info_delete; [apply Hinfo|]. intros ->.
    apply (Hlo q l'); [by rewrite lookup_insert_ne | done]. }
  apply (refines_update h a c meta qof _ _ i); try done.
  - apply (wf_free_msg (with_queues h2 _)); [by apply (wf_set_queue h2 _ (qof i) mq (set_active mq true)) | done].
  - intros q N1 N2. cbn. by rewrite !lookup_insert_ne.
  - intros q l' x N1 N2. by apply Hinfo'.
  - rewrite lookup_insert_eq. exists (set_active mq true), l. cbn.
    rewrite lookup_insert_eq, lookup_insert_ne by done. repeat split; try done.
    rewrite Hin in H7. cbn in H7. by apply Forall2_nil_inv_r in H7 as ->.
  - eexists _, _. cbn. rewrite lookup_insert_ne, !lookup_insert_eq by done. repeat split; try done.
    apply (points_ext h); [|done]. intros x Hx. cbn. rewrite info_delete; [apply Hinfo|]. intros ->.
    by eapply Hlo; [apply lookup_insert_eq|].
  - intros j Hj. by rewrite lookup_insert_ne.
  - intros j Hj. destruct (r_free _ _ _ _ _ R j) as [? Hn]; [rewrite Hf; by right|].
    split; [done|]. rewrite lookup_insert_ne; [done|]. intros ->. done.
Qed.

Lemma has_queue_frame h h' c c' q i ds :
  has_queue h c q i ds -> h_queues h' !! q = h_queues h !! q -> c' !! q = c !! q ->
  (forall l x, c !! q = Some l -> x ∈ l -> info (h_msgs h') x = info (h_msgs h) x) ->
  has_queue h' c' q i ds.
Proof.
  intros (mq & l & H1 & H2 & H3 & H4 & H5 & H6 & H7) E1 E2 E3. exists mq, l. rewrite E1, E2.
  repeat split; try done. apply (holds_ext h); [|done]. intros x Hx. by eapply E3.
Qed.

(** The table after room was made for one more queue. *)
Definition grown h (n : nat) : list qslot :=
  if queuespace h <? Z.of_nat n
  then queues h ++ replicate (length (queues h) `max` (2 - length (queues h))) Garbage else queues h.

Lemma grow_ok h n (k : unit -> call B answer) :
  queuespace h = Z.of_nat (length (queues h)) -> Z.of_nat (length (queues h)) < 2 ^ 30 ->
  cbind (if queuespace h <? Z.of_nat n then queue_realloc else cret tt) k h =
  k tt (with_table h (grown h n) (metaqueue h) (Z.of_nat (length (grown h n))) (numqueues h) (initialized h)).
Proof.
  intros Hs Hl. unfold grown. destruct (queuespace h <? Z.of_nat n); last first.
  { rewrite cbind_cret, <-Hs. by destruct h. }
  unfold cbind, queue_realloc. rewrite Hs. rewrite int_val_ok.
  - cbn [rbind]. f_equal. rewrite length_app, length_replicate. unfold with_table. cbn.
    destruct (Z.eqb_spec (Z.of_nat (length (queues h))) 0) as [E|E].
    + destruct (queues h); [|done]. done.
    + rewrite take_ge by lia.
      replace (length (queues h) `max` (2 - length (queues h)))%nat with (length (queues h)) by lia.
      f_equal; [|lia]. f_equal. f_equal. lia.
  - unfold INT_MIN, INT_MAX. destruct (Z.eqb_spec (Z.of_nat (length (queues h))) 0); lia.
Qed.

Lemma grown_length h n :
  queuespace h = Z.of_nat (length (queues h)) -> (n <= length (queues h) <= 2 * S n)%nat ->
  (n < length (grown h (S n)) <= 2 * S (S n))%nat /\
  forall i, (i < n)%nat -> grown h (S n) !! i = queues h !! i.
Proof.
  intros Hs Hc. unfold grown. rewrite Hs.
  destruct (Z.ltb_spec (Z.of_nat (length (queues h))) (Z.of_nat (S n))) as [H|H].
  - rewrite length_app, length_replicate. split; [lia|]. intros i Hi. apply lookup_app_l. lia.
  - split; [lia | done].
Qed.

Lemma wf_parts h h' c :
  h_msgs h' = h_msgs h -> h_queues h' = h_queues h -> h_fresh h' = h_fresh h -> wf h c -> wf h' c.
Proof. intros E1 E2 E3 W. split; rewrite ?E1, ?E2, ?E3; apply W. Qed.

(** The heap after a new queue was entered in the table. *)
Lemma refines_grow h a c meta qof h' tbl :
  refines h a c meta qof -> free a = [] ->
  h_msgs h' = h_msgs h -> h_fresh h' = S (h_fresh h) ->
  h_queues h' = <[h_fresh h := MsgQueue false None None 0 None None None true (Z.of_nat (count a))]> (h_queues h) ->
  initialized h' = true -> metaqueue h' = Some meta -> numqueues h' = Z.of_nat (S (count a)) ->
  queuespace h' = Z.of_nat (length tbl) -> queues h' = <[count a := Slot (h_fresh h)]> tbl ->
  (count a < length tbl <= 2 * S (S (count a)))%nat ->
  (forall i, (i < count a)%nat -> tbl !! i = queues h !! i) ->
  refines h' (Aqs (<[count a := []]> (live a)) [] (S (count a))) (<[h_fresh h := []]> c) meta
    (fun j => if (j =? count a)%nat then h_fresh h else qof j).
Proof.
  intros R Hf E1 E2 E3 E4 E5 E6 E7 E8 Ht Htl. pose proof (r_wf _ _ _ _ _ R) as W.
  destruct (r_metaq _ _ _ _ _ R) as (mm & ml & M1 & M2 & M3 & M4 & M5).
  assert (meta <> h_fresh h) as Nm by (pose proof (wf_qfresh h c W _ _ M1); lia).
  assert (forall i, (i < count a)%nat -> qof i <> h_fresh h) as Nq.
  { intros i Hi. destruct (r_queue _ _ _ _ _ R i Hi) as (mq & l & H1 & _).
    pose proof (wf_qfresh h c W _ _ H1). lia. }
  split; cbn; try done.
  - eapply wf_parts; [..|apply (wf_new_queue h c (MsgQueue false None None 0 None None None true (Z.of_nat (count a))) W); done]; done.
  - by rewrite E7, E8, length_insert.
  - rewrite E8, length_insert. lia.
  - intros i Hi. rewrite E8. destruct (Nat.eqb_spec i (count a)) as [->|Hne].
    + by rewrite list_lookup_insert_eq by lia.
    + rewrite list_lookup_insert_ne, Htl by lia. apply (r_slot _ _ _ _ _ R). lia.
  - intros i Hi. destruct (Nat.eqb_spec i (count a)) as [->|Hne].
    + rewrite lookup_insert_eq. eexists _, []. rewrite E3, !lookup_insert_eq. done.
    + rewrite lookup_insert_ne by done. assert (i < count a)%nat as Hi' by lia.
      eapply has_queue_frame; [by apply (r_queue _ _ _ _ _ R) | | |].
      * rewrite E3, lookup_insert_ne; [done|]. by apply not_eq_sym, Nq.
      * rewrite lookup_insert_ne; [done|]. by apply not_eq_sym, Nq.
      * by rewrite E1.
  - intros i Hi. destruct (Nat.eqb_spec i (count a)) as [->|Hne]; [done|].
    apply (r_notmeta _ _ _ _ _ R). lia.
  - rewrite Hf in M5. apply Forall2_nil_inv_r in M5 as ->. exists mm, [].
    rewrite E3, !lookup_insert_ne by done. done.
  - intros i Hi. destruct (decide (i = count a)) as [->|]; [lia|]. rewrite lookup_insert_ne in Hi by done.
    apply (r_live _ _ _ _ _ R) in Hi. lia.
  - intros i Hi. by apply not_elem_of_nil in Hi.
  - constructor.
Qed.

Lemma fresh_refines h a c meta qof :
  refines h a c meta qof -> free a = [] -> Z.of_nat (count a) < 2 ^ 29 - 2 ->
  exists h' c' qof', q_step QNew h = Ok (Ret (AnInt (Z.of_nat (count a))) h') /\
    refines h' (Aqs (<[count a := []]> (live a)) [] (S (count a))) c' meta qof'.
Proof.
  intros R Hf Hn. cbn [q_step]. pose proof (r_wf _ _ _ _ _ R) as W. pose proof (r_cap _ _ _ _ _ R) as Hcap.
  destruct (r_metaq _ _ _ _ _ R) as (mm & ml & M1 & M2 & M3 & M4 & M5). rewrite Hf in M5.
  apply Forall2_nil_inv_r in M5 as ->.
  unfold get_queue, try_available. steps. rewrite (r_init _ _ _ _ _ R). steps.
  erewrite cbind_lift by (cbn; by rewrite (r_meta _ _ _ _ _ R)).
  rewrite cbind_assoc. erewrite cbind_ok by (by rewrite (get_raw_empty h c meta mm)). steps.
  rewrite (r_num _ _ _ _ _ R).
  erewrite cbind_lift by (apply int_val_ok; unfold INT_MIN, INT_MAX; lia).
  rewrite cbind_assoc. erewrite cbind_ok by reflexivity. unfold create_queue. steps.
  match goal with |- context [cbind (cbind _ _) _ ?x] => set (h2 := x) | |- context [cbind _ _ ?x] => set (h2 := x) end.
  replace (Z.of_nat (count a) + 1) with (Z.of_nat (S (count a))) by lia.
  change (queuespace _) with (queuespace h2) at 1.
  set (q := h_fresh h). cbn [h_fresh with_table] in *.
  rewrite grow_ok by (cbn; first [apply R | lia]). steps.
  destruct (grown_length h2 (count a)) as [Hlt Hpre]; [apply (r_space _ _ _ _ _ R) | done |].
  erewrite cbind_lift by (cbn; apply aset_lt; lia).
  rewrite cbind_assoc. erewrite cbind_ok by reflexivity. steps.
  eexists _, _, _. split; [reflexivity|].
  apply (refines_grow h a c meta qof _ (grown h2 (S (count a)))); try done; cbn.
  - by rewrite insert_insert_eq.
  - apply R.
  - apply R.
  - lia.
  - by rewrite Nat2Z.id.
Qed.

(** *** Runs *)

Fixpoint q_run (ops : list qop) : call B (list answer) :=
  match ops with
  | [] => cret []
  | o :: ops => cbind (q_step o) (fun r => cbind (q_run ops) (fun rs => cret (r :: rs)))
  end.

Fixpoint a_qrun (a : aqs) (ops : list qop) : option (list answer * aqs) :=
  match ops with
  | [] => Some ([], a)
  | o :: ops =>
      match a_qstep a o with
      | None => None
      | Some (r, a') => match a_qrun a' ops with Some (rs, a'') => Some (r :: rs, a'') | None => None end
      end
  end.

(** Every operation of the run is one the clients may make at that point. *)
Fixpoint q_allowed (a : aqs) (ops : list qop) : Prop :=
  match ops with
  | [] => True
  | o :: ops => q_valid a o /\ match a_qstep a o with Some (_, a') => q_allowed a' ops | None => True end
  end.

Definition refined h (a : aqs) : Prop := exists c meta qof, refines h a c meta qof.

Lemma step_refines h a o :
  refined h a -> q_valid a o ->
  match a_qstep a o with
  | Some (r, a') => exists h', q_step o h = Ok (Ret r h') /\ refined h' a'
  | None => q_step o h = Ok Wait
  end.
Proof.
  intros (c & meta & qof & R) Hv. destruct o as [|i now d|i maxsize|i].
  - destruct Hv as (Hn & Hl). cbn [a_qstep]. destruct (free a) as [|i f] eqn:Hf.
    + destruct (fresh_refines h a c meta qof R Hf) as (h' & c' & qof' & E & R'); [lia|].
      exists h'. split; [done|]. by exists c', meta, qof'.
    + destruct (reuse_refines h a c meta qof i f R Hf) as (h' & c' & E & R'); [by rewrite Hf|].
      exists h'. split; [done|]. by exists c', meta, qof.
  - destruct (put_refines h a c meta qof i now d R Hv) as (r & a' & h' & c' & -> & E & R').
    exists h'. split; [done|]. by exists c', meta, qof.
  - pose proof (get_refines h a c meta qof i maxsize R Hv) as H.
    destruct (a_qstep a (QGet i maxsize)) as [[r a']|]; [|done].
    destruct H as (h' & c' & E & R'). exists h'. split; [done|]. by exists c', meta, qof.
  - destruct (release_refines h a c meta qof i R Hv) as (r & a' & h' & c' & -> & E & R').
    exists h'. split; [done|]. by exists c', meta, qof.
Qed.

Lemma run_refines ops h a :
  refined h a -> q_allowed a ops ->
  match a_qrun a ops with
  | Some (rs, a') => exists h', q_run ops h = Ok (Ret rs h') /\ refined h' a'
  | None => q_run ops h = Ok Wait
  end.
Proof.
  revert h a. induction ops as [|o ops IH]; intros h a R Ha; cbn [a_qrun q_run].
  { exists h. done. }
  destruct Ha as [Hv Ha]. pose proof (step_refines h a o R Hv) as Hs.
  destruct (a_qstep a o) as [[r a1]|]; [|by apply cbind_wait].
  destruct Hs as (h1 & E1 & R1). erewrite cbind_ok by exact E1. specialize (IH h1 a1 R1 Ha).
  destruct (a_qrun a1 ops) as [[rs a2]|]; [|by apply cbind_wait].
  destruct IH as (h2 & E2 & R2). erewrite cbind_ok by exact E2. eauto.
Qed.

Lemma q_run_app ops1 ops2 h :
  q_run (ops1 ++ ops2) h = cbind (q_run ops1) (fun r1 => cbind (q_run ops2) (fun r2 => cret (r1 ++ r2))) h.
Proof.
  revert h. induction ops1 as [|o ops1 IH]; intros h; cbn [app q_run].
  - rewrite cbind_cret. unfold cbind. by destruct (q_run ops2 h) as [[|]|].
  - rewrite cbind_assoc. unfold cbind at 1 3. destruct (q_step o h) as [[r h1|]|]; [|done|done].
    rewrite cbind_assoc. unfold cbind at 1. rewrite IH. unfold cbind.
    destruct (q_run ops1 h1) as [[r1 h2|]|]; [|done|done]. cbn. by destruct (q_run ops2 h2) as [[|]|].
Qed.

Lemma q_allowed_app a0 ops ops2 rs a :
  a_qrun a0 ops = Some (rs, a) -> q_allowed a0 (ops ++ ops2) <-> q_allowed a0 ops /\ q_allowed a ops2.
Proof.
  revert a0 rs. induction ops as [|o ops IH]; cbn; intros a0 rs Hr.
  - injection Hr as <- <-. tauto.
  - destruct (a_qstep a0 o) as [[r a1]|]; [|done]. destruct (a_qrun a1 ops) as [[rs1 a2]|] eqn:E; [|done].
    injection Hr as <- <-. rewrite (IH a1 rs1 E). tauto.
Qed.

Lemma a_new_fresh h a :
  refined h a -> exists i a', a_qstep a QNew = Some (AnInt (Z.of_nat i), a') /\ live a !! i = None /\
    (i < count a')%nat /\ live a' !! i = Some [].
Proof.
  intros (c & meta & qof & R). cbn. destruct (free a) as [|i f] eqn:Hf; eexists _, _; (split; [done|]); cbn.
  - rewrite lookup_insert_eq. split; [|split; [lia|done]].
    destruct (live a !! count a) eqn:E; [|done].
    pose proof (r_live _ _ _ _ _ R (count a) ltac:(by rewrite E)). lia.
  - rewrite lookup_insert_eq. destruct (r_free _ _ _ _ _ R i) as [? ?]; [rewrite Hf; left|]. done.
Qed.

(** The heap after the first half of the first [get_queue]. *)
Definition heap1 : heap B :=
  Heap ∅ {[0%nat := MsgQueue false None None 0 None None None true 0]} ∅ ∅ 1 [Null] (Some 0%nat) 1 0 true.

Lemma refined_heap1 : refined heap1 aqs0.
Proof.
  exists {[0%nat := []]}, 0%nat, (fun _ => 0%nat). split; cbn; try done; try lia.
  - split; cbn.
    + intros q mq H. apply lookup_singleton_Some in H as [<- <-]. exists []. by rewrite lookup_singleton_eq.
    + intros q1 q2 l1 l2 x H1 H2 Hx. apply lookup_singleton_Some in H1 as [<- <-]. by apply not_elem_of_nil in Hx.
    + intros q l H. apply lookup_singleton_Some in H as [<- <-]. constructor.
    + intros q l H. apply lookup_singleton_Some in H as [<- <-]. by rewrite lookup_singleton_eq.
    + intros x m H. by rewrite lookup_empty in H.
    + intros q mq H. apply lookup_singleton_Some in H as [<- <-]. lia.
  - eexists _, _. rewrite !lookup_singleton_eq. done.
  - intros i H. rewrite lookup_empty in H. by apply is_Some_None in H.
  - intros i H. by apply not_elem_of_nil in H.
  - constructor.
Qed.

Lemma run_heap0 ops : q_allowed aqs0 ops -> q_run ops heap0 = q_run ops heap1 \/ ops = [].
Proof.
  intros H. destruct ops as [|[|i now d|i maxsize|i] ops]; [by right | | | |].
  - left. cbn [q_run q_step]. unfold get_queue, create_queue. steps. done.
  - destruct H as [(H & _) _]. cbn in H. lia.
  - destruct H as [(H & _) _]. cbn in H. lia.
  - destruct H as [(H & _) _]. cbn in H. rewrite lookup_empty in H. by apply is_Some_None in H.
Qed.

(** ** Delay queues *)

(** [inq] and [outq] are the two halves of a delay queue. *)
Definition delay_pair h (inq outq : nat) (mi mo : msgqueue_t) (imp pd : nat) : Prop :=
  h_queues h !! inq = Some mi /\ h_queues h !! outq = Some mo /\ inq <> outq /\
  active mi = true /\ active mo = true /\ mx mi = false /\ mx mo = false /\
  impose_delay mi = Some imp /\ delay_ts mi = Some pd.

Lemma delay_sleep_ok h c inq outq mi mo imp pd m l mm d on now :
  wf h c -> delay_pair h inq outq mi mo imp pd -> c !! inq = Some (m :: l) ->
  h_msgs h !! m = Some mm -> h_ints h !! imp = Some on -> h_times h !! pd = Some d ->
  delay_sleep inq now h = Ok (Ret
    (if on =? 0 then None
     else if negb (tv_sec d =? 0) || negb (tv_nsec d =? 0) then
       if (ts_diff (ts_sum (timestamp mm) d) now).1 =? 0
       then Some (ts_diff (ts_sum (timestamp mm) d) now).2 else None
     else None) h).
Proof.
  intros W (Hi & Ho & Hne & Ai & Ao & Xi & Xo & Himp & Hpd) Hc Hm Hon Hd.
  destruct (wf_queue h c W inq mi Hi) as (l0 & Hc0 & (Hs & Ht & _)).
  rewrite Hc in Hc0. injection Hc0 as <-. destruct Hs as (Hh & _).
  assert (is_Some (tail mi)) as Ht' by (rewrite Ht; by apply last_is_Some).
  assert (peek_msg_timestamp inq h = Ok (Ret (Some (timestamp mm)) h)) as E.
  { unfold peek_msg_timestamp. steps. rewrite Ai. cbn [negb]. steps. rewrite Hh. steps. done. }
  unfold delay_sleep. erewrite cbind_ok by exact E. steps. rewrite Himp. steps.
  erewrite cbind_lift by (by rewrite Hon). steps. destruct (on =? 0); [done|]. rewrite Hpd. steps.
  erewrite cbind_lift by (by rewrite Hd). steps.
  destruct (negb _ || negb _); [|done]. by destruct (ts_diff _ now).
Qed.

(** The first message of [inq] becomes the last of [outq]. *)
Lemma delay_pass_ok h c inq outq mi mo imp pd m l l2 :
  wf h c -> delay_pair h inq outq mi mo imp pd -> c !! inq = Some (m :: l) -> c !! outq = Some l2 ->
  Z.of_nat (length l) < INT_MAX -> Z.of_nat (length l2) < INT_MAX ->
  exists h', delay_pass inq outq h = Ok (Ret 0 h') /\
    wf h' (<[outq := l2 ++ [m]]> (<[inq := l]> c)) /\
    (forall x, info (h_msgs h') x = info (h_msgs h) x).
Proof.
  intros W (Hi & Ho & Hne & Ai & Ao & Xi & Xo & _) Hc Hc2 Hl Hl2.
  destruct (get_raw_ok h c inq mi m l 0 false) as (mm & Hm & E & W2 & Hinfo & Hlo); try done.
  unfold delay_pass. erewrite cbind_ok by exact E. set (h2 := get_heap _ _ _ _ _ _) in *. steps.
  destruct (put_raw_ok h2 (<[inq := l]> c) outq mo l2 m (set_next mm None)) as (E3 & W3 & Hinfo3); try done.
  { cbn. by rewrite lookup_insert_ne. } { by rewrite lookup_insert_ne. } { apply lookup_insert_eq. }
  eexists. split; [exact E3|]. split; [done|]. intros x. by rewrite Hinfo3.
Qed.

End Lists.

Arguments aqs B : clear implicits.
Arguments qop B : clear implicits.
Arguments answer B : clear implicits.

(** ** Properties *)

(** C4: from the start of the program, every sequence of [get_queue],
    [put_msg], [get_msg] and [release_queue] calls the clients may make gives
    the answers of the abstract queues: messages come out of a queue in the
    order they went in, each once, cut to the size asked for; a call on an
    empty queue waits; a released queue refuses messages; no assertion fails
    and no pointer is dangling. *)
Theorem queues_refine_fifo {B} (ops : list (qop B)) :
  q_allowed aqs0 ops ->
  match a_qrun aqs0 ops with
  | Some (rs, _) => exists h, q_run ops heap0 = Ok (Ret rs h)
  | None => q_run ops heap0 = Ok Wait
  end.
Proof.
  intros Ha. destruct (run_heap0 ops Ha) as [E| ->]; [|by exists heap0].
  pose proof (run_refines ops heap1 aqs0 refined_heap1 Ha) as H. rewrite E.
  destruct (a_qrun aqs0 ops) as [[rs a]|]; [|done]. destruct H as (h & -> & _). eauto.
Qed.

Lemma queues_refine_fifo_witness :
  let t := Timespec 0 0 in
  exists h, q_run [QNew; QNew; QPut 0 t [1; 2]; QPut 0 t [3]; QGet 0 1; QGet 0 9; QRelease 0; QPut 0 t [4]; QNew]
      heap0 =
    Ok (Ret [AnInt 0; AnInt 1; AnInt 0; AnInt 0; AnMsg 1 [1]; AnMsg 1 [3]; AnInt 0; AnInt (-1); AnInt 0] h).
Proof.
  intros t.
  apply (queues_refine_fifo [QNew; QNew; QPut 0 t [1; 2]; QPut 0 t [3]; QGet 0 1; QGet 0 9; QRelease 0;
    QPut 0 t [4]; QNew]).
  repeat split; cbn; eauto; try lia; try done;
    try (intros ds H; vm_compute in H; injection H as <-); vm_compute; reflexivity.
Defined.

(** [get_queue] never gives out an identifier that is in use: after any
    run, the identifier it returns is one whose queue was never made or was
    released, and the new holder finds it empty. *)
Theorem get_queue_exclusive {B} (ops : list (qop B)) rs a :
  q_allowed aqs0 (ops ++ [QNew]) -> a_qrun aqs0 ops = Some (rs, a) ->
  exists i h, q_run (ops ++ [QNew]) heap0 = Ok (Ret (rs ++ [AnInt (Z.of_nat i)]) h) /\
    live a !! i = None /\ q_step (QGet i 1) h = Ok Wait.
Proof.
  intros Ha Hr. destruct (proj1 (q_allowed_app _ _ _ _ _ Hr) Ha) as (Ha1 & Hv & _).
  pose proof (run_refines ops heap1 aqs0 refined_heap1 Ha1) as H. rewrite Hr in H.
  destruct H as (h1 & E1 & R1). pose proof R1 as (c & meta & qof & R).
  destruct (a_new_fresh h1 a R1) as (i & a2 & Hn & Hlive & Hcnt & Hnew).
  pose proof (step_refines h1 a QNew R1 Hv) as H2. rewrite Hn in H2. destruct H2 as (h2 & E2 & R2).
  exists i, h2. split; [|split; [done|]].
  - destruct (run_heap0 _ Ha) as [->|E0]; [|by destruct ops]. rewrite q_run_app.
    erewrite cbind_ok by exact E1. cbn [q_run]. rewrite cbind_assoc. erewrite cbind_ok by exact E2. done.
  - pose proof (step_refines h2 a2 (QGet i 1) R2) as H3. cbn [a_qstep] in H3. rewrite Hnew in H3. apply H3.
    split; [done|]. intros ds. rewrite Hnew. intros [= <-]. done.
Qed.

Lemma get_queue_exclusive_witness :
  let ops := [QNew; QNew; QRelease 0] : list (qop Z) in
  exists i h, q_run (ops ++ [QNew]) heap0 = Ok (Ret ([AnInt 0; AnInt 1; AnInt 0] ++ [AnInt (Z.of_nat i)]) h) /\
    live (Aqs {[1%nat := []]} [0%nat] 2 : aqs Z) !! i = None /\ q_step (QGet i 1) h = Ok Wait.
Proof.
  intros ops. apply (get_queue_exclusive ops).
  - repeat split; cbn; eauto; try lia; vm_compute; reflexivity.
  - vm_compute. reflexivity.
Defined.

(** A round of the [delay] thread: the first message of the input half
    becomes the last of the output half, with its contents and time stamp;
    and the thread sleeps so long that, with the delay enforced, it does not
    pass the message on before its time stamp plus the delay. *)
Theorem delay_thread_round {B} (h : heap B) c inq outq mi mo imp pd m l l2 stamp sz p d on now :
  wf h c -> delay_pair h inq outq mi mo imp pd -> c !! inq = Some (m :: l) -> c !! outq = Some l2 ->
  Z.of_nat (length l) < INT_MAX -> Z.of_nat (length l2) < INT_MAX ->
  info (h_msgs h) m = Some (p, sz, stamp) -> h_ints h !! imp = Some on -> h_times h !! pd = Some d ->
  ts_norm stamp -> ts_norm d -> ts_norm now -> ts_ns stamp <= ts_ns now ->
  exists s h', delay_sleep inq now h = Ok (Ret s h) /\ delay_pass inq outq h = Ok (Ret 0 h') /\
    wf h' (<[outq := l2 ++ [m]]> (<[inq := l]> c)) /\
    (forall x, info (h_msgs h') x = info (h_msgs h) x) /\
    (on <> 0 -> ts_ns stamp + ts_ns d <= ts_ns now + match s with Some t => ts_ns t | None => 0 end) /\
    (on = 0 -> s = None).
Proof.
  intros W Hp Hc Hc2 Hl Hl2 Hi Hon Hd Ns Nd Nn Hle.
  assert (exists mm, h_msgs h !! m = Some mm /\ timestamp mm = stamp) as (mm & Hm & Hts).
  { unfold info in Hi. destruct (h_msgs h !! m) as [mm|]; [|done]. injection Hi as _ _ <-. eauto. }
  destruct (delay_pass_ok h c inq outq mi mo imp pd m l l2) as (h' & E & W' & Hinfo); try done.
  eexists _, h'. split; [by eapply (delay_sleep_ok h c inq outq)|]. split; [done|]. split; [done|].
  split; [done|]. rewrite Hts. destruct (ts_sum_spec stamp d Ns Nd) as [N1 E1].
  destruct (ts_diff_spec (ts_sum stamp d) now N1 Nn) as (N2 & E2 & E3). split.
  - intros Hon'. rewrite (proj2 (Z.eqb_neq on 0)) by done.
    destruct (Z.eqb_spec (tv_sec d) 0) as [Z1|Z1], (Z.eqb_spec (tv_nsec d) 0) as [Z2|Z2]; cbn.
    1:{ unfold ts_ns in *. rewrite Z1, Z2. lia. }
    all: rewrite E3; destruct (Z.leb_spec (ts_ns now) (ts_ns (ts_sum stamp d))); cbn; lia.
  - intros ->. done.
Qed.

(** A delay queue of 2 s with one message in it, 1 s old. *)
Definition delay_heap : heap Z :=
  Heap {[0%nat := Msg (Payload [7]) 1 None (Timespec 10 0)]}
    (<[1%nat := MsgQueue false (Some 0%nat) (Some 0%nat) 1 (Some 2%nat) (Some 3%nat) (Some 4%nat) true 0]>
      {[2%nat := MsgQueue false None None 0 (Some 1%nat) (Some 3%nat) (Some 4%nat) true 1]})
    {[3%nat := Timespec 2 0]} {[4%nat := 1]} 5 [Slot 1; Slot 2] None 2 2 true.

Definition delay_heap_lists : gmap nat (list nat) := <[1%nat := [0%nat]]> {[2%nat := []]}.

Lemma wf_delay_heap : wf delay_heap delay_heap_lists.
Proof.
  split; unfold delay_heap, delay_heap_lists; cbn.
  - intros q mq H. apply lookup_insert_Some in H as [[<- <-]|[_ H]].
    + exists [0%nat]. split; [done|]. split; [|done]. cbn. split; [done|]. eexists. split; [reflexivity|done].
    + apply lookup_singleton_Some in H as [<- <-]. by exists [].
  - intros q1 q2 l1 l2 x H1 H2 Hx1 Hx2.
    apply lookup_insert_Some in H1 as [[<- <-]|[_ H1]];
      [|apply lookup_singleton_Some in H1 as [<- <-]; by apply not_elem_of_nil in Hx1].
    apply lookup_insert_Some in H2 as [[<- <-]|[_ H2]]; [done|].
    apply lookup_singleton_Some in H2 as [<- <-]; by apply not_elem_of_nil in Hx2.
  - intros q l H. apply lookup_insert_Some in H as [[<- <-]|[_ H]]; [apply NoDup_singleton|].
    apply lookup_singleton_Some in H as [<- <-]. constructor.
  - intros q l H. apply lookup_insert_Some in H as [[<- <-]|[_ H]]; [by eexists|].
    apply lookup_singleton_Some in H as [<- <-]. by eexists.
  - intros x m H. apply lookup_singleton_Some in H as [<- <-]. lia.
  - intros q mq H. apply lookup_insert_Some in H as [[<- <-]|[_ H]]; [lia|].
    apply lookup_singleton_Some in H as [<- <-]. lia.
Qed.

Lemma delay_thread_round_witness :
  exists s h', delay_sleep 1 (Timespec 11 0) delay_heap = Ok (Ret s delay_heap) /\
    delay_pass 1 2 delay_heap = Ok (Ret 0 h') /\
    wf h' (<[2%nat := [] ++ [0%nat]]> (<[1%nat := []]> delay_heap_lists)) /\
    (forall x, info (h_msgs h') x = info (h_msgs delay_heap) x) /\
    (1 <> 0 -> 10000000000 + 2000000000 <= 11000000000 + match s with Some t => ts_ns t | None => 0 end) /\
    (1 = 0 -> s = None).
Proof.
  apply (delay_thread_round delay_heap delay_heap_lists 1 2
    (MsgQueue false (Some 0%nat) (Some 0%nat) 1 (Some 2%nat) (Some 3%nat) (Some 4%nat) true 0)
    (MsgQueue false None None 0 (Some 1%nat) (Some 3%nat) (Some 4%nat) true 1) 4 3 0 [] []
    (Timespec 10 0) 1 (Payload [7]) (Timespec 2 0) 1 (Timespec 11 0)); try reflexivity.
  - apply wf_delay_heap.
  - repeat split; discriminate.
  - unfold ts_norm, SI_GIGA. cbn. lia.
  - unfold ts_norm, SI_GIGA. cbn. lia.
  - unfold ts_norm, SI_GIGA. cbn. lia.
  - unfold ts_ns, SI_GIGA. cbn. lia.
Defined.

(** What a call returned. *)
Definition result_of {B A} (r : Res (outcome B A)) : option A :=
  match r with Ok (Ret a _) => Some a | _ => None end.

(** On a delay queue with messages in both halves, [walk_queue] shows the
    callback the messages that still wait twice and those that are ready to be
    taken never: its second loop starts at the head of the wrong half. *)
Theorem walk_queue_misses_ready_messages (t : timespec) (waiting ready : Z) :
  result_of (cbind (get_delay_queue (Some 9%nat)) (fun r =>
    cbind (put_msg r.1 t [waiting]) (fun _ =>
    cbind (instant_msg r.1 t [ready]) (fun _ => walk_queue r.1 (fun _ => 0)))) heap0) =
  Some (0, [Payload [waiting]; Payload [waiting]]).
Proof. vm_compute. reflexivity. Qed.
