(* ===== verification/BloomMgr.v ===== *)
(** * The filter manager ([src/src/bloommgr.c])

    The thread that owns the ring of filters: it takes the messages of the
    update queue one by one into a buffer that it never clears, decodes them
    by their type and applies them to the ring; [rotate] decides by the clock
    whether the ring is rotated, zeroed, or left alone. *)

From S2P Require Import Prelude Sha256 Bloom.

(** ** Messages as bytes *)

Definition MSGSZ : nat := 1024.

(** Types of messages ([src/include/srvutils.h]). *)
Definition UPDATE : Z := 1.
Definition ROTATE : Z := 2.
Definition ABSOLUTE_UPDATE : Z := 3.
Definition SYNC_AGGREGATE : Z := 4.
Definition UPDATE_OPER : Z := 5.

Definition FILTER_SIZE : Z := 32.

Definition word_at (le : bool) (bytes : list Z) (off : nat) : Z := load le (take 4 (drop off bytes)).

Definition digest_bytes (le : bool) (d : sha_256_t) : list Z := digest_words d ≫= store le 4.

Definition digest_of_bytes (le : bool) (b : list Z) : sha_256_t :=
  Sha256 (word_at le b 0) (word_at le b 4) (word_at le b 8) (word_at le b 12)
    (word_at le b 16) (word_at le b 20) (word_at le b 24) (word_at le b 28).

Record startup_sync_t := StartupSync { ss_buffer : Z; ss_index : Z; ss_filter : list Z }.

Definition startup_bytes (le : bool) (ss : startup_sync_t) : list Z :=
  store le 4 (u32 (ss_buffer ss)) ++ store le 4 (ss_index ss) ++ (ss_filter ss ≫= store le 4).

Definition startup_of_bytes (le : bool) (b : list Z) : startup_sync_t :=
  StartupSync (s32 (word_at le b 0)) (word_at le b 4)
    ((fun i => word_at le b (8 + 4 * i)) <$> seq 0 (Z.to_nat FILTER_SIZE)).

(** ** The manager *)

Record mgr_config := MgrConfig { rotate_interval : Z; num_bufs : Z }.

(** [message] is the local [update_message_t]; [sync_guard] counts the posts
    of the semaphore. *)
Record mgr := Mgr {
  mgr_filter : bloom_ring_queue_t;
  last_rotate : Z;
  message : list Z;
  sync_guard : Z }.

(** The readings of [time(NULL)] in [rotate], in the order they are used, and
    the contents of the memory [copy_bloom_filter] gets. *)
Record clocks := Clocks { t_first : Z; t_second : Z; t_zero : Z; t_junk : nat -> Z }.

Definition rotate (cfg : mgr_config) (t : clocks) (st : mgr) : Res mgr :=
  if t_first t - last_rotate st <=? rotate_interval cfg then Ok st
  else if rotate_interval cfg * num_bufs cfg <? t_second t - last_rotate st then
    q ← zero_bloom_ring_queue (mgr_filter st);
    Ok (Mgr q (t_zero t) (message st) (sync_guard st))
  else
    q ← rotate_bloom_ring_queue (t_junk t) (mgr_filter st);
    Ok (Mgr q (last_rotate st + rotate_interval cfg) (message st) (sync_guard st)).

(** [get_msg(ctx->update_q, &message, MSGSZ)]: what is not copied stays. *)
Definition receive (buf msg : list Z) : list Z := memcpy_at buf 0 (take MSGSZ msg).

Definition set_mgr_filter (st : mgr) (q : bloom_ring_queue_t) : mgr :=
  Mgr q (last_rotate st) (message st) (sync_guard st).

(** One round of [bloommgr] with the message [msg]. *)
Definition bloommgr_step (le : bool) (cfg : mgr_config) (msg : list Z) (t : clocks) (st : mgr) : Res mgr :=
  let st := Mgr (mgr_filter st) (last_rotate st) (receive (message st) msg) (sync_guard st) in
  let mtype := s32 (word_at le (message st) 0) in
  let mtext := drop 4 (message st) in
  if (mtype =? UPDATE) || (mtype =? UPDATE_OPER) then
    q ← insert_digest_bloom_ring_queue (mgr_filter st) (digest_of_bytes le mtext);
    Ok (set_mgr_filter st q)
  else if mtype =? ABSOLUTE_UPDATE then
    let ss := startup_of_bytes le mtext in
    q ← insert_absolute_bloom_ring_queue (mgr_filter st) (ss_filter ss) FILTER_SIZE
          (s32 (ss_index ss)) (u32 (ss_buffer ss));
    Ok (set_mgr_filter st q)
  else if mtype =? ROTATE then rotate cfg t st
  else if mtype =? SYNC_AGGREGATE then
    q ← sync_aggregate (mgr_filter st);
    Ok (Mgr q (last_rotate st) (message st) (sync_guard st + 1))
  else Ok st.

Fixpoint bloommgr_run (le : bool) (cfg : mgr_config) (msgs : list (list Z * clocks)) (st : mgr) : Res mgr :=
  match msgs with
  | [] => Ok st
  | (msg, t) :: msgs => st ← bloommgr_step le cfg msg t st; bloommgr_run le cfg msgs st
  end.

(** ** What the senders mean *)

Inductive mgr_msg :=
| MUpdate (d : sha_256_t)
| MUpdateOper (d : sha_256_t)
| MAbsolute (ss : startup_sync_t)
| MRotate
| MSyncAggregate.

Definition mtype_of (m : mgr_msg) : Z :=
  match m with
  | MUpdate _ => UPDATE
  | MUpdateOper _ => UPDATE_OPER
  | MAbsolute _ => ABSOLUTE_UPDATE
  | MRotate => ROTATE
  | MSyncAggregate => SYNC_AGGREGATE
  end.

Definition mtext_of (le : bool) (m : mgr_msg) : list Z :=
  match m with
  | MUpdate d | MUpdateOper d => digest_bytes le d
  | MAbsolute ss => startup_bytes le ss
  | MRotate | MSyncAggregate => []
  end.

(** The bytes of the [update_message_t]; [pad] is the unused rest of [mtext]. *)
Definition msg_bytes (le : bool) (m : mgr_msg) (pad : list Z) : list Z :=
  store le 4 (mtype_of m) ++ mtext_of le m ++ pad.

(** What the manager does with a message, on typed messages. *)
Definition mgr_do (cfg : mgr_config) (m : mgr_msg) (t : clocks) (st : mgr) : Res mgr :=
  match m with
  | MUpdate d | MUpdateOper d =>
      q ← insert_digest_bloom_ring_queue (mgr_filter st) d; Ok (set_mgr_filter st q)
  | MAbsolute ss =>
      q ← insert_absolute_bloom_ring_queue (mgr_filter st) (ss_filter ss) FILTER_SIZE
            (ss_index ss) (ss_buffer ss); Ok (set_mgr_filter st q)
  | MRotate => rotate cfg t st
  | MSyncAggregate =>
      q ← sync_aggregate (mgr_filter st);
      Ok (Mgr q (last_rotate st) (message st) (sync_guard st + 1))
  end.

Definition digest_ok (d : sha_256_t) : Prop := Forall is_u32 (digest_words d).

Definition msg_ok (m : mgr_msg) : Prop :=
  match m with
  | MUpdate d | MUpdateOper d => digest_ok d
  | MAbsolute ss => 0 <= ss_buffer ss < 2 ^ 31 /\ 0 <= ss_index ss < 2 ^ 31 /\
      length (ss_filter ss) = Z.to_nat FILTER_SIZE /\ Forall is_u32 (ss_filter ss)
  | _ => True
  end.

(** ** Decoding *)

Lemma length_store le n w : length (store le n w) = n.
Proof. destruct le; [apply length_le_split | apply length_be_split]. Qed.

Lemma load_store32 le w : is_u32 w -> load le (store le 4 w) = w.
Proof. intros. rewrite load_store. by apply u32_id. Qed.

Lemma word_at_0 le w rest : is_u32 w -> word_at le (store le 4 w ++ rest) 0 = w.
Proof. intros Hw. unfold word_at. rewrite drop_0, take_app_length' by (by rewrite length_store). by apply load_store32. Qed.

Lemma word_at_skip le w rest n : word_at le (store le 4 w ++ rest) (4 + n) = word_at le rest n.
Proof. unfold word_at. by rewrite <-drop_drop, drop_app_length' by (by rewrite length_store). Qed.

(** The [i]th word of an array stored word by word. *)
Lemma word_at_words le (ws : list Z) rest i w :
  Forall is_u32 ws -> ws !! i = Some w -> word_at le ((ws ≫= store le 4) ++ rest) (4 * i) = w.
Proof.
  revert i. induction ws as [|x ws IH]; intros i Hf Hi; [done|].
  apply Forall_cons_1 in Hf as [Hx Hf]. cbn [mbind list_bind]. rewrite <-app_assoc.
  destruct i as [|i]; cbn in Hi.
  - injection Hi as <-. by apply word_at_0.
  - replace (4 * S i)%nat with (4 + 4 * i)%nat by lia. rewrite word_at_skip. by apply IH.
Qed.

Lemma digest_of_bytes_ok le d rest :
  digest_ok d -> digest_of_bytes le (digest_bytes le d ++ rest) = d.
Proof.
  intros Hd. unfold digest_of_bytes, digest_bytes.
  pose proof (fun i w => word_at_words le (digest_words d) rest i w Hd) as H.
  change 28%nat with (4 * 7)%nat. change 24%nat with (4 * 6)%nat. change 20%nat with (4 * 5)%nat.
  change 16%nat with (4 * 4)%nat. change 12%nat with (4 * 3)%nat. change 8%nat with (4 * 2)%nat.
  rewrite (H 7%nat _ eq_refl), (H 6%nat _ eq_refl), (H 5%nat _ eq_refl), (H 4%nat _ eq_refl),
    (H 3%nat _ eq_refl), (H 2%nat _ eq_refl), (H 1%nat _ eq_refl : word_at le _ 4 = _),
    (H 0%nat _ eq_refl : word_at le _ 0 = _). by destruct d.
Qed.

Lemma length_words le (ws : list Z) : length (ws ≫= store le 4) = (4 * length ws)%nat.
Proof. induction ws as [|w ws IH]; [done|]. cbn [mbind list_bind length]. rewrite length_app, length_store, IH. lia. Qed.

Lemma s32_small z : - 2 ^ 31 <= z < 2 ^ 31 -> s32 z = z.
Proof. intros. unfold s32. rewrite Z.mod_small; lia. Qed.

Lemma s32_u32 z : - 2 ^ 31 <= z < 2 ^ 31 -> s32 (u32 z) = z.
Proof.
  intros. unfold s32, u32. rewrite Zplus_mod_idemp_l, Z.mod_small; lia.
Qed.

Lemma seq_words le (ws rest : list Z) off :
  Forall is_u32 ws -> off = 0%nat ->
  (fun i => word_at le ((ws ≫= store le 4) ++ rest) (off + 4 * i)) <$> seq 0 (length ws) = ws.
Proof.
  intros Hf ->. apply list_eq. intros i. rewrite list_lookup_fmap.
  destruct (decide (i < length ws)%nat) as [Hi|Hi].
  - rewrite lookup_seq_lt by done. cbn. destruct (lookup_lt_is_Some_2 ws i Hi) as [w Hw].
    rewrite Hw. f_equal. by apply word_at_words.
  - rewrite lookup_seq_ge by lia. cbn. symmetry. apply lookup_ge_None. lia.
Qed.

Lemma startup_of_bytes_ok le ss rest :
  msg_ok (MAbsolute ss) -> startup_of_bytes le (startup_bytes le ss ++ rest) = ss.
Proof.
  intros (Hb & Hi & Hl & Hf). unfold startup_of_bytes, startup_bytes. rewrite <-!app_assoc.
  rewrite word_at_0 by apply u32_is_u32. rewrite (word_at_skip le _ _ 0 : word_at le _ 4 = _).
  rewrite word_at_0 by (unfold is_u32; lia). rewrite s32_u32 by lia.
  replace (Z.to_nat FILTER_SIZE) with (length (ss_filter ss)).
  destruct ss as [b i f]. cbn [ss_buffer ss_index ss_filter] in *. f_equal. etrans; [|apply (seq_words le f rest 0); done].
  apply list_fmap_ext. intros j x _.
  replace (8 + 4 * x)%nat with (4 + (4 + (0 + 4 * x)))%nat by lia. by rewrite !word_at_skip.
Qed.

Lemma receive_prefix (buf a pad : list Z) :
  (length a <= MSGSZ)%nat -> exists rest, receive buf (a ++ pad) = a ++ rest.
Proof.
  intros Ha. unfold receive, memcpy_at. rewrite take_0. cbn [app].
  rewrite take_app, take_ge, <-app_assoc by done. eauto.
Qed.

Lemma length_mtext le m : msg_ok m -> (length (mtext_of le m) <= 136)%nat.
Proof.
  destruct m as [d|d|ss| |]; cbn [mtext_of msg_ok]; intros H; try (cbn; lia).
  - unfold digest_bytes. rewrite length_words. cbn. lia.
  - unfold digest_bytes. rewrite length_words. cbn. lia.
  - destruct H as (_ & _ & Hl & _). unfold startup_bytes.
    rewrite !length_app, !length_store, length_words, Hl. unfold FILTER_SIZE. lia.
Qed.

(** The manager decodes what its buffer holds after the copy. *)
Lemma bloommgr_step_decoded le cfg m msg rest t st :
  msg_ok m -> receive (message st) msg = store le 4 (mtype_of m) ++ mtext_of le m ++ rest ->
  bloommgr_step le cfg msg t st =
  mgr_do cfg m t (Mgr (mgr_filter st) (last_rotate st) (receive (message st) msg) (sync_guard st)).
Proof.
  intros Hm Eb. unfold bloommgr_step. cbn [message mgr_filter last_rotate sync_guard].
  set (buf := receive _ _) in *.
  assert (s32 (word_at le buf 0) = mtype_of m) as Et.
  { rewrite Eb, word_at_0 by (destruct m; split; vm_compute; congruence). by destruct m. }
  assert (drop 4 buf = mtext_of le m ++ rest) as Ed
    by (rewrite Eb; apply drop_app_length'; by rewrite length_store).
  rewrite Et, Ed. destruct m as [d|d|ss| |]; cbn [mtype_of mtext_of mgr_do]; try done.
  - by rewrite digest_of_bytes_ok.
  - by rewrite digest_of_bytes_ok.
  - rewrite startup_of_bytes_ok by done. destruct Hm as (Hb & Hi & _).
    rewrite s32_small, u32_id by (unfold is_u32; lia). done.
Qed.

(** The manager does with the bytes of a message what the sender meant,
    whatever an earlier message has left in the buffer. *)
Lemma bloommgr_step_typed le cfg m pad t st :
  msg_ok m ->
  bloommgr_step le cfg (msg_bytes le m pad) t st =
  mgr_do cfg m t (Mgr (mgr_filter st) (last_rotate st) (receive (message st) (msg_bytes le m pad)) (sync_guard st)).
Proof.
  intros Hm.
  destruct (receive_prefix (message st) (store le 4 (mtype_of m) ++ mtext_of le m) pad) as [rest E].
  - rewrite length_app, length_store. pose proof (length_mtext le m Hm). unfold MSGSZ. lia.
  - apply (bloommgr_step_decoded le cfg m _ rest); [done|]. unfold msg_bytes. by rewrite app_assoc, E, <-app_assoc.
Qed.

(** ** Runs of the manager *)

Section Manager.
Context (nb : Z) (Hnb : 5 <= nb <= 30) (cfg : mgr_config) (le : bool).

(** The operation on the ring a message comes to, and the time kept in the
    state file, when the last rotation was at [lr]. *)
Definition ring_ops_of (m : mgr_msg) (t : clocks) (lr : Z) : list ring_op :=
  match m with
  | MUpdate d | MUpdateOper d => [OpInsert d]
  | MAbsolute ss => [OpAbsolute (ss_filter ss) FILTER_SIZE (ss_index ss) (Z.to_nat (ss_buffer ss))]
  | MSyncAggregate => [OpSync]
  | MRotate =>
      if t_first t - lr <=? rotate_interval cfg then []
      else if rotate_interval cfg * num_bufs cfg <? t_second t - lr then [OpZero] else [OpRotate (t_junk t)]
  end.

Definition rotated_at (m : mgr_msg) (t : clocks) (lr : Z) : Z :=
  match m with
  | MRotate =>
      if t_first t - lr <=? rotate_interval cfg then lr
      else if rotate_interval cfg * num_bufs cfg <? t_second t - lr then t_zero t
      else lr + rotate_interval cfg
  | _ => lr
  end.

(** Messages that fit the ring. *)
Definition fits (m : mgr_msg) : Prop :=
  msg_ok m /\
  match m with
  | MAbsolute ss => valid_op nb (Z.to_nat (num_bufs cfg))
      (OpAbsolute (ss_filter ss) FILTER_SIZE (ss_index ss) (Z.to_nat (ss_buffer ss)))
  | _ => True
  end.

Definition mgr_rep (st : mgr) (a : aring) : Prop :=
  rep_ring nb (mgr_filter st) a /\ length (slots a) = Z.to_nat (num_bufs cfg).

Lemma ring_ops_valid m t lr n :
  n = Z.to_nat (num_bufs cfg) -> fits m -> Forall (valid_op nb n) (ring_ops_of m t lr).
Proof.
  intros -> [_ Hf]. destruct m; cbn [ring_ops_of]; try (repeat constructor; apply Hf).
  destruct (t_first t - lr <=? rotate_interval cfg); [constructor|].
  destruct (rotate_interval cfg * num_bufs cfg <? t_second t - lr); repeat constructor.
Qed.

Lemma ring_run_one q o : ring_run q [o] = ring_step q o.
Proof. cbn. by destruct (ring_step q o). Qed.

(** One message: never a fault, and the ring goes through [ring_ops_of]. *)
Lemma mgr_step_spec m pad t st a :
  mgr_rep st a -> fits m ->
  exists st', bloommgr_step le cfg (msg_bytes le m pad) t st = Ok st' /\
    mgr_rep st' (a_run nb a (ring_ops_of m t (last_rotate st))) /\
    last_rotate st' = rotated_at m t (last_rotate st).
Proof.
  intros [Hr Hl] Hf. rewrite bloommgr_step_typed by apply Hf.
  destruct (ring_run_spec nb Hnb (ring_ops_of m t (last_rotate st)) (mgr_filter st) a Hr) as (q' & Eq & Hq').
  { by apply ring_ops_valid. }
  assert (length (slots (a_run nb a (ring_ops_of m t (last_rotate st)))) = Z.to_nat (num_bufs cfg)) as Hl'
    by (by rewrite length_a_run).
  destruct m as [d|d|ss| |]; unfold mgr_do, rotate; cbn [mgr_filter last_rotate message sync_guard];
    cbn [ring_ops_of rotated_at] in *.
  1,2,3,5: rewrite ring_run_one in Eq; cbn [ring_step] in Eq.
  3: rewrite Z2Nat.id in Eq by (destruct Hf as [[? _] _]; lia).
  1,2,3,4: rewrite Eq; eexists; split; [reflexivity|]; split; [split; [exact Hq' | exact Hl'] | done].
  destruct (t_first t - last_rotate st <=? rotate_interval cfg).
  { cbn in Eq. injection Eq as <-. eexists; split; [reflexivity|]. split; [split|]; done. }
  destruct (rotate_interval cfg * num_bufs cfg <? t_second t - last_rotate st);
    rewrite ring_run_one in Eq; cbn [ring_step] in Eq; rewrite Eq;
    (eexists; split; [reflexivity|]); (split; [split|]; done).
Qed.

(** A sequence of messages with the paddings and clocks of each. *)
Notation event := (mgr_msg * list Z * clocks)%type.

Definition wire (evs : list event) : list (list Z * clocks) :=
  (fun '(m, pad, t) => (msg_bytes le m pad, t)) <$> evs.

Fixpoint ring_history (lr : Z) (evs : list event) : list ring_op :=
  match evs with
  | [] => []
  | (m, _, t) :: evs => ring_ops_of m t lr ++ ring_history (rotated_at m t lr) evs
  end.

Lemma mgr_run_spec evs st a :
  mgr_rep st a -> Forall (fun e => fits e.1.1) evs ->
  exists st', bloommgr_run le cfg (wire evs) st = Ok st' /\
    mgr_rep st' (a_run nb a (ring_history (last_rotate st) evs)).
Proof.
  revert st a. induction evs as [|[[m pad] t] evs IH]; intros st a Hr Hf; cbn [wire fmap list_fmap bloommgr_run].
  { eauto. }
  inversion_clear Hf as [|? ? Hm Hf'].
  destruct (mgr_step_spec m pad t st a Hr Hm) as (st1 & -> & Hr1 & Hlr). cbn [rbind].
  destruct (IH st1 _ Hr1 Hf') as (st2 & E2 & Hr2). exists st2. split; [exact E2|].
  cbn [ring_history]. unfold a_run in *. by rewrite foldl_app, <-Hlr.
Qed.

(** The clock of every rotation is within the retention time of [lr0]. *)
Definition in_time (lr0 : Z) (e : event) : Prop :=
  t_first e.2 <= lr0 + num_bufs cfg * rotate_interval cfg /\
  t_second e.2 <= lr0 + num_bufs cfg * rotate_interval cfg.

Lemma count_rotations_app o1 o2 : count_rotations (o1 ++ o2) = (count_rotations o1 + count_rotations o2)%nat.
Proof. induction o1 as [|[] o1 IH]; cbn; lia. Qed.

Lemma history_in_time lr0 k lr evs :
  0 < rotate_interval cfg -> 0 < num_bufs cfg ->
  lr = lr0 + Z.of_nat k * rotate_interval cfg -> Z.of_nat k < num_bufs cfg ->
  Forall (in_time lr0) evs ->
  OpZero ∉ ring_history lr evs /\ Z.of_nat (k + count_rotations (ring_history lr evs)) < num_bufs cfg.
Proof.
  intros Hi Hn. revert k lr. induction evs as [|[[m pad] t] evs IH]; intros k lr Hlr Hk Hf;
    cbn [ring_history]. { split; [apply not_elem_of_nil | cbn; lia]. }
  inversion_clear Hf as [|? ? [H1 H2] Hf']. cbn in H1, H2.
  rewrite not_elem_of_app, count_rotations_app.
  destruct m as [d|d|ss| |]; cbn [ring_ops_of rotated_at].
  1,2,3,5: destruct (IH k lr Hlr Hk Hf') as [Hz Hc]; split; [split; [|done] | cbn; lia];
    rewrite list_elem_of_singleton; discriminate.
  destruct (Z.leb_spec (t_first t - lr) (rotate_interval cfg)).
  { destruct (IH k lr Hlr Hk Hf') as [Hz Hc]. split; [split; [apply not_elem_of_nil|done] | cbn; lia]. }
  destruct (Z.ltb_spec (rotate_interval cfg * num_bufs cfg) (t_second t - lr)); [nia|].
  assert (Z.of_nat (S k) < num_bufs cfg) as Hk' by nia.
  destruct (IH (S k) (lr + rotate_interval cfg)) as [Hz Hc]; [lia|done|done|].
  split; [split; [|done] | cbn; lia]. rewrite list_elem_of_singleton. discriminate.
Qed.

End Manager.

(** A digest entered when the last rotation was at [last_rotate st] stays in
    the ring for the retention time. *)
Lemma retained nb le cfg st a d pad t evs :
  5 <= nb <= 30 -> 0 < num_bufs cfg -> 0 < rotate_interval cfg ->
  mgr_rep nb cfg st a -> digest_ok d -> Forall (fun e => fits nb cfg e.1.1) evs ->
  Forall (in_time cfg (last_rotate st)) evs ->
  exists st', bloommgr_run le cfg (wire le ((MUpdate d, pad, t) :: evs)) st = Ok st' /\
    is_in_ring_queue (mgr_filter st') d = Ok true.
Proof.
  intros Hnb Hn Hi Hr Hd Hf Ht.
  destruct (mgr_run_spec nb Hnb cfg le ((MUpdate d, pad, t) :: evs) st a Hr) as (st' & E & Hr' & _).
  { constructor; [|done]. split; [exact Hd | done]. }
  exists st'. split; [done|]. rewrite (is_in_ring_spec nb Hnb _ _ d Hr'). f_equal.
  cbn [ring_history ring_ops_of rotated_at app a_run foldl a_step].
  destruct (history_in_time nb Hnb cfg (last_rotate st) 0 (last_rotate st) evs) as [Hz Hc]; try lia; try done.
  destruct Hr as [[(_ & _ & _ & Hcur & _) _] Hl].
  apply (inserted_kept nb Hnb a d (ring_history cfg (last_rotate st) evs)); [done | done |]. lia.
Qed.

(** ** Properties *)

(** C8: the manager serves its queue without a fault: whatever the buffer held
    and however messages are padded, any sequence of updates, rotation
    commands, synchronisations and absolute updates that fit the ring takes
    the ring made at start-up through the abstract operations those messages
    stand for, and queries answer accordingly. *)
Theorem manager_run_refines nb le cfg junk q0 buf lr0 guard evs d :
  5 <= nb <= 30 -> 0 < num_bufs cfg < 2 ^ 32 ->
  create_bloom_ring_queue junk (num_bufs cfg) nb = Ok q0 ->
  Forall (fun e => fits nb cfg e.1.1) evs ->
  exists st, bloommgr_run le cfg (wire le evs) (Mgr q0 lr0 buf guard) = Ok st /\
    is_in_ring_queue (mgr_filter st) d =
    Ok (a_query nb d (a_run nb (a_create (Z.to_nat (num_bufs cfg))) (ring_history cfg lr0 evs))).
Proof.
  intros Hnb Hn E0 Hf. destruct (create_ring_spec nb Hnb junk (num_bufs cfg) Hn) as (q & E & Hq).
  rewrite E0 in E. injection E as ->.
  destruct (mgr_run_spec nb Hnb cfg le evs (Mgr q lr0 buf guard) (a_create (Z.to_nat (num_bufs cfg))))
    as (st & Es & Hr & _); [|done|].
  - split; [done|]. cbn. apply length_replicate.
  - exists st. split; [done|]. by apply is_in_ring_spec.
Qed.

(** A manager with two small filters and messages of each kind. *)
Definition example_cfg : mgr_config := MgrConfig 3600 2.
Definition example_clocks : clocks := Clocks 5000 5000 5000 (fun _ => 0).
Definition example_events : list (mgr_msg * list Z * clocks) :=
  [(MUpdate DEFAULT_SHA256, [1; 2; 3], example_clocks);
   (MAbsolute (StartupSync 1 0 (replicate 32 1)), [], example_clocks);
   (MRotate, [9], example_clocks); (MSyncAggregate, [], example_clocks)].

Lemma example_events_fit : Forall (fun e => fits 10 example_cfg e.1.1) example_events.
Proof.
  assert (Forall is_u32 (replicate 32 1)) as H1 by (apply Forall_replicate; unfold is_u32; lia).
  repeat constructor; cbn; unfold is_u32; try lia; try apply H1.
Qed.

Lemma manager_run_refines_witness :
  exists q0 st, create_bloom_ring_queue (fun _ _ => 0) 2 10 = Ok q0 /\
    bloommgr_run true example_cfg (wire true example_events) (Mgr q0 0 [] 1) = Ok st /\
    is_in_ring_queue (mgr_filter st) DEFAULT_SHA256 =
    Ok (a_query 10 DEFAULT_SHA256 (a_run 10 (a_create 2) (ring_history example_cfg 0 example_events))).
Proof.
  destruct (create_bloom_ring_queue (fun _ _ => 0) 2 10) as [q0|] eqn:E; [|vm_compute in E; discriminate].
  exists q0. edestruct (manager_run_refines 10 true example_cfg (fun _ _ => 0) q0 [] 0 1 example_events DEFAULT_SHA256)
    as (st & H1 & H2); [lia | cbn; lia | exact E | apply example_events_fit |].
  exists st. split; [reflexivity|]. split; [exact H1 | exact H2].
Defined.

(** C6: retention: a triplet entered when the last rotation was at time [lr]
    is still known as long as no clock reading of the manager is later than
    [lr + num_bufs * rotate_interval], whatever other messages come in between:
    the filter that holds it is not rotated away and the ring is not zeroed. *)
Theorem triplet_retained nb le cfg st a d pad t evs :
  5 <= nb <= 30 -> 0 < num_bufs cfg -> 0 < rotate_interval cfg ->
  mgr_rep nb cfg st a -> digest_ok d -> Forall (fun e => fits nb cfg e.1.1) evs ->
  Forall (in_time cfg (last_rotate st)) evs ->
  exists st', bloommgr_run le cfg (wire le ((MUpdate d, pad, t) :: evs)) st = Ok st' /\
    is_in_ring_queue (mgr_filter st') d = Ok true.
Proof. apply retained. Qed.

Lemma triplet_retained_witness :
  exists q0 st', create_bloom_ring_queue (fun _ _ => 0) 2 10 = Ok q0 /\
    bloommgr_run false example_cfg (wire false ((MUpdate DEFAULT_SHA256, [], example_clocks) :: example_events))
      (Mgr q0 0 [] 1) = Ok st' /\
    is_in_ring_queue (mgr_filter st') DEFAULT_SHA256 = Ok true.
Proof.
  destruct (create_ring_spec 10 ltac:(lia) (fun _ _ => 0) 2 ltac:(lia)) as (q0 & E & Hq).
  exists q0. edestruct (triplet_retained 10 false example_cfg (Mgr q0 0 [] 1) (a_create 2) DEFAULT_SHA256 []
    example_clocks example_events) as (st & H1 & H2).
  - lia.
  - cbn; lia.
  - cbn; lia.
  - split; [exact Hq | reflexivity].
  - repeat constructor; unfold is_u32; cbn; lia.
  - apply example_events_fit.
  - repeat constructor; cbn; lia.
  - exists st. split; [exact E|]. split; [exact H1 | exact H2].
Defined.
