(* ===== verification/AddrUtils.v ===== *)
(** * Addresses ([src/src/addrutils.c])

    [inet_pton] and [inet_ntop] are operations of the C library: the class
    [Inet] holds them, [InetLaws] what the code relies on, and [dotted] is an
    implementation that satisfies the laws. *)

From S2P Require Import Prelude.

(** ** The C library's address conversions *)

(** An address is its bytes in network order. *)
Class Inet := {
  pton4 : cstr -> option (list Z);
  ntop4 : list Z -> cstr;
  pton6 : cstr -> option (list Z);
  ntop6 : list Z -> cstr }.

Definition INET_ADDRSTRLEN : Z := 16.
Definition INET6_ADDRSTRLEN : Z := 46.

Definition is_addr (n : nat) (b : list Z) : Prop := length b = n /\ Forall is_byte b.

Class InetLaws `(Inet) := {
  pton4_addr : forall s b, pton4 s = Some b -> is_addr 4 b;
  pton6_addr : forall s b, pton6 s = Some b -> is_addr 16 b;
  pton4_ntop4 : forall b, is_addr 4 b -> pton4 (ntop4 b) = Some b;
  pton6_ntop6 : forall b, is_addr 16 b -> pton6 (ntop6 b) = Some b;
  ntop4_fits : forall b, is_addr 4 b -> Z.of_nat (length (ntop4 b)) < INET_ADDRSTRLEN;
  ntop6_fits : forall b, is_addr 16 b -> Z.of_nat (length (ntop6 b)) < INET6_ADDRSTRLEN;
  ntop4_no_colon : forall b, is_addr 4 b -> ":"%char ∉ ntop4 b;
  length_ntop4_reverse : forall b, is_addr 4 b -> length (ntop4 (reverse b)) = length (ntop4 b) }.

(** ** Operations *)

Section Addr.
Context `{Inet} (le : bool).

(** [grey_mask] and [grey_mask6] of the configuration. *)
Record mask_config := MaskConfig { cfg_grey_mask : Z; cfg_grey_mask6 : Z }.

Definition htonl (w : Z) : Z := load le (be_split 4 w).

Definition grey_mask_v4 (cfg : mask_config) (ipstr : cstr) : Res (option cstr) :=
  if INET_ADDRSTRLEN <=? Z.of_nat (length ipstr) then Ok None
  else
    match pton4 ipstr with
    | None => Ok None
    | Some inaddr =>
        let ip := load le inaddr in
        one ← shl_int 1 (32 - cfg_grey_mask cfg);
        low ← int_val (one - 1);
        let mask := Z.lxor (2 ^ 32 - 1) low in
        let net := Z.land ip (htonl mask) in
        Ok (Some (ntop4 (store le 4 net)))
    end.

(** The mask of byte [i] of an IPv6 address. *)
Definition mask_part (mask6 : Z) (i : Z) : Res Z :=
  if i <? Z.shiftr mask6 3 then Ok 255
  else if Z.shiftr mask6 3 <? i then Ok 0
  else
    one ← shl_int 1 (8 - Z.land mask6 7);
    low ← int_val (one - 1);
    Ok (Z.lxor 255 low).

Definition grey_mask_v6 (cfg : mask_config) (ipstr : cstr) : Res (option cstr) :=
  if INET6_ADDRSTRLEN <=? Z.of_nat (length ipstr) then Ok None
  else
    match pton6 ipstr with
    | None => Ok None
    | Some inaddr =>
        a ← for_loop 16 (fun i a =>
              if Z.of_nat i <? Z.shiftr (cfg_grey_mask6 cfg) 3 then Ok a
              else
                m ← mask_part (cfg_grey_mask6 cfg) (Z.of_nat i);
                b ← aget a (Z.of_nat i);
                aset a (Z.of_nat i) (Z.land b m)) inaddr;
        Ok (Some (ntop6 a))
    end.

Definition grey_mask (cfg : mask_config) (ipstr : cstr) : Res (option cstr) :=
  masked ← grey_mask_v4 cfg ipstr;
  match masked with
  | Some m => Ok (Some m)
  | None => grey_mask_v6 cfg ipstr
  end.

(** [reverse_inet_addr] works in place: the return value and the string. *)
Definition reverse_inet4_addr (ipstr : cstr) : Res (Z * cstr) :=
  let iplen := Z.of_nat (length ipstr) in
  if INET_ADDRSTRLEN <=? iplen then Ok (-1, ipstr)
  else
    match pton4 ipstr with
    | None => Ok (-1, ipstr)
    | Some inaddr =>
        let '(tmp, _) := Nat.iter 4 (fun '(tmp, ipa) =>
          (Z.lor (u32 (Z.shiftl tmp 8)) (Z.land ipa 255), Z.shiftr ipa 8)) (0, load le inaddr) in
        let tmpstr := ntop4 (store le 4 tmp) in
        _ ← c_assert (Z.of_nat (length tmpstr) =? iplen);
        Ok (0, tmpstr)
    end.

Definition hex_digit (n : Z) : ascii := default nul (cs "0123456789abcdef" !! Z.to_nat n).

(** The nibbles from the last to the first, with dots between them. *)
Definition reverse_inet6_addr (ipstr : cstr) : Res (Z * cstr) :=
  if INET6_ADDRSTRLEN <=? Z.of_nat (length ipstr) then Ok (-1, ipstr)
  else
    match pton6 ipstr with
    | None => Ok (-1, ipstr)
    | Some inaddr =>
        let nibbles := reverse inaddr ≫= (fun b => [Z.land b 15; Z.shiftr b 4]) in
        Ok (0, drop 1 (nibbles ≫= (fun n => ["."%char; hex_digit n])))
    end.

Definition reverse_inet_addr (ipstr : cstr) : Res (Z * cstr) :=
  if bool_decide (":"%char ∈ ipstr) then reverse_inet6_addr ipstr else reverse_inet4_addr ipstr.

End Addr.

(** ** Masking keeps a prefix *)

(** The address with all but its first [m] bits cleared. *)
Definition prefix_of (n : nat) (m : Z) (b : list Z) : list Z :=
  let low := 8 * Z.of_nat n - m in
  be_split n (Z.shiftl (Z.shiftr (be_join b) low) low).

Lemma clear_low a n k : 0 <= k <= n -> 0 <= a < 2 ^ n ->
  Z.land a (Z.lxor (2 ^ n - 1) (2 ^ k - 1)) = Z.shiftl (Z.shiftr a k) k.
Proof.
  intros Hk Ha. apply Z.bits_inj'. intros i Hi.
  rewrite !Z.sub_1_r, <-!Z.ones_equiv, Z.land_spec, Z.lxor_spec, Z.shiftl_spec by lia.
  rewrite !Z.testbit_ones_nonneg by lia.
  destruct (Z.ltb_spec i k).
  - rewrite (Z.testbit_neg_r _ (i - k)), (proj2 (Z.ltb_lt i n)) by lia. by rewrite andb_false_r.
  - rewrite Z.shiftr_spec by lia. replace (i - k + k) with i by lia.
    destruct (Z.ltb_spec i n); [by rewrite andb_true_r|].
    rewrite (testbit_high n a i) by lia. done.
Qed.

(** A bitwise operation on the loaded words is the same on the bytes. *)
Lemma le_split_land n a b :
  le_split n (Z.land a b) = zip_with Z.land (le_split n a) (le_split n b).
Proof.
  revert a b. induction n as [|n IH]; intros a b; cbn; [done|]. f_equal.
  - change 256 with (2 ^ 8). rewrite <-!Z.land_ones by lia.
    apply Z.bits_inj'. intros i Hi. rewrite !Z.land_spec. destruct (Z.testbit (Z.ones 8) i); by rewrite ?andb_true_r, ?andb_false_r.
  - rewrite <-IH. f_equal. change 256 with (2 ^ 8). rewrite <-!Z.shiftr_div_pow2 by lia. apply Z.shiftr_land.
Qed.

Lemma reverse_zip_with {A B C} (f : A -> B -> C) (l : list A) (k : list B) :
  length l = length k -> reverse (zip_with f l k) = zip_with f (reverse l) (reverse k).
Proof.
  revert k. induction l as [|x l IH]; intros [|y k] Hl; cbn [length zip_with] in *; try done.
  rewrite !reverse_cons, IH by lia. symmetry. rewrite zip_with_app by (rewrite !length_reverse; lia). done.
Qed.

Lemma be_split_land n a b :
  be_split n (Z.land a b) = zip_with Z.land (be_split n a) (be_split n b).
Proof.
  unfold be_split. rewrite le_split_land. apply reverse_zip_with. by rewrite !length_le_split.
Qed.

Lemma store_land_load le l k :
  Forall is_byte l -> Forall is_byte k -> length l = length k ->
  store le (length l) (Z.land (load le l) (load le k)) = zip_with Z.land l k.
Proof.
  intros Hl Hk Hlen. destruct le; cbn.
  - rewrite le_split_land, le_split_join by done. rewrite Hlen at 1. by rewrite le_split_join.
  - rewrite be_split_land, be_split_join by done. rewrite Hlen at 1. by rewrite be_split_join.
Qed.

(** Masking the bytes of an address is masking the number they spell. *)
Lemma mask_bytes n m b :
  0 <= m <= 8 * Z.of_nat n -> is_addr n b ->
  zip_with Z.land b (be_split n (Z.lxor (2 ^ (8 * Z.of_nat n) - 1) (2 ^ (8 * Z.of_nat n - m) - 1))) = prefix_of n m b.
Proof.
  intros Hm [Hl Hb]. unfold prefix_of. rewrite <-(clear_low _ (8 * Z.of_nat n)); [|lia|].
  - rewrite be_split_land. f_equal. rewrite <-Hl. by rewrite be_split_join.
  - rewrite <-Hl. by apply be_join_bound.
Qed.

Lemma is_addr_prefix n m b : is_addr n (prefix_of n m b).
Proof. split; [apply length_be_split | apply be_split_bytes]. Qed.

Section Proofs.
Context `{HI : Inet} {HL : InetLaws HI} (le : bool).

Lemma grey_mask_v4_spec cfg s b :
  2 <= cfg_grey_mask cfg <= 32 -> Z.of_nat (length s) < INET_ADDRSTRLEN -> pton4 s = Some b ->
  grey_mask_v4 le cfg s = Ok (Some (ntop4 (prefix_of 4 (cfg_grey_mask cfg) b))).
Proof.
  intros Hm Hs Hp. unfold grey_mask_v4. destruct (Z.leb_spec INET_ADDRSTRLEN (Z.of_nat (length s))); [lia|].
  rewrite Hp. pose proof (pton4_addr s b Hp) as Ha. set (k := 32 - cfg_grey_mask cfg).
  assert (0 < 2 ^ k <= 2 ^ 30) as Hk by (split; [lia | apply Z.pow_le_mono_r; lia]).
  unfold shl_int. rewrite (proj2 (Z.leb_le 0 k)), (proj2 (Z.ltb_lt k 32)) by lia. cbn [andb].
  rewrite Z.shiftl_1_l. unfold int_val, INT_MIN, INT_MAX.
  rewrite (proj2 (Z.leb_le (- 2 ^ 31) (2 ^ k))), (proj2 (Z.leb_le (2 ^ k) (2 ^ 31 - 1))) by lia. cbn [andb rbind].
  rewrite (proj2 (Z.leb_le (- 2 ^ 31) (2 ^ k - 1))), (proj2 (Z.leb_le (2 ^ k - 1) (2 ^ 31 - 1))) by lia. cbn [andb rbind].
  do 3 f_equal. unfold htonl. destruct Ha as [Hl Hb].
  change 4%nat with (4%nat). rewrite <-Hl at 1. rewrite store_land_load; [|done|apply be_split_bytes|by rewrite length_be_split].
  apply (mask_bytes 4 (cfg_grey_mask cfg) b); [lia|]. by split.
Qed.
(** The masks of the sixteen bytes, for every prefix length. *)
Lemma mask_parts m i :
  0 <= m <= 128 -> (i < 16)%nat ->
  mask_part m (Z.of_nat i) =
  Ok (be_split 16 (Z.lxor (2 ^ 128 - 1) (2 ^ (128 - m) - 1)) !!! i).
Proof.
  intros Hm Hi.
  assert (Forall (fun m => Forall (fun i => mask_part (Z.of_nat m) (Z.of_nat i) =
    Ok (be_split 16 (Z.lxor (2 ^ 128 - 1) (2 ^ (128 - Z.of_nat m) - 1)) !!! i)) (seq 0 16)) (seq 0 129)) as HF
    by (repeat constructor).
  rewrite Forall_forall in HF. specialize (HF (Z.to_nat m)). rewrite Z2Nat.id in HF by lia.
  specialize (HF ltac:(apply elem_of_seq; lia)). rewrite Forall_forall in HF.
  apply HF. apply elem_of_seq. lia.
Qed.

Lemma land_255 b : is_byte b -> Z.land b 255 = b.
Proof. intros H. change 255 with (Z.ones 8). rewrite Z.land_ones by lia. by apply Z.mod_small. Qed.

Lemma grey_mask_v6_spec cfg s b :
  0 <= cfg_grey_mask6 cfg <= 128 -> Z.of_nat (length s) < INET6_ADDRSTRLEN -> pton6 s = Some b ->
  grey_mask_v6 cfg s = Ok (Some (ntop6 (prefix_of 16 (cfg_grey_mask6 cfg) b))).
Proof.
  intros Hm Hs Hp. unfold grey_mask_v6. destruct (Z.leb_spec INET6_ADDRSTRLEN (Z.of_nat (length s))); [lia|].
  rewrite Hp. pose proof (pton6_addr s b Hp) as Ha. pose proof Ha as [Hl Hb].
  set (m := cfg_grey_mask6 cfg) in *. set (M := be_split 16 (Z.lxor (2 ^ 128 - 1) (2 ^ (128 - m) - 1))).
  assert (length M = 16%nat) as HM by apply length_be_split.
  edestruct (for_loop_inv (fun k a => a = zip_with Z.land (take k b) (take k M) ++ drop k b) 16)
    as (a & E & Ea); [| |rewrite E; cbn [rbind]; do 3 f_equal; rewrite Ea].
  - done.
  - intros i a Hi ->. set (pre := zip_with Z.land (take i b) (take i M)).
    destruct (lookup_lt_is_Some_2 b i) as [x Hx]; [lia|].
    destruct (lookup_lt_is_Some_2 M i) as [y Hy]; [lia|].
    assert (length pre = i) as Hpre by (unfold pre; rewrite length_zip_with, !length_take; lia).
    rewrite (drop_S b x i Hx).
    assert (pre ++ Z.land x y :: drop (S i) b =
      zip_with Z.land (take (S i) b) (take (S i) M) ++ drop (S i) b) as Enew.
    { rewrite (take_S_r b i x Hx), (take_S_r M i y Hy).
      rewrite zip_with_app by (rewrite !length_take; lia). by rewrite <-app_assoc. }
    assert (mask_part m (Z.of_nat i) = Ok y) as Hmp.
    { rewrite mask_parts by lia. f_equal. by apply list_lookup_total_correct. }
    destruct (Z.of_nat i <? Z.shiftr m 3) eqn:Elt.
    + eexists. split; [reflexivity|]. rewrite <-Enew. f_equal. f_equal.
      unfold mask_part in Hmp. rewrite Elt in Hmp. injection Hmp as <-. symmetry. apply land_255.
      by eapply (Forall_lookup_1 is_byte).
    + rewrite Hmp. cbn [rbind].
      rewrite (aget_Ok (pre ++ x :: drop (S i) b) (Z.of_nat i) x) by
        (lia || (rewrite Nat2Z.id, lookup_app_r, Hpre, Nat.sub_diag by lia; done)).
      cbn [rbind]. rewrite aset_lt by (rewrite length_app; cbn; lia). rewrite Nat2Z.id.
      eexists. split; [reflexivity|]. rewrite <-Enew.
      replace i with (length pre + 0)%nat at 1 by lia. by rewrite insert_app_r.
  - rewrite !take_ge, drop_ge, app_nil_r by lia. by apply (mask_bytes 16 m b); [lia|].
Qed.

Lemma grey_mask_spec4 cfg s b :
  2 <= cfg_grey_mask cfg <= 32 -> Z.of_nat (length s) < INET_ADDRSTRLEN -> pton4 s = Some b ->
  grey_mask le cfg s = Ok (Some (ntop4 (prefix_of 4 (cfg_grey_mask cfg) b))).
Proof. intros. unfold grey_mask. by erewrite grey_mask_v4_spec by done. Qed.

Lemma grey_mask_spec6 cfg s b :
  0 <= cfg_grey_mask6 cfg <= 128 -> Z.of_nat (length s) < INET6_ADDRSTRLEN -> pton4 s = None ->
  pton6 s = Some b -> grey_mask le cfg s = Ok (Some (ntop6 (prefix_of 16 (cfg_grey_mask6 cfg) b))).
Proof.
  intros H1 H2 H3 H4. unfold grey_mask, grey_mask_v4. rewrite H3.
  destruct (INET_ADDRSTRLEN <=? _); cbn [rbind]; by apply grey_mask_v6_spec.
Qed.

(** The loop of [reverse_inet4_addr] turns the four bytes round. *)
Lemma reverse_word b :
  is_addr 4 b ->
  store le 4 (Nat.iter 4 (fun '(tmp, ipa) =>
    (Z.lor (u32 (Z.shiftl tmp 8)) (Z.land ipa 255), Z.shiftr ipa 8)) (0, load le b)).1 = reverse b.
Proof.
  intros [Hl Hb]. destruct b as [|b0 [|b1 [|b2 [|b3 [|? ?]]]]]; try done.
  repeat (apply Forall_cons_1 in Hb as [? Hb]). unfold is_byte in *.
  assert (forall x0 x1 x2 x3, is_byte x0 -> is_byte x1 -> is_byte x2 -> is_byte x3 ->
    (Nat.iter 4 (fun '(tmp, ipa) => (Z.lor (u32 (Z.shiftl tmp 8)) (Z.land ipa 255), Z.shiftr ipa 8))
      (0, x0 + 256 * (x1 + 256 * (x2 + 256 * (x3 + 256 * 0))))).1 =
    x3 + 256 * (x2 + 256 * (x1 + 256 * (x0 + 256 * 0)))) as Hrev.
  { intros x0 x1 x2 x3 G0 G1 G2 G3. unfold is_byte in *. cbv beta iota delta [Nat.iter nat_rect fst].
    change 255 with (Z.ones 8). rewrite !Z.land_ones, !Z.shiftr_div_pow2 by lia. change (2 ^ 8) with 256.
    assert (forall t x, 0 <= t < 2 ^ 24 -> 0 <= x < 256 -> Z.lor (u32 (Z.shiftl t 8)) x = x + 256 * t) as Hstep.
    { intros t x Ht Hx. rewrite Z.shiftl_mul_pow2, u32_id by (unfold is_u32; lia).
      rewrite Z.lor_comm. change (2 ^ 8) with 256 in *. pose proof (Z.add_lor_land x (t * 256)) as Hadd.
      assert (Z.land x (t * 256) = 0) as Hz; [|lia]. apply Z.bits_inj'. intros i Hi.
        rewrite Z.land_spec, Z.bits_0. change 256 with (2 ^ 8). rewrite <-Z.shiftl_mul_pow2, Z.shiftl_spec by lia.
        destruct (Z.lt_ge_cases i 8); [rewrite (Z.testbit_neg_r _ (i - 8)) by lia; apply andb_false_r|].
        by rewrite (testbit_high 8 x i) by lia. }
    assert ((x0 + 256 * (x1 + 256 * (x2 + 256 * (x3 + 256 * 0)))) mod 256 = x0) as -> by (Z.div_mod_to_equations; lia).
    assert ((x0 + 256 * (x1 + 256 * (x2 + 256 * (x3 + 256 * 0)))) / 256 = x1 + 256 * (x2 + 256 * x3)) as ->
      by (Z.div_mod_to_equations; lia).
    assert ((x1 + 256 * (x2 + 256 * x3)) mod 256 = x1) as -> by (Z.div_mod_to_equations; lia).
    assert ((x1 + 256 * (x2 + 256 * x3)) / 256 = x2 + 256 * x3) as -> by (Z.div_mod_to_equations; lia).
    assert ((x2 + 256 * x3) mod 256 = x2) as -> by (Z.div_mod_to_equations; lia).
    assert ((x2 + 256 * x3) / 256 = x3) as -> by (Z.div_mod_to_equations; lia).
    rewrite (Z.mod_small x3 256) by lia.
    rewrite (Hstep 0 x0), (Hstep (x0 + 256 * 0) x1), (Hstep (x1 + 256 * (x0 + 256 * 0)) x2) by lia.
    rewrite Hstep by lia. lia. }
  assert (Forall is_byte [b3; b2; b1; b0]) as HF by (by rewrite !Forall_cons).
  destruct le; cbn [load store].
  - unfold le_join at 1. rewrite Hrev by done.
    change (b3 + 256 * (b2 + 256 * (b1 + 256 * (b0 + 256 * 0)))) with (le_join [b3; b2; b1; b0]).
    exact (le_split_join [b3; b2; b1; b0] HF).
  - unfold be_join. change (reverse [b0; b1; b2; b3]) with [b3; b2; b1; b0]. unfold le_join at 1.
    rewrite Hrev by done.
    change (b0 + 256 * (b1 + 256 * (b2 + 256 * (b3 + 256 * 0)))) with (be_join [b3; b2; b1; b0]).
    exact (be_split_join [b3; b2; b1; b0] HF).
Qed.

Lemma reverse4_spec b :
  is_addr 4 b -> reverse_inet_addr le (ntop4 b) = Ok (0, ntop4 (reverse b)).
Proof.
  intros Hb. unfold reverse_inet_addr. rewrite bool_decide_eq_false_2 by (by apply ntop4_no_colon).
  unfold reverse_inet4_addr. pose proof (ntop4_fits b Hb).
  destruct (Z.leb_spec INET_ADDRSTRLEN (Z.of_nat (length (ntop4 b)))); [lia|].
  rewrite pton4_ntop4 by done. pose proof (reverse_word b Hb) as Hr.
  destruct (Nat.iter 4 _ _) as [tmp ipa]. cbn [fst] in Hr. rewrite Hr.
  rewrite (length_ntop4_reverse b Hb), Z.eqb_refl. done.
Qed.
End Proofs.

(** ** An implementation of the conversions *)

Module Dotted.

Fixpoint split_on (c : ascii) (s : cstr) : list cstr :=
  match s with
  | [] => [[]]
  | x :: t =>
      if chr_eqb x c then [] :: split_on c t
      else match split_on c t with g :: gs => (x :: g) :: gs | [] => [[x]] end
  end.

Fixpoint join_with (c : ascii) (l : list cstr) : cstr :=
  match l with
  | [] => []
  | [g] => g
  | g :: gs => g ++ c :: join_with c gs
  end.

Lemma split_on_none c g : c ∉ g -> split_on c g = [g].
Proof.
  induction g as [|x g IH]; intros Hc; [done|]. rewrite not_elem_of_cons in Hc. cbn.
  destruct (chr_eqb x c) eqn:E; [apply chr_eqb_eq in E; naive_solver|]. by rewrite IH by naive_solver.
Qed.

Lemma split_on_app c g rest : c ∉ g -> split_on c (g ++ c :: rest) = g :: split_on c rest.
Proof.
  induction g as [|x g IH]; intros Hc; cbn.
  - by rewrite (proj2 (chr_eqb_eq c c)).
  - rewrite not_elem_of_cons in Hc. destruct (chr_eqb x c) eqn:E; [apply chr_eqb_eq in E; naive_solver|].
    by rewrite IH by naive_solver.
Qed.

Lemma split_join c l : l <> [] -> Forall (fun g => c ∉ g) l -> split_on c (join_with c l) = l.
Proof.
  intros Hl Hf. induction Hf as [|g l Hg Hf IH]; [done|]. destruct l as [|g2 l].
  - by apply split_on_none.
  - change (join_with c (g :: g2 :: l)) with (g ++ c :: join_with c (g2 :: l)).
    rewrite split_on_app by done. f_equal. by apply IH.
Qed.

Definition digit (n : Z) : ascii := ascii_of_nat (Z.to_nat (48 + n)).

Definition dec (n : Z) : cstr :=
  if n <? 10 then [digit n]
  else if n <? 100 then [digit (n / 10); digit (n mod 10)]
  else [digit (n / 100); digit (n / 10 mod 10); digit (n mod 10)].

Definition parse_dec (g : cstr) : option Z := list_find (fun k => dec k = g) (seqZ 0 256) ≫= (fun p => Some p.2).

Definition hexb (b : Z) : cstr := [hex_digit (b / 16); hex_digit (b mod 16)].

Definition parse_hex (c : ascii) : option Z :=
  list_find (fun k => hex_digit k = c) (seqZ 0 16) ≫= (fun p => Some p.2).

Fixpoint groups (b : list Z) : list cstr :=
  match b with
  | x :: y :: t => (hexb x ++ hexb y) :: groups t
  | _ => []
  end.

Definition parse_group (g : cstr) : option (list Z) :=
  match g with
  | [a; b; c; d] =>
      match parse_hex a, parse_hex b, parse_hex c, parse_hex d with
      | Some a, Some b, Some c, Some d => Some [16 * a + b; 16 * c + d]
      | _, _, _, _ => None
      end
  | _ => None
  end.

#[export] Instance dotted : Inet := {|
  ntop4 b := join_with "."%char (dec <$> b);
  pton4 s :=
    match mapM parse_dec (split_on "."%char s) with
    | Some b => if (length b =? 4)%nat then Some b else None
    | None => None
    end;
  ntop6 b := join_with ":"%char (groups b);
  pton6 s :=
    match mapM parse_group (split_on ":"%char s) with
    | Some gs => if (length (concat gs) =? 16)%nat then Some (concat gs) else None
    | None => None
    end |}.

Lemma all_bytes (P : Z -> Prop) : Forall P (seqZ 0 256) -> forall b, is_byte b -> P b.
Proof. intros HF b Hb. rewrite Forall_forall in HF. apply HF. apply elem_of_seqZ. unfold is_byte in Hb. lia. Qed.

Lemma parse_dec_dec b : is_byte b -> parse_dec (dec b) = Some b.
Proof. revert b. apply all_bytes. repeat constructor. Qed.

Lemma parse_dec_byte g b : parse_dec g = Some b -> is_byte b.
Proof.
  unfold parse_dec. destruct (list_find _ _) as [[i x]|] eqn:E; [|done]. cbn. intros [= <-].
  apply list_find_Some in E as (Hi & _). apply lookup_seqZ in Hi. unfold is_byte. lia.
Qed.

Lemma parse_hex_nibble c n : parse_hex c = Some n -> 0 <= n < 16.
Proof.
  unfold parse_hex. destruct (list_find _ _) as [[i x]|] eqn:E; [|done]. cbn. intros [= <-].
  apply list_find_Some in E as (Hi & _). apply lookup_seqZ in Hi. lia.
Qed.

Lemma parse_hexb x y : is_byte x -> is_byte y -> parse_group (hexb x ++ hexb y) = Some [x; y].
Proof.
  intros Hx Hy.
  assert (forall b, is_byte b -> exists h l, parse_hex (hex_digit (b / 16)) = Some h /\
     parse_hex (hex_digit (b mod 16)) = Some l /\ 16 * h + l = b) as Hh.
  { apply all_bytes. repeat (constructor; [by do 2 eexists|]). constructor. }
  destruct (Hh x Hx) as (hx & lx & E1 & E2 & E3), (Hh y Hy) as (hy & ly & E4 & E5 & E6).
  cbn [hexb app parse_group]. by rewrite E1, E2, E4, E5, E3, E6.
Qed.

Lemma hexb_no_colon b : is_byte b -> ":"%char ∉ hexb b.
Proof.
  revert b. apply all_bytes.
  assert (forall b, bool_decide (":"%char ∈ hexb b) = false -> ":"%char ∉ hexb b) as H
    by (intros b H1; by apply bool_decide_eq_false in H1).
  repeat (constructor; [apply H; reflexivity|]). constructor.
Qed.

Lemma dec_no_dot_colon b : is_byte b -> "."%char ∉ dec b /\ ":"%char ∉ dec b /\ (0 < length (dec b) <= 3)%nat.
Proof.
  revert b. apply all_bytes.
  assert (forall b, bool_decide ("."%char ∈ dec b) = false -> bool_decide (":"%char ∈ dec b) = false ->
    (0 <? length (dec b))%nat && (length (dec b) <=? 3)%nat = true ->
    "."%char ∉ dec b /\ ":"%char ∉ dec b /\ (0 < length (dec b) <= 3)%nat) as H.
  { intros b H1 H2 H3. apply bool_decide_eq_false in H1, H2. apply andb_true_iff in H3 as [H3 H4].
    apply Nat.ltb_lt in H3. apply Nat.leb_le in H4. done. }
  repeat (constructor; [apply H; reflexivity|]). constructor.
Qed.

Lemma groups_no_colon b : Forall is_byte b -> Forall (fun g => ":"%char ∉ g) (groups b).
Proof.
  assert (forall n b, (length b <= n)%nat -> Forall is_byte b -> Forall (fun g => ":"%char ∉ g) (groups b)) as H.
  { induction n as [|n IH]; intros c Hc Hb; [by destruct c; [constructor | cbn in Hc; lia]|].
    destruct c as [|x [|y c]]; cbn [groups]; [constructor..|].
    rewrite !Forall_cons in Hb. destruct Hb as (Hx & Hy & Hb). constructor.
    - rewrite not_elem_of_app. split; by apply hexb_no_colon.
    - apply IH; [cbn in Hc; lia | done]. }
  by apply (H (length b)).
Qed.

Lemma parse_groups b :
  Forall is_byte b -> Nat.even (length b) = true ->
  exists gs, mapM parse_group (groups b) = Some gs /\ concat gs = b.
Proof.
  assert (forall n b, (length b <= n)%nat -> Forall is_byte b -> Nat.even (length b) = true ->
    exists gs, mapM parse_group (groups b) = Some gs /\ concat gs = b) as H.
  { induction n as [|n IH]; intros c Hc Hb He; [destruct c; [by exists [] | cbn in Hc; lia]|].
    destruct c as [|x [|y c]]; [by exists [] | done |]. cbn [groups].
    rewrite !Forall_cons in Hb. destruct Hb as (Hx & Hy & Hb).
    destruct (IH c) as (gs & E & Ec); [cbn in Hc; lia | done | done |].
    exists ([x; y] :: gs). cbn [mapM]. rewrite parse_hexb by done. cbn. rewrite E. cbn. by rewrite Ec. }
  by apply (H (length b)).
Qed.

Lemma mapM_parse_dec b : Forall is_byte b -> mapM parse_dec (dec <$> b) = Some b.
Proof. induction 1 as [|x b Hx _ IH]; [done|]. cbn. by rewrite parse_dec_dec, IH. Qed.

Lemma mapM_parse_dec_bytes gs b : mapM parse_dec gs = Some b -> Forall is_byte b.
Proof.
  revert b. induction gs as [|g gs IH]; cbn; intros b H; [injection H as <-; constructor|].
  destruct (parse_dec g) as [x|] eqn:E; [|done]. cbn in H.
  destruct (mapM parse_dec gs) as [xs|]; [|done]. injection H as <-.
  constructor; [by eapply parse_dec_byte | by apply IH].
Qed.

Lemma parse_group_bytes g b : parse_group g = Some b -> Forall is_byte b.
Proof.
  destruct g as [|a [|b' [|c [|d [|? ?]]]]]; try done. cbn [parse_group].
  destruct (parse_hex a) eqn:E1; [|done]. destruct (parse_hex b') eqn:E2; [|done].
  destruct (parse_hex c) eqn:E3; [|done]. destruct (parse_hex d) eqn:E4; [|done].
  apply parse_hex_nibble in E1, E2, E3, E4. intros [= <-]. unfold is_byte.
  repeat constructor; lia.
Qed.

Lemma mapM_parse_group_bytes gs b : mapM parse_group gs = Some b -> Forall is_byte (concat b).
Proof.
  revert b. induction gs as [|g gs IH]; cbn; intros b H; [injection H as <-; constructor|].
  destruct (parse_group g) as [x|] eqn:E; [|done]. cbn in H.
  destruct (mapM parse_group gs) as [xs|]; [|done]. injection H as <-. cbn.
  apply Forall_app. split; [by eapply parse_group_bytes | by apply IH].
Qed.

(** The four groups of an address, explicitly. *)
Lemma addr4_cases b : is_addr 4 b -> exists b0 b1 b2 b3, b = [b0; b1; b2; b3] /\
  is_byte b0 /\ is_byte b1 /\ is_byte b2 /\ is_byte b3.
Proof.
  intros [Hl Hb]. destruct b as [|b0 [|b1 [|b2 [|b3 [|? ?]]]]]; try done.
  rewrite !Forall_cons in Hb. naive_solver.
Qed.

#[export] Instance dotted_laws : InetLaws dotted.
Proof.
  split; cbn [pton4 ntop4 pton6 ntop6 dotted].
  - intros s b. destruct (mapM parse_dec (split_on "."%char s)) as [l|] eqn:E; [|done].
    destruct (Nat.eqb_spec (length l) 4); [|done]. intros [= <-]. split; [done|]. by eapply mapM_parse_dec_bytes.
  - intros s b. destruct (mapM parse_group (split_on ":"%char s)) as [l|] eqn:E; [|done].
    destruct (Nat.eqb_spec (length (concat l)) 16); [|done]. intros [= <-]. split; [done|].
    by eapply mapM_parse_group_bytes.
  - intros b [Hl Hb]. rewrite split_join.
    + rewrite mapM_parse_dec by done. by rewrite Hl.
    + by destruct b.
    + apply Forall_fmap. eapply Forall_impl; [exact Hb|]. intros x Hx. by apply dec_no_dot_colon.
  - intros b [Hl Hb]. destruct (parse_groups b Hb) as (gs & E & Ec); [by rewrite Hl|].
    rewrite split_join; [|by destruct b as [|? [|? ?]]|by apply groups_no_colon].
    by rewrite E, Ec, Hl.
  - intros b Hb. destruct (addr4_cases b Hb) as (b0 & b1 & b2 & b3 & -> & H0 & H1 & H2 & H3).
    apply dec_no_dot_colon in H0, H1, H2, H3. cbn [fmap list_fmap join_with].
    repeat (rewrite length_app; cbn [length]). unfold INET_ADDRSTRLEN. lia.
  - intros b [Hl Hb]. do 17 (destruct b as [|? b]; try done).
  - intros b Hb. destruct (addr4_cases b Hb) as (b0 & b1 & b2 & b3 & -> & H0 & H1 & H2 & H3).
    apply dec_no_dot_colon in H0, H1, H2, H3. cbn [fmap list_fmap join_with].
    rewrite !not_elem_of_app, !not_elem_of_cons, !not_elem_of_app, !not_elem_of_cons, !not_elem_of_app,
      !not_elem_of_cons. naive_solver.
  - intros b Hb. destruct (addr4_cases b Hb) as (b0 & b1 & b2 & b3 & -> & _).
    change (reverse [b0; b1; b2; b3]) with [b3; b2; b1; b0]. cbn [fmap list_fmap join_with].
    repeat (rewrite length_app; cbn [length]). lia.
Qed.

End Dotted.

(** ** Properties *)

Import Dotted.

(** [grey_mask] keeps exactly the network prefix: two IPv4 clients get the
    same masked address if and only if their first [grey_mask] bits agree, and
    two IPv6 clients if and only if their first [grey_mask6] bits agree, on
    machines of either byte order. *)
Theorem grey_mask_same_prefix `{HI : Inet} {HL : InetLaws HI} le cfg s1 s2 :
  2 <= cfg_grey_mask cfg <= 32 -> 0 <= cfg_grey_mask6 cfg <= 128 ->
  Z.of_nat (length s1) < INET_ADDRSTRLEN -> Z.of_nat (length s2) < INET_ADDRSTRLEN ->
  (forall b1 b2, pton4 s1 = Some b1 -> pton4 s2 = Some b2 ->
     grey_mask le cfg s1 = grey_mask le cfg s2 <->
     Z.shiftr (be_join b1) (32 - cfg_grey_mask cfg) = Z.shiftr (be_join b2) (32 - cfg_grey_mask cfg)) /\
  (forall b1 b2, pton4 s1 = None -> pton4 s2 = None -> pton6 s1 = Some b1 -> pton6 s2 = Some b2 ->
     grey_mask le cfg s1 = grey_mask le cfg s2 <->
     Z.shiftr (be_join b1) (128 - cfg_grey_mask6 cfg) = Z.shiftr (be_join b2) (128 - cfg_grey_mask6 cfg)).
Proof.
  intros H4 H6 Hs1 Hs2.
  assert (forall n m b1 b2, is_addr n b1 -> is_addr n b2 -> 0 <= m <= 8 * Z.of_nat n ->
    prefix_of n m b1 = prefix_of n m b2 <->
    Z.shiftr (be_join b1) (8 * Z.of_nat n - m) = Z.shiftr (be_join b2) (8 * Z.of_nat n - m)) as Hpre.
  { intros n m b1 b2 [L1 B1] [L2 B2] Hm. unfold prefix_of. set (k := 8 * Z.of_nat n - m).
    split; [|by intros ->]. intros E. apply (f_equal be_join) in E. rewrite !be_join_split in E.
    pose proof (be_join_bound b1 B1) as R1. pose proof (be_join_bound b2 B2) as R2. rewrite L1 in R1. rewrite L2 in R2.
    assert (forall a, 0 <= a < 2 ^ (8 * Z.of_nat n) ->
      0 <= Z.shiftl (Z.shiftr a k) k < 2 ^ (8 * Z.of_nat n)) as Hb.
    { intros a Ha. rewrite <-(clear_low a (8 * Z.of_nat n) k) by lia. apply land_bound_l; [lia|done]. }
    rewrite !Z.mod_small in E by (by apply Hb).
    apply (f_equal (fun x => Z.shiftr x k)) in E. rewrite !Z.shiftr_shiftl_l, !Z.sub_diag, !Z.shiftl_0_r in E by lia.
    done. }
  split.
  - intros b1 b2 E1 E2. rewrite (grey_mask_spec4 le cfg s1 b1), (grey_mask_spec4 le cfg s2 b2) by done.
    pose proof (Hpre 4%nat (cfg_grey_mask cfg) b1 b2 (pton4_addr _ _ E1) (pton4_addr _ _ E2) ltac:(lia)) as HP.
    change (8 * Z.of_nat 4) with 32 in HP. rewrite <-HP. split; [|by intros ->]. intros [= E].
    apply (f_equal pton4) in E. rewrite !pton4_ntop4 in E by apply is_addr_prefix. by apply (inj Some) in E.
  - intros b1 b2 N1 N2 E1 E2.
    rewrite (grey_mask_spec6 le cfg s1 b1), (grey_mask_spec6 le cfg s2 b2)
      by (done || unfold INET_ADDRSTRLEN, INET6_ADDRSTRLEN in *; lia).
    pose proof (Hpre 16%nat (cfg_grey_mask6 cfg) b1 b2 (pton6_addr _ _ E1) (pton6_addr _ _ E2) ltac:(lia)) as HP.
    change (8 * Z.of_nat 16) with 128 in HP. rewrite <-HP. split; [|by intros ->]. intros [= E].
    apply (f_equal pton6) in E. rewrite !pton6_ntop6 in E by apply is_addr_prefix. by apply (inj Some) in E.
Qed.

Lemma grey_mask_same_prefix_witness :
  let cfg := MaskConfig 24 64 in
  grey_mask true cfg (cs "10.1.2.3") = grey_mask true cfg (cs "10.1.2.77") /\
  grey_mask true cfg (cs "10.1.2.3") <> grey_mask true cfg (cs "10.1.9.77").
Proof.
  intros cfg. split.
  - apply (proj1 (grey_mask_same_prefix true cfg (cs "10.1.2.3") (cs "10.1.2.77") ltac:(cbn; lia) ltac:(cbn; lia)
      ltac:(reflexivity) ltac:(reflexivity)) [10; 1; 2; 3] [10; 1; 2; 77]); vm_compute; reflexivity.
  - intros E.
    apply (proj1 (grey_mask_same_prefix true cfg (cs "10.1.2.3") (cs "10.1.9.77") ltac:(cbn; lia) ltac:(cbn; lia)
      ltac:(reflexivity) ltac:(reflexivity)) [10; 1; 2; 3] [10; 1; 9; 77]) in E;
      [vm_compute in E; discriminate | vm_compute; reflexivity..].
Defined.

(** [reverse_inet_addr] turns the bytes of a printed IPv4 address round
    (1.2.3.4 becomes 4.3.2.1) without tripping its assertion, on machines of
    either byte order, so that doing it twice gives the address back. *)
Theorem reverse_inet_addr_v4 `{HI : Inet} {HL : InetLaws HI} le b :
  is_addr 4 b ->
  reverse_inet_addr le (ntop4 b) = Ok (0, ntop4 (reverse b)) /\
  (r ← reverse_inet_addr le (ntop4 b); reverse_inet_addr le r.2) = Ok (0, ntop4 b).
Proof.
  intros Hb. rewrite reverse4_spec by done. split; [done|]. cbn [rbind snd].
  rewrite reverse4_spec; [by rewrite reverse_involutive|].
  destruct Hb as [Hl Hf]. split; [by rewrite length_reverse | by apply Forall_reverse].
Qed.

Lemma reverse_inet_addr_v4_witness :
  reverse_inet_addr false (cs "192.0.2.99") = Ok (0, cs "99.2.0.192").
Proof.
  apply (proj1 (reverse_inet_addr_v4 false [192; 0; 2; 99] ltac:(split; [reflexivity|];
    repeat constructor; unfold is_byte; lia))).
Defined.
