(* ===== verification/InetText.v ===== *)
(** * Addresses as text

    What [inet_pton] and [inet_ntop] of the C library read and print, for IPv6
    with a gap ("::"), letters of either case and an IPv4 address in the last
    two words: an instance of [Inet] in which the addresses of the test programs
    can be evaluated. *)

From S2P Require Import Prelude Print AddrUtils.
Import Dotted.

Module Text.

(** ** Words *)

Definition colon : ascii := ":"%char.

(** A hexadecimal digit of either case. *)
Definition hex_digit_val (c : ascii) : option Z :=
  let n := Z.of_nat (nat_of_ascii c) in
  if (48 <=? n) && (n <=? 57) then Some (n - 48)
  else if (97 <=? n) && (n <=? 102) then Some (n - 87)
  else if (65 <=? n) && (n <=? 70) then Some (n - 55)
  else None.

Fixpoint hex_digits_val (g : cstr) (acc : Z) : option Z :=
  match g with
  | [] => Some acc
  | c :: g => match hex_digit_val c with Some d => hex_digits_val g (16 * acc + d) | None => None end
  end.

(** A word has one to four digits. *)
Definition parse_word (g : cstr) : option Z :=
  if (0 <? length g)%nat && (length g <=? 4)%nat then hex_digits_val g 0 else None.

Fixpoint words_of (b : list Z) : list Z :=
  match b with x :: y :: b => 256 * x + y :: words_of b | _ => [] end.

Definition bytes_of (ws : list Z) : list Z := ws ≫= (fun w => [w / 256; w mod 256]).

(** ** Reading *)

(** The text before and after the first "::". *)
Fixpoint split_gap (s : cstr) : option (cstr * cstr) :=
  match s with
  | [] => None
  | c :: t =>
      if chr_eqb c colon && match t with d :: _ => chr_eqb d colon | [] => false end then Some ([], drop 1 t)
      else prod_map (cons c) id <$> split_gap t
  end.

Definition plain_words (s : cstr) : option (list Z) :=
  match s with [] => Some [] | _ => mapM parse_word (split_on colon s) end.

(** The last group may be an IPv4 address. *)
Definition last_words (g : cstr) : option (list Z) :=
  if bool_decide ("."%char ∈ g) then words_of <$> @pton4 dotted g else (fun w => [w]) <$> parse_word g.

Fixpoint group_words (gs : list cstr) : option (list Z) :=
  match gs with
  | [] => None
  | [g] => last_words g
  | g :: gs => match parse_word g, group_words gs with Some w, Some ws => Some (w :: ws) | _, _ => None end
  end.

Definition tail_words (s : cstr) : option (list Z) :=
  match s with [] => Some [] | _ => group_words (split_on colon s) end.

Definition text_pton6 (s : cstr) : option (list Z) :=
  match split_gap s with
  | None => match tail_words s with Some ws => if (length ws =? 8)%nat then Some (bytes_of ws) else None | None => None end
  | Some (l, r) =>
      match plain_words l, tail_words r with
      | Some lw, Some rw =>
          if (length lw + length rw <=? 7)%nat
          then Some (bytes_of (lw ++ replicate (8 - length lw - length rw) 0 ++ rw)) else None
      | _, _ => None
      end
  end.

(** ** Printing *)

Fixpoint zrun (ws : list Z) : nat := match ws with w :: ws => if w =? 0 then S (zrun ws) else 0 | [] => 0 end.

(** The longest run of zero words, the first of several, if it has two words. *)
Definition longest (ws : list Z) : nat * nat :=
  foldl (fun '(base, len) i => if (len <? zrun (drop i ws))%nat then (i, zrun (drop i ws)) else (base, len)) (0, 0)%nat (seq 0 (length ws)).

Definition best (ws : list Z) : option (nat * nat) :=
  let '(base, len) := longest ws in if (2 <=? len)%nat then Some (base, len) else None.

Definition word_texts (ws : list Z) : cstr := join_with colon (hex <$> ws).

(** The words after the gap: an IPv4 address after six zero words, or after five
    and 0xffff. *)
Definition right_text (ws : list Z) (base len : nat) : cstr :=
  let v4 := @ntop4 dotted (bytes_of (drop 6 ws)) in
  if (base =? 0)%nat && (len =? 6)%nat then v4
  else if (base =? 0)%nat && (len =? 5)%nat && (ws !!! 5%nat =? 65535) then hex 65535 ++ colon :: v4
  else word_texts (drop (base + len) ws).

Definition text_ntop6 (b : list Z) : cstr :=
  let ws := words_of b in
  match best ws with
  | Some (base, len) => word_texts (take base ws) ++ colon :: colon :: right_text ws base len
  | None => word_texts ws
  end.

#[export] Instance text : Inet := {|
  pton4 := @pton4 dotted;
  ntop4 := @ntop4 dotted;
  pton6 := text_pton6;
  ntop6 := text_ntop6 |}.

Example gap_read : text_pton6 (cs "2600:ABCD::f03c:91ff:fe50:d2") =
  Some [38; 0; 171; 205; 0; 0; 0; 0; 240; 60; 145; 255; 254; 80; 0; 210].
Proof. vm_compute. reflexivity. Qed.

Example gap_printed : text_ntop6 [38; 0; 171; 205; 0; 0; 0; 0; 128; 0; 0; 0; 0; 0; 0; 0] = cs "2600:abcd:0:0:8000::".
Proof. vm_compute. reflexivity. Qed.

Example mapped_printed : text_ntop6 [0; 0; 0; 0; 0; 0; 0; 0; 0; 0; 255; 255; 192; 0; 2; 1] = cs "::ffff:192.0.2.1".
Proof. vm_compute. reflexivity. Qed.

(** ** Words read back *)

Definition is_word (w : Z) : Prop := 0 <= w < 65536.

Lemma printed_val c : hex_printed c -> hex_digit_val c = Some (hex_char c) /\ c <> colon /\ c <> "."%char.
Proof.
  intros (E & _ & Hr).
  assert (Forall (fun d => hex_digit_val (Print.hex_digit d) = Some d /\ Print.hex_digit d <> colon /\ Print.hex_digit d <> "."%char) (seqZ 0 16)) as H
    by (repeat constructor; vm_compute; discriminate).
  rewrite Forall_forall in H. specialize (H (hex_char c) ltac:(apply elem_of_seqZ; lia)). by rewrite <-E in H.
Qed.

Lemma printed_digits_val g acc : Forall hex_printed g -> hex_digits_val g acc = Some (hex_val g acc).
Proof.
  intros H. revert acc. induction H as [|c g Hc _ IH]; intros acc; [done|]. cbn. destruct (printed_val c Hc) as (-> & _). apply IH.
Qed.

(** A printed word. *)
Definition is_group (g : cstr) : Prop := (0 < length g <= 4)%nat /\ colon ∉ g /\ "."%char ∉ g.

Lemma hex_word w : is_word w -> is_group (hex w) /\ parse_word (hex w) = Some w.
Proof.
  intros Hw. unfold is_word in Hw. unfold hex. rewrite u32_id by (unfold is_u32; lia).
  destruct (hex_digits_spec 8 4 w []) as (l & -> & Hl & Hv & Hp); [done | lia |]. rewrite app_nil_r. split.
  - split; [done|]. rewrite Forall_forall in Hp. split; intros Hin; destruct (printed_val _ (Hp _ Hin)) as (_ & ? & ?); done.
  - unfold parse_word. rewrite (proj2 (Nat.ltb_lt _ _)), (proj2 (Nat.leb_le _ _)) by lia. cbn [andb].
    rewrite printed_digits_val, Hv by done. done.
Qed.

Lemma groups_of ws : Forall is_word ws -> Forall is_group (hex <$> ws).
Proof. intros H. apply Forall_fmap. eapply Forall_impl; [exact H|]. intros w Hw. by apply hex_word. Qed.

(** Text that is made of groups. *)
Definition piece (g : cstr) : Prop := g <> [] /\ colon ∉ g.

Lemma group_piece g : is_group g -> piece g.
Proof. intros (Hl & Hc & _). split; [|done]. intros ->. cbn in Hl. lia. Qed.

Lemma pieces_of ws : Forall is_word ws -> Forall piece (hex <$> ws).
Proof. intros H. eapply Forall_impl; [by apply groups_of|]. apply group_piece. Qed.

Lemma pieces_colon gs : Forall piece gs -> Forall (fun g => colon ∉ g) gs.
Proof. intros H. eapply Forall_impl; [exact H|]. by intros g [_ ?]. Qed.

Lemma join_nil gs : Forall piece gs -> join_with colon gs = [] -> gs = [].
Proof. intros H. destruct H as [|g gs [Hg _] _]; [done|]. destruct gs as [|g2 gs]; cbn [join_with]; [done|]. by destruct g. Qed.

Lemma plain_words_text ws : Forall is_word ws -> plain_words (word_texts ws) = Some ws.
Proof.
  intros H. unfold plain_words, word_texts. destruct (join_with colon (hex <$> ws)) as [|c t] eqn:E.
  - apply join_nil in E; [|by apply pieces_of]. apply fmap_nil_inv in E. by subst.
  - rewrite <-E, split_join; [| by intros E2; rewrite E2 in E | by apply pieces_colon, pieces_of]. clear E.
    induction H as [|w ws Hw _ IH]; [done|]. cbn [fmap list_fmap mapM]. destruct (hex_word w Hw) as [_ ->]. cbn. by rewrite IH.
Qed.

(** The tail: words, then a last group that gives the words [lw]. *)
Lemma tail_words_text ws g lw :
  Forall is_word ws -> piece g -> last_words g = Some lw ->
  tail_words (join_with colon ((hex <$> ws) ++ [g])) = Some (ws ++ lw).
Proof.
  intros H Hg Hl. assert (Forall piece ((hex <$> ws) ++ [g])) as Hp by (apply Forall_app; split; [by apply pieces_of | by constructor]).
  unfold tail_words. destruct (join_with colon ((hex <$> ws) ++ [g])) as [|c t] eqn:E; [apply join_nil in E; [by destruct ws | done]|].
  rewrite <-E, split_join; [|by destruct ws|by apply pieces_colon]. clear E Hp.
  induction H as [|w ws Hw _ IH]; [done|]. cbn [fmap list_fmap app]. destruct ((hex <$> ws) ++ [g]) as [|g2 gs] eqn:E2; [by destruct ws|].
  cbn [group_words] in *. destruct (hex_word w Hw) as [_ ->]. by rewrite IH.
Qed.

Lemma last_word w : is_word w -> last_words (hex w) = Some [w].
Proof.
  intros Hw. destruct (hex_word w Hw) as ((_ & _ & Hd) & Hp). unfold last_words. rewrite bool_decide_false by done. by rewrite Hp.
Qed.

Lemma tail_words_all ws : Forall is_word ws -> tail_words (word_texts ws) = Some ws.
Proof.
  intros H. destruct ws as [|w ws _] using rev_ind; [done|]. apply Forall_app in H as [H Hw]. rewrite Forall_singleton in Hw.
  unfold word_texts. rewrite fmap_app. cbn [fmap list_fmap]. apply tail_words_text; [done | exact (group_piece _ (proj1 (hex_word w Hw))) | by apply last_word].
Qed.

(** ** The gap *)

Definition after (x : cstr) (o : option (cstr * cstr)) : option (cstr * cstr) := prod_map (app x) id <$> o.

Lemma after_app x y o : after (x ++ y) o = after x (after y o).
Proof. destruct o as [[l r]|]; [|done]. cbn. by rewrite <-app_assoc. Qed.

Lemma after_nil o : after [] o = o.
Proof. by destruct o as [[l r]|]. Qed.

Lemma split_gap_group g s : colon ∉ g -> split_gap (g ++ s) = after g (split_gap s).
Proof.
  induction g as [|c g IH]; intros Hg; [by rewrite after_nil|]. apply not_elem_of_cons in Hg as [Hc Hg].
  cbn [app split_gap]. assert (chr_eqb c colon = false) as -> by (unfold chr_eqb; apply bool_decide_false; congruence). cbn [andb].
  rewrite IH by done. by destruct (split_gap s) as [[l r]|].
Qed.

Lemma split_gap_colon g s : colon ∉ g -> g <> [] -> split_gap (colon :: g ++ s) = after (colon :: g) (split_gap s).
Proof.
  intros Hg Hn. destruct g as [|c g]; [done|]. apply not_elem_of_cons in Hg as [Hc Hg].
  change (split_gap (colon :: (c :: g) ++ s)) with
    (if chr_eqb colon colon && chr_eqb c colon then Some ([], drop 1 (c :: g ++ s)) else prod_map (cons colon) id <$> split_gap ((c :: g) ++ s)).
  assert (chr_eqb c colon = false) as -> by (unfold chr_eqb; apply bool_decide_false; congruence). rewrite andb_false_r.
  rewrite split_gap_group by (by rewrite not_elem_of_cons). by destruct (split_gap s) as [[l r]|].
Qed.

Lemma join_cons g gs : join_with colon (g :: gs) = g ++ (gs ≫= (fun g => colon :: g)).
Proof.
  revert g. induction gs as [|g2 gs IH]; intros g; [cbn; by rewrite app_nil_r|].
  change (join_with colon (g :: g2 :: gs)) with (g ++ colon :: join_with colon (g2 :: gs)). by rewrite IH.
Qed.

Lemma split_gap_join gs s : Forall piece gs -> split_gap (join_with colon gs ++ s) = after (join_with colon gs) (split_gap s).
Proof.
  intros H. destruct H as [|g gs [_ Hg] Hgs]; [by rewrite after_nil|]. rewrite join_cons, <-app_assoc, split_gap_group, after_app by done. f_equal.
  induction Hgs as [|g2 gs [Hn2 Hg2] _ IH]; [by rewrite after_nil|].
  change ((g2 :: gs) ≫= (fun g => colon :: g)) with ((colon :: g2) ++ (gs ≫= (fun g => colon :: g))).
  rewrite <-app_assoc, after_app, <-IH. exact (split_gap_colon g2 _ Hg2 Hn2).
Qed.

Lemma no_gap gs : Forall piece gs -> split_gap (join_with colon gs) = None.
Proof. intros H. rewrite <-(app_nil_r (join_with colon gs)) at 1. by rewrite split_gap_join. Qed.

Lemma at_gap gs r : Forall piece gs -> split_gap (join_with colon gs ++ colon :: colon :: r) = Some (join_with colon gs, r).
Proof.
  intros H. rewrite split_gap_join by done. change (split_gap (colon :: colon :: r)) with (Some ([] : cstr, r)).
  unfold after. cbn [fmap option_fmap option_map prod_map fst snd id]. by rewrite app_nil_r.
Qed.

(** ** Bytes and words *)

Lemma words_of_bytes b : Forall is_byte b -> Forall is_word (words_of b).
Proof.
  intros H. remember (length b) as n eqn:Hn. revert b Hn H. induction (lt_wf n) as [n _ IH]. intros [|x [|y b]] Hn H; [constructor..|].
  inversion_clear H as [|? ? Hx H']. inversion_clear H' as [|? ? Hy Hb]. cbn. constructor; [unfold is_byte, is_word in *; lia|].
  eapply IH; [|reflexivity|done]. cbn in Hn. lia.
Qed.

Lemma bytes_words b : Forall is_byte b -> Nat.Even (length b) -> bytes_of (words_of b) = b /\ (2 * length (words_of b) = length b)%nat.
Proof.
  intros H [k Hk]. revert b Hk H. induction k as [|k IH]; intros b Hk H; [by destruct b|].
  destruct b as [|x [|y b]]; [cbn in Hk; lia..|]. inversion_clear H as [|? ? Hx H']. inversion_clear H' as [|? ? Hy Hb].
  destruct (IH b ltac:(cbn in Hk; lia) Hb) as [E1 E2]. cbn [words_of length] in *. split; [|lia].
  change (bytes_of (256 * x + y :: words_of b)) with ([(256 * x + y) / 256; (256 * x + y) mod 256] ++ bytes_of (words_of b)).
  rewrite E1. unfold is_byte in *. rewrite Z.add_comm, Z.mul_comm, Z.div_add, Z.mod_add, Z.div_small, Z.mod_small by lia. done.
Qed.

Lemma bytes_words_of ws : Forall is_word ws -> words_of (bytes_of ws) = ws /\ is_addr (2 * length ws) (bytes_of ws).
Proof.
  induction 1 as [|w ws Hw _ (IH1 & IH2 & IH3)]; [done|].
  change (bytes_of (w :: ws)) with ([w / 256; w mod 256] ++ bytes_of ws). cbn [app words_of length]. rewrite IH1.
  pose proof (Z.div_mod w 256 ltac:(lia)). pose proof (Z.mod_pos_bound w 256 ltac:(lia)). unfold is_word in Hw.
  assert (0 <= w / 256 < 256) by (split; [apply Z.div_pos; lia | apply Z.div_lt_upper_bound; lia]).
  split; [f_equal; lia|]. split; [cbn; lia|]. repeat (apply Forall_cons_2; [unfold is_byte; lia|]). done.
Qed.

(** ** The run of zeros *)

Lemma zrun_zeros ws : take (zrun ws) ws = replicate (zrun ws) 0 /\ (zrun ws <= length ws)%nat.
Proof.
  induction ws as [|w ws [IH1 IH2]]; [done|]. cbn [zrun]. destruct (Z.eqb_spec w 0) as [->|]; [|by split; [|cbn; lia]].
  cbn [take replicate length]. rewrite IH1. split; [done | lia].
Qed.

Lemma longest_run ws : let '(base, len) := longest ws in len = 0%nat \/ len = zrun (drop base ws) /\ (base <= length ws)%nat.
Proof.
  unfold longest. assert (Forall (fun i => i <= length ws)%nat (seq 0 (length ws))) as Hf
    by (apply Forall_forall; intros i Hi; apply elem_of_seq in Hi; lia). revert Hf. generalize (seq 0 (length ws)). intros l Hf.
  assert (forall st : nat * nat, (st.2 = 0 \/ st.2 = zrun (drop st.1 ws) /\ st.1 <= length ws)%nat ->
    let '(base, len) := foldl (fun '(base, len) i => if (len <? zrun (drop i ws))%nat then (i, zrun (drop i ws)) else (base, len)) st l in
    (len = 0 \/ len = zrun (drop base ws) /\ base <= length ws)%nat) as H; [|apply H; by left].
  induction Hf as [|i l Hi _ IH]; intros [base len] Hst; [done|]. cbn [foldl]. apply IH. destruct (_ <? _)%nat; [by right | done].
Qed.

Lemma best_run ws base len :
  best ws = Some (base, len) -> (2 <= len)%nat /\ (base + len <= length ws)%nat /\ ws = take base ws ++ replicate len 0 ++ drop (base + len) ws.
Proof.
  unfold best. pose proof (longest_run ws) as H. destruct (longest ws) as [base' len']. destruct (Nat.leb_spec 2 len') as [H2|]; [|done]. intros [= -> ->].
  destruct H as [->|[-> Hb]]; [lia|]. destruct (zrun_zeros (drop base ws)) as [Hz Hl]. rewrite length_drop in Hl. split_and!; [done | lia |].
  rewrite <-Hz, <-drop_drop, take_drop, take_drop. done.
Qed.

(** ** The laws *)

Lemma v4_words x y : is_word x -> is_word y ->
  let t := @ntop4 dotted (bytes_of [x; y]) in piece t /\ last_words t = Some [x; y] /\ (length t < 16)%nat.
Proof.
  intros Hx Hy t. destruct (bytes_words_of [x; y]) as [E Ha]; [by apply Forall_cons_2, Forall_singleton|]. change (2 * length [x; y])%nat with 4%nat in Ha.
  assert (is_dotted : "."%char ∈ t).
  { unfold t. destruct (addr4_cases _ Ha) as (b0 & b1 & b2 & b3 & -> & _). cbn [ntop4 dotted fmap list_fmap join_with]. set_solver. }
  split_and!.
  - split; [by intros Ht; rewrite Ht in is_dotted; apply not_elem_of_nil in is_dotted | exact (@ntop4_no_colon dotted _ _ Ha)].
  - unfold last_words. rewrite bool_decide_true by done. unfold t. rewrite (@pton4_ntop4 dotted _ _ Ha). cbn [fmap option_fmap option_map]. by rewrite E.
  - pose proof (@ntop4_fits dotted _ _ Ha) as Hl. unfold INET_ADDRSTRLEN in Hl. fold t in Hl. lia.
Qed.

Lemma right_words ws base len :
  length ws = 8%nat -> Forall is_word ws -> tail_words (right_text ws base len) = Some (drop (base + len) ws).
Proof.
  intros Hl Hw. unfold right_text. assert (exists x y, drop 6 ws = [x; y] /\ is_word x /\ is_word y) as (x & y & E & Hx & Hy).
  { do 8 (destruct ws as [|? ws]; [done|]). destruct ws; [|done]. rewrite !Forall_cons in Hw. naive_solver. }
  rewrite E. destruct (v4_words x y Hx Hy) as (Hp & Hlw & _). set (t := @ntop4 dotted _) in *.
  destruct (Nat.eqb_spec base 0) as [->|]; cbn [andb]; [|by apply tail_words_all, Forall_drop].
  destruct (Nat.eqb_spec len 6) as [->|].
  { cbn [Nat.add]. rewrite E. exact (tail_words_text [] t [x; y] (Forall_nil_2 _) Hp Hlw). }
  destruct (Nat.eqb_spec len 5) as [->|]; cbn [andb]; [|by apply tail_words_all, Forall_drop].
  destruct (Z.eqb_spec (ws !!! 5%nat) 65535) as [E5|]; [|by apply tail_words_all, Forall_drop].
  assert (drop (0 + 5) ws = [65535; x; y]) as ->.
  { do 8 (destruct ws as [|? ws]; [done|]). destruct ws; [|done]. cbn in *. congruence. }
  apply (tail_words_text [65535] t [x; y]); [apply Forall_singleton; unfold is_word; lia | done | done].
Qed.

Lemma words16 b : is_addr 16 b -> length (words_of b) = 8%nat /\ Forall is_word (words_of b) /\ bytes_of (words_of b) = b.
Proof.
  intros [Hl Hb]. destruct (bytes_words b Hb) as [E H]; [by exists 8%nat|]. split_and!; [lia | by apply words_of_bytes | done].
Qed.

(** What is printed is read back. *)
Lemma text_round_trip b : is_addr 16 b -> text_pton6 (text_ntop6 b) = Some b.
Proof.
  intros Hb. destruct (words16 b Hb) as (Hl & Hw & E). unfold text_pton6, text_ntop6. set (ws := words_of b) in *.
  destruct (best ws) as [[base len]|] eqn:Eb.
  - destruct (best_run ws base len Eb) as (H2 & Hbl & Hs). unfold word_texts.
    rewrite at_gap by (by apply pieces_of, Forall_take). fold (word_texts (take base ws)).
    rewrite plain_words_text by (by apply Forall_take). rewrite right_words by done.
    rewrite length_take, length_drop, Hl. rewrite Hl in Hbl. rewrite (proj2 (Nat.leb_le _ _)) by lia.
    replace (8 - (base `min` 8) - (8 - (base + len)))%nat with len by lia. by rewrite <-Hs, E.
  - unfold word_texts at 1. rewrite no_gap by (by apply pieces_of). rewrite tail_words_all by done. by rewrite Hl, E.
Qed.

Lemma hex_digit_bound c d : hex_digit_val c = Some d -> 0 <= d < 16.
Proof.
  unfold hex_digit_val. destruct (48 <=? _) eqn:E1, (_ <=? 57) eqn:E2, (97 <=? _) eqn:E3, (_ <=? 102) eqn:E4, (65 <=? _) eqn:E5, (_ <=? 70) eqn:E6;
    cbn [andb]; intros [= <-]; lia.
Qed.

Lemma hex_digits_bound g acc v : hex_digits_val g acc = Some v -> 0 <= acc -> 0 <= v < (acc + 1) * 16 ^ Z.of_nat (length g).
Proof.
  revert acc. induction g as [|c g IH]; intros acc; cbn [hex_digits_val length]; [intros [= ->]; cbn; lia|].
  destruct (hex_digit_val c) as [d|] eqn:E; [|done]. apply hex_digit_bound in E. intros H Ha. specialize (IH _ H ltac:(lia)).
  rewrite Nat2Z.inj_succ, Z.pow_succ_r by lia. assert (0 < 16 ^ Z.of_nat (length g)) by (apply Z.pow_pos_nonneg; lia). nia.
Qed.

Lemma parse_word_bound g w : parse_word g = Some w -> is_word w.
Proof.
  unfold parse_word. destruct (0 <? length g)%nat eqn:E1, (length g <=? 4)%nat eqn:E2; cbn [andb]; try done. intros H.
  apply hex_digits_bound in H; [|done]. apply Nat.leb_le in E2. unfold is_word.
  assert (16 ^ Z.of_nat (length g) <= 16 ^ 4) by (apply Z.pow_le_mono_r; lia). change (16 ^ 4) with 65536 in *. lia.
Qed.

Lemma last_words_bound g ws : last_words g = Some ws -> Forall is_word ws.
Proof.
  unfold last_words. case_bool_decide.
  - destruct (pton4 g) as [b|] eqn:E; [|done]. intros [= <-]. apply words_of_bytes. exact (proj2 (@pton4_addr dotted _ _ _ E)).
  - destruct (parse_word g) eqn:E; [|done]. intros [= <-]. apply Forall_singleton. by eapply parse_word_bound.
Qed.

Lemma group_words_bound gs ws : group_words gs = Some ws -> Forall is_word ws.
Proof.
  revert ws. induction gs as [|g gs IH]; intros ws; [done|]. destruct gs as [|g2 gs]; [apply last_words_bound|].
  change (group_words (g :: g2 :: gs)) with (match parse_word g, group_words (g2 :: gs) with Some w, Some ws => Some (w :: ws) | _, _ => None end).
  destruct (parse_word g) eqn:E; [|done]. destruct (group_words (g2 :: gs)); [|done]. intros [= <-].
  apply Forall_cons_2; [by eapply parse_word_bound | by apply IH].
Qed.

Lemma plain_words_bound s ws : plain_words s = Some ws -> Forall is_word ws.
Proof.
  unfold plain_words. destruct s as [|c s]; [by intros [= <-]|]. generalize (split_on colon (c :: s)). intros gs E.
  apply mapM_Some in E. induction E as [|g w gs ws Hw _ IH]; [done|]. apply Forall_cons_2; [by eapply parse_word_bound | done].
Qed.

Lemma tail_words_bound s ws : tail_words s = Some ws -> Forall is_word ws.
Proof. unfold tail_words. destruct s; [by intros [= <-] | apply group_words_bound]. Qed.

Lemma text_pton6_addr s b : text_pton6 s = Some b -> is_addr 16 b.
Proof.
  assert (forall ws, Forall is_word ws -> length ws = 8%nat -> is_addr 16 (bytes_of ws)) as Hok.
  { intros ws Hw Hl. destruct (bytes_words_of ws Hw) as [_ H]. by rewrite Hl in H. }
  unfold text_pton6. destruct (split_gap s) as [[l r]|].
  - destruct (plain_words l) as [lw|] eqn:El; [|done]. destruct (tail_words r) as [rw|] eqn:Er; [|done].
    destruct (Nat.leb_spec (length lw + length rw) 7); [|done]. intros [= <-]. apply Hok; [|rewrite !length_app, length_replicate; lia].
    rewrite !Forall_app. split_and!; [by eapply plain_words_bound | | by eapply tail_words_bound]. apply Forall_replicate. unfold is_word. lia.
  - destruct (tail_words s) as [ws|] eqn:E; [|done]. destruct (Nat.eqb_spec (length ws) 8); [|done]. intros [= <-].
    apply Hok; [by eapply tail_words_bound | done].
Qed.

(** ** Lengths *)

Lemma word_texts_length ws : Forall is_word ws -> (length (word_texts ws) <= 5 * length ws)%nat.
Proof.
  intros H. unfold word_texts. destruct H as [|w ws Hw Hws]; [done|]. cbn [fmap list_fmap length]. rewrite join_cons, length_app.
  destruct (hex_word w Hw) as ((Hl & _) & _). enough (length ((hex <$> ws) ≫= (fun g => colon :: g)) <= 5 * length ws)%nat by lia. clear -Hws.
  induction Hws as [|w ws Hw _ IH]; [done|]. cbn [fmap list_fmap length]. change ((hex w :: (hex <$> ws)) ≫= (fun g => colon :: g)) with
    ((colon :: hex w) ++ ((hex <$> ws) ≫= (fun g => colon :: g))). rewrite length_app. destruct (hex_word w Hw) as ((Hl & _) & _). cbn [length]. lia.
Qed.

Lemma text_ntop6_fits b : is_addr 16 b -> Z.of_nat (length (text_ntop6 b)) < INET6_ADDRSTRLEN.
Proof.
  intros Hb. destruct (words16 b Hb) as (Hl & Hw & _). unfold text_ntop6, INET6_ADDRSTRLEN. set (ws := words_of b) in *.
  destruct (best ws) as [[base len]|] eqn:Eb; [|pose proof (word_texts_length ws Hw); lia].
  destruct (best_run ws base len Eb) as (H2 & Hbl & _). pose proof (word_texts_length (take base ws) (Forall_take _ _ _ Hw)) as H1.
  rewrite length_take in H1. rewrite length_app. cbn [length].
  assert (length (right_text ws base len) <= Nat.max (5 * (8 - (base + len))) (if (base =? 0)%nat then 20 else 0))%nat as Hr;
    [|destruct (Nat.eqb_spec base 0); lia].
  unfold right_text. assert (exists x y, drop 6 ws = [x; y] /\ is_word x /\ is_word y) as (x & y & E & Hx & Hy).
  { do 8 (destruct ws as [|? ws]; [done|]). destruct ws; [|done]. rewrite !Forall_cons in Hw. naive_solver. }
  rewrite E. destruct (v4_words x y Hx Hy) as (_ & _ & H4). set (t := @ntop4 dotted _) in *.
  pose proof (word_texts_length (drop (base + len) ws) (Forall_drop _ _ _ Hw)) as Hd. rewrite length_drop, Hl in Hd.
  destruct (base =? 0)%nat; cbn [andb]; [|lia]. destruct (len =? 6)%nat; [lia|].
  destruct ((len =? 5)%nat && (ws !!! 5%nat =? 65535)); [|lia]. rewrite length_app. cbn [length]. change (length (hex 65535)) with 4%nat. lia.
Qed.

(** The C library's text of addresses has what the code relies on. *)
#[export] Instance text_laws : InetLaws text.
Proof.
  split; cbn [pton4 ntop4 pton6 ntop6 text].
  - exact (@pton4_addr dotted _).
  - exact text_pton6_addr.
  - exact (@pton4_ntop4 dotted _).
  - exact text_round_trip.
  - exact (@ntop4_fits dotted _).
  - exact text_ntop6_fits.
  - exact (@ntop4_no_colon dotted _).
  - exact (@length_ntop4_reverse dotted _).
Qed.

End Text.
