(* ===== verification/HelperDns.v ===== *)
(** Name lookups and their cache ([helper_dns.c]).

    [Gethostbyname] and [Gethostbyaddr] look in the cache, then send a request
    to the helper thread and wait on a queue of their own for its reply.  The
    c-ares library, which answers the helper, is outside: what it answers, and
    whether in time, is an argument.  A lookup is therefore two steps,
    [ask] (up to the request) and [collect] (from the reply or the timeout on),
    with the helper's callback [default_cb] in between or after: other threads
    can come in at these points.

    The queues are the abstract ones that [MsgQueue] refines to; a message is the
    pointer to a host entry, here the entry itself or nothing.  The hash of a key
    is [hash_spec] of its bytes, which is what the code computes on a
    little-endian machine ([Lookup3]). *)
From S2P Require Import Prelude Utils MsgQueue AddrUtils Lookup3.
#[local] Open Scope st_scope.

(** ** Data *)

Inductive family := AF_INET | AF_INET6.

#[export] Instance family_eq_dec : EqDecision family.
Proof. solve_decision. Defined.

Record hostent := Hostent {
  h_name : cstr;
  h_aliases : list cstr;
  h_addrtype : family;
  h_length : Z;
  h_addr_list : list (list Z) }.

#[export] Instance hostent_eq_dec : EqDecision hostent.
Proof. solve_decision. Defined.

Record cache_data_t := CacheData { key : cstr; value : hostent; savetime : timespec }.

Inductive query_t := HOSTBYNAME (name : cstr) | HOSTBYADDR (addr : list Z).

(** A request, with what it asks about; the request in the pipe, which has a
    pointer to it, is in [HelperLoop]. *)
Record ares_request := AresRequest { ar_query : query_t; ar_family : family; ar_response_q : nat }.

Record dns := Dns {
  hashtab : list (option cache_data_t);
  d_queues : aqs (option hostent);
  d_pending : list ares_request }.      (* sent and not answered yet *)

Definition set_hashtab (s : dns) t : dns := Dns t (d_queues s) (d_pending s).
Definition set_queues (s : dns) q : dns := Dns (hashtab s) q (d_pending s).

Definition dns0 : dns := Dns (replicate (Z.to_nat HASHSIZE) None) aqs0 [].

(** ** Host entries *)

(** The addresses are copied by their length; [Malloc] refuses a size of zero. *)
Fixpoint copy_addrs (n : Z) (l : list (list Z)) : Res (list (list Z)) :=
  match l with
  | [] => Ok []
  | a :: l =>
      _ ← c_assert (negb (n =? 0));
      if n <=? Z.of_nat (length a) then rest ← copy_addrs n l; Ok (take (Z.to_nat n) a :: rest)
      else Fail OutOfBounds
  end.

Definition hostent_deepcopy (src : hostent) : Res hostent :=
  addrs ← copy_addrs (h_length src) (h_addr_list src);
  Ok (Hostent (h_name src) (h_aliases src) (h_addrtype src) (h_length src) addrs).

(** ** The cache *)

Definition CACHETIME : Z := 60.

Definition key_bytes (k : cstr) : list Z := (fun c => Z.of_nat (nat_of_ascii c)) <$> k.

Definition key_hash (k : cstr) : Z := Z.land (hash_spec (key_bytes k) 0x715517) HASHMASK.

Definition cache_str (k : cstr) (v : hostent) (now : timespec) : stt dns unit :=
  let* s := st_get in
  let* _ := st_lift (aget (hashtab s) (key_hash k)) in
  let* copy := st_lift (hostent_deepcopy v) in
  let* t := st_lift (aset (hashtab s) (key_hash k) (Some (CacheData k copy now))) in
  st_put (set_hashtab s t).

Definition lookup_str (k : cstr) (now : timespec) : stt dns (option hostent) :=
  let* s := st_get in
  let* node := st_lift (aget (hashtab s) (key_hash k)) in
  match node with
  | None => st_ret None
  | Some n =>
      if cstr_eqb (key n) k then
        if CACHETIME * 1000 <? ms_diff now (savetime n) then
          let* t := st_lift (aset (hashtab s) (key_hash k) None) in
          st_put (set_hashtab s t) ;;;
          st_ret None
        else
          let* host := st_lift (hostent_deepcopy (value n)) in
          st_ret (Some host)
      else st_ret None
  end.

(** ** Requests *)

(** The reply of the helper thread. *)
Definition default_cb (q : nat) (now : timespec) (host : option hostent) : stt dns unit :=
  let* reply := match host with
    | Some h => let* c := st_lift (hostent_deepcopy h) in st_ret (Some c)
    | None => st_ret None
    end in
  let* s := st_get in
  match a_qstep (d_queues s) (QPut q now [reply]) with
  | Some (_, qs) => st_put (set_queues s qs)
  | None => st_lift (Fail Undefined)
  end.

(** The helper answers the [i]th request. *)
Definition answer (i : nat) (now : timespec) (host : option hostent) : stt dns unit :=
  let* s := st_get in
  match d_pending s !! i with
  | Some r =>
      st_put (Dns (hashtab s) (d_queues s) (delete i (d_pending s))) ;;;
      default_cb (ar_response_q r) now host
  | None => st_ret tt
  end.

(** [get_queue], and the [write] to the pipe. *)
Definition get_response_q : stt dns nat :=
  let* s := st_get in
  match a_qstep (d_queues s) QNew with
  | Some (AnInt i, qs) => st_put (set_queues s qs) ;;; st_ret (Z.to_nat i)
  | _ => st_lift (Fail Undefined)
  end.

Definition write_request (q : query_t) (f : family) (i : nat) : stt dns unit :=
  st_mod (fun s => Dns (hashtab s) (d_queues s) (d_pending s ++ [AresRequest q f i])).

Definition send_request (q : query_t) (f : family) : stt dns nat :=
  let* i := get_response_q in
  write_request q f i ;;;
  st_ret i.

(** From the cache, or the queue to wait on. *)
Definition ask (k : cstr) (q : query_t) (f : family) (now : timespec) : stt dns (hostent + nat) :=
  let* entry := lookup_str k now in
  match entry with
  | Some e => st_ret (inl e)
  | None => let* i := send_request q f in st_ret (inr i)
  end.

(** [get_msg_timed], [release_queue], and the reply is cached under [k];
    [expired]: the timeout has run out.  [None]: it still waits. *)
Definition collect (k : cstr) (q : nat) (expired : bool) (now : timespec) : stt dns (option (option hostent)) :=
  let* s := st_get in
  let release qs := match a_qstep qs (QRelease q) with Some (_, qs) => qs | None => qs end in
  match a_qstep (d_queues s) (QGet q 1) with
  | Some (AnMsg size d, qs) =>
      st_put (set_queues s (release qs)) ;;;
      if 0 <? size then
        match d with
        | [Some h] => cache_str k h now ;;; st_ret (Some (Some h))
        | _ => st_ret (Some None)
        end
      else st_ret (Some None)
  | None =>
      if expired then st_put (set_queues s (release (d_queues s))) ;;; st_ret (Some None) else st_ret None
  | Some (AnInt _, _) => st_lift (Fail Undefined)
  end.

(** The same in three steps, between which other threads can come in: the wait
    for the reply, where [None] is that it still waits and [Some None] that there
    was none in time, the release of the queue, and what is done with the reply. *)
Definition receive (q : nat) (expired : bool) : stt dns (option (option (option hostent))) :=
  let* s := st_get in
  match a_qstep (d_queues s) (QGet q 1) with
  | Some (AnMsg size d, qs) =>
      st_put (set_queues s qs) ;;;
      st_ret (Some (if 0 <? size then Some (match d with [r] => r | _ => None end) else None))
  | None => if expired then st_ret (Some None) else st_ret None
  | Some (AnInt _, _) => st_lift (Fail Undefined)
  end.

Definition release_response_q (q : nat) : stt dns unit :=
  let* s := st_get in
  st_put (set_queues s (match a_qstep (d_queues s) (QRelease q) with Some (_, qs) => qs | None => d_queues s end)).

Definition keep_reply (k : cstr) (reply : option (option hostent)) (now : timespec) : stt dns (option hostent) :=
  match reply with
  | Some (Some h) => cache_str k h now ;;; st_ret (Some h)
  | _ => st_ret None
  end.

Lemma collect_split k q expired now s :
  collect k q expired now s =
    (let* r := receive q expired in
     match r with None => st_ret None | Some reply => release_response_q q ;;; let* h := keep_reply k reply now in st_ret (Some h) end) s.
Proof.
  unfold collect, receive, release_response_q, keep_reply, st_bind, st_get, st_put, st_ret.
  destruct (a_qstep (d_queues s) (QGet q 1)) as [[[z|size d] qs]|]; [done| |by destruct expired].
  destruct (0 <? size); [|done]. destruct d as [|[h|] [|x l]]; cbn -[cache_str a_qstep]; try done.
  by destruct (cache_str k h now _) as [[[] s']|].
Qed.

(** ** Lookups of one thread alone

    [reply] is what c-ares answers before the timeout, [None]: nothing. *)
Section Lookup.
Context `{Inet}.

Definition wait_reply (q : nat) (reply : option (option hostent)) (now : timespec) : stt dns unit :=
  let* s := st_get in
  match reply with
  | Some h => answer (length (d_pending s) - 1) now h
  | None => st_ret tt
  end.

(** The cache, or else a request and its reply; the two functions differ in the
    key and in the request. *)
Definition fetch (k : cstr) (q : query_t) (f : family) (reply : option (option hostent)) (now now' : timespec)
    : stt dns (option hostent) :=
  let* r := ask k q f now in
  match r with
  | inl e => st_ret (Some e)
  | inr i =>
      wait_reply i reply now' ;;;
      let* h := collect k i (bool_decide (reply = None)) now' in
      st_ret (mjoin h)
  end.

Definition Gethostbyname (name : cstr) (f : family) (reply : option (option hostent)) (now now' : timespec)
    : stt dns (option hostent) := fetch name (HOSTBYNAME name) f reply now now'.

Definition ntop (f : family) (addr : list Z) : cstr := match f with AF_INET => ntop4 addr | AF_INET6 => ntop6 addr end.

Definition Gethostbyaddr (addr : list Z) (f : family) (reply : option (option hostent)) (now now' : timespec)
    : stt dns (option hostent) := fetch (ntop f addr) (HOSTBYADDR addr) f reply now now'.

(** The timeout is not passed on: with 0, [get_msg_timed] waits for the reply
    however long it takes. *)
Definition Gethostbyaddr_str (addr : cstr) (reply : option hostent) (now now' : timespec) : stt dns (option hostent) :=
  let f := if bool_decide (":"%char ∈ addr) then AF_INET6 else AF_INET in
  match (match f with AF_INET6 => pton6 addr | AF_INET => pton4 addr end) with
  | None => st_ret None
  | Some inaddr => Gethostbyaddr inaddr f (Some reply) now now'
  end.

End Lookup.

(** ** Host entries are copied whole *)

Definition host_ok (h : hostent) : Prop :=
  0 < h_length h /\ Forall (fun a => Z.of_nat (length a) = h_length h) (h_addr_list h).

Lemma deepcopy_ok h : host_ok h -> hostent_deepcopy h = Ok h.
Proof.
  destruct h as [n al f len l]. intros [Hl Ha]. unfold hostent_deepcopy. cbn in *.
  enough (copy_addrs len l = Ok l) as -> by done.
  induction Ha as [|a l Hla _ IH]; [done|]. cbn [copy_addrs].
  destruct (Z.eqb_spec len 0); [lia|]. cbn [negb c_assert rbind].
  destruct (Z.leb_spec len (Z.of_nat (length a))); [|lia]. rewrite IH. cbn [rbind]. rewrite take_ge by lia. done.
Qed.

Lemma key_hash_bound k : 0 <= key_hash k < HASHSIZE.
Proof.
  unfold key_hash, HASHMASK, HASHSIZE. change (2 ^ 10 - 1) with (Z.ones 10). rewrite Z.land_ones by lia.
  apply Z.mod_pos_bound. lia.
Qed.

(** ** The cache *)

Inductive cop := Store (k : cstr) (v : hostent) (t : timespec) | Find (k : cstr) (t : timespec).

Definition do_cop (o : cop) : stt dns (option hostent) :=
  match o with
  | Store k v t => cache_str k v t ;;; st_ret None
  | Find k t => lookup_str k t
  end.

Fixpoint run_cops (ops : list cop) : stt dns (list (option hostent)) :=
  match ops with
  | [] => st_ret []
  | o :: ops => let* r := do_cop o in let* rs := run_cops ops in st_ret (r :: rs)
  end.

Definition cop_ok (o : cop) : Prop := match o with Store _ v _ => host_ok v | Find _ _ => True end.

(** What was stored last under a key; the newest operation is the last. *)
Definition store_of (k : cstr) (o : cop) (before : option (hostent * timespec)) : option (hostent * timespec) :=
  match o with Store k' v t => if cstr_eqb k' k then Some (v, t) else before | Find _ _ => before end.

Definition last_store (k : cstr) (ops : list cop) : option (hostent * timespec) :=
  foldl (fun b o => store_of k o b) None ops.

Lemma last_store_snoc k ops o : last_store k (ops ++ [o]) = store_of k o (last_store k ops).
Proof. unfold last_store. by rewrite foldl_app. Qed.

Record cache_inv (ops : list cop) (s : dns) : Prop := {
  ci_len : Z.of_nat (length (hashtab s)) = HASHSIZE;
  ci_node i n : hashtab s !! i = Some (Some n) ->
    i = Z.to_nat (key_hash (key n)) /\ last_store (key n) ops = Some (value n, savetime n) /\ host_ok (value n) }.

Lemma cache_inv0 : cache_inv [] dns0.
Proof.
  split; [done|]. intros i n Hi. apply lookup_replicate in Hi as [? _]. done.
Qed.

Lemma aget_slot ops s k : cache_inv ops s -> exists x, hashtab s !! Z.to_nat (key_hash k) = Some x /\
  aget (hashtab s) (key_hash k) = Ok x.
Proof. intros I. apply aget_lt. rewrite (ci_len _ _ I). apply key_hash_bound. Qed.

(** A slot is written. *)
Lemma cache_inv_set ops o s k x :
  cache_inv ops s ->
  (forall k' r, k' <> k -> store_of k' o r = r) ->
  match x with
  | Some n => key n = k /\ store_of k o (last_store k ops) = Some (value n, savetime n) /\ host_ok (value n)
  | None => store_of k o (last_store k ops) = last_store k ops
  end ->
  exists t, aset (hashtab s) (key_hash k) x = Ok t /\ cache_inv (ops ++ [o]) (set_hashtab s t).
Proof.
  intros I Ho Hx. rewrite aset_lt by (rewrite (ci_len _ _ I); apply key_hash_bound).
  eexists. split; [done|]. split; cbn [hashtab set_hashtab]; [by rewrite length_insert, (ci_len _ _ I)|].
  intros i n Hi. destruct (decide (i = Z.to_nat (key_hash k))) as [->|Hne].
  - rewrite list_lookup_insert_eq in Hi by (pose proof (ci_len _ _ I); pose proof (key_hash_bound k); lia).
    injection Hi as ->. destruct Hx as (<- & Hs & Hok). by rewrite last_store_snoc.
  - rewrite list_lookup_insert_ne in Hi by done. destruct (ci_node _ _ I _ _ Hi) as (-> & Hs & Hok).
    split; [done|]. rewrite last_store_snoc, Ho; [done|]. intros E. apply Hne. by rewrite E.
Qed.

Lemma store_of_other k o k' r : (match o with Store j _ _ => j | Find j _ => j end) = k -> k' <> k -> store_of k' o r = r.
Proof.
  destruct o as [j v t|j t]; cbn; [|done]. intros -> Hne.
  destruct (cstr_eqb k k') eqn:E; [|done]. apply cstr_eqb_eq in E. congruence.
Qed.

Lemma cstr_eqb_refl k : cstr_eqb k k = true.
Proof. by apply cstr_eqb_eq. Qed.

(** A lookup: what it finds, and what it leaves. *)
Lemma lookup_str_spec ops s k now :
  cache_inv ops s ->
  exists r s', lookup_str k now s = Ok (r, s') /\ cache_inv (ops ++ [Find k now]) s' /\
    match r with
    | Some h => exists t, last_store k ops = Some (h, t) /\ ms_diff now t <= CACHETIME * 1000
    | None => forall n, hashtab s !! Z.to_nat (key_hash k) = Some (Some n) -> key n = k ->
        CACHETIME * 1000 < ms_diff now (savetime n)
    end.
Proof.
  intros I. destruct (aget_slot _ _ k I) as (x & Hx & Hg).
  assert (cache_inv (ops ++ [Find k now]) s) as I'.
  { split; [apply I|]. intros i n Hi. rewrite last_store_snoc. by apply (ci_node _ _ I). }
  unfold lookup_str. rewrite (st_bind_ok st_get _ _ s s) by done. cbv beta.
  unfold st_bind at 1, st_lift. rewrite Hg. destruct x as [n|].
  2: { exists None, s. split_and!; try done. rewrite Hx. by intros n [=]. }
  destruct (ci_node _ _ I _ _ Hx) as (_ & Hs & Hok).
  destruct (cstr_eqb (key n) k) eqn:Ek.
  - apply cstr_eqb_eq in Ek. destruct (Z.ltb_spec (CACHETIME * 1000) (ms_diff now (savetime n))).
    + destruct (cache_inv_set ops (Find k now) s k None I) as (t & Et & It); [by intros | done|].
      exists None, (set_hashtab s t). unfold st_bind, st_lift. rewrite Et. split_and!; try done.
      intros m Hm _. congruence.
    + unfold st_bind, st_lift. rewrite deepcopy_ok by done. exists (Some (value n)), s. split_and!; try done.
      exists (savetime n). subst k. done.
  - exists None, s. split_and!; try done. intros m Hm Em. rewrite Hx in Hm. injection Hm as ->.
    subst k. by rewrite cstr_eqb_refl in Ek.
Qed.

Lemma cache_str_spec ops s k v now :
  cache_inv ops s -> host_ok v ->
  exists s', cache_str k v now s = Ok (tt, s') /\ cache_inv (ops ++ [Store k v now]) s' /\
    hashtab s' !! Z.to_nat (key_hash k) = Some (Some (CacheData k v now)).
Proof.
  intros I Hv. destruct (aget_slot _ _ k I) as (x & Hx & Hg).
  destruct (cache_inv_set ops (Store k v now) s k (Some (CacheData k v now)) I) as (t & Et & It).
  { intros k' r. apply store_of_other. done. }
  { cbn. by rewrite cstr_eqb_refl. }
  exists (set_hashtab s t). unfold cache_str, st_bind, st_get, st_lift. rewrite Hg, deepcopy_ok, Et by done.
  split_and!; try done. apply aset_inv in Et as [Hb ->]. cbn. apply list_lookup_insert_eq. lia.
Qed.

Lemma run_cops_spec ops : forall done s,
  cache_inv done s -> Forall cop_ok ops ->
  exists rs s', run_cops ops s = Ok (rs, s') /\ cache_inv (done ++ ops) s'.
Proof.
  induction ops as [|o ops IH]; intros done s I Hok; [exists [], s; by rewrite app_nil_r|].
  apply Forall_cons_1 in Hok as [Ho Hok].
  assert (exists r s1, do_cop o s = Ok (r, s1) /\ cache_inv (done ++ [o]) s1) as (r & s1 & E & I1).
  { destruct o as [k v t|k t]; cbn [do_cop].
    - destruct (cache_str_spec done s k v t I Ho) as (s1 & E & I1 & _). exists None, s1.
      by rewrite (st_bind_ok _ _ _ _ _ E).
    - destruct (lookup_str_spec done s k t I) as (r & s1 & E & I1 & _). eauto. }
  destruct (IH _ _ I1 Hok) as (rs & s' & E' & I'). exists (r :: rs), s'. cbn [run_cops].
  rewrite (st_bind_ok _ _ _ _ _ E), (st_bind_ok _ _ _ _ _ E'). split; [done|].
  by rewrite <-(assoc_L (++)) in I'.
Qed.

Lemma run_cops_snoc ops o s rs s1 :
  run_cops ops s = Ok (rs, s1) ->
  run_cops (ops ++ [o]) s = match do_cop o s1 with Ok (r, s2) => Ok (rs ++ [r], s2) | Fail f => Fail f end.
Proof.
  revert s rs. induction ops as [|p ops IH]; intros s rs E; cbn [app run_cops] in *.
  - injection E as <- <-. unfold st_bind, st_ret. by destruct (do_cop o s) as [[r s2]|].
  - apply st_bind_inv in E as (r1 & d1 & Ea & E). apply st_bind_inv in E as (r2 & d2 & Eb & E). injection E as <- <-.
    rewrite (st_bind_ok _ _ _ _ _ Ea). unfold st_bind, st_ret. rewrite (IH _ _ Eb).
    by destruct (do_cop o d2) as [[r s2]|].
Qed.

(** A second reading of the clock is at most [CACHETIME] seconds (and what is cut
    off of a millisecond) after the first, if the two are within 24 days of each
    other: the difference is an [int]. *)
Definition within_cachetime (now t : timespec) : Prop :=
  ts_norm now -> ts_norm t -> Z.abs (ts_ns now - ts_ns t) < (2 ^ 31 - 1) * SI_MEGA ->
  ts_ns now - ts_ns t < (CACHETIME * 1000 + 1) * SI_MEGA.

Lemma ms_diff_within now t : ms_diff now t <= CACHETIME * 1000 -> within_cachetime now t.
Proof. intros H Hn Ht Hd. pose proof (ms_diff_close now t Hn Ht Hd). unfold SI_MEGA, CACHETIME in *. lia. Qed.

(** C30: the cache answers with what was stored last under the very key asked
    for, never with the entry of another key in the same place, and only while
    [ms_diff] finds it no older than CACHETIME seconds, which is the time that
    has passed for entries of less than 24 days (the difference wraps around
    later, see [month_old_entry_found]); an entry just stored is found.  After
    every sequence of stores and lookups, in any order and at any times, a lookup
    returns. *)
Theorem cache_sound (ops : list cop) (k : cstr) (now : timespec) :
  Forall cop_ok ops ->
  exists rs s r s', run_cops ops dns0 = Ok (rs, s) /\ lookup_str k now s = Ok (r, s') /\
    (forall h, r = Some h -> exists t, last_store k ops = Some (h, t) /\ ms_diff now t <= CACHETIME * 1000 /\ within_cachetime now t) /\
    (forall h t ops', ops = ops' ++ [Store k h t] -> ms_diff now t <= CACHETIME * 1000 -> r = Some h).
Proof.
  intros Hok. destruct (run_cops_spec ops [] dns0 cache_inv0 Hok) as (rs & s & E & I).
  destruct (lookup_str_spec _ _ k now I) as (r & s' & El & _ & Hr). exists rs, s, r, s'.
  split_and!; [done | done | |].
  - intros h ->. destruct Hr as (t & Hs & Ht). exists t. split_and!; [done | done | by apply ms_diff_within].
  - intros h t ops' -> Ht. apply Forall_app in Hok as [Hok' Hh]. apply Forall_cons_1 in Hh as [Hh _].
    destruct (run_cops_spec ops' [] dns0 cache_inv0 Hok') as (rs1 & s1 & E1 & I1).
    destruct (cache_str_spec _ _ k h t I1 Hh) as (s2 & E2 & _ & Hn).
    assert (s = s2) as ->.
    { rewrite (run_cops_snoc _ _ _ _ _ E1) in E. cbn [do_cop] in E. unfold st_bind in E. rewrite E2 in E. by injection E. }
    destruct r as [h'|].
    + destruct Hr as (t' & Hs & _). cbn [app] in Hs. rewrite last_store_snoc in Hs. cbn in Hs.
      rewrite cstr_eqb_refl in Hs. congruence.
    + specialize (Hr _ Hn eq_refl). cbn in Hr. lia.
Qed.

Definition host4 (name : cstr) (a : list Z) : hostent := Hostent name [] AF_INET 4 [a].

Definition demo_cops : list cop :=
  [Store (cs "a.example") (host4 (cs "a.example") [192; 0; 2; 1]) (Timespec 10 0); Find (cs "b.example") (Timespec 20 0);
   Store (cs "b.example") (host4 (cs "b.example") [192; 0; 2; 2]) (Timespec 30 0)].

Lemma cache_sound_witness :
  (exists rs s r s', run_cops demo_cops dns0 = Ok (rs, s) /\ lookup_str (cs "a.example") (Timespec 60 0) s = Ok (r, s') /\
    (forall h, r = Some h -> exists t, last_store (cs "a.example") demo_cops = Some (h, t) /\
      ms_diff (Timespec 60 0) t <= CACHETIME * 1000 /\ within_cachetime (Timespec 60 0) t) /\
    (forall h t ops', demo_cops = ops' ++ [Store (cs "a.example") h t] ->
      ms_diff (Timespec 60 0) t <= CACHETIME * 1000 -> r = Some h)) /\
  match (run_cops demo_cops ;;; lookup_str (cs "a.example") (Timespec 60 0)) dns0 with
  | Ok (r, _) => r = Some (host4 (cs "a.example") [192; 0; 2; 1]) | Fail _ => False end.
Proof.
  split.
  - apply (cache_sound demo_cops (cs "a.example") (Timespec 60 0)).
    repeat constructor.
  - vm_compute. reflexivity.
Defined.

(** The difference of the times is an [int]: after some 25 days an old entry is
    taken for a new one. *)
Example month_old_entry_found :
  match (cache_str (cs "a.example") (host4 (cs "a.example") [192; 0; 2; 1]) (Timespec 0 0) ;;;
         lookup_str (cs "a.example") (Timespec (30 * 86400) 0)) dns0 with
  | Ok (r, _) => r = Some (host4 (cs "a.example") [192; 0; 2; 1]) | Fail _ => False end.
Proof. vm_compute. reflexivity. Qed.

(** ** Late replies *)

Definition absent (k : cstr) (s : dns) : Prop :=
  forall n, hashtab s !! Z.to_nat (key_hash k) = Some (Some n) -> key n <> k.

Lemma lookup_absent ops s k now : cache_inv ops s -> absent k s -> lookup_str k now s = Ok (None, s).
Proof.
  intros I Ha. destruct (aget_slot _ _ k I) as (x & Hx & Hg).
  unfold lookup_str, st_bind, st_get, st_lift. rewrite Hg. destruct x as [n|]; [|done].
  destruct (cstr_eqb (key n) k) eqn:Ek; [|done]. apply cstr_eqb_eq in Ek. by apply Ha in Hx.
Qed.

Lemma cache_inv_frame ops s q p : cache_inv ops s -> cache_inv ops (Dns (hashtab s) q p).
Proof. intros I. split; apply I. Qed.

(** A request when no queue is free. *)
Lemma ask_absent ops s k q f now :
  cache_inv ops s -> absent k s -> free (d_queues s) = [] ->
  let i := count (d_queues s) in
  ask k q f now s = Ok (inr i, Dns (hashtab s) (Aqs (<[i := []]> (live (d_queues s))) [] (S i))
    (d_pending s ++ [AresRequest q f i])).
Proof.
  intros I Ha Hf i. unfold ask. rewrite (st_bind_ok _ _ _ _ _ (lookup_absent _ _ _ now I Ha)).
  unfold send_request, get_response_q, write_request, st_bind, st_get, st_put, st_mod, st_ret. cbn [a_qstep]. rewrite Hf. by rewrite Nat2Z.id.
Qed.

(** A request when the first free queue is [i]. *)
Lemma ask_reuse ops s k q f now i l :
  cache_inv ops s -> absent k s -> free (d_queues s) = i :: l ->
  ask k q f now s = Ok (inr i, Dns (hashtab s) (Aqs (<[i := []]> (live (d_queues s))) l (count (d_queues s)))
    (d_pending s ++ [AresRequest q f i])).
Proof.
  intros I Ha Hf. unfold ask. rewrite (st_bind_ok _ _ _ _ _ (lookup_absent _ _ _ now I Ha)).
  unfold send_request, get_response_q, write_request, st_bind, st_get, st_put, st_mod, st_ret. cbn [a_qstep]. rewrite Hf. by rewrite Nat2Z.id.
Qed.

(** The timeout of a request gives its queue back. *)
Lemma collect_expired s k q now :
  live (d_queues s) !! q = Some [] ->
  collect k q true now s = Ok (Some None, Dns (hashtab s)
    (Aqs (delete q (live (d_queues s))) (free (d_queues s) ++ [q]) (count (d_queues s))) (d_pending s)).
Proof. intros Hq. unfold collect, st_bind, st_get, st_put, st_ret. cbn [a_qstep]. by rewrite Hq. Qed.

Lemma collect_reply ops s k q h now :
  cache_inv ops s -> host_ok h -> live (d_queues s) !! q = Some [[Some h]] ->
  exists s', collect k q false now s = Ok (Some (Some h), s') /\ cache_inv (ops ++ [Store k h now]) s' /\
    hashtab s' !! Z.to_nat (key_hash k) = Some (Some (CacheData k h now)).
Proof.
  intros I Hh Hq. unfold collect. rewrite (st_bind_ok st_get _ _ s s) by done. cbn [a_qstep]. rewrite Hq.
  cbn. set (s1 := set_queues s _).
  destruct (cache_str_spec ops s1 k h now) as (s' & E & I' & Hn); [by apply cache_inv_frame | done|].
  exists s'. split; [|done]. unfold st_bind, st_put. fold s1.
  change (0 <? (if 1 <? Z.of_nat 1 then 1 else Z.of_nat 1)) with true.
  change (Z.to_nat (if 1 <? Z.of_nat 1 then 1 else Z.of_nat 1)) with 1%nat. cbn [take]. by rewrite E.
Qed.

(** A lookup of a key that is not cached gives the reply, and caches it. *)
Lemma ask_new ops s k q f now :
  cache_inv ops s -> absent k s ->
  exists i qs, live qs !! i = Some [] /\
    ask k q f now s = Ok (inr i, Dns (hashtab s) qs (d_pending s ++ [AresRequest q f i])).
Proof.
  intros I Ha. destruct (free (d_queues s)) as [|i l] eqn:Hf.
  - eexists _, _. split; [|by apply (ask_absent ops)]. cbn. apply lookup_insert_eq.
  - eexists _, _. split; [|by apply (ask_reuse ops _ _ _ _ _ i l)]. cbn. apply lookup_insert_eq.
Qed.

Lemma answer_last s i q f now host :
  live (d_queues s) !! i = Some [] -> (forall h, host = Some h -> host_ok h) ->
  forall p, d_pending s = p ++ [AresRequest q f i] ->
  exists qs, live qs !! i = Some [[host]] /\ answer (length p) now host s = Ok (tt, Dns (hashtab s) qs p).
Proof.
  intros Hl Hh p Hp. unfold answer, default_cb, st_bind, st_get, st_put, st_ret, st_lift.
  rewrite Hp, lookup_app_r, Nat.sub_diag by done. cbn [lookup list_lookup].
  rewrite delete_middle, app_nil_r. destruct host as [h|]; [rewrite deepcopy_ok by auto|];
    cbn [a_qstep d_queues ar_response_q]; rewrite Hl; eexists; (split; [|reflexivity]); cbn; apply lookup_insert_eq.
Qed.

Lemma fetch_absent ops s k q f reply now now' :
  cache_inv ops s -> absent k s -> (forall h, reply = Some (Some h) -> host_ok h) ->
  exists s', fetch k q f reply now now' s = Ok (mjoin reply, s') /\
    match mjoin reply with
    | Some h => cache_inv (ops ++ [Store k h now']) s' /\
        hashtab s' !! Z.to_nat (key_hash k) = Some (Some (CacheData k h now'))
    | None => cache_inv ops s'
    end.
Proof.
  intros I Ha Hr. destruct (ask_new ops s k q f now I Ha) as (i & qs & Hl & E).
  unfold fetch. rewrite (st_bind_ok _ _ _ _ _ E). set (s1 := Dns _ _ _) in *.
  destruct reply as [host|].
  - destruct (answer_last s1 i q f now' host Hl) with (p := d_pending s) as (qs2 & Hl2 & Ea); [intros h ->; by apply Hr | done|].
    rewrite (st_bind_ok _ _ _ tt (Dns (hashtab s) qs2 (d_pending s))).
    2: { unfold wait_reply. rewrite (st_bind_ok st_get _ _ s1 s1) by done. cbn [d_pending s1].
         rewrite length_app, Nat.add_sub. exact Ea. }
    rewrite bool_decide_false by done. pose proof (cache_inv_frame ops s qs2 (d_pending s) I) as I2.
    destruct host as [h|].
    + destruct (collect_reply ops (Dns (hashtab s) qs2 (d_pending s)) k i h now' I2) as (s' & Ec & I' & Hn); [auto|done|].
      exists s'. by rewrite (st_bind_ok _ _ _ _ _ Ec).
    + eexists. split; [unfold collect, st_bind, st_get, st_put, st_ret; cbn [a_qstep d_queues]; rewrite Hl2; reflexivity|].
      by apply cache_inv_frame.
  - rewrite (st_bind_ok _ _ _ tt s1) by done. rewrite bool_decide_true by done.
    rewrite (st_bind_ok _ _ _ _ _ (collect_expired s1 k i now' Hl)). eexists. split; [reflexivity|].
    exact (cache_inv_frame ops s _ _ I).
Qed.

(** C39: a late reply is taken for the answer to another query.  When the
    lookup of [x] times out, its queue is released while its request is still
    with the helper; the lookup of [y] that follows gets the same queue, and the
    reply for [x], which comes now, is what it returns and caches: later
    lookups of [y] are answered with the entry of [x]. *)
Theorem late_reply_poisons_cache (ops : list cop) (s : dns) (x y : cstr) (f g : family) (h : hostent)
    (t1 t2 t3 t4 t5 t6 : timespec) :
  cache_inv ops s -> free (d_queues s) = [] -> absent x s -> absent y s -> host_ok h ->
  ms_diff t6 t5 <= CACHETIME * 1000 ->
  let i := count (d_queues s) in
  exists s' s'',
    (ask x (HOSTBYNAME x) f t1 ;;;
     collect x i true t2 ;;;
     ask y (HOSTBYNAME y) g t3 ;;;
     answer (length (d_pending s)) t4 (Some h) ;;;
     collect y i false t5) s = Ok (Some (Some h), s') /\
    lookup_str y t6 s' = Ok (Some h, s'').
Proof.
  intros I Hf Hx Hy Hh Ht i. rewrite (st_bind_ok _ _ _ _ _ (ask_absent _ _ x (HOSTBYNAME x) f t1 I Hx Hf)).
  fold i. set (s1 := Dns _ _ _).
  rewrite (st_bind_ok _ _ _ _ _ (collect_expired s1 x i t2 (lookup_insert_eq _ _ _))).
  set (s2 := Dns _ _ _). pose proof (cache_inv_frame ops s (d_queues s2) (d_pending s2) I : cache_inv ops s2) as I2.
  rewrite (st_bind_ok _ _ _ _ _ (ask_reuse ops s2 y (HOSTBYNAME y) g t3 i [] I2 Hy eq_refl)).
  set (s3 := Dns _ _ _).
  set (s4 := Dns (hashtab s) (Aqs (<[i := [[Some h]]]> (live (d_queues s3))) [] (S i)) (d_pending s ++ [AresRequest (HOSTBYNAME y) g i])).
  assert (answer (length (d_pending s)) t4 (Some h) s3 = Ok (tt, s4)) as Ea.
  { unfold answer, default_cb, st_bind, st_get, st_put, st_ret, st_lift. cbn [d_pending s3 s2 s1].
    rewrite <-(assoc_L (++)). rewrite lookup_app_r, Nat.sub_diag by done. cbn [lookup list_lookup app].
    rewrite deepcopy_ok by done. cbn [d_queues]. unfold a_qstep. cbn [ar_response_q live s3 d_queues].
    rewrite lookup_insert_eq. unfold s4, set_queues. cbn [hashtab d_pending d_queues free count].
    rewrite delete_middle. done. }
  rewrite (st_bind_ok _ _ _ _ _ Ea).
  destruct (collect_reply ops s4 y i h t5) as (s' & Ec & I' & Hn).
  { by apply cache_inv_frame. } { done. } { cbn. apply lookup_insert_eq. }
  destruct (lookup_str_spec _ _ y t6 I') as (r & s'' & El & _ & Hr).
  exists s', s''. split; [exact Ec|]. rewrite El. destruct r as [h'|].
  - destruct Hr as (t & Hs & _). rewrite last_store_snoc in Hs. cbn in Hs. rewrite cstr_eqb_refl in Hs. by injection Hs as <- <-.
  - specialize (Hr _ Hn eq_refl). cbn in Hr. lia.
Qed.

Lemma late_reply_poisons_cache_witness :
  exists s' s'',
    (ask (cs "slow.example") (HOSTBYNAME (cs "slow.example")) AF_INET (Timespec 1 0) ;;;
     collect (cs "slow.example") 0 true (Timespec 6 0) ;;;
     ask (cs "b.example") (HOSTBYNAME (cs "b.example")) AF_INET (Timespec 7 0) ;;;
     answer 0 (Timespec 8 0) (Some (host4 (cs "slow.example") [192; 0; 2; 9])) ;;;
     collect (cs "b.example") 0 false (Timespec 8 0)) dns0
      = Ok (Some (Some (host4 (cs "slow.example") [192; 0; 2; 9])), s') /\
    lookup_str (cs "b.example") (Timespec 9 0) s' = Ok (Some (host4 (cs "slow.example") [192; 0; 2; 9]), s'').
Proof.
  apply (late_reply_poisons_cache [] dns0 (cs "slow.example") (cs "b.example") AF_INET AF_INET
    (host4 (cs "slow.example") [192; 0; 2; 9]) (Timespec 1 0) (Timespec 6 0) (Timespec 7 0) (Timespec 8 0)
    (Timespec 8 0) (Timespec 9 0)); [exact cache_inv0 | reflexivity | | | | vm_compute; discriminate].
  - intros n Hn. apply lookup_replicate in Hn as [? _]. discriminate.
  - intros n Hn. apply lookup_replicate in Hn as [? _]. discriminate.
  - split; [reflexivity | repeat constructor].
Defined.
