(* ===== verification/HelperLoop.v ===== *)
(** * The thread of the DNS helper ([helper_dns] and [helper_dns_init] of [src/src/helper_dns.c])

    Requests come to the thread through a pipe, which wakes it from [select]; it
    hands them to c-ares one in each turn of its loop and lets the library work.
    A request has a pointer to what is asked about, which is the caller's: it is
    read when the request is handed over, and the caller may free it when its
    lookup returns (here it does so at once).  The lookups of the other threads
    are mixed with what it does, a step for each lock and system call: looking in
    the cache, getting a queue, writing the request, waiting for the reply,
    releasing the queue, and storing the reply.  c-ares is outside: which of the
    requests it has been given it answers, and how, is an input.  The
    thread is started by [helper_dns_init], which waits for it on a condition
    variable. *)
From S2P Require Import Prelude Utils MsgQueue AddrUtils Lookup3 HelperDns.

(** ** The loop *)

Inductive request_type := REQ_HOSTBYNAME | REQ_HOSTBYADDR.

(** [rq_query]: a pointer to a buffer of the caller. *)
Record dns_request_t := DnsRequest {
  rq_type : request_type;
  rq_query : nat;
  rq_family : family;
  rq_response_q : nat }.

(** Where a lookup that is not answered by the cache is; [r] is what it has
    received. *)
Inductive stage :=
| ToSend
| ToWrite (i : nat)
| Waiting (i : nat)
| Got (i : nat) (r : option (option hostent))
| Leaving (r : option (option hostent)).

Record lookup := Lookup {
  lk_key : cstr;
  lk_type : request_type;
  lk_buf : nat;
  lk_family : family;
  lk_stage : stage }.

(** The cache and the queues of replies, the requests in the pipe, and those
    c-ares has; the buffers of the callers, with what they hold and whether they
    are still allocated; the lookups under way. *)
Record loop := Loop {
  lp_hashtab : list (option cache_data_t);
  lp_queues : aqs (option hostent);
  lp_pipe : list dns_request_t;
  lp_ares : list ares_request;
  lp_bufs : list (query_t * bool);
  lp_lookups : list lookup }.

Definition loop0 : loop := Loop (hashtab dns0) (d_queues dns0) [] [] [] [].

Definition set_pipe (l : loop) p : loop := Loop (lp_hashtab l) (lp_queues l) p (lp_ares l) (lp_bufs l) (lp_lookups l).
Definition set_ares (l : loop) a : loop := Loop (lp_hashtab l) (lp_queues l) (lp_pipe l) a (lp_bufs l) (lp_lookups l).
Definition set_bufs (l : loop) b : loop := Loop (lp_hashtab l) (lp_queues l) (lp_pipe l) (lp_ares l) b (lp_lookups l).
Definition set_lookups (l : loop) k : loop := Loop (lp_hashtab l) (lp_queues l) (lp_pipe l) (lp_ares l) (lp_bufs l) k.

(** What the functions of [HelperDns] that leave the requests alone do. *)
Definition cache_and_queues (l : loop) : dns := Dns (lp_hashtab l) (lp_queues l) [].
Definition set_dns (l : loop) (s : dns) : loop :=
  Loop (hashtab s) (d_queues s) (lp_pipe l) (lp_ares l) (lp_bufs l) (lp_lookups l).

(** What the steps come to: what a lookup finds in the cache, the queue it gets,
    the request it sends, with that queue, what it receives, its release of the queue, and what it
    returns; the requests c-ares answers. *)
Inductive outcome :=
| Looked (k : cstr) (now : timespec) (h : option hostent)
| Queue (i : nat)
| Sent (q : query_t) (f : family) (i : nat)
| Received (i : nat) (r : option (option (option hostent)))
| Released (i : nat)
| Kept (k : cstr) (now : timespec) (h : option hostent)
| Answered (r : ares_request) (now : timespec) (h : option hostent).

Definition addrlen (f : family) : Z := match f with AF_INET => 4 | AF_INET6 => 16 end.

(** [ares_gethostbyname] and [ares_gethostbyaddr] read the caller's buffer; of an
    address as many bytes as its family has. *)
Definition submit (r : dns_request_t) (l : loop) : Res loop :=
  match lp_bufs l !! rq_query r with
  | None | Some (_, false) => Fail OutOfBounds
  | Some (q, true) =>
      let give q := Ok (set_ares l (lp_ares l ++ [AresRequest q (rq_family r) (rq_response_q r)])) in
      match rq_type r, q with
      | REQ_HOSTBYNAME, HOSTBYNAME n => give (HOSTBYNAME n)
      | REQ_HOSTBYADDR, HOSTBYADDR a =>
          if addrlen (rq_family r) <=? Z.of_nat (length a)
          then give (HOSTBYADDR (take (Z.to_nat (addrlen (rq_family r))) a))
          else Fail OutOfBounds
      | _, _ => Fail Undefined
      end
  end.

(** c-ares answers its [i]th request. *)
Definition ares_answer (i : nat) (now : timespec) (host : option hostent) (l : loop) : Res (list outcome * loop) :=
  match lp_ares l !! i with
  | None => Ok ([], l)
  | Some r =>
      '(_, s) ← default_cb (ar_response_q r) now host (cache_and_queues l);
      Ok ([Answered r now host], set_ares (set_dns l s) (delete i (lp_ares l)))
  end.

Definition reply : Type := nat * timespec * option hostent.

Fixpoint ares_process (rs : list reply) (l : loop) : Res (list outcome * loop) :=
  match rs with
  | [] => Ok ([], l)
  | (i, now, host) :: rs => '(o, l) ← ares_answer i now host l; '(os, l) ← ares_process rs l; Ok (o ++ os, l)
  end.

(** One request is read from the pipe when there is something in it. *)
Definition helper_read (l : loop) : Res loop :=
  match lp_pipe l with
  | [] => Ok l
  | r :: p => submit r (set_pipe l p)
  end.

(** One turn: [select] fails, or it reports the pipe. *)
Definition helper_turn (select_ok : bool) (rs : list reply) (l : loop) : Res (list outcome * loop) :=
  if negb select_ok then Fail (Exit 2)
  else
    l ← helper_read l;
    ares_process rs l.

(** ** The lookups of the other threads *)

Definition type_of (q : query_t) : request_type :=
  match q with HOSTBYNAME _ => REQ_HOSTBYNAME | HOSTBYADDR _ => REQ_HOSTBYADDR end.

(** What the caller's buffer holds, also after it was freed. *)
Definition contents (bufs : list (query_t * bool)) (p : nat) : query_t := default (HOSTBYNAME []) (fst <$> bufs !! p).

Definition set_stage (lk : lookup) (s : stage) : lookup := Lookup (lk_key lk) (lk_type lk) (lk_buf lk) (lk_family lk) s.
Definition at_stage (l : loop) (j : nat) (lk : lookup) (s : stage) : loop := set_lookups l (<[j := set_stage lk s]> (lp_lookups l)).

(** A lookup begins with the cache; what it asks about is in a buffer. *)
Definition loop_look (k : cstr) (q : query_t) (f : family) (now : timespec) (l : loop) : Res (list outcome * loop) :=
  '(e, s) ← lookup_str k now (cache_and_queues l);
  let l := set_dns l s in
  Ok ([Looked k now e],
    match e with
    | Some _ => l
    | None =>
        set_lookups (set_bufs l (lp_bufs l ++ [(q, true)])) (lp_lookups l ++ [Lookup k (type_of q) (length (lp_bufs l)) f ToSend])
    end).

Definition loop_queue (j : nat) (lk : lookup) (l : loop) : Res (list outcome * loop) :=
  '(i, s) ← get_response_q (cache_and_queues l);
  Ok ([Queue i], at_stage (set_dns l s) j lk (ToWrite i)).

Definition loop_write (j i : nat) (lk : lookup) (l : loop) : Res (list outcome * loop) :=
  let l := set_pipe l (lp_pipe l ++ [DnsRequest (lk_type lk) (lk_buf lk) (lk_family lk) i]) in
  Ok ([Sent (contents (lp_bufs l) (lk_buf lk)) (lk_family lk) i], at_stage l j lk (Waiting i)).

Definition loop_receive (j i : nat) (lk : lookup) (expired : bool) (l : loop) : Res (list outcome * loop) :=
  '(r, s) ← receive i expired (cache_and_queues l);
  let l := set_dns l s in
  Ok ([Received i r], match r with None => l | Some r => at_stage l j lk (Got i r) end).

Definition loop_release (j i : nat) (lk : lookup) (r : option (option hostent)) (l : loop) : Res (list outcome * loop) :=
  '(_, s) ← release_response_q i (cache_and_queues l);
  Ok ([Released i], at_stage (set_dns l s) j lk (Leaving r)).

Definition free_buf (p : nat) (bufs : list (query_t * bool)) : list (query_t * bool) :=
  alter (fun b => (b.1, false)) p bufs.

(** The reply is stored and the lookup returns. *)
Definition loop_keep (j : nat) (lk : lookup) (r : option (option hostent)) (now : timespec) (l : loop) : Res (list outcome * loop) :=
  '(h, s) ← keep_reply (lk_key lk) r now (cache_and_queues l);
  let l := set_dns l s in
  Ok ([Kept (lk_key lk) now h], set_lookups (set_bufs l (free_buf (lk_buf lk) (lp_bufs l))) (delete j (lp_lookups l))).

(** The [j]th lookup goes on; the clock is read for the cache, the time of a wait
    may be up. *)
Definition loop_proceed (j : nat) (expired : bool) (now : timespec) (l : loop) : Res (list outcome * loop) :=
  match lp_lookups l !! j with
  | None => Ok ([], l)
  | Some lk =>
      match lk_stage lk with
      | ToSend => loop_queue j lk l
      | ToWrite i => loop_write j i lk l
      | Waiting i => loop_receive j i lk expired l
      | Got i r => loop_release j i lk r l
      | Leaving r => loop_keep j lk r now l
      end
  end.

Inductive loop_event :=
| LLook (k : cstr) (q : query_t) (f : family) (now : timespec)
| LProceed (j : nat) (expired : bool) (now : timespec)
| HelperRead
| HelperAnswer (r : reply).

Definition loop_step (ev : loop_event) (l : loop) : Res (list outcome * loop) :=
  match ev with
  | LLook k q f now => loop_look k q f now l
  | LProceed j expired now => loop_proceed j expired now l
  | HelperRead => l ← helper_read l; Ok ([], l)
  | HelperAnswer (i, now, host) => ares_answer i now host l
  end.

Fixpoint loop_run (evs : list loop_event) (l : loop) : Res (list outcome * loop) :=
  match evs with
  | [] => Ok ([], l)
  | ev :: evs => '(o, l) ← loop_step ev l; '(os, l) ← loop_run evs l; Ok (o ++ os, l)
  end.

(** A turn of the thread, with nothing in between. *)
Lemma turn_steps rs l : loop_run (HelperRead :: (HelperAnswer <$> rs)) l = helper_turn true rs l.
Proof.
  cbn [loop_run loop_step]. unfold helper_turn. cbn [negb]. destruct (helper_read l) as [l1|]; [|done]. cbn [rbind].
  enough (loop_run (HelperAnswer <$> rs) l1 = ares_process rs l1) as -> by (by destruct (ares_process rs l1) as [[]|]).
  revert l1. induction rs as [|[[i now] host] rs IH]; intros l1; [done|]. cbn [fmap list_fmap loop_run loop_step ares_process].
  destruct (ares_answer i now host l1) as [[o l2]|]; [|done]. cbn [rbind]. specialize (IH l2). cbn [fmap] in IH. by rewrite IH.
Qed.

(** ** What the lookups rely on *)

(** The same on the state of [HelperDns], where a request holds what is asked
    about and can be answered from the moment it is sent. *)
Inductive dns_event :=
| Look (k : cstr) (now : timespec)
| GetQueue
| Send (q : query_t) (f : family) (i : nat)
| Receive (i : nat) (expired : bool)
| Release (i : nat)
| Keep (k : cstr) (r : option (option hostent)) (now : timespec)
| Answer (r : reply).

Definition dns_step (ev : dns_event) (s : dns) : Res (list outcome * dns) :=
  match ev with
  | Look k now => '(h, s) ← lookup_str k now s; Ok ([Looked k now h], s)
  | GetQueue => '(i, s) ← get_response_q s; Ok ([Queue i], s)
  | Send q f i => '(_, s) ← write_request q f i s; Ok ([Sent q f i], s)
  | Receive i expired => '(r, s) ← receive i expired s; Ok ([Received i r], s)
  | Release i => '(_, s) ← release_response_q i s; Ok ([Released i], s)
  | Keep k r now => '(h, s) ← keep_reply k r now s; Ok ([Kept k now h], s)
  | Answer (i, now, host) =>
      '(_, s') ← answer i now host s;
      Ok (match d_pending s !! i with Some r => [Answered r now host] | None => [] end, s')
  end.

Fixpoint dns_run (evs : list dns_event) (s : dns) : Res (list outcome * dns) :=
  match evs with
  | [] => Ok ([], s)
  | ev :: evs => '(o, s) ← dns_step ev s; '(os, s) ← dns_run evs s; Ok (o ++ os, s)
  end.

Lemma dns_run_app evs evs' s os s1 os' s2 :
  dns_run evs s = Ok (os, s1) -> dns_run evs' s1 = Ok (os', s2) -> dns_run (evs ++ evs') s = Ok (os ++ os', s2).
Proof.
  revert s os. induction evs as [|ev evs IH]; intros s os E E'; cbn [app dns_run] in *; [by injection E as <- <-|].
  destruct (dns_step ev s) as [[o s0]|]; [|done]. cbn [rbind] in *. destruct (dns_run evs s0) as [[os0 s3]|] eqn:E0; [|done].
  cbn [rbind] in E. injection E as <- <-. rewrite (IH s0 os0) by done. cbn [rbind]. by rewrite app_assoc.
Qed.

Lemma dns_run_one ev s o s' : dns_step ev s = Ok (o, s') -> dns_run [ev] s = Ok (o, s').
Proof. intros E. cbn [dns_run]. rewrite E. cbn [rbind]. by rewrite app_nil_r. Qed.

Definition asked (bufs : list (query_t * bool)) (r : dns_request_t) : ares_request :=
  AresRequest (contents bufs (rq_query r)) (rq_family r) (rq_response_q r).

Definition all_requests (l : loop) : list ares_request := lp_ares l ++ (asked (lp_bufs l) <$> lp_pipe l).

(** The state that the lookups of [HelperDns] see. *)
Definition as_dns (l : loop) : dns := Dns (lp_hashtab l) (lp_queues l) (all_requests l).

(** An address has as many bytes as its family. *)
Definition query_ok (q : query_t) (f : family) : Prop :=
  match q with HOSTBYNAME _ => True | HOSTBYADDR a => Z.of_nat (length a) = addrlen f end.

Definition reply_ok (r : reply) : Prop := forall h, r.2 = Some h -> host_ok h.

Definition event_ok (ev : loop_event) : Prop :=
  match ev with
  | LLook _ q f _ => query_ok q f
  | HelperAnswer r => reply_ok r
  | _ => True
  end.

(** *** What leaves the requests alone *)

Lemma default_cb_frame q now host t qs p p' u s :
  default_cb q now host (Dns t qs p) = Ok (u, s) ->
  hashtab s = t /\ d_pending s = p /\ default_cb q now host (Dns t qs p') = Ok (u, Dns t (d_queues s) p').
Proof.
  unfold default_cb, st_bind, st_lift, st_ret, st_get, st_put, set_queues. cbn.
  destruct host as [h|]; [destruct (hostent_deepcopy h) as [c|f]; [|done]|]; cbn;
    destruct (live qs !! q); intros [= <- <-]; done.
Qed.

Lemma lookup_frame k now t qs p p' r s :
  lookup_str k now (Dns t qs p) = Ok (r, s) ->
  d_queues s = qs /\ lookup_str k now (Dns t qs p') = Ok (r, Dns (hashtab s) qs p').
Proof.
  unfold lookup_str, st_bind, st_lift, st_ret, st_get, st_put, set_hashtab. cbn.
  destruct (aget t (key_hash k)) as [[n|]|]; [|by intros [= <- <-]|done].
  destruct (cstr_eqb (key n) k); [|by intros [= <- <-]]. destruct (_ <? _).
  - destruct (aset t (key_hash k) None); [by intros [= <- <-] | done].
  - destruct (hostent_deepcopy (value n)); [by intros [= <- <-] | done].
Qed.

Lemma store_frame k v now t qs p p' u s :
  cache_str k v now (Dns t qs p) = Ok (u, s) -> d_queues s = qs /\ cache_str k v now (Dns t qs p') = Ok (u, Dns (hashtab s) qs p').
Proof.
  unfold cache_str, st_bind, st_lift, st_get, st_put, set_hashtab. cbn. destruct (aget t (key_hash k)); [|done].
  destruct (hostent_deepcopy v) as [c|]; [|done]. destruct (aset t (key_hash k) _); [by intros [= <- <-] | done].
Qed.

Lemma receive_frame i expired t qs p p' r s :
  receive i expired (Dns t qs p) = Ok (r, s) -> hashtab s = t /\ receive i expired (Dns t qs p') = Ok (r, Dns t (d_queues s) p').
Proof.
  unfold receive, st_bind, st_lift, st_ret, st_get, st_put, set_queues. cbn -[a_qstep].
  destruct (a_qstep qs (QGet i 1)) as [[[z|size d] qs']|]; [done|by intros [= <- <-]|]. destruct expired; by intros [= <- <-].
Qed.

Lemma keep_frame k r now t qs p p' h s :
  keep_reply k r now (Dns t qs p) = Ok (h, s) -> d_queues s = qs /\ keep_reply k r now (Dns t qs p') = Ok (h, Dns (hashtab s) qs p').
Proof.
  unfold keep_reply, st_bind, st_ret. destruct r as [[v|]|]; [|by intros [= <- <-]..].
  destruct (cache_str k v now (Dns t qs p)) as [[u s1]|] eqn:E; [|done]. intros [= <- <-].
  destruct (store_frame _ _ _ _ _ _ p' _ _ E) as [Eq ->]. by rewrite Eq.
Qed.

(** *** The buffers of the callers *)

(** A pointer leads to a buffer with a query of the kind, that is allocated when
    [alive] asks for it. *)
Definition leads (alive : bool -> Prop) (bufs : list (query_t * bool)) (t : request_type) (p : nat) (f : family) : Prop :=
  exists q b, bufs !! p = Some (q, b) /\ alive b /\ t = type_of q /\ query_ok q f.

Definition sending (s : stage) : bool := match s with ToSend | ToWrite _ => true | _ => false end.

Record wf (alive : bool -> Prop) (l : loop) : Prop := {
  wf_pipe : Forall (fun r => leads alive (lp_bufs l) (rq_type r) (rq_query r) (rq_family r)) (lp_pipe l);
  wf_lookups : Forall (fun lk => sending (lk_stage lk) = true -> leads alive (lp_bufs l) (lk_type lk) (lk_buf lk) (lk_family lk)) (lp_lookups l) }.

Lemma leads_snoc alive bufs b t p f : leads alive bufs t p f ->
  leads alive (bufs ++ [b]) t p f /\ contents (bufs ++ [b]) p = contents bufs p.
Proof.
  intros (q & x & E & H). unfold contents, leads. rewrite (lookup_app_l_Some _ _ _ _ E), E. split; [by exists q, x | done].
Qed.

Lemma leads_freed alive bufs p0 t p f : leads alive bufs t p f -> (p = p0 -> alive false) ->
  leads alive (free_buf p0 bufs) t p f /\ contents (free_buf p0 bufs) p = contents bufs p.
Proof.
  intros (q & x & E & H1 & H2) Ha. unfold contents, leads, free_buf. destruct (decide (p = p0)) as [->|Hne].
  - rewrite list_lookup_alter_eq, E. cbn. split; [|done]. exists q, false. split_and!; [done | by apply Ha | apply H2..].
  - rewrite list_lookup_alter_ne, E by done. split; [by exists q, x | done].
Qed.

(** The requests, when each pointer still leads to what it led to. *)
Lemma pipe_kept bufs bufs' (pipe : list dns_request_t) :
  Forall (fun r => contents bufs' (rq_query r) = contents bufs (rq_query r)) pipe -> asked bufs' <$> pipe = asked bufs <$> pipe.
Proof. induction 1 as [|r pipe Hr _ IH]; [done|]. cbn. f_equal; [unfold asked; by rewrite Hr | exact IH]. Qed.

Lemma wf_stage alive l j lk st : wf alive l -> lp_lookups l !! j = Some lk -> (sending st = true -> sending (lk_stage lk) = true) ->
  wf alive (at_stage l j lk st).
Proof.
  intros [H1 H2] Ej Hs. split; [done|]. cbn. apply Forall_insert; [done|]. intros E. rewrite Forall_lookup in H2. by apply (H2 j lk Ej), Hs.
Qed.

Lemma wf_set_dns alive l s : wf alive l -> wf alive (set_dns l s).
Proof. by intros [H1 H2]. Qed.

Lemma submit_gives alive r l l' : leads alive (lp_bufs l) (rq_type r) (rq_query r) (rq_family r) -> submit r l = Ok l' ->
  l' = set_ares l (lp_ares l ++ [asked (lp_bufs l) r]).
Proof.
  intros (q & b & Eb & _ & Et & Hq) E. unfold submit in E. rewrite Eb in E. destruct b; [|done]. unfold asked, contents. rewrite Eb. cbn.
  rewrite Et in E. destruct q as [n|a]; cbn [type_of] in E; [by injection E as <-|]. cbn in Hq. rewrite <-Hq, Z.leb_refl, Nat2Z.id, firstn_all in E.
  by injection E as <-.
Qed.

(** *** Each step is one of [HelperDns] *)

Lemma delete_left {A} i (l1 l2 : list A) : (i < length l1)%nat -> delete i (l1 ++ l2) = delete i l1 ++ l2.
Proof.
  revert i. induction l1 as [|x l1 IH]; intros i Hi; cbn in Hi; [lia|]. destruct i as [|i]; [done|].
  cbn. f_equal. apply IH. lia.
Qed.

(** What a run of c-ares leaves as it was. *)
Definition callers_kept (l l' : loop) : Prop := lp_pipe l' = lp_pipe l /\ lp_bufs l' = lp_bufs l /\ lp_lookups l' = lp_lookups l.

Lemma wf_kept alive l l' : callers_kept l l' -> wf alive l -> wf alive l'.
Proof. intros (Hp & Hb & Hl) [H1 H2]. split; by rewrite ?Hp, ?Hb, ?Hl. Qed.

Lemma ares_answer_refines i now host l o l' :
  ares_answer i now host l = Ok (o, l') -> callers_kept l l' /\ exists evs, dns_run evs (as_dns l) = Ok (o, as_dns l').
Proof.
  intros E. unfold ares_answer in E. destruct (lp_ares l !! i) as [r|] eqn:Er; [|injection E as <- <-; by split; [|exists []]].
  destruct (default_cb _ _ _ _) as [[u s]|] eqn:Ed; [|done]. cbn [rbind] in E. injection E as <- <-. split; [done|].
  exists [Answer (i, now, host)]. apply dns_run_one. cbn [dns_step]. pose proof (lookup_lt_Some _ _ _ Er) as Hi.
  unfold answer, st_bind, st_get, st_put, as_dns, all_requests. cbn [d_pending hashtab d_queues]. rewrite lookup_app_l, Er by done.
  destruct (default_cb_frame _ _ _ _ _ _ (delete i (lp_ares l ++ (asked (lp_bufs l) <$> lp_pipe l))) _ _ Ed) as (H1 & _ & ->).
  cbn [rbind]. rewrite delete_left by done. cbn. by rewrite H1.
Qed.

Lemma loop_look_refines alive k q f now l o l' : alive true -> wf alive l -> query_ok q f -> loop_look k q f now l = Ok (o, l') ->
  wf alive l' /\ dns_step (Look k now) (as_dns l) = Ok (o, as_dns l').
Proof.
  intros Ha [Hp Hl] Hq E. unfold loop_look in E. destruct (lookup_str k now (cache_and_queues l)) as [[e s]|] eqn:El; [|done]. cbn [rbind] in E.
  injection E as <- <-. destruct (lookup_frame _ _ _ _ _ (all_requests l) _ _ El) as [Eq El']. cbn [dns_step]. unfold as_dns at 1. rewrite El'. cbn [rbind].
  destruct e as [h|]; [split; [done | by unfold as_dns; cbn; rewrite Eq]|]. split.
  - split; cbn; [|apply Forall_app; split].
    + eapply Forall_impl; [exact Hp|]. intros r Hr. exact (proj1 (leads_snoc _ _ (q, true) _ _ _ Hr)).
    + eapply Forall_impl; [exact Hl|]. intros lk Hk Es. exact (proj1 (leads_snoc _ _ (q, true) _ _ _ (Hk Es))).
    + apply Forall_singleton. intros _. exists q, true. cbn. by rewrite lookup_app_r, Nat.sub_diag by done.
  - unfold as_dns, all_requests. cbn. rewrite Eq, (pipe_kept (lp_bufs l) (lp_bufs l ++ [(q, true)])); [done|].
    eapply Forall_impl; [exact Hp|]. intros r Hr. exact (proj2 (leads_snoc _ _ (q, true) _ _ _ Hr)).
Qed.

Lemma loop_queue_refines alive j lk l o l' : wf alive l -> lp_lookups l !! j = Some lk -> lk_stage lk = ToSend -> loop_queue j lk l = Ok (o, l') ->
  wf alive l' /\ dns_step GetQueue (as_dns l) = Ok (o, as_dns l').
Proof.
  intros W Ej Es E. unfold loop_queue in E. cbn [dns_step]. unfold get_response_q, st_bind, st_get, st_put, st_ret, st_lift, set_queues in *.
  cbn [as_dns cache_and_queues d_queues hashtab d_pending] in *. destruct (a_qstep (lp_queues l) QNew) as [[[z|] qs]|]; [|done..].
  injection E as <- <-. split; [|done]. apply wf_stage; [by apply wf_set_dns | done | by rewrite Es].
Qed.

Lemma loop_write_refines alive j i lk l o l' : wf alive l -> lp_lookups l !! j = Some lk -> lk_stage lk = ToWrite i -> loop_write j i lk l = Ok (o, l') ->
  wf alive l' /\ dns_step (Send (contents (lp_bufs l) (lk_buf lk)) (lk_family lk) i) (as_dns l) = Ok (o, as_dns l').
Proof.
  intros [Hp Hl] Ej Es E. unfold loop_write in E. injection E as <- <-. split.
  - apply wf_stage; [|done..]. split; [|done]. cbn. apply Forall_app. split; [done|]. apply Forall_singleton. cbn.
    rewrite Forall_lookup in Hl. apply (Hl j lk Ej). by rewrite Es.
  - unfold as_dns, all_requests. cbn. by rewrite fmap_app, app_assoc.
Qed.

(** A lookup goes on; when it returns, what it asked about is freed. *)
Definition frees (j : nat) (l : loop) (p : nat) : Prop := exists lk r, lp_lookups l !! j = Some lk /\ lk_stage lk = Leaving r /\ lk_buf lk = p.

Lemma loop_proceed_refines alive j expired now l o l' :
  wf alive l -> loop_proceed j expired now l = Ok (o, l') ->
  (forall p, frees j l p -> Forall (fun r => rq_query r = p -> alive false) (lp_pipe l) /\
     Forall (fun lk => lk_buf lk = p -> alive false) (delete j (lp_lookups l))) ->
  wf alive l' /\ exists evs, dns_run evs (as_dns l) = Ok (o, as_dns l').
Proof.
  intros W E Hf. unfold loop_proceed in E. destruct (lp_lookups l !! j) as [lk|] eqn:Ej; [|injection E as <- <-; by split; [|exists []]].
  destruct (lk_stage lk) as [|i|i|i r|r] eqn:Es.
  - destruct (loop_queue_refines alive j lk l o l' W Ej Es E) as [W' H]. split; [done|]. eexists. by apply dns_run_one.
  - destruct (loop_write_refines alive j i lk l o l' W Ej Es E) as [W' H]. split; [done|]. eexists. by apply dns_run_one.
  - unfold loop_receive in E. destruct (receive i expired (cache_and_queues l)) as [[r s]|] eqn:Er; [|done]. cbn [rbind] in E. injection E as <- <-.
    destruct (receive_frame _ _ _ _ _ (all_requests l) _ _ Er) as [E1 E2]. split; [destruct r; [apply wf_stage; [|done..]|]; by apply wf_set_dns|].
    exists [Receive i expired]. apply dns_run_one. cbn [dns_step]. unfold as_dns at 1. rewrite E2. cbn [rbind]. destruct r; unfold as_dns; cbn; by rewrite E1.
  - unfold loop_release in E. cbn [release_response_q st_bind st_get st_put rbind] in E. injection E as <- <-.
    split; [apply wf_stage; [by apply wf_set_dns | done..]|]. by exists [Release i].
  - unfold loop_keep in E. destruct (keep_reply (lk_key lk) r now (cache_and_queues l)) as [[h s]|] eqn:Er; [|done]. cbn [rbind] in E. injection E as <- <-.
    destruct (keep_frame _ _ _ _ _ _ (all_requests l) _ _ Er) as [E1 E2]. destruct (Hf (lk_buf lk)) as [Fp Fl]; [by exists lk, r|].
    destruct W as [Hp Hl]. split.
    + split; cbn.
      * rewrite Forall_forall in Hp, Fp |- *. intros r' Hr'. exact (proj1 (leads_freed _ _ _ _ _ _ (Hp r' Hr') (Fp r' Hr'))).
      * rewrite Forall_forall in Fl. rewrite Forall_forall. intros lk' Hk Es'. refine (proj1 (leads_freed _ _ _ _ _ _ _ (Fl lk' Hk))).
        rewrite Forall_forall in Hl. apply Hl; [|done]. by eapply elem_of_submseteq, submseteq_delete.
    + exists [Keep (lk_key lk) r now]. apply dns_run_one. cbn [dns_step]. unfold as_dns at 1. rewrite E2. cbn [rbind].
      unfold as_dns, all_requests. cbn. rewrite E1, (pipe_kept (lp_bufs l) (free_buf (lk_buf lk) (lp_bufs l))); [done|].
      rewrite Forall_forall in Hp, Fp |- *. intros r' Hr'. exact (proj2 (leads_freed _ _ _ _ _ _ (Hp r' Hr') (Fp r' Hr'))).
Qed.

Lemma helper_read_refines alive l l' : wf alive l -> helper_read l = Ok l' -> wf alive l' /\ as_dns l' = as_dns l.
Proof.
  intros [Hp Hl] E. unfold helper_read in E. destruct (lp_pipe l) as [|r p] eqn:Ep.
  - injection E as <-. split; [|done]. split; [by rewrite Ep | done].
  - apply Forall_cons_1 in Hp as [Hr Hp]. eapply submit_gives in E as ->; [|exact Hr]. split; [done|].
    unfold as_dns, all_requests. cbn. by rewrite Ep, <-app_assoc.
Qed.

(** A lookup returns only when its request is no longer in the pipe. *)
Definition prompt (ev : loop_event) (l : loop) : Prop :=
  match ev with
  | LProceed j _ _ => forall p, frees j l p -> p ∉ rq_query <$> lp_pipe l
  | _ => True
  end.

(** Each lookup has a buffer of its own. *)
Definition distinct (l : loop) : Prop :=
  NoDup (lk_buf <$> lp_lookups l) /\ Forall (fun lk => lk_buf lk < length (lp_bufs l))%nat (lp_lookups l).

Lemma frees_alone j l p : distinct l -> frees j l p -> Forall (fun lk => lk_buf lk <> p) (delete j (lp_lookups l)).
Proof.
  intros [Hn _] (lk & r & Ej & _ & <-). rewrite Forall_forall. intros lk' Hk E.
  rewrite (delete_Permutation _ _ _ Ej) in Hn. cbn in Hn. apply NoDup_cons in Hn as [Hn _]. apply Hn. rewrite <-E. apply list_elem_of_fmap. eauto.
Qed.

Lemma loop_step_refines alive ev l o l' : alive true -> event_ok ev -> wf alive l -> alive false \/ distinct l /\ prompt ev l ->
  loop_step ev l = Ok (o, l') -> wf alive l' /\ exists evs, dns_run evs (as_dns l) = Ok (o, as_dns l').
Proof.
  intros Ha Hev W Hf E. destruct ev as [k q f now|j expired now| |[[i now] host]]; cbn [loop_step] in E.
  - destruct (loop_look_refines alive k q f now l o l' Ha W Hev E) as [W' H]. split; [done|]. eexists. by apply dns_run_one.
  - eapply loop_proceed_refines; [done..|]. intros p Hp. destruct Hf as [Hf|[Hd Hpr]].
    + split; by apply Forall_true.
    + specialize (Hpr p Hp). split; rewrite Forall_forall; [intros r Hr <-; destruct Hpr; apply list_elem_of_fmap; eauto|].
      pose proof (proj1 (Forall_forall _ _) (frees_alone j l p Hd Hp)) as Hn. intros lk Hk Eb. by destruct (Hn lk Hk).
  - destruct (helper_read l) as [l1|] eqn:Er; [|done]. injection E as <- <-. destruct (helper_read_refines alive l l1 W Er) as [W' ->]. split; [done|]. by exists [].
  - destruct (ares_answer_refines i now host l o l' E) as (K & H). split; [by eapply wf_kept | done].
Qed.

Lemma loop_run_refines evs l os l' :
  Forall event_ok evs -> wf (fun _ => True) l -> loop_run evs l = Ok (os, l') -> exists devs, dns_run devs (as_dns l) = Ok (os, as_dns l').
Proof.
  intros He. revert l os. induction He as [|ev evs Hev He IH]; intros l os W E; cbn [loop_run] in E; [injection E as <- <-; by exists []|].
  destruct (loop_step ev l) as [[o l1]|] eqn:E1; [|done]. cbn [rbind] in E. destruct (loop_run evs l1) as [[os1 l2]|] eqn:E2; [|done].
  cbn [rbind] in E. injection E as <- <-. destruct (loop_step_refines _ ev l o l1 Logic.I Hev W (or_introl Logic.I) E1) as (W1 & d1 & H1).
  destruct (IH l1 os1 W1 E2) as (d2 & H2). exists (d1 ++ d2). by eapply dns_run_app.
Qed.

(** *** The thread runs on *)

Fixpoint all_prompt (evs : list loop_event) (l : loop) : Prop :=
  match evs with
  | [] => True
  | ev :: evs => prompt ev l /\ forall o l', loop_step ev l = Ok (o, l') -> all_prompt evs l'
  end.

Definition reply_host_ok (r : option hostent) : Prop := forall h, r = Some h -> host_ok h.

Definition msgs_ok (qs : aqs (option hostent)) : Prop :=
  forall i ms, live qs !! i = Some ms -> Forall (fun m => exists r, m = [r] /\ reply_host_ok r) ms.

Definition stage_ok (s : stage) : Prop :=
  match s with Got _ r | Leaving r => forall x, r = Some x -> reply_host_ok x | _ => True end.

(** What is in the cache, in the queues and with the lookups can be copied. *)
Record copies_ok (l : loop) : Prop := {
  co_cache : exists ops, cache_inv ops (cache_and_queues l);
  co_msgs : msgs_ok (lp_queues l);
  co_lookups : Forall (fun lk => stage_ok (lk_stage lk)) (lp_lookups l) }.

Lemma msgs_put qs q now r qs' a : msgs_ok qs -> reply_host_ok r -> a_qstep qs (QPut q now [r]) = Some (a, qs') -> msgs_ok qs'.
Proof.
  intros H Hr E i ms Hi. cbn in E. destruct (live qs !! q) as [l|] eqn:El; injection E as <- <-; [|by eapply H].
  cbn in Hi. destruct (decide (i = q)) as [->|Hne]; [|rewrite lookup_insert_ne in Hi by done; by eapply H].
  rewrite lookup_insert_eq in Hi. injection Hi as <-. apply Forall_app. split; [by eapply H|]. apply Forall_singleton. by exists r.
Qed.

Lemma msgs_new qs qs' a : msgs_ok qs -> a_qstep qs QNew = Some (a, qs') -> msgs_ok qs'.
Proof.
  intros H E i ms Hi. cbn in E. destruct (free qs) as [|n f]; injection E as <- <-; cbn in Hi;
    apply lookup_insert_Some in Hi as [[_ <-]|[_ Hi]]; try constructor; by eapply H.
Qed.

Lemma msgs_release qs q qs' a : msgs_ok qs -> a_qstep qs (QRelease q) = Some (a, qs') -> msgs_ok qs'.
Proof.
  intros H E i ms Hi. cbn in E. destruct (live qs !! q) as [[|m l]|]; injection E as <- <-; [|by eapply H..].
  cbn in Hi. apply lookup_delete_Some in Hi as [_ Hi]. by eapply H.
Qed.

(** A reply comes from the queue, or there is none. *)
Lemma receive_total i expired t qs : msgs_ok qs ->
  exists r qs', receive i expired (Dns t qs []) = Ok (r, Dns t qs' []) /\ msgs_ok qs' /\
    forall x, r = Some (Some x) -> reply_host_ok x.
Proof.
  intros H. unfold receive, st_bind, st_lift, st_ret, st_get, st_put, set_queues. cbn [a_qstep d_queues hashtab d_pending].
  destruct (live qs !! i) as [[|m l]|] eqn:El.
  - destruct expired; eexists _, _; (split; [reflexivity|]); by split.
  - pose proof (H _ _ El) as Hm. apply Forall_cons_1 in Hm as [(r & -> & Hr) Hl]. eexists _, _. split; [reflexivity|]. split.
    + intros j ms Hj. cbn in Hj. apply lookup_insert_Some in Hj as [[_ <-]|[_ Hj]]; [done | by eapply H].
    + cbn. by intros x [= <-].
  - eexists _, _. split; [reflexivity|]. by split.
Qed.

Lemma keep_total ops k r now t qs : cache_inv ops (Dns t qs []) -> (forall x, r = Some x -> reply_host_ok x) ->
  exists h s ops', keep_reply k r now (Dns t qs []) = Ok (h, s) /\ cache_inv ops' s.
Proof.
  intros I Hr. unfold keep_reply, st_bind, st_ret. destruct r as [[v|]|]; [|by eexists _, _, ops..].
  destruct (cache_str_spec ops (Dns t qs []) k v now I (Hr _ eq_refl v eq_refl)) as (s & E & Is & _). rewrite E. by eexists _, _, _.
Qed.

Lemma answer_total i now host l : copies_ok l -> reply_host_ok host -> exists o l', ares_answer i now host l = Ok (o, l') /\ copies_ok l'.
Proof.
  intros I Hh. unfold ares_answer. destruct (lp_ares l !! i) as [r|]; [|by eexists _, l].
  unfold default_cb, st_bind, st_lift, st_ret, st_get, st_put, set_queues.
  destruct (a_qstep (lp_queues l) (QPut (ar_response_q r) now [host])) as [[a qs]|] eqn:Eq;
    [|cbn in Eq; by destruct (live (lp_queues l) !! _)].
  assert (msgs_ok qs) as Hq by (eapply msgs_put; [exact (co_msgs l I) | exact Hh | exact Eq]).
  exists [Answered r now host], (set_ares (set_dns l (Dns (lp_hashtab l) qs [])) (delete i (lp_ares l))). split.
  - destruct host as [h|]; [rewrite (deepcopy_ok h) by by apply Hh|]; cbn [cache_and_queues d_queues hashtab d_pending]; by rewrite Eq.
  - destruct (co_cache l I) as [ops Ic]. split; cbn; [|exact Hq|apply I]. exists ops. exact (cache_inv_frame ops _ qs [] Ic).
Qed.

Lemma submit_total r l : leads (eq true) (lp_bufs l) (rq_type r) (rq_query r) (rq_family r) ->
  submit r l = Ok (set_ares l (lp_ares l ++ [asked (lp_bufs l) r])).
Proof.
  intros Hl. assert (exists l', submit r l = Ok l') as [l' E].
  { destruct Hl as (q & b & Eb & <- & Et & Hq). unfold submit. rewrite Eb, Et. destruct q as [n|a]; cbn [type_of]; [by eexists|].
    cbn in Hq. rewrite <-Hq, Z.leb_refl. by eexists. }
  rewrite E. f_equal. by eapply submit_gives.
Qed.

Lemma read_total l : copies_ok l -> wf (eq true) l -> exists l', helper_read l = Ok l' /\ copies_ok l'.
Proof.
  intros I [Hp _]. unfold helper_read. destruct (lp_pipe l) as [|r p] eqn:Ep; [by exists l|].
  apply Forall_cons_1 in Hp as [Hl _]. rewrite submit_total by exact Hl. eexists. split; [done|]. destruct I. by split.
Qed.

Lemma loop_proceed_total j expired now l : copies_ok l -> exists o l', loop_proceed j expired now l = Ok (o, l') /\ copies_ok l'.
Proof.
  intros I. unfold loop_proceed. destruct (lp_lookups l !! j) as [lk|] eqn:Ej; [|by eexists _, l]. destruct (co_cache l I) as [ops Ic].
  pose proof (co_lookups l I) as Hl. pose proof (co_msgs l I) as Hm.
  assert (stage_ok (lk_stage lk)) as Hs by (rewrite Forall_lookup in Hl; by eapply Hl). destruct (lk_stage lk) as [|i|i|i r|r] eqn:Es.
  - unfold loop_queue, get_response_q, st_bind, st_get, st_put, st_ret, set_queues. cbn [cache_and_queues d_queues hashtab d_pending].
    destruct (a_qstep (lp_queues l) QNew) as [[[z|] qs]|] eqn:En; [|cbn in En; by destruct (free (lp_queues l))..].
    eexists _, _. split; [done|]. split; cbn; [eexists; exact (cache_inv_frame _ _ qs [] Ic) | by eapply msgs_new | by apply Forall_insert].
  - eexists _, _. split; [done|]. split; cbn; [by exists ops | done | by apply Forall_insert].
  - unfold loop_receive, cache_and_queues. destruct (receive_total i expired (lp_hashtab l) (lp_queues l) Hm) as (r & qs & E & Hq & Hr).
    rewrite E. cbn [rbind]. eexists _, _. split; [done|]. destruct r as [r|].
    + split; cbn; [exists ops; exact (cache_inv_frame ops _ qs [] Ic) | done |]. apply Forall_insert; [done|]. cbn. intros x ->. by apply Hr.
    + split; cbn; [exists ops; exact (cache_inv_frame ops _ qs [] Ic) | done | done].
  - unfold loop_release, release_response_q, st_bind, st_get, st_put, set_queues. cbn [rbind cache_and_queues d_queues hashtab d_pending].
    eexists _, _. split; [done|]. split; cbn -[a_qstep]; [exists ops; exact (cache_inv_frame ops _ _ [] Ic) | | by apply Forall_insert].
    destruct (a_qstep (lp_queues l) (QRelease i)) as [[a qs]|] eqn:E; [by eapply msgs_release | done].
  - unfold loop_keep, cache_and_queues. destruct (keep_total ops (lk_key lk) r now (lp_hashtab l) (lp_queues l) Ic Hs) as (h & s & ops' & E & Is).
    rewrite E. cbn [rbind]. eexists _, _. split; [done|]. destruct (keep_frame _ _ _ _ _ _ [] _ _ E) as [Eq _].
    split; cbn; [exists ops'; exact (cache_inv_frame ops' s _ [] Is) | by rewrite Eq | by apply Forall_delete].
Qed.

Lemma loop_step_total ev l : copies_ok l -> wf (eq true) l -> event_ok ev -> exists o l', loop_step ev l = Ok (o, l') /\ copies_ok l'.
Proof.
  intros I W Hev. destruct ev as [k q f now|j expired now| |[[i now] host]]; cbn [loop_step];
    [|by apply loop_proceed_total|destruct (read_total l I W) as (l' & -> & I'); by eexists _, l'|by apply answer_total].
  destruct (co_cache l I) as [ops Ic]. unfold loop_look, cache_and_queues. destruct (lookup_str_spec ops (cache_and_queues l) k now Ic) as (e & s & E & Is & _).
  unfold cache_and_queues in E. rewrite E. cbn [rbind]. eexists _, _. split; [done|]. destruct (lookup_frame _ _ _ _ _ [] _ _ E) as [Eq _].
  assert (copies_ok (set_dns l s)) as I'.
  { split; cbn; [eexists; exact (cache_inv_frame _ s (d_queues s) [] Is) | rewrite Eq; apply I | apply I]. }
  destruct e as [h|]; [done|]. split; [apply I' | apply I' |]. cbn. apply Forall_app. split; [apply I|]. by apply Forall_singleton.
Qed.

Lemma distinct_stage l j lk st : lp_lookups l !! j = Some lk -> distinct l -> distinct (at_stage l j lk st).
Proof.
  intros Ej [Hn Hb]. unfold distinct. cbn. rewrite list_fmap_insert. cbn. rewrite list_insert_id by (rewrite list_lookup_fmap, Ej; reflexivity).
  split; [done|]. apply Forall_insert; [done|]. rewrite Forall_lookup in Hb. by apply (Hb j lk).
Qed.

Lemma read_keeps l l' : helper_read l = Ok l' -> lp_bufs l' = lp_bufs l /\ lp_lookups l' = lp_lookups l.
Proof.
  unfold helper_read. destruct (lp_pipe l) as [|r p]; [by intros [= <-]|]. unfold submit. destruct (_ !! _) as [[q []]|]; [|done..].
  destruct (rq_type r), q as [n|a]; try done; [by intros [= <-]|]. destruct (_ <=? _); [by intros [= <-] | done].
Qed.

Lemma distinct_step ev l o l' : distinct l -> loop_step ev l = Ok (o, l') -> distinct l'.
Proof.
  intros D E. destruct ev as [k q f now|j expired now| |[[i now] host]]; cbn [loop_step] in E.
  - unfold loop_look in E. destruct (lookup_str _ _ _) as [[e s]|]; [|done]. cbn [rbind] in E. injection E as <- <-. destruct e as [h|]; [done|].
    destruct D as [Hn Hb]. split; cbn.
    + rewrite fmap_app. apply NoDup_app. split_and!; [done | | apply NoDup_singleton]. intros p Hp Hp'. apply list_elem_of_singleton in Hp' as ->.
      apply list_elem_of_fmap in Hp as (lk & Ek & Hk). rewrite Forall_forall in Hb. specialize (Hb lk Hk). cbn in Hb, Ek. lia.
    + rewrite length_app. cbn. apply Forall_app. split; [|apply Forall_singleton; cbn; lia]. eapply Forall_impl; [exact Hb|]. cbn. lia.
  - unfold loop_proceed in E. destruct (lp_lookups l !! j) as [lk|] eqn:Ej; [|by injection E as <- <-]. destruct (lk_stage lk).
    + unfold loop_queue in E. destruct (get_response_q _) as [[i s]|]; [|done]. injection E as <- <-. by apply distinct_stage.
    + injection E as <- <-. by apply distinct_stage.
    + unfold loop_receive in E. destruct (receive _ _ _) as [[r s]|]; [|done]. injection E as <- <-. destruct r; [by apply distinct_stage | done].
    + unfold loop_release in E. destruct (release_response_q _ _) as [[u s]|]; [|done]. injection E as <- <-. by apply distinct_stage.
    + unfold loop_keep in E. destruct (keep_reply _ _ _ _) as [[h s]|]; [|done]. injection E as <- <-. destruct D as [Hn Hb]. split; cbn.
      * rewrite (delete_Permutation _ _ _ Ej) in Hn. cbn in Hn. by apply NoDup_cons in Hn as [_ Hn].
      * unfold free_buf. rewrite length_alter. by apply Forall_delete.
  - destruct (helper_read l) as [l1|] eqn:Er; [|done]. injection E as <- <-. destruct (read_keeps l l1 Er) as [Hb Hl]. unfold distinct. by rewrite Hb, Hl.
  - destruct (ares_answer_refines i now host l o l' E) as ((_ & Hb & Hl) & _). unfold distinct. by rewrite Hb, Hl.
Qed.

Lemma loop_run_total evs l : copies_ok l -> wf (eq true) l -> distinct l -> Forall event_ok evs -> all_prompt evs l ->
  exists os l', loop_run evs l = Ok (os, l') /\ copies_ok l' /\ wf (eq true) l'.
Proof.
  intros I W D He. revert l I W D. induction He as [|ev evs Hev He IH]; intros l I W D Hp; cbn [loop_run all_prompt] in *; [by eexists _, l|].
  destruct Hp as [Hp1 Hp2]. destruct (loop_step_total ev l I W Hev) as (o & l1 & E1 & I1).
  destruct (loop_step_refines (eq true) ev l o l1 eq_refl Hev W (or_intror (conj D Hp1)) E1) as [W1 _].
  destruct (IH l1 I1 W1 (distinct_step _ _ _ _ D E1) (Hp2 _ _ E1)) as (os & l2 & E2 & I2 & W2). rewrite E1. cbn [rbind]. rewrite E2. by eexists _, l2.
Qed.

Lemma loop0_ok : copies_ok loop0 /\ distinct loop0 /\ forall alive, wf alive loop0.
Proof.
  split_and!; [|split; constructor|split; constructor]. split; cbn; [exists []; exact (cache_inv_frame [] dns0 aqs0 [] cache_inv0) | | constructor].
  intros i ms Hi. change (live aqs0 !! i = Some ms) in Hi. cbn in Hi. by rewrite lookup_empty in Hi.
Qed.

(** The requests are handed over one by one, in the order they were written. *)
Lemma reads_hand_over n l : wf (eq true) l ->
  loop_run (replicate n HelperRead) l =
    Ok ([], set_ares (set_pipe l (drop n (lp_pipe l))) (lp_ares l ++ (asked (lp_bufs l) <$> take n (lp_pipe l)))).
Proof.
  revert l. induction n as [|n IH]; intros l W; cbn [replicate loop_run]; [rewrite drop_0, take_0, app_nil_r; by destruct l|].
  cbn [loop_step]. unfold helper_read. destruct (lp_pipe l) as [|r p] eqn:Ep.
  - cbn [rbind]. rewrite IH by done. cbn [rbind app]. by rewrite Ep, drop_nil, take_nil.
  - destruct W as [Hp Hl]. rewrite Ep in Hp. apply Forall_cons_1 in Hp as [Hr Hp]. rewrite submit_total by exact Hr. cbn [rbind].
    rewrite IH by done. cbn [rbind app]. cbn. by rewrite <-app_assoc.
Qed.


(** Two lookups; the first is answered and stored, and found by the third; the
    second has timed out. *)
Definition demo_host : hostent := host4 (cs "a.example") [192; 0; 2; 1].
Definition demo_loop : list loop_event :=
  let go j := LProceed j false (Timespec 5 0) in
  [LLook (cs "a.example") (HOSTBYNAME (cs "a.example")) AF_INET (Timespec 1 0); go 0%nat;
   LLook (cs "127.0.0.1") (HOSTBYADDR [127; 0; 0; 1]) AF_INET (Timespec 1 0); go 1%nat; go 1%nat; go 0%nat;
   HelperRead; go 0%nat; HelperRead; HelperAnswer (1%nat, Timespec 4 0, Some demo_host);
   go 0%nat; go 0%nat; go 0%nat; LProceed 0 true (Timespec 6 0); go 0%nat; go 0%nat;
   LLook (cs "a.example") (HOSTBYNAME (cs "a.example")) AF_INET (Timespec 7 0);
   LLook (cs "b.example") (HOSTBYNAME (cs "b.example")) AF_INET6 (Timespec 8 0); go 0%nat; go 0%nat].

Definition demo_trace : list outcome :=
  let a := cs "a.example" in let addr := [127; 0; 0; 1] in
  [Looked a (Timespec 1 0) None; Queue 0; Looked (cs "127.0.0.1") (Timespec 1 0) None; Queue 1; Sent (HOSTBYADDR addr) AF_INET 1; Sent (HOSTBYNAME a) AF_INET 0;
   Received 0 None; Answered (AresRequest (HOSTBYNAME a) AF_INET 0) (Timespec 4 0) (Some demo_host);
   Received 0 (Some (Some (Some demo_host))); Released 0; Kept a (Timespec 5 0) (Some demo_host);
   Received 1 (Some None); Released 1; Kept (cs "127.0.0.1") (Timespec 5 0) None;
   Looked a (Timespec 7 0) (Some demo_host); Looked (cs "b.example") (Timespec 8 0) None; Queue 0; Sent (HOSTBYNAME (cs "b.example")) AF_INET6 0].

Lemma demo_loop_ok : Forall event_ok demo_loop.
Proof.
  unfold demo_loop. rewrite !Forall_cons. cbn [event_ok query_ok]. split_and!; try exact Logic.I; try reflexivity; [|apply Forall_nil_2].
  intros h [= <-]. split; [reflexivity | repeat constructor].
Qed.


(** A lookup that times out while its request is in the pipe leaves a pointer to
    what its caller frees, and the helper reads it. *)
Example request_read_after_timeout k name f t1 t2 :
  forall s, lookup_str k t1 (cache_and_queues loop0) = Ok (None, s) ->
  loop_run ([LLook k (HOSTBYNAME name) f t1] ++ replicate 5 (LProceed 0 true t2) ++ [HelperRead]) loop0 = Fail OutOfBounds.
Proof.
  intros s E. cbn [app replicate loop_run loop_step]. unfold loop_look. rewrite E. cbn [rbind].
  destruct (lookup_frame _ _ _ _ _ [] _ _ E) as [Eq _]. unfold loop_proceed, loop_queue, get_response_q, loop_write, loop_receive, loop_release, loop_keep. cbn. rewrite Eq. reflexivity.
Qed.

(** An address of the wrong family is read past its end. *)
Theorem short_address_read r p l a :
  lp_pipe l = r :: p -> lp_bufs l !! rq_query r = Some (HOSTBYADDR a, true) -> rq_type r = REQ_HOSTBYADDR ->
  Z.of_nat (length a) < addrlen (rq_family r) ->
  forall rs, helper_turn true rs l = Fail OutOfBounds.
Proof.
  intros Ep Eb Et Hl rs. unfold helper_turn, helper_read. cbn [negb]. rewrite Ep. unfold submit. cbn [lp_bufs set_pipe]. rewrite Eb, Et.
  by rewrite (proj2 (Z.leb_gt _ _) Hl).
Qed.

(** ** Starting the helper

    [helper_dns_init] takes the lock, starts the thread and waits for its signal;
    the thread takes the lock, sets the channel and the pipe up, releases the
    lock and signals.  The steps are those where another thread can come in;
    [pthread_cond_wait] releases the lock while it waits, needs it to return, and
    may return without a signal. *)
Inductive init_pc := ILock | ICreate | IWait | IWaiting | IWoken | IUnlock | IDone.
Inductive helper_pc := HAbsent | HLock | HSetup | HUnlock | HSignal | HServing.

#[export] Instance init_pc_eq_dec : EqDecision init_pc.
Proof. solve_decision. Defined.
#[export] Instance helper_pc_eq_dec : EqDecision helper_pc.
Proof. solve_decision. Defined.

Inductive owner := Nobody | Init | Helper.

#[export] Instance owner_eq_dec : EqDecision owner.
Proof. solve_decision. Defined.

Record handshake := Handshake { hs_init : init_pc; hs_helper : helper_pc; hs_mx : owner; hs_ready : bool }.

#[export] Instance handshake_eq_dec : EqDecision handshake.
Proof. solve_decision. Defined.

Definition handshake0 : handshake := Handshake ILock HAbsent Nobody false.

Definition init_steps (spurious : bool) (s : handshake) : list handshake :=
  let mk i := Handshake i (hs_helper s) in
  match hs_init s with
  | ILock => match hs_mx s with Nobody => [mk ICreate Init (hs_ready s)] | _ => [] end
  | ICreate => [Handshake IWait HLock (hs_mx s) (hs_ready s)]
  | IWait => [mk IWaiting Nobody (hs_ready s)]
  | IWaiting => if spurious then [mk IWoken (hs_mx s) (hs_ready s)] else []
  | IWoken => match hs_mx s with Nobody => [mk IUnlock Init (hs_ready s)] | _ => [] end
  | IUnlock => [mk IDone Nobody (hs_ready s)]
  | IDone => []
  end.

Definition helper_steps (s : handshake) : list handshake :=
  let mk h := Handshake (hs_init s) h in
  match hs_helper s with
  | HAbsent => []
  | HLock => match hs_mx s with Nobody => [mk HSetup Helper (hs_ready s)] | _ => [] end
  | HSetup => [mk HUnlock (hs_mx s) true]
  | HUnlock => [mk HSignal Nobody (hs_ready s)]
  | HSignal =>
      [Handshake (match hs_init s with IWaiting => IWoken | i => i end) HServing (hs_mx s) (hs_ready s)]
  | HServing => []
  end.

Definition handshake_steps (spurious : bool) (s : handshake) : list handshake := init_steps spurious s ++ helper_steps s.

Definition handshake_check (s : handshake) : bool :=
  (if bool_decide (hs_init s = IDone) then hs_ready s else true) &&
  Bool.eqb (match handshake_steps false s with [] => true | _ => false end)
    (bool_decide (hs_init s = IDone) && bool_decide (hs_helper s = HServing)).

(** A path through given states. *)
Fixpoint path {A} `{!EqDecision A} (succs : A -> list A) (s : A) (l : list A) : bool :=
  match l with [] => true | t :: l => bool_decide (t ∈ succs s) && path succs t l end.

Lemma path_rtc {A} `{!EqDecision A} (succs : A -> list A) l s t :
  path succs s (l ++ [t]) = true -> rtc (fun a b => b ∈ succs a) s t.
Proof.
  revert s. induction l as [|x l IH]; intros s H; cbn in H; apply andb_true_iff in H as [H1 H2];
    apply bool_decide_eq_true in H1; [by apply rtc_once | eapply rtc_l; [exact H1 | by apply IH]].
Qed.

(** When [pthread_cond_wait] returns for a signal only, [helper_dns_init]
    returns with the helper ready to serve, however the two threads run; they do
    not block each other for good, and the signal is not missed, although no
    condition is tested under the lock: the helper cannot take the lock before
    the wait has released it. *)
Theorem helper_starts_ready (s : handshake) :
  rtc (fun a b => b ∈ handshake_steps false a) handshake0 s ->
  (hs_init s = IDone -> hs_ready s = true) /\
  (handshake_steps false s = [] <-> hs_init s = IDone /\ hs_helper s = HServing).
Proof.
  intros Hr.
  assert (handshake_check s = true) as H by (refine (reach_check _ handshake_check 30 _ _ _ Hr); vm_compute; reflexivity).
  unfold handshake_check in H. apply andb_true_iff in H as [H1 H2]. apply Bool.eqb_prop in H2. split.
  - intros Hd. rewrite bool_decide_true in H1 by done. done.
  - destruct (handshake_steps false s) eqn:E; symmetry in H2.
    + apply andb_true_iff in H2. rewrite !bool_decide_eq_true in H2. tauto.
    + split; [done|]. intros [Hi Hh]. by rewrite !bool_decide_true in H2 by done.
Qed.

(** A wake-up without a signal lets it return before the channel and the pipe
    are there: nothing is tested after the wait. *)
Theorem spurious_wakeup_too_early :
  exists s, rtc (fun a b => b ∈ handshake_steps true a) handshake0 s /\ hs_init s = IDone /\ hs_ready s = false.
Proof.
  exists (Handshake IDone HLock Nobody false). split; [|done].
  apply (path_rtc _ [Handshake ICreate HAbsent Init false; Handshake IWait HLock Init false;
    Handshake IWaiting HLock Nobody false; Handshake IWoken HLock Nobody false; Handshake IUnlock HLock Init false]).
  vm_compute. reflexivity.
Qed.
