(* ===== verification/DnsHeap.v ===== *)
(** * The memory of the DNS helper ([src/src/helper_dns.c])

    [HelperDns] has host entries, the cache and the replies in the queues as
    values; here they are objects of a heap, with the copies, the arrays of
    pointers, the records of the requests and what is freed.  The cache and the
    callers do not share objects: what a caller gets is a copy, and
    [free_hostent] gives all of it back.  c-ares keeps its answers in objects of
    its own and runs the callback of a request whenever it comes to it, also when
    nobody waits for the reply any more.  The lemmas [..._refines] show that each
    step on the heap is the one of [HelperDns]; [dns_memory] that nothing is freed
    twice, and what a run leaves behind. *)

From stdpp Require Import list_tactics.
From S2P Require Import Prelude Utils MsgQueue AddrUtils InetText Lookup3 HelperDns.
#[local] Open Scope st_scope.

(** ** Objects *)

(** A pointer of a structure that was just allocated has no value. *)
Inductive ptr := PNull | PGarbage | PTo (a : nat).

Inductive obj :=
| OStr (s : cstr)
| OAddr (b : list Z)
| OPtrs (l : list (option nat))
| OHost (name aliases addr_list : ptr) (f : family) (len : Z)
| ONode (key value : ptr) (t : timespec)
| OCba (response_q : option nat).   (* not set at first *)

Record mem := Mem { objs : gmap nat obj; next : nat; table : list (option nat) }.

Definition set_objs (m : mem) o : mem := Mem o (next m) (table m).
Definition set_table (m : mem) t : mem := Mem (objs m) (next m) t.

(** [Malloc], with what is written to the object next. *)
Definition alloc (o : obj) : stt mem nat := fun m => Ok (next m, Mem (<[next m := o]> (objs m)) (S (next m)) (table m)).

Definition put (a : nat) (o : obj) : stt mem unit := st_mod (fun m => set_objs m (<[a := o]> (objs m))).

Definition deref (p : ptr) : stt mem nat :=
  match p with PTo a => st_ret a | PNull => st_lift (Fail OutOfBounds) | PGarbage => st_lift (Fail Undefined) end.

Definition load (a : nat) : stt mem obj :=
  let* m := st_get in st_lift (match objs m !! a with Some o => Ok o | None => Fail OutOfBounds end).

(** [Free]: an assertion that the pointer is not null. *)
Definition Free (p : ptr) : stt mem unit :=
  match p with
  | PNull => st_lift (Fail AssertFail)
  | PGarbage => st_lift (Fail Undefined)
  | PTo a =>
      let* m := st_get in
      match objs m !! a with
      | Some _ => st_put (set_objs m (delete a (objs m)))
      | None => st_lift (Fail Undefined)
      end
  end.

Definition load_str (a : nat) : stt mem cstr :=
  let* o := load a in st_lift (match o with OStr s => Ok s | _ => Fail Undefined end).
Definition load_addr (a : nat) : stt mem (list Z) :=
  let* o := load a in st_lift (match o with OAddr b => Ok b | _ => Fail Undefined end).
Definition load_ptrs (a : nat) : stt mem (list (option nat)) :=
  let* o := load a in st_lift (match o with OPtrs l => Ok l | _ => Fail Undefined end).

(** ** Host entries *)

(** The pointers before the terminator, which [count_ptrs] counts. *)
Fixpoint pointers (l : list (option nat)) : Res (list nat) :=
  match l with
  | Some a :: l => r ← pointers l; Ok (a :: r)
  | None :: _ => Ok []
  | [] => Fail OutOfBounds
  end.

Definition count_ptrs (l : list (option nat)) : Res nat := r ← pointers l; Ok (length r).

Fixpoint copy_each (copy : nat -> stt mem nat) (l : list nat) : stt mem (list nat) :=
  match l with
  | [] => st_ret []
  | a :: l => let* b := copy a in let* r := copy_each copy l in st_ret (b :: r)
  end.

Definition copy_addr (len : Z) (a : nat) : stt mem nat :=
  st_lift (c_assert (negb (len =? 0))) ;;;
  let* b := load_addr a in
  if len <=? Z.of_nat (length b) then alloc (OAddr (take (Z.to_nat len) b)) else st_lift (Fail OutOfBounds).

Definition strdup (a : nat) : stt mem nat := let* s := load_str a in alloc (OStr s).

(** An array of copies, with its terminator. *)
Definition copy_array (copy : nat -> stt mem nat) (src : nat) : stt mem nat :=
  let* l := load_ptrs src in
  let* ps := st_lift (pointers l) in
  let* dst := alloc (OPtrs []) in
  let* qs := copy_each copy ps in
  put dst (OPtrs ((Some <$> qs) ++ [None])) ;;;
  st_ret dst.

Definition hostent_deepcopy (src : nat) : stt mem nat :=
  let* dst := alloc (OHost PGarbage PGarbage PGarbage AF_INET 0) in
  let* h := load src in
  match h with
  | OHost name aliases addr_list f len =>
      let* name := match name with
        | PNull => st_ret PGarbage
        | p => let* a := deref p in let* q := strdup a in st_ret (PTo q)
        end in
      let* a := deref addr_list in
      let* addr_list := copy_array (copy_addr len) a in
      let* a := deref aliases in
      let* aliases := copy_array strdup a in
      put dst (OHost name (PTo aliases) (PTo addr_list) f len) ;;;
      st_ret dst
  | _ => st_lift (Fail Undefined)
  end.

Fixpoint free_each (l : list nat) : stt mem unit :=
  match l with [] => st_ret tt | a :: l => Free (PTo a) ;;; free_each l end.

Definition free_array (p : ptr) : stt mem unit :=
  let* a := deref p in
  let* l := load_ptrs a in
  let* ps := st_lift (pointers l) in
  free_each ps ;;;
  Free p.

Definition free_hostent (host : nat) : stt mem unit :=
  let* h := load host in
  match h with
  | OHost name aliases addr_list _ _ =>
      Free name ;;;
      free_array addr_list ;;;
      free_array aliases ;;;
      Free (PTo host)
  | _ => st_lift (Fail Undefined)
  end.

(** ** The cache *)

Definition free_node (n : nat) : stt mem unit :=
  let* o := load n in
  match o with
  | ONode k v _ => Free k ;;; let* v := deref v in free_hostent v
  | _ => st_lift (Fail Undefined)
  end.

Definition cache_str (k : nat) (v : nat) (now : timespec) : stt mem unit :=
  let* key := load_str k in
  let* m := st_get in
  let* node := st_lift (aget (table m) (key_hash key)) in
  let* n := match node with
    | Some n => free_node n ;;; st_ret n
    | None => alloc (ONode PGarbage PGarbage (Timespec 0 0))
    end in
  let* copy := hostent_deepcopy v in
  put n (ONode (PTo k) (PTo copy) now) ;;;
  let* m := st_get in
  let* t := st_lift (aset (table m) (key_hash key) (Some n)) in
  st_put (set_table m t).

Definition lookup_str (key : cstr) (now : timespec) : stt mem (option nat) :=
  let* m := st_get in
  let* node := st_lift (aget (table m) (key_hash key)) in
  match node with
  | None => st_ret None
  | Some n =>
      let* o := load n in
      match o with
      | ONode k v t =>
          let* k := deref k in
          let* s := load_str k in
          if cstr_eqb s key then
            if CACHETIME * 1000 <? ms_diff now t then
              free_node n ;;;
              Free (PTo n) ;;;
              let* m := st_get in
              let* t := st_lift (aset (table m) (key_hash key) None) in
              st_put (set_table m t) ;;;
              st_ret None
            else
              let* v := deref v in
              let* host := hostent_deepcopy v in
              st_ret (Some host)
          else st_ret None
      | _ => st_lift (Fail Undefined)
      end
  end.

(** ** Lookups *)

(** The heap, the queues of replies (a message is a pointer) and the records of
    the requests that c-ares, or the pipe to it, has. *)
Record dheap := DHeap { dh_mem : mem; dh_queues : aqs (option nat); dh_pending : list nat }.

Definition set_hqueues (h : dheap) q : dheap := DHeap (dh_mem h) q (dh_pending h).
Definition set_pending (h : dheap) p : dheap := DHeap (dh_mem h) (dh_queues h) p.

Definition on_mem {A} (f : stt mem A) : stt dheap A := fun h =>
  match f (dh_mem h) with Ok (a, m) => Ok (a, DHeap m (dh_queues h) (dh_pending h)) | Fail e => Fail e end.

(** c-ares has an answer, [host] if it found one. *)
Definition default_cb (cba : nat) (now : timespec) (host : option nat) : stt dheap unit :=
  let* reply := on_mem (match host with
    | Some h => let* c := hostent_deepcopy h in st_ret (Some c)
    | None => st_ret None
    end) in
  let* o := on_mem (load cba) in
  let* q := st_lift (match o with OCba (Some q) => Ok q | _ => Fail Undefined end) in
  let* h := st_get in
  let* qs := st_lift (match a_qstep (dh_queues h) (QPut q now [reply]) with Some (_, qs) => Ok qs | None => Fail Undefined end) in
  st_put (set_hqueues h qs) ;;;
  on_mem (Free (PTo cba)).

(** The helper answers the [i]th request. *)
Definition answer (i : nat) (now : timespec) (host : option nat) : stt dheap unit :=
  let* h := st_get in
  match dh_pending h !! i with
  | Some cba => st_put (set_pending h (delete i (dh_pending h))) ;;; default_cb cba now host
  | None => st_ret tt
  end.

(** The steps of [Gethostbyname] and [Gethostbyaddr], one for each lock they take.
    The first is to look in the cache, from which a copy may come; the record of
    the request is made after that by [Gethostbyname], before it by
    [Gethostbyaddr]. *)
Definition look_name (name : cstr) (now : timespec) : stt dheap (nat + nat) :=
  let* entry := on_mem (lookup_str name now) in
  match entry with
  | Some e => st_ret (inl e)
  | None => let* cba := on_mem (alloc (OCba None)) in st_ret (inr cba)
  end.

Definition look_addr (ipstr : cstr) (now : timespec) : stt dheap (nat + nat) :=
  let* cba := on_mem (alloc (OCba None)) in
  let* entry := on_mem (lookup_str ipstr now) in
  st_ret (match entry with Some e => inl e | None => inr cba end).

(** [get_queue]; then the record is filled in and the request written. *)
Definition get_response_q : stt dheap nat :=
  let* h := st_get in
  match a_qstep (dh_queues h) QNew with
  | Some (AnInt z, qs) => st_put (set_hqueues h qs) ;;; st_ret (Z.to_nat z)
  | _ => st_lift (Fail Undefined)
  end.

Definition write_request (cba i : nat) : stt dheap unit :=
  on_mem (put cba (OCba (Some i))) ;;;
  st_mod (fun h => set_pending h (dh_pending h ++ [cba])).

(** [get_msg_timed]: [None] is that it waits, [Some None] that the time was up. *)
Definition receive (q : nat) (expired : bool) : stt dheap (option (option (option nat))) :=
  let* h := st_get in
  match a_qstep (dh_queues h) (QGet q 1) with
  | Some (AnMsg size d, qs) =>
      st_put (set_hqueues h qs) ;;;
      st_ret (Some (if 0 <? size then Some (match d with [r] => r | _ => None end) else None))
  | None => if expired then st_ret (Some None) else st_ret None
  | Some (AnInt _, _) => st_lift (Fail Undefined)
  end.

Definition release_response_q (q : nat) : stt dheap unit :=
  let* h := st_get in
  st_put (set_hqueues h (match a_qstep (dh_queues h) (QRelease q) with Some (_, qs) => qs | None => dh_queues h end)).

(** [cache_str] with a copy of the key; the caller gets the reply. *)
Definition keep_reply (k : cstr) (reply : option (option nat)) (now : timespec) : stt dheap (option nat) :=
  match reply with
  | Some (Some p) => on_mem (let* key := alloc (OStr k) in cache_str key p now) ;;; st_ret (Some p)
  | _ => st_ret None
  end.

(** A lookup by one thread alone that is answered. *)
Definition Gethostbyname (name : cstr) (reply : option nat) (now now' : timespec) : stt dheap (option nat) :=
  let* r := look_name name now in
  match r with
  | inl e => st_ret (Some e)
  | inr cba =>
      let* i := get_response_q in
      write_request cba i ;;;
      let* h := st_get in
      answer (length (dh_pending h) - 1) now' reply ;;;
      let* r := receive i false in
      release_response_q i ;;;
      keep_reply name (default None r) now'
  end.

(** ** Who owns what

    The heap is a list of objects with their addresses, in any order; a triple
    says what a computation does to that list, the table being left alone. *)

Definition ledger (m : mem) (G : list (nat * obj)) : Prop :=
  objs m = list_to_map G /\ NoDup G.*1 /\ Forall (fun x => x.1 < next m)%nat G.

Lemma ledger_swap m G G' : G ≡ₚ G' -> ledger m G -> ledger m G'.
Proof.
  intros H (H1 & H2 & H3). split_and!; [|by rewrite <-H..]. rewrite H1. by apply list_to_map_proper.
Qed.

#[export] Instance ledger_perm m : Proper ((≡ₚ) ==> iff) (ledger m).
Proof. intros G G' H. split; by apply ledger_swap. Qed.

Definition triple {A} (G : list (nat * obj)) (f : stt mem A) (Q : A -> list (nat * obj) -> Prop) : Prop :=
  forall m, ledger m G -> exists a m' G', f m = Ok (a, m') /\ ledger m' G' /\ table m' = table m /\ Q a G'.

Lemma t_ret {A} G (a : A) (Q : A -> list (nat * obj) -> Prop) : Q a G -> triple G (st_ret a) Q.
Proof. intros H m L. by exists a, m, G. Qed.

Lemma t_bind {A B} G (f : stt mem A) (k : A -> stt mem B) Q R :
  triple G f Q -> (forall a G', Q a G' -> triple G' (k a) R) -> triple G (st_bind f k) R.
Proof.
  intros Hf Hk m L. destruct (Hf m L) as (a & m1 & G1 & E & L1 & T1 & Q1). destruct (Hk a G1 Q1 m1 L1) as (b & m2 & G2 & E2 & L2 & T2 & Q2).
  exists b, m2, G2. rewrite (st_bind_ok _ _ _ _ _ E). split_and!; [done | done | congruence | done].
Qed.

Lemma ret_bind {A B} (a : A) (k : A -> stt mem B) : st_bind (st_ret a) k = k a.
Proof. reflexivity. Qed.

Lemma t_perm {A} G G' (f : stt mem A) Q : G ≡ₚ G' -> triple G' f Q -> triple G f Q.
Proof. intros H Hf m L. apply Hf. by rewrite <-H. Qed.

Lemma t_lift {A} G (r : Res A) a (Q : A -> list (nat * obj) -> Prop) : r = Ok a -> Q a G -> triple G (st_lift r) Q.
Proof. intros -> H m L. by exists a, m, G. Qed.

Lemma t_alloc G o : triple G (alloc o) (fun a G' => G' = (a, o) :: G).
Proof.
  intros m (E & Hn & Hb). eexists _, _, _. split; [done|]. split; [|done]. assert (next m ∉ G.*1) as Hf.
  { intros Hin. apply list_elem_of_fmap in Hin as ([a x] & Ha & Hin). rewrite Forall_forall in Hb. specialize (Hb _ Hin). cbn in *. lia. }
  split_and!; cbn [objs next].
  - by rewrite E.
  - by apply NoDup_cons_2.
  - apply Forall_cons_2; [cbn; lia|]. eapply Forall_impl; [exact Hb|]. cbn. lia.
Qed.

Lemma t_put G a o o' : triple ((a, o) :: G) (put a o') (fun _ G' => G' = (a, o') :: G).
Proof.
  intros m (E & Hn & Hb). eexists _, _, _. split; [done|]. split; [|done]. split_and!; cbn [objs next set_objs].
  - rewrite E. cbn [list_to_map fst snd foldr]. apply insert_insert_eq.
  - done.
  - inversion_clear Hb as [|? ? H1 H2]. by apply Forall_cons_2.
Qed.

Lemma load_ok m G a o : ledger m G -> (a, o) ∈ G -> load a m = Ok (o, m).
Proof.
  intros (E & Hn & Hb) Hin. unfold load, st_bind, st_get, st_lift. by rewrite E, (elem_of_list_to_map_1 _ _ _ Hn Hin).
Qed.

Lemma t_load G a o : (a, o) ∈ G -> triple G (load a) (fun x G' => x = o /\ G' = G).
Proof. intros Hin m L. exists o, m, G. split; [|done]. by eapply load_ok. Qed.

Lemma t_free G a o : triple ((a, o) :: G) (Free (PTo a)) (fun _ G' => G' = G).
Proof.
  intros m (E & Hn & Hb). inversion_clear Hn as [|? ? Ha Hn']. inversion_clear Hb as [|? ? _ Hb'].
  eexists _, _, _. unfold Free, st_bind, st_get. rewrite E. cbn [list_to_map foldr fst snd]. rewrite lookup_insert_eq. split; [done|]. split; [|done].
  split_and!; cbn [objs next set_objs]; [|done..]. apply delete_insert_id, not_elem_of_list_to_map_1. done.
Qed.

Lemma t_conseq {A} G (f : stt mem A) (Q R : A -> list (nat * obj) -> Prop) :
  triple G f Q -> (forall a G', Q a G' -> exists G'', G' ≡ₚ G'' /\ R a G'') -> triple G f R.
Proof.
  intros Hf H m L. destruct (Hf m L) as (a & m' & G' & E & L' & T & Q'). destruct (H _ _ Q') as (G'' & P & HR).
  exists a, m', G''. split_and!; try done. by rewrite <-P.
Qed.

(** ** Host entries on the heap *)

Definition arr (qs : list nat) : obj := OPtrs ((Some <$> qs) ++ [None]).

(** An array and what its pointers lead to. *)
Definition block {A} (mk : A -> obj) (a : nat) (qs : list nat) (xs : list A) : list (nat * obj) :=
  (a, arr qs) :: zip qs (mk <$> xs).

Inductive host_rep (p : nat) (v : hostent) : list (nat * obj) -> Prop :=
| host_rep_intro pn pa pl qa ql :
    length qa = length (h_addr_list v) -> length ql = length (h_aliases v) ->
    host_rep p v ((p, OHost (PTo pn) (PTo pl) (PTo pa) (h_addrtype v) (h_length v)) :: (pn, OStr (h_name v)) ::
      block OAddr pa qa (h_addr_list v) ++ block OStr pl ql (h_aliases v)).

Lemma pointers_arr qs : pointers ((Some <$> qs) ++ [None]) = Ok qs.
Proof. induction qs as [|q qs IH]; [done|]. cbn. by rewrite IH. Qed.

Lemma t_load_ptrs G a qs : (a, arr qs) ∈ G -> triple G (load_ptrs a) (fun l G' => l = (Some <$> qs) ++ [None] /\ G' = G).
Proof. intros H. eapply t_bind; [by apply t_load|]. intros o G' [-> ->]. by eapply t_lift. Qed.

Lemma t_copy_each {A} (mk : A -> obj) (ok : A -> Prop) copy :
  (forall G a x, (a, mk x) ∈ G -> ok x -> triple G (copy a) (fun b G' => G' = (b, mk x) :: G)) ->
  forall ps xs G, length ps = length xs -> zip ps (mk <$> xs) ⊆ G -> Forall ok xs ->
  triple G (copy_each copy ps) (fun qs G' => length qs = length xs /\ G' ≡ₚ zip qs (mk <$> xs) ++ G).
Proof.
  intros Hc. induction ps as [|p ps IH]; intros [|x xs] G Hl Hs Ho; try done; [by apply t_ret|].
  apply Forall_cons_1 in Ho as [Hx Ho]. cbn in Hs. cbn [copy_each].
  eapply t_bind; [apply (Hc G p x); [set_solver | done]|]. intros b ? ->.
  eapply t_bind; [apply (IH xs); [by injection Hl | set_solver | done]|]. intros qs G' [Hq HG].
  apply t_ret. split; [by cbn; f_equal|]. rewrite HG. cbn. by rewrite Permutation_middle.
Qed.

Lemma t_copy_array {A} (mk : A -> obj) (ok : A -> Prop) copy G src ps xs :
  (forall G a x, (a, mk x) ∈ G -> ok x -> triple G (copy a) (fun b G' => G' = (b, mk x) :: G)) ->
  length ps = length xs -> block mk src ps xs ⊆ G -> Forall ok xs ->
  triple G (copy_array copy src) (fun d G' => exists qs, length qs = length xs /\ G' ≡ₚ block mk d qs xs ++ G).
Proof.
  intros Hc Hl Hs Ho. unfold block in Hs. eapply t_bind; [apply (t_load_ptrs G src ps); set_solver|]. intros l ? [-> ->].
  eapply t_bind; [by apply (t_lift _ _ ps (fun a G' => a = ps /\ G' = G)); [apply pointers_arr|]|]. intros ? ? [-> ->].
  eapply t_bind; [apply t_alloc|]. intros d ? ->.
  eapply t_bind; [apply (t_copy_each mk ok copy Hc ps xs); [done | set_solver | done]|]. intros qs G' [Hq HG].
  eapply t_bind; [eapply t_perm; [|apply t_put]; by rewrite HG, <-Permutation_middle|]. intros ? ? ->.
  apply t_ret. by exists qs.
Qed.

Lemma t_copy_addr len G a x : 0 < len -> (a, OAddr x) ∈ G -> Z.of_nat (length x) = len ->
  triple G (copy_addr len a) (fun b G' => G' = (b, OAddr x) :: G).
Proof.
  intros Hl Ha Hx. unfold copy_addr. destruct (Z.eqb_spec len 0); [lia|].
  eapply t_bind; [by apply (t_lift _ _ tt (fun _ G' => G' = G))|]. intros _ ? ->.
  eapply t_bind; [eapply (t_bind _ _ _ _ (fun b G' => b = x /\ G' = G)); [by apply t_load | by intros ? ? [-> ->]; eapply t_lift]|].
  intros ? ? [-> ->]. destruct (Z.leb_spec len (Z.of_nat (length x))); [|lia]. rewrite take_ge by lia. apply t_alloc.
Qed.

Lemma t_strdup G a s : (a, OStr s) ∈ G -> triple G (strdup a) (fun b G' => G' = (b, OStr s) :: G).
Proof.
  intros Ha. eapply t_bind; [eapply (t_bind _ _ _ _ (fun b G' => b = s /\ G' = G)); [by apply t_load | by intros ? ? [-> ->]; eapply t_lift]|].
  intros ? ? [-> ->]. apply t_alloc.
Qed.

(** A copy is made of objects of its own. *)
Lemma t_deepcopy G p v H : host_rep p v H -> host_ok v -> H ⊆ G ->
  triple G (hostent_deepcopy p) (fun q G' => exists H', host_rep q v H' /\ G' ≡ₚ H' ++ G).
Proof.
  intros [pn pa pl qa ql Ha Hl] [Hlen Hok] Hs. eapply t_bind; [apply t_alloc|]. intros d ? ->.
  eapply t_bind; [apply (t_load _ p (OHost (PTo pn) (PTo pl) (PTo pa) (h_addrtype v) (h_length v))); set_solver|].
  intros ? ? [-> ->]. cbn [deref].
  eapply (t_bind _ _ _ (fun a G' => exists q, a = PTo q /\ G' = (q, OStr (h_name v)) :: (d, OHost PGarbage PGarbage PGarbage AF_INET 0) :: G)).
  { rewrite ret_bind. eapply t_bind; [apply (t_strdup _ pn (h_name v)); set_solver|]. intros q ? ->. apply t_ret. by exists q. }
  intros ? ? (qn & -> & ->). rewrite ret_bind.
  eapply t_bind; [apply (t_copy_array OAddr (fun a => Z.of_nat (length a) = h_length v) _ _ pa qa (h_addr_list v)); [by intros; apply t_copy_addr | done | set_solver | done]|].
  intros da G1 (qa' & Ha' & H1).
  rewrite ret_bind.
  eapply t_bind; [apply (t_copy_array OStr (fun _ => True) _ _ pl ql (h_aliases v)); [by intros; apply t_strdup | done | rewrite H1; set_solver | by apply Forall_true]|].
  intros dl G2 (ql' & Hl' & H2).
  set (F := block OStr dl ql' (h_aliases v) ++ block OAddr da qa' (h_addr_list v) ++ (qn, OStr (h_name v)) :: G).
  eapply t_bind; [apply (t_perm _ ((d, OHost PGarbage PGarbage PGarbage AF_INET 0) :: F)), t_put|].
  { rewrite H2, H1. unfold F. solve_Permutation. }
  intros ? ? ->. apply t_ret. eexists. split; [by apply (host_rep_intro d v qn da dl qa' ql')|].
  unfold F, block. solve_Permutation.
Qed.

Lemma t_free_each (os : list obj) : forall qs F, length qs = length os ->
  triple (zip qs os ++ F) (free_each qs) (fun _ G' => G' = F).
Proof.
  induction os as [|o os IH]; intros [|q qs] F Hl; try done; [by apply t_ret|]. cbn [free_each zip_with app].
  eapply t_bind; [apply t_free|]. intros _ ? ->. apply IH. by injection Hl.
Qed.

Lemma t_free_array {A} (mk : A -> obj) a qs xs F : length qs = length xs ->
  triple (block mk a qs xs ++ F) (free_array (PTo a)) (fun _ G' => G' = F).
Proof.
  intros Hl. unfold free_array. cbn [deref]. rewrite ret_bind.
  eapply t_bind; [apply (t_load_ptrs _ a qs); unfold block; set_solver|]. intros ? ? [-> ->].
  rewrite pointers_arr. change (st_lift (Ok qs)) with (st_ret (S := mem) qs). rewrite ret_bind.
  eapply t_bind; [apply (t_perm _ (zip qs (mk <$> xs) ++ (a, arr qs) :: F)), t_free_each; [unfold block; solve_Permutation | by rewrite length_fmap]|].
  intros _ ? ->. apply t_free.
Qed.

(** All of a host entry is freed, and nothing else. *)
Lemma t_free_hostent p v H F : host_rep p v H -> triple (H ++ F) (free_hostent p) (fun _ G' => G' = F).
Proof.
  intros [pn pa pl qa ql Ha Hl]. set (h := OHost _ _ _ _ _). unfold free_hostent.
  eapply t_bind; [apply (t_load _ p h); set_solver|]. intros ? ? [-> ->]. cbn [h].
  set (F1 := block OStr pl ql (h_aliases v) ++ (p, h) :: F). set (F2 := block OAddr pa qa (h_addr_list v) ++ F1).
  eapply t_bind; [apply (t_perm _ ((pn, OStr (h_name v)) :: F2)), t_free; unfold F2, F1; solve_Permutation|]. intros _ ? ->.
  eapply t_bind; [by apply t_free_array|]. intros _ ? ->.
  eapply t_bind; [by apply t_free_array|]. intros _ ? ->. apply t_free.
Qed.

(** ** The table on the heap *)

Section Reps.
Context {X Y : Type} (R : X -> Y -> list (nat * obj) -> Prop).

(** Each member has objects of its own. *)
Inductive reps : list X -> list Y -> list (nat * obj) -> Prop :=
| reps_nil : reps [] [] []
| reps_cons x y xs ys G H : R x y G -> reps xs ys H -> reps (x :: xs) (y :: ys) (G ++ H).

Lemma reps_length xs ys G : reps xs ys G -> length xs = length ys.
Proof. induction 1; cbn; congruence. Qed.

Lemma reps_snoc xs ys G x y H : reps xs ys G -> R x y H -> exists G', reps (xs ++ [x]) (ys ++ [y]) G' /\ G' ≡ₚ H ++ G.
Proof.
  intros Hr Hx. induction Hr as [|x' y' xs ys G1 G2 H1 _ (G' & IH & P)].
  - exists (H ++ []). split; [by apply reps_cons; [|apply reps_nil] | done].
  - exists (G1 ++ G'). split; [by apply reps_cons|]. rewrite P. solve_Permutation.
Qed.

(** A member taken out, and another put in its place. *)
Lemma reps_split i x y xs ys G : reps xs ys G -> xs !! i = Some x -> ys !! i = Some y ->
  exists G1 G2, R x y G1 /\ G ≡ₚ G1 ++ G2 /\
    (exists G', reps (delete i xs) (delete i ys) G' /\ G' ≡ₚ G2) /\
    forall x' y' G1', R x' y' G1' -> exists G', reps (<[i := x']> xs) (<[i := y']> ys) G' /\ G' ≡ₚ G1' ++ G2.
Proof.
  intros Hr. revert i. induction Hr as [|x0 y0 xs ys H1 H2 Hx Hr IH]; intros [|i] Ex Ey; try done.
  - injection Ex as ->. injection Ey as ->. exists H1, H2. split_and!; [done | done | by exists H2|].
    intros x' y' G1' HR. eexists. split; [by apply reps_cons | done].
  - destruct (IH i Ex Ey) as (G1 & G2 & HR & P & (D & HD & PD) & HI). exists G1, (H1 ++ G2). split_and!; [done | rewrite P; solve_Permutation | |].
    + exists (H1 ++ D). split; [by apply reps_cons | by rewrite PD].
    + intros x' y' G1' HR'. destruct (HI _ _ _ HR') as (G' & HG & PG). exists (H1 ++ G'). split; [by apply reps_cons|]. rewrite PG. solve_Permutation.
Qed.

End Reps.

Inductive slot_rep : option nat -> option cache_data_t -> list (nat * obj) -> Prop :=
| slot_none : slot_rep None None []
| slot_node n k v d H : host_rep v (value d) H -> host_ok (value d) ->
    slot_rep (Some n) (Some d) ((n, ONode (PTo k) (PTo v) (savetime d)) :: (k, OStr (key d)) :: H).

(** The heap holds the cache of [s], and [F] besides. *)
Definition holds (m : mem) (s : dns) (F : list (nat * obj)) : Prop :=
  exists T, reps slot_rep (table m) (hashtab s) T /\ Z.of_nat (length (hashtab s)) = HASHSIZE /\ ledger m (T ++ F).

Lemma empty_holds m A : ledger m A -> table m = replicate (Z.to_nat HASHSIZE) None -> holds m dns0 A.
Proof.
  intros L Ht. exists []. split_and!; [|done|done]. rewrite Ht. clear. unfold dns0. cbn [hashtab].
  induction (Z.to_nat HASHSIZE) as [|k IH]; [apply reps_nil|]. exact (reps_cons slot_rep None None _ _ [] [] slot_none IH).
Qed.

Lemma holds_perm m s F F' : F ≡ₚ F' -> holds m s F -> holds m s F'.
Proof. intros P (T & Hr & Hl & L). exists T. split_and!; try done. by rewrite <-P. Qed.

(** What leaves the table alone can be done beside the cache. *)
Lemma holds_triple {A} m s F (f : stt mem A) Q : holds m s F -> (forall T, triple (T ++ F) f (fun a G' => exists F', G' ≡ₚ T ++ F' /\ Q a F')) ->
  exists a m' F', f m = Ok (a, m') /\ holds m' s F' /\ Q a F'.
Proof.
  intros (T & Hr & Hl & L) Hf. destruct (Hf T m L) as (a & m' & G' & E & L' & ET & F' & P & HQ).
  exists a, m', F'. split_and!; [done | | done]. exists T. rewrite ET. split_and!; try done. by rewrite <-P.
Qed.

Lemma slot_of m s F k : holds m s F -> exists x y, aget (table m) (key_hash k) = Ok x /\ aget (hashtab s) (key_hash k) = Ok y /\
  table m !! Z.to_nat (key_hash k) = Some x /\ hashtab s !! Z.to_nat (key_hash k) = Some y.
Proof.
  intros (T & Hr & Hl & _). pose proof (reps_length _ _ _ _ Hr) as El. pose proof (key_hash_bound k) as Hb.
  destruct (aget_lt (table m) (key_hash k)) as (x & Hx & Ex); [lia|]. destruct (aget_lt (hashtab s) (key_hash k)) as (y & Hy & Ey); [lia|].
  by exists x, y.
Qed.

Lemma t_free_node n k v d H F : host_rep v (value d) H ->
  triple ((n, ONode (PTo k) (PTo v) (savetime d)) :: (k, OStr (key d)) :: H ++ F) (free_node n)
    (fun _ G' => G' = (n, ONode (PTo k) (PTo v) (savetime d)) :: F).
Proof.
  intros Hh. set (o := ONode _ _ _). unfold free_node. eapply t_bind; [apply (t_load _ n o); set_solver|]. intros ? ? [-> ->]. cbn [o deref].
  eapply t_bind; [apply (t_perm _ ((k, OStr (key d)) :: H ++ (n, o) :: F)), t_free; solve_Permutation|]. intros _ ? ->.
  rewrite ret_bind. by eapply t_free_hostent.
Qed.

Inductive answer_rep : option nat -> option hostent -> list (nat * obj) -> Prop :=
| answer_none : answer_rep None None []
| answer_some p v H : host_rep p v H -> host_ok v -> answer_rep (Some p) (Some v) H.

(** What the slot of a key holds, and how the heap is when the slot is written. *)
Lemma holds_slot m s F k : holds m s F ->
  exists x y G1 G2, aget (table m) (key_hash k) = Ok x /\ aget (hashtab s) (key_hash k) = Ok y /\ slot_rep x y G1 /\ ledger m (G1 ++ G2 ++ F) /\
    (forall F' m', table m' = table m -> ledger m' (G1 ++ G2 ++ F') -> holds m' s F') /\
    forall x' y' G1' F' m', slot_rep x' y' G1' -> table m' = table m -> ledger m' (G1' ++ G2 ++ F') ->
      exists t t', aset (table m') (key_hash k) x' = Ok t /\ aset (hashtab s) (key_hash k) y' = Ok t' /\
        holds (set_table m' t) (set_hashtab s t') F'.
Proof.
  intros Hm. destruct (slot_of m s F k Hm) as (x & y & Ex & Ey & Lx & Ly). destruct Hm as (T & Hr & Hl & L).
  destruct (reps_split _ _ _ _ _ _ _ Hr Lx Ly) as (G1 & G2 & HR & P & _ & HI). exists x, y, G1, G2. split_and!; [done..| | |].
  { rewrite P in L. by rewrite <-(assoc_L (++)) in L. }
  { intros F' m' Et L'. exists T. rewrite Et. split_and!; try done. rewrite P. by rewrite <-(assoc_L (++)). }
  intros x' y' G1' F' m' HR' Et L'. destruct (HI _ _ _ HR') as (T' & Hr' & P'). pose proof (key_hash_bound k) as Hb.
  pose proof (reps_length _ _ _ _ Hr) as El. rewrite Et, !aset_lt by lia. eexists _, _. split_and!; [done..|]. exists T'. cbn.
  split_and!; [done | by rewrite length_insert|]. change (ledger m' (T' ++ F')). rewrite P'. by rewrite <-(assoc_L (++)).
Qed.

(** A lookup on the heap finds what it finds in [HelperDns], as a copy. *)
Lemma lookup_refines m s F k now : holds m s F ->
  exists r m' v s' H, lookup_str k now m = Ok (r, m') /\ HelperDns.lookup_str k now s = Ok (v, s') /\
    holds m' s' (H ++ F) /\ answer_rep r v H.
Proof.
  intros Hm. destruct (holds_slot m s F k Hm) as (x & y & G1 & G2 & Ex & Ey & HR & L & HK & HI).
  unfold lookup_str, HelperDns.lookup_str. rewrite (st_bind_ok st_get _ m m m), (st_bind_ok st_get _ s s s) by done.
  rewrite (st_bind_ok (st_lift _) _ m x m), (st_bind_ok (st_lift _) _ s y s) by (unfold st_lift; by rewrite ?Ex, ?Ey).
  destruct HR as [|n pk pv d H Hh Hok]; [exists None, m, None, s, []; by repeat split; [..|apply answer_none]|].
  rewrite (st_bind_ok (load n) _ m (ONode (PTo pk) (PTo pv) (savetime d)) m) by (eapply load_ok; [exact L | set_solver]). cbn [deref]. rewrite ret_bind.
  rewrite (st_bind_ok (load_str pk) _ m (key d) m).
  2: { unfold load_str. rewrite (st_bind_ok (load pk) _ m (OStr (key d)) m) by (eapply load_ok; [exact L | set_solver]). done. }
  destruct (cstr_eqb (key d) k); [|exists None, m, None, s, []; by repeat split; [..|apply answer_none]].
  destruct (CACHETIME * 1000 <? ms_diff now (savetime d)).
  - destruct (t_free_node n pk pv d H (G2 ++ F) Hh m) as ([] & m1 & ? & E1 & L1 & T1 & ->).
    { revert L. apply ledger_swap. solve_Permutation. }
    destruct (t_free _ n _ m1 L1) as ([] & m2 & ? & E2 & L2 & T2 & ->).
    destruct (HI None None [] F m2 slot_none ltac:(congruence) L2) as (t & t' & Et & Et' & Hm').
    exists None, (set_table m2 t), None, (set_hashtab s t'), []. rewrite (st_bind_ok _ _ _ _ _ E1), (st_bind_ok _ _ _ _ _ E2).
    unfold st_bind, st_get, st_lift, st_put. rewrite Et, Et'. by repeat split; [..|apply answer_none].
  - destruct (t_deepcopy (G2 ++ ((n, ONode (PTo pk) (PTo pv) (savetime d)) :: (pk, OStr (key d)) :: H) ++ F) pv (value d) H Hh Hok ltac:(set_solver) m)
      as (q & m1 & G' & E1 & L1 & T1 & H' & Hh' & P).
    { revert L. apply ledger_swap. solve_Permutation. }
    exists (Some q), m1, (Some (value d)), s, H'. rewrite ret_bind, (st_bind_ok _ _ _ _ _ E1).
    unfold st_bind, st_lift. rewrite deepcopy_ok by done. split_and!; [done | done | | by apply answer_some].
    apply HK; [done|]. rewrite P in L1. revert L1. apply ledger_swap. solve_Permutation.
Qed.

(** Storing: the key goes into the table as it is, the host entry is copied and
    an entry that was in the slot is freed. *)
Lemma store_refines m s F k key p v H now : holds m s ((k, OStr key) :: F) -> host_rep p v H -> host_ok v -> H ⊆ F ->
  exists m' s', cache_str k p now m = Ok (tt, m') /\ HelperDns.cache_str key v now s = Ok (tt, s') /\ holds m' s' F.
Proof.
  intros Hm Hh Hok Hs. destruct (holds_slot m s _ key Hm) as (x & y & G1 & G2 & Ex & Ey & HR & L & _ & HI).
  unfold cache_str, HelperDns.cache_str.
  rewrite (st_bind_ok (load_str k) _ m key m).
  2: { unfold load_str. rewrite (st_bind_ok (load k) _ m (OStr key) m) by (eapply load_ok; [exact L | set_solver]). done. }
  rewrite (st_bind_ok st_get _ m m m), (st_bind_ok st_get _ s s s) by done.
  rewrite (st_bind_ok (st_lift _) _ m x m), (st_bind_ok (st_lift _) _ s y s) by (unfold st_lift; by rewrite ?Ex, ?Ey).
  assert (exists n o m1, match x with Some n => free_node n ;;; st_ret n | None => alloc (ONode PGarbage PGarbage (Timespec 0 0)) end m = Ok (n, m1) /\
    ledger m1 ((n, o) :: G2 ++ (k, OStr key) :: F) /\ table m1 = table m) as (n & o & m1 & E1 & L1 & T1).
  { destruct HR as [|n pk pv d H0 Hh0 Hok0].
    - destruct (t_alloc _ (ONode PGarbage PGarbage (Timespec 0 0)) m L) as (n & m1 & ? & E1 & L1 & T1 & ->). by eexists n, _, m1.
    - destruct (t_free_node n pk pv d H0 (G2 ++ (k, OStr key) :: F) Hh0 m) as ([] & m1 & ? & E1 & L1 & T1 & ->).
      { revert L. apply ledger_swap. solve_Permutation. }
      eexists n, _, m1. by rewrite (st_bind_ok _ _ _ _ _ E1). }
  rewrite (st_bind_ok _ _ _ _ _ E1).
  destruct (t_deepcopy ((n, o) :: G2 ++ (k, OStr key) :: F) p v H Hh Hok ltac:(set_solver) m1 L1) as (q & m2 & G' & E2 & L2 & T2 & H' & Hh' & P). rewrite (st_bind_ok _ _ _ _ _ E2).
  destruct (t_put (H' ++ G2 ++ (k, OStr key) :: F) n o (ONode (PTo k) (PTo q) now) m2) as ([] & m3 & ? & E3 & L3 & T3 & ->).
  { rewrite P in L2. revert L2. apply ledger_swap. solve_Permutation. }
  rewrite (st_bind_ok _ _ _ _ _ E3).
  destruct (HI (Some n) (Some (CacheData key v now)) _ F m3 (slot_node n k q (CacheData key v now) H' Hh' Hok) ltac:(congruence)) as (t & t' & Et & Et' & Hm').
  { revert L3. apply ledger_swap. solve_Permutation. }
  exists (set_table m3 t), (set_hashtab s t'). unfold st_bind, st_get, st_lift, st_put. by rewrite deepcopy_ok, Et, Et' by done.
Qed.

Lemma holds_alloc m s F o : holds m s F -> exists a m', alloc o m = Ok (a, m') /\ holds m' s ((a, o) :: F).
Proof.
  intros Hm. destruct (holds_triple m s F (alloc o) (fun a F' => F' = (a, o) :: F) Hm) as (a & m' & ? & E & Hm' & ->); [|by exists a, m'].
  intros T. eapply t_conseq; [apply t_alloc|]. intros a ? ->. eexists. split; [done|]. exists ((a, o) :: F). split; [solve_Permutation | done].
Qed.

Lemma holds_free m s F a o : holds m s ((a, o) :: F) -> exists m', Free (PTo a) m = Ok (tt, m') /\ holds m' s F.
Proof.
  intros Hm. destruct (holds_triple m s _ (Free (PTo a)) (fun _ F' => F' = F) Hm) as ([] & m' & ? & E & Hm' & ->); [|by exists m'].
  intros T. eapply t_conseq; [apply (t_perm _ ((a, o) :: T ++ F)), t_free; solve_Permutation|]. intros ? ? ->. eexists. split; [done|]. by exists F.
Qed.

Lemma holds_free_hostent m s F p v H : host_rep p v H -> holds m s (H ++ F) -> exists m', free_hostent p m = Ok (tt, m') /\ holds m' s F.
Proof.
  intros Hh Hm. destruct (holds_triple m s _ (free_hostent p) (fun _ F' => F' = F) Hm) as ([] & m' & ? & E & Hm' & ->); [|by exists m'].
  intros T. eapply t_conseq; [apply (t_perm _ (H ++ T ++ F)), (t_free_hostent p v H _ Hh); solve_Permutation|]. intros ? ? ->. eexists. split; [done|]. by exists F.
Qed.

(** The entries of c-ares, with their values, and the objects they consist of. *)
Definition arena_rep (arena : list (nat * hostent)) (A : list (nat * obj)) : Prop :=
  Forall (fun x => exists H, host_rep x.1 x.2 H /\ host_ok x.2 /\ H ⊆ A) arena.

Lemma arena_host arena A x : arena_rep arena A -> x ∈ arena -> exists H, host_rep x.1 x.2 H /\ host_ok x.2 /\ H ⊆ A.
Proof. intros HA Hx. unfold arena_rep in HA. rewrite Forall_forall in HA. by apply HA. Qed.

(** ** The queues *)

Inductive msg_rep : list (option nat) -> list (option hostent) -> list (nat * obj) -> Prop :=
| msg_one x v G : answer_rep x v G -> msg_rep [x] [v] G.

Inductive queue_rep : option (list (list (option nat))) -> option (list (list (option hostent))) -> list (nat * obj) -> Prop :=
| queue_none : queue_rep None None []
| queue_some l l' G : reps msg_rep l l' G -> queue_rep (Some l) (Some l') G.

(** All queues there have ever been, in order. *)
Definition slots {X} (a : aqs X) : list (option (list (list X))) := (fun i => live a !! i) <$> seq 0 (count a).

Lemma slots_lookup {X} (a : aqs X) i : (i < count a)%nat -> slots a !! i = Some (live a !! i).
Proof. intros Hi. unfold slots. rewrite list_lookup_fmap, lookup_seq_lt by done. done. Qed.

Lemma length_slots {X} (a : aqs X) : length (slots a) = count a.
Proof. unfold slots. by rewrite length_fmap, length_seq. Qed.

Lemma slots_update {X} (a a' : aqs X) i x :
  (i < count a)%nat -> count a' = count a -> live a' !! i = x -> (forall j, j <> i -> live a' !! j = live a !! j) ->
  slots a' = <[i := x]> (slots a).
Proof.
  intros Hi Hc Hx Hj. apply list_eq. intros j. destruct (decide (j < count a)%nat) as [Hl|Hl].
  - rewrite slots_lookup by lia. destruct (decide (j = i)) as [->|Hne].
    + rewrite list_lookup_insert_eq by (rewrite length_slots; lia). by rewrite Hx.
    + rewrite list_lookup_insert_ne, slots_lookup, Hj by done. done.
  - rewrite !lookup_ge_None_2; [done | rewrite length_insert, length_slots; lia | rewrite length_slots; lia].
Qed.

(** Pointers and values of the queues, and the objects of the replies in them. *)
Record qs_rep (a : aqs (option nat)) (b : aqs (option hostent)) (G : list (nat * obj)) : Prop := {
  qr_free : free a = free b;
  qr_count : count a = count b;
  qr_dead i : i ∈ free a -> (i < count a)%nat /\ live a !! i = None;
  qr_nodup : NoDup (free a);
  qr_out i : (count a <= i)%nat -> live a !! i = None /\ live b !! i = None;
  qr_slots : reps queue_rep (slots a) (slots b) G }.

Lemma qs_rep0 : qs_rep aqs0 aqs0 [].
Proof. split; try done; [by intros i Hi%not_elem_of_nil | apply NoDup_nil_2 | apply reps_nil]. Qed.

(** One queue, and what becomes of the rest when it is changed. *)
Lemma qs_at a b G i : qs_rep a b G -> (i < count a)%nat ->
  exists G1 G2, queue_rep (live a !! i) (live b !! i) G1 /\ G ≡ₚ G1 ++ G2 /\
    forall a' b' G1', count a' = count a -> count b' = count b ->
      (forall j, j <> i -> live a' !! j = live a !! j /\ live b' !! j = live b !! j) -> queue_rep (live a' !! i) (live b' !! i) G1' ->
      exists G', reps queue_rep (slots a') (slots b') G' /\ G' ≡ₚ G1' ++ G2.
Proof.
  intros R Hi. pose proof (qr_count _ _ _ R) as Hc.
  destruct (reps_split _ _ _ _ _ _ _ (qr_slots _ _ _ R) (slots_lookup a i Hi) (slots_lookup b i ltac:(lia))) as (G1 & G2 & H1 & P & _ & HI).
  exists G1, G2. split_and!; [done..|]. intros a' b' G1' Ca Cb Hj HR. destruct (HI _ _ _ HR) as (G' & Hr & P'). exists G'. split; [|done].
  rewrite (slots_update a a' i (live a' !! i)), (slots_update b b' i (live b' !! i)); try done; try lia; intros j Hne; by apply Hj.
Qed.

Lemma slots_grow {X} (a : aqs X) f : slots (Aqs (<[count a := []]> (live a)) f (S (count a))) = slots a ++ [Some []].
Proof.
  unfold slots. cbn [count live]. rewrite seq_S, fmap_app. cbn. rewrite lookup_insert_eq. f_equal.
  apply list_fmap_ext. intros j k Hj. apply lookup_seq in Hj as [-> Hj]. by rewrite lookup_insert_ne by lia.
Qed.

Lemma q_new a b G : qs_rep a b G ->
  exists i a' b' G', a_qstep a QNew = Some (AnInt (Z.of_nat i), a') /\ a_qstep b QNew = Some (AnInt (Z.of_nat i), b') /\
    qs_rep a' b' G' /\ G' ≡ₚ G.
Proof.
  intros R. pose proof (qr_free _ _ _ R) as Hf. pose proof (qr_count _ _ _ R) as Hc. pose proof (qr_dead _ _ _ R) as Hd.
  pose proof (qr_nodup _ _ _ R) as Hn. cbn [a_qstep]. rewrite <-Hf. destruct (free a) as [|i f] eqn:Ef.
  - destruct (reps_snoc queue_rep _ _ _ (Some []) (Some []) [] (qr_slots _ _ _ R) (queue_some [] [] [] (reps_nil msg_rep))) as (G' & Hr & P).
    exists (count a), (Aqs (<[count a := []]> (live a)) [] (S (count a))), (Aqs (<[count b := []]> (live b)) [] (S (count b))), G'.
    split_and!; [reflexivity | by rewrite Hc | | done]. split; [done | by cbn; rewrite Hc | | apply NoDup_nil_2 | |].
    + by intros i Hi%not_elem_of_nil.
    + cbn. intros i Hi. destruct (qr_out _ _ _ R i ltac:(lia)). by rewrite !lookup_insert_ne by lia.
    + by rewrite !slots_grow.
  - destruct (Hd i ltac:(left)) as [Hi Hl]. apply NoDup_cons in Hn as [Hni Hn].
    destruct (qs_at a b G i R Hi) as (G1 & G2 & HQ & P & HI). rewrite Hl in HQ. inversion HQ as [E1 E2 E3|]. subst G1.
    destruct (HI (Aqs (<[i := []]> (live a)) f (count a)) (Aqs (<[i := []]> (live b)) f (count b)) []) as (G' & Hr & P'); [done | done | | |].
    + intros j Hj. cbn. by rewrite !lookup_insert_ne.
    + cbn. rewrite !lookup_insert_eq. apply queue_some, reps_nil.
    + eexists i, _, _, G'. split_and!; [reflexivity | reflexivity | | by rewrite P', P]. split; cbn; try done.
      * intros j Hj. destruct (Hd j ltac:(by right)) as [Hj1 Hj2]. split; [done|]. rewrite lookup_insert_ne; [done|]. by intros ->.
      * intros j Hj. destruct (qr_out _ _ _ R j Hj). rewrite !lookup_insert_ne by lia. done.
Qed.

(** A queue that is not there has no number, or has been released. *)
Lemma qs_cases a b G i : qs_rep a b G ->
  live a !! i = None /\ live b !! i = None \/
  (i < count a)%nat /\ exists l l', live a !! i = Some l /\ live b !! i = Some l'.
Proof.
  intros R. destruct (decide (i < count a)%nat) as [Hi|Hi]; [|left; apply (qr_out _ _ _ R); lia].
  destruct (qs_at a b G i R Hi) as (G1 & G2 & HQ & _). inversion HQ; [by left|]. right. split; [done|]. eauto.
Qed.

(** A queue that is there is given other messages. *)
Lemma q_set a b G i l l' m m' G1 : qs_rep a b G -> (i < count a)%nat -> live a !! i = Some l -> live b !! i = Some l' ->
  (forall G0, reps msg_rep l l' G0 -> exists G0', reps msg_rep m m' G0' /\ G1 ++ G0 ≡ₚ G0') ->
  exists G', qs_rep (Aqs (<[i := m]> (live a)) (free a) (count a)) (Aqs (<[i := m']> (live b)) (free b) (count b)) G' /\ G1 ++ G ≡ₚ G'.
Proof.
  intros R Hi Ha Hb Hm. destruct (qs_at a b G i R Hi) as (G0 & G2 & HQ & P & HI). rewrite Ha, Hb in HQ.
  inversion HQ as [|? ? ? Hr E1 E2 E3]. subst. destruct (Hm G0 Hr) as (G0' & Hr' & P0).
  destruct (HI (Aqs (<[i := m]> (live a)) (free a) (count a)) (Aqs (<[i := m']> (live b)) (free b) (count b)) G0') as (G' & Hs & P'); [done | done | | |].
  - intros j Hj. cbn. by rewrite !lookup_insert_ne.
  - cbn. rewrite !lookup_insert_eq. by apply queue_some.
  - exists G'. split; [|by rewrite P', <-P0, P, (assoc_L (++))]. split; cbn; try apply R; [..|exact Hs].
    + intros j Hj. destruct (qr_dead _ _ _ R j Hj) as [H1 H2]. split; [done|]. rewrite lookup_insert_ne; [done|]. intros ->. congruence.
    + intros j Hj. destruct (qr_out _ _ _ R j Hj). by rewrite !lookup_insert_ne by lia.
Qed.

(** A reply is put in its queue, or dropped when the queue is not there. *)
Lemma q_put a b G i now x v H : qs_rep a b G -> answer_rep x v H ->
  exists za zb a' b', a_qstep a (QPut i now [x]) = Some (za, a') /\ a_qstep b (QPut i now [v]) = Some (zb, b') /\
    if bool_decide (is_Some (live b !! i)) then exists G', qs_rep a' b' G' /\ H ++ G ≡ₚ G' else a' = a /\ b' = b.
Proof.
  intros R Ha. cbn [a_qstep]. destruct (qs_cases a b G i R) as [[-> ->]|(Hi & l & l' & El & El')].
  - rewrite bool_decide_false by (by intros [? ?]). by eexists _, _, _, _.
  - rewrite El, El', bool_decide_true by (by eexists). eexists _, _, _, _. split; [reflexivity|]. split; [reflexivity|].
    apply (q_set a b G i l l'); try done. intros G0 Hr. destruct (reps_snoc msg_rep l l' G0 [x] [v] H Hr (msg_one x v H Ha)) as (G' & Hr' & P).
    by exists G'.
Qed.

(** A reply is taken out of its queue. *)
Lemma q_get a b G i : qs_rep a b G ->
  a_qstep a (QGet i 1) = None /\ a_qstep b (QGet i 1) = None \/
  a_qstep a (QGet i 1) = Some (AnMsg 0 [], a) /\ a_qstep b (QGet i 1) = Some (AnMsg 0 [], b) \/
  exists x v H a' b' G', a_qstep a (QGet i 1) = Some (AnMsg 1 [x], a') /\ a_qstep b (QGet i 1) = Some (AnMsg 1 [v], b') /\
    answer_rep x v H /\ qs_rep a' b' G' /\ G ≡ₚ H ++ G'.
Proof.
  intros R. cbn [a_qstep]. destruct (qs_cases a b G i R) as [[-> ->]|(Hi & l & l' & El & El')]; [by right; left|].
  destruct (qs_at a b G i R Hi) as (G0 & G2 & HQ & P & HI). rewrite El, El' in HQ |- *. inversion HQ as [|? ? ? Hr E1 E2 E3]. subst.
  inversion Hr as [|x y xs ys Gm Gr Hm Hrest]; subst; [by left|]. right. right. destruct Hm as [x v Gm Ha].
  destruct (HI (Aqs (<[i := xs]> (live a)) (free a) (count a)) (Aqs (<[i := ys]> (live b)) (free b) (count b)) Gr) as (G' & Hs & P'); [done | done | | |].
  - intros j Hj. cbn. by rewrite !lookup_insert_ne.
  - cbn. rewrite !lookup_insert_eq. by apply queue_some.
  - eexists x, v, Gm, _, _, G'. split_and!; [reflexivity | reflexivity | done | | by rewrite P', P, (assoc_L (++))]. split; cbn; try apply R; [..|exact Hs].
    + intros j Hj. destruct (qr_dead _ _ _ R j Hj) as [H1 H2]. split; [done|]. rewrite lookup_insert_ne; [done|]. intros ->. congruence.
    + intros j Hj. destruct (qr_out _ _ _ R j Hj). by rewrite !lookup_insert_ne by lia.
Qed.

Lemma q_release a b G i : qs_rep a b G ->
  exists za zb a' b' G', a_qstep a (QRelease i) = Some (za, a') /\ a_qstep b (QRelease i) = Some (zb, b') /\ qs_rep a' b' G' /\ G' ≡ₚ G.
Proof.
  intros R. cbn [a_qstep]. destruct (qs_cases a b G i R) as [[-> ->]|(Hi & l & l' & El & El')]; [by eexists _, _, a, b, G|].
  destruct (qs_at a b G i R Hi) as (G0 & G2 & HQ & P & HI). rewrite El, El' in HQ |- *. inversion HQ as [|? ? ? Hr E1 E2 E3]. subst.
  inversion Hr as [|x y xs ys Gm Gr Hm Hrest]; subst; [|by eexists _, _, a, b, G].
  destruct (HI (Aqs (delete i (live a)) (free a ++ [i]) (count a)) (Aqs (delete i (live b)) (free b ++ [i]) (count b)) []) as (G' & Hs & P'); [done | done | | |].
  - intros j Hj. cbn. by rewrite !lookup_delete_ne.
  - cbn. rewrite !lookup_delete_eq. apply queue_none.
  - eexists _, _, _, _, G'. split_and!; [reflexivity | reflexivity | | by rewrite P', P]. split; cbn; [by rewrite (qr_free _ _ _ R) | apply R | | | | exact Hs].
    + intros j Hj. apply elem_of_app in Hj as [Hj|Hj].
      * destruct (qr_dead _ _ _ R j Hj). split; [done|]. by apply lookup_delete_None; right.
      * apply list_elem_of_singleton in Hj as ->. split; [done|]. apply lookup_delete_eq.
    + apply NoDup_app. split; [apply R|]. split; [|apply NoDup_singleton]. intros j Hj Hj'. apply list_elem_of_singleton in Hj' as ->.
      destruct (qr_dead _ _ _ R i Hj). congruence.
    + intros j Hj. destruct (qr_out _ _ _ R j Hj). split; by apply lookup_delete_None; right.
Qed.

(** ** The steps of a lookup *)

(** The record of a request that was sent. *)
Inductive cba_rep : nat -> ares_request -> list (nat * obj) -> Prop :=
| cba_sent p r : cba_rep p r [(p, OCba (Some (ar_response_q r)))].

(** The heap holds the cache, the replies in the queues, the records of the
    requests, and [F] besides. *)
Definition heap_rep (h : dheap) (s : dns) (F : list (nat * obj)) : Prop :=
  exists Q P, qs_rep (dh_queues h) (d_queues s) Q /\ reps cba_rep (dh_pending h) (d_pending s) P /\ holds (dh_mem h) s (Q ++ P ++ F).

Lemma heap_perm h s F F' : F ≡ₚ F' -> heap_rep h s F -> heap_rep h s F'.
Proof. intros E (Q & P & H1 & H2 & H3). exists Q, P. split_and!; try done. revert H3. apply holds_perm. by rewrite E. Qed.

Lemma holds_frame m s s' F : hashtab s = hashtab s' -> holds m s F -> holds m s' F.
Proof. unfold holds. by intros ->. Qed.

Lemma on_mem_ok {A} (f : stt mem A) h a m : f (dh_mem h) = Ok (a, m) -> on_mem f h = Ok (a, DHeap m (dh_queues h) (dh_pending h)).
Proof. intros E. unfold on_mem. by rewrite E. Qed.

(** What is done to the heap alone. *)
Lemma heap_mem {A} (f : stt mem A) h s F a m' s' F' :
  heap_rep h s F -> f (dh_mem h) = Ok (a, m') -> d_queues s' = d_queues s -> d_pending s' = d_pending s ->
  (forall G, holds (dh_mem h) s (G ++ F) -> holds m' s' (G ++ F')) ->
  on_mem f h = Ok (a, DHeap m' (dh_queues h) (dh_pending h)) /\ heap_rep (DHeap m' (dh_queues h) (dh_pending h)) s' F'.
Proof.
  intros (Q & P & HQ & HP & Hm) E Eq Ep Hf. split; [by apply on_mem_ok|]. exists Q, P. cbn. rewrite Eq, Ep. split_and!; [done..|].
  rewrite (assoc_L (++)) in Hm |- *. by apply Hf.
Qed.

Lemma heap_alloc h s F o : heap_rep h s F ->
  exists a h', on_mem (alloc o) h = Ok (a, h') /\ heap_rep h' s ((a, o) :: F) /\ dh_queues h' = dh_queues h /\ dh_pending h' = dh_pending h.
Proof.
  intros (Q & P & HQ & HP & Hm). destruct (holds_alloc _ s _ o Hm) as (a & m' & E & Hm'). eexists a, _. split; [by apply on_mem_ok|].
  split; [|done]. exists Q, P. split_and!; [done..|]. revert Hm'. apply holds_perm. solve_Permutation.
Qed.

(** A lookup in the cache. *)
Lemma heap_lookup h s F k now : heap_rep h s F ->
  exists r h' v s' H, on_mem (lookup_str k now) h = Ok (r, h') /\ HelperDns.lookup_str k now s = Ok (v, s') /\
    heap_rep h' s' (H ++ F) /\ answer_rep r v H /\ d_queues s' = d_queues s /\ d_pending s' = d_pending s.
Proof.
  intros (Q & P & HQ & HP & Hm). destruct (lookup_refines _ s _ k now Hm) as (r & m' & v & s' & H & E & E' & Hm' & Ha).
  assert (d_queues s' = d_queues s /\ d_pending s' = d_pending s) as [E1 E2].
  { revert E'. unfold HelperDns.lookup_str, st_bind, st_lift, st_ret, st_get, st_put, set_hashtab. destruct (aget _ _) as [[n|]|]; [|by intros [= <- <-]|done].
    destruct (cstr_eqb _ _); [|by intros [= <- <-]]. destruct (_ <? _); [destruct (aset _ _ _) | destruct (HelperDns.hostent_deepcopy _)]; by intros [= <- <-]. }
  eexists r, _, v, s', H. split; [by apply on_mem_ok|]. split_and!; try done. exists Q, P. cbn. rewrite E1, E2. split_and!; try done.
  revert Hm'. apply holds_perm. solve_Permutation.
Qed.

(** A queue is taken, and a request is written; its record is there already. *)
Lemma get_queue_refines h s F : heap_rep h s F ->
  exists i h' s', get_response_q h = Ok (i, h') /\ HelperDns.get_response_q s = Ok (i, s') /\ heap_rep h' s' F.
Proof.
  intros (Q & P & HQ & HP & Hm). destruct (q_new _ _ _ HQ) as (i & a' & b' & Q' & Ea & Eb & HQ' & PQ).
  unfold get_response_q, HelperDns.get_response_q. rewrite (st_bind_ok st_get _ h h h), (st_bind_ok st_get _ s s s), Ea, Eb by done.
  eexists i, (set_hqueues h a'), (set_queues s b'). rewrite Nat2Z.id. split_and!; [done..|]. exists Q', P. cbn. split_and!; [done..|].
  apply (holds_frame _ s); [done|]. revert Hm. apply holds_perm. by rewrite PQ.
Qed.

Lemma write_refines h s F cba o q f i : heap_rep h s ((cba, OCba o) :: F) ->
  exists h' s', write_request cba i h = Ok (tt, h') /\ HelperDns.write_request q f i s = Ok (tt, s') /\ heap_rep h' s' F.
Proof.
  intros (Q & P & HQ & HP & Hm).
  assert (holds (dh_mem h) s ((cba, OCba o) :: Q ++ P ++ F)) as Hm1 by (revert Hm; apply holds_perm; solve_Permutation).
  destruct (holds_triple _ s _ (put cba (OCba (Some i))) (fun _ F' => F' = (cba, OCba (Some i)) :: Q ++ P ++ F) Hm1) as ([] & m' & ? & E & Hm' & ->).
  { intros T. eapply t_conseq; [apply (t_perm _ ((cba, OCba o) :: T ++ Q ++ P ++ F)), t_put; solve_Permutation|]. intros _ ? ->.
    eexists. split; [done|]. exists ((cba, OCba (Some i)) :: Q ++ P ++ F). split; [solve_Permutation | done]. }
  destruct (reps_snoc cba_rep _ _ _ cba (AresRequest q f i) _ HP (cba_sent cba (AresRequest q f i))) as (P' & HP' & PP).
  eexists (DHeap m' (dh_queues h) (dh_pending h ++ [cba])), _. split; [|split; [reflexivity|]].
  - unfold write_request. erewrite st_bind_ok; [|apply on_mem_ok; exact E]. done.
  - exists Q, P'. cbn. split_and!; [done..|]. apply (holds_frame _ s); [done|]. revert Hm'. apply holds_perm. rewrite PP. solve_Permutation.
Qed.

(** What looking comes to: a copy, or the record of a request to send. *)
Inductive look_rep : nat + nat -> option hostent -> list (nat * obj) -> Prop :=
| look_found p v H : host_rep p v H -> host_ok v -> look_rep (inl p) (Some v) H
| look_absent cba : look_rep (inr cba) None [(cba, OCba None)].

Lemma look_name_refines h s F k now : heap_rep h s F ->
  exists r h' v s' H, look_name k now h = Ok (r, h') /\ HelperDns.lookup_str k now s = Ok (v, s') /\ look_rep r v H /\ heap_rep h' s' (H ++ F).
Proof.
  intros Hh. destruct (heap_lookup h s F k now Hh) as (e & h1 & v & s1 & H & E & E' & H1 & Ha & _). unfold look_name.
  rewrite (st_bind_ok _ _ _ _ _ E). destruct Ha as [|p v H Hr Hok].
  - destruct (heap_alloc h1 s1 F (OCba None) H1) as (cba & h2 & E2 & H2 & _). rewrite (st_bind_ok _ _ _ _ _ E2).
    exists (inr cba), h2, None, s1, [(cba, OCba None)]. split_and!; try done. apply look_absent.
  - exists (inl p), h1, (Some v), s1, H. split_and!; try done. by apply look_found.
Qed.

(** A lookup by address leaves its record when the cache has the answer. *)
Lemma look_addr_refines h s F k now : heap_rep h s F ->
  exists r h' v s' H C, look_addr k now h = Ok (r, h') /\ HelperDns.lookup_str k now s = Ok (v, s') /\ look_rep r v H /\ heap_rep h' s' (H ++ C ++ F) /\
    if v is Some _ then exists cba, C = [(cba, OCba None)] else C = [].
Proof.
  intros Hh. destruct (heap_alloc h s F (OCba None) Hh) as (cba & h0 & E0 & H0 & _). unfold look_addr. rewrite (st_bind_ok _ _ _ _ _ E0).
  destruct (heap_lookup h0 s _ k now H0) as (e & h1 & v & s1 & H & E & E' & H1 & Ha & _).
  rewrite (st_bind_ok _ _ _ _ _ E). destruct Ha as [|p v H Hr Hok].
  - exists (inr cba), h1, None, s1, [(cba, OCba None)], []. split_and!; try done. apply look_absent.
  - exists (inl p), h1, (Some v), s1, H, [(cba, OCba None)]. split_and!; try done; [by apply look_found | by exists cba].
Qed.

(** The host entries c-ares answers with, as pointers and as values. *)
Definition reply_t : Type := option (nat * hostent).

Definition reply_ok (arena : list (nat * hostent)) (r : reply_t) : Prop := forall x, r = Some x -> x ∈ arena.

(** The copy of an answer is lost when its queue is not there any more. *)
Definition lost_copy (i : nat) (r : reply_t) (s : dns) : list hostent :=
  match d_pending s !! i, r with
  | Some a, Some (_, v) => if bool_decide (is_Some (live (d_queues s) !! ar_response_q a)) then [] else [v]
  | _, _ => []
  end.

Lemma copy_reply arena A m s F r : arena_rep arena A -> A ⊆ F -> reply_ok arena r -> holds m s F ->
  exists x m' H, match fst <$> r with Some p => let* c := hostent_deepcopy p in st_ret (Some c) | None => st_ret None end m = Ok (x, m') /\
    (match snd <$> r with Some v => let* c := st_lift (HelperDns.hostent_deepcopy v) in st_ret (Some c) | None => st_ret None end) s = Ok (snd <$> r, s) /\
    answer_rep x (snd <$> r) H /\ holds m' s (H ++ F).
Proof.
  intros HA HF Hr Hm. destruct r as [[p v]|]; [|exists None, m, []; split_and!; try done; apply answer_none].
  destruct (arena_host arena A (p, v) HA (Hr _ eq_refl)) as (Hp & Hh & Hok & Hs). cbn [fst snd fmap option_fmap option_map] in *.
  destruct (holds_triple m s F (hostent_deepcopy p) (fun q F' => exists H', host_rep q v H' /\ F' ≡ₚ H' ++ F) Hm) as (q & m1 & F1 & E1 & Hm1 & H' & Hh' & P1).
  { intros T. eapply t_conseq; [apply (t_deepcopy _ p v Hp Hh Hok); intros x Hx; apply elem_of_app; right; by apply HF, Hs|].
    intros q G' (H' & Hh' & P). exists G'. split; [done|]. exists (H' ++ F). split; [rewrite P; solve_Permutation | eauto]. }
  exists (Some q), m1, H'. rewrite (st_bind_ok _ _ _ _ _ E1). unfold st_bind, st_lift, st_ret. rewrite deepcopy_ok by done.
  split_and!; [done | done | by apply answer_some | by eapply holds_perm].
Qed.

Lemma answer_refines arena A h s F i now r : arena_rep arena A -> A ⊆ F -> reply_ok arena r -> heap_rep h s F ->
  exists h' s' ls L, answer i now (fst <$> r) h = Ok (tt, h') /\ HelperDns.answer i now (snd <$> r) s = Ok (tt, s') /\
    reps host_rep ls (lost_copy i r s) L /\ heap_rep h' s' (L ++ F).
Proof.
  intros HA HF Hr (Q & P & HQ & HP & Hm). pose proof (reps_length _ _ _ _ HP) as El. unfold answer, HelperDns.answer, lost_copy.
  rewrite (st_bind_ok st_get _ h h h), (st_bind_ok st_get _ s s s) by done. destruct (dh_pending h !! i) as [cba|] eqn:Ec.
  2:{ apply lookup_ge_None in Ec. rewrite (lookup_ge_None_2 (d_pending s)) by lia. exists h, s, [], []. split_and!; try done; [apply reps_nil|]. by exists Q, P. }
  destruct (lookup_lt_is_Some_2 (d_pending s) i) as [a Ea]; [rewrite <-El; by eapply lookup_lt_Some|]. rewrite Ea.
  destruct (reps_split cba_rep i cba a _ _ _ HP Ec Ea) as (C & P2 & HC & PP & (P' & HP' & PP') & _). destruct HC as [cba a].
  set (o := OCba (Some (ar_response_q a))) in *.
  destruct (copy_reply arena A (dh_mem h) s (Q ++ P ++ F) r HA ltac:(set_solver) Hr Hm) as (x & m1 & H & E1 & E1' & Hx & Hm1).
  assert (holds m1 s ((cba, o) :: H ++ Q ++ P' ++ F)) as Hm2 by (revert Hm1; apply holds_perm; rewrite PP, PP'; solve_Permutation).
  destruct (holds_free m1 s _ cba o Hm2) as (m2 & E2 & Hm3).
  destruct (q_put _ _ _ (ar_response_q a) now x (snd <$> r) H HQ Hx) as (za & zb & qa & qb & Eqa & Eqb & Hput).
  assert (load cba m1 = Ok (o, m1)) as El1.
  { destruct Hm2 as (T & _ & _ & L). eapply load_ok; [exact L|]. apply elem_of_app. right. left. }
  set (h' := DHeap m2 qa (delete i (dh_pending h))). set (s' := Dns (hashtab s) qb (delete i (d_pending s))).
  assert (st_bind (st_put (set_pending h (delete i (dh_pending h)))) (fun _ => default_cb cba now (fst <$> r)) h = Ok (tt, h')) as Eh.
  { change (default_cb cba now (fst <$> r) (set_pending h (delete i (dh_pending h))) = Ok (tt, h')). unfold default_cb.
    erewrite st_bind_ok; [|apply on_mem_ok; exact E1]. erewrite st_bind_ok; [|apply on_mem_ok; exact El1].
    unfold st_bind, st_lift, st_get, st_put, o. cbn [dh_queues set_pending]. rewrite Eqa. unfold on_mem. cbn [dh_mem set_hqueues]. by rewrite E2. }
  assert (st_bind (st_put (Dns (hashtab s) (d_queues s) (delete i (d_pending s)))) (fun _ => HelperDns.default_cb (ar_response_q a) now (snd <$> r)) s = Ok (tt, s')) as Es.
  { unfold st_bind at 1, st_put. unfold HelperDns.default_cb. unfold st_bind at 1. destruct r as [[p v]|]; cbn [snd fmap option_fmap option_map] in *.
    - unfold st_bind, st_lift, st_ret in E1' |- *. destruct (HelperDns.hostent_deepcopy v) as [c|]; [|done]. injection E1' as ->.
      unfold st_get. cbn [d_queues]. rewrite Eqb. done.
    - unfold st_ret, st_bind, st_get. cbn [d_queues]. rewrite Eqb. done. }
  rewrite Eh, Es. destruct (bool_decide (is_Some (live (d_queues s) !! ar_response_q a))).
  - destruct Hput as (Q' & HQ' & PQ). exists h', s', [], []. split_and!; [done | done | destruct r as [[]|]; apply reps_nil |].
    exists Q', P'. cbn. split_and!; [done..|]. apply (holds_frame _ s); [done|]. revert Hm3. apply holds_perm. rewrite <-PQ. solve_Permutation.
  - destruct Hput as [-> ->]. assert (exists ls, reps host_rep ls (match r with Some (_, v) => [v] | None => [] end) H) as [ls Hls].
    { destruct r as [[p v]|]; cbn in Hx; inversion Hx as [|q w Hq Hh Hok]; subst; [|exists []; apply reps_nil].
      exists [q]. rewrite <-(app_nil_r H). apply reps_cons; [done | apply reps_nil]. }
    exists h', s', ls, H. split_and!; [done | done | by destruct r as [[p v]|] |].
    exists Q, P'. cbn. split_and!; [done..|]. apply (holds_frame _ s); [done|]. revert Hm3. apply holds_perm. solve_Permutation.
Qed.

(** What is received. *)
Inductive taken_rep : option (option nat) -> option (option hostent) -> list (nat * obj) -> Prop :=
| taken_none : taken_rep None None []
| taken_reply x v H : answer_rep x v H -> taken_rep (Some x) (Some v) H.

Inductive received_rep : option (option (option nat)) -> option (option (option hostent)) -> list (nat * obj) -> Prop :=
| received_waits : received_rep None None []
| received_some r r' H : taken_rep r r' H -> received_rep (Some r) (Some r') H.

Lemma receive_refines h s F q expired : heap_rep h s F ->
  exists r h' r' s' H, receive q expired h = Ok (r, h') /\ HelperDns.receive q expired s = Ok (r', s') /\ received_rep r r' H /\ heap_rep h' s' (H ++ F).
Proof.
  intros (Q & P & HQ & HP & Hm). unfold receive, HelperDns.receive, st_bind, st_get, st_put, st_ret, st_lift.
  assert (heap_rep h s F) as Hh by (by exists Q, P).
  destruct (q_get _ _ _ q HQ) as [[-> ->]|[[-> ->]|(x & v & H & a' & b' & Q' & -> & -> & Hx & HQ' & PQ)]].
  - destruct expired; [exists (Some None), h, (Some None), s, [] | exists None, h, None, s, []]; split_and!; try done; repeat constructor.
  - exists (Some None), h, (Some None), s, []. split_and!; [by destruct h | by destruct s | repeat constructor | done].
  - exists (Some (Some x)), (set_hqueues h a'), (Some (Some v)), (set_queues s b'), H. split_and!; [done | done | by apply received_some, taken_reply |].
    exists Q', P. cbn. split_and!; [done..|]. apply (holds_frame _ s); [done|]. revert Hm. apply holds_perm. rewrite PQ. solve_Permutation.
Qed.

Lemma heap_releases h s F q : heap_rep h s F ->
  exists h' s', release_response_q q h = Ok (tt, h') /\ HelperDns.release_response_q q s = Ok (tt, s') /\ heap_rep h' s' F.
Proof.
  intros (Q & P & HQ & HP & Hm). destruct (q_release _ _ _ q HQ) as (za & zb & a' & b' & Q' & Ea & Eb & HQ' & PQ).
  unfold release_response_q, HelperDns.release_response_q, st_bind, st_get, st_put. rewrite Ea, Eb. eexists _, _. split_and!; [done..|].
  exists Q', P. cbn. split_and!; [done..|]. apply (holds_frame _ s); [done|]. revert Hm. apply holds_perm. by rewrite PQ.
Qed.

(** The caller keeps the reply, a copy of it is stored. *)
Lemma keep_refines h s F k r r' H now : heap_rep h s (H ++ F) -> taken_rep r r' H ->
  exists x h' v s', keep_reply k r now h = Ok (x, h') /\ HelperDns.keep_reply k r' now s = Ok (v, s') /\ answer_rep x v H /\ heap_rep h' s' (H ++ F).
Proof.
  intros H1 Hr. destruct Hr as [|x v H Ha]; [exists None, h, None, s; split_and!; try done; apply answer_none|].
  destruct Ha as [|p v H Hp Hok]; [exists None, h, None, s; split_and!; try done; apply answer_none|]. unfold keep_reply, HelperDns.keep_reply.
  destruct H1 as (Q & P & HQ & HP & Hm). destruct (holds_alloc (dh_mem h) s _ (OStr k) Hm) as (kp & m2 & E2 & Hm2).
  destruct (store_refines m2 s _ kp k p v H now Hm2 Hp Hok ltac:(set_solver)) as (m3 & s3 & E3 & E3' & Hm3).
  assert (d_queues s3 = d_queues s /\ d_pending s3 = d_pending s) as [Eq Ep].
  { revert E3'. unfold HelperDns.cache_str, st_bind, st_lift, st_get, st_put, set_hashtab. destruct (aget _ _); [|done].
    destruct (HelperDns.hostent_deepcopy v); [|done]. destruct (aset _ _ _); [by intros [= <-] | done]. }
  exists (Some p), (DHeap m3 (dh_queues h) (dh_pending h)), (Some v), s3.
  rewrite (st_bind_ok (on_mem _) _ h tt (DHeap m3 (dh_queues h) (dh_pending h))) by (apply on_mem_ok; by rewrite (st_bind_ok _ _ _ _ _ E2)).
  rewrite (st_bind_ok _ _ _ _ _ E3'). split_and!; [done | done | by apply answer_some |]. exists Q, P. cbn. by rewrite Eq, Ep.
Qed.

Lemma heap_free_hostent h s F p v H : host_rep p v H -> heap_rep h s (H ++ F) ->
  exists h', on_mem (free_hostent p) h = Ok (tt, h') /\ heap_rep h' s F.
Proof.
  intros Hp (Q & P & HQ & HP & Hm). destruct (holds_free_hostent (dh_mem h) s (Q ++ P ++ F) p v H Hp) as (m' & E & Hm').
  { revert Hm. apply holds_perm. solve_Permutation. }
  eexists. split; [by apply on_mem_ok|]. by exists Q, P.
Qed.

(** ** A run of the program

    Callers look in the cache, send requests, wait and take their replies, some of
    them free an answer they hold, and c-ares answers the requests it has, in any
    order.  The steps are the same for the heap and for the values of
    [HelperDns]; [X] are host entries, [R] the records of requests: *)
Class DnsSteps (S X R : Type) := {
  step_look : bool -> cstr -> timespec -> stt S (X + R);
  step_queue : stt S nat;
  step_write : R -> query_t -> family -> nat -> stt S unit;
  step_answer : nat -> timespec -> reply_t -> stt S unit;
  step_receive : nat -> bool -> stt S (option (option (option X)));
  step_release : nat -> stt S unit;
  step_keep : cstr -> option (option X) -> timespec -> stt S (option X);
  step_free : X -> stt S unit }.

#[export] Instance heap_steps : DnsSteps dheap nat nat := {
  step_look by_addr k now := if by_addr then look_addr k now else look_name k now;
  step_queue := get_response_q;
  step_write cba q f i := write_request cba i;
  step_answer i now r := answer i now (fst <$> r);
  step_receive := receive;
  step_release := release_response_q;
  step_keep := keep_reply;
  step_free p := on_mem (free_hostent p) }.

#[export] Instance value_steps : DnsSteps dns hostent unit := {
  step_look by_addr k now := let* e := HelperDns.lookup_str k now in st_ret (match e with Some v => inl v | None => inr tt end);
  step_queue := HelperDns.get_response_q;
  step_write _ q f i := HelperDns.write_request q f i;
  step_answer i now r := HelperDns.answer i now (snd <$> r);
  step_receive := HelperDns.receive;
  step_release := HelperDns.release_response_q;
  step_keep := HelperDns.keep_reply;
  step_free _ := st_ret tt }.

(** [MProceed]: the [j]th lookup goes on; [MRelease]: an answer is freed. *)
Inductive mop :=
| MByName (name : cstr) (f : family) (now : timespec)
| MByAddr (addr : list Z) (f : family) (now : timespec)
| MAnswer (i : nat) (now : timespec) (r : reply_t)
| MProceed (j : nat) (expired : bool) (now : timespec)
| MRelease (i : nat).

(** Where a lookup that the cache did not answer is. *)
Inductive stage (X R : Type) :=
| ToSend (cba : R) (q : query_t) (f : family)
| ToWrite (cba : R) (q : query_t) (f : family) (i : nat)
| Waiting (i : nat)
| Got (i : nat) (r : option (option X))
| Leaving (r : option (option X)).
Arguments ToSend {X R}.
Arguments ToWrite {X R}.
Arguments Waiting {X R}.
Arguments Got {X R}.
Arguments Leaving {X R}.

(** The answers the callers hold; the lookups under way, each with its key. *)
Record callers (X R : Type) := Callers { c_held : list X; c_waits : list (cstr * stage X R) }.
Arguments Callers {X R}.
Arguments c_held {X R}.
Arguments c_waits {X R}.

Section Run.
Context `{Inet}.

Definition after_look {X R} (k : cstr) (q : query_t) (f : family) (r : X + R) (c : callers X R) : callers X R :=
  match r with
  | inl x => Callers (c_held c ++ [x]) (c_waits c)
  | inr cba => Callers (c_held c) (c_waits c ++ [(k, ToSend cba q f)])
  end.

Definition set_wait {X R} (j : nat) (k : cstr) (st : stage X R) (c : callers X R) : callers X R :=
  Callers (c_held c) (<[j := (k, st)]> (c_waits c)).

Definition proceed {S X R} `{!DnsSteps S X R} (j : nat) (k : cstr) (st : stage X R) (expired : bool) (now : timespec) (c : callers X R)
    : stt S (callers X R) :=
  match st with
  | ToSend cba q f => let* i := step_queue in st_ret (set_wait j k (ToWrite cba q f i) c)
  | ToWrite cba q f i => step_write cba q f i ;;; st_ret (set_wait j k (Waiting i) c)
  | Waiting i => let* r := step_receive i expired in st_ret (match r with None => c | Some r => set_wait j k (Got i r) c end)
  | Got i r => step_release i ;;; st_ret (set_wait j k (Leaving r) c)
  | Leaving r => let* x := step_keep k r now in st_ret (Callers (c_held c ++ option_list x) (delete j (c_waits c)))
  end.

Definition do_mop {S X R} `{!DnsSteps S X R} (o : mop) (c : callers X R) : stt S (callers X R) :=
  match o with
  | MByName name f now => let* r := step_look false name now in st_ret (after_look name (HOSTBYNAME name) f r c)
  | MByAddr addr f now => let* r := step_look true (ntop f addr) now in st_ret (after_look (ntop f addr) (HOSTBYADDR addr) f r c)
  | MAnswer i now r => step_answer i now r ;;; st_ret c
  | MProceed j expired now => match c_waits c !! j with Some (k, st) => proceed j k st expired now c | None => st_ret c end
  | MRelease i => match c_held c !! i with Some x => step_free x ;;; st_ret (Callers (delete i (c_held c)) (c_waits c)) | None => st_ret c end
  end.

Fixpoint run_mops {S X R} `{!DnsSteps S X R} (ops : list mop) (c : callers X R) : stt S (callers X R) :=
  match ops with [] => st_ret c | o :: ops => let* c := do_mop o c in run_mops ops c end.

(** What a step loses: the record of a lookup by address that the cache
    answers, the copy of an answer whose queue is gone. *)
Definition hit (k : cstr) (now : timespec) (s : dns) : bool :=
  match HelperDns.lookup_str k now s with Ok (Some _, _) => true | _ => false end.

Definition lost_records (o : mop) (s : dns) : nat :=
  match o with MByAddr addr f now => if hit (ntop f addr) now s then 1 else 0 | _ => 0 end.
Definition lost_copies (o : mop) (s : dns) : list hostent :=
  match o with MAnswer i _ r => lost_copy i r s | _ => [] end.

(** The run on values, with all that is lost in it. *)
Fixpoint run_losses (ops : list mop) (c : callers hostent unit) (n : nat) (lv : list hostent) : stt dns (callers hostent unit * nat * list hostent) :=
  match ops with
  | [] => st_ret (c, n, lv)
  | o :: ops => let* s := st_get in let* c := do_mop o c in run_losses ops c (n + lost_records o s) (lv ++ lost_copies o s)
  end.

Definition mop_ok (arena : list (nat * hostent)) (o : mop) : Prop :=
  match o with MAnswer _ _ r => reply_ok arena r | _ => True end.

Inductive wait_rep : cstr * stage nat nat -> cstr * stage hostent unit -> list (nat * obj) -> Prop :=
| wait_to_send k cba q f : wait_rep (k, ToSend cba q f) (k, ToSend tt q f) [(cba, OCba None)]
| wait_to_write k cba q f i : wait_rep (k, ToWrite cba q f i) (k, ToWrite tt q f i) [(cba, OCba None)]
| wait_waiting k i : wait_rep (k, Waiting i) (k, Waiting i) []
| wait_got k i r r' G : taken_rep r r' G -> wait_rep (k, Got i r) (k, Got i r') G
| wait_leaving k r r' G : taken_rep r r' G -> wait_rep (k, Leaving r) (k, Leaving r') G.

Definition records (n : nat) (C : list (nat * obj)) : Prop := length C = n /\ Forall (fun x => x.2 = OCba None) C.

(** The heap holds the cache, the replies in the queues, the records of the
    requests that were not answered, the answers of the callers, the replies they
    have received, what was lost ([n] records and copies of [lv]) and what c-ares
    has, each made of objects of its own, and nothing else. *)
Definition accounted (A : list (nat * obj)) (h : dheap) (s : dns) (c : callers nat nat) (cv : callers hostent unit) (n : nat) (lv : list hostent) : Prop :=
  exists Hs Ws C L ls, reps host_rep (c_held c) (c_held cv) Hs /\ reps wait_rep (c_waits c) (c_waits cv) Ws /\ records n C /\
    reps host_rep ls lv L /\ heap_rep h s (Hs ++ Ws ++ C ++ L ++ A).

Lemma delete_beyond {X} (l : list X) i : (length l <= i)%nat -> delete i l = l.
Proof. revert i. induction l as [|x l IH]; intros [|i] Hi; cbn in *; try done; [lia|]. f_equal. apply IH. lia. Qed.

Lemma reps_app {X Y} (R : X -> Y -> list (nat * obj) -> Prop) xs ys G xs' ys' G' :
  reps R xs ys G -> reps R xs' ys' G' -> exists G'', reps R (xs ++ xs') (ys ++ ys') G'' /\ G'' ≡ₚ G ++ G'.
Proof.
  intros H1 H2. induction H1 as [|x y xs ys G1 G2 Hx _ (G'' & IH & P)]; [by exists G'|]. exists (G1 ++ G''). split; [by apply reps_cons|].
  rewrite P. solve_Permutation.
Qed.

Lemma looked A h s c cv n lv k q f r v G1 G2 m Hs Ws C L ls :
  reps host_rep (c_held c) (c_held cv) Hs -> reps wait_rep (c_waits c) (c_waits cv) Ws -> records n C -> reps host_rep ls lv L ->
  look_rep r v G1 -> records m G2 -> heap_rep h s (G1 ++ G2 ++ Hs ++ Ws ++ C ++ L ++ A) ->
  accounted A h s (after_look k q f r c) (after_look k q f (match v with Some v => inl v | None => inr tt end) cv) (n + m) (lv ++ []).
Proof.
  intros HH HW [Hn HC] HL Ha [Hk HG] Hm. assert (records (n + m) (C ++ G2)) as Hc by (split; [rewrite length_app; lia | by apply Forall_app]).
  rewrite app_nil_r. destruct Ha as [p v G1 Hp Hok|cba].
  - destruct (reps_snoc host_rep _ _ _ p v G1 HH Hp) as (Hs' & HH' & P). exists Hs', Ws, (C ++ G2), L, ls. split_and!; try done.
    revert Hm. apply heap_perm. rewrite P. solve_Permutation.
  - destruct (reps_snoc wait_rep _ _ _ (k, ToSend cba q f) (k, ToSend tt q f) _ HW (wait_to_send k cba q f)) as (Ws' & HW' & P).
    exists Hs, Ws', (C ++ G2), L, ls. split_and!; try done. revert Hm. apply heap_perm. rewrite P. solve_Permutation.
Qed.

Lemma step_looks A o h s c cv n lv : accounted A h s c cv n lv -> (exists a b d, o = MByName a b d) \/ (exists a b d, o = MByAddr a b d) ->
  exists c' h' cv' s', do_mop o c h = Ok (c', h') /\ do_mop o cv s = Ok (cv', s') /\
    accounted A h' s' c' cv' (n + lost_records o s) (lv ++ lost_copies o s).
Proof.
  intros (Hs & Ws & C & L & ls & HH & HW & HC & HL & Hm) [(name & f & now & ->)|(addr & f & now & ->)]; cbn [do_mop lost_records lost_copies step_look heap_steps value_steps].
  - destruct (look_name_refines h s _ name now Hm) as (r & h' & v & s' & G & E & E' & Ha & Hm').
    rewrite (st_bind_ok _ _ _ _ _ E). erewrite (st_bind_ok _ _ s); [|by rewrite (st_bind_ok _ _ _ _ _ E')]. eexists _, h', _, s'. split_and!; [reflexivity | reflexivity |].
    by apply (looked A h' s' c cv n lv name _ f r v G [] 0 Hs Ws C L ls).
  - destruct (look_addr_refines h s _ (ntop f addr) now Hm) as (r & h' & v & s' & G & G2 & E & E' & Ha & Hm' & HG).
    rewrite (st_bind_ok _ _ _ _ _ E). erewrite (st_bind_ok _ _ s); [|by rewrite (st_bind_ok _ _ _ _ _ E')]. unfold hit. rewrite E'.
    eexists _, h', _, s'. split_and!; [reflexivity | reflexivity |].
    apply (looked A h' s' c cv n lv (ntop f addr) _ f r v G G2 _ Hs Ws C L ls); try done.
    destruct v as [v|]; [destruct HG as [cba ->]; by repeat constructor | subst G2; by repeat constructor].
Qed.

(** A lookup goes on. *)
Lemma heap_proceeds h s F j k st st' expired now c cv Hs Ws : reps host_rep (c_held c) (c_held cv) Hs -> reps wait_rep (c_waits c) (c_waits cv) Ws ->
  c_waits c !! j = Some (k, st) -> c_waits cv !! j = Some (k, st') -> heap_rep h s (Hs ++ Ws ++ F) ->
  exists c' h' cv' s' Hs' Ws', proceed j k st expired now c h = Ok (c', h') /\ proceed j k st' expired now cv s = Ok (cv', s') /\
    reps host_rep (c_held c') (c_held cv') Hs' /\ reps wait_rep (c_waits c') (c_waits cv') Ws' /\ heap_rep h' s' (Hs' ++ Ws' ++ F).
Proof.
  intros HH HW Ej Ej' Hm. destruct (reps_split wait_rep j _ _ _ _ _ HW Ej Ej') as (G1 & G2 & Hw & P & (D & HD & PD) & HI).
  inversion Hw as [? cba q f|? cba q f i|? i|? i r r' G Hr|? r r' G Hr]; subst; cbn [proceed step_queue step_write step_receive step_release step_keep heap_steps value_steps].
  - destruct (get_queue_refines h s _ Hm) as (i & h' & s' & E & E' & Hm'). rewrite (st_bind_ok _ _ _ _ _ E), (st_bind_ok _ _ _ _ _ E').
    destruct (HI _ _ _ (wait_to_write k cba q f i)) as (W' & HW' & P').
    eexists _, h', _, s', Hs, W'. split_and!; [reflexivity | reflexivity | done | done |]. revert Hm'. apply heap_perm. by rewrite P', P.
  - destruct (write_refines h s (Hs ++ G2 ++ F) cba None q f i) as (h' & s' & E & E' & Hm'); [revert Hm; apply heap_perm; rewrite P; solve_Permutation|].
    rewrite (st_bind_ok _ _ _ _ _ E), (st_bind_ok _ _ _ _ _ E'). destruct (HI _ _ _ (wait_waiting k i)) as (W' & HW' & P').
    eexists _, h', _, s', Hs, W'. split_and!; [reflexivity | reflexivity | done | done |]. revert Hm'. apply heap_perm. by rewrite P'.
  - destruct (receive_refines h s _ i expired Hm) as (r & h' & r' & s' & G & E & E' & Hr & Hm').
    rewrite (st_bind_ok _ _ _ _ _ E), (st_bind_ok _ _ _ _ _ E'). destruct Hr as [|r r' G Hr].
    + by eexists c, h', cv, s', Hs, Ws.
    + destruct (HI _ _ _ (wait_got k i r r' G Hr)) as (W' & HW' & P').
      eexists _, h', _, s', Hs, W'. split_and!; [reflexivity | reflexivity | done | done |]. revert Hm'. apply heap_perm. rewrite P', P. solve_Permutation.
  - destruct (heap_releases h s _ i Hm) as (h' & s' & E & E' & Hm'). rewrite (st_bind_ok _ _ _ _ _ E), (st_bind_ok _ _ _ _ _ E').
    destruct (HI _ _ _ (wait_leaving k r r' G1 Hr)) as (W' & HW' & P').
    eexists _, h', _, s', Hs, W'. split_and!; [reflexivity | reflexivity | done | done |]. revert Hm'. apply heap_perm. by rewrite P', P.
  - destruct (keep_refines h s (Hs ++ D ++ F) k r r' G1 now) as (x & h' & v & s' & E & E' & Hx & Hm'); [|done|].
    { revert Hm. apply heap_perm. rewrite P, PD. solve_Permutation. }
    rewrite (st_bind_ok _ _ _ _ _ E), (st_bind_ok _ _ _ _ _ E').
    assert (reps host_rep (option_list x) (option_list v) G1) as Hx1.
    { destruct Hx as [|p w G1 Hp Hok]; [apply reps_nil|]. cbn. rewrite <-(app_nil_r G1). apply reps_cons; [done | apply reps_nil]. }
    destruct (reps_app host_rep _ _ _ _ _ _ HH Hx1) as (Hs' & HH' & PH). eexists _, h', _, s', Hs', D. split_and!; [reflexivity | reflexivity | done | done |].
    revert Hm'. apply heap_perm. rewrite PH. solve_Permutation.
Qed.

Lemma accounted_step arena A o h s c cv n lv : arena_rep arena A -> mop_ok arena o -> accounted A h s c cv n lv ->
  exists c' h' cv' s', do_mop o c h = Ok (c', h') /\ do_mop o cv s = Ok (cv', s') /\
    accounted A h' s' c' cv' (n + lost_records o s) (lv ++ lost_copies o s).
Proof.
  intros HA Ho I. destruct o as [name f now|addr f now|i now r|j expired now|i]; [by eapply step_looks; [|left; eauto] | by eapply step_looks; [|right; eauto] | ..];
    destruct I as (Hs & Ws & C & L & ls & HH & HW & HC & HL & Hm); cbn [do_mop lost_records lost_copies]; rewrite Nat.add_0_r, ?app_nil_r.
  - assert (A ⊆ Hs ++ Ws ++ C ++ L ++ A) as HF by set_solver.
    destruct (answer_refines arena A h s _ i now r HA HF Ho Hm) as (h' & s' & ls' & L' & E & E' & HL' & Hm'). cbn [step_answer heap_steps value_steps].
    rewrite (st_bind_ok _ _ _ _ _ E), (st_bind_ok _ _ _ _ _ E'). destruct (reps_app host_rep _ _ _ _ _ _ HL HL') as (L2 & HL2 & P).
    exists c, h', cv, s'. split_and!; [done..|]. exists Hs, Ws, C, L2, (ls ++ ls'). split_and!; try done. revert Hm'. apply heap_perm. rewrite P. solve_Permutation.
  - pose proof (reps_length _ _ _ _ HW) as El. destruct (c_waits c !! j) as [[k st]|] eqn:Ej.
    2:{ apply lookup_ge_None in Ej. rewrite (lookup_ge_None_2 (c_waits cv)) by lia. exists c, h, cv, s. split_and!; [done..|]. by exists Hs, Ws, C, L, ls. }
    destruct (lookup_lt_is_Some_2 (c_waits cv) j) as [[k' st'] Ej']; [rewrite <-El; by eapply lookup_lt_Some|]. rewrite Ej'.
    assert (k' = k) as -> by (destruct (reps_split wait_rep j _ _ _ _ _ HW Ej Ej') as (? & ? & Hw & _); by inversion Hw).
    destruct (heap_proceeds h s _ j k st st' expired now c cv Hs Ws HH HW Ej Ej' Hm) as (c' & h' & cv' & s' & Hs' & Ws' & E & E' & HH' & HW' & Hm').
    exists c', h', cv', s'. split_and!; [done..|]. by exists Hs', Ws', C, L, ls.
  - pose proof (reps_length _ _ _ _ HH) as El. destruct (c_held c !! i) as [p|] eqn:Ep.
    2:{ apply lookup_ge_None in Ep. rewrite (lookup_ge_None_2 (c_held cv)) by lia. exists c, h, cv, s. split_and!; [done..|]. by exists Hs, Ws, C, L, ls. }
    destruct (lookup_lt_is_Some_2 (c_held cv) i) as [v Ev]; [rewrite <-El; by eapply lookup_lt_Some|]. rewrite Ev.
    destruct (reps_split host_rep i p v _ _ _ HH Ep Ev) as (G1 & G2 & Hh & P & (Hs' & HH' & P') & _).
    destruct (heap_free_hostent h s (Hs' ++ Ws ++ C ++ L ++ A) p v G1 Hh) as (h' & E & Hm'); [revert Hm; apply heap_perm; rewrite P, P'; solve_Permutation|].
    cbn [step_free heap_steps value_steps]. rewrite (st_bind_ok _ _ _ _ _ E). eexists _, h', _, s. split_and!; [reflexivity | reflexivity |].
    by exists Hs', Ws, C, L, ls.
Qed.

(** C29: memory of name lookups.  Let callers look names and addresses up, wait,
    time out, take replies and release answers, with a step for each lock they
    take, and let c-ares answer requests, in any order and also after nobody waits
    any more.  If c-ares answers with entries that have a name and addresses of
    their length, nothing of the cache, the host entries and the records of
    requests is freed twice, read after it was freed or taken for an object of
    another kind; the callers get and hold what they do in [HelperDns]; and the
    heap consists of the cache entries, the replies in the queues, the records of
    the requests that were not answered, what the lookups under way and the callers
    hold, the objects of c-ares and what was lost: a record for each lookup by
    address that the cache answered, and a copy for each answer that came when its
    queue was not there any more.  (What a request asks about is the caller's and
    is not part of this heap, see [HelperLoop].) *)
Theorem dns_memory (arena : list (nat * hostent)) (A : list (nat * obj)) (ops : list mop) (m0 : mem) :
  ledger m0 A -> table m0 = replicate (Z.to_nat HASHSIZE) None -> arena_rep arena A -> Forall (mop_ok arena) ops ->
  exists c h cv n lv s, run_mops ops (Callers [] []) (DHeap m0 aqs0 []) = Ok (c, h) /\
    run_losses ops (Callers [] []) 0 [] dns0 = Ok ((cv, n, lv), s) /\ accounted A h s c cv n lv.
Proof.
  intros L Ht HA Hok. assert (accounted A (DHeap m0 aqs0 []) dns0 (Callers [] []) (Callers [] []) 0 []) as I.
  { exists [], [], [], [], []. split_and!; [apply reps_nil | apply reps_nil | done | apply reps_nil |]. exists [], [].
    split_and!; [apply qs_rep0 | apply reps_nil|]. by apply empty_holds. }
  clear L Ht. revert I. generalize (@Callers hostent unit [] []). generalize (DHeap m0 aqs0 []) dns0 (@Callers nat nat [] []) 0%nat (@nil hostent).
  induction Hok as [|o ops Ho _ IH]; intros h s c n lv cv I; [by exists c, h, cv, n, lv, s|].
  destruct (accounted_step arena A o h s c cv n lv HA Ho I) as (c1 & h1 & cv1 & s1 & E & E' & I1).
  destruct (IH h1 s1 c1 (n + lost_records o s)%nat (lv ++ lost_copies o s) cv1 I1) as (c2 & h2 & cv2 & n2 & lv2 & s2 & E2 & E2' & I2).
  exists c2, h2, cv2, n2, lv2, s2. cbn [run_mops run_losses]. rewrite (st_bind_ok _ _ _ _ _ E), (st_bind_ok st_get _ s s s), (st_bind_ok _ _ _ _ _ E') by done. done.
Qed.

End Run.

(** ** A lookup alone *)

Lemma send_pending q f s i s' : HelperDns.send_request q f s = Ok (i, s') ->
  exists p, d_pending s' = p ++ [AresRequest q f i] /\ live (d_queues s') !! i = Some [].
Proof.
  unfold HelperDns.send_request, HelperDns.get_response_q, HelperDns.write_request, st_bind, st_get, st_put, st_mod, st_ret. cbn [a_qstep].
  destruct (free (d_queues s)); intros [= <- <-]; rewrite Nat2Z.id; cbn; rewrite lookup_insert_eq; eauto.
Qed.

Lemma answer_queued j now host q f i s s' : HelperDns.answer j now host s = Ok (tt, s') ->
  d_pending s !! j = Some (AresRequest q f i) -> live (d_queues s) !! i = Some [] ->
  exists v, live (d_queues s') !! i = Some [[v]] /\ hashtab s' = hashtab s /\ ((forall h, host = Some h -> host_ok h) -> v = host).
Proof.
  unfold HelperDns.answer. intros E Ej El. apply st_bind_inv in E as (? & ? & [= <- <-] & E). rewrite Ej in E.
  apply st_bind_inv in E as (? & s1 & [= <- <-] & E). unfold HelperDns.default_cb in E. apply st_bind_inv in E as (v & s2 & Ev & E).
  assert (d_queues s2 = d_queues s /\ hashtab s2 = hashtab s /\ ((forall h, host = Some h -> host_ok h) -> v = host)) as (Eq & Et & Hv).
  { destruct host as [h|]; [|by injection Ev as <- <-]. revert Ev. unfold st_bind, st_lift, st_ret.
    destruct (HelperDns.hostent_deepcopy h) eqn:Eh; intros [= <- <-]. split_and!; [done..|]. intros Hok. rewrite deepcopy_ok in Eh by by apply Hok. congruence. }
  apply st_bind_inv in E as (? & ? & [= <- <-] & E). cbn [a_qstep ar_response_q] in E. rewrite Eq, El in E. injection E as <-. exists v. cbn.
  rewrite lookup_insert_eq. by split_and!.
Qed.

Lemma heap_pending h s F : heap_rep h s F -> length (dh_pending h) = length (d_pending s).
Proof. intros (Q & P & _ & HP & _). by eapply reps_length. Qed.

Lemma Gethostbyname_refines arena A h s F name f r now now' : arena_rep arena A -> A ⊆ F -> reply_ok arena r -> heap_rep h s F ->
  exists a h' v s' H, Gethostbyname name (fst <$> r) now now' h = Ok (a, h') /\
    HelperDns.Gethostbyname name f (Some (snd <$> r)) now now' s = Ok (v, s') /\ answer_rep a v H /\ heap_rep h' s' (H ++ F).
Proof.
  intros HA HF Hr Hh. destruct (look_name_refines h s F name now Hh) as (a & h0 & b & s0 & G & E & E' & Ha & H0).
  unfold Gethostbyname, HelperDns.Gethostbyname, fetch, ask. rewrite (st_bind_ok _ _ _ _ _ E). destruct Ha as [p v G Hp Hok|cba].
  { exists (Some p), h0, (Some v), s0, G. rewrite (st_bind_ok _ _ s (inl v) s0) by by rewrite (st_bind_ok _ _ _ _ _ E').
    split_and!; try done. by apply answer_some. }
  destruct (get_queue_refines h0 s0 _ H0) as (i & h01 & s01 & E0 & E0' & H01).
  destruct (write_refines h01 s01 F cba None (HOSTBYNAME name) f i H01) as (h1 & s1 & E1 & E1' & H1).
  assert (HelperDns.send_request (HOSTBYNAME name) f s0 = Ok (i, s1)) as Es.
  { unfold HelperDns.send_request. by rewrite (st_bind_ok _ _ _ _ _ E0'), (st_bind_ok _ _ _ _ _ E1'). }
  rewrite (st_bind_ok _ _ _ _ _ E0), (st_bind_ok _ _ _ _ _ E1), (st_bind_ok _ _ s (inr i) s1) by by rewrite (st_bind_ok _ _ _ _ _ E'), (st_bind_ok _ _ _ _ _ Es).
  destruct (send_pending _ _ _ _ _ Es) as (l & Ep & El). pose proof (heap_pending _ _ _ H1) as Hl.
  assert (d_pending s1 !! (length (dh_pending h1) - 1)%nat = Some (AresRequest (HOSTBYNAME name) f i)) as Ej.
  { rewrite Hl, Ep, length_app, Nat.add_sub. by apply list_lookup_middle. }
  destruct (answer_refines arena A h1 s1 F (length (dh_pending h1) - 1) now' r HA HF Hr H1) as (h2 & s2 & ls & L & E2 & E2' & HL & H2).
  assert (L = []) as ->.
  { unfold lost_copy in HL. rewrite Ej in HL. cbn in HL. rewrite bool_decide_true in HL by (rewrite El; eauto). destruct r as [[]|]; by inversion HL. }
  destruct (answer_queued _ _ _ _ _ _ _ _ E2' Ej El) as (v & Eq & _).
  destruct (receive_refines h2 s2 F i false H2) as (a3 & h3 & b3 & s3 & G & E3 & E3' & Hrec & H3).
  assert (is_Some b3) as [t ->].
  { revert E3'. unfold HelperDns.receive, st_bind, st_get. cbn [a_qstep]. rewrite Eq. cbn. intros [= <- _]. eauto. }
  inversion Hrec as [|x w G' Hx]; subst. destruct (heap_releases h3 s3 _ i H3) as (h4 & s4 & E4 & E4' & H4).
  destruct (keep_refines h4 s4 F name x t G now' H4 Hx) as (y & h5 & w & s5 & E5 & E5' & Hy & H5).
  exists y, h5, w, s5, G. split_and!; [| |done..].
  - rewrite (st_bind_ok st_get _ h1 h1 h1), (st_bind_ok _ _ _ _ _ E2), (st_bind_ok _ _ _ _ _ E3), (st_bind_ok _ _ _ _ _ E4) by done. exact E5.
  - rewrite (st_bind_ok (wait_reply _ _ _) _ s1 tt s2) by (unfold wait_reply; rewrite (st_bind_ok st_get _ s1 s1 s1) by done; by rewrite <-Hl).
    assert (collect name i false now' s2 = Ok (Some w, s5)) as Ec.
    { rewrite collect_split, (st_bind_ok _ _ _ _ _ E3'). cbn beta iota. by rewrite (st_bind_ok _ _ _ _ _ E4'), (st_bind_ok _ _ _ _ _ E5'). }
    rewrite bool_decide_false by done. by rewrite (st_bind_ok _ _ _ _ _ Ec).
Qed.

(** c-ares with one entry, and a mail server looked up three times: the first
    lookup times out and the reply comes when its queue is released, so that the
    copy is lost; the second is answered; the third finds the answer in the cache,
    which leaves its record behind. *)
Definition demo_host : hostent := host4 (cs "mx.example") [192; 0; 2; 1].
Definition demo_arena : list (nat * hostent) := [(0%nat, demo_host)].
Definition demo_objs : list (nat * obj) :=
  [(0%nat, OHost (PTo 1) (PTo 4) (PTo 2) AF_INET 4); (1%nat, OStr (cs "mx.example"))] ++
  block OAddr 2 [3%nat] [[192; 0; 2; 1]] ++ block OStr 4 [] [].
Definition demo_mem : mem := Mem (list_to_map demo_objs) 5 (replicate (Z.to_nat HASHSIZE) None).
Definition demo_ask : mop := MByAddr [192; 0; 2; 1] AF_INET (Timespec 1 0).
Definition demo_reply : mop := MAnswer 0 (Timespec 2 0) (Some (0%nat, demo_host)).
Definition go (expired : bool) : mop := MProceed 0 expired (Timespec 2 0).
Definition demo_mops : list mop :=
  [demo_ask; go false; go false; go true; go false; go false; demo_reply; demo_ask; go false; go false; demo_reply; go false; go false; go false; demo_ask;
   MRelease 0; MRelease 0].

Lemma dns_memory_witness :
  (exists c h cv n lv s, @run_mops Text.text _ _ _ _ demo_mops (Callers [] []) (DHeap demo_mem aqs0 []) = Ok (c, h) /\
    @run_losses Text.text demo_mops (Callers [] []) 0 [] dns0 = Ok ((cv, n, lv), s) /\ accounted demo_objs h s c cv n lv) /\
  match @run_losses Text.text demo_mops (Callers [] []) 0 [] dns0, @run_mops Text.text _ _ _ _ demo_mops (Callers [] []) (DHeap demo_mem aqs0 []) with
  | Ok (r, _), Ok (c, h) => r = (Callers [] [], 1%nat, [demo_host]) /\ c = Callers [] [] /\ size (objs (dh_mem h)) = (5 + 5 + 1 + 7)%nat
  | _, _ => False
  end.
Proof.
  split.
  - apply (@dns_memory Text.text demo_arena demo_objs demo_mops demo_mem).
    + split_and!; [done | by apply (bool_decide_unpack _) | repeat constructor].
    + reflexivity.
    + repeat constructor. exists demo_objs. split; [exact (host_rep_intro 0 demo_host 1 2 4 [3%nat] [] eq_refl eq_refl)|].
      split; [split; [reflexivity | repeat constructor] | done].
    + unfold demo_mops. rewrite !Forall_cons, Forall_nil. split_and!; try done; intros x [= <-]; by apply list_elem_of_here.
  - vm_compute. done.
Defined.

(** An entry without a name is copied with a pointer that was never set, and
    freeing the copy frees whatever it points to. *)
Definition nameless : mem :=
  Mem (list_to_map ([(0%nat, OHost PNull (PTo 2) (PTo 1) AF_INET 4)] ++ block OAddr 1 [] [] ++ block OStr 2 [] [])) 3 [].

Example nameless_copy_not_freed :
  (let* q := hostent_deepcopy 0 in free_hostent q) nameless = Fail Undefined /\
  exists q m, hostent_deepcopy 0 nameless = Ok (q, m).
Proof. split; [vm_compute; reflexivity|]. by eexists _, _. Qed.
