(* ===== verification/ThreadPool.v ===== *)
(** * Thread pools and edicts ([src/src/thread_pool.c])

    An edict is a job with a reference count and a queue for its results; a
    pool is a set of threads that take edicts from one queue.  The queues are
    the abstract queues the message queue heap was proved to refine. *)

From Stdlib Require Import Relations.Relation_Operators SpecFloat.
From S2P Require Import Prelude Utils MsgQueue.

(** ** Edicts *)

(** A result message is one pointer: [None] is NULL. *)
Notation result := (option nat).
Notation queues := (aqs result).

Record edict_t := Edict {
  e_job : option nat;
  e_resultmq : Z;
  e_obsolete : bool;
  e_count : Z;            (* reference.count *)
  e_timelimit : Z }.

(** Edicts by address, the result queues, the results freed so far. *)
Record world := World {
  w_edicts : gmap nat edict_t;
  w_queues : queues;
  w_freed : list nat }.

Definition with_edict (w : world) (e : nat) (v : edict_t) : world :=
  World (<[e := v]> (w_edicts w)) (w_queues w) (w_freed w).
Definition with_wqueues (w : world) (q : queues) : world := World (w_edicts w) q (w_freed w).

Definition set_count (v : edict_t) (n : Z) : edict_t :=
  Edict (e_job v) (e_resultmq v) (e_obsolete v) n (e_timelimit v).

(** Using an edict that was freed is a fault. *)
Definition get_edict (w : world) (e : nat) : Res edict_t :=
  match w_edicts w !! e with Some v => Ok v | None => Fail OutOfBounds end.

Definition edict_reference (w : world) (e : nat) : Res world :=
  v ← get_edict w e;
  n ← int_val (e_count v + 1);
  Ok (with_edict w e (set_count v n)).

(** The result queue's identifier is what [get_queue] answers. *)
Definition edict_get (w : world) (e : nat) (forget : bool) : Res (option world) :=
  if forget then Ok (Some (with_edict w e (Edict None (-1) false 1 0)))
  else
    match a_qstep (w_queues w) QNew with
    | Some (AnInt i, q) => Ok (Some (with_edict (with_wqueues w q) e (Edict None i false 1 0)))
    | _ => Ok None
    end.

(** [submit_job]: one more reference, and the pointer on the work queue. *)
Definition submit_job (w : world) (work : list nat) (e : nat) : Res (world * list nat) :=
  w ← edict_reference w e; Ok (w, work ++ [e]).

(** [release_queue] until it succeeds, freeing a result each time it does not. *)
Fixpoint flush (fuel : nat) (q : nat) (qs : queues) (freed : list nat) : Res (option (queues * list nat)) :=
  match fuel with
  | O => Ok None
  | S fuel =>
      match a_qstep qs (QRelease q) with
      | Some (AnInt r, qs') =>
          if r <? 0 then
            match live qs !! q with
            | Some (d :: l) =>
                (* get_msg_timed with a negative timeout *)
                let qs := Aqs (<[q := l]> (live qs)) (free qs) (count qs) in
                match d with
                | [Some m] => flush fuel q qs (freed ++ [m])
                | [None] => Fail AssertFail
                | _ => Fail Undefined
                end
            | _ => flush fuel q qs freed
            end
          else Ok (Some (qs', freed))
      | _ => Fail Undefined
      end
  end.

Definition edict_unlink (w : world) (e : nat) : Res (option world) :=
  v ← get_edict w e;
  _ ← c_assert (0 <? e_count v);
  n ← int_val (e_count v - 1);
  if n =? 0 then
    if 0 <? e_resultmq v then
      let q := Z.to_nat (e_resultmq v) in
      let len := match live (w_queues w) !! q with Some l => length l | None => O end in
      r ← flush (S len) q (w_queues w) (w_freed w);
      match r with
      | None => Ok None
      | Some (qs, freed) => Ok (Some (World (delete e (w_edicts w)) qs freed))
      end
    else Ok (Some (World (delete e (w_edicts w)) (w_queues w) (w_freed w)))
  else Ok (Some (with_edict w e (set_count v n))).

(** [send_result]: the pointer goes to the result queue. *)
Definition send_result (w : world) (e : nat) (now : timespec) (r : result) : Res world :=
  v ← get_edict w e;
  match a_qstep (w_queues w) (QPut (Z.to_nat (e_resultmq v)) now [r]) with
  | Some (_, qs) => Ok (with_wqueues w qs)
  | None => Ok w
  end.

(** *** Uses of an edict, in any order *)

(** Another reference is taken or one dropped, a result is sent, the one who
    waits takes a result. *)
Inductive edict_use := ERef | EUnlink | ESend (now : timespec) (r : result) | ETake.

Definition use_edict (w : world) (e : nat) (u : edict_use) : Res (option world) :=
  match u with
  | ERef => w ← edict_reference w e; Ok (Some w)
  | EUnlink => edict_unlink w e
  | ESend now r => w ← send_result w e now r; Ok (Some w)
  | ETake =>
      v ← get_edict w e;
      Ok (match a_qstep (w_queues w) (QGet (Z.to_nat (e_resultmq v)) 1) with
          | Some (_, qs) => Some (with_wqueues w qs)
          | None => None
          end)
  end.

Fixpoint use_edicts (w : world) (e : nat) (us : list edict_use) : Res (option world) :=
  match us with
  | [] => Ok (Some w)
  | u :: us => x ← use_edict w e u; match x with Some w => use_edicts w e us | None => Ok None end
  end.

(** The count and the results in the queue after the uses, as long as the count
    stays positive and small and nobody waits for a result that is not there. *)
Fixpoint after_uses (c : Z) (ms : list result) (us : list edict_use) : option (Z * list result) :=
  match us with
  | [] => Some (c, ms)
  | ERef :: us => if c <? INT_MAX then after_uses (c + 1) ms us else None
  | EUnlink :: us => if 1 <? c then after_uses (c - 1) ms us else None
  | ESend _ r :: us => after_uses c (ms ++ [r]) us
  | ETake :: us => match ms with _ :: ms => after_uses c ms us | [] => None end
  end.

(** ** Pools *)

(** [ewma_idle] is a single-precision number; LAMBDA and the sum are doubles. *)
Definition double_of_int (n : Z) : spec_float := binary_normalize 53 1024 n 0 false.
Definition single_of_int (n : Z) : spec_float := binary_normalize 24 128 n 0 false.

(** A double rounded to single precision, on assignment. *)
Definition single_of_double (x : spec_float) : spec_float :=
  match x with
  | S754_finite s m e => binary_round 24 128 s m e
  | _ => x
  end.

(** 0.1 as a double. *)
Definition LAMBDA : spec_float := S754_finite false 7205759403792794 (-56).

Definition EWMA (ewma : spec_float) (observation : Z) : spec_float :=
  single_of_double
    (SFadd 53 1024 (SFmul 53 1024 LAMBDA (double_of_int observation))
       (SFmul 53 1024 (SFsub 53 1024 (double_of_int 1) LAMBDA) ewma)).

Definition IDLETIME : Z := 1000.

(** Watchdog entries are the threads and when each was last seen. *)
Record pool_ctx := PoolCtx {
  count_thread : Z;
  count_idle : Z;
  ewma_idle : spec_float;
  last_idle_check : timespec;
  max_thread : Z;
  wdlist : list (nat * timespec);
  watchdog_time : Z }.

(** Where a thread of the pool is: created but not running yet, between
    jobs, waiting for a job, back from the wait with a job, working on it, or
    gone. *)
Inductive phase := Created | Looping | Waiting | Woken | Holding | Exited.

#[export] Instance phase_eq_dec : EqDecision phase.
Proof. solve_decision. Defined.

(** The first critical section of a thread; [seen] and [ref] are the clock. *)
Definition thread_start (p : pool_ctx) (tid : nat) (seen ref : timespec) : pool_ctx :=
  PoolCtx (count_thread p + 1) (count_idle p) (ewma_idle p) ref (max_thread p)
    (if watchdog_time p =? 0 then wdlist p else (tid, seen) :: wdlist p) (watchdog_time p).

(** Kicking the watchdog. *)
Definition kick (p : pool_ctx) (tid : nat) (seen : timespec) : pool_ctx :=
  PoolCtx (count_thread p) (count_idle p) (ewma_idle p) (last_idle_check p) (max_thread p)
    (if watchdog_time p =? 0 then wdlist p
     else (fun d => if (d.1 =? tid)%nat then (tid, seen) else d) <$> wdlist p)
    (watchdog_time p).

(** The threads that get SIGALRM. *)
Definition stuck (p : pool_ctx) (now : timespec) : list nat :=
  if watchdog_time p =? 0 then [] else fst <$> filter (fun d => watchdog_time p < ms_diff now d.2) (wdlist p).

Fixpoint wd_remove (l : list (nat * timespec)) (tid : nat) : list (nat * timespec) :=
  match l with
  | [] => []
  | d :: l => if (d.1 =? tid)%nat then l else d :: wd_remove l tid
  end.

(** Removing the thread from the list; its first node is read unconditionally. *)
Definition wd_unlink (l : list (nat * timespec)) (tid : nat) : Res (list (nat * timespec)) :=
  match l with
  | [] => Fail OutOfBounds
  | _ => Ok (wd_remove l tid)
  end.

(** The idle check at the top of the loop, one critical section; [seen],
    [now] and [ref] are the clock as it is read.  The result has the threads
    that are signalled. *)
Definition idle_check (p : pool_ctx) (tid : nat) (seen now ref : timespec) : Res (pool_ctx * phase * list nat) :=
  let p := kick p tid seen in
  let waited := ms_diff now (last_idle_check p) in
  let long := IDLETIME <? waited in
  let last := if long then ref else last_idle_check p in
  let killed := if long then stuck p now else [] in
  if long && (8 <? count_thread p) && SFltb (single_of_int (c_div (count_thread p) 2)) (ewma_idle p) then
    l ← (if watchdog_time p =? 0 then Ok (wdlist p) else wd_unlink (wdlist p) tid);
    Ok (PoolCtx (count_thread p - 1) (count_idle p) (SFsub 24 128 (ewma_idle p) (single_of_int 1)) last
          (max_thread p) l (watchdog_time p), Exited, killed)
  else
    Ok (PoolCtx (count_thread p) (count_idle p + 1) (EWMA (ewma_idle p) (count_idle p)) last
          (max_thread p) (wdlist p) (watchdog_time p), Waiting, killed).

Inductive job_action := Process | ProcessAndSpawn | Refuse.

Definition no_longer_idle (p : pool_ctx) : pool_ctx :=
  PoolCtx (count_thread p) (count_idle p - 1) (ewma_idle p) (last_idle_check p) (max_thread p) (wdlist p) (watchdog_time p).

(** The section after [get_msg_timed]. *)
Definition after_wait (p : pool_ctx) (tid : nat) (seen : timespec) : pool_ctx := no_longer_idle (kick p tid seen).

(** The next one, of a thread that got a message; other threads can come in
    between the two. *)
Definition take_job (p : pool_ctx) : job_action :=
  if count_idle p <? 1 then
    if (count_thread p <=? max_thread p) || (max_thread p =? 0) then ProcessAndSpawn else Refuse
  else Process.

(** What a thread does with an edict it took: the routine runs, or the caller
    is told with a NULL result; then the reference is dropped. *)
Definition do_job (routine : world -> nat -> Res world) (a : job_action) (now : timespec) (w : world) (e : nat)
    : Res (option world) :=
  v ← get_edict w e;
  _ ← c_assert (bool_decide (is_Some (e_job v)));
  w ← match a with
      | Process | ProcessAndSpawn => routine w e
      | Refuse => if 0 <=? e_resultmq v then send_result w e now None else Ok w
      end;
  edict_unlink w e.

(** *** The threads of a pool, interleaved *)

Record pool := Pool { p_ctx : pool_ctx; p_threads : list phase }.

Inductive pool_step : pool -> pool -> Prop :=
| step_start p ts i seen ref :
    ts !! i = Some Created -> pool_step (Pool p ts) (Pool (thread_start p i seen ref) (<[i := Looping]> ts))
| step_idle p ts i seen now ref p' ph killed :
    ts !! i = Some Looping -> idle_check p i seen now ref = Ok (p', ph, killed) ->
    pool_step (Pool p ts) (Pool p' (<[i := ph]> ts))
| step_wake p ts i seen (got : bool) :
    ts !! i = Some Waiting ->
    pool_step (Pool p ts) (Pool (after_wait p i seen) (<[i := if got then Woken else Looping]> ts))
| step_job p ts i :
    ts !! i = Some Woken ->
    pool_step (Pool p ts) (Pool p (<[i := Holding]> ts ++ match take_job p with ProcessAndSpawn => [Created] | _ => [] end))
| step_done p ts i :
    ts !! i = Some Holding -> pool_step (Pool p ts) (Pool p (<[i := Looping]> ts)).

(** [create_thread_pool] starts one thread; the time of the first check is
    set by the thread. *)
Definition create_thread_pool (max wd : Z) (junk : timespec) : pool :=
  Pool (PoolCtx 0 0 (S754_zero false) junk max [] wd) [Created].

(** ** Edicts: the reference count *)

Lemma flush_spec q qs l ms freed :
  live qs !! q = Some l -> l = (fun m => [Some m]) <$> ms ->
  flush (S (length l)) q qs freed = Ok (Some (Aqs (delete q (live qs)) (free qs ++ [q]) (count qs), freed ++ ms)).
Proof.
  revert l qs freed. induction ms as [|m ms IH]; intros l qs freed Hl ->; cbn [fmap list_fmap length flush a_qstep] in *.
  - rewrite Hl. cbn. by rewrite app_nil_r.
  - rewrite Hl. cbn [Z.ltb Z.compare].
    rewrite (IH ((fun m => [Some m]) <$> ms) (Aqs (<[q := (fun m => [Some m]) <$> ms]> (live qs)) (free qs) (count qs)))
      by (cbn; by rewrite ?lookup_insert_eq).
    cbn. by rewrite delete_insert_eq, <-app_assoc.
Qed.

Lemma flush_null q qs l ms rest freed :
  live qs !! q = Some l -> l = ((fun m => [Some m]) <$> ms) ++ [None] :: rest ->
  flush (S (length l)) q qs freed = Fail AssertFail.
Proof.
  revert l qs freed. induction ms as [|m ms IH]; intros l qs freed Hl ->; cbn [fmap list_fmap length flush a_qstep app] in *.
  - rewrite Hl. done.
  - rewrite Hl. cbn [Z.ltb Z.compare].
    apply (IH (((fun m => [Some m]) <$> ms) ++ [None] :: rest)); [cbn; by rewrite lookup_insert_eq | done].
Qed.

Lemma with_edict_same w e v n :
  w_edicts w !! e = Some v -> e_count v = n -> with_edict w e (set_count v n) = w.
Proof.
  intros He <-. unfold with_edict, set_count. destruct v as [j q o c t], w as [es qs fr]. cbn in *.
  by rewrite insert_id.
Qed.

(** Dropping a reference that is not the last keeps the edict. *)
Lemma edict_unlink_more w e v :
  w_edicts w !! e = Some v -> 1 < e_count v <= INT_MAX ->
  edict_unlink w e = Ok (Some (with_edict w e (set_count v (e_count v - 1)))).
Proof.
  intros He Hc. unfold edict_unlink, get_edict. rewrite He. cbn [rbind].
  rewrite (proj2 (Z.ltb_lt 0 (e_count v))) by lia. cbn [c_assert rbind].
  rewrite int_val_ok by (unfold INT_MIN, INT_MAX in *; lia). cbn [rbind].
  by rewrite (proj2 (Z.eqb_neq (e_count v - 1) 0)) by lia.
Qed.

(** The last one frees it, with the results nobody has taken, and gives the
    queue back. *)
Lemma edict_unlink_last w e v q ms :
  w_edicts w !! e = Some v -> e_count v = 1 -> e_resultmq v = Z.of_nat q -> (0 < q)%nat ->
  live (w_queues w) !! q = Some ((fun m => [Some m]) <$> ms) ->
  edict_unlink w e =
    Ok (Some (World (delete e (w_edicts w))
      (Aqs (delete q (live (w_queues w))) (free (w_queues w) ++ [q]) (count (w_queues w)))
      (w_freed w ++ ms))).
Proof.
  intros He Hc Hq Hpos Hl. unfold edict_unlink, get_edict. rewrite He. cbn [rbind].
  rewrite Hc. change (int_val (1 - 1)) with (Ok 0). cbn [c_assert Z.ltb Z.compare rbind Z.eqb].
  rewrite Hq, (proj2 (Z.ltb_lt 0 (Z.of_nat q))) by lia. rewrite Nat2Z.id, Hl.
  erewrite flush_spec by done. done.
Qed.

(** A message of one result. *)
Definition result_msg (r : result) : list result := [r].

Lemma edict_unlink_null w e v q ms :
  w_edicts w !! e = Some v -> e_count v = 1 -> e_resultmq v = Z.of_nat q -> (0 < q)%nat ->
  live (w_queues w) !! q = Some (result_msg <$> ms) -> None ∈ ms -> edict_unlink w e = Fail AssertFail.
Proof.
  intros He Hc Hq Hpos Hl Hn. unfold edict_unlink, get_edict. rewrite He. cbn [rbind].
  rewrite Hc. change (int_val (1 - 1)) with (Ok 0). cbn [c_assert Z.ltb Z.compare rbind Z.eqb].
  rewrite Hq, (proj2 (Z.ltb_lt 0 (Z.of_nat q))) by lia. rewrite Nat2Z.id, Hl.
  assert (exists l rest, ms = (Some <$> l) ++ None :: rest) as (l & rest & ->).
  { clear Hl. induction ms as [|[m|] ms IH]; [by apply not_elem_of_nil in Hn| |by exists [], ms].
    apply elem_of_cons in Hn as [|Hn]; [done|]. destruct (IH Hn) as (l & rest & ->). by exists (m :: l), rest. }
  rewrite (flush_null q (w_queues w) (result_msg <$> (Some <$> l) ++ None :: rest) l (result_msg <$> rest) (w_freed w)); [done | exact Hl |].
  by rewrite fmap_app, <-list_fmap_compose.
Qed.

Lemma use_edicts_spec w e v q ms us c' ms' :
  w_edicts w !! e = Some v -> 1 <= e_count v <= INT_MAX -> e_resultmq v = Z.of_nat q ->
  live (w_queues w) !! q = Some (result_msg <$> ms) -> after_uses (e_count v) ms us = Some (c', ms') ->
  use_edicts w e us =
    Ok (Some (World (<[e := set_count v c']> (w_edicts w))
      (Aqs (<[q := result_msg <$> ms']> (live (w_queues w))) (free (w_queues w)) (count (w_queues w))) (w_freed w))) /\
  1 <= c' <= INT_MAX.
Proof.
  revert w v ms. induction us as [|u us IH]; intros w v ms He Hc Hq Hl Hu; cbn [after_uses use_edicts] in *.
  - injection Hu as <- <-. split; [|done]. do 2 f_equal. destruct w as [es [lv fr n] f]. cbn in *.
    unfold set_count. by destruct v; rewrite !insert_id.
  - unfold use_edict. destruct u as [| |now r|].
    + destruct (Z.ltb_spec (e_count v) INT_MAX) as [Hlt|]; [|done]. unfold edict_reference, get_edict. rewrite He. cbn [rbind].
      rewrite int_val_ok by (unfold INT_MIN, INT_MAX in *; lia). cbn [rbind].
      destruct (IH (with_edict w e (set_count v (e_count v + 1))) (set_count v (e_count v + 1)) ms) as [-> ?];
        [apply lookup_insert_eq | cbn; lia | done | done | done |]. split; [|done]. cbn. by rewrite insert_insert_eq.
    + destruct (Z.ltb_spec 1 (e_count v)) as [Hlt|]; [|done]. rewrite (edict_unlink_more w e v) by (done || lia). cbn [rbind].
      destruct (IH (with_edict w e (set_count v (e_count v - 1))) (set_count v (e_count v - 1)) ms) as [-> ?];
        [apply lookup_insert_eq | cbn; lia | done | done | done |]. split; [|done]. cbn. by rewrite insert_insert_eq.
    + unfold send_result, get_edict. rewrite He. cbn [rbind a_qstep]. rewrite Hq, Nat2Z.id, Hl. cbn [rbind].
      destruct (IH (with_wqueues w (Aqs (<[q := result_msg <$> (ms ++ [r])]> (live (w_queues w))) (free (w_queues w)) (count (w_queues w))))
        v (ms ++ [r])) as [Hr ?]; [done | done | done | apply lookup_insert_eq | done |].
      rewrite fmap_app in Hr. split; [|done]. etrans; [exact Hr|]. cbn. by rewrite insert_insert_eq.
    + unfold get_edict. rewrite He. cbn [rbind a_qstep]. rewrite Hq, Nat2Z.id, Hl. destruct ms as [|m ms]; [done|]. cbn [fmap list_fmap].
      destruct (IH (with_wqueues w (Aqs (<[q := result_msg <$> ms]> (live (w_queues w))) (free (w_queues w)) (count (w_queues w))))
        v ms) as [Hr ?]; [done | done | done | apply lookup_insert_eq | done |].
      rewrite Hr. split; [|done]. cbn. by rewrite insert_insert_eq.
Qed.

(** ** Pools: the counts are right *)

Definition count_phase (P : phase -> bool) (ts : list phase) : Z := Z.of_nat (length (filter (fun t => P t = true) ts)).

Definition started (t : phase) : bool := match t with Looping | Waiting | Woken | Holding => true | _ => false end.
Definition waiting (t : phase) : bool := match t with Waiting => true | _ => false end.

(** The counters are exact, and with a watchdog the list has every running
    thread once. *)
Definition pool_inv (p : pool) : Prop :=
  count_thread (p_ctx p) = count_phase started (p_threads p) /\
  count_idle (p_ctx p) = count_phase waiting (p_threads p) /\
  (watchdog_time (p_ctx p) <> 0 ->
    NoDup (fst <$> wdlist (p_ctx p)) /\
    forall i, i ∈ fst <$> wdlist (p_ctx p) <-> exists t, p_threads p !! i = Some t /\ started t = true).

Definition one (b : bool) : Z := if b then 1 else 0.

Lemma count_phase_app P l k : count_phase P (l ++ k) = count_phase P l + count_phase P k.
Proof. unfold count_phase. rewrite filter_app, length_app. lia. Qed.

Lemma count_phase_cons P t l : count_phase P (t :: l) = one (P t) + count_phase P l.
Proof. unfold count_phase, one. rewrite filter_cons. destruct (decide (P t = true)) as [->|E].
  - cbn [length]. lia.
  - apply not_true_is_false in E as ->. lia.
Qed.

Lemma count_phase_insert P l i t t' :
  l !! i = Some t -> count_phase P (<[i := t']> l) = count_phase P l - one (P t) + one (P t').
Proof.
  revert i. induction l as [|x l IH]; intros [|i] Hi; cbn in Hi; try done.
  - injection Hi as ->. cbn [insert list_insert]. rewrite !count_phase_cons. lia.
  - cbn [insert list_insert]. rewrite !count_phase_cons, IH by done. lia.
Qed.

Lemma count_phase_nil P : count_phase P [] = 0.
Proof. done. Qed.

Lemma count_phase_nonneg P l : 0 <= count_phase P l.
Proof. unfold count_phase. lia. Qed.

Lemma kick_tids p tid seen : fst <$> wdlist (kick p tid seen) = fst <$> wdlist p.
Proof.
  unfold kick. cbn. destruct (_ =? 0); [done|]. induction (wdlist p) as [|[i t] l IH]; [done|]. cbn.
  rewrite IH. f_equal. destruct (Nat.eqb_spec i tid); by subst.
Qed.

Lemma wd_remove_spec l tid :
  NoDup (fst <$> l) ->
  NoDup (fst <$> wd_remove l tid) /\ forall i, i ∈ fst <$> wd_remove l tid <-> i ∈ fst <$> l /\ i <> tid.
Proof.
  induction l as [|[j t] l IH]; intros Hd; cbn [fmap list_fmap wd_remove fst] in *; [set_solver|].
  apply NoDup_cons in Hd as [Hj Hd]. destruct (IH Hd) as [H1 H2]. destruct (Nat.eqb_spec j tid) as [->|Hne].
  - split; [done|]. intros i. rewrite elem_of_cons. split; [|naive_solver]. intros Hi. split; [by right|]. by intros ->.
  - cbn [fmap list_fmap fst]. split; [apply NoDup_cons; split; [rewrite H2; naive_solver | done]|].
    intros i. rewrite !elem_of_cons, H2. naive_solver.
Qed.

Lemma wd_unlink_Ok l tid l' : wd_unlink l tid = Ok l' -> l' = wd_remove l tid.
Proof. destruct l; [done|]. by intros [= <-]. Qed.

(** What a step does to the watchdog list and to who is running. *)
Lemma running_insert (ts : list phase) i t t' j :
  ts !! i = Some t -> started t = started t' ->
  (exists u, ts !! j = Some u /\ started u = true) <-> (exists u, <[i := t']> ts !! j = Some u /\ started u = true).
Proof.
  intros Hi Hs. destruct (decide (i = j)) as [->|Hne].
  - rewrite list_lookup_insert_eq by (by eapply lookup_lt_Some). rewrite Hi. naive_solver congruence.
  - by rewrite list_lookup_insert_ne.
Qed.

Lemma running_app (ts : list phase) l j :
  Forall (fun t => started t = false) l ->
  (exists u, (ts ++ l) !! j = Some u /\ started u = true) <-> (exists u, ts !! j = Some u /\ started u = true).
Proof.
  intros Hl. split; intros (u & Hu & Hs); exists u; (split; [|done]).
  - apply lookup_app_Some in Hu as [Hu|[_ Hu]]; [done|]. rewrite Forall_lookup in Hl. apply Hl in Hu. congruence.
  - by apply lookup_app_l_Some.
Qed.

(** Counting after one thread changed its phase. *)
Ltac count_step t :=
  cbn; rewrite ?count_phase_app, (count_phase_insert _ _ _ t) by done;
  rewrite ?count_phase_cons, ?count_phase_nil; cbn; lia.

Lemma step_start_inv p ts i seen ref :
  ts !! i = Some Created -> pool_inv (Pool p ts) -> pool_inv (Pool (thread_start p i seen ref) (<[i := Looping]> ts)).
Proof.
  intros Hi (H1 & H2 & H3). split; [|split]; cbn in H1, H2.
  - count_step Created.
  - count_step Created.
  - cbn [p_ctx thread_start watchdog_time wdlist p_threads]. intros Hw. destruct (H3 Hw) as [Hd He].
    cbn [p_ctx p_threads] in *. rewrite (proj2 (Z.eqb_neq _ _) Hw). cbn [fmap list_fmap fst]. split.
    + apply NoDup_cons. split; [|done]. rewrite He, Hi. intros (t & [= <-] & Hs). done.
    + intros j. rewrite elem_of_cons, He. destruct (decide (j = i)) as [->|Hne].
      * rewrite list_lookup_insert_eq by (by eapply lookup_lt_Some). naive_solver.
      * rewrite list_lookup_insert_ne by done. naive_solver.
Qed.

Lemma step_idle_inv p ts i seen now ref p' ph killed :
  ts !! i = Some Looping -> idle_check p i seen now ref = Ok (p', ph, killed) ->
  pool_inv (Pool p ts) -> pool_inv (Pool p' (<[i := ph]> ts)).
Proof.
  intros Hi E (H1 & H2 & H3). unfold idle_check in E. cbn in H1, H2.
  set (k := kick p i seen) in E. assert (fst <$> wdlist k = fst <$> wdlist p) as Hk by apply kick_tids.
  destruct (_ && _).
  - destruct (Z.eqb_spec (watchdog_time k) 0) as [Hw|Hw].
    + injection E as <- <- _. split; [|split]; [count_step Looping..|]. by cbn.
    + destruct (H3 Hw) as [Hd He]. cbn [p_ctx p_threads] in *.
      destruct (wd_unlink (wdlist k) i) as [l|] eqn:Eu; [|done]. apply wd_unlink_Ok in Eu as ->. injection E as <- <- _.
      split; [|split]; [count_step Looping..|]. intros _. rewrite <-Hk in Hd.
      change (NoDup (fst <$> wd_remove (wdlist k) i) /\ forall j, j ∈ fst <$> wd_remove (wdlist k) i <->
        exists t, <[i := Exited]> ts !! j = Some t /\ started t = true).
      destruct (wd_remove_spec (wdlist k) i Hd) as [Hr1 Hr2]. split; [done|]. intros j. rewrite Hr2, Hk, He.
      destruct (decide (j = i)) as [->|Hne].
      * rewrite list_lookup_insert_eq by (by eapply lookup_lt_Some). naive_solver.
      * rewrite list_lookup_insert_ne by done. naive_solver.
  - injection E as <- <- _. split; [|split]; [count_step Looping..|]. intros Hw. destruct (H3 Hw) as [Hd He]. cbn [p_ctx p_threads] in *.
    change (NoDup (fst <$> wdlist k) /\ forall j, j ∈ fst <$> wdlist k <->
      exists t, <[i := Waiting]> ts !! j = Some t /\ started t = true). rewrite Hk. split; [done|]. intros j. rewrite He. by apply (running_insert _ _ Looping).
Qed.

(** A running thread that goes on running, and may create another. *)
Lemma step_on_inv c c' ts i t ph new :
  ts !! i = Some t -> started t = true -> started ph = true -> Forall (eq Created) new ->
  count_thread c' = count_thread c -> count_idle c' = count_idle c - one (waiting t) + one (waiting ph) ->
  watchdog_time c' = watchdog_time c -> fst <$> wdlist c' = fst <$> wdlist c ->
  pool_inv (Pool c ts) -> pool_inv (Pool c' (<[i := ph]> ts ++ new)).
Proof.
  intros Hi Ht Hs Hn E1 E2 E3 E4 (H1 & H2 & H3). cbn in H1, H2.
  assert (forall P, P Created = false -> count_phase P new = 0) as Hnew.
  { intros P HP. induction Hn as [|x l <- _ IH]; [done|]. rewrite count_phase_cons, HP, IH. done. }
  split; [|split]; cbn [p_ctx p_threads].
  - rewrite E1, count_phase_app, (count_phase_insert _ _ _ t), Hnew, Ht, Hs by done. cbn. lia.
  - rewrite E2, count_phase_app, (count_phase_insert _ _ _ t), Hnew by done. lia.
  - rewrite E3, E4. intros Hwd. destruct (H3 Hwd) as [Hd He]. split; [done|]. intros j. cbn [p_ctx p_threads] in He. rewrite He, running_app.
    + apply (running_insert _ _ t); congruence.
    + eapply Forall_impl; [exact Hn|]. by intros ? <-.
Qed.

Lemma pool_step_inv p p' : pool_step p p' -> pool_inv p -> pool_inv p'.
Proof.
  intros Hs Hp. destruct Hs as [c ts i seen ref Hi|c ts i seen now ref c' ph k Hi E|c ts i seen got Hi|c ts i Hi|c ts i Hi].
  - by apply step_start_inv.
  - by eapply step_idle_inv.
  - rewrite <-(app_nil_r (<[_ := _]> _)). apply (step_on_inv c _ ts i Waiting); try done; [by destruct got | | apply kick_tids].
    cbn. destruct got; cbn; lia.
  - apply (step_on_inv c _ ts i Woken); try done; [by destruct (take_job c); repeat constructor | cbn; lia].
  - rewrite <-(app_nil_r (<[_ := _]> _)). apply (step_on_inv c _ ts i Holding); try done. cbn. lia.
Qed.

Definition reachable (max wd : Z) (p : pool) : Prop :=
  exists junk, clos_refl_trans_1n pool pool_step (create_thread_pool max wd junk) p.

Lemma pool_step_limits p p' :
  pool_step p p' -> max_thread (p_ctx p') = max_thread (p_ctx p) /\ watchdog_time (p_ctx p') = watchdog_time (p_ctx p).
Proof.
  intros Hs. destruct Hs as [c ts i seen ref Hi|c ts i seen now ref c' ph k Hi E|c ts i seen got Hi|c ts i Hi|c ts i Hi];
    cbn; try done.
  unfold idle_check in E. destruct (_ && _); [destruct (_ =? 0); [|destruct (wd_unlink _ _)]|]; by simplify_eq/=.
Qed.

Lemma reachable_inv max wd p :
  reachable max wd p -> pool_inv p /\ max_thread (p_ctx p) = max /\ watchdog_time (p_ctx p) = wd.
Proof.
  intros [junk Hr]. remember (create_thread_pool max wd junk) as p0 eqn:E0.
  assert (pool_inv p0 /\ max_thread (p_ctx p0) = max /\ watchdog_time (p_ctx p0) = wd) as H0.
  { subst p0. split; [|done]. split; [done|]. split; [done|]. intros _. split; [constructor|].
    intros i. cbn. split; [set_solver|]. intros (t & Ht & Hs). destruct i as [|[|i]]; cbn in Ht; naive_solver. }
  clear E0. induction Hr as [p0|p0 p1 p2 Hs _ IH]; [done|]. apply IH. destruct H0 as (Hi & Hm & Hw).
  destruct (pool_step_limits _ _ Hs) as [-> ->]. split; [by eapply pool_step_inv | done].
Qed.

(** ** Properties *)

(** C27: in every state the threads of a pool can reach, however their critical
    sections interleave and whatever the clock says, [count_thread] threads are
    running and [count_idle] of them wait for a job; with a watchdog, its list has
    each running thread exactly once, so a thread that shuts down never unlinks
    itself from an empty list; and a thread that got a job starts another thread
    or refuses the job only when no thread waits, refusing it only when more than
    [max_thread] (not zero) are running. *)
Theorem pool_counters_exact max wd p :
  reachable max wd p ->
  count_thread (p_ctx p) = count_phase started (p_threads p) /\
  count_idle (p_ctx p) = count_phase waiting (p_threads p) /\
  (wd <> 0 -> NoDup (fst <$> wdlist (p_ctx p)) /\
     forall i, i ∈ fst <$> wdlist (p_ctx p) <-> exists t, p_threads p !! i = Some t /\ started t = true) /\
  (forall i seen now ref, p_threads p !! i = Some Looping -> is_ok (idle_check (p_ctx p) i seen now ref) = true) /\
  (take_job (p_ctx p) = Process <-> 0 < count_phase waiting (p_threads p)) /\
  (take_job (p_ctx p) = Refuse <->
     count_phase waiting (p_threads p) = 0 /\ max <> 0 /\ max < count_phase started (p_threads p)).
Proof.
  intros Hr. destruct (reachable_inv max wd p Hr) as [(H1 & H2 & H3) [Hm Hw]]. rewrite Hw in H3.
  pose proof (count_phase_nonneg waiting (p_threads p)) as Hge.
  split_and!; [done..| | |].
  - intros i seen now ref Hi. unfold idle_check. destruct (_ && _); [|done].
    change (watchdog_time (kick (p_ctx p) i seen)) with (watchdog_time (p_ctx p)). rewrite Hw.
    destruct (Z.eqb_spec wd 0) as [|Hne]; [done|]. destruct (H3 Hne) as [_ He].
    assert (i ∈ fst <$> wdlist (kick (p_ctx p) i seen)) as Hin by (rewrite kick_tids, He; eauto).
    by destruct (wdlist (kick (p_ctx p) i seen)); [apply not_elem_of_nil in Hin|].
  - unfold take_job. rewrite H2. destruct (Z.ltb_spec (count_phase waiting (p_threads p)) 1); [|split; [lia | done]].
    split; [|lia]. by destruct (_ || _).
  - unfold take_job. rewrite H1, H2, Hm. destruct (Z.ltb_spec (count_phase waiting (p_threads p)) 1); [|split; [done | lia]].
    destruct (Z.leb_spec (count_phase started (p_threads p)) max), (Z.eqb_spec max 0); cbn [orb]; split; (done || lia).
Qed.

(** One thread, waiting. *)
Lemma pool_counters_exact_witness :
  let t := Timespec 0 0 in
  let p := Pool (PoolCtx 1 1 (S754_zero false) t 0 [(0%nat, t)] 5000) [Waiting] in
  count_idle (p_ctx p) = count_phase waiting (p_threads p).
Proof.
  intros t p. refine (proj1 (proj2 (pool_counters_exact 0 5000 p _))). exists t.
  eapply rt1n_trans; [apply (step_start _ _ 0 t t); reflexivity|].
  eapply rt1n_trans; [apply (step_idle _ _ 0 t t t (p_ctx p) Waiting []); [reflexivity | vm_compute; reflexivity]|].
  apply rt1n_refl.
Defined.

(** C37: an edict lives as long as somebody refers to it.  Let an edict with a
    result queue (of a positive identifier) be referred to [c] times; however
    references are taken and dropped and results sent and taken, while at least
    one reference is left the edict stays, with the count that is left, the queue
    has the results sent and not taken, in order, and no other edict and no other
    queue changes.  When one reference is left, dropping it frees the edict and
    the results left in the queue, each once, and gives the queue back, if none
    of them is NULL; if one is, the assertion on it fails. *)
Theorem edict_freed_with_last_reference w e v q ms us c' ms' :
  w_edicts w !! e = Some v -> 1 <= e_count v <= INT_MAX -> e_resultmq v = Z.of_nat q -> (0 < q)%nat ->
  live (w_queues w) !! q = Some (result_msg <$> ms) -> after_uses (e_count v) ms us = Some (c', ms') ->
  let qs' := Aqs (<[q := result_msg <$> ms']> (live (w_queues w))) (free (w_queues w)) (count (w_queues w)) in
  let w' := World (<[e := set_count v c']> (w_edicts w)) qs' (w_freed w) in
  use_edicts w e us = Ok (Some w') /\ 1 <= c' <= INT_MAX /\
  (c' = 1 ->
    (forall l, ms' = Some <$> l ->
      edict_unlink w' e = Ok (Some (World (delete e (w_edicts w))
        (Aqs (delete q (live (w_queues w))) (free (w_queues w) ++ [q]) (count (w_queues w))) (w_freed w ++ l)))) /\
    (None ∈ ms' -> edict_unlink w' e = Fail AssertFail)).
Proof.
  intros He Hc Hq Hpos Hl Hu qs' w'. destruct (use_edicts_spec w e v q ms us c' ms' He Hc Hq Hl Hu) as [E Hc'].
  split; [exact E|]. split; [exact Hc'|]. intros ->.
  assert (w_edicts w' !! e = Some (set_count v 1)) as He' by apply lookup_insert_eq.
  assert (live (w_queues w') !! q = Some (result_msg <$> ms')) as Hl' by apply lookup_insert_eq. split.
  - intros l ->. rewrite <-list_fmap_compose in Hl'.
    rewrite (edict_unlink_last w' e (set_count v 1) q l He' eq_refl Hq Hpos Hl'). cbn. by rewrite !delete_insert_eq.
  - intros Hn. by apply (edict_unlink_null w' e (set_count v 1) q ms').
Qed.

Lemma edict_freed_with_last_reference_witness :
  let t := Timespec 0 0 in
  let w := World {[5%nat := Edict (Some 1%nat) 1 true 1 0]} (Aqs {[1%nat := [[Some 7%nat]]]} [] 2) [] in
  let us := [ERef; ESend t (Some 8%nat); ERef; EUnlink; ETake; ERef; ESend t (Some 9%nat); EUnlink; EUnlink] in
  exists w', use_edicts w 5 us = Ok (Some w') /\
    edict_unlink w' 5 = Ok (Some (World (delete 5%nat (w_edicts w)) (Aqs (delete 1%nat (live (w_queues w))) [1%nat] 2) [8%nat; 9%nat])).
Proof.
  intros t w us.
  destruct (edict_freed_with_last_reference w 5 (Edict (Some 1%nat) 1 true 1 0) 1 [Some 7%nat] us 1 [Some 8%nat; Some 9%nat])
    as (E & _ & H); try reflexivity; [cbn; unfold INT_MAX; lia | lia |].
  eexists. split; [exact E|]. destruct (H eq_refl) as [H1 _]. exact (H1 [8%nat; 9%nat] eq_refl).
Defined.

(** A refusal that arrives late kills the daemon: when a pool at its limit
    answers an edict with the NULL result and nobody takes it any more, the
    thread that drops the last reference fails the assertion of
    [edict_unlink] that results are not NULL. *)
Theorem late_refusal_fails_assertion routine now w e v q :
  w_edicts w !! e = Some v -> is_Some (e_job v) -> e_count v = 1 -> e_resultmq v = Z.of_nat q -> (0 < q)%nat ->
  live (w_queues w) !! q = Some [] ->
  do_job routine Refuse now w e = Fail AssertFail.
Proof.
  intros He Hj Hc Hq Hpos Hl. unfold do_job, get_edict. rewrite He. cbn [rbind].
  rewrite bool_decide_eq_true_2 by done. cbn [c_assert rbind]. rewrite Hq, (proj2 (Z.leb_le 0 (Z.of_nat q))) by lia.
  unfold send_result, get_edict. rewrite He. cbn [rbind]. rewrite Hq, Nat2Z.id. cbn [a_qstep]. rewrite Hl.
  cbn [rbind]. unfold edict_unlink, get_edict. cbn [w_edicts with_wqueues]. rewrite He. cbn [rbind].
  rewrite Hc. change (int_val (1 - 1)) with (Ok 0). cbn [c_assert Z.ltb Z.compare rbind Z.eqb].
  rewrite Hq, (proj2 (Z.ltb_lt 0 (Z.of_nat q))) by lia. rewrite Nat2Z.id.
  cbn [w_queues with_wqueues live]. rewrite lookup_insert_eq.
  by rewrite (flush_null q _ [[None]] [] []) by (cbn; rewrite ?lookup_insert_eq; done).
Qed.

Lemma late_refusal_fails_assertion_witness :
  let w := World {[5%nat := Edict (Some 1%nat) 1 true 1 0]} (Aqs {[1%nat := []]} [] 2) [] in
  do_job (fun w _ => Ok w) Refuse (Timespec 0 0) w 5 = Fail AssertFail.
Proof.
  intros w. apply (late_refusal_fails_assertion _ _ w 5 (Edict (Some 1%nat) 1 true 1 0) 1);
    try reflexivity; [by eexists | lia].
Defined.
