(* ===== verification/Worker.v ===== *)
(** * Judging a query ([src/src/worker.c])

    The request, its parameters, [test_tuple] with its loop that waits for the
    answers of the checks, the query log entry, and the reference count of a
    request.  The replies of the checks and the clock are the input [ticks] of
    the loop, one for each turn; what the handler does to other components
    (edicts, queues, counters, the peer) is the list of effects it returns. *)

From S2P Require Import Prelude Sha256 Bloom BloomMgr Utils AddrUtils.

(** ** Data *)

Inductive grey_status :=
| STATUS_GREY | STATUS_MATCH | STATUS_TRUST | STATUS_UNKNOWN | STATUS_FAIL | STATUS_BLOCK.

#[export] Instance grey_status_eq_dec : EqDecision grey_status.
Proof. solve_decision. Defined.

Inductive judgment_t := J_UNDEFINED | J_SUSPICIOUS | J_BLOCK | J_PASS.

#[export] Instance judgment_eq_dec : EqDecision judgment_t.
Proof. solve_decision. Defined.

Definition judgment_num (j : judgment_t) : Z :=
  match j with J_UNDEFINED => 0 | J_SUSPICIOUS => 1 | J_BLOCK => 2 | J_PASS => 3 end.

(** [MAX] of two judgments. *)
Definition judgment_max (a b : judgment_t) : judgment_t :=
  if judgment_num b <? judgment_num a then a else b.

Record chkresult := ChkResult {
  r_definitive : bool;
  r_wait : bool;
  r_weight : Z;
  r_judgment : judgment_t;
  r_reason : option cstr;
  r_checkname : option cstr }.

Record grey_tuple_t := GreyTuple {
  sender : option cstr;
  recipient : option cstr;
  client_address : option cstr;
  helo_name : option cstr;
  reference_count : Z }.

Inductive greytuple_type := GREY_TUPLE_USER | GREY_TUPLE_SERVER.

Record worker_config := WorkerConfig {
  w_masks : mask_config;
  w_grey_tuple : greytuple_type;
  block_threshold : Z;
  grey_threshold : Z;
  query_timelimit : Z;
  flg_match_shortcut : bool;
  flg_update_always : bool;
  flg_dryrun : bool;
  grey_reason : cstr;
  block_reason : cstr;
  checklist : list bool }.   (* the registered checks; true: definitive *)

(** A query log entry: action, total weight, the matches in order. *)
Record querylog := QueryLog { q_totalweight : Z; q_match : list (cstr * Z) }.

(** A timeout action: milliseconds and what to run, if anything. *)
Record tmout_action := TmoutAction { timeout : Z; action : option nat }.

Inductive effect :=
| EdictGet (timelimit : Z)
| SubmitJob (check : nat)
| RunAction (a : nat) (timeused : Z)
| EdictObsolete
| EdictUnlink
| PutUpdate (msg : list Z)
| SendOperSync (d : sha_256_t)
| CountStatus (s : grey_status).

(** ** Requests *)

Definition request_new : grey_tuple_t := GreyTuple None None None None 1.

Definition set_refs (r : grey_tuple_t) (n : Z) : grey_tuple_t :=
  GreyTuple (sender r) (recipient r) (client_address r) (helo_name r) n.

Definition request_reference (r : grey_tuple_t) : Res grey_tuple_t :=
  n ← int_val (reference_count r + 1); Ok (set_refs r n).

(** [None]: the last reference is gone and the request is freed. *)
Definition request_unlink (r : grey_tuple_t) : Res (option grey_tuple_t) :=
  _ ← c_assert (0 <? reference_count r);
  n ← int_val (reference_count r - 1);
  Ok (if n =? 0 then None else Some (set_refs r n)).

Fixpoint try_match (matcher matchee : cstr) : option cstr :=
  match matcher, matchee with
  | [], rest => Some rest
  | m :: ms, c :: cs => if chr_eqb m c then try_match ms cs else None
  | _ :: _, [] => None
  end.

Definition process_parameter (t : grey_tuple_t) (str : cstr) : Z * grey_tuple_t :=
  match try_match (cs "sender=") str with
  | Some m => (0, GreyTuple (Some m) (recipient t) (client_address t) (helo_name t) (reference_count t))
  | None =>
  match try_match (cs "recipient=") str with
  | Some m => (0, GreyTuple (sender t) (Some m) (client_address t) (helo_name t) (reference_count t))
  | None =>
  match try_match (cs "client_address=") str with
  | Some m => (0, GreyTuple (sender t) (recipient t) (Some m) (helo_name t) (reference_count t))
  | None =>
  match try_match (cs "helo_name=") str with
  | Some m => (0, GreyTuple (sender t) (recipient t) (client_address t) (Some m) (reference_count t))
  | None => (-1, t)
  end end end end.

Definition check_request (t : grey_tuple_t) : Z :=
  match sender t, recipient t, client_address t with
  | Some _, Some _, Some _ => 0
  | _, _, _ => -1
  end.

(** The part of an address after its first at sign; all of it if there is none. *)
Fixpoint strchr_at (s : cstr) : option cstr :=
  match s with
  | [] => None
  | c :: t => if chr_eqb c "@"%char then Some t else strchr_at t
  end.

Definition domain_part (email : cstr) : cstr := default email (strchr_at email).

(** ** The query log *)

Definition record_match (q : querylog) (r : chkresult) : Res querylog :=
  t ← int_val (q_totalweight q + r_weight r);
  Ok (QueryLog t (q_match q ++ [(default (cs "<anonymous>") (r_checkname r), r_weight r)])).

(** ** Waiting for the checks *)

(** One turn of the loop: the milliseconds used so far and, when the code asks
    for one, what [get_msg_timed] brings: nothing, the NULL result, a result. *)
Inductive reply := NoReply | NullResult | Reply (r : chkresult).
Record tick := Tick { timeused : Z; t_reply : reply }.

Record waiting := Waiting {
  wl_ta : list tmout_action;
  wl_judgment : judgment_t;
  wl_susp_weight : Z;
  wl_checks_running : Z;
  wl_definitives_running : Z;
  wl_definitive : bool;
  wl_reason : option cstr;
  wl_querylog : querylog;
  wl_request : option grey_tuple_t;   (* None: freed *)
  wl_seen : list chkresult;           (* the results received, as logged *)
  wl_effects : list effect }.

Definition wl_set_ta (w : waiting) ta eff : waiting :=
  Waiting ta (wl_judgment w) (wl_susp_weight w) (wl_checks_running w) (wl_definitives_running w)
    (wl_definitive w) (wl_reason w) (wl_querylog w) (wl_request w) (wl_seen w) (wl_effects w ++ eff).

Definition wl_set_definitive (w : waiting) b : waiting :=
  Waiting (wl_ta w) (wl_judgment w) (wl_susp_weight w) (wl_checks_running w) (wl_definitives_running w)
    b (wl_reason w) (wl_querylog w) (wl_request w) (wl_seen w) (wl_effects w).

Definition unlink_request (r : option grey_tuple_t) : Res (option grey_tuple_t) :=
  match r with Some r => request_unlink r | None => Fail OutOfBounds end.

(** A result is taken into account. *)
Definition take_result (w : waiting) (r : reply) : Res waiting :=
  match r with
  | NoReply => Ok w
  | NullResult =>
      req ← unlink_request (wl_request w);
      Ok (Waiting (wl_ta w) (wl_judgment w) (wl_susp_weight w) (wl_checks_running w - 1)
        (wl_definitives_running w) (wl_definitive w) (wl_reason w) (wl_querylog w) req (wl_seen w) (wl_effects w))
  | Reply r =>
      let running := if r_wait r then wl_checks_running w else wl_checks_running w - 1 in
      let judgment := judgment_max (wl_judgment w) (r_judgment r) in
      susp ← int_val (wl_susp_weight w + r_weight r);
      q ← (if bool_decide (r_judgment r = J_UNDEFINED) then Ok (wl_querylog w)
           else record_match (wl_querylog w) r);
      let defs := if r_definitive r then wl_definitives_running w - 1 else wl_definitives_running w in
      let reason := match r_reason r with Some s => Some s | None => wl_reason w end in
      Ok (Waiting (wl_ta w) judgment susp running defs (wl_definitive w) reason q (wl_request w)
        (wl_seen w ++ [r]) (wl_effects w))
  end.

(** Is the result definitive already? *)
Definition cut_off (cfg : worker_config) (w : waiting) : bool :=
  if bool_decide (wl_judgment w = J_PASS) then true
  else if 0 =? wl_definitives_running w then
    if negb (block_threshold cfg =? 0) && (block_threshold cfg <=? wl_susp_weight w) then true
    else (block_threshold cfg =? 0) && (grey_threshold cfg <=? wl_susp_weight w)
  else false.

Definition wait_step (cfg : worker_config) (t : tick) (w : waiting) : Res waiting :=
  match wl_ta w with
  | [] => Ok w
  | ta :: rest =>
      if timeused t <? timeout ta then
        match t_reply t with
        | NoReply => Ok w
        | r =>
            w ← take_result w r;
            Ok (if cut_off cfg w then wl_set_definitive w true else w)
        end
      else
        match action ta with
        | Some a => Ok (wl_set_ta w rest [RunAction a (timeused t)])
        | None => Ok (wl_set_ta w rest [])
        end
  end.

Definition wait_more (w : waiting) : bool :=
  negb (wl_definitive w) && (0 <? wl_checks_running w) && match wl_ta w with [] => false | _ => true end.

(** [None]: the ticks are used up and the loop still waits. *)
Fixpoint wait_loop (cfg : worker_config) (ticks : list tick) (w : waiting) : Res (option waiting) :=
  if wait_more w then
    match ticks with
    | [] => Ok None
    | t :: ticks => w ← wait_step cfg t w; wait_loop cfg ticks w
    end
  else Ok (Some w).

(** ** The verdict *)

(** [seen]: the digest is in the filter when the results are summed up. *)
Definition sum_up (cfg : worker_config) (j : judgment_t) (susp : Z) (seen : bool) (reason : option cstr)
    : grey_status * option cstr :=
  match j with
  | J_PASS => (STATUS_TRUST, reason)
  | J_BLOCK => (STATUS_BLOCK, reason)
  | J_SUSPICIOUS | J_UNDEFINED =>
      if (0 <? block_threshold cfg) && (block_threshold cfg <=? susp) then (STATUS_BLOCK, Some (block_reason cfg))
      else if grey_threshold cfg <=? susp then
        if seen then (STATUS_MATCH, reason) else (STATUS_GREY, Some (grey_reason cfg))
      else (STATUS_TRUST, reason)
  end.

(** The string that is hashed: at most MSGSZ - 1 characters. *)
Definition maskedtuple (cfg : worker_config) (chkip : cstr) (r : grey_tuple_t) : Res cstr :=
  match w_grey_tuple cfg, sender r, recipient r, helo_name r with
  | GREY_TUPLE_USER, Some s, Some rcpt, _ => Ok (take (MSGSZ - 1) (chkip ++ sp :: s ++ sp :: rcpt))
  | GREY_TUPLE_SERVER, Some s, _, Some helo =>
      Ok (take (MSGSZ - 1) (chkip ++ sp :: domain_part s ++ sp :: helo))
  | _, _, _, _ => Fail Undefined
  end.

(** What the caller gets, and what became of the request. *)
Record outcome := Outcome {
  o_status : grey_status;
  o_reason : option cstr;
  o_action : grey_status;       (* of the query log *)
  o_querylog : querylog;
  o_request : option grey_tuple_t;
  o_effects : list effect }.

Definition count_definitives (l : list bool) : Z := Z.of_nat (length (filter (fun b => b = true) l)).

Fixpoint request_references (n : nat) (r : grey_tuple_t) : Res grey_tuple_t :=
  match n with O => Ok r | S n => r ← request_reference r; request_references n r end.

Fixpoint sum_timeouts (l : list tmout_action) (t : Z) : Res Z :=
  match l with [] => Ok t | a :: l => t ← int_val (t + timeout a); sum_timeouts l t end.

Section TestTuple.
Context `{Inet} (le : bool).

(** From the verdict on: the filter and the peer are updated, the counters too. *)
Definition conclude (cfg : worker_config) (connected : bool) (digest : sha_256_t) (pad : list Z)
    (ret : grey_status) (reason : option cstr) (q : querylog) (r : option grey_tuple_t) (eff : list effect) : outcome :=
  let upd := bool_decide (ret = STATUS_GREY) || bool_decide (ret = STATUS_MATCH) || flg_update_always cfg in
  let eff := eff ++
    (if upd then PutUpdate (msg_bytes le (MUpdate digest) pad) ::
       (if connected then [SendOperSync digest] else []) else []) in
  let ret' := if flg_dryrun cfg then STATUS_TRUST else ret in
  Outcome ret' reason ret q r (eff ++ [CountStatus ret']).

(** [q1] and [q2] are the filter at the two moments it is looked at; [None]
    inside [Ok]: the checks are still being waited for; the [Z] is the value
    returned. *)
Definition test_tuple (cfg : worker_config) (ta : option (list tmout_action)) (ticks : list tick)
    (q1 q2 : bloom_ring_queue_t) (connected : bool) (pad : list Z) (r : grey_tuple_t)
    : Res (option (Z * outcome)) :=
  ip ← match client_address r with Some ip => Ok ip | None => Fail OutOfBounds end;
  masked ← grey_mask le (w_masks cfg) ip;
  match masked with
  | None => Ok (Some (-1, Outcome STATUS_FAIL None STATUS_GREY (QueryLog 0 []) (Some r) []))
  | Some chkip =>
      tuple ← maskedtuple cfg chkip r;
      digest ← match sha256_string le tuple with Some d => Ok d | None => Fail OutOfBounds end;
      found ← is_in_ring_queue q1 digest;
      let checkcount := length (checklist cfg) in
      if found && (flg_match_shortcut cfg || (checkcount =? 0)%nat) then
        Ok (Some (0, conclude cfg connected digest pad STATUS_MATCH None (QueryLog 0 []) (Some r) []))
      else if (checkcount =? 0)%nat then
        Ok (Some (0, conclude cfg connected digest pad STATUS_GREY (Some (grey_reason cfg)) (QueryLog 0 []) (Some r) []))
      else
        let ta := default [TmoutAction (query_timelimit cfg) None] ta in
        limit ← sum_timeouts ta 0;
        r ← request_references checkcount r;
        let eff := EdictGet limit :: (SubmitJob <$> seq 0 checkcount) in
        w ← wait_loop cfg ticks (Waiting ta J_UNDEFINED 0 (Z.of_nat checkcount)
              (count_definitives (checklist cfg)) false None (QueryLog 0 []) (Some r) [] eff);
        match w with
        | None => Ok None
        | Some w =>
            seen ← is_in_ring_queue q2 digest;
            let '(ret, reason) := sum_up cfg (wl_judgment w) (wl_susp_weight w) seen (wl_reason w) in
            Ok (Some (0, conclude cfg connected digest pad ret reason (wl_querylog w) (wl_request w)
              (wl_effects w ++ [EdictObsolete; EdictUnlink])))
        end
  end.

End TestTuple.

(** ** What the loop computes *)

(** The verdict, from the results alone. *)
Definition weights (rs : list chkresult) : Z := foldr (fun r t => r_weight r + t) 0 rs.

Definition judged (j : judgment_t) (rs : list chkresult) : bool :=
  existsb (fun r => bool_decide (r_judgment r = j)) rs.

Definition verdict (cfg : worker_config) (rs : list chkresult) (seen : bool) : grey_status :=
  if judged J_PASS rs then STATUS_TRUST
  else if judged J_BLOCK rs then STATUS_BLOCK
  else if (0 <? block_threshold cfg) && (block_threshold cfg <=? weights rs) then STATUS_BLOCK
  else if grey_threshold cfg <=? weights rs then if seen then STATUS_MATCH else STATUS_GREY
  else STATUS_TRUST.

Definition top_judgment (rs : list chkresult) : judgment_t :=
  foldl (fun j r => judgment_max j (r_judgment r)) J_UNDEFINED rs.

Definition replies (ticks : list tick) : list chkresult :=
  ticks ≫= (fun t => match t_reply t with Reply r => [r] | _ => [] end).

Lemma weights_app a b : weights (a ++ b) = weights a + weights b.
Proof. unfold weights. induction a as [|r a IH]; cbn; lia. Qed.

Lemma judged_app j a b : judged j (a ++ b) = judged j a || judged j b.
Proof. apply existsb_app. Qed.

Lemma top_judgment_snoc rs r : top_judgment (rs ++ [r]) = judgment_max (top_judgment rs) (r_judgment r).
Proof. unfold top_judgment. by rewrite foldl_app. Qed.

Lemma top_judgment_spec rs :
  (top_judgment rs = J_PASS <-> judged J_PASS rs = true) /\
  (top_judgment rs = J_BLOCK <-> judged J_PASS rs = false /\ judged J_BLOCK rs = true).
Proof.
  induction rs as [|r rs IH] using rev_ind; [split; split; [discriminate|discriminate|discriminate|intros [_ H]; discriminate H]|].
  rewrite top_judgment_snoc, !judged_app. cbn [judged existsb].
  destruct (judged J_PASS rs), (judged J_BLOCK rs), (top_judgment rs) eqn:E, (r_judgment r); cbn; naive_solver.
Qed.

Lemma sum_up_verdict cfg rs seen reason :
  (sum_up cfg (top_judgment rs) (weights rs) seen reason).1 = verdict cfg rs seen.
Proof.
  destruct (top_judgment_spec rs) as [Hp Hb]. unfold verdict, sum_up.
  destruct (judged J_PASS rs) eqn:E1; [by rewrite (proj2 Hp)|].
  destruct (judged J_BLOCK rs) eqn:E2; [by rewrite (proj2 Hb)|].
  destruct (top_judgment rs) eqn:Et; [| |naive_solver|naive_solver].
  all: destruct ((0 <? block_threshold cfg) && (block_threshold cfg <=? weights rs)); [done|];
    destruct (grey_threshold cfg <=? weights rs); [by destruct seen|done].
Qed.

(** The loop's variables are functions of the results received. *)
Definition accounted (w : waiting) : Prop :=
  wl_judgment w = top_judgment (wl_seen w) /\ wl_susp_weight w = weights (wl_seen w) /\
  q_match (wl_querylog w) =
    ((fun r => (default (cs "<anonymous>") (r_checkname r), r_weight r)) <$>
      filter (fun r => r_judgment r <> J_UNDEFINED) (wl_seen w)).

Lemma take_result_accounted w r w' : take_result w r = Ok w' -> accounted w -> accounted w'.
Proof.
  intros E (Hj & Hw & Hq). destruct r as [| |r]; cbn in E.
  - by injection E as <-.
  - inv_ok. split; [done|]. done.
  - unfold accounted. apply bind_Ok_inv in E as (s & E1 & E). apply bind_Ok_inv in E as (q & E2 & E).
    injection E as <-. cbn [wl_judgment wl_seen wl_susp_weight wl_querylog].
    apply int_val_inv in E1 as [-> _].
    rewrite top_judgment_snoc, weights_app, filter_app, fmap_app, <-Hj, <-Hq. cbn [weights foldr].
    split; [done|]. split; [lia|]. rewrite filter_cons, filter_nil.
    case_bool_decide as Hu.
    + injection E2 as <-. rewrite decide_False by naive_solver. by rewrite app_nil_r.
    + unfold record_match in E2. apply bind_Ok_inv in E2 as (t & _ & E2). injection E2 as <-.
      by rewrite decide_True by done.
Qed.

Lemma wait_step_seen cfg t w w' :
  wait_step cfg t w = Ok w' ->
  (accounted w -> accounted w') /\
  exists rs, wl_seen w' = wl_seen w ++ rs /\ rs `sublist_of` replies [t].
Proof.
  unfold wait_step. destruct (wl_ta w) as [|ta rest]; [intros [= <-]; split; [done|]; exists []; split;
    [by rewrite app_nil_r | apply sublist_nil_l]|].
  destruct (timeused t <? timeout ta); last first.
  { destruct (action ta); intros [= <-]; (split; [done|]; exists []; split; [by rewrite app_nil_r | apply sublist_nil_l]). }
  intros E.
  assert (forall r, t_reply t = r -> r <> NoReply ->
    (x ← take_result w r; Ok (if cut_off cfg x then wl_set_definitive x true else x)) = Ok w' ->
    (accounted w -> accounted w') /\ exists rs, wl_seen w' = wl_seen w ++ rs /\ rs `sublist_of` replies [t]) as H.
  { intros r Er Hn E'. apply bind_Ok_inv in E' as (x & Ex & E'). injection E' as <-. split.
    - intros Ha. apply (take_result_accounted w r x Ex) in Ha. by destruct (cut_off cfg x).
    - exists (match r with Reply r => [r] | _ => [] end). split.
      + assert (wl_seen x = wl_seen w ++ match r with Reply r => [r] | _ => [] end) as Hx.
        { destruct r as [| |r]; cbn in Ex; [done| |].
          - apply bind_Ok_inv in Ex as (? & _ & Ex). injection Ex as <-. cbn. by rewrite app_nil_r.
          - apply bind_Ok_inv in Ex as (? & _ & Ex). apply bind_Ok_inv in Ex as (? & _ & Ex).
            by injection Ex as <-. }
        by destruct (cut_off cfg x).
      + unfold replies. cbn. rewrite Er, app_nil_r. done. }
  destruct (t_reply t) as [| |r] eqn:Er.
  - injection E as <-. split; [done|]. exists []. split; [by rewrite app_nil_r | apply sublist_nil_l].
  - by apply (H NullResult).
  - by apply (H (Reply r)).
Qed.

Lemma wait_loop_seen cfg ticks w w' :
  wait_loop cfg ticks w = Ok (Some w') ->
  (accounted w -> accounted w') /\
  exists rs, wl_seen w' = wl_seen w ++ rs /\ rs `sublist_of` replies ticks.
Proof.
  revert w. induction ticks as [|t ticks IH]; intros w E; cbn [wait_loop] in E; destruct (wait_more w).
  - done.
  - injection E as <-. split; [done|]. exists []. split; [by rewrite app_nil_r | apply sublist_nil_l].
  - apply bind_Ok_inv in E as (w1 & E1 & E). destruct (wait_step_seen cfg t w w1 E1) as [Ha (r1 & Hs1 & Hr1)].
    destruct (IH w1 E) as [Ha2 (r2 & Hs2 & Hr2)]. split; [naive_solver|]. exists (r1 ++ r2). split.
    + by rewrite Hs2, Hs1, app_assoc.
    + change (t :: ticks) with ([t] ++ ticks). unfold replies in *. rewrite bind_app. by apply sublist_app.
  - injection E as <-. split; [done|]. exists []. split; [by rewrite app_nil_r | apply sublist_nil_l].
Qed.

(** ** Which results count

    Said without the loop: the replies that come while a timeout has not run out,
    each turn later than the timeout at hand using it up, and of these as many as
    decide the query: until every check has returned, a check has passed the
    client, or the definitive checks have returned and the threshold is reached. *)
Fixpoint received (ta : list tmout_action) (ticks : list tick) : list reply :=
  match ta, ticks with
  | a :: rest, t :: ticks =>
      if timeused t <? timeout a
      then match t_reply t with NoReply => received ta ticks | r => r :: received ta ticks end
      else received rest ticks
  | _, _ => []
  end.

Definition results (l : list reply) : list chkresult := l ≫= (fun r => match r with Reply r => [r] | _ => [] end).

Definition is_final (r : reply) : bool := match r with NoReply => false | NullResult => true | Reply r => negb (r_wait r) end.
Definition is_definitive (r : reply) : bool := match r with Reply r => r_definitive r | _ => false end.

(** What may be said before all checks have returned. *)
Definition cut_short (cfg : worker_config) (l : list reply) : bool :=
  judged J_PASS (results l) ||
  (countZ is_definitive l =? count_definitives (checklist cfg)) &&
  ((if block_threshold cfg =? 0 then grey_threshold cfg else block_threshold cfg) <=? weights (results l)).

Definition decided (cfg : worker_config) (l : list reply) : bool :=
  match l with
  | [] => false
  | _ => (Z.of_nat (length (checklist cfg)) <=? countZ is_final l) || cut_short cfg l
  end.

Fixpoint until {A} (p : list A -> bool) (acc l : list A) : list A :=
  if p acc then acc else match l with [] => acc | x :: l => until p (acc ++ [x]) l end.

Definition counted (cfg : worker_config) (ta : list tmout_action) (ticks : list tick) : list chkresult :=
  results (until (decided cfg) [] (received ta ticks)).

Lemma until_stop {A} (p : list A -> bool) acc l : p acc = true -> until p acc l = acc.
Proof. intros E. destruct l; cbn; by rewrite E. Qed.

Lemma until_next {A} (p : list A -> bool) acc x l : p acc = false -> until p acc (x :: l) = until p (acc ++ [x]) l.
Proof. intros E. cbn. by rewrite E. Qed.

Lemma countZ_snoc {A} (p : A -> bool) l x : countZ p (l ++ [x]) = countZ p l + (if p x then 1 else 0).
Proof. unfold countZ, sumZ. rewrite foldr_app. cbn. generalize (if p x then 1 else 0). intros k. induction l as [|y l IH]; cbn; lia. Qed.

(** The loop has taken the replies [acc]. *)
Record at_reply (cfg : worker_config) (acc : list reply) (w : waiting) : Prop := {
  ar_running : wl_checks_running w = Z.of_nat (length (checklist cfg)) - countZ is_final acc;
  ar_definitives : wl_definitives_running w = count_definitives (checklist cfg) - countZ is_definitive acc;
  ar_definitive : wl_definitive w = match acc with [] => false | _ => cut_short cfg acc end;
  ar_seen : wl_seen w = results acc;
  ar_accounted : accounted w }.

Lemma cut_off_short cfg w acc :
  wl_definitives_running w = count_definitives (checklist cfg) - countZ is_definitive acc ->
  wl_seen w = results acc -> accounted w -> cut_off cfg w = cut_short cfg acc.
Proof.
  intros Hd Hs (Hj & Hw & _). unfold cut_off, cut_short. rewrite <-Hs, Hj, Hw. clear Hj Hw.
  destruct (top_judgment_spec (wl_seen w)) as [[Hp1 Hp2] _]. destruct (judged J_PASS (wl_seen w)) eqn:E.
  { rewrite bool_decide_eq_true_2 by auto. reflexivity. }
  rewrite bool_decide_eq_false_2 by (intros H; apply Hp1 in H; discriminate). cbn [orb].
  destruct (Z.eqb_spec 0 (wl_definitives_running w)), (Z.eqb_spec (countZ is_definitive acc) (count_definitives (checklist cfg))); [|lia|lia|done].
  cbn [andb]. destruct (Z.eqb_spec (block_threshold cfg) 0) as [->|Hne]; cbn [negb andb]; [done|].
  by destruct (_ <=? _).
Qed.

Lemma at_reply_take cfg acc w r w' : at_reply cfg acc w -> r <> NoReply ->
  (x ← take_result w r; Ok (if cut_off cfg x then wl_set_definitive x true else x)) = Ok w' -> wl_definitive w = false ->
  at_reply cfg (acc ++ [r]) w' /\ wl_ta w' = wl_ta w.
Proof.
  intros [H1 H2 H3 H4 H5] Hr E Hn. apply bind_Ok_inv in E as (x & Ex & E). injection E as <-.
  pose proof (take_result_accounted w r x Ex H5) as Hx.
  assert (wl_checks_running x = Z.of_nat (length (checklist cfg)) - countZ is_final (acc ++ [r]) /\
    wl_definitives_running x = count_definitives (checklist cfg) - countZ is_definitive (acc ++ [r]) /\
    wl_seen x = results (acc ++ [r]) /\ wl_definitive x = false /\ wl_ta x = wl_ta w) as (X1 & X2 & X3 & X4 & X5).
  { unfold results. rewrite !countZ_snoc, bind_app. fold (results acc). rewrite <-H4. cbn [mbind list_bind]. rewrite app_nil_r.
    destruct r as [| |r]; [done| |]; cbn in Ex.
    - apply bind_Ok_inv in Ex as (? & _ & Ex). injection Ex as <-. cbn. rewrite app_nil_r. split_and!; [lia | lia | done..].
    - apply bind_Ok_inv in Ex as (? & _ & Ex). apply bind_Ok_inv in Ex as (? & _ & Ex). injection Ex as <-. cbn.
      split_and!; [destruct (r_wait r); cbn; lia | destruct (r_definitive r); lia | done..]. }
  pose proof (cut_off_short cfg x (acc ++ [r]) X2 X3 Hx) as Hcut. rewrite Hcut. split; [|destruct (cut_short cfg (acc ++ [r])); exact X5].
  split; (destruct (cut_short cfg (acc ++ [r])) eqn:Ec; [cbn [wl_set_definitive wl_checks_running wl_definitives_running wl_seen wl_definitive] |]); try done.
  - by destruct acc.
  - rewrite X4. by destruct acc.
Qed.

(** The loop takes exactly the results that count. *)
Lemma wait_loop_counted cfg : forall ticks acc w w', checklist cfg <> [] -> at_reply cfg acc w ->
  wait_loop cfg ticks w = Ok (Some w') ->
  wl_seen w' = results (until (decided cfg) acc (received (wl_ta w) ticks)) /\ accounted w'.
Proof.
  assert (forall acc w, checklist cfg <> [] -> at_reply cfg acc w ->
    wait_more w = negb (decided cfg acc) && match wl_ta w with [] => false | _ => true end) as Hmore.
  { intros acc w Hc [H1 _ H3 _ _]. unfold wait_more. f_equal. unfold decided. rewrite H1, H3. destruct acc as [|r acc].
    - assert (0 < length (checklist cfg))%nat by (destruct (checklist cfg); [done | cbn; lia]).
      change (countZ is_final []) with 0. cbn [negb andb]. apply Z.ltb_lt. lia.
    - rewrite negb_orb, andb_comm. f_equal. destruct (Z.leb_spec (Z.of_nat (length (checklist cfg))) (countZ is_final (r :: acc)));
        cbn [negb]; [apply Z.ltb_ge | apply Z.ltb_lt]; lia. }
  induction ticks as [|t ticks IH]; intros acc w w' Hc Ha E; cbn [wait_loop] in E; rewrite (Hmore acc w Hc Ha) in E.
  - destruct (_ && _) eqn:Em; [done|]. injection E as <-. split; [|apply Ha]. rewrite (ar_seen _ _ _ Ha). f_equal.
    destruct (wl_ta w); cbn [received until]; by destruct (decided cfg acc).
  - destruct (decided cfg acc) eqn:Ed; cbn [negb andb] in E.
    { injection E as <-. rewrite until_stop by done. split; [apply Ha | apply Ha]. }
    destruct (wl_ta w) as [|a rest] eqn:Et.
    { injection E as <-. cbn [received until]. rewrite Ed. split; [apply Ha | apply Ha]. }
    apply bind_Ok_inv in E as (w1 & E1 & E). unfold wait_step in E1. rewrite Et in E1. cbn [received].
    assert (wl_definitive w = false) as Hdef.
    { rewrite (ar_definitive _ _ _ Ha). destruct acc; [done|]. unfold decided in Ed. by apply orb_false_iff in Ed as [_ ?]. }
    destruct (timeused t <? timeout a); [destruct (t_reply t) as [| |r] eqn:Er|].
    + injection E1 as <-. rewrite <-Et. by apply IH.
    + destruct (at_reply_take cfg acc w NullResult w1 Ha ltac:(done) E1 Hdef) as [Ha1 Ht1].
      rewrite until_next by done. rewrite <-Et, <-Ht1. by apply IH.
    + destruct (at_reply_take cfg acc w (Reply r) w1 Ha ltac:(done) E1 Hdef) as [Ha1 Ht1].
      rewrite until_next by done. rewrite <-Et, <-Ht1. by apply IH.
    + assert (wl_ta w1 = rest /\ at_reply cfg acc w1) as [Ht1 Ha1] by (destruct (action a); injection E1 as <-; by destruct Ha).
      rewrite <-Ht1. by apply IH.
Qed.

(** Turns later than every timeout each use up one timeout action. *)
Definition late (ta : list tmout_action) (t : tick) : Prop := Forall (fun a => timeout a <= timeused t) ta.

Lemma wait_step_late cfg t w ta rest :
  wl_ta w = ta :: rest -> timeout ta <= timeused t -> exists w', wait_step cfg t w = Ok w' /\ wl_ta w' = rest.
Proof.
  intros E H. unfold wait_step. rewrite E. destruct (Z.ltb_spec (timeused t) (timeout ta)); [lia|].
  destruct (action ta); eexists; (split; [reflexivity|done]).
Qed.

Lemma wait_loop_late cfg ticks w :
  Forall (late (wl_ta w)) ticks -> (length (wl_ta w) <= length ticks)%nat ->
  exists w', wait_loop cfg ticks w = Ok (Some w').
Proof.
  revert w. induction ticks as [|t ticks IH]; intros w Hf Hl; cbn [wait_loop].
  - destruct (wl_ta w) eqn:E; [|cbn in Hl; lia]. unfold wait_more. rewrite E, andb_false_r. eauto.
  - destruct (wait_more w) eqn:Em; [|eauto]. destruct (wl_ta w) as [|ta rest] eqn:E.
    { unfold wait_more in Em. rewrite E, andb_false_r in Em. done. }
    inversion_clear Hf as [|? ? Ht Hf']. inversion_clear Ht as [|? ? Ht1 Ht2].
    destruct (wait_step_late cfg t w ta rest E Ht1) as (w1 & -> & E1). cbn [rbind].
    apply IH; rewrite E1; [|cbn in Hl; lia]. eapply Forall_impl; [exact Hf'|].
    intros x Hx. by inversion_clear Hx.
Qed.

Lemma wait_step_ta cfg t w w' : wait_step cfg t w = Ok w' -> wl_ta w' = wl_ta w \/ exists a, wl_ta w = a :: wl_ta w'.
Proof.
  unfold wait_step. destruct (wl_ta w) as [|ta rest] eqn:E; [intros [= <-]; by left|].
  destruct (timeused t <? timeout ta); last first.
  { destruct (action ta); intros [= <-]; right; by exists ta. }
  intros H. left. rewrite <-E. destruct (t_reply t) as [| |r]; [by injection H as <-| |].
  - apply bind_Ok_inv in H as (x & Hx & H). cbn in Hx. apply bind_Ok_inv in Hx as (? & _ & Hx).
    injection Hx as <-. injection H as <-. by destruct (cut_off cfg _).
  - apply bind_Ok_inv in H as (x & Hx & H). cbn in Hx. apply bind_Ok_inv in Hx as (? & _ & Hx).
    apply bind_Ok_inv in Hx as (? & _ & Hx). injection Hx as <-. injection H as <-. by destruct (cut_off cfg _).
Qed.

(** Earlier turns, with whatever replies, do not change that. *)
Lemma wait_loop_answers cfg early ticks w :
  Forall (late (wl_ta w)) ticks -> (length (wl_ta w) <= length ticks)%nat ->
  wait_loop cfg (early ++ ticks) w <> Ok None.
Proof.
  revert w. induction early as [|t early IH]; intros w Hf Hl; cbn [app].
  - destruct (wait_loop_late cfg ticks w Hf Hl) as (w' & ->). done.
  - cbn [wait_loop]. destruct (wait_more w); [|done].
    destruct (wait_step cfg t w) as [w1|f] eqn:E1; [|done]. cbn [rbind]. apply IH.
    + destruct (wait_step_ta cfg t w w1 E1) as [->|[a Ea]]; [done|]. rewrite Ea in Hf.
      eapply Forall_impl; [exact Hf|]. intros x Hx. by inversion_clear Hx.
    + destruct (wait_step_ta cfg t w w1 E1) as [->|[a Ea]]; [done|]. rewrite Ea in Hl. cbn in Hl. lia.
Qed.

(** *** When the loop stops early *)

Lemma cut_off_verdict cfg w more seen :
  accounted w -> cut_off cfg w = true -> 0 <= block_threshold cfg ->
  Forall (fun r => 0 <= r_weight r /\ r_judgment r <> J_PASS /\ r_judgment r <> J_BLOCK) more ->
  verdict cfg (wl_seen w ++ more) seen = verdict cfg (wl_seen w) seen.
Proof.
  intros (Hj & Hw & _) Hc Hb Hm.
  assert (judged J_PASS more = false /\ judged J_BLOCK more = false /\ 0 <= weights more) as (M1 & M2 & M3).
  { clear -Hm. induction Hm as [|r more (H1 & H2 & H3) _ (I1 & I2 & I3)]; [done|]. cbn [judged existsb weights foldr].
    rewrite !bool_decide_eq_false_2 by done. cbn. unfold judged, weights in *. split; [done|]. split; [done|]. lia. }
  unfold verdict. rewrite !judged_app, weights_app, M1, M2, !orb_false_r.
  destruct (judged J_PASS (wl_seen w)) eqn:E1; [done|].
  destruct (judged J_BLOCK (wl_seen w)) eqn:E2; [done|].
  unfold cut_off in Hc. rewrite bool_decide_eq_false_2 in Hc.
  2:{ rewrite Hj, (proj1 (top_judgment_spec _)), E1. done. }
  destruct (0 =? wl_definitives_running w); [|done]. rewrite Hw in Hc.
  destruct (Z.eqb_spec (block_threshold cfg) 0) as [E|E]; cbn in Hc.
  - apply Z.leb_le in Hc. rewrite E. cbn.
    rewrite !(proj2 (Z.leb_le _ _)) by lia. done.
  - rewrite (proj2 (Z.ltb_lt 0 (block_threshold cfg))) by lia. cbn.
    destruct (Z.leb_spec (block_threshold cfg) (weights (wl_seen w))); [|done].
    by rewrite (proj2 (Z.leb_le _ _)) by lia.
Qed.

Lemma cut_off_set cfg w b : cut_off cfg (wl_set_definitive w b) = cut_off cfg w.
Proof. done. Qed.

Lemma wait_step_definitive cfg t w w' :
  wait_step cfg t w = Ok w' -> wl_definitive w = false -> wl_definitive w' = true -> cut_off cfg w' = true.
Proof.
  unfold wait_step. destruct (wl_ta w) as [|ta rest]; [intros [= <-]; congruence|].
  destruct (timeused t <? timeout ta); last first.
  { destruct (action ta); intros [= <-]; cbn; congruence. }
  assert (forall r, take_result w r = take_result w r) as _ by done.
  intros H Hd. destruct (t_reply t) as [| |r]; [injection H as <-; congruence| |].
  all: apply bind_Ok_inv in H as (x & Hx & H); injection H as <-; destruct (cut_off cfg x) eqn:Ec; [done|].
  - cbn in Hx. apply bind_Ok_inv in Hx as (? & _ & Hx). injection Hx as <-. cbn. congruence.
  - cbn in Hx. apply bind_Ok_inv in Hx as (? & _ & Hx). apply bind_Ok_inv in Hx as (? & _ & Hx).
    injection Hx as <-. cbn. congruence.
Qed.

Lemma wait_loop_definitive cfg ticks w w' :
  wait_loop cfg ticks w = Ok (Some w') -> wl_definitive w = false -> wl_definitive w' = true -> cut_off cfg w' = true.
Proof.
  revert w. induction ticks as [|t ticks IH]; intros w E Hd Hd'; cbn [wait_loop] in E; destruct (wait_more w) eqn:Em.
  - done.
  - injection E as <-. congruence.
  - apply bind_Ok_inv in E as (w1 & E1 & E). destruct (wl_definitive w1) eqn:Hd1.
    + assert (wait_more w1 = false) as Hm by (unfold wait_more; by rewrite Hd1).
      destruct ticks; cbn [wait_loop] in E; rewrite Hm in E; injection E as <-; by eapply wait_step_definitive.
    + by apply (IH w1).
  - injection E as <-. congruence.
Qed.

(** The definitive checks still out, when no result says it is definitive. *)
Lemma wait_loop_definitives cfg ticks w w' :
  wait_loop cfg ticks w = Ok (Some w') ->
  Forall (fun r => r_definitive r = false) (replies ticks) ->
  wl_definitives_running w' = wl_definitives_running w.
Proof.
  revert w. induction ticks as [|t ticks IH]; intros w E Hf; cbn [wait_loop] in E; destruct (wait_more w).
  - done.
  - by injection E as <-.
  - apply bind_Ok_inv in E as (w1 & E1 & E).
    change (t :: ticks) with ([t] ++ ticks) in Hf. unfold replies in Hf. rewrite bind_app in Hf.
    apply Forall_app in Hf as [Hf1 Hf2]. rewrite (IH w1 E Hf2). clear IH E.
    unfold wait_step in E1. destruct (wl_ta w) as [|ta rest]; [by injection E1 as <-|].
    destruct (timeused t <? timeout ta); [|destruct (action ta); by injection E1 as <-].
    destruct (t_reply t) as [| |r] eqn:Er; [by injection E1 as <-| |].
    all: apply bind_Ok_inv in E1 as (x & Hx & H); injection H as <-.
    + cbn in Hx. apply bind_Ok_inv in Hx as (? & _ & Hx). injection Hx as <-. by destruct (cut_off cfg _).
    + cbn in Hf1. rewrite Er in Hf1. cbn in Hf1. rewrite Forall_cons in Hf1. destruct Hf1 as [Hr _].
      cbn in Hx. apply bind_Ok_inv in Hx as (? & _ & Hx). apply bind_Ok_inv in Hx as (? & _ & Hx).
      injection Hx as <-. rewrite Hr. by destruct (cut_off cfg _).
  - by injection E as <-.
Qed.

(** Updates of the filter are only sent by [conclude]. *)
Definition quiet (e : effect) : Prop := match e with PutUpdate _ => False | _ => True end.

Lemma wait_loop_quiet cfg ticks w w' :
  wait_loop cfg ticks w = Ok (Some w') -> Forall quiet (wl_effects w) -> Forall quiet (wl_effects w').
Proof.
  revert w. induction ticks as [|t ticks IH]; intros w E Hf; cbn [wait_loop] in E; destruct (wait_more w).
  - done.
  - by injection E as <-.
  - apply bind_Ok_inv in E as (w1 & E1 & E). apply (IH w1 E). clear IH E.
    unfold wait_step in E1. destruct (wl_ta w) as [|ta rest]; [by injection E1 as <-|].
    destruct (timeused t <? timeout ta).
    2:{ destruct (action ta); injection E1 as <-; apply Forall_app; split; try done; by repeat constructor. }
    destruct (t_reply t) as [| |r] eqn:Er; [by injection E1 as <-| |].
    all: apply bind_Ok_inv in E1 as (x & Hx & H); injection H as <-.
    + cbn in Hx. apply bind_Ok_inv in Hx as (? & _ & Hx). injection Hx as <-. by destruct (cut_off cfg _).
    + cbn in Hx. apply bind_Ok_inv in Hx as (? & _ & Hx). apply bind_Ok_inv in Hx as (? & _ & Hx).
      injection Hx as <-. by destruct (cut_off cfg _).
  - by injection E as <-.
Qed.

(** *** [test_tuple] on its branches *)

Section Tuples.
Context `{HI : Inet} (le : bool).

(** The digest of a request; [None]: the address is not one. *)
Definition tuple_digest (cfg : worker_config) (r : grey_tuple_t) : Res (option sha_256_t) :=
  ip ← match client_address r with Some ip => Ok ip | None => Fail OutOfBounds end;
  masked ← grey_mask le (w_masks cfg) ip;
  match masked with
  | None => Ok None
  | Some chkip =>
      tuple ← maskedtuple cfg chkip r;
      match sha256_string le tuple with Some d => Ok (Some d) | None => Fail OutOfBounds end
  end.

Lemma test_tuple_digest cfg ta ticks q1 q2 conn pad r d :
  tuple_digest cfg r = Ok (Some d) ->
  test_tuple le cfg ta ticks q1 q2 conn pad r =
  (found ← is_in_ring_queue q1 d;
   let checkcount := length (checklist cfg) in
   if found && (flg_match_shortcut cfg || (checkcount =? 0)%nat) then
     Ok (Some (0, conclude le cfg conn d pad STATUS_MATCH None (QueryLog 0 []) (Some r) []))
   else if (checkcount =? 0)%nat then
     Ok (Some (0, conclude le cfg conn d pad STATUS_GREY (Some (grey_reason cfg)) (QueryLog 0 []) (Some r) []))
   else
     let ta := default [TmoutAction (query_timelimit cfg) None] ta in
     limit ← sum_timeouts ta 0;
     r ← request_references checkcount r;
     w ← wait_loop cfg ticks (Waiting ta J_UNDEFINED 0 (Z.of_nat checkcount)
           (count_definitives (checklist cfg)) false None (QueryLog 0 []) (Some r) []
           (EdictGet limit :: (SubmitJob <$> seq 0 checkcount)));
     match w with
     | None => Ok None
     | Some w =>
         seen ← is_in_ring_queue q2 d;
         let '(ret, reason) := sum_up cfg (wl_judgment w) (wl_susp_weight w) seen (wl_reason w) in
         Ok (Some (0, conclude le cfg conn d pad ret reason (wl_querylog w) (wl_request w)
           (wl_effects w ++ [EdictObsolete; EdictUnlink])))
     end).
Proof.
  unfold tuple_digest, test_tuple. intros H.
  destruct (client_address r) as [ip|]; [|done]. cbn [rbind] in *.
  destruct (grey_mask le (w_masks cfg) ip) as [[chkip|]|]; [|done|done]. cbn [rbind] in *.
  destruct (maskedtuple cfg chkip r) as [tuple|]; [|done]. cbn [rbind] in *.
  destruct (sha256_string le tuple) as [d'|]; [|done]. by injection H as <-.
Qed.

(** Without checks the filter alone decides. *)
Lemma test_tuple_traditional cfg ta ticks q1 q2 conn pad r d found :
  tuple_digest cfg r = Ok (Some d) -> checklist cfg = [] -> is_in_ring_queue q1 d = Ok found ->
  test_tuple le cfg ta ticks q1 q2 conn pad r =
  Ok (Some (0, conclude le cfg conn d pad (if found then STATUS_MATCH else STATUS_GREY)
    (if found then None else Some (grey_reason cfg)) (QueryLog 0 []) (Some r) [])).
Proof.
  intros Hd Hc Hq. rewrite (test_tuple_digest _ _ _ _ _ _ _ _ d) by done. rewrite Hq, Hc. cbn.
  by destruct found, (flg_match_shortcut cfg).
Qed.

Lemma conclude_update cfg conn d pad ret reason q r eff :
  Forall quiet eff ->
  PutUpdate (msg_bytes le (MUpdate d) pad) ∈ o_effects (conclude le cfg conn d pad ret reason q r eff) <->
  ret = STATUS_GREY \/ ret = STATUS_MATCH \/ flg_update_always cfg = true.
Proof.
  intros Hq. unfold conclude. cbn [o_effects]. rewrite !elem_of_app, list_elem_of_singleton.
  assert (PutUpdate (msg_bytes le (MUpdate d) pad) ∉ eff) as Hn
    by (intros Hin; rewrite Forall_forall in Hq; by apply Hq in Hin).
  destruct (bool_decide (ret = STATUS_GREY) || bool_decide (ret = STATUS_MATCH) || flg_update_always cfg) eqn:E.
  - split; [|intros _; left; right; left]. intros _.
    rewrite !orb_true_iff, !bool_decide_eq_true in E. tauto.
  - rewrite !orb_false_iff, !bool_decide_eq_false in E. split; [|destruct E as [[? ?] ->]; naive_solver].
    intros [[?|H]|?]; [done | by apply not_elem_of_nil in H | done].
Qed.

End Tuples.

Lemma tuple_digest_ok `{HI : Inet} le cfg r d : tuple_digest le cfg r = Ok (Some d) -> digest_ok d.
Proof.
  unfold tuple_digest. intros H. apply bind_Ok_inv in H as (ip & _ & H). apply bind_Ok_inv in H as ([chk|] & _ & H); [|done].
  apply bind_Ok_inv in H as (tuple & _ & H). destruct (sha256_string le tuple) as [d'|] eqn:E; [|done].
  injection H as <-. apply sha256_is_digest in E. unfold digest_ok, digest_words. unfold is_digest in E.
  repeat (apply Forall_cons; split); try apply E. constructor.
Qed.

(** ** Properties *)

Import Dotted.


(** A daemon with two checks, and one without. *)
Definition example_wcfg (checks : list bool) : worker_config :=
  WorkerConfig (MaskConfig 24 64) GREY_TUPLE_USER 0 1 5000 false false false (cs "later") (cs "no") checks.
Definition example_request : grey_tuple_t :=
  GreyTuple (Some (cs "a@example.org")) (Some (cs "b@example.net")) (Some (cs "192.0.2.7")) None 1.
Definition example_filter : bloom_ring_queue_t :=
  match create_bloom_ring_queue (fun _ _ => 0) 2 10 with
  | Ok q => q | Fail _ => RingQueue (FilterGroup [] 0) (BloomFilter [] 0 0 0) 0 end.
Definition example_ticks : list tick :=
  [Tick 3 (Reply (ChkResult false false 2 J_SUSPICIOUS None None)); Tick 6000 NoReply].
Definition example_digest : sha_256_t :=
  match tuple_digest true (example_wcfg []) example_request with Ok (Some d) => d | _ => DEFAULT_SHA256 end.

Lemma example_digest_eq checks : tuple_digest true (example_wcfg checks) example_request = Ok (Some example_digest).
Proof. vm_compute. reflexivity. Qed.


(** C11: [test_tuple] does not wait for ever: once the clock has passed every
    timeout of the query for as many turns as there are timeout actions, the
    loop has ended, whatever the checks have sent before and whatever they
    still send. *)
Theorem test_tuple_answers `{HI : Inet} le cfg ta early ticks q1 q2 conn pad r :
  let actions := default [TmoutAction (query_timelimit cfg) None] ta in
  Forall (late actions) ticks -> (length actions <= length ticks)%nat ->
  test_tuple le cfg ta (early ++ ticks) q1 q2 conn pad r <> Ok None.
Proof.
  intros actions Hf Hl. unfold test_tuple. destruct (client_address r) as [ip|]; [|done]. cbn [rbind].
  destruct (grey_mask le (w_masks cfg) ip) as [[chkip|]|]; [|done|done]. cbn [rbind].
  destruct (maskedtuple cfg chkip r) as [tuple|]; [|done]. cbn [rbind].
  destruct (sha256_string le tuple) as [d|]; [|done]. cbn [rbind].
  destruct (is_in_ring_queue q1 d) as [found|]; [|done]. cbn [rbind].
  destruct (found && _); [done|]. destruct (_ =? 0)%nat; [done|].
  destruct (sum_timeouts _ 0) as [limit|]; [|done]. cbn [rbind].
  destruct (request_references _ r) as [r'|]; [|done]. cbn [rbind].
  match goal with |- context [wait_loop cfg _ ?w] => pose proof (wait_loop_answers cfg early ticks w Hf Hl) as Hw end.
  destruct (wait_loop _ _ _) as [[w|]|]; [|done|done]. cbn [rbind].
  destruct (is_in_ring_queue q2 d); [|done]. cbn [rbind]. by destruct (sum_up _ _ _ _ _).
Qed.

Lemma test_tuple_answers_witness :
  test_tuple true (example_wcfg [true]) None ([Tick 10 NoReply] ++ [Tick 6000 NoReply])
    example_filter example_filter false [] example_request <> Ok None.
Proof.
  apply (test_tuple_answers true (example_wcfg [true]) None [Tick 10 NoReply] [Tick 6000 NoReply]).
  - repeat constructor; cbn; lia.
  - cbn. lia.
Defined.

(** Stopping early is safe: when the loop stops because the result is
    definitive already, no further results with weights that are not negative,
    from checks that neither pass nor block, would change the verdict. *)
Theorem early_verdict_final cfg ticks w w' more seen :
  wait_loop cfg ticks w = Ok (Some w') -> accounted w -> wl_definitive w = false -> wl_definitive w' = true ->
  0 <= block_threshold cfg ->
  Forall (fun r => 0 <= r_weight r /\ r_judgment r <> J_PASS /\ r_judgment r <> J_BLOCK) more ->
  verdict cfg (wl_seen w' ++ more) seen =
  (sum_up cfg (wl_judgment w') (wl_susp_weight w') seen (wl_reason w')).1.
Proof.
  intros Hw Ha Hd Hd' Hb Hm. destruct (wait_loop_seen _ _ _ _ Hw) as [Ha' _]. specialize (Ha' Ha).
  pose proof (wait_loop_definitive _ _ _ _ Hw Hd Hd') as Hc. rewrite (cut_off_verdict cfg w') by done.
  destruct Ha' as (-> & -> & _). symmetry. apply sum_up_verdict.
Qed.

Definition example_waiting (definitives : Z) : waiting :=
  Waiting [TmoutAction 5000 None] J_UNDEFINED 0 2 definitives false None (QueryLog 0 []) (Some example_request) [] [].

Lemma early_verdict_final_witness :
  exists w', wait_loop (example_wcfg [false; false]) example_ticks (example_waiting 0) = Ok (Some w') /\
  verdict (example_wcfg [false; false]) (wl_seen w' ++ [ChkResult false false 3 J_UNDEFINED None None]) true =
  (sum_up (example_wcfg [false; false]) (wl_judgment w') (wl_susp_weight w') true (wl_reason w')).1.
Proof.
  eexists. split; [vm_compute; reflexivity|].
  eapply (early_verdict_final _ example_ticks (example_waiting 0)).
  - vm_compute. reflexivity.
  - repeat split.
  - reflexivity.
  - reflexivity.
  - cbn. lia.
  - constructor; [|constructor]. cbn. split; [lia|]. split; discriminate.
Defined.

(** With a definitive check registered the weights never end the wait
    early: no check ever marks a result as definitive, so the count of
    definitive checks that are still out stays as it was and only a passing
    result cuts the wait short. *)
Theorem threshold_cut_off_disabled cfg ticks w w' :
  wait_loop cfg ticks w = Ok (Some w') -> wl_definitive w = false ->
  0 < wl_definitives_running w -> Forall (fun r => r_definitive r = false) (replies ticks) ->
  wl_definitive w' = true -> wl_judgment w' = J_PASS.
Proof.
  intros Hw Hd Hr Hf Hd'. pose proof (wait_loop_definitive _ _ _ _ Hw Hd Hd') as Hc. unfold cut_off in Hc.
  rewrite (wait_loop_definitives _ _ _ _ Hw Hf) in Hc. case_bool_decide as E; [done|].
  by rewrite (proj2 (Z.eqb_neq 0 (wl_definitives_running w))) in Hc by lia.
Qed.

Lemma threshold_cut_off_disabled_witness :
  exists w', wait_loop (example_wcfg [true; false])
      [Tick 3 (Reply (ChkResult false false 0 J_PASS None None))] (example_waiting 1) = Ok (Some w') /\
    wl_judgment w' = J_PASS.
Proof.
  eexists. split; [vm_compute; reflexivity|].
  eapply (threshold_cut_off_disabled (example_wcfg [true; false])
    [Tick 3 (Reply (ChkResult false false 0 J_PASS None None))] (example_waiting 1));
    [vm_compute; reflexivity | reflexivity | cbn; lia | repeat constructor | reflexivity].
Defined.

(** C1: greylisting works: without checks and without a dry run, the first query for a triplet the
    filter does not know is greylisted and sends the manager an update; once
    the manager has taken that message, every query with the same digest (the
    same masked network, sender and recipient) is a match, whatever other
    messages the manager takes, for the whole retention time. *)
Theorem greylisted_then_matched `{HI : Inet} le cfg mcfg nb st a r1 r2 d ta1 ta2 tk1 tk2 q1 q2 c1 c2 p1 p2 t evs :
  5 <= nb <= 30 -> 0 < num_bufs mcfg -> 0 < rotate_interval mcfg -> mgr_rep nb mcfg st a ->
  checklist cfg = [] -> flg_dryrun cfg = false ->
  tuple_digest le cfg r1 = Ok (Some d) -> tuple_digest le cfg r2 = Ok (Some d) ->
  is_in_ring_queue (mgr_filter st) d = Ok false ->
  Forall (fun e => fits nb mcfg e.1.1) evs -> Forall (in_time mcfg (last_rotate st)) evs ->
  exists o1 msg st2 o2,
    test_tuple le cfg ta1 tk1 (mgr_filter st) q1 c1 p1 r1 = Ok (Some (0, o1)) /\
    o_status o1 = STATUS_GREY /\ o_reason o1 = Some (grey_reason cfg) /\ PutUpdate msg ∈ o_effects o1 /\
    bloommgr_run le mcfg ((msg, t) :: wire le evs) st = Ok st2 /\
    test_tuple le cfg ta2 tk2 (mgr_filter st2) q2 c2 p2 r2 = Ok (Some (0, o2)) /\ o_status o2 = STATUS_MATCH.
Proof.
  intros Hnb Hn Hi Hr Hc Hdry Hd1 Hd2 Hq Hf Ht.
  destruct (retained nb le mcfg st a d p1 t evs) as (st2 & E2 & Hq2); try done.
  { by eapply tuple_digest_ok. }
  rewrite (test_tuple_traditional le _ _ _ _ _ _ _ _ d false) by done.
  eexists _, (msg_bytes le (MUpdate d) p1), st2, _. split; [reflexivity|].
  split; [cbn; by rewrite Hdry|]. split; [done|].
  split; [by apply (conclude_update le); [constructor | left]|]. split; [exact E2|].
  rewrite (test_tuple_traditional le _ _ _ _ _ _ _ _ d true) by done. split; [reflexivity|].
  cbn. by rewrite Hdry.
Qed.

Lemma greylisted_then_matched_witness :
  let r2 := GreyTuple (Some (cs "a@example.org")) (Some (cs "b@example.net")) (Some (cs "192.0.2.99")) None 1 in
  let st := Mgr example_filter 0 [] 1 in
  exists o1 msg st2 o2,
    test_tuple true (example_wcfg []) None [] example_filter example_filter false [] example_request = Ok (Some (0, o1)) /\
    o_status o1 = STATUS_GREY /\ o_reason o1 = Some (cs "later") /\ PutUpdate msg ∈ o_effects o1 /\
    bloommgr_run true example_cfg ((msg, example_clocks) :: wire true example_events) st = Ok st2 /\
    test_tuple true (example_wcfg []) None [] (mgr_filter st2) example_filter true [] r2 = Ok (Some (0, o2)) /\
    o_status o2 = STATUS_MATCH.
Proof.
  intros r2 st.
  apply (greylisted_then_matched true (example_wcfg []) example_cfg 10 st (a_create 2) example_request r2 example_digest).
  - lia.
  - cbn; lia.
  - cbn; lia.
  - split; [|reflexivity]. destruct (create_ring_spec 10 ltac:(lia) (fun _ _ => 0) 2 ltac:(lia)) as (q & E & Hq).
    cbn [st mgr_filter]. unfold example_filter. rewrite E. exact Hq.
  - reflexivity.
  - reflexivity.
  - apply example_digest_eq.
  - vm_compute. reflexivity.
  - vm_compute. reflexivity.
  - apply example_events_fit.
  - repeat constructor; cbn; lia.
Defined.
