(* ===== verification/Checks.v ===== *)
(** The checks: HELO name ([check_helo.c]), reverse lookup ([check_reverse.c]),
    Sophos blocker ([check_blocker.c]), random ([check_random.c]), SPF
    ([check_spf.c]) and the DNS lists ([check_dnsbl.c]).

    A check is a job of its thread pool: it takes the request from the edict,
    sends its result, or results, to the edict's queue and gives up its
    reference to the request.  Here each is a function that returns the results
    in the order they are sent and what becomes of the request.  Name servers,
    the blocker, the SPF library and the c-ares library are outside: what they
    answer is an argument. *)
From S2P Require Import Prelude Utils AddrUtils MsgQueue HelperDns Worker.
#[local] Open Scope st_scope.

(** [memset] of a result and the name of the check. *)
Definition new_result (name : string) : chkresult := ChkResult false false 0 J_UNDEFINED None (Some (cs name)).

Definition set_judgment (r : chkresult) (j : judgment_t) (weight : Z) : chkresult :=
  ChkResult (r_definitive r) (r_wait r) weight j (r_reason r) (r_checkname r).
Definition set_reason (r : chkresult) (s : cstr) : chkresult :=
  ChkResult (r_definitive r) (r_wait r) (r_weight r) (r_judgment r) (Some s) (r_checkname r).

(** ** HELO *)

Definition between (lo hi c : ascii) : bool :=
  ((nat_of_ascii lo <=? nat_of_ascii c) && (nat_of_ascii c <=? nat_of_ascii hi))%nat.

Definition alnum (c : ascii) : bool := between "a" "z" c || between "A" "Z" c || between "0" "9" c.

(** The inner loop of [valid_dn]: from a character on to the dot or to the end;
    [None]: a character is not allowed. *)
Fixpoint label_loop (s : cstr) : option cstr :=
  match s with
  | [] => Some []
  | c :: t =>
      if chr_eqb c "."%char then Some s
      else if alnum c || (chr_eqb c "-"%char && match t with [] => false | d :: _ => negb (chr_eqb d "."%char) end)
      then label_loop t
      else None
  end.

Fixpoint valid_loop (fuel : nat) (s : cstr) : bool :=
  match fuel, s with
  | O, _ => false
  | S _, [] => true
  | S fuel, c :: _ =>
      if negb (alnum c) then false
      else match label_loop s with
        | None => false
        | Some [] => true
        | Some (_ :: []) => false
        | Some (_ :: t) => valid_loop fuel t
        end
  end.

Definition valid_dn (dn : cstr) : bool := valid_loop (S (length dn)) dn.

Section Resolving.
Context `{Inet}.

(** What c-ares answers: before the timeout for a name, at all for an address. *)
Context (res_name : cstr -> family -> option (option hostent)) (res_addr : list Z -> option hostent).

(** The readings of the clock. *)
Context (clk : nat -> timespec).

(** [inet_ntop(family, h_addr_list[0], ...)]: 4 or 16 bytes are read. *)
Definition ntop_first (f : family) (h : hostent) : Res cstr :=
  match h_addr_list h with
  | [] => Fail OutOfBounds
  | a :: _ =>
      let n := match f with AF_INET => 4%nat | AF_INET6 => 16%nat end in
      if (n <=? length a)%nat then Ok (ntop f (take n a)) else Fail OutOfBounds
  end.

Definition family_of (addr : cstr) : family := if bool_decide (":"%char ∈ addr) then AF_INET6 else AF_INET.

Definition resolve_name (name : cstr) (f : family) (t : nat) : stt dns (option hostent) :=
  Gethostbyname name f (res_name name f) (clk t) (clk (t + 1)).

Definition resolve_addr (addr : cstr) (t : nat) : stt dns (option hostent) :=
  Gethostbyaddr_str addr
    (match (match family_of addr with AF_INET6 => pton6 addr | AF_INET => pton4 addr end) with
     | Some a => res_addr a | None => None end) (clk t) (clk (t + 1)).

Definition helo_weight (helostr client_address : cstr) : stt dns Z :=
  if negb (valid_dn helostr) then st_ret 2
  else
    let f := family_of client_address in
    let* host := resolve_name helostr f 0 in
    let* w1 := match host with
      | Some h => let* s := st_lift (ntop_first f h) in st_ret (if cstr_eqb s client_address then 0 else 1)
      | None => st_ret 1
      end in
    let* reversehost := resolve_addr client_address 2 in
    let w2 := match reversehost with
      | Some h => if cstr_eqb (h_name h) helostr then 0 else 1
      | None => 1
      end in
    st_ret (w1 + w2).

Definition helo (request : grey_tuple_t) : stt dns (chkresult * option grey_tuple_t) :=
  let* helostr := st_lift (match helo_name request with Some s => Ok s | None => Fail AssertFail end) in
  let* client := st_lift (match client_address request with Some s => Ok s | None => Fail AssertFail end) in
  let* w := helo_weight helostr client in
  let result := set_judgment (new_result "helo") (if 0 <? w then J_SUSPICIOUS else J_UNDEFINED) w in
  let* request := st_lift (request_unlink request) in
  st_ret (result, request).

(** ** Reverse lookup *)

Definition reverse (request : grey_tuple_t) : stt dns (chkresult * option grey_tuple_t) :=
  let* client := st_lift (match client_address request with Some s => Ok s | None => Fail AssertFail end) in
  let result := new_result "reverse" in
  let suspicious := set_judgment result J_SUSPICIOUS 1 in
  let* reversehost := resolve_addr client 0 in
  let* result := match reversehost with
    | Some rh =>
        let* canonicalhost := resolve_name (h_name rh) (h_addrtype rh) 2 in
        match canonicalhost with
        | Some ch =>
            let* s := st_lift (ntop_first (h_addrtype ch) ch) in
            st_ret (if cstr_eqb s client then result else suspicious)
        | None => st_ret suspicious
        end
    | None => st_ret suspicious
    end in
  let* request := st_lift (request_unlink request) in
  st_ret (result, request).

End Resolving.

(** ** Blocker *)

(** [socket], [connect], [writen] succeed or not; [fd] is the connection;
    [None]: the line does not come. *)
Definition blocker (weight : Z) (sock conn : bool) (wfd : list wr_event) (fd : rfd ascii) (request : grey_tuple_t)
    : Res (option (chkresult * option grey_tuple_t * option cstr)) :=
  client ← match client_address request with Some s => Ok s | None => Fail AssertFail end;
  let result := new_result "blocker" in
  let finish r sent := request ← request_unlink request; Ok (Some (r, request, sent)) in
  if negb sock then finish result None
  else if negb conn then finish result None
  else
    let buffer := take 1023 (cs "client_address=" ++ client ++ [nl; nl]) in
    match writen wfd buffer with
    | None => Ok None
    | Some (false, sent, _) => finish result (Some sent)
    | Some (true, sent, _) =>
        match readline fd 1024 with
        | None => Ok None
        | Some (ERROR, _) => finish result (Some sent)
        | Some (ret, _) =>
            let buffer := match ret with DATA line => line | _ => buffer end in
            if cstr_eqb (take 11 buffer) (cs "action=565 ")
            then finish (set_judgment result J_SUSPICIOUS weight) (Some sent)
            else finish result (Some sent)
        end
    end.

(** ** Random *)

Definition randomc (r : Z) (request : grey_tuple_t) : Res (chkresult * option grey_tuple_t) :=
  _ ← match client_address request with Some s => Ok s | None => Fail AssertFail end;
  let result := new_result "random" in
  let result :=
    if c_rem r 7 =? 0 then set_judgment result J_PASS 0
    else if c_rem r 5 =? 0 then set_reason (set_judgment result J_BLOCK 0) (cs "This is just a random block.")
    else if c_rem r 3 =? 0 then set_judgment result J_SUSPICIOUS 1
    else result in
  request ← request_unlink request;
  Ok (result, request).

(** ** SPF *)

Inductive spf_result := SPF_FAIL | SPF_SOFTFAIL | SPF_PASS | SPF_NEUTRAL | SPF_NONE | SPF_OTHER.

(** What the library answers; the [bool]s tell whether a call succeeds. *)
Record spf_answers := SpfAnswers {
  spf_server_new : bool;
  spf_set_ip : bool;
  spf_set_helo : bool;
  spf_set_from : bool;
  spf_query : bool;
  spf_verdict : spf_result;
  spf_comment : option cstr }.

Definition spf_judge (a : spf_answers) (helo_given : bool) (result : chkresult) : chkresult :=
  if negb (spf_server_new a) then result
  else if negb (spf_set_ip a) then result
  else if helo_given && negb (spf_set_helo a) then result
  else if negb (spf_set_from a) then result
  else if negb (spf_query a) then result
  else match spf_verdict a with
    | SPF_FAIL =>
        set_reason (set_judgment result J_BLOCK 0)
          (default (cs "SPF: policy violation: (no message available)") (spf_comment a))
    | SPF_SOFTFAIL => set_judgment result J_SUSPICIOUS 1
    | SPF_PASS | SPF_NEUTRAL | SPF_NONE | SPF_OTHER => result
    end.

Definition spfc (a : spf_answers) (request : grey_tuple_t) : Res (chkresult * option grey_tuple_t) :=
  _ ← match client_address request with
      | Some s => Ok tt
      | None => if spf_server_new a then Fail OutOfBounds else Ok tt
      end;
  let result := spf_judge a (bool_decide (is_Some (helo_name request))) (new_result "spf") in
  request ← request_unlink request;
  Ok (result, request).

(** ** DNS lists *)

Record dnsbl_t := Dnsbl { dnsbl_name : cstr; dnsbl_weight : Z; tolerancecounter : Z }.

Inductive dns_check_type_t := TYPE_DNSBL | TYPE_RHSBL | TYPE_DNSWL.

#[export] Instance dns_check_type_eq_dec : EqDecision dns_check_type_t.
Proof. solve_decision. Defined.

Definition ERRORTOLERANCE : Z := 5.
Definition MAXQUERYSTRLEN : nat := 256.

Definition set_tolerance (d : dnsbl_t) (n : Z) : dnsbl_t := Dnsbl (dnsbl_name d) (dnsbl_weight d) n.

Definition add_dnsbl (current : list dnsbl_t) (name : cstr) (weight : Z) : list dnsbl_t :=
  Dnsbl name weight ERRORTOLERANCE :: current.

Definition query_clearance (d : dnsbl_t) : bool := 0 <? tolerancecounter d.

Definition tolerate_dnsbl (d : dnsbl_t) : dnsbl_t :=
  if tolerancecounter d <? ERRORTOLERANCE then set_tolerance d (tolerancecounter d + 1) else d.

Definition increment_dnsbl_tolerance_counters (l : list dnsbl_t) : list dnsbl_t := tolerate_dnsbl <$> l.

(** The state of one run: the lists, the queries c-ares has not answered, the
    results sent, the matches counted. *)
Record dnsbl_run := DnsblRun {
  d_base : list dnsbl_t;
  d_open : list nat;
  d_done : bool;
  d_dnslname : option cstr;
  d_sent : list chkresult;
  d_hits : list cstr }.

(** [addrinfo_callback] for the query of the [i]th list. *)
Definition addrinfo_callback (type : dns_check_type_t) (timeout : bool) (i : nat) (success : bool) (s : dnsbl_run)
    : Res dnsbl_run :=
  d ← match d_base s !! i with Some d => Ok d | None => Fail OutOfBounds end;
  let open := filter (fun j => j <> i) (d_open s) in
  let s :=
    if success then
      let hits := d_hits s ++ [dnsbl_name d] in
      if bool_decide (type = TYPE_DNSWL) then DnsblRun (d_base s) open true (Some (dnsbl_name d)) (d_sent s) hits
      else
        let result := ChkResult false true (dnsbl_weight d) J_SUSPICIOUS None (Some (dnsbl_name d)) in
        DnsblRun (d_base s) open (d_done s) (d_dnslname s) (d_sent s ++ [result]) hits
    else DnsblRun (d_base s) open (d_done s) (d_dnslname s) (d_sent s) (d_hits s) in
  if timeout then
    n ← int_val (tolerancecounter d - 1);
    Ok (DnsblRun (<[i := set_tolerance d n]> (d_base s)) (d_open s) (d_done s) (d_dnslname s) (d_sent s) (d_hits s))
  else Ok s.

(** c-ares runs the callback of a query once. *)
Fixpoint callbacks (type : dns_check_type_t) (timeout : bool) (l : list (nat * bool)) (s : dnsbl_run) : Res dnsbl_run :=
  match l with
  | [] => Ok s
  | (i, ok) :: l =>
      s ← (if bool_decide (i ∈ d_open s) then addrinfo_callback type timeout i ok s else Ok s);
      callbacks type timeout l s
  end.

(** The domain after the last at sign, if that is not the first character. *)
Fixpoint after_last_at (s : cstr) : option cstr :=
  match s with
  | [] => None
  | c :: t => match after_last_at t with
      | Some d => Some d
      | None => if chr_eqb c "@"%char then Some t else None
      end
  end.

Definition sender_domain (sender : cstr) : option cstr :=
  match sender with [] => None | _ :: t => after_last_at t end.

Section Dnsbl.
Context `{Inet} (le : bool).

(** What is put before the names of the lists; [None]: nothing to check.  The
    copy of a domain of 46 characters or more has no terminator. *)
Definition query_prefix (type : dns_check_type_t) (request : grey_tuple_t) : Res (option cstr) :=
  match type with
  | TYPE_DNSBL | TYPE_DNSWL =>
      addr ← match client_address request with Some s => Ok s | None => Fail AssertFail end;
      if INET6_ADDRSTRLEN <=? Z.of_nat (length addr) then Ok None
      else
        '(ret, qstr) ← reverse_inet_addr le addr;
        Ok (if ret <? 0 then None else Some qstr)
  | TYPE_RHSBL =>
      sender ← match sender request with Some s => Ok s | None => Fail OutOfBounds end;
      match sender_domain sender with
      | None => Ok None
      | Some d => if INET6_ADDRSTRLEN <=? Z.of_nat (length d) then Fail Undefined else Ok (Some d)
      end
  end.

(** The query string of a list: the name made absolute.  The last character of
    an empty name is looked for before the string. *)
Definition query_string (qstr : cstr) (d : dnsbl_t) : Res cstr :=
  match last (dnsbl_name d) with
  | None => Fail OutOfBounds
  | Some c =>
      Ok (take (MAXQUERYSTRLEN - 1)
        (qstr ++ "."%char :: dnsbl_name d ++ (if chr_eqb c "."%char then [] else ["."%char])))
  end.

(** The queries that are made, with the numbers of their lists. *)
Fixpoint make_queries (qstr : cstr) (i : nat) (l : list dnsbl_t) : Res (list (nat * cstr)) :=
  match l with
  | [] => Ok []
  | d :: l =>
      q ← query_string qstr d;
      rest ← make_queries qstr (S i) l;
      Ok (if query_clearance d then (i, q) :: rest else rest)
  end.

(** One turn of the inner loop: the time used, the descriptors c-ares waits on,
    the callbacks it runs, whether the edict is obsolete, and the time used when
    the loop is left after this turn. *)
Record round := Round {
  rd_used : Z;
  rd_nfds : Z;
  rd_replies : list (nat * bool);
  rd_obsolete : bool;
  rd_after : Z }.

(** The state and whether the timeout was reached; [None]: still waiting.
    When the loop is left because the time is up, c-ares had descriptors. *)
Fixpoint dns_wait (type : dns_check_type_t) (timelimit : Z) (rounds : list round) (s : dnsbl_run)
    : Res (option (dnsbl_run * bool)) :=
  match rounds with
  | [] => Ok None
  | r :: rounds =>
      let timeout := timelimit <=? rd_after r in
      if timelimit <=? rd_used r then
        if rd_obsolete r || d_done s || timeout then Ok (Some (s, timeout)) else dns_wait type timelimit rounds s
      else if rd_nfds r =? 0 then Ok (Some (s, timeout))
      else
        s ← callbacks type false (rd_replies r) s;
        if d_done s || rd_obsolete r then Ok (Some (s, timeout)) else dns_wait type timelimit rounds s
  end.

(** [ares_cancel] runs the callbacks that are left. *)
Definition ares_cancel (type : dns_check_type_t) (timeout : bool) (s : dnsbl_run) : Res dnsbl_run :=
  callbacks type timeout ((fun i => (i, false)) <$> d_open s) s.

(** What a run leaves: the lists, the messages to the edict ([None] is the null
    pointer), the matches counted, the request. *)
Record dnsbl_out := DnsblOut {
  out_base : list dnsbl_t;
  out_sent : list (option chkresult);
  out_hits : list cstr;
  out_queries : list (nat * cstr);
  out_request : option grey_tuple_t }.

Definition dnsblc (type : dns_check_type_t) (base : list dnsbl_t) (ares_init : bool) (timelimit : Z)
    (rounds : list round) (request : grey_tuple_t) : Res (option dnsbl_out) :=
  if negb ares_init then Ok (Some (DnsblOut base [None] [] [] (Some request)))
  else
    let result := new_result "dnsbl" in
    prefix ← query_prefix type request;
    match prefix with
    | None =>
        request ← request_unlink request;
        Ok (Some (DnsblOut base [Some result] [] [] request))
    | Some qstr =>
        queries ← make_queries qstr 0 base;
        w ← dns_wait type timelimit rounds (DnsblRun base (fst <$> queries) false None [] []);
        match w with
        | None => Ok None
        | Some (s, timeout) =>
            s ← ares_cancel type timeout s;
            let result :=
              if d_done s && bool_decide (type = TYPE_DNSWL)
              then ChkResult false false 0 J_PASS None (d_dnslname s) else result in
            request ← request_unlink request;
            Ok (Some (DnsblOut (d_base s) ((Some <$> d_sent s) ++ [Some result]) (d_hits s) queries request))
        end
    end.

End Dnsbl.

(** ** Host names *)

(** A name is labels with dots between them; a label is letters, digits and
    hyphens, begins with a letter or digit and does not end with a hyphen. *)
Fixpoint split_dots (s : cstr) : list cstr :=
  match s with
  | [] => [[]]
  | c :: t =>
      if chr_eqb c "."%char then [] :: split_dots t
      else match split_dots t with l :: ls => (c :: l) :: ls | [] => [[c]] end
  end.

Definition label_ok (l : cstr) : Prop :=
  (exists c t, l = c :: t /\ alnum c = true) /\
  Forall (fun c => alnum c = true \/ c = "-"%char) l /\ last l <> Some "-"%char.

(** The first label and what follows it, from the dot on. *)
Fixpoint first_label (s : cstr) : cstr :=
  match s with [] => [] | c :: t => if chr_eqb c "."%char then [] else c :: first_label t end.
Fixpoint other_labels (s : cstr) : cstr :=
  match s with [] => [] | c :: t => if chr_eqb c "."%char then s else other_labels t end.

Fixpoint chars_ok (l : cstr) : bool :=
  match l with
  | [] => true
  | c :: t => (alnum c || (chr_eqb c "-"%char && match t with [] => false | _ :: _ => true end)) && chars_ok t
  end.

Lemma chars_ok_spec l :
  chars_ok l = true <-> Forall (fun c => alnum c = true \/ c = "-"%char) l /\ last l <> Some "-"%char.
Proof.
  induction l as [|c l IH]; [done|]. cbn [chars_ok]. rewrite andb_true_iff, IH, Forall_cons, orb_true_iff, andb_true_iff, chr_eqb_eq.
  destruct l as [|d l].
  - cbn. split.
    + intros [[Ha|[_ ?]] _]; [|done]. split; [split; [by left | by constructor]|]. intros [= ->]. done.
    + intros [[[Ha| ->] _] Hl]; [|done]. split; [by left | done].
  - change (last (c :: d :: l)) with (last (d :: l)). tauto.
Qed.

Lemma label_loop_spec s : label_loop s = if chars_ok (first_label s) then Some (other_labels s) else None.
Proof.
  induction s as [|c t IH]; [done|]. cbn [label_loop first_label other_labels].
  destruct (chr_eqb c "."%char); [done|]. cbn [chars_ok]. rewrite IH.
  assert (match t with [] => false | d :: _ => negb (chr_eqb d "."%char) end =
          match first_label t with [] => false | _ :: _ => true end) as ->.
  { destruct t as [|d t]; [done|]. cbn [first_label]. by destruct (chr_eqb d "."%char). }
  by destruct (alnum c || _), (chars_ok (first_label t)).
Qed.

Lemma split_dots_first s :
  split_dots s = first_label s :: match other_labels s with [] => [] | _ :: t => split_dots t end.
Proof.
  induction s as [|c t IH]; [done|]. cbn [split_dots first_label other_labels].
  destruct (chr_eqb c "."%char); [done|]. by rewrite IH.
Qed.

Lemma length_other_labels s : (length (other_labels s) <= length s)%nat.
Proof. induction s as [|c t IH]; cbn; [done|]. destruct (chr_eqb c "."%char); cbn; lia. Qed.

Lemma valid_loop_spec fuel : forall s, (length s < fuel)%nat ->
  valid_loop fuel s = true <-> s = [] \/ Forall label_ok (split_dots s).
Proof.
  induction fuel as [|fuel IH]; intros s Hf; [lia|]. destruct s as [|c t]; [by split; [left|]|].
  pose proof (length_other_labels t) as Ho. cbn in Hf.
  rewrite split_dots_first, Forall_cons. cbn [valid_loop]. rewrite label_loop_spec.
  assert (label_ok (first_label (c :: t)) <-> alnum c = true /\ chars_ok (first_label (c :: t)) = true) as Hl.
  { rewrite chars_ok_spec. unfold label_ok. cbn [first_label]. destruct (chr_eqb c "."%char) eqn:Ed.
    - apply chr_eqb_eq in Ed. subst c. split; [intros [(? & ? & ? & _) _]; done | intros [? _]; done].
    - split; [intros [(c' & t' & [= <- _] & ?) ?]; done | intros [? ?]; split; [eauto | done]]. }
  rewrite Hl. destruct (alnum c); cbn [negb]; [|intuition discriminate].
  destruct (chars_ok (first_label (c :: t))); [|intuition discriminate].
  cbn [other_labels]. destruct (chr_eqb c "."%char) eqn:Ed.
  { apply chr_eqb_eq in Ed. subst c. exfalso. cbn in Hl. destruct (proj2 Hl) as [(? & ? & ? & _) _]; done. }
  destruct (other_labels t) as [|e [|g u]] eqn:Eo.
  - split; [|done]. intros _. right. split; [done | constructor].
  - cbn [split_dots]. split; [done|]. intros [[=]|[_ H]]. apply Forall_cons in H as [[(? & ? & ? & _) _] _]. done.
  - rewrite IH by (cbn in Ho |- *; lia). split.
    + intros [[=]|H]. right. done.
    + intros [[=]|[_ H]]. by right.
Qed.

(** [valid_dn], a loop over pointers into the string, accepts exactly the
    names that are labels with dots between them, each of letters, digits and
    hyphens, with a letter or digit first and no hyphen last; and the empty
    string. *)
Theorem valid_dn_labels (s : cstr) : valid_dn s = true <-> s = [] \/ Forall label_ok (split_dots s).
Proof. apply valid_loop_spec. lia. Qed.

(** ** HELO and the cache *)

Lemma unstored_absent ops s k : cache_inv ops s -> last_store k ops = None -> absent k s.
Proof. intros I Hn n Hi <-. destruct (ci_node _ _ I _ _ Hi) as (_ & Hs & _). congruence. Qed.

Section Helo.
Context `{HI : Inet} {HL : InetLaws HI}.
Context (res_name : cstr -> family -> option (option hostent)) (res_addr : list Z -> option hostent).
Context (clk : nat -> timespec).

(** The address of a client and its text. *)
Definition addr_size (f : family) : nat := match f with AF_INET => 4 | AF_INET6 => 16 end.

Definition client_of (f : family) (b : list Z) (client : cstr) : Prop :=
  is_addr (addr_size f) b /\ client = ntop f b /\ family_of client = f.

Lemma client_pton f b client :
  client_of f b client -> match f with AF_INET6 => pton6 client | AF_INET => pton4 client end = Some b.
Proof. intros (Hb & -> & _). destruct f; [by apply pton4_ntop4 | by apply pton6_ntop6]. Qed.

(** Answers to a query for addresses of a family. *)
Definition answer_ok (f : family) (h : hostent) : Prop :=
  h_length h = Z.of_nat (addr_size f) /\ Forall (is_addr (addr_size f)) (h_addr_list h) /\ h_addr_list h <> [].

Lemma answer_host_ok f h : answer_ok f h -> host_ok h.
Proof.
  intros (Hl & Ha & _). split; [rewrite Hl; destruct f; cbn; lia|]. rewrite Hl.
  eapply Forall_impl; [exact Ha|]. intros a [Hla _]. by rewrite Hla.
Qed.

(** The name resolves to the client: its first address is the client's. *)
Definition forward_ok (r : option (option hostent)) (b : list Z) : bool :=
  match mjoin r with Some h => bool_decide (List.hd_error (h_addr_list h) = Some b) | None => false end.

Lemma forward_weight f b client h :
  client_of f b client -> answer_ok f h ->
  exists t, ntop_first f h = Ok t /\ cstr_eqb t client = bool_decide (List.hd_error (h_addr_list h) = Some b).
Proof.
  intros (Hb & -> & _) (_ & Ha & Hne). unfold ntop_first. destruct (h_addr_list h) as [|a l]; [done|].
  apply Forall_cons_1 in Ha as [[Hla Hba] _].
  exists (ntop f a). change (match f with AF_INET => 4%nat | AF_INET6 => 16%nat end) with (addr_size f).
  rewrite Hla, Nat.leb_refl, take_ge by lia. split; [done|]. cbn [List.hd_error].
  apply Bool.eq_iff_eq_true. rewrite cstr_eqb_eq, bool_decide_eq_true. split; [|by intros [= ->]].
  intros E. f_equal. destruct f; cbn in E, Hla, Hb.
  - pose proof (pton4_ntop4 a (conj Hla Hba)) as E1. rewrite E, pton4_ntop4 in E1 by done. congruence.
  - pose proof (pton6_ntop6 a (conj Hla Hba)) as E1. rewrite E, pton6_ntop6 in E1 by done. congruence.
Qed.

Lemma resolve_addr_fetch f b client t :
  client_of f b client ->
  resolve_addr res_addr clk client t = fetch client (HOSTBYADDR b) f (Some (res_addr b)) (clk t) (clk (t + 1)).
Proof.
  intros Hc. pose proof (client_pton f b client Hc) as Hp. destruct Hc as (_ & Hn & Hf).
  unfold resolve_addr, Gethostbyaddr_str. fold (family_of client). rewrite Hf, Hp. unfold Gethostbyaddr. by rewrite <-Hn.
Qed.

Definition ptr_ok (r : option hostent) (helostr : cstr) : bool :=
  match r with Some h => cstr_eqb (h_name h) helostr | None => false end.

Definition helo_result (w : Z) : chkresult :=
  ChkResult false false w (if 0 <? w then J_SUSPICIOUS else J_UNDEFINED) None (Some (cs "helo")).

Lemma helo_unfold r r' helostr client s w s' :
  helo_name r = Some helostr -> client_address r = Some client -> request_unlink r = Ok r' ->
  helo_weight res_name res_addr clk helostr client s = Ok (w, s') ->
  helo res_name res_addr clk r s = Ok ((helo_result w, r'), s').
Proof.
  intros H1 H2 H3 E. unfold helo, st_bind, st_lift, st_ret. by rewrite H1, H2, E, H3.
Qed.


(** A client whose HELO name is its own address passes the check without a
    PTR record.  The name lookup of the address, which resolvers answer with the
    address itself, goes into the cache that lookups of PTR records use as well,
    under the same key, and is taken for the PTR record: no point is given,
    whatever the name servers answer about the client. *)
Theorem address_as_helo_passes (ops : list cop) (s : dns) (r : grey_tuple_t) (r' : option grey_tuple_t)
    (client : cstr) (f : family) (b : list Z) (h : hostent) :
  cache_inv ops s -> last_store client ops = None -> client_of f b client -> valid_dn client = true ->
  res_name client f = Some (Some h) -> answer_ok f h -> h_name h = client -> List.hd_error (h_addr_list h) = Some b ->
  ms_diff (clk 2) (clk 1) <= CACHETIME * 1000 ->
  helo_name r = Some client -> client_address r = Some client -> request_unlink r = Ok r' ->
  exists s', helo res_name res_addr clk r s = Ok ((helo_result 0, r'), s').
Proof.
  intros I Hs Hc Hv Hn Hok Hname Haddr Ht Hr1 Hr2 Hr3.
  enough (exists s', helo_weight res_name res_addr clk client client s = Ok (0, s')) as [s' E]
    by (exists s'; by eapply helo_unfold).
  unfold helo_weight. rewrite Hv. cbn [negb]. rewrite (proj2 (proj2 Hc)). unfold resolve_name, Gethostbyname.
  destruct (fetch_absent ops s client (HOSTBYNAME client) f (res_name client f) (clk 0) (clk (0 + 1)) I)
    as (s1 & E1 & I1); [by eapply unstored_absent | rewrite Hn; intros ? [= <-]; by eapply answer_host_ok|].
  rewrite Hn in E1, I1 |- *. cbn [mjoin option_join] in E1, I1. destruct I1 as [I1 Hnode].
  rewrite (st_bind_ok _ _ _ _ _ E1). destruct (forward_weight f b client h Hc Hok) as (t & Et & Eq).
  rewrite bool_decide_true in Eq by done.
  rewrite (resolve_addr_fetch f b client 2 Hc).
  destruct (lookup_str_spec _ _ client (clk 2) I1) as (x & s2 & El & _ & Hx).
  destruct x as [h'|].
  - destruct Hx as (t' & Hls & _). rewrite last_store_snoc in Hls. cbn in Hls. rewrite cstr_eqb_refl in Hls.
    injection Hls as <- <-. exists s2. unfold fetch, ask, st_bind, st_lift, st_ret in *.
    rewrite Et, El, Eq, Hname, cstr_eqb_refl. done.
  - specialize (Hx _ Hnode eq_refl). cbn [savetime] in Hx. change (0 + 1)%nat with 1%nat in Hx. lia.
Qed.

(** The cache does not keep the families apart.  When the HELO name of an
    IPv6 client is in the cache with an IPv4 address, the check reads sixteen
    bytes from an address of four. *)
Theorem helo_overreads_cached_address (ops : list cop) (s : dns) (r : grey_tuple_t) (helostr client : cstr)
    (v : hostent) (a : list Z) (l : list (list Z)) (t : timespec) :
  cache_inv ops s -> hashtab s !! Z.to_nat (key_hash helostr) = Some (Some (CacheData helostr v t)) ->
  ms_diff (clk 0) t <= CACHETIME * 1000 -> h_addr_list v = a :: l -> length a = 4%nat ->
  family_of client = AF_INET6 -> valid_dn helostr = true ->
  helo_name r = Some helostr -> client_address r = Some client ->
  helo res_name res_addr clk r s = Fail OutOfBounds.
Proof.
  intros I Hn Ht Hv Ha Hf Hd Hr1 Hr2.
  destruct (lookup_str_spec _ _ helostr (clk 0) I) as (x & s2 & El & _ & Hx).
  destruct x as [h|]; [|specialize (Hx _ Hn eq_refl); cbn in Hx; lia].
  assert (h = v) as ->.
  { destruct Hx as (t' & Hls & _). destruct (ci_node _ _ I _ _ Hn) as (_ & Hls' & _). cbn in Hls'. congruence. }
  unfold helo, helo_weight, resolve_name, Gethostbyname, fetch, ask, st_bind, st_lift, st_ret.
  rewrite Hr1, Hr2, Hd. cbn [negb]. rewrite El, Hf. unfold ntop_first. by rewrite Hv, Ha.
Qed.

End Helo.

Import Dotted.

Definition demo_clk (n : nat) : timespec := Timespec (Z.of_nat n) 0.
Definition demo_addr : list Z := [192; 0; 2; 7].
Definition demo_request (helostr client : cstr) : grey_tuple_t :=
  GreyTuple (Some (cs "a@example.com")) (Some (cs "b@example.org")) (Some client) (Some helostr) 2.
Definition demo_left (helostr client : cstr) : option grey_tuple_t :=
  Some (GreyTuple (Some (cs "a@example.com")) (Some (cs "b@example.org")) (Some client) (Some helostr) 1).

Lemma demo_client_of : client_of AF_INET demo_addr (cs "192.0.2.7").
Proof.
  split; [|split; vm_compute; reflexivity].
  split; [reflexivity | repeat constructor; unfold is_byte; lia].
Qed.

Lemma demo_answer_ok name : answer_ok AF_INET (host4 name demo_addr).
Proof.
  split; [reflexivity|]. split; [|discriminate]. apply Forall_singleton. exact (proj1 demo_client_of).
Qed.


Lemma address_as_helo_passes_witness :
  exists s', helo (fun n _ => Some (Some (host4 n demo_addr))) (fun _ => None) demo_clk
      (demo_request (cs "192.0.2.7") (cs "192.0.2.7")) dns0
    = Ok ((helo_result 0, demo_left (cs "192.0.2.7") (cs "192.0.2.7")), s').
Proof.
  apply (address_as_helo_passes (fun n _ => Some (Some (host4 n demo_addr))) (fun _ => None) demo_clk [] dns0
    (demo_request (cs "192.0.2.7") (cs "192.0.2.7")) (demo_left (cs "192.0.2.7") (cs "192.0.2.7"))
    (cs "192.0.2.7") AF_INET demo_addr (host4 (cs "192.0.2.7") demo_addr));
    [exact cache_inv0 | reflexivity | exact demo_client_of | vm_compute; reflexivity | reflexivity |
     apply demo_answer_ok | reflexivity | reflexivity | vm_compute; discriminate | reflexivity | reflexivity |
     vm_compute; reflexivity].
Defined.

Definition demo_cached : dns :=
  match cache_str (cs "mail.example.com") (host4 (cs "mail.example.com") demo_addr) (Timespec 0 0) dns0 with
  | Ok (_, s) => s | Fail _ => dns0 end.

Lemma demo_cached_inv :
  cache_inv [Store (cs "mail.example.com") (host4 (cs "mail.example.com") demo_addr) (Timespec 0 0)] demo_cached.
Proof.
  unfold demo_cached.
  destruct (cache_str_spec [] dns0 (cs "mail.example.com") (host4 (cs "mail.example.com") demo_addr) (Timespec 0 0))
    as (s' & E & I & _); [exact cache_inv0 | split; [reflexivity | repeat constructor]|].
  rewrite E. exact I.
Qed.

Lemma helo_overreads_cached_address_witness :
  helo (fun n _ => None) (fun _ => None) demo_clk (demo_request (cs "mail.example.com") (cs "2001:db8::7")) demo_cached
    = Fail OutOfBounds.
Proof.
  apply (helo_overreads_cached_address (fun n _ => None) (fun _ => None) demo_clk
    [Store (cs "mail.example.com") (host4 (cs "mail.example.com") demo_addr) (Timespec 0 0)] demo_cached
    (demo_request (cs "mail.example.com") (cs "2001:db8::7")) (cs "mail.example.com") (cs "2001:db8::7")
    (host4 (cs "mail.example.com") demo_addr) demo_addr [] (Timespec 0 0));
    [exact demo_cached_inv | vm_compute; reflexivity | vm_compute; discriminate | reflexivity | reflexivity |
     vm_compute; reflexivity | vm_compute; reflexivity | reflexivity | reflexivity].
Defined.

(** ** DNS lists *)

(** The result sent for a match. *)
Definition match_result (d : dnsbl_t) : chkresult :=
  ChkResult false true (dnsbl_weight d) J_SUSPICIOUS None (Some (dnsbl_name d)).

Definition same_list (d d' : dnsbl_t) : Prop :=
  dnsbl_name d' = dnsbl_name d /\ dnsbl_weight d' = dnsbl_weight d /\
  tolerancecounter d' <= tolerancecounter d /\ (0 <= tolerancecounter d -> 0 <= tolerancecounter d').

(** What holds while the queries of a run are answered. *)
Record run_inv (type : dns_check_type_t) (base : list dnsbl_t) (s : dnsbl_run) : Prop := {
  ri_base : Forall2 same_list base (d_base s);
  ri_open i d : i ∈ d_open s -> d_base s !! i = Some d -> 0 < tolerancecounter d;
  ri_sent : Forall (fun r => exists d, d ∈ base /\ r = match_result d) (d_sent s);
  ri_white : type = TYPE_DNSWL -> d_sent s = [];
  ri_hits : d_hits s = default [] (mapM r_checkname (d_sent s)) \/ type = TYPE_DNSWL;
  ri_done : d_done s = true -> type = TYPE_DNSWL /\ exists d, d ∈ base /\ d_dnslname s = Some (dnsbl_name d) }.

Lemma same_list_refl d : same_list d d.
Proof. repeat split; done || lia. Qed.

Lemma mapM_snoc_some {A B} (f : A -> option B) l a bs b :
  mapM f l = Some bs -> f a = Some b -> mapM f (l ++ [a]) = Some (bs ++ [b]).
Proof.
  rewrite !mapM_Some. intros H1 H2. apply Forall2_app; [done|]. by constructor.
Qed.

Lemma sent_names (base : list dnsbl_t) (l : list chkresult) :
  Forall (fun r => exists d, d ∈ base /\ r = match_result d) l -> exists ns, mapM r_checkname l = Some ns.
Proof.
  induction 1 as [|r l (d & _ & ->) _ [ns IH]]; [by exists []|]. exists (dnsbl_name d :: ns). cbn. by rewrite IH.
Qed.

Lemma callback_inv type base timeout i ok s s' :
  run_inv type base s -> i ∈ d_open s -> addrinfo_callback type timeout i ok s = Ok s' -> run_inv type base s'.
Proof.
  intros I Hi E. unfold addrinfo_callback in E. destruct (d_base s !! i) as [d|] eqn:Hd; [|done]. cbn [rbind] in E.
  destruct (Forall2_lookup_r _ _ _ _ _ (ri_base _ _ _ I) Hd) as (d0 & Hd0 & Hsame).
  set (s1 := if ok then _ else _) in E.
  assert (run_inv type base s1 /\ i ∉ d_open s1 /\ d_base s1 = d_base s) as (I1 & Hn & Hb).
  { assert (forall j, j ∈ filter (fun j => j <> i) (d_open s) -> j ∈ d_open s) as Hsub.
    { intros j. rewrite list_elem_of_filter. tauto. }
    assert (i ∉ filter (fun j => j <> i) (d_open s)) as Hni by (rewrite list_elem_of_filter; tauto).
    assert (match_result d = match_result d0) as Hm.
    { destruct Hsame as (E1 & E2 & _). unfold match_result. by rewrite E1, E2. }
    assert (d0 ∈ base) as Hin by (by eapply list_elem_of_lookup_2).
    subst s1. destruct ok; [case_bool_decide as Ht|]; (split; [|done]); split; cbn; try apply I; eauto using ri_open.
    - intros _. split; [done|]. exists d0. split; [done|]. f_equal. apply Hsame.
    - apply Forall_app. split; [apply I|]. apply Forall_singleton. exists d0. by rewrite <-Hm.
    - done.
    - destruct (ri_hits _ _ _ I) as [Hh|]; [left|by right]. destruct (sent_names _ _ (ri_sent _ _ _ I)) as [ns Hns].
      rewrite Hh, Hns. by erewrite mapM_snoc_some by done. }
  clearbody s1. destruct timeout; inv_ok; [|done].
  match goal with E : int_val _ = _ |- _ => apply int_val_inv in E as [-> _] end.
  pose proof (ri_open _ _ _ I i d Hi Hd) as Hpos. split; cbn; try apply I1.
  - rewrite Hb,  <-(list_insert_id base i d0 Hd0). apply Forall2_insert; [apply I|].
    destruct Hsame as (? & ? & ? & ?). repeat split; cbn; try done; lia.
  - intros j e Hj He. rewrite list_lookup_insert_ne in He by (intros ->; done).
    by apply (ri_open _ _ _ I1 j).
Qed.

Lemma callbacks_inv type base timeout l : forall s s',
  run_inv type base s -> callbacks type timeout l s = Ok s' -> run_inv type base s'.
Proof.
  induction l as [|[i ok] l IH]; intros s s' I E; cbn [callbacks] in E; inv_ok; [done|].
  eapply IH; [|done]. case_bool_decide; inv_ok; [by eapply callback_inv | done].
Qed.

Lemma dns_wait_inv type base limit rounds : forall s s' timeout,
  run_inv type base s -> dns_wait type limit rounds s = Ok (Some (s', timeout)) -> run_inv type base s'.
Proof.
  induction rounds as [|r rounds IH]; intros s s' timeout I E; cbn [dns_wait] in E; [done|].
  destruct (limit <=? rd_used r).
  { destruct (rd_obsolete r || d_done s || _); [injection E as <- _; done | eauto]. }
  destruct (rd_nfds r =? 0); [injection E as <- _; done|]. inv_ok.
  match goal with E : callbacks _ _ _ _ = Ok ?s1 |- _ =>
    pose proof (callbacks_inv _ _ _ _ _ _ I E) as I1; destruct (d_done s1 || rd_obsolete r) end;
    [injection E as <- _; done | eauto].
Qed.

Lemma make_queries_cleared qstr l : forall k qs, make_queries qstr k l = Ok qs ->
  forall i, i ∈ (fst <$> qs) -> (k <= i)%nat /\ exists d, l !! (i - k)%nat = Some d /\ 0 < tolerancecounter d.
Proof.
  induction l as [|e l IH]; intros k qs E i Hi; cbn [make_queries] in E; inv_ok; [set_solver|].
  match goal with E : make_queries _ _ _ = Ok ?rest |- _ =>
    pose proof (IH _ _ E i) as IH';
    assert (i = k /\ query_clearance e = true \/ i ∈ (fst <$> rest)) as [[-> Hq]|Hi'] end.
  { destruct (query_clearance e); [|by right]. rewrite fmap_cons, elem_of_cons in Hi. destruct Hi; [by left | by right]. }
  - split; [done|]. exists e. rewrite Nat.sub_diag. split; [done|]. by apply Z.ltb_lt.
  - destruct (IH' Hi') as (? & d & Hd & ?). split; [lia|]. exists d. split; [|done].
    replace (i - k)%nat with (S (i - S k)) by lia. done.
Qed.

Lemma dnsblc_sent `{HI : Inet} (le : bool) (type : dns_check_type_t) (base : list dnsbl_t) (ares_init : bool)
    (limit : Z) (rounds : list round) (r : grey_tuple_t) (out : dnsbl_out) :
  dnsblc le type base ares_init limit rounds r = Ok (Some out) ->
  Forall2 same_list base (out_base out) /\
  exists matched final,
    out_sent out = (Some <$> matched) ++ [final] /\
    Forall (fun m => exists d, d ∈ base /\ m = match_result d) matched /\
    (type = TYPE_DNSWL -> matched = []) /\
    (type <> TYPE_DNSWL -> Some (out_hits out) = mapM r_checkname matched) /\
    match final with
    | None => ares_init = false
    | Some f => r_wait f = false /\ r_definitive f = false /\ r_weight f = 0 /\
        (r_judgment f = J_UNDEFINED \/
         type = TYPE_DNSWL /\ r_judgment f = J_PASS /\ exists d, d ∈ base /\ r_checkname f = Some (dnsbl_name d))
    end.
Proof.
  assert (Forall2 same_list base base) as Hrefl.
  { clear. induction base; constructor; auto using same_list_refl. }
  intros E. unfold dnsblc in E. destruct ares_init; cbn [negb] in E; inv_ok.
  2: { split; [done|]. exists [], None. cbn. split_and!; done. }
  destruct a as [qstr|]; inv_ok.
  2: { split; [done|]. exists [], (Some (new_result "dnsbl")). cbn. split_and!; try done. by left. }
  match goal with E : make_queries _ _ _ = Ok ?q |- _ => pose proof (make_queries_cleared _ _ _ _ E) as Hq; set (qs := q) in * end.
  assert (run_inv type base (DnsblRun base (fst <$> qs) false None [] [])) as I0.
  { split; cbn; try done; [|by left]. intros i d Hi Hd. destruct (Hq i Hi) as (_ & d' & Hd' & ?).
    rewrite Nat.sub_0_r in Hd'. congruence. }
  destruct a0 as [[s timeout]|]; [|done]. inv_ok. unfold ares_cancel in *.
  match goal with E : dns_wait _ _ _ _ = _ |- _ => pose proof (dns_wait_inv _ _ _ _ _ _ _ I0 E) as I1 end.
  match goal with E : callbacks _ _ _ _ = Ok ?s2 |- _ => pose proof (callbacks_inv _ _ _ _ _ _ I1 E) as I2; set (s2' := s2) in * end.
  cbn. split; [apply I2|]. eexists _, _. split; [reflexivity|].
  split; [apply I2|]. split; [apply I2|]. split.
  - intros Hne. destruct (ri_hits _ _ _ I2) as [Hh|]; [|done].
    destruct (sent_names _ _ (ri_sent _ _ _ I2)) as [ns Hns]. by rewrite Hh, Hns.
  - destruct (d_done s2') eqn:Hdone; cbn [andb].
    + destruct (ri_done _ _ _ I2 Hdone) as (-> & d & Hd & Hname). rewrite bool_decide_true by done.
      cbn. split_and!; try done. right. split_and!; try done. eauto.
    + cbn. split_and!; try done. by left.
Qed.

(** The lists that are waited for can be charged with a timeout. *)
Definition open_ok (s : dnsbl_run) : Prop :=
  forall i, i ∈ d_open s -> exists d, d_base s !! i = Some d /\ 0 < tolerancecounter d <= INT_MAX.

Lemma callback_total type timeout i ok s :
  open_ok s -> i ∈ d_open s -> exists s', addrinfo_callback type timeout i ok s = Ok s' /\ open_ok s'.
Proof.
  intros Ho Hi. destruct (Ho i Hi) as (d & Hd & Ht). unfold addrinfo_callback. rewrite Hd. cbn [rbind].
  set (s1 := if ok then _ else _).
  assert (d_base s1 = d_base s /\ d_open s1 = filter (fun j => j <> i) (d_open s)) as [Hb Hop]
    by (subst s1; destruct ok; [case_bool_decide|]; done).
  clearbody s1. destruct timeout.
  - rewrite int_val_ok by (unfold INT_MIN, INT_MAX in *; lia). cbn [rbind]. eexists. split; [done|].
    intros j. cbn [d_open d_base]. rewrite Hop, Hb, list_elem_of_filter. intros [Hne Hj].
    rewrite list_lookup_insert_ne by done. by apply Ho.
  - exists s1. split; [done|]. intros j. rewrite Hop, Hb, list_elem_of_filter. intros [_ Hj]. by apply Ho.
Qed.

Lemma callbacks_total type timeout l : forall s,
  open_ok s -> exists s', callbacks type timeout l s = Ok s' /\ open_ok s'.
Proof.
  induction l as [|[i ok] l IH]; intros s Ho; cbn [callbacks]; [eauto|]. case_bool_decide as Hi; cbn [rbind]; [|eauto].
  destruct (callback_total type timeout i ok s Ho Hi) as (s1 & -> & Ho1). cbn [rbind]. eauto.
Qed.

(** The wait ends once the clock has passed the limit, if it did not before. *)
Lemma dns_wait_ends type limit rounds : forall s,
  open_ok s -> Exists (fun r => limit <= rd_used r <= rd_after r) rounds ->
  exists s' timeout, dns_wait type limit rounds s = Ok (Some (s', timeout)) /\ open_ok s'.
Proof.
  induction rounds as [|r rounds IH]; intros s Ho Hx; [by apply Exists_nil in Hx|]. cbn [dns_wait].
  apply Exists_cons in Hx. destruct (Z.leb_spec limit (rd_used r)) as [Hu|Hu].
  - destruct (_ || _ || _) eqn:Eo; [eauto|]. apply orb_false_iff in Eo as [_ Ha%Z.leb_gt].
    destruct Hx as [[_ ?]|Hx]; [lia | eauto].
  - destruct (rd_nfds r =? 0); [eauto|]. destruct (callbacks_total type false (rd_replies r) s Ho) as (s1 & -> & Ho1).
    cbn [rbind]. destruct (d_done s1 || rd_obsolete r); [eauto|]. destruct Hx as [[? _]|Hx]; [lia | eauto].
Qed.

Lemma make_queries_total `{HI : Inet} qstr l : forall k,
  Forall (fun d => dnsbl_name d <> []) l -> exists qs, make_queries qstr k l = Ok qs.
Proof.
  induction l as [|d l IH]; intros k Hl; cbn [make_queries]; [eauto|]. apply Forall_cons_1 in Hl as [Hd Hl].
  unfold query_string. destruct (last (dnsbl_name d)) as [c|] eqn:El; [|by apply last_None in El]. cbn [rbind].
  destruct (IH (S k) Hl) as [qs ->]. cbn [rbind]. eauto.
Qed.

Lemma dnsblc_ends `{HI : Inet} (le : bool) type base ares_init limit rounds r r' prefix :
  request_unlink r = Ok r' -> query_prefix le type r = Ok prefix ->
  Forall (fun d => dnsbl_name d <> [] /\ tolerancecounter d <= INT_MAX) base ->
  Exists (fun rd => limit <= rd_used rd <= rd_after rd) rounds ->
  exists out, dnsblc le type base ares_init limit rounds r = Ok (Some out).
Proof.
  intros Hu Hp Hb Hx. unfold dnsblc. destruct ares_init; cbn [negb]; [|eauto]. rewrite Hp. cbn [rbind].
  destruct prefix as [qstr|]; [|rewrite Hu; cbn [rbind]; eauto].
  destruct (make_queries_total qstr base 0) as [qs Eq]; [eapply Forall_impl; [exact Hb|]; by intros d []|].
  pose proof (make_queries_cleared _ _ _ _ Eq) as Hc. rewrite Eq. cbn [rbind].
  destruct (dns_wait_ends type limit rounds (DnsblRun base (fst <$> qs) false None [] [])) as (s' & t & -> & Ho); [|done|].
  { intros i Hi. destruct (Hc i Hi) as (_ & d & Hd & ?). rewrite Nat.sub_0_r in Hd. exists d. split; [done|].
    rewrite Forall_lookup in Hb. destruct (Hb _ _ Hd). lia. }
  cbn [rbind]. unfold ares_cancel. destruct (callbacks_total type t ((fun i => (i, false)) <$> d_open s') s' Ho) as (s2 & -> & _).
  cbn [rbind]. rewrite Hu. cbn [rbind]. eauto.
Qed.

(** *** Which answers count *)

(** The lists that are asked: those with some tolerance left. *)
Fixpoint asked (k : nat) (l : list dnsbl_t) : list nat :=
  match l with
  | [] => []
  | d :: l => if query_clearance d then k :: asked (S k) l else asked (S k) l
  end.

(** The answers that come before the wait is over. *)
Fixpoint in_time (limit : Z) (rounds : list round) : list (nat * bool) :=
  match rounds with
  | [] => []
  | r :: rounds =>
      if limit <=? rd_used r then
        if rd_obsolete r || (limit <=? rd_after r) then [] else in_time limit rounds
      else if rd_nfds r =? 0 then []
      else rd_replies r ++ (if rd_obsolete r then [] else in_time limit rounds)
  end.

(** The lists whose first answer is positive, in the order of the answers, and
    the lists that have not answered. *)
Fixpoint matches (open : list nat) (l : list (nat * bool)) : list nat :=
  match l with
  | [] => []
  | (i, ok) :: l =>
      if bool_decide (i ∈ open) then (if ok then [i] else []) ++ matches (filter (fun j => j <> i) open) l
      else matches open l
  end.

Fixpoint unanswered (open : list nat) (l : list (nat * bool)) : list nat :=
  match l with
  | [] => open
  | (i, ok) :: l => unanswered (if bool_decide (i ∈ open) then filter (fun j => j <> i) open else open) l
  end.

Definition positive (base : list dnsbl_t) (limit : Z) (rounds : list round) : list nat :=
  matches (asked 0 base) (in_time limit rounds).

Definition matched_by (base : list dnsbl_t) (i : nat) (m : chkresult) : Prop :=
  exists d, base !! i = Some d /\ m = match_result d.

Lemma matches_app open l l' : matches open (l ++ l') = matches open l ++ matches (unanswered open l) l'.
Proof.
  revert open. induction l as [|[i ok] l IH]; intros open; cbn [app matches unanswered]; [done|].
  rewrite !IH. case_bool_decide; [by rewrite <-app_assoc | done].
Qed.

Lemma matches_none open l : Forall (fun a => a.2 = false) l -> matches open l = [].
Proof.
  intros Hl. revert open. induction Hl as [|[i ok] l Hok _ IH]; intros open; cbn [matches]; [done|].
  cbn in Hok. subst ok. rewrite !IH. by case_bool_decide.
Qed.

Lemma make_queries_asked qstr l : forall k qs, make_queries qstr k l = Ok qs -> fst <$> qs = asked k l.
Proof.
  induction l as [|d l IH]; intros k qs E; cbn [make_queries asked] in *; inv_ok; [done|].
  match goal with E : make_queries _ _ _ = Ok _ |- _ => apply IH in E end. destruct (query_clearance d); cbn; congruence.
Qed.

(** One callback: what it sends, or what it notes for a white list. *)
Lemma callback_effect type base timeout i ok s s' :
  run_inv type base s -> addrinfo_callback type timeout i ok s = Ok s' ->
  d_open s' = filter (fun j => j <> i) (d_open s) /\ exists d, base !! i = Some d /\
  d_sent s' = d_sent s ++ (if ok && negb (bool_decide (type = TYPE_DNSWL)) then [match_result d] else []) /\
  d_done s' = d_done s || (ok && bool_decide (type = TYPE_DNSWL)) /\
  d_dnslname s' = if ok && bool_decide (type = TYPE_DNSWL) then Some (dnsbl_name d) else d_dnslname s.
Proof.
  intros I E. unfold addrinfo_callback in E. destruct (d_base s !! i) as [d|] eqn:Hd; [|done]. cbn [rbind] in E.
  destruct (Forall2_lookup_r _ _ _ _ _ (ri_base _ _ _ I) Hd) as (d0 & Hd0 & E1 & E2 & _).
  assert (forall s2, (if timeout then n ← int_val (tolerancecounter d - 1);
      Ok (DnsblRun (<[i := set_tolerance d n]> (d_base s2)) (d_open s2) (d_done s2) (d_dnslname s2) (d_sent s2) (d_hits s2))
    else Ok s2) = Ok s' ->
    d_open s' = d_open s2 /\ d_sent s' = d_sent s2 /\ d_done s' = d_done s2 /\ d_dnslname s' = d_dnslname s2) as Ht.
  { intros s2 E'. destruct timeout; inv_ok; done. }
  apply Ht in E as (-> & -> & -> & ->). unfold match_result. rewrite E1, E2.
  destruct ok; [case_bool_decide|]; cbn; (split; [done|]); exists d0; rewrite ?app_nil_r, ?orb_true_r, ?orb_false_r; split_and!; congruence.
Qed.

(** The callbacks of a black list. *)
Lemma callbacks_black type base timeout l : forall s s',
  type <> TYPE_DNSWL -> run_inv type base s -> callbacks type timeout l s = Ok s' ->
  d_open s' = unanswered (d_open s) l /\ d_done s' = d_done s /\
  exists ms, d_sent s' = d_sent s ++ ms /\ Forall2 (matched_by base) (matches (d_open s) l) ms.
Proof.
  induction l as [|[i ok] l IH]; intros s s' Hty I E; cbn [callbacks matches unanswered] in *; inv_ok.
  { split_and!; try done. exists []. by rewrite app_nil_r. }
  case_bool_decide as Hi; inv_ok; [|by apply IH].
  match goal with E : addrinfo_callback _ _ _ _ _ = Ok ?s1 |- _ =>
    pose proof (callback_inv _ _ _ _ _ _ _ I Hi E) as I1;
    destruct (callback_effect _ _ _ _ _ _ _ I E) as (Ho & d & Hd & Hs & Hdn & _) end.
  rewrite (bool_decide_false _ Hty), andb_true_r in Hs. rewrite (bool_decide_false _ Hty), andb_false_r, orb_false_r in Hdn.
  match goal with E : callbacks _ _ _ _ = Ok _ |- _ => destruct (IH _ _ Hty I1 E) as (H1 & H2 & ms & H3 & H4) end.
  rewrite Ho in *. split; [done|]. split; [congruence|]. exists ((if ok then [match_result d] else []) ++ ms). split.
  - by rewrite H3, Hs, <-app_assoc.
  - apply Forall2_app; [|done]. destruct ok; [|constructor]. constructor; [by exists d | constructor].
Qed.

(** The callbacks of a white list. *)
Lemma callbacks_white base timeout l : forall s s',
  run_inv TYPE_DNSWL base s -> callbacks TYPE_DNSWL timeout l s = Ok s' ->
  d_open s' = unanswered (d_open s) l /\
  (matches (d_open s) l = [] -> d_done s' = d_done s /\ d_dnslname s' = d_dnslname s) /\
  (matches (d_open s) l <> [] -> d_done s' = true /\
    exists i d, i ∈ matches (d_open s) l /\ base !! i = Some d /\ d_dnslname s' = Some (dnsbl_name d)).
Proof.
  induction l as [|[i ok] l IH]; intros s s' I E; cbn [callbacks matches unanswered] in *; inv_ok; [done|].
  case_bool_decide as Hi; inv_ok; [|by apply IH].
  match goal with E : addrinfo_callback _ _ _ _ _ = Ok ?s1 |- _ =>
    pose proof (callback_inv _ _ _ _ _ _ _ I Hi E) as I1;
    destruct (callback_effect _ _ _ _ _ _ _ I E) as (Ho & d & Hd & _ & Hdn & Hnm) end.
  rewrite bool_decide_true in Hdn, Hnm by done. rewrite andb_true_r in Hdn, Hnm.
  match goal with E : callbacks _ _ _ _ = Ok _ |- _ => destruct (IH _ _ I1 E) as (H1 & H2 & H3) end.
  rewrite Ho in *. split; [done|]. set (M := matches _ l) in *. destruct ok; cbn [app].
  - split; [done|]. intros _. rewrite orb_true_r in Hdn. destruct M as [|m M'] eqn:EM.
    + destruct (H2 eq_refl) as [-> ->]. split; [done|]. exists i, d. split; [left | done].
    + destruct (H3 ltac:(done)) as (-> & j & d' & Hj & Hr). split; [done|]. exists j, d'. split; [by right | done].
  - rewrite orb_false_r in Hdn. split; [intros Hm; destruct (H2 Hm); split; congruence | done].
Qed.

Lemma dns_wait_black type base limit rounds : forall s s' timeout,
  type <> TYPE_DNSWL -> run_inv type base s -> d_done s = false -> dns_wait type limit rounds s = Ok (Some (s', timeout)) ->
  exists ms, d_sent s' = d_sent s ++ ms /\ Forall2 (matched_by base) (matches (d_open s) (in_time limit rounds)) ms.
Proof.
  induction rounds as [|r rounds IH]; intros s s' timeout Hty I Hdone E; cbn [dns_wait in_time] in *; [done|].
  assert (exists ms, d_sent s = d_sent s ++ ms /\ Forall2 (matched_by base) [] ms) as H0 by (exists []; by rewrite app_nil_r).
  rewrite Hdone, orb_false_r in E. destruct (limit <=? rd_used r).
  { destruct (rd_obsolete r || _); [by injection E as <- _ | by eapply IH]. }
  destruct (rd_nfds r =? 0); [by injection E as <- _|]. inv_ok.
  match goal with E : callbacks _ _ _ _ = Ok ?s1 |- _ =>
    pose proof (callbacks_inv _ _ _ _ _ _ I E) as I1; destruct (callbacks_black _ _ _ _ _ _ Hty I E) as (Ho & Hd & ms & Hs & Hm) end.
  rewrite Hd, Hdone in E. cbn [orb] in E. rewrite matches_app, <-Ho. destruct (rd_obsolete r).
  - injection E as <- _. exists ms. cbn [matches]. by rewrite app_nil_r.
  - destruct (IH _ _ _ Hty I1 (eq_trans Hd Hdone) E) as (ms' & Hs' & Hm'). exists (ms ++ ms').
    split; [by rewrite Hs', Hs, app_assoc | by apply Forall2_app].
Qed.

Lemma dns_wait_white base limit rounds : forall s s' timeout,
  run_inv TYPE_DNSWL base s -> d_done s = false -> dns_wait TYPE_DNSWL limit rounds s = Ok (Some (s', timeout)) ->
  let hit := matches (d_open s) (in_time limit rounds) in
  (hit = [] -> d_done s' = false) /\
  (hit <> [] -> d_done s' = true /\ exists i d, i ∈ hit /\ base !! i = Some d /\ d_dnslname s' = Some (dnsbl_name d)).
Proof.
  induction rounds as [|r rounds IH]; intros s s' timeout I Hdone E; cbn [dns_wait in_time] in *; [done|].
  rewrite Hdone, orb_false_r in E. destruct (limit <=? rd_used r).
  { destruct (rd_obsolete r || _); [by injection E as <- _ | by eapply IH]. }
  destruct (rd_nfds r =? 0); [by injection E as <- _|]. inv_ok.
  match goal with E : callbacks _ _ _ _ = Ok ?s1 |- _ =>
    pose proof (callbacks_inv _ _ _ _ _ _ I E) as I1; destruct (callbacks_white _ _ _ _ _ I E) as (Ho & Hd1 & Hd2) end.
  cbv zeta. rewrite matches_app, <-Ho. set (M := matches (d_open s) (rd_replies r)) in *.
  destruct M as [|m M'] eqn:EM.
  - destruct (Hd1 eq_refl) as [Hd Hn]. rewrite Hdone in Hd. rewrite Hd in E. cbn [orb app] in *.
    destruct (rd_obsolete r); [by injection E as <- _|]. by apply (IH _ _ timeout).
  - destruct (Hd2 ltac:(done)) as (Hd & i & d & Hi & Hr). rewrite Hd in E. cbn [orb] in E. injection E as <- _.
    split; [done|]. intros _. split; [done|]. exists i, d. split; [apply elem_of_app; by left | done].
Qed.

(** What a run that asked the lists sends. *)
Lemma run_sends type base limit rounds qstr qs s timeout s2 :
  make_queries qstr 0 base = Ok qs ->
  dns_wait type limit rounds (DnsblRun base (fst <$> qs) false None [] []) = Ok (Some (s, timeout)) ->
  ares_cancel type timeout s = Ok s2 ->
  (type <> TYPE_DNSWL -> Forall2 (matched_by base) (positive base limit rounds) (d_sent s2)) /\
  (type = TYPE_DNSWL -> (positive base limit rounds = [] -> d_done s2 = false) /\
    (positive base limit rounds <> [] -> d_done s2 = true /\
      exists i d, i ∈ positive base limit rounds /\ base !! i = Some d /\ d_dnslname s2 = Some (dnsbl_name d))).
Proof.
  intros Eq Ew Ec. pose proof (make_queries_cleared _ _ _ _ Eq) as Hq.
  assert (run_inv type base (DnsblRun base (fst <$> qs) false None [] [])) as I0.
  { split; cbn; try done; [|intros i d Hi Hd|by left].
    - clear. induction base; constructor; auto using same_list_refl.
    - destruct (Hq i Hi) as (_ & d' & Hd' & ?). rewrite Nat.sub_0_r in Hd'. congruence. }
  pose proof (dns_wait_inv _ _ _ _ _ _ _ I0 Ew) as I1. unfold ares_cancel in Ec.
  assert (matches (d_open s) ((fun i => (i, false)) <$> d_open s) = []) as Hnone
    by (apply matches_none, Forall_fmap, Forall_true; done).
  unfold positive. rewrite <-(make_queries_asked _ _ _ _ Eq). split; intros Hty.
  - destruct (dns_wait_black _ _ _ _ _ _ _ Hty I0 eq_refl Ew) as (ms & Hs & Hm). cbn in Hs, Hm.
    destruct (callbacks_black _ _ _ _ _ _ Hty I1 Ec) as (_ & _ & ms2 & Hs2 & Hm2).
    rewrite Hnone in Hm2. apply Forall2_nil_inv_l in Hm2 as ->. by rewrite Hs2, Hs, app_nil_r.
  - subst type. destruct (dns_wait_white _ _ _ _ _ _ I0 eq_refl Ew) as [H1 H2]. cbn in H1, H2.
    destruct (callbacks_white _ _ _ _ _ I1 Ec) as (_ & H3 & _). destruct (H3 Hnone) as [-> ->]. done.
Qed.


Definition demo_lists : list dnsbl_t :=
  add_dnsbl (add_dnsbl [] (cs "bl.example") 2) (cs "rbl.example.") 1.

(** The second list answers in the first round, the first does not answer. *)
Definition demo_rounds : list round :=
  [Round 0 1 [(1%nat, true)] false 0; Round 3000 1 [] false 3000].

Example demo_dnsblc :
  exists out, dnsblc true TYPE_DNSBL demo_lists true 3000 demo_rounds (demo_request (cs "h") (cs "192.0.2.7")) = Ok (Some out) /\
  out_queries out = [(0%nat, cs "7.2.0.192.rbl.example."); (1%nat, cs "7.2.0.192.bl.example.")] /\
  (tolerancecounter <$> out_base out) = [4; 5].
Proof. eexists. split_and!; vm_compute; reflexivity. Qed.


(** ** Definitive checks *)

(** A result that one of the checks sends. *)
Inductive check_result `{Inet} : chkresult -> Prop :=
| cr_helo rn ra clk r s res r' s' : helo rn ra clk r s = Ok ((res, r'), s') -> check_result res
| cr_reverse rn ra clk r s res r' s' : reverse rn ra clk r s = Ok ((res, r'), s') -> check_result res
| cr_blocker weight sock conn wfd fd r res r' sent :
    blocker weight sock conn wfd fd r = Ok (Some (res, r', sent)) -> check_result res
| cr_random n r res r' : randomc n r = Ok (res, r') -> check_result res
| cr_spf a r res r' : spfc a r = Ok (res, r') -> check_result res
| cr_dns le type base ai limit rounds r out res :
    dnsblc le type base ai limit rounds r = Ok (Some out) -> Some res ∈ out_sent out -> check_result res.

Lemma spf_judge_definitive a b r : r_definitive (spf_judge a b r) = r_definitive r.
Proof. unfold spf_judge. repeat case_match; done. Qed.

Lemma check_result_not_definitive `{HI : Inet} r : check_result r -> r_definitive r = false.
Proof.
  intros [rn ra clk q s res r' s' E|rn ra clk q s res r' s' E|weight sock conn wfd fd q res r' sent E|n q res r' E|a q res r' E|
    le type base ai limit rounds q out res E Hin].
  - unfold helo in E. do 4 (apply st_bind_inv in E as (? & ? & _ & E)). by injection E as <- _ _.
  - unfold reverse in E. apply st_bind_inv in E as (c & s1 & _ & E). apply st_bind_inv in E as (rh & s2 & _ & E).
    apply st_bind_inv in E as (res' & ? & E1 & E). apply st_bind_inv in E as (? & ? & _ & E). injection E as <- _ _.
    destruct rh as [rh|]; [|by injection E1 as <- _].
    apply st_bind_inv in E1 as ([ch|] & ? & _ & E1); [|by injection E1 as <- _].
    apply st_bind_inv in E1 as (? & ? & _ & E1). injection E1 as <- _. by destruct (cstr_eqb _ _).
  - unfold blocker in E. inv_ok. repeat (case_match; inv_ok; simplify_eq; try done).
  - unfold randomc in E. inv_ok. by repeat case_match.
  - unfold spfc in E. inv_ok. apply spf_judge_definitive.
  - apply dnsblc_sent in E as (_ & matched & final & E & Hm & _ & _ & Hf). rewrite E, elem_of_app in Hin.
    destruct Hin as [Hin|Hin].
    + apply list_elem_of_fmap in Hin as (m & [= <-] & Hm'). rewrite Forall_forall in Hm.
      by destruct (Hm _ Hm') as (d & _ & ->).
    + apply list_elem_of_singleton in Hin as <-. by destruct Hf as (_ & ? & _).
Qed.

Lemma take_result_defs w r w' :
  (forall x, r = Reply x -> r_definitive x = false) -> take_result w r = Ok w' ->
  wl_definitives_running w' = wl_definitives_running w /\ wl_definitive w' = wl_definitive w.
Proof.
  intros Hr E. destruct r as [| |x]; cbn [take_result] in E; inv_ok; try done. rewrite (Hr x) by done. done.
Qed.

(** Once a definitive check is registered (SPF or a white list), no weight
    of suspicion ends the wait for the checks early: whatever the thresholds,
    the answers and the times, the loop stops before all checks have answered or
    the time is up only for a pass.  The loop waits for the definitive checks by
    counting results marked definitive, and no check marks its results. *)
Theorem definitive_checks_disable_cutoff `{HI : Inet} (cfg : worker_config) (ticks : list tick) (w w' : waiting) :
  Forall check_result (replies ticks) -> 0 < wl_definitives_running w -> wl_definitive w = false ->
  wait_loop cfg ticks w = Ok (Some w') -> wl_definitive w' = true -> wl_judgment w' = J_PASS.
Proof.
  revert w. induction ticks as [|t ticks IH]; intros w Hr Hd Hw E Hw'; cbn [wait_loop] in E.
  { destruct (wait_more w); [done|]. injection E as <-. congruence. }
  destruct (wait_more w); [|injection E as <-; congruence]. inv_ok.
  assert (Forall check_result (replies ticks) /\ forall x, t_reply t = Reply x -> r_definitive x = false) as [Hr1 Hr2].
  { unfold replies in Hr. cbn in Hr. apply Forall_app in Hr as [Ht Hr]. split; [done|].
    intros x Ex. rewrite Ex in Ht. apply Forall_cons_1 in Ht as [Ht _]. by apply check_result_not_definitive. }
  match goal with E : wait_step _ _ _ = Ok ?v |- _ => rename E into Es; rename v into w1 end.
  assert (wl_definitives_running w1 = wl_definitives_running w /\
          (wl_definitive w1 = false \/ wl_judgment w1 = J_PASS)) as [Hd1 [Hw1|Hp]].
  { unfold wait_step in Es. destruct (wl_ta w) as [|ta rest]; [injection Es as <-; auto|].
    destruct (timeused t <? timeout ta); [|destruct (action ta); injection Es as <-; (split; [done | left; exact Hw])].
    destruct (t_reply t) as [| |x] eqn:Et; [injection Es as <-; auto|..];
      (apply bind_Ok_inv in Es as (v & Ev & Es); injection Es as <-;
       destruct (take_result_defs _ _ _ Hr2 Ev) as [Ev1 Ev2];
       destruct (cut_off cfg v) eqn:Ec; cbn; (split; [done|]); [right|left; congruence];
       unfold cut_off in Ec; case_bool_decide as Hj; [exact Hj|];
       destruct (Z.eqb_spec 0 (wl_definitives_running v)); [lia | done]). }
  - apply (IH w1); try done. lia.
  - destruct (wl_definitive w1) eqn:Hw1; [|apply (IH w1); try done; lia].
    assert (w' = w1) as -> by (destruct ticks; cbn [wait_loop] in E; unfold wait_more in E; rewrite Hw1 in E;
      cbn in E; by injection E as <-). done.
Qed.

(** A black list of weight 5 matches, with a block threshold of 3, while SPF has
    not answered: the loop goes on and the time runs out. *)
Definition demo_wcfg : worker_config :=
  WorkerConfig (MaskConfig 24 64) GREY_TUPLE_USER 3 1 5000 false false false [] [] [false; true].

Definition demo_waiting : waiting :=
  Waiting [TmoutAction 5000 None] J_UNDEFINED 0 2 1 false None (QueryLog 0 []) (Some (demo_request (cs "h") (cs "192.0.2.7")))
    [] [].

Definition demo_match : chkresult := match_result (Dnsbl (cs "bl.example") 5 5).

Lemma demo_match_sent : check_result demo_match.
Proof.
  refine (cr_dns true TYPE_DNSBL [Dnsbl (cs "bl.example") 5 5] true 3000 [Round 0 1 [(0%nat, true)] true 0]
    (demo_request (cs "h") (cs "192.0.2.7")) _ _ _ _); [vm_compute; reflexivity|]. left.
Qed.

Definition demo_ticks : list tick := [Tick 10 (Reply demo_match); Tick 5000 NoReply].

Lemma definitive_checks_disable_cutoff_witness :
  match wait_loop demo_wcfg demo_ticks demo_waiting with
  | Ok (Some w') => wl_susp_weight w' = 5 /\ wl_definitive w' = false /\
      (wl_definitive w' = true -> wl_judgment w' = J_PASS)
  | _ => False
  end.
Proof.
  destruct (wait_loop demo_wcfg demo_ticks demo_waiting) as [[w'|]|] eqn:E; [|vm_compute in E; discriminate..].
  split; [vm_compute in E; injection E as <-; reflexivity|].
  split; [vm_compute in E; injection E as <-; reflexivity|].
  apply (definitive_checks_disable_cutoff demo_wcfg demo_ticks demo_waiting w');
    [apply Forall_singleton; exact demo_match_sent | reflexivity | reflexivity | exact E].
Defined.
