(* ===== verification/Stats.v ===== *)
(** Statistics ([stats.c], [stats.h]), the status report ([srvstatus.c]) and
    the parts of [worker.c] that feed them.

    The four verdicts have the same fields, a counter of the current interval,
    one since the start, the average and the longest delay; here each is a
    function of [kind].  The functions that take the statistics lock are one
    step each: [INCF_STATS], [zero_stats], the updates of the delays,
    [stat_dnsbl_match].  [update_counters] takes the lock twice, so another
    thread can come in between.  [no_verdict_lost] is about every interleaving
    of the threads at that grain.

    Doubles are the binary64 numbers of [SpecFloat]. *)
From Stdlib Require Import SpecFloat Permutation.
From S2P Require Import Prelude Print Utils ThreadPool BloomMgr Worker.
#[local] Open Scope st_scope.

(** ** Data *)

Inductive kind := KBlock | KGreylist | KMatch | KTrust.

#[export] Instance kind_eq_dec : EqDecision kind.
Proof. solve_decision. Defined.

Record dnsbl_stat_t := DnsblStat { dnsbl_name : cstr; matches_startup : Z }.

Record stats_t := Stats {
  startup : Z;
  begin : Z;
  end_ : Z;
  stats_mx : bool;                    (* the calling thread holds the lock *)
  interval : kind -> Z;               (* block, greylist, match, trust *)
  all : kind -> Z;                    (* all_block, all_greylist, all_match, all_trust *)
  avg_delay : kind -> spec_float;
  max_delay : kind -> spec_float;
  dnsbl_match : list dnsbl_stat_t }.

Definition set_kind {A} (f : kind -> A) (k : kind) (a : A) : kind -> A :=
  fun j => if bool_decide (j = k) then a else f j.

Definition set_lock (s : stats_t) b : stats_t :=
  Stats (startup s) (begin s) (end_ s) b (interval s) (all s) (avg_delay s) (max_delay s) (dnsbl_match s).
Definition set_interval (s : stats_t) f : stats_t :=
  Stats (startup s) (begin s) (end_ s) (stats_mx s) f (all s) (avg_delay s) (max_delay s) (dnsbl_match s).
Definition set_all (s : stats_t) f : stats_t :=
  Stats (startup s) (begin s) (end_ s) (stats_mx s) (interval s) f (avg_delay s) (max_delay s) (dnsbl_match s).
Definition set_delays (s : stats_t) avg mx : stats_t :=
  Stats (startup s) (begin s) (end_ s) (stats_mx s) (interval s) (all s) avg mx (dnsbl_match s).
Definition set_dnsbl (s : stats_t) l : stats_t :=
  Stats (startup s) (begin s) (end_ s) (stats_mx s) (interval s) (all s) (avg_delay s) (max_delay s) l.

(** ** The lock *)

Definition ACTIVATE_STATS_GUARD : stt stats_t unit := fun s =>
  if stats_mx s then Fail SelfDeadlock else Ok (tt, set_lock s true).
Definition RELEASE_STATS_GUARD : stt stats_t unit := st_mod (fun s => set_lock s false).

(** [INCF_STATS(member)], of the interval and of the total. *)
Definition INCF_STATS (total : bool) (k : kind) : stt stats_t unit :=
  ACTIVATE_STATS_GUARD ;;;
  st_mod (fun s => if total then set_all s (set_kind (all s) k (u64 (all s k + 1)))
                   else set_interval s (set_kind (interval s) k (u64 (interval s k + 1)))) ;;;
  RELEASE_STATS_GUARD.

(** ** Counting *)

Definition zero : spec_float := S754_zero false.

Definition zero_stats (now : Z) : stt stats_t stats_t :=
  ACTIVATE_STATS_GUARD ;;;
  let* s := st_get in
  let old := Stats (startup s) (begin s) now (stats_mx s) (interval s) (all s) (avg_delay s) (max_delay s)
    (dnsbl_match s) in
  st_put (Stats (startup s) now 0 (stats_mx s) (fun _ => 0) (all s) (fun _ => zero) (max_delay s)
    (dnsbl_match s)) ;;;
  RELEASE_STATS_GUARD ;;;
  st_ret old.

(** [pthread_mutex_init] leaves the lock free. *)
Definition init_stats (now : Z) : stt stats_t stats_t :=
  st_mod (fun s => Stats now (begin s) (end_ s) false (interval s) (fun _ => 0) (avg_delay s) (max_delay s) []) ;;;
  zero_stats now.

Definition stat_add_dnsbl (name : cstr) : stt stats_t Z :=
  st_mod (fun s => set_dnsbl s (DnsblStat name 0 :: dnsbl_match s)) ;;;
  st_ret 1.

Definition max_dnsbl_name_len : nat := 256.

(** [0 == strncmp(a, b, n)] *)
Definition strncmp_eq (n : nat) (a b : cstr) : bool := cstr_eqb (take n a) (take n b).

(** The loop: the list after it, and [cur->matches_startup] of the entry found. *)
Fixpoint count_match (name : cstr) (l : list dnsbl_stat_t) : list dnsbl_stat_t * option Z :=
  match l with
  | [] => ([], None)
  | cur :: next =>
      if strncmp_eq max_dnsbl_name_len (dnsbl_name cur) name then
        let n := u64 (matches_startup cur + 1) in
        (DnsblStat (dnsbl_name cur) n :: next, Some n)
      else let '(next, r) := count_match name next in (cur :: next, r)
  end.

(** [result] is an [int]; it comes back as a [uint64_t]. *)
Definition stat_dnsbl_match (name : cstr) : stt stats_t Z :=
  ACTIVATE_STATS_GUARD ;;;
  let* s := st_get in
  let '(l, r) := count_match name (dnsbl_match s) in
  st_put (set_dnsbl s l) ;;;
  RELEASE_STATS_GUARD ;;;
  st_ret (u64 (s32 (default 0 r))).

(** ** Delays *)

(** The four functions differ in the member only. *)
Definition delay_update (k : kind) (d : spec_float) : stt stats_t spec_float :=
  ACTIVATE_STATS_GUARD ;;;
  let* s := st_get in
  let n := interval s k in
  let avg := if n =? 0 then d
    else SFdiv 53 1024 (SFadd 53 1024 (SFmul 53 1024 (avg_delay s k) (double_of_int (u64 (n - 1)))) d)
           (double_of_int n) in
  let longest := if SFltb (max_delay s k) d then d else max_delay s k in
  st_put (set_delays s (set_kind (avg_delay s) k avg) (set_kind (max_delay s) k longest)) ;;;
  RELEASE_STATS_GUARD ;;;
  st_ret avg.

Definition block_delay_update : spec_float -> stt stats_t spec_float := delay_update KBlock.
Definition greylist_delay_update : spec_float -> stt stats_t spec_float := delay_update KGreylist.
Definition match_delay_update : spec_float -> stt stats_t spec_float := delay_update KMatch.
Definition trust_delay_update : spec_float -> stt stats_t spec_float := delay_update KTrust.

(** ** The callers in [worker.c] *)

(** The sections under the lock, in the order the code goes through them. *)
Definition update_counters (status : grey_status) : list (bool * kind) :=
  match status with
  | STATUS_BLOCK => [(false, KBlock); (true, KBlock)]
  | STATUS_MATCH => [(false, KMatch); (true, KMatch)]
  | STATUS_GREY => [(false, KGreylist); (true, KGreylist)]
  | STATUS_TRUST => [(false, KTrust); (true, KTrust)]
  | STATUS_UNKNOWN | STATUS_FAIL => []
  end.

Definition update_delay_stats (action : grey_status) (delay : Z) : stt stats_t unit :=
  match action with
  | STATUS_BLOCK => block_delay_update (double_of_int delay) ;;; st_ret tt
  | STATUS_MATCH => match_delay_update (double_of_int delay) ;;; st_ret tt
  | STATUS_GREY => greylist_delay_update (double_of_int delay) ;;; st_ret tt
  | STATUS_TRUST => trust_delay_update (double_of_int delay) ;;; st_ret tt
  | STATUS_UNKNOWN | STATUS_FAIL => st_ret tt
  end.

(** ** Reports *)

(** A loop over the list that prints one text for each entry, with separators. *)
Fixpoint emit_list (f : dnsbl_stat_t -> cstr) (l : list dnsbl_stat_t) (o : out) : Res out :=
  match l with
  | [] => Ok o
  | cur :: next =>
      o ← emit (f cur) o;
      o ← match next with [] => Ok o | _ :: _ => emit (cs ", ") o end;
      emit_list f next o
  end.

Definition dnsbl_stats (o : out) : stt stats_t out :=
  let* s := st_get in
  let* o := st_lift (emit (cs "grossd dnsbl matches (") o) in
  let* o := st_lift (emit_list dnsbl_name (dnsbl_match s) o) in
  let* o := st_lift (emit (cs "): ") o) in
  ACTIVATE_STATS_GUARD ;;;
  let* s := st_get in
  let* o := st_lift (emit_list (fun d => udec (matches_startup d)) (dnsbl_match s) o) in
  RELEASE_STATS_GUARD ;;;
  st_ret o.

Record log_config := LogConfig { statlevel : Z; loglevel : Z }.

Definition LOG_TYPE : Z := 0x10000.
Definition GLOG_NOTICE : Z := Z.lor LOG_TYPE 5.
Definition STATS_NONE : Z := 0x40000.
Definition STATS_STATUS : Z := 0x40001.
Definition STATS_STATUS_BEGIN : Z := 0x40002.
Definition STATS_DELAY : Z := 0x40004.
Definition STATS_DNSBL : Z := 0x40008.
Definition STATS_FULL : Z := 0x4ffff.

(** The lines that go to the log. *)
Definition statstr (c : log_config) (level : Z) (text : cstr) : list cstr :=
  if Z.land level (statlevel c) =? STATS_NONE then []
  else if loglevel c <? GLOG_NOTICE then []
  else [take (MSGSZ - 1) text].

Definition TMP_BUF_SIZE : Z := 640.

Definition comma_list (l : list cstr) : cstr :=
  match l with [] => [] | x :: l => x ++ (l ≫= fun y => cs ", " ++ y) end.

Definition log_stats (nan : cstr) (c : log_config) (now : Z) : stt stats_t (stats_t * list cstr) :=
  let* stats := zero_stats now in
  let lines :=
    statstr c STATS_STATUS
      (cs "grossd status summary (begin, end, trust, match, greylist, block): " ++
       comma_list (udec <$> [begin stats; end_ stats; interval stats KTrust; interval stats KMatch;
         interval stats KGreylist; interval stats KBlock])) ++
    statstr c STATS_DELAY
      (cs "grossd processing average delay (begin, end, trust[ms], match[ms], greylist[ms], block[ms]): " ++
       comma_list ((udec <$> [begin stats; end_ stats]) ++
         (fixed nan 3 <$> [avg_delay stats KTrust; avg_delay stats KMatch; avg_delay stats KGreylist;
           avg_delay stats KBlock]))) ++
    statstr c STATS_DELAY
      (cs "grossd processing max delay (begin, end, trust[ms], match[ms], greylist[ms], block[ms]): " ++
       comma_list ((udec <$> [begin stats; end_ stats]) ++
         (fixed nan 3 <$> [max_delay stats KTrust; max_delay stats KMatch; max_delay stats KGreylist;
           max_delay stats KBlock]))) ++
    statstr c STATS_STATUS_BEGIN
      (cs "grossd summary since startup (startup, now, trust, match, greylist, block): " ++
       comma_list (udec <$> [startup stats; end_ stats; all stats KTrust; all stats KMatch;
         all stats KGreylist; all stats KBlock])) in
  let* o := dnsbl_stats (Out (replicate (Z.to_nat TMP_BUF_SIZE) NUL) 0 TMP_BUF_SIZE) in
  st_ret (stats, lines ++ statstr c STATS_DNSBL (c_string (o_buf o))).

(** ** The status report *)

(** What [get_srvstatus] looks at besides the statistics.  [None]: the thread
    was not started. *)
Record srv_view := SrvView {
  v_update_in : Z;
  v_update_out : Z;
  bloommgr_alive : bool;
  syncmgr_alive : option bool;
  sjsms_server_alive : option bool;
  postfix_server_alive : option bool;
  v_now : Z;
  v_last_rotate : Z;
  v_rotate_interval : Z;
  peer_connected : Z;
  flg_noreplicate : bool }.

Definition SRV_OK : Z := 0x00.
Definition SRV_WARN : Z := 0x01.
Definition SRV_ERR : Z := 0x02.
Definition MINUTE : Z := 60.
Definition QUEUE_WARN : Z := 30.
Definition QUEUE_ERR : Z := 50.

Definition dead (t : option bool) : bool := bool_decide (t = Some false).

(** [snprintf(buf + strlen(buf), len - strlen(buf), ...)] *)
Definition append (len : Z) (text : cstr) (buf : list ascii) : Res (list ascii) :=
  let n := Z.of_nat (length (c_string buf)) in snprintf_at buf n (len - n) text.

Definition queue_text (update_len i o : Z) : cstr :=
  sdec (s32 update_len) ++ cs " (In: " ++ sdec (s32 i) ++ cs " + Out: " ++ sdec (s32 o) ++ cs ")".

Definition get_srvstatus (nan : cstr) (v : srv_view) (buf : list ascii) (len : Z) : stt stats_t (list ascii) :=
  let update_len_in := u32 (v_update_in v) in
  let update_len_out := u32 (v_update_out v) in
  let update_len := u32 (update_len_in + update_len_out) in
  let* buf := st_lift (aset buf 0 NUL) in
  let reply state text := st_lift (append len (sdec state ++ text) buf) in
  if negb (bloommgr_alive v) then reply SRV_ERR (cs ": bloommgr-thread is dead.")
  else if dead (syncmgr_alive v) then reply SRV_ERR (cs ": syncmgr-thread is dead.")
  else if dead (sjsms_server_alive v) then reply SRV_ERR (cs ": sjsms_server-thread is dead.")
  else if dead (postfix_server_alive v) then reply SRV_ERR (cs ": postfix_server-thread is dead.")
  else if v_rotate_interval v + MINUTE <? v_now v - v_last_rotate v then reply SRV_ERR (cs ": Rotate stuck.")
  else if QUEUE_ERR <? update_len_out then
    reply SRV_ERR (cs ": Update queue length " ++ queue_text update_len update_len_in update_len_out ++ cs ".")
  else if QUEUE_WARN <? update_len_out then
    reply SRV_WARN (cs ": Update queue length " ++ queue_text update_len update_len_in update_len_out ++ cs ".")
  else if (peer_connected v <? 1) && negb (flg_noreplicate v) then reply SRV_WARN (cs ": Peer unreachable.")
  else
    let* buf := reply SRV_OK (cs ": Grossd OK. Update queue: " ++
      queue_text update_len update_len_in update_len_out) in
    ACTIVATE_STATS_GUARD ;;;
    let* s := st_get in
    let queries := u64 (all s KTrust + all s KMatch + all s KGreylist + all s KBlock) in
    let* buf := st_lift (append len (cs " Trust: " ++ udec (all s KTrust) ++ cs " Match: " ++ udec (all s KMatch) ++
      cs " Greylist: " ++ udec (all s KGreylist) ++ cs " Block: " ++ udec (all s KBlock) ++ cs " Queries/sec: " ++
      fixed nan 6 (SFdiv 53 1024 (double_of_int queries) (double_of_int (v_now v - startup s)))) buf) in
    let* buf := st_lift (append len (cs " Dnsbl matches: ") buf) in
    let n := Z.of_nat (length (c_string buf)) in
    let* o := dnsbl_stats (Out buf n (len - n)) in
    RELEASE_STATS_GUARD ;;;
    st_ret (o_buf o).

(** ** The report of the blacklists *)

(** The texts printed for a list. *)
Fixpoint pieces (f : dnsbl_stat_t -> cstr) (l : list dnsbl_stat_t) : list cstr :=
  match l with
  | [] => []
  | cur :: next => f cur :: match next with [] => [] | _ :: _ => [cs ", "] end ++ pieces f next
  end.

Lemma emit_list_pieces f l o : emit_list f l o = emits (pieces f l) o.
Proof.
  revert o. induction l as [|d l IH]; intros o; [done|]. cbn [emit_list pieces emits].
  destruct (emit (f d) o) as [o1|]; [|done]. cbn [rbind]. destruct l as [|e l]; [apply IH|].
  cbn [emits app]. destruct (emit (cs ", ") o1); [apply IH | done].
Qed.

Definition dnsbl_pieces (l : list dnsbl_stat_t) : list cstr :=
  [cs "grossd dnsbl matches ("] ++ pieces dnsbl_name l ++ [cs "): "] ++ pieces (fun d => udec (matches_startup d)) l.

Definition dnsbl_text (l : list dnsbl_stat_t) : cstr := concat (dnsbl_pieces l).

Lemma dnsbl_stats_emits o s :
  stats_mx s = false ->
  dnsbl_stats o s = match emits (dnsbl_pieces (dnsbl_match s)) o with Ok o' => Ok (o', s) | Fail f => Fail f end.
Proof.
  intros Hm. unfold dnsbl_stats, dnsbl_pieces, ACTIVATE_STATS_GUARD, RELEASE_STATS_GUARD, st_bind, st_get, st_lift, st_mod, st_ret.
  rewrite !emits_app. cbn [emits].
  destruct (emit _ o) as [o1|]; cbn [rbind]; [|done]. rewrite emit_list_pieces, emits_app.
  destruct (emits _ o1) as [o2|]; [|done]. cbn [rbind app emits]; destruct (emit _ o2) as [o3|]; [|done]; cbn [rbind]. rewrite Hm. cbn [set_lock dnsbl_match].
  rewrite emit_list_pieces. destruct (emits _ o3) as [o4|]; [|done]. f_equal. f_equal. destruct s. cbn in *. by subst.
Qed.

Lemma length_udec_go k : forall x t, (x < 10 ^ N.of_nat k)%N -> (String.length (pretty.pretty_N_go x t) <= k + String.length t)%nat.
Proof.
  induction k as [|k IH]; intros x t Hx.
  { change (10 ^ N.of_nat 0)%N with 1%N in Hx. by replace x with 0%N by lia. }
  destruct (decide (x = 0%N)) as [->|Hne]; [change (pretty.pretty_N_go 0 t) with t; lia|]. rewrite pretty.pretty_N_go_step by lia.
  etransitivity; [apply IH|cbn [String.length Nat.add]; rewrite Nat.add_succ_r; done]. apply N.Div0.div_lt_upper_bound. by rewrite <-N.pow_succ_r', <-Nat2N.inj_succ.
Qed.

Lemma length_udec z : is_u64 z -> (length (udec z) <= 20)%nat.
Proof.
  intros Hz. unfold udec. assert (forall t, length (cs t) = String.length t) as -> by (intros t; induction t as [|c t IH]; cbn; [done | by f_equal]).
  unfold pretty.pretty, pretty.pretty_N. case_decide; [cbn; lia|]. etransitivity; [apply (length_udec_go 20)|cbn; lia].
  unfold is_u64 in Hz. change (10 ^ N.of_nat 20)%N with 100000000000000000000%N. lia.
Qed.

(** Room for the names and for numbers of twenty digits. *)
Definition names_fit (names : list cstr) : Prop := 25 + sumZ (fun n => Z.of_nat (length n) + 24) names < TMP_BUF_SIZE.

Lemma length_pieces f l : Z.of_nat (length (concat (pieces f l))) <= sumZ (fun d => Z.of_nat (length (f d)) + 2) l.
Proof.
  induction l as [|d l IH]; [done|]. cbn [pieces concat sumZ foldr]. unfold sumZ in *. cbn [foldr]. rewrite concat_app, !length_app.
  destruct l; cbn [concat length] in *; rewrite ?length_app; cbn [cs String.list_ascii_of_string length]; lia.
Qed.

Lemma length_dnsbl_text l : Forall (fun d => is_u64 (matches_startup d)) l -> names_fit (dnsbl_name <$> l) ->
  Z.of_nat (length (dnsbl_text l)) < TMP_BUF_SIZE.
Proof.
  unfold names_fit, dnsbl_text, dnsbl_pieces. intros Hu Hf. rewrite !concat_app, !length_app. cbn [concat app]. rewrite !app_nil_r.
  change (length (cs "grossd dnsbl matches (")) with 22%nat. change (length (cs "): ")) with 3%nat.
  pose proof (length_pieces dnsbl_name l) as H1. pose proof (length_pieces (fun d => udec (matches_startup d)) l) as H2.
  assert (sumZ (fun d => Z.of_nat (length (dnsbl_name d)) + 2) l + sumZ (fun d => Z.of_nat (length (udec (matches_startup d))) + 2) l <=
    sumZ (fun n => Z.of_nat (length n) + 24) (dnsbl_name <$> l)); [|lia].
  clear -Hu. induction Hu as [|d l Hd _ IH]; [done|]. unfold sumZ in *. cbn [fmap list_fmap foldr]. pose proof (length_udec _ Hd). lia.
Qed.

Definition report_buffer : out := Out (replicate (Z.to_nat TMP_BUF_SIZE) NUL) 0 TMP_BUF_SIZE.

Lemma dnsbl_stats_fits s : stats_mx s = false -> Forall (fun d => is_u64 (matches_startup d)) (dnsbl_match s) ->
  names_fit (dnsbl_name <$> dnsbl_match s) -> exists o, dnsbl_stats report_buffer s = Ok (o, s).
Proof.
  intros Hm Hu Hf. rewrite dnsbl_stats_emits by done. rewrite emits_fit; [by eexists | done | done | |].
  - split; [by apply length_dnsbl_text | unfold report_buffer, INT_MAX; cbn; unfold TMP_BUF_SIZE; lia].
  - cbn [report_buffer o_tick o_size o_buf]. rewrite length_replicate. unfold TMP_BUF_SIZE. lia.
Qed.

(** ** The sections under the lock, and the threads *)

Inductive action :=
| Incf (total : bool) (k : kind)
| Report (now : Z)
| Delay (k : kind) (d : spec_float)
| Listed (name : cstr)
| Lists.

Definition do_action (a : action) : stt stats_t (list stats_t) :=
  match a with
  | Incf total k => INCF_STATS total k ;;; st_ret []
  | Report now => let* old := zero_stats now in st_ret [old]
  | Delay k d => delay_update k d ;;; st_ret []
  | Listed name => stat_dnsbl_match name ;;; st_ret []
  | Lists => dnsbl_stats report_buffer ;;; st_ret []
  end.

(** The reports that are made, the first first. *)
Fixpoint run_actions (tr : list action) : stt stats_t (list stats_t) :=
  match tr with
  | [] => st_ret []
  | a :: tr => let* r := do_action a in let* rs := run_actions tr in st_ret (r ++ rs)
  end.

(** What the threads of the program do with the statistics. *)
Inductive work :=
| Judged (status : grey_status)           (* [update_counters] *)
| Delayed (action : grey_status) (d : Z)  (* [update_delay_stats] *)
| Hit (name : cstr)                       (* [stat_dnsbl_match] *)
| Log (now : Z).                          (* [log_stats] *)

Definition kind_of (s : grey_status) : option kind :=
  match s with
  | STATUS_BLOCK => Some KBlock
  | STATUS_MATCH => Some KMatch
  | STATUS_GREY => Some KGreylist
  | STATUS_TRUST => Some KTrust
  | STATUS_UNKNOWN | STATUS_FAIL => None
  end.

Definition steps (w : work) : list action :=
  match w with
  | Judged s => (fun p => Incf p.1 p.2) <$> update_counters s
  | Delayed a d => match kind_of a with Some k => [Delay k (double_of_int d)] | None => [] end
  | Hit name => [Listed name]
  | Log now => [Report now; Lists]
  end.

Definition is_incf (total : bool) (k : kind) (a : action) : bool :=
  match a with Incf t j => bool_decide (t = total /\ j = k) | _ => false end.
Definition is_listed (name : cstr) (a : action) : bool :=
  match a with Listed n => strncmp_eq max_dnsbl_name_len name n | _ => false end.
Definition is_verdict (k : kind) (w : work) : bool :=
  match w with Judged s => bool_decide (kind_of s = Some k) | _ => false end.
Definition is_hit (name : cstr) (w : work) : bool :=
  match w with Hit n => strncmp_eq max_dnsbl_name_len name n | _ => false end.

(** *** One section *)

Lemma u64_add_l a b : u64 (u64 a + b) = u64 (a + b).
Proof. unfold u64. apply Zplus_mod_idemp_l. Qed.

Definition bump_dnsbl (name : cstr) (d : dnsbl_stat_t) : dnsbl_stat_t :=
  DnsblStat (dnsbl_name d)
    (if strncmp_eq max_dnsbl_name_len (dnsbl_name d) name then u64 (matches_startup d + 1) else matches_startup d).

(** Names that can be told apart. *)
Definition distinct (l : list dnsbl_stat_t) : Prop := NoDup (take max_dnsbl_name_len ∘ dnsbl_name <$> l).

Lemma bump_dnsbl_other name (l : list dnsbl_stat_t) :
  take max_dnsbl_name_len name ∉ (take max_dnsbl_name_len ∘ dnsbl_name <$> l) ->
  bump_dnsbl name <$> l = l.
Proof.
  induction l as [|[n m] l IH]; cbn; [done|]. intros [H1 H2]%not_elem_of_cons.
  rewrite IH by done. unfold bump_dnsbl, strncmp_eq. cbn. f_equal. f_equal.
  destruct (cstr_eqb _ _) eqn:E; [|done]. apply cstr_eqb_eq in E. congruence.
Qed.

Lemma count_match_spec name (l : list dnsbl_stat_t) : distinct l -> (count_match name l).1 = bump_dnsbl name <$> l.
Proof.
  unfold distinct. induction l as [|[n m] l IH]; cbn; [done|]. intros [H1 H2]%NoDup_cons.
  unfold bump_dnsbl at 1. cbn. destruct (strncmp_eq _ n name) eqn:E; cbn.
  - f_equal. symmetry. apply bump_dnsbl_other. apply cstr_eqb_eq in E. by rewrite <-E.
  - rewrite <-IH by done. by destruct (count_match name l).
Qed.

(** What a section does to the counters. *)
Lemma do_action_spec a s :
  stats_mx s = false -> distinct (dnsbl_match s) -> Forall (fun d => is_u64 (matches_startup d)) (dnsbl_match s) ->
  names_fit (dnsbl_name <$> dnsbl_match s) ->
  exists rs s', do_action a s = Ok (rs, s') /\ stats_mx s' = false /\
    (forall k, u64 (sumZ (fun r => interval r k) rs + interval s' k) =
               u64 (interval s k + if is_incf false k a then 1 else 0)) /\
    (forall k, all s' k = if is_incf true k a then u64 (all s k + 1) else all s k) /\
    dnsbl_match s' = match a with Listed n => bump_dnsbl n <$> dnsbl_match s | _ => dnsbl_match s end.
Proof.
  intros Hm Hd Hu Hf. destruct a as [total k|now|k d|name|]; cbn [do_action].
  - unfold INCF_STATS, ACTIVATE_STATS_GUARD, RELEASE_STATS_GUARD, st_bind, st_mod, st_ret. rewrite Hm.
    do 2 eexists. split; [done|]. destruct total; cbn; unfold set_kind; (split; [done|]); split_and!; try done;
      intros j; repeat case_bool_decide; try (intuition congruence); subst; try (f_equal; lia).
    rewrite Z.add_comm, u64_add_l. f_equal. lia.
  - unfold zero_stats, ACTIVATE_STATS_GUARD, RELEASE_STATS_GUARD, st_bind, st_mod, st_ret, st_get, st_put.
    rewrite Hm. do 2 eexists. split; [done|]. cbn. split_and!; try done. intros k. f_equal. lia.
  - unfold delay_update, ACTIVATE_STATS_GUARD, RELEASE_STATS_GUARD, st_bind, st_mod, st_ret, st_get, st_put.
    rewrite Hm. do 2 eexists. split; [done|]. cbn. split_and!; try done. intros j. f_equal. lia.
  - unfold stat_dnsbl_match, ACTIVATE_STATS_GUARD, RELEASE_STATS_GUARD, st_bind, st_mod, st_ret, st_get, st_put.
    rewrite Hm. pose proof (count_match_spec name (dnsbl_match s) Hd) as E. cbn [set_lock dnsbl_match].
    destruct (count_match name (dnsbl_match s)) as [l r] eqn:El. cbn in E. subst l.
    do 2 eexists. split; [done|]. cbn. split_and!; try done. intros k. f_equal. lia.
  - destruct (dnsbl_stats_fits s Hm Hu Hf) as [o E]. exists [], s. rewrite (st_bind_ok _ _ _ _ _ E). split_and!; try done.
    intros k. f_equal. cbn. lia.
Qed.

Lemma bump_names n (l : list dnsbl_stat_t) : dnsbl_name <$> (bump_dnsbl n <$> l) = dnsbl_name <$> l.
Proof. rewrite <-list_fmap_compose. apply list_fmap_ext. by intros. Qed.

(** *** Sequences of sections *)

Definition hits (tr : list action) (d : dnsbl_stat_t) : dnsbl_stat_t :=
  DnsblStat (dnsbl_name d) (u64 (matches_startup d + countZ (is_listed (dnsbl_name d)) tr)).

Definition counts_u64 (s : stats_t) : Prop :=
  (forall k, is_u64 (all s k)) /\ Forall (fun d => is_u64 (matches_startup d)) (dnsbl_match s).

Lemma u64_is_u64 z : is_u64 (u64 z).
Proof. unfold is_u64, u64. apply Z.mod_pos_bound. lia. Qed.

Lemma distinct_bump n l : distinct l -> distinct (bump_dnsbl n <$> l).
Proof.
  unfold distinct. rewrite <-list_fmap_compose. intros H. eapply eq_ind; [exact H|].
  apply list_fmap_ext. by intros.
Qed.

Lemma bump_u64 n l :
  Forall (fun d => is_u64 (matches_startup d)) l -> Forall (fun d => is_u64 (matches_startup d)) (bump_dnsbl n <$> l).
Proof.
  intros H. apply Forall_fmap. eapply Forall_impl; [exact H|]. intros d Hd. cbn.
  destruct (strncmp_eq _ _ _); [apply u64_is_u64 | exact Hd].
Qed.

Lemma countZ_cons {A} (f : A -> bool) a l : countZ f (a :: l) = (if f a then 1 else 0) + countZ f l.
Proof. done. Qed.

Lemma run_actions_spec tr s :
  stats_mx s = false -> distinct (dnsbl_match s) -> names_fit (dnsbl_name <$> dnsbl_match s) -> counts_u64 s ->
  exists rs s', run_actions tr s = Ok (rs, s') /\
    (forall k, u64 (sumZ (fun r => interval r k) rs + interval s' k) =
               u64 (interval s k + countZ (is_incf false k) tr)) /\
    (forall k, all s' k = u64 (all s k + countZ (is_incf true k) tr)) /\
    dnsbl_match s' = hits tr <$> dnsbl_match s.
Proof.
  revert s. induction tr as [|a tr IH]; intros s Hm Hd Hf [Hu Hl].
  { exists [], s. split_and!; [done|..].
    - intros k. f_equal. cbn. lia.
    - intros k. cbn. by rewrite Z.add_0_r, u64_id.
    - rewrite <-(list_fmap_id (dnsbl_match s)) at 1. apply list_fmap_ext. intros i [n m] Hi.
      unfold hits. cbn. rewrite Z.add_0_r, u64_id; [done|]. by eapply (Forall_lookup_1 _ _ _ _ Hl) in Hi. }
  destruct (do_action_spec a s Hm Hd Hl Hf) as (rs & s1 & E & Hm1 & Hi & Ha & Hl1).
  destruct (IH s1) as (rs' & s' & E' & Hi' & Ha' & Hl'); [done | | | |].
  { rewrite Hl1. destruct a; [done..| |done]. by apply distinct_bump. }
  { rewrite Hl1. destruct a; [done..| |done]. by rewrite bump_names. }
  { split; [|rewrite Hl1; destruct a; [done..| |done]; by apply bump_u64].
    intros k. rewrite Ha. destruct (is_incf _ _ _); [apply u64_is_u64 | done]. }
  exists (rs ++ rs'), s'. split_and!.
  - cbn [run_actions]. by rewrite (st_bind_ok _ _ _ _ _ E), (st_bind_ok _ _ _ _ _ E').
  - intros k. rewrite sumZ_app, <-Z.add_assoc, Z.add_comm, <-u64_add_l, Hi', u64_add_l.
    rewrite (Z.add_comm _ (sumZ _ rs)), Z.add_assoc, <-u64_add_l, Hi, u64_add_l, countZ_cons. f_equal. lia.
  - intros k. rewrite Ha', Ha, countZ_cons. destruct (is_incf true k a); [rewrite u64_add_l|]; f_equal; lia.
  - rewrite Hl', Hl1. destruct a as [| | |n|];
      [apply list_fmap_ext; intros i x _; unfold hits; by rewrite countZ_cons..| |apply list_fmap_ext; intros i x _; unfold hits; by rewrite countZ_cons].
    rewrite <-list_fmap_compose. apply list_fmap_ext. intros i d _. unfold hits. cbn [compose bump_dnsbl dnsbl_name matches_startup].
    rewrite countZ_cons. cbn [is_listed]. f_equal. destruct (strncmp_eq _ _ _); [rewrite u64_add_l|]; f_equal; lia.
Qed.

(** The sections of complete calls, counted by call. *)
Lemma count_steps (f : action -> bool) (g : work -> bool) threads tr :
  (forall w, countZ f (steps w) = if g w then 1 else 0) ->
  interleaving ((fun t => t ≫= steps) <$> threads) tr ->
  countZ f tr = countZ g (concat threads).
Proof.
  intros H Hi%interleaving_perm. unfold countZ. rewrite <-Hi. clear Hi.
  induction threads as [|t threads IH]; [done|]. cbn [fmap list_fmap concat].
  rewrite !sumZ_app, IH, sumZ_bind. f_equal. apply sumZ_ext, H.
Qed.

(** The blacklists are registered one after the other, as they are configured. *)
Fixpoint add_dnsbls (names : list cstr) : stt stats_t unit :=
  match names with [] => st_ret tt | n :: names => stat_add_dnsbl n ;;; add_dnsbls names end.

Lemma add_dnsbls_spec names s :
  add_dnsbls names s = Ok (tt, set_dnsbl s (reverse ((fun n => DnsblStat n 0) <$> names) ++ dnsbl_match s)).
Proof.
  revert s. induction names as [|n names IH]; intros s; [by destruct s|]. cbn [add_dnsbls].
  rewrite (st_bind_ok _ _ _ 1 (set_dnsbl s (DnsblStat n 0 :: dnsbl_match s))) by done. rewrite IH, fmap_cons, reverse_cons, <-(assoc_L (++)). done.
Qed.

Definition start (now : Z) (names : list cstr) : stt stats_t unit := init_stats now ;;; add_dnsbls names.

Lemma start_spec now names s0 :
  start now names s0 = Ok (tt, Stats now now 0 false (fun _ => 0) (fun _ => 0) (fun _ => zero) (max_delay s0)
    (reverse ((fun n => DnsblStat n 0) <$> names))).
Proof.
  unfold start, init_stats, zero_stats, ACTIVATE_STATS_GUARD, RELEASE_STATS_GUARD, st_bind, st_mod, st_ret, st_get, st_put.
  cbn. rewrite add_dnsbls_spec. unfold set_dnsbl. cbn. by rewrite app_nil_r.
Qed.

(** C28: no verdict is lost and none is counted twice, for any number of threads
    that judge queries, log delays, count blacklist matches and write the
    periodic report, however their sections under the statistics lock
    interleave (a report can come between the two sections in which a verdict
    is counted, and other sections between the two of a report).  Once the calls
    are complete, for each verdict the reports of the intervals and the counter of
    the current one add up to the number of times it was given, the counter since
    the start is that number, and each blacklist's counter is the number of its
    matches, all modulo 2^64.  The names of the blacklists must differ and fit
    in the buffer of the report; the status server, which keeps the lock once it
    is asked ([healthy_status_never_answers]), is not among the threads. *)
Theorem no_verdict_lost (threads : list (list work)) (tr : list action) (now : Z) (names : list cstr) (s0 : stats_t) :
  NoDup (take max_dnsbl_name_len <$> names) -> names_fit names ->
  interleaving ((fun t => t ≫= steps) <$> threads) tr ->
  exists reports s, (start now names ;;; run_actions tr) s0 = Ok (reports, s) /\
    (forall k, u64 (sumZ (fun r => interval r k) reports + interval s k) = u64 (countZ (is_verdict k) (concat threads))) /\
    (forall k, all s k = u64 (countZ (is_verdict k) (concat threads))) /\
    dnsbl_match s = (fun n => DnsblStat n (u64 (countZ (is_hit n) (concat threads)))) <$> reverse names.
Proof.
  intros Hn Hf Hi. rewrite (st_bind_ok _ _ _ _ _ (start_spec now names s0)).
  assert (forall b k, countZ (is_incf b k) tr = countZ (is_verdict k) (concat threads)) as Hv.
  { intros b k. apply count_steps; [|done]. intros [st|st d|n|t]; cbn.
    - destruct st, k, b; reflexivity.
    - by destruct (kind_of st).
    - done.
    - done. }
  assert (forall n, countZ (is_listed n) tr = countZ (is_hit n) (concat threads)) as Hh.
  { intros n. apply count_steps; [|done]. intros [st|st d|n'|t]; cbn; try lia.
    - by destruct st.
    - by destruct (kind_of st). }
  set (s1 := Stats now now 0 _ _ _ _ _ _).
  destruct (run_actions_spec tr s1) as (rs & s & E & H1 & H2 & H3); [done| | | |].
  - unfold distinct, s1. cbn. rewrite fmap_reverse, <-list_fmap_compose, reverse_Permutation. exact Hn.
  - unfold s1. cbn. rewrite fmap_reverse, <-list_fmap_compose. unfold names_fit. rewrite (reverse_Permutation _). by rewrite list_fmap_id.
  - split; [done|]. unfold s1. cbn. apply Forall_reverse, Forall_fmap, Forall_true. done.
  - exists rs, s. split_and!; [exact E | | |].
    + intros k. by rewrite H1, Hv.
    + intros k. by rewrite H2, Hv.
    + rewrite H3. unfold s1. cbn. rewrite <-fmap_reverse, <-list_fmap_compose. apply list_fmap_ext.
      intros i n _. unfold hits. cbn. by rewrite Hh.
Qed.

(** Two workers and the main thread; the report comes between the sections of
    the first worker's block. *)
Definition demo_threads : list (list work) :=
  [[Judged STATUS_BLOCK; Delayed STATUS_BLOCK 12]; [Hit (cs "bl.example"); Judged STATUS_GREY]; [Log 60]].

Definition demo_trace : list action :=
  [Listed (cs "bl.example"); Incf false KBlock; Report 60; Incf true KBlock; Delay KBlock (double_of_int 12);
   Incf false KGreylist; Lists; Incf true KGreylist].

Definition stats0 : stats_t :=
  Stats 0 0 0 false (fun _ => 0) (fun _ => 0) (fun _ => zero) (fun _ => zero) [].

Lemma no_verdict_lost_witness :
  exists reports s, (start 0 [cs "bl.example"] ;;; run_actions demo_trace) stats0 = Ok (reports, s) /\
    (forall k, u64 (sumZ (fun r => interval r k) reports + interval s k) = u64 (countZ (is_verdict k) (concat demo_threads))) /\
    (forall k, all s k = u64 (countZ (is_verdict k) (concat demo_threads))) /\
    dnsbl_match s = (fun n => DnsblStat n (u64 (countZ (is_hit n) (concat demo_threads)))) <$> reverse [cs "bl.example"].
Proof.
  apply (no_verdict_lost demo_threads demo_trace); [apply NoDup_singleton | vm_compute; reflexivity|].
  apply (il_step [_]), (il_step []), (il_step [_; _]), (il_step []), (il_step []), (il_step [_]), (il_step [_; _]), (il_step [_]), il_done.
  repeat constructor.
Defined.

(** ** Reports *)

(** The periodic report ([log_stats]) with every class of statistics
    enabled.  It resets the interval and returns the old figures; when the names
    and counters of the blacklists fit in the buffer of 640 bytes, its last line
    is exactly those names and counters; when they are longer than the buffer the
    report runs outside it, because [dnsbl_stats] moves its pointer by what
    [snprintf] would have written. *)
Theorem log_stats_report (nan : cstr) (c : log_config) (now : Z) (s : stats_t) :
  stats_mx s = false -> statlevel c = STATS_FULL -> GLOG_NOTICE <= loglevel c ->
  (Z.of_nat (length (dnsbl_text (dnsbl_match s))) < TMP_BUF_SIZE -> NUL ∉ dnsbl_text (dnsbl_match s) ->
    exists old s' lines, log_stats nan c now s = Ok ((old, lines ++ [dnsbl_text (dnsbl_match s)]), s') /\
      length lines = 4%nat /\
      (forall k, interval old k = interval s k /\ interval s' k = 0 /\ all s' k = all s k)) /\
  (TMP_BUF_SIZE < Z.of_nat (length (dnsbl_text (dnsbl_match s))) -> exists f, log_stats nan c now s = Fail f).
Proof.
  intros Hm Hs Hl.
  assert (exists old s1, zero_stats now s = Ok (old, s1) /\ stats_mx s1 = false /\ dnsbl_match s1 = dnsbl_match s /\
    forall k, interval old k = interval s k /\ interval s1 k = 0 /\ all s1 k = all s k) as (old & s1 & Ez & Hm1 & Hd & Hk).
  { unfold zero_stats, ACTIVATE_STATS_GUARD, RELEASE_STATS_GUARD, st_bind, st_mod, st_ret, st_get, st_put.
    rewrite Hm. do 2 eexists. split; [done|]. done. }
  unfold log_stats. rewrite (st_bind_ok _ _ _ _ _ Ez). unfold st_bind.
  set (o := Out _ _ _).
  assert (Z.of_nat (length (o_buf o)) = TMP_BUF_SIZE) as Hb by (unfold o; cbn [o_buf]; by rewrite length_replicate).
  rewrite (dnsbl_stats_emits _ _ Hm1), Hd. split.
  - intros Hfit Hnul. rewrite emits_fit; [|done|done|change (o_size o) with 640; unfold INT_MAX; split; [exact Hfit | lia]|].
    2: { rewrite Hb. done. }
    exists old, s1. eexists. split; [|split; [|exact Hk]].
    + unfold st_ret. do 3 f_equal. rewrite !(assoc_L (++)). f_equal.
      change (concat _) with (dnsbl_text (dnsbl_match s)). cbn [o_buf o o_tick Z.to_nat].
      unfold memcpy_at. rewrite take_0. cbn [app]. rewrite <-(assoc_L (++)). cbn [app].
      rewrite c_string_app by done. unfold statstr. rewrite Hs.
      destruct (Z.ltb_spec (loglevel c) GLOG_NOTICE); [lia|]. rewrite take_ge; [done|].
      unfold TMP_BUF_SIZE in Hfit. unfold MSGSZ. lia.
    + rewrite !length_app. unfold statstr. rewrite Hs. destruct (Z.ltb_spec (loglevel c) GLOG_NOTICE); [lia | done].
  - intros Hover. destruct (emits_overrun (dnsbl_pieces (dnsbl_match s)) o) as [f ->]; [cbn [o_tick o]; lia | |eauto].
    rewrite Hb. exact Hover.
Qed.

Definition demo_stats : stats_t :=
  Stats 0 0 0 false (fun _ => 3) (fun _ => 5) (fun _ => zero) (fun _ => zero)
    [DnsblStat (cs "bl.example") 7; DnsblStat (cs "rbl.example") 1].

Definition full_log : log_config := LogConfig STATS_FULL (Z.lor LOG_TYPE 6).

Lemma log_stats_report_witness :
  (exists old s' lines, log_stats (cs "nan") full_log 60 demo_stats =
      Ok ((old, lines ++ [dnsbl_text (dnsbl_match demo_stats)]), s') /\ length lines = 4%nat /\
      (forall k, interval old k = 3 /\ interval s' k = 0 /\ all s' k = 5)) /\
  dnsbl_text (dnsbl_match demo_stats) = cs "grossd dnsbl matches (bl.example, rbl.example): 7, 1".
Proof.
  split; [|vm_compute; reflexivity].
  apply (log_stats_report (cs "nan") full_log 60 demo_stats); try (vm_compute; congruence); try reflexivity.
  refine (bool_decide_unpack (NUL ∉ dnsbl_text (dnsbl_match demo_stats)) _). vm_compute. exact I.
Defined.

(** Twenty blacklists with names of thirty characters are too many. *)
Example twenty_lists_overrun :
  let s := set_dnsbl demo_stats (replicate 20 (DnsblStat (replicate 30 "x"%char) 0)) in
  is_ok (log_stats (cs "nan") full_log 60 s) = false.
Proof. vm_compute. reflexivity. Qed.

(** The longest delays are not reset with the interval: what a report gives as
    the longest delay between its two times may be older. *)
Lemma longest_delay_survives k d now s :
  stats_mx s = false -> SFltb (max_delay s k) d = false ->
  exists r s', (zero_stats now ;;; delay_update k d ;;; zero_stats (now + 1)) s = Ok (r, s') /\
    begin r = now /\ max_delay r k = max_delay s k.
Proof.
  intros Hm Hd.
  unfold zero_stats, delay_update, ACTIVATE_STATS_GUARD, RELEASE_STATS_GUARD, st_bind, st_mod, st_ret, st_get, st_put.
  rewrite Hm. cbn. rewrite Hd. do 2 eexists. split; [done|]. cbn. unfold set_kind.
  by rewrite bool_decide_true.
Qed.

(** The state in which the report says that all is well. *)
Definition healthy (v : srv_view) : bool :=
  bloommgr_alive v && negb (dead (syncmgr_alive v)) && negb (dead (sjsms_server_alive v)) &&
  negb (dead (postfix_server_alive v)) && (v_now v - v_last_rotate v <=? v_rotate_interval v + MINUTE) &&
  (u32 (v_update_out v) <=? QUEUE_WARN) && ((1 <=? peer_connected v) || flg_noreplicate v).

(** The status report never answers that all is well.  With every thread
    alive, the rotation on time, the update queue short and the peer connected
    (or none configured), [get_srvstatus] takes the statistics lock and calls
    [dnsbl_stats], which takes it again: no state of the statistics, buffer or
    length lets the call return. *)
Theorem healthy_status_never_answers (nan : cstr) (v : srv_view) (buf : list ascii) (len : Z) (s : stats_t) :
  healthy v = true -> exists f, get_srvstatus nan v buf len s = Fail f.
Proof.
  unfold healthy. intros H. rewrite !andb_true_iff, !negb_true_iff, !Z.leb_le in H.
  destruct H as [[[[[[H1 H2] H3] H4] H5] H6] H7].
  destruct (get_srvstatus nan v buf len s) as [[b s']|f] eqn:E; [|eauto]. exfalso. revert E.
  unfold get_srvstatus. rewrite H1, H2, H3, H4. cbn [negb].
  destruct (Z.ltb_spec (v_rotate_interval v + MINUTE) (v_now v - v_last_rotate v)); [lia|].
  unfold QUEUE_ERR, QUEUE_WARN in *.
  destruct (Z.ltb_spec 50 (u32 (v_update_out v))); [lia|].
  destruct (Z.ltb_spec 30 (u32 (v_update_out v))); [lia|].
  assert ((peer_connected v <? 1) && negb (flg_noreplicate v) = false) as ->.
  { apply orb_true_iff in H7 as [H7%Z.leb_le| ->]; [|apply andb_false_r].
    destruct (Z.ltb_spec (peer_connected v) 1); [lia | done]. }
  unfold ACTIVATE_STATS_GUARD, dnsbl_stats, st_bind, st_lift, st_get, st_ret.
  repeat (case_match; try done); intros; simplify_eq.
Qed.

Definition demo_view : srv_view := SrvView 0 0 true (Some true) None (Some true) 1000 900 3600 1 false.

Lemma healthy_status_never_answers_witness :
  (exists f, get_srvstatus (cs "nan") demo_view (replicate 1024 NUL) 1024 demo_stats = Fail f) /\
  get_srvstatus (cs "nan") demo_view (replicate 1024 NUL) 1024 demo_stats = Fail SelfDeadlock.
Proof.
  split; [apply (healthy_status_never_answers (cs "nan") demo_view); reflexivity | vm_compute; reflexivity].
Defined.
