(* ===== verification/QueryLog.v ===== *)
(** The query log and the end of a query ([worker.c]: [init_status],
    [update_delay_stats] through [Stats], [finalize], [querylogwrite]).

    The entry of the log refers to the strings of the request, the ones the
    client sent.  The line is printed into an array of the stack of MAXLINELEN
    bytes by a chain of [snprintf]s ([Print]); [junk] is what the array holds
    before. *)
From S2P Require Import Prelude Print Utils BloomMgr Worker Stats.
#[local] Open Scope st_scope.

(** ** Data *)

Record querylog_entry_t := QueryLogEntry {
  q_action : grey_status;
  q_delay : Z;
  q_totalweight : Z;
  q_proto : option cstr;
  q_client_ip : option cstr;
  q_sender : option cstr;
  q_recipient : option cstr;
  q_helo : option cstr;
  q_matches : list (cstr * Z) }.

Record final_status_t := FinalStatus {
  f_entry : querylog_entry_t;
  f_starttime : timespec }.

(** Everything else is cleared: the action is 0, [STATUS_GREY]. *)
Definition init_status (proto : cstr) (now : timespec) : final_status_t :=
  FinalStatus (QueryLogEntry STATUS_GREY 0 0 (Some proto) None None None None []) now.

(** What [test_tuple] writes in the entry. *)
Definition with_outcome (f : final_status_t) (r : grey_tuple_t) (o : outcome) : final_status_t :=
  FinalStatus (QueryLogEntry (o_action o) (q_delay (f_entry f)) (Worker.q_totalweight (o_querylog o))
    (q_proto (f_entry f)) (client_address r) (sender r) (recipient r) (helo_name r) (q_match (o_querylog o)))
    (f_starttime f).

(** ** The line *)

Definition MAXLINELEN : Z := 1024.

Definition actionstr (a : grey_status) : cstr :=
  match a with
  | STATUS_GREY => cs "greylist"
  | STATUS_MATCH => cs "match"
  | STATUS_TRUST => cs "trust"
  | STATUS_UNKNOWN => cs "unknown"
  | STATUS_FAIL => cs "fail"
  | STATUS_BLOCK => cs "block"
  end.

(** [%+d] *)
Definition signed (z : Z) : cstr := if z <? 0 then sdec z else cs "+" ++ sdec z.

Definition not_available (s : option cstr) : cstr := default (cs "N/A") s.

(** The texts, one for each [snprintf]. *)
Definition match_texts (m : cstr * Z) : list cstr :=
  (cs " m=" ++ m.1) :: (if m.2 =? 0 then [] else [signed m.2]).

Definition line_texts (q : querylog_entry_t) : list cstr :=
  (cs "a=" ++ actionstr (q_action q) ++ cs " d=" ++ sdec (q_delay q) ++ cs " w=" ++ sdec (q_totalweight q) ++
   cs " c=" ++ not_available (q_client_ip q) ++ cs " s=" ++ not_available (q_sender q) ++
   cs " r=" ++ not_available (q_recipient q)) ::
  match q_helo q with Some h => [cs " h=" ++ h] | None => [] end ++
  (q_matches q ≫= match_texts).

(** The line that is logged.  The size given to each [snprintf] is
    MAXLINELEN - len - 1, computed in [size_t]. *)
Definition querylogwrite (junk : list ascii) (q : querylog_entry_t) : Res cstr :=
  o ← emits (line_texts q) (Out junk 0 (MAXLINELEN - 1));
  line ← aset (o_buf o) (MAXLINELEN - 1) NUL;
  Ok (c_string line).

(** Statistics of the delay, the line of the log; what is freed is not used
    afterwards. *)
Definition finalize (junk : list ascii) (now : timespec) (f : final_status_t) : stt stats_t cstr :=
  let q := f_entry f in
  let q := QueryLogEntry (q_action q) (ms_diff now (f_starttime f)) (q_totalweight q) (q_proto q) (q_client_ip q)
    (q_sender q) (q_recipient q) (q_helo q) (q_matches q) in
  update_delay_stats (q_action q) (q_delay q) ;;;
  st_lift (querylogwrite junk q).

(** The end of the [k]th query of a connection: [finalize] on the statistics of
    the moment.  [finish] gives the line of the query log. *)
Class Finish := finish : nat -> grey_tuple_t -> outcome -> Res cstr.

Record finish_env := FinishEnv { fe_start : timespec; fe_end : timespec; fe_junk : list ascii; fe_stats : stats_t }.

Definition protocol_finish (proto : cstr) (envs : nat -> finish_env) : Finish := fun k r o =>
  let e := envs k in
  '(line, _) ← finalize (fe_junk e) (fe_end e) (with_outcome (init_status proto (fe_start e)) r o) (fe_stats e);
  Ok line.

(** ** Theorems *)

Lemma update_delay_stats_ok a d s :
  stats_mx s = false -> exists s', update_delay_stats a d s = Ok (tt, s') /\ stats_mx s' = false.
Proof.
  intros Hm. destruct a; cbn [update_delay_stats]; try (exists s; by split);
    unfold block_delay_update, match_delay_update, greylist_delay_update, trust_delay_update, delay_update,
      ACTIVATE_STATS_GUARD, RELEASE_STATS_GUARD, st_bind, st_get, st_put, st_mod, st_ret; rewrite Hm; cbn;
    eexists; by split.
Qed.

Definition log_text (q : querylog_entry_t) : cstr := concat (line_texts q).

(** The entry as [finalize] completes it. *)
Definition completed (now : timespec) (f : final_status_t) : querylog_entry_t :=
  let q := f_entry f in
  QueryLogEntry (q_action q) (ms_diff now (f_starttime f)) (q_totalweight q) (q_proto q) (q_client_ip q)
    (q_sender q) (q_recipient q) (q_helo q) (q_matches q).

(** The end of a query writes the whole line of the query log (verdict,
    delay, weight, client, sender, recipient, helo and every match with its
    weight, in order) when the line is shorter than MAXLINELEN - 1 characters,
    whatever the array held before, and enters the delay in the statistics of
    the verdict. *)
Theorem query_logged (junk : list ascii) (now : timespec) (f : final_status_t) (s : stats_t) :
  stats_mx s = false -> Z.of_nat (length junk) = MAXLINELEN ->
  NUL ∉ log_text (completed now f) ->
  Z.of_nat (length (log_text (completed now f))) < MAXLINELEN - 1 ->
  exists s', update_delay_stats (q_action (f_entry f)) (ms_diff now (f_starttime f)) s = Ok (tt, s') /\
    finalize junk now f s = Ok (log_text (completed now f), s') /\ stats_mx s' = false.
Proof.
  intros Hm Hj Hnul Hl. unfold finalize. fold (completed now f).
  destruct (update_delay_stats_ok (q_action (completed now f)) (q_delay (completed now f)) s Hm) as (s' & E & Hm').
  exists s'. split; [exact E|]. split; [|done]. rewrite (st_bind_ok _ _ _ _ _ E). unfold st_lift, querylogwrite, log_text in *.
  set (q := completed now f) in *. clearbody q. clear E.
  rewrite emits_fit; cbn [o_tick o_size o_buf]; [|done|done|split; [done|]|]; [|by vm_compute|rewrite Hj; lia].
  cbn [rbind o_buf]. change (Z.to_nat 0) with O.
  assert (length (memcpy_at junk 0 (concat (line_texts q) ++ [NUL])) = length junk) as Hlen.
  { apply length_memcpy_at. rewrite length_app. cbn [length]. unfold MAXLINELEN in *. lia. }
  rewrite aset_lt by (rewrite Hlen, Hj; unfold MAXLINELEN; lia). cbn [rbind].
  unfold memcpy_at. rewrite take_0. cbn [app]. rewrite <-(assoc_L (++)).
  rewrite insert_app_r_alt by (unfold MAXLINELEN in *; lia).
  destruct (Z.to_nat (MAXLINELEN - 1) - length (concat (line_texts q)))%nat as [|k] eqn:Ek;
    [unfold MAXLINELEN in *; lia|].
  cbn [app insert list_insert]. by rewrite c_string_app.
Qed.

(** A query whose sender and recipient together have more than MAXLINELEN
    characters takes the server outside the array of the log line: for every
    request of that kind, every judgment of it, every clock and whatever the
    array holds, [finalize] has no defined behaviour.  Both strings come from
    the client; each may have up to about MAXLINELEN characters. *)
Theorem long_addresses_overrun_log (junk : list ascii) (proto : cstr) (t0 now : timespec) (r : grey_tuple_t)
    (o : outcome) (snd rcpt : cstr) (s : stats_t) :
  Z.of_nat (length junk) = MAXLINELEN ->
  sender r = Some snd -> recipient r = Some rcpt ->
  MAXLINELEN < Z.of_nat (length snd) + Z.of_nat (length rcpt) ->
  exists f, finalize junk now (with_outcome (init_status proto t0) r o) s = Fail f.
Proof.
  intros Hj Hs Hr Hl. unfold finalize, st_bind. set (q := QueryLogEntry _ _ _ _ _ _ _ _ _).
  destruct (update_delay_stats _ _ s) as [[[] s']|f]; [|eauto].
  unfold st_lift, querylogwrite.
  destruct (emits_overrun (line_texts q) (Out junk 0 (MAXLINELEN - 1))) as [f ->]; [cbn; lia| |cbn; eauto].
  assert (q_sender q = Some snd /\ q_recipient q = Some rcpt) as [Hs' Hr'] by done. clearbody q.
  cbn [o_buf o_tick]. rewrite Hj. unfold line_texts. cbn [concat]. rewrite Hs', Hr', !length_app.
  change (not_available (Some snd)) with snd. change (not_available (Some rcpt)) with rcpt. lia.
Qed.

Definition demo_now : timespec := Timespec 10 5000000.

Definition demo_final : final_status_t :=
  FinalStatus (QueryLogEntry STATUS_BLOCK 0 5 (Some (cs "postfix")) (Some (cs "192.0.2.7")) (Some (cs "a@example.com"))
    None (Some (cs "mail.example.com")) [(cs "dnsbl", 5); (cs "helo", 0)]) (Timespec 10 0).

Lemma query_logged_witness :
  (exists s', update_delay_stats (q_action (f_entry demo_final)) (ms_diff demo_now (f_starttime demo_final)) demo_stats = Ok (tt, s') /\
     finalize (replicate 1024 "x"%char) demo_now demo_final demo_stats
     = Ok (log_text (completed demo_now demo_final), s') /\ stats_mx s' = false) /\
  log_text (completed demo_now demo_final) =
    cs "a=block d=5 w=5 c=192.0.2.7 s=a@example.com r=N/A h=mail.example.com m=dnsbl+5 m=helo".
Proof.
  split; [|vm_compute; reflexivity].
  apply (query_logged (replicate 1024 "x"%char) demo_now demo_final demo_stats); [reflexivity | reflexivity | | reflexivity].
  refine (bool_decide_unpack (NUL ∉ log_text (completed demo_now demo_final)) _). vm_compute. exact I.
Defined.

Definition long_request : grey_tuple_t :=
  GreyTuple (Some (replicate 600 "a"%char)) (Some (replicate 600 "b"%char)) (Some (cs "192.0.2.7")) (Some (cs "h")) 1.

Definition demo_outcome : outcome :=
  Outcome STATUS_GREY None STATUS_GREY (QueryLog 0 []) (Some long_request) [].

Lemma long_addresses_overrun_log_witness :
  exists f, finalize (replicate 1024 "x"%char) demo_now
    (with_outcome (init_status (cs "postfix") demo_now) long_request demo_outcome) demo_stats = Fail f.
Proof.
  apply (long_addresses_overrun_log (replicate 1024 "x"%char) (cs "postfix") demo_now demo_now long_request demo_outcome
    (replicate 600 "a"%char) (replicate 600 "b"%char)); vm_compute; reflexivity.
Defined.
