(* ===== verification/SyncMgr.v ===== *)
(** * Synchronising with the peer ([src/src/syncmgr.c])

    The wire format of the synchronisation protocol in both directions, the
    functions that send the filters and updates, and those that read messages
    from the peer and post them to the manager's queue.  The connection is a
    descriptor of [Utils]; what is posted is returned. *)

From S2P Require Import Prelude Sha256 Bloom Utils AddrUtils BloomMgr.

(** ** Byte order *)

Definition ntohl (le : bool) (w : Z) : Z := be_join (store le 4 w).

Record sync_config_t := SyncConfig { sc_filter_size : Z; sc_num_bufs : Z }.

Section Order.
Context (le : bool).

(** [int32_t] fields hold the bit pattern as a signed number. *)
Definition sston (ss : startup_sync_t) : startup_sync_t :=
  StartupSync (s32 (htonl le (u32 (ss_buffer ss)))) (htonl le (ss_index ss)) (htonl le <$> ss_filter ss).

Definition sstoh (ss : startup_sync_t) : startup_sync_t :=
  StartupSync (s32 (ntohl le (u32 (ss_buffer ss)))) (ntohl le (ss_index ss)) (ntohl le <$> ss_filter ss).

Definition dmap (f : Z -> Z) (d : sha_256_t) : sha_256_t :=
  Sha256 (f (h0 d)) (f (h1 d)) (f (h2 d)) (f (h3 d)) (f (h4 d)) (f (h5 d)) (f (h6 d)) (f (h7 d)).

Definition dton : sha_256_t -> sha_256_t := dmap (htonl le).
Definition dtoh : sha_256_t -> sha_256_t := dmap (ntohl le).

Definition scton (c : sync_config_t) : sync_config_t :=
  SyncConfig (htonl le (sc_filter_size c)) (htonl le (sc_num_bufs c)).
Definition sctoh (c : sync_config_t) : sync_config_t :=
  SyncConfig (ntohl le (sc_filter_size c)) (ntohl le (sc_num_bufs c)).

Definition config_bytes (c : sync_config_t) : list Z :=
  store le 4 (sc_filter_size c) ++ store le 4 (sc_num_bufs c).
Definition config_of_bytes (b : list Z) : sync_config_t := SyncConfig (word_at le b 0) (word_at le b 4).

(** ** Sending *)

Definition STARTUP_SYNC : Z := 1.
Definition OPER_SYNC : Z := 2.
Definition AGGREGATE_SYNC : Z := 4.

Definition STARTUP_LEN : nat := 136.
Definition DIGEST_LEN : nat := 32.

Definition prologue (type length : Z) : list Z := store le 4 (htonl le type) ++ store le 4 length.

(** What is written to the peer. *)
Definition send_sync_config (c : sync_config_t) : list Z := config_bytes (scton c).

Definition send_startup_sync (ss : startup_sync_t) : list Z :=
  prologue STARTUP_SYNC (htonl le (Z.of_nat STARTUP_LEN)) ++ startup_bytes le (sston ss).

Definition send_oper_sync (d : sha_256_t) : list Z :=
  prologue OPER_SYNC (htonl le (Z.of_nat DIGEST_LEN)) ++ digest_bytes le (dton d).

(** An [update_message_t] from the queue; other types are skipped. *)
Definition send_update_msg_as_oper_sync (msg : list Z) : list Z :=
  if s32 (word_at le msg 0) =? UPDATE then send_oper_sync (digest_of_bytes le (drop 4 msg)) else [].

Definition force_peer_aggregate : list Z := prologue AGGREGATE_SYNC 0.

(** The inner loop of [send_filters] on the words of member [i]: [msg] is the
    buffer [msg.filter]. *)
Fixpoint send_words (i size : Z) (words : list Z) (j index : Z) (msg : list Z) : Res (list startup_sync_t) :=
  match words with
  | [] => Ok []
  | w :: words =>
      msg ← aset msg (j - index * FILTER_SIZE) w;
      if j mod size =? size - 1 then
        rest ← send_words i size words (j + 1) (index + 1) (replicate (Z.to_nat FILTER_SIZE) 0);
        Ok (StartupSync i index msg :: rest)
      else send_words i size words (j + 1) index msg
  end.

(** The startup messages, in the order they are sent. *)
Definition filter_msgs (brq : bloom_ring_queue_t) : Res (list startup_sync_t) :=
  f0 ← aget (filter_group (brq_group brq)) 0;
  let size := Z.min FILTER_SIZE (bf_size f0) in
  for_loop (Z.to_nat (group_size (brq_group brq))) (fun i acc =>
    f ← aget (filter_group (brq_group brq)) (Z.of_nat i);
    l ← send_words (Z.of_nat i) size (take (Z.to_nat (bf_size f)) (bf_filter f)) 0 0
          (replicate (Z.to_nat FILTER_SIZE) 0);
    Ok (acc ++ l)) [].

Definition send_filters (brq : bloom_ring_queue_t) : Res (list Z) :=
  msgs ← filter_msgs brq; Ok ((msgs ≫= send_startup_sync) ++ force_peer_aggregate).

(** ** Receiving *)

(** Posted to the update queue: at once, or through the delay. *)
Inductive posted := Instant (msg : list Z) | Delayed (msg : list Z).

Record received := Received {
  rv_ret : Z;
  rv_fd : rfd Z;
  rv_connected : bool;
  rv_posted : option posted }.

(** A struct of which the first bytes were read over what it held. *)
Definition read_over (old got : list Z) : list Z := got ++ drop (length got) old.

Definition closed (fd : rfd Z) : Res received := Ok (Received 0 fd false None).

(** [post_ok]: the queue accepted the message. *)
Definition recv_startup_sync (fd : rfd Z) (garbage : list Z) (post_ok : bool) : Res received :=
  match readn fd STARTUP_LEN with
  | None => Fail Undefined
  | Some (None, fd) => closed fd
  | Some (Some [], fd) => closed fd
  | Some (Some got, fd) =>
      let msg := sstoh (startup_of_bytes le (read_over (startup_bytes le (StartupSync (-1) 0 (replicate 32 0))) got)) in
      let update := store le 4 ABSOLUTE_UPDATE ++ startup_bytes le msg ++ garbage in
      Ok (Received (if post_ok then 1 else 0) fd true (Some (Instant (take STARTUP_LEN update))))
  end.

Definition recv_oper_sync (fd : rfd Z) (junk garbage : list Z) (post_ok : bool) : Res received :=
  match readn fd DIGEST_LEN with
  | None => Fail Undefined
  | Some (None, fd) => closed fd
  | Some (Some [], fd) => closed fd
  | Some (Some got, fd) =>
      let d := dtoh (digest_of_bytes le (read_over junk got)) in
      let update := store le 4 UPDATE_OPER ++ digest_bytes le d ++ garbage in
      Ok (Received (if post_ok then 1 else 0) fd true (Some (Delayed (take DIGEST_LEN update))))
  end.

Definition recv_config_sync (mine : sync_config_t) (fd : rfd Z) (junk : list Z) : Res received :=
  match readn fd 8 with
  | None => Fail Undefined
  | Some (None, _) => Fail (Exit 2)
  | Some (Some [], _) => Fail (Exit 2)
  | Some (Some got, fd) =>
      let msg := sctoh (config_of_bytes (read_over junk got)) in
      if negb (sc_filter_size msg =? sc_filter_size mine) || negb (sc_num_bufs msg =? sc_num_bufs mine)
      then Fail (Exit 4)
      else Ok (Received 1 fd true None)
  end.

(** [instant_msg(ctx->update_q, &update, 0)] asks [Malloc] for nothing. *)
Definition recv_sync_msg (fd : rfd Z) (junk garbage : list Z) (post_ok : bool) : Res received :=
  match readn fd 8 with
  | None => Fail Undefined
  | Some (None, fd) => closed fd
  | Some (Some [], fd) => closed fd
  | Some (Some got, fd) =>
      let msg := read_over (store le 4 (u32 (-1)) ++ store le 4 0) got in
      let type := ntohl le (word_at le msg 0) in
      if type =? STARTUP_SYNC then recv_startup_sync fd garbage post_ok
      else if type =? OPER_SYNC then recv_oper_sync fd junk garbage post_ok
      else if type =? AGGREGATE_SYNC then Fail AssertFail
      else Ok (Received (-1) fd false None)
  end.

End Order.

(** ** The wire format does not depend on the machine *)

Lemma load_is_u32 le b : Forall is_byte b -> length b = 4%nat -> is_u32 (load le b).
Proof.
  intros Hb Hl. unfold is_u32. change 32 with (8 * Z.of_nat 4). rewrite <-Hl.
  destruct le; [by apply le_join_bound | by apply be_join_bound].
Qed.

Lemma store_htonl le w : store le 4 (htonl le w) = store false 4 w.
Proof. unfold htonl. apply store_load; [apply be_split_bytes | apply length_be_split]. Qed.

Lemma htonl_is_u32 le w : is_u32 (htonl le w).
Proof. apply load_is_u32; [apply be_split_bytes | apply length_be_split]. Qed.

Lemma u32_s32 w : is_u32 w -> u32 (s32 w) = w.
Proof.
  unfold is_u32, u32, s32. intros H. rewrite Zminus_mod_idemp_l, Z.add_simpl_r. by apply Z.mod_small.
Qed.

Lemma ntohl_load le b : Forall is_byte b -> length b = 4%nat -> ntohl le (load le b) = load false b.
Proof. intros Hb Hl. unfold ntohl. by rewrite store_load. Qed.

Lemma word_bytes b off : Forall is_byte b -> (off + 4 <= length b)%nat ->
  Forall is_byte (take 4 (drop off b)) /\ length (take 4 (drop off b)) = 4%nat.
Proof.
  intros Hb Hl. split; [by apply Forall_take, Forall_drop|]. rewrite length_take, length_drop. lia.
Qed.

Lemma ntohl_word le b off :
  Forall is_byte b -> (off + 4 <= length b)%nat -> ntohl le (word_at le b off) = word_at false b off.
Proof. intros Hb Hl. destruct (word_bytes b off Hb Hl). unfold word_at. by apply ntohl_load. Qed.

Lemma word_at_is_u32 le b off : Forall is_byte b -> (off + 4 <= length b)%nat -> is_u32 (word_at le b off).
Proof. intros Hb Hl. destruct (word_bytes b off Hb Hl). by apply load_is_u32. Qed.

Lemma bind_store le (ws : list Z) : (htonl le <$> ws) ≫= store le 4 = ws ≫= store false 4.
Proof. induction ws as [|w ws IH]; [done|]. cbn [fmap list_fmap mbind list_bind]. by rewrite store_htonl, IH. Qed.

Lemma startup_wire le ss : startup_bytes le (sston le ss) = startup_bytes false ss.
Proof.
  unfold startup_bytes, sston. cbn [ss_buffer ss_index ss_filter].
  by rewrite u32_s32, !store_htonl, bind_store by apply htonl_is_u32.
Qed.

Lemma digest_wire le d : digest_bytes le (dton le d) = digest_bytes false d.
Proof.
  unfold digest_bytes. rewrite <-(bind_store le (digest_words d)). done.
Qed.

Lemma config_wire le c : config_bytes le (scton le c) = config_bytes false c.
Proof. unfold config_bytes, scton. cbn. by rewrite !store_htonl. Qed.

Lemma startup_unwire le b :
  Forall is_byte b -> (136 <= length b)%nat -> sstoh le (startup_of_bytes le b) = startup_of_bytes false b.
Proof.
  intros Hb Hl. unfold sstoh, startup_of_bytes. cbn [ss_buffer ss_index ss_filter].
  rewrite u32_s32 by (apply word_at_is_u32; [done|lia]). rewrite !ntohl_word by (done || lia). f_equal.
  rewrite <-list_fmap_compose. apply list_fmap_ext. intros i x Hi. apply lookup_seq in Hi as [-> Hi].
  cbn [compose]. unfold FILTER_SIZE in Hi. apply ntohl_word; [done|]. lia.
Qed.

Lemma digest_unwire le b :
  Forall is_byte b -> (32 <= length b)%nat -> dtoh le (digest_of_bytes le b) = digest_of_bytes false b.
Proof.
  intros Hb Hl. unfold dtoh, dmap, digest_of_bytes. cbn [h0 h1 h2 h3 h4 h5 h6 h7].
  by rewrite !ntohl_word by (done || lia).
Qed.

Lemma words_bytes le (ws : list Z) : Forall is_byte (ws ≫= store le 4).
Proof. apply Forall_bind. apply Forall_true. intros. apply store_bytes. Qed.

Lemma startup_bytes_ok le ss :
  msg_ok (MAbsolute ss) -> Forall is_byte (startup_bytes le ss) /\ length (startup_bytes le ss) = 136%nat.
Proof.
  intros (_ & _ & Hl & _). unfold startup_bytes. split.
  - rewrite !Forall_app. split_and!; [apply store_bytes | apply store_bytes | apply words_bytes].
  - rewrite !length_app, !length_store, length_words, Hl. done.
Qed.

Lemma digest_bytes_ok le d : Forall is_byte (digest_bytes le d) /\ length (digest_bytes le d) = 32%nat.
Proof. split; [apply words_bytes|]. unfold digest_bytes. by rewrite length_words. Qed.

Lemma prologue_wire le ty len : prologue le ty (htonl le len) = prologue false ty (htonl false len).
Proof. unfold prologue. by rewrite !store_htonl. Qed.

Lemma length_prologue le ty len : length (prologue le ty len) = 8%nat.
Proof. unfold prologue. by rewrite length_app, !length_store. Qed.

Lemma prologue_type le ty len rest :
  is_u32 ty -> ntohl le (word_at le (prologue false ty len ++ rest) 0) = ty.
Proof.
  intros Ht. unfold prologue. rewrite store_htonl, <-!app_assoc.
  unfold word_at. rewrite drop_0, take_app_length' by (by rewrite length_store).
  rewrite ntohl_load by (apply store_bytes || apply length_store). by apply load_store32.
Qed.

(** Reading a whole struct leaves nothing of what it held. *)
Lemma read_over_all old got : (length old <= length got)%nat -> read_over old got = got.
Proof. intros. unfold read_over. by rewrite drop_ge, app_nil_r. Qed.

Lemma readn_exact {A} (fd : rfd A) (data rest : list A) n :
  fd_data fd = Some (data ++ rest) -> length data = n ->
  exists fd', readn fd n = Some (Some data, fd') /\ fd_data fd' = Some rest.
Proof.
  intros H <-. destruct (readn_spec fd (data ++ rest) (length data) H) as (fd' & Hd & E).
  exists fd'. rewrite take_app_length in E. rewrite drop_app_length in Hd. done.
Qed.

(** The prologue, then the body. *)
Lemma recv_prologue le fd ty len body junk garbage ok :
  is_u32 ty -> fd_data fd = Some (prologue false ty (htonl false len) ++ body) ->
  exists fd', fd_data fd' = Some body /\
    recv_sync_msg le fd junk garbage ok =
      (if ty =? STARTUP_SYNC then recv_startup_sync le fd' garbage ok
       else if ty =? OPER_SYNC then recv_oper_sync le fd' junk garbage ok
       else if ty =? AGGREGATE_SYNC then Fail AssertFail
       else Ok (Received (-1) fd' false None)).
Proof.
  intros Ht Hfd. destruct (readn_exact fd _ body 8 Hfd) as (fd' & E & Hd); [apply length_prologue|].
  exists fd'. split; [done|]. unfold recv_sync_msg. rewrite E.
  destruct (prologue false ty (htonl false len)) as [|x l] eqn:Ep.
  { pose proof (length_prologue false ty (htonl false len)) as Hl. rewrite Ep in Hl. done. }
  rewrite <-Ep. rewrite read_over_all by (rewrite length_prologue, length_app, !length_store; lia).
  rewrite <-(app_nil_r (prologue _ _ _)), prologue_type by done. done.
Qed.

Lemma recv_startup_body le fd ss rest garbage ok :
  msg_ok (MAbsolute ss) -> fd_data fd = Some (startup_bytes false ss ++ rest) ->
  exists fd', fd_data fd' = Some rest /\
    recv_startup_sync le fd garbage ok = Ok (Received (if ok then 1 else 0) fd' true
      (Some (Instant (take 136 (msg_bytes le (MAbsolute ss) garbage))))).
Proof.
  intros Hs Hfd. destruct (startup_bytes_ok false ss Hs) as [Hb Hl].
  destruct (readn_exact fd _ rest 136 Hfd Hl) as (fd' & E & Hd). exists fd'. split; [done|].
  unfold recv_startup_sync. change STARTUP_LEN with 136%nat. rewrite E.
  destruct (startup_bytes false ss) as [|x l] eqn:Ep; [done|]. rewrite <-Ep in *.
  rewrite read_over_all.
  2:{ rewrite Hl. unfold startup_bytes. rewrite !length_app, !length_store, length_words.
      cbn [ss_filter]. rewrite length_replicate. lia. }
  rewrite startup_unwire by (done || lia).
  rewrite <-(app_nil_r (startup_bytes false ss)), startup_of_bytes_ok by done. done.
Qed.

Lemma recv_oper_body le fd d rest junk garbage ok :
  digest_ok d -> (length junk <= 32)%nat -> fd_data fd = Some (digest_bytes false d ++ rest) ->
  exists fd', fd_data fd' = Some rest /\
    recv_oper_sync le fd junk garbage ok = Ok (Received (if ok then 1 else 0) fd' true
      (Some (Delayed (take 32 (msg_bytes le (MUpdateOper d) garbage))))).
Proof.
  intros Hd Hj Hfd. destruct (digest_bytes_ok false d) as [Hb Hl].
  destruct (readn_exact fd _ rest 32 Hfd Hl) as (fd' & E & Hd'). exists fd'. split; [done|].
  unfold recv_oper_sync. change DIGEST_LEN with 32%nat. rewrite E.
  destruct (digest_bytes false d) as [|x l] eqn:Ep; [done|]. rewrite <-Ep in *.
  rewrite read_over_all by lia. rewrite digest_unwire by (done || lia).
  rewrite <-(app_nil_r (digest_bytes false d)), digest_of_bytes_ok by done. done.
Qed.

Lemma recv_oper_msg le1 le2 fd d rest junk garbage ok :
  digest_ok d -> (length junk <= 32)%nat -> fd_data fd = Some (send_oper_sync le1 d ++ rest) ->
  exists fd', fd_data fd' = Some rest /\
    recv_sync_msg le2 fd junk garbage ok = Ok (Received (if ok then 1 else 0) fd' true
      (Some (Delayed (take 32 (msg_bytes le2 (MUpdateOper d) garbage))))).
Proof.
  intros Hm Hj Hfd. unfold send_oper_sync in Hfd. rewrite prologue_wire, digest_wire, <-app_assoc in Hfd.
  apply (recv_prologue le2 _ _ _ _ junk garbage ok) in Hfd as (fd1 & Hd1 & ->); [|unfold is_u32, OPER_SYNC; lia].
  by apply (recv_oper_body le2 fd1 d rest junk garbage ok).
Qed.

(** ** What [send_filters] sends *)

Section SendFilters.
Context (nb : Z) (Hnb : 5 <= nb <= 30).

Definition zeros (n : nat) : list Z := replicate n 0.

(** The [k]th chunk of a member. *)
Definition chunk_msg (i size : Z) (W : list Z) (k : nat) : startup_sync_t :=
  StartupSync i (Z.of_nat k)
    (take (Z.to_nat size) (drop (Z.to_nat size * k) W) ++ zeros (32 - Z.to_nat size)).

Lemma send_part i size index q : forall p rest,
  0 < size <= 32 -> (index * FILTER_SIZE) mod size = 0 -> (0 < length q)%nat ->
  Z.of_nat (length p + length q) = size ->
  send_words i size (q ++ rest) (index * FILTER_SIZE + Z.of_nat (length p)) index (p ++ zeros (32 - length p)) =
  (r ← send_words i size rest (index * FILTER_SIZE + size) (index + 1) (zeros 32);
   Ok (StartupSync i index ((p ++ q) ++ zeros (32 - Z.to_nat size)) :: r)).
Proof.
  induction q as [|w q IH]; intros p rest Hs Hm Hq Hl; cbn [length] in *; [lia|]. cbn [app send_words].
  replace (index * FILTER_SIZE + Z.of_nat (length p) - index * FILTER_SIZE) with (Z.of_nat (length p)) by lia.
  destruct (32 - length p)%nat as [|z] eqn:Ez; [lia|]. change (zeros (S z)) with (0 :: zeros z).
  rewrite (aset_lt (p ++ 0 :: zeros z)) by (rewrite length_app; cbn; lia). cbn [rbind]. rewrite Nat2Z.id.
  replace (<[length p := w]> (p ++ 0 :: zeros z)) with (p ++ w :: zeros z); last first.
  { replace (length p) with (length p + 0)%nat by lia. by rewrite insert_app_r. }
  rewrite Z.add_mod, Hm, Z.add_0_l, Z.mod_mod by lia.
  rewrite (Z.mod_small (Z.of_nat (length p))) by lia.
  destruct q as [|w2 q].
  - cbn [length] in Hl. rewrite (proj2 (Z.eqb_eq _ _)) by lia. cbn [app].
    replace (index * FILTER_SIZE + Z.of_nat (length p) + 1) with (index * FILTER_SIZE + size) by lia.
    replace z with (32 - Z.to_nat size)%nat by lia. change (Z.to_nat FILTER_SIZE) with 32%nat.
    by rewrite <-app_assoc.
  - cbn [length] in Hl. rewrite (proj2 (Z.eqb_neq _ _)) by lia.
    specialize (IH (p ++ [w]) rest). rewrite length_app in IH. cbn [length] in IH.
    rewrite <-(app_assoc p [w] (zeros _)), <-(app_assoc p [w] (w2 :: q)) in IH. cbn [app] in IH |- *.
    replace (32 - (length p + 1))%nat with z in IH by lia.
    replace (index * FILTER_SIZE + Z.of_nat (length p) + 1) with (index * FILTER_SIZE + Z.of_nat (length p + 1)) by lia.
    by rewrite IH by (done || lia).
Qed.

(** The words of a member go out in whole chunks: 32 words each, or one chunk
    for a filter that is smaller. *)
Lemma send_words_spec i size W n :
  0 < size <= 32 -> size = 32 \/ n = 1%nat -> length W = (Z.to_nat size * n)%nat ->
  forall k m, (k + m = n)%nat ->
  send_words i size (drop (Z.to_nat size * k) W) (Z.of_nat k * FILTER_SIZE) (Z.of_nat k) (zeros 32) =
  Ok (chunk_msg i size W <$> seq k m).
Proof.
  intros Hs Hc HW k m. revert k. induction m as [|m IH]; intros k Hk.
  - rewrite drop_ge by (rewrite HW; nia). done.
  - set (c := take (Z.to_nat size) (drop (Z.to_nat size * k) W)).
    assert (length c = Z.to_nat size) as Hlc
      by (unfold c; rewrite length_take, length_drop, HW; nia).
    rewrite <-(take_drop (Z.to_nat size) (drop (Z.to_nat size * k) W)). fold c. rewrite drop_drop.
    replace (Z.to_nat size * k + Z.to_nat size)%nat with (Z.to_nat size * S k)%nat by lia.
    pose proof (send_part i size (Z.of_nat k) c [] (drop (Z.to_nat size * S k) W)) as Hp.
    cbn [length app] in Hp. rewrite Z.add_0_r in Hp. change (32 - 0)%nat with 32%nat in Hp.
    rewrite Hp; [|done| |lia|lia].
    2:{ destruct Hc as [->|Hc]; [apply Z.mod_mul; lia|]. assert (k = 0%nat) as -> by lia. done. }
    destruct m as [|m].
    + rewrite drop_ge by (rewrite HW; nia). done.
    + destruct Hc as [->|]; [|lia].
      replace (Z.of_nat k * FILTER_SIZE + 32) with (Z.of_nat (S k) * FILTER_SIZE) by (unfold FILTER_SIZE; lia).
      replace (Z.of_nat k + 1) with (Z.of_nat (S k)) by lia. rewrite IH by lia. done.
Qed.

Definition chunk_size : Z := Z.min FILTER_SIZE (2 ^ (nb - 5)).
Definition chunk_count : nat := Z.to_nat (2 ^ (nb - 5) / chunk_size).

Lemma chunk_facts :
  0 < chunk_size <= 32 /\ (chunk_size = 32 \/ chunk_count = 1%nat) /\
  Z.to_nat (2 ^ (nb - 5)) = (Z.to_nat chunk_size * chunk_count)%nat.
Proof.
  unfold chunk_count, chunk_size, FILTER_SIZE. assert (0 < 2 ^ (nb - 5)) by lia.
  destruct (Z.le_gt_cases 10 nb) as [H10|H10].
  - replace (nb - 5) with (5 + (nb - 10)) by lia. rewrite Z.pow_add_r by lia. change (2 ^ 5) with 32.
    assert (0 < 2 ^ (nb - 10)) by lia. rewrite Z.min_l by lia.
    rewrite Z.mul_comm, Z.div_mul by lia. split; [lia|]. split; [by left|]. nia.
  - assert (2 ^ (nb - 5) <= 2 ^ 4) by (apply Z.pow_le_mono_r; lia). change (2 ^ 4) with 16 in *.
    rewrite Z.min_r by lia. rewrite Z.div_same by lia. split; [lia|]. split; [by right|]. lia.
Qed.

Definition member_msgs (i : nat) (f : bloom_filter_t) : list startup_sync_t :=
  chunk_msg (Z.of_nat i) chunk_size (bf_filter f) <$> seq 0 chunk_count.

Lemma filter_msgs_spec q a :
  rep_ring nb q a -> filter_msgs q = Ok (concat (imap member_msgs (filter_group (brq_group q)))).
Proof.
  intros [((Hg & Hfs) & _ & _ & Hcur & _) _]. unfold filter_msgs.
  assert (length (filter_group (brq_group q)) = length (slots a)) as Hlen by (by eapply Forall2_length).
  assert (forall i f, filter_group (brq_group q) !! i = Some f -> wf_filter nb f) as Hwf.
  { intros i f Hf. destruct (Forall2_lookup_l _ _ _ _ _ Hfs Hf) as (s & _ & [Hw _]). done. }
  destruct (aget_lt (filter_group (brq_group q)) 0) as (f0 & Hf0 & ->); [lia|]. cbn [rbind].
  pose proof (Hwf _ _ Hf0) as (_ & _ & Hs0 & _). rewrite Hs0. fold chunk_size. rewrite Hg, Nat2Z.id, <-Hlen.
  set (gs := filter_group (brq_group q)) in *.
  destruct (for_loop_inv (fun i acc => acc = concat (imap member_msgs (take i gs))) (length gs)
    (fun i acc => f ← aget gs (Z.of_nat i);
       l ← send_words (Z.of_nat i) chunk_size (take (Z.to_nat (bf_size f)) (bf_filter f)) 0 0
             (replicate (Z.to_nat FILTER_SIZE) 0); Ok (acc ++ l)) []) as (r & E & Er).
  - done.
  - intros i acc Hi ->. destruct (lookup_lt_is_Some_2 gs i Hi) as [f Hf].
    rewrite (aget_Ok gs (Z.of_nat i) f) by (lia || by rewrite Nat2Z.id). cbn [rbind].
    pose proof (Hwf _ _ Hf) as (_ & _ & Hsz & Hlf & _).
    rewrite take_ge by lia. destruct chunk_facts as (Hc1 & Hc2 & Hc3).
    pose proof (send_words_spec (Z.of_nat i) chunk_size (bf_filter f) chunk_count Hc1 Hc2) as Hsend.
    specialize (Hsend ltac:(lia) 0%nat chunk_count ltac:(lia)).
    rewrite Nat.mul_0_r, drop_0 in Hsend. change (Z.of_nat 0 * FILTER_SIZE) with 0 in Hsend.
    change (Z.of_nat 0) with 0 in Hsend. change (replicate (Z.to_nat FILTER_SIZE) 0) with (zeros 32). rewrite Hsend.
    eexists. split; [reflexivity|]. rewrite (take_S_r gs i f Hf), imap_app, concat_app. cbn.
    rewrite app_nil_r, Nat.add_0_r, length_take, Nat.min_l by lia. done.
  - rewrite E, Er, firstn_all. done.
Qed.

(** The operation a startup message comes to at the receiver. *)
Definition absolute_op (ss : startup_sync_t) : ring_op :=
  OpAbsolute (ss_filter ss) FILTER_SIZE (ss_index ss) (Z.to_nat (ss_buffer ss)).

Lemma absolute_run_slots msgs a k s x :
  slots a !! k = Some s ->
  exists s', slots (a_run nb a (absolute_op <$> msgs)) !! k = Some s' /\
    (x ∈ s' <-> x ∈ s \/ exists ss, ss ∈ msgs /\ Z.to_nat (ss_buffer ss) = k /\
       x ∈ chunk_bits nb (ss_filter ss) chunk_size (ss_index ss)).
Proof.
  revert a s. induction msgs as [|ss msgs IH]; intros a s Hs; cbn [fmap list_fmap a_run foldl].
  - exists s. split; [done|]. split; [by left|]. intros [?|(ss & Hin & _)]; [done|]. by apply not_elem_of_nil in Hin.
  - change (a_step nb a (absolute_op ss)) with
      (a_absolute nb (ss_filter ss) FILTER_SIZE (ss_index ss) (Z.to_nat (ss_buffer ss)) a).
    unfold a_absolute. fold chunk_size.
    destruct (decide (Z.to_nat (ss_buffer ss) = k)) as [Ek|Ek].
    + rewrite Ek, Hs. cbn [default].
      destruct (IH (ARing (<[k := chunk_bits nb (ss_filter ss) chunk_size (ss_index ss) ∪ s]> (slots a)) (agg a) (cur a))
        (chunk_bits nb (ss_filter ss) chunk_size (ss_index ss) ∪ s)) as (s' & Hs' & Hx).
      { cbn. apply list_lookup_insert_eq. by eapply lookup_lt_Some. }
      exists s'. split; [done|]. rewrite Hx, elem_of_union. split.
      * intros [[Hc|?]|(s2 & Hin & H2)]; [right; exists ss; split; [left|done] | by left |].
        right. exists s2. split; [by right|done].
      * intros [?|(s2 & Hin & Hk2 & H2)]; [by left; right|].
        apply elem_of_cons in Hin as [->|Hin]; [by left; left|]. right. by exists s2.
    + match goal with |- context [foldl _ ?r _] => destruct (IH r s) as (s' & Hs' & Hx) end.
      { cbn. by rewrite list_lookup_insert_ne. }
      exists s'. split; [done|]. rewrite Hx. split.
      * intros [?|(s2 & Hin & H2)]; [by left|]. right. exists s2. split; [by right|done].
      * intros [?|(s2 & Hin & Hk2 & H2)]; [by left|].
        apply elem_of_cons in Hin as [->|Hin]; [congruence|]. right. by exists s2.
Qed.

(** The chunks of a member carry its bits. *)
Lemma member_bits i f x :
  wf_filter nb f -> 0 <= x < 2 ^ nb ->
  (exists ss, ss ∈ member_msgs i f /\ x ∈ chunk_bits nb (ss_filter ss) chunk_size (ss_index ss)) <->
  array_bit (bf_filter f) x = true.
Proof.
  intros (_ & _ & Hsz & Hl & _) Hx. destruct chunk_facts as (Hc1 & Hc2 & Hc3).
  assert (0 <= x / 32 < 2 ^ (nb - 5)) as Hd.
  { rewrite (pow_split nb) in Hx by lia. split; [apply Z.div_pos; lia | apply Z.div_lt_upper_bound; lia]. }
  assert (forall k, (k < chunk_count)%nat -> Z.of_nat k * chunk_size <= x / 32 < (Z.of_nat k + 1) * chunk_size ->
    ss_filter (chunk_msg (Z.of_nat i) chunk_size (bf_filter f) k) !!! Z.to_nat (x / 32 - Z.of_nat k * chunk_size) =
    bf_filter f !!! Z.to_nat (x / 32)) as Hword.
  { intros k Hk Hr. cbn. set (o := Z.to_nat (x / 32 - Z.of_nat k * chunk_size)).
    assert (o < Z.to_nat chunk_size)%nat as Ho by lia.
    assert (length (take (Z.to_nat chunk_size) (drop (Z.to_nat chunk_size * k) (bf_filter f))) = Z.to_nat chunk_size) as Ht
      by (rewrite length_take, length_drop; nia).
    rewrite lookup_total_app_l by lia. rewrite !list_lookup_total_alt, lookup_take_lt, lookup_drop by lia.
    do 2 f_equal. nia. }
  unfold array_bit. split.
  - intros (ss & Hin & Hb). apply list_elem_of_fmap in Hin as (k & -> & Hk). apply elem_of_seq in Hk.
    unfold chunk_bits in Hb. apply elem_of_list_to_set, list_elem_of_filter in Hb as [[Hr Hb] _].
    cbn [ss_index chunk_msg] in Hr, Hb. rewrite div32_range in Hr. rewrite <-(Hword k) by lia. done.
  - intros Hb. set (k := Z.to_nat (x / 32 / chunk_size)).
    assert (Z.of_nat k * chunk_size <= x / 32 < (Z.of_nat k + 1) * chunk_size) as Hr.
    { unfold k. rewrite Z2Nat.id by (apply Z.div_pos; lia).
      pose proof (Z.div_mod (x / 32) chunk_size ltac:(lia)).
      pose proof (Z.mod_pos_bound (x / 32) chunk_size ltac:(lia)). nia. }
    assert (k < chunk_count)%nat as Hk by nia.
    exists (chunk_msg (Z.of_nat i) chunk_size (bf_filter f) k). split.
    + apply list_elem_of_fmap. exists k. split; [done|]. apply elem_of_seq. lia.
    + unfold chunk_bits. apply elem_of_list_to_set, list_elem_of_filter. cbn [ss_index chunk_msg].
      split; [|apply elem_of_seqZ; lia]. rewrite div32_range. split; [done|].
      change (_ ++ _) with (ss_filter (chunk_msg (Z.of_nat i) chunk_size (bf_filter f) k)).
      by rewrite Hword.
Qed.

Lemma elem_of_filter_msgs gs ss :
  ss ∈ concat (imap member_msgs gs) <-> exists i f, gs !! i = Some f /\ ss ∈ member_msgs i f.
Proof.
  rewrite list_elem_of_In, in_concat. setoid_rewrite <-list_elem_of_In. split.
  - intros (l & Hl & Hss). apply elem_of_lookup_imap_1 in Hl as (i & f & -> & Hf). eauto.
  - intros (i & f & Hf & Hss). exists (member_msgs i f). split; [|done].
    by apply elem_of_lookup_imap_2.
Qed.

Lemma member_msg_ok i f ss n :
  wf_filter nb f -> (i < n)%nat -> Z.of_nat n < 2 ^ 31 -> ss ∈ member_msgs i f ->
  ss_buffer ss = Z.of_nat i /\ msg_ok (MAbsolute ss) /\ valid_op nb n (absolute_op ss).
Proof.
  intros (_ & _ & Hsz & Hl & Hu) Hi Hn Hin. apply list_elem_of_fmap in Hin as (k & -> & Hk). apply elem_of_seq in Hk.
  destruct chunk_facts as (Hc1 & Hc2 & Hc3). assert (2 ^ (nb - 5) <= 2 ^ 25) by (apply Z.pow_le_mono_r; lia).
  assert (Z.of_nat chunk_count * chunk_size = 2 ^ (nb - 5)) as Hcc by lia.
  assert (length (take (Z.to_nat chunk_size) (drop (Z.to_nat chunk_size * k) (bf_filter f))) = Z.to_nat chunk_size) as Ht
    by (rewrite length_take, length_drop; nia).
  assert (Forall is_u32 (ss_filter (chunk_msg (Z.of_nat i) chunk_size (bf_filter f) k))) as Hf.
  { cbn. apply Forall_app. split; [by apply Forall_take, Forall_drop|]. apply Forall_replicate. unfold is_u32. lia. }
  assert (length (ss_filter (chunk_msg (Z.of_nat i) chunk_size (bf_filter f) k)) = 32%nat) as Hlen.
  { cbn. rewrite length_app, Ht. unfold zeros. rewrite length_replicate. lia. }
  split; [done|]. split; [cbn; split_and!; try lia; done|].
  unfold absolute_op. split; [cbn; lia|]. fold chunk_size. split; [lia|]. split; [rewrite Hlen; lia|].
  cbn [chunk_msg ss_index]. split; [lia|]. split; [nia|done].
Qed.

(** All messages of a ring: which they are, that they fit the protocol, and
    that they are in order for a ring of the same shape. *)
Lemma ring_msgs q a :
  rep_ring nb q a -> Z.of_nat (length (slots a)) < 2 ^ 31 ->
  exists msgs, filter_msgs q = Ok msgs /\
    (forall ss, ss ∈ msgs <-> exists i f, filter_group (brq_group q) !! i = Some f /\ ss ∈ member_msgs i f) /\
    (forall ss, ss ∈ msgs -> msg_ok (MAbsolute ss) /\ valid_op nb (length (slots a)) (absolute_op ss)) /\
    (forall i f ss, filter_group (brq_group q) !! i = Some f -> ss ∈ member_msgs i f -> ss_buffer ss = Z.of_nat i).
Proof.
  intros Hr Hn. pose proof Hr as [((Hg & Hfs) & _) _].
  exists (concat (imap member_msgs (filter_group (brq_group q)))). split; [by eapply filter_msgs_spec|].
  split; [apply elem_of_filter_msgs|].
  assert (forall i f ss, filter_group (brq_group q) !! i = Some f -> ss ∈ member_msgs i f ->
    ss_buffer ss = Z.of_nat i /\ msg_ok (MAbsolute ss) /\ valid_op nb (length (slots a)) (absolute_op ss)) as Hmsg.
  { intros i f ss Hf Hin. destruct (Forall2_lookup_l _ _ _ _ _ Hfs Hf) as (s & Hs & [Hw _]).
    apply (member_msg_ok i f ss); try done. by eapply lookup_lt_Some. }
  split.
  - intros ss Hss. apply elem_of_filter_msgs in Hss as (i & f & Hf & Hin). by apply (Hmsg i f).
  - intros i f ss Hf Hin. by apply (Hmsg i f).
Qed.

End SendFilters.

(** A message cut behind the seventh word: the eighth is the one the buffer had. *)
Lemma cut_update_step le cfg t st d garbage :
  digest_ok d -> (36 <= length (message st))%nat -> Forall is_byte (message st) ->
  bloommgr_step le cfg (take 32 (msg_bytes le (MUpdateOper d) garbage)) t st =
  mgr_do cfg (MUpdateOper (Sha256 (h0 d) (h1 d) (h2 d) (h3 d) (h4 d) (h5 d) (h6 d) (word_at le (message st) 32))) t
    (Mgr (mgr_filter st) (last_rotate st) (receive (message st) (take 32 (msg_bytes le (MUpdateOper d) garbage)))
      (sync_guard st)).
Proof.
  intros Hd Hl Hb. set (stale := word_at le (message st) 32).
  set (d' := Sha256 (h0 d) (h1 d) (h2 d) (h3 d) (h4 d) (h5 d) (h6 d) stale).
  assert (is_u32 stale) as Hstale by (apply word_at_is_u32; [done|lia]).
  assert (digest_ok d') as Hd'.
  { unfold digest_ok, digest_words in *. cbn in *. rewrite !Forall_cons in *. naive_solver. }
  set (msg := take 32 (msg_bytes le (MUpdateOper d) garbage)).
  set (pre := store le 4 UPDATE_OPER ++ ([h0 d; h1 d; h2 d; h3 d; h4 d; h5 d; h6 d] ≫= store le 4)).
  assert (length pre = 32%nat) as Hpre by (unfold pre; by rewrite length_app, length_store, length_words).
  assert (msg = pre) as Emsg.
  { unfold msg. replace (msg_bytes le (MUpdateOper d) garbage) with (pre ++ store le 4 (h7 d) ++ garbage).
    - apply take_app_length'. by rewrite Hpre.
    - unfold pre, msg_bytes. cbn [mtype_of mtext_of]. unfold digest_bytes, digest_words. cbn [mbind list_bind].
      by rewrite <-!app_assoc. }
  assert (receive (message st) msg = pre ++ store le 4 stale ++ drop 36 (message st)) as Er.
  { unfold receive, memcpy_at, MSGSZ. rewrite Emsg, take_0, (take_ge pre) by lia. cbn [app]. f_equal. rewrite Hpre.
    rewrite <-(take_drop 4 (drop 32 (message st))) at 1. rewrite drop_drop. f_equal.
    unfold stale, word_at. symmetry. destruct (word_bytes (message st) 32 Hb ltac:(lia)). by apply store_load. }
  apply (bloommgr_step_decoded le cfg (MUpdateOper d') msg (drop 36 (message st))); [exact Hd'|].
  rewrite Er. unfold pre. cbn [mtype_of mtext_of]. unfold digest_bytes, digest_words.
  cbn [mbind list_bind d' h0 h1 h2 h3 h4 h5 h6 h7]. by rewrite <-!app_assoc.
Qed.

(** ** Properties *)

(** Peers of different byte orders understand each other: what one sends
    as a startup or update message the other reads, from the stream however it
    is cut up, as the same message, and stops reading exactly behind it; what
    it posts to its manager is the beginning of that message. *)
Theorem sync_wire_roundtrip le1 le2 fd m rest junk garbage ok :
  msg_ok m -> (length junk <= 32)%nat ->
  match m with
  | MAbsolute ss => fd_data fd = Some (send_startup_sync le1 ss ++ rest) ->
      exists fd', fd_data fd' = Some rest /\
        recv_sync_msg le2 fd junk garbage ok = Ok (Received (if ok then 1 else 0) fd' true
          (Some (Instant (take 136 (msg_bytes le2 m garbage)))))
  | MUpdateOper d => fd_data fd = Some (send_oper_sync le1 d ++ rest) ->
      exists fd', fd_data fd' = Some rest /\
        recv_sync_msg le2 fd junk garbage ok = Ok (Received (if ok then 1 else 0) fd' true
          (Some (Delayed (take 32 (msg_bytes le2 m garbage)))))
  | _ => True
  end.
Proof.
  intros Hm Hj. destruct m as [d|d|ss| |]; [done| | |done|done]; intros Hfd.
  - by apply (recv_oper_msg le1).
  - unfold send_startup_sync in Hfd. rewrite prologue_wire, startup_wire, <-app_assoc in Hfd.
    apply (recv_prologue le2 _ _ _ _ junk garbage ok) in Hfd as (fd1 & Hd1 & ->); [|unfold is_u32, STARTUP_SYNC; lia].
    by apply (recv_startup_body le2 fd1 ss rest garbage ok).
Qed.

Lemma sync_wire_roundtrip_witness :
  exists fd', fd_data fd' = Some [7; 7] /\
    recv_sync_msg false [Chunk (take 11 (send_oper_sync true DEFAULT_SHA256)); Intr;
        Chunk (drop 11 (send_oper_sync true DEFAULT_SHA256) ++ [7; 7])] [] [] true =
      Ok (Received 1 fd' true (Some (Delayed (take 32 (msg_bytes false (MUpdateOper DEFAULT_SHA256) []))))).
Proof.
  apply (sync_wire_roundtrip true false
    [Chunk (take 11 (send_oper_sync true DEFAULT_SHA256)); Intr;
     Chunk (drop 11 (send_oper_sync true DEFAULT_SHA256) ++ [7; 7])] (MUpdateOper DEFAULT_SHA256) [7; 7] [] [] true).
  - repeat constructor; unfold is_u32; cbn; lia.
  - cbn. lia.
  - vm_compute. reflexivity.
Defined.

(** The last word of a digest from the peer is lost: the message posted by
    [recv_oper_sync] is as long as the digest alone, so the manager takes the
    eighth word of the digest it inserts from whatever message was in its
    buffer before. *)
Theorem oper_sync_stale_word le1 le2 fd d rest junk garbage cfg t st :
  digest_ok d -> (length junk <= 32)%nat -> fd_data fd = Some (send_oper_sync le1 d ++ rest) ->
  (36 <= length (message st))%nat -> Forall is_byte (message st) ->
  exists fd' m, recv_sync_msg le2 fd junk garbage true = Ok (Received 1 fd' true (Some (Delayed m))) /\
    bloommgr_step le2 cfg m t st =
      mgr_do cfg (MUpdateOper (Sha256 (h0 d) (h1 d) (h2 d) (h3 d) (h4 d) (h5 d) (h6 d) (word_at le2 (message st) 32))) t
        (Mgr (mgr_filter st) (last_rotate st) (receive (message st) m) (sync_guard st)).
Proof.
  intros Hd Hj Hfd Hl Hb. destruct (recv_oper_msg le1 le2 fd d rest junk garbage true Hd Hj Hfd) as (fd' & _ & E).
  eexists fd', _. split; [exact E|]. by apply cut_update_step.
Qed.

Lemma oper_sync_stale_word_witness :
  let st := Mgr (RingQueue (FilterGroup [] 0) (BloomFilter [] 0 0 0) 0) 0 (replicate 1028 9) 0 in
  exists fd' m, recv_sync_msg true [Chunk (send_oper_sync false DEFAULT_SHA256)] [] [] true =
      Ok (Received 1 fd' true (Some (Delayed m))) /\
    bloommgr_step true example_cfg m example_clocks st =
      mgr_do example_cfg (MUpdateOper (Sha256 0x6a09e667 0xbb67ae85 0x3c6ef372 0xa54ff53a 0x510e527f 0x9b05688c 0x1f83d9ab
        (word_at true (message st) 32))) example_clocks (Mgr (mgr_filter st) 0 (receive (message st) m) 0).
Proof.
  intros st. apply (oper_sync_stale_word false true _ DEFAULT_SHA256 [] [] [] example_cfg example_clocks st).
  - repeat constructor; unfold is_u32; cbn; lia.
  - cbn. lia.
  - vm_compute. reflexivity.
  - cbn [message st]. rewrite length_replicate. lia.
  - apply Forall_replicate. unfold is_byte. lia.
Defined.

(** The end of a startup synchronisation stops the receiver: the message
    [force_peer_aggregate] sends makes it post an empty message, which
    [Malloc] refuses with an assertion. *)
Theorem aggregate_sync_fails_assertion le1 le2 fd rest junk garbage ok :
  fd_data fd = Some (force_peer_aggregate le1 ++ rest) ->
  recv_sync_msg le2 fd junk garbage ok = Fail AssertFail.
Proof.
  intros Hfd. assert (force_peer_aggregate le1 = prologue false AGGREGATE_SYNC (htonl false 0)) as Ef.
  { unfold force_peer_aggregate, prologue. rewrite !store_htonl. f_equal. by destruct le1. }
  rewrite Ef in Hfd.
  apply (recv_prologue le2 _ _ _ _ junk garbage ok) in Hfd as (fd1 & _ & ->); [done|].
  unfold is_u32, AGGREGATE_SYNC. lia.
Qed.

Lemma aggregate_sync_fails_assertion_witness :
  recv_sync_msg true [Chunk (force_peer_aggregate true)] [] [] true = Fail AssertFail.
Proof. apply (aggregate_sync_fails_assertion true true _ []). vm_compute. reflexivity. Defined.
