(* ===== verification/Sync.v ===== *)
(** * The peers' connections ([synchronize] and [recv_syncs] of [src/src/syncmgr.c])

    The thread that connects to the peer at start-up and then serves the
    connections that come in.  What [accept] gives in each turn is an input, as
    are the ring and the queue at that time; what the thread does to the outside
    is its trace. *)

From S2P Require Import Prelude Sha256 Bloom Utils AddrUtils BloomMgr SyncMgr.

(** [Malloc]: [available] is whether [malloc] gives memory. *)
Definition Malloc (available : bool) (size : Z) : Res unit :=
  _ ← c_assert (negb (size =? 0)); if available then Ok tt else Fail (Exit 2).

(** ** What the thread does *)

Inductive sync_act :=
| Sent (fd : Z) (bytes : list Z)
| Posted (p : posted)
| CloseFd (fd : Z)
| GuardWait
| GuardPost
| Freeze
| Thaw
| StartSyncer.

(** The fields of [peer_t] that change, and the local [receive]. *)
Record sync_st := SyncSt { peerfd_in : Z; peerfd_out : Z; connected : Z; received_from : list Z }.

(** A connection: its descriptor, the address at its other end, and what
    reading and writing will do. *)
Record conn := Conn { cn_fd : Z; cn_from : list Z; cn_in : rfd Z; cn_out : wfd }.

Inductive accepted := AConn (c : conn) | AError (eintr : bool).

(** One turn of the loop: what [accept] gives, the ring at that time, the
    messages [walk_queue] shows its callback, what is left on descriptor 0 and
    what the stack holds. *)
Record turn := Turn {
  t_accept : accepted;
  t_ring : bloom_ring_queue_t;
  t_queued : list (list Z);
  t_stdin : rfd Z;
  t_stack : list Z * list Z }.

Section Peer.
Context (le : bool) (mine : sync_config_t) (peer_ip : list Z).
Local Open Scope tr_scope.

(** ** Sending *)

(** [None]: not a descriptor. *)
Definition send_update_to_peer (fd : Z) (w : option wfd) (bytes : list Z) : traced sync_act (bool * option wfd) :=
  match w with
  | None => ([Sent fd []], Ok (false, None))
  | Some w =>
      match writen w bytes with
      | Some (ok, out, w) => ([Sent fd out], Ok (ok, Some w))
      | None => tr_lift (Fail Undefined)
      end
  end.

(** The messages of [send_filters]: a failure is logged, and the next is tried. *)
Fixpoint send_each (fd : Z) (w : option wfd) (msgs : list (list Z)) : traced sync_act (option wfd) :=
  match msgs with
  | [] => tr_ret w
  | m :: msgs => let~ r := send_update_to_peer fd w m in send_each fd r.2 msgs
  end.

(** [walk_queue] stops when the callback fails. *)
Fixpoint walk_sends (fd : Z) (w : option wfd) (queued : list (list Z)) : traced sync_act (option wfd) :=
  match queued with
  | [] => tr_ret w
  | m :: queued =>
      match send_update_msg_as_oper_sync le m with
      | [] => walk_sends fd w queued
      | bytes =>
          let~ r := send_update_to_peer fd w bytes in
          if r.1 then walk_sends fd r.2 queued else tr_ret r.2
      end
  end.

(** ** Receiving *)

(** [recv_sync_msg] until it returns 0.  After a message of unknown type
    [peer->connected] is 0, so the next one is read from descriptor 0. *)
Fixpoint recv_loop (fuel : nat) (fd_out : Z) (on_stdin : bool) (fd stdin : rfd Z) (stack : list Z * list Z)
    : traced sync_act (option bool) :=
  match fuel with
  | O => tr_ret None
  | S fuel =>
      let~ r := tr_lift (recv_sync_msg le fd stack.1 stack.2 true) in
      tr_acts (match rv_posted r with Some p => [Posted p] | None => [] end) ~>
      if rv_ret r =? 0 then tr_ret (Some on_stdin)
      else if rv_connected r then recv_loop fuel fd_out on_stdin (rv_fd r) stdin stack
      else
        tr_acts [GuardWait; CloseFd fd_out; GuardPost] ~>
        recv_loop fuel fd_out true (if on_stdin then rv_fd r else stdin) stdin stack
  end.

Definition recv_fuel (fd stdin : rfd Z) : nat := S (fd_size fd + fd_size stdin).

(** The thread [start_syncer] starts. *)
Definition recv_syncs (fd_out : Z) (fd stdin : rfd Z) (stack : list Z * list Z) : traced sync_act (option bool) :=
  let~ r := tr_lift (recv_config_sync le mine fd stack.1) in
  recv_loop (recv_fuel (rv_fd r) stdin) fd_out false (rv_fd r) stdin stack.

(** ** A session *)

Definition serve_peer (t : turn) (fd fd_out : Z) (inp : rfd Z) (w : option wfd) : traced sync_act unit :=
  let~ r := send_update_to_peer fd w (send_sync_config le mine) in
  tr_acts [GuardWait; Freeze] ~>
  let~ msgs := tr_lift (filter_msgs (t_ring t)) in
  let~ w := send_each fd r.2 ((send_startup_sync le <$> msgs) ++ [force_peer_aggregate le]) in
  let~ w := walk_sends fd w (t_queued t) in
  tr_acts [Thaw; GuardPost] ~>
  let~ e := recv_loop (recv_fuel inp (t_stdin t)) fd_out false inp (t_stdin t) (t_stack t) in
  match e with Some _ => tr_ret tt | None => tr_lift (Fail Undefined) end.

(** What [connected] is after a session: the end of the stream and an error
    clear it. *)
Definition after_session (st : sync_st) : sync_st :=
  SyncSt (peerfd_in st) (peerfd_out st) 0 (received_from st).

(** One turn of [while (TRUE)]; the value is whether [synchronize] returned.  A
    failed [accept] leaves [receive] as it was. *)
Definition sync_turn (t : turn) (st : sync_st) : traced sync_act (bool * sync_st) :=
  let '(fd, from, inp, w) :=
    match t_accept t with
    | AConn c => (cn_fd c, cn_from c, cn_in c, Some (cn_out c))
    | AError _ => (-1, received_from st, [IoErr], None)
    end in
  if negb (bool_decide (peer_ip = from)) then
    tr_act (CloseFd fd) ~> tr_ret (false, SyncSt fd (peerfd_out st) (connected st) from)
  else
    let st := SyncSt fd (peerfd_out st) fd from in
    if match t_accept t with AError eintr => negb eintr | AConn _ => false end then tr_ret (true, st)
    else serve_peer t fd (peerfd_out st) inp w ~> tr_ret (false, after_session st).

Fixpoint sync_turns (ts : list turn) (st : sync_st) : traced sync_act (bool * sync_st) :=
  match ts with
  | [] => tr_ret (false, st)
  | t :: ts => let~ r := sync_turn t st in if r.1 then tr_ret r else sync_turns ts r.2
  end.

(** ** Connecting *)

Record sync_env := SyncEnv {
  e_fd_out : Z;
  e_setsockopt : bool;
  e_bind : bool;
  e_connect : bool;
  e_receive : list Z }.   (* what [receive] holds at first *)

(** [instant_msg(ctx->update_q, &rotatecmd, 0)] comes to [Malloc(0)]. *)
Definition synchronize (e : sync_env) (ts : list turn) : traced sync_act (bool * sync_st) :=
  let fd := e_fd_out e in
  tr_lift (if e_setsockopt e then Ok tt else Fail (Exit 2)) ~>
  tr_lift (if e_bind e then Ok tt else Fail (Exit 2)) ~>
  let~ c := (if e_connect e then
      tr_lift (Malloc true 0) ~> tr_act StartSyncer ~> tr_ret fd
    else tr_act GuardPost ~> tr_ret 0) in
  sync_turns ts (SyncSt (-1) fd c (e_receive e)).

End Peer.

(** ** Reading always gets on *)

Lemma read_size {A} (fd : rfd A) n : (fd_size (read fd n).2 <= fd_size fd)%nat.
Proof.
  destruct fd as [|[[|x l]| |] fd]; cbn [read fd_size snd length]; try lia.
  destruct (Nat.leb_spec (S (length l)) n); cbn [fd_size snd length]; [lia|]. rewrite length_drop. cbn. lia.
Qed.

Lemma read_size_lt {A} (fd : rfd A) n : (0 < n)%nat ->
  match (read fd n).1 with REof => True | _ => (fd_size (read fd n).2 < fd_size fd)%nat end.
Proof.
  intros Hn. destruct fd as [|[[|x l]| |] fd]; cbn [read fd_size fst snd length]; try lia.
  destruct (Nat.leb_spec (S (length l)) n); cbn [fd_size fst snd length]; [lia|]. rewrite length_drop. cbn. lia.
Qed.

Lemma readn_loop_size {A} fuel (fd : rfd A) n acc :
  (fd_size fd < fuel)%nat ->
  exists r fd', readn_loop fuel fd n acc = Some (r, fd') /\ (fd_size fd' <= fd_size fd)%nat /\
    (forall got, r = Some got -> got = acc \/ (fd_size fd' < fd_size fd)%nat).
Proof.
  revert fd n acc. induction fuel as [|fuel IH]; intros fd n acc Hf; [lia|]. cbn [readn_loop].
  destruct (Nat.ltb_spec 0 n) as [Hn|Hn].
  2:{ exists (Some acc), fd. split; [done|]. split; [lia|]. intros ? [= <-]. by left. }
  pose proof (read_size fd n) as Hs. pose proof (read_size_lt fd n Hn) as Hl.
  destruct (read fd n) as [[l| | |] fd1]; cbn [fst snd] in *.
  - destruct (IH fd1 (n - length l)%nat (acc ++ l)) as (r & fd2 & -> & H2 & H3); [lia|].
    exists r, fd2. split; [done|]. split; [lia|]. intros got Hg. right. lia.
  - exists (Some acc), fd1. split; [done|]. split; [lia|]. intros ? [= <-]. by left.
  - destruct (IH fd1 n acc) as (r & fd2 & -> & H2 & H3); [lia|].
    exists r, fd2. split; [done|]. split; [lia|]. intros got Hg. right. lia.
  - exists None, fd1. split; [done|]. split; [lia|]. done.
Qed.

Lemma readn_size {A} (fd : rfd A) n :
  exists r fd', readn fd n = Some (r, fd') /\ (fd_size fd' <= fd_size fd)%nat /\
    (forall x l, r = Some (x :: l) -> (fd_size fd' < fd_size fd)%nat).
Proof.
  destruct (readn_loop_size (S (fd_size fd)) fd n []) as (r & fd' & E & H1 & H2); [lia|].
  exists r, fd'. split; [exact E|]. split; [done|]. intros x l ->. by destruct (H2 _ eq_refl).
Qed.

(** A message is read, or it is the one that stops the receiver. *)
Lemma recv_sync_msg_total le fd junk garbage :
  recv_sync_msg le fd junk garbage true = Fail AssertFail \/
  exists r, recv_sync_msg le fd junk garbage true = Ok r /\ (fd_size (rv_fd r) <= fd_size fd)%nat /\
    (rv_ret r <> 0 -> (fd_size (rv_fd r) < fd_size fd)%nat).
Proof.
  unfold recv_sync_msg. destruct (readn_size fd 8) as (r & fd1 & -> & H1 & H2).
  destruct r as [[|x l]|]; try (right; eexists; split; [reflexivity|]; cbn; split; [done | congruence]).
  specialize (H2 _ _ eq_refl).
  set (ty := ntohl le _). destruct (ty =? STARTUP_SYNC); [right|destruct (ty =? OPER_SYNC); [right|]].
  - unfold recv_startup_sync. destruct (readn_size fd1 STARTUP_LEN) as (r & fd2 & -> & H3 & _).
    destruct r as [[|y k]|]; eexists; (split; [reflexivity|]; cbn; split; [lia | intros; (done || lia)]).
  - unfold recv_oper_sync. destruct (readn_size fd1 DIGEST_LEN) as (r & fd2 & -> & H3 & _).
    destruct r as [[|y k]|]; eexists; (split; [reflexivity|]; cbn; split; [lia | intros; (done || lia)]).
  - destruct (ty =? AGGREGATE_SYNC); [by left|]. right. eexists. split; [reflexivity|]. cbn. split; lia.
Qed.

Lemma recv_loop_ends le fuel fd_out (on_stdin : bool) (fd : rfd Z) (stdin : rfd Z) stack :
  (fd_size fd + (if on_stdin then 0 else fd_size stdin) < fuel)%nat ->
  let e := (recv_loop le fuel fd_out on_stdin fd stdin stack).2 in
  e = Fail AssertFail \/ exists b, e = Ok (Some b).
Proof.
  revert on_stdin fd. induction fuel as [|fuel IH]; intros on_stdin fd Hf; [lia|]. cbn [recv_loop].
  destruct (recv_sync_msg_total le fd stack.1 stack.2) as [->|(r & -> & H1 & H2)]; [by left|].
  cbn. destruct (Z.eqb_spec (rv_ret r) 0) as [E|E]; [right; by eexists|]. specialize (H2 E).
  destruct (rv_connected r); cbn.
  - apply IH. destruct on_stdin; lia.
  - apply IH. destruct on_stdin; lia.
Qed.

(** ** Whom the thread talks to *)

(** What happens in a session on descriptor [fd]; nothing is written or posted
    when it is not [live]. *)
Definition session_act (fd fd_out : Z) (live : bool) (a : sync_act) : Prop :=
  match a with
  | Sent fd' bytes => fd' = fd /\ (live = false -> bytes = [])
  | Posted _ => live = true
  | CloseFd fd' => fd' = fd_out
  | StartSyncer => False
  | _ => True
  end.

Lemma send_act fd fd_out w bytes :
  Forall (session_act fd fd_out (bool_decide (is_Some w))) (send_update_to_peer fd w bytes).1 /\
  forall r, (send_update_to_peer fd w bytes).2 = Ok r -> is_Some r.2 <-> is_Some w.
Proof.
  destruct w as [w|].
  - cbn [send_update_to_peer]. destruct (writen w bytes) as [[[ok out] w']|]; cbn; [|split; [constructor|done]]. 
    split; [by repeat constructor | intros ? [= <-]; cbn; split; eauto].
  - split; [|by intros ? [= <-]]. by repeat constructor.
Qed.

Lemma session_act_weaken fd fd_out w w' l :
  (is_Some w' <-> is_Some w) -> Forall (session_act fd fd_out (bool_decide (is_Some (A:=wfd) w'))) l ->
  Forall (session_act fd fd_out (bool_decide (is_Some (A:=wfd) w))) l.
Proof. intros H. by rewrite (bool_decide_ext _ _ H). Qed.

Lemma send_each_act fd fd_out w msgs :
  Forall (session_act fd fd_out (bool_decide (is_Some w))) (send_each fd w msgs).1 /\
  forall w', (send_each fd w msgs).2 = Ok w' -> is_Some w' <-> is_Some w.
Proof.
  revert w. induction msgs as [|m msgs IH]; intros w; cbn [send_each]; [split; [constructor | by intros ? [= <-]]|].
  destruct (send_act fd fd_out w m) as [H1 H2]. split.
  - apply tr_bind_Forall; [done|]. intros r Er. eapply session_act_weaken; [by apply H2|]. apply IH.
  - unfold tr_bind. destruct (send_update_to_peer fd w m) as [t [r|f]]; cbn in *; [|done].
    intros w' E. rewrite (proj2 (IH r.2) w' E). by apply H2.
Qed.

Lemma walk_sends_act le fd fd_out w queued :
  Forall (session_act fd fd_out (bool_decide (is_Some w))) (walk_sends le fd w queued).1.
Proof.
  revert w. induction queued as [|m queued IH]; intros w; cbn [walk_sends]; [constructor|].
  destruct (send_update_msg_as_oper_sync le m) as [|b bs] eqn:Em; [apply IH|].
  destruct (send_act fd fd_out w (b :: bs)) as [H1 H2].
  apply tr_bind_Forall; [done|]. intros r Er. destruct r.1; [|constructor].
  eapply session_act_weaken; [by apply H2|]. apply IH.
Qed.

Lemma recv_loop_act le fuel fd fd_out on_stdin inp stdin stack :
  Forall (session_act fd fd_out true) (recv_loop le fuel fd_out on_stdin inp stdin stack).1.
Proof.
  revert on_stdin inp. induction fuel as [|fuel IH]; intros on_stdin inp; cbn [recv_loop]; [constructor|].
  apply tr_bind_Forall; [constructor|]. intros r _. apply tr_bind_Forall.
  { destruct (rv_posted r); cbn; by repeat constructor. }
  intros _ _. destruct (rv_ret r =? 0); [constructor|]. destruct (rv_connected r); [apply IH|].
  apply tr_bind_Forall; [by repeat constructor|]. intros _ _. apply IH.
Qed.

(** Reading from what is not a descriptor ends at once. *)
Lemma recv_loop_bad le fuel fd_out stdin stack :
  recv_loop le (S fuel) fd_out false [IoErr] stdin stack = ([], Ok (Some false)).
Proof. reflexivity. Qed.

Lemma serve_peer_act le mine t fd fd_out inp w :
  (w = None -> inp = [IoErr]) ->
  Forall (session_act fd fd_out (bool_decide (is_Some w))) (serve_peer le mine t fd fd_out inp w).1.
Proof.
  intros Hw. unfold serve_peer. destruct (send_act fd fd_out w (send_sync_config le mine)) as [H1 H2].
  apply tr_bind_Forall; [done|]. intros r Er. apply tr_bind_Forall; [by repeat constructor|]. intros _ _.
  apply tr_bind_Forall; [constructor|]. intros msgs _.
  set (l := _ ++ [force_peer_aggregate le]). destruct (send_each_act fd fd_out r.2 l) as [H3 H4].
  pose proof (H2 r Er) as Hr. apply tr_bind_Forall; [by eapply session_act_weaken|]. intros w1 E1.
  pose proof (H4 w1 E1) as Hw1. apply tr_bind_Forall.
  { eapply session_act_weaken; [|apply walk_sends_act]. by rewrite Hw1. }
  intros w2 _. apply tr_bind_Forall; [by repeat constructor|]. intros _ _. apply tr_bind_Forall.
  - destruct w; [apply recv_loop_act|]. rewrite (Hw eq_refl). unfold recv_fuel. by rewrite recv_loop_bad.
  - intros [b|] _; constructor.
Qed.

(** Nothing is said when there is no connection. *)
Definition idle_act (fd_out : Z) (a : sync_act) : Prop :=
  match a with
  | Sent fd bytes => fd = -1 /\ bytes = []
  | Posted _ | StartSyncer => False
  | CloseFd fd => fd = -1 \/ fd = fd_out
  | _ => True
  end.

(** What a turn of the loop may do: a connection from the peer is talked to,
    one from anyone else is closed and that is all. *)
Definition turn_acts (peer_ip : list Z) (fd_out : Z) (t : turn) (l : list sync_act) : Prop :=
  match t_accept t with
  | AConn c =>
      if bool_decide (peer_ip = cn_from c) then Forall (session_act (cn_fd c) fd_out true) l
      else l = [CloseFd (cn_fd c)]
  | AError _ => Forall (idle_act fd_out) l
  end.

Lemma session_idle fd_out a : session_act (-1) fd_out false a -> idle_act fd_out a.
Proof. destruct a; cbn; try done; [intros [-> H]; split; [done | by apply H] | intros ->; by right]. Qed.

Lemma tr_bind_ret {A B} (m : traced sync_act A) (b : B) : (tr_bind m (fun _ => tr_ret b)).1 = m.1.
Proof. unfold tr_bind. destruct m as [t [x|f]]; cbn; [by rewrite app_nil_r | done]. Qed.

Lemma sync_turn_acts le mine peer_ip t st :
  turn_acts peer_ip (peerfd_out st) t (sync_turn le mine peer_ip t st).1 /\
  forall r, (sync_turn le mine peer_ip t st).2 = Ok r -> peerfd_out r.2 = peerfd_out st.
Proof.
  unfold turn_acts, sync_turn. destruct (t_accept t) as [c|eintr].
  - destruct (bool_decide (peer_ip = cn_from c)); cbn [negb]; [|by split; [|intros ? [= <-]]].
    rewrite tr_bind_ret. split; [by apply (serve_peer_act le mine t _ _ _ (Some (cn_out c)))|].
    unfold tr_bind. destruct (serve_peer _ _ _ _ _ _ _).2; [by intros ? [= <-] | done].
  - destruct (bool_decide (peer_ip = received_from st)); cbn [negb].
    + destruct eintr; cbn [negb]; [|by split; [constructor | intros ? [= <-]]]. rewrite tr_bind_ret. split.
      * eapply Forall_impl; [by apply (serve_peer_act le mine t _ _ _ None)|]. intros a. apply session_idle.
      * unfold tr_bind. destruct (serve_peer _ _ _ _ _ _ _).2; [by intros ? [= <-] | done].
    + split; [|by intros ? [= <-]]. apply Forall_singleton. by left.
Qed.

(** The trace of the loop is that of its turns, one after the other; it is cut
    short only when [synchronize] returns or fails. *)
Lemma sync_turns_acts le mine peer_ip ts st :
  exists parts, (sync_turns le mine peer_ip ts st).1 = concat parts /\
    Forall2 (turn_acts peer_ip (peerfd_out st)) (take (length parts) ts) parts /\
    (forall st', (sync_turns le mine peer_ip ts st).2 = Ok (false, st') -> length parts = length ts).
Proof.
  revert st. induction ts as [|t ts IH]; intros st; cbn [sync_turns]; [by exists []|].
  destruct (sync_turn_acts le mine peer_ip t st) as [H1 H2]. unfold tr_bind.
  destruct (sync_turn le mine peer_ip t st) as [tr [[stop st1]|f]]; cbn [fst snd] in *.
  2:{ exists [tr]. cbn. rewrite app_nil_r. split_and!; [done | by repeat constructor | done]. }
  destruct stop.
  - exists [tr]. cbn. split_and!; [done | by repeat constructor | done].
  - pose proof (H2 _ eq_refl) as E. cbn in E. destruct (IH st1) as (parts & Ep & Hp & Hl). exists (tr :: parts).
    cbn [concat length take]. rewrite Ep. rewrite E in Hp. split_and!; [done | by constructor |].
    intros st' Hst. f_equal. by eapply Hl.
Qed.

(** ** What a session sends *)

Lemma send_all fd w bytes : WErr ∉ w ->
  exists w', send_update_to_peer fd (Some w) bytes = ([Sent fd bytes], Ok (true, Some w')) /\ WErr ∉ w'.
Proof.
  intros Hw. destruct (writen_spec w bytes Hw) as (w' & E & Hw'). exists w'. cbn [send_update_to_peer]. by rewrite E.
Qed.

Lemma send_each_all fd w msgs : WErr ∉ w ->
  exists w', send_each fd (Some w) msgs = (Sent fd <$> msgs, Ok (Some w')) /\ WErr ∉ w'.
Proof.
  revert w. induction msgs as [|m msgs IH]; intros w Hw; [by exists w|]. cbn [send_each].
  destruct (send_all fd w m Hw) as (w1 & -> & Hw1). unfold tr_bind. cbn [fst snd].
  destruct (IH w1 Hw1) as (w2 & -> & Hw2). by exists w2.
Qed.

(** The updates among the messages of the queue, as they are sent. *)
Definition queued_updates (le : bool) (queued : list (list Z)) : list (list Z) :=
  base.filter (.≠ []) (send_update_msg_as_oper_sync le <$> queued).

Lemma walk_sends_all le fd w queued : WErr ∉ w ->
  exists w', walk_sends le fd (Some w) queued = (Sent fd <$> queued_updates le queued, Ok (Some w')) /\ WErr ∉ w'.
Proof.
  revert w. induction queued as [|m queued IH]; intros w Hw; [by exists w|]. cbn [walk_sends].
  unfold queued_updates. cbn [fmap list_fmap]. rewrite filter_cons. fold (queued_updates le queued).
  destruct (send_update_msg_as_oper_sync le m) as [|b bs] eqn:Em; [by apply IH|].
  destruct (decide _) as [_|Hn]; [|by destruct Hn].
  destruct (send_all fd w (b :: bs) Hw) as (w1 & -> & Hw1). unfold tr_bind. cbn [fst snd].
  destruct (IH w1 Hw1) as (w2 & -> & Hw2). by exists w2.
Qed.

(** A session with a connection that takes what is written: the configuration,
    then under the guard, with the queue frozen, the filters, the order to build
    the aggregate, and the updates that wait in the queue. *)
Lemma serve_peer_sends le mine t fd fd_out inp w msgs :
  WErr ∉ w -> filter_msgs (t_ring t) = Ok msgs ->
  let r := recv_loop le (recv_fuel inp (t_stdin t)) fd_out false inp (t_stdin t) (t_stack t) in
  serve_peer le mine t fd fd_out inp (Some w) =
    (Sent fd (send_sync_config le mine) :: GuardWait :: Freeze ::
     (Sent fd <$> (send_startup_sync le <$> msgs) ++ [force_peer_aggregate le] ++ queued_updates le (t_queued t)) ++
     Thaw :: GuardPost :: r.1,
     match r.2 with Ok (Some _) => Ok tt | Ok None => Fail Undefined | Fail f => Fail f end).
Proof.
  intros Hw Hm. unfold serve_peer. destruct (send_all fd w (send_sync_config le mine) Hw) as (w1 & -> & Hw1).
  rewrite Hm. unfold tr_bind, tr_acts, tr_lift. cbn [fst snd].
  destruct (send_each_all fd w1 ((send_startup_sync le <$> msgs) ++ [force_peer_aggregate le]) Hw1) as (w2 & -> & Hw2).
  cbn [fst snd]. destruct (walk_sends_all le fd w2 (t_queued t) Hw2) as (w3 & -> & Hw3). cbn [fst snd].
  set (r := recv_loop _ _ _ _ _ _ _). rewrite !fmap_app, <-!app_assoc.
  destruct r.2 as [[b|]|f]; cbn [fst snd app tr_ret tr_lift]; by rewrite ?app_nil_r.
Qed.

(** ** What a session does with what it reads *)

(** The messages of the protocol that carry data. *)
Inductive wire := WireOper (d : sha_256_t) | WireChunk (ss : startup_sync_t).

Definition wire_ok (m : wire) : Prop :=
  match m with WireOper d => digest_ok d | WireChunk ss => msg_ok (MAbsolute ss) end.

Definition wire_bytes (le : bool) (m : wire) : list Z :=
  match m with WireOper d => send_oper_sync le d | WireChunk ss => send_startup_sync le ss end.

(** What is posted to the manager for one of them. *)
Definition wire_posted (le : bool) (garbage : list Z) (m : wire) : posted :=
  match m with
  | WireOper d => Delayed (take DIGEST_LEN (msg_bytes le (MUpdateOper d) garbage))
  | WireChunk ss => Instant (take STARTUP_LEN (msg_bytes le (MAbsolute ss) garbage))
  end.

Lemma recv_startup_msg le1 le2 fd ss rest junk garbage ok :
  msg_ok (MAbsolute ss) -> fd_data fd = Some (send_startup_sync le1 ss ++ rest) ->
  exists fd', fd_data fd' = Some rest /\
    recv_sync_msg le2 fd junk garbage ok = Ok (Received (if ok then 1 else 0) fd' true
      (Some (Instant (take STARTUP_LEN (msg_bytes le2 (MAbsolute ss) garbage))))).
Proof.
  intros Hm Hfd. unfold send_startup_sync in Hfd. rewrite prologue_wire, startup_wire, <-app_assoc in Hfd.
  apply (recv_prologue le2 _ _ _ _ junk garbage ok) in Hfd as (fd1 & Hd1 & ->); [|unfold is_u32, STARTUP_SYNC; lia].
  by apply (recv_startup_body le2 fd1 ss rest garbage ok).
Qed.

Lemma recv_wire le1 le2 fd m rest junk garbage :
  wire_ok m -> (length junk <= 32)%nat -> fd_data fd = Some (wire_bytes le1 m ++ rest) ->
  exists fd', fd_data fd' = Some rest /\
    recv_sync_msg le2 fd junk garbage true = Ok (Received 1 fd' true (Some (wire_posted le2 garbage m))).
Proof.
  intros Hm Hj Hfd. destruct m as [d|ss].
  - by apply (recv_oper_msg le1 le2 fd d rest junk garbage true).
  - by apply (recv_startup_msg le1 le2 fd ss rest junk garbage true).
Qed.

Lemma length_wire le m : (0 < length (wire_bytes le m))%nat.
Proof. destruct m; cbn; unfold send_oper_sync, send_startup_sync; rewrite !length_app, length_prologue; lia. Qed.

(** Each message is posted, in order; the end of the stream ends the session. *)
Lemma recv_wires le1 le2 fuel fd_out fd stdin stack ms :
  Forall wire_ok ms -> (length stack.1 <= 32)%nat -> (length ms < fuel)%nat ->
  fd_data fd = Some (concat (wire_bytes le1 <$> ms)) ->
  recv_loop le2 fuel fd_out false fd stdin stack = (Posted ∘ wire_posted le2 stack.2 <$> ms, Ok (Some false)).
Proof.
  intros Hm Hj. revert fuel fd. induction Hm as [|m ms Hm Hms IH]; intros fuel fd Hf Hfd;
    (destruct fuel as [|fuel]; [cbn in Hf; lia|]); cbn [recv_loop].
  - unfold recv_sync_msg. cbn in Hfd. destruct (readn_spec fd [] 8 Hfd) as (fd' & _ & ->). done.
  - cbn [fmap list_fmap concat] in Hfd. destruct (recv_wire le1 le2 fd m _ stack.1 stack.2 Hm Hj Hfd) as (fd1 & Hd1 & ->).
    unfold tr_bind at 1. cbn [tr_lift fst snd rv_posted rv_ret rv_connected rv_fd app].
    rewrite (IH fuel fd1) by (done || cbn in Hf; lia). done.
Qed.

Lemma wires_length le ms : (length ms <= length (concat (wire_bytes le <$> ms)))%nat.
Proof.
  induction ms as [|m ms IH]; cbn [fmap list_fmap concat length]; [lia|].
  rewrite length_app. pose proof (length_wire le m). lia.
Qed.

(** ** What the receiver makes of it *)

Definition config_ok (c : sync_config_t) : Prop := is_u32 (sc_filter_size c) /\ is_u32 (sc_num_bufs c).

Lemma recv_config le1 le2 mine fd rest junk :
  config_ok mine -> (length junk <= 8)%nat -> fd_data fd = Some (send_sync_config le1 mine ++ rest) ->
  exists fd', fd_data fd' = Some rest /\ recv_config_sync le2 mine fd junk = Ok (Received 1 fd' true None).
Proof.
  intros [Hs Hn] Hj Hfd. unfold send_sync_config in Hfd. rewrite config_wire in Hfd.
  destruct (readn_exact fd _ rest 8 Hfd) as (fd' & E & Hd); [unfold config_bytes; by rewrite length_app, !length_store|].
  exists fd'. split; [done|]. unfold recv_config_sync. rewrite E.
  assert (length (config_bytes false mine) = 8%nat) as Hl by (unfold config_bytes; by rewrite length_app, !length_store).
  assert (Forall is_byte (config_bytes false mine)) as Hb by (apply Forall_app; split; apply store_bytes).
  destruct (config_bytes false mine) as [|x l] eqn:Ep; [done|]. rewrite <-Ep in *.
  rewrite read_over_all by lia. unfold sctoh, config_of_bytes. cbn [sc_filter_size sc_num_bufs].
  rewrite !ntohl_word by (done || lia). unfold config_bytes.
  rewrite word_at_0, (word_at_skip _ _ _ 0 : word_at _ _ 4 = _) by done.
  rewrite <-(app_nil_r (store false 4 (sc_num_bufs mine))), word_at_0 by done. by rewrite !Z.eqb_refl.
Qed.

(** The messages posted for the startup messages of the peer. *)
Definition posted_for (le : bool) (garbage : list Z) (ss : startup_sync_t) : list Z :=
  take STARTUP_LEN (msg_bytes le (MAbsolute ss) garbage).

(** *** The manager and the messages that are cut short *)

(** The last word of the chunk is the one the buffer had. *)
Definition cut (stale : Z) (ss : startup_sync_t) : startup_sync_t :=
  StartupSync (ss_buffer ss) (ss_index ss) (take 31 (ss_filter ss) ++ [stale]).

Lemma cut_ok stale ss : is_u32 stale -> msg_ok (MAbsolute ss) -> msg_ok (MAbsolute (cut stale ss)).
Proof.
  intros Hs (H1 & H2 & H3 & H4). cbn. split_and!; try lia.
  - rewrite length_app, length_take, H3. done.
  - apply Forall_app. split; [by apply Forall_take | by apply Forall_singleton].
Qed.

Definition buffer_ok (b : list Z) : Prop := (140 <= length b)%nat /\ Forall is_byte b.

Lemma receive_cut le st_msg ss garbage :
  msg_ok (MAbsolute ss) -> buffer_ok st_msg ->
  let b := receive st_msg (posted_for le garbage ss) in
  b = store le 4 ABSOLUTE_UPDATE ++ startup_bytes le (cut (word_at le st_msg 136) ss) ++ drop 140 st_msg /\
  buffer_ok b /\ word_at le b 136 = word_at le st_msg 136.
Proof.
  intros (_ & _ & Hl & Hf) [Hlen Hb]. cbv zeta. set (stale := word_at le st_msg 136). change (Z.to_nat FILTER_SIZE) with 32%nat in Hl.
  set (pre := store le 4 ABSOLUTE_UPDATE ++ store le 4 (u32 (ss_buffer ss)) ++ store le 4 (ss_index ss) ++
    (take 31 (ss_filter ss) ≫= store le 4)).
  assert (length pre = 136%nat) as Hpre
    by (unfold pre; rewrite !length_app, !length_store, length_words, length_take, Hl; done).
  assert (posted_for le garbage ss = pre) as ->.
  { unfold posted_for, msg_bytes. cbn [mtype_of mtext_of]. unfold startup_bytes.
    rewrite <-(take_drop 31 (ss_filter ss)) at 1. rewrite bind_app.
    replace (store le 4 ABSOLUTE_UPDATE ++ _) with (pre ++ (drop 31 (ss_filter ss) ≫= store le 4) ++ garbage)
      by (unfold pre; by rewrite <-!app_assoc).
    apply take_app_length'. by rewrite Hpre. }
  assert (word_at le st_msg 136 = stale /\ receive st_msg pre = pre ++ store le 4 stale ++ drop 140 st_msg) as [_ Er].
  { split; [done|]. unfold receive, memcpy_at, MSGSZ. rewrite take_0, (take_ge pre) by lia. cbn [app]. f_equal. rewrite Hpre.
    rewrite <-(take_drop 4 (drop 136 st_msg)) at 1. rewrite drop_drop. f_equal.
    unfold stale, word_at. symmetry. destruct (word_bytes st_msg 136 Hb ltac:(lia)). by apply store_load. }
  rewrite Er. split_and!.
  - unfold pre, startup_bytes, cut. cbn [ss_buffer ss_index ss_filter]. rewrite bind_app. cbn [mbind list_bind].
    by rewrite app_nil_r, <-!app_assoc.
  - split; [rewrite !length_app, Hpre, length_store, length_drop; lia|].
    apply Forall_app. split.
    + unfold pre. rewrite !Forall_app. split_and!; apply store_bytes || apply words_bytes.
    + apply Forall_app. split; [apply store_bytes | by apply Forall_drop].
  - assert (is_u32 stale) by (apply word_at_is_u32; [done|lia]).
    unfold word_at. rewrite drop_app_length' by done. rewrite take_app_length' by (by rewrite length_store).
    by apply load_store32.
Qed.

Lemma cut_step le cfg t st ss garbage :
  msg_ok (MAbsolute ss) -> buffer_ok (message st) ->
  let b := receive (message st) (posted_for le garbage ss) in
  bloommgr_step le cfg (posted_for le garbage ss) t st =
    mgr_do cfg (MAbsolute (cut (word_at le (message st) 136) ss)) t (Mgr (mgr_filter st) (last_rotate st) b (sync_guard st)).
Proof.
  intros Hss Hb. destruct (receive_cut le (message st) ss garbage Hss Hb) as (Er & _ & _).
  assert (is_u32 (word_at le (message st) 136)) by (apply word_at_is_u32; [apply Hb | destruct Hb; lia]).
  eapply bloommgr_step_decoded; [by apply cut_ok | exact Er].
Qed.

(** The last of every 32 words of a filter from the peer is lost: the manager's
    run over the messages posted for [msgs] is the run of the ring over the
    messages with their last word replaced by the one in the buffer. *)
Lemma cut_run le cfg garbage msgs clks st q :
  Forall (fun ss => msg_ok (MAbsolute ss)) msgs -> length clks = length msgs -> buffer_ok (message st) ->
  ring_run (mgr_filter st) (absolute_op ∘ cut (word_at le (message st) 136) <$> msgs) = Ok q ->
  exists st', bloommgr_run le cfg (zip (posted_for le garbage <$> msgs) clks) st = Ok st' /\
    mgr_filter st' = q /\ last_rotate st' = last_rotate st.
Proof.
  revert clks st. induction msgs as [|ss msgs IH]; intros clks st Hm Hc Hb E.
  { cbn in E. injection E as <-. by exists st. }
  destruct clks as [|t clks]; [done|]. apply Forall_cons_1 in Hm as [Hss Hm]. cbn [fmap list_fmap zip_with bloommgr_run].
  destruct (receive_cut le (message st) ss garbage Hss Hb) as (_ & Hb' & Hw).
  rewrite cut_step by done. cbn [mgr_do]. cbn [fmap list_fmap ring_run] in E.
  destruct Hss as (Hbuf & _). unfold compose at 1, absolute_op at 1 in E. cbn [ring_step ss_buffer ss_index ss_filter cut] in E.
  rewrite (Z2Nat.id (ss_buffer ss)) in E by lia.
  cbn [mgr_filter ss_filter ss_index ss_buffer cut]. apply bind_Ok_inv in E as (q1 & -> & E). cbn [rbind].
  unfold set_mgr_filter. cbn [last_rotate message sync_guard].
  eapply (IH clks (Mgr q1 (last_rotate st) _ (sync_guard st))); [done | by injection Hc | exact Hb' |].
  cbn [mgr_filter message]. by rewrite Hw.
Qed.

(** The chunks of a ring, entered into a ring of the same shape. *)
Lemma ring_transfer nb q a q' a' :
  5 <= nb <= 30 -> rep_ring nb q a -> rep_ring nb q' a' -> length (slots a) = length (slots a') ->
  Z.of_nat (length (slots a)) < 2 ^ 31 ->
  exists msgs q'' a'', filter_msgs q = Ok msgs /\ ring_run q' (absolute_op <$> msgs) = Ok q'' /\ rep_ring nb q'' a'' /\
    forall k s s', slots a !! k = Some s -> slots a' !! k = Some s' ->
      exists s'', slots a'' !! k = Some s'' /\ forall x, 0 <= x < 2 ^ nb -> x ∈ s'' <-> x ∈ s' \/ x ∈ s.
Proof.
  intros Hnb Hr Hr' Hlen Hn. destruct (ring_msgs nb Hnb q a Hr Hn) as (msgs & Em & Hmem & Hok & Hbuf).
  assert (Forall (valid_op nb (length (slots a'))) (absolute_op <$> msgs)) as Hv.
  { rewrite Forall_fmap, <-Hlen. apply Forall_forall. intros ss Hss. by apply Hok. }
  destruct (ring_run_spec nb Hnb _ q' a' Hr' Hv) as (q'' & Eq & Hq'').
  exists msgs, q'', (a_run nb a' (absolute_op <$> msgs)). split_and!; try done. intros k s s' Hs Hs'.
  pose proof Hr as [((_ & Hfs) & _) _]. destruct (Forall2_lookup_r _ _ _ _ _ Hfs Hs) as (f & Hf & [Hw Hbits]).
  destruct (absolute_run_slots nb msgs a' k s' 0 Hs') as (s'' & Hs'' & _).
  exists s''. split; [done|]. intros x Hx.
  destruct (absolute_run_slots nb msgs a' k s' x Hs') as (s2 & Hs2 & Hx2).
  rewrite Hs'' in Hs2. injection Hs2 as <-. rewrite Hx2.
  assert ((exists ss, ss ∈ msgs /\ Z.to_nat (ss_buffer ss) = k /\
      x ∈ chunk_bits nb (ss_filter ss) (chunk_size nb) (ss_index ss)) <->
    exists ss, ss ∈ member_msgs nb k f /\ x ∈ chunk_bits nb (ss_filter ss) (chunk_size nb) (ss_index ss)) as ->.
  { split.
    - intros (ss & Hss & Hk & Hb). apply Hmem in Hss as (i & f' & Hf' & Hss). pose proof (Hbuf i f' ss Hf' Hss) as Hi.
      assert (i = k) as -> by lia. rewrite Hf in Hf'. injection Hf' as <-. by exists ss.
    - intros (ss & Hss & Hb). exists ss. split; [apply Hmem; eauto|].
      split; [|done]. rewrite (Hbuf k f ss Hf Hss). lia. }
  rewrite (member_bits nb Hnb k f x Hw Hx), (Hbits x Hx). by rewrite bool_decide_eq_true.
Qed.

(** ** Properties *)



(** C20: a server deals with its peer only.  When the peer could not be reached
    at the start, whatever connections come in and whatever [accept] reports, the
    trace of [synchronize] is that of its turns: in the turn of a connection that
    does not come from the configured address it is closed, and nothing else is
    done; in the turn of a connection from that address all that is written goes
    to it; and a turn in which [accept] gave no connection writes and posts
    nothing.  A run that neither returns nor fails has a part for each turn. *)
Theorem only_peer_served le mine peer_ip e ts :
  e_connect e = false ->
  exists pre parts, (synchronize le mine peer_ip e ts).1 = pre ++ concat parts /\ (pre = [] \/ pre = [GuardPost]) /\
    Forall2 (turn_acts peer_ip (e_fd_out e)) (take (length parts) ts) parts /\
    (forall st, (synchronize le mine peer_ip e ts).2 = Ok (false, st) -> length parts = length ts).
Proof.
  intros He. unfold synchronize. rewrite He. destruct (e_setsockopt e); [|exists [], []; cbn; naive_solver].
  destruct (e_bind e); [|exists [], []; cbn; naive_solver].
  destruct (sync_turns_acts le mine peer_ip ts (SyncSt (-1) (e_fd_out e) 0 (e_receive e))) as (parts & Ep & Hp & Hl).
  exists [GuardPost], parts. unfold tr_bind. cbn [tr_lift tr_act tr_ret fst snd app].
  rewrite Ep. split_and!; [done | by right | exact Hp | exact Hl].
Qed.

Definition demo_turns : list turn :=
  let q := RingQueue (FilterGroup [BloomFilter [1] 1 31 32] 1) (BloomFilter [1] 1 31 32) 0 in
  [Turn (AConn (Conn 7 [10; 0; 0; 9] [] [])) q [] [] ([], []);
   Turn (AConn (Conn 8 [10; 0; 0; 1] [Chunk (send_oper_sync true DEFAULT_SHA256)] [])) q [] [] ([], []);
   Turn (AError false) q [] [] ([], [])].

Lemma only_peer_served_witness :
  let r := synchronize true (SyncConfig 5 1) [10; 0; 0; 1] (SyncEnv 5 true true false []) demo_turns in
  (exists pre parts, r.1 = pre ++ concat parts /\ (pre = [] \/ pre = [GuardPost]) /\
    Forall2 (turn_acts [10; 0; 0; 1] 5) (take (length parts) demo_turns) parts /\
    (forall st, r.2 = Ok (false, st) -> length parts = length demo_turns)) /\
  length (omap (fun a => match a with Posted p => Some p | _ => None end) r.1) = 1%nat.
Proof.
  intros r. split; [|vm_compute; reflexivity].
  apply (only_peer_served true (SyncConfig 5 1) [10; 0; 0; 1] (SyncEnv 5 true true false []) demo_turns). reflexivity.
Defined.

(** A peer that answers stops the server: the message that tells the manager to
    rotate is posted with size 0, which [Malloc] refuses, before the thread that
    would receive the filters is started. *)
Theorem peer_connection_fails_assertion le mine peer_ip e ts :
  e_setsockopt e = true -> e_bind e = true -> e_connect e = true ->
  synchronize le mine peer_ip e ts = ([], Fail AssertFail).
Proof. intros H1 H2 H3. unfold synchronize. by rewrite H1, H2, H3. Qed.
