(* ===== verification/Conf.v ===== *)
(** * The configuration file ([src/src/conf.c])

    Lines are parsed in place, in the buffer [readline] filled: the comment,
    the delimiter and the blanks are overwritten with terminators, and names,
    values and parameters are offsets into the buffer until they are copied. *)

From S2P Require Import Prelude Utils.

(** ** Tables ([src/include/conf.h]) *)

Definition DEFAULT_CONFIG : list (string * string) := [
  ("update", "grey"); ("host", "127.0.0.1"); ("port", "5525"); ("sync_port", "5524"); ("status_port", "5522");
  ("rotate_interval", "3600"); ("filter_bits", "24"); ("number_buffers", "8"); ("stat_interval", "300");
  ("postfix_response_grey", "action=defer_if_permit %reason%");
  ("postfix_response_block", "action=reject %reason%");
  ("sjsms_response_grey", "$X4.4.3|$N%reason%"); ("sjsms_response_match", "$Y");
  ("sjsms_response_trust", "$Y"); ("sjsms_response_block", "$N%reason%");
  ("log_method", "syslog"); ("log_level", "info"); ("stat_type", "delay"); ("stat_type", "status");
  ("grey_mask", "24"); ("grey_mask6", "64"); ("grey_delay", "10"); ("grey_tuple", "user");
  ("syslog_facility", "mail"); ("blocker_port", "4466"); ("blocker_weight", "1"); ("block_threshold", "0");
  ("grey_threshold", "1"); ("grey_reason", "Please try again later"); ("block_reason", "Bad reputation");
  ("query_timelimit", "5000"); ("pool_maxthreads", "100")]%string.

Definition MULTIVALUES : list string :=
  ["dnsbl"; "rhsbl"; "dnswl"; "check"; "stat_type"; "protocol"; "log_method"]%string.

Definition VALID_NAMES : list string := [
  "dnsbl"; "rhsbl"; "dnswl"; "host"; "port"; "filter_bits"; "rotate_interval"; "number_buffers"; "update";
  "peer_name"; "statefile"; "postfix_response_grey"; "postfix_response_block"; "sjsms_response_grey";
  "sjsms_response_match"; "sjsms_response_trust"; "sjsms_response_block"; "log_method"; "log_level"; "grey_mask";
  "grey_mask6"; "grey_delay"; "grey_tuple"; "check"; "protocol"; "syslog_facility"; "sync_listen"; "sync_peer";
  "sync_port"; "stat_interval"; "stat_type"; "status"; "blocker_host"; "blocker_port"; "blocker_weight";
  "query_timelimit"; "block_threshold"; "grey_threshold"; "grey_reason"; "block_reason"; "milter_listen"; "pidfile";
  "pool_maxthreads"]%string.

Definition DEPRECATED_NAMES : list string :=
  ["syncport"; "synchost"; "peerport"; "peerhost"; "statushost"; "statusport"]%string.

Definition PARAMS : list string := ["dnsbl"; "0"; "1"; "rhsbl"; "0"; "1"; "pidfile"; "0"; "1"]%string.

Definition in_table (name : cstr) (t : list string) : bool := existsb (fun s => cstr_eqb name (cs s)) t.

Definition multivalue (name : cstr) : bool := in_table name MULTIVALUES.

(** The number [k] places behind the first string of the table that is the
    name; the loop looks at every string, the counts included. *)
Fixpoint count_after (k : nat) (name : cstr) (t : list string) : Res Z :=
  match t with
  | [] => Ok 0
  | s :: rest =>
      if cstr_eqb name (cs s) then
        match t !! k with Some c => Ok (atoi (cs c)) | None => Fail Undefined end
      else count_after k name rest
  end.

Definition minparams (name : cstr) : Res Z := count_after 1 name PARAMS.
Definition maxparams (name : cstr) : Res Z := count_after 2 name PARAMS.

(** ** The list of settings *)

Record configlist_t := ConfigItem {
  is_default : bool;
  c_name : cstr;
  c_value : cstr;
  c_params : list cstr }.

Definition add_config_item (config : list configlist_t) (name value : cstr) (params : list cstr) (d : bool)
    : list configlist_t := ConfigItem d name value params :: config.

Definition default_for (name : cstr) (c : configlist_t) : bool := is_default c && cstr_eqb (c_name c) name.

(** The loop that unlinks the defaults of a multivalue setting: the first
    item has no predecessor, and [*config] would be left pointing at it after
    it was freed. *)
Definition remove_defaults (config : list configlist_t) (name : cstr) : Res (list configlist_t) :=
  match config with
  | [] => Ok []
  | c :: rest =>
      if default_for name c then Fail Undefined
      else Ok (c :: filter (fun c => default_for name c = false) rest)
  end.

Fixpoint replace_value (config : list configlist_t) (name value : cstr) : option (list configlist_t) :=
  match config with
  | [] => None
  | c :: rest =>
      if cstr_eqb (c_name c) name then Some (ConfigItem (is_default c) (c_name c) value (c_params c) :: rest)
      else match replace_value rest name value with Some r => Some (c :: r) | None => None end
  end.

Definition record_config_item (config : list configlist_t) (name value : cstr) (params : list cstr)
    : Res (list configlist_t) :=
  if multivalue name then
    c ← remove_defaults config name; Ok (add_config_item c name value params false)
  else
    match replace_value config name value with
    | Some c => Ok c
    | None => Ok (add_config_item config name value params false)
    end.

Fixpoint gconf (config : list configlist_t) (name : cstr) : option cstr :=
  match config with
  | [] => None
  | c :: rest => if cstr_eqb (c_name c) name then Some (c_value c) else gconf rest name
  end.

Definition default_config : list configlist_t :=
  foldl (fun l '(n, v) => add_config_item l (cs n) (cs v) [] true) [] DEFAULT_CONFIG.

(** ** Parsing a line *)

(** [strchr]: the offset of the first [c] from [off], before the terminator. *)
Fixpoint strchr_from (buf : list ascii) (off : nat) (c : ascii) : Res (option nat) :=
  match buf with
  | [] => Fail OutOfBounds
  | x :: t => if chr_eqb x c then Ok (Some off) else if chr_eqb x nul then Ok None else strchr_from t (S off) c
  end.

Definition strchr (buf : list ascii) (off : nat) (c : ascii) : Res (option nat) := strchr_from (drop off buf) off c.

(** Result, buffer, and the offsets of the two strings. *)
Definition a_delim_b (buf : list ascii) (off : nat) (delim : ascii) : Res (Z * list ascii * nat * nat) :=
  p ← strchr buf off delim;
  match p with
  | None => Ok (0, buf, O, O)
  | Some ptr =>
      buf ← aset buf (Z.of_nat ptr) nul;
      '(buf, stra, lena) ← trim buf off;
      if (lena =? 0)%nat then Ok (-1, buf, stra, S ptr)
      else
        '(buf, strb, lenb) ← trim buf (S ptr);
        if (lenb =? 0)%nat then Ok (-1, buf, stra, strb) else Ok (1, buf, stra, strb)
  end.

(** The loop over the parameters; [offs] are those found so far. *)
Fixpoint find_params (fuel : nat) (buf : list ascii) (tail : nat) (offs : list nat) : Res (list ascii * list nat) :=
  match fuel with
  | O => Fail Undefined
  | S fuel =>
      '(ret, buf, _, tail) ← a_delim_b buf tail ";"%char;
      if ret =? 1 then find_params fuel buf tail (offs ++ [tail]) else Ok (buf, offs)
  end.

(** The string at an offset. *)
Definition string_at (buf : list ascii) (off : nat) : Res cstr :=
  n ← strlen_at buf off; Ok (take n (drop off buf)).

Fixpoint strings_at (buf : list ascii) (offs : list nat) : Res (list cstr) :=
  match offs with
  | [] => Ok []
  | o :: offs => s ← string_at buf o; l ← strings_at buf offs; Ok (s :: l)
  end.

Definition namevalueparams (buf : list ascii) : Res (Z * option (cstr * cstr * list cstr)) :=
  p ← strchr buf 0 "#"%char;
  buf ← match p with Some ptr => aset buf (Z.of_nat ptr) nul | None => Ok buf end;
  '(ret, buf, name, value) ← a_delim_b buf 0 "="%char;
  if ret =? 1 then
    '(buf, offs) ← find_params (S (length buf)) buf value [];
    ps ← strings_at buf offs;
    n ← string_at buf name;
    v ← string_at buf value;
    Ok (1, Some (n, v, ps))
  else Ok (ret, None).

(** One line of the file: the new settings, or a reason to give up. *)
Definition config_line (config : list configlist_t) (line : cstr) : Res (option (list configlist_t)) :=
  '(ret, r) ← namevalueparams (line ++ [nul]);
  match r with
  | Some (name, value, params) =>
      if in_table name VALID_NAMES then
        let n := Z.of_nat (length params) in
        mx ← maxparams name;
        mn ← minparams name;
        if (n <=? mx) && (mn <=? n) then
          c ← record_config_item config name value params; Ok (Some c)
        else Ok None
      else Ok None
  | None => if ret <? 0 then Ok None else Ok (Some config)
  end.

(** [read_config] on an open file: the settings, or [None] for -1. *)
Fixpoint read_lines (fuel : nat) (fd : rfd ascii) (config : list configlist_t) : Res (option (list configlist_t)) :=
  match fuel with
  | O => Fail Undefined
  | S fuel =>
      match readline fd 1024 with
      | None => Fail Undefined
      | Some (ERROR, _) => Fail (Exit 2)
      | Some (EMPTY, _) => Ok (Some config)
      | Some (DATA line, fd) =>
          r ← config_line config line;
          match r with Some c => read_lines fuel fd c | None => Ok None end
      end
  end.

Definition read_config (fd : rfd ascii) (config : list configlist_t) : Res (option (list configlist_t)) :=
  read_lines (S (fd_size fd)) fd config.

Example parse_example :
  namevalueparams (cs "  dnsbl = bl.example.org ; 3   # a list" ++ [nul]) =
  Ok (1, Some (cs "dnsbl", cs "bl.example.org", [cs "3"])).
Proof. vm_compute. reflexivity. Qed.

(** ** Parsing: the strings of a line *)

Lemma strchr_from_found l c rest off :
  c ∉ l -> nul ∉ l -> strchr_from (l ++ c :: rest) off c = Ok (Some (off + length l)%nat).
Proof.
  revert off. induction l as [|x l IH]; intros off Hc Hn; cbn.
  - rewrite (proj2 (chr_eqb_eq c c)) by done. by rewrite Nat.add_0_r.
  - rewrite not_elem_of_cons in Hc, Hn.
    destruct (chr_eqb x c) eqn:E1; [apply chr_eqb_eq in E1; naive_solver|].
    destruct (chr_eqb x nul) eqn:E2; [apply chr_eqb_eq in E2; naive_solver|].
    rewrite IH by naive_solver. do 2 f_equal. lia.
Qed.

Lemma strchr_from_none l c rest off :
  c ∉ l -> nul ∉ l -> c <> nul -> strchr_from (l ++ nul :: rest) off c = Ok None.
Proof.
  revert off. induction l as [|x l IH]; intros off Hc Hn Hcn; cbn.
  - destruct (chr_eqb nul c) eqn:E; [apply chr_eqb_eq in E; congruence|]. done.
  - rewrite not_elem_of_cons in Hc, Hn.
    destruct (chr_eqb x c) eqn:E1; [apply chr_eqb_eq in E1; naive_solver|].
    destruct (chr_eqb x nul) eqn:E2; [apply chr_eqb_eq in E2; naive_solver|].
    by apply IH; naive_solver.
Qed.

Lemma word_length w : is_word w -> (0 < length w)%nat.
Proof. intros (_ & (a & y & -> & _) & _). cbn. lia. Qed.

(** A pair around a delimiter, with blanks anywhere. *)
Lemma a_delim_b_spec pre b1 w b2 d b3 M b4 post :
  d <> nul -> d ∉ b1 ++ w ++ b2 -> blanks b1 -> blanks b2 -> blanks b3 -> blanks b4 -> is_word w -> is_word M ->
  a_delim_b (pre ++ b1 ++ w ++ b2 ++ d :: b3 ++ M ++ b4 ++ nul :: post) (length pre) d =
  Ok (1, pre ++ b1 ++ w ++ replicate (length b2) nul ++ nul :: b3 ++ M ++ replicate (length b4) nul ++ nul :: post,
      (length pre + length b1)%nat, (length pre + length b1 + length w + length b2 + 1 + length b3)%nat).
Proof.
  intros Hd Hdn B1 B2 B3 B4 Hw HM. unfold a_delim_b, strchr. rewrite drop_app_length.
  replace (b1 ++ w ++ b2 ++ d :: b3 ++ M ++ b4 ++ nul :: post) with ((b1 ++ w ++ b2) ++ d :: b3 ++ M ++ b4 ++ nul :: post)
    by (by rewrite <-!app_assoc).
  rewrite strchr_from_found; [|done|].
  2:{ apply no_nul_app. split; [by apply blank_no_nul|]. apply no_nul_app. split; [apply Hw | by apply blank_no_nul]. }
  cbn [rbind]. rewrite (app_assoc pre), aset_middle by (rewrite (length_app pre); lia). cbn [rbind].
  rewrite <-(app_assoc pre), <-!(app_assoc b1), <-!(app_assoc w).
  rewrite (trim_spec pre b1 w b2) by done. cbn [rbind].
  destruct (Nat.eqb_spec (length w) 0); [pose proof (word_length w Hw); lia|].
  set (pre2 := pre ++ b1 ++ w ++ replicate (length b2) nul ++ [nul]).
  assert (length pre2 = S (length pre + length (b1 ++ w ++ b2))) as Hl2
    by (unfold pre2; repeat (rewrite ?length_app, ?length_replicate; cbn [length]); lia).
  replace (pre ++ b1 ++ w ++ replicate (length b2) nul ++ nul :: b3 ++ M ++ b4 ++ nul :: post)
    with (pre2 ++ b3 ++ M ++ b4 ++ nul :: post) by (unfold pre2; rewrite <-!app_assoc; done).
  rewrite <-Hl2, trim_spec by done. cbn [rbind].
  destruct (Nat.eqb_spec (length M) 0); [pose proof (word_length M HM); lia|].
  f_equal. f_equal; [|rewrite Hl2, !length_app; lia]. f_equal. f_equal. unfold pre2. rewrite <-!app_assoc. done.
Qed.

(** A value and its parameters: each parameter with the blanks before the
    semicolon, the blanks behind it, and the word. *)
Notation param := (cstr * cstr * cstr)%type.

Fixpoint mid (w : cstr) (ps : list param) : cstr :=
  match ps with
  | [] => w
  | (t, l, w') :: ps => w ++ t ++ ";"%char :: l ++ mid w' ps
  end.

Definition plain (c : ascii) (w : cstr) : Prop := is_word w /\ c ∉ w.

Definition param_ok (p : param) : Prop := blanks p.1.1 /\ blanks p.1.2 /\ plain ";"%char p.2.

Lemma mid_word w ps : is_word w -> Forall param_ok ps -> is_word (mid w ps).
Proof.
  intros Hw Hp. revert w Hw. induction Hp as [|[[t l] w'] ps (Ht & Hl & [Hw' _]) _ IH]; intros w Hw; [done|].
  specialize (IH w' Hw'). destruct Hw as (N1 & (a & y & -> & Ha) & _).
  destruct IH as (N2 & _ & (x & c & Ec & Hc)). cbn [mid]. split; [|split].
  - apply no_nul_app. split; [done|]. apply no_nul_app. split; [by apply blank_no_nul|].
    unfold no_nul. rewrite not_elem_of_cons, not_elem_of_app. split; [discriminate|].
    split; [by apply blank_no_nul | done].
  - by exists a, (y ++ t ++ ";"%char :: l ++ mid w' ps).
  - exists ((a :: y) ++ t ++ ";"%char :: l ++ x), c. split; [|done]. rewrite Ec, <-!app_assoc. cbn. by rewrite <-!app_assoc.
Qed.

Lemma blank_plain c l : blanks l -> is_blank c = false -> c ∉ l.
Proof. intros Hb Hc Hin. unfold blanks in Hb. rewrite Forall_forall in Hb. apply Hb in Hin. congruence. Qed.

Lemma string_at_ok pre w post : no_nul w -> string_at (pre ++ w ++ nul :: post) (length pre) = Ok w.
Proof.
  intros Hn. unfold string_at. rewrite strlen_at_app by done. cbn [rbind].
  by rewrite drop_app_length, take_app_length.
Qed.

Lemma find_params_spec ps : forall pre w post offs fuel,
  plain ";"%char w -> Forall param_ok ps -> (length ps < fuel)%nat ->
  exists buf' new post', find_params fuel (pre ++ mid w ps ++ nul :: post) (length pre) offs = Ok (buf', offs ++ new) /\
    buf' = pre ++ w ++ nul :: post' /\ strings_at buf' new = Ok (snd <$> ps).
Proof.
  induction ps as [|[[t l] w'] ps IH]; intros pre w post offs fuel [Hw Hsc] Hp Hf;
    (destruct fuel as [|fuel]; [cbn in Hf; lia|]); cbn [find_params mid].
  - exists (pre ++ w ++ nul :: post), [], post. unfold a_delim_b, strchr. rewrite drop_app_length.
    rewrite strchr_from_none by (done || apply Hw). cbn. by rewrite app_nil_r.
  - apply Forall_cons in Hp as [(Ht & Hl & [Hw' Hsc']) Hps]. cbn [fst snd] in *.
    pose proof (a_delim_b_spec pre [] w t ";"%char l (mid w' ps) [] post) as Hd.
    cbn [length replicate app] in Hd.
    assert (pre ++ (w ++ t ++ ";"%char :: l ++ mid w' ps) ++ nul :: post =
      pre ++ w ++ t ++ ";"%char :: l ++ mid w' ps ++ nul :: post) as ->
      by (rewrite <-!app_assoc; cbn; by rewrite <-!app_assoc).
    rewrite Hd; [|discriminate| |apply Forall_nil_2|done|done|apply Forall_nil_2|done|by apply mid_word].
    2:{ rewrite not_elem_of_app. split; [done|]. by apply blank_plain. }
    cbn [rbind Z.eqb Pos.eqb].
    set (pre2 := pre ++ w ++ replicate (length t) nul ++ nul :: l).
    assert (length pre2 = length pre + 0 + length w + length t + 1 + length l)%nat as Hl2
      by (unfold pre2; repeat (rewrite ?length_app, ?length_replicate; cbn [length]); lia).
    replace (pre ++ w ++ replicate (length t) nul ++ nul :: l ++ mid w' ps ++ nul :: post)
      with (pre2 ++ mid w' ps ++ nul :: post) by (unfold pre2; rewrite <-!app_assoc; done).
    rewrite <-Hl2.
    destruct (IH pre2 w' post (offs ++ [length pre2]) fuel) as (buf' & new & post' & E & Eb & Es);
      [done | done | cbn in Hf; lia |].
    exists buf', (length pre2 :: new). rewrite E, <-app_assoc. cbn [app].
    destruct (length t) as [|k] eqn:Elt.
    + exists (l ++ w' ++ nul :: post'). split; [done|]. split.
      { rewrite Eb. unfold pre2. cbn. by rewrite <-!app_assoc. }
      cbn [strings_at]. rewrite Eb at 1. rewrite string_at_ok by apply Hw'. cbn [rbind]. by rewrite Es.
    + exists (replicate k nul ++ nul :: l ++ w' ++ nul :: post'). split; [done|]. split.
      { rewrite Eb. unfold pre2. cbn. rewrite <-!app_assoc. cbn. by rewrite <-!app_assoc. }
      cbn [strings_at]. rewrite Eb at 1. rewrite string_at_ok by apply Hw'. cbn [rbind]. by rewrite Es.
Qed.

(** The part of the line before a comment. *)
Lemma strip_comment X comment :
  "#"%char ∉ X -> no_nul X ->
  exists post, (p ← strchr (X ++ from_option (cons "#"%char) [] comment ++ [nul]) 0 "#"%char;
    match p with
    | Some ptr => aset (X ++ from_option (cons "#"%char) [] comment ++ [nul]) (Z.of_nat ptr) nul
    | None => Ok (X ++ from_option (cons "#"%char) [] comment ++ [nul])
    end) = Ok (X ++ nul :: post).
Proof.
  intros Hh Hn. unfold strchr. rewrite drop_0. destruct comment as [c|]; cbn [from_option app].
  - exists (c ++ [nul]). rewrite strchr_from_found by done. cbn [rbind]. by rewrite aset_middle by lia.
  - exists []. by rewrite strchr_from_none.
Qed.

Lemma length_params w ps : (length ps <= length (mid w ps))%nat.
Proof.
  revert w. induction ps as [|[[t l] w'] ps IH]; intros w; cbn [mid length]; [lia|].
  repeat (rewrite length_app; cbn [length]). specialize (IH w'). lia.
Qed.

(** A setting as an administrator may write it. *)
Record setting := Setting {
  s_b1 : cstr; s_name : cstr; s_b2 : cstr; s_b3 : cstr; s_value : cstr; s_params : list param;
  s_b4 : cstr; s_comment : option cstr }.

Definition setting_line (s : setting) : cstr :=
  (s_b1 s ++ s_name s ++ s_b2 s ++ "="%char :: s_b3 s ++ mid (s_value s) (s_params s) ++ s_b4 s) ++
  from_option (cons "#"%char) [] (s_comment s).

Definition setting_wf (s : setting) : Prop :=
  blanks (s_b1 s) /\ blanks (s_b2 s) /\ blanks (s_b3 s) /\ blanks (s_b4 s) /\
  plain "="%char (s_name s) /\ plain ";"%char (s_value s) /\ Forall param_ok (s_params s) /\
  "#"%char ∉ s_name s ++ mid (s_value s) (s_params s).

Lemma namevalueparams_spec s :
  setting_wf s ->
  namevalueparams (setting_line s ++ [nul]) = Ok (1, Some (s_name s, s_value s, snd <$> s_params s)).
Proof.
  intros (B1 & B2 & B3 & B4 & [Hw Hwe] & Hv & Hp & Hh). destruct s as [b1 w b2 b3 v ps b4 com]. cbn in *.
  unfold setting_line. cbn [s_b1 s_name s_b2 s_b3 s_value s_params s_b4 s_comment].
  pose proof (mid_word v ps (proj1 Hv) Hp) as HM. rewrite <-app_assoc.
  rewrite not_elem_of_app in Hh. destruct Hh as [Hh1 Hh2].
  destruct (strip_comment (b1 ++ w ++ b2 ++ "="%char :: b3 ++ mid v ps ++ b4) com) as [post E].
  { rewrite !not_elem_of_app, not_elem_of_cons, !not_elem_of_app.
    split_and!; (done || discriminate || by apply blank_plain). }
  { unfold no_nul. rewrite !not_elem_of_app, not_elem_of_cons, !not_elem_of_app.
    split_and!; (apply Hw || apply HM || discriminate || by apply blank_no_nul). }
  unfold namevalueparams. rewrite <-rbind_assoc, E. cbn [rbind]. clear E.
  pose proof (a_delim_b_spec [] b1 w b2 "="%char b3 (mid v ps) b4 post) as Hd. cbn [app length] in Hd.
  replace ((b1 ++ w ++ b2 ++ "="%char :: b3 ++ mid v ps ++ b4) ++ nul :: post)
    with (b1 ++ w ++ b2 ++ "="%char :: b3 ++ mid v ps ++ b4 ++ nul :: post)
    by (repeat (rewrite <-?app_assoc; cbn [app]); done).
  rewrite Hd; [|discriminate| |done..]; clear Hd.
  2:{ rewrite !not_elem_of_app. split_and!; [by apply blank_plain | done | by apply blank_plain]. }
  cbn [rbind Z.eqb Pos.eqb].
  rewrite !replicate_middle.
  set (pre := b1 ++ w ++ nul :: replicate (length b2) nul ++ b3). set (post2 := replicate (length b4) nul ++ post).
  replace (b1 ++ w ++ nul :: replicate (length b2) nul ++ b3 ++ mid v ps ++ nul :: post2) with (pre ++ mid v ps ++ nul :: post2)
    by (unfold pre; repeat (rewrite <-?app_assoc; cbn [app]); done).
  replace (_ + length b3)%nat with (length pre)
    by (unfold pre; repeat (rewrite ?length_app, ?length_replicate; cbn [length]); lia).
  destruct (find_params_spec ps pre v post2 [] (S (length (pre ++ mid v ps ++ nul :: post2)))) as (buf & new & post' & -> & -> & Es);
    [done | done | rewrite !length_app; pose proof (length_params v ps); lia |].
  cbn [rbind app]. rewrite Es. cbn [rbind]. rewrite (string_at_ok pre) by apply Hv.
  replace (pre ++ v ++ nul :: post') with (b1 ++ w ++ nul :: (replicate (length b2) nul ++ b3) ++ v ++ nul :: post')
    by (unfold pre; repeat (rewrite <-?app_assoc; cbn [app]); done).
  rewrite string_at_ok by apply Hw. done.
Qed.

(** ** The list of settings under [record_config_item] *)

Definition items (config : list configlist_t) (name : cstr) : list configlist_t :=
  filter (fun c => c_name c = name) config.

Lemma gconf_items config name : gconf config name = c_value <$> head (items config name).
Proof.
  unfold items. induction config as [|c config IH]; cbn [gconf]; [done|]. rewrite filter_cons.
  destruct (cstr_eqb (c_name c) name) eqn:E.
  - apply cstr_eqb_eq in E. by rewrite decide_True.
  - rewrite decide_False; [done|]. intros H%cstr_eqb_eq. congruence.
Qed.

(** The first item is not one [remove_defaults] would have to unlink. *)
Definition safe_head (config : list configlist_t) : Prop :=
  match config with [] => True | c :: _ => is_default c && multivalue (c_name c) = false end.

Lemma remove_defaults_items config name :
  safe_head config -> multivalue name = true ->
  exists c, remove_defaults config name = Ok c /\
    (forall m, items c m = if decide (m = name) then filter (fun i => is_default i = false) (items config m)
                          else items config m).
Proof.
  intros Hs Hm. exists (filter (fun c => default_for name c = false) config). split.
  - destruct config as [|c rest]; [done|]. unfold safe_head in Hs. cbn [remove_defaults]. rewrite filter_cons.
    destruct (default_for name c) eqn:E; [|by rewrite decide_True]. unfold default_for in E.
    apply andb_true_iff in E as [E1 E2%cstr_eqb_eq]. rewrite E1, E2, Hm in Hs. done.
  - intros m. unfold items. destruct (decide (m = name)) as [->|Hne].
    + rewrite !list_filter_filter. apply list_filter_iff. intros c. unfold default_for.
      destruct (decide (c_name c = name)) as [E|E]; [|naive_solver].
      rewrite (proj2 (cstr_eqb_eq _ _) E), andb_true_r. naive_solver.
    + rewrite list_filter_filter. apply list_filter_iff. intros c. unfold default_for. split; [naive_solver|].
      intros <-. destruct (cstr_eqb (c_name c) name) eqn:E; [apply cstr_eqb_eq in E; congruence|].
      by rewrite andb_false_r.
Qed.

Lemma replace_value_items config name value :
  match replace_value config name value with
  | Some c => gconf c name = Some value /\ (forall m, m <> name -> items c m = items config m) /\
      (safe_head config -> safe_head c)
  | None => items config name = []
  end.
Proof.
  induction config as [|c rest IH]; cbn [replace_value]; [done|]. destruct (cstr_eqb (c_name c) name) eqn:E.
  - cbn [gconf c_name]. rewrite E. split; [done|]. apply cstr_eqb_eq in E. split; [|done]. intros m Hm.
    unfold items. rewrite !filter_cons. cbn [c_name]. rewrite !decide_False by congruence. done.
  - assert (c_name c <> name) as En by (intros H%cstr_eqb_eq; congruence).
    destruct (replace_value rest name value) as [r|].
    + destruct IH as (H1 & H2 & _). cbn [gconf]. rewrite E. split; [done|]. split; [|done]. intros m Hm.
      unfold items. rewrite !filter_cons. fold (items r m) (items rest m). by rewrite H2.
    + unfold items. rewrite filter_cons, decide_False by done. exact IH.
Qed.

(** Recording a setting: no other setting changes; a single-valued setting
    takes the value, a multivalue one loses its defaults and gets a first entry. *)
Lemma record_config_item_spec config name value params :
  safe_head config ->
  exists c, record_config_item config name value params = Ok c /\ safe_head c /\
    (forall m, m <> name -> items c m = items config m) /\
    (if multivalue name
     then items c name = ConfigItem false name value params :: filter (fun i => is_default i = false) (items config name)
     else gconf c name = Some value).
Proof.
  intros Hs. unfold record_config_item. destruct (multivalue name) eqn:Em.
  - destruct (remove_defaults_items config name Hs Em) as (c & -> & Hc). cbn [rbind].
    eexists. split; [done|]. split; [done|]. unfold add_config_item. split.
    + intros m Hm. unfold items. rewrite filter_cons, decide_False by (cbn; congruence). fold (items c m).
      by rewrite Hc, decide_False.
    + unfold items. rewrite filter_cons, decide_True by done. fold (items c name). by rewrite Hc, decide_True.
  - pose proof (replace_value_items config name value) as Hr. destruct (replace_value config name value) as [c|].
    + exists c. naive_solver.
    + eexists. split; [done|]. split; [done|]. unfold add_config_item. split.
      * intros m Hm. unfold items. by rewrite filter_cons, decide_False by (cbn; congruence).
      * cbn [gconf c_name]. by rewrite (proj2 (cstr_eqb_eq _ _)).
Qed.

(** ** A whole file *)

Inductive fline :=
  | FSetting (s : setting)
  | FNote (text : cstr) (comment : option cstr).

Definition line_of (l : fline) : cstr :=
  match l with FSetting s => setting_line s | FNote t c => t ++ from_option (cons "#"%char) [] c end.

(** Parameters as [config_line] counts them. *)
Definition params_allowed (name : cstr) (n : Z) : bool :=
  match minparams name, maxparams name with Ok mn, Ok mx => (n <=? mx) && (mn <=? n) | _, _ => false end.

Definition fline_ok (l : fline) : Prop :=
  nl ∉ line_of l /\ cr ∉ line_of l /\ (length (line_of l) <= 1022)%nat /\
  match l with
  | FSetting s => setting_wf s /\ in_table (s_name s) VALID_NAMES = true /\
      params_allowed (s_name s) (Z.of_nat (length (s_params s))) = true
  | FNote t _ => no_nul t /\ "#"%char ∉ t /\ "="%char ∉ t
  end.

Definition file_of (ls : list fline) : cstr := concat ((fun l => line_of l ++ [nl]) <$> ls).

(** What the file says about a name, in order. *)
Fixpoint given (name : cstr) (ls : list fline) : list (cstr * list cstr) :=
  match ls with
  | [] => []
  | FSetting s :: ls => if decide (s_name s = name) then (s_value s, snd <$> s_params s) :: given name ls else given name ls
  | FNote _ _ :: ls => given name ls
  end.

Lemma given_app name l k : given name (l ++ k) = given name l ++ given name k.
Proof. induction l as [|[s|] l IH]; cbn; [done| |done]. rewrite IH. by case_decide. Qed.

(** The settings in force after the lines [ls]. *)
Definition in_force (ls : list fline) (c : list configlist_t) : Prop :=
  safe_head c /\ forall name,
    if multivalue name then
      items c name =
        match given name ls with
        | [] => items default_config name
        | g => reverse ((fun '(v, ps) => ConfigItem false name v ps) <$> g)
        end
    else gconf c name = match last (given name ls) with Some (v, _) => Some v | None => gconf default_config name end.

Lemma defaults_are_default name : filter (fun i => is_default i = false) (items default_config name) = [].
Proof.
  assert (Forall (fun i => is_default i = true) default_config) as H
    by (unfold default_config, DEFAULT_CONFIG, add_config_item; cbn; repeat constructor).
  unfold items. rewrite list_filter_filter. induction H as [|i l Hi _ IH]; [done|].
  rewrite filter_cons, decide_False; [done|]. intros [E _]. congruence.
Qed.

Lemma new_items_kept name g :
  filter (fun i => is_default i = false) (reverse ((fun '(v, ps) => ConfigItem false name v ps) <$> g)) =
  reverse ((fun '(v, ps) => ConfigItem false name v ps) <$> g).
Proof.
  rewrite filter_reverse. f_equal. induction g as [|[v ps] g IH]; [done|]. cbn [fmap list_fmap].
  rewrite filter_cons, decide_True by done. by f_equal.
Qed.

Lemma in_force_setting ls c s :
  in_force ls c ->
  exists c', record_config_item c (s_name s) (s_value s) (snd <$> s_params s) = Ok c' /\ in_force (ls ++ [FSetting s]) c'.
Proof.
  intros [Hs Hc].
  destruct (record_config_item_spec c (s_name s) (s_value s) (snd <$> s_params s) Hs) as (c' & E & Hs' & Ho & Hn).
  exists c'. split; [done|]. split; [done|]. intros name. specialize (Hc name). rewrite given_app. cbn [given].
  destruct (decide (s_name s = name)) as [<-|Hne].
  - destruct (multivalue (s_name s)).
    + rewrite Hn, Hc. destruct (given (s_name s) ls) as [|x g] eqn:Eg; cbn [app].
      * by rewrite defaults_are_default.
      * rewrite new_items_kept. change (x :: g ++ [(s_value s, (s_params s).*2)]) with ((x :: g) ++ [(s_value s, (s_params s).*2)]).
        rewrite fmap_app, reverse_app. done.
    + by rewrite last_snoc.
  - rewrite app_nil_r, gconf_items, Ho, <-gconf_items by done. done.
Qed.

(** One line of a well-formed file. *)
Lemma config_line_ok ls c l :
  in_force ls c -> fline_ok l -> exists c', config_line c (line_of l) = Ok (Some c') /\ in_force (ls ++ [l]) c'.
Proof.
  intros Hf (_ & _ & _ & Hl). unfold config_line. destruct l as [s|t com]; cbn [line_of].
  - destruct Hl as (Hwf & Hv & Hp). rewrite namevalueparams_spec by done. cbn [rbind]. rewrite Hv.
    destruct (in_force_setting ls c s Hf) as (c' & -> & Hf'). exists c'. split; [|done].
    unfold params_allowed in Hp. rewrite length_fmap.
    destruct (minparams (s_name s)) as [mn|]; [|done]. destruct (maxparams (s_name s)) as [mx|]; [|done].
    cbn [rbind]. by rewrite Hp.
  - destruct Hl as (Hn & Hh & He). exists c. rewrite <-app_assoc. unfold namevalueparams.
    destruct (strip_comment t com Hh Hn) as [post E]. rewrite <-rbind_assoc, E. cbn [rbind].
    unfold a_delim_b, strchr. rewrite drop_0, strchr_from_none by done. cbn. split; [done|].
    destruct Hf as [Hs Hc]. split; [done|]. intros name. specialize (Hc name).
    rewrite given_app. cbn [given]. by rewrite app_nil_r.
Qed.

Lemma length_file ls : (length ls <= length (file_of ls))%nat.
Proof.
  unfold file_of. induction ls as [|l ls IH]; cbn; [lia|]. repeat (rewrite length_app; cbn [length]). lia.
Qed.

Lemma read_lines_ok ls : forall fuel fd done c,
  in_force done c -> Forall fline_ok ls -> fd_data fd = Some (file_of ls) -> (length ls < fuel)%nat ->
  exists c', read_lines fuel fd c = Ok (Some c') /\ in_force (done ++ ls) c'.
Proof.
  induction ls as [|l ls IH]; intros fuel fd prev c Hc Hl Hd Hf; (destruct fuel as [|fuel]; [cbn in Hf; lia|]);
    cbn [read_lines].
  - destruct (readline_end fd 1024) as (fd' & -> & _); [lia | done |]. exists c. by rewrite app_nil_r.
  - apply Forall_cons in Hl as [Hl Hls]. pose proof Hl as (Hnl & Hcr & Hlen & _).
    destruct (readline_line fd (line_of l) (file_of ls) 1024) as (fd' & -> & Hd'); [done|done|lia| |].
    { rewrite Hd. unfold file_of. cbn [fmap list_fmap concat]. by rewrite <-app_assoc. }
    destruct (config_line_ok prev c l Hc Hl) as (c1 & -> & Hc1). cbn [rbind].
    destruct (IH fuel fd' (prev ++ [l]) c1 Hc1 Hls Hd') as (c' & E & Hc'); [cbn in Hf; lia|].
    exists c'. split; [done|]. by rewrite <-app_assoc in Hc'.
Qed.

(** [strchr] on a terminated line. *)
Lemma strchr_from_total l c off :
  exists p, strchr_from (l ++ [nul]) off c = Ok p /\ (forall q, p = Some q -> off <= q <= off + length l)%nat.
Proof.
  revert off. induction l as [|x l IH]; intros off; cbn [strchr_from app].
  - destruct (chr_eqb nul c); eexists; (split; [done|]); intros q; [intros [= <-]; cbn; lia | done].
  - destruct (chr_eqb x c); [eexists; split; [done|]; intros q [= <-]; lia|].
    destruct (chr_eqb x nul); [by eexists|]. destruct (IH (S off)) as (p & -> & Hp). exists p.
    split; [done|]. intros q Hq. apply Hp in Hq. cbn [length]. lia.
Qed.

(** ** Properties *)

(** A line "name = value ; parameter ..." is parsed into that name, value
    and list of parameters whatever blanks stand around the words and whatever
    comment follows, and no access leaves the buffer. *)
Theorem setting_line_parsed s :
  setting_wf s ->
  namevalueparams (setting_line s ++ [nul]) = Ok (1, Some (s_name s, s_value s, snd <$> s_params s)).
Proof. apply namevalueparams_spec. Qed.

Definition example_setting : setting :=
  Setting [sp] (cs "dnsbl") [sp; tab] [] (cs "bl.example.org") [([sp], [sp], cs "3")] [tab] (Some (cs " = a list")).

Lemma is_word_check w a c x y :
  w = a :: y -> w = x ++ [c] -> is_blank a = false -> is_blank c = false -> existsb (chr_eqb nul) w = false -> is_word w.
Proof.
  intros E1 E2 Ha Hc Hn. split; [|split; eauto]. intros Hin.
  assert (existsb (chr_eqb nul) w = true); [|congruence].
  apply existsb_exists. exists nul. by rewrite <-list_elem_of_In, chr_eqb_eq.
Qed.

Ltac prove_word :=
  match goal with
  | |- is_word ?w => apply (is_word_check w (hd nul w) (List.last w nul) (removelast w) (tl w)); reflexivity
  end.

(** Well-formedness of concrete settings and lines. *)
Ltac prove_wf :=
  repeat first
    [ apply Forall_cons; split | apply Forall_nil_2 | prove_word | apply not_in_check; vm_compute; reflexivity
    | vm_compute; reflexivity | vm_compute; lia | split ].

Lemma example_setting_wf : setting_wf example_setting.
Proof. prove_wf. Qed.

Lemma setting_line_parsed_witness :
  namevalueparams (setting_line example_setting ++ [nul]) = Ok (1, Some (cs "dnsbl", cs "bl.example.org", [cs "3"])).
Proof. apply (setting_line_parsed example_setting). apply example_setting_wf. Defined.

(** C14: reading a configuration file in pieces of any size, from the default
    configuration: when every line is a note or a well-formed setting, the
    file is accepted, a single-valued setting ends with the last value the
    file gives it or else its default, and a multivalue setting has exactly
    the entries of the file, the last one first, the defaults being dropped
    as soon as the file gives one. *)
Theorem read_config_in_force fd ls :
  Forall fline_ok ls -> fd_data fd = Some (file_of ls) ->
  exists c, read_config fd default_config = Ok (Some c) /\ in_force ls c.
Proof.
  intros Hl Hd. apply (read_lines_ok ls (S (fd_size fd)) fd [] default_config); [|done..|].
  - split; [done|]. intros name. by destruct (multivalue name).
  - pose proof (fd_data_size fd _ Hd). pose proof (length_file ls). lia.
Qed.

Definition example_file : list fline :=
  [FNote [] (Some (cs " settings")); FSetting example_setting; FNote [] None;
   FSetting (Setting [] (cs "port") [] [sp] (cs "1111") [] [] None);
   FSetting (Setting [] (cs "port") [sp] [sp] (cs "2222") [] [] (Some []));
   FSetting (Setting [] (cs "stat_type") [sp] [sp] (cs "none") [] [] None)].

Lemma read_config_in_force_witness :
  exists c, read_config [Chunk (take 5 (file_of example_file)); Intr; Chunk (drop 5 (file_of example_file))] default_config
    = Ok (Some c) /\ in_force example_file c.
Proof.
  apply read_config_in_force; [|vm_compute; reflexivity].
  prove_wf.
Defined.

(** A line that starts with the delimiter sends [trim] in front of the
    line buffer: after the delimiter is overwritten the name is the empty
    string, and the backward loop starts at the byte before it. *)
Theorem empty_name_reads_before_buffer config value :
  config_line config ("="%char :: value) = Fail OutOfBounds.
Proof.
  unfold config_line, namevalueparams, strchr. rewrite drop_0.
  assert (exists rest, (p ← strchr_from (("="%char :: value) ++ [nul]) 0 "#"%char;
    match p with Some ptr => aset (("="%char :: value) ++ [nul]) (Z.of_nat ptr) nul
    | None => Ok (("="%char :: value) ++ [nul]) end) = Ok ("="%char :: rest)) as [rest E].
  { cbn [app strchr_from]. destruct (strchr_from_total value "#"%char 1) as (p & E & Hp).
    change (chr_eqb "=" "#") with false. change (chr_eqb "=" nul) with false. cbn iota. rewrite E. cbn [rbind].
    destruct p as [q|]; [|eauto]. specialize (Hp q eq_refl). destruct q as [|q]; [lia|].
    rewrite aset_lt by (cbn [length]; rewrite length_app; cbn [length]; lia).
    rewrite Nat2Z.id. cbn. eauto. }
  rewrite <-(rbind_assoc (strchr_from _ _ _)), E. reflexivity.
Qed.
