(* ===== verification/Postfix.v ===== *)
(** * The Postfix policy protocol ([src/src/worker_postfix.c])

    A connection reads requests of "attribute=value" lines ended by an empty
    line, has each one judged and answers it.  The judge is an interface,
    which [Worker.test_tuple] implements; theorems here hold for any judge. *)

From S2P Require Import Prelude Sha256 Bloom BloomMgr Utils AddrUtils Worker Stats QueryLog.

Inductive parse_status := PARSE_OK | PARSE_CLOSED | PARSE_ERROR | PARSE_SYS_ERROR.

#[export] Instance parse_status_eq_dec : EqDecision parse_status.
Proof. solve_decision. Defined.

(** ** Strings *)

(** What a C string function sees of a line that may hold terminators. *)
Fixpoint c_string (l : cstr) : cstr :=
  match l with
  | [] => []
  | c :: t => if chr_eqb c nul then [] else c :: c_string t
  end.

(** [strstr]: what is before the first occurrence and what is behind it. *)
Fixpoint strstr (s pat : cstr) : option (cstr * cstr) :=
  match try_match pat s with
  | Some rest => Some ([], rest)
  | None =>
      match s with
      | [] => None
      | c :: t => match strstr t pat with Some (a, b) => Some (c :: a, b) | None => None end
      end
  end.

(** [snprintf] of a string into a buffer of [len > 0] bytes. *)
Definition snprintf (len : Z) (s : cstr) : cstr := take (Z.to_nat (len - 1)) s.

Definition REASONTEMPLATE : cstr := cs "%reason%".

Definition assemble_response (len : Z) (template reason : cstr) : cstr :=
  match strstr template REASONTEMPLATE with
  | None => snprintf len template
  | Some (prologue, epilogue) => snprintf len (prologue ++ reason ++ epilogue)
  end.

(** ** Parsing *)

Definition set_sender (t : grey_tuple_t) v : grey_tuple_t :=
  GreyTuple (Some v) (recipient t) (client_address t) (helo_name t) (reference_count t).
Definition set_recipient (t : grey_tuple_t) v : grey_tuple_t :=
  GreyTuple (sender t) (Some v) (client_address t) (helo_name t) (reference_count t).
Definition set_client (t : grey_tuple_t) v : grey_tuple_t :=
  GreyTuple (sender t) (recipient t) (Some v) (helo_name t) (reference_count t).
Definition set_helo (t : grey_tuple_t) v : grey_tuple_t :=
  GreyTuple (sender t) (recipient t) (client_address t) (Some v) (reference_count t).

(** The matching switch: the tuple and the [single_query] flag. *)
Definition match_line (line : cstr) (st : grey_tuple_t * bool) : grey_tuple_t * bool :=
  let '(t, single) := st in
  match try_match (cs "sender=") line with
  | Some m => (set_sender t m, single)
  | None =>
  match try_match (cs "recipient=") line with
  | Some m => (set_recipient t m, single)
  | None =>
  match try_match (cs "client_address=") line with
  | Some m => (set_client t m, single)
  | None =>
  match try_match (cs "helo_name=") line with
  | Some m => (set_helo t m, single)
  | None =>
  match try_match (cs "grossd_mode=") line with
  | Some _ => (t, true)
  | None => (t, single)
  end end end end end.

(** The loop over the lines; [None]: out of fuel. *)
Fixpoint parse_loop (fuel : nat) (fd : rfd ascii) (input : bool) (st : grey_tuple_t * bool)
    : option (parse_status * (grey_tuple_t * bool) * rfd ascii) :=
  match fuel with
  | O => None
  | S fuel =>
      match readline fd MAXLINELEN with
      | None => None
      | Some (ERROR, fd) => Some (PARSE_SYS_ERROR, st, fd)
      | Some (EMPTY, fd) => Some (PARSE_CLOSED, st, fd)
      | Some (DATA l, fd) =>
          let line := c_string l in
          if (length line =? 0)%nat && negb input then Some (PARSE_CLOSED, st, fd)
          else
            let st := match_line line st in
            if (0 <? length line)%nat then parse_loop fuel fd true st
            else Some (if check_request st.1 <? 0 then PARSE_ERROR else PARSE_OK, st, fd)
      end
  end.

Definition parse_postfix (fd : rfd ascii) (single : bool) (t : grey_tuple_t)
    : option (parse_status * (grey_tuple_t * bool) * rfd ascii) :=
  parse_loop (S (fd_size fd)) fd false (t, single).

(** ** The connection *)

Record postfix_config := PostfixConfig { responsegrey : cstr; responseblock : cstr }.

(** What judges the queries: the number of the query on this connection, the
    timeout actions if the protocol has any, and the request; [None]: it still
    waits for the checks. *)
Class Judge := judge : nat -> option (list tmout_action) -> grey_tuple_t -> Res (option (Z * outcome)).

Definition dunno : cstr := cs "action=dunno".

Definition postfix_response (cfg : postfix_config) (ret : Z) (o : outcome) : cstr :=
  if ret <? 0 then dunno
  else
    match o_status o with
    | STATUS_TRUST | STATUS_MATCH => dunno
    | STATUS_BLOCK => assemble_response MAXLINELEN (responseblock cfg) (default (cs "Rejected") (o_reason o))
    | STATUS_GREY => assemble_response MAXLINELEN (responsegrey cfg) (default (cs "Please try again later") (o_reason o))
    | _ => dunno
    end.

(** What a connection has done when it ends. *)
Record session := Session {
  s_ret : parse_status + bool;       (* the last parse, or whether the last [respond] worked *)
  s_out : cstr;                      (* what was written to the client *)
  s_effects : list effect;
  s_log : list cstr }.               (* the lines of the query log *)

Section Connection.
Context `{Judge} `{Finish} (cfg : postfix_config).

(** [None]: waiting, for a query to be judged. *)
Fixpoint connection_loop (fuel : nat) (fd : rfd ascii) (w : wfd) (single : bool) (k : nat) (out : cstr)
    (eff : list effect) (log : list cstr) : Res (option session) :=
  match fuel with
  | O => Fail Undefined
  | S fuel =>
      match parse_postfix fd single request_new with
      | None => Fail Undefined
      | Some (PARSE_OK, (request, single), fd) =>
          j ← judge k None request;
          match j with
          | None => Ok None
          | Some (ret, o) =>
              match respond w (postfix_response cfg ret o) with
              | None => Fail Undefined
              | Some (ok, sent, w) =>
                  line ← finish k request o;
                  _ ← unlink_request (o_request o);
                  let log := log ++ [line] in
                  let out := out ++ sent in
                  let eff := eff ++ o_effects o in
                  if single then Ok (Some (Session (inr ok) out eff log))
                  else connection_loop fuel fd w single (S k) out eff log
              end
          end
      | Some (st, (request, _), _) =>
          _ ← request_unlink request;
          Ok (Some (Session (inl st) out eff log))
      end
  end.

Definition postfix_connection (fd : rfd ascii) (w : wfd) (single : bool) : Res (option session) :=
  connection_loop (S (fd_size fd)) fd w single 0 [] [] [].
End Connection.

(** The judge of the daemon: what [test_tuple] finds for each query. *)
Record query_env := QueryEnv {
  e_ticks : list tick;
  e_first : bloom_ring_queue_t;
  e_second : bloom_ring_queue_t;
  e_connected : bool;
  e_pad : list Z }.

#[export] Instance worker_judge `{Inet} (le : bool) (cfg : worker_config) (envs : nat -> query_env) : Judge :=
  fun k ta r => test_tuple le cfg ta (e_ticks (envs k)) (e_first (envs k)) (e_second (envs k))
    (e_connected (envs k)) (e_pad (envs k)) r.

(** ** Requests as a client writes them *)

Inductive attr :=
  | Sender (v : cstr) | Recipient (v : cstr) | Client (v : cstr) | Helo (v : cstr) | Mode (v : cstr) | Other (line : cstr).

Definition attr_line (a : attr) : cstr :=
  match a with
  | Sender v => cs "sender=" ++ v
  | Recipient v => cs "recipient=" ++ v
  | Client v => cs "client_address=" ++ v
  | Helo v => cs "helo_name=" ++ v
  | Mode v => cs "grossd_mode=" ++ v
  | Other l => l
  end.

Definition known : list cstr := cs <$> ["sender="; "recipient="; "client_address="; "helo_name="; "grossd_mode="]%string.

(** A line that can be sent in one piece. *)
Definition clean (l : cstr) : Prop := nl ∉ l /\ cr ∉ l /\ no_nul l.

Definition attr_ok (a : attr) : Prop :=
  clean (attr_line a) /\ (0 < length (attr_line a) <= 1022)%nat /\
  match a with Other l => Forall (fun p => try_match p l = None) known | _ => True end.

Definition apply_attr (a : attr) (st : grey_tuple_t * bool) : grey_tuple_t * bool :=
  match a with
  | Sender v => (set_sender st.1 v, st.2)
  | Recipient v => (set_recipient st.1 v, st.2)
  | Client v => (set_client st.1 v, st.2)
  | Helo v => (set_helo st.1 v, st.2)
  | Mode _ => (st.1, true)
  | Other _ => st
  end.

Definition lines_text (l : list attr) : cstr := concat ((fun a => attr_line a ++ [nl]) <$> l).
Definition request_text (l : list attr) : cstr := lines_text l ++ [nl].

Definition apply_attrs (l : list attr) (st : grey_tuple_t * bool) : grey_tuple_t * bool :=
  foldl (fun st a => apply_attr a st) st l.

Lemma c_string_no_nul l : no_nul l -> c_string l = l.
Proof.
  unfold no_nul. induction l as [|c l IH]; intros H; [done|]. rewrite not_elem_of_cons in H. cbn.
  destruct (chr_eqb c nul) eqn:E; [apply chr_eqb_eq in E; naive_solver|]. by rewrite IH by naive_solver.
Qed.

Lemma match_line_attr a st : attr_ok a -> match_line (attr_line a) st = apply_attr a st.
Proof.
  destruct st as [t s]. intros (_ & _ & H). destruct a as [v|v|v|v|v|l]; try reflexivity.
  cbn [known fmap list_fmap] in H. repeat rewrite Forall_cons in H. destruct H as (H1 & H2 & H3 & H4 & H5 & _).
  cbn [attr_line]. unfold match_line. by rewrite H1, H2, H3, H4, H5.
Qed.

(** The loop on the lines of a request, up to any point of the stream. *)
Lemma parse_loop_lines l : forall fuel fd input st rest,
  Forall attr_ok l -> fd_data fd = Some (lines_text l ++ rest) ->
  exists fd', fd_data fd' = Some rest /\
    parse_loop (length l + fuel) fd input st =
    parse_loop fuel fd' (input || (0 <? length l)%nat) (apply_attrs l st).
Proof.
  induction l as [|a l IH]; intros fuel fd input st rest Ha Hd; cbn [length Nat.add].
  - exists fd. by rewrite orb_false_r.
  - apply Forall_cons in Ha as [Ha Hl]. pose proof Ha as ((Hnl & Hcr & Hn) & Hlen & _).
    destruct (readline_line fd (attr_line a) (lines_text l ++ rest) MAXLINELEN) as (fd1 & E & Hd1);
      [done|done|unfold MAXLINELEN; lia| |].
    { rewrite Hd. unfold lines_text. cbn [fmap list_fmap concat]. by rewrite <-!app_assoc. }
    destruct (IH fuel fd1 true (apply_attr a st) rest Hl Hd1) as (fd' & Hd' & E'). exists fd'. split; [done|].
    cbn [parse_loop]. rewrite E, c_string_no_nul by done. destruct (Nat.eqb_spec (length (attr_line a)) 0); [lia|].
    cbn [andb]. rewrite (proj2 (Nat.ltb_lt 0 _)) by lia. rewrite match_line_attr, E' by done.
    by rewrite orb_true_r.
Qed.

Lemma parse_loop_blank fuel fd st rest :
  fd_data fd = Some (nl :: rest) ->
  exists fd', fd_data fd' = Some rest /\
    parse_loop (S fuel) fd true st = Some (if check_request st.1 <? 0 then PARSE_ERROR else PARSE_OK, st, fd').
Proof.
  intros Hd. destruct (readline_line fd [] rest MAXLINELEN) as (fd1 & E & Hd1);
    [apply not_elem_of_nil | apply not_elem_of_nil | unfold MAXLINELEN; cbn; lia | done |].
  exists fd1. split; [done|]. cbn [parse_loop]. rewrite E. cbn. by destruct st.
Qed.

Lemma length_lines l : (length l <= length (lines_text l))%nat.
Proof. unfold lines_text. induction l as [|a l IH]; cbn; [lia|]. repeat (rewrite length_app; cbn [length]). lia. Qed.

(** Any fuel that covers the lines gives the same result. *)
Lemma parse_postfix_lines fd single t l rest :
  Forall attr_ok l -> fd_data fd = Some (lines_text l ++ rest) ->
  exists fd' fuel, fd_data fd' = Some rest /\ (length rest <= fuel)%nat /\
    parse_postfix fd single t = parse_loop (S fuel) fd' (0 <? length l)%nat (apply_attrs l (t, single)).
Proof.
  intros Hl Hd. pose proof (fd_data_size fd _ Hd) as Hs. rewrite length_app in Hs. pose proof (length_lines l).
  destruct (parse_loop_lines l (S (fd_size fd - length l)) fd false (t, single) rest Hl Hd) as (fd' & Hd' & E).
  exists fd', (fd_size fd - length l)%nat. split; [done|]. split; [lia|].
  unfold parse_postfix. cbn [orb] in E. rewrite <-E. f_equal. lia.
Qed.

Lemma parse_request fd single t l rest :
  Forall attr_ok l -> l <> [] -> fd_data fd = Some (request_text l ++ rest) ->
  exists fd', fd_data fd' = Some rest /\
    parse_postfix fd single t =
      Some (if check_request (apply_attrs l (t, single)).1 <? 0 then PARSE_ERROR else PARSE_OK,
            apply_attrs l (t, single), fd').
Proof.
  intros Hl Hne Hd. unfold request_text in Hd. rewrite <-app_assoc in Hd.
  destruct (parse_postfix_lines fd single t l _ Hl Hd) as (fd1 & fuel & Hd1 & _ & ->).
  destruct l as [|a l]; [done|]. change (0 <? length (a :: l))%nat with true.
  apply parse_loop_blank. exact Hd1.
Qed.

Lemma parse_end fd single t :
  fd_data fd = Some [] -> exists fd', parse_postfix fd single t = Some (PARSE_CLOSED, (t, single), fd').
Proof.
  intros Hd. unfold parse_postfix. cbn [parse_loop].
  destruct (readline_end fd MAXLINELEN) as (fd' & -> & _); [unfold MAXLINELEN; lia | done | eauto].
Qed.

Lemma clean_prefix (c : ascii) (s : string) v : existsb (chr_eqb c) (cs s) = false -> c ∉ v -> c ∉ cs s ++ v.
Proof. intros Hs Hv. rewrite not_elem_of_app. split; [by apply not_in_check | done]. Qed.

(** ** Sessions *)

Definition tuple_of (l : list attr) : grey_tuple_t := (apply_attrs l (request_new, false)).1.

(** A complete request that does not ask for the single query mode. *)
Definition request_ok (l : list attr) : Prop :=
  Forall attr_ok l /\ l <> [] /\ check_request (tuple_of l) = 0 /\ (forall v, Mode v ∉ l).

Lemma apply_attrs_mode l st : (forall v, Mode v ∉ l) -> (apply_attrs l st).2 = st.2.
Proof.
  unfold apply_attrs. revert st. induction l as [|a l IH]; intros st Hm; cbn; [done|].
  rewrite IH by (intros v Hv; apply (Hm v); by right). destruct a; try done. destruct (Hm v). by left.
Qed.

Lemma apply_attrs_refs l st : reference_count (apply_attrs l st).1 = reference_count st.1.
Proof. unfold apply_attrs. revert st. induction l as [|a l IH]; intros st; cbn; [done|]. rewrite IH. by destruct a. Qed.

Lemma request_ok_tuple l : request_ok l -> apply_attrs l (request_new, false) = (tuple_of l, false).
Proof. intros (_ & _ & _ & Hm). rewrite (surjective_pairing (apply_attrs _ _)). by rewrite apply_attrs_mode. Qed.

Section Sessions.
Context `{Judge} `{Finish} (cfg : postfix_config) (answers : nat -> Z * outcome) (logs : nat -> cstr).

Definition reply_text (i : nat) : cstr := postfix_response cfg (answers i).1 (answers i).2 ++ [nl; nl].

(** The judge gives the answers, the lines of the query log are written, and the
    request can be unlinked. *)
Definition judged_as (k : nat) (l : list attr) : Prop :=
  judge k None (tuple_of l) = Ok (Some (answers k)) /\ finish k (tuple_of l) (answers k).2 = Ok (logs k) /\
  is_ok (unlink_request (o_request (answers k).2)) = true.

Lemma connection_loop_spec reqs : forall fuel fd w k out eff log,
  Forall request_ok reqs -> (forall i l, reqs !! i = Some l -> judged_as (k + i) l) ->
  WErr ∉ w -> fd_data fd = Some (concat (request_text <$> reqs)) -> (length reqs < fuel)%nat ->
  connection_loop cfg fuel fd w false k out eff log =
    Ok (Some (Session (inl PARSE_CLOSED) (out ++ concat (reply_text <$> seq k (length reqs)))
      (eff ++ concat ((fun i => o_effects (answers i).2) <$> seq k (length reqs))) (log ++ (logs <$> seq k (length reqs))))).
Proof.
  induction reqs as [|l reqs IH]; intros fuel fd w k out eff log Hr Hj Hw Hd Hf;
    (destruct fuel as [|fuel]; [cbn in Hf; lia|]); cbn [connection_loop].
  - destruct (parse_end fd false request_new Hd) as (fd' & ->). cbn. by rewrite !app_nil_r.
  - apply Forall_cons in Hr as [Hl Hr]. pose proof Hl as (Ha & Hne & Hc & _).
    cbn [fmap list_fmap concat] in Hd. destruct (parse_request fd false request_new l _ Ha Hne Hd) as (fd' & Hd' & ->).
    rewrite request_ok_tuple by done. cbn [fst]. rewrite Hc. change (0 <? 0) with false. cbn iota.
    destruct (Hj 0%nat l eq_refl) as (E & Ef & Eu). rewrite Nat.add_0_r in E, Ef, Eu. rewrite E. cbn [rbind].
    destruct (answers k) as [ret o] eqn:Eo. cbn [snd] in Ef, Eu.
    destruct (writen_spec w (postfix_response cfg ret o ++ [nl; nl]) Hw) as (w' & Ew & Hw').
    unfold respond, writet. rewrite Ew, Ef. cbn [rbind]. destruct (unlink_request (o_request o)); [|done]. cbn [rbind].
    rewrite (IH fuel fd' w' (S k)); [|done| |done|done|cbn in Hf; lia].
    + cbn [length seq fmap list_fmap concat]. unfold reply_text at 2. rewrite Eo. cbn [fst snd]. by rewrite <-!app_assoc.
    + intros i l' Hi. replace (S k + i)%nat with (k + S i)%nat by lia. by apply Hj.
Qed.

End Sessions.

Lemma length_requests reqs : (length reqs <= length (concat (request_text <$> reqs)))%nat.
Proof.
  induction reqs as [|l reqs IH]; cbn; [lia|]. unfold request_text at 1. repeat (rewrite length_app; cbn [length]). lia.
Qed.

(** ** Properties *)

(** A policy request is parsed into the last value given for each
    attribute, whatever other attributes it has and however the stream is cut
    up; it is accepted exactly when sender, recipient and client address are
    there, and the following request is left unread. *)
Theorem postfix_request_parsed fd l rest :
  Forall attr_ok l -> l <> [] -> fd_data fd = Some (request_text l ++ rest) ->
  exists fd' st, fd_data fd' = Some rest /\
    parse_postfix fd false request_new = Some (if check_request (tuple_of l) <? 0 then PARSE_ERROR else PARSE_OK, st, fd') /\
    st.1 = tuple_of l.
Proof.
  intros Hl Hne Hd. destruct (parse_request fd false request_new l rest Hl Hne Hd) as (fd' & Hd' & E).
  exists fd', (apply_attrs l (request_new, false)). done.
Qed.


(** C40: a line that fills the buffer is cut, and its tail is taken for an
    attribute of its own: a sender address of 1016 characters is enough to
    hand the daemon a client address that Postfix did not send. *)
Theorem long_sender_replaces_client fd l x ip rest :
  Forall attr_ok l -> recipient (tuple_of l) <> None ->
  clean x -> length x = 1016%nat -> clean ip -> (length ip <= 1000)%nat ->
  fd_data fd = Some (lines_text l ++ (cs "sender=" ++ x) ++ lines_text [Client ip] ++ nl :: rest) ->
  exists fd' st, parse_postfix fd false request_new = Some (PARSE_OK, st, fd') /\
    sender st.1 = Some x /\ client_address st.1 = Some ip.
Proof.
  intros Hl Hr (Xn & Xc & X0) Hx (In & Ic & I0) Hip Hd.
  destruct (parse_postfix_lines fd false request_new l _ Hl Hd) as (fd1 & fuel & Hd1 & Hf & ->).
  rewrite !length_app in Hf. change (length (cs "sender=")) with 7%nat in Hf.
  destruct (readline_long fd1 (cs "sender=" ++ x) (lines_text [Client ip] ++ nl :: rest) MAXLINELEN) as (fd2 & E & Hd2);
    [by apply clean_prefix.. | rewrite length_app, Hx; done | done | done |].
  cbn [parse_loop]. rewrite E, c_string_no_nul by (apply no_nul_app; split; [by apply not_in_check | done]).
  replace (length (cs "sender=" ++ x)) with 1023%nat by (rewrite length_app, Hx; done).
  change ((1023 =? 0)%nat && _) with false. change (0 <? 1023)%nat with true. cbn iota.
  destruct fuel as [|[|fuel]]; [lia|lia|].
  destruct (parse_loop_lines [Client ip] (S fuel) fd2 true
    (match_line (cs "sender=" ++ x) (apply_attrs l (request_new, false))) (nl :: rest)) as (fd3 & Hd3 & E3).
  { apply Forall_cons. split; [|constructor]. split; [|split; [|done]].
    - split; [by apply clean_prefix|]. split; [by apply clean_prefix|]. apply no_nul_app. split; [by apply not_in_check | done].
    - cbn [attr_line]. rewrite length_app. change (length (cs "client_address=")) with 15%nat. lia. }
  { done. }
  change (parse_loop (S (S fuel))) with (parse_loop (length [Client ip] + S fuel)). rewrite E3. cbn [orb].
  destruct (parse_loop_blank fuel fd3 (apply_attrs [Client ip] (match_line (cs "sender=" ++ x)
    (apply_attrs l (request_new, false)))) rest Hd3) as (fd4 & _ & ->).
  unfold tuple_of in Hr. clear E3. destruct (apply_attrs l (request_new, false)) as [t s].
  change (match_line (cs "sender=" ++ x) (t, s)) with (set_sender t x, s).
  exists fd4, (set_client (set_sender t x) ip, s). split; [|done]. unfold check_request. cbn in Hr |- *.
  by destruct (recipient t).
Qed.

(** *** Examples *)

Import Dotted.

Definition example_attrs : list attr :=
  [Other (cs "request=smtpd_access_policy"); Sender (cs "a@example.org"); Recipient (cs "b@example.net");
   Client (cs "192.0.2.7"); Helo (cs "mail.example.org")].

(** Well-formedness of concrete requests. *)
Ltac prove_attrs :=
  repeat first
    [ apply Forall_cons; split | apply Forall_nil_2 | apply not_in_check; vm_compute; reflexivity
    | discriminate | vm_compute; reflexivity | vm_compute; lia | split ].

Lemma postfix_request_parsed_witness :
  exists fd' st, fd_data fd' = Some (cs "next") /\
    parse_postfix [Chunk (take 9 (request_text example_attrs)); Intr; Chunk (drop 9 (request_text example_attrs) ++ cs "next")]
      false request_new = Some (if check_request (tuple_of example_attrs) <? 0 then PARSE_ERROR else PARSE_OK, st, fd') /\
    st.1 = tuple_of example_attrs.
Proof. apply postfix_request_parsed; [prove_attrs | discriminate | vm_compute; reflexivity]. Defined.

Definition example_envs (_ : nat) : query_env := QueryEnv [] example_filter example_filter false [].

Definition example_answers (k : nat) : Z * outcome :=
  match worker_judge true (example_wcfg []) example_envs k None (tuple_of example_attrs) with
  | Ok (Some a) => a
  | _ => (-1, Outcome STATUS_FAIL None STATUS_FAIL (QueryLog 0 []) None [])
  end.

Definition example_finish : Finish :=
  protocol_finish (cs "postfix") (fun _ => FinishEnv (Timespec 10 0) (Timespec 10 5000000) (replicate 1024 "x"%char) demo_stats).

Definition example_log (l : list attr) (k : nat) : cstr :=
  match example_finish k (tuple_of l) (example_answers k).2 with Ok line => line | Fail _ => [] end.


Lemma long_sender_replaces_client_witness :
  let x := replicate 1016 "a"%char in
  exists fd' st, parse_postfix [Chunk (lines_text [Recipient (cs "b@example.net"); Client (cs "192.0.2.7")] ++
      (cs "sender=" ++ x) ++ lines_text [Client (cs "198.51.100.1")] ++ nl :: [])] false request_new
    = Some (PARSE_OK, st, fd') /\ sender st.1 = Some x /\ client_address st.1 = Some (cs "198.51.100.1").
Proof.
  intros x. apply (long_sender_replaces_client _ [Recipient (cs "b@example.net"); Client (cs "192.0.2.7")] x
    (cs "198.51.100.1") []); [prove_attrs | discriminate | prove_attrs | reflexivity | prove_attrs | cbn; lia |].
  cbn [fd_data]. rewrite app_nil_r. reflexivity.
Defined.
