(* ===== verification/Sjsms.v ===== *)
(** * The Sun mail server protocol ([src/src/proto_sjsms.c],
      [src/src/worker_sjsms.c])

    One datagram holds a query, the answer is one datagram that starts with a
    letter.  Datagrams and structures are bytes; a string in a structure ends
    at its terminator.  The judge is the interface of the Postfix server. *)

From S2P Require Import Prelude Sha256 Bloom BloomMgr Utils AddrUtils Worker Stats QueryLog Postfix.

(** ** Bytes and strings *)

Definition char_of (b : Z) : ascii := ascii_of_nat (Z.to_nat b).
Definition bytes_of (s : cstr) : list Z := byte_of <$> s.

(** The string that starts at an offset; running off the object is a fault. *)
Fixpoint cstring_from (b : list Z) : Res cstr :=
  match b with
  | [] => Fail OutOfBounds
  | x :: t => if x =? 0 then Ok [] else s ← cstring_from t; Ok (char_of x :: s)
  end.

Definition cstring_at (b : list Z) (off : Z) : Res cstr :=
  if (0 <=? off) && (off <=? Z.of_nat (length b)) then cstring_from (drop (Z.to_nat off) b) else Fail OutOfBounds.

(** ** The messages ([src/include/proto_sjsms.h]) *)

Definition MSGTYPE_QUERY : Z := 0.
Definition MSGTYPE_LOGMSG : Z := 1.
Definition MSGTYPE_QUERY_V2 : Z := 2.

(** [message] has MAXLINELEN bytes. *)
Record sjsms_msg_t := SjsmsMsg { msgtype : Z; msglen : Z; message : list Z }.

Section Order.
Context (le : bool).

Definition htons (w : Z) : Z := load le (be_split 2 w).
Definition ntohs (w : Z) : Z := be_join (store le 2 w).

Definition sjsms_bytes (m : sjsms_msg_t) : list Z := store le 2 (msgtype m) ++ store le 2 (msglen m) ++ message m.

Definition sjsms_of_bytes (b : list Z) : sjsms_msg_t :=
  SjsmsMsg (load le (take 2 b)) (load le (take 2 (drop 2 b))) (drop 4 b).

(** The datagram that [sendto] gets. *)
Definition send_sjsms_msg (m : sjsms_msg_t) : list Z :=
  let mlen := msglen m + 2 * 2 in
  take (Z.to_nat mlen) (sjsms_bytes (SjsmsMsg (htons (msgtype m)) (htons (msglen m)) (message m))).

Definition sjsms_to_host_order (m : sjsms_msg_t) : sjsms_msg_t :=
  SjsmsMsg (ntohs (msgtype m)) (ntohs (msglen m)) (message m).

Definition buildquerystr (sender rcpt caddr : cstr) (helo : option cstr) : cstr :=
  snprintf (MAXLINELEN - 1)
    (cs "sender=" ++ sender ++ nl :: cs "recipient=" ++ rcpt ++ nl :: cs "client_address=" ++ caddr ++
     match helo with Some h => nl :: cs "helo_name=" ++ h | None => [] end ++ [nl; nl]).

(** [junk]: the uninitialised structure on the stack. *)
Definition sendquerystr (junk : list Z) (querystr : cstr) : list Z :=
  let len := Z.min (Z.of_nat (length querystr)) MAXLINELEN in
  send_sjsms_msg (SjsmsMsg MSGTYPE_QUERY_V2 (len mod 2 ^ 16)
    (memcpy_at junk 0 (take (Z.to_nat len) (bytes_of querystr)))).

Definition senderrormsg (junk : list Z) (text : cstr) : list Z :=
  let text := snprintf MAXLINELEN text in
  send_sjsms_msg (SjsmsMsg MSGTYPE_LOGMSG (Z.min (Z.of_nat (length text) + 1) MAXLINELEN)
    (memcpy_at junk 0 (bytes_of text ++ [0]))).

(** ** Reading a query *)

(** A [grey_req_t] is its bytes: four 16-bit offsets and the strings. *)
Definition GREY_REQ_SIZE : nat := 8 + 1024.

Definition req_field (request : list Z) (i : nat) : Z := ntohs (load le (take 2 (drop (2 * i) request))).

Definition sendquery (junk request : list Z) : list Z :=
  let len := Z.min (req_field request 0 + Z.of_nat GREY_REQ_SIZE - 8) MAXLINELEN in
  send_sjsms_msg (SjsmsMsg MSGTYPE_QUERY (len mod 2 ^ 16) (memcpy_at junk 0 (take (Z.to_nat len) request))).

Definition recvquery (m : sjsms_msg_t) (request : list Z) : Res (list Z) :=
  let n := Z.to_nat (Z.min (msglen m) MAXLINELEN) in
  aset (memcpy_at request 0 (take n (message m))) (8 + (MAXLINELEN - 1)) 0.

Definition recvquerystr (m : sjsms_msg_t) : cstr :=
  match cstring_from (message m) with
  | Ok s => take (Z.to_nat (MAXLINELEN - 1)) s
  | Fail _ => take (Z.to_nat (MAXLINELEN - 1)) (char_of <$> message m)
  end.

Definition unfold (request : list Z) : Res (option grey_tuple_t) :=
  let s := req_field request 1 in
  let r := req_field request 2 in
  let c := req_field request 3 in
  if (MAXLINELEN <=? s) || (MAXLINELEN <=? r) || (MAXLINELEN <=? c) then Ok None
  else
    sender ← cstring_at request (8 + s);
    rcpt ← cstring_at request (8 + r);
    client ← cstring_at request (8 + c);
    Ok (Some (GreyTuple (Some sender) (Some rcpt) (Some client) (Some (cs "<unknown>")) 1)).
End Order.

(** The line up to a newline, and the rest. *)
Fixpoint next_line (s : cstr) : option (cstr * cstr) :=
  match s with
  | [] => None
  | c :: t =>
      if chr_eqb c nl then Some ([], t)
      else match next_line t with Some (l, r) => Some (c :: l, r) | None => None end
  end.

Fixpoint parse_lines (fuel : nat) (s : cstr) (t : grey_tuple_t) : grey_tuple_t :=
  match fuel with
  | O => t
  | S fuel =>
      match next_line s with
      | None => t
      | Some ([], _) => t
      | Some (l, rest) => parse_lines fuel rest (process_parameter t l).2
      end
  end.

Definition parsequery (request : cstr) : option grey_tuple_t :=
  let t := parse_lines (S (length request)) request request_new in
  if check_request t <? 0 then None else Some t.

(** ** The answer *)

(** [to] is the buffer, [i] and [o] the offsets of the two pointers. *)
Fixpoint mapping_loop (from : cstr) (len i : Z) (to : list ascii) (o : Z) : Res (Z * list ascii) :=
  match from with
  | [] => Ok (i, to)
  | c :: t =>
      if i <? len - 3 then
        if chr_eqb c sp then
          to ← aset to o "$"%char;
          to ← aset to (o + 1) c;
          mapping_loop t len (i + 1) to (o + 2)
        else
          to ← aset to o c;
          mapping_loop t len (i + 1) to (o + 1)
      else Ok (i, to)
  end.

Definition mappingstr (from : option cstr) (to : list ascii) (len : Z) : Res (Z * list ascii) :=
  match from with
  | None => Ok (0, to)
  | Some from =>
      '(i, to) ← mapping_loop from len 0 to 0;
      Ok (if len - 2 <? i then -1 else 0, to)
  end.

Definition assemble_mapresult (template : cstr) (reason : option cstr) : Res cstr :=
  '(_, mapreason) ← mappingstr reason (replicate 1024 nul) MAXLINELEN;
  n ← strlen_at mapreason 0;
  let mapreason := take n mapreason in
  match strstr template REASONTEMPLATE with
  | None => Ok (snprintf MAXLINELEN template)
  | Some (prologue, epilogue) => Ok (snprintf MAXLINELEN (prologue ++ mapreason ++ epilogue))
  end.

Record sjsms_config := SjsmsConfig {
  sj_responsegrey : cstr; sj_responsematch : cstr; sj_responsetrust : cstr; sj_responseblock : cstr;
  sj_timelimit : Z }.

(** Action 0 is [calm_client], which sends the letter P. *)
Definition timeout_actions (cfg : sjsms_config) : list tmout_action :=
  if 1000 <? sj_timelimit cfg then [TmoutAction 1000 (Some O); TmoutAction (sj_timelimit cfg) None]
  else [TmoutAction (sj_timelimit cfg) None].

Definition calm_client (e : effect) : list cstr := match e with RunAction _ _ => [cs "P"] | _ => [] end.

Definition sjsms_response (cfg : sjsms_config) (ret : Z) (o : outcome) : Res cstr :=
  if ret <? 0 then Ok (snprintf MAXLINELEN (cs "F"))
  else
    match o_status o with
    | STATUS_MATCH => Ok (snprintf MAXLINELEN (cs "M " ++ sj_responsematch cfg))
    | STATUS_GREY =>
        m ← assemble_mapresult (sj_responsegrey cfg) (o_reason o); Ok (snprintf MAXLINELEN (cs "G " ++ m))
    | STATUS_BLOCK =>
        m ← assemble_mapresult (sj_responseblock cfg) (o_reason o); Ok (snprintf MAXLINELEN (cs "B " ++ m))
    | STATUS_TRUST => Ok (snprintf MAXLINELEN (cs "T " ++ sj_responsetrust cfg))
    | _ => Ok (snprintf MAXLINELEN (cs "F"))
    end.

(** ** The handler *)

(** What a datagram led to: the datagrams sent back, the effects of the
    verdict, the line of the query log, and a line logged for the client. *)
Record sjsms_done := SjsmsDone {
  sj_sent : list cstr; sj_effects : list effect; sj_log : option cstr; sj_said : option cstr }.

Definition nothing : sjsms_done := SjsmsDone [] [] None None.

Section Handler.
Context `{Judge} `{Finish} (le : bool) (cfg : sjsms_config).

(** [junk]: the uninitialised [grey_req_t] and the block [Malloc] returns. *)
Definition sjsms_query (k : nat) (tuple : grey_tuple_t) : Res (option sjsms_done) :=
  j ← judge k (Some (timeout_actions cfg)) tuple;
  match j with
  | None => Ok None
  | Some (ret, o) =>
      response ← sjsms_response cfg ret o;
      line ← finish k tuple o;
      _ ← unlink_request (o_request o);
      Ok (Some (SjsmsDone ((o_effects o ≫= calm_client) ++ [response]) (o_effects o) (Some line) None))
  end.

Definition log_message (junk : list Z) (msg : sjsms_msg_t) : Res cstr :=
  _ ← c_assert (negb (msglen msg =? 0));    (* Malloc *)
  str ← aset (memcpy_at (take (Z.to_nat (msglen msg)) junk) 0
                (take (Z.to_nat (Z.min (msglen msg) MAXLINELEN)) (message msg))) (msglen msg - 1) 0;
  cstring_from str.

Definition sjsms_connection (k : nat) (junk : list Z) (datagram : list Z) : Res (option sjsms_done) :=
  _ ← c_assert (0 <? length datagram)%nat;
  _ ← c_assert (length datagram <=? MSGSZ)%nat;
  let msg := sjsms_to_host_order le (sjsms_of_bytes le (memcpy_at (replicate (4 + 1024) 0) 0 datagram)) in
  if msgtype msg =? MSGTYPE_QUERY then
    request ← recvquery msg (take GREY_REQ_SIZE junk);
    tuple ← unfold le request;
    match tuple with None => Ok (Some nothing) | Some t => sjsms_query k t end
  else if msgtype msg =? MSGTYPE_QUERY_V2 then
    match parsequery (recvquerystr msg) with None => Ok (Some nothing) | Some t => sjsms_query k t end
  else if msgtype msg =? MSGTYPE_LOGMSG then
    str ← log_message junk msg;
    Ok (Some (SjsmsDone [] [] None (Some str)))
  else Ok (Some nothing).

(** One turn of the server: the datagram is cut to the buffer and copied for
    the thread that will handle it. *)
Definition sjsms_receive (datagram : list Z) : Res (list Z) :=
  let mesg := take (Z.to_nat MAXLINELEN) datagram in
  _ ← c_assert (negb (length mesg =? 0)%nat);    (* Malloc *)
  Ok mesg.

Definition sjsms_serve (k : nat) (junk : list Z) (datagram : list Z) : Res (option sjsms_done) :=
  mesg ← sjsms_receive datagram; sjsms_connection k junk mesg.
End Handler.

(** ** Bytes *)

Lemma char_of_byte c : char_of (byte_of c) = c.
Proof. unfold char_of, byte_of. by rewrite Nat2Z.id, ascii_nat_embedding. Qed.

Lemma byte_of_zero c : byte_of c = 0 -> c = nul.
Proof. intros H. rewrite <-(char_of_byte c), H. reflexivity. Qed.

Lemma bytes_of_is_byte s : Forall is_byte (bytes_of s).
Proof. apply Forall_fmap, Forall_true. intros c. apply byte_of_range. Qed.

Lemma cstring_from_bytes s rest : no_nul s -> cstring_from (bytes_of s ++ 0 :: rest) = Ok s.
Proof.
  unfold no_nul, bytes_of. induction s as [|c s IH]; intros Hn; [done|]. rewrite not_elem_of_cons in Hn. cbn.
  destruct (Z.eqb_spec (byte_of c) 0) as [E|]; [apply byte_of_zero in E; naive_solver|].
  rewrite IH by naive_solver. cbn. by rewrite char_of_byte.
Qed.

Lemma store_htons le w : store le 2 (htons le w) = be_split 2 w.
Proof. apply store_load; [apply be_split_bytes | apply length_be_split]. Qed.

Lemma ntohs_load le l : length l = 2%nat -> Forall is_byte l -> ntohs le (load le l) = be_join l.
Proof. intros Hl Hb. unfold ntohs. by rewrite store_load. Qed.

Lemma memcpy_at_0 {A} (dst src : list A) : memcpy_at dst 0 src = src ++ drop (length src) dst.
Proof. done. Qed.

(** ** A query on the wire *)

Lemma sendquerystr_wire le junk q :
  length junk = 1024%nat -> (length q <= 1024)%nat ->
  sendquerystr le junk q = be_split 2 MSGTYPE_QUERY_V2 ++ be_split 2 (Z.of_nat (length q)) ++ bytes_of q.
Proof.
  intros Hj Hq. unfold sendquerystr, send_sjsms_msg, sjsms_bytes. cbn [msgtype msglen message].
  rewrite Z.min_l by (unfold MAXLINELEN; lia). rewrite Z.mod_small by lia. rewrite !store_htons, Nat2Z.id.
  rewrite (take_ge (bytes_of q)) by (unfold bytes_of; by rewrite length_fmap). rewrite memcpy_at_0.
  rewrite !app_assoc. rewrite take_app_length' by (rewrite !length_app, !length_be_split; unfold bytes_of; rewrite length_fmap; lia).
  done.
Qed.

(** What the handler makes of any datagram. *)
Definition received_msg (le : bool) (d : list Z) : sjsms_msg_t :=
  sjsms_to_host_order le (sjsms_of_bytes le (memcpy_at (replicate (4 + 1024) 0) 0 d)).

Lemma received_msg_spec le d :
  Forall is_byte d -> (length d <= 1028)%nat ->
  let b := d ++ replicate (1028 - length d) 0 in
  received_msg le d = SjsmsMsg (be_join (take 2 b)) (be_join (take 2 (drop 2 b))) (drop 4 b).
Proof.
  intros Hb Hl b. unfold received_msg. rewrite memcpy_at_0, drop_replicate. change (4 + 1024)%nat with 1028%nat. fold b.
  assert (Forall is_byte b) as Hbb.
  { apply Forall_app. split; [done|]. apply Forall_replicate. unfold is_byte. lia. }
  assert (length b = 1028%nat) as Hlb by (unfold b; rewrite length_app, length_replicate; lia).
  unfold sjsms_to_host_order, sjsms_of_bytes. cbn [msgtype msglen message]. rewrite !ntohs_load; try done.
  - rewrite length_take, length_drop. lia.
  - by apply Forall_take, Forall_drop.
  - rewrite length_take. lia.
  - by apply Forall_take.
Qed.

Lemma received_query le q :
  no_nul q -> (length q <= 1020)%nat ->
  let d := be_split 2 MSGTYPE_QUERY_V2 ++ be_split 2 (Z.of_nat (length q)) ++ bytes_of q in
  msgtype (received_msg le d) = MSGTYPE_QUERY_V2 /\ recvquerystr (received_msg le d) = q.
Proof.
  intros Hn Hq d.
  assert (length d = (4 + length q)%nat) as Hd
    by (unfold d; rewrite !length_app, !length_be_split; unfold bytes_of; rewrite length_fmap; lia).
  rewrite received_msg_spec; [|unfold d; rewrite !Forall_app; split_and!; (apply be_split_bytes || apply bytes_of_is_byte)|lia].
  rewrite Hd. unfold d. rewrite <-!app_assoc. split; cbn [msgtype].
  - rewrite take_app_length' by (by rewrite length_be_split). rewrite be_join_split. reflexivity.
  - unfold recvquerystr. cbn [message].
    replace (1028 - (4 + length q))%nat with (S (1023 - length q)) by lia. cbn [replicate].
    rewrite app_assoc, drop_app_length' by (rewrite length_app, !length_be_split; lia).
    rewrite cstring_from_bytes by done. apply take_ge. unfold MAXLINELEN. lia.
Qed.

(** ** Parsing a query string *)

Lemma next_line_app l r : nl ∉ l -> next_line (l ++ nl :: r) = Some (l, r).
Proof.
  induction l as [|c l IH]; intros Hn; cbn; [done|]. rewrite not_elem_of_cons in Hn.
  destruct (chr_eqb c nl) eqn:E; [apply chr_eqb_eq in E; naive_solver|]. by rewrite IH by naive_solver.
Qed.

Lemma parse_lines_step fuel l r t :
  nl ∉ l -> l <> [] -> parse_lines (S fuel) (l ++ nl :: r) t = parse_lines fuel r (process_parameter t l).2.
Proof. intros Hn Hne. cbn [parse_lines]. rewrite next_line_app by done. by destruct l. Qed.

Definition query_tuple (sender rcpt caddr : cstr) (helo : option cstr) : grey_tuple_t :=
  GreyTuple (Some sender) (Some rcpt) (Some caddr) helo 1.

Definition query_text (sender rcpt caddr : cstr) (helo : option cstr) : cstr :=
  cs "sender=" ++ sender ++ nl :: cs "recipient=" ++ rcpt ++ nl :: cs "client_address=" ++ caddr ++
     match helo with Some h => nl :: cs "helo_name=" ++ h | None => [] end ++ [nl; nl].

Lemma parsequery_text s r c h :
  nl ∉ s -> nl ∉ r -> nl ∉ c -> nl ∉ default [] h ->
  parsequery (query_text s r c h) = Some (query_tuple s r c h).
Proof.
  intros Hs Hr Hc Hh. unfold parsequery, query_text.
  assert (forall (p : string) v, nl ∉ v -> existsb (chr_eqb nl) (cs p) = false -> nl ∉ cs p ++ v) as Hp
    by (intros; by apply clean_prefix).
  remember (length _) as n eqn:En. assert (5 <= n)%nat as Hn.
  { subst n. repeat (rewrite length_app; cbn [length]). change (length (cs "sender=")) with 7%nat. lia. }
  clear En. destruct n as [|[|[|[|[|n]]]]]; [lia..|].
  rewrite (app_assoc (cs "sender=")), parse_lines_step; [|by apply Hp|by destruct s].
  rewrite (app_assoc (cs "recipient=")), parse_lines_step; [|by apply Hp|by destruct r].
  destruct h as [h|]; cbn [default] in Hh.
  - rewrite (app_assoc (cs "client_address=")). cbn [app]. rewrite parse_lines_step; [|by apply Hp|by destruct c].
    rewrite <-app_assoc, (app_assoc (cs "helo_name=")). cbn [app]. rewrite parse_lines_step; [|by apply Hp|by destruct h].
    reflexivity.
  - rewrite (app_assoc (cs "client_address=")). cbn [app]. rewrite parse_lines_step; [|by apply Hp|by destruct c].
    reflexivity.
Qed.

(** ** The answer *)

(** The mapping format: a dollar sign in front of every space. *)
Definition escape_char (c : ascii) : cstr := if chr_eqb c sp then ["$"%char; c] else [c].
Definition escape (s : cstr) : cstr := s ≫= escape_char.

Lemma aset_end {A} (l : list A) i x : Z.of_nat (length l) <= i -> aset l i x = Fail OutOfBounds.
Proof. intros H. unfold aset. rewrite (proj2 (Z.ltb_ge i _)) by done. by rewrite andb_false_r. Qed.

(** Writing at the end of what is written so far. *)
Lemma aset_next {A} (pre room : list A) x :
  aset (pre ++ room) (Z.of_nat (length pre)) x =
  match room with [] => Fail OutOfBounds | _ :: room => Ok ((pre ++ [x]) ++ room) end.
Proof.
  destruct room as [|y room].
  - rewrite app_nil_r. by apply aset_end.
  - rewrite aset_middle by done. by rewrite <-app_assoc.
Qed.

Lemma mapping_loop_spec from : forall i pre room,
  0 <= i ->
  let new := escape (take (Z.to_nat (1021 - i)) from) in
  mapping_loop from MAXLINELEN i (pre ++ room) (Z.of_nat (length pre)) =
  if (length new <=? length room)%nat
  then Ok (i + Z.of_nat (length (take (Z.to_nat (1021 - i)) from)), pre ++ new ++ drop (length new) room)
  else Fail OutOfBounds.
Proof.
  induction from as [|c from IH]; intros i pre room Hi new; unfold new; clear new.
  { rewrite take_nil. cbn. by rewrite Z.add_0_r, drop_0. }
  cbn [mapping_loop]. unfold MAXLINELEN at 1. destruct (Z.ltb_spec i (1024 - 3)) as [Hlt|Hge]; last first.
  { replace (Z.to_nat (1021 - i)) with O by lia. cbn. by rewrite Z.add_0_r, drop_0. }
  replace (Z.to_nat (1021 - i)) with (S (Z.to_nat (1021 - (i + 1)))) by lia. cbn [take].
  set (k := Z.to_nat (1021 - (i + 1))) in *. 
  change (escape (c :: take k from)) with (escape_char c ++ escape (take k from)).
  assert (escape_char c = if chr_eqb c sp then ["$"%char; c] else [c]) as -> by done.
  assert (forall n, i + 1 + Z.of_nat n = i + Z.of_nat (S n)) as Hn by lia.
  destruct (chr_eqb c sp); rewrite aset_next; destruct room as [|y room]; try done; cbn [rbind].
  - replace (Z.of_nat (length pre) + 1) with (Z.of_nat (length (pre ++ ["$"%char]))) by (rewrite length_app; cbn; lia).
    rewrite aset_next. destruct room as [|z room]; [done|]. cbn [rbind].
    replace (Z.of_nat (length pre) + 2) with (Z.of_nat (length ((pre ++ ["$"%char]) ++ [c])))
      by (rewrite !length_app; cbn; lia).
    rewrite IH by lia. fold k. cbn [length app Nat.leb drop]. by rewrite Hn, <-!app_assoc.
  - replace (Z.of_nat (length pre) + 1) with (Z.of_nat (length (pre ++ [c]))) by (rewrite length_app; cbn; lia).
    rewrite IH by lia. fold k. cbn [length app Nat.leb drop]. by rewrite Hn, <-!app_assoc.
Qed.

(** The reason as it goes into the answer, and whether there is room for it. *)
Definition mapped (reason : option cstr) : cstr := escape (take 1021 (default [] reason)).

Definition substituted (template : cstr) (r : cstr) : cstr :=
  match strstr template REASONTEMPLATE with None => template | Some (a, b) => a ++ r ++ b end.

Lemma escape_no_nul s : no_nul s -> no_nul (escape s).
Proof.
  unfold no_nul, escape. intros Hn Hin. apply list_elem_of_bind in Hin as (c & Hc & Hin). unfold escape_char in Hc.
  destruct (chr_eqb c sp); repeat (apply elem_of_cons in Hc as [Hc|Hc]); try discriminate; subst; try done;
    by apply not_elem_of_nil in Hc.
Qed.

Lemma assemble_mapresult_spec template reason :
  no_nul (default [] reason) ->
  assemble_mapresult template reason =
  if (length (mapped reason) <? 1024)%nat then Ok (snprintf MAXLINELEN (substituted template (mapped reason)))
  else Fail OutOfBounds.
Proof.
  intros Hn. unfold assemble_mapresult, substituted, mapped.
  assert (mappingstr reason (replicate 1024 nul) MAXLINELEN =
    if (length (mapped reason) <=? 1024)%nat
    then Ok (0, mapped reason ++ replicate (1024 - length (mapped reason)) nul) else Fail OutOfBounds) as ->.
  { unfold mapped, mappingstr. destruct reason as [r|]; [|done]. cbn [default].
    pose proof (mapping_loop_spec r 0 [] (replicate 1024 nul)) as H. cbn [app length] in H.
    change (Z.of_nat 0) with 0 in H. rewrite H by lia. change (Z.to_nat (1021 - 0)) with 1021%nat.
    rewrite length_replicate, drop_replicate. destruct (_ <=? 1024)%nat; [|done]. cbn [rbind].
    rewrite (proj2 (Z.ltb_ge _ _)); [done|]. unfold MAXLINELEN. rewrite length_take. lia. }
  fold (mapped reason). assert (no_nul (mapped reason)) as Hm.
  { apply escape_no_nul. intros H. apply Hn. rewrite <-(take_drop 1021 (default [] reason)). apply elem_of_app. by left. }
  destruct (Nat.leb_spec (length (mapped reason)) 1024) as [Hle|]; last first.
  { by rewrite (proj2 (Nat.ltb_ge _ _)) by lia. }
  cbn [rbind]. destruct (Nat.ltb_spec (length (mapped reason)) 1024) as [Hlt|Hge].
  - replace (1024 - length (mapped reason))%nat with (S (1023 - length (mapped reason))) by lia. cbn [replicate].
    pose proof (strlen_at_app [] (mapped reason) (replicate (1023 - length (mapped reason)) nul) Hm) as Hs.
    cbn [app length] in Hs. rewrite Hs. cbn [rbind]. rewrite take_app_length. by destruct (strstr _ _) as [[a b]|].
  - replace (1024 - length (mapped reason))%nat with O by lia. rewrite app_nil_r.
    assert (forall l, no_nul l -> strlen_at l 0 = Fail OutOfBounds) as Hf; [|by rewrite Hf].
    clear. intros l. unfold strlen_at, no_nul. rewrite drop_0. induction l as [|c l IH]; intros Hn; [done|].
    rewrite not_elem_of_cons in Hn. cbn. destruct (chr_eqb c nul) eqn:E; [apply chr_eqb_eq in E; naive_solver|].
    by rewrite IH by naive_solver.
Qed.

(** ** Safety of the handler *)

Lemma cstring_from_ok b : 0 ∈ b -> is_ok (cstring_from b) = true.
Proof.
  induction b as [|x b IH]; intros Hin; [by apply not_elem_of_nil in Hin|]. cbn. destruct (Z.eqb_spec x 0); [done|].
  apply elem_of_cons in Hin as [?|Hin]; [congruence|]. apply IH in Hin. by destruct (cstring_from b).
Qed.

Lemma req_field_nonneg le request i : 0 <= req_field le request i.
Proof. unfold req_field, ntohs. apply (be_join_bound (store le 2 _)), store_bytes. Qed.

(** Any request unfolds, since its last byte is a terminator. *)
Lemma recvquery_unfold le m junk :
  (GREY_REQ_SIZE <= length junk)%nat -> 0 <= msglen m -> length (message m) = 1024%nat ->
  is_ok (request ← recvquery m (take GREY_REQ_SIZE junk); unfold le request) = true.
Proof.
  intros Hj Hm Hl. unfold recvquery. set (req := memcpy_at _ _ _).
  assert (length req = 1032%nat) as Hr.
  { unfold req. rewrite length_memcpy_at; [|rewrite !length_take]; rewrite ?length_take; unfold GREY_REQ_SIZE in *; lia. }
  rewrite aset_lt by (unfold MAXLINELEN; lia). cbn [rbind]. change (Z.to_nat (8 + (MAXLINELEN - 1))) with 1031%nat.
  set (request := <[1031%nat := 0]> req).
  assert (length request = 1032%nat) as Hq by (unfold request; by rewrite length_insert).
  assert (forall i, req_field le request i < MAXLINELEN -> is_ok (cstring_at request (8 + req_field le request i)) = true) as Hs.
  { intros i Hi. pose proof (req_field_nonneg le request i) as H0. unfold MAXLINELEN in Hi. unfold cstring_at.
    rewrite (proj2 (Z.leb_le 0 _)) by lia.
    rewrite (proj2 (Z.leb_le _ (Z.of_nat (length request)))) by lia. cbn [andb].
    apply cstring_from_ok. apply (list_elem_of_lookup_2 _ (1031 - Z.to_nat (8 + req_field le request i))).
    rewrite lookup_drop. replace (_ + _)%nat with 1031%nat by lia. apply list_lookup_insert_eq. lia. }
  unfold unfold. destruct (Z.leb_spec MAXLINELEN (req_field le request 1)); [done|].
  destruct (Z.leb_spec MAXLINELEN (req_field le request 2)); [done|].
  destruct (Z.leb_spec MAXLINELEN (req_field le request 3)); [done|]. cbn [orb].
  pose proof (Hs 1%nat ltac:(done)). pose proof (Hs 2%nat ltac:(done)). pose proof (Hs 3%nat ltac:(done)).
  destruct (cstring_at request (8 + req_field le request 1)); [|done].
  destruct (cstring_at request (8 + req_field le request 2)); [|done].
  by destruct (cstring_at request (8 + req_field le request 3)).
Qed.

Lemma log_message_ok m junk :
  0 <= msglen m < 65536 -> length (message m) = 1024%nat -> 65536 <= Z.of_nat (length junk) ->
  is_ok (log_message junk m) = negb (msglen m =? 0).
Proof.
  intros Hm Hl Hj. unfold log_message. destruct (Z.eqb_spec (msglen m) 0) as [|Hne]; [done|]. cbn [negb c_assert rbind].
  set (str := memcpy_at _ _ _). assert (length str = Z.to_nat (msglen m)) as Hs.
  { unfold str. rewrite length_memcpy_at; rewrite ?length_take; unfold MAXLINELEN; lia. }
  rewrite aset_lt by lia. cbn [rbind]. apply cstring_from_ok.
  apply (list_elem_of_lookup_2 _ (Z.to_nat (msglen m - 1))). apply list_lookup_insert_eq. lia.
Qed.

(** The query that a datagram holds, if it holds one. *)
Definition datagram_query (le : bool) (junk m : list Z) : option grey_tuple_t :=
  let msg := received_msg le m in
  if msgtype msg =? MSGTYPE_QUERY then
    match (request ← recvquery msg (take GREY_REQ_SIZE junk); unfold le request) with Ok t => t | Fail _ => None end
  else if msgtype msg =? MSGTYPE_QUERY_V2 then parsequery (recvquerystr msg)
  else None.

(** The answer to a query that was judged. *)
Definition answer_text (cfg : sjsms_config) (o : outcome) : option (ascii * cstr) :=
  match o_status o with
  | STATUS_MATCH => Some ("M"%char, sj_responsematch cfg)
  | STATUS_GREY => Some ("G"%char, substituted (sj_responsegrey cfg) (mapped (o_reason o)))
  | STATUS_BLOCK => Some ("B"%char, substituted (sj_responseblock cfg) (mapped (o_reason o)))
  | STATUS_TRUST => Some ("T"%char, sj_responsetrust cfg)
  | _ => None
  end.

(** The reason fits in the buffer it is mapped into. *)
Definition reason_fits (o : outcome) : Prop :=
  no_nul (default [] (o_reason o)) /\ (length (mapped (o_reason o)) < 1024)%nat.

Lemma sjsms_response_text cfg o letter text :
  answer_text cfg o = Some (letter, text) -> reason_fits o ->
  sjsms_response cfg 0 o = Ok (letter :: sp :: take 1021 text).
Proof.
  intros Ha [Hn Hl]. unfold sjsms_response, answer_text in *. cbn [Z.ltb Z.compare].
  assert (forall t, assemble_mapresult t (o_reason o) = Ok (snprintf MAXLINELEN (substituted t (mapped (o_reason o))))) as Hm.
  { intros t. rewrite assemble_mapresult_spec by done. by rewrite (proj2 (Nat.ltb_lt _ _)). }
  assert (forall x : cstr, take 1021 (snprintf MAXLINELEN x) = take 1021 x) as Ht.
  { intros x. unfold snprintf. by rewrite take_take. }
  destruct (o_status o); try done; injection Ha as <- <-; rewrite ?Hm; cbn [rbind]; unfold snprintf at 1;
    change (Z.to_nat (MAXLINELEN - 1)) with (S (S 1021)); cbn [cs String.list_ascii_of_string app take]; by rewrite ?Ht.
Qed.

(** The header of a message is in the first four bytes, zeros if they are missing. *)
Lemma received_msg_head le m :
  Forall is_byte m -> (length m <= 1024)%nat ->
  let b := m ++ replicate 4 0 in
  exists body, received_msg le m = SjsmsMsg (be_join (take 2 b)) (be_join (take 2 (drop 2 b))) body /\
    length body = 1024%nat /\ 0 <= be_join (take 2 (drop 2 b)) < 65536.
Proof.
  intros Hmb Hm b. assert (length b = length m + 4)%nat as Hlb by (unfold b; rewrite length_app, length_replicate; done).
  exists (drop 4 (m ++ replicate (1028 - length m) 0)). split; [|split].
  - rewrite received_msg_spec by (done || lia).
    assert (m ++ replicate (1028 - length m) 0 = b ++ replicate (1024 - length m) 0) as Hz.
    { unfold b. rewrite <-app_assoc, <-replicate_add. do 2 f_equal. lia. }
    f_equal; rewrite Hz; [by rewrite take_app_le by lia|].
    rewrite drop_app_le, take_app_le by (rewrite ?length_drop; lia). done.
  - rewrite length_drop, length_app, length_replicate. lia.
  - assert (Forall is_byte (take 2 (drop 2 b))) as Hbb.
    { apply Forall_take, Forall_drop, Forall_app. split; [done|]. apply Forall_replicate. unfold is_byte. lia. }
    pose proof (be_join_bound _ Hbb) as H0. rewrite length_take, length_drop in H0.
    replace (2 `min` (length b - 2))%nat with 2%nat in H0 by lia. exact H0.
Qed.

(** ** A query that is answered *)

Lemma query_text_no_nul s r c h :
  no_nul s -> no_nul r -> no_nul c -> no_nul (default [] h) -> no_nul (query_text s r c h).
Proof.
  intros Hs Hr Hc Hh. unfold query_text, no_nul in *. destruct h as [h|]; cbn [default] in *;
    repeat (rewrite not_elem_of_app || rewrite not_elem_of_cons); split_and!;
    (done || discriminate || (apply not_in_check; reflexivity) || apply not_elem_of_nil).
Qed.

Lemma buildquerystr_text s r c h : (length (query_text s r c h) <= 1020)%nat -> buildquerystr s r c h = query_text s r c h.
Proof.
  intros Hlen. unfold buildquerystr, query_text, snprintf. apply take_ge. unfold MAXLINELEN. unfold query_text in Hlen. lia.
Qed.

(** What the client's library sends for a request is judged as that request,
    and answered with its response, for every byte order of the two hosts. *)
Lemma sjsms_serve_query `{Judge} `{Finish} le1 le2 cfg k junk1 junk2 s r c h o line letter text :
  no_nul s -> no_nul r -> no_nul c -> no_nul (default [] h) -> nl ∉ s -> nl ∉ r -> nl ∉ c -> nl ∉ default [] h ->
  (length (query_text s r c h) <= 1020)%nat -> length junk1 = 1024%nat ->
  judge k (Some (timeout_actions cfg)) (query_tuple s r c h) = Ok (Some (0, o)) ->
  finish k (query_tuple s r c h) o = Ok line ->
  is_ok (unlink_request (o_request o)) = true -> reason_fits o -> answer_text cfg o = Some (letter, text) ->
  sjsms_serve le2 cfg k junk2 (sendquerystr le1 junk1 (buildquerystr s r c h)) =
    Ok (Some (SjsmsDone ((o_effects o ≫= calm_client) ++ [letter :: sp :: take 1021 text]) (o_effects o) (Some line) None)).
Proof.
  intros S2 R2 C2 H2 S1 R1 C1 H1 Hlen Hj Ho Hfin Hu Hf Ha.
  rewrite buildquerystr_text, sendquerystr_wire by (done || lia).
  pose proof (query_text_no_nul s r c h S2 R2 C2 H2) as Hn. set (q := query_text s r c h) in *.
  destruct (received_query le2 q Hn Hlen) as [Hmt Hqs]. set (d := _ ++ _ ++ bytes_of q) in *.
  assert (length d = (4 + length q)%nat) as Hd
    by (unfold d; rewrite !length_app, !length_be_split; unfold bytes_of; rewrite length_fmap; lia).
  unfold sjsms_serve, sjsms_receive. rewrite take_ge by (unfold MAXLINELEN; lia).
  destruct (Nat.eqb_spec (length d) 0); [lia|]. cbn [negb c_assert rbind]. unfold sjsms_connection.
  rewrite (proj2 (Nat.ltb_lt 0 _)), (proj2 (Nat.leb_le _ MSGSZ)) by (unfold MSGSZ; lia). cbn [c_assert rbind].
  fold (received_msg le2 d). rewrite Hmt, Hqs. cbn [Z.eqb MSGTYPE_QUERY MSGTYPE_QUERY_V2 Pos.eqb].
  unfold q. rewrite parsequery_text by done. unfold sjsms_query. rewrite Ho. cbn [rbind].
  rewrite (sjsms_response_text cfg o letter text Ha Hf), Hfin. cbn [rbind].
  destruct (unlink_request (o_request o)); [|done]. done.
Qed.

Lemma answer_letter cfg o letter text : answer_text cfg o = Some (letter, text) -> letter ∈ cs "GTMB".
Proof.
  intros Ha. unfold answer_text in Ha. destruct (o_status o); try done; injection Ha as <- _; apply list_elem_of_In; cbn; tauto.
Qed.

(** ** Properties *)

(** C35: which datagrams can stop the daemon: the handler of a datagram of any
    bytes accesses no memory out of bounds and fails no assertion, except for an
    empty datagram, for a log message that gives its length as zero, and for a
    query whose judging, response or log line does. *)
Theorem sjsms_datagram_safety `{Judge} `{Finish} le cfg k junk d :
  Forall is_byte d -> 65536 <= Z.of_nat (length junk) ->
  let b := take 1024 d ++ replicate 4 0 in
  is_ok (sjsms_serve le cfg k junk d) =
    negb ((length d =? 0)%nat || ((be_join (take 2 b) =? MSGTYPE_LOGMSG) && (be_join (take 2 (drop 2 b)) =? 0))) &&
    match datagram_query le junk (take 1024 d) with Some t => is_ok (sjsms_query cfg k t) | None => true end.
Proof.
  intros Hb Hjunk b. unfold sjsms_serve, sjsms_receive. change (Z.to_nat MAXLINELEN) with 1024%nat.
  set (m := take 1024 d) in *.
  assert (length m = min 1024 (length d)) as Hm by apply length_take.
  assert (Forall is_byte m) as Hmb by (by apply Forall_take).
  destruct (Nat.eqb_spec (length d) 0) as [E|E].
  { by rewrite (proj2 (Nat.eqb_eq (length m) 0)) by lia. }
  rewrite (proj2 (Nat.eqb_neq (length m) 0)) by lia. cbn [negb c_assert rbind orb]. unfold sjsms_connection, datagram_query.
  rewrite (proj2 (Nat.ltb_lt 0 _)), (proj2 (Nat.leb_le _ MSGSZ)) by (unfold MSGSZ; lia). cbn [c_assert rbind].
  fold (received_msg le m).
  destruct (received_msg_head le m Hmb) as (body & -> & Hbody & Hlen); [lia|]. fold b in Hlen |- *.
  cbn [msgtype]. set (t := be_join (take 2 b)). set (len := be_join (take 2 (drop 2 b))) in *.
  unfold MSGTYPE_QUERY, MSGTYPE_QUERY_V2, MSGTYPE_LOGMSG.
  destruct (Z.eqb_spec t 0) as [->|Ht0].
  { pose proof (recvquery_unfold le (SjsmsMsg 0 len body) junk) as Hr. cbn [msglen message] in Hr.
    specialize (Hr ltac:(unfold GREY_REQ_SIZE; lia) ltac:(lia) Hbody).
    destruct (recvquery _ _) as [req|]; [|done]. cbn [rbind] in *.
    by destruct (unfold le req) as [[tu|]|]. }
  destruct (Z.eqb_spec t 2) as [->|Ht2].
  { by destruct (parsequery _). }
  destruct (Z.eqb_spec t 1) as [->|Ht1]; [|done]. cbn [andb]. rewrite andb_true_r.
  pose proof (log_message_ok (SjsmsMsg 1 len body) junk) as Hl. cbn [msglen message] in Hl.
  specialize (Hl ltac:(lia) Hbody Hjunk). rewrite <-Hl. by destruct (log_message junk _).
Qed.

(** The reason of a verdict is mapped into a buffer with a bound on the
    characters read, not on those written: a reason whose spaces make it
    longer than the buffer is written past its end. *)
Theorem spaced_reason_overruns_buffer `{Judge} `{Finish} cfg k t o :
  judge k (Some (timeout_actions cfg)) t = Ok (Some (0, o)) ->
  o_status o = STATUS_GREY \/ o_status o = STATUS_BLOCK ->
  no_nul (default [] (o_reason o)) -> (1024 <= length (mapped (o_reason o)))%nat ->
  sjsms_query cfg k t = Fail OutOfBounds.
Proof.
  intros Hj Hs Hn Hl. unfold sjsms_query. rewrite Hj. cbn [rbind]. unfold sjsms_response. cbn [Z.ltb Z.compare].
  destruct Hs as [-> | ->]; rewrite assemble_mapresult_spec by done; by rewrite (proj2 (Nat.ltb_ge _ _)).
Qed.

(** *** Examples *)

Import Dotted.

Definition example_sjsms : sjsms_config :=
  SjsmsConfig (cs "$X4.4.3|$N%reason%") (cs "$Y") (cs "$Y") (cs "$N%reason%") 5000.

Definition example_judge : Judge := worker_judge true (example_wcfg []) example_envs.

Definition example_outcome : outcome :=
  match example_judge 0%nat (Some (timeout_actions example_sjsms))
          (query_tuple (cs "a@example.org") (cs "b@example.net") (cs "192.0.2.7") None) with
  | Ok (Some (_, o)) => o
  | _ => Outcome STATUS_FAIL None STATUS_FAIL (QueryLog 0 []) None []
  end.

Definition sjsms_finish : Finish :=
  protocol_finish (cs "sjsms") (fun _ => FinishEnv (Timespec 10 0) (Timespec 10 5000000) (replicate 1024 "x"%char) demo_stats).

Definition trusting_judge : Judge :=
  fun _ _ r => Ok (Some (0, Outcome STATUS_TRUST None STATUS_TRUST (QueryLog 0 []) (Some r) [])).

Lemma sjsms_datagram_safety_witness :
  is_ok (@sjsms_serve trusting_judge sjsms_finish true example_sjsms 0 (replicate (Z.to_nat 65536) 0) [0; 1; 0; 0]) = false.
Proof.
  apply (@sjsms_datagram_safety trusting_judge sjsms_finish true example_sjsms 0 (replicate (Z.to_nat 65536) 0) [0; 1; 0; 0]).
  - repeat constructor; unfold is_byte; lia.
  - rewrite length_replicate. lia.
Defined.

Definition blocking_judge (reason : cstr) : Judge :=
  fun _ _ r => Ok (Some (0, Outcome STATUS_BLOCK (Some reason) STATUS_BLOCK (QueryLog 0 []) (Some r) [])).

Lemma spaced_reason_overruns_buffer_witness :
  @sjsms_query (blocking_judge (replicate 600 sp)) sjsms_finish example_sjsms 0 request_new = Fail OutOfBounds.
Proof.
  eapply (@spaced_reason_overruns_buffer (blocking_judge (replicate 600 sp)) sjsms_finish example_sjsms 0 request_new).
  - reflexivity.
  - right. reflexivity.
  - apply not_in_check. vm_compute. reflexivity.
  - vm_compute. lia.
Defined.

(** One datagram is enough: a query of the first version can give one long string
    as sender and as recipient, and the two are logged into an array that they
    do not fit. *)
Example datagram_overruns_log :
  let text := replicate 600 97 ++ 0 :: bytes_of (cs "192.0.2.7") ++ replicate 414 0 in
  let request := be_split 2 1024 ++ be_split 2 0 ++ be_split 2 0 ++ be_split 2 601 ++ text in
  length request = GREY_REQ_SIZE /\
  is_ok (@sjsms_serve trusting_judge sjsms_finish true example_sjsms 0 (replicate 1100 0)
    (sendquery true (replicate 1024 0) request)) = false /\
  datagram_query true (replicate 1100 0) (take 1024 (sendquery true (replicate 1024 0) request)) =
    Some (GreyTuple (Some (replicate 600 "a"%char)) (Some (replicate 600 "a"%char)) (Some (cs "192.0.2.7")) (Some (cs "<unknown>")) 1).
Proof. vm_compute. split_and!; reflexivity. Qed.
