(* ===== verification/Grosscheck.v ===== *)
(** * The client of the Sun mail server ([src/src/grosscheck.c])

    [grosscheck] is called by the mail server with one string that holds the
    servers to ask and the request; it asks them over UDP and hands the answer
    back.  What [select] and [recvfrom] bring is an input. *)

From S2P Require Import Prelude Utils AddrUtils Worker QueryLog Postfix Sjsms.

Definition SBUFLEN : Z := 256.
Definition MTASTRLEN : nat := 252.
Definition MAP_SEPARATOR : ascii := ","%char.

(** A [sockaddr_in]: address and port. *)
Definition server : Type := list Z * Z.

Record gc_request := GcRequest {
  gc_server1 : server; gc_server2 : server; gc_numservers : nat;
  gc_caddr : cstr; gc_recipient : cstr; gc_sender : cstr; gc_helo : cstr }.

(** ** The argument *)

(** [strncpy] of [n] characters from memory, and the string that it leaves. *)
Fixpoint strncpy_str (n : nat) (src : list ascii) : Res cstr :=
  match n, src with
  | O, _ => Ok []
  | S _, [] => Fail OutOfBounds
  | S n, c :: src => if chr_eqb c nul then Ok [] else s ← strncpy_str n src; Ok (c :: s)
  end.

(** [GETNEXT]: the field up to a separator, and what follows it. *)
Fixpoint getnext (s : cstr) : option (cstr * cstr) :=
  match s with
  | [] => None
  | c :: s =>
      if chr_eqb c MAP_SEPARATOR then Some ([], s)
      else match getnext s with Some (f, r) => Some (c :: f, r) | None => None end
  end.

Section Client.
Context `{Inet} (le : bool).

(** [None]: [GROSSCHECK_ERROR]. *)
Definition parse_request (buffer : cstr) : Res (option gc_request) :=
  match getnext buffer with None => Ok None | Some (ip1, rest) =>
  match pton4 ip1 with None => Ok None | Some a1 =>
  match getnext rest with None => Ok None | Some (ip2, rest) =>
  let (a2, numservers) := match pton4 ip2 with None => ([0; 0; 0; 0], 1%nat) | Some a2 => (a2, 2%nat) end in
  match getnext rest with None => Ok None | Some (port, rest) =>
  port ← int_val (atoi port);
  let port := port mod 2 ^ 16 in
  match getnext rest with None => Ok None | Some (caddr, rest) =>
  match getnext rest with None => Ok None | Some (recipient, rest) =>
  let (sender, helo) := match getnext rest with Some (f, r) => (f, Some r) | None => (rest, None) end in
  let sender := match sender with [] => cs "<>" | _ => sender end in
  match helo with
  | Some h => match getnext h with
      | Some _ => Ok None
      | None => Ok (Some (GcRequest (a1, port) (a2, port) numservers caddr recipient sender h))
      end
  | None => Ok (Some (GcRequest (a1, port) (a2, port) numservers caddr recipient sender []))
  end end end end end end end.

(** ** Waiting for an answer *)

(** What [select] and [recvfrom] bring. *)
Inductive net_event := Datagram (d : cstr) | NoDatagram | RecvError.

Definition recbuf_with (d : cstr) : list ascii := memcpy_at (replicate 1024 nul) 0 (take 1024 d).

(** The loop: the servers asked anew, and the final contents of [recbuf];
    [None]: it still waits. *)
Fixpoint query_loop (numservers : nat) (evs : list net_event) : option (nat * list ascii) :=
  match evs with
  | [] => None
  | Datagram d :: evs =>
      let recbuf := recbuf_with d in
      if chr_eqb (default nul (recbuf !! 0%nat)) "P"%char then query_loop numservers evs else Some (O, recbuf)
  | RecvError :: _ => Some (O, recbuf_with [])
  | NoDatagram :: evs =>
      if (numservers - 1 =? 0)%nat then Some (O, recbuf_with [])
      else match query_loop (numservers - 1) evs with Some (again, recbuf) => Some (S again, recbuf) | None => None end
  end.

(** The string handed to the mail server; [None]: no success. *)
Definition client_result (recbuf : list ascii) : Res (option cstr) :=
  c0 ← aget recbuf 0;
  c1 ← aget recbuf 1;
  let rstr (short : cstr) : Res cstr :=
    if chr_eqb c1 nul then Ok short else n ← strlen_at recbuf 2; Ok (take n (drop 2 recbuf)) in
  let give (r : Res cstr) : Res (option cstr) := r ← r; Ok (Some (take MTASTRLEN r)) in
  if chr_eqb c0 "G"%char then give (rstr (cs "$X4.4.3|$NPlease$ try$ again$ later"))
  else if chr_eqb c0 "T"%char then give (rstr (cs "$Y"))
  else if chr_eqb c0 "M"%char then give (rstr (cs "$Y"))
  else if chr_eqb c0 "B"%char then give (rstr (cs "$N"))
  else Ok None.

(** ** The call *)

(** What is sent and to whom, [None] for a null pointer, and what the mail
    server gets: [None] for [MAP_FAIL]. *)
Record gc_done := GcDone { gc_sent : list (option server * list Z); gc_res : option cstr }.

(** [junk]: the messages on the stack before they are filled in. *)
Definition grosscheck (socket_ok : bool) (junk : list Z) (arg : list ascii) (arglen : Z) (evs : list net_event)
  : Res (option gc_done) :=
  _ ← c_assert (0 <=? arglen);
  if negb socket_ok then Ok (Some (GcDone [] None))
  else if SBUFLEN <=? arglen then Fail OutOfBounds
  else
    buffer ← strncpy_str (Z.to_nat arglen) arg;
    request ← parse_request buffer;
    match request with
    | None => Ok (Some (GcDone [(None, senderrormsg le junk (cs "ERROR: request was: " ++ buffer))] None))
    | Some r =>
        let helo := match gc_helo r with [] => None | h => Some h end in
        let query := sendquerystr le junk (buildquerystr (gc_sender r) (gc_recipient r) (gc_caddr r) helo) in
        match query_loop (gc_numservers r) evs with
        | None => Ok None
        | Some (again, recbuf) =>
            res ← client_result recbuf;
            Ok (Some (GcDone ((Some (gc_server1 r), query) :: replicate again (Some (gc_server2 r), query)) res))
        end
    end.
End Client.

(** ** The argument, read back *)

Definition field (f : cstr) : Prop := MAP_SEPARATOR ∉ f.

Definition map_arg (ip1 ip2 port caddr rcpt sender : cstr) (helo : option cstr) : cstr :=
  ip1 ++ MAP_SEPARATOR :: ip2 ++ MAP_SEPARATOR :: port ++ MAP_SEPARATOR :: caddr ++ MAP_SEPARATOR ::
  rcpt ++ MAP_SEPARATOR :: sender ++ match helo with Some h => MAP_SEPARATOR :: h | None => [] end.

Lemma getnext_app f r : field f -> getnext (f ++ MAP_SEPARATOR :: r) = Some (f, r).
Proof.
  unfold field. induction f as [|c f IH]; intros Hf; cbn; [done|]. rewrite not_elem_of_cons in Hf.
  destruct (chr_eqb c MAP_SEPARATOR) eqn:E; [apply chr_eqb_eq in E; naive_solver|]. by rewrite IH by naive_solver.
Qed.

Lemma getnext_last f : field f -> getnext f = None.
Proof.
  unfold field. induction f as [|c f IH]; intros Hf; cbn; [done|]. rewrite not_elem_of_cons in Hf.
  destruct (chr_eqb c MAP_SEPARATOR) eqn:E; [apply chr_eqb_eq in E; naive_solver|]. by rewrite IH by naive_solver.
Qed.

Lemma strncpy_str_all s : no_nul s -> strncpy_str (length s) s = Ok s.
Proof.
  unfold no_nul. induction s as [|c s IH]; intros Hn; [done|]. rewrite not_elem_of_cons in Hn. cbn.
  destruct (chr_eqb c nul) eqn:E; [apply chr_eqb_eq in E; naive_solver|]. by rewrite IH by naive_solver.
Qed.

Definition sender_of (f : cstr) : cstr := match f with [] => cs "<>" | _ => f end.

Lemma parse_request_arg `{Inet} ip1 ip2 port caddr rcpt sender helo a1 :
  field ip1 -> field ip2 -> field port -> field caddr -> field rcpt -> field sender -> field (default [] helo) ->
  pton4 ip1 = Some a1 -> INT_MIN <= atoi port <= INT_MAX ->
  parse_request (map_arg ip1 ip2 port caddr rcpt sender helo) =
    let p := atoi port mod 2 ^ 16 in
    Ok (Some (GcRequest (a1, p) (default [0; 0; 0; 0] (pton4 ip2), p) (match pton4 ip2 with Some _ => 2 | None => 1 end) caddr rcpt
      (sender_of sender) (default [] helo))).
Proof.
  intros F1 F2 F3 F4 F5 F6 F7 E1 Hp. unfold parse_request, map_arg. rewrite getnext_app, E1, getnext_app by done.
  destruct (pton4 ip2); rewrite getnext_app, int_val_ok by done; cbn [rbind]; rewrite !getnext_app by done;
    (destruct helo as [h|]; cbn [default] in *; [rewrite getnext_app, (getnext_last h) by done | rewrite app_nil_r, getnext_last by done]);
    by destruct sender.
Qed.

(** What the client makes of an answer. *)
Lemma client_result_text letter text :
  letter ∈ cs "GTMB" -> no_nul text -> (length text <= 1021)%nat ->
  client_result (recbuf_with (letter :: sp :: text)) = Ok (Some (take MTASTRLEN text)).
Proof.
  intros Hl Hn Ht. unfold recbuf_with. rewrite take_ge by (cbn; lia). rewrite memcpy_at_0, drop_replicate.
  cbn [length app].
  replace (1024 - S (S (length text)))%nat with (S (1021 - length text)) by lia. cbn [replicate].
  set (rest := replicate (1021 - length text) nul). unfold client_result.
  change (aget (letter :: sp :: text ++ nul :: rest) 0) with (Ok letter).
  change (aget (letter :: sp :: text ++ nul :: rest) 1) with (Ok sp). cbn [rbind].
  change (chr_eqb sp nul) with false. cbn iota.
  pose proof (strlen_at_app [letter; sp] text rest Hn) as Hs. cbn [app length] in Hs. rewrite Hs. cbn [rbind drop].
  rewrite drop_0, take_app_length.
  cbn [cs String.list_ascii_of_string] in Hl.
  repeat (apply elem_of_cons in Hl as [->|Hl]; [reflexivity|]). by apply not_elem_of_nil in Hl.
Qed.

Lemma query_loop_calm n (es : list effect) d :
  hd nul d <> "P"%char -> query_loop n (Datagram <$> (es ≫= calm_client) ++ [d]) = Some (O, recbuf_with d).
Proof.
  intros Hd. induction es as [|e es IH]; cbn [mbind list_bind app fmap list_fmap query_loop].
  - assert (chr_eqb (default nul (recbuf_with d !! 0%nat)) "P" = false) as ->; [|done].
    destruct d as [|c d]; [reflexivity|]. unfold recbuf_with. cbn in Hd. change (take 1024 (c :: d)) with (c :: take 1023 d).
    rewrite memcpy_at_0. cbn. destruct (chr_eqb c "P") eqn:E; [apply chr_eqb_eq in E; congruence | done].
  - destruct e; cbn [calm_client app fmap list_fmap query_loop]; exact IH.
Qed.

(** ** Properties *)

(** A field that ends neither itself nor its line. *)
Definition plain (f : cstr) : Prop := field f /\ nl ∉ f /\ no_nul f.

Lemma map_arg_no_nul ip1 ip2 port caddr rcpt sender helo :
  Forall plain [ip1; ip2; port; caddr; rcpt; sender; default [] helo] ->
  no_nul (map_arg ip1 ip2 port caddr rcpt sender helo).
Proof.
  rewrite !Forall_cons. unfold plain, no_nul. intros (H1 & H2 & H3 & H4 & H5 & H6 & H7 & _). unfold map_arg, MAP_SEPARATOR.
  destruct helo as [h|]; cbn [default] in H7;
    repeat (rewrite not_elem_of_app || rewrite not_elem_of_cons); split_and!; (tauto || discriminate || apply not_elem_of_nil).
Qed.

(** The argument is so short that the query is sent whole. *)
Lemma arg_query_fits ip1 ip2 port caddr rcpt sender helo :
  (length (map_arg ip1 ip2 port caddr rcpt sender helo) < 256)%nat ->
  (length (query_text (sender_of sender) rcpt caddr helo) <= 1020)%nat.
Proof.
  unfold map_arg, query_text, sender_of. intros Hl.
  destruct helo as [h|], sender as [|x sender]; repeat (rewrite length_app in Hl; cbn [length] in Hl);
    repeat (rewrite length_app; cbn [length]); cbn [cs String.list_ascii_of_string length]; lia.
Qed.


Definition example_line : cstr :=
  match sjsms_finish 0%nat (query_tuple (cs "a@example.org") (cs "b@example.net") (cs "192.0.2.7") None) example_outcome with
  | Ok l => l | Fail _ => [] end.

