(* ===== verification/Clients.v ===== *)
(** * The test clients ([src/src/gclient.c], [src/src/client_postfix.c],
      [src/src/client_sjsms.c], [src/src/testgrosscheck.c])

    What a client sends and prints, against what the network brings. *)

From S2P Require Import Prelude Print Utils AddrUtils Worker QueryLog Postfix Sjsms Grosscheck.

Definition GROSSPORT : Z := 5525.

(** What a client puts on its terminal. *)
Inductive output := Line (l : cstr) | Progress (counter cmatch match_ : Z) | Complaint (l : cstr).

(** What it sent: text on a connection, or datagrams. *)
Inductive traffic := Nothing | Stream (to : server) (text : cstr) | Datagrams (to : server) (l : list (list Z)).

Record client_run := ClientRun { c_status : Z; c_sent : traffic; c_shown : list output }.

Section Clients.
Context `{Inet} (le : bool).

(** The server on the command line; an address that [inet_pton] does not take
    leaves zeros. *)
Definition argv_server (argv : list cstr) : Res server :=
  if (length argv =? 9)%nat then
    port ← int_val (atoi (default [] (argv !! 8%nat)));
    Ok (default [0; 0; 0; 0] (pton4 (default [] (argv !! 7%nat))), port mod 2 ^ 16)
  else Ok (default [0; 0; 0; 0] (pton4 (cs "127.0.0.1")), GROSSPORT).

Definition argv_runs (argv : list cstr) : Res Z :=
  if (6 <? length argv)%nat then int_val (atoi (default [] (argv !! 6%nat))) else Ok 1.

Definition argc_ok (argv : list cstr) : bool :=
  let argc := length argv in ((argc =? 9) || (argc =? 7) || (argc =? 6))%nat.

(** ** The Postfix client *)

(** The [line] buffer, what was shown, and the two counters of matches. *)
Record pf_client := PfClient { pc_line : list ascii; pc_shown : list output; pc_match : Z; pc_cmatch : Z }.

(** The loop over the lines of an answer; [None]: it runs on. *)
Fixpoint answer_loop (fuel : nat) (fd : rfd ascii) (c : pf_client) : Res (option (bool * rfd ascii * pf_client)) :=
  match fuel with
  | O => Ok None
  | S fuel =>
      match readline fd MAXLINELEN with
      | None => Fail Undefined
      | Some (ERROR, fd) => Ok (Some (false, fd, c))
      | Some (r, fd) =>
          let line := match r with DATA l => memcpy_at (pc_line c) 0 (l ++ [nul]) | _ => pc_line c end in
          n ← strlen_at line 0;
          let shown := pc_shown c ++ (if (0 <? n)%nat then [Line (take n line)] else []) in
          c0 ← aget line 0;
          c8 ← aget line 8;
          let hit := if negb (chr_eqb c0 nul) && chr_eqb c8 "u"%char then 1 else 0 in
          let c := PfClient line shown (pc_match c + hit) (pc_cmatch c + hit) in
          if (0 <? n)%nat then answer_loop fuel fd c else Ok (Some (true, fd, c))
      end
  end.

(** The text of a request; [mbuf] has [4 * MAXLINELEN] bytes. *)
Definition postfix_query (sender recipient caddr helo : cstr) : cstr :=
  snprintf (4 * MAXLINELEN)
    (cs "sender=" ++ sender ++ nl :: cs "recipient=" ++ recipient ++ nl ::
     cs "client_address=" ++ caddr ++ nl :: cs "helo_name=" ++ helo ++ [nl; nl]).

(** The loop over the runs: whether they were all made, what was written and
    shown. *)
Fixpoint postfix_runs (n : nat) (counter : Z) (fuel : nat) (query : cstr) (fd : rfd ascii) (out : cstr) (c : pf_client)
  : Res (option (bool * cstr * list output)) :=
  match n with
  | O => Ok (Some (true, out, pc_shown c))
  | S n =>
      let counter := counter + 1 in
      r ← answer_loop fuel fd c;
      match r with
      | None => Ok None
      | Some (false, _, c) => Ok (Some (false, out ++ query, pc_shown c))
      | Some (true, fd, c) =>
          let c := if counter mod 10000 =? 0
            then PfClient (pc_line c) (pc_shown c ++ [Progress counter (pc_cmatch c) (pc_match c)]) 0 (pc_cmatch c)
            else c in
          postfix_runs n counter fuel query fd (out ++ query) c
      end
  end.

(** [junk]: the [line] buffer on the stack. *)
Definition client_postfix (fuel : nat) (argv : list cstr) (connect_ok : bool) (fd : rfd ascii) (junk : list ascii)
  : Res (option client_run) :=
  if negb (argc_ok argv) then
    Ok (Some (ClientRun 1 Nothing
      [Complaint (cs "usage: gclient postfix sender recipient ip_address helo [runs] [host port]")]))
  else
    let arg i := default [] (argv !! i) in
    gserv ← argv_server argv;
    if negb connect_ok then Ok (Some (ClientRun 2 Nothing [Complaint (cs "connect")]))
    else
      runs ← argv_runs argv;
      let query := postfix_query (arg 2%nat) (arg 3%nat) (arg 4%nat) (arg 5%nat) in
      r ← postfix_runs (Z.to_nat runs) 0 fuel query fd [] (PfClient junk [] 0 0);
      match r with
      | None => Ok None
      | Some (true, out, shown) => Ok (Some (ClientRun 0 (Stream gserv out) shown))
      | Some (false, out, shown) => Ok (Some (ClientRun 2 (Stream gserv out) (shown ++ [Complaint (cs "readline")])))
      end.

(** ** The client of the Sun mail server's protocol *)

(** [recvfrom] until the answer does not start with [P]; [n] is -1 after an
    error. *)
Fixpoint receive_loop (evs : list net_event) (shown : list output) : Res (option (list net_event * list output)) :=
  match evs with
  | [] | NoDatagram :: _ => Ok None
  | RecvError :: _ => Fail OutOfBounds
  | Datagram d :: evs =>
      let recbuf := c_string (take (Z.to_nat MAXLINELEN) d) in
      let shown := shown ++ [Line (cs "got: " ++ recbuf)] in
      if chr_eqb (hd nul recbuf) "P"%char then receive_loop evs shown
      else Ok (Some (evs, shown ++ [Line recbuf]))
  end.

Fixpoint sjsms_runs (n : nat) (evs : list net_event) (shown : list output) : Res (option (list output)) :=
  match n with
  | O => Ok (Some shown)
  | S n =>
      r ← receive_loop evs shown;
      match r with None => Ok None | Some (evs, shown) => sjsms_runs n evs shown end
  end.

(** [None]: it waits for an answer. *)
Definition client_sjsms (argv : list cstr) (junk : list Z) (evs : list net_event) : Res (option client_run) :=
  if negb (argc_ok argv) then
    Ok (Some (ClientRun 1 Nothing
      [Complaint (cs "usage: gclient sjsms sender recipient ip_address helo [runs] [host port]")]))
  else
    let arg i := default [] (argv !! i) in
    gserv ← argv_server argv;
    runs ← argv_runs argv;
    let request := buildquerystr (arg 2%nat) (arg 3%nat) (arg 4%nat) (Some (arg 5%nat)) in
    r ← sjsms_runs (Z.to_nat runs) evs [];
    match r with
    | None => Ok None
    | Some shown =>
        Ok (Some (ClientRun 0 (Datagrams gserv (replicate (Z.to_nat runs) (sendquerystr le junk request))) shown))
    end.

(** ** The programs *)

(** What the network does for [gclient]. *)
Record client_net := ClientNet {
  n_connect : bool; n_stream : rfd ascii; n_datagrams : list net_event; n_line : list ascii; n_message : list Z }.

Definition gclient (fuel : nat) (argv : list cstr) (net : client_net) : Res (option client_run) :=
  if (length argv <? 2)%nat then Ok (Some (ClientRun 1 Nothing [Complaint (cs "usage gclient PROTOCOL")]))
  else
    let protocol := default [] (argv !! 1%nat) in
    if cstr_eqb protocol (cs "postfix") then client_postfix fuel argv (n_connect net) (n_stream net) (n_line net)
    else if cstr_eqb protocol (cs "sjsms") then client_sjsms argv (n_message net) (n_datagrams net)
    else Ok (Some (ClientRun 1 Nothing [Complaint (cs "supported protocols: 'sjsms' and 'postfix'")])).

(** [testgrosscheck] and the main program of [grosscheck.c]: one call with a
    fixed argument.  A result of [MTASTRLEN] characters has no terminator. *)
Definition mapping_call (complaint : cstr) (arg : cstr) (socket_ok : bool) (junk : list Z) (evs : list net_event)
  : Res (option output) :=
  r ← grosscheck le socket_ok junk (arg ++ [nul]) (Z.of_nat (length arg)) evs;
  match r with
  | None => Ok None
  | Some d =>
      match gc_res d with
      | Some res =>
          if (length res <? MTASTRLEN)%nat then Ok (Some (Line (sdec (Z.of_nat (length res)) ++ cs ": " ++ res)))
          else Fail Undefined
      | None => Ok (Some (Line complaint))
      end
  end.

Definition testgrosscheck := mapping_call (cs "error") (cs "127.0.0.1,,1111,127.0.0.2,foo@foo,bar@bar").

Definition grosscheck_main :=
  mapping_call (cs "Unknown or No reponse ") (cs "127.0.0.1,127.0.0.1,1111,127.0.0.2,foo@foo,bar@bar").
End Clients.

(** ** What the clients do against the servers *)

Definition lines_shown (l : list output) : list cstr := omap (fun o => match o with Line x => Some x | _ => None end) l.

Lemma lines_shown_app l l' : lines_shown (l ++ l') = lines_shown l ++ lines_shown l'.
Proof. apply omap_app. Qed.

(** A line read into the buffer. *)
Lemma line_read (buf : list ascii) l :
  length buf = 1024%nat -> no_nul l -> (length l <= 1022)%nat ->
  let line := memcpy_at buf 0 (l ++ [nul]) in
  strlen_at line 0 = Ok (length l) /\ take (length l) line = l /\ length line = 1024%nat /\
  (exists c, aget line 0 = Ok c) /\ (exists c, aget line 8 = Ok c).
Proof.
  intros Hb Hn Hl line.
  assert (length line = 1024%nat) as Hlen by (unfold line; rewrite length_memcpy_at; [done | rewrite length_app; cbn; lia]).
  assert (line = l ++ nul :: drop (S (length l)) buf) as E.
  { unfold line. rewrite memcpy_at_0, length_app, Nat.add_1_r, <-app_assoc. done. }
  split; [|split; [|split]]; [| |done|].
  - rewrite E. apply (strlen_at_app [] l _ Hn).
  - rewrite E. apply take_app_length.
  - split; [destruct (aget_lt line 0) as (x & _ & E0) | destruct (aget_lt line 8) as (x & _ & E0)]; (lia || by exists x).
Qed.

Lemma answer_loop_reply fuel fd c resp rest :
  length (pc_line c) = 1024%nat -> clean resp -> (0 < length resp <= 1022)%nat ->
  fd_data fd = Some (resp ++ [nl; nl] ++ rest) ->
  exists fd' c', answer_loop (S (S fuel)) fd c = Ok (Some (true, fd', c')) /\ fd_data fd' = Some rest /\
    length (pc_line c') = 1024%nat /\ pc_shown c' = pc_shown c ++ [Line resp].
Proof.
  intros Hb (Hnl & Hcr & Hn) Hl Hd.
  destruct (readline_line fd resp (nl :: rest) MAXLINELEN) as (fd1 & E1 & Hd1); [done|done|unfold MAXLINELEN; lia|done|].
  destruct (readline_line fd1 [] rest MAXLINELEN) as (fd2 & E2 & Hd2);
    [apply not_elem_of_nil | apply not_elem_of_nil | unfold MAXLINELEN; cbn; lia | done |].
  destruct (line_read (pc_line c) resp Hb Hn ltac:(lia)) as (Es & Et & Hb1 & [c0 E0] & [c8 E8]).
  cbn [answer_loop]. rewrite E1, Es. cbn [rbind]. rewrite E0. cbn [rbind]. rewrite E8, Et. cbn [rbind]. rewrite (proj2 (Nat.ltb_lt 0 _)) by lia. cbn [pc_line].
  destruct (line_read _ [] Hb1 (not_elem_of_nil _) ltac:(cbn; lia)) as (Es' & _ & Hb2 & [c0' E0'] & [c8' E8']).
  cbn [app length] in Es', E0', E8', Hb2. rewrite E2. cbn [app]. rewrite Es'. cbn [rbind]. rewrite E0'. cbn [rbind]. rewrite E8'. cbn [rbind Nat.ltb Nat.leb].
  eexists _, _. split; [done|]. split; [done|]. cbn [pc_line pc_shown]. split; [done|]. by rewrite app_nil_r.
Qed.

(** The runs, on a stream of replies. *)
Lemma postfix_runs_replies fuel query resps : forall counter fd out c,
  length (pc_line c) = 1024%nat -> Forall (fun r => clean r /\ (0 < length r <= 1022)%nat) resps ->
  fd_data fd = Some (concat ((fun r => r ++ [nl; nl]) <$> resps)) ->
  exists shown, postfix_runs (length resps) counter (S (S fuel)) query fd out c =
      Ok (Some (true, out ++ concat (replicate (length resps) query), shown)) /\
    lines_shown shown = lines_shown (pc_shown c) ++ resps.
Proof.
  induction resps as [|r resps IH]; intros counter fd out c Hb Hr Hd; cbn [length postfix_runs replicate concat].
  - rewrite app_nil_r. eexists. split; [done|]. by rewrite app_nil_r.
  - apply Forall_cons in Hr as [[Hc Hl] Hr]. cbn [fmap list_fmap concat] in Hd. rewrite <-app_assoc in Hd.
    destruct (answer_loop_reply fuel fd c r _ Hb Hc Hl Hd) as (fd' & c' & -> & Hd' & Hb' & Hs). cbn [rbind].
    set (c2 := if _ =? 0 then _ else _).
    assert (length (pc_line c2) = 1024%nat /\ lines_shown (pc_shown c2) = lines_shown (pc_shown c) ++ [r]) as [Hb2 Hs2].
    { unfold c2. destruct (_ =? 0); cbn [pc_line pc_shown]; rewrite Hs, ?lines_shown_app, ?app_nil_r; done. }
    destruct (IH (counter + 1) fd' (out ++ query) c2 Hb2 Hr Hd') as (shown & -> & E). exists shown.
    rewrite E, Hs2, <-!app_assoc. done.
Qed.

(** The request of the client, as the server sees it. *)
Definition client_attrs (s r c h : cstr) : list attr := [Sender s; Recipient r; Client c; Helo h].

Lemma postfix_query_text s r c h :
  Forall attr_ok (client_attrs s r c h) -> postfix_query s r c h = request_text (client_attrs s r c h).
Proof.
  intros Ha. assert (length (request_text (client_attrs s r c h)) <= 4093)%nat as Hl.
  { unfold client_attrs in Ha. repeat (apply Forall_cons_1 in Ha as [(_ & [_ ?] & _) Ha]).
    unfold request_text, lines_text, client_attrs. cbn [fmap list_fmap concat].
    repeat (rewrite length_app; cbn [length]). lia. }
  assert (cs "sender=" ++ s ++ nl :: cs "recipient=" ++ r ++ nl ::
     cs "client_address=" ++ c ++ nl :: cs "helo_name=" ++ h ++ [nl; nl] = request_text (client_attrs s r c h)) as E.
  { unfold request_text, lines_text, client_attrs. cbn [fmap list_fmap concat attr_line]. by rewrite <-!app_assoc. }
  unfold postfix_query. rewrite E. unfold snprintf. apply take_ge. unfold MAXLINELEN. lia.
Qed.

Lemma client_attrs_ok s r c h : Forall attr_ok (client_attrs s r c h) -> request_ok (client_attrs s r c h).
Proof.
  intros Ha. split; [done|]. split; [done|]. split; [done|]. intros v. unfold client_attrs.
  rewrite !not_elem_of_cons. repeat split; try discriminate. apply not_elem_of_nil.
Qed.

(** C23: the Postfix test client and the server, end to end: for every number of
    runs, the text the client sends is a session of as many complete requests
    for the arguments given to it, and on the server's answers to these, however
    the two streams are cut up, it shows exactly the responses, one for each run
    and in order, and exits with 0. *)
Theorem postfix_client_end_to_end `{HI : Inet} `{HJ : Judge} `{HF : Finish} le cfg answers logs prog s r c h runs net fd w fuel :
  let argv := [prog; cs "postfix"; s; r; c; h; runs] in
  let n := Z.to_nat (atoi runs) in
  let responses := (fun i => postfix_response cfg (answers i).1 (answers i).2) <$> seq 0 n in
  Forall attr_ok (client_attrs s r c h) -> INT_MIN <= atoi runs <= INT_MAX ->
  (forall i, (i < n)%nat -> judged_as answers logs i (client_attrs s r c h)) ->
  Forall (fun x => clean x /\ (0 < length x <= 1022)%nat) responses ->
  WErr ∉ w -> n_connect net = true -> length (n_line net) = 1024%nat ->
  fd_data fd = Some (concat (replicate n (request_text (client_attrs s r c h)))) ->
  exists ses shown, postfix_connection cfg fd w false = Ok (Some ses) /\ s_ret ses = inl PARSE_CLOSED /\
    (fd_data (n_stream net) = Some (s_out ses) ->
     gclient le (S (S fuel)) argv net =
       Ok (Some (ClientRun 0 (Stream (default [0; 0; 0; 0] (pton4 (cs "127.0.0.1")), GROSSPORT)
         (concat (replicate n (request_text (client_attrs s r c h))))) shown)) /\
     lines_shown shown = responses).
Proof.
  intros argv n responses Ha Hr Hj Hres Hw Hc Hline Hd. set (l := client_attrs s r c h) in *.
  assert (Forall request_ok (replicate n l)) as Hok by (apply Forall_replicate; by apply client_attrs_ok).
  eassert (postfix_connection cfg fd w false = Ok (Some _)) as Hs.
  { unfold postfix_connection. apply (connection_loop_spec cfg answers logs (replicate n l)); [done| |done| |].
    - intros i l' Hi. apply lookup_replicate in Hi as [-> Hi]. by apply Hj.
    - by rewrite fmap_replicate.
    - pose proof (fd_data_size fd _ Hd) as Hsz. pose proof (length_requests (replicate n l)) as Hlr.
      rewrite fmap_replicate in Hlr. lia. }
  rewrite length_replicate in Hs.
  destruct (decide (fd_data (n_stream net) = Some (concat (reply_text cfg answers <$> seq 0 n)))) as [Hn|Hn].
  2:{ eexists _, []. split; [exact Hs|]. split; [done|]. cbn [s_out app]. by intros ?. }
  destruct (postfix_runs_replies fuel (request_text l) responses 0 (n_stream net) [] (PfClient (n_line net) [] 0 0))
    as (shown & E & El); [done | done | |].
  { rewrite Hn. unfold responses. by rewrite <-list_fmap_compose. }
  eexists _, shown. split; [exact Hs|]. split; [done|]. intros _. split; [|exact El].
  assert (length responses = n) as Hlen by (unfold responses; by rewrite length_fmap, length_seq). rewrite Hlen in E.
  unfold gclient, client_postfix, argv_server, argv_runs, argv. cbn. rewrite Hc, int_val_ok by done. cbn [rbind negb].
  rewrite postfix_query_text by done. fold l n. rewrite E. done.
Qed.

Definition demo_net (out : cstr) : client_net := ClientNet true [Chunk out; Intr] [] (replicate 1024 "x"%char) [].

Lemma postfix_client_end_to_end_witness :
  let J := @worker_judge Dotted.dotted true (example_wcfg []) example_envs in
  let cfg := PostfixConfig (cs "action=defer_if_permit %reason%") (cs "action=reject %reason%") in
  let attrs := client_attrs (cs "a@example.org") (cs "b@example.net") (cs "192.0.2.7") (cs "mail.example.org") in
  let req := request_text attrs in
  let replies := (fun i => postfix_response cfg (example_answers i).1 (example_answers i).2) <$> seq 0 2 in
  let net := demo_net (concat (reply_text cfg example_answers <$> seq 0 2)) in
  exists ses shown, @postfix_connection J example_finish cfg [Chunk (req ++ req)] [Accept 3; WIntr] false = Ok (Some ses) /\
    s_ret ses = inl PARSE_CLOSED /\
    (fd_data (n_stream net) = Some (s_out ses) ->
     @gclient Dotted.dotted true 2
       [cs "gclient"; cs "postfix"; cs "a@example.org"; cs "b@example.net"; cs "192.0.2.7"; cs "mail.example.org"; cs "2"] net =
       Ok (Some (ClientRun 0 (Stream ([127; 0; 0; 1], 5525) (req ++ req ++ [])) shown)) /\
     lines_shown shown = replies).
Proof.
  intros J cfg attrs req replies net.
  apply (@postfix_client_end_to_end Dotted.dotted J example_finish true cfg example_answers (example_log attrs) (cs "gclient")
    (cs "a@example.org") (cs "b@example.net") (cs "192.0.2.7") (cs "mail.example.org") (cs "2") net
    [Chunk (req ++ req)] [Accept 3; WIntr] 0).
  - prove_attrs.
  - vm_compute. split; discriminate.
  - intros i _. split_and!; vm_compute; reflexivity.
  - prove_attrs.
  - rewrite !not_elem_of_cons. repeat split; try discriminate. apply not_elem_of_nil.
  - reflexivity.
  - reflexivity.
  - vm_compute. reflexivity.
Defined.

(** When the server goes away in the middle of an answer, the line that was read
    last is shown again and again. *)
Theorem lost_server_shown_forever c n :
  strlen_at (pc_line c) 0 = Ok (S n) -> length (pc_line c) = 1024%nat -> forall fuel, answer_loop fuel [] c = Ok None.
Proof.
  intros Hs Hl fuel. revert c Hs Hl. induction fuel as [|fuel IH]; intros c Hs Hl; [done|].
  assert (readline [] MAXLINELEN = Some (EMPTY, [])) as E by reflexivity. cbn [answer_loop]. rewrite E, Hs. cbn [rbind].
  destruct (aget_lt (pc_line c) 0) as (c0 & _ & ->); [lia|]. destruct (aget_lt (pc_line c) 8) as (c8 & _ & ->); [lia|].
  cbn [rbind Nat.ltb Nat.leb]. by apply IH.
Qed.

(** An error of [recvfrom] is taken for a length. *)
Theorem receive_error_writes_before_buffer evs shown : receive_loop (RecvError :: evs) shown = Fail OutOfBounds.
Proof. reflexivity. Qed.

(** [gclient] asks the server of the Sun mail server's protocol and shows what
    comes back. *)
Example sjsms_client_run :
  @gclient Dotted.dotted true 0 [cs "gclient"; cs "sjsms"; cs "a@b"; cs "c@d"; cs "192.0.2.7"; cs "h"]
    (ClientNet true [] [Datagram (cs "P"); Datagram (cs "M $Y")] [] (replicate 1024 0)) =
  Ok (Some (ClientRun 0 (Datagrams ([127; 0; 0; 1], 5525)
      [sendquerystr true (replicate 1024 0) (query_text (cs "a@b") (cs "c@d") (cs "192.0.2.7") (Some (cs "h")))])
    [Line (cs "got: P"); Line (cs "got: M $Y"); Line (cs "M $Y")])).
Proof. vm_compute. reflexivity. Qed.

(** The fixed calls name one server and two. *)
Example test_calls :
  @testgrosscheck Dotted.dotted true true (replicate 1024 0) [Datagram (cs "M $Y")] = Ok (Some (Line (cs "2: $Y"))) /\
  @testgrosscheck Dotted.dotted true true (replicate 1024 0) [NoDatagram] = Ok (Some (Line (cs "error"))) /\
  @grosscheck_main Dotted.dotted true true (replicate 1024 0) [NoDatagram] = Ok None.
Proof. vm_compute. split_and!; reflexivity. Qed.
