(* ===== verification/Milter.v ===== *)
(** * The milter ([src/src/worker_milter.c])

    The callbacks libmilter runs for a connection of the mail server.  What a
    connection has said so far is in a structure of its own, with copies of the
    strings; the copies are modelled on a heap, so that what is lost when a
    pointer is overwritten can be counted.  libmilter decides which callbacks
    run and when: their order is an input, restricted to what it documents (a
    recipient comes after a sender; after the answer to accept, only the end of
    the connection follows). *)

From S2P Require Import Prelude Utils AddrUtils Worker Stats QueryLog Postfix.

#[local] Open Scope st_scope.

(** ** State *)

Record private_ctx_s := PrivateCtx { p_client_address : option nat; p_sender : option nat; p_helo_name : option nat }.

(** The strings that are allocated, and [smfi_getpriv]. *)
Record milter := Milter { m_strings : gmap nat cstr; m_next : nat; m_priv : option private_ctx_s }.

Definition milter0 : milter := Milter ∅ 0 None.

Inductive sfsistat := SMFIS_CONTINUE | SMFIS_REJECT | SMFIS_ACCEPT | SMFIS_TEMPFAIL.

#[export] Instance sfsistat_eq_dec : EqDecision sfsistat.
Proof. solve_decision. Defined.

Definition strdup (s : cstr) : stt milter nat :=
  let* m := st_get in
  st_put (Milter (<[m_next m := s]> (m_strings m)) (S (m_next m)) (m_priv m)) ;;;
  st_ret (m_next m).

(** The string a pointer leads to; a null pointer is not read. *)
Definition deref (p : option nat) : stt milter cstr :=
  let* m := st_get in
  st_lift (match p with
    | Some i => match m_strings m !! i with Some s => Ok s | None => Fail OutOfBounds end
    | None => Fail OutOfBounds
    end).

Definition smfi_setpriv (p : option private_ctx_s) : stt milter unit :=
  st_mod (fun m => Milter (m_strings m) (m_next m) p).

(** [MILTER_PRIVATE], where its fields are used. *)
Definition MILTER_PRIVATE : stt milter private_ctx_s :=
  let* m := st_get in
  st_lift (match m_priv m with Some p => Ok p | None => Fail OutOfBounds end).

Definition Free (p : option nat) : stt milter unit :=
  match p with
  | Some i => st_mod (fun m => Milter (delete i (m_strings m)) (m_next m) (m_priv m))
  | None => st_ret tt
  end.

(** The address libmilter gives: none, of the family AF_INET, or another. *)
Inductive hostaddr := NoAddress | InetAddress (addr : list Z) | OtherAddress.

(** The answer to a recipient: the code, the extended code and the text. *)
Definition smfi_reply : Type := string * string * cstr.

#[export] Instance milter_finish (envs : nat -> finish_env) : Finish := protocol_finish (cs "milter") envs.

(** ** The callbacks *)

Section Callbacks.
Context `{Inet} `{Judge} `{Finish}.

Definition mlfi_connect (h : hostaddr) : stt milter sfsistat :=
  match h with
  | NoAddress => st_lift (Fail OutOfBounds)
  | OtherAddress => st_ret SMFIS_ACCEPT
  | InetAddress a =>
      let* c := strdup (ntop4 a) in
      smfi_setpriv (Some (PrivateCtx (Some c) None None)) ;;;
      st_ret SMFIS_CONTINUE
  end.

Definition mlfi_helo (helohost : cstr) : stt milter sfsistat :=
  let* priv := MILTER_PRIVATE in
  let* s := strdup helohost in
  smfi_setpriv (Some (PrivateCtx (p_client_address priv) (p_sender priv) (Some s))) ;;;
  st_ret SMFIS_CONTINUE.

Definition mlfi_envfrom (from : cstr) : stt milter sfsistat :=
  let* priv := MILTER_PRIVATE in
  let* s := strdup from in
  smfi_setpriv (Some (PrivateCtx (p_client_address priv) (Some s) (p_helo_name priv))) ;;;
  st_ret SMFIS_CONTINUE.

Definition milter_response (o : outcome) : sfsistat * option smfi_reply :=
  match o_status o with
  | STATUS_GREY => (SMFIS_TEMPFAIL, Some ("452", "4.4.3", default (cs "Please try again later") (o_reason o))%string)
  | STATUS_BLOCK => (SMFIS_REJECT, Some ("550", "5.7.1", default (cs "Rejected by policy") (o_reason o))%string)
  | _ => (SMFIS_CONTINUE, None)
  end.

(** The strings of the tuple are copies that go with it.  [None]: the query
    is still being judged. *)
Definition mlfi_envrcpt (k : nat) (rcpt : cstr) : stt milter (option (sfsistat * option smfi_reply * cstr)) :=
  let* priv := MILTER_PRIVATE in
  let* sender := deref (p_sender priv) in
  let* client := deref (p_client_address priv) in
  let* helo := match p_helo_name priv with
    | Some i => let* s := deref (Some i) in st_ret (Some s)
    | None => st_ret None
    end in
  let tuple := GreyTuple (Some sender) (Some rcpt) (Some client) helo (reference_count request_new) in
  let* j := st_lift (judge k None tuple) in
  match j with
  | None => st_ret None
  | Some (_, o) =>
      let* line := st_lift (finish k tuple o) in
      let* _ := st_lift (unlink_request (o_request o)) in
      st_ret (Some (milter_response o, line))
  end.

Definition mlfi_close : stt milter sfsistat :=
  let* m := st_get in
  match m_priv m with
  | None => st_ret SMFIS_CONTINUE
  | Some priv =>
      Free (p_sender priv) ;;;
      Free (p_client_address priv) ;;;
      Free (p_helo_name priv) ;;;
      smfi_setpriv None ;;;
      st_ret SMFIS_CONTINUE
  end.

(** ** A connection *)

Inductive event := EHelo (name : cstr) | EFrom (sender : cstr) | ERcpt (rcpt : cstr).

(** The callbacks between the start and the end of a connection; [None]: still
    waiting for a judgment. *)
Fixpoint events (k : nat) (evs : list event) : stt milter (option (list (sfsistat * option smfi_reply * cstr))) :=
  match evs with
  | [] => st_ret (Some [])
  | EHelo h :: evs => mlfi_helo h ;;; events k evs
  | EFrom f :: evs => mlfi_envfrom f ;;; events k evs
  | ERcpt r :: evs =>
      let* a := mlfi_envrcpt k r in
      match a with
      | None => st_ret None
      | Some a =>
          let* l := events (S k) evs in
          st_ret (match l with Some l => Some (a :: l) | None => None end)
      end
  end.

(** A whole connection; what libmilter runs after the first answer depends on
    it. *)
Definition connection (h : hostaddr) (evs : list event)
    : stt milter (sfsistat * option (list (sfsistat * option smfi_reply * cstr))) :=
  let* a := mlfi_connect h in
  let* l := if bool_decide (a = SMFIS_CONTINUE) then events 0 evs else st_ret (Some []) in
  match l with
  | None => st_ret (a, None)
  | Some l => mlfi_close ;;; st_ret (a, Some l)
  end.

End Callbacks.

(** ** What a connection does *)

(** The queries of a connection: each recipient with the sender and the HELO
    name that were given last. *)
Fixpoint queries (addr : cstr) (helo snd : option cstr) (evs : list event) : list grey_tuple_t :=
  match evs with
  | [] => []
  | EHelo h :: evs => queries addr (Some h) snd evs
  | EFrom f :: evs => queries addr helo (Some f) evs
  | ERcpt r :: evs => GreyTuple snd (Some r) (Some addr) helo 1 :: queries addr helo snd evs
  end.

(** The order libmilter keeps. *)
Fixpoint ordered (from : bool) (evs : list event) : bool :=
  match evs with
  | [] => true
  | EHelo _ :: evs => ordered from evs
  | EFrom _ :: evs => ordered true evs
  | ERcpt _ :: evs => from && ordered from evs
  end.

(** The HELO names and senders that replace another. *)
Fixpoint replaced (helo from : bool) (evs : list event) : nat :=
  match evs with
  | [] => 0
  | EHelo _ :: evs => Nat.b2n helo + replaced true from evs
  | EFrom _ :: evs => Nat.b2n from + replaced helo true evs
  | ERcpt _ :: evs => replaced helo from evs
  end.

Definition given (o : option cstr) : bool := bool_decide (is_Some o).

(** A pointer that leads to a string, or a null pointer. *)
Definition points_to (g : gmap nat cstr) (p : option nat) (s : option cstr) : Prop :=
  match p, s with
  | Some i, Some v => g !! i = Some v
  | None, None => True
  | _, _ => False
  end.

Definition allocated (m : milter) : Prop := forall i, (m_next m <= i)%nat -> m_strings m !! i = None.

(** The state between two callbacks; [n] strings belong to others or are lost. *)
Record conn_inv (m : milter) (n : nat) (addr : cstr) (helo snd : option cstr) : Prop := {
  ci_fresh : allocated m;
  ci_state : exists c ps ph,
    m_priv m = Some (PrivateCtx (Some c) ps ph) /\ m_strings m !! c = Some addr /\
    points_to (m_strings m) ps snd /\ points_to (m_strings m) ph helo /\
    Some c <> ps /\ Some c <> ph /\ (ps = ph -> ps = None) /\
    size (m_strings m) = (n + 1 + Nat.b2n (given snd) + Nat.b2n (given helo))%nat }.

Lemma points_to_insert g p s i v : g !! i = None -> points_to g p s -> points_to (<[i := v]> g) p s.
Proof.
  intros Hi. destruct p as [j|], s as [w|]; cbn; try done. intros Hj. rewrite lookup_insert_ne; [done|]. congruence.
Qed.

Lemma points_to_fresh m p s : allocated m -> points_to (m_strings m) p s -> Some (m_next m) <> p.
Proof.
  intros Hf Hp [= <-]. destruct s as [v|]; [|done]. cbn in Hp. rewrite Hf in Hp; [done | lia].
Qed.

(** A new string in the place of one that may have been there. *)
Lemma helo_step `{HI : Inet} m n addr helo snd h :
  conn_inv m n addr helo snd ->
  exists m', mlfi_helo h m = Ok (SMFIS_CONTINUE, m') /\ conn_inv m' (n + Nat.b2n (given helo)) addr (Some h) snd.
Proof.
  intros [Hf (c & ps & ph & Hp & Hc & Hs & Hh & H1 & H2 & H3 & Hz)].
  unfold mlfi_helo, MILTER_PRIVATE, strdup, smfi_setpriv, st_bind, st_get, st_lift, st_put, st_mod, st_ret. rewrite Hp. cbn.
  eexists. split; [done|]. assert (m_strings m !! m_next m = None) as Hn by (apply Hf; lia).
  pose proof (points_to_fresh m ps snd Hf Hs) as Hne. split.
  - intros i Hi. cbn in *. rewrite lookup_insert_ne by lia. apply Hf. lia.
  - exists c, ps, (Some (m_next m)). cbn. split_and!; try done.
    + rewrite lookup_insert_ne; [done|]. congruence.
    + by apply points_to_insert.
    + by rewrite lookup_insert_eq.
    + congruence.
    + rewrite map_size_insert_None, Hz by done. unfold given. rewrite ?(bool_decide_true (is_Some (Some h))) by done. cbn. lia.
Qed.

Lemma envfrom_step `{HI : Inet} m n addr helo snd f :
  conn_inv m n addr helo snd ->
  exists m', mlfi_envfrom f m = Ok (SMFIS_CONTINUE, m') /\ conn_inv m' (n + Nat.b2n (given snd)) addr helo (Some f).
Proof.
  intros [Hf (c & ps & ph & Hp & Hc & Hs & Hh & H1 & H2 & H3 & Hz)].
  unfold mlfi_envfrom, MILTER_PRIVATE, strdup, smfi_setpriv, st_bind, st_get, st_lift, st_put, st_mod, st_ret. rewrite Hp. cbn.
  eexists. split; [done|]. assert (m_strings m !! m_next m = None) as Hn by (apply Hf; lia).
  pose proof (points_to_fresh m ph helo Hf Hh) as Hne. split.
  - intros i Hi. cbn in *. rewrite lookup_insert_ne by lia. apply Hf. lia.
  - exists c, (Some (m_next m)), ph. cbn. split_and!; try done.
    + rewrite lookup_insert_ne; [done|]. congruence.
    + by rewrite lookup_insert_eq.
    + by apply points_to_insert.
    + congruence.
    + rewrite map_size_insert_None, Hz by done. unfold given. rewrite ?(bool_decide_true (is_Some (Some f))) by done. cbn. lia.
Qed.

Lemma deref_points m p s : points_to (m_strings m) p (Some s) -> deref p m = Ok (s, m).
Proof.
  destruct p as [i|]; cbn [points_to]; [|done]. intros Hi. unfold deref, st_bind, st_get, st_lift. by rewrite Hi.
Qed.

(** How a query is answered. *)
Definition answered `{Judge} `{Finish} (k : nat) (t : grey_tuple_t) (a : sfsistat * option smfi_reply * cstr) : Prop :=
  exists ret o line r, judge k None t = Ok (Some (ret, o)) /\ finish k t o = Ok line /\
    unlink_request (o_request o) = Ok r /\ a = (milter_response o, line).

Lemma envrcpt_step `{HI : Inet} `{HJ : Judge} `{HF : Finish} m n addr helo snd k r a :
  conn_inv m n addr helo (Some snd) -> answered k (GreyTuple (Some snd) (Some r) (Some addr) helo 1) a ->
  mlfi_envrcpt k r m = Ok (Some a, m).
Proof.
  intros [Hf (c & ps & ph & Hp & Hc & Hs & Hh & _)] (ret & o & line & r' & E1 & E2 & E3 & ->).
  unfold mlfi_envrcpt. erewrite st_bind_ok by (unfold MILTER_PRIVATE, st_bind, st_get, st_lift; by rewrite Hp).
  cbn [p_sender p_client_address p_helo_name].
  rewrite (st_bind_ok _ _ _ _ _ (deref_points m ps snd Hs)). rewrite (st_bind_ok _ _ _ _ _ (deref_points m (Some c) addr Hc)).
  assert ((match ph with Some i => let* s := deref (Some i) in st_ret (Some s) | None => st_ret None end) m = Ok (helo, m)) as E.
  { destruct ph as [i|], helo as [h|]; try done. by rewrite (st_bind_ok _ _ _ _ _ (deref_points m (Some i) h Hh)). }
  rewrite (st_bind_ok _ _ _ _ _ E). unfold st_bind, st_lift, st_ret. cbn [request_new reference_count]. rewrite E1, E2, E3. done.
Qed.

Lemma events_run `{HI : Inet} `{HJ : Judge} `{HF : Finish} evs : forall m n addr helo snd k l,
  conn_inv m n addr helo snd -> ordered (given snd) evs = true ->
  Forall2 (fun '(i, t) a => answered i t a) (imap (fun i t => ((k + i)%nat, t)) (queries addr helo snd evs)) l ->
  exists m' helo' snd', events k evs m = Ok (Some l, m') /\
    conn_inv m' (n + replaced (given helo) (given snd) evs) addr helo' snd' .
Proof.
  induction evs as [|[h|f|r] evs IH]; intros m n addr helo snd k l Hi Ho Hl; cbn [events queries ordered replaced] in *.
  - apply Forall2_nil_inv_l in Hl as ->. exists m, helo, snd. by rewrite Nat.add_0_r.
  - destruct (helo_step m n addr helo snd h Hi) as (m1 & E1 & H1).
    destruct (IH m1 _ addr (Some h) snd k l H1 Ho Hl) as (m2 & h2 & s2 & E2 & H2).
    exists m2, h2, s2. rewrite (st_bind_ok _ _ _ _ _ E1). split; [done|]. by rewrite Nat.add_assoc.
  - destruct (envfrom_step m n addr helo snd f Hi) as (m1 & E1 & H1).
    destruct (IH m1 _ addr helo (Some f) k l H1 Ho Hl) as (m2 & h2 & s2 & E2 & H2).
    exists m2, h2, s2. rewrite (st_bind_ok _ _ _ _ _ E1). split; [done|]. by rewrite Nat.add_assoc.
  - apply andb_true_iff in Ho as [Hg Ho]. unfold given in Hg. apply bool_decide_eq_true in Hg as [s ->].
    cbn [imap] in Hl. apply Forall2_cons_inv_l in Hl as (a & l' & Ha & Hl & ->). rewrite Nat.add_0_r in Ha.
    rewrite (st_bind_ok _ _ _ _ _ (envrcpt_step m n addr helo s k r a Hi Ha)).
    destruct (IH m n addr helo (Some s) (S k) l' Hi Ho) as (m2 & h2 & s2 & E2 & H2).
    { erewrite imap_ext; [exact Hl|]. intros i t _. cbn. f_equal. lia. }
    exists m2, h2, s2. by rewrite (st_bind_ok _ _ _ _ _ E2).
Qed.

Lemma close_frees `{HI : Inet} m n addr helo snd :
  conn_inv m n addr helo snd ->
  exists m', mlfi_close m = Ok (SMFIS_CONTINUE, m') /\ m_priv m' = None /\ size (m_strings m') = n.
Proof.
  intros [Hf (c & ps & ph & Hp & Hc & Hs & Hh & H1 & H2 & H3 & Hz)].
  unfold mlfi_close, st_bind at 1, st_get. rewrite Hp. cbn [p_sender p_client_address p_helo_name].
  destruct ps as [i|], snd as [s|]; try done; destruct ph as [j|], helo as [h|]; try done;
    unfold Free, smfi_setpriv, st_bind, st_mod, st_ret; cbn [m_strings m_next m_priv]; eexists; (split; [reflexivity|]);
    (split; [done|]); cbn [m_strings points_to] in *;
    rewrite ?map_size_delete_Some; rewrite ?Hz; cbn; try lia;
    rewrite ?lookup_delete_ne by congruence; eauto.
  all: try (assert (i <> j) by (intros ->; by specialize (H3 eq_refl))); rewrite ?lookup_delete_ne by congruence; eauto.
Qed.


Import Dotted.

(** Greylists the first recipient and trusts the rest. *)
Definition demo_judge : Judge := fun k _ r =>
  Ok (Some (0, Outcome (if (k =? 0)%nat then STATUS_GREY else STATUS_TRUST) (Some (cs "later")) STATUS_GREY
    (QueryLog 0 []) (Some r) [])).

Definition demo_finish : Finish :=
  milter_finish (fun _ => FinishEnv (Timespec 10 0) (Timespec 10 5000000) (replicate 1024 "x"%char) demo_stats).

Definition demo_events : list event :=
  [EHelo (cs "h"); EFrom (cs "a"); ERcpt (cs "x"); ERcpt (cs "y"); EFrom (cs "b"); ERcpt (cs "z")].

Definition demo_answers : list (sfsistat * option smfi_reply * cstr) :=
  [(SMFIS_TEMPFAIL, Some ("452", "4.4.3", cs "later")%string, cs "a=greylist d=5 w=0 c=192.0.2.7 s=a r=x h=h");
   (SMFIS_CONTINUE, None, cs "a=greylist d=5 w=0 c=192.0.2.7 s=a r=y h=h");
   (SMFIS_CONTINUE, None, cs "a=greylist d=5 w=0 c=192.0.2.7 s=b r=z h=h")].

