(* ===== verification/Gross.v ===== *)
(** The daemon ([gross.c]): the command line, the configuration into the
    context, the checks that are started, the loop of maintenance tasks.

    [gethostbyname] is outside: [resolve] is what it answers.  Addresses and
    ports of sockets are their bytes in network order.  [flags], [protocols],
    [checks] and [statlevel] are the bit masks of the source.  The model is of
    the program built with DNSBL; [milter] and [spf] tell whether it was built
    with MILTER and SPF.

    The steps of [configure_grossd] are definitions of their own, composed in
    the order of the code, so that of several faults the first one counts.
    What only logs is left out: the listing of the configuration in debug mode
    among it. *)
From S2P Require Import Prelude Utils AddrUtils Bloom BloomMgr Worker Checks Print Stats Conf Postfix Sjsms.

(** ** Constants ([common.h], [srvutils.h]) *)

Definition FLG_DEBUG : Z := 2 ^ 0.
Definition FLG_NOREPLICATE : Z := 2 ^ 1.
Definition FLG_UPDATE_ALWAYS : Z := 2 ^ 2.
Definition FLG_CREATE_STATEFILE : Z := 2 ^ 3.
Definition FLG_DRYRUN : Z := 2 ^ 4.
Definition FLG_SYSLOG : Z := 2 ^ 5.
Definition FLG_CHECK_PIDFILE : Z := 2 ^ 6.
Definition FLG_CREATE_PIDFILE : Z := 2 ^ 7.
Definition FLG_MATCH_SHORTCUT : Z := 2 ^ 8.
Definition FLG_RECONFIGURE_PENDING : Z := 2 ^ 9.
Definition FLG_NOFORK : Z := 2 ^ 10.

Definition CHECK_DNSBL : Z := 2 ^ 0.
Definition CHECK_BLOCKER : Z := 2 ^ 1.
Definition CHECK_RANDOM : Z := 2 ^ 2.
Definition CHECK_RHSBL : Z := 2 ^ 3.
Definition CHECK_DNSWL : Z := 2 ^ 4.
Definition CHECK_SPF : Z := 2 ^ 5.
Definition CHECK_REVERSE : Z := 2 ^ 6.
Definition CHECK_HELO : Z := 2 ^ 7.

Definition PROTO_SJSMS : Z := 2 ^ 0.
Definition PROTO_POSTFIX : Z := 2 ^ 1.
Definition PROTO_MILTER : Z := 2 ^ 2.

Definition EXIT_NOERROR : Z := 0.
Definition EXIT_USAGE : Z := 1.
Definition EXIT_FATAL : Z := 2.
Definition EXIT_CONFIG : Z := 4.

(** The levels of syslog, in the range of the program's own. *)
Definition GLOG_ERROR : Z := Z.lor LOG_TYPE 3.
Definition GLOG_WARNING : Z := Z.lor LOG_TYPE 4.
Definition GLOG_INFO : Z := Z.lor LOG_TYPE 6.
Definition GLOG_DEBUG : Z := Z.lor LOG_TYPE 7.
Definition GLOG_INSANE : Z := Z.lor LOG_TYPE 8.

(** [LOG_MAIL] and [LOG_LOCAL0] of the C library. *)
Definition LOG_MAIL : Z := 2 * 8.
Definition LOG_LOCAL (n : Z) : Z := (16 + n) * 8.

Definition has (mask bit : Z) : bool := negb (Z.land mask bit =? 0).

(** ** The context *)

Record sockaddr := Sockaddr { sin_addr : list Z; sin_port : list Z }.

Record gross_config_t := GrossConfig {
  gross_host : sockaddr;
  sync_host : sockaddr;
  status_host : sockaddr;
  peer_addr : option sockaddr;             (* None: no peer is configured *)
  g_rotate_interval : Z;
  stat_interval : Z;
  filter_size : Z;
  g_num_bufs : Z;
  statefile : option cstr;
  g_loglevel : Z;
  syslogfacility : Z;
  g_statlevel : Z;
  flags : Z;
  checks : Z;
  g_grey_mask : Z;
  g_grey_mask6 : Z;
  protocols : Z;
  greylist_delay : Z;
  grey_tuple : greytuple_type;
  postfix : postfix_config;
  sjsms_responses : cstr * cstr * cstr * cstr;   (* grey, match, trust, block *)
  blocker_server : option sockaddr;
  blocker_weight : Z;
  g_query_timelimit : Z;
  g_grey_threshold : Z;
  g_block_threshold : Z;
  pool_maxthreads : Z;
  g_grey_reason : option cstr;
  g_block_reason : option cstr;
  pidfile : option cstr;
  milter_listen : option cstr;
  dnsbl : list dnsbl_t;
  dnswl : list dnsbl_t;
  rhsbl : list dnsbl_t;
  stat_names : list cstr }.                      (* the order of [stat_add_dnsbl] *)

(** What the command line leaves for [configure_grossd]. *)
Record options := Options {
  opt_flags : Z;
  opt_loglevel : Z;
  opt_pidfile : option cstr;
  opt_configfile : option cstr;
  opt_user : cstr }.

(** [initialize_context] clears everything but the log level. *)
Definition initialize_context : options := Options 0 GLOG_INFO None None (cs "nobody").

(** ** The command line *)

Definition set_flag (o : options) (f : Z) : options :=
  Options (Z.lor (opt_flags o) f) (opt_loglevel o) (opt_pidfile o) (opt_configfile o) (opt_user o).

(** The character [getopt] returns, and [optarg]. *)
Definition take_option (o : options) (c : ascii) (optarg : cstr) : Res options :=
  if chr_eqb c "d" then Ok (set_flag o FLG_DEBUG)
  else if chr_eqb c "n" then Ok (set_flag o FLG_DRYRUN)
  else if chr_eqb c "f" then Ok (Options (opt_flags o) (opt_loglevel o) (opt_pidfile o) (Some optarg) (opt_user o))
  else if chr_eqb c ":" then Fail (Exit EXIT_USAGE)
  else if chr_eqb c "r" then Ok (set_flag o FLG_NOREPLICATE)
  else if chr_eqb c "V" then Fail (Exit EXIT_NOERROR)
  else if chr_eqb c "C" then Ok (set_flag o FLG_CREATE_STATEFILE)
  else if chr_eqb c "D" then
    Ok (Options (opt_flags o) (if opt_loglevel o =? GLOG_DEBUG then GLOG_INSANE else GLOG_DEBUG) (opt_pidfile o)
      (opt_configfile o) (opt_user o))
  else if chr_eqb c "p" then
    Ok (set_flag (Options (opt_flags o) (opt_loglevel o) (Some optarg) (opt_configfile o) (opt_user o))
      FLG_CREATE_PIDFILE)
  else if chr_eqb c "P" then
    Ok (set_flag (set_flag (Options (opt_flags o) (opt_loglevel o) (Some optarg) (opt_configfile o) (opt_user o))
      FLG_CHECK_PIDFILE) FLG_CREATE_PIDFILE)
  else if chr_eqb c "u" then Ok (Options (opt_flags o) (opt_loglevel o) (opt_pidfile o) (opt_configfile o) optarg)
  else if chr_eqb c "h" then Fail (Exit EXIT_USAGE)
  else if chr_eqb c "F" then Ok (set_flag o FLG_NOFORK)
  else Fail (Exit EXIT_USAGE).

Fixpoint take_options (o : options) (l : list (ascii * cstr)) : Res options :=
  match l with [] => Ok o | (c, a) :: l => o ← take_option o c a; take_options o l end.

(** ** Settings *)

Section Configure.
Context `{Inet} (resolve : cstr -> option (list Z)) (milter : bool).
Context (config : list configlist_t).

Definition CONF (name : string) : option cstr := gconf config (cs name).

(** [CONF] where a null pointer would be read through. *)
Definition CONF_str (name : string) : Res cstr :=
  match CONF name with Some s => Ok s | None => Fail OutOfBounds end.

(** [atoi] of a number that is not an [int] is undefined. *)
Definition CONF_int (name : string) : Res Z := s ← CONF_str name; int_val (atoi s).

(** [gethostbyname], then [inet_pton] of what [inet_ntoa] prints. *)
Definition host_addr (host : cstr) : Res (list Z) :=
  match resolve host with
  | None => Fail (Exit EXIT_FATAL)
  | Some a => match pton4 (ntop4 a) with Some b => Ok b | None => Fail (Exit EXIT_CONFIG) end
  end.

Definition htons (n : Z) : list Z := be_split 2 n.

(** *** Addresses and ports *)

Definition configure_host : Res (list Z) := h ← CONF_str "host"; host_addr h.

Definition configure_sync_host : Res (list Z) :=
  h ← match CONF "sync_listen" with Some h => Ok h | None => CONF_str "host" end; host_addr h.

Definition configure_peer (flgs : Z) : Res (Z * option sockaddr) :=
  port ← CONF_int "sync_port";
  match CONF "sync_peer" with
  | None => Ok (Z.lor flgs FLG_NOREPLICATE, None)
  | Some p => a ← host_addr p; Ok (flgs, Some (Sockaddr a (htons port)))
  end.

Definition configure_status_host : Res sockaddr :=
  h ← match CONF "status_host" with Some h => Ok h | None => CONF_str "host" end;
  a ← host_addr h;
  port ← CONF_int "status_port";
  Ok (Sockaddr a (htons port)).

(** *** What is greylisted *)

(** [strncmp] with a length past the terminator compares the whole strings. *)
Definition configure_update (flgs : Z) : Res Z :=
  u ← CONF_str "update";
  if cstr_eqb u (cs "always") then Ok (Z.lor flgs FLG_UPDATE_ALWAYS)
  else if cstr_eqb u (cs "grey") then Ok flgs
  else Fail (Exit EXIT_CONFIG).

Definition configure_tuple : Res greytuple_type :=
  match CONF "grey_tuple" with
  | None => Ok GREY_TUPLE_USER
  | Some s =>
      if cstr_eqb s (cs "user") then Ok GREY_TUPLE_USER
      else if cstr_eqb s (cs "server") then Ok GREY_TUPLE_SERVER
      else Fail (Exit EXIT_CONFIG)
  end.

(** [strtol] into an [int]; [None]: the number does not fit in a [long]. *)
Definition strtol (s : cstr) : option Z :=
  let n := atoi s in if (INT64_MIN <=? n) && (n <=? INT64_MAX) then Some (s32 n) else None.

(** The second test looks at [grey_mask] where [grey_mask6] is meant. *)
Definition configure_masks : Res (Z * Z) :=
  s ← CONF_str "grey_mask";
  m ← match strtol s with
      | Some m => if (32 <? m) || (m <? 0) then Fail (Exit EXIT_CONFIG) else Ok m
      | None => Fail (Exit EXIT_CONFIG)
      end;
  s6 ← CONF_str "grey_mask6";
  m6 ← match strtol s6 with
       | Some m6 => if (128 <? m6) || (m <? 0) then Fail (Exit EXIT_CONFIG) else Ok m6
       | None => Fail (Exit EXIT_CONFIG)
       end;
  Ok (m, m6).

(** *** The filters *)

Definition configure_filter : Res (Z * Z * Z) :=
  interval ← CONF_int "rotate_interval";
  size ← CONF_int "filter_bits";
  num ← CONF_int "number_buffers";
  let size := u32 size in
  if (size <? 5) || (32 <? size) then Fail (Exit EXIT_CONFIG) else Ok (interval, size, u32 num).

(** *** Responses *)

Definition required (name : string) : Res cstr :=
  match CONF name with Some s => Ok s | None => Fail (Exit EXIT_CONFIG) end.

Definition configure_responses : Res (postfix_config * (cstr * cstr * cstr * cstr)) :=
  pg ← required "postfix_response_grey";
  pb ← required "postfix_response_block";
  sg ← required "sjsms_response_grey";
  st ← required "sjsms_response_trust";
  sb ← required "sjsms_response_block";
  sm ← required "sjsms_response_match";
  Ok (PostfixConfig pg pb, (sg, sm, st, sb)).

(** *** Loops over the settings *)

Fixpoint configure_pidfile (l : list configlist_t) (s : Z * option cstr) : Res (Z * option cstr) :=
  match l with
  | [] => Ok s
  | cp :: l =>
      s ← (if cstr_eqb (c_name cp) (cs "pidfile") then
             let flgs := Z.lor s.1 FLG_CREATE_PIDFILE in
             match c_params cp with
             | [] => Ok (flgs, Some (c_value cp))
             | p :: _ =>
                 if cstr_eqb p (cs "check") then Ok (Z.lor flgs FLG_CHECK_PIDFILE, Some (c_value cp))
                 else Fail (Exit EXIT_CONFIG)
             end
           else Ok s);
      configure_pidfile l s
  end.

(** [full] and [none] end the loop. *)
Fixpoint configure_statlevel (l : list configlist_t) (level : Z) : Z :=
  match l with
  | [] => level
  | cp :: l =>
      if negb (cstr_eqb (c_name cp) (cs "stat_type")) then configure_statlevel l level
      else if cstr_eqb (c_value cp) (cs "full") then STATS_FULL
      else if cstr_eqb (c_value cp) (cs "none") then STATS_NONE
      else
        let level := if cstr_eqb (c_value cp) (cs "status") then Z.lor level STATS_STATUS else level in
        let level := if cstr_eqb (c_value cp) (cs "since_startup") then Z.lor level STATS_STATUS_BEGIN else level in
        let level := if cstr_eqb (c_value cp) (cs "delay") then Z.lor level STATS_DELAY else level in
        configure_statlevel l level
  end.

(** One of the three loops that fill the lists; [weighted]: a parameter is the
    weight. *)
Fixpoint configure_list (name : string) (weighted : bool) (l : list configlist_t) (s : list dnsbl_t * list cstr)
    : Res (list dnsbl_t * list cstr) :=
  match l with
  | [] => Ok s
  | cp :: l =>
      s ← (if cstr_eqb (c_name cp) (cs name) then
             w ← match c_params cp with
                 | p :: _ => if weighted then int_val (atoi p) else Ok 1
                 | [] => Ok 1
                 end;
             Ok (add_dnsbl s.1 (c_value cp) w, s.2 ++ [c_value cp])
           else Ok s);
      configure_list name weighted l s
  end.

Fixpoint configure_protocols (l : list configlist_t) (p : Z) : Res Z :=
  match l with
  | [] => Ok p
  | cp :: l =>
      p ← (if cstr_eqb (c_name cp) (cs "protocol") then
             if cstr_eqb (c_value cp) (cs "sjsms") then Ok (Z.lor p PROTO_SJSMS)
             else if cstr_eqb (c_value cp) (cs "postfix") then Ok (Z.lor p PROTO_POSTFIX)
             else if milter && cstr_eqb (c_value cp) (cs "milter") then Ok (Z.lor p PROTO_MILTER)
             else Fail (Exit EXIT_CONFIG)
           else Ok p);
      configure_protocols l p
  end.

Definition check_bit (v : cstr) : Z :=
  if cstr_eqb v (cs "dnsbl") then CHECK_DNSBL
  else if cstr_eqb v (cs "dnswl") then CHECK_DNSWL
  else if cstr_eqb v (cs "rhsbl") then CHECK_RHSBL
  else if cstr_eqb v (cs "blocker") then CHECK_BLOCKER
  else if cstr_eqb v (cs "random") then CHECK_RANDOM
  else if cstr_eqb v (cs "spf") then CHECK_SPF
  else if cstr_eqb v (cs "reverse") then CHECK_REVERSE
  else if cstr_eqb v (cs "helo") then CHECK_HELO
  else 0.

Definition configure_checks (l : list configlist_t) (c : Z) : Z :=
  foldl (fun c cp => if cstr_eqb (c_name cp) (cs "check") then Z.lor c (check_bit (c_value cp)) else c) c l.

Definition facility (v : cstr) : Res Z :=
  if cstr_eqb v (cs "mail") then Ok LOG_MAIL
  else if cstr_eqb v (cs "local0") then Ok (LOG_LOCAL 0)
  else if cstr_eqb v (cs "local1") then Ok (LOG_LOCAL 1)
  else if cstr_eqb v (cs "local2") then Ok (LOG_LOCAL 2)
  else if cstr_eqb v (cs "local3") then Ok (LOG_LOCAL 3)
  else if cstr_eqb v (cs "local4") then Ok (LOG_LOCAL 4)
  else if cstr_eqb v (cs "local5") then Ok (LOG_LOCAL 5)
  else if cstr_eqb v (cs "local6") then Ok (LOG_LOCAL 6)
  else if cstr_eqb v (cs "local7") then Ok (LOG_LOCAL 7)
  else Fail (Exit EXIT_CONFIG).

Definition level_of (v : cstr) : Res Z :=
  if cstr_eqb v (cs "debug") then Ok GLOG_DEBUG
  else if cstr_eqb v (cs "info") then Ok GLOG_INFO
  else if cstr_eqb v (cs "notice") then Ok GLOG_NOTICE
  else if cstr_eqb v (cs "warning") then Ok GLOG_WARNING
  else if cstr_eqb v (cs "error") then Ok GLOG_ERROR
  else Fail (Exit EXIT_CONFIG).

(** Flags, log level and facility. *)
Fixpoint configure_log (l : list configlist_t) (s : Z * Z * Z) : Res (Z * Z * Z) :=
  match l with
  | [] => Ok s
  | cp :: l =>
      let '(flgs, level, fac) := s in
      s ← (if cstr_eqb (c_name cp) (cs "log_method") then
             Ok (if cstr_eqb (c_value cp) (cs "syslog") then Z.lor flgs FLG_SYSLOG else flgs, level, fac)
           else if cstr_eqb (c_name cp) (cs "log_level") && (level =? 0) then
             level ← level_of (c_value cp); Ok (flgs, level, fac)
           else if cstr_eqb (c_name cp) (cs "syslog_facility") then
             fac ← facility (c_value cp); Ok (flgs, level, fac)
           else Ok s);
      configure_log l s
  end.

(** *** The blocker and the thresholds *)

Definition configure_blocker (chks : Z) : Res (option sockaddr) :=
  if has chks CHECK_BLOCKER then
    match CONF "blocker_host" with
    | None => Fail (Exit EXIT_FATAL)
    | Some h => a ← host_addr h; port ← CONF_int "blocker_port"; Ok (Some (Sockaddr a (htons port)))
    end
  else Ok None.

Definition configure_threshold (name : string) (d : Z) : Res Z :=
  match CONF name with Some s => int_val (atoi s) | None => Ok d end.

(** *** All of it *)

Definition configure_grossd (o : options) : Res gross_config_t :=
  host ← configure_host;
  sync ← configure_sync_host;
  sync_port ← CONF_int "sync_port";
  port ← CONF_int "port";
  delay ← CONF_int "grey_delay";
  '(flgs, peer) ← configure_peer (opt_flags o);
  flgs ← configure_update flgs;
  tuple ← configure_tuple;
  '(mask, mask6) ← configure_masks;
  status ← configure_status_host;
  '(interval, size, num) ← configure_filter;
  '(pf, sj) ← configure_responses;
  stat ← configure_threshold "stat_interval" 0;
  '(flgs, pid) ← configure_pidfile config (flgs, opt_pidfile o);
  let statl := configure_statlevel config STATS_NONE in
  '(bl, names) ← configure_list "dnsbl" true config ([], []);
  '(wl, names) ← configure_list "dnswl" false config ([], names);
  '(rl, names) ← configure_list "rhsbl" true config ([], names);
  maxthreads ← CONF_int "pool_maxthreads";
  timelimit ← CONF_int "query_timelimit";
  protos ← configure_protocols config 0;
  weight ← CONF_int "blocker_weight";
  let chks := configure_checks config 0 in
  '(flgs, level, fac) ← configure_log config (flgs, opt_loglevel o, 0);
  _ ← c_assert (negb (level =? 0));
  _ ← c_assert (negb (fac =? 0));
  bserver ← configure_blocker chks;
  grey ← configure_threshold "grey_threshold" 1;
  block ← configure_threshold "block_threshold" 0;
  let flgs := if block =? 0 then Z.lor flgs FLG_MATCH_SHORTCUT else flgs in
  Ok (GrossConfig (Sockaddr host (htons port)) (Sockaddr sync (htons sync_port)) status peer interval stat size num
    (CONF "statefile") level fac statl flgs chks mask mask6 protos delay tuple pf sj bserver weight timelimit grey
    block maxthreads (CONF "grey_reason") (CONF "block_reason") pid
    (if milter then CONF "milter_listen" else None) bl wl rl names).

(** [TESTANDRESET]; comparing with a null pointer is undefined. *)
Definition test_and_reset (c : option cstr) (name : string) : Res (option cstr) :=
  match CONF name with
  | None => Ok c
  | Some s => match c with
      | None => Fail OutOfBounds
      | Some old => Ok (if cstr_eqb s old then c else Some s)
      end
  end.

Definition reconfigure_grossd (grey_r block_r : option cstr) : Res (option cstr * option cstr) :=
  g ← test_and_reset grey_r "grey_reason";
  b ← test_and_reset block_r "block_reason";
  Ok (g, b).

End Configure.

(** ** The checks that are started *)

Definition MAXCHECKS : nat := 128.

(** [register_check] puts the check in the first free place of the list. *)
Definition register_check (l : list (string * bool)) (name : string) (definitive : bool) : list (string * bool) :=
  if (length l <? MAXCHECKS)%nat then l ++ [(name, definitive)] else l.

Definition start_check (chks bit : Z) (name : string) (definitive : bool) (l : list (string * bool))
    : list (string * bool) := if has chks bit then register_check l name definitive else l.

(** The name and the mark with which the initialiser of a check registers its
    pool. *)
Definition dnsbl_init (name : string) (definitive : bool) : string * bool := (name, definitive).
Definition reverse_init : string * bool := ("reverse"%string, false).
Definition helo_init : string * bool := ("helo"%string, false).
Definition blocker_init : string * bool := ("blocker"%string, false).
Definition random_init : string * bool := ("random"%string, true).
Definition spf_init : string * bool := ("spf"%string, true).

Definition start_checks (spf : bool) (chks : Z) : list (string * bool) :=
  let start bit (init : string * bool) := start_check chks bit init.1 init.2 in
  let l := start CHECK_DNSBL (dnsbl_init "dnsbl" false) [] in
  let l := start CHECK_DNSWL (dnsbl_init "dnswl" true) l in
  let l := start CHECK_RHSBL (dnsbl_init "rhsbl" false) l in
  let l := start CHECK_REVERSE reverse_init l in
  let l := start CHECK_HELO helo_init l in
  let l := start CHECK_BLOCKER blocker_init l in
  let l := start CHECK_RANDOM random_init l in
  if spf then start CHECK_SPF spf_init l else l.

(** ** What the components get *)

Definition to_worker_config (spf : bool) (c : gross_config_t) : worker_config :=
  WorkerConfig (MaskConfig (g_grey_mask c) (g_grey_mask6 c)) (grey_tuple c) (g_block_threshold c) (g_grey_threshold c)
    (g_query_timelimit c) (has (flags c) FLG_MATCH_SHORTCUT) (has (flags c) FLG_UPDATE_ALWAYS) (has (flags c) FLG_DRYRUN)
    (default [] (g_grey_reason c)) (default [] (g_block_reason c)) (snd <$> start_checks spf (checks c)).

Definition to_mgr_config (c : gross_config_t) : mgr_config := MgrConfig (g_rotate_interval c) (g_num_bufs c).

(** ** Maintenance *)

Inductive task := SendRotate | LogStats | Tolerate | Reload.

#[export] Instance task_eq_dec : EqDecision task.
Proof. solve_decision. Defined.

(** The readings of [time(NULL)] in one round of the loop. *)
Record readings := Readings { t_rotate : Z; t_stats : Z; t_tolerate : Z; t_tolerated : Z }.

(** One round of the loop of [main]: the tasks, the time of the last toleration
    and the flags after it. *)
Definition maintenance (rotate_intvl stat_intvl : Z) (t : readings) (last_rot stats_begin toleration flgs : Z)
    : list task * Z * Z :=
  let rot := if rotate_intvl <? t_rotate t - last_rot then [SendRotate] else [] in
  let st := if stats_begin + stat_intvl <? t_stats t then [LogStats] else [] in
  let '(tol, toleration) :=
    if toleration + 10 <=? t_tolerate t then ([Tolerate], t_tolerated t) else ([], toleration) in
  let '(rel, flgs) :=
    if has flgs FLG_RECONFIGURE_PENDING then ([Reload], Z.lxor flgs FLG_RECONFIGURE_PENDING) else ([], flgs) in
  (rot ++ st ++ tol ++ rel, toleration, flgs).

(** A round and the manager's answer to it: the rotate message goes past the
    delay queue ([instant_msg]) and is handled before the next round. *)
Definition rotate_round (le : bool) (cfg : mgr_config) (stat_intvl : Z) (t : readings) (ck : clocks) (pad : list Z)
    (stats_begin toleration flgs : Z) (st : mgr) : Res mgr :=
  let '(tasks, _, _) :=
    maintenance (BloomMgr.rotate_interval cfg) stat_intvl t (BloomMgr.last_rotate st) stats_begin toleration flgs in
  if bool_decide (SendRotate ∈ tasks) then bloommgr_step le cfg (msg_bytes le MRotate pad) ck st else Ok st.

(** What a schedule gives for a round. *)
Record schedule := Schedule {
  sc_read : nat -> readings;
  sc_clocks : nat -> clocks;
  sc_pad : nat -> list Z;
  sc_begin : nat -> Z;
  sc_toleration : nat -> Z;
  sc_flags : nat -> Z }.

Fixpoint rotate_rounds (le : bool) (cfg : mgr_config) (stat_intvl : Z) (sc : schedule) (n : nat) (st : mgr) : Res mgr :=
  match n with
  | O => Ok st
  | S n =>
      st ← rotate_rounds le cfg stat_intvl sc n st;
      rotate_round le cfg stat_intvl (sc_read sc n) (sc_clocks sc n) (sc_pad sc n) (sc_begin sc n) (sc_toleration sc n)
        (sc_flags sc n) st
  end.

(** The rounds come at most [g] seconds apart, and the manager reads its clock
    between a round and the next. *)
Definition paced (sc : schedule) (g : Z) : Prop := forall n,
  let a := t_rotate (sc_read sc n) in let b := t_rotate (sc_read sc (S n)) in
  a <= b <= a + g /\
  Forall (fun t => a <= t <= b) [t_first (sc_clocks sc n); t_second (sc_clocks sc n); t_zero (sc_clocks sc n)].

Lemma rotate_sent a b t lr sb tol fl :
  bool_decide (SendRotate ∈ (maintenance a b t lr sb tol fl).1.1) = (a <? t_rotate t - lr).
Proof.
  unfold maintenance. destruct (a <? t_rotate t - lr), (sb + b <? t_stats t), (tol + 10 <=? t_tolerate t),
    (has fl FLG_RECONFIGURE_PENDING); reflexivity.
Qed.

(** One round: the lag behind the clock at the next round. *)
Lemma rotate_round_lag nb le cfg si sc g n st a :
  5 <= nb <= 30 -> paced sc g -> mgr_rep nb cfg st a ->
  let lag := t_rotate (sc_read sc n) - BloomMgr.last_rotate st in
  exists st' a', rotate_round le cfg si (sc_read sc n) (sc_clocks sc n) (sc_pad sc n) (sc_begin sc n)
      (sc_toleration sc n) (sc_flags sc n) st = Ok st' /\ mgr_rep nb cfg st' a' /\
    t_rotate (sc_read sc (S n)) - BloomMgr.last_rotate st' <=
      if BloomMgr.rotate_interval cfg <? lag then Z.max (lag + g - BloomMgr.rotate_interval cfg) g else lag + g.
Proof.
  intros Hnb Hp Hr lag. destruct (Hp n) as [Hg Hc]. rewrite !Forall_cons in Hc. destruct Hc as (Hc1 & Hc2 & Hc3 & _).
  unfold rotate_round. destruct (maintenance _ _ _ _ _ _ _) as [[tasks tol] fl] eqn:Em.
  pose proof (rotate_sent (BloomMgr.rotate_interval cfg) si (sc_read sc n) (BloomMgr.last_rotate st) (sc_begin sc n)
    (sc_toleration sc n) (sc_flags sc n)) as Hs. rewrite Em in Hs. cbn in Hs. rewrite Hs. fold lag.
  destruct (Z.ltb_spec (BloomMgr.rotate_interval cfg) lag).
  - destruct (mgr_step_spec nb Hnb cfg le MRotate (sc_pad sc n) (sc_clocks sc n) st a Hr) as (st' & E & Hr' & Hl); [done|].
    exists st'. eexists. split; [exact E|]. split; [exact Hr'|]. rewrite Hl. unfold rotated_at, lag in *.
    destruct (Z.leb_spec (t_first (sc_clocks sc n) - BloomMgr.last_rotate st) (BloomMgr.rotate_interval cfg)); [lia|].
    destruct (BloomMgr.rotate_interval cfg * BloomMgr.num_bufs cfg <? _); lia.
  - exists st, a. split; [done|]. split; [done|]. unfold lag. lia.
Qed.

(** C12: the rotation keeps up with the clock.  Whatever the state the daemon
    starts with, however long it was stopped, when the rounds of its main loop
    come at most [g] seconds apart, [g] less than the rotation interval, and the
    manager handles the rotate command before the next round, then from some
    round on the last rotation is, in every round, at most the interval and [g]
    seconds old; no round fails.  The number of rounds it takes is at most the
    seconds the rotation is late at the start. *)
Theorem rotation_keeps_up (nb : Z) (le : bool) (cfg : mgr_config) (si : Z) (sc : schedule) (g : Z) (st0 : mgr) (a0 : aring) :
  5 <= nb <= 30 -> 0 <= g < BloomMgr.rotate_interval cfg -> paced sc g -> mgr_rep nb cfg st0 a0 ->
  exists n, forall m, (n <= m)%nat ->
    exists st, rotate_rounds le cfg si sc m st0 = Ok st /\
      t_rotate (sc_read sc m) - BloomMgr.last_rotate st <= BloomMgr.rotate_interval cfg + g.
Proof.
  intros Hnb Hg Hp Hr. set (late := t_rotate (sc_read sc 0) - BloomMgr.last_rotate st0).
  set (I := BloomMgr.rotate_interval cfg) in *.
  assert (forall m, exists st a, rotate_rounds le cfg si sc m st0 = Ok st /\ mgr_rep nb cfg st a /\
    t_rotate (sc_read sc m) - BloomMgr.last_rotate st <= Z.max (I + g) (late - Z.of_nat m)) as H.
  { induction m as [|m (st & a & E & Hra & Hl)]; [exists st0, a0; split_and!; try done; unfold late; lia|].
    destruct (rotate_round_lag nb le cfg si sc g m st a Hnb Hp Hra) as (st' & a' & E' & Hra' & Hl').
    exists st', a'. cbn [rotate_rounds]. rewrite E. cbn [rbind]. split_and!; try done. fold I in Hl'.
    destruct (Z.ltb_spec I (t_rotate (sc_read sc m) - BloomMgr.last_rotate st)); lia. }
  exists (Z.to_nat (Z.max 0 late)). intros m Hm. destruct (H m) as (st & a & E & _ & Hl). exists st. split; [done|]. lia.
Qed.

(** An hour between rotations, a round each second, a daemon two days late. *)
Definition demo_schedule : schedule :=
  let now (n : nat) := 200000 + Z.of_nat n in
  Schedule (fun n => Readings (now n) (now n) (now n) (now n))
    (fun n => Clocks (now n) (now n) (now n) (fun _ => 0)) (fun _ => []) (fun _ => 0) (fun _ => 0) (fun _ => 0).

Lemma rotation_keeps_up_witness :
  exists q0, create_bloom_ring_queue (fun _ _ => 0) 8 10 = Ok q0 /\
  exists n, forall m, (n <= m)%nat ->
    exists st, rotate_rounds true (MgrConfig 3600 8) 300 demo_schedule m (Mgr q0 27200 [] 0) = Ok st /\
      t_rotate (sc_read demo_schedule m) - BloomMgr.last_rotate st <= 3601.
Proof.
  destruct (create_ring_spec 10 ltac:(lia) (fun _ _ => 0) 8) as (q0 & E & Hq); [lia|].
  exists q0. split; [exact E|].
  apply (rotation_keeps_up 10 true (MgrConfig 3600 8) 300 demo_schedule 1 (Mgr q0 27200 [] 0) (a_create 8)); [lia | cbn; lia | |].
  - intros n. cbn. split; [lia|]. repeat constructor; lia.
  - split; [exact Hq | reflexivity].
Defined.

(** ** The configuration in the context *)

Lemma has_bit m k : 0 <= k -> has m (2 ^ k) = Z.testbit m k.
Proof.
  intros Hk. unfold has. destruct (Z.testbit m k) eqn:E.
  - apply negb_true_iff, Z.eqb_neq. intros H0. apply (f_equal (fun z => Z.testbit z k)) in H0.
    rewrite Z.land_spec, E, Z.pow2_bits_true, Z.bits_0 in H0 by done. done.
  - apply negb_false_iff, Z.eqb_eq. apply Z.bits_inj'. intros i Hi.
    rewrite Z.land_spec, Z.bits_0, Z.pow2_bits_eqb by done. destruct (Z.eqb_spec k i) as [<-|]; [by rewrite E | apply andb_false_r].
Qed.

Lemma has_lor m k j : 0 <= k -> 0 <= j -> has (Z.lor m (2 ^ k)) (2 ^ j) = has m (2 ^ j) || (k =? j).
Proof. intros. rewrite !has_bit, Z.lor_spec, Z.pow2_bits_eqb by done. done. Qed.

(** No step before the last sets the flag of the shortcut. *)
Definition unset (m : Z) : Prop := has m FLG_MATCH_SHORTCUT = false.

Lemma unset_lor m k : 0 <= k -> k <> 8 -> unset m -> unset (Z.lor m (2 ^ k)).
Proof.
  unfold unset, FLG_MATCH_SHORTCUT. intros Hk Hne Hm. rewrite has_lor, Hm by lia. by apply Z.eqb_neq.
Qed.

Lemma configure_pidfile_unset l : forall s s', configure_pidfile l s = Ok s' -> unset s.1 -> unset s'.1.
Proof.
  induction l as [|cp l IH]; intros s s' E Hs; cbn [configure_pidfile] in E; inv_ok; [done|].
  eapply IH; [done|]. repeat case_match; inv_ok; try done; cbn; repeat (apply unset_lor; [lia|lia|]); done.
Qed.

(** The log level stays what the command line made it. *)
Lemma configure_log_spec l : forall flgs level fac flgs' level' fac',
  configure_log l (flgs, level, fac) = Ok (flgs', level', fac') -> level <> 0 ->
  level' = level /\ (unset flgs -> unset flgs').
Proof.
  induction l as [|cp l IH]; intros flgs level fac flgs' level' fac' E Hl; cbn [configure_log] in E.
  { injection E as <- <- <-. done. }
  destruct (Z.eqb_spec level 0); [done|]. rewrite andb_false_r in E.
  destruct (cstr_eqb (c_name cp) (cs "log_method")).
  { cbn [rbind] in E. apply IH in E as [-> Hu]; [|done]. split; [done|]. intros H. apply Hu.
    destruct (cstr_eqb _ _); [apply (unset_lor flgs 5); [lia|lia|done] | done]. }
  destruct (cstr_eqb (c_name cp) (cs "syslog_facility")).
  { inv_ok. apply IH in E as [-> Hu]; done. }
  cbn [rbind] in E. by apply IH in E.
Qed.

Lemma configure_list_tolerance name w l : forall s s', configure_list name w l s = Ok s' ->
  Forall (fun d => tolerancecounter d = ERRORTOLERANCE) s.1 -> Forall (fun d => tolerancecounter d = ERRORTOLERANCE) s'.1.
Proof.
  induction l as [|cp l IH]; intros s s' E Hs; cbn [configure_list] in E; inv_ok; [done|].
  eapply IH; [done|]. destruct (cstr_eqb _ _); inv_ok; [|done]. constructor; done.
Qed.

Lemma s32_range z : INT_MIN <= s32 z <= INT_MAX.
Proof. unfold s32, INT_MIN, INT_MAX. pose proof (Z.mod_pos_bound (z + 2 ^ 31) (2 ^ 32)). lia. Qed.

Lemma configure_masks_range config m m6 :
  configure_masks config = Ok (m, m6) -> 0 <= m <= 32 /\ INT_MIN <= m6 <= 128.
Proof.
  unfold configure_masks. intros E. inv_ok.
  match goal with H : match strtol ?s with _ => _ end = Ok m |- _ => unfold strtol in H end.
  match goal with H : match strtol ?s with _ => _ end = Ok m6 |- _ => unfold strtol in H end.
  repeat (case_match; inv_ok; simplify_eq).
  repeat match goal with H : _ || _ = false |- _ => apply orb_false_iff in H as [?%Z.ltb_ge ?%Z.ltb_ge] end.
  match goal with |- _ /\ _ <= s32 ?z <= _ => pose proof (s32_range z) end. lia.
Qed.

(** C16: what the components can rely on once a configuration is accepted.  For
    every list of settings and command line for which [configure_grossd]
    returns, the IPv4 mask is in 0..32, the IPv6 mask is at most 128 (the test of
    its lower bound is made on the other mask), the size of the filters is in
    5..32, the number of filters is an unsigned 32-bit number, which is all that
    is tested, the shortcut for known triplets is on exactly when nothing is
    blocked, every DNS list starts with its full tolerance, and the log level is
    the one of the command line, whatever the setting [log_level] says: it has no
    effect. *)
Theorem configured_context `{HI : Inet} (resolve : cstr -> option (list Z)) (milter : bool) (config : list configlist_t)
    (o : options) (c : gross_config_t) :
  opt_loglevel o <> 0 -> has (opt_flags o) FLG_MATCH_SHORTCUT = false ->
  configure_grossd resolve milter config o = Ok c ->
  0 <= g_grey_mask c <= 32 /\ INT_MIN <= g_grey_mask6 c <= 128 /\ 5 <= filter_size c <= 32 /\ is_u32 (g_num_bufs c) /\
  has (flags c) FLG_MATCH_SHORTCUT = (g_block_threshold c =? 0) /\
  Forall (fun d => tolerancecounter d = ERRORTOLERANCE) (dnsbl c ++ dnswl c ++ rhsbl c) /\
  g_loglevel c = opt_loglevel o.
Proof.
  intros Hl Hf E. unfold configure_grossd in E. do 5 (apply bind_Ok_inv in E as (? & _ & E)).
  apply bind_Ok_inv in E as ([f1 peer] & E1 & E). apply bind_Ok_inv in E as (f2 & E2 & E).
  apply bind_Ok_inv in E as (tuple & _ & E). apply bind_Ok_inv in E as ([mask mask6] & E3 & E).
  apply bind_Ok_inv in E as (status & _ & E). apply bind_Ok_inv in E as ([[interval size] num] & E4 & E).
  apply bind_Ok_inv in E as ([pf sj] & _ & E). apply bind_Ok_inv in E as (stat & _ & E).
  apply bind_Ok_inv in E as ([f3 pid] & E5 & E). apply bind_Ok_inv in E as ([bl n1] & E6 & E).
  apply bind_Ok_inv in E as ([wl n2] & E7 & E). apply bind_Ok_inv in E as ([rl n3] & E8 & E).
  do 4 (apply bind_Ok_inv in E as (? & _ & E)). apply bind_Ok_inv in E as ([[f4 level] fac] & E9 & E).
  do 4 (apply bind_Ok_inv in E as (? & _ & E)). apply bind_Ok_inv in E as (block & _ & E). injection E as <-.
  cbn [g_grey_mask g_grey_mask6 filter_size g_num_bufs flags g_block_threshold dnsbl dnswl rhsbl g_loglevel].
  destruct (configure_masks_range _ _ _ E3). split; [done|]. split; [done|].
  assert (5 <= size <= 32 /\ is_u32 num) as [? ?].
  { unfold configure_filter in E4. inv_ok. destruct (_ || _) eqn:Eb in E4; [done|]. injection E4 as <- <- <-.
    apply orb_false_iff in Eb as [?%Z.ltb_ge ?%Z.ltb_ge]. split; [lia | apply u32_is_u32]. }
  assert (unset f1) as U1.
  { unfold configure_peer in E1. inv_ok. case_match; inv_ok; [done|]. by apply (unset_lor (opt_flags o) 1). }
  assert (unset f2) as U2.
  { unfold configure_update in E2. inv_ok. repeat case_match; inv_ok; try done. by apply (unset_lor f1 2). }
  pose proof (configure_pidfile_unset _ _ _ E5 U2) as U3. cbn in U3.
  destruct (configure_log_spec _ _ _ _ _ _ _ E9 Hl) as [-> U4]. specialize (U4 U3).
  split; [done|]. split; [done|]. split; [|split; [|done]].
  - destruct (Z.eqb_spec block 0); [|exact U4]. unfold FLG_MATCH_SHORTCUT. rewrite has_lor by lia. apply orb_true_r.
  - apply Forall_app. split; [by apply (configure_list_tolerance _ _ _ _ _ E6); constructor|].
    apply Forall_app. split; [by apply (configure_list_tolerance _ _ _ _ _ E7); constructor|].
    by apply (configure_list_tolerance _ _ _ _ _ E8); constructor.
Qed.

Import Dotted.

Definition demo_resolve (h : cstr) : option (list Z) := pton4 h.

(** The defaults, and a greylisting server with a peer-less Postfix. *)
Definition demo_config : list configlist_t :=
  [ConfigItem false (cs "protocol") (cs "postfix") []; ConfigItem false (cs "check") (cs "dnsbl") [];
   ConfigItem false (cs "dnsbl") (cs "bl.example") [cs "2"]] ++ default_config.

Lemma configured_context_witness :
  match configure_grossd demo_resolve false demo_config initialize_context with
  | Ok c =>
      (0 <= g_grey_mask c <= 32 /\ INT_MIN <= g_grey_mask6 c <= 128 /\ 5 <= filter_size c <= 32 /\ is_u32 (g_num_bufs c) /\
       has (flags c) FLG_MATCH_SHORTCUT = (g_block_threshold c =? 0) /\
       Forall (fun d => tolerancecounter d = ERRORTOLERANCE) (dnsbl c ++ dnswl c ++ rhsbl c) /\
       g_loglevel c = opt_loglevel initialize_context) /\
      filter_size c = 24 /\ start_checks false (checks c) = [("dnsbl"%string, false)] /\
      dnsbl c = [Dnsbl (cs "bl.example") 2 5]
  | Fail _ => False
  end.
Proof.
  destruct (configure_grossd demo_resolve false demo_config initialize_context) as [c|f] eqn:E;
    [|vm_compute in E; discriminate E].
  split; [apply (configured_context demo_resolve false demo_config initialize_context c); [discriminate | reflexivity | exact E]|].
  vm_compute in E. injection E as <-. split_and!; vm_compute; reflexivity.
Defined.

(** ** Settings that are accepted and cannot work *)

Lemma shl_int_31 k : 31 <= k -> shl_int 1 k = Fail Undefined.
Proof.
  intros Hk. unfold shl_int. destruct (Z.leb_spec 0 k); [|done]. destruct (Z.ltb_spec k 32); [|done]. cbn [andb].
  replace k with 31 by lia. reflexivity.
Qed.

(** The setting [name = value] in front of others. *)
Definition with_setting (name value : string) (config : list configlist_t) : list configlist_t :=
  ConfigItem false (cs name) (cs value) [] :: config.

(** One step of an accepted configuration, taken again with another setting in
    front that the step does not look at. *)
Ltac follow E :=
  let v := fresh "v" in let Ev := fresh "Ev" in
  cbv zeta in E; apply bind_Ok_inv in E as (v & Ev & E); cbv zeta;
  match goal with |- exists c', rbind ?y _ = Ok c' /\ _ => replace y with (Ok v) by (symmetry; exact Ev) end;
  cbn [rbind]; repeat match goal with p : (_ * _)%type |- _ => destruct p end; clear Ev.

(** An accepted configuration with another mask that is in range. *)
Lemma configure_with_mask `{HI : Inet} resolve milter config o c value m :
  configure_grossd resolve milter config o = Ok c -> strtol (cs value) = Some m -> 0 <= m <= 32 ->
  exists c', configure_grossd resolve milter (with_setting "grey_mask" value config) o = Ok c' /\ g_grey_mask c' = m.
Proof.
  intros E Hv Hm. unfold configure_grossd in *. do 8 follow E.
  apply bind_Ok_inv in E as ([m0 m6] & Em & E).
  assert (configure_masks (with_setting "grey_mask" value config) = Ok (m, m6)) as ->.
  { unfold configure_masks in *. apply bind_Ok_inv in Em as (s0 & _ & Em). apply bind_Ok_inv in Em as (x0 & _ & Em).
    apply bind_Ok_inv in Em as (s6 & Es6 & Em). apply bind_Ok_inv in Em as (x6 & Ex6 & Em). injection Em as -> ->.
    change (CONF_str (with_setting "grey_mask" value config) "grey_mask") with (Ok (cs value)).
    change (CONF_str (with_setting "grey_mask" value config) "grey_mask6") with (CONF_str config "grey_mask6").
    cbn [rbind]. rewrite Hv. assert ((32 <? m) = false /\ (m <? 0) = false) as [-> Hm0] by lia. rewrite Hm0. cbn [orb rbind].
    rewrite Es6. cbn [rbind]. destruct (strtol s6) as [y|]; [|done].
    destruct (128 <? y); [done|]. destruct (m0 <? 0); [done|]. cbn [orb] in Ex6. injection Ex6 as ->. by rewrite Hm0. }
  cbn [rbind]. do 18 follow E. injection E as <-. eexists. split; reflexivity.
Qed.

Lemma configure_with_bits `{HI : Inet} resolve milter config o c value n :
  configure_grossd resolve milter config o = Ok c -> int_val (atoi (cs value)) = Ok n -> 5 <= n <= 32 ->
  exists c', configure_grossd resolve milter (with_setting "filter_bits" value config) o = Ok c' /\ filter_size c' = n.
Proof.
  intros E Hv Hm. unfold configure_grossd in *. do 10 follow E.
  apply bind_Ok_inv in E as ([[iv sz] nm] & Em & E).
  assert (configure_filter (with_setting "filter_bits" value config) = Ok (iv, n, nm)) as ->.
  { unfold configure_filter in *. apply bind_Ok_inv in Em as (iv' & Eiv & Em). apply bind_Ok_inv in Em as (sz' & _ & Em).
    apply bind_Ok_inv in Em as (nm' & Enm & Em).
    change (CONF_int (with_setting "filter_bits" value config) "rotate_interval") with (CONF_int config "rotate_interval").
    change (CONF_int (with_setting "filter_bits" value config) "filter_bits") with (int_val (atoi (cs value))).
    change (CONF_int (with_setting "filter_bits" value config) "number_buffers") with (CONF_int config "number_buffers").
    rewrite Eiv, Hv, Enm. cbn [rbind]. destruct (_ || _) in Em; [done|]. injection Em as -> _ ->.
    rewrite (u32_id n) by (unfold is_u32; lia). by assert ((n <? 5) = false /\ (32 <? n) = false) as [-> ->] by lia. }
  cbn [rbind]. do 16 follow E. injection E as <-. eexists. split; reflexivity.
Qed.

(** Settings the start-up accepts and the server cannot work with.  In any
    accepted configuration, with any command line, [grey_mask] can be set to 0
    or 1, and then every query from an IPv4 client is undefined, because the
    masking shifts by 32 or 31 in an [int]; [filter_bits] can be set to 31 or 32,
    and then no ring of filters can be made. *)
Theorem accepted_settings_fault `{HI : Inet} {HL : InetLaws HI} (resolve : cstr -> option (list Z)) (milter spf : bool)
    (config : list configlist_t) (o : options) (c : gross_config_t) :
  configure_grossd resolve milter config o = Ok c ->
  Forall (fun m => exists c', configure_grossd resolve milter (with_setting "grey_mask" m config) o = Ok c' /\
    forall le ta ticks q1 q2 conn pad r b, is_addr 4 b -> client_address r = Some (ntop4 b) ->
      test_tuple le (to_worker_config spf c') ta ticks q1 q2 conn pad r = Fail Undefined) ["0"; "1"]%string /\
  Forall (fun n => exists c', configure_grossd resolve milter (with_setting "filter_bits" n config) o = Ok c' /\
    forall junk, exists f, create_bloom_ring_queue junk (g_num_bufs c') (filter_size c') = Fail f) ["31"; "32"]%string.
Proof.
  intros E.
  assert (forall c', 0 <= g_grey_mask c' <= 1 ->
    forall le ta ticks q1 q2 conn pad r b, is_addr 4 b -> client_address r = Some (ntop4 b) ->
      test_tuple le (to_worker_config spf c') ta ticks q1 q2 conn pad r = Fail Undefined) as Hm.
  { intros c' Hc le ta ticks q1 q2 conn pad r b Hb Hr. unfold test_tuple. rewrite Hr. cbn [rbind].
    unfold grey_mask, grey_mask_v4. pose proof (ntop4_fits b Hb).
    destruct (Z.leb_spec INET_ADDRSTRLEN (Z.of_nat (length (ntop4 b)))); [lia|].
    rewrite pton4_ntop4 by done. cbn [to_worker_config w_masks cfg_grey_mask]. by rewrite shl_int_31 by lia. }
  assert (forall c', 31 <= filter_size c' ->
    forall junk, exists f, create_bloom_ring_queue junk (g_num_bufs c') (filter_size c') = Fail f) as Hs.
  { intros c' Hc junk. destruct (create_bloom_ring_queue junk (g_num_bufs c') (filter_size c')) as [q|f] eqn:Eq; [|eauto].
    unfold create_bloom_ring_queue in Eq. apply bind_Ok_inv in Eq as (g & _ & Eq). apply bind_Ok_inv in Eq as (a & Ea & _).
    unfold create_bloom_filter in Ea. do 3 apply bind_Ok_inv in Ea as (? & _ & Ea). by rewrite shl_int_31 in Ea. }
  split; repeat (apply Forall_cons; split); try apply Forall_nil_2.
  - destruct (configure_with_mask _ _ _ _ _ "0" 0 E) as (c' & Ec & Hc); [reflexivity | lia|]. exists c'. split; [done|]. apply Hm. lia.
  - destruct (configure_with_mask _ _ _ _ _ "1" 1 E) as (c' & Ec & Hc); [reflexivity | lia|]. exists c'. split; [done|]. apply Hm. lia.
  - destruct (configure_with_bits _ _ _ _ _ "31" 31 E) as (c' & Ec & Hc); [reflexivity | lia|]. exists c'. split; [done|]. apply Hs. lia.
  - destruct (configure_with_bits _ _ _ _ _ "32" 32 E) as (c' & Ec & Hc); [reflexivity | lia|]. exists c'. split; [done|]. apply Hs. lia.
Qed.

Lemma accepted_settings_fault_witness :
  Forall (fun m => exists c', configure_grossd demo_resolve false (with_setting "grey_mask" m demo_config) initialize_context = Ok c' /\
    forall le ta ticks q1 q2 conn pad r b, is_addr 4 b -> client_address r = Some (ntop4 b) ->
      test_tuple le (to_worker_config true c') ta ticks q1 q2 conn pad r = Fail Undefined) ["0"; "1"]%string /\
  Forall (fun n => exists c', configure_grossd demo_resolve false (with_setting "filter_bits" n demo_config) initialize_context = Ok c' /\
    forall junk, exists f, create_bloom_ring_queue junk (g_num_bufs c') (filter_size c') = Fail f) ["31"; "32"]%string.
Proof.
  destruct (configure_grossd demo_resolve false demo_config initialize_context) as [c|f] eqn:E;
    [|vm_compute in E; discriminate E].
  apply (accepted_settings_fault demo_resolve false true demo_config initialize_context c). exact E.
Defined.

(** ** From the file to the checks *)

Lemma configure_checks_bits l k : 0 <= k -> forall c,
  has (configure_checks l c) (2 ^ k) =
  has c (2 ^ k) || existsb (fun cp => cstr_eqb (c_name cp) (cs "check") && has (check_bit (c_value cp)) (2 ^ k)) l.
Proof.
  intros Hk. induction l as [|cp l IH]; intros c; cbn [configure_checks foldl existsb]; [by rewrite orb_false_r|].
  unfold configure_checks in IH. rewrite IH. destruct (cstr_eqb (c_name cp) (cs "check")); cbn [andb orb]; [|done].
  rewrite !has_bit, Z.lor_spec by done. by rewrite orb_assoc.
Qed.

(** The bit of a check belongs to its name alone. *)
Lemma check_bit_name v name k :
  In (name, k) [("dnsbl", 0); ("dnswl", 4); ("rhsbl", 3); ("reverse", 6); ("helo", 7); ("blocker", 1); ("random", 2);
    ("spf", 5)]%string ->
  has (check_bit v) (2 ^ k) = cstr_eqb v (cs name).
Proof.
  intros H. unfold check_bit.
  destruct (cstr_eqb v (cs "dnsbl")) eqn:E1; [apply cstr_eqb_eq in E1 as ->|
  destruct (cstr_eqb v (cs "dnswl")) eqn:E2; [apply cstr_eqb_eq in E2 as ->|
  destruct (cstr_eqb v (cs "rhsbl")) eqn:E3; [apply cstr_eqb_eq in E3 as ->|
  destruct (cstr_eqb v (cs "blocker")) eqn:E4; [apply cstr_eqb_eq in E4 as ->|
  destruct (cstr_eqb v (cs "random")) eqn:E5; [apply cstr_eqb_eq in E5 as ->|
  destruct (cstr_eqb v (cs "spf")) eqn:E6; [apply cstr_eqb_eq in E6 as ->|
  destruct (cstr_eqb v (cs "reverse")) eqn:E7; [apply cstr_eqb_eq in E7 as ->|
  destruct (cstr_eqb v (cs "helo")) eqn:E8; [apply cstr_eqb_eq in E8 as ->|]]]]]]]];
  repeat destruct H as [H|H]; try (injection H as <- <-; vm_compute; reflexivity); try contradiction;
  injection H as <- <-; rewrite ?E1, ?E2, ?E3, ?E4, ?E5, ?E6, ?E7, ?E8; reflexivity.
Qed.

Lemma start_check_elem chks bit name d l (x : string * bool) :
  (length l < MAXCHECKS)%nat ->
  (length (start_check chks bit name d l) <= S (length l))%nat /\
  (x ∈ start_check chks bit name d l <-> x ∈ l \/ (has chks bit = true /\ x = (name, d))).
Proof.
  intros Hl. unfold start_check, register_check. rewrite (proj2 (Nat.ltb_lt _ _) Hl).
  destruct (has chks bit); [rewrite length_app; cbn [length]|]; (split; [lia|]).
  - rewrite elem_of_app, list_elem_of_singleton. tauto.
  - intuition discriminate.
Qed.

(** What is started, as a table of bits. *)
Definition check_table : list (string * Z * bool) :=
  [("dnsbl", 0, false); ("dnswl", 4, true); ("rhsbl", 3, false); ("reverse", 6, false); ("helo", 7, false);
   ("blocker", 1, false); ("random", 2, true); ("spf", 5, true)]%string.

Definition start_row (chks : Z) (l : list (string * bool)) (row : string * Z * bool) : list (string * bool) :=
  start_check chks (2 ^ row.1.2) row.1.1 row.2 l.

Lemma start_checks_rows chks : start_checks true chks = foldl (start_row chks) [] check_table.
Proof. reflexivity. Qed.

Lemma start_rows_elem chks rows : forall l (x : string * bool),
  (length l + length rows < MAXCHECKS)%nat ->
  x ∈ foldl (start_row chks) l rows <->
  x ∈ l \/ exists row, row ∈ rows /\ has chks (2 ^ row.1.2) = true /\ x = (row.1.1, row.2).
Proof.
  induction rows as [|row rows IH]; intros l x Hl; cbn [foldl].
  { split; [by left|]. intros [?|(? & H & _)]; [done|]. by apply elem_of_nil in H. }
  cbn [length] in Hl. destruct (start_check_elem chks (2 ^ row.1.2) row.1.1 row.2 l x) as [Hlen He]; [lia|].
  rewrite IH by (unfold start_row; lia). unfold start_row at 1. rewrite He. split.
  - intros [[?|[? ?]]|(r & ? & ?)]; [by left | right; exists row; split; [left | done] | right; exists r; split; [by right | done]].
  - intros [?|(r & [->|?]%elem_of_cons & ? & ?)]; [tauto | tauto | right; eauto].
Qed.

(** C15: the checks that run are those of the file.  When the settings of a file
    are in force ([read_config] leaves them so) and the configuration is
    accepted, a check is started exactly when the file has a line
    [check = name] for it, each with its mark as definitive or not; lines with
    names of no check start nothing. *)
Theorem checks_started_as_configured `{HI : Inet} (resolve : cstr -> option (list Z)) (milter : bool) (ls : list fline)
    (config : list configlist_t) (o : options) (c : gross_config_t) (name : string) (d : bool) :
  in_force ls config -> configure_grossd resolve milter config o = Ok c ->
  (name, d) ∈ start_checks true (checks c) <->
  (exists k, (name, k, d) ∈ check_table) /\ cs name ∈ (fst <$> given (cs "check") ls).
Proof.
  intros [_ Hin] E. specialize (Hin (cs "check")). change (multivalue (cs "check")) with true in Hin. cbv iota in Hin.
  assert (checks c = configure_checks config 0) as ->.
  { unfold configure_grossd in E. cbv zeta in E.
    repeat (apply bind_Ok_inv in E as (? & _ & E); repeat match goal with p : (_ * _)%type |- _ => destruct p end).
    by injection E as <-. }
  assert (forall n k b, (n, k, b) ∈ check_table -> 0 <= k /\ has (configure_checks config 0) (2 ^ k) =
    bool_decide (cs n ∈ (fst <$> given (cs "check") ls))) as Hbit.
  { intros n k b Ht. assert (0 <= k) as Hk.
    { unfold check_table in Ht. rewrite !elem_of_cons, elem_of_nil in Ht. naive_solver lia. }
    split; [done|]. rewrite configure_checks_bits by done. change (has 0 (2 ^ k)) with false. cbn [orb].
    apply Bool.eq_iff_eq_true. rewrite existsb_exists, bool_decide_eq_true.
    assert (forall v, has (check_bit v) (2 ^ k) = cstr_eqb v (cs n)) as Hcb.
    { intros v. apply check_bit_name. unfold check_table in Ht. rewrite !elem_of_cons, elem_of_nil in Ht. cbn [In]. naive_solver. }
    assert (forall cp, In cp (items config (cs "check")) <-> In cp config /\ c_name cp = cs "check") as Hi.
    { intros cp. unfold items. rewrite <-!list_elem_of_In, list_elem_of_filter. tauto. }
    split.
    - intros (cp & Hcp & [H1%cstr_eqb_eq H2]%andb_true_iff). rewrite Hcb in H2. apply cstr_eqb_eq in H2.
      assert (In cp (items config (cs "check"))) as Hc by (by apply Hi). rewrite Hin in Hc.
      destruct (given (cs "check") ls) as [|g gs] eqn:Eg; [vm_compute in Hc; contradiction|].
      rewrite <-list_elem_of_In, elem_of_reverse in Hc. apply list_elem_of_fmap in Hc as ([v ps] & -> & Hg).
      cbn in H2. subst v. apply list_elem_of_fmap. by exists (cs n, ps).
    - intros Hg. apply list_elem_of_fmap in Hg as ([v ps] & Hv & Hg). cbn in Hv. subst v.
      exists (ConfigItem false (cs "check") (cs n) ps). split.
      + apply Hi. rewrite Hin. destruct (given (cs "check") ls) as [|g gs] eqn:Eg; [by apply elem_of_nil in Hg|].
        rewrite <-list_elem_of_In, elem_of_reverse. apply list_elem_of_fmap. by exists (cs n, ps).
      + apply andb_true_iff. cbn [c_name c_value]. rewrite Hcb. split; by apply cstr_eqb_eq. }
  rewrite start_checks_rows, start_rows_elem by (vm_compute; lia). rewrite elem_of_nil. split.
  - intros [[]|([[n k] b] & Ht & Hh & [= -> ->])]. cbn in Hh. destruct (Hbit _ _ _ Ht) as [_ Hb]. rewrite Hb in Hh.
    apply bool_decide_eq_true in Hh. eauto.
  - intros [[k Ht] Hg]. right. exists (name, k, d). split; [done|]. split; [|done]. cbn.
    destruct (Hbit _ _ _ Ht) as [_ ->]. by apply bool_decide_eq_true.
Qed.

Definition spf_file : list fline :=
  [FSetting (Setting [] (cs "protocol") [] [] (cs "postfix") [] [] None);
   FSetting (Setting [] (cs "check") [] [] (cs "spf") [] [] None)].

Lemma checks_started_as_configured_witness :
  exists config c, in_force spf_file config /\ configure_grossd demo_resolve false config initialize_context = Ok c /\
    (("spf"%string, true) ∈ start_checks true (checks c) <->
     (exists k, ("spf"%string, k, true) ∈ check_table) /\ cs "spf" ∈ (fst <$> given (cs "check") spf_file)) /\
    start_checks true (checks c) = [("spf"%string, true)].
Proof.
  assert (in_force [] default_config) as H0 by (split; [done | intros name; by destruct (multivalue name)]).
  destruct (in_force_setting _ _ (Setting [] (cs "protocol") [] [] (cs "postfix") [] [] None) H0) as (c1 & E1 & H1).
  destruct (in_force_setting _ _ (Setting [] (cs "check") [] [] (cs "spf") [] [] None) H1) as (c2 & E2 & H2).
  vm_compute in E1. injection E1 as <-. vm_compute in E2. injection E2 as <-.
  match goal with H : in_force _ ?config |- _ => destruct (configure_grossd demo_resolve false config initialize_context) as [c|f] eqn:E;
    [exists config, c | vm_compute in E; discriminate E] end.
  split_and!; [exact H2 | exact E |..].
  - eapply (checks_started_as_configured demo_resolve false spf_file _ initialize_context); [exact H2 | exact E].
  - vm_compute in E. injection E as <-. vm_compute. reflexivity.
Defined.
