(* ===== verification/Servers.v ===== *)
(** * The server loops ([postfix_server] of [src/src/worker_postfix.c],
      [sjsms_server] of [src/src/worker_sjsms.c], [srvstatus] of
      [src/src/srvstatus.c], [milter_server] of [src/src/worker_milter.c],
      [free_client_info] of [src/src/worker.c])

    What a loop allocates and opens for a client, and what the handler of that
    client gives back.  The jobs between the two are in the hands of a thread
    pool: they end in any order. *)

From S2P Require Import Prelude Print Utils AddrUtils Worker Stats QueryLog SyncMgr Sync Postfix Sjsms Gross.

#[local] Open Scope st_scope.

Inductive protocol := PostfixServer | SjsmsServer.

(** A block of the heap is its number. *)
Record client_info_t := ClientInfo {
  ci_self : nat; ci_connfd : Z; ci_caddr : option nat; ci_ipstr : option nat; ci_msglen : Z; ci_message : option nat;
  ci_single_query : bool; ci_ip : cstr; ci_text : list Z }.

(** The allocated blocks and the open descriptors of the server, and the jobs
    submitted and not finished. *)
Record server := Server {
  sv_blocks : gset nat; sv_next : nat; sv_fds : gset Z; sv_grossfd : Z; sv_jobs : list client_info_t }.

Definition malloc : stt server nat := fun s =>
  Ok (sv_next s, Server ({[sv_next s]} ∪ sv_blocks s) (S (sv_next s)) (sv_fds s) (sv_grossfd s) (sv_jobs s)).

(** Giving back what is not allocated is an error. *)
Definition free (b : nat) : stt server unit := fun s =>
  if decide (b ∈ sv_blocks s) then
    Ok (tt, Server (sv_blocks s ∖ {[b]}) (sv_next s) (sv_fds s) (sv_grossfd s) (sv_jobs s))
  else Fail Undefined.

Definition open_fd (fd : Z) : stt server unit := fun s =>
  Ok (tt, Server (sv_blocks s) (sv_next s) ({[fd]} ∪ sv_fds s) (sv_grossfd s) (sv_jobs s)).

Definition close_fd (fd : Z) : stt server unit := fun s =>
  Ok (tt, Server (sv_blocks s) (sv_next s) (sv_fds s ∖ {[fd]}) (sv_grossfd s) (sv_jobs s)).

Definition set_jobs (s : server) (l : list client_info_t) : server :=
  Server (sv_blocks s) (sv_next s) (sv_fds s) (sv_grossfd s) l.

(** [edict_get], [submit_job] and [edict_unlink]. *)
Definition submit_client (c : client_info_t) : stt server unit := fun s => Ok (tt, set_jobs s (sv_jobs s ++ [c])).

(** [inet_ntop] always succeeds for an address of four bytes. *)
Definition ipstr `{Inet} (saddr : list Z) : cstr := ntop4 saddr.

Section Servers.
Context `{Inet} (new_fd : gset Z -> Z) (p : protocol).   (* [new_fd]: the descriptor [accept] chooses *)

(** ** Setting up *)

(** What the calls that set the socket and the pool up return. *)
Record setup := Setup { su_fd : option Z; su_sockopt : bool; su_bind : bool; su_listen : bool; su_pool : bool }.

Definition must (ok : bool) : Res unit := if ok then Ok tt else Fail (Exit EXIT_FATAL).

Definition postfix_setup (u : setup) : Res server :=
  match su_fd u with
  | None => Fail (Exit EXIT_FATAL)
  | Some fd =>
      _ ← must (su_sockopt u);
      _ ← must (su_bind u);
      _ ← must (su_listen u);
      _ ← must (su_pool u);
      Ok (Server ∅ 0 {[fd]} fd [])
  end.

Definition sjsms_setup (u : setup) : Res server :=
  match su_fd u with
  | None => Fail (Exit EXIT_FATAL)
  | Some fd => _ ← must (su_bind u); _ ← must (su_pool u); Ok (Server ∅ 0 {[fd]} fd [])
  end.

Definition server_setup (u : setup) : Res server :=
  match p with PostfixServer => postfix_setup u | SjsmsServer => sjsms_setup u end.

(** ** One turn of the loop *)

(** What [accept] or [recvfrom] brings: a connection, or a datagram. *)
Inductive arrival := Interrupted | NetError | Arrived (addr text : list Z).

Definition postfix_turn (a : arrival) : stt server unit :=
  let* self := malloc in
  let* caddr := malloc in
  match a with
  | Interrupted => st_ret tt
  | NetError => st_lift (Fail (Exit EXIT_FATAL))
  | Arrived addr _ =>
      let* s := st_get in
      let fd := new_fd (sv_fds s) in
      open_fd fd ;;;
      let* ip := malloc in
      submit_client (ClientInfo self fd (Some caddr) (Some ip) 0 None false (ipstr addr) [])
  end.

Definition sjsms_turn (a : arrival) : stt server unit :=
  let* self := malloc in
  let* caddr := malloc in
  match a with
  | Interrupted => st_ret tt
  | NetError => st_lift (Fail (Exit EXIT_FATAL))
  | Arrived addr text =>
      let mesg := take (Z.to_nat MAXLINELEN) text in
      let msglen := Z.of_nat (length mesg) in
      let* _ := st_lift (c_assert (negb (msglen =? 0))) in    (* Malloc *)
      let* message := malloc in
      let* s := st_get in
      let* ip := malloc in
      submit_client (ClientInfo self (sv_grossfd s) (Some caddr) (Some ip) msglen (Some message) false (ipstr addr) mesg)
  end.

Definition server_turn (a : arrival) : stt server unit :=
  match p with PostfixServer => postfix_turn a | SjsmsServer => sjsms_turn a end.

(** ** The end of a job *)

Definition free_opt (b : option nat) : stt server unit := match b with Some b => free b | None => st_ret tt end.

Definition free_client_info (c : client_info_t) : stt server unit :=
  free_opt (ci_caddr c) ;;; free_opt (ci_ipstr c) ;;; free_opt (ci_message c) ;;; free (ci_self c).

Definition end_client (i : nat) : stt server unit :=
  let* s := st_get in
  match sv_jobs s !! i with
  | None => st_ret tt
  | Some c =>
      st_put (set_jobs s (delete i (sv_jobs s))) ;;;
      match p with PostfixServer => close_fd (ci_connfd c) | SjsmsServer => st_ret tt end ;;;
      free_client_info c
  end.

Inductive server_event := Turn (a : arrival) | JobEnds (i : nat).

Definition server_step (ev : server_event) : stt server unit :=
  match ev with Turn a => server_turn a | JobEnds i => end_client i end.

Fixpoint server_run (evs : list server_event) : stt server unit :=
  match evs with [] => st_ret tt | ev :: evs => server_step ev ;;; server_run evs end.
End Servers.

(** ** What is in use *)

Definition opt_block (b : option nat) : list nat := match b with Some b => [b] | None => [] end.

Definition blocks_of (c : client_info_t) : list nat :=
  opt_block (ci_caddr c) ++ opt_block (ci_ipstr c) ++ opt_block (ci_message c) ++ [ci_self c].

Definition job_blocks (l : list client_info_t) : list nat := l ≫= blocks_of.

(** The blocks are those of the jobs, and [lost]. *)
Definition owns (lost : list nat) (s : server) : Prop :=
  sv_blocks s = list_to_set (lost ++ job_blocks (sv_jobs s)) /\ NoDup (lost ++ job_blocks (sv_jobs s)) /\
  Forall (fun b => b < sv_next s)%nat (lost ++ job_blocks (sv_jobs s)).

Lemma free_list bs : forall rest s,
  sv_blocks s = list_to_set (bs ++ rest) -> NoDup (bs ++ rest) ->
  forall m, (forall s, m s = foldr (fun b k => free b ;;; k) (st_ret tt) bs s) ->
  m s = Ok (tt, Server (list_to_set rest) (sv_next s) (sv_fds s) (sv_grossfd s) (sv_jobs s)).
Proof.
  induction bs as [|b bs IH]; intros rest s Hb Hn m Hm; rewrite Hm; cbn [foldr].
  - cbn in Hb. unfold st_ret. rewrite <-Hb. by destruct s.
  - cbn [app] in Hb, Hn. apply NoDup_cons in Hn as [Hn1 Hn]. unfold st_bind at 1, free.
    rewrite decide_True by (rewrite Hb; cbn; set_solver). cbn [rbind].
    rewrite (IH rest _) with (m := foldr (fun b k => free b ;;; k) (st_ret tt) bs); [done| |done|done].
    cbn [sv_blocks]. rewrite Hb. cbn [list_to_set]. apply set_eq. intros x. rewrite elem_of_difference, elem_of_union, elem_of_singleton.
    assert (x ∈@{gset nat} list_to_set (bs ++ rest) -> x <> b) by (rewrite elem_of_list_to_set; congruence). tauto.
Qed.

Lemma free_client_info_spec c rest s :
  sv_blocks s = list_to_set (blocks_of c ++ rest) -> NoDup (blocks_of c ++ rest) ->
  free_client_info c s = Ok (tt, Server (list_to_set rest) (sv_next s) (sv_fds s) (sv_grossfd s) (sv_jobs s)).
Proof.
  intros Hb Hn. apply (free_list (blocks_of c) rest s Hb Hn). intros s'. unfold free_client_info, blocks_of.
  destruct (ci_caddr c), (ci_ipstr c), (ci_message c); cbn [opt_block app foldr free_opt]; unfold st_bind, st_ret;
    repeat (destruct (free _ _) as [[[] ?]|]; cbn; [|done]); done.
Qed.

(** What the jobs are for: the arrivals, in order, less those that ended. *)
Definition pend `{Inet} (p : protocol) (l : list (cstr * list Z)) (ev : server_event) : list (cstr * list Z) :=
  match ev with
  | Turn (Arrived addr text) =>
      l ++ [(ipstr addr, match p with PostfixServer => [] | SjsmsServer => take (Z.to_nat MAXLINELEN) text end)]
  | JobEnds i => delete i l
  | _ => l
  end.

Definition pending `{Inet} (p : protocol) (evs : list server_event) : list (cstr * list Z) := foldl (pend p) [] evs.

Definition interruptions (evs : list server_event) : nat :=
  length (omap (fun ev => match ev with Turn Interrupted => Some tt | _ => None end) evs).

(** An event that does not end the daemon. *)
Definition survivable (p : protocol) (ev : server_event) : Prop :=
  match ev with
  | Turn NetError => False
  | Turn (Arrived _ text) => match p with PostfixServer => True | SjsmsServer => text <> [] end
  | _ => True
  end.

Definition per_job (p : protocol) : nat := match p with PostfixServer => 3 | SjsmsServer => 4 end.

Definition job_fds (p : protocol) (l : list client_info_t) : list Z :=
  match p with PostfixServer => ci_connfd <$> l | SjsmsServer => [] end.

Section Ledger.
Context `{Inet} (new_fd : gset Z -> Z) (Hnew : forall X, new_fd X ∉ X).

(** After [evs], [n] interruptions among them. *)
Record inv (g : Z) (p : protocol) (n : nat) (jobs : list (cstr * list Z)) (s : server) : Prop := {
  inv_grossfd : sv_grossfd s = g;
  inv_owns : exists lost, owns lost s /\ length lost = (2 * n)%nat;
  inv_size : Forall (fun c => length (blocks_of c) = per_job p) (sv_jobs s);
  inv_fds : sv_fds s = list_to_set (sv_grossfd s :: job_fds p (sv_jobs s));
  inv_nodup : NoDup (sv_grossfd s :: job_fds p (sv_jobs s));
  inv_jobs : (fun c => (ci_ip c, ci_text c)) <$> sv_jobs s = jobs }.

Lemma owns_new lost lost' (k : nat) s s' :
  owns lost s -> lost' ++ job_blocks (sv_jobs s') ≡ₚ seq (sv_next s) k ++ lost ++ job_blocks (sv_jobs s) ->
  sv_blocks s' = list_to_set (seq (sv_next s) k) ∪ sv_blocks s -> sv_next s' = (sv_next s + k)%nat -> owns lost' s'.
Proof.
  intros (Hb & Hn & Hl) Hp Hb' Hn'. unfold owns. rewrite Hb', Hn'. split; [|split].
  - rewrite Hb. apply set_eq. intros x. by rewrite elem_of_union, !elem_of_list_to_set, Hp, (elem_of_app (seq _ _)).
  - rewrite Hp. apply NoDup_app. split; [apply NoDup_seq|]. split; [|done]. intros x Hx Hx'.
    apply elem_of_seq in Hx. rewrite Forall_forall in Hl. specialize (Hl x Hx'). lia.
  - rewrite Hp. apply Forall_app. split; [apply Forall_forall; intros x Hx; apply elem_of_seq in Hx; lia|].
    eapply Forall_impl; [exact Hl|]. cbn. intros. lia.
Qed.

Lemma turn_step g p n jobs s a :
  inv g p n jobs s -> survivable p (Turn a) ->
  exists s', server_turn new_fd p a s = Ok (tt, s') /\
    inv g p (match a with Interrupted => S n | _ => n end) (pend p jobs (Turn a)) s'.
Proof.
  intros [Hg (lost & Ho & Hl) Hs Hf Hd Hj] Ha. set (k := sv_next s).
  destruct a as [| |addr text]; [|done|]; cbn [pend].
  - exists (Server ({[S (sv_next s)]} ∪ ({[sv_next s]} ∪ sv_blocks s)) (S (S (sv_next s))) (sv_fds s) (sv_grossfd s) (sv_jobs s)).
    split; [by destruct p|]. constructor; try done. exists (k :: S k :: lost). split; [|cbn; lia].
    apply (owns_new lost _ 2 s _ Ho); [done | cbn; set_solver | cbn; lia].
  - destruct p; cbn [survivable] in Ha.
    + unfold server_turn, postfix_turn, st_bind, malloc, st_get, open_fd, submit_client, set_jobs.
      cbn [sv_next sv_blocks sv_fds sv_grossfd sv_jobs].
      eexists. split; [reflexivity|]. pose proof (Hnew (sv_fds s)) as Hfd. constructor; cbn [sv_jobs sv_fds sv_grossfd]; [exact Hg|..].
      * exists lost. split; [|exact Hl].
        apply (owns_new lost _ 3 s _ Ho); [|cbn; set_solver | cbn; lia]. unfold job_blocks. cbn. rewrite bind_app. cbn. solve_Permutation.
      * apply Forall_app. split; [exact Hs|]. apply Forall_singleton. reflexivity.
      * cbn [job_fds]. rewrite fmap_app. cbn. rewrite Hf. cbn [job_fds]. set_solver.
      * cbn [job_fds] in *. rewrite fmap_app. cbn. rewrite app_comm_cons. apply NoDup_app. split; [done|]. split; [|apply NoDup_singleton].
        intros x Hx ->%list_elem_of_singleton. apply Hfd. set (fd := new_fd (sv_fds s)) in *. clearbody fd. rewrite Hf.
        by apply elem_of_list_to_set.
      * rewrite fmap_app, Hj. done.
    + assert (0 < length (take (Z.to_nat MAXLINELEN) text))%nat as Hlen
        by (destruct text; [done|]; rewrite length_take; unfold MAXLINELEN; cbn; lia).
      unfold server_turn, sjsms_turn, st_bind, malloc, st_lift, st_get, submit_client, set_jobs. cbn [rbind sv_next sv_blocks sv_fds sv_grossfd sv_jobs].
      destruct (Z.eqb_spec (Z.of_nat (length (take (Z.to_nat MAXLINELEN) text))) 0); [lia|]. cbn [negb c_assert rbind].
      eexists. split; [reflexivity|]. constructor; cbn [sv_jobs sv_fds sv_grossfd]; [exact Hg|..].
      * exists lost. split; [|exact Hl].
        apply (owns_new lost _ 4 s _ Ho); [|cbn; set_solver | cbn; lia]. unfold job_blocks. cbn. rewrite bind_app. cbn. solve_Permutation.
      * apply Forall_app. split; [exact Hs|]. apply Forall_singleton. reflexivity.
      * done.
      * done.
      * rewrite fmap_app, Hj. done.
Qed.

Lemma delete_split {A} (l : list A) i c :
  l !! i = Some c -> exists l1 l2, l = l1 ++ c :: l2 /\ delete i l = l1 ++ l2.
Proof.
  intros Hi. exists (take i l), (drop (S i) l). split; [by rewrite take_drop_middle | by rewrite delete_take_drop].
Qed.

Lemma end_step g p n jobs s i :
  inv g p n jobs s -> exists s', end_client p i s = Ok (tt, s') /\ inv g p n (delete i jobs) s'.
Proof.
  intros [Hg (lost & (Hb & Hn & Hlt) & Hl) Hs Hf Hd Hj]. unfold end_client, st_bind at 1, st_get.
  destruct (sv_jobs s !! i) as [c|] eqn:Ei; last first.
  { eexists. split; [reflexivity|]. apply lookup_ge_None in Ei.
    assert (delete i (sv_jobs s) = sv_jobs s) as Hid by (rewrite delete_take_drop, take_ge, drop_ge by lia; apply app_nil_r).
    subst jobs. rewrite <-list_fmap_delete, Hid. constructor; try done. exists lost. done. }
  destruct (delete_split _ _ _ Ei) as (l1 & l2 & E & Ed). rewrite Ed.
  assert (lost ++ job_blocks (sv_jobs s) ≡ₚ blocks_of c ++ lost ++ job_blocks (l1 ++ l2)) as Hp.
  { rewrite E. unfold job_blocks. rewrite !bind_app. cbn. solve_Permutation. }
  set (fds := match p with PostfixServer => sv_fds s ∖ {[ci_connfd c]} | SjsmsServer => sv_fds s end).
  set (s1 := Server (sv_blocks s) (sv_next s) fds (sv_grossfd s) (l1 ++ l2)).
  assert (((st_put (set_jobs s (l1 ++ l2)) ;;;
    match p with PostfixServer => close_fd (ci_connfd c) | SjsmsServer => st_ret tt end ;;; free_client_info c) s) =
    free_client_info c s1) as -> by (by destruct p).
  rewrite (free_client_info_spec c (lost ++ job_blocks (l1 ++ l2)) s1);
    [|cbn [s1 sv_blocks]; rewrite Hb; by apply list_to_set_perm_L | by rewrite <-Hp].
  eexists. split; [done|]. constructor; cbn [s1 sv_jobs sv_fds sv_grossfd]; [exact Hg|..].
  - exists lost. split; [|done]. split; [done|]. cbn [sv_jobs sv_next]. rewrite Hp in Hn, Hlt.
    apply NoDup_app in Hn as (_ & _ & Hn). apply Forall_app in Hlt as [_ Hlt]. done.
  - rewrite E in Hs. apply Forall_app in Hs as [Hs1 Hs]. apply Forall_cons in Hs as [_ Hs]. by apply Forall_app.
  - unfold fds. rewrite Hf. rewrite E in Hd |- *. destruct p; [|done]. cbn [job_fds] in *. rewrite fmap_app in Hd |- *. cbn in Hd.
    rewrite app_comm_cons in Hd. apply NoDup_app in Hd as (_ & Hd1 & Hd). apply NoDup_cons in Hd as [Hd2 _].
    rewrite fmap_app. cbn in Hd1 |- *. apply set_eq. intros x. specialize (Hd1 x). set_solver.
  - rewrite E in Hd. destruct p; [|done]. cbn [job_fds] in *. rewrite fmap_app in Hd |- *. cbn in Hd.
    rewrite app_comm_cons in Hd |- *. apply NoDup_app in Hd as (Hd0 & Hd1 & Hd). apply NoDup_cons in Hd as [Hd2 Hd].
    apply NoDup_app. split; [done|]. split; [|done]. intros x Hx Hx'. apply (Hd1 x Hx). by right.
  - rewrite <-Ed, list_fmap_delete, Hj. done.
Qed.

Lemma run_ledger g p evs : forall n jobs s,
  inv g p n jobs s -> Forall (survivable p) evs ->
  exists s', server_run new_fd p evs s = Ok (tt, s') /\ inv g p (n + interruptions evs) (foldl (pend p) jobs evs) s'.
Proof.
  induction evs as [|ev evs IH]; intros n jobs s Hi He; [exists s; by rewrite Nat.add_0_r|].
  apply Forall_cons in He as [He Hes]. cbn [server_run foldl]. unfold st_bind.
  destruct ev as [a|i]; cbn [server_step].
  - destruct (turn_step g p n jobs s a Hi He) as (s1 & -> & Hi1). destruct (IH _ _ _ Hi1 Hes) as (s2 & E & Hi2).
    exists s2. split; [exact E|]. unfold interruptions in *. destruct a; cbn [omap list_omap length] in *; [|exact Hi2..].
    by rewrite Nat.add_succ_r.
  - destruct (end_step g p n jobs s i Hi) as (s1 & -> & Hi1). exact (IH _ _ _ Hi1 Hes).
Qed.
End Ledger.

(** C24: what a server keeps for its clients: however arrivals, interrupted calls
    and the ends of jobs are mixed, nothing is given back twice, the jobs are
    exactly the arrivals in their order less those that ended, the open
    descriptors are the listening one and one for each Postfix connection in
    progress, and the allocated blocks are those of the jobs in progress and two
    for each interrupted call, which are never given back. *)
Theorem server_ledger `{Inet} (new_fd : gset Z -> Z) (p : protocol) (u : setup) (evs : list server_event) (s0 : server) :
  (forall X, new_fd X ∉ X) -> server_setup p u = Ok s0 -> Forall (survivable p) evs ->
  exists s, server_run new_fd p evs s0 = Ok (tt, s) /\
    (fun c => (ci_ip c, ci_text c)) <$> sv_jobs s = pending p evs /\
    sv_fds s = list_to_set (sv_grossfd s0 :: job_fds p (sv_jobs s)) /\
    size (sv_fds s) = S (length (job_fds p (sv_jobs s))) /\
    size (sv_blocks s) = (per_job p * length (sv_jobs s) + 2 * interruptions evs)%nat.
Proof.
  intros Hnew Hs He. assert (inv (sv_grossfd s0) p 0 [] s0) as Hi.
  { assert (exists fd, s0 = Server ∅ 0 {[fd]} fd []) as [fd ->].
    { destruct p; unfold server_setup, postfix_setup, sjsms_setup, must in Hs;
        repeat (case_match; simplify_eq/=; try done); by eexists. }
    constructor; [done| |done|..]; cbn [sv_fds sv_grossfd sv_jobs job_fds fmap list_fmap].
    - exists []. split; [|done]. split_and!; [done|apply NoDup_nil_2|constructor].
    - destruct p; cbn; set_solver.
    - destruct p; apply NoDup_singleton.
    - done. }
  destruct (run_ledger new_fd Hnew _ p evs 0 [] s0 Hi He) as (s & E & [Hg (lost & (Hb & Hn & _) & Hl) Hsz Hf Hd Hj]).
  rewrite Hg in Hf, Hd.
  exists s. split; [exact E|]. split; [exact Hj|]. split; [exact Hf|]. split.
  - rewrite Hf, size_list_to_set by done. done.
  - rewrite Hb, size_list_to_set by done. rewrite length_app, Hl. cbn [Nat.add].
    enough (length (job_blocks (sv_jobs s)) = (per_job p * length (sv_jobs s))%nat) by lia.
    clear -Hsz. induction Hsz as [|c l Hc _ IH]; [cbn; lia|]. unfold job_blocks in *. cbn. rewrite length_app, Hc, IH. lia.
Qed.

(** A descriptor above all that are open. *)
Definition next_fd (X : gset Z) : Z := 1 + foldr Z.max 0 (elements X).

Lemma next_fd_new X : next_fd X ∉ X.
Proof.
  intros Hi. assert (forall l x, x ∈ l -> x <= foldr Z.max 0 l) as Hm.
  { induction l as [|y l IH]; intros x Hx; [by apply not_elem_of_nil in Hx|]. cbn. apply elem_of_cons in Hx as [->|Hx]; [lia|].
    specialize (IH x Hx). lia. }
  apply elem_of_elements in Hi. specialize (Hm _ _ Hi). unfold next_fd in Hm. lia.
Qed.

Definition demo_arrivals : list server_event :=
  [Turn (Arrived [192; 0; 2; 1] [1; 2]); Turn Interrupted; Turn (Arrived [192; 0; 2; 2] [3]); JobEnds 0; JobEnds 5].

Lemma server_ledger_witness :
  (exists s, @server_run Dotted.dotted next_fd PostfixServer demo_arrivals (Server ∅ 0 {[4]} 4 []) = Ok (tt, s) /\
    (fun c => (ci_ip c, ci_text c)) <$> sv_jobs s = @pending Dotted.dotted PostfixServer demo_arrivals /\
    sv_fds s = list_to_set (4 :: job_fds PostfixServer (sv_jobs s)) /\
    size (sv_fds s) = S (length (job_fds PostfixServer (sv_jobs s))) /\
    size (sv_blocks s) = (per_job PostfixServer * length (sv_jobs s) + 2 * 1)%nat) /\
  @pending Dotted.dotted PostfixServer demo_arrivals = [(cs "192.0.2.2", [])].
Proof.
  split; [|vm_compute; reflexivity].
  apply (@server_ledger Dotted.dotted next_fd PostfixServer (Setup (Some 4) true true true true) demo_arrivals (Server ∅ 0 {[4]} 4 [])).
  - apply next_fd_new.
  - reflexivity.
  - repeat constructor.
Defined.

(** Any other error of the call ends the daemon, a connection that the client
    has given up before it was accepted among them. *)
Theorem network_error_ends_daemon `{Inet} (new_fd : gset Z -> Z) (p : protocol) (s : server) (evs : list server_event) :
  server_run new_fd p (Turn NetError :: evs) s = Fail (Exit EXIT_FATAL).
Proof. by destruct p. Qed.

(** ** The status server *)

Definition MSGSZ : nat := 1024.

(** [pthread_exit] when the socket cannot be set up; the daemon goes on. *)
Definition status_setup (u : setup) : option Z :=
  match su_fd u with
  | None => None
  | Some fd => if su_sockopt u && su_bind u && su_listen u then Some fd else None
  end.

(** One turn: nothing after a failed [accept], else the report and a line end,
    and the descriptor is closed. *)
Definition status_turn (nan : cstr) (accepted : option wfd) (v : srv_view) : stt stats_t (option cstr) :=
  match accepted with
  | None => st_ret None
  | Some w =>
      let* statbuf := get_srvstatus nan v (replicate MSGSZ NUL) (Z.of_nat MSGSZ - 2) in
      let* statbuf := st_lift (aset statbuf (Z.of_nat MSGSZ - 1) NUL) in
      let* n := st_lift (strlen_at statbuf 0) in
      let* statbuf := st_lift (aset statbuf (Z.of_nat n) nl) in
      let* n := st_lift (strlen_at statbuf 0) in
      match writen w (take n statbuf) with
      | None => st_lift (Fail Undefined)
      | Some (_, sent, _) => st_ret (Some sent)
      end
  end.

(** A thread that died is reported; a server in good health is not. *)
Example status_answers :
  match status_turn (cs "nan") (Some [Accept 2]) (SrvView 0 0 true (Some true) None (Some false) 1000 900 3600 1 false) demo_stats with
  | Ok (r, _) => r = Some (cs "2: postfix_server-thread is dead." ++ [nl]) | Fail _ => False end /\
  status_turn (cs "nan") (Some []) demo_view demo_stats = Fail SelfDeadlock.
Proof. vm_compute. split; reflexivity. Qed.

(** [syncmgr] sets its socket up the same way and then serves peers. *)
Definition syncmgr (le : bool) (mine : sync_config_t) (peer_ip : list Z) (u : setup) (e : sync_env) (ts : list turn)
  : option (traced sync_act (bool * sync_st)) :=
  match status_setup u with None => None | Some _ => Some (synchronize le mine peer_ip e ts) end.

(** ** The milter's thread *)

Definition tolower (c : ascii) : ascii :=
  let n := nat_of_ascii c in if ((65 <=? n) && (n <=? 90))%nat then ascii_of_nat (n + 32) else c.

(** Whether [strncasecmp(a, b, n)] is zero. *)
Definition strncaseeq (a b : cstr) (n : nat) : bool := cstr_eqb (tolower <$> take n a) (tolower <$> take n b).

(** The socket files removed before libmilter makes them anew; a string offset
    beyond its terminator is out of bounds. *)
Definition milter_unlinks (listen : cstr) : Res (list cstr) :=
  let tail n := if (n <=? length listen)%nat then Ok (drop n listen) else Fail OutOfBounds in
  l1 ← if strncaseeq listen (cs "unix:") 5 then t ← tail 5%nat; Ok [t] else Ok [];
  l2 ← if strncaseeq listen (cs "local:") 5 then t ← tail 6%nat; Ok [t] else Ok [];
  Ok (l1 ++ l2).

(** [smfi_main] returns when the milter is done; [milter_watcher] then ends the
    daemon. *)
Definition milter_server (listen : cstr) (setconn register : bool) : Res (list cstr) :=
  if negb setconn then Fail (Exit EXIT_FATAL)
  else
    removed ← milter_unlinks listen;
    if negb register then Fail (Exit EXIT_FATAL) else Ok removed.

Definition milter_watcher : Res unit := Fail (Exit EXIT_NOERROR).

(** For a socket of the file system, in either way of writing it, exactly the
    file named after the colon is removed; no file is for a network socket. *)
Theorem milter_unlinks_sockets path :
  milter_unlinks (cs "unix:" ++ path) = Ok [path] /\ milter_unlinks (cs "local:" ++ path) = Ok [path] /\
  milter_unlinks (cs "inet:" ++ path) = Ok [].
Proof. split_and!; cbn; by rewrite ?drop_0. Qed.

(** Only five characters of the second name are compared. *)
Example milter_unlinks_locals : milter_unlinks (cs "localhost:5523") = Ok [cs "ost:5523"].
Proof. reflexivity. Qed.
Example milter_unlinks_local : milter_unlinks (cs "local") = Fail OutOfBounds.
Proof. reflexivity. Qed.
