(* ===== verification/StateFile.v ===== *)
(** * The state file ([src/src/srvutils.c])

    All of a ring of filters lives in one block of memory, which is the mapped
    state file when there is one: the block of [mmapped_brq_t], the ring, the
    group, the pointers to the members, the headers of the filters and their
    words, one after the other, with absolute pointers between them.  When the
    file is mapped again, at another address, the pointers are moved.

    The block is modelled byte by byte, at its address, with the layout of the
    structures on a 64-bit machine of either byte order. *)

From S2P Require Import Prelude Sha256 Bloom Gross.

(** ** Memory *)

Record mapping := Mapping { m_base : Z; m_bytes : list Z }.

Section Machine.
Context (le : bool).

Definition in_range (m : mapping) (n : nat) (a : Z) : Prop :=
  m_base m <= a /\ a + Z.of_nat n <= m_base m + Z.of_nat (length (m_bytes m)).

#[export] Instance in_range_dec m n a : Decision (in_range m n a).
Proof. unfold in_range. apply _. Defined.

(** Reads and writes of [n] bytes at the address [a]. *)
Definition rd (n : nat) (a : Z) (m : mapping) : Res Z :=
  if decide (in_range m n a) then Ok (load le (take n (drop (Z.to_nat (a - m_base m)) (m_bytes m)))) else Fail OutOfBounds.

Definition wr (n : nat) (a v : Z) (m : mapping) : Res mapping :=
  if decide (in_range m n a) then
    Ok (Mapping (m_base m) (memcpy_at (m_bytes m) (Z.to_nat (a - m_base m)) (store le n v)))
  else Fail OutOfBounds.

(** Structures and the offsets of their fields. *)
Definition SIZEOF_MMAPPED_BRQ : Z := 32.
Definition SIZEOF_RING_QUEUE : Z := 24.
Definition SIZEOF_FILTER_GROUP : Z := 16.
Definition SIZEOF_FILTER : Z := 24.
Definition SIZEOF_POINTER : Z := 8.

(** [mmapped_brq_t]: [magic] at 0, [brq] at 8, [lumpsize] at 16, [last_rotate]
    at 24.  [bloom_ring_queue_t]: [group] at 0, [aggregate] at 8,
    [current_index] at 16.  [bloom_filter_group_t]: [filter_group] at 0,
    [group_size] at 8.  [bloom_filter_t]: [filter] at 0, [bitsize] at 8, [mask]
    at 12, [size] at 16. *)

(** ** Moving the pointers *)

Definition new_address (val1 val2 : Z) : Z := u64 (val1 + val2).

(** [CHANGE_ADDRESS] of the pointer at the address [a]. *)
Definition change_address (a offset : Z) (m : mapping) : Res mapping :=
  v ← rd 8 a m; wr 8 a (new_address v offset) m.

(** The loop condition reads [group_size], which the loop does not write. *)
Definition walk_mmap_info (mmap_info : Z) (m : mapping) : Res mapping :=
  brq ← rd 8 (mmap_info + 8) m;
  group ← rd 8 brq m;
  let offset := u64 (brq + SIZEOF_RING_QUEUE - group) in
  m ← change_address brq offset m;
  m ← change_address (brq + 8) offset m;
  aggregate ← rd 8 (brq + 8) m;
  m ← change_address aggregate offset m;
  group ← rd 8 brq m;
  m ← change_address group offset m;
  size ← rd 4 (group + 8) m;
  for_loop (Z.to_nat size) (fun i m =>
    group ← rd 8 brq m;
    filter_group ← rd 8 group m;
    m ← change_address (filter_group + SIZEOF_POINTER * Z.of_nat i) offset m;
    filter ← rd 8 (filter_group + SIZEOF_POINTER * Z.of_nat i) m;
    change_address filter offset m) m.

(** ** Making the file and the ring *)

(** The number of filters and [1 << num_bits] are multiplied in 32 bits. *)
Definition ring_lumpsize (num num_bits : Z) : Res Z :=
  bits ← shl_int 1 num_bits;
  Ok (u64 (SIZEOF_RING_QUEUE + SIZEOF_FILTER_GROUP + num * SIZEOF_POINTER + u32 (num + 1) * SIZEOF_FILTER +
    u32 (u32 (num + 1) * bits) / BITS_PER_CHAR)).

(** [existing] is the file that is there already, if any. *)
Definition create_statefile (existing : option (list Z)) (num num_bits : Z) : Res (list Z) :=
  ring ← ring_lumpsize num num_bits;
  match existing with
  | Some _ => Fail (Exit EXIT_FATAL)
  | None => Ok (replicate (Z.to_nat (u64 (ring + SIZEOF_MMAPPED_BRQ))) 0)
  end.

Definition zero_filter_at (filter : Z) (m : mapping) : Res mapping :=
  words ← rd 8 filter m;
  size ← rd 4 (filter + 16) m;
  for_loop (Z.to_nat size) (fun i m => wr 4 (words + 4 * Z.of_nat i) 0 m) m.

(** The sizes in the header of the filter at [filter]. *)
Definition set_header (filter num_bits : Z) (m : mapping) : Res mapping :=
  bits ← shl_int 1 num_bits;
  m ← wr 4 (filter + 8) bits m;
  m ← wr 4 (filter + 12) (Z.shiftr (2 ^ 32 - 1) (BITARRAY_BASE_SIZE - num_bits)) m;
  wr 4 (filter + 16) (bits / BITARRAY_BASE_SIZE) m.

(** The ring at [ptr] in the block; [brq->group] and [brq->aggregate] are the
    addresses that were just stored there. *)
Definition place_ring (ptr num num_bits : Z) (m : mapping) : Res mapping :=
  let brq := ptr in
  m ← wr 4 (brq + 16) 0 m;
  let group := brq + SIZEOF_RING_QUEUE in
  m ← wr 8 brq group m;
  m ← wr 4 (group + 8) num m;
  let filter_group := group + SIZEOF_FILTER_GROUP in
  m ← wr 8 group filter_group m;
  let aggregate := filter_group + num * SIZEOF_POINTER in
  m ← wr 8 (brq + 8) aggregate m;
  m ← set_header aggregate num_bits m;
  let member i := aggregate + SIZEOF_FILTER * u32 (Z.of_nat i + 1) in
  m ← for_loop (Z.to_nat num) (fun i m =>
        m ← wr 8 (filter_group + SIZEOF_POINTER * Z.of_nat i) (member i) m;
        set_header (member i) num_bits m) m;
  let words := aggregate + u32 (num + 1) * SIZEOF_FILTER in
  m ← wr 8 aggregate words m;
  for_loop (Z.to_nat num) (fun i m =>
    size ← rd 4 (member i + 16) m;
    wr 8 (member i) (words + u32 (Z.of_nat i + 1) * (4 * size)) m) m.

Definition zero_ring (ptr num : Z) (m : mapping) : Res mapping :=
  let filter_group := ptr + SIZEOF_RING_QUEUE + SIZEOF_FILTER_GROUP in
  aggregate ← rd 8 (ptr + 8) m;
  m ← zero_filter_at aggregate m;
  for_loop (Z.to_nat num) (fun i m =>
    filter ← rd 8 (filter_group + SIZEOF_POINTER * Z.of_nat i) m;
    zero_filter_at filter m) m.

Definition MAGIC : list Z := byte_of <$> (cs "mmbrq2" ++ [nl]).

(** Where the ring goes: memory from [malloc], with what it held before, or the
    state file with its contents ([None] when it cannot be opened), and whether
    a state file is open already. *)
Inductive place :=
| InMemory (junk : nat -> Z)
| InFile (already_open : bool) (contents : option (list Z)).

(** [address] is what [malloc] or [mmap] returns, [now] the clock; the result
    is the address of the ring and the block. *)
Definition build_bloom_ring (w : place) (address now num num_bits : Z) : Res (Z * mapping) :=
  _ ← c_assert (3 <? num_bits);
  lumpsize ← ring_lumpsize num num_bits;
  match w with
  | InMemory junk =>
      let m := Mapping address (junk <$> seq 0 (Z.to_nat lumpsize)) in
      m ← place_ring address num num_bits m;
      m ← zero_ring address num m;
      Ok (address, m)
  | InFile true _ | InFile false None => Fail (Exit EXIT_FATAL)
  | InFile false (Some contents) =>
      if negb (Z.of_nat (length contents) =? u64 (lumpsize + SIZEOF_MMAPPED_BRQ)) then Fail (Exit EXIT_FATAL)
      else
        let mmap_info := address in
        let ptr := mmap_info + SIZEOF_MMAPPED_BRQ in
        let m := Mapping address contents in
        if bool_decide (take 7 contents = MAGIC) then
          m ← wr 8 (mmap_info + 8) ptr m;
          m ← walk_mmap_info mmap_info m;
          Ok (ptr, m)
        else
          m ← for_loop 8 (fun i m => wr 1 (mmap_info + Z.of_nat i) ((MAGIC ++ [0]) !!! i) m) m;
          m ← wr 8 (mmap_info + 24) now m;
          m ← wr 8 (mmap_info + 8) ptr m;
          m ← place_ring ptr num num_bits m;
          m ← zero_ring ptr num m;
          Ok (ptr, m)
  end.

(** What the context keeps of the state file: the open descriptor
    ([statefile_info]), the address of the mapping ([mmap_info]) and the ring. *)
Record file_ctx := FileCtx { c_statefile_fd : option Z; c_mmap_info : option Z; c_filter : option Z }.

Inductive release := RMunmap (a len : Z) | RClose (fd : Z) | RFreeInfo | RFree (a : Z).

Definition release_bloom_ring_queue (brq : Z) (c : file_ctx) (m : mapping) : Res (list release * file_ctx) :=
  match c_statefile_fd c with
  | Some fd =>
      info ← match c_mmap_info c with Some a => Ok a | None => Fail OutOfBounds end;
      ring ← rd 8 (info + 8) m;
      if brq =? ring then
        lumpsize ← rd 8 (info + 16) m;
        Ok ([RMunmap ring lumpsize; RClose fd; RFreeInfo], FileCtx None None None)
      else Ok ([RFree brq], c)
  | None => Ok ([RFree brq], c)
  end.

(** ** The ring in the block *)

Definition read_words (a : Z) (n : nat) (m : mapping) : Res (list Z) :=
  for_loop n (fun i l => w ← rd 4 (a + 4 * Z.of_nat i) m; Ok (l ++ [w])) [].

Definition filter_at (a : Z) (m : mapping) : Res bloom_filter_t :=
  words ← rd 8 a m;
  bitsize ← rd 4 (a + 8) m;
  mask ← rd 4 (a + 12) m;
  size ← rd 4 (a + 16) m;
  l ← read_words words (Z.to_nat size) m;
  Ok (BloomFilter l bitsize mask size).

(** The ring a program finds by following the pointers from [brq]. *)
Definition ring_at (brq : Z) (m : mapping) : Res bloom_ring_queue_t :=
  group ← rd 8 brq m;
  filter_group ← rd 8 group m;
  size ← rd 4 (group + 8) m;
  l ← for_loop (Z.to_nat size) (fun i l =>
        a ← rd 8 (filter_group + SIZEOF_POINTER * Z.of_nat i) m;
        f ← filter_at a m; Ok (l ++ [f])) [];
  aggregate ← rd 8 (brq + 8) m;
  agg ← filter_at aggregate m;
  current ← rd 4 (brq + 16) m;
  Ok (RingQueue (FilterGroup l size) agg current).

Definition write_words (a : Z) (l : list Z) (m : mapping) : Res mapping :=
  for_loop (length l) (fun i m => wr 4 (a + 4 * Z.of_nat i) (l !!! i) m) m.

(** The memory after operations that took the ring to [q]: they write the words
    of the filters and the current index. *)
Definition update_ring_at (brq : Z) (q : bloom_ring_queue_t) (m : mapping) : Res mapping :=
  group ← rd 8 brq m;
  filter_group ← rd 8 group m;
  m ← for_loop (length (Bloom.filter_group (brq_group q))) (fun i m =>
        a ← rd 8 (filter_group + SIZEOF_POINTER * Z.of_nat i) m;
        words ← rd 8 a m;
        match Bloom.filter_group (brq_group q) !! i with
        | Some f => write_words words (bf_filter f) m
        | None => Ok m
        end) m;
  aggregate ← rd 8 (brq + 8) m;
  words ← rd 8 aggregate m;
  m ← write_words words (bf_filter (brq_aggregate q)) m;
  wr 4 (brq + 16) (brq_current_index q) m.

End Machine.

(** A ring of two filters of 32 bits, moved. *)
Example restart_small :
  (file ← create_statefile None 2 5;
   '(p, m) ← build_bloom_ring true (InFile false (Some file)) 4096 77 2 5;
   q ← ring_at true p m;
   q ← insert_digest_bloom_ring_queue q (Sha256 1 2 3 4 5 6 7 8);
   q ← rotate_bloom_ring_queue (fun _ => 9) q;
   m ← update_ring_at true p q m;
   '(p', m') ← build_bloom_ring true (InFile false (Some (m_bytes m))) 1000000 99 2 5;
   q' ← ring_at true p' m';
   found ← is_in_ring_queue q' (Sha256 1 2 3 4 5 6 7 8);
   Ok (bool_decide (p = p'), found)) = Ok (false, true).
Proof. vm_compute. reflexivity. Qed.

(** ** Reads and writes *)

Lemma lookup_memcpy_at {A} (dst src : list A) off i :
  (off + length src <= length dst)%nat ->
  memcpy_at dst off src !! i = if decide (off <= i < off + length src)%nat then src !! (i - off)%nat else dst !! i.
Proof.
  intros H. unfold memcpy_at. case_decide.
  - rewrite lookup_app_r by (rewrite length_take; lia). rewrite length_take, Nat.min_l by lia.
    by rewrite lookup_app_l by lia.
  - destruct (decide (i < off)%nat).
    + rewrite lookup_app_l by (rewrite length_take; lia). by rewrite lookup_take_lt.
    + rewrite lookup_app_r by (rewrite length_take; lia). rewrite length_take, Nat.min_l by lia.
      rewrite lookup_app_r by lia. rewrite lookup_drop. f_equal. lia.
Qed.

Lemma lookup_window {A} (l : list A) off n i :
  take n (drop off l) !! i = if decide (i < n)%nat then l !! (off + i)%nat else None.
Proof. rewrite lookup_take. case_decide; [|done]. by rewrite lookup_drop. Qed.

(** A block is another with some bytes changed. *)
Definition same_block (m m' : mapping) : Prop :=
  m_base m' = m_base m /\ length (m_bytes m') = length (m_bytes m).

#[export] Instance same_block_preorder : PreOrder same_block.
Proof.
  split; [done|]. intros a b c [H1 H2] [H3 H4]. split; congruence.
Qed.

Lemma same_block_range m m' n a : same_block m m' -> in_range m' n a <-> in_range m n a.
Proof. intros [H1 H2]. unfold in_range. by rewrite H1, H2. Qed.

Definition apart (n : nat) (a : Z) (k : nat) (b : Z) : Prop := a + Z.of_nat n <= b \/ b + Z.of_nat k <= a.

Section Access.
Context (le : bool).

Lemma wr_ok n a v m :
  in_range m n a ->
  exists m', wr le n a v m = Ok m' /\ same_block m m' /\ rd le n a m' = Ok (v mod 2 ^ (8 * Z.of_nat n)) /\
    (forall k b, apart n a k b -> rd le k b m' = rd le k b m).
Proof.
  intros Hr. unfold wr. rewrite decide_True by done. eexists. split; [done|].
  assert (length (store le n v) = n) as Hn
    by (unfold store; case_match; [apply length_le_split | apply length_be_split]).
  assert (Z.to_nat (a - m_base m) + length (store le n v) <= length (m_bytes m))%nat as Hl
    by (rewrite Hn; destruct Hr; lia).
  assert (same_block m (Mapping (m_base m) (memcpy_at (m_bytes m) (Z.to_nat (a - m_base m)) (store le n v)))) as Hs.
  { split; [done|]. cbn [m_bytes]. by rewrite length_memcpy_at. }
  split; [exact Hs|]. split.
  - unfold rd. rewrite decide_True by (by rewrite (same_block_range _ _ _ _ Hs)). cbn [m_base m_bytes].
    rewrite <-(load_store le). f_equal. f_equal. apply list_eq. intros i. rewrite lookup_window, lookup_memcpy_at by done.
    rewrite Hn. case_decide; [rewrite decide_True by lia; f_equal; lia|].
    symmetry. apply lookup_ge_None_2. lia.
  - intros k b Hd. unfold rd.
    destruct (decide (in_range m k b)) as [Hb|Hb].
    2: { rewrite decide_False; [done|]. by rewrite (same_block_range _ _ _ _ Hs). }
    rewrite decide_True by (by rewrite (same_block_range _ _ _ _ Hs)). cbn [m_base m_bytes]. f_equal. f_equal.
    apply list_eq. intros i. rewrite !lookup_window. case_decide; [|done]. rewrite lookup_memcpy_at by done.
    rewrite Hn. rewrite decide_False; [done|]. destruct Hr, Hb, Hd; lia.
Qed.

Lemma wr_inv n a v m m' : wr le n a v m = Ok m' -> in_range m n a.
Proof. unfold wr. by case_decide. Qed.

Lemma rd_ok n a m : in_range m n a -> exists v, rd le n a m = Ok v.
Proof. intros H. unfold rd. rewrite decide_True by done. eauto. Qed.

End Access.

(** ** The layout

    The block as a set of numbered slots, with their places relative to the
    ring and what they hold.  The filter 0 is the aggregate, the filter [i + 1]
    the member [i]. *)

Inductive slot :=
| SMagic (i : nat) | SBrq | SLump | SRotate
| SGroup | SAggregate | SCurrent
| SFilterGroup | SGroupSize
| SMember (i : nat)
| SFilter (j : nat) | SHead (j k : nat)
| SWord (j k : nat).

#[export] Instance slot_eq_dec : EqDecision slot.
Proof. solve_decision. Defined.

Section Layout.
Context (le : bool) (infile : bool) (num : nat) (nb : Z).
Context (Hnum : Z.of_nat num < 2 ^ 32 - 1) (Hnb : 5 <= nb <= 30).

Definition fsize : Z := 2 ^ (nb - 5).
Definition header (j : nat) : Z := 40 + 8 * Z.of_nat num + 24 * Z.of_nat j.
Definition data : Z := header (S num).
Definition words_of (j : nat) : Z := data + Z.of_nat j * (4 * fsize).

Definition soff (s : slot) : Z :=
  match s with
  | SMagic i => -32 + Z.of_nat i
  | SBrq => -24
  | SLump => -16
  | SRotate => -8
  | SGroup => 0
  | SAggregate => 8
  | SCurrent => 16
  | SFilterGroup => 24
  | SGroupSize => 32
  | SMember i => 40 + 8 * Z.of_nat i
  | SFilter j => header j
  | SHead j k => header j + 8 + 4 * Z.of_nat k
  | SWord j k => words_of j + 4 * Z.of_nat k
  end.

Definition slen (s : slot) : nat :=
  match s with
  | SMagic _ => 1
  | SCurrent | SGroupSize | SHead _ _ | SWord _ _ => 4
  | _ => 8
  end.

Definition valid (s : slot) : Prop :=
  match s with
  | SMagic i => infile = true /\ (i < 8)%nat
  | SBrq | SLump | SRotate => infile = true
  | SMember i => (i < num)%nat
  | SFilter j => (j <= num)%nat
  | SHead j k => (j <= num)%nat /\ (k < 3)%nat
  | SWord j k => (j <= num)%nat /\ Z.of_nat k < fsize
  | _ => True
  end.

Lemma fsize_pos : 0 < fsize.
Proof. unfold fsize. apply Z.pow_pos_nonneg; lia. Qed.

Definition total : Z := words_of (S num).

(** The slots do not overlap. *)
Lemma slots_apart s t : valid s -> valid t -> s <> t -> apart (slen s) (soff s) (slen t) (soff t).
Proof.
  intros Hs Ht Hne. pose proof fsize_pos as Hz.
  assert (forall j k, data <= soff (SWord j k)) as Hd by (intros; cbn; unfold words_of; lia).
  assert (forall j k j' k', valid (SWord j k) -> (j < j')%nat -> soff (SWord j k) + 4 <= soff (SWord j' k')) as Hw.
  { intros j k j' k' [_ Hk] Hj. cbn. unfold words_of.
    assert ((Z.of_nat j + 1) * (4 * fsize) <= Z.of_nat j' * (4 * fsize)) by (apply Z.mul_le_mono_nonneg_r; lia). lia. }
  unfold apart. destruct s as [i| | | | | | | | |i|j|j k|j k], t as [i'| | | | | | | | |i'|j'|j' k'|j' k']; try done;
    try match goal with
    | H : SMagic ?a <> SMagic ?b |- _ => assert (a <> b) by congruence
    | H : SMember ?a <> SMember ?b |- _ => assert (a <> b) by congruence
    | H : SFilter ?a <> SFilter ?b |- _ => assert (a <> b) by congruence
    | H : SHead ?a ?c <> SHead ?b ?d |- _ =>
        assert (a <> b \/ c <> d) by (destruct (decide (a = b)), (decide (c = d)); [congruence | tauto..])
    end;
    try (pose proof (Hd j' k')); try (pose proof (Hd j k)).
  all: try (cbn [soff slen valid] in *; unfold data, header in *; lia).
  destruct (lt_eq_lt_dec j j') as [[Hj | ->] | Hj].
  - left. by apply Hw.
  - assert (k <> k') by congruence. cbn. lia.
  - right. by apply Hw.
Qed.

Lemma slot_bounds s : valid s -> (if infile then -32 else 0) <= soff s /\ soff s + Z.of_nat (slen s) <= total.
Proof.
  intros Hs. pose proof fsize_pos as Hz. assert (data <= total) by (unfold total, words_of; lia).
  destruct s as [i| | | | | | | | |i|j|j k|j k]; cbn [soff slen valid] in *; unfold data, header in *; try (destruct infile; lia).
  assert ((Z.of_nat j + 1) * (4 * fsize) <= Z.of_nat (S num) * (4 * fsize)) by (apply Z.mul_le_mono_nonneg_r; lia).
  split; [destruct infile|]; unfold total, words_of, data, header in *; lia.
Qed.

(** *** What the slots hold *)

Definition holds (m : mapping) (p : Z) (v : slot -> Z) : Prop :=
  forall s, valid s -> rd le (slen s) (p + soff s) m = Ok (v s).

(** The block has room for every slot. *)
Definition room (m : mapping) (p : Z) : Prop :=
  m_base m <= p + (if infile then -32 else 0) /\ p + total <= m_base m + Z.of_nat (length (m_bytes m)).

Definition upd (v : slot -> Z) (s : slot) (x : Z) (t : slot) : Z := if decide (t = s) then x else v t.

Lemma slots_ext m p v v' : (forall s, valid s -> v s = v' s) -> holds m p v -> holds m p v'.
Proof. intros Hv H s Hs. rewrite <-Hv by done. by apply H. Qed.

Lemma slot_in_range m p s : room m p -> valid s -> in_range m (slen s) (p + soff s).
Proof. intros [H1 H2] Hs. destruct (slot_bounds s Hs). unfold in_range. lia. Qed.

Lemma same_block_room m m' p : same_block m m' -> room m p -> room m' p.
Proof. intros [H1 H2]. unfold room. by rewrite H1, H2. Qed.

(** Whatever is in the block, it is something. *)
Lemma holds_any m p : room m p -> exists v, holds m p v.
Proof.
  intros Hr. exists (fun s => match rd le (slen s) (p + soff s) m with Ok v => v | Fail _ => 0 end). intros s Hs.
  by destruct (rd_ok le _ _ _ (slot_in_range m p s Hr Hs)) as (v & ->).
Qed.

(** A write to a slot changes that slot. *)
Lemma wr_slot m p v s n a x :
  holds m p v -> room m p -> valid s -> n = slen s -> a = p + soff s -> 0 <= x < 2 ^ (8 * Z.of_nat n) ->
  exists m', wr le n a x m = Ok m' /\ same_block m m' /\ holds m' p (upd v s x).
Proof.
  intros H Hr Hs -> -> Hx.
  destruct (wr_ok le (slen s) (p + soff s) x m (slot_in_range m p s Hr Hs)) as (m' & E & Hb & Hv & Ho).
  exists m'. split_and!; [done..|]. intros t Ht. unfold upd. case_decide as Hts.
  - subst t. rewrite Hv. f_equal. by apply Z.mod_small.
  - rewrite Ho; [by apply H|]. destruct (slots_apart s t Hs Ht); [congruence | left; lia | right; lia].
Qed.

Lemma rd_slot m p v s n a : holds m p v -> valid s -> n = slen s -> a = p + soff s -> rd le n a m = Ok (v s).
Proof. intros H Hs -> ->. by apply H. Qed.

(** *** Triples

    A piece of code turns the block from one that holds [old], except that the
    slots in [D] hold [new] already, into one where those in [D'] do. *)

Section Triples.
Context (p : Z) (new old : slot -> Z).

Definition fits (v : slot -> Z) : Prop := forall s, valid s -> 0 <= v s < 2 ^ (8 * Z.of_nat (slen s)).

Definition blend (D : slot -> bool) (s : slot) : Z := if D s then new s else old s.

Definition triple (D : slot -> bool) (f : mapping -> Res mapping) (D' : slot -> bool) : Prop :=
  forall m, room m p -> holds m p (blend D) ->
    exists m', f m = Ok m' /\ same_block m m' /\ holds m' p (blend D').

Definition add (s : slot) (D : slot -> bool) (t : slot) : bool := bool_decide (t = s) || D t.

Lemma t_wr D s n a x :
  fits new -> valid s -> n = slen s -> a = p + soff s -> x = new s -> triple D (wr le n a x) (add s D).
Proof.
  intros Hf Hs Hn Ha -> m Hr H. destruct (wr_slot m p _ s n a (new s) H Hr Hs Hn Ha) as (m' & E & Hb & Hh).
  { rewrite Hn. by apply Hf. }
  exists m'. split_and!; [done..|]. apply (slots_ext m' p) with (2 := Hh). intros t _.
  unfold upd, blend, add. by destruct (decide (t = s)) as [->|Hne]; [rewrite bool_decide_true | rewrite bool_decide_false].
Qed.

Lemma t_rd D s n a k D' :
  valid s -> n = slen s -> a = p + soff s -> triple D (k (blend D s)) D' -> triple D (fun m => x ← rd le n a m; k x m) D'.
Proof. intros Hs Hn Ha Hk m Hr H. rewrite (rd_slot m p _ s n a H Hs Hn Ha). cbn [rbind]. by apply Hk. Qed.

Lemma t_seq D D1 D' f g : triple D f D1 -> triple D1 g D' -> triple D (fun m => m ← f m; g m) D'.
Proof.
  intros Hf Hg m Hr H. destruct (Hf m Hr H) as (m1 & -> & Hb & H1). cbn [rbind].
  destruct (Hg m1 (same_block_room _ _ _ Hb Hr) H1) as (m2 & -> & Hb2 & H2).
  exists m2. split_and!; [done | by transitivity m1 | done].
Qed.

Lemma t_ext D D1 f D' D1' :
  triple D1 f D1' -> (forall s, valid s -> blend D s = blend D1 s) -> (forall s, valid s -> blend D1' s = blend D' s) ->
  triple D f D'.
Proof.
  intros Hf H1 H2 m Hr H. destruct (Hf m Hr) as (m' & E & Hb & Hh); [by apply (slots_ext m p (blend D))|].
  exists m'. split_and!; [done..|]. by apply (slots_ext m' p (blend D1')).
Qed.

Lemma t_post D f D1 D' : triple D f D1 -> (forall s, valid s -> blend D1 s = blend D' s) -> triple D f D'.
Proof. intros Hf H. by apply (t_ext D D f D' D1). Qed.

Lemma t_pre D f D1 D' : (forall s, valid s -> blend D s = blend D1 s) -> triple D1 f D' -> triple D f D'.
Proof. intros H Hf. by apply (t_ext D D1 f D' D'). Qed.

Lemma t_loop (D : nat -> slot -> bool) n body :
  (forall i, (i < n)%nat -> triple (D i) (body i) (D (S i))) -> triple (D O) (for_loop n body) (D n).
Proof.
  intros Hb m Hr H.
  destruct (for_loop_inv (fun i m' => same_block m m' /\ holds m' p (blend (D i))) n body m) as (m' & E & Hs & Hh).
  - split; [reflexivity | done].
  - intros i m1 Hi [Hs H1]. destruct (Hb i Hi m1 (same_block_room _ _ _ Hs Hr) H1) as (m2 & E & Hs2 & H2).
    exists m2. split_and!; [done | by transitivity m1 | done].
  - eauto.
Qed.

End Triples.

(** Two descriptions of the same progress. *)
Ltac same_progress :=
  let t := fresh "t" in let Ht := fresh "Ht" in
  intros t Ht; unfold blend, add;
  match goal with |- (if ?a then _ else _) = (if ?b then _ else _) => replace b with a; [done|] end;
  destruct t as [i'| | | | | | | | |i'|j'|j' k'|j' k']; cbn -[Nat.leb Nat.ltb Nat.eqb fsize] in Ht |- *;
  try match goal with H : _ /\ (?k < 3)%nat |- _ => destruct k as [|[|[|k]]]; [| | |lia] end;
  repeat (case_bool_decide; simplify_eq); cbn [orb]; try done;
  repeat match goal with
  | H : SMember ?a <> SMember ?b |- _ => assert (a <> b) by congruence; clear H
  | H : SFilter ?a <> SFilter ?b |- _ => assert (a <> b) by congruence; clear H
  | H : SHead ?a ?k <> SHead ?b ?k |- _ => assert (a <> b) by congruence; clear H
  | H : SWord ?a ?k <> SWord ?a ?l |- _ => assert (k <> l) by congruence; clear H
  end;
  repeat match goal with
  | |- context [(?a <=? ?b)%nat] => destruct (Nat.leb_spec a b)
  | |- context [(?a <? ?b)%nat] => destruct (Nat.ltb_spec a b)
  | |- context [(?a =? ?b)%nat] => destruct (Nat.eqb_spec a b)
  end; try done; try lia.

(** *** The image of a ring

    [i_ring] is the address the pointers were made for. *)
Record image := Image { i_ring : Z; i_rotate : Z; i_lump : Z; i_current : Z; i_words : nat -> nat -> Z }.

Definition image_of (c : image) (s : slot) : Z :=
  match s with
  | SMagic i => (MAGIC ++ [0]) !!! i
  | SBrq => i_ring c
  | SLump => i_lump c
  | SRotate => i_rotate c
  | SGroup => i_ring c + 24
  | SAggregate => i_ring c + header 0
  | SCurrent => i_current c
  | SFilterGroup => i_ring c + 40
  | SGroupSize => Z.of_nat num
  | SMember i => i_ring c + header (S i)
  | SFilter j => i_ring c + words_of j
  | SHead j k => [2 ^ nb; 2 ^ nb - 1; fsize] !!! k
  | SWord j k => i_words c j k
  end.

(** The addresses are those of a block that exists. *)
Definition placed (a : Z) : Prop := 0 <= a /\ a + total < 2 ^ 64.

Definition image_ok (c : image) : Prop :=
  placed (i_ring c) /\ is_u64 (i_rotate c) /\ is_u64 (i_lump c) /\ is_u32 (i_current c) /\ forall j k, is_u32 (i_words c j k).

Lemma pow_nb : 2 ^ nb = 32 * fsize /\ 2 ^ nb < 2 ^ 32.
Proof. split; [by apply pow_split | apply Z.pow_lt_mono_r; lia]. Qed.

Lemma words_of_le j : (j <= S num)%nat -> data <= words_of j <= total.
Proof.
  intros Hj. unfold total, words_of. pose proof fsize_pos.
  assert (Z.of_nat j * (4 * fsize) <= Z.of_nat (S num) * (4 * fsize)) by (apply Z.mul_le_mono_nonneg_r; lia). lia.
Qed.

Lemma image_fits c : image_ok c -> fits (image_of c).
Proof.
  intros ([Hp Hpt] & Hr & Hl & Hc & Hw) s Hs. pose proof fsize_pos. pose proof pow_nb.
  pose proof (words_of_le (S num) ltac:(lia)) as Ht. fold total in Ht. unfold data, header in Ht.
  destruct s as [i| | | | | | | | |i|j|j k|j k]; cbn [slen image_of valid] in *; unfold is_u64, is_u32, header in *; cbn [slen];
    change (8 * Z.of_nat 8) with 64; change (8 * Z.of_nat 4) with 32; try lia.
  - change (8 * Z.of_nat 1) with 8.
    destruct Hs as [_ Hi]. do 8 (destruct i as [|i]; [vm_compute; split; [discriminate | reflexivity]|]). lia.
  - pose proof (words_of_le j ltac:(lia)). unfold data, header in *. lia.
  - destruct Hs as [_ Hk]. destruct k as [|[|[|k]]]; cbn [lookup_total list_lookup_total]; lia.
  - apply Hw.
Qed.

(** *** Code that brings the block to the image of a ring at its own address *)

Section Code.
Context (p : Z) (c : image) (old : slot -> Z) (Hc : image_ok c) (Hp : i_ring c = p).

Local Abbreviation T := (triple p (image_of c) old).

Lemma put D s n a x :
  valid s -> n = slen s -> a = p + soff s -> x = image_of c s -> T D (wr le n a x) (add s D).
Proof. intros. apply t_wr; [by apply image_fits | done..]. Qed.

Lemma set_header_triple D j : (j <= num)%nat ->
  T D (set_header le (p + header j) nb) (add (SHead j 2) (add (SHead j 1) (add (SHead j 0) D))).
Proof.
  intros Hj. unfold set_header. rewrite shl_bits by done. cbn [rbind]. rewrite mask_bits, size_bits by done.
  eapply t_seq; [apply (put _ (SHead j 0)); [cbn; lia | done | cbn; lia | done]|].
  eapply t_seq; [apply (put _ (SHead j 1)); [cbn; lia | done | cbn; lia | done]|].
  apply (put _ (SHead j 2)); [cbn; lia | done | cbn; lia | done].
Qed.

(** What comes before [place_ring] in a file. *)
Definition head_done (t : slot) : bool := match t with SMagic _ | SBrq | SRotate => true | _ => false end.

(** The steps of [place_ring]: the headers and member pointers of the first
    filters, then their pointers to words. *)
Definition headers_done (i : nat) (t : slot) : bool :=
  match t with
  | SGroup | SAggregate | SCurrent | SFilterGroup | SGroupSize => true
  | SMember k => (k <? i)%nat
  | SHead j _ => (j <=? i)%nat
  | _ => head_done t
  end.

Definition pointers_done (i : nat) (t : slot) : bool :=
  match t with
  | SFilter j => (j <=? i)%nat
  | _ => headers_done num t
  end.

Lemma place_ring_triple :
  i_current c = 0 -> T head_done (place_ring le p (Z.of_nat num) nb) (pointers_done num).
Proof.
  intros Hcur. pose proof fsize_pos. unfold place_ring. cbv zeta.
  unfold SIZEOF_RING_QUEUE, SIZEOF_FILTER_GROUP, SIZEOF_POINTER, SIZEOF_FILTER.
  replace (p + 24 + 16 + Z.of_nat num * 8) with (p + header 0) by (unfold header; lia). rewrite Nat2Z.id.
  eapply t_seq; [apply (put _ SCurrent); [done | done | done | done]|].
  eapply t_seq; [apply (put _ SGroup); [done | done | cbn; lia | cbn; lia]|].
  eapply t_seq; [apply (put _ SGroupSize); [done | done | cbn; lia | done]|].
  eapply t_seq; [apply (put _ SFilterGroup); [done | done | cbn; lia | cbn; lia]|].
  eapply t_seq; [apply (put _ SAggregate); [done | done | cbn; lia | cbn; lia]|].
  eapply t_seq; [apply set_header_triple; lia|].
  eapply t_seq.
  { apply (t_pre p (image_of c) old _ _ (headers_done 0)); [same_progress|].
    apply (t_loop p (image_of c) old (headers_done)). intros i Hi.
    assert (p + header 0 + 24 * u32 (Z.of_nat i + 1) = p + header (S i)) as ->
      by (rewrite u32_id by (unfold is_u32; lia); unfold header; lia).
    eapply t_post.
    - eapply t_seq; [apply (put _ (SMember i)); [done | done | cbn; lia | cbn; lia] | apply set_header_triple; lia].
    - same_progress. }
  eapply t_seq.
  { apply (put _ (SFilter 0)); [cbn; lia | done | cbn; lia|]. rewrite u32_id by (unfold is_u32; lia).
    cbn. unfold words_of, data, header. lia. }
  apply (t_pre p (image_of c) old _ _ (pointers_done 0)); [same_progress|].
  apply (t_loop p (image_of c) old (pointers_done)). intros i Hi.
  assert (p + header 0 + 24 * u32 (Z.of_nat i + 1) = p + header (S i)) as ->
    by (rewrite u32_id by (unfold is_u32; lia); unfold header; lia).
  eapply t_rd with (s := SHead (S i) 2); [cbn; lia | done | cbn; lia|]. unfold blend. cbn [pointers_done headers_done].
  rewrite (proj2 (Nat.leb_le (S i) num)) by lia. cbn [image_of lookup_total list_lookup_total].
  eapply t_post; [apply (put _ (SFilter (S i))); [cbn; lia | done | done|] | same_progress].
  rewrite !u32_id by (unfold is_u32; lia). cbn [image_of]. unfold words_of, data, header. rewrite !Nat2Z.inj_succ, Hp. lia.
Qed.

(** Words are written one filter after the other. *)
Definition words_done (D : slot -> bool) (done : nat -> bool) (j i : nat) (t : slot) : bool :=
  match t with
  | SWord j' k => done j' || ((j' =? j)%nat && (k <? i)%nat)
  | _ => D t
  end.

Definition filters_done (D : slot -> bool) (done : nat -> bool) (t : slot) : bool :=
  match t with SWord j _ => done j | _ => D t end.

Lemma write_words_triple D done j n (w : nat -> Z) :
  (j <= num)%nat -> Z.of_nat n = fsize -> (forall i, (i < n)%nat -> w i = i_words c j i) ->
  T (filters_done D done) (for_loop n (fun i m => wr le 4 (p + words_of j + 4 * Z.of_nat i) (w i) m))
    (filters_done D (fun j' => done j' || (j' =? j)%nat)).
Proof.
  intros Hj Hn Hw. apply (t_pre p (image_of c) old _ _ (words_done D done j 0)).
  { intros [| | | | | | | | | | | |j' k'] Ht; unfold blend; cbn [words_done filters_done]; try done.
    rewrite (proj2 (Nat.ltb_ge k' 0)) by lia. by rewrite andb_false_r, orb_false_r. }
  eapply t_post; [apply (t_loop p (image_of c) old (words_done D done j))|].
  - intros i Hi. eapply t_post; [apply (put _ (SWord j i)); [cbn; lia | done | cbn; lia | by apply Hw]|].
    intros [| | | | | | | | | | | |j' k'] Ht; unfold blend, add; cbn [words_done]; try (rewrite bool_decide_false by done; done).
    destruct (decide (SWord j' k' = SWord j i)) as [[= -> ->]|Hne].
    + rewrite bool_decide_true by done. rewrite (proj2 (Nat.eqb_eq j j)), (proj2 (Nat.ltb_lt i (S i))) by lia.
      cbn [andb]. by rewrite orb_true_r.
    + rewrite bool_decide_false by done. cbn [orb]. destruct (Nat.eqb_spec j' j) as [->|]; [|done].
      assert (k' <> i) by congruence. cbn [andb].
      destruct (Nat.ltb_spec k' i), (Nat.ltb_spec k' (S i)); try done; lia.
  - intros [| | | | | | | | | | | |j' k'] Ht; unfold blend; cbn [words_done filters_done]; try done.
    destruct Ht as [_ Ht]. rewrite (proj2 (Nat.ltb_lt k' n)) by lia. by rewrite andb_true_r.
Qed.

(** A pointer or a size that is in place already. *)
Lemma get D s n a k D' :
  valid s -> n = slen s -> a = p + soff s -> D s = true -> T D (k (image_of c s)) D' ->
  T D (fun m => x ← rd le n a m; k x m) D'.
Proof. intros Hs Hn Ha HD Hk. eapply (t_rd p _ old _ s); [done..|]. unfold blend. by rewrite HD. Qed.

Lemma zero_filter_triple D done j :
  (j <= num)%nat -> D (SFilter j) = true -> D (SHead j 2) = true -> (forall i, i_words c j i = 0) ->
  T (filters_done D done) (zero_filter_at le (p + header j)) (filters_done D (fun j' => done j' || (j' =? j)%nat)).
Proof.
  intros Hj HF HH Hw. pose proof fsize_pos. unfold zero_filter_at.
  eapply (get _ (SFilter j)); [done | done | done | done|].
  eapply (get _ (SHead j 2)); [cbn; lia | done | cbn; lia | done|].
  cbn [image_of lookup_total list_lookup_total]. rewrite Hp. apply write_words_triple; [done | lia | done].
Qed.

(** Everything but the slot nobody writes. *)
Definition all_done (t : slot) : bool := negb (bool_decide (t = SLump)).

Lemma build_triple :
  i_current c = 0 -> (forall j i, i_words c j i = 0) ->
  T head_done (fun m => m ← place_ring le p (Z.of_nat num) nb m; zero_ring le p (Z.of_nat num) m) all_done.
Proof.
  intros Hcur Hw. eapply t_seq; [by apply place_ring_triple|]. unfold zero_ring. cbv zeta. rewrite Nat2Z.id.
  unfold SIZEOF_RING_QUEUE, SIZEOF_FILTER_GROUP, SIZEOF_POINTER.
  set (D := pointers_done num).
  apply (t_pre p (image_of c) old _ _ (filters_done D (fun _ => false))); [same_progress|].
  eapply (get _ SAggregate); [done | done | done | done|]. cbn [image_of]. rewrite Hp.
  eapply t_seq; [apply zero_filter_triple; [lia | done | done | done]|].
  apply (t_pre p (image_of c) old _ _ (filters_done D (fun j => j <=? 0)%nat)).
  { intros [| | | | | | | | | | | |j' k'] Ht; unfold blend; cbn [filters_done orb]; try done. by destruct j'. }
  eapply t_post.
  - apply (t_loop p (image_of c) old (fun i => filters_done D (fun j => j <=? i)%nat)). intros i Hi.
    eapply (get _ (SMember i)); [done | done | cbn; lia | by apply Nat.ltb_lt|]. cbn [image_of]. rewrite Hp.
    eapply t_post; [apply zero_filter_triple; [lia | by apply Nat.leb_le | by apply Nat.leb_le | done]|].
    intros [| | | | | | | | | | | |j' k'] Ht; unfold blend; cbn [filters_done orb]; try done.
    destruct (Nat.leb_spec j' i), (Nat.eqb_spec j' (S i)), (Nat.leb_spec j' (S i)); try done; lia.
  - subst D. unfold all_done. same_progress.
Qed.

End Code.

(** *** Moving an image *)

Section Move.
Context (p a : Z) (c c' : image) (Hc : image_ok c) (Hc' : image_ok c') (Ha : i_ring c = a) (Hp : i_ring c' = p).
Context (Hinfile : infile = true).
Context (Hsame : forall s, match s with
  | SBrq | SGroup | SAggregate | SFilterGroup | SMember _ | SFilter _ => True | _ => image_of c s = image_of c' s end).

Local Abbreviation T := (triple p (image_of c') (image_of c)).

Definition offset : Z := u64 (p + 24 - (a + 24)).

Definition moved (i : nat) (t : slot) : bool :=
  match t with
  | SMember k => (k <? i)%nat
  | SFilter j => (j <=? i)%nat
  | _ => true
  end.

Lemma new_address_moves x : a + x < 2 ^ 64 -> 0 <= x -> x <= total -> new_address (a + x) offset = p + x.
Proof.
  intros H1 H2 H3. unfold new_address, offset, u64. rewrite Zplus_mod_idemp_r.
  replace (a + x + (p + 24 - (a + 24))) with (p + x) by lia. apply Z.mod_small.
  destruct Hc' as [[? ?] _]. lia.
Qed.

Lemma change_triple D s ad x :
  valid s -> slen s = 8%nat -> ad = p + soff s -> D s = false -> image_of c s = a + x -> image_of c' s = p + x -> 0 <= x <= total ->
  T D (change_address le ad offset) (add s D).
Proof.
  intros Hs Hl Hat HD Eo En Hx. unfold change_address. eapply (t_rd p _ _ _ s); [done | done | done|].
  unfold blend. rewrite HD, Eo. rewrite new_address_moves.
  - by apply (put p c' (image_of c) Hc').
  - destruct Hc as [[? ?] _]. lia.
  - lia.
  - lia.
Qed.

(** Pointers that are not moved yet. *)
Definition fresh (t : slot) : bool :=
  match t with SGroup | SAggregate | SFilterGroup | SMember _ | SFilter _ => false | _ => true end.

Lemma walk_triple : T fresh (walk_mmap_info le (p - 32)) (moved num).
Proof.
  unfold walk_mmap_info. eapply (get p c' (image_of c) _ SBrq); [done | done | cbn; lia | done|].
  cbn [image_of]. rewrite Hp. eapply (t_rd p _ _ _ SGroup); [done | done | cbn; lia|].
  unfold blend. cbn [fresh image_of]. rewrite Ha. unfold SIZEOF_RING_QUEUE. fold offset. cbv zeta.
  assert (0 <= header 0 <= total) by (pose proof (words_of_le O); unfold words_of, data, header in *; lia).
  eapply t_seq; [apply (change_triple _ SGroup _ 24); try done; cbn; unfold header in *; lia|].
  eapply t_seq; [apply (change_triple _ SAggregate _ (header 0)); try done; cbn; lia|].
  eapply (get p c' (image_of c) _ SAggregate); [done | done | done | done|]. cbn [image_of]. rewrite Hp.
  eapply t_seq.
  { apply (change_triple _ (SFilter 0) _ (words_of 0)); try done; cbn [valid soff image_of]; [lia..|].
    pose proof (words_of_le O). unfold data, header in *. lia. }
  eapply (get p c' (image_of c) _ SGroup); [done | done | cbn; lia | done|]. cbn [image_of]. rewrite Hp.
  eapply t_seq; [apply (change_triple _ SFilterGroup _ 40); try done; cbn; unfold header in *; lia|].
  eapply (get p c' (image_of c) _ SGroupSize); [done | done | cbn; lia | done|]. cbn [image_of]. rewrite Nat2Z.id.
  apply (t_pre p _ _ _ _ (moved 0)); [same_progress|].
  apply (t_loop p _ _ moved). intros i Hi. unfold SIZEOF_POINTER.
  eapply (get p c' (image_of c) _ SGroup); [done | done | cbn; lia | done|]. cbn [image_of]. rewrite Hp.
  eapply (get p c' (image_of c) _ SFilterGroup); [done | done | cbn; lia | done|]. cbn [image_of]. rewrite Hp.
  assert (0 <= header (S i) <= total) by (pose proof (words_of_le O); unfold words_of, data, header in *; lia).
  eapply t_seq.
  { apply (change_triple _ (SMember i) _ (header (S i))); try done; cbn [valid soff image_of moved]; try lia.
    by apply Nat.ltb_irrefl. }
  eapply (get p c' (image_of c) _ (SMember i)); [done | done | cbn; lia | |].
  { unfold add. by rewrite bool_decide_true. }
  cbn [image_of]. rewrite Hp. eapply t_post.
  - apply (change_triple _ (SFilter (S i)) _ (words_of (S i))); try done; cbn [valid soff image_of]; try lia.
    + unfold add. rewrite bool_decide_false by done. cbn [orb moved]. apply Nat.leb_gt. lia.
    + pose proof (words_of_le (S i)). unfold data, header in *. lia.
  - same_progress.
Qed.

Lemma walk_ok m :
  room m p -> holds m p (upd (image_of c) SBrq p) ->
  exists m', walk_mmap_info le (p - 32) m = Ok m' /\ same_block m m' /\ holds m' p (image_of c').
Proof.
  intros Hr H. destruct (walk_triple m Hr) as (m' & E & Hb & Hh).
  - apply (slots_ext m p _ _) with (2 := H). intros s Hs. unfold blend, upd. specialize (Hsame s).
    by destruct s; cbn [fresh]; rewrite ?decide_False by done; try done; rewrite decide_True.
  - exists m'. split_and!; [done..|]. apply (slots_ext m' p _ _) with (2 := Hh). intros s Hs. unfold blend.
    destruct s; cbn [moved valid] in *; try done.
    + by rewrite (proj2 (Nat.ltb_lt i num)).
    + by rewrite (proj2 (Nat.leb_le j num)).
Qed.

End Move.

(** *** The ring of an image *)

Definition filter_of (c : image) (j : nat) : bloom_filter_t :=
  BloomFilter (i_words c j <$> seq 0 (Z.to_nat fsize)) (2 ^ nb) (2 ^ nb - 1) fsize.

Definition ring_of (c : image) : bloom_ring_queue_t :=
  RingQueue (FilterGroup ((fun i => filter_of c (S i)) <$> seq 0 num) (Z.of_nat num)) (filter_of c 0) (i_current c).

(** A loop that collects what it reads. *)
Lemma for_loop_collect {A} (n : nat) (f : nat -> Res A) (g : nat -> A) :
  (forall i, (i < n)%nat -> f i = Ok (g i)) -> for_loop n (fun i l => x ← f i; Ok (l ++ [x])) [] = Ok (g <$> seq 0 n).
Proof.
  intros Hf. destruct (for_loop_inv (fun i l => l = g <$> seq 0 i) n (fun i l => x ← f i; Ok (l ++ [x])) [])
    as (l & -> & ->); [done| |done].
  intros i l Hi ->. rewrite Hf by done. cbn [rbind]. eexists; split; [done|]. by rewrite seq_S, fmap_app.
Qed.

Section Read.
Context (p : Z) (c : image) (m : mapping) (Hp : i_ring c = p) (Hm : holds m p (image_of c)).

Lemma filter_at_image j : (j <= num)%nat -> filter_at le (p + header j) m = Ok (filter_of c j).
Proof.
  intros Hj. pose proof fsize_pos. unfold filter_at.
  rewrite (rd_slot m p _ (SFilter j) _ _ Hm) by done. cbn [rbind].
  rewrite (rd_slot m p _ (SHead j 0) _ _ Hm) by (cbn; lia). cbn [rbind].
  rewrite (rd_slot m p _ (SHead j 1) _ _ Hm) by (cbn; lia). cbn [rbind].
  rewrite (rd_slot m p _ (SHead j 2) _ _ Hm) by (cbn; lia). cbn [rbind image_of lookup_total list_lookup_total].
  unfold read_words. rewrite (for_loop_collect _ _ (i_words c j)); [done|].
  intros i Hi. by rewrite (rd_slot m p _ (SWord j i) _ _ Hm) by (cbn; lia).
Qed.

Lemma ring_at_image : ring_at le p m = Ok (ring_of c).
Proof.
  unfold ring_at, SIZEOF_POINTER. rewrite (rd_slot m p _ SGroup _ _ Hm) by (cbn; lia). cbn [rbind image_of]. rewrite Hp.
  rewrite (rd_slot m p _ SFilterGroup _ _ Hm) by (cbn; lia). cbn [rbind image_of]. rewrite Hp.
  rewrite (rd_slot m p _ SGroupSize _ _ Hm) by (cbn; lia). cbn [rbind image_of]. rewrite Nat2Z.id.
  assert (for_loop num (fun i l => a ← rd le 8 (p + 40 + 8 * Z.of_nat i) m; f ← filter_at le a m; Ok (l ++ [f])) [] =
    Ok ((fun i => filter_of c (S i)) <$> seq 0 num)) as ->.
  { rewrite <-(for_loop_collect num (fun i => a ← rd le 8 (p + 40 + 8 * Z.of_nat i) m; filter_at le a m)).
    - apply for_loop_ext. intros i l. by rewrite rbind_assoc.
    - intros i Hi. rewrite (rd_slot m p _ (SMember i) _ _ Hm) by (cbn; lia). cbn [rbind image_of]. rewrite Hp.
      by apply filter_at_image. }
  cbn [rbind]. rewrite (rd_slot m p _ SAggregate _ _ Hm) by (cbn; lia). cbn [rbind image_of]. rewrite Hp.
  rewrite filter_at_image by lia. cbn [rbind].
  by rewrite (rd_slot m p _ SCurrent _ _ Hm) by (cbn; lia).
Qed.

End Read.

(** *** Operations of the ring leave the image of the new ring *)

(** The words of a ring, the aggregate first. *)
Definition ring_words (q : bloom_ring_queue_t) (j k : nat) : Z :=
  match j with
  | O => bf_filter (brq_aggregate q) !!! k
  | S i => match filter_group (brq_group q) !! i with Some f => bf_filter f !!! k | None => 0 end
  end.

Definition with_ring (c : image) (q : bloom_ring_queue_t) : image :=
  Image (i_ring c) (i_rotate c) (i_lump c) (brq_current_index q) (ring_words q).

(** A ring of the size of the block. *)
Definition ring_fits (q : bloom_ring_queue_t) : Prop :=
  wf_filter nb (brq_aggregate q) /\ Forall (wf_filter nb) (filter_group (brq_group q)) /\
  length (filter_group (brq_group q)) = num /\ group_size (brq_group q) = Z.of_nat num /\ is_u32 (brq_current_index q).

Lemma wf_filter_words f : wf_filter nb f -> Z.of_nat (length (bf_filter f)) = fsize /\ forall k, is_u32 (bf_filter f !!! k).
Proof.
  intros (_ & _ & Hs & Hl & Hw). split; [unfold fsize; lia|]. intros k.
  destruct (decide (k < length (bf_filter f))%nat); [by apply lookup_total_Forall|].
  rewrite list_lookup_total_alt, lookup_ge_None_2 by lia. by vm_compute.
Qed.

Lemma ring_words_u32 q j k : ring_fits q -> is_u32 (ring_words q j k).
Proof.
  intros (Ha & Hg & _). destruct j as [|i]; cbn [ring_words]; [by apply wf_filter_words|].
  destruct (filter_group (brq_group q) !! i) as [f|] eqn:E; [|by vm_compute].
  apply wf_filter_words. rewrite Forall_lookup in Hg. eauto.
Qed.

Lemma with_ring_ok c q : image_ok c -> ring_fits q -> image_ok (with_ring c q).
Proof.
  intros (? & ? & ? & _) Hq. split_and!; [done..| apply Hq |]. intros. by apply ring_words_u32.
Qed.

Lemma filter_of_words c q j f :
  wf_filter nb f -> (forall k, ring_words q j k = bf_filter f !!! k) -> filter_of (with_ring c q) j = f.
Proof.
  intros Hf Hw. destruct (wf_filter_words f Hf) as [Hl _]. destruct Hf as (Hb & Hm & Hs & _). destruct f as [w bs mk sz].
  cbn in *. unfold filter_of, fsize. f_equal; [|done..]. cbn [with_ring i_words]. apply list_eq. intros k.
  rewrite list_lookup_fmap. destruct (decide (k < length w)%nat) as [Hk|Hk].
  - rewrite lookup_seq_lt by (unfold fsize in Hl; lia). cbn. rewrite Hw. symmetry. by apply list_lookup_lookup_total_lt.
  - rewrite lookup_seq_ge by (unfold fsize in Hl; lia). cbn. symmetry. apply lookup_ge_None_2. lia.
Qed.

Lemma ring_of_with_ring c q : ring_fits q -> ring_of (with_ring c q) = q.
Proof.
  intros (Ha & Hg & Hl & Hs & _). destruct q as [[l sz] ag cur]. cbn in *. subst sz. unfold ring_of. f_equal.
  - f_equal. apply list_eq. intros i. rewrite list_lookup_fmap.
    destruct (decide (i < num)%nat) as [Hi|Hi].
    + rewrite lookup_seq_lt by done. cbn [fmap option_fmap option_map Nat.add].
      destruct (lookup_lt_is_Some_2 l i ltac:(lia)) as [f Hf]. rewrite Hf. f_equal.
      apply filter_of_words; [rewrite Forall_lookup in Hg; eauto|]. intros k. cbn. by rewrite Hf.
    + rewrite lookup_seq_ge by lia. cbn. symmetry. apply lookup_ge_None_2. lia.
  - by apply filter_of_words.
Qed.

Section Update.
Context (p : Z) (c : image) (q : bloom_ring_queue_t) (Hc : image_ok c) (Hp : i_ring c = p) (Hq : ring_fits q).

Local Abbreviation T := (triple p (image_of (with_ring c q)) (image_of c)).

(** What operations do not write. *)
Definition kept (t : slot) : bool := match t with SWord _ _ | SCurrent => false | _ => true end.

Lemma update_filter_triple D done j f :
  (j <= num)%nat -> wf_filter nb f -> (forall k, ring_words q j k = bf_filter f !!! k) ->
  T (filters_done D done) (write_words le (p + words_of j) (bf_filter f)) (filters_done D (fun j' => done j' || (j' =? j)%nat)).
Proof.
  intros Hj Hf Hw. unfold write_words. apply write_words_triple; [by apply with_ring_ok | done | by apply wf_filter_words|].
  intros i _. cbn [with_ring i_words]. by rewrite Hw.
Qed.

Lemma update_ring_triple : T kept (update_ring_at le p q) (fun _ => true).
Proof.
  destruct Hq as (Ha & Hg & Hl & _ & _). unfold update_ring_at, SIZEOF_POINTER.
  assert (i_ring (with_ring c q) = p) as Hp' by done.
  eapply (get p (with_ring c q) (image_of c) _ SGroup); [done | done | cbn; lia | done|]. cbn [image_of]. rewrite Hp'.
  eapply (get p (with_ring c q) (image_of c) _ SFilterGroup); [done | done | cbn; lia | done|]. cbn [image_of]. rewrite Hp', Hl.
  eapply t_seq.
  - apply (t_pre p _ _ _ _ (filters_done kept (fun j => (1 <=? j) && (j <=? 0))%nat)).
    { intros [| | | | | | | | | | | |j' k'] Ht; unfold blend; cbn [filters_done kept]; try done. by destruct j'. }
    apply (t_loop p _ _ (fun i => filters_done kept (fun j => (1 <=? j) && (j <=? i))%nat)). intros i Hi.
    eapply (get p (with_ring c q) (image_of c) _ (SMember i)); [done | done | cbn; lia | done|]. cbn [image_of]. rewrite Hp'.
    eapply (get p (with_ring c q) (image_of c) _ (SFilter (S i))); [cbn; lia | done | done | done|]. cbn [image_of]. rewrite Hp'.
    destruct (lookup_lt_is_Some_2 (filter_group (brq_group q)) i ltac:(lia)) as [f Hf]. rewrite Hf.
    eapply t_post.
    + apply update_filter_triple; [lia | rewrite Forall_lookup in Hg; eauto | intros k; cbn; by rewrite Hf].
    + intros [| | | | | | | | | | | |j' k'] Ht; unfold blend; cbn [filters_done kept]; try done.
      destruct (Nat.leb_spec 1 j'), (Nat.leb_spec j' i), (Nat.eqb_spec j' (S i)), (Nat.leb_spec j' (S i)); try done; lia.
  - eapply (get p (with_ring c q) (image_of c) _ SAggregate); [done | done | done | done|]. cbn [image_of]. rewrite Hp'.
    eapply (get p (with_ring c q) (image_of c) _ (SFilter 0)); [cbn; lia | done | done | done|]. cbn [image_of]. rewrite Hp'.
    eapply t_seq; [apply update_filter_triple; [lia | done | done]|].
    eapply t_post; [apply (put p (with_ring c q) (image_of c) (with_ring_ok c q Hc Hq) _ SCurrent); done|].
    intros s Hs. unfold blend, add. case_bool_decide; [done|]. cbn [orb].
    destruct s as [| | | | | | | | | | | |j' k']; cbn [filters_done kept]; try done.
    destruct Hs as [Hj _]. destruct (Nat.leb_spec 1 j'), (Nat.leb_spec j' num), (Nat.eqb_spec j' 0); try done; lia.
Qed.

Lemma update_ring_ok m :
  room m p -> holds m p (image_of c) ->
  exists m', update_ring_at le p q m = Ok m' /\ same_block m m' /\ holds m' p (image_of (with_ring c q)).
Proof.
  intros Hr H. destruct (update_ring_triple m Hr) as (m' & E & Hb & Hh).
  - apply (slots_ext m p _ _) with (2 := H). intros s _. unfold blend. by destruct s.
  - exists m'. split_and!; [done..|]. apply (slots_ext m' p _ _) with (2 := Hh). done.
Qed.

End Update.

(** *** Making a ring *)

Definition empty_image (p rotate lump : Z) : image := Image p rotate lump 0 (fun _ _ => 0).

Lemma lumpsize_total : Z.of_nat (S num) * 2 ^ nb < 2 ^ 32 -> ring_lumpsize (Z.of_nat num) nb = Ok total.
Proof.
  intros Hfit. unfold ring_lumpsize. rewrite shl_bits by done. cbn [rbind]. f_equal.
  unfold SIZEOF_RING_QUEUE, SIZEOF_FILTER_GROUP, SIZEOF_POINTER, SIZEOF_FILTER, BITS_PER_CHAR.
  pose proof fsize_pos. destruct pow_nb as [Hn _]. rewrite !(u32_id (Z.of_nat num + 1)) by (unfold is_u32; lia).
  replace (Z.of_nat num + 1) with (Z.of_nat (S num)) by lia.
  rewrite (u32_id (_ * _)) by (unfold is_u32; split; [apply Z.mul_nonneg_nonneg; lia | lia]).
  assert (Z.of_nat (S num) * 2 ^ nb / 8 = Z.of_nat (S num) * (4 * fsize)) as Hd.
  { rewrite Hn. replace (Z.of_nat (S num) * (32 * fsize)) with (Z.of_nat (S num) * (4 * fsize) * 8) by lia. apply Z.div_mul. lia. }
  rewrite Hd. unfold total, words_of, data, header.
  assert (Z.of_nat (S num) * (4 * fsize) * 8 < 2 ^ 32) by lia.
  rewrite u64_id; [lia|]. unfold is_u64. split; [apply Z.add_nonneg_nonneg; [lia | apply Z.mul_nonneg_nonneg; lia] | lia].
Qed.

End Layout.

(** ** Building a ring, and building it again *)

Section Build.
Context (le : bool) (num : nat) (nb : Z).
Context (Hnb : 5 <= nb <= 30) (Hnum : (0 < num)%nat) (Hfit : Z.of_nat (S num) * 2 ^ nb < 2 ^ 32).

Lemma num_small : Z.of_nat num < 2 ^ 32 - 1.
Proof.
  assert (1 * 32 <= 2 ^ nb) by (rewrite (pow_split nb Hnb); assert (0 < 2 ^ (nb - 5)) by (apply Z.pow_pos_nonneg; lia); lia).
  assert (Z.of_nat (S num) * 32 <= Z.of_nat (S num) * 2 ^ nb) by (apply Z.mul_le_mono_nonneg_l; lia). lia.
Qed.

Lemma total_bounds : 0 <= total num nb < 2 ^ 62.
Proof.
  pose proof num_small. pose proof (pow_nb num nb Hnb) as [Hn _]. pose proof (fsize_pos num nb Hnb).
  unfold total, words_of, data, header.
  assert (Z.of_nat (S num) * (4 * fsize nb) * 8 < 2 ^ 32) by lia.
  assert (0 <= Z.of_nat (S num) * (4 * fsize nb)) by (apply Z.mul_nonneg_nonneg; lia). lia.
Qed.

Lemma empty_image_ok p rotate lump :
  placed num nb p -> is_u64 rotate -> is_u64 lump -> image_ok num nb (empty_image p rotate lump).
Proof. intros. split_and!; [done..| by vm_compute | by vm_compute]. Qed.

Lemma ring_of_empty p rotate lump : rep_ring nb (ring_of num nb (empty_image p rotate lump)) (a_create num).
Proof.
  assert (rep_filter nb (filter_of nb (empty_image p rotate lump) 0) ∅) as Hf.
  { unfold filter_of. cbn [empty_image i_words].
    assert ((fun _ => 0) <$> seq 0 (Z.to_nat (fsize nb)) = replicate (Z.to_nat (fsize nb)) 0) as ->.
    { apply list_eq. intros i. rewrite list_lookup_fmap. destruct (decide (i < Z.to_nat (fsize nb))%nat).
      - by rewrite lookup_seq_lt, lookup_replicate_2.
      - rewrite lookup_seq_ge by lia. cbn. symmetry. apply lookup_ge_None_2. rewrite length_replicate. lia. }
    pose proof (fsize_pos num nb Hnb). split.
    - split_and!; cbn; [done..| rewrite length_replicate; lia |]. apply Forall_replicate. by vm_compute.
    - intros i Hi. cbn. rewrite array_bit_zero; [symmetry; apply bool_decide_eq_false; set_solver|].
      destruct (pow_nb num nb Hnb) as [Hn _]. apply Z2Nat.inj_lt; [apply Z.div_pos; lia | lia|].
      apply Z.div_lt_upper_bound; lia. }
  pose proof num_small. split; [|apply Hf]. split_and!; [|apply Hf | done | cbn; rewrite length_replicate; lia..].
  split; [cbn; by rewrite length_replicate|]. cbn [ring_of brq_group filter_group a_create slots].
  apply Forall2_same_length_lookup_2; [by rewrite length_fmap, length_seq, length_replicate|].
  intros i f s H1 H2. apply lookup_replicate in H2 as [-> _]. apply list_lookup_fmap_Some in H1 as (j & -> & _). exact Hf.
Qed.

(** What operations make of such a ring still fits. *)
Lemma rep_ring_fits q a : rep_ring nb q a -> length (slots a) = num -> ring_fits num nb q.
Proof.
  intros [((Hs & Hg) & Ha & Hi & Hc & Hl) _] Hn. split_and!; [done | | | lia | unfold is_u32; lia].
  - apply Forall_forall. intros f Hf. apply list_elem_of_lookup in Hf as [i Hf].
    destruct (Forall2_lookup_l _ _ _ _ _ Hg Hf) as (s & _ & Hr). apply Hr.
  - rewrite (Forall2_length _ _ _ Hg). done.
Qed.

Definition block_of (m : mapping) (a : Z) : Prop := m_base m = a /\ Z.of_nat (length (m_bytes m)) = total num nb + 32.

Lemma block_room m a : block_of m a -> room true num nb m (a + 32).
Proof. intros [H1 H2]. unfold room. lia. Qed.

(** The first use of a file, from any contents [v]. *)
Lemma new_file_triple a now lump v :
  let c := empty_image (a + 32) now lump in
  image_ok num nb c ->
  triple le true num nb (a + 32) (image_of num nb c) v (fun _ => false) (fun m =>
    m ← for_loop 8 (fun i m => wr le 1 (a + Z.of_nat i) ((MAGIC ++ [0]) !!! i) m) m;
    m ← wr le 8 (a + 24) now m;
    m ← wr le 8 (a + 8) (a + 32) m;
    m ← place_ring le (a + 32) (Z.of_nat num) nb m; zero_ring le (a + 32) (Z.of_nat num) m) all_done.
Proof.
  intros c Hc. pose proof num_small as Hs. eapply t_seq.
  { apply (t_pre _ _ _ _ _ _ _ _ _ (fun t => match t with SMagic i => (i <? 0)%nat | _ => false end)); [by intros [] _|].
    apply (t_loop _ _ _ _ _ _ _ (fun k t => match t with SMagic i => (i <? k)%nat | _ => false end)).
    intros i Hi. eapply t_post; [apply (put _ _ _ _ Hs Hnb _ c v Hc _ (SMagic i)); [cbn; lia | done | cbn; lia | done]|].
    intros [i'| | | | | | | | | | | |] Ht; unfold blend, add; try (rewrite bool_decide_false by done; done).
    destruct (decide (SMagic i' = SMagic i)) as [[= ->]|Hne].
    - rewrite bool_decide_true by done. by rewrite (proj2 (Nat.ltb_lt i (S i))) by lia.
    - rewrite bool_decide_false by done. assert (i' <> i) by congruence.
      destruct (Nat.ltb_spec i' i), (Nat.ltb_spec i' (S i)); try done; lia. }
  eapply t_seq; [apply (put _ _ _ _ Hs Hnb _ c v Hc _ SRotate); [done | done | cbn; lia | done]|].
  eapply t_seq; [apply (put _ _ _ _ Hs Hnb _ c v Hc _ SBrq); [done | done | cbn; lia | done]|].
  eapply t_pre; [|by apply (build_triple _ _ _ _ Hs Hnb _ c v Hc)].
  intros [i'| | | | | | | | | | | |] Ht; unfold blend, add; try done. rewrite !bool_decide_false by done. cbn [orb head_done].
  destruct Ht as [_ Ht]. by rewrite (proj2 (Nat.ltb_lt i' 8)).
Qed.

(** The checks that come before, on a file of the right size. *)
Lemma build_in_file a now contents :
  Z.of_nat (length contents) = total num nb + 32 ->
  build_bloom_ring le (InFile false (Some contents)) a now (Z.of_nat num) nb =
  if bool_decide (take 7 contents = MAGIC) then
    m ← wr le 8 (a + 8) (a + 32) (Mapping a contents);
    m ← walk_mmap_info le a m;
    Ok (a + 32, m)
  else
    m ← (m ← for_loop 8 (fun i m => wr le 1 (a + Z.of_nat i) ((MAGIC ++ [0]) !!! i) m) (Mapping a contents);
      m ← wr le 8 (a + 24) now m;
      m ← wr le 8 (a + 8) (a + 32) m;
      m ← place_ring le (a + 32) (Z.of_nat num) nb m; zero_ring le (a + 32) (Z.of_nat num) m);
    Ok (a + 32, m).
Proof.
  intros Hl. pose proof total_bounds. pose proof num_small. unfold build_bloom_ring.
  rewrite (proj2 (Z.ltb_lt 3 nb)) by lia. cbn [c_assert rbind]. rewrite lumpsize_total by done. cbn [rbind].
  unfold SIZEOF_MMAPPED_BRQ. rewrite Hl, u64_id, Z.eqb_refl by (unfold is_u64; lia). cbn [negb]. cbv zeta.
  destruct (bool_decide _); [done|].
  destruct (for_loop 8 _ _) as [x|]; cbn [rbind]; [|done]. destruct (wr le 8 (a + 24) now x) as [y|]; cbn [rbind]; [|done].
  destruct (wr le 8 (a + 8) (a + 32) y) as [z|]; cbn [rbind]; [|done]. by destruct (place_ring _ _ _ _ z).
Qed.

Lemma rd_fits n a m v : Forall is_byte (m_bytes m) -> rd le n a m = Ok v -> 0 <= v < 2 ^ (8 * Z.of_nat n).
Proof.
  intros Hb E. unfold rd in E. case_decide; [|done]. injection E as <-.
  assert (Forall is_byte (take n (drop (Z.to_nat (a - m_base m)) (m_bytes m)))) as Hw by (by apply Forall_take, Forall_drop).
  pose proof (le_join_bound _ Hw). pose proof (be_join_bound _ Hw).
  assert (2 ^ (8 * Z.of_nat (length (take n (drop (Z.to_nat (a - m_base m)) (m_bytes m))))) <= 2 ^ (8 * Z.of_nat n))
    by (apply Z.pow_le_mono_r; rewrite ?length_take; lia).
  unfold load. case_match; lia.
Qed.

(** A file that was just created. *)
Lemma build_new_file a now :
  placed num nb (a + 32) -> is_u64 now ->
  exists m lump, build_bloom_ring le (InFile false (Some (replicate (Z.to_nat (total num nb + 32)) 0))) a now (Z.of_nat num) nb = Ok (a + 32, m) /\
    block_of m a /\ is_u64 lump /\ holds le true num nb m (a + 32) (image_of num nb (empty_image (a + 32) now lump)).
Proof.
  intros Hp Hnow. pose proof total_bounds. pose proof num_small as Hs. rewrite build_in_file by (rewrite length_replicate; lia).
  rewrite bool_decide_false.
  2: { rewrite take_replicate. intros E. apply (f_equal List.hd_error) in E.
    destruct (7 `min` Z.to_nat (total num nb + 32))%nat; vm_compute in E; discriminate E. }
  set (m0 := Mapping a _).
  assert (block_of m0 a) as Hb0 by (split; [done|]; cbn; rewrite length_replicate; lia).
  destruct (holds_any le true num nb Hnb m0 (a + 32) (block_room _ _ Hb0)) as [v Hv].
  assert (is_u64 (v SLump)) as Hlump.
  { apply (rd_fits 8 (a + 32 + soff num nb SLump) m0); [|by apply (Hv SLump)]. apply Forall_replicate. by vm_compute. }
  destruct (new_file_triple a now (v SLump) v (empty_image_ok _ _ _ Hp Hnow Hlump) m0 (block_room _ _ Hb0)) as (m1 & -> & [Hb1 Hb2] & Hh).
  { apply (slots_ext _ _ _ _ _ _ v) with (2 := Hv). done. }
  cbn [rbind]. exists m1, (v SLump). split_and!; [done | | done |].
  { destruct Hb0. split; [congruence | by rewrite Hb2]. }
  apply (slots_ext _ _ _ _ _ _ _ _) with (2 := Hh). intros s _. unfold blend, all_done. case_bool_decide; [by subst s | done].
Qed.

(** The image of a ring for another address. *)
Definition at_address (c : image) (p : Z) : image := Image p (i_rotate c) (i_lump c) (i_current c) (i_words c).

(** The same bytes at another address. *)
Lemma holds_rebase m a b v :
  block_of m a -> holds le true num nb m (a + 32) v -> holds le true num nb (Mapping b (m_bytes m)) (b + 32) v.
Proof.
  intros [<- _] H s Hs. specialize (H s Hs). unfold rd in *. cbn [m_base m_bytes].
  case_decide as Hr; [|done]. rewrite decide_True by (unfold in_range in *; cbn [m_base m_bytes]; lia).
  rewrite <-H. do 4 f_equal. lia.
Qed.

Lemma magic_found m a c : block_of m a -> holds le true num nb m (a + 32) (image_of num nb c) -> take 7 (m_bytes m) = MAGIC.
Proof.
  intros [Hb Hl] H. pose proof total_bounds. apply list_eq. intros i. destruct (decide (i < 7)%nat) as [Hi|Hi].
  - rewrite lookup_take_lt by done. destruct (lookup_lt_is_Some_2 (m_bytes m) i ltac:(lia)) as [x Hx]. rewrite Hx.
    specialize (H (SMagic i)). unfold rd in H. cbn [slen soff image_of valid] in H.
    rewrite decide_True in H by (unfold in_range; lia). specialize (H ltac:(lia)).
    replace (Z.to_nat (a + 32 + (-32 + Z.of_nat i) - m_base m)) with i in H by lia.
    rewrite (drop_S _ _ _ Hx) in H. unfold load in H. assert (x = (MAGIC ++ [0]) !!! i) as ->.
    { revert H. destruct le; cbn; intros [= H]; lia. }
    do 7 (destruct i as [|i]; [reflexivity|]). lia.
  - rewrite !lookup_ge_None_2; [done | | rewrite length_take; lia]. vm_compute. lia.
Qed.

(** A file with the image of a ring, mapped at another address. *)
Lemma rebuild_from_file m a b now c :
  block_of m a -> holds le true num nb m (a + 32) (image_of num nb c) -> i_ring c = a + 32 -> image_ok num nb c ->
  placed num nb (b + 32) ->
  exists m', build_bloom_ring le (InFile false (Some (m_bytes m))) b now (Z.of_nat num) nb = Ok (b + 32, m') /\
    block_of m' b /\ holds le true num nb m' (b + 32) (image_of num nb (at_address c (b + 32))).
Proof.
  intros Hb H Hr Hc Hp. pose proof num_small as Hs. rewrite build_in_file by apply Hb.
  rewrite bool_decide_true by (by apply (magic_found m a c)).
  assert (block_of (Mapping b (m_bytes m)) b) as Hb' by (destruct Hb; by split).
  assert (image_ok num nb (at_address c (b + 32))) as Hc' by (destruct Hc as (_ & ?); by split).
  destruct (wr_slot le true num nb Hnb (Mapping b (m_bytes m)) (b + 32) _ SBrq 8 (b + 8) (b + 32) (holds_rebase m a b _ Hb H)
    (block_room _ _ Hb')) as (m1 & -> & Hs1 & H1); [done | done | cbn; lia | |].
  { pose proof total_bounds. destruct Hp. change (8 * Z.of_nat 8) with 64. lia. }
  cbn [rbind]. replace a with (a + 32 - 32) at 1 by lia.
  destruct (walk_ok le true num nb Hs Hnb (b + 32) (a + 32) c (at_address c (b + 32)) Hc Hc' Hr eq_refl eq_refl) with (m := m1)
    as (m2 & E & Hs2 & H2); [by intros [] | by eapply same_block_room, block_room | done |].
  replace (b + 32 - 32) with b in E by lia. rewrite E. cbn [rbind]. exists m2. split_and!; [done | | done].
  destruct Hs1 as [? Hl1], Hs2 as [? Hl2], Hb'. split; [congruence | by rewrite Hl2, Hl1].
Qed.

End Build.

(** C5: the state of the server survives a restart.  A file made by
    [create_statefile] for the configured ring is accepted, the ring in it
    starts empty, and whatever operations (with any rotation time [lr]) ran on
    it in place, the next start of the server, with the file mapped at any
    other address, finds exactly the ring they left: the pointers in the file
    lead to the same members, words and current index, and the time of the last
    rotation is kept. *)
Theorem state_file_restart (le : bool) (num : nat) (nb size a b now now' lr : Z) (ops : list ring_op) :
  5 <= nb <= 30 -> (0 < num)%nat -> Z.of_nat (S num) * 2 ^ nb < 2 ^ 32 ->
  ring_lumpsize (Z.of_nat num) nb = Ok size ->
  0 <= a -> a + SIZEOF_MMAPPED_BRQ + size < 2 ^ 64 -> 0 <= b -> b + SIZEOF_MMAPPED_BRQ + size < 2 ^ 64 ->
  is_u64 now -> is_u64 lr -> Forall (valid_op nb num) ops ->
  exists file m q0, create_statefile None (Z.of_nat num) nb = Ok file /\
    build_bloom_ring le (InFile false (Some file)) a now (Z.of_nat num) nb = Ok (a + SIZEOF_MMAPPED_BRQ, m) /\
    ring_at le (a + SIZEOF_MMAPPED_BRQ) m = Ok q0 /\ rep_ring nb q0 (a_create num) /\
    exists q m1 m2, ring_run q0 ops = Ok q /\
      (m ← wr le 8 (a + 24) lr m; update_ring_at le (a + SIZEOF_MMAPPED_BRQ) q m) = Ok m1 /\
      build_bloom_ring le (InFile false (Some (m_bytes m1))) b now' (Z.of_nat num) nb = Ok (b + SIZEOF_MMAPPED_BRQ, m2) /\
      ring_at le (b + SIZEOF_MMAPPED_BRQ) m2 = Ok q /\ rd le 8 (b + 24) m2 = Ok lr.
Proof.
  intros Hnb Hn Hfit Hsz Ha Ha2 Hb Hb2 Hnow Hlr Hops. pose proof (num_small num nb Hnb Hn Hfit) as Hs.
  rewrite lumpsize_total in Hsz by done. injection Hsz as <-. unfold SIZEOF_MMAPPED_BRQ in *.
  pose proof (total_bounds num nb Hnb Hn Hfit) as Ht.
  assert (placed num nb (a + 32)) as Hpa by (unfold placed; lia). assert (placed num nb (b + 32)) as Hpb by (unfold placed; lia).
  destruct (build_new_file le num nb Hnb Hn Hfit a now Hpa Hnow) as (m & lump & E & Hbm & Hlump & Hm).
  set (c := empty_image (a + 32) now lump) in *.
  assert (image_ok num nb c) as Hc by (by apply empty_image_ok).
  exists (replicate (Z.to_nat (total num nb + 32)) 0), m, (ring_of num nb c). split_and!.
  - unfold create_statefile, SIZEOF_MMAPPED_BRQ. rewrite lumpsize_total by done. cbn [rbind].
    by rewrite u64_id by (unfold is_u64; lia).
  - done.
  - by apply (ring_at_image le true num nb Hnb (a + 32) c).
  - by apply ring_of_empty.
  - pose proof (ring_of_empty num nb Hnb Hn Hfit (a + 32) now lump) as Hrep.
    destruct (ring_run_spec nb Hnb ops _ _ Hrep) as (q & Eq & Hq); [cbn; by rewrite length_replicate|].
    assert (ring_fits num nb q) as Hrf
      by (eapply rep_ring_fits; [done.. | exact Hq | rewrite length_a_run; cbn; apply length_replicate]).
    destruct (wr_slot le true num nb Hnb m (a + 32) _ SRotate 8 (a + 24) lr Hm ltac:(by apply block_room))
      as (mr & Er & Hsr & Hmr); [done | done | cbn; lia | exact Hlr |].
    set (c' := Image (a + 32) lr lump 0 (fun _ _ => 0)).
    assert (holds le true num nb mr (a + 32) (image_of num nb c')) as Hmr'.
    { apply (slots_ext _ _ _ _ _ _ _ _) with (2 := Hmr). intros s _. unfold upd. case_decide; [by subst s|]. by destruct s. }
    assert (image_ok num nb c') as Hc' by (destruct Hc as (? & _ & ?); by split_and!).
    destruct (update_ring_ok le true num nb Hs Hnb (a + 32) c' q Hc' eq_refl Hrf mr) as (m1 & E1 & Hs1 & H1);
      [eapply same_block_room; [done | by apply block_room] | done |].
    assert (block_of num nb m1 a) as Hbm1
      by (destruct Hsr as [? Hl1], Hs1 as [? Hl2], Hbm; split; [congruence | by rewrite Hl2, Hl1]).
    destruct (rebuild_from_file le num nb Hnb Hn Hfit m1 a b now' (with_ring c' q) Hbm1 H1 eq_refl) as (m2 & E2 & _ & H2);
      [by apply with_ring_ok | done |].
    exists q, m1, m2. split_and!; [done | by rewrite Er | done | |].
    + erewrite ring_at_image; [| done | | exact H2]; [|done]. f_equal. by apply (ring_of_with_ring num nb Hnb c' q).
    + erewrite (rd_slot le true num nb m2 (b + 32) _ SRotate _ _ H2); [done | done | done | cbn; lia].
Qed.

Lemma state_file_restart_witness :
  exists file m q0, create_statefile None 2 5 = Ok file /\
    build_bloom_ring true (InFile false (Some file)) 4096 77 2 5 = Ok (4096 + SIZEOF_MMAPPED_BRQ, m) /\
    ring_at true (4096 + SIZEOF_MMAPPED_BRQ) m = Ok q0 /\ rep_ring 5 q0 (a_create 2) /\
    exists q m1 m2, ring_run q0 [OpInsert (Sha256 1 2 3 4 5 6 7 8); OpRotate (fun _ => 0)] = Ok q /\
      (m ← wr true 8 (4096 + 24) 88 m; update_ring_at true (4096 + SIZEOF_MMAPPED_BRQ) q m) = Ok m1 /\
      build_bloom_ring true (InFile false (Some (m_bytes m1))) 1000000 99 2 5 = Ok (1000000 + SIZEOF_MMAPPED_BRQ, m2) /\
      ring_at true (1000000 + SIZEOF_MMAPPED_BRQ) m2 = Ok q /\ rd true 8 (1000000 + 24) m2 = Ok 88.
Proof.
  apply (state_file_restart true 2 5 140 4096 1000000 77 99 88 [OpInsert (Sha256 1 2 3 4 5 6 7 8); OpRotate (fun _ => 0)]);
    try (unfold is_u64, SIZEOF_MMAPPED_BRQ; lia); [vm_compute; reflexivity..|].
  repeat constructor.
Defined.

(** ** Blocks that are too small *)

Section Grow.
Context (le : bool) (e : list Z).

(** The block with more memory behind it. *)
Definition grow (m : mapping) : mapping := Mapping (m_base m) (m_bytes m ++ e).

Definition grows (f : mapping -> Res mapping) : Prop := forall m m', f m = Ok m' -> f (grow m) = Ok (grow m').

Lemma rd_grow n a m v : rd le n a m = Ok v -> rd le n a (grow m) = Ok v.
Proof.
  unfold rd. case_decide as Hr; [|done]. intros <-. destruct Hr as [H1 H2].
  rewrite decide_True by (unfold in_range; cbn [grow m_base m_bytes]; rewrite length_app; lia).
  cbn [grow m_base m_bytes]. rewrite drop_app_le by lia. by rewrite take_app_le by (rewrite length_drop; lia).
Qed.

Lemma grows_wr n a v : grows (wr le n a v).
Proof.
  intros m m'. unfold wr. case_decide as Hr; [|done]. intros [= <-]. destruct Hr as [H1 H2].
  assert (length (store le n v) = n) as Hn
    by (unfold store; case_match; [apply length_le_split | apply length_be_split]).
  rewrite decide_True by (unfold in_range; cbn [grow m_base m_bytes]; rewrite length_app; lia).
  unfold grow, memcpy_at. cbn [m_base m_bytes]. rewrite take_app_le by lia. rewrite drop_app_le by lia.
  by rewrite <-!app_assoc.
Qed.

Lemma grows_seq f g : grows f -> grows g -> grows (fun m => m ← f m; g m).
Proof. intros Hf Hg m m' E. apply bind_Ok_inv in E as (m1 & E1 & E). rewrite (Hf _ _ E1). by apply Hg. Qed.

Lemma grows_rd n a k : (forall v, grows (k v)) -> grows (fun m => x ← rd le n a m; k x m).
Proof. intros Hk m m' E. apply bind_Ok_inv in E as (v & E1 & E). rewrite (rd_grow _ _ _ _ E1). by apply Hk. Qed.

Lemma grows_lift {A} (r : Res A) k : (forall v, grows (k v)) -> grows (fun m => x ← r; k x m).
Proof. intros Hk m m' E. apply bind_Ok_inv in E as (v & -> & E). by apply Hk. Qed.

Lemma grows_loop n body : (forall i, grows (body i)) -> grows (for_loop n body).
Proof.
  intros Hb. induction n as [|n IH]; intros m m' E; cbn [for_loop] in *; [congruence|].
  apply bind_Ok_inv in E as (m1 & E1 & E). rewrite (IH _ _ E1). by apply Hb.
Qed.

Lemma grows_header f nb : grows (set_header le f nb).
Proof.
  unfold set_header. apply grows_lift. intros v. apply grows_seq; [apply grows_wr|]. apply grows_seq; apply grows_wr.
Qed.

Lemma grows_build p num nb : grows (fun m => m ← place_ring le p num nb m; zero_ring le p num m).
Proof.
  apply grows_seq.
  - unfold place_ring. cbv zeta. do 5 (apply grows_seq; [apply grows_wr|]). apply grows_seq; [apply grows_header|].
    apply grows_seq.
    { apply grows_loop. intros i. apply grows_seq; [apply grows_wr | apply grows_header]. }
    apply grows_seq; [apply grows_wr|]. apply grows_loop. intros i. apply grows_rd. intros v. apply grows_wr.
  - assert (forall f, grows (zero_filter_at le f)) as Hz.
    { intros f. unfold zero_filter_at. apply grows_rd. intros w. apply grows_rd. intros s. apply grows_loop.
      intros i. apply grows_wr. }
    unfold zero_ring. apply grows_rd. intros v. apply grows_seq; [apply Hz|]. apply grows_loop. intros i.
    apply grows_rd. intros w. apply Hz.
Qed.

End Grow.

(** A ring that was placed and zeroed had room, up to the last word. *)
Lemma built_in_bounds le num nb p m m' :
  5 <= nb <= 30 -> Z.of_nat num < 2 ^ 32 - 1 -> placed num nb p -> m_base m <= p ->
  (m ← place_ring le p (Z.of_nat num) nb m; zero_ring le p (Z.of_nat num) m) = Ok m' ->
  p + total num nb < m_base m + Z.of_nat (length (m_bytes m)) + 4.
Proof.
  intros Hnb Hs Hp Hb E. apply Z.nle_gt. intros Hlt. pose proof (fsize_pos num nb Hnb) as Hf.
  pose proof (words_of_le num nb Hnb (S num) ltac:(lia)) as Ht. fold (total num nb) in Ht. unfold data, header in Ht.
  set (e := replicate (Z.to_nat (p + total num nb - m_base m)) 1).
  pose proof (grows_build le e _ _ _ _ _ E) as Eg. set (mg := grow e m) in *.
  set (c := empty_image p 0 0).
  assert (image_ok num nb c) as Hc by (split_and!; try done; by vm_compute).
  assert (room false num nb mg p) as Hr.
  { unfold room, mg, grow. cbn [m_base m_bytes]. rewrite length_app. subst e. rewrite length_replicate. destruct Hp. lia. }
  destruct (holds_any le false num nb Hnb mg p Hr) as [v Hv].
  destruct (build_triple le false num nb Hs Hnb p c v Hc eq_refl eq_refl ltac:(done) mg Hr) as (m2 & E2 & Hsb & Hh).
  { apply (slots_ext _ _ _ _ _ _ v) with (2 := Hv). intros [] Hvs; try done. by destruct Hvs. }
  assert (m2 = grow e m') as -> by congruence. clear E2.
  assert (length (m_bytes m') = length (m_bytes m)) as Hl.
  { destruct Hsb as [_ Hsb]. unfold mg, grow in Hsb. cbn [m_bytes] in Hsb. rewrite !length_app in Hsb. lia. }
  assert (m_base m' = m_base m) as Hbb by apply Hsb.
  specialize (Hh (SWord num (Z.to_nat (fsize nb - 1)))). cbn [slen soff valid] in Hh.
  specialize (Hh ltac:(lia)). change (blend _ _ _ _) with 0 in Hh. unfold rd in Hh. case_decide as Hin; [|done].
  set (off := Z.to_nat (p + (words_of num nb num + 4 * Z.of_nat (Z.to_nat (fsize nb - 1))) - m_base (grow e m'))) in *.
  set (w := take 4 (drop off (m_bytes (grow e m')))) in *.
  assert (0 <= Z.of_nat num * (4 * fsize nb)) by (apply Z.mul_nonneg_nonneg; lia).
  assert (Z.of_nat off + 4 = p + total num nb - m_base m) as Hoff.
  { unfold off, total, words_of, data, header in *. cbn [grow m_base]. rewrite Hbb. rewrite Nat2Z.inj_succ in *. lia. }
  assert (w = replicate 4 1) as Hw.
  { unfold w. cbn [grow m_bytes]. rewrite drop_app_ge by lia. subst e. rewrite drop_replicate, take_replicate. f_equal.
    destruct Hp. lia. }
  rewrite Hw in Hh. by destruct le.
Qed.

Lemma lumpsize_overflow num nb :
  5 <= nb <= 30 -> Z.of_nat num < 2 ^ 32 - 1 -> 2 ^ 32 <= Z.of_nat (S num) * 2 ^ nb ->
  exists size, ring_lumpsize (Z.of_nat num) nb = Ok size /\ 0 <= size <= total num nb - 4.
Proof.
  intros Hnb Hs Hov. unfold ring_lumpsize. rewrite shl_bits by done. cbn [rbind]. eexists. split; [done|].
  unfold SIZEOF_RING_QUEUE, SIZEOF_FILTER_GROUP, SIZEOF_POINTER, SIZEOF_FILTER, BITS_PER_CHAR.
  destruct (pow_nb num nb Hnb) as [Hn _]. pose proof (fsize_pos num nb Hnb) as Hf.
  rewrite !(u32_id (Z.of_nat num + 1)) by (unfold is_u32; lia).
  replace (Z.of_nat num + 1) with (Z.of_nat (S num)) by lia. set (x := Z.of_nat (S num) * 2 ^ nb) in *.
  assert (x = Z.of_nat (S num) * (4 * fsize nb) * 8) as Hx by (unfold x; rewrite Hn; lia).
  assert (exists k, u32 x = 32 * k) as [k Hk].
  { exists (Z.of_nat (S num) * fsize nb - 2 ^ 27 * (x / 2 ^ 32)). unfold u32. pose proof (Z.div_mod x (2 ^ 32)). lia. }
  pose proof (u32_is_u32 x) as Hu. unfold is_u32 in Hu. rewrite Hk in *.
  replace (32 * k) with (4 * k * 8) by lia. rewrite Z.div_mul by lia.
  rewrite u64_id by (unfold is_u64; lia). unfold total, words_of, data, header. lia.
Qed.

(** A ring in memory, when its bits can be counted. *)
Lemma built_in_memory (le : bool) (junk : nat -> Z) (a now : Z) (num : nat) (nb : Z) :
  5 <= nb <= 30 -> (0 < num)%nat -> Z.of_nat num < 2 ^ 32 - 1 -> placed num nb a -> Z.of_nat (S num) * 2 ^ nb < 2 ^ 32 ->
  exists m q, build_bloom_ring le (InMemory junk) a now (Z.of_nat num) nb = Ok (a, m) /\
    ring_at le a m = Ok q /\ rep_ring nb q (a_create num).
Proof.
  intros Hnb Hn Hs Hp Hfit. unfold build_bloom_ring. rewrite (proj2 (Z.ltb_lt 3 nb)) by lia. cbn [c_assert rbind].
  rewrite lumpsize_total by done. cbn [rbind]. set (m0 := Mapping a _).
  pose proof (total_bounds num nb Hnb Hn Hfit) as Ht. set (c := empty_image a 0 0).
  assert (image_ok num nb c) as Hc by (split_and!; try done; by vm_compute).
  assert (room false num nb m0 a) as Hr.
  { unfold room, m0. cbn [m_base m_bytes]. rewrite length_fmap, length_seq. lia. }
  destruct (holds_any le false num nb Hnb m0 a Hr) as [v Hv].
  destruct (build_triple le false num nb Hs Hnb a c v Hc eq_refl eq_refl ltac:(done) m0 Hr) as (m2 & E2 & Hsb & Hh).
  { apply (slots_ext _ _ _ _ _ _ v) with (2 := Hv). intros [] Hvs; try done. by destruct Hvs. }
  exists m2, (ring_of num nb c). split_and!; [| |by apply ring_of_empty].
  + apply bind_Ok_inv in E2 as (m1 & -> & E2). cbn [rbind]. by rewrite E2.
  + apply (ring_at_image le false num nb Hnb a c); [done|]. apply (slots_ext _ _ _ _ _ _ _ _) with (2 := Hh).
    intros s Hsv. unfold blend, all_done. case_bool_decide; [by subst s | done].
Qed.

(** The only fault of placing and zeroing is an access out of the block. *)
Definition only_oob {A} (r : Res A) : Prop := match r with Ok _ => True | Fail f => f = OutOfBounds end.

Lemma only_oob_bind {A B} (r : Res A) (k : A -> Res B) : only_oob r -> (forall a, only_oob (k a)) -> only_oob (rbind r k).
Proof. destruct r; cbn; auto. Qed.

Lemma only_oob_loop {S} n (body : nat -> S -> Res S) s : (forall i s, only_oob (body i s)) -> only_oob (for_loop n body s).
Proof. intros Hb. induction n as [|n IH]; [done|]. by apply only_oob_bind. Qed.

Lemma only_oob_rd le n a m : only_oob (rd le n a m).
Proof. unfold rd. by case_decide. Qed.

Lemma only_oob_wr le n a v m : only_oob (wr le n a v m).
Proof. unfold wr. by case_decide. Qed.

Lemma only_oob_build le p num nb m : 5 <= nb <= 30 -> only_oob (m ← place_ring le p num nb m; zero_ring le p num m).
Proof.
  intros Hnb. pose proof only_oob_rd as Hr. pose proof only_oob_wr as Hw.
  assert (forall f m, only_oob (set_header le f nb m)) as Hh.
  { intros f m1. unfold set_header. rewrite shl_bits by done. cbn [rbind]. do 2 (apply only_oob_bind; [apply Hw | intros ?]). apply Hw. }
  assert (forall f m, only_oob (zero_filter_at le f m)) as Hz.
  { intros f m1. unfold zero_filter_at. do 2 (apply only_oob_bind; [apply Hr | intros ?]). apply only_oob_loop. intros. apply Hw. }
  apply only_oob_bind; [|intros m1].
  - unfold place_ring. cbv zeta. do 5 (apply only_oob_bind; [apply Hw | intros ?]). apply only_oob_bind; [apply Hh | intros ?].
    apply only_oob_bind; [apply only_oob_loop; intros; apply only_oob_bind; [apply Hw | intros; apply Hh] | intros ?].
    apply only_oob_bind; [apply Hw | intros ?]. apply only_oob_loop. intros. apply only_oob_bind; [apply Hr | intros; apply Hw].
  - unfold zero_ring. apply only_oob_bind; [apply Hr | intros ?]. apply only_oob_bind; [apply Hz | intros ?].
    apply only_oob_loop. intros. apply only_oob_bind; [apply Hr | intros; apply Hz].
Qed.

(** C38: a ring in memory can be made exactly when the bits of all its filters,
    the aggregate included, can be counted in 32 bits.  Then the block has room
    for it, nothing is written outside and the ring starts empty; otherwise the
    size of the block, which is computed in 32 bits, is less than the bytes of
    the ring, and building it goes out of the block.  With the default of eight
    filters, [filter_bits] of 29 and 30, which the configuration accepts, are
    such sizes. *)
Theorem ring_built_iff_bits_counted (le : bool) (junk : nat -> Z) (a now : Z) (num : nat) (nb : Z) :
  5 <= nb <= 30 -> (0 < num)%nat -> Z.of_nat num < 2 ^ 32 - 1 -> placed num nb a ->
  let r := build_bloom_ring le (InMemory junk) a now (Z.of_nat num) nb in
  (Z.of_nat (S num) * 2 ^ nb < 2 ^ 32 -> exists m q, r = Ok (a, m) /\ ring_at le a m = Ok q /\ rep_ring nb q (a_create num)) /\
  (2 ^ 32 <= Z.of_nat (S num) * 2 ^ nb ->
     r = Fail OutOfBounds /\ exists size, ring_lumpsize (Z.of_nat num) nb = Ok size /\ size < total num nb).
Proof.
  intros Hnb Hn Hs Hp. split; [by apply built_in_memory|]. intros Hov.
  destruct (lumpsize_overflow num nb Hnb Hs Hov) as (size & Es & Hsz). split; [|exists size; split; [done | lia]].
  unfold build_bloom_ring. rewrite (proj2 (Z.ltb_lt 3 nb)), Es by lia. cbn [c_assert rbind]. set (m0 := Mapping a _).
  pose proof (only_oob_build le a (Z.of_nat num) nb m0 Hnb) as Ho.
  destruct (m ← place_ring le a (Z.of_nat num) nb m0; zero_ring le a (Z.of_nat num) m) as [m2|f] eqn:E.
  - pose proof (built_in_bounds le num nb a m0 m2 Hnb Hs Hp ltac:(cbn; lia) E) as Hi.
    unfold m0 in Hi. cbn [m_base m_bytes] in Hi. rewrite length_fmap, length_seq in Hi. lia.
  - cbn in Ho. subst f. destruct (place_ring le a (Z.of_nat num) nb m0) as [m1|]; cbn [rbind] in *; [by rewrite E | congruence].
Qed.

Lemma ring_built_iff_bits_counted_witness :
  (let r := build_bloom_ring true (InMemory (fun _ => 7)) 4096 0 8 24 in
   (9 * 2 ^ 24 < 2 ^ 32 -> exists m q, r = Ok (4096, m) /\ ring_at true 4096 m = Ok q /\ rep_ring 24 q (a_create 8)) /\
   (2 ^ 32 <= 9 * 2 ^ 24 -> r = Fail OutOfBounds /\ exists size, ring_lumpsize 8 24 = Ok size /\ size < total 8 24)) /\
  (let r := build_bloom_ring true (InMemory (fun _ => 7)) 4096 0 8 29 in
   (9 * 2 ^ 29 < 2 ^ 32 -> exists m q, r = Ok (4096, m) /\ ring_at true 4096 m = Ok q /\ rep_ring 29 q (a_create 8)) /\
   (2 ^ 32 <= 9 * 2 ^ 29 -> r = Fail OutOfBounds /\ exists size, ring_lumpsize 8 29 = Ok size /\ size < total 8 29)).
Proof.
  split.
  - apply (ring_built_iff_bits_counted true (fun _ => 7) 4096 0 8 24); [lia | lia | lia | by vm_compute].
  - apply (ring_built_iff_bits_counted true (fun _ => 7) 4096 0 8 29); [lia | lia | lia | by vm_compute].
Defined.

(** Releasing the ring of a state file does not unmap it: [munmap] gets the
    address of the ring, 32 bytes into the mapping and so not on a page, which
    it refuses, and the context forgets where the mapping is. *)
Theorem release_keeps_mapping (le : bool) (num : nat) (nb a now fd : Z) :
  5 <= nb <= 30 -> (0 < num)%nat -> Z.of_nat (S num) * 2 ^ nb < 2 ^ 32 -> placed num nb (a + 32) -> is_u64 now -> a mod 4096 = 0 ->
  exists m lump,
    build_bloom_ring le (InFile false (Some (replicate (Z.to_nat (total num nb + 32)) 0))) a now (Z.of_nat num) nb = Ok (a + 32, m) /\
    release_bloom_ring_queue le (a + 32) (FileCtx (Some fd) (Some a) (Some (a + 32))) m =
      Ok ([RMunmap (a + 32) lump; RClose fd; RFreeInfo], FileCtx None None None) /\
    (a + 32) mod 4096 <> 0.
Proof.
  intros Hnb Hn Hfit Hp Hnow Ha. destruct (build_new_file le num nb Hnb Hn Hfit a now Hp Hnow) as (m & lump & E & _ & _ & Hh).
  exists m, lump. split; [done|]. split; [|rewrite Z.add_mod, Ha by lia; vm_compute; discriminate].
  unfold release_bloom_ring_queue. cbn [c_statefile_fd c_mmap_info rbind].
  rewrite (rd_slot le true num nb m (a + 32) _ SBrq 8 (a + 8) Hh) by (done || cbn; lia). cbn [rbind image_of empty_image i_ring].
  rewrite Z.eqb_refl. by rewrite (rd_slot le true num nb m (a + 32) _ SLump 8 (a + 16) Hh) by (done || cbn; lia).
Qed.
