(* ===== verification/Process.v ===== *)
(** * The process ([src/src/srvutils.c], [src/src/gross.c])

    Logging, ending the process, pid files, going into the background, and
    [main] up to its loop.  What the operating system answers is the record
    [os]; what the process does to the outside is its trace, in order, up to the
    point where it exits. *)

From S2P Require Import Prelude Print Utils AddrUtils Stats Conf Gross StateFile.

Inductive handler := HIgnore | HNoop | HReconfig | HMrproper (once : bool).

Inductive sys_act :=
| Stdout (text : cstr)
| Stderr (text : cstr)
| Syslog (priority : Z) (text : cstr)
| Openlog (facility : Z)
| Closelog
| Unlink (path : cstr)
| WriteFile (path text : cstr)
| CreateState (path : cstr) (contents : list Z)
| SetGid (gid : Z)
| SetUid (uid : Z)
| Fork
| Setsid
| CloseFd (fd : Z)
| OpenNull (writable : bool)
| SetHandler (signal : string) (h : handler)
| BlockSignals
| RestoreSignals
| Raise (signal : Z)
| DelayQueue (seconds : Z)
| SemWait
| SemPost
| StartThread (name : string)
| StartCheck (name : string) (definitive : bool).

Inductive forked := InParent | InChild | ForkError.

Inductive stat_ret := StatExists | StatNoEntry | StatError.

Record os := Os {
  os_tid : Z;
  os_ctime : list ascii;                 (* what [ctime_r] writes, with its terminator *)
  os_strerror : cstr;                    (* of the error a failing call leaves *)
  os_pid : Z;
  os_euid : Z;
  os_getpwnam : cstr -> option (Z * Z);  (* user and group *)
  os_setgid : bool;
  os_setuid : bool;
  os_config : option (rfd ascii);        (* the configuration file, if it opens *)
  os_statefile : option (list Z);
  os_stat_pidfile : stat_ret;
  os_open_pidfile : bool;
  os_write_pidfile : bool;
  os_fork1 : forked;
  os_fork2 : forked;
  os_setsid : bool;
  os_sigmask : bool;
  os_delay_queue : bool }.

(** What logging and ending look at in the context. *)
Record log_ctx := LogCtx {
  lc_flags : Z;
  lc_loglevel : Z;
  lc_facility : Z;
  lc_pidfile : option cstr;
  lc_syslog_open : bool }.

Section Process.
Context (e : os).
Local Open Scope tr_scope.

(** ** Logging *)

Definition MSGSZ : nat := 1024.

(** The text of an array of [MSGSZ] bytes after [snprintf]. *)
Definition msg_text (s : cstr) : cstr := take (MSGSZ - 1) s.

Definition log_put (msg : cstr) : traced sys_act Z :=
  let~ r := tr_lift (chomp (os_ctime e)) in
  tr_act (Stdout (c_string r.2 ++ cs " " ++ msg ++ [nl])) ~> tr_ret 0.

Definition logstr (c : log_ctx) (level : Z) (fmt : cstr) (args : list arg) : traced sys_act Z :=
  if lc_loglevel c <? level then tr_ret 0
  else
    let logfmt := msg_text (cs "#" ++ hex (os_tid e) ++ cs ": " ++ fmt) in
    let~ mbuf := tr_lift (vformat logfmt args) in
    let mbuf := msg_text mbuf in
    if negb (lc_syslog_open c) then log_put mbuf
    else
      let level := if GLOG_DEBUG <? level then GLOG_DEBUG else level in
      tr_act (Syslog (Z.lxor level LOG_TYPE) mbuf) ~> tr_ret 0.

Definition to_syslog (c : log_ctx) : bool := Z.land (lc_flags c) (Z.lor FLG_DEBUG FLG_SYSLOG) =? FLG_SYSLOG.

Definition set_syslog_open (c : log_ctx) (b : bool) : log_ctx :=
  LogCtx (lc_flags c) (lc_loglevel c) (lc_facility c) (lc_pidfile c) b.

Definition log_open (c : log_ctx) : traced sys_act (Z * log_ctx) :=
  if to_syslog c then
    if lc_syslog_open c then tr_ret (-1, c)
    else tr_act (Openlog (lc_facility c)) ~> tr_ret (0, set_syslog_open c true)
  else tr_ret (0, c).

Definition log_close (c : log_ctx) : traced sys_act (Z * log_ctx) :=
  if to_syslog c then
    if negb (lc_syslog_open c) then tr_ret (-1, c)
    else tr_act Closelog ~> tr_ret (0, set_syslog_open c false)
  else tr_ret (0, c).

(** ** Ending *)

(** The message of [daemon_shutdown]. *)
Definition shutdown_message (c : log_ctx) (return_code : Z) (msg : option (cstr * list arg)) : traced sys_act unit :=
  match msg with
  | Some (fmt, args) =>
      let logfmt := msg_text (cs "Grossd shutdown with exit code " ++ sdec return_code ++ cs ": " ++ fmt) in
      let~ out := tr_lift (vformat logfmt args) in
      let out := msg_text out in
      tr_act (Stderr (out ++ [nl])) ~>
      (if lc_syslog_open c then logstr c GLOG_ERROR (cs "%s") [AStr out] else tr_ret 0) ~> tr_ret tt
  | None => tr_ret tt
  end.

Definition daemon_shutdown {A} (c : log_ctx) (return_code : Z) (msg : option (cstr * list arg)) : traced sys_act A :=
  shutdown_message c return_code msg ~>
  match lc_pidfile c with
  | Some f =>
      if (return_code =? EXIT_NOERROR) && has (lc_flags c) FLG_CREATE_PIDFILE then tr_act (Unlink f) else tr_ret tt
  | None => tr_ret tt
  end ~>
  tr_lift (Fail (Exit return_code)).

(** The text of the error is the format; the line end does not fit in
    [combolen]. *)
Definition daemon_fatal {A} (c : log_ctx) (reason : cstr) : traced sys_act A :=
  let combolen := (length reason + 1 + length (os_strerror e) + 1)%nat in
  let combo := take (combolen - 1) (reason ++ cs " " ++ os_strerror e ++ [nl]) in
  daemon_shutdown c EXIT_FATAL (Some (combo, [])).

(** ** Pid files *)

Definition create_pidfile (c : log_ctx) : traced sys_act unit :=
  match lc_pidfile c with
  | None => tr_lift (Fail AssertFail)
  | Some f =>
      logstr c GLOG_INFO (cs "creating pidfile %s") [AStr f] ~>
      if os_open_pidfile e then
        if os_write_pidfile e then tr_act (WriteFile f (sdec (os_pid e)))
        else daemon_fatal c (cs "writing pidfile")
      else daemon_fatal c (cs "opening pidfile: fdopen")
  end.

Definition EXIT_PIDFILE_EXISTS : Z := 3.

Definition check_pidfile (c : log_ctx) : traced sys_act unit :=
  match os_stat_pidfile e with
  | StatError => daemon_fatal c (cs "stat")
  | StatNoEntry => tr_ret tt
  | StatExists => daemon_shutdown c EXIT_PIDFILE_EXISTS (Some (cs "pidfile already exists", []))
  end.

(** ** Into the background *)

Definition MAXFD : nat := 64.

(** [fork]: the parent opens its log again and exits. *)
Definition fork_off (c : log_ctx) (f : forked) (what : cstr) : traced sys_act log_ctx :=
  match f with
  | InParent => tr_act Fork ~> let~ r := log_open c in tr_lift (Fail (Exit EXIT_NOERROR))
  | ForkError => let~ r := log_open c in daemon_fatal r.2 what
  | InChild => tr_act Fork ~> tr_ret c
  end.

Definition daemon_fds : list sys_act :=
  [CloseFd 0; OpenNull false; CloseFd 1; OpenNull true; CloseFd 2; OpenNull true] ++
  (CloseFd ∘ Z.of_nat <$> seq 3 (MAXFD - 3)).

Definition daemonize (c : log_ctx) : traced sys_act log_ctx :=
  let~ r := log_close c in
  let~ c := fork_off r.2 (os_fork1 e) (cs "fork(): ") in
  (if os_setsid e then tr_act Setsid else let~ r := log_open c in daemon_fatal r.2 (cs "setsid(): ")) ~>
  let~ c := fork_off c (os_fork2 e) (cs "fork: ") in
  tr_acts daemon_fds ~>
  let~ r := log_open c in tr_ret r.2.

(** ** Signals *)

Definition setup_signal_handlers : list sys_act :=
  [SetHandler "SIGHUP" HIgnore; SetHandler "SIGPIPE" HIgnore; SetHandler "SIGALRM" HNoop; SetHandler "SIGHUP" HReconfig;
   SetHandler "SIGINT" (HMrproper true); SetHandler "SIGTERM" (HMrproper true)].

(** [SA_RESETHAND]: the signal raised again has its default action. *)
Definition mrproper (c : log_ctx) (signo : Z) : traced sys_act unit :=
  match lc_pidfile c with
  | Some f => if has (lc_flags c) FLG_CREATE_PIDFILE then tr_act (Unlink f) else tr_ret tt
  | None => tr_ret tt
  end ~> tr_act (Raise signo).

Definition reconfig (c : log_ctx) : log_ctx :=
  LogCtx (Z.lor (lc_flags c) FLG_RECONFIGURE_PENDING) (lc_loglevel c) (lc_facility c) (lc_pidfile c) (lc_syslog_open c).

(** ** The command line *)

Definition usage {A} : traced sys_act A :=
  tr_acts (Stdout ∘ (fun l => cs l ++ [nl]) <$>
    ["Usage: grossd [-CDdFhnPpruV] [-f configfile]";
     "       -C       create statefile and exit";
     "       -D       enable debug logging (insane verbosity with -DD)";
     "       -d       debug mode: run in foreground and log to stdout";
     "       -h       print command usage and exit";
     "       -F       run grossd as a foreground process";
     "       -f       override default configfile";
     "       -n       dry run: always send TRUST";
     "       -p file  write the process id in a pidfile";
     "       -P file  same as -p, but pid file must not exist";
     "       -r       disable replication";
     "       -u user  run gross as user";
     "       -V       version information"]%string) ~>
  tr_lift (Fail (Exit EXIT_USAGE)).

Definition options_ctx (o : options) : log_ctx := LogCtx (opt_flags o) (opt_loglevel o) 0 (opt_pidfile o) false.

(** The loop over [getopt]; for [':'] and for what it does not know the second
    component is [optopt]. *)
Fixpoint command_line (version : cstr) (o : options) (l : list (ascii * cstr)) : traced sys_act options :=
  match l with
  | [] => tr_ret o
  | (c, a) :: l =>
      if chr_eqb c "V" then
        tr_act (Stdout (cs "grossd - Greylisting of Suspicious Sources. Version " ++ version ++ cs "." ++ [nl])) ~>
        daemon_shutdown (options_ctx o) EXIT_NOERROR None
      else if chr_eqb c "h" then usage
      else if chr_eqb c ":" then tr_act (Stderr (cs "Option -" ++ a ++ cs " requires an operand" ++ [nl])) ~> usage
      else
        match take_option o c a with
        | Ok o => command_line version o l
        | Fail _ => tr_act (Stderr (cs "Unrecognized option: -" ++ a ++ [nl])) ~> usage
        end
  end.

(** ** Start-up *)

Definition drop_privileges (c : log_ctx) (user : cstr) : traced sys_act unit :=
  if os_euid e =? 0 then
    logstr c GLOG_DEBUG (cs "Running as root: setuid() to '%s'") [AStr user] ~>
    match os_getpwnam e user with
    | None => daemon_shutdown c EXIT_FATAL (Some (cs "Running as root: can't find user '%s'", [AStr user]))
    | Some (uid, gid) =>
        (if os_setgid e then tr_act (SetGid gid)
         else daemon_shutdown c EXIT_FATAL (Some (cs "Running as root: can't setgid(%d) to '%s': %s",
           [AInt gid; AStr user; AStr (os_strerror e)]))) ~>
        (if os_setuid e then tr_act (SetUid uid)
         else daemon_shutdown c EXIT_FATAL (Some (cs "Running as root: can't setuid(%d) to '%s': %s",
           [AInt uid; AStr user; AStr (os_strerror e)])))
    end
  else tr_ret tt.

Definition config_ctx (c : gross_config_t) (open : bool) : log_ctx :=
  LogCtx (flags c) (g_loglevel c) (syslogfacility c) (pidfile c) open.

(** [-C]: the state file is made, and the process ends. *)
Definition create_and_exit (x : log_ctx) (c : gross_config_t) : traced sys_act unit :=
  if has (flags c) FLG_CREATE_STATEFILE then
    match statefile c with
    | Some f =>
        let~ b := tr_lift (create_statefile (os_statefile e) (g_num_bufs c) (filter_size c)) in
        tr_act (CreateState f b) ~>
        daemon_shutdown x EXIT_NOERROR (Some (cs "statefile %s created, exiting...", [AStr f]))
    | None => daemon_shutdown x EXIT_FATAL (Some (cs "statefile not configured", []))
    end
  else tr_ret tt.

Definition bloommgr_init : list sys_act := [SemWait; StartThread "bloommgr"].
Definition syncmgr_init : list sys_act := [SemWait; StartThread "syncmgr"].

Definition worker_init (milter : bool) (protos : Z) : list sys_act :=
  (if has protos PROTO_POSTFIX then [StartThread "postfix_server"] else []) ++
  (if has protos PROTO_SJSMS then [StartThread "sjsms_server"] else []) ++
  (if milter && has protos PROTO_MILTER then [StartThread "milter_server"; StartThread "milter_watcher"] else []).

(** The helper for DNS is started between the checks of lists and the others. *)
Definition list_check (c : string * bool) : bool := bool_decide (c.1 ∈ ["dnsbl"; "dnswl"; "rhsbl"]%string).

Definition start_all_checks (spf : bool) (chks : Z) : list sys_act :=
  let l := start_checks spf chks in
  (uncurry StartCheck <$> List.filter list_check l) ++ [StartThread "helper_dns"] ++
  (uncurry StartCheck <$> List.filter (fun c => negb (list_check c)) l).

(** The threads, in the order they are started; the guard is passed when the
    filters are in sync. *)
Definition start_filters (c : gross_config_t) : list sys_act :=
  bloommgr_init ++ (if has (flags c) FLG_NOREPLICATE then [] else syncmgr_init).

Definition start_servers (spf milter : bool) (c : gross_config_t) : list sys_act :=
  start_all_checks spf (checks c) ++ worker_init milter (protocols c) ++ [StartThread "srvstatus"].

Definition sigmask_checked (x : log_ctx) (a : sys_act) : traced sys_act unit :=
  if os_sigmask e then tr_act a else daemon_fatal x (cs "pthread_sigmask").

Section Main.
Context `{Inet} (resolve : cstr -> option (list Z)) (milter spf : bool) (version : cstr).

(** The user and the configuration file. *)
Definition settings_for (o : options) : traced sys_act gross_config_t :=
  let x := options_ctx o in
  drop_privileges x (opt_user o) ~>
  let~ config :=
    match os_config e with
    | None => tr_ret None
    | Some fd => tr_lift (read_config fd default_config)
    end in
  match config with
  | None => daemon_shutdown x EXIT_CONFIG (Some (cs "Configuration file errors, exiting ...", []))
  | Some config => tr_lift (configure_grossd resolve milter config o)
  end.

Definition read_settings (argv : list (ascii * cstr)) : traced sys_act gross_config_t :=
  let~ o := command_line version initialize_context argv in settings_for o.

(** Into the background, and the threads. *)
Definition launch (c : gross_config_t) : traced sys_act gross_config_t :=
  let~ r := log_open (config_ctx c false) in
  let x := r.2 in
  logstr x GLOG_INFO (cs "grossd version %s starting...") [AStr version] ~>
  create_and_exit x c ~>
  (if has (flags c) FLG_CHECK_PIDFILE then check_pidfile x else tr_ret tt) ~>
  let~ x := (if Z.land (flags c) (Z.lor FLG_DEBUG FLG_NOFORK) =? 0 then daemonize x else tr_ret x) in
  (if has (flags c) FLG_CREATE_PIDFILE then create_pidfile x else tr_ret tt) ~>
  tr_acts setup_signal_handlers ~>
  sigmask_checked x BlockSignals ~>
  (if os_delay_queue e then tr_act (DelayQueue (greylist_delay c)) else daemon_fatal x (cs "get_delay_queue")) ~>
  tr_acts (start_filters c ++ [SemWait]) ~>
  logstr x GLOG_INFO (cs "Filters in sync. Starting...") [] ~>
  tr_act SemPost ~>
  tr_acts (start_servers spf milter c) ~>
  sigmask_checked x RestoreSignals ~>
  tr_ret c.

(** [main] up to the loop of maintenance tasks ([Gross.maintenance]): the
    configuration it goes on with. *)
Definition main (argv : list (ascii * cstr)) : traced sys_act gross_config_t :=
  let~ c := read_settings argv in launch c.

End Main.

End Process.

(** ** What the parts may do *)

(** Messages to the user and the log. *)
Definition quiet (a : sys_act) : bool :=
  match a with Stdout _ | Stderr _ | Syslog _ _ | Openlog _ | Closelog => true | _ => false end.

Definition is_unlink (a : sys_act) : bool := match a with Unlink _ => true | _ => false end.
Definition is_pidfile (a : sys_act) : bool := match a with WriteFile _ _ => true | _ => false end.

Notation All P r := (Forall (fun a => P a = true) r.1).

Section Acts.
Context (e : os).
Local Open Scope tr_scope.

Lemma All_weaken (P Q : sys_act -> bool) l :
  (forall a, P a = true -> Q a = true) -> Forall (fun a => P a = true) l -> Forall (fun a => Q a = true) l.
Proof. intros H Hl. by eapply Forall_impl. Qed.

Lemma log_put_quiet msg : All quiet (log_put e msg).
Proof. unfold log_put. apply tr_bind_Forall; [constructor|]. intros r _. by repeat constructor. Qed.

Lemma logstr_quiet c level fmt args : All quiet (logstr e c level fmt args).
Proof.
  unfold logstr. destruct (_ <? _); [constructor|]. apply tr_bind_Forall; [constructor|]. intros m _.
  destruct (negb _); [apply log_put_quiet|]. by repeat constructor.
Qed.

Lemma log_open_quiet c : All quiet (log_open c).
Proof. unfold log_open. destruct (to_syslog c), (lc_syslog_open c); by repeat constructor. Qed.

Lemma log_close_quiet c : All quiet (log_close c).
Proof. unfold log_close. destruct (to_syslog c), (lc_syslog_open c); by repeat constructor. Qed.

Lemma shutdown_message_quiet c code msg : All quiet (shutdown_message e c code msg).
Proof.
  destruct msg as [[fmt args]|]; [|constructor]. apply tr_bind_Forall; [constructor|]. intros out _.
  apply tr_bind_Forall; [by repeat constructor|]. intros _ _. apply tr_bind_Forall; [|constructor].
  destruct (lc_syslog_open c); [apply logstr_quiet | constructor].
Qed.

(** A process that ends removes its pid file at most, and that with code 0. *)
Definition ending (a : sys_act) : bool := quiet a || is_unlink a.

Lemma daemon_shutdown_acts {A} c code msg :
  All ending (daemon_shutdown (A:=A) e c code msg) /\
  (code <> EXIT_NOERROR -> All quiet (daemon_shutdown (A:=A) e c code msg)).
Proof.
  assert (forall P : sys_act -> bool, (forall a, quiet a = true -> P a = true) ->
    (forall f, code = EXIT_NOERROR -> P (Unlink f) = true) -> All P (daemon_shutdown (A:=A) e c code msg)) as H.
  { intros P Hq Hu. unfold daemon_shutdown. apply tr_bind_Forall.
    - eapply All_weaken; [exact Hq | apply shutdown_message_quiet].
    - intros _ _. apply tr_bind_Forall; [|constructor]. destruct (lc_pidfile c) as [f|]; [|constructor].
      destruct (Z.eqb_spec code EXIT_NOERROR); [|constructor]. destruct (has _ _); [|constructor].
      constructor; [by apply Hu | constructor]. }
  split; [|intros Hc]; apply H; unfold ending; intros a; [by intros -> | by destruct a | done | done].
Qed.

(** A pid file is removed only as the last thing before the exit with code 0,
    and not by a run that wrote one. *)
Definition removes_last {A} (m : traced sys_act A) : Prop :=
  Forall (fun a => is_unlink a = false) m.1 \/
  m.2 = Fail (Exit EXIT_NOERROR) /\ Forall (fun a => is_pidfile a = false) m.1.

Lemma quiet_no_unlink l : Forall (fun a => quiet a = true) l -> Forall (fun a => is_unlink a = false) l.
Proof. intros H. eapply Forall_impl; [exact H|]. by intros []. Qed.

Lemma removes_last_quiet {A} (m : traced sys_act A) : All quiet m -> removes_last m.
Proof. intros H. left. by apply quiet_no_unlink. Qed.

(** Nothing is written before the part that may end the process. *)
Lemma removes_last_bind {A B} (m : traced sys_act A) (k : A -> traced sys_act B) :
  Forall (fun a => is_pidfile a = false) m.1 -> removes_last m -> (forall a, m.2 = Ok a -> removes_last (k a)) ->
  removes_last (tr_bind m k).
Proof.
  intros Hp Hm Hk. unfold tr_bind. destruct m as [t [a|f]]; cbn [fst snd] in *.
  2:{ destruct Hm as [?|[E ?]]; [by left|]. right. split; [cbn in *; congruence | done]. }
  destruct Hm as [Hm|[Hm _]]; [|done]. destruct (Hk a eq_refl) as [H|[H1 H2]].
  - left. by apply Forall_app.
  - right. split; [done|]. by apply Forall_app.
Qed.

Lemma removes_last_none {A} (m : traced sys_act A) : Forall (fun a => is_unlink a = false) m.1 -> removes_last m.
Proof. by left. Qed.

Lemma ending_no_pidfile l : Forall (fun a => ending a = true) l -> Forall (fun a => is_pidfile a = false) l.
Proof. intros H. eapply Forall_impl; [exact H|]. by intros []. Qed.

Lemma quiet_no_pidfile l : Forall (fun a => quiet a = true) l -> Forall (fun a => is_pidfile a = false) l.
Proof. intros H. eapply Forall_impl; [exact H|]. by intros []. Qed.

Lemma daemon_shutdown_last {A} c code msg : removes_last (daemon_shutdown (A:=A) e c code msg).
Proof.
  unfold daemon_shutdown.
  pose proof (shutdown_message_quiet c code msg) as Hq.
  apply removes_last_bind; [by apply quiet_no_pidfile | by apply removes_last_quiet |]. intros _ _.
  destruct (lc_pidfile c) as [f|]; [|by left; constructor].
  destruct (Z.eqb_spec code EXIT_NOERROR) as [->|]; [|by left; constructor].
  destruct (has _ _); [|by left; constructor]. right. split; [done|]. by repeat constructor.
Qed.

Lemma daemon_shutdown_ends {A} c code msg a : (daemon_shutdown (A:=A) e c code msg).2 <> Ok a.
Proof.
  unfold daemon_shutdown, tr_bind. destruct (shutdown_message e c code msg).2 as [u|f]; [|done]. cbn [snd].
  destruct (lc_pidfile c); [destruct (_ && _)|]; done.
Qed.

Lemma daemon_fatal_quiet {A} c reason : All quiet (daemon_fatal (A:=A) e c reason).
Proof. by apply daemon_shutdown_acts. Qed.

End Acts.

(** ** What [main] may do *)

Section Main.
Context (e : os) `{Inet} (resolve : cstr -> option (list Z)) (milter spf : bool) (version : cstr).
Local Open Scope tr_scope.

(** The configuration that the command line and the file come to. *)
Definition configured (argv : list (ascii * cstr)) (c : gross_config_t) : Prop :=
  exists t o fd config, command_line e version initialize_context argv = (t, Ok o) /\ os_config e = Some fd /\
    read_config fd default_config = Ok (Some config) /\ configure_grossd resolve milter config o = Ok c.

(** The user of the command line is the one the process is. *)
Definition unprivileged (argv : list (ascii * cstr)) (l : list sys_act) : Prop :=
  os_euid e = 0 -> exists t o uid gid, command_line e version initialize_context argv = (t, Ok o) /\
    os_getpwnam e (opt_user o) = Some (uid, gid) /\ SetGid gid ∈ l /\ SetUid uid ∈ l.

Definition setting_user (a : sys_act) : bool := match a with SetGid _ | SetUid _ => true | _ => false end.

Lemma command_line_acts o l : All ending (command_line e version o l) /\ removes_last (command_line e version o l).
Proof.
  revert o. induction l as [|[c a] l IH]; intros o; cbn [command_line]; [by split; [|left]; constructor|].
  assert (forall A, All quiet (usage (A:=A))) as Hu by (intros A; by repeat constructor).
  assert (forall t, Forall (fun a => quiet a = true) t -> Forall (fun a => ending a = true) t) as Hw.
  { intros t. apply All_weaken. unfold ending. by intros ? ->. }
  destruct (chr_eqb c "V").
  { split.
    - apply tr_bind_Forall; [by repeat constructor|]. intros _ _. apply daemon_shutdown_acts.
    - apply removes_last_bind; [by repeat constructor | left; by repeat constructor |]. intros _ _. apply daemon_shutdown_last. }
  destruct (chr_eqb c "h"); [split; [by apply Hw | by apply removes_last_quiet]|].
  destruct (chr_eqb c ":").
  { assert (All quiet (tr_act (Stderr (cs "Option -" ++ a ++ cs " requires an operand" ++ [nl])) ~> usage (A:=options))) as Hq
      by (by repeat constructor).
    split; [by apply Hw | by apply removes_last_quiet]. }
  destruct (take_option o c a); [apply IH|].
  assert (All quiet (tr_act (Stderr (cs "Unrecognized option: -" ++ a ++ [nl])) ~> usage (A:=options))) as Hq
    by (by repeat constructor).
  split; [by apply Hw | by apply removes_last_quiet].
Qed.

Lemma drop_privileges_acts c user :
  All (fun a => quiet a || setting_user a) (drop_privileges e c user) /\
  (os_euid e = 0 -> (drop_privileges e c user).2 = Ok tt ->
    exists uid gid, os_getpwnam e user = Some (uid, gid) /\ SetGid gid ∈ (drop_privileges e c user).1 /\
      SetUid uid ∈ (drop_privileges e c user).1).
Proof.
  unfold drop_privileges. destruct (Z.eqb_spec (os_euid e) 0) as [E|E]; [|by split; [constructor|]].
  assert (forall l, Forall (fun a => quiet a = true) l -> Forall (fun a => quiet a || setting_user a = true) l) as Hw.
  { intros l. apply (All_weaken quiet (fun a => quiet a || setting_user a)). by intros a ->. }
  split.
  - apply tr_bind_Forall; [apply Hw, logstr_quiet|]. intros _ _. destruct (os_getpwnam e user) as [[uid gid]|].
    2:{ by apply Hw, daemon_shutdown_acts. }
    apply tr_bind_Forall.
    + destruct (os_setgid e); [by repeat constructor | by apply Hw, daemon_shutdown_acts].
    + intros _ _. destruct (os_setuid e); [by repeat constructor | by apply Hw, daemon_shutdown_acts].
  - intros _. unfold tr_bind at 1 3 5. destruct (logstr _ _ _ _ _) as [t [z|f]]; cbn [fst snd]; [|done].
    destruct (os_getpwnam e user) as [[uid gid]|]; [|intros Hd; by apply daemon_shutdown_ends in Hd].
    intros Hok. exists uid, gid. split; [done|]. revert Hok. unfold tr_bind.
    destruct (os_setgid e); cbn [tr_act fst snd].
    + destruct (os_setuid e); cbn [tr_act fst snd]; [|intros Hd; by apply daemon_shutdown_ends in Hd].
      intros _. split; apply elem_of_app; right; [left | right; left].
    + destruct (daemon_shutdown _ _ _ _) as [t' [u|f]] eqn:Ed; cbn [fst snd]; [|done].
      intros _. exfalso. eapply daemon_shutdown_ends. by rewrite Ed.
Qed.

(** Before the configuration is read nothing is done but to change the user. *)
Definition preparing (a : sys_act) : bool := ending a || setting_user a.

Lemma read_settings_acts argv :
  All preparing (read_settings e resolve milter version argv) /\ removes_last (read_settings e resolve milter version argv) /\
  forall c, (read_settings e resolve milter version argv).2 = Ok c ->
    configured argv c /\ unprivileged argv (read_settings e resolve milter version argv).1.
Proof.
  unfold read_settings. set (cl := command_line _ _ _ _).
  destruct (command_line_acts initialize_context argv) as [Hc Hl]. fold cl in Hc, Hl.
  set (k := settings_for e resolve milter). assert (forall o, All (fun a => quiet a || setting_user a) (k o) /\
    forall c, (k o).2 = Ok c -> exists fd config, os_config e = Some fd /\ read_config fd default_config = Ok (Some config) /\
      configure_grossd resolve milter config o = Ok c /\
      (os_euid e = 0 -> exists uid gid, os_getpwnam e (opt_user o) = Some (uid, gid) /\ SetGid gid ∈ (k o).1 /\ SetUid uid ∈ (k o).1))
    as Hk.
  { intros o. unfold k, settings_for. destruct (drop_privileges_acts (options_ctx o) (opt_user o)) as [Hd Hu].
    set (dp := drop_privileges _ _ _) in *. split.
    - apply tr_bind_Forall; [done|]. intros _ _. apply tr_bind_Forall; [by destruct (os_config e); constructor|].
      intros [config|] _; [constructor|].
      apply (All_weaken quiet (fun a => quiet a || setting_user a)); [by intros a ->|]. by apply daemon_shutdown_acts.
    - intros c. unfold tr_bind at 1 3 5. destruct dp as [t [[]|f]]; cbn [fst snd] in *; [|done].
      destruct (os_config e) as [fd|]; cbn [tr_bind tr_lift tr_ret fst snd app];
        [|intros Hs; by apply daemon_shutdown_ends in Hs].
      destruct (read_config fd default_config) as [[config|]|f] eqn:Er; cbn [tr_bind tr_lift fst snd app]; [| |done].
      + intros Ec. exists fd, config. split_and!; try done. intros E0. destruct (Hu E0 eq_refl) as (uid & gid & H1 & H2 & H3).
        exists uid, gid. split; [done|]. split; apply elem_of_app; by left.
      + intros Hs. by apply daemon_shutdown_ends in Hs. }
  split; [|split].
  - apply tr_bind_Forall; [|intros o _].
    + apply (All_weaken ending preparing); [|done]. unfold preparing. by intros a ->.
    + apply (All_weaken (fun a => quiet a || setting_user a) preparing); [|apply Hk]. by intros [].
  - apply removes_last_bind; [by apply ending_no_pidfile | done |]. intros o _. left.
    eapply Forall_impl; [apply (Hk o)|]. by intros [].
  - intros c. unfold tr_bind at 1 2. destruct cl as [t [o|f]] eqn:Ecl; cbn [fst snd]; [|done]. intros Ec.
    destruct (proj2 (Hk o) c Ec) as (fd & config & H1 & H2 & H3 & H4). split.
    + exists t, o, fd, config. split_and!; done.
    + intros E0. destruct (H4 E0) as (uid & gid & H5 & H6 & H7). exists t, o, uid, gid. split_and!; try done;
        apply elem_of_app; by right.
Qed.

(** The servers may start: no state file was asked for, and no other server has
    its pid file there. *)
Definition may_start (c : gross_config_t) : Prop :=
  has (flags c) FLG_CREATE_STATEFILE = false /\ (has (flags c) FLG_CHECK_PIDFILE = true -> os_stat_pidfile e = StatNoEntry).

Definition launch_act (c : gross_config_t) (a : sys_act) : Prop :=
  match a with
  | WriteFile f text => pidfile c = Some f /\ text = sdec (os_pid e) /\ has (flags c) FLG_CREATE_PIDFILE = true /\ may_start c
  | CreateState f _ => statefile c = Some f /\ has (flags c) FLG_CREATE_STATEFILE = true
  | SetGid _ | SetUid _ => False
  | Unlink _ => has (flags c) FLG_CREATE_STATEFILE = true
  | _ => quiet a = true \/ may_start c
  end.

Lemma quiet_launch c l : Forall (fun a => quiet a = true) l -> Forall (launch_act c) l.
Proof. intros Hl. eapply Forall_impl; [exact Hl|]. intros []; cbn; try done; by left. Qed.

Lemma create_and_exit_acts x c :
  Forall (launch_act c) (create_and_exit e x c).1 /\ removes_last (create_and_exit e x c) /\
  Forall (fun a => is_pidfile a = false) (create_and_exit e x c).1 /\
  ((create_and_exit e x c).2 = Ok tt -> has (flags c) FLG_CREATE_STATEFILE = false).
Proof.
  unfold create_and_exit. destruct (has (flags c) FLG_CREATE_STATEFILE) eqn:Ef; [|by split_and!; try left; constructor].
  assert (forall l, Forall (fun a => ending a = true) l -> Forall (launch_act c) l) as Hw.
  { intros l Hl. eapply Forall_impl; [exact Hl|]. intros []; cbn; try done; by left. }
  destruct (statefile c) as [f|] eqn:Es.
  - set (b := create_statefile _ _ _). split_and!.
    + apply tr_bind_Forall; [constructor|]. intros bs _. apply tr_bind_Forall; [by repeat constructor|]. intros _ _.
      apply Hw, daemon_shutdown_acts.
    + apply removes_last_bind; [constructor | left; constructor |]. intros bs _.
      apply removes_last_bind; [by repeat constructor | left; by repeat constructor |]. intros _ _. apply daemon_shutdown_last.
    + apply tr_bind_Forall; [constructor|]. intros bs _. apply tr_bind_Forall; [by repeat constructor|]. intros _ _.
      apply ending_no_pidfile, daemon_shutdown_acts.
    + unfold tr_bind. destruct b; cbn [tr_lift fst snd tr_act]; [|done]. intros Hd. by apply daemon_shutdown_ends in Hd.
  - split_and!.
    + apply Hw, daemon_shutdown_acts.
    + apply daemon_shutdown_last.
    + apply ending_no_pidfile, daemon_shutdown_acts.
    + intros Hd. by apply daemon_shutdown_ends in Hd.
Qed.

Lemma check_pidfile_acts x :
  All quiet (check_pidfile e x) /\ ((check_pidfile e x).2 = Ok tt -> os_stat_pidfile e = StatNoEntry).
Proof.
  unfold check_pidfile. destruct (os_stat_pidfile e).
  - split; [by apply daemon_shutdown_acts|]. intros Hd. by apply daemon_shutdown_ends in Hd.
  - by split; [constructor|].
  - split; [apply daemon_fatal_quiet|]. intros Hd. by apply daemon_shutdown_ends in Hd.
Qed.

(** Quiet but for the descriptors and the new process. *)
Definition detaching (a : sys_act) : bool :=
  quiet a || match a with Fork | Setsid | CloseFd _ | OpenNull _ => true | _ => false end.

Lemma daemonize_acts x : All detaching (daemonize e x).
Proof.
  assert (forall l, Forall (fun a => quiet a = true) l -> Forall (fun a => detaching a = true) l) as Hw.
  { intros l. apply All_weaken. unfold detaching. by intros a ->. }
  assert (forall y f w, All detaching (fork_off e y f w)) as Hf.
  { intros y f w. destruct f; cbn [fork_off].
    - apply tr_bind_Forall; [by repeat constructor|]. intros _ _. apply tr_bind_Forall; [apply Hw, log_open_quiet | constructor].
    - by repeat constructor.
    - apply tr_bind_Forall; [apply Hw, log_open_quiet|]. intros r _. apply Hw, daemon_fatal_quiet. }
  unfold daemonize. apply tr_bind_Forall; [apply Hw, log_close_quiet|]. intros r _.
  apply tr_bind_Forall; [apply Hf|]. intros c _. apply tr_bind_Forall.
  { destruct (os_setsid e); [by repeat constructor|]. apply tr_bind_Forall; [apply Hw, log_open_quiet|]. intros r' _.
    apply Hw, daemon_fatal_quiet. }
  intros _ _. apply tr_bind_Forall; [apply Hf|]. intros c' _. apply tr_bind_Forall.
  { unfold daemon_fds. cbn [tr_acts fst]. apply Forall_app. split; [by repeat constructor|].
    apply Forall_fmap, Forall_true. done. }
  intros _ _. apply tr_bind_Forall; [apply Hw, log_open_quiet | constructor].
Qed.

Lemma create_pidfile_acts x f :
  lc_pidfile x = Some f -> Forall (fun a => quiet a = true \/ a = WriteFile f (sdec (os_pid e))) (create_pidfile e x).1.
Proof.
  intros Hf. unfold create_pidfile. rewrite Hf.
  assert (forall l, Forall (fun a => quiet a = true) l -> Forall (fun a => quiet a = true \/ a = WriteFile f (sdec (os_pid e))) l) as Hw.
  { intros l Hl. eapply Forall_impl; [exact Hl|]. by left. }
  apply tr_bind_Forall; [apply Hw, logstr_quiet|]. intros _ _. destruct (os_open_pidfile e); [|apply Hw, daemon_fatal_quiet].
  destruct (os_write_pidfile e); [|apply Hw, daemon_fatal_quiet]. constructor; [by right | constructor].
Qed.

(** The pid file stays the same. *)
Lemma log_open_pidfile x r : (log_open x).2 = Ok r -> lc_pidfile r.2 = lc_pidfile x.
Proof. unfold log_open. destruct (to_syslog x), (lc_syslog_open x); cbn; by intros [= <-]. Qed.

Lemma log_close_pidfile x r : (log_close x).2 = Ok r -> lc_pidfile r.2 = lc_pidfile x.
Proof. unfold log_close. destruct (to_syslog x), (lc_syslog_open x); cbn; by intros [= <-]. Qed.

Lemma tr_bind_Ok {A B} (m : traced sys_act A) (k : A -> traced sys_act B) b :
  (tr_bind m k).2 = Ok b -> exists a, m.2 = Ok a /\ (k a).2 = Ok b.
Proof. unfold tr_bind. destruct m as [t [a|f]]; cbn [snd]; [eauto | done]. Qed.

Lemma fork_off_pidfile x f w y : (fork_off e x f w).2 = Ok y -> y = x.
Proof.
  destruct f; cbn [fork_off].
  - intros Hb. apply tr_bind_Ok in Hb as (u & _ & Hb). by apply tr_bind_Ok in Hb as (r & _ & Hb).
  - by intros [= <-].
  - intros Hb. apply tr_bind_Ok in Hb as (r & _ & Hb). by apply daemon_shutdown_ends in Hb.
Qed.

Lemma daemonize_pidfile x y : (daemonize e x).2 = Ok y -> lc_pidfile y = lc_pidfile x.
Proof.
  unfold daemonize. intros Hb. apply tr_bind_Ok in Hb as (r1 & H1 & Hb). apply log_close_pidfile in H1.
  apply tr_bind_Ok in Hb as (c1 & H2 & Hb). apply fork_off_pidfile in H2 as ->.
  apply tr_bind_Ok in Hb as (u & _ & Hb). apply tr_bind_Ok in Hb as (c2 & H3 & Hb). apply fork_off_pidfile in H3 as ->.
  apply tr_bind_Ok in Hb as (u' & _ & Hb). apply tr_bind_Ok in Hb as (r2 & H4 & Hb). apply log_open_pidfile in H4.
  cbn in Hb. injection Hb as <-. congruence.
Qed.

(** A list of effects that are all right once the servers may start. *)
Local Ltac started := repeat case_match; repeat (constructor; [split; [by right | done]|]); constructor.

(** From the background on. *)
Lemma servers_acts x c :
  may_start c -> lc_pidfile x = pidfile c ->
  let r := let~ x := (if Z.land (flags c) (Z.lor FLG_DEBUG FLG_NOFORK) =? 0 then daemonize e x else tr_ret x) in
    (if has (flags c) FLG_CREATE_PIDFILE then create_pidfile e x else tr_ret tt) ~>
    tr_acts setup_signal_handlers ~>
    sigmask_checked e x BlockSignals ~>
    (if os_delay_queue e then tr_act (DelayQueue (greylist_delay c)) else daemon_fatal e x (cs "get_delay_queue")) ~>
    tr_acts (start_filters c ++ [SemWait]) ~>
    logstr e x GLOG_INFO (cs "Filters in sync. Starting...") [] ~>
    tr_act SemPost ~>
    tr_acts (start_servers spf milter c) ~>
    sigmask_checked e x RestoreSignals ~>
    tr_ret c in
  Forall (launch_act c) r.1 /\ Forall (fun a => is_unlink a = false) r.1.
Proof.
  intros Hm Hx. cbv zeta. apply Forall_and.
  assert (forall a, quiet a = true -> launch_act c a /\ is_unlink a = false) as Hq.
  { intros []; cbn; try done; by split; [left|]. }
  assert (forall l, Forall (fun a => quiet a = true) l -> Forall (fun a => launch_act c a /\ is_unlink a = false) l) as Hw.
  { intros l Hl. eapply Forall_impl; [exact Hl | exact Hq]. }
  assert (forall y a, is_unlink a = false -> launch_act c a ->
    Forall (fun a => launch_act c a /\ is_unlink a = false) (sigmask_checked e y a).1) as Hsig.
  { intros y a H1 H2. unfold sigmask_checked. destruct (os_sigmask e); [by repeat constructor | apply Hw, daemon_fatal_quiet]. }
  apply tr_bind_Forall.
  { destruct (_ =? 0); [|constructor]. eapply Forall_impl; [apply daemonize_acts|].
    intros []; cbn; try done; intros _; split; auto. }
  intros y Hy. assert (lc_pidfile y = pidfile c) as Hp.
  { destruct (_ =? 0); [apply daemonize_pidfile in Hy; congruence | by injection Hy as <-]. }
  apply tr_bind_Forall.
  { destruct (has (flags c) FLG_CREATE_PIDFILE) eqn:Ec; [|constructor]. destruct (pidfile c) as [f|] eqn:Ef.
    - eapply Forall_impl; [by apply create_pidfile_acts|]. intros a [Ha| ->]; [by apply Hq|]. by split_and!; try apply Hm.
    - unfold create_pidfile. rewrite Hp. constructor. }
  intros _ _. apply tr_bind_Forall; [started|].
  intros _ _. apply tr_bind_Forall; [apply Hsig; [done | by right]|].
  intros _ _. apply tr_bind_Forall.
  { destruct (os_delay_queue e); [constructor; [split; [by right | done] | constructor] | apply Hw, daemon_fatal_quiet]. }
  intros _ _. apply tr_bind_Forall.
  { unfold start_filters. started. }
  intros _ _. apply tr_bind_Forall; [apply Hw, logstr_quiet|].
  intros _ _. apply tr_bind_Forall; [started|].
  intros _ _. apply tr_bind_Forall.
  { assert (forall l, Forall (fun a => launch_act c a /\ is_unlink a = false) (uncurry StartCheck <$> l)) as Hc.
    { intros l. apply Forall_fmap, Forall_true. intros [n d]. split; [by right | done]. }
    unfold start_servers, start_all_checks, worker_init. cbn [tr_acts fst]. rewrite !Forall_app. split_and!; try apply Hc; started. }
  intros _ _. apply tr_bind_Forall; [apply Hsig; [done | by right] | constructor].
Qed.

Lemma launch_acts c :
  Forall (launch_act c) (launch e milter spf version c).1 /\ removes_last (launch e milter spf version c).
Proof.
  unfold launch. set (lo := log_open (config_ctx c false)).
  assert (All quiet lo) as Hlo by apply log_open_quiet.
  assert (forall r, lo.2 = Ok r -> lc_pidfile r.2 = pidfile c) as Hp by (intros r; apply log_open_pidfile).
  assert (forall r, lo.2 = Ok r -> has (flags c) FLG_CREATE_STATEFILE = false ->
    forall u, (if has (flags c) FLG_CHECK_PIDFILE then check_pidfile e r.2 else tr_ret tt).2 = Ok u -> may_start c) as Hms.
  { intros r _ H1 u Hu. split; [done|]. intros Hc. rewrite Hc in Hu. destruct u. by apply (check_pidfile_acts r.2). }
  assert (forall x, All quiet (if has (flags c) FLG_CHECK_PIDFILE then check_pidfile e x else tr_ret tt)) as Hchk.
  { intros x. destruct (has _ FLG_CHECK_PIDFILE); [apply check_pidfile_acts | constructor]. }
  split.
  - apply tr_bind_Forall; [by apply quiet_launch|]. intros r Hr. apply tr_bind_Forall; [apply quiet_launch, logstr_quiet|].
    intros _ _. destruct (create_and_exit_acts r.2 c) as (H1 & _ & _ & H4). apply tr_bind_Forall; [done|]. intros [] E1.
    apply tr_bind_Forall; [by apply quiet_launch|]. intros u Eu. eapply servers_acts; eauto.
  - apply removes_last_bind; [by apply quiet_no_pidfile | by apply removes_last_quiet |]. intros r Hr.
    apply removes_last_bind; [apply quiet_no_pidfile, logstr_quiet | apply removes_last_quiet, logstr_quiet |]. intros _ _.
    destruct (create_and_exit_acts r.2 c) as (_ & H2 & H3 & H4). apply removes_last_bind; [done | done |]. intros [] E1.
    apply removes_last_bind; [by apply quiet_no_pidfile | by apply removes_last_quiet |]. intros u Eu.
    left. eapply servers_acts; eauto.
Qed.

End Main.

(** ** Properties *)

(** C17: what [main] does up to its loop, in order, for every command line,
    configuration file and answers of the operating system.  Up to the configuration nothing is
    done but to write messages, to change the user and to remove a pid file;
    everything else is done by a process that, if it was started by root, has
    become the user of the command line.  A pid file is written if it was asked
    for, with the process id in it, and with [-P] only when there was none;
    descriptors, threads and checks are dealt with only then, and not with [-C].
    In this part a pid file is removed only by a run that exits with code 0 and
    that did not write one: with [-V] or [-C], the file of another server.  (The
    ends of a running server, [mrproper] and [milter_watcher], remove the file it
    wrote; they are not part of this.) *)
Theorem main_discipline (e : os) `{Inet} (resolve : cstr -> option (list Z)) (milter spf : bool) (version : cstr)
    (argv : list (ascii * cstr)) :
  let r := main e resolve milter spf version argv in
  (forall pre a post, r.1 = pre ++ a :: post -> preparing a = false ->
     exists c, configured e resolve milter version argv c /\ launch_act e c a /\ unprivileged e version argv pre) /\
  (forall f, Unlink f ∈ r.1 -> r.2 = Fail (Exit EXIT_NOERROR) /\ forall g text, WriteFile g text ∉ r.1).
Proof.
  destruct (read_settings_acts e resolve milter version argv) as (Hp & Hl & Hok). cbv zeta. unfold main.
  set (rs := read_settings e resolve milter version argv) in *. split.
  - intros pre a post Hr Ha. unfold tr_bind in Hr.
    assert (a ∉ rs.1) as Hn.
    { intros Hin. pose proof (proj1 (Forall_forall _ _) Hp a Hin) as Hp'. cbn in Hp'. congruence. }
    destruct rs as [t [c|f]]; cbn [fst snd] in *; [|destruct Hn; rewrite Hr; apply elem_of_app; right; left].
    destruct (Hok c eq_refl) as [Hc Hu]. exists c. split; [done|].
    apply app_eq_inv in Hr as [(k & -> & Hk)|(k & -> & Hk)].
    + destruct k as [|b k]; [|cbn in Hk; injection Hk as -> _; destruct Hn; apply elem_of_app; right; left].
      rewrite app_nil_r in *. cbn in Hk. split; [|done].
      eapply (proj1 (Forall_forall _ _)); [apply (launch_acts e milter spf version c)|]. rewrite <-Hk. left.
    + split.
      * eapply (proj1 (Forall_forall _ _)); [apply (launch_acts e milter spf version c)|]. rewrite Hk. apply elem_of_app. right. left.
      * intros E0. destruct (Hu E0) as (t' & o & uid & gid & H1 & H2 & H3 & H4). exists t', o, uid, gid.
        split_and!; try done; apply elem_of_app; by left.
  - assert (removes_last (let~ c := rs in launch e milter spf version c)%tr) as Hrl.
    { apply removes_last_bind; [|done|intros c _; apply launch_acts].
      eapply Forall_impl; [exact Hp|]. by intros []. }
    intros f Hf. destruct Hrl as [Hrl|[H1 H2]].
    + pose proof (proj1 (Forall_forall _ _) Hrl _ Hf) as Hc. done.
    + split; [done|]. intros g text Hin. pose proof (proj1 (Forall_forall _ _) H2 _ Hin) as Hc. done.
Qed.

Definition demo_os : os :=
  Os 0x2a (cs "Thu Jan  1 00:00:00 1970" ++ [nl; nul]) (cs "Success") 4711 1000 (fun _ => None) true true
    (Some []) None StatNoEntry true true InChild InChild true true true.

Example version_removes_pidfile :
  main (H := Dotted.dotted) demo_os (fun h => Some [127; 0; 0; 1]) false false (cs "1.0") [("p"%char, cs "/run/grossd.pid"); ("V"%char, [])] =
  ([Stdout (cs "grossd - Greylisting of Suspicious Sources. Version 1.0." ++ [nl]); Unlink (cs "/run/grossd.pid")],
   Fail (Exit 0)).
Proof. vm_compute. reflexivity. Qed.

(** With nothing configured the server comes up in the background with a pid
    file. *)
Example started_in_background :
  let r := main (H := Dotted.dotted) demo_os (fun h => Some [127; 0; 0; 1]) false false (cs "1.0") [("p"%char, cs "/run/grossd.pid")] in
  is_ok r.2 = true /\
  List.filter (fun a => match a with WriteFile _ _ | StartThread _ | Fork | SemWait | SemPost => true | _ => false end) r.1 =
    [Fork; Fork; WriteFile (cs "/run/grossd.pid") (cs "4711"); SemWait; StartThread "bloommgr"; SemWait; SemPost;
     StartThread "helper_dns"; StartThread "srvstatus"].
Proof. vm_compute. split; reflexivity. Qed.

(** A fatal error: the reason and the error of the system on standard error,
    exit code 2, and the pid file stays.  The line end of [daemon_fatal] is cut
    off; the text must not contain a percent sign, it is used as a format. *)
Theorem daemon_fatal_text {A} (e : os) c reason :
  no_conv reason -> no_conv (os_strerror e) -> lc_syslog_open c = false ->
  (length reason + length (os_strerror e) < 980)%nat ->
  daemon_fatal (A:=A) e c reason =
    ([Stderr (cs "Grossd shutdown with exit code 2: " ++ reason ++ cs " " ++ os_strerror e ++ [nl])], Fail (Exit 2)).
Proof.
  intros H1 H2 H3 H4. unfold daemon_fatal.
  set (combo := take _ _). assert (combo = reason ++ cs " " ++ os_strerror e) as ->.
  { unfold combo. rewrite !app_assoc. rewrite take_app_length'; [done|]. rewrite !length_app. cbn. lia. }
  unfold daemon_shutdown, shutdown_message. change (sdec EXIT_FATAL) with (cs "2").
  set (text := cs "Grossd shutdown with exit code " ++ cs "2" ++ cs ": " ++ reason ++ cs " " ++ os_strerror e).
  assert (no_conv text) as Hpl.
  { unfold text, no_conv. rewrite !not_elem_of_app. split_and!; first [exact H1 | exact H2 | by apply not_in_check]. }
  assert (msg_text text = text) as Ht.
  { unfold msg_text, MSGSZ. apply take_ge. unfold text. rewrite !length_app. cbn. lia. }
  rewrite Ht, (vformat_no_conv text []) by done. unfold tr_bind, tr_lift. cbn [fst snd]. rewrite Ht, H3.
  cbn [tr_act tr_ret fst snd app]. unfold EXIT_FATAL, EXIT_NOERROR. cbn [Z.eqb andb]. unfold text.
  destruct (lc_pidfile c); cbn [tr_ret fst snd app]; by rewrite <-!app_assoc.
Qed.

(** ** Threads *)

(** What the calls of [create_thread] return. *)
Record pthread_ret := PthreadRet {
  r_attr_init : Z;
  r_setdetachstate : Z;
  r_setstacksize : Z;
  r_create : Z;
  r_tid : Z }.

Section Threads.
Context (e : os).
Local Open Scope tr_scope.

Definition or_fatal (c : log_ctx) (ret : Z) (call : cstr) : traced sys_act unit :=
  if ret =? 0 then tr_ret tt else daemon_fatal e c call.

(** [tinfo]: the thread field of the structure, where the caller gave one. *)
Definition create_thread (c : log_ctx) (r : pthread_ret) (tinfo : option Z) (detach : bool) (routine : string) : traced sys_act (option Z) :=
  or_fatal c (r_attr_init r) (cs "pthread_attr_init") ~>
  (if detach then or_fatal c (r_setdetachstate r) (cs "pthread_attr_setdetachstate") else tr_ret tt) ~>
  or_fatal c (r_setstacksize r) (cs "pthread_attr_setstacksize") ~>
  (if r_create r =? 0 then tr_act (StartThread routine) else daemon_fatal e c (cs "pthread_create")) ~>
  tr_ret (match tinfo with Some _ => Some (r_tid r) | None => None end).

Lemma daemon_fatal_ends c reason : exists t f, forall A, daemon_fatal (A:=A) e c reason = (t, Fail f).
Proof.
  unfold daemon_fatal, daemon_shutdown, tr_bind. generalize (shutdown_message e c EXIT_FATAL). intros g. generalize (g (Some (take (length reason + 1 + length (os_strerror e) + 1 - 1) (reason ++ cs " " ++ os_strerror e ++ [nl]), []))). clear g.
  intros [t [[]|f]]; [|exists t, f; reflexivity]. cbn [fst snd tr_lift].
  destruct (lc_pidfile c); [destruct (_ && _)|]; eexists _, _; intros A; cbn [fst snd tr_lift tr_act tr_ret]; reflexivity.
Qed.

(** A thread is started, and its caller told, only after every call of the
    library succeeded; otherwise the process ends with code 2 and the name of the
    first call that failed, and has not started a thread.  The text that follows
    the name is that of [errno], which these calls do not set: it is the same
    whatever they returned. *)
Theorem create_thread_all_or_none (c : log_ctx) (r : pthread_ret) (tinfo : option Z) (detach : bool) (routine : string) :
  let bad := List.filter (fun x => negb (x.1 =? 0))
    ([(r_attr_init r, cs "pthread_attr_init")] ++ (if detach then [(r_setdetachstate r, cs "pthread_attr_setdetachstate")] else []) ++
     [(r_setstacksize r, cs "pthread_attr_setstacksize"); (r_create r, cs "pthread_create")]) in
  match bad with
  | [] => create_thread c r tinfo detach routine = ([StartThread routine], Ok (option_map (fun _ => r_tid r) tinfo))
  | x :: _ => create_thread c r tinfo detach routine = daemon_fatal e c x.2 /\ All quiet (create_thread c r tinfo detach routine)
  end.
Proof.
  assert (forall A reason, All quiet (daemon_fatal (A:=A) e c reason)) as Hq by (intros; by apply daemon_shutdown_acts).
  assert (forall A B reason (k : A -> traced sys_act B), tr_bind (daemon_fatal e c reason) k = daemon_fatal e c reason) as He.
  { intros A B reason k. destruct (daemon_fatal_ends c reason) as (t & f & E). by rewrite !E. }
  assert (forall A B (a : A) (k : A -> traced sys_act B), tr_bind (tr_ret a) k = k a) as Hr.
  { intros A B a k. unfold tr_bind. cbn. by destruct (k a). }
  cbv zeta. unfold create_thread, or_fatal. generalize dependent (@daemon_fatal e). intros fatal Hq He.
  destruct (r_attr_init r =? 0) eqn:E1, detach, (r_setdetachstate r =? 0) eqn:E2, (r_setstacksize r =? 0) eqn:E3, (r_create r =? 0) eqn:E4;
    cbn [app List.filter fst]; rewrite ?E1, ?E2, ?E3, ?E4; cbn [negb snd]; rewrite ?Hr, ?He;
    first [by destruct tinfo | by split; [|apply Hq]].
Qed.

End Threads.
