(* ===== verification/StartUp.v ===== *)
(** * Start-up: when the servers may begin

    The semaphore [sync_guard] keeps [main] ([src/src/gross.c]) from starting the
    checks and servers before the manager ([src/src/bloommgr.c]) has built the
    ring and the other server, if there is one, was asked for its filters
    ([src/src/syncmgr.c]).  The three threads are programs over the semaphore,
    taken from the traces of [Process.main] and [Sync.synchronize], from what
    [StateFile.build_bloom_ring] comes to and from the calls of [syncmgr] that
    open the listening socket; a step runs the next action of one of them.  *)

From S2P Require Import Prelude Bloom Utils SyncMgr Sync Stats Worker Postfix Gross StateFile Process.

(** ** Threads *)

Inductive tact :=
| TWait                  (* [sem_wait] *)
| TPost                  (* [sem_post] *)
| TStart (name : string)
| TDo (what : string)
| TAbort.                (* the process ends *)

Inductive tid := Main | Mgr | Syncer.

Record cfg := Cfg {
  sem : Z;
  c_main : list tact;
  c_mgr : list tact;
  c_sync : list tact;
  c_log : list string;    (* what was started and done, the latest first *)
  c_aborted : bool }.

Section Threads.
Context (mgr_body sync_body : list tact).

(** One action; [None]: it has to wait. *)
Definition exec (a : tact) (c : cfg) : option cfg :=
  match a with
  | TWait => if 0 <? sem c then Some (Cfg (sem c - 1) (c_main c) (c_mgr c) (c_sync c) (c_log c) (c_aborted c)) else None
  | TPost => Some (Cfg (sem c + 1) (c_main c) (c_mgr c) (c_sync c) (c_log c) (c_aborted c))
  | TStart n =>
      let m := if bool_decide (n = "bloommgr"%string) then mgr_body else c_mgr c in
      let s := if bool_decide (n = "syncmgr"%string) then sync_body else c_sync c in
      Some (Cfg (sem c) (c_main c) m s (n :: c_log c) (c_aborted c))
  | TDo w => Some (Cfg (sem c) (c_main c) (c_mgr c) (c_sync c) (w :: c_log c) (c_aborted c))
  | TAbort => Some (Cfg (sem c) (c_main c) (c_mgr c) (c_sync c) (c_log c) true)
  end.

Definition todo (t : tid) (c : cfg) : list tact :=
  match t with Main => c_main c | Mgr => c_mgr c | Syncer => c_sync c end.

Definition set_todo (t : tid) (l : list tact) (c : cfg) : cfg :=
  match t with
  | Main => Cfg (sem c) l (c_mgr c) (c_sync c) (c_log c) (c_aborted c)
  | Mgr => Cfg (sem c) (c_main c) l (c_sync c) (c_log c) (c_aborted c)
  | Syncer => Cfg (sem c) (c_main c) (c_mgr c) l (c_log c) (c_aborted c)
  end.

Definition run_thread (t : tid) (c : cfg) : option cfg :=
  if c_aborted c then None
  else match todo t c with [] => None | a :: l => exec a (set_todo t l c) end.

Definition step (c c' : cfg) : Prop := exists t, run_thread t c = Some c'.

End Threads.

(** ** The programs *)

(** [bloommgr] up to its loop: [built] is what [build_bloom_ring] comes to.  A
    call of it that exits, fails an assertion or leaves its block ends the run
    here. *)
Definition bloommgr_start {A} (built : Res A) : list tact :=
  match built with Ok _ => [TDo "ring built"; TPost] | Fail _ => [TAbort] end.

Definition main_act (a : sys_act) : list tact :=
  match a with
  | SemWait => [TWait]
  | SemPost => [TPost]
  | StartThread n => [TStart n]
  | StartCheck n _ => [TStart n]
  | _ => []
  end.

Definition sync_act_of (a : sync_act) : list tact :=
  match a with GuardWait => [TWait] | GuardPost => [TPost] | _ => [] end.

(** What [main] does from the start of the manager on. *)
Definition main_program (spf milter : bool) (c : gross_config_t) : list tact :=
  (start_filters c ++ [SemWait; SemPost] ++ start_servers spf milter c) ≫= main_act.

Definition sync_program (le : bool) (mine : sync_config_t) (peer_ip : list Z) (e : sync_env) (ts : list turn) : list tact :=
  let r := synchronize le mine peer_ip e ts in
  (if e_setsockopt e && e_bind e && negb (e_connect e) then [TDo "peer unreachable"] else []) ++ (r.1 ≫= sync_act_of) ++
  match r.2 with Ok _ => [] | Fail _ => [TAbort] end.

(** Which calls of [syncmgr] succeed. *)
Record listen_env := ListenEnv { l_socket : bool; l_setsockopt : bool; l_bind : bool; l_listen : bool }.

Definition listens (l : listen_env) : bool := l_socket l && l_setsockopt l && l_bind l && l_listen l.

(** When one of them fails the thread ends, and the guard stays taken. *)
Definition syncmgr (l : listen_env) (le : bool) (mine : sync_config_t) (peer_ip : list Z) (e : sync_env) (ts : list turn)
    : list tact :=
  if negb (l_socket l) then [TDo "syncmgr gave up"]
  else if negb (l_setsockopt l) then [TDo "syncmgr gave up"]
  else if negb (l_bind l) then [TDo "syncmgr gave up"]
  else if negb (l_listen l) then [TDo "syncmgr gave up"]
  else sync_program le mine peer_ip e ts.

Definition start (spf milter : bool) (c : gross_config_t) : cfg := Cfg 1 (main_program spf milter c) [] [] [] false.

(** ** The guard in [synchronize] *)

(** Whether a program that holds the guard, or does not, holds it at its end;
    [None] when it waits while it holds it, or posts what it does not hold. *)
Fixpoint hold (h : bool) (l : list tact) : option bool :=
  match l with
  | [] => Some h
  | TWait :: l => if h then None else hold true l
  | TPost :: l => if h then hold false l else None
  | TAbort :: _ => Some false
  | _ :: _ => None
  end.

Definition guard_acts (t : list sync_act) : list tact := t ≫= sync_act_of.

(** From [h] to [h'], or to wherever it stops. *)
Definition holds {A} (h h' : bool) (r : traced sync_act A) : Prop :=
  exists h2, hold h (guard_acts r.1) = Some h2 /\ (is_ok r.2 = true -> h2 = h').

Lemma hold_app h l k : Forall (.≠ TAbort) l -> hold h (l ++ k) = match hold h l with Some h' => hold h' k | None => None end.
Proof.
  intros Hf. revert h. induction Hf as [|a l Ha Hf IH]; intros h; [done|].
  destruct a; cbn; try done; destruct h; try done; apply IH.
Qed.

Lemma guard_acts_no_abort t : Forall (.≠ TAbort) (guard_acts t).
Proof. apply Forall_bind, Forall_true. intros a. destruct a; repeat constructor; done. Qed.

Lemma holds_bind {A B} h h1 h2 (m : traced sync_act A) (k : A -> traced sync_act B) :
  holds h h1 m -> (forall a, m.2 = Ok a -> holds h1 h2 (k a)) -> holds h h2 (tr_bind m k).
Proof.
  intros (h3 & Hm & Hok) Hk. unfold tr_bind. destruct m as [t [a|f]]; cbn [fst snd is_ok] in *.
  - destruct (Hk a eq_refl) as (h4 & Ha & Hok4). rewrite (Hok eq_refl) in Hm. exists h4. split; [|done].
    unfold guard_acts in *. cbn [fst]. rewrite bind_app. rewrite hold_app by apply guard_acts_no_abort. by rewrite Hm.
  - exists h3. by split.
Qed.

Lemma holds_ret {A} h (a : A) : holds h h (tr_ret a).
Proof. by exists h. Qed.

Lemma holds_lift {A} h (r : Res A) : holds h h (tr_lift r).
Proof. by exists h. Qed.

Lemma holds_send h fd w bytes : holds h h (send_update_to_peer fd w bytes).
Proof. destruct w as [w|]; [|by exists h]. cbn [send_update_to_peer]. destruct (writen w bytes) as [[[? ?] ?]|]; by exists h. Qed.

Lemma holds_send_each h fd w msgs : holds h h (send_each fd w msgs).
Proof.
  revert w. induction msgs as [|m msgs IH]; intros w; cbn [send_each]; [apply holds_ret|].
  eapply holds_bind; [apply holds_send|]. intros. apply IH.
Qed.

Lemma holds_walk le h fd w queued : holds h h (walk_sends le fd w queued).
Proof.
  revert w. induction queued as [|m queued IH]; intros w; cbn [walk_sends]; [apply holds_ret|].
  destruct (send_update_msg_as_oper_sync le m); [apply IH|]. eapply holds_bind; [apply holds_send|].
  intros r _. destruct r.1; [apply IH | apply holds_ret].
Qed.

Lemma holds_recv le fuel fd_out on_stdin fd stdin stack : holds false false (recv_loop le fuel fd_out on_stdin fd stdin stack).
Proof.
  revert on_stdin fd. induction fuel as [|fuel IH]; intros on_stdin fd; cbn [recv_loop]; [apply holds_ret|].
  eapply holds_bind; [apply holds_lift|]. intros r _. eapply holds_bind.
  { instantiate (1 := false). exists false. split; [by destruct (rv_posted r) | done]. }
  intros _ _. destruct (rv_ret r =? 0); [apply holds_ret|]. destruct (rv_connected r); [apply IH|].
  eapply holds_bind; [by exists false|]. intros _ _. apply IH.
Qed.

Lemma holds_serve le mine t fd fd_out inp w : holds false false (serve_peer le mine t fd fd_out inp w).
Proof.
  unfold serve_peer. eapply holds_bind; [apply holds_send|]. intros r _.
  eapply holds_bind; [by exists true|]. intros _ _. eapply holds_bind; [apply holds_lift|]. intros msgs _.
  eapply holds_bind; [apply holds_send_each|]. intros w1 _. eapply holds_bind; [apply holds_walk|]. intros w2 _.
  eapply holds_bind; [by exists false|]. intros _ _. eapply holds_bind; [apply holds_recv|].
  intros [b|] _; [apply holds_ret | apply holds_lift].
Qed.

Lemma holds_turns le mine ip ts st : holds false false (sync_turns le mine ip ts st).
Proof.
  revert st. induction ts as [|t ts IH]; intros st; cbn [sync_turns]; [apply holds_ret|].
  eapply holds_bind; [|intros r _; destruct r.1; [apply holds_ret | apply IH]].
  unfold sync_turn. destruct (match t_accept t with AConn c => _ | AError _ => _ end) as [[[fd from] inp] w].
  destruct (negb (bool_decide (ip = from))); [eapply holds_bind; [by exists false | intros; apply holds_ret]|].
  destruct (match t_accept t with AConn _ => _ | AError _ => _ end); [apply holds_ret|].
  eapply holds_bind; [apply holds_serve | intros; apply holds_ret].
Qed.

(** The program of [synchronize] is to end the process, or, when the peer does
    not answer, to post the guard once and then to take it and give it back. *)
Lemma sync_program_shape le mine ip e ts :
  sync_program le mine ip e ts = [TAbort] \/
  e_connect e = false /\ exists l, sync_program le mine ip e ts = TDo "peer unreachable" :: TPost :: l /\ hold false l = Some false.
Proof.
  unfold sync_program, synchronize. destruct (e_setsockopt e), (e_bind e), (e_connect e); cbn; try by left.
  right. split; [done|]. set (r := sync_turns _ _ _ _ _).
  destruct (holds_turns le mine ip ts (SyncSt (-1) (e_fd_out e) 0 (e_receive e))) as (h & Hh & Hok). fold r in Hh, Hok.
  eexists. split; [reflexivity|]. fold (guard_acts r.1).
  rewrite hold_app, Hh by apply guard_acts_no_abort. destruct r.2; cbn in *; [by rewrite Hok | done].
Qed.

Lemma syncmgr_cases l le mine ip e ts :
  syncmgr l le mine ip e ts = if listens l then sync_program le mine ip e ts else [TDo "syncmgr gave up"].
Proof. unfold syncmgr, listens. by destruct (l_socket l), (l_setsockopt l), (l_bind l), (l_listen l). Qed.

(** ** The servers of [main] *)

(** Names of what waits for the filters: everything but the two threads that
    deal with them. *)
Definition is_server (n : string) : bool :=
  bool_decide (n ∉ ["bloommgr"; "syncmgr"; "ring built"; "peer unreachable"; "syncmgr gave up"]%string).

Definition server_start (a : tact) : Prop := exists n, a = TStart n /\ is_server n = true.

Lemma start_check_servers chks bit name d l :
  is_server name = true -> Forall (fun c => is_server c.1 = true) l ->
  Forall (fun c => is_server c.1 = true) (start_check chks bit name d l).
Proof.
  intros Hn Hl. unfold start_check, register_check. destruct (has chks bit), (length l <? MAXCHECKS)%nat; try done.
  apply Forall_app. split; [done|]. by apply Forall_singleton.
Qed.

Lemma start_checks_servers spf chks : Forall (fun c => is_server c.1 = true) (start_checks spf chks).
Proof.
  unfold start_checks. assert (forall l, Forall (fun c => is_server c.1 = true) l ->
    Forall (fun c => is_server c.1 = true) (if spf then start_check chks CHECK_SPF "spf" true l else l)) as Hs.
  { intros l Hl. destruct spf; [by apply start_check_servers | done]. }
  apply Hs. do 7 (apply start_check_servers; [done|]). constructor.
Qed.

Lemma servers_start spf milter c : Forall server_start (start_servers spf milter c ≫= main_act).
Proof.
  assert (forall l, Forall (fun c => is_server c.1 = true) l -> Forall server_start ((uncurry StartCheck <$> l) ≫= main_act)) as Hc.
  { intros l Hl. induction Hl as [|[n d] l Hn Hl IH]; [constructor|]. constructor; [by exists n | exact IH]. }
  assert (forall P, Forall (fun c => is_server c.1 = true) (List.filter P (start_checks spf (checks c)))) as Hf.
  { intros P. apply Forall_forall. intros x Hx. apply list_elem_of_In, filter_In in Hx as [Hx _].
    apply list_elem_of_In in Hx. exact (proj1 (Forall_forall _ _) (start_checks_servers spf (checks c)) x Hx). }
  unfold start_servers, start_all_checks, worker_init.
  rewrite !bind_app, !Forall_app. split_and!; try (apply Hc, Hf).
  - constructor; [by eexists | constructor].
  - destruct (has _ PROTO_POSTFIX); constructor; [by eexists | constructor].
  - destruct (has _ PROTO_SJSMS); constructor; [by eexists | constructor].
  - destruct (milter && _); repeat constructor; by eexists.
  - constructor; [by eexists | constructor].
Qed.

(** ** What holds in every state *)

Section Run.
Context (replicate : bool) (mgr_body sync_body sv : list tact).
Hypothesis mgr_shape : mgr_body = [TAbort] \/ mgr_body = [TDo "ring built"; TPost].
Hypothesis sync_shape : sync_body = [TAbort] \/ sync_body = [TDo "syncmgr gave up"] \/
  exists l, sync_body = TDo "peer unreachable" :: TPost :: l /\ hold false l = Some false.
Hypothesis servers : Forall server_start sv.

Local Notation ready_to_serve := (TWait :: TPost :: sv).
Local Notation after_mgr := (if replicate then TWait :: TStart "syncmgr" :: ready_to_serve else ready_to_serve).

(** The filters are there, and the peer was tried. *)
Definition in_sync (log : list string) : Prop :=
  ("ring built"%string ∈ log /\ mgr_body <> [TAbort]) /\
  (replicate = true -> "peer unreachable"%string ∈ log /\ exists l, sync_body = TDo "peer unreachable" :: l).

Definition no_server (log : list string) : Prop := Forall (fun n => is_server n = false) log.

Inductive inv : cfg -> Prop :=
| inv_first : inv (Cfg 1 (TWait :: TStart "bloommgr" :: after_mgr) [] [] [] false)
| inv_start_mgr : inv (Cfg 0 (TStart "bloommgr" :: after_mgr) [] [] [] false)
| inv_mgr0 log : no_server log -> inv (Cfg 0 after_mgr mgr_body [] log false)
| inv_mgr1 log : no_server log -> "ring built"%string ∈ log -> mgr_body <> [TAbort] -> inv (Cfg 0 after_mgr [TPost] [] log false)
| inv_built log : replicate = true -> no_server log -> "ring built"%string ∈ log -> mgr_body <> [TAbort] ->
    inv (Cfg 1 (TWait :: TStart "syncmgr" :: ready_to_serve) [] [] log false)
| inv_start_sync log : replicate = true -> no_server log -> "ring built"%string ∈ log -> mgr_body <> [TAbort] ->
    inv (Cfg 0 (TStart "syncmgr" :: ready_to_serve) [] [] log false)
| inv_sync0 log : replicate = true -> no_server log -> "ring built"%string ∈ log -> mgr_body <> [TAbort] ->
    inv (Cfg 0 ready_to_serve [] sync_body log false)
| inv_gave_up log : replicate = true -> no_server log -> "syncmgr gave up"%string ∈ log -> sync_body = [TDo "syncmgr gave up"] ->
    inv (Cfg 0 ready_to_serve [] [] log false)
| inv_sync1 log l : no_server log -> in_sync log -> hold false l = Some false ->
    inv (Cfg 0 ready_to_serve [] (TPost :: l) log false)
| inv_waits log l h : no_server log -> in_sync log -> hold h l = Some false ->
    inv (Cfg (if h then 0 else 1) ready_to_serve [] l log false)
| inv_passed log l : no_server log -> in_sync log -> hold false l = Some false ->
    inv (Cfg 0 (TPost :: sv) [] l log false)
| inv_serves log l h m : in_sync log -> hold h l = Some false -> Forall server_start m ->
    inv (Cfg (if h then 0 else 1) m [] l log false)
| inv_aborted z m b l log : (no_server log \/ in_sync log) -> inv (Cfg z m b l log true).

Lemma hold_next h a l z m b log c' :
  hold h (a :: l) = Some false -> exec mgr_body sync_body a (Cfg z m b l log false) = Some c' ->
  z = (if h then 0 else 1) ->
  (exists h' : bool, c' = Cfg (if h' then 0 else 1) m b l log false /\ hold h' l = Some false) \/ c' = Cfg z m b l log true.
Proof.
  intros Hh He ->. destruct a; cbn in Hh; try done.
  - destruct h; [done|]. cbn in He. injection He as <-. left. by exists true.
  - destruct h; [|done]. cbn in He. injection He as <-. left. by exists false.
  - cbn in He. injection He as <-. by right.
Qed.

Lemma in_sync_more log n : in_sync log -> in_sync (n :: log).
Proof. intros [[H1 H3] H2]. split; [split; [by right | done]|]. intros R. destruct (H2 R). split; [by right | done]. Qed.

Lemma inv_step c c' : inv c -> step mgr_body sync_body c c' -> inv c'.
Proof.
  intros Hi [t Ht]. unfold run_thread in Ht.
  destruct Hi as [ | |log Hn|log Hn Hr Hm0|log R Hn Hr Hm0|log R Hn Hr Hm0|log R Hn Hr Hm0|log R Hn Hg Hm0|log l Hn Hs Hl
    |log l h Hn Hs Hl|log l Hn Hs Hl|log l h m Hs Hl Hm|z m b l log Hsafe]; [..|done]; cbn [c_aborted] in Ht.
  - destruct t; cbn in Ht; [|done|done]. injection Ht as <-. constructor.
  - destruct t; cbn in Ht; [|done|done]. injection Ht as <-. apply inv_mgr0. by repeat constructor.
  - destruct t; [destruct replicate; done| |done]. cbn [todo set_todo c_mgr] in Ht.
    destruct mgr_shape as [E|E]; rewrite E in Ht; cbn in Ht; injection Ht as <-.
    + apply inv_aborted. by left.
    + apply inv_mgr1; [by constructor | left | by rewrite E].
  - destruct t; [|cbn in Ht; injection Ht as <-|done].
    + destruct replicate; done.
    + destruct replicate eqn:Er; [by apply (inv_built log)|].
      apply (inv_waits log [] false); [done | split; [done | congruence] | done].
  - destruct t; cbn in Ht; [|done|done]. injection Ht as <-. by apply inv_start_sync.
  - destruct t; cbn in Ht; [|done|done]. injection Ht as <-. apply inv_sync0; [done | by constructor | by right | done].
  - destruct t; [done|done|]. cbn [todo set_todo c_sync] in Ht. destruct sync_shape as [E|[E|(l & E & Hl)]]; rewrite E in Ht;
      cbn in Ht; injection Ht as <-.
    + apply inv_aborted. by left.
    + apply inv_gave_up; [done | by constructor | left | done].
    + apply inv_sync1; [by constructor| |done]. split; [split; [by right | done]|]. intros _. split; [by left | by eexists].
  - destruct t; done.
  - destruct t; [done|done|]. cbn in Ht. injection Ht as <-. by apply (inv_waits log l false).
  - destruct t; [|done|].
    + destruct h; [done|]. cbn in Ht. injection Ht as <-. by apply inv_passed.
    + cbn [todo set_todo c_sync] in Ht. destruct l as [|a l]; [done|].
      destruct (hold_next h a l _ _ _ _ _ Hl Ht eq_refl) as [(h' & -> & Hh')| ->]; [by apply inv_waits|].
      apply inv_aborted. by left.
  - destruct t; [|done|].
    + cbn in Ht. injection Ht as <-. by apply (inv_serves log l false).
    + cbn [todo set_todo c_sync] in Ht. destruct l as [|a l]; [done|].
      destruct a; cbn in Ht, Hl; try done. injection Ht as <-. apply inv_aborted. by left.
  - destruct t; [|done|].
    + cbn [todo set_todo c_main] in Ht. destruct m as [|a m]; [done|]. apply Forall_cons_1 in Hm as [(n & -> & Hn) Hm].
      cbn in Ht. assert (n <> "bloommgr"%string /\ n <> "syncmgr"%string) as [H1 H2].
      { unfold is_server in Hn. apply bool_decide_eq_true in Hn. set_solver. }
      rewrite !bool_decide_eq_false_2 in Ht by done. injection Ht as <-. apply inv_serves; [by apply in_sync_more | done | done].
    + cbn [todo set_todo c_sync] in Ht. destruct l as [|a l]; [done|].
      destruct (hold_next h a l _ _ _ _ _ Hl Ht eq_refl) as [(h' & -> & Hh')| ->]; [by apply inv_serves|].
      apply inv_aborted. by right.
Qed.

Lemma inv_safe c n : inv c -> n ∈ c_log c -> is_server n = true -> in_sync (c_log c).
Proof.
  assert (forall log, no_server log -> n ∈ log -> is_server n = true -> in_sync log) as Hno.
  { intros log Hl Hin Hn. pose proof (proj1 (Forall_forall _ _) Hl n Hin) as E. cbn in E. congruence. }
  intros [ | | | | | | | | | | | |z m b l log [?|?]] Hin Hn; cbn [c_log] in *; eauto; by apply not_elem_of_nil in Hin.
Qed.

(** Somebody can go on, or [main] is through, or the synchroniser gave up. *)
Lemma inv_progress c : inv c ->
  c_aborted c = true \/ c_main c = [] \/ (exists c', step mgr_body sync_body c c') \/
  replicate = true /\ "syncmgr gave up"%string ∈ c_log c /\ sync_body = [TDo "syncmgr gave up"].
Proof.
  assert (forall t a l c c1, c_aborted c = false -> todo t c = a :: l -> exec mgr_body sync_body a (set_todo t l c) = Some c1 ->
    exists c', step mgr_body sync_body c c') as Hgo.
  { intros t a l c0 c1 Ha Ht He. exists c1, t. unfold run_thread. by rewrite Ha, Ht. }
  intros [ | |log Hn|log Hn Hr Hm0|log R Hn Hr Hm0|log R Hn Hr Hm0|log R Hn Hr Hm0|log R Hn Hg Hm0|log l Hn Hs Hl
    |log l h Hn Hs Hl|log l Hn Hs Hl|log l h m Hs Hl Hm|z m b l log Hsafe]; [..|by left]; right;
    try (right; left; by eapply (Hgo Main)); try (right; left; by eapply (Hgo Mgr)); try (right; left; by eapply (Hgo Syncer)).
  - right. left. destruct mgr_shape as [E|E]; (eapply (Hgo Mgr); [done | exact E | reflexivity]).
  - right. left. destruct sync_shape as [E|[E|(l & E & Hl)]]; (eapply (Hgo Syncer); [done | exact E | reflexivity]).
  - right. right. done.
  - right. left. destruct h; [|by eapply (Hgo Main)]. destruct l as [|[] l]; cbn in Hl; try done; by eapply (Hgo Syncer).
  - destruct m as [|a m]; [by left|]. right. left. apply Forall_cons_1 in Hm as [(n & -> & _) _]. by eapply (Hgo Main).
Qed.

End Run.

(** ** Every run ends *)

Definition cost (mgr_body sync_body : list tact) (a : tact) : nat :=
  match a with
  | TStart n => 1 + length mgr_body + length sync_body
  | _ => 1
  end.

Definition work (mgr_body sync_body : list tact) (c : cfg) : nat :=
  sum_list (cost mgr_body sync_body <$> c_main c) + sum_list (cost mgr_body sync_body <$> c_mgr c) + sum_list (cost mgr_body sync_body <$> c_sync c).

(** The threads that are started start none. *)
Definition starts_none (l : list tact) : Prop := Forall (fun a => forall n, a <> TStart n) l.

Lemma starts_none_cost mgr_body sync_body l : starts_none l -> sum_list (cost mgr_body sync_body <$> l) = length l.
Proof.
  induction 1 as [|a l Ha Hl IH]; [done|]. cbn. rewrite IH. destruct a as [| |n| |]; try done. by destruct (Ha n).
Qed.

Lemma sync_program_starts_none le mine ip e ts : starts_none (sync_program le mine ip e ts).
Proof.
  unfold sync_program, starts_none. rewrite !Forall_app. split_and!.
  - destruct (_ && _); by repeat constructor.
  - apply Forall_bind, Forall_true. intros a. destruct a; by repeat constructor.
  - destruct (_.2); by repeat constructor.
Qed.

Lemma bloommgr_starts_none {A} (built : Res A) : starts_none (bloommgr_start built).
Proof. destruct built; by repeat constructor. Qed.

Lemma syncmgr_starts_none l le mine ip e ts : starts_none (syncmgr l le mine ip e ts).
Proof. rewrite syncmgr_cases. destruct (listens l); [apply sync_program_starts_none | by repeat constructor]. Qed.

Lemma step_work mgr_body sync_body c c' :
  starts_none mgr_body -> starts_none sync_body -> step mgr_body sync_body c c' -> (work mgr_body sync_body c' < work mgr_body sync_body c)%nat.
Proof.
  intros Hmgr Hs [t Ht]. unfold run_thread in Ht. destruct (c_aborted c); [done|].
  destruct (todo t c) as [|a l] eqn:Et; [done|].
  assert (work mgr_body sync_body (set_todo t l c) + cost mgr_body sync_body a = work mgr_body sync_body c)%nat as Hw.
  { unfold work. destruct t; cbn in *; rewrite Et; cbn; lia. }
  assert (work mgr_body sync_body c' < work mgr_body sync_body (set_todo t l c) + cost mgr_body sync_body a)%nat; [|lia].
  set (c0 := set_todo t l c) in *. clearbody c0. destruct a; cbn [exec cost] in *.
  - destruct (0 <? sem c0); [|done]. injection Ht as <-. unfold work. cbn. lia.
  - injection Ht as <-. unfold work. cbn. lia.
  - injection Ht as <-. unfold work. cbn [c_main c_mgr c_sync].
    pose proof (starts_none_cost mgr_body sync_body sync_body Hs).
    pose proof (starts_none_cost mgr_body sync_body mgr_body Hmgr).
    destruct (bool_decide (name = "bloommgr"%string)), (bool_decide (name = "syncmgr"%string)); lia.
  - injection Ht as <-. unfold work. cbn. lia.
  - injection Ht as <-. unfold work. cbn. lia.
Qed.

(** ** Property *)

Lemma main_program_shape spf milter c :
  main_program spf milter c = TWait :: TStart "bloommgr" ::
    let rest := TWait :: TPost :: (start_servers spf milter c ≫= main_act) in
    if negb (has (flags c) FLG_NOREPLICATE) then TWait :: TStart "syncmgr" :: rest else rest.
Proof. unfold main_program, start_filters. by destruct (has (flags c) FLG_NOREPLICATE). Qed.


(** *** A run *)

Fixpoint run_schedule (mgr_body sync_body : list tact) (l : list tid) (c : cfg) : option cfg :=
  match l with
  | [] => Some c
  | t :: l => match run_thread mgr_body sync_body t c with Some c => run_schedule mgr_body sync_body l c | None => None end
  end.

Lemma run_schedule_steps mgr_body sync_body l c c' :
  run_schedule mgr_body sync_body l c = Some c' -> rtc (step mgr_body sync_body) c c'.
Proof.
  revert c. induction l as [|t l IH]; intros c Hr; cbn in Hr; [by injection Hr as ->|].
  destruct (run_thread mgr_body sync_body t c) as [c1|] eqn:E; [|done].
  eapply rtc_l; [by exists t | by apply IH].
Qed.

(** A server with a peer, two DNS lists and the postfix protocol. *)
Definition demo_gross : gross_config_t :=
  let h := Sockaddr [127; 0; 0; 1] [21; 149] in
  GrossConfig h h h (Some h) 3600 300 5 2 None GLOG_INFO LOG_MAIL STATS_NONE 0 (Z.lor CHECK_DNSBL CHECK_DNSWL) 24 64
    PROTO_POSTFIX 60 GREY_TUPLE_USER (PostfixConfig [] []) ([], [], [], []) None 1 5000 1 0 10 None None None None [] [] [] [].

Definition demo_sync (lenv : listen_env) : list tact :=
  syncmgr lenv true (SyncConfig 5 1) [10; 0; 0; 1] (SyncEnv 5 true true false []) demo_turns.

Definition demo_mgr : list tact := bloommgr_start (build_bloom_ring true (InMemory (fun _ => 7)) 4096 0 2 5).

Definition demo_run : list tid :=
  [Main; Main; Mgr; Mgr; Main; Main; Syncer; Syncer; Syncer; Syncer; Main; Main; Main; Main; Main; Main; Main].


(** A synchroniser that cannot listen leaves [main] waiting for the guard: the
    address is in use, and no server is ever started. *)
Example syncmgr_gives_up :
  exists cf, rtc (step demo_mgr (demo_sync (ListenEnv true true false true))) (start false false demo_gross) cf /\
    c_aborted cf = false /\ c_main cf <> [] /\ c_log cf = ["syncmgr gave up"; "syncmgr"; "ring built"; "bloommgr"]%string /\
    forall cf', ~ step demo_mgr (demo_sync (ListenEnv true true false true)) cf cf'.
Proof.
  set (sync := demo_sync (ListenEnv true true false true)).
  destruct (run_schedule demo_mgr sync [Main; Main; Mgr; Mgr; Main; Main; Syncer] (start false false demo_gross)) as [cf|] eqn:E;
    [|vm_compute in E; discriminate E].
  pose proof (run_schedule_steps _ _ _ _ _ E) as Hr. exists cf. split; [exact Hr|]. vm_compute in E. injection E as <-.
  split_and!; [done | done | done |]. intros cf' [[] Ht]; done.
Qed.
