(* ===== verification/MsgQueueTest.v ===== *)
(** * The test of the message queues ([src/src/msgqueue-test.c])

    Threads stand in a ring, a queue between each group and the next, and pass
    "chain letters" on: a thread takes a letter from its queue, reads the number
    it points to, adds one, writes it back and puts the letter in the next
    queue.  Reading and writing are separate steps, so a letter that two threads
    had at once would lose a count.  The queues are those that [MsgQueue] refines
    to.  A wait may reach its limit of ten seconds, which ends the thread that
    waits; then the counts are still right, but too few. *)

From S2P Require Import Prelude Utils MsgQueue.

Definition LOOPSIZE : nat := 100.
Definition QUEUES : nat := 8.
Definition BALLS : nat := 16 * QUEUES.
Definition QUEUEPAIRS : nat := 8 * QUEUES.
Definition THREADS : nat := 8 * QUEUEPAIRS.

(** [POut]: the label [OUT], reached by a timeout. *)
Inductive pc := PGet | PRead (counter : nat) | PStore (counter : nat) (tmp : Z) | PPut (counter : nat) | POut.

#[export] Instance pc_eq_dec : EqDecision pc.
Proof. solve_decision. Defined.

(** A thread: the number of its queue pair, the turns of its loop made, and
    where in a turn it is. *)
Record thread := Thread { t_pair : nat; t_i : nat; t_pc : pc }.

(** The queues, the numbers, the threads, and the letters [main] has still to
    put in the queues. *)
Record test := Test { x_queues : aqs nat; x_balls : list Z; x_threads : list thread; x_serve : list nat }.

Definition inq (pair : nat) : nat := pair mod QUEUES.
Definition outq (pair : nat) : nat := (pair + 1) mod QUEUES.

Definition now0 : timespec := Timespec 0 0.

(** ** Steps *)

Definition set_thread (s : test) (i : nat) (t : thread) : test :=
  Test (x_queues s) (x_balls s) (<[i := t]> (x_threads s)) (x_serve s).
Definition set_q (s : test) (q : aqs nat) : test := Test q (x_balls s) (x_threads s) (x_serve s).

(** A step of the thread, if it can make one: it is not waiting, and its loop is
    not over.  [expired]: the wait for a letter has reached its limit, which
    ends it although a letter may have come since. *)
Definition msgqueueping (expired : bool) (t : thread) (s : test) : option (thread * test) :=
  match t_pc t with
  | PGet =>
      if (t_i t <? LOOPSIZE)%nat then
        if expired then Some (Thread (t_pair t) (t_i t) POut, s)
        else match a_qstep (x_queues s) (QGet (inq (t_pair t)) 1) with
        | Some (AnMsg _ [b], q) => Some (Thread (t_pair t) (t_i t) (PRead b), set_q s q)
        | _ => None
        end
      else None
  | PRead b =>
      match x_balls s !! b with
      | Some c => Some (Thread (t_pair t) (t_i t) (PStore b (c + 1)), s)
      | None => None
      end
  | PStore b tmp =>
      Some (Thread (t_pair t) (t_i t) (PPut b), Test (x_queues s) (<[b := tmp]> (x_balls s)) (x_threads s) (x_serve s))
  | PPut b =>
      match a_qstep (x_queues s) (QPut (outq (t_pair t)) now0 [b]) with
      | Some (_, q) => Some (Thread (t_pair t) (S (t_i t)) PGet, set_q s q)
      | None => None
      end
  | POut => None
  end.

(** [main] serves a letter. *)
Definition serve (s : test) : option test :=
  match x_serve s with
  | [] => None
  | b :: l =>
      match a_qstep (x_queues s) (QPut (b mod QUEUES) now0 [b]) with
      | Some (_, q) => Some (Test q (x_balls s) (x_threads s) l)
      | None => None
      end
  end.

Inductive step : test -> test -> Prop :=
| step_main s s' : serve s = Some s' -> step s s'
| step_thread s i t expired t' s' :
    x_threads s !! i = Some t -> msgqueueping expired t s = Some (t', s') -> step s (set_thread s' i t').

(** [main] up to the start of the threads. *)
Fixpoint get_queues (n : nat) (q : aqs nat) : aqs nat :=
  match n with
  | O => q
  | S n => match a_qstep q QNew with Some (_, q) => get_queues n q | None => q end
  end.

Definition start : test :=
  Test (get_queues QUEUES aqs0) (replicate BALLS 0)
    ((fun i => Thread (i mod QUEUEPAIRS) 0 PGet) <$> seq 0 THREADS) (seq 0 BALLS).

(** What [main] returns when the threads have ended. *)
Definition verdict (s : test) : Z :=
  if foldr Z.add 0 (x_balls s) =? Z.of_nat (LOOPSIZE * THREADS) then 0 else 3.

(** ** Sums and places *)

Lemma sumZ_insert (l : list Z) i x y :
  l !! i = Some x -> foldr Z.add 0 (<[i := y]> l) + x = foldr Z.add 0 l + y.
Proof.
  revert i. induction l as [|z l IH]; intros [|i] H; simpl in *; simplify_eq; [lia|]. specialize (IH _ H). lia.
Qed.

Lemma bind_insert {A B} (f : A -> list B) (l : list A) i x y :
  l !! i = Some x -> exists r, l ≫= f ≡ₚ f x ++ r /\ <[i := y]> l ≫= f ≡ₚ f y ++ r.
Proof.
  revert i. induction l as [|z l IH]; intros [|i] H; simpl in *; simplify_eq; [by eexists|].
  destruct (IH _ H) as (r & E1 & E2). exists (f z ++ r). rewrite E1, E2. split; solve_Permutation.
Qed.

Lemma bind_seq {B} (f g : nat -> list B) n q :
  (q < n)%nat -> (forall j, j <> q -> f j = g j) ->
  exists r, seq 0 n ≫= f ≡ₚ f q ++ r /\ seq 0 n ≫= g ≡ₚ g q ++ r.
Proof.
  intros Hq Hfg. replace n with (q + S (n - q - 1))%nat by lia. rewrite seq_app. cbn [seq].
  exists ((seq 0 q ≫= f) ++ (seq (S (0 + q)) (n - q - 1) ≫= f)). rewrite !bind_app. cbn. split; [solve_Permutation|].
  assert (forall k m, (q < k \/ k + m <= q)%nat -> seq k m ≫= f = seq k m ≫= g) as Hs.
  { intros k m. revert k. induction m as [|m IH]; intros k Hk; [done|]. cbn. rewrite Hfg by lia. f_equal. apply IH. lia. }
  rewrite (Hs 0%nat q), (Hs (S q) (n - q - 1)%nat) by lia. solve_Permutation.
Qed.

(** The letters in a queue. *)
Definition letters (s : test) (q : nat) : list nat := concat (default [] (live (x_queues s) !! q)).

Definition single (b : nat) : list nat := [b].

Lemma concat_single l : concat (single <$> l) = l.
Proof. induction l as [|b l IH]; cbn; [done|]. by rewrite IH. Qed.

Definition held (t : thread) : list nat :=
  match t_pc t with PGet | POut => [] | PRead b | PStore b _ | PPut b => [b] end.

Definition places (s : test) : list nat := x_serve s ++ (seq 0 QUEUES ≫= letters s) ++ (x_threads s ≫= held).

(** What a thread has added to the numbers, taken from queue [q] and put in it. *)
Definition written (t : thread) : nat := match t_pc t with PPut _ => S (t_i t) | _ => t_i t end.
Definition taken (q : nat) (t : thread) : nat :=
  if (inq (t_pair t) =? q)%nat then match t_pc t with PGet | POut => t_i t | _ => S (t_i t) end else 0.
Definition passed (q : nat) (t : thread) : nat := if (outq (t_pair t) =? q)%nat then t_i t else 0.
Definition to_serve (q b : nat) : nat := if (b mod QUEUES =? q)%nat then 1 else 0.

Record good (s : test) : Prop := {
  g_live : forall q, (q < QUEUES)%nat -> live (x_queues s) !! q = Some (single <$> letters s q);
  g_own : NoDup (places s);
  g_ball : Forall (fun b => b < length (x_balls s))%nat (places s);
  g_tmp : forall i t b tmp, x_threads s !! i = Some t -> t_pc t = PStore b tmp -> x_balls s !! b = Some (tmp - 1);
  g_sum : foldr Z.add 0 (x_balls s) = Z.of_nat (sum_list_with written (x_threads s));
  g_loop : Forall (fun t => t_i t <= LOOPSIZE /\ (t_pc t <> PGet -> t_i t < LOOPSIZE))%nat (x_threads s);
  g_flow : forall q, (q < QUEUES)%nat ->
    (length (letters s q) + sum_list_with (taken q) (x_threads s) + sum_list_with (to_serve q) (x_serve s) =
     16 + sum_list_with (passed q) (x_threads s))%nat;
  g_pairs : t_pair <$> x_threads s = (fun i => i mod QUEUEPAIRS)%nat <$> seq 0 THREADS }.

Lemma letters_insert s q l j :
  letters (set_q s (Aqs (<[q := single <$> l]> (live (x_queues s))) (free (x_queues s)) (count (x_queues s)))) j =
    if decide (j = q) then l else letters s j.
Proof.
  unfold letters. cbn. case_decide as Hj; [subst; rewrite lookup_insert_eq; apply concat_single | by rewrite lookup_insert_ne].
Qed.

(** A step moves one letter between the letters to be served, one queue and one
    thread. *)
Lemma good_step s s' i t t' q :
  good s -> x_threads s !! i = Some t -> x_threads s' = <[i := t']> (x_threads s) -> t_pair t' = t_pair t ->
  (q < QUEUES)%nat ->
  (forall j, live (x_queues s') !! j = if decide (j = q) then Some (single <$> letters s' q) else live (x_queues s) !! j) ->
  x_serve s' ++ letters s' q ++ held t' ≡ₚ x_serve s ++ letters s q ++ held t ->
  length (x_balls s') = length (x_balls s) ->
  (forall k u b tmp, x_threads s' !! k = Some u -> t_pc u = PStore b tmp -> x_balls s' !! b = Some (tmp - 1)) ->
  foldr Z.add 0 (x_balls s') + Z.of_nat (written t) = foldr Z.add 0 (x_balls s) + Z.of_nat (written t') ->
  (t_i t' <= LOOPSIZE)%nat -> (t_pc t' <> PGet -> (t_i t' < LOOPSIZE)%nat) ->
  (forall j, (j < QUEUES)%nat ->
    (length (letters s' j) + taken j t' + passed j t + sum_list_with (to_serve j) (x_serve s') =
     length (letters s j) + taken j t + passed j t' + sum_list_with (to_serve j) (x_serve s))%nat) ->
  good s'.
Proof.
  intros G Ht Hts Hpair Hq Hlive Hp Hlen Htmp Hsum Hl1 Hl2 Hflow.
  assert (forall j, j <> q -> letters s' j = letters s j) as Hne by (intros j Hj; unfold letters; by rewrite Hlive, decide_False).
  assert (places s' ≡ₚ places s) as Hpl.
  { unfold places. destruct (bind_seq (letters s') (letters s) QUEUES q Hq Hne) as (r & E1 & E2).
    destruct (bind_insert held (x_threads s) i t t' Ht) as (r' & E3 & E4). rewrite Hts, E1, E2, E3, E4.
    transitivity ((x_serve s' ++ letters s' q ++ held t') ++ r ++ r'); [solve_Permutation|]. rewrite Hp. solve_Permutation. }
  constructor.
  - intros j Hj. rewrite Hlive. case_decide as Hjq; [by subst|]. rewrite (g_live s G j Hj). unfold letters at 2.
    rewrite Hlive, decide_False, (g_live s G j Hj) by done. cbn. by rewrite concat_single.
  - rewrite Hpl. apply (g_own s G).
  - rewrite Hpl, Hlen. apply (g_ball s G).
  - exact Htmp.
  - pose proof (sum_insert written (x_threads s) i t t' Ht) as Hw. rewrite <-Hts in Hw. pose proof (g_sum s G). lia.
  - rewrite Hts. apply Forall_insert; [apply (g_loop s G) | done].
  - intros j Hj. specialize (Hflow j Hj). pose proof (g_flow s G j Hj) as Hf.
    pose proof (sum_insert (taken j) (x_threads s) i t t' Ht) as H1. pose proof (sum_insert (passed j) (x_threads s) i t t' Ht) as H2.
    rewrite <-Hts in H1, H2. lia.
  - rewrite <-(g_pairs s G), Hts, list_fmap_insert, Hpair. apply list_insert_id. by rewrite list_lookup_fmap, Ht.
Qed.

Lemma put_effect s q b :
  good s -> (q < QUEUES)%nat ->
  a_qstep (x_queues s) (QPut q now0 [b]) =
    Some (AnInt 0, Aqs (<[q := single <$> (letters s q ++ [b])]> (live (x_queues s))) (free (x_queues s)) (count (x_queues s))).
Proof. intros G Hq. cbn. rewrite (g_live s G q Hq), fmap_app. done. Qed.

Lemma get_effect s q :
  good s -> (q < QUEUES)%nat ->
  a_qstep (x_queues s) (QGet q 1) =
    match letters s q with
    | [] => None
    | b :: l => Some (AnMsg 1 [b], Aqs (<[q := single <$> l]> (live (x_queues s))) (free (x_queues s)) (count (x_queues s)))
    end.
Proof. intros G Hq. cbn. rewrite (g_live s G q Hq). by destruct (letters s q). Qed.

Lemma inq_lt p : (inq p < QUEUES)%nat.
Proof. apply Nat.mod_upper_bound. done. Qed.
Lemma outq_lt p : (outq p < QUEUES)%nat.
Proof. apply Nat.mod_upper_bound. done. Qed.

Lemma held_in s i t b : x_threads s !! i = Some t -> b ∈ held t -> b ∈ places s.
Proof.
  intros Ht Hb. unfold places. rewrite !elem_of_app. right; right. apply list_elem_of_bind. exists t. split; [done|].
  by eapply list_elem_of_lookup_2.
Qed.

(** Two threads do not have the same letter. *)
Lemma held_apart s i j t u b :
  good s -> x_threads s !! i = Some t -> x_threads s !! j = Some u -> b ∈ held t -> b ∈ held u -> i = j.
Proof.
  intros G Ht Hu Hbt Hbu. destruct (decide (i = j)) as [|Hij]; [done|]. exfalso.
  destruct (bind_insert held (x_threads s) i t (Thread 0 0 PGet) Ht) as (r & E1 & E2).
  assert (b ∈ r) as Hr.
  { assert (b ∈ <[i := Thread 0 0 PGet]> (x_threads s) ≫= held) as Hb.
    { apply list_elem_of_bind. exists u. split; [done|]. apply list_elem_of_lookup. exists j. by rewrite list_lookup_insert_ne. }
    by rewrite E2 in Hb. }
  pose proof (g_own s G) as Hn. unfold places in Hn. apply NoDup_app in Hn as (_ & _ & Hn). apply NoDup_app in Hn as (_ & _ & Hn).
  rewrite E1 in Hn. apply NoDup_app in Hn as (_ & Hn & _). by apply (Hn b).
Qed.

(** ** Every step keeps it *)

Lemma live_set s q l j :
  live (Aqs (<[q := single <$> l]> (live (x_queues s))) (free (x_queues s)) (count (x_queues s))) !! j =
    if decide (j = q) then Some (single <$> l) else live (x_queues s) !! j.
Proof. cbn. case_decide as Hj; [subst; by rewrite lookup_insert_eq | by rewrite lookup_insert_ne]. Qed.

(** In a state with other queues, numbers and threads. *)
Lemma letters_set s q l bs ts sv j :
  letters (Test (Aqs (<[q := single <$> l]> (live (x_queues s))) (free (x_queues s)) (count (x_queues s))) bs ts sv) j =
    if decide (j = q) then l else letters s j.
Proof. exact (letters_insert s q l j). Qed.

(** No thread but those of before stores. *)
Lemma tmp_kept s i t' (bs : list Z) :
  good s -> (forall b tmp, t_pc t' = PStore b tmp -> bs !! b = Some (tmp - 1)) ->
  (forall k u b tmp, k <> i -> x_threads s !! k = Some u -> t_pc u = PStore b tmp -> bs !! b = x_balls s !! b) ->
  forall k u b tmp, <[i := t']> (x_threads s) !! k = Some u -> t_pc u = PStore b tmp -> bs !! b = Some (tmp - 1).
Proof.
  intros G Hi Hk k u b tmp Hu Hpc. apply list_lookup_insert_Some in Hu as [(-> & -> & _)|[Hne Hu]]; [by apply Hi|].
  rewrite (Hk k u b tmp) by done. by apply (g_tmp s G k u).
Qed.

Lemma step_get s i t b l :
  good s -> x_threads s !! i = Some t -> t_pc t = PGet -> (t_i t < LOOPSIZE)%nat -> letters s (inq (t_pair t)) = b :: l ->
  good (Test (Aqs (<[inq (t_pair t) := single <$> l]> (live (x_queues s))) (free (x_queues s)) (count (x_queues s)))
    (x_balls s) (<[i := Thread (t_pair t) (t_i t) (PRead b)]> (x_threads s)) (x_serve s)).
Proof.
  intros G Ht Hpc Hi Hl. apply (good_step s _ i t (Thread (t_pair t) (t_i t) (PRead b)) (inq (t_pair t))); cbn [x_threads x_balls x_serve t_i t_pc t_pair];
    try done; [apply inq_lt | | | | | lia |].
  - intros j. cbn [x_queues]. rewrite live_set. case_decide as Hj; [|done]. rewrite letters_set, decide_True by done. done.
  - rewrite letters_set, decide_True, Hl by done. unfold held. cbn [t_pc]. rewrite Hpc. solve_Permutation.
  - by apply (tmp_kept s i).
  - unfold written. by rewrite Hpc.
  - intros j Hj. rewrite letters_set. unfold taken, passed. cbn [t_pair t_pc t_i]. rewrite Hpc.
    case_decide as Hjq; [subst j; rewrite Hl, Nat.eqb_refl; cbn [length]; lia|].
    destruct (Nat.eqb_spec (inq (t_pair t)) j); [congruence | lia].
Qed.

Lemma step_read s i t b c :
  good s -> x_threads s !! i = Some t -> t_pc t = PRead b -> x_balls s !! b = Some c ->
  good (set_thread s i (Thread (t_pair t) (t_i t) (PStore b (c + 1)))).
Proof.
  intros G Ht Hpc Hb. pose proof (g_loop s G) as Hl. rewrite Forall_lookup in Hl. destruct (Hl i t Ht) as [Hl1 Hl2].
  apply (good_step s _ i t (Thread (t_pair t) (t_i t) (PStore b (c + 1))) 0%nat); cbn [x_threads x_balls x_serve t_i t_pc t_pair set_thread];
    try done; [unfold QUEUES; lia | | | | | by rewrite Hpc in Hl2; intros _; apply Hl2 |].
  - intros j. unfold letters. cbn [x_queues set_thread]. case_decide as Hj; [|done]. subst j. rewrite (g_live s G 0%nat) by (unfold QUEUES; lia). cbn. by rewrite concat_single.
  - unfold held, letters. cbn [t_pc x_queues set_thread]. by rewrite Hpc.
  - apply (tmp_kept s i); [done| |done]. cbn. intros b' tmp [= <- <-]. rewrite Hb. f_equal. lia.
  - unfold written. by rewrite Hpc.
  - intros j Hj. unfold taken, passed. cbn [t_pair t_pc t_i]. rewrite Hpc. unfold letters. cbn [x_queues set_thread]. lia.
Qed.

Lemma step_store s i t b tmp :
  good s -> x_threads s !! i = Some t -> t_pc t = PStore b tmp ->
  good (Test (x_queues s) (<[b := tmp]> (x_balls s)) (<[i := Thread (t_pair t) (t_i t) (PPut b)]> (x_threads s)) (x_serve s)).
Proof.
  intros G Ht Hpc. pose proof (g_loop s G) as Hl. rewrite Forall_lookup in Hl. destruct (Hl i t Ht) as [Hl1 Hl2].
  pose proof (g_tmp s G i t b tmp Ht Hpc) as Hb.
  apply (good_step s _ i t (Thread (t_pair t) (t_i t) (PPut b)) 0%nat); cbn [x_threads x_balls x_serve t_i t_pc t_pair];
    try done; [unfold QUEUES; lia | | | by rewrite length_insert | | | by rewrite Hpc in Hl2; intros _; apply Hl2 |].
  - intros j. unfold letters. cbn [x_queues set_thread]. case_decide as Hj; [|done]. subst j. rewrite (g_live s G 0%nat) by (unfold QUEUES; lia). cbn. by rewrite concat_single.
  - unfold held, letters. cbn [t_pc x_queues set_thread]. by rewrite Hpc.
  - apply (tmp_kept s i); [done | done |]. intros k u b' tmp' Hk Hu Hpcu. apply list_lookup_insert_ne. intros <-.
    apply Hk. symmetry. apply (held_apart s i k t u b G Ht Hu); unfold held; rewrite ?Hpc, ?Hpcu; by left.
  - unfold written. cbn [t_pc t_i]. rewrite Hpc. pose proof (sumZ_insert (x_balls s) b (tmp - 1) tmp Hb). lia.
  - intros j Hj. unfold taken, passed. cbn [t_pair t_pc t_i]. rewrite Hpc. unfold letters. cbn [x_queues set_thread]. lia.
Qed.

Lemma step_put s i t b :
  good s -> x_threads s !! i = Some t -> t_pc t = PPut b ->
  let q := outq (t_pair t) in
  good (Test (Aqs (<[q := single <$> (letters s q ++ [b])]> (live (x_queues s))) (free (x_queues s)) (count (x_queues s)))
    (x_balls s) (<[i := Thread (t_pair t) (S (t_i t)) PGet]> (x_threads s)) (x_serve s)).
Proof.
  intros G Ht Hpc q. pose proof (g_loop s G) as Hl. rewrite Forall_lookup in Hl. destruct (Hl i t Ht) as [Hl1 Hl2].
  rewrite Hpc in Hl2. specialize (Hl2 ltac:(done)).
  apply (good_step s _ i t (Thread (t_pair t) (S (t_i t)) PGet) q); cbn [x_threads x_balls x_serve t_i t_pc t_pair];
    try done; [apply outq_lt | | | | |].
  - intros j. cbn [x_queues]. rewrite live_set. case_decide as Hj; [|done]. rewrite letters_set, decide_True by done. done.
  - rewrite letters_set, decide_True by done. unfold held. cbn [t_pc]. rewrite Hpc, app_nil_r. done.
  - by apply (tmp_kept s i).
  - unfold written. cbn [t_pc t_i]. by rewrite Hpc.
  - intros j Hj. rewrite letters_set. unfold taken, passed. cbn [t_pair t_pc t_i]. rewrite Hpc. fold q.
    case_decide as Hjq; [subst j; rewrite Nat.eqb_refl, length_app; cbn [length]; lia|].
    destruct (Nat.eqb_spec q j); [congruence | lia].
Qed.

Lemma step_out s i t :
  good s -> x_threads s !! i = Some t -> t_pc t = PGet -> (t_i t < LOOPSIZE)%nat ->
  good (set_thread s i (Thread (t_pair t) (t_i t) POut)).
Proof.
  intros G Ht Hpc Hi. apply (good_step s _ i t (Thread (t_pair t) (t_i t) POut) 0%nat); cbn [x_threads x_balls x_serve t_i t_pc t_pair set_thread];
    try done; [unfold QUEUES; lia | | | | | lia |].
  - intros j. unfold letters. cbn [x_queues set_thread]. case_decide as Hj; [|done]. subst j. rewrite (g_live s G 0%nat) by (unfold QUEUES; lia). cbn. by rewrite concat_single.
  - unfold held, letters. cbn [t_pc x_queues set_thread]. by rewrite Hpc.
  - by apply (tmp_kept s i).
  - unfold written. by rewrite Hpc.
  - intros j Hj. unfold taken, passed. cbn [t_pair t_pc t_i]. rewrite Hpc. unfold letters. cbn [x_queues set_thread]. lia.
Qed.

Lemma thread0 s : good s -> exists t, x_threads s !! 0%nat = Some t.
Proof.
  intros G. pose proof (f_equal length (g_pairs s G)) as Hl. rewrite !length_fmap, length_seq in Hl.
  apply lookup_lt_is_Some_2. rewrite Hl. unfold THREADS, QUEUEPAIRS, QUEUES. lia.
Qed.

Lemma step_serve s b l :
  good s -> x_serve s = b :: l ->
  let q := (b mod QUEUES)%nat in
  good (Test (Aqs (<[q := single <$> (letters s q ++ [b])]> (live (x_queues s))) (free (x_queues s)) (count (x_queues s)))
    (x_balls s) (x_threads s) l).
Proof.
  intros G Hsv q. destruct (thread0 s G) as [t Ht]. pose proof (g_loop s G) as Hl. rewrite Forall_lookup in Hl.
  destruct (Hl 0%nat t Ht) as [Hl1 Hl2].
  apply (good_step s _ 0%nat t t q); cbn [x_threads x_balls x_serve]; try done;
    [by rewrite list_insert_id | by apply Nat.mod_upper_bound | | | apply (g_tmp s G) |].
  - intros j. cbn [x_queues]. rewrite live_set. case_decide as Hj; [|done]. rewrite letters_set, decide_True by done. done.
  - rewrite letters_set, decide_True, Hsv by done. solve_Permutation.
  - intros j Hj. rewrite letters_set, Hsv. cbn [sum_list_with]. unfold to_serve at 2. fold q.
    case_decide as Hjq; [subst j; rewrite Nat.eqb_refl, length_app; cbn [length]; lia|].
    destruct (Nat.eqb_spec q j); [congruence | lia].
Qed.

Lemma good_kept s s' : good s -> step s s' -> good s'.
Proof.
  intros G Hs. revert G. destruct Hs as [s0 s1 E|s0 i t expired t' s1 Ht E]; intros G.
  - unfold serve in E. destruct (x_serve s0) as [|b l] eqn:Es; [done|].
    rewrite put_effect in E by (done || by apply Nat.mod_upper_bound). injection E as <-. by apply step_serve.
  - unfold msgqueueping in E. destruct (t_pc t) as [|b|b tmp|b|] eqn:Epc; [| | | |done].
    + destruct (Nat.ltb_spec (t_i t) LOOPSIZE) as [Hi|Hi]; [|done].
      destruct expired; [injection E as <- <-; by apply step_out|]. rewrite get_effect in E by (done || apply inq_lt).
      destruct (letters s0 (inq (t_pair t))) as [|b l] eqn:El; [done|]. injection E as <- <-.
      by apply (step_get s0 i t b l).
    + destruct (x_balls s0 !! b) as [c|] eqn:Eb; [|done]. injection E as <- <-. by apply step_read.
    + injection E as <- <-. by apply (step_store s0 i t b tmp).
    + rewrite put_effect in E by (done || apply outq_lt). injection E as <- <-. by apply (step_put s0 i t b).
Qed.

(** ** The start *)

Lemma start_live q : (q < QUEUES)%nat -> live (x_queues start) !! q = Some [].
Proof.
  intros Hq. unfold QUEUES in Hq. do 8 (destruct q as [|q]; [reflexivity|]). lia.
Qed.

Lemma start_threads (P : thread -> Prop) : (forall p, P (Thread p 0 PGet)) -> Forall P (x_threads start).
Proof. intros Hp. cbn [start x_threads]. apply Forall_fmap, Forall_forall. intros i _. apply Hp. Qed.

Lemma good_start : good start.
Proof.
  assert (forall q, (q < QUEUES)%nat -> letters start q = []) as Hl by (intros q Hq; unfold letters; by rewrite start_live).
  assert (places start = seq 0 BALLS) as Hp.
  { unfold places. assert (seq 0 QUEUES ≫= letters start = []) as ->.
    { assert (forall n k, (k + n <= QUEUES)%nat -> seq k n ≫= letters start = []) as Hs; [|by apply Hs].
      induction n as [|n IH]; intros k Hk; [done|]. cbn. rewrite Hl by lia. apply IH. lia. }
    assert (x_threads start ≫= held = []) as ->; [|by rewrite !app_nil_r].
    pose proof (start_threads (fun t => held t = []) ltac:(done)) as Hh. induction Hh as [|t l Ht _ IH]; [done|]. cbn. by rewrite Ht, IH. }
  constructor.
  - intros q Hq. rewrite start_live, Hl by done. done.
  - rewrite Hp. apply NoDup_seq.
  - rewrite Hp. cbn [start x_balls]. rewrite length_replicate. apply Forall_forall. intros b Hb. apply elem_of_seq in Hb. lia.
  - intros i t b tmp Ht Hpc. pose proof (start_threads (fun t => t_pc t = PGet) ltac:(done)) as Hg.
    rewrite Forall_lookup in Hg. specialize (Hg i t Ht). congruence.
  - rewrite sum_zero by (by apply start_threads). cbn [start x_balls]. generalize BALLS. induction n as [|n IH]; [done|]. cbn. by rewrite IH.
  - apply start_threads. cbn. intros _. split; [lia | done].
  - intros q Hq. rewrite Hl by done. rewrite (sum_zero (taken q)), (sum_zero (passed q)); [|apply start_threads..].
    + cbn [start x_serve length Nat.add]. unfold QUEUES in Hq. do 8 (destruct q as [|q]; [vm_compute; reflexivity|]). lia.
    + intros p. unfold passed. cbn. by destruct (_ =? _)%nat.
    + intros p. unfold taken. cbn. by destruct (_ =? _)%nat.
  - cbn [start x_threads]. by rewrite <-list_fmap_compose.
Qed.

(** ** Progress *)

(** The test is over. *)
Definition ended (s : test) : Prop :=
  x_serve s = [] /\ Forall (fun t => t_pc t = PGet /\ t_i t = LOOPSIZE) (x_threads s).

Definition member (q : nat) (t : thread) : nat := if (inq (t_pair t) =? q)%nat then 1 else 0.

Lemma members q s : good s -> (q < QUEUES)%nat -> sum_list_with (member q) (x_threads s) = 64%nat.
Proof.
  intros G Hq.
  assert (sum_list_with (member q) (x_threads s) = sum_list_with (fun p => if (inq p =? q)%nat then 1%nat else 0%nat) (t_pair <$> x_threads s)) as ->.
  { generalize (x_threads s). induction l as [|t l IH]; [done|]. cbn [sum_list_with fmap list_fmap]. by rewrite IH. }
  rewrite (g_pairs s G). unfold QUEUES in Hq. do 8 (destruct q as [|q]; [vm_compute; reflexivity|]). lia.
Qed.

Lemma not_or (A B : Prop) : ~ (A \/ B) -> ~ A /\ ~ B.
Proof. tauto. Qed.

(** The turns a group of threads has made. *)
Lemma group_turns q (l : list thread) :
  Forall (fun t => t_i t <= LOOPSIZE /\ t_pc t = PGet)%nat l ->
  (sum_list_with (taken q) l <= LOOPSIZE * sum_list_with (member q) l)%nat /\
  (Exists (fun t => inq (t_pair t) = q /\ t_i t < LOOPSIZE)%nat l ->
    sum_list_with (taken q) l < LOOPSIZE * sum_list_with (member q) l)%nat /\
  (~ Exists (fun t => inq (t_pair t) = q /\ t_i t < LOOPSIZE)%nat l ->
    sum_list_with (taken q) l = LOOPSIZE * sum_list_with (member q) l)%nat.
Proof.
  induction 1 as [|t l [Hi Hpc] _ (IH1 & IH2 & IH3)]; [split_and!; [done | by intros ?%Exists_nil | done]|].
  cbn [sum_list_with]. unfold taken at 1 3 5, member at 1 3 5. rewrite Hpc. rewrite Nat.mul_add_distr_l.
  destruct (Nat.eqb_spec (inq (t_pair t)) q) as [Hq|Hq]; split_and!; rewrite ?Exists_cons; [lia| | |lia| |].
  - intros [[_ Ht]|Ht]; [lia|]. specialize (IH2 Ht). lia.
  - intros [Hn1 Hn2]%not_or. specialize (IH3 Hn2). assert (~ (t_i t < LOOPSIZE)%nat) by tauto. lia.
  - intros [[? _]|Ht]; [done|]. specialize (IH2 Ht). lia.
  - intros [_ Hn2]%not_or. specialize (IH3 Hn2). lia.
Qed.

(** What a group puts in the next queue it has taken from its own. *)
Lemma passed_taken q (l : list thread) :
  (q < QUEUES)%nat -> Forall (fun t => t_i t <= LOOPSIZE /\ t_pc t = PGet)%nat l ->
  sum_list_with (passed ((q + 1) mod QUEUES)) l = sum_list_with (taken q) l.
Proof.
  intros Hq. induction 1 as [|t l [Hi Hpc] _ IH]; [done|]. cbn [sum_list_with]. rewrite IH. f_equal. unfold passed, taken. rewrite Hpc.
  assert (outq (t_pair t) = (inq (t_pair t) + 1) mod QUEUES)%nat as ->
    by (unfold outq, inq; by rewrite Nat.Div0.add_mod_idemp_l).
  pose proof (inq_lt (t_pair t)) as Hin. unfold QUEUES in *. generalize dependent (inq (t_pair t)). intros k Hk.
  destruct (Nat.eqb_spec k q) as [->|Hkq]; [by rewrite Nat.eqb_refl|].
  do 8 (destruct k as [|k]; [do 8 (destruct q as [|q]; [done|]); lia|]). lia.
Qed.

(** When every thread is at the start of a turn and nobody can take a letter, a
    group has made all its turns, or its queue is empty and it is a step behind
    the group before. *)
Lemma group_waits s q :
  good s -> x_serve s = [] -> Forall (fun t => t_pc t = PGet) (x_threads s) ->
  ~ Exists (fun t => t_i t < LOOPSIZE /\ letters s (inq (t_pair t)) <> [])%nat (x_threads s) ->
  (q < QUEUES)%nat ->
  let D (k : nat) := sum_list_with (taken k) (x_threads s) in
  (D ((q + 1) mod QUEUES) = LOOPSIZE * 64 \/ D ((q + 1) mod QUEUES) < LOOPSIZE * 64 /\ D ((q + 1) mod QUEUES) = 16 + D q)%nat.
Proof.
  intros G Hsv Hg Hw Hq D. set (q' := ((q + 1) mod QUEUES)%nat).
  assert (q' < QUEUES)%nat as Hq' by (by apply Nat.mod_upper_bound).
  assert (Forall (fun t => t_i t <= LOOPSIZE /\ t_pc t = PGet)%nat (x_threads s)) as Hl.
  { apply Forall_and; split; [|done]. eapply Forall_impl; [apply (g_loop s G)|]. by intros t [? _]. }
  pose proof (group_turns q' _ Hl) as (Hle & Hlt & Heq). rewrite members in Hle, Hlt, Heq by done.
  destruct (decide (Exists (fun t => inq (t_pair t) = q' /\ t_i t < LOOPSIZE)%nat (x_threads s))) as [He|He].
  - right. split; [by apply Hlt|]. pose proof (g_flow s G q' Hq') as Hf. rewrite Hsv in Hf. cbn [sum_list_with] in Hf.
    unfold q' in Hf at 3. rewrite passed_taken in Hf by done. unfold D.
    assert (letters s q' = []) as Hn; [|rewrite Hn in Hf; cbn [length] in Hf; lia].
    destruct (letters s q') eqn:El; [done|]. destruct Hw. apply Exists_exists in He as (t & Hin & Hi & Ht).
    apply Exists_exists. exists t. split; [done|]. rewrite Hi, El. done.
  - left. by apply Heq.
Qed.

(** The letters cannot all be stuck. *)
Lemma groups_done s :
  good s -> x_serve s = [] -> Forall (fun t => t_pc t = PGet) (x_threads s) ->
  ~ Exists (fun t => t_i t < LOOPSIZE /\ letters s (inq (t_pair t)) <> [])%nat (x_threads s) ->
  forall q, (q < QUEUES)%nat -> sum_list_with (taken q) (x_threads s) = (LOOPSIZE * 64)%nat.
Proof.
  intros G Hsv Hg Hw. pose proof (fun q => group_waits s q G Hsv Hg Hw) as HD. cbv zeta in HD. unfold QUEUES in *.
  pose proof (HD 0 ltac:(lia))%nat. pose proof (HD 1 ltac:(lia))%nat. pose proof (HD 2 ltac:(lia))%nat.
  pose proof (HD 3 ltac:(lia))%nat. pose proof (HD 4 ltac:(lia))%nat. pose proof (HD 5 ltac:(lia))%nat.
  pose proof (HD 6 ltac:(lia))%nat. pose proof (HD 7 ltac:(lia))%nat.
  repeat match goal with H : context [((?a + 1) mod 8)%nat] |- _ => let r := eval vm_compute in ((a + 1) mod 8)%nat in change ((a + 1) mod 8)%nat with r in H end.
  intros q Hq. do 8 (destruct q as [|q]; [lia|]). lia.
Qed.

(** No thread has been ended by a timeout. *)
Definition in_time (s : test) : Prop := Forall (fun t => t_pc t <> POut) (x_threads s).

Lemma progress s : good s -> in_time s -> ended s \/ exists s', step s s' /\ in_time s'.
Proof.
  intros G Hin_time. assert (forall i t t' s', x_threads s !! i = Some t -> msgqueueping false t s = Some (t', s') ->
    exists s', step s s' /\ in_time s') as Hgo.
  { intros i t t' s' Ht E. exists (set_thread s' i t'). split; [by eapply step_thread|].
    assert (x_threads s' = x_threads s /\ t_pc t' <> POut) as [E1 E2]; [|unfold in_time; cbn; rewrite E1; by apply Forall_insert].
    unfold msgqueueping in E. by repeat (case_match; simplify_eq; try done). }
  destruct (x_serve s) as [|b l] eqn:Es.
  2:{ right. eexists. split; [apply step_main; unfold serve; rewrite Es, put_effect by (done || by apply Nat.mod_upper_bound); reflexivity | done]. }
  destruct (decide (Forall (fun t => t_pc t = PGet) (x_threads s))) as [Hg|Hg]; last first.
  { right. apply not_Forall_Exists in Hg; [|apply _]. apply Exists_exists in Hg as (t & Hin & Hpc).
    apply list_elem_of_lookup in Hin as [i Ht]. destruct (msgqueueping false t s) as [[t' s']|] eqn:E; [by eapply Hgo|].
    exfalso. unfold in_time in Hin_time. rewrite Forall_lookup in Hin_time. specialize (Hin_time i t Ht).
    unfold msgqueueping in E. destruct (t_pc t) as [|b|b tmp|b|] eqn:Epc; [done| |done| |done].
    - pose proof (g_ball s G) as Hb. rewrite Forall_forall in Hb.
      specialize (Hb b ltac:(eapply held_in; [exact Ht|]; unfold held; rewrite Epc; by left)).
      apply lookup_lt_is_Some_2 in Hb as [c Hc]. by rewrite Hc in E.
    - by rewrite put_effect in E by (done || apply outq_lt). }
  destruct (decide (Exists (fun t => t_i t < LOOPSIZE /\ letters s (inq (t_pair t)) <> [])%nat (x_threads s))) as [Hw|Hw].
  { right. apply Exists_exists in Hw as (t & Hin & Hi & Hl). apply list_elem_of_lookup in Hin as [i Ht].
    rewrite Forall_lookup in Hg. specialize (Hg i t Ht). destruct (letters s (inq (t_pair t))) as [|b l] eqn:El; [done|].
    eapply Hgo; [exact Ht|]. unfold msgqueueping. rewrite Hg, (proj2 (Nat.ltb_lt _ _) Hi), get_effect, El by (done || apply inq_lt).
    reflexivity. }
  left. split; [done|]. pose proof (groups_done s G Es Hg Hw) as Hd. pose proof (g_loop s G) as Hl.
  rewrite Forall_forall in Hl, Hg |- *. intros t Hin. split; [by apply Hg|]. destruct (Hl t Hin) as [Hle _].
  destruct (decide (t_i t < LOOPSIZE)%nat) as [Hlt|]; [exfalso | lia].
  assert (Forall (fun t => t_i t <= LOOPSIZE /\ t_pc t = PGet)%nat (x_threads s)) as Ha
    by (apply Forall_forall; intros u Hu; split; [by apply Hl | by apply Hg]).
  pose proof (group_turns (inq (t_pair t)) _ Ha) as (_ & Hx & _). rewrite members, (Hd (inq (t_pair t)) (inq_lt _)) in Hx by (done || apply inq_lt).
  apply (Nat.lt_irrefl (LOOPSIZE * 64)), Hx, Exists_exists. by exists t.
Qed.

(** ** The test passes *)

(** What is left to do: the letters to serve and the steps of the threads. *)
Definition to_do (t : thread) : nat :=
  match t_pc t with
  | PGet => 4 * (LOOPSIZE - t_i t)
  | PRead _ => 4 * (LOOPSIZE - t_i t) - 1
  | PStore _ _ => 4 * (LOOPSIZE - t_i t) - 2
  | PPut _ => 4 * (LOOPSIZE - t_i t) - 3
  | POut => 0
  end.

Definition remaining (s : test) : nat := sum_list_with to_do (x_threads s) + length (x_serve s).

(** A step is one of those left, and the only one gone when it is no timeout. *)
Lemma step_left s s' : good s -> step s s' ->
  (remaining s' < remaining s)%nat /\ (in_time s' -> in_time s /\ remaining s = S (remaining s')).
Proof.
  intros G Hs. revert G. destruct Hs as [s0 s1 E|s0 i t expired t' s1 Ht E]; intros G; unfold remaining, in_time.
  - unfold serve in E. destruct (x_serve s0) as [|b l] eqn:Es; [done|].
    destruct (a_qstep _ _) as [[? q]|]; [|done]. injection E as <-. cbn [x_threads x_serve length]. split; [lia|].
    intros ?. split; [done | lia].
  - pose proof (g_loop s0 G) as Hl. rewrite Forall_lookup in Hl. destruct (Hl i t Ht) as [Hl1 Hl2].
    pose proof (sum_insert to_do (x_threads s0) i t t' Ht) as Hsum.
    assert (x_threads s1 = x_threads s0 /\ x_serve s1 = x_serve s0 /\ t_pc t <> POut /\ (to_do t' < to_do t)%nat /\
      (t_pc t' <> POut -> to_do t = S (to_do t'))) as (E1 & E2 & E3 & E4 & E5).
    2:{ cbn [set_thread x_threads x_serve]. rewrite E1, E2. split; [lia|]. intros Hin. split.
        - rewrite Forall_lookup in Hin |- *. intros j u Hu. destruct (decide (i = j)) as [->|Hne]; [congruence|].
          apply (Hin j). by rewrite list_lookup_insert_ne.
        - assert (t_pc t' <> POut) as Hn; [|specialize (E5 Hn); lia]. rewrite Forall_lookup in Hin. apply (Hin i).
          apply list_lookup_insert_eq. by eapply lookup_lt_Some. }
    unfold msgqueueping in E. unfold to_do. destruct (t_pc t) as [|b|b tmp|b|] eqn:Epc; cbn [t_pc t_i]; [| | | |done].
    + destruct (Nat.ltb_spec (t_i t) LOOPSIZE); [|done].
      destruct expired; [injection E as <- <-; cbn [t_pc t_i]; split_and!; try done; lia|].
      rewrite get_effect in E by (done || apply inq_lt).
      destruct (letters s0 _); [done|]. injection E as <- <-. cbn [t_pc t_i]. split_and!; try done; lia.
    + destruct (x_balls s0 !! b); [|done]. injection E as <- <-. specialize (Hl2 ltac:(done)). cbn [t_pc t_i]. split_and!; try done; lia.
    + injection E as <- <-. specialize (Hl2 ltac:(done)). cbn [t_pc t_i]. split_and!; try done; lia.
    + rewrite put_effect in E by (done || apply outq_lt). injection E as <- <-. specialize (Hl2 ltac:(done)). cbn [t_pc t_i]. split_and!; try done; lia.
Qed.

(** Every letter is served, and every thread has left its loop. *)
Definition over (s : test) : Prop :=
  x_serve s = [] /\ Forall (fun t => t_pc t = PGet /\ t_i t = LOOPSIZE \/ t_pc t = POut) (x_threads s).

Lemma ended_over s : ended s -> over s /\ in_time s.
Proof.
  intros [H1 H2]. split; [split; [done|]|]; (eapply Forall_impl; [exact H2|]); [by left|]. intros t [E _]. by rewrite E.
Qed.

(** The turns made, when all threads are through. *)
Lemma turns_made (l : list thread) :
  Forall (fun t => t_pc t = PGet /\ t_i t = LOOPSIZE \/ t_pc t = POut) l ->
  Forall (fun t => t_i t <= LOOPSIZE /\ (t_pc t <> PGet -> t_i t < LOOPSIZE))%nat l ->
  (sum_list_with written l <= LOOPSIZE * length l)%nat /\
  (sum_list_with written l = LOOPSIZE * length l <-> Forall (fun t => t_pc t <> POut) l)%nat.
Proof.
  induction 1 as [|t l Ht _ IH]; intros Hb; [by split_and!; [|split]|]. apply Forall_cons_1 in Hb as [[Hb1 Hb2] Hb].
  destruct (IH Hb) as [IH1 IH2]. cbn [sum_list_with length]. rewrite Forall_cons, <-IH2. unfold written at 1 3.
  destruct Ht as [[-> ->]|Ht]; [split; [lia|]; split; [intros; split; [done|lia] | intros [_ ?]; lia]|].
  rewrite Ht in *. specialize (Hb2 ltac:(done)). split; [lia|]. split; [lia | by intros [? _]].
Qed.

Lemma over_verdict s : good s -> over s -> verdict s = 0 <-> in_time s.
Proof.
  intros G [_ Hd]. unfold verdict. rewrite (g_sum s G). unfold in_time. rewrite <-(proj2 (turns_made _ Hd (g_loop s G))).
  pose proof (f_equal length (g_pairs s G)) as Hn. rewrite !length_fmap, length_seq in Hn. rewrite Hn.
  destruct (Z.eqb_spec (Z.of_nat (sum_list_with written (x_threads s))) (Z.of_nat (LOOPSIZE * THREADS))); split; intros; (done || lia).
Qed.

Lemma good_run n s s' : nsteps step n s s' -> good s ->
  good s' /\ (n + remaining s' <= remaining s)%nat /\ (in_time s' -> in_time s /\ n + remaining s' = remaining s)%nat.
Proof.
  induction 1 as [s|n x y z Hs _ IH]; intros G; [by split_and!|].
  destruct (IH (good_kept x y G Hs)) as (Gz & Hz & Ht). destruct (step_left x y G Hs) as [Hl Hi]. split; [done|]. split; [lia|].
  intros Hin. destruct (Ht Hin) as [Hy E]. destruct (Hi Hy) as [Hx E']. split; [done | lia].
Qed.

(** The steps of a whole run: four a turn, and one a letter served. *)
Definition all_steps : nat := THREADS * (4 * LOOPSIZE) + BALLS.

Lemma start_left : remaining start = all_steps.
Proof.
  unfold remaining, all_steps. cbn [start x_serve x_threads]. rewrite length_seq.
  assert (forall n k, sum_list_with to_do ((fun i => Thread (i mod QUEUEPAIRS) 0 PGet) <$> seq k n) = n * (4 * LOOPSIZE))%nat as Hs;
    [|by rewrite Hs]. induction n as [|n IH]; intros k; [done|]. cbn [seq fmap list_fmap sum_list_with]. rewrite IH. done.
Qed.

(** C36: however the threads and [main] are interleaved and whichever waits reach
    their limit, two threads never hold the same letter, a run has at most
    [all_steps] steps, and when every thread has left its loop the test reports
    success exactly when no wait has reached its limit: no count is lost although
    the threads read and write the shared numbers without a lock.  As long as no
    wait has reached its limit the run is not stuck before every thread has made
    its hundred turns, and there it has made [all_steps] steps and reports
    success. *)
Theorem msgqueue_test_passes (n : nat) (s : test) :
  nsteps step n start s ->
  (forall i j t u b, x_threads s !! i = Some t -> x_threads s !! j = Some u -> b ∈ held t -> b ∈ held u -> i = j) /\
  (n <= all_steps)%nat /\
  (over s -> verdict s = 0 <-> in_time s) /\
  (in_time s ->
   (exists s', step s s' /\ in_time s') /\ (n < all_steps)%nat \/ ended s /\ verdict s = 0 /\ n = all_steps).
Proof.
  intros Hn. destruct (good_run n start s Hn good_start) as (G & Hle & Heq). rewrite start_left in Hle, Heq.
  split; [intros i j t u b Ht Hu; by apply (held_apart s)|]. split; [lia|]. split; [by apply over_verdict|].
  intros Hin. destruct (Heq Hin) as [_ Hleft]. destruct (progress s G Hin) as [He|(s' & Hs & Hin')].
  - right. split; [done|]. split; [by apply over_verdict; [done | apply ended_over |]|]. destruct He as [E1 E2]. unfold remaining in Hleft.
    rewrite E1, sum_zero in Hleft; [cbn [length] in Hleft; lia|]. eapply Forall_impl; [exact E2|]. intros t [Hpc Hi]. unfold to_do. rewrite Hpc, Hi. lia.
  - left. split; [by exists s'|]. destruct (step_left s s' G Hs) as [Hl _]. lia.
Qed.

Lemma msgqueue_test_passes_witness :
  exists s, nsteps step 5 start s /\ in_time s /\ (exists s', step s s' /\ in_time s').
Proof.
  pose (s1 := default start (serve start)).
  pose (f := fun s => match x_threads s !! 0%nat with
    | Some t => match msgqueueping false t s with Some (t', s') => set_thread s' 0 t' | None => s end | None => s end).
  assert (nsteps step 5 start (f (f (f (f s1))))) as Hn.
  { apply (nsteps_l _ _ _ s1); [by apply step_main|].
    do 4 (eapply nsteps_l; [eapply (step_thread _ 0 _ false); reflexivity|]). apply nsteps_O. }
  assert (in_time (f (f (f (f s1))))) as Hi.
  { apply (bool_decide_eq_true (Forall (fun t => t_pc t <> POut) _)). vm_compute. reflexivity. }
  exists (f (f (f (f s1)))). split; [exact Hn|]. split; [exact Hi|].
  destruct (msgqueue_test_passes 5 _ Hn) as (_ & _ & _ & H). destruct (H Hi) as [[Hs _]|(_ & _ & He)]; [exact Hs|].
  exfalso. unfold all_steps, THREADS, QUEUEPAIRS, BALLS, QUEUES, LOOPSIZE in He. lia.
Defined.
