(* ===== verification/CounterTest.v ===== *)
(** * The test of the counters ([src/src/counter-test.c])

    A hundred threads create, change, read, release and create again counters
    of their own, and count up ten counters that all of them share.  A thread is
    a program whose steps are calls of the counters and random numbers.  A call
    finds its counter under the global lock and works on it under the counter's
    own, and a counter in use is not moved, so a call is one step, and the
    threads' steps interleave in any way.

    The proof is a small separation logic: [wp] says what a thread needs of the
    counters it owns and how many counts it owes to the shared ones, and
    [inv] that the owners do not overlap. *)

From S2P Require Import Prelude Counter.
#[local] Open Scope st_scope.

Definition LOOPSIZE : nat := 100.
Definition THREADCOUNT : nat := 100.
Definition JOINTCOUNTERS : nat := 10.

(** ** Programs *)

(** [Rand]: a number of [rand_r], whose seed the threads share without a lock:
    any number that is not negative. *)
Inductive prog := Exit (errors : Z) | Call (o : op) (k : Z -> prog) | Rand (k : Z -> prog).

Fixpoint times (n : nat) (body : prog -> prog) (k : prog) : prog :=
  match n with O => k | S n => body (times n body k) end.

(** [if (counter_read(c) != expected) errors++;] *)
Definition expect (c expected errors : Z) (k : Z -> prog) : prog :=
  Call (Read c) (fun v => k (if v =? expected then errors else errors + 1)).

Fixpoint create_all (n : nat) (k : list Z -> prog) : prog :=
  match n with
  | O => k []
  | S n => Call (Create None None) (fun c => create_all n (fun cs => k (c :: cs)))
  end.

Fixpoint release_all (cs : list Z) (k : prog) : prog :=
  match cs with [] => k | c :: cs => Call (Release c) (fun _ => release_all cs k) end.

Definition count_up (jc : list Z) (c1 c2 : Z) (k : prog) : prog :=
  Call (Increment c1) (fun _ =>
  Call (Increment c2) (fun _ =>
  Rand (fun r =>
  Call (Increment (jc !!! Z.to_nat (r mod Z.of_nat JOINTCOUNTERS))) (fun _ => k)))).

Definition countertest (jc : list Z) : prog :=
  Call (Create (Some (cs "c1")) (Some (cs "first counter"))) (fun c1 =>
  Call (Create (Some (cs "c2")) (Some (cs "second counter"))) (fun c2 =>
  times LOOPSIZE (count_up jc c1 c2) (
  expect c1 (Z.of_nat LOOPSIZE) 0 (fun errors =>
  expect c2 (Z.of_nat LOOPSIZE) errors (fun errors =>
  Call (Restart c1) (fun _ =>
  times LOOPSIZE (fun k => Call (Decrement c2) (fun _ => k)) (
  expect c1 0 errors (fun errors =>
  expect c2 0 errors (fun errors =>
  times 10 (fun k => Call (Increment c1) (fun _ => Call (Increment c2) (fun _ => k))) (
  Call (Release c1) (fun _ =>
  Call (Release c2) (fun _ =>
  Call (Create (Some (cs "c1")) (Some (cs "first counter"))) (fun c1 =>
  Call (Create (Some (cs "c2")) (Some (cs "second counter"))) (fun c2 =>
  expect c1 0 errors (fun errors =>
  expect c2 0 errors (fun errors =>
  create_all LOOPSIZE (fun counters =>
  release_all counters (
  create_all LOOPSIZE (fun counters =>
  release_all counters (
  Exit errors)))))))))))))))))))).

(** ** The whole test *)

Record test := Test { x_counters : state; x_threads : list prog }.

Fixpoint create_joint (n : nat) : stt state (list Z) :=
  match n with
  | O => st_ret []
  | S n =>
      let* c := counter_create (Some (cs "jc")) (Some (cs "joint counter")) in
      let* l := create_joint n in
      st_ret (c :: l)
  end.

(** [main] up to the creation of the threads; a thread it has not created yet is
    one that has made no step. *)
Definition start : Res (list Z * test) :=
  match create_joint JOINTCOUNTERS state0 with
  | Ok (jc, s) => Ok (jc, Test s (replicate THREADCOUNT (countertest jc)))
  | Fail e => Fail e
  end.

(** A step of a program. *)
Inductive prog_step : prog -> state -> prog -> state -> Prop :=
| step_call o k s r s' : call o s = Ok (r, s') -> prog_step (Call o k) s (k r) s'
| step_rand k s r : 0 <= r -> prog_step (Rand k) s (k r) s.

Inductive step : test -> test -> Prop :=
| step_thread s ps i p p' s' :
    ps !! i = Some p -> prog_step p s p' s' -> step (Test s ps) (Test s' (<[i := p']> ps)).

(** The sum of the joint counters. *)
Fixpoint sum_joint (jc : list Z) (sum : Z) : stt state Z :=
  match jc with
  | [] => st_ret sum
  | c :: jc =>
      let* v := counter_read c in
      let* sum := st_lift (int_val (sum + v)) in
      sum_joint jc sum
  end.

(** What [main] returns from the end of the threads on; [None] while it waits
    for a thread. *)
Fixpoint join (ps : list prog) (jc : list Z) : option (stt state Z) :=
  match ps with
  | [] => Some (
      let* sum := sum_joint jc 0 in
      st_ret (if sum =? Z.of_nat (THREADCOUNT * LOOPSIZE) then 0 else 3))
  | Exit errors :: ps => if errors =? 0 then join ps jc else Some (st_ret 1)
  | _ :: _ => None
  end.

(** ** What a thread needs *)

Section Logic.
Context (jc : list Z).

(** From here the thread makes [n] steps, counts the joint counters up [j] times
    and ends without an error, if it owns the counters [own]. *)
Fixpoint wp (p : prog) (n j : nat) (own : gmap Z Z) : Prop :=
  match p, n with
  | Exit e, O => e = 0 /\ j = O
  | Rand k, S n => forall r, 0 <= r -> wp (k r) n j own
  | Call o k, S n =>
      match o with
      | Create _ _ => forall c, own !! c = None -> c ∉ jc -> wp (k c) n j (<[c := 0]> own)
      | Release c => is_Some (own !! c) /\ wp (k 0) n j (delete c own)
      | Read c => exists v, own !! c = Some v /\ wp (k v) n j own
      | Increment c =>
          (exists v, own !! c = Some v /\ INT64_MIN <= v + 1 <= INT64_MAX /\ wp (k (v + 1)) n j (<[c := v + 1]> own)) \/
          (c ∈ jc /\ exists j', j = S j' /\ forall r, wp (k r) n j' own)
      | Decrement c =>
          exists v, own !! c = Some v /\ INT64_MIN <= v - 1 <= INT64_MAX /\ wp (k (v - 1)) n j (<[c := v - 1]> own)
      | Restart c => exists v, own !! c = Some v /\ wp (k v) n j (<[c := 0]> own)
      | SetTo c w => exists v, own !! c = Some v /\ wp (k v) n j (<[c := w]> own)
      end
  | _, _ => False
  end.

(** The counters of a thread that has two. *)
Definition two (c1 c2 v w : Z) : gmap Z Z := <[c1 := v]> {[c2 := w]}.

Lemma two_fst c1 c2 v w : two c1 c2 v w !! c1 = Some v.
Proof. apply lookup_insert_eq. Qed.
Lemma two_snd c1 c2 v w : c1 <> c2 -> two c1 c2 v w !! c2 = Some w.
Proof. intros H. unfold two. by rewrite lookup_insert_ne, lookup_singleton_eq. Qed.
Lemma two_set1 c1 c2 v w x : <[c1 := x]> (two c1 c2 v w) = two c1 c2 x w.
Proof. apply insert_insert_eq. Qed.
Lemma two_set2 c1 c2 v w x : c1 <> c2 -> <[c2 := x]> (two c1 c2 v w) = two c1 c2 v x.
Proof. intros H. unfold two. by rewrite insert_insert_ne, insert_singleton_eq. Qed.
Lemma two_new c1 c2 v : c1 <> c2 -> <[c2 := 0]> {[c1 := v]} = two c1 c2 v 0.
Proof. intros H. unfold two. rewrite <-!insert_empty. by rewrite insert_insert_ne. Qed.

Lemma wp_expect c v k n j own : own !! c = Some v -> wp (k 0) n j own -> wp (expect c v 0 k) (S n) j own.
Proof. intros Hc Hk. exists v. split; [done|]. by rewrite Z.eqb_refl. Qed.

Lemma wp_count_up c1 c2 m k n j j' v :
  j' = (m + j)%nat -> c1 <> c2 -> length jc = JOINTCOUNTERS -> 0 <= v -> v + Z.of_nat m <= INT64_MAX ->
  wp k n j (two c1 c2 (v + Z.of_nat m) (v + Z.of_nat m)) ->
  wp (times m (count_up jc c1 c2) k) (m * 4 + n) j' (two c1 c2 v v).
Proof.
  intros -> Hne Hjc. revert v. induction m as [|m IH]; intros v Hv Hm Hk; [by rewrite Z.add_0_r in Hk|].
  cbn. left. exists v. rewrite two_fst, two_set1. split_and!; [done | unfold INT64_MIN; lia.. |].
  left. exists v. rewrite two_snd, two_set2 by done. split_and!; [done | unfold INT64_MIN; lia.. |].
  intros r _. right. split.
  { apply list_elem_of_lookup_total_2. rewrite Hjc. pose proof (Z.mod_pos_bound r (Z.of_nat JOINTCOUNTERS) ltac:(done)). lia. }
  exists (m + j)%nat. split; [done|]. intros _. apply IH; [lia..|]. by replace (v + 1 + Z.of_nat m) with (v + Z.of_nat (S m)) by lia.
Qed.

Lemma wp_count_down c1 c2 m k n j v w :
  c1 <> c2 -> 0 <= w -> w + Z.of_nat m <= INT64_MAX ->
  wp k n j (two c1 c2 v w) ->
  wp (times m (fun k => Call (Decrement c2) (fun _ => k)) k) (m + n) j (two c1 c2 v (w + Z.of_nat m)).
Proof.
  intros Hne Hw. induction m as [|m IH]; intros Hm Hk; [by rewrite Z.add_0_r|].
  cbn. exists (w + Z.of_nat (S m)). rewrite two_snd, two_set2 by done. split_and!; [done | unfold INT64_MIN; lia.. |].
  replace (w + Z.of_nat (S m) - 1) with (w + Z.of_nat m) by lia. apply IH; [lia | done].
Qed.

Lemma wp_count_both c1 c2 m k n j v :
  c1 <> c2 -> 0 <= v -> v + Z.of_nat m <= INT64_MAX ->
  wp k n j (two c1 c2 (v + Z.of_nat m) (v + Z.of_nat m)) ->
  wp (times m (fun k => Call (Increment c1) (fun _ => Call (Increment c2) (fun _ => k))) k) (m * 2 + n) j (two c1 c2 v v).
Proof.
  intros Hne. revert v. induction m as [|m IH]; intros v Hv Hm Hk; [by rewrite Z.add_0_r in Hk|].
  cbn. left. exists v. rewrite two_fst, two_set1. split_and!; [done | unfold INT64_MIN; lia.. |].
  left. exists v. rewrite two_snd, two_set2 by done. split_and!; [done | unfold INT64_MIN; lia.. |].
  apply IH; [lia..|]. by replace (v + 1 + Z.of_nat m) with (v + Z.of_nat (S m)) by lia.
Qed.

Lemma wp_create_all m k n j own :
  (forall l own', length l = m -> NoDup l -> Forall (fun c => is_Some (own' !! c) /\ own !! c = None) l -> own ⊆ own' -> wp (k l) n j own') ->
  wp (create_all m k) (m + n) j own.
Proof.
  revert k own. induction m as [|m IH]; intros k own Hk; [apply Hk; [done | apply NoDup_nil_2 | apply Forall_nil_2 | done]|].
  cbn. intros c Hc _. apply IH. intros l own' Hl Hn Ha Hs. apply Hk; [by cbn; rewrite Hl | | |].
  - apply NoDup_cons_2; [|done]. intros Hin. rewrite Forall_forall in Ha. destruct (Ha c Hin) as [_ Hx]. by rewrite lookup_insert_eq in Hx.
  - apply Forall_cons_2; [split; [|done]; exists 0; eapply lookup_weaken; [apply lookup_insert_eq | exact Hs]|].
    eapply Forall_impl; [exact Ha|]. intros d [? Hd]. split; [done|]. apply lookup_insert_None in Hd. tauto.
  - etransitivity; [by apply insert_subseteq | exact Hs].
Qed.

Lemma wp_release_all l k n j own :
  NoDup l -> Forall (fun c => is_Some (own !! c)) l -> (forall own', wp k n j own') ->
  wp (release_all l k) (length l + n) j own.
Proof.
  intros Hn. revert own. induction Hn as [|c l Hc _ IH]; intros own Ha Hk; [apply Hk|].
  apply Forall_cons in Ha as [Hc1 Ha]. cbn. split; [done|]. apply IH; [|done].
  rewrite Forall_forall in Ha |- *. intros d Hd. rewrite lookup_delete_ne by (by intros ->). by apply Ha.
Qed.

Lemma wp_create_release m k n j own :
  (forall own', wp k n j own') -> wp (create_all m (fun l => release_all l k)) (m + (m + n)) j own.
Proof.
  intros Hk. apply wp_create_all. intros l own' Hl Hn Ha _. rewrite <-Hl. apply wp_release_all; [done| |done].
  eapply Forall_impl; [exact Ha|]. by intros c [? _].
Qed.

(** The steps of a thread. *)
Definition thread_steps : nat :=
  2 + (LOOPSIZE * 4 + (3 + (LOOPSIZE + (2 + (10 * 2 + (6 + (LOOPSIZE + (LOOPSIZE + (LOOPSIZE + (LOOPSIZE + 0)))))))))).

Lemma wp_countertest : length jc = JOINTCOUNTERS -> wp (countertest jc) thread_steps LOOPSIZE ∅.
Proof.
  intros Hjc. unfold countertest, thread_steps. assert (LOOPSIZE <= 100)%nat as HL by done. revert HL. generalize LOOPSIZE. intros L HL.
  assert (forall m, (m <= 100)%nat -> 0 + Z.of_nat m <= INT64_MAX) as Hmax by (unfold INT64_MAX; lia).
  intros c1 _ _ c2 Hc2 _. apply lookup_insert_None in Hc2 as [_ Hne]. rewrite insert_empty, two_new by done.
  apply (wp_count_up c1 c2 L _ _ 0 L); [lia | done | done | done | apply Hmax; lia |].
  apply wp_expect; [apply two_fst|]. apply wp_expect; [by apply two_snd|].
  exists (0 + Z.of_nat L). split; [apply two_fst|]. rewrite two_set1.
  apply wp_count_down; [done | done | apply Hmax; lia |].
  apply wp_expect; [apply two_fst|]. apply wp_expect; [by apply two_snd|].
  apply wp_count_both; [done | done | apply Hmax; lia |].
  split; [rewrite two_fst; eauto|]. split; [rewrite lookup_delete_ne, two_snd by done; eauto|].
  intros d1 Hd1 _ d2 Hd2 _. apply wp_expect; [apply lookup_insert_Some; right; split; [|apply lookup_insert_eq]; apply lookup_insert_None in Hd2; naive_solver|].
  apply wp_expect; [apply lookup_insert_eq|].
  apply wp_create_release. intros own1. apply wp_create_release. intros own2. done.
Qed.

(** ** All the threads *)

(** What a thread has left to do and owns. *)
Record ghost := Ghost { g_n : nat; g_j : nat; g_own : gmap Z Z }.

Definition sumj (m : gmap Z Z) (l : list Z) : Z := foldr (fun c a => default 0 (m !! c) + a) 0 l.

Record inv (s : state) (ps : list prog) (gs : list ghost) (m : gmap Z Z) : Prop := {
  i_rel : rel s m;
  i_wp : Forall2 (fun p g => wp p (g_n g) (g_j g) (g_own g)) ps gs;
  i_own : forall i g, gs !! i = Some g -> g_own g ⊆ m;
  i_apart : forall i j g h, i <> j -> gs !! i = Some g -> gs !! j = Some h -> g_own g ##ₘ g_own h;
  i_joint : forall i g c, gs !! i = Some g -> c ∈ jc -> g_own g !! c = None;
  i_jc : Forall (fun c => exists v, m !! c = Some v /\ 0 <= v) jc;
  i_sum : sumj m jc + Z.of_nat (sum_list_with g_j gs) = Z.of_nat (THREADCOUNT * LOOPSIZE);
  i_num : numcounters s + Z.of_nat (sum_list_with g_n gs) <= Z.of_nat (JOINTCOUNTERS + THREADCOUNT * thread_steps) }.

(** What a step of thread [i] must keep. *)
Lemma owns_step s s' ps gs m m' i g p' n' j' own' :
  inv s ps gs m -> gs !! i = Some g -> rel s' m' -> numcounters s' <= numcounters s + 1 ->
  g_n g = S n' -> wp p' n' j' own' -> own' ⊆ m' -> (forall c, c ∈ jc -> own' !! c = None) ->
  (forall k h, k <> i -> gs !! k = Some h -> g_own h ⊆ m' /\ own' ##ₘ g_own h) ->
  Forall (fun c => exists v, m' !! c = Some v /\ 0 <= v) jc ->
  sumj m' jc + Z.of_nat j' = sumj m jc + Z.of_nat (g_j g) ->
  inv s' (<[i := p']> ps) (<[i := Ghost n' j' own']> gs) m'.
Proof.
  intros I Hg R Hnum Hn Hwp Hown Hjc Hoth Hall Hsum.
  pose proof (sum_insert g_j gs i g (Ghost n' j' own') Hg) as Hj. pose proof (sum_insert g_n gs i g (Ghost n' j' own') Hg) as Hn'.
  cbn [g_n g_j] in Hj, Hn'. constructor; try done.
  - apply Forall2_insert; [apply (i_wp _ _ _ _ I) | done].
  - intros k h Hk. apply list_lookup_insert_Some in Hk as [(-> & <- & _)|[Hne Hk]]; [done|]. by apply (Hoth k).
  - intros k l h h' Hkl Hk Hl. apply list_lookup_insert_Some in Hk as [(-> & <- & _)|[Hne Hk]];
      apply list_lookup_insert_Some in Hl as [(-> & <- & _)|[Hne' Hl]]; cbn [g_own].
    + done.
    + by apply (Hoth l).
    + apply map_disjoint_sym. by apply (Hoth k).
    + by apply (i_apart _ _ _ _ I k l).
  - intros k h c Hk Hc. apply list_lookup_insert_Some in Hk as [(-> & <- & _)|[Hne Hk]]; [by apply Hjc|].
    by apply (i_joint _ _ _ _ I k).
  - pose proof (i_sum _ _ _ _ I). lia.
  - pose proof (i_num _ _ _ _ I). lia.
Qed.

Lemma sumj_ext m m' l : (forall c, c ∈ l -> m' !! c = m !! c) -> sumj m' l = sumj m l.
Proof.
  unfold sumj. induction l as [|d l IH]; intros H; [done|]. cbn. rewrite (H d), IH; [done | | by left].
  intros c Hc. apply H. by right.
Qed.

(** A step on a counter of the thread's own, or on a new one. *)
Lemma inv_own s s' ps gs m m' i g p' n' own' c :
  inv s ps gs m -> gs !! i = Some g -> rel s' m' -> numcounters s' <= numcounters s + 1 ->
  g_n g = S n' -> wp p' n' (g_j g) own' -> c ∉ jc -> (is_Some (g_own g !! c) \/ m !! c = None) ->
  (forall d, d <> c -> m' !! d = m !! d) -> (forall d, d <> c -> own' !! d = g_own g !! d) -> own' !! c = m' !! c ->
  exists gs', inv s' (<[i := p']> ps) gs' m' /\ sum_list_with g_n gs = S (sum_list_with g_n gs').
Proof.
  intros I Hg R Hnum Hn Hwp Hc Hmine Hm Hown Hoc.
  pose proof (sum_insert g_n gs i g (Ghost n' (g_j g) own') Hg) as Hn'. cbn [g_n] in Hn'.
  exists (<[i := Ghost n' (g_j g) own']> gs). split; [|lia].
  assert (forall k h, k <> i -> gs !! k = Some h -> g_own h !! c = None) as Hno.
  { intros k h Hk Hh. destruct Hmine as [[v Hv]|Hv].
    - pose proof (i_apart _ _ _ _ I k i h g Hk Hh Hg) as Hd. by apply (map_disjoint_Some_r _ _ c v Hd).
    - apply (lookup_weaken_None _ m); [done|]. by apply (i_own _ _ _ _ I k). }
  apply (owns_step s s' ps gs m m' i g); try done.
  - apply map_subseteq_spec. intros d v Hd. destruct (decide (d = c)) as [->|Hdc]; [by rewrite <-Hoc|].
    rewrite Hm by done. rewrite Hown in Hd by done. exact (lookup_weaken _ _ _ _ Hd (i_own _ _ _ _ I i g Hg)).
  - intros d Hd. rewrite Hown by (by intros ->). by apply (i_joint _ _ _ _ I i).
  - intros k h Hk Hh. pose proof (Hno k h Hk Hh) as Hx. split.
    + apply map_subseteq_spec. intros d v Hd. rewrite Hm by congruence. exact (lookup_weaken _ _ _ _ Hd (i_own _ _ _ _ I k h Hh)).
    + apply map_disjoint_spec. intros d v w H1 H2. rewrite Hown in H1 by congruence.
      pose proof (i_apart _ _ _ _ I i k g h ltac:(done) Hg Hh) as Hd. rewrite map_disjoint_spec in Hd. by apply (Hd d v w).
  - pose proof (i_jc _ _ _ _ I) as Hj. rewrite Forall_forall in Hj |- *. intros d Hd. rewrite Hm by (by intros ->). by apply Hj.
  - rewrite (sumj_ext m m'); [done|]. intros d Hd. apply Hm. by intros ->.
Qed.

(** A step on a joint counter. *)
Lemma sumj_up m l c v :
  NoDup l -> c ∈ l -> m !! c = Some v -> sumj (<[c := v + 1]> m) l = sumj m l + 1.
Proof.
  intros Hn. induction Hn as [|d l Hd _ IH]; intros Hc Hv; [by apply not_elem_of_nil in Hc|].
  change (sumj (<[c:=v + 1]> m) (d :: l)) with (default 0 (<[c:=v + 1]> m !! d) + sumj (<[c:=v + 1]> m) l).
  change (sumj m (d :: l)) with (default 0 (m !! d) + sumj m l).
  apply elem_of_cons in Hc as [<-|Hc].
  - rewrite lookup_insert_eq, Hv, (sumj_ext m); [cbn; lia|]. intros e He. apply lookup_insert_ne. by intros ->.
  - rewrite lookup_insert_ne, IH by (done || by intros ->). lia.
Qed.

Lemma sumj_bound m l c v :
  Forall (fun c => exists v, m !! c = Some v /\ 0 <= v) l -> 0 <= sumj m l /\ (c ∈ l -> m !! c = Some v -> v <= sumj m l).
Proof.
  induction 1 as [|d l (w & Hd & Hw) _ [IH1 IH2]]; [split; [done | by intros ?%not_elem_of_nil]|].
  change (sumj m (d :: l)) with (default 0 (m !! d) + sumj m l). rewrite Hd. cbn [default]. split; [cbn; lia|].
  intros [->|Hc]%elem_of_cons Hv; cbn; [replace v with w by congruence; lia|]. specialize (IH2 Hc Hv). lia.
Qed.

Lemma inv_joint s s' ps gs m i g p' n' j' c v :
  NoDup jc -> inv s ps gs m -> gs !! i = Some g -> rel s' (<[c := v + 1]> m) -> numcounters s' <= numcounters s + 1 ->
  g_n g = S n' -> g_j g = S j' -> wp p' n' j' (g_own g) -> c ∈ jc -> m !! c = Some v ->
  exists gs', inv s' (<[i := p']> ps) gs' (<[c := v + 1]> m) /\ sum_list_with g_n gs = S (sum_list_with g_n gs').
Proof.
  intros Hnd I Hg R Hnum Hn Hj Hwp Hc Hv.
  pose proof (sum_insert g_n gs i g (Ghost n' j' (g_own g)) Hg) as Hn'. cbn [g_n] in Hn'.
  exists (<[i := Ghost n' j' (g_own g)]> gs). split; [|lia].
  assert (forall k h, gs !! k = Some h -> g_own h ⊆ <[c := v + 1]> m) as Hsub.
  { intros k h Hh. apply insert_subseteq_r; [by apply (i_joint _ _ _ _ I k) | by apply (i_own _ _ _ _ I k)]. }
  pose proof (i_jc _ _ _ _ I) as Hall. apply (owns_step s s' ps gs m _ i g); try done.
  - by apply (Hsub i).
  - intros d Hd. by apply (i_joint _ _ _ _ I i).
  - intros k h Hk Hh. split; [by apply (Hsub k)|]. by apply (i_apart _ _ _ _ I i k).
  - rewrite Forall_forall in Hall |- *. intros d Hd. destruct (decide (d = c)) as [->|Hdc].
    + exists (v + 1). rewrite lookup_insert_eq. split; [done|]. destruct (Hall c Hc) as (w & Hw & ?). replace v with w by congruence. lia.
    + rewrite lookup_insert_ne by done. by apply Hall.
  - rewrite (sumj_up m jc c v), Hj by done. lia.
Qed.

Lemma all_counts : Z.of_nat (THREADCOUNT * LOOPSIZE) = 10000.
Proof. vm_compute. reflexivity. Qed.

(** The counters' [int] does not overflow. *)
Lemma inv_room s ps gs m : inv s ps gs m -> 2 * numcounters s + 2 <= INT_MAX.
Proof.
  intros I. pose proof (i_num _ _ _ _ I) as H.
  assert (Z.of_nat (JOINTCOUNTERS + THREADCOUNT * thread_steps) <= 1000000) as Hb by (vm_compute; discriminate).
  unfold INT_MAX. lia.
Qed.

(** The calls of a thread are within the contract of the counters. *)
Lemma wp_legal s ps gs m i g o k n :
  inv s ps gs m -> gs !! i = Some g -> wp (Call o k) (S n) (g_j g) (g_own g) -> legal m o.
Proof.
  intros I Hg Hwp.
  assert (forall c v, g_own g !! c = Some v -> m !! c = Some v) as Hin
    by (intros c v Hc; exact (lookup_weaken _ _ _ _ Hc (i_own _ _ _ _ I i g Hg))).
  destruct o as [nm d|c|c|c|c|c|c w]; cbn [legal wp] in *; [done| | | | | | ].
  - destruct Hwp as [[v Hc] _]. eauto.
  - destruct Hwp as (v & Hc & _). eauto.
  - destruct Hwp as [(v & Hc & Hb & _)|(Hc & _)]; [eauto|]. pose proof (i_jc _ _ _ _ I) as Hall. rewrite Forall_forall in Hall.
    destruct (Hall c Hc) as (v & Hv & Hpos). exists v. split; [done|].
    destruct (sumj_bound m jc c v (i_jc _ _ _ _ I)) as [_ Hle]. specialize (Hle Hc Hv). pose proof (i_sum _ _ _ _ I) as Hsum.
    rewrite all_counts in Hsum. unfold INT64_MIN, INT64_MAX. lia.
  - destruct Hwp as (v & Hc & Hb & _). eauto.
  - destruct Hwp as (v & Hc & _). eauto.
  - destruct Hwp as (v & Hc & _). eauto.
Qed.

(** A call of a thread returns, and what the threads own stays apart. *)
Lemma call_inv s ps gs m i o k :
  NoDup jc -> inv s ps gs m -> ps !! i = Some (Call o k) ->
  exists r s' gs' m', call o s = Ok (r, s') /\ inv s' (<[i := k r]> ps) gs' m' /\
    sum_list_with g_n gs = S (sum_list_with g_n gs').
Proof.
  intros Hnd I Hp. destruct (Forall2_lookup_l _ _ _ _ _ (i_wp _ _ _ _ I) Hp) as (g & Hg & Hwp).
  pose proof (i_own _ _ _ _ I i g Hg) as Hown. pose proof (inv_room _ _ _ _ I) as Hroom. pose proof (i_rel _ _ _ _ I) as R.
  assert (forall c v, g_own g !! c = Some v -> m !! c = Some v) as Hin by (intros c v Hc; exact (lookup_weaken _ _ _ _ Hc Hown)).
  assert (forall c v, g_own g !! c = Some v -> c ∉ jc) as Hout.
  { intros c v Hc Hj. by rewrite (i_joint _ _ _ _ I i g c Hg Hj) in Hc. }
  destruct (g_n g) as [|n'] eqn:En; [by destruct o|].
  pose proof (wp_legal s ps gs m i g o k n' I Hg Hwp) as L.
  destruct (call_refines s m o R L Hroom) as (r & s' & m' & Ec & Hs & R' & Hnum).
  assert (exists gs', inv s' (<[i := k r]> ps) gs' m' /\ sum_list_with g_n gs = S (sum_list_with g_n gs')) as (gs' & ? & ?); [|by exists r, s', gs', m'].
  assert (forall c, m !! c = None -> c ∉ jc) as Hnew.
  { intros c Hc Hj. pose proof (i_jc _ _ _ _ I) as Hall. rewrite Forall_forall in Hall. destruct (Hall c Hj) as (v & Hv & _). congruence. }
  assert (forall c v x w, g_own g !! c = Some v -> rel s' (<[c := x]> m) -> wp (k w) n' (g_j g) (<[c := x]> (g_own g)) ->
    exists gs', inv s' (<[i := k w]> ps) gs' (<[c := x]> m) /\ sum_list_with g_n gs = S (sum_list_with g_n gs')) as changed.
  { intros c v x w Hc Hr Hw. apply (inv_own s s' ps gs m _ i g _ n' (<[c := x]> (g_own g)) c); try done;
      [by eapply Hout | left; eauto | intros e He; by rewrite lookup_insert_ne.. | by rewrite !lookup_insert_eq]. }
  clear L. cbn [wp] in Hwp. inversion Hs; subst; clear Hs.
  - apply (inv_own s s' ps gs m _ i g _ n' (<[r := 0]> (g_own g)) r); try done; [| |by right| | |by rewrite !lookup_insert_eq].
    + apply Hwp; [by apply (lookup_weaken_None _ m)|]. by apply Hnew.
    + by apply Hnew.
    + intros e He. by rewrite lookup_insert_ne.
    + intros e He. by rewrite lookup_insert_ne.
  - destruct Hwp as [[v Hc] Hwp]. apply (inv_own s s' ps gs m _ i g _ n' (delete i0 (g_own g)) i0); try done;
      [by eapply Hout | left; eauto | intros e He; by rewrite lookup_delete_ne.. | by rewrite !lookup_delete_eq].
  - destruct Hwp as (v & Hc & Hwp). apply (inv_own s s' ps gs m' m' i g _ n' (g_own g) i0); try done;
      [by replace r with v by (apply Hin in Hc; congruence) | by eapply Hout | left; eauto | by rewrite Hc, (Hin _ _ Hc)].
  - destruct Hwp as [(v' & Hc & _ & Hwp)|(Hc & j' & Hj & Hwp)].
    + replace v with v' in * by (apply Hin in Hc; congruence). by eapply changed.
    + by apply (inv_joint s s' ps gs m i g _ n' j').
  - destruct Hwp as (v' & Hc & _ & Hwp). replace v with v' in * by (apply Hin in Hc; congruence). by eapply changed.
  - destruct Hwp as (v' & Hc & Hwp). replace r with v' in * by (apply Hin in Hc; congruence). by eapply changed.
  - destruct Hwp as (v' & Hc & Hwp). replace r with v' in * by (apply Hin in Hc; congruence). by eapply changed.
Qed.

(** No thread is stuck or makes a fault. *)
Lemma thread_can s ps gs m i p :
  NoDup jc -> inv s ps gs m -> ps !! i = Some p ->
  p = Exit 0 \/ exists p' s', prog_step p s p' s'.
Proof.
  intros Hnd I Hp. destruct p as [e|o k|k].
  - left. destruct (Forall2_lookup_l _ _ _ _ _ (i_wp _ _ _ _ I) Hp) as (g & _ & Hwp). cbn [wp] in Hwp.
    destruct (g_n g); [|done]. destruct Hwp as [-> _]. done.
  - right. destruct (call_inv s ps gs m i o k Hnd I Hp) as (r & s' & _ & _ & E & _). exists (k r), s'. by constructor.
  - right. exists (k 0), s. by constructor.
Qed.

Lemma step_inv s ps gs m i p p' s' :
  NoDup jc -> inv s ps gs m -> ps !! i = Some p -> prog_step p s p' s' ->
  exists gs' m', inv s' (<[i := p']> ps) gs' m' /\ sum_list_with g_n gs = S (sum_list_with g_n gs').
Proof.
  intros Hnd I Hp Hs. destruct Hs as [o k s r s' E|k s r Hr].
  - destruct (call_inv s ps gs m i o k Hnd I Hp) as (r' & s'' & gs' & m' & E' & I' & Hn).
    rewrite E in E'. injection E' as <- <-. eauto.
  - destruct (Forall2_lookup_l _ _ _ _ _ (i_wp _ _ _ _ I) Hp) as (g & Hg & Hwp). cbn [wp] in Hwp.
    destruct (g_n g) as [|n'] eqn:En; [done|].
    pose proof (sum_insert g_n gs i g (Ghost n' (g_j g) (g_own g)) Hg) as Hn'. cbn [g_n] in Hn'.
    exists (<[i := Ghost n' (g_j g) (g_own g)]> gs), m. split; [|lia].
    apply (owns_step s s ps gs m m i g); try done; [apply (i_rel _ _ _ _ I) | lia | by apply Hwp | by apply (i_own _ _ _ _ I i) | | | apply (i_jc _ _ _ _ I)].
    + intros c Hc. by apply (i_joint _ _ _ _ I i).
    + intros l h Hl Hh. split; [by apply (i_own _ _ _ _ I l)|]. by apply (i_apart _ _ _ _ I i l).
Qed.

Lemma run_inv n t t' gs m :
  NoDup jc -> nsteps step n t t' -> inv (x_counters t) (x_threads t) gs m ->
  exists gs' m', inv (x_counters t') (x_threads t') gs' m' /\ (sum_list_with g_n gs = n + sum_list_with g_n gs')%nat.
Proof.
  intros Hnd Hs. revert gs m. induction Hs as [t|n t1 t2 t3 H12 _ IH]; intros gs m I; [by exists gs, m|].
  destruct H12 as [s ps i p p' s' Hp Hst]. cbn [x_counters x_threads] in *.
  destruct (step_inv s ps gs m i p p' s' Hnd I Hp Hst) as (gs1 & m1 & I1 & H1). destruct (IH gs1 m1 I1) as (gs2 & m2 & I2 & H2).
  exists gs2, m2. split; [done | lia].
Qed.

(** The threads have ended when no step is left. *)
Lemma ended_iff ps gs :
  Forall2 (fun p g => wp p (g_n g) (g_j g) (g_own g)) ps gs ->
  (Forall (eq (Exit 0)) ps <-> sum_list_with g_n gs = O) /\ (Forall (eq (Exit 0)) ps -> sum_list_with g_j gs = O).
Proof.
  induction 1 as [|p g ps gs Hp _ [IH1 IH2]]; [done|]. cbn [sum_list_with]. rewrite Forall_cons. split; [split|].
  - intros [<- Hps]. cbn in Hp. destruct (g_n g); [|done]. by apply IH1.
  - intros Hs. destruct (g_n g); [|done]. destruct p as [e| |]; [|by destruct o|done]. destruct Hp as [-> _].
    split; [done|]. by apply IH1.
  - intros [<- Hps]. cbn in Hp. destruct (g_n g); [|done]. destruct Hp as [_ ->]. by apply IH2.
Qed.

(** [main] adds the joint counters up. *)
Lemma sum_joint_ok s m l sum :
  rel s m -> Forall (fun c => exists v, m !! c = Some v /\ 0 <= v) l -> 2 * numcounters s + 2 <= INT_MAX ->
  0 <= sum -> sum + sumj m l <= INT_MAX -> exists s', sum_joint l sum s = Ok (sum + sumj m l, s').
Proof.
  intros R Hl. revert s R sum. induction Hl as [|c l (v & Hv & Hpos) Hl IH]; intros s R sum Hn Hs Hb.
  - exists s. cbn. by rewrite Z.add_0_r.
  - change (sumj m (c :: l)) with (default 0 (m !! c) + sumj m l) in *. rewrite Hv in *. cbn [default] in *.
    destruct (sumj_bound m l c v Hl) as [Hge _].
    destruct (call_refines s m (Read c) R) as (r & s' & m' & Ec & Hst & R' & Hk); [by exists v | done|].
    assert (s' = s /\ m' = m /\ r = v) as (-> & -> & ->).
    { inversion Hst; subst. split_and!; [|done|congruence]. cbn in Ec. unfold counter_read, counterbyid, object, st_bind, st_lift, st_ret, st_get in Ec.
      repeat (case_match; simplify_eq; try done). }
    cbn [sum_joint]. cbn [call] in Ec. rewrite (st_bind_ok _ _ _ _ _ Ec).
    unfold Datatypes.id in *.
    destruct (IH s R (sum + v) Hn) as (s' & Hs'); [lia | lia |]. exists s'.
    unfold st_bind at 1, st_lift. rewrite int_val_ok by (unfold INT_MIN; lia). rewrite Hs'. by rewrite Z.add_assoc.
Qed.

Lemma join_ok ps : Forall (eq (Exit 0)) ps -> join ps jc = join [] jc.
Proof. induction 1 as [|p ps <- _ IH]; [done|]. exact IH. Qed.

End Logic.

(** ** The test passes *)

Lemma create_joint_ok n s m :
  rel s m -> numcounters s + Z.of_nat n <= 1000 ->
  exists l s' m', create_joint n s = Ok (l, s') /\ length l = n /\ NoDup l /\ rel s' m' /\
    Forall (fun c => m' !! c = Some 0 /\ m !! c = None) l /\ m ⊆ m' /\ numcounters s' <= numcounters s + Z.of_nat n.
Proof.
  revert s m. induction n as [|n IH]; intros s m R Hb.
  { exists [], s, m. split_and!; try done; [apply NoDup_nil_2 | lia]. }
  destruct (call_refines s m (Create (Some (cs "jc")) (Some (cs "joint counter"))) R I) as (c & s1 & m1 & E & Hs & R1 & H1); [unfold INT_MAX; lia|].
  inversion Hs as [? ? ? Hc| | | | | |]; subst. cbn [call] in E.
  destruct (IH s1 (<[c := 0]> m) R1 ltac:(lia)) as (l & s2 & m2 & E2 & Hl & Hn & R2 & Ha & Hsub & H2).
  exists (c :: l), s2, m2. split_and!; [| by cbn; rewrite Hl | | done | | | lia].
  - cbn [create_joint]. rewrite (st_bind_ok _ _ _ _ _ E), (st_bind_ok _ _ _ _ _ E2). done.
  - apply NoDup_cons_2; [|done]. intros Hin. rewrite Forall_forall in Ha. destruct (Ha c Hin) as [_ Hx]. by rewrite lookup_insert_eq in Hx.
  - apply Forall_cons_2; [split; [|done]; eapply lookup_weaken; [apply lookup_insert_eq | exact Hsub]|].
    eapply Forall_impl; [exact Ha|]. intros d [? Hd]. split; [done|]. apply lookup_insert_None in Hd. tauto.
  - etransitivity; [by apply insert_subseteq | exact Hsub].
Qed.

Lemma sum_replicate {A} (f : A -> nat) n x : sum_list_with f (replicate n x) = (n * f x)%nat.
Proof. induction n as [|n IH]; [done|]. cbn [replicate sum_list_with]. rewrite IH. done. Qed.

(** The start: every thread has everything to do and owns nothing. *)
Lemma start_inv :
  exists jc s m, start = Ok (jc, Test s (replicate THREADCOUNT (countertest jc))) /\ NoDup jc /\
    inv jc s (replicate THREADCOUNT (countertest jc)) (replicate THREADCOUNT (Ghost thread_steps LOOPSIZE ∅)) m.
Proof.
  destruct (create_joint_ok JOINTCOUNTERS state0 ∅ rel0) as (jc & s & m & E & Hl & Hn & R & Ha & _ & Hnum); [done|].
  exists jc, s, m. unfold start. rewrite E. split; [done|]. split; [done|].
  assert (forall i g, replicate THREADCOUNT (Ghost thread_steps LOOPSIZE ∅) !! i = Some g -> g_own g = ∅) as Hg.
  { intros i g Hi. by apply lookup_replicate in Hi as [-> _]. }
  constructor.
  - done.
  - apply Forall2_replicate. by apply wp_countertest.
  - intros i g Hi. rewrite (Hg i g Hi). apply map_empty_subseteq.
  - intros i j g h _ Hi Hj. rewrite (Hg i g Hi). apply map_disjoint_empty_l.
  - intros i g c Hi _. by rewrite (Hg i g Hi).
  - eapply Forall_impl; [exact Ha|]. intros c [Hc _]. exists 0. split; [exact Hc | reflexivity].
  - rewrite sum_replicate. cbn [g_j].
    assert (sumj m jc = 0) as ->; [|lia]. clear -Ha. induction Ha as [|c l [Hc _] _ IH]; [done|].
    change (sumj m (c :: l)) with (default 0 (m !! c) + sumj m l). by rewrite Hc, IH.
  - rewrite sum_replicate. cbn [g_n]. cbn [numcounters state0] in Hnum. lia.
Qed.

(** C32: the test of the counters passes however its threads are interleaved and
    whatever random numbers they draw: [main] makes the joint counters, no thread
    is ever stuck or at fault, the run ends after [THREADCOUNT * thread_steps]
    steps and not before, every thread finds in its counters the numbers it
    counted itself, and [main] then finds that no count of a joint counter is
    lost, and returns 0. *)
Theorem counter_test_passes :
  exists jc t0, start = Ok (jc, t0) /\
    forall n t, nsteps step n t0 t ->
      (forall i p, x_threads t !! i = Some p -> p = Exit 0 \/ exists p' s', prog_step p (x_counters t) p' s') /\
      (n <= THREADCOUNT * thread_steps)%nat /\
      (n = THREADCOUNT * thread_steps <-> Forall (eq (Exit 0)) (x_threads t))%nat /\
      (Forall (eq (Exit 0)) (x_threads t) ->
        exists main s', join (x_threads t) jc = Some main /\ main (x_counters t) = Ok (0, s')).
Proof.
  destruct start_inv as (jc & s0 & m0 & E & Hnd & I0). eexists jc, _. split; [exact E|]. intros n t Hn.
  destruct (run_inv jc n _ t _ m0 Hnd Hn I0) as (gs & m & I & Hsum). rewrite sum_replicate in Hsum. cbn [g_n] in Hsum.
  destruct (ended_iff jc _ _ (i_wp _ _ _ _ _ I)) as [He Hj]. split_and!.
  - intros i p. by apply (thread_can jc _ _ gs m).
  - lia.
  - rewrite He. lia.
  - intros Hd. pose proof (i_sum _ _ _ _ _ I) as Hs. rewrite (Hj Hd), Z.add_0_r in Hs.
    destruct (sum_joint_ok _ m jc 0 (i_rel _ _ _ _ _ I) (i_jc _ _ _ _ _ I) (inv_room _ _ _ _ _ I)) as (s' & Es); [done | rewrite Hs, all_counts; done|].
    eexists _, s'. rewrite join_ok by done. split; [reflexivity|]. rewrite (st_bind_ok _ _ _ _ _ Es), Z.add_0_l, Hs, Z.eqb_refl. done.
Qed.

