(* ===== verification/BloomTest.v ===== *)
(** * The test of the filters ([src/src/bloom-test.c]) and what only it uses of [bloom.c]

    The size of a filter for a number of entries ([optimal_size]), the printing
    of filters, and the test program: single filters, merging, groups, rings in
    memory and in a state file, and the stress test.  The libm functions behind
    [bloom_required_size] are a parameter, and so is what [malloc] finds in the
    memory.  What the program prints on the way is left out; a ring that was
    built is read from its block ([StateFile.ring_at]). *)

From S2P Require Import Prelude Print Sha256 Bloom StateFile.

(** ** Printing *)

Definition bit_char (b : bool) : ascii := if b then "1"%char else "0"%char.

Definition newline (with_newline : bool) : cstr := if with_newline then [nl] else [].

(** [for (i = 31; i >= 0; i--)] *)
Definition debug_print_bits (value : Z) (with_newline : bool) : cstr :=
  ((fun i => bit_char (negb (Z.land (Z.shiftr (s32 value) (Z.of_nat i)) 1 =? 0))) <$> rev (seq 0 32)) ++ newline with_newline.

Definition debug_print_filter (f : bloom_filter_t) (with_newline : bool) : Res cstr :=
  out ← for_loop (Z.to_nat (bf_size f)) (fun i out => w ← aget (bf_filter f) (Z.of_nat i); Ok (out ++ debug_print_bits w false)) [];
  Ok (out ++ newline with_newline).

Definition debug_print_array_index (index : array_index_t) (with_newline : bool) : cstr :=
  cs "array index=" ++ sdec (s32 (array_idx index)) ++ cs " intra index=" ++ sdec (s32 (intra_index index)) ++ newline with_newline.

Definition debug_print_bit_up (array : list Z) (bit_index : Z) (with_newline : bool) : Res cstr :=
  bit ← get_bit array bit_index;
  Ok (cs "bit " ++ sdec (s32 bit_index) ++ cs " at (" ++ debug_print_array_index (array_index bit_index) false ++
      cs ") is " ++ sdec (s32 bit) ++ newline with_newline).

Definition debug_print_ring_queue (brq : bloom_ring_queue_t) (with_newline : bool) : Res cstr :=
  agg ← debug_print_filter (brq_aggregate brq) true;
  out ← for_loop (Z.to_nat (group_size (brq_group brq))) (fun i out =>
          f ← aget (filter_group (brq_group brq)) (Z.of_nat i);
          t ← debug_print_filter f true;
          Ok (out ++ cs "Filter " ++ sdec (s32 (Z.of_nat i)) ++ cs ": " ++ t)) (cs "Aggregate: " ++ agg);
  Ok (out ++ newline with_newline).

(** ** Sizes *)

(** [required n] is [bloom_required_size(c, NUM_HASH, n)]. *)
Fixpoint size_loop (required : Z -> Z) (native_size : Z) (turns : nat) (result : Z) : Res Z :=
  match turns with
  | O => Fail Undefined          (* unreachable() *)
  | S turns =>
      n ← shl_int 1 result;
      if native_size <=? required n then Ok result else size_loop required native_size turns (result + 1)
  end.

Definition optimal_size (required : Z -> Z) (n : Z) : Res Z :=
  size_loop required (required n) (Z.to_nat (BITARRAY_BASE_SIZE - 1)) 1.

(** ** The test *)

Section Test.
Context (le : bool) (junk : nat -> nat -> Z).

Definition digest (message : cstr) : Res sha_256_t :=
  match sha256_string le message with Some d => Ok d | None => Fail Undefined end.

(** [sprintf(test, "%d", i)], hashed *)
Definition number (i : nat) : Res sha_256_t := digest (sdec (Z.of_nat i)).

Definition error_unless (b : bool) (error_count : Z) : Z := if b then error_count else error_count + 1.
Definition error_if (b : bool) (error_count : Z) : Z := if b then error_count + 1 else error_count.

Definition SIZES : list (Z * Z) :=
  [(1000, 10); (2000, 11); (3000, 12); (4000, 12); (5000, 13); (8000, 13); (9000, 14); (16000, 14); (17000, 15);
   (32000, 15); (33000, 16); (65000, 16); (66000, 17); (131000, 17); (132000, 18); (262000, 18); (263000, 19);
   (524000, 19); (525000, 20); (1048000, 20); (1049000, 21)].

Fixpoint test_sizes (required : Z -> Z) (l : list (Z * Z)) (error_count : Z) : Res Z :=
  match l with
  | [] => Ok error_count
  | (n, expected) :: l => s ← optimal_size required n; test_sizes required l (error_unless (s =? expected) error_count)
  end.

(** Insertion with a 7-bit filter, and false positives *)
Definition test_filter (error_count : Z) : Res Z :=
  bf ← create_bloom_filter (junk 0%nat) 7;
  '(bf, error_count) ← for_loop 16 (fun i '(bf, error_count) =>
      d ← number i;
      bf ← insert_digest bf d;
      b ← is_in_array bf d;
      Ok (bf, error_unless b error_count)) (bf, error_count);
  for_loop 15 (fun i error_count =>
      d ← number (17 + i);
      b ← is_in_array bf d;
      Ok (error_if b error_count)) error_count.

Definition test_merge (error_count : Z) : Res Z :=
  bf ← create_bloom_filter (junk 0%nat) 7;
  bf2 ← create_bloom_filter (junk 1%nat) 7;
  omena ← digest (cs "omena");
  b ← is_in_array bf omena;
  let error_count := error_if b error_count in
  bf ← insert_digest bf omena;
  b ← is_in_array bf2 omena;
  let error_count := error_if b error_count in
  luumu ← digest (cs "luumu");
  bf2 ← insert_digest bf2 luumu;
  bf2 ← add_filter bf2 bf;
  b ← is_in_array bf2 omena;
  let error_count := error_unless b error_count in
  appelsiini ← digest (cs "appelsiini");
  b ← is_in_array bf2 appelsiini;
  Ok (error_if b error_count).

Definition test_group (error_count : Z) : Res Z :=
  bfg ← create_bloom_filter_group junk 8 8;
  bfg ← for_loop 64 (fun i bfg =>
      d ← number i;
      insert_digest_to_group_member bfg (Z.of_nat i mod (group_size bfg - 1) + 1) d) bfg;
  bfg ← for_loop (Z.to_nat (group_size bfg - 1)) (fun i bfg =>
      f ← aget (filter_group bfg) (Z.of_nat i + 1);
      with_member bfg 0 (fun f0 => add_filter f0 f)) bfg;
  f0 ← aget (filter_group bfg) 0;
  for_loop 64 (fun i error_count =>
      d ← number i;
      b ← is_in_array f0 d;
      Ok (error_unless b error_count)) error_count.

(** [k] numbers, with a rotation before every [slot] of them *)
Definition fill (k slot : nat) (brq : bloom_ring_queue_t) : Res bloom_ring_queue_t :=
  for_loop k (fun i brq =>
      brq ← if (i mod slot =? 0)%nat then rotate_bloom_ring_queue (junk i) brq else Ok brq;
      d ← number i;
      insert_digest_bloom_ring_queue brq d) brq.

Definition test_inclusion (k : nat) (brq : bloom_ring_queue_t) (error_count : Z) : Res Z :=
  for_loop k (fun i error_count =>
      d ← number i;
      b ← is_in_ring_queue brq d;
      Ok (error_unless b error_count)) error_count.

(** Both inner loops test [i], not [j], and the second one starts where it
    should end. *)
Definition test_removal (slot : nat) (brq : bloom_ring_queue_t) (error_count : Z) : Res Z :=
  '(_, error_count) ← for_loop slot (fun i '(brq, error_count) =>
      brq ← rotate_bloom_ring_queue (junk i) brq;
      error_count ← for_loop ((i + 1) * slot - i) (fun _ error_count =>
          d ← number i;
          b ← is_in_ring_queue brq d;
          Ok (error_if b error_count)) error_count;
      error_count ← for_loop (slot - (i + 1) * slot) (fun _ error_count =>
          d ← number i;
          b ← is_in_ring_queue brq d;
          Ok (error_unless b error_count)) error_count;
      Ok (brq, error_count)) (brq, error_count);
  Ok error_count.

Definition test_ring (brq : bloom_ring_queue_t) (error_count : Z) : Res Z :=
  let k := 128%nat in
  brq ← fill k (k / 8) brq;
  error_count ← test_inclusion k brq error_count;
  test_removal (k / 8) brq error_count.

Definition stress_test (brq : bloom_ring_queue_t) (error_count : Z) : Res Z :=
  brq ← fill (Z.to_nat 1000000) (Z.to_nat 100000) brq;
  test_inclusion (Z.to_nat 1000000) brq error_count.

(** [main]: the addresses are where [malloc] and [mmap] put the three rings. *)
Definition bloom_test (required : Z -> Z) (in_memory in_file stress now : Z) : Res Z :=
  error_count ← test_sizes required SIZES 0;
  error_count ← test_filter error_count;
  error_count ← test_merge error_count;
  error_count ← test_group error_count;
  '(p, m) ← build_bloom_ring le (InMemory (junk 2%nat)) in_memory now 8 21;
  brq ← ring_at le p m;
  error_count ← test_ring brq error_count;
  contents ← create_statefile None 8 21;
  '(p, m) ← build_bloom_ring le (InFile false (Some contents)) in_file now 8 21;
  brq ← ring_at le p m;
  error_count ← test_ring brq error_count;
  '(p, m) ← build_bloom_ring le (InMemory (junk 3%nat)) stress now 10 22;
  brq ← ring_at le p m;
  error_count ← stress_test brq error_count;
  Ok (if 0 <? error_count then 1 else 0).

End Test.

(** ** Printed bits *)

Definition bin_value (l : cstr) (acc : Z) : Z := foldl (fun z c => 2 * z + (if chr_eqb c "1" then 1 else 0)) acc l.

Lemma print_bits_value v n acc :
  bin_value ((fun i => bit_char (negb (Z.land (Z.shiftr v (Z.of_nat i)) 1 =? 0))) <$> rev (seq 0 n)) acc =
    acc * 2 ^ Z.of_nat n + v mod 2 ^ Z.of_nat n.
Proof.
  revert acc. induction n as [|n IH]; intros acc; [cbn; rewrite Z.mod_1_r; lia|].
  rewrite seq_S, rev_app_distr. cbn [Nat.add rev app fmap list_fmap]. unfold bin_value in *. cbn [foldl]. rewrite IH. clear IH.
  assert (forall b, (if chr_eqb (bit_char b) "1" then 1 else 0) = Z.b2z b) as -> by (by intros []).
  assert (Z.land (Z.shiftr v (Z.of_nat n)) 1 = (v / 2 ^ Z.of_nat n) mod 2) as ->
    by (change 1 with (Z.ones 1); by rewrite Z.land_ones, Z.shiftr_div_pow2 by lia).
  replace (Z.of_nat (S n)) with (Z.of_nat n + 1) by lia. rewrite Z.pow_add_r, (Z.rem_mul_r v) by lia. change (2 ^ 1) with 2.
  pose proof (Z.mod_pos_bound (v / 2 ^ Z.of_nat n) 2 ltac:(lia)) as Hm.
  assert (Z.b2z (negb ((v / 2 ^ Z.of_nat n) mod 2 =? 0)) = (v / 2 ^ Z.of_nat n) mod 2) as ->
    by (destruct (Z.eqb_spec ((v / 2 ^ Z.of_nat n) mod 2) 0); cbn; lia).
  lia.
Qed.

Lemma s32_mod v : s32 v mod 2 ^ 32 = u32 v.
Proof.
  unfold s32, u32. rewrite Zminus_mod_idemp_l. f_equal. lia.
Qed.

(** A printed filter shows every bit of every word: reading the 32 characters of
    a word back gives the word. *)
Theorem printed_filter_reads_back nb f :
  5 <= nb <= 30 -> wf_filter nb f ->
  exists out, debug_print_filter f false = Ok out /\ Z.of_nat (length out) = 2 ^ nb /\
    forall i w, bf_filter f !! i = Some w -> bin_value (take 32 (drop (32 * i) out)) 0 = w.
Proof.
  intros Hnb (Hb & Hm & Hs & Hl & Hu). unfold debug_print_filter.
  destruct (for_loop_inv (fun n out => length out = (32 * n)%nat /\
      forall i w, (i < n)%nat -> bf_filter f !! i = Some w -> bin_value (take 32 (drop (32 * i) out)) 0 = w) (Z.to_nat (bf_size f))
    (fun i out => w ← aget (bf_filter f) (Z.of_nat i); Ok (out ++ debug_print_bits w false)) []) as (out & -> & Hlen & Hw).
  - split; [done | lia].
  - intros n out Hn [Hlen Hw]. destruct (lookup_lt_is_Some_2 (bf_filter f) n ltac:(lia)) as [v Hv].
    rewrite (aget_Ok _ _ v) by (lia || by rewrite Nat2Z.id). cbn [rbind]. eexists. split; [done|].
    unfold debug_print_bits. cbn [newline]. rewrite app_nil_r. split.
    { rewrite length_app, length_fmap, length_rev, length_seq. lia. }
    intros i w Hi Hiw. destruct (decide (i = n)) as [->|Hne].
    + rewrite drop_app_ge, Hlen, Nat.sub_diag, drop_0, take_ge by (rewrite ?length_fmap, ?length_rev, ?length_seq; lia).
      rewrite print_bits_value. change (Z.of_nat 32) with 32. rewrite Z.mul_0_l, Z.add_0_l, s32_mod, u32_id; [congruence|].
      exact (Forall_lookup_1 is_u32 _ _ _ Hu Hv).
    + rewrite drop_app_le by lia. rewrite take_app_le by (rewrite length_drop; lia). apply Hw; [lia | done].
  - cbn [rbind newline]. rewrite app_nil_r. exists out. split; [done|]. split; [rewrite Hlen, (pow_split nb Hnb); lia|].
    intros i w Hi. apply Hw; [|done]. apply lookup_lt_Some in Hi. lia.
Qed.

(** ** Sizes *)

(** As long as a larger number of entries requires a larger filter, the size is
    the logarithm, rounded up. *)
Lemma size_loop_log required n turns r :
  (forall a b, 0 < a < b -> b <= 2 ^ 28 -> required a < required b) -> 1 < n <= 2 ^ 28 ->
  1 <= r <= Z.log2_up n -> Z.log2_up n < r + Z.of_nat turns ->
  size_loop required (required n) turns r = Ok (Z.log2_up n).
Proof.
  intros Hreq Hn. revert r. induction turns as [|turns IH]; intros r Hr Ht; [lia|].
  assert (Z.log2_up n <= 28) as H28 by (rewrite <-(Z.log2_up_pow2 28) by lia; apply Z.log2_up_le_mono; lia).
  destruct (Z.log2_up_spec n ltac:(lia)) as [Hlo Hhi].
  cbn [size_loop]. unfold shl_int. rewrite (proj2 (Z.leb_le 0 r)), (proj2 (Z.ltb_lt r 32)) by lia. cbn [andb].
  assert (2 ^ r <= 2 ^ 28) as Hp by (apply Z.pow_le_mono_r; lia).
  assert (2 ^ 28 = 268435456) as E28 by done. assert (0 < 2 ^ r) as Hpos by (apply Z.pow_pos_nonneg; lia).
  rewrite Z.shiftl_1_l, int_val_ok by (unfold INT_MIN, INT_MAX; lia). cbn [rbind].
  destruct (decide (r = Z.log2_up n)) as [->|Hne].
  - rewrite (proj2 (Z.leb_le _ _)); [done|]. destruct (decide (n = 2 ^ Z.log2_up n)) as [<-|]; [done|].
    apply Z.lt_le_incl, Hreq; lia.
  - assert (2 ^ r <= 2 ^ Z.pred (Z.log2_up n)) by (apply Z.pow_le_mono_r; lia).
    rewrite (proj2 (Z.leb_gt _ _)) by (apply Hreq; lia). apply IH; lia.
Qed.

Lemma optimal_size_log required n :
  (forall a b, 0 < a < b -> b <= 2 ^ 28 -> required a < required b) -> 1 < n <= 2 ^ 28 ->
  optimal_size required n = Ok (Z.log2_up n).
Proof.
  intros Hreq Hn. apply size_loop_log; [done | done | |].
  - pose proof (Z.log2_up_pos n). lia.
  - assert (Z.log2_up n <= 28) as H28 by (rewrite <-(Z.log2_up_pow2 28) by lia; apply Z.log2_up_le_mono; lia).
    change (Z.of_nat (Z.to_nat (BITARRAY_BASE_SIZE - 1))) with 31. lia.
Qed.

(** ** What the test sees *)

Lemma pretty_length x s : (String.length (pretty.pretty_N_go x s) <= N.to_nat x + String.length s)%nat.
Proof.
  revert s. induction (N.lt_wf_0 x) as [x _ IH]. intros s. destruct (decide (x = 0%N)) as [->|Hx]; [done|].
  rewrite pretty.pretty_N_go_step by lia. assert (x / 10 < x)%N as Hlt by (apply N.div_lt; lia).
  etransitivity; [by apply IH|]. cbn [String.length]. lia.
Qed.

Lemma cs_length t : length (cs t) = String.length t.
Proof. induction t as [|c t IH]; cbn; [done|]. by rewrite <-IH. Qed.

Lemma sdec_length z : 0 <= z -> Z.of_nat (length (sdec z)) <= z + 1.
Proof.
  intros Hz. unfold sdec. rewrite cs_length. destruct z as [|x|x]; [done| |lia].
  change (pretty.pretty (Z.pos x)) with (pretty.pretty_N_go (N.pos x) ""). pose proof (pretty_length (N.pos x) "") as H. cbn in H |- *. lia.
Qed.

Definition word (message : cstr) : sha_256_t := Fips.sha256 (byte_of <$> message).
Definition D (i : nat) : sha_256_t := word (sdec (Z.of_nat i)).

(** The positions of the numbers from [a] up to [b]. *)
Definition window (nb : Z) (a b : nat) : gset Z := ⋃ ((fun i => digest_bits nb (D i)) <$> seq a (b - a)).

Lemma elem_of_window nb a b x : x ∈ window nb a b <-> exists i, (a <= i < b)%nat /\ x ∈ digest_bits nb (D i).
Proof.
  unfold window. rewrite elem_of_union_list. split.
  - intros (X & HX & Hx). apply list_elem_of_fmap in HX as (i & -> & Hi). apply elem_of_seq in Hi. exists i. split; [lia | done].
  - intros (i & Hi & Hx). exists (digest_bits nb (D i)). split; [|done]. apply list_elem_of_fmap. exists i. split; [done|]. apply elem_of_seq. lia.
Qed.

Lemma window_S nb b : window nb 0 (S b) = digest_bits nb (D b) ∪ window nb 0 b.
Proof.
  apply set_eq. intros x. rewrite elem_of_union, !elem_of_window. split.
  - intros (i & Hi & Hx). destruct (decide (i = b)) as [->|]; [by left|]. right. exists i. split; [lia | done].
  - intros [Hx|(i & Hi & Hx)]; [exists b | exists i]; (split; [lia | done]).
Qed.

(** A digest has positions, so it is not in an empty filter. *)
Lemma not_in_empty nb d : bool_decide (digest_bits nb d ⊆ ∅) = false.
Proof. apply bool_decide_eq_false. unfold digest_bits, digest_words. cbn [fmap list_fmap list_to_set]. set_solver. Qed.

(** The numbers the test should not find and finds, by part of the test. *)
Definition wrong (b : bool) : Z := if b then 1 else 0.

Definition false_filter : Z := sumZ (fun i => wrong (bool_decide (digest_bits 7 (D (17 + i)) ⊆ window 7 0 16))) (seq 0 15).
Definition false_merge : Z :=
  wrong (bool_decide (digest_bits 7 (word (cs "appelsiini")) ⊆ digest_bits 7 (word (cs "luumu")) ∪ digest_bits 7 (word (cs "omena")))).
Definition false_ring : Z :=
  sumZ (fun i => Z.of_nat ((i + 1) * 16 - i) * wrong (bool_decide (digest_bits 21 (D i) ⊆ window 21 ((i + 1) * 16) 128))) (seq 0 16).

Section Verdict.
Context (le : bool) (junk : nat -> nat -> Z).

Lemma digest_ok m : Z.of_nat (length m) + 72 < 2 ^ 32 -> digest le m = Ok (word m).
Proof.
  intros Hm. unfold digest, sha256_string. rewrite sha256_Fips; [done | | by rewrite length_fmap].
  apply Forall_fmap, Forall_true. intros. apply byte_of_range.
Qed.

Lemma number_ok i : Z.of_nat i < 2 ^ 31 -> number le i = Ok (D i).
Proof. intros Hi. apply digest_ok. pose proof (sdec_length (Z.of_nat i) ltac:(lia)). lia. Qed.

Lemma count_loop n body (c : nat -> Z) e :
  (forall i e, (i < n)%nat -> body i e = Ok (e + c i)) -> for_loop n body e = Ok (e + sumZ c (seq 0 n)).
Proof.
  intros Hb. induction n as [|n IH]; [cbn; by rewrite Z.add_0_r|]. cbn [for_loop]. rewrite IH by (intros; apply Hb; lia).
  cbn [rbind]. rewrite Hb by lia. rewrite seq_S, sumZ_app. cbn. f_equal. lia.
Qed.

Lemma error_if_wrong b e : error_if b e = e + wrong b.
Proof. destruct b; cbn; lia. Qed.

Lemma test_sizes_ok required l e :
  (forall a b, 0 < a < b -> b <= 2 ^ 28 -> required a < required b) ->
  Forall (fun p => 1 < p.1 <= 2 ^ 28 /\ Z.log2_up p.1 = p.2) l -> test_sizes required l e = Ok e.
Proof.
  intros Hreq. induction 1 as [|[n x] l [Hn Hx] _ IH]; [done|]. cbn [test_sizes fst snd] in *.
  rewrite optimal_size_log by done. cbn [rbind]. by rewrite Hx, Z.eqb_refl.
Qed.

Lemma test_filter_ok e : test_filter le junk e = Ok (e + false_filter).
Proof.
  unfold test_filter. assert (5 <= 7 <= 30) as H7 by lia. destruct (create_bloom_filter_spec 7 H7 (junk 0%nat)) as (bf & -> & Hbf). cbn [rbind].
  match goal with |- context [for_loop 16 ?f ?s] => destruct (for_loop_inv (fun i st => rep_filter 7 st.1 (window 7 0 i) /\ st.2 = e) 16 f s)
    as ([bf' e'] & -> & Hr & He) end.
  - done.
  - intros i [b0 e0] Hi [Hr He]. cbn [fst snd] in *. rewrite number_ok by lia. cbn [rbind].
    destruct (insert_digest_spec 7 H7 b0 _ (D i) Hr) as (b1 & -> & Hr1). cbn [rbind]. rewrite (is_in_array_spec 7 H7 b1 _ _ Hr1). cbn [rbind].
    eexists. split; [done|]. cbn [fst snd]. rewrite window_S. split; [done|]. rewrite bool_decide_true by apply union_subseteq_l. done.
  - cbn [fst snd rbind] in *. subst e'. apply count_loop. intros i e1 Hi. rewrite number_ok by lia. cbn [rbind].
    rewrite (is_in_array_spec 7 H7 bf' _ _ Hr). cbn [rbind]. by rewrite error_if_wrong.
Qed.

Lemma test_merge_ok e : test_merge le junk e = Ok (e + false_merge).
Proof.
  unfold test_merge. assert (5 <= 7 <= 30) as H7 by lia.
  destruct (create_bloom_filter_spec 7 H7 (junk 0%nat)) as (bf & -> & Hbf). destruct (create_bloom_filter_spec 7 H7 (junk 1%nat)) as (bf2 & -> & Hbf2).
  rewrite !digest_ok by (vm_compute; done). cbn [rbind].
  rewrite (is_in_array_spec 7 H7 bf _ _ Hbf), not_in_empty. cbn [rbind error_if].
  destruct (insert_digest_spec 7 H7 bf _ (word (cs "omena")) Hbf) as (b1 & -> & Hr1). cbn [rbind].
  rewrite (is_in_array_spec 7 H7 bf2 _ _ Hbf2), not_in_empty. cbn [rbind error_if].
  destruct (insert_digest_spec 7 H7 bf2 _ (word (cs "luumu")) Hbf2) as (b2 & -> & Hr2). cbn [rbind].
  rewrite union_empty_r_L in Hr1, Hr2. destruct (add_filter_spec 7 H7 b2 b1 _ _ Hr2 Hr1) as (b3 & -> & Hr3). cbn [rbind].
  rewrite !(is_in_array_spec 7 H7 b3 _ _ Hr3). cbn [rbind]. rewrite (bool_decide_true (digest_bits 7 (word (cs "omena")) ⊆ _)) by apply union_subseteq_r.
  cbn [error_unless]. by rewrite error_if_wrong.
Qed.

(** *** Groups *)

(** The first [n] numbers are in the members they were put in. *)
Definition stored (n : nat) (l : list (gset Z)) : Prop :=
  length l = 8%nat /\ forall i, (i < n)%nat -> exists X, l !! (i mod 7 + 1)%nat = Some X /\ digest_bits 8 (D i) ⊆ X.

Lemma stored_insert n l X Y k :
  stored n l -> l !! k = Some X -> X ⊆ Y -> stored n (<[k := Y]> l).
Proof.
  intros [Hl Hs] Hk HXY. split; [by rewrite length_insert|]. intros i Hi. destruct (Hs i Hi) as (Z & HZ & Hb).
  destruct (decide (k = i mod 7 + 1)%nat) as [->|Hne].
  - exists Y. rewrite list_lookup_insert_eq by (by eapply lookup_lt_Some). split; [done|]. simplify_eq. by etransitivity.
  - exists Z. by rewrite list_lookup_insert_ne.
Qed.

(** Every number in its member. *)
Lemma group_filled g :
  rep_group 8 g (replicate 8 ∅) ->
  exists g' l, for_loop 64 (fun i bfg =>
      d ← number le i; insert_digest_to_group_member bfg (Z.of_nat i mod (group_size bfg - 1) + 1) d) g = Ok g' /\
    rep_group 8 g' l /\ stored 64 l.
Proof.
  intros Hg. assert (5 <= 8 <= 30) as H8 by lia.
  match goal with |- context [for_loop 64 ?f g] =>
    destruct (for_loop_inv (fun n g => exists l, rep_group 8 g l /\ stored n l) 64 f g) as (g1 & -> & l1 & Hg1 & Hs1) end; [| |by exists g1, l1].
  { eexists. split; [exact Hg|]. split; [done | lia]. }
  intros i g1 Hi (l & Hg1 & Hs). rewrite number_ok by lia. cbn [rbind]. pose proof (proj1 Hs) as Hl.
  assert (group_size g1 = 8) as Hsz by (rewrite (proj1 Hg1), Hl; done).
  assert (Z.of_nat i mod (group_size g1 - 1) + 1 = Z.of_nat (i mod 7 + 1)) as ->
    by (rewrite Hsz; change (8 - 1) with (Z.of_nat 7); rewrite <-Nat2Z.inj_mod; lia).
  pose proof (Nat.mod_upper_bound i 7 ltac:(lia)) as Hm.
  destruct (lookup_lt_is_Some_2 l (i mod 7 + 1)%nat ltac:(lia)) as [X HX].
  destruct (with_member_spec 8 g1 l _ X (digest_bits 8 (D i) ∪ X) (fun f => insert_digest f (D i)) Hg1 HX) as (g2 & E2 & Hg2).
  { intros f Hf. by apply insert_digest_spec. }
  exists g2. unfold insert_digest_to_group_member. rewrite (member_range 8 g1 l) by (done || lia). cbn [c_assert rbind]. split; [exact E2|].
  eexists. split; [exact Hg2|]. destruct (stored_insert i l X (digest_bits 8 (D i) ∪ X) _ Hs HX (union_subseteq_r _ _)) as [Hl2 Hs2].
  split; [done|]. intros j Hj. destruct (decide (j = i)) as [->|]; [|apply Hs2; lia].
  eexists. rewrite list_lookup_insert_eq by lia. split; [done | apply union_subseteq_l].
Qed.

(** And then all of them in member 0. *)
Lemma group_merged g l :
  rep_group 8 g l -> stored 64 l ->
  exists g' X f0, for_loop (Z.to_nat (group_size g - 1)) (fun i bfg =>
      f ← aget (filter_group bfg) (Z.of_nat i + 1); with_member bfg 0 (fun f0 => add_filter f0 f)) g = Ok g' /\
    aget (filter_group g') 0 = Ok f0 /\ rep_filter 8 f0 X /\ forall i, (i < 64)%nat -> digest_bits 8 (D i) ⊆ X.
Proof.
  intros Hg Hs. assert (5 <= 8 <= 30) as H8 by lia.
  assert (Z.to_nat (group_size g - 1) = 7%nat) as -> by (rewrite (proj1 Hg), (proj1 Hs); done).
  match goal with |- context [for_loop 7 ?f g] =>
    destruct (for_loop_inv (fun n g => exists l X, rep_group 8 g l /\ stored 64 l /\ l !! 0%nat = Some X /\
      forall i, (i < 64)%nat -> (i mod 7 < n)%nat -> digest_bits 8 (D i) ⊆ X) 7 f g) as (g1 & -> & l1 & X & Hg1 & Hs1 & HX & Hin) end.
  - destruct (lookup_lt_is_Some_2 l 0%nat) as [X HX]; [rewrite (proj1 Hs); lia|]. exists l, X. split_and!; try done. lia.
  - intros n g1 Hn (l1 & X & Hg1 & Hs1 & HX & Hin).
    destruct (lookup_lt_is_Some_2 l1 (n + 1)%nat) as [Y HY]; [rewrite (proj1 Hs1); lia|].
    destruct (rep_group_lookup 8 g1 l1 _ Y Hg1 HY) as (f & _ & Hf & E). rewrite Nat2Z.inj_add in E. change (Z.of_nat 1) with 1 in E. rewrite E. cbn [rbind].
    destruct (with_member_spec 8 g1 l1 0%nat X (X ∪ Y) (fun f0 => add_filter f0 f) Hg1 HX) as (g2 & E2 & Hg2).
    { intros f0 Hf0. by apply add_filter_spec. }
    exists g2. split; [exact E2|]. exists (<[0%nat := X ∪ Y]> l1), (X ∪ Y). split_and!; [done | | |].
    + apply (stored_insert _ _ X); [done | done | apply union_subseteq_l].
    + apply list_lookup_insert_eq. rewrite (proj1 Hs1). lia.
    + intros i Hi Hin'. destruct (decide (i mod 7 = n)%nat) as [<-|]; [|etransitivity; [apply Hin; [done | lia] | apply union_subseteq_l]].
      destruct (proj2 Hs1 i Hi) as (Z & HZ & Hb). simplify_eq. etransitivity; [exact Hb | apply union_subseteq_r].
  - destruct (rep_group_lookup 8 g1 l1 _ X Hg1 HX) as (f0 & _ & Hf0 & E). exists g1, X, f0. split_and!; try done.
    intros i Hi. apply Hin; [done|]. by apply Nat.mod_upper_bound.
Qed.

Lemma test_group_ok e : test_group le junk e = Ok e.
Proof.
  assert (5 <= 8 <= 30) as H8 by lia. unfold test_group. destruct (create_group_spec 8 H8 junk 8 ltac:(lia)) as (g & -> & Hg). cbn [rbind].
  destruct (group_filled g Hg) as (g1 & l & -> & Hg1 & Hs). cbn [rbind]. destruct (group_merged g1 l Hg1 Hs) as (g2 & X & f0 & -> & E & Hf0 & Hin).
  cbn [rbind]. rewrite E. cbn [rbind]. rewrite (count_loop _ _ (fun _ => 0)).
  - f_equal. assert (forall l, sumZ (fun _ : nat => 0) l = 0) as ->; [|lia]. induction l0 as [|x l0 IH]; [done|]. exact IH.
  - intros i e1 Hi. rewrite number_ok by lia. cbn [rbind]. rewrite (is_in_array_spec 8 H8 f0 _ _ Hf0), bool_decide_true by (by apply Hin).
    cbn. by rewrite Z.add_0_r.
Qed.

(** *** Rings *)

Section Ring.
Context (nb : Z) (Hnb : 5 <= nb <= 30) (num slot : nat) (Hnum : (0 < num)%nat) (Hslot : (0 < slot)%nat).

Definition number_ops (i : nat) : list ring_op :=
  (if (i mod slot =? 0)%nat then [OpRotate (junk i)] else []) ++ [OpInsert (D i)].
Definition fill_ops (a n : nat) : list ring_op := seq a n ≫= number_ops.
Definition rotations (r : nat) : list ring_op := (fun i => OpRotate (junk i)) <$> seq 0 r.

Lemma fill_run k q : Z.of_nat k <= 2 ^ 31 -> fill le junk k slot q = ring_run q (fill_ops 0 k).
Proof.
  intros Hk. unfold fill, fill_ops. induction k as [|k IH]; [done|]. cbn [for_loop]. rewrite IH, seq_S, bind_app, ring_run_app by lia.
  destruct (ring_run q (seq 0 k ≫= number_ops)) as [q1|]; [|done]. cbn [rbind mbind list_bind Nat.add]. rewrite app_nil_r. unfold number_ops.
  rewrite number_ok by lia. destruct (k mod slot =? 0)%nat; cbn [app ring_run ring_step rbind].
  - destruct (rotate_bloom_ring_queue (junk k) q1); [|done]. cbn [rbind]. by destruct (insert_digest_bloom_ring_queue _ _).
  - by destruct (insert_digest_bloom_ring_queue _ _).
Qed.

(** Rotations among the numbers from [a] on. *)
Definition turns (x : nat) : nat := (x + slot - 1) / slot.

Lemma turns_S x : turns (S x) = (turns x + if (x mod slot =? 0)%nat then 1 else 0)%nat.
Proof.
  unfold turns. pose proof (Nat.div_mod x slot ltac:(lia)) as E. pose proof (Nat.mod_upper_bound x slot ltac:(lia)) as Hm.
  set (q := (x / slot)%nat) in *. set (r := (x mod slot)%nat) in *. destruct (Nat.eqb_spec r 0) as [Hr|Hr].
  - assert ((S x + slot - 1) / slot = q + 1)%nat as -> by (symmetry; apply (Nat.div_unique _ _ _ 0); lia).
    assert ((x + slot - 1) / slot = q)%nat as -> by (symmetry; apply (Nat.div_unique _ _ _ (slot - 1)); lia). lia.
  - assert ((S x + slot - 1) / slot = q + 1)%nat as -> by (symmetry; apply (Nat.div_unique _ _ _ r); lia).
    assert ((x + slot - 1) / slot = q + 1)%nat as -> by (symmetry; apply (Nat.div_unique _ _ _ (r - 1)); lia). lia.
Qed.

Lemma turns_mul x : turns (x * slot) = x.
Proof. unfold turns. symmetry. apply (Nat.div_unique _ _ _ (slot - 1)); lia. Qed.

Lemma turns_mono x y : (x <= y)%nat -> (turns x <= turns y)%nat.
Proof. intros H. apply Nat.Div0.div_le_mono. lia. Qed.

Lemma count_app ops1 ops2 : count_rotations (ops1 ++ ops2) = (count_rotations ops1 + count_rotations ops2)%nat.
Proof. induction ops1 as [|o ops1 IH]; [done|]. cbn [app count_rotations]. destruct o; rewrite ?IH; lia. Qed.

Lemma fill_ops_app a n m : fill_ops a (n + m) = fill_ops a n ++ fill_ops (a + n) m.
Proof. unfold fill_ops. by rewrite seq_app, bind_app. Qed.

Lemma fill_ops_cons a n : fill_ops a (S n) = number_ops a ++ fill_ops (S a) n.
Proof. done. Qed.

Lemma count_fill a n : (turns a + count_rotations (fill_ops a n) = turns (a + n))%nat.
Proof.
  revert a. induction n as [|n IH]; intros a; [cbn; by rewrite !Nat.add_0_r|]. rewrite fill_ops_cons, count_app.
  replace (a + S n)%nat with (S a + n)%nat by lia. rewrite <-IH, turns_S. unfold number_ops.
  destruct (a mod slot =? 0)%nat; cbn; lia.
Qed.

Lemma count_turns r : count_rotations (rotations r) = r.
Proof. unfold rotations. generalize 0%nat. induction r as [|r IH]; intros a; [done|]. cbn. by rewrite IH. Qed.

Lemma no_zero a n r : OpZero ∉ fill_ops a n ++ rotations r.
Proof.
  rewrite elem_of_app. intros [H|H].
  - apply list_elem_of_bind in H as (i & H & _). unfold number_ops in H. destruct (i mod slot =? 0)%nat; cbn in H; set_solver.
  - apply list_elem_of_fmap in H as (i & [=] & _).
Qed.

Lemma inserted_fill a n r : inserted_bits nb (fill_ops a n ++ rotations r) = window nb a (a + n).
Proof.
  assert (inserted_bits nb (rotations r) = ∅) as Hr
    by (unfold rotations; generalize 0%nat; induction r as [|r IH]; intros b; [done | exact (IH (S b))]).
  revert a. induction n as [|n IH]; intros a.
  - rewrite Nat.add_0_r. unfold window. rewrite Nat.sub_diag. exact Hr.
  - rewrite fill_ops_cons, <-app_assoc. unfold number_ops.
    assert (inserted_bits nb (((if (a mod slot =? 0)%nat then [OpRotate (junk a)] else []) ++ [OpInsert (D a)]) ++ fill_ops (S a) n ++ rotations r) =
      digest_bits nb (D a) ∪ inserted_bits nb (fill_ops (S a) n ++ rotations r)) as -> by (by destruct (a mod slot =? 0)%nat).
    rewrite IH. apply set_eq. intros x. rewrite elem_of_union, !elem_of_window. split.
    + intros [Hx|(i & Hi & Hx)]; [exists a | exists i]; (split; [lia | done]).
    + intros (i & Hi & Hx). destruct (decide (i = a)) as [->|]; [by left|]. right. exists i. split; [lia | done].
Qed.

Lemma created_slots : length (slots (a_create num)) = num.
Proof. apply length_replicate. Qed.

Lemma created_cur ops : (cur (a_run nb (a_create num) ops) < num)%nat.
Proof. rewrite <-created_slots at 2. apply cur_a_run. by rewrite created_slots. Qed.

(** A full ring after [r] more rotations knows exactly the positions of the
    numbers that are not in the filters rotated out. *)
Lemma agg_window r :
  agg (a_run nb (a_create num) (fill_ops 0 (num * slot) ++ rotations r)) = window nb (r * slot) (num * slot).
Proof.
  set (k := (num * slot)%nat). set (a := (Nat.min r num * slot)%nat). assert (a <= k)%nat as Hak by (apply Nat.mul_le_mono_r; lia).
  assert (turns a = Nat.min r num) as Hta by apply turns_mul. assert (turns k = num) as Htk by apply turns_mul.
  apply set_eq. intros x. split.
  - intros Hx. replace k with (a + (k - a))%nat in Hx by lia. rewrite fill_ops_app, <-app_assoc in Hx. unfold a_run in Hx. rewrite foldl_app in Hx.
    apply (ring_forgets nb Hnb (fill_ops (0 + a) (k - a) ++ rotations r)) in Hx.
    + rewrite inserted_fill in Hx. replace (0 + a + (k - a))%nat with k in Hx by lia. apply elem_of_window in Hx as (i & Hi & Hx).
      apply elem_of_window. exists i. split; [|done]. destruct (decide (r <= num)%nat); [unfold a in Hi; rewrite Nat.min_l in Hi by lia; lia|].
      unfold a, k in Hi. rewrite Nat.min_r in Hi by lia. lia.
    + fold (a_run nb (a_create num) (fill_ops 0 a)). rewrite length_a_run, created_slots. apply created_cur.
    + apply (agg_sub_run nb Hnb (fill_ops 0 a) (a_create num)); [by rewrite created_slots | cbn; set_solver].
    + apply no_zero.
    + fold (a_run nb (a_create num) (fill_ops 0 a)). rewrite length_a_run, created_slots, count_app, count_turns.
      pose proof (count_fill (0 + a) (k - a)) as Hc. replace (0 + a + (k - a))%nat with k in Hc by lia. cbn [Nat.add] in *. lia.
  - intros (j & Hj & Hx)%elem_of_window. fold k in Hj.
    replace k with (j + S (k - S j))%nat by lia. rewrite fill_ops_app, <-app_assoc, fill_ops_cons. cbn [Nat.add]. unfold number_ops.
    set (pre := fill_ops 0 j ++ if (j mod slot =? 0)%nat then [OpRotate (junk j)] else []).
    assert (fill_ops 0 j ++ (((if (j mod slot =? 0)%nat then [OpRotate (junk j)] else []) ++ [OpInsert (D j)]) ++ fill_ops (S j) (k - S j)) ++ rotations r =
      pre ++ OpInsert (D j) :: (fill_ops (S j) (k - S j) ++ rotations r)) as -> by (unfold pre; by rewrite <-!app_assoc).
    unfold a_run. rewrite foldl_app. cbn [foldl a_step]. fold (a_run nb (a_create num) pre).
    pose proof (inserted_kept nb Hnb (a_run nb (a_create num) pre) (D j) (fill_ops (S j) (k - S j) ++ rotations r)) as Hkept.
    rewrite length_a_run, created_slots, count_app, count_turns in Hkept.
    unfold a_query in Hkept. rewrite bool_decide_eq_true in Hkept. apply Hkept; [| apply no_zero | | done].
    + apply created_cur.
    + pose proof (count_fill (S j) (k - S j)) as Hc. replace (S j + (k - S j))%nat with k in Hc by lia.
      pose proof (turns_mono (S (r * slot)) (S j) ltac:(lia)) as Hm. rewrite turns_S, turns_mul, Nat.Div0.mod_mul in Hm. cbn in Hm. lia.
Qed.

(** The ring after [r] rotations more than a full turn. *)
Definition full (r : nat) : aring := a_run nb (a_create num) (fill_ops 0 (num * slot) ++ rotations r).

Lemma full_query r d : a_query nb d (full r) = bool_decide (digest_bits nb d ⊆ window nb (r * slot) (num * slot)).
Proof. unfold a_query, full. by rewrite agg_window. Qed.

Lemma fill_ok q :
  rep_ring nb q (a_create num) -> Z.of_nat (num * slot) <= 2 ^ 31 ->
  exists q', fill le junk (num * slot) slot q = Ok q' /\ rep_ring nb q' (full 0).
Proof.
  intros Hq Hk. rewrite fill_run by done. unfold full. cbn [rotations seq fmap list_fmap]. rewrite app_nil_r.
  apply (ring_run_spec nb Hnb); [done|]. apply Forall_forall. intros o Ho. apply list_elem_of_bind in Ho as (i & Ho & _). unfold number_ops in Ho.
  apply elem_of_app in Ho as [Ho|Ho]; [destruct (i mod slot =? 0)%nat|]; set_unfold; naive_solver.
Qed.

Lemma rotate_full r q :
  rep_ring nb q (full r) -> exists q', rotate_bloom_ring_queue (junk r) q = Ok q' /\ rep_ring nb q' (full (S r)).
Proof.
  intros Hq. destruct (rotate_ring_spec nb Hnb (junk r) q _ Hq) as (q' & E & Hq'). exists q'. split; [done|].
  unfold full, rotations in *. rewrite seq_S, fmap_app, app_assoc. unfold a_run in *. rewrite foldl_app. exact Hq'.
Qed.

Lemma sumZ_zero {A} (l : list A) : sumZ (fun _ => 0) l = 0.
Proof. induction l as [|x l IH]; [done|]. exact IH. Qed.

Lemma inclusion_ok q e :
  rep_ring nb q (full 0) -> Z.of_nat (num * slot) <= 2 ^ 31 -> test_inclusion le (num * slot) q e = Ok e.
Proof.
  intros Hq Hk. unfold test_inclusion. rewrite (count_loop _ _ (fun _ => 0)); [by rewrite sumZ_zero, Z.add_0_r|].
  intros i e1 Hi. rewrite number_ok by lia. cbn [rbind]. rewrite (is_in_ring_spec nb Hnb q _ _ Hq), full_query. cbn [rbind].
  rewrite bool_decide_true, Z.add_0_r; [done|]. intros x Hx. apply elem_of_window. exists i. split; [lia | done].
Qed.

(** What the removal test counts. *)
Definition removal_errors : Z :=
  sumZ (fun i => Z.of_nat ((i + 1) * slot - i) *
    wrong (bool_decide (digest_bits nb (D i) ⊆ window nb ((i + 1) * slot) (num * slot)))) (seq 0 slot).

Lemma repeat_count n b e : for_loop n (fun _ e => Ok (error_if b e)) e = Ok (e + Z.of_nat n * wrong b).
Proof.
  induction n as [|n IH]; [cbn; by rewrite Z.add_0_r|]. cbn [for_loop]. rewrite IH. cbn [rbind]. rewrite error_if_wrong. f_equal. lia.
Qed.

Lemma removal_ok q e :
  rep_ring nb q (full 0) -> Z.of_nat slot <= 2 ^ 31 -> test_removal le junk slot q e = Ok (e + removal_errors).
Proof.
  intros Hq Hs. unfold test_removal, removal_errors. set (c := fun i : nat => _ * _).
  match goal with |- context [for_loop slot ?f ?x] =>
    destruct (for_loop_inv (fun n st => rep_ring nb st.1 (full n) /\ st.2 = e + sumZ c (seq 0 n)) slot f x) as ([q1 e1] & -> & _ & He) end.
  - split; [done|]. cbn. lia.
  - intros i [q1 e1] Hi [Hq1 He1]. cbn [fst snd] in *. destruct (rotate_full i q1 Hq1) as (q2 & -> & Hq2). cbn [rbind].
    assert (forall d, is_in_ring_queue q2 d = Ok (a_query nb d (full (S i)))) as Hin by (intros d; by apply (is_in_ring_spec nb Hnb)).
    rewrite (for_loop_ext _ _ (fun _ e => Ok (error_if (a_query nb (D i) (full (S i))) e)))
      by (intros; rewrite number_ok by lia; cbn [rbind]; by rewrite Hin).
    rewrite repeat_count. cbn [rbind]. replace (slot - (i + 1) * slot)%nat with 0%nat by lia. cbn [for_loop rbind].
    eexists. split; [done|]. cbn [fst snd]. split; [done|]. rewrite seq_S, sumZ_app, He1, full_query. cbn [sumZ foldr Nat.add].
    unfold c at 3. rewrite Nat.add_1_r. lia.
  - cbn [rbind snd] in *. by rewrite He.
Qed.

End Ring.

Lemma test_ring_ok q e : rep_ring 21 q (a_create 8) -> test_ring le junk q e = Ok (e + false_ring).
Proof.
  intros Hq. assert (5 <= 21 <= 30) as Hnb by lia. unfold test_ring. cbv zeta. change (128 / 8)%nat with 16%nat. change 128%nat with (8 * 16)%nat.
  destruct (fill_ok 21 Hnb 8 16 ltac:(lia) ltac:(lia) q Hq) as (q1 & -> & Hq1); [lia|]. cbn [rbind].
  rewrite (inclusion_ok 21 Hnb 8 16) by (done || lia). cbn [rbind]. by apply (removal_ok 21 Hnb 8 16); [lia.. | done | lia].
Qed.

Lemma stress_ok q e : rep_ring 22 q (a_create 10) -> stress_test le junk q e = Ok e.
Proof.
  intros Hq. assert (5 <= 22 <= 30) as Hnb by lia. unfold stress_test.
  replace (Z.to_nat 1000000) with (10 * Z.to_nat 100000)%nat by lia.
  destruct (fill_ok 22 Hnb 10 (Z.to_nat 100000) ltac:(lia) ltac:(lia) q Hq) as (q1 & -> & Hq1); [lia|]. cbn [rbind].
  apply (inclusion_ok 22 Hnb 10 (Z.to_nat 100000)); [lia.. | done | lia].
Qed.

End Verdict.

(** The ring in a file that was just created. *)
Lemma built_in_new_file le num nb a now :
  5 <= nb <= 30 -> (0 < num)%nat -> Z.of_nat (S num) * 2 ^ nb < 2 ^ 32 -> placed num nb (a + 32) -> is_u64 now ->
  exists contents m q, create_statefile None (Z.of_nat num) nb = Ok contents /\
    build_bloom_ring le (InFile false (Some contents)) a now (Z.of_nat num) nb = Ok (a + 32, m) /\
    ring_at le (a + 32) m = Ok q /\ rep_ring nb q (a_create num).
Proof.
  intros Hnb Hn Hfit Hp Hnow. pose proof (num_small num nb Hnb Hn Hfit) as Hs. pose proof (total_bounds num nb Hnb Hn Hfit) as Ht.
  destruct (build_new_file le num nb Hnb Hn Hfit a now Hp Hnow) as (m & lump & E & _ & _ & Hh).
  eexists _, m, (ring_of num nb (empty_image (a + 32) now lump)). split_and!; [| exact E | | by apply ring_of_empty].
  - unfold create_statefile. rewrite lumpsize_total by done. cbn [rbind]. unfold SIZEOF_MMAPPED_BRQ.
    by rewrite u64_id by (unfold is_u64; lia).
  - by apply (ring_at_image le true num nb Hnb (a + 32) (empty_image (a + 32) now lump)).
Qed.

(** The test of the filters can fail only where the hash does: if more entries
    require more bits, and wherever [malloc] and [mmap] put the rings, the test
    runs to its end without a fault, finds every entry it should find, and
    returns 0 unless one of the numbers it should not find has all its positions
    set by others: by the first sixteen, by the two words that were merged, or by
    the numbers that are still in the ring. *)
Theorem bloom_test_verdict (le : bool) (junk : nat -> nat -> Z) (required : Z -> Z) (in_memory in_file stress now : Z) :
  (forall a b, 0 < a < b -> b <= 2 ^ 28 -> required a < required b) ->
  placed 8 21 in_memory -> placed 8 21 (in_file + 32) -> placed 10 22 stress -> is_u64 now ->
  bloom_test le junk required in_memory in_file stress now =
    Ok (if 0 <? false_filter + false_merge + false_ring + false_ring then 1 else 0).
Proof.
  intros Hreq Hp1 Hp2 Hp3 Hnow. unfold bloom_test.
  rewrite (test_sizes_ok required SIZES 0 Hreq) by (repeat constructor; cbn; lia || reflexivity).
  cbn [rbind]. rewrite test_filter_ok. cbn [rbind]. rewrite test_merge_ok. cbn [rbind]. rewrite test_group_ok. cbn [rbind].
  destruct (built_in_memory le (junk 2%nat) in_memory now 8 21 ltac:(lia) ltac:(lia) ltac:(lia) Hp1 ltac:(lia)) as (m1 & q1 & E1 & R1 & Q1).
  change (Z.of_nat 8) with 8 in E1. rewrite E1. cbn [rbind]. rewrite R1. cbn [rbind]. rewrite test_ring_ok by done. cbn [rbind].
  destruct (built_in_new_file le 8 21 in_file now ltac:(lia) ltac:(lia) ltac:(lia) Hp2 Hnow) as (contents & m2 & q2 & E2 & F2 & R2 & Q2).
  change (Z.of_nat 8) with 8 in E2, F2. rewrite E2. cbn [rbind]. rewrite F2. cbn [rbind]. rewrite R2. cbn [rbind]. rewrite test_ring_ok by done. cbn [rbind].
  destruct (built_in_memory le (junk 3%nat) stress now 10 22 ltac:(lia) ltac:(lia) ltac:(lia) Hp3 ltac:(lia)) as (m3 & q3 & E3 & R3 & Q3).
  change (Z.of_nat 10) with 10 in E3. rewrite E3. cbn [rbind]. rewrite R3. cbn [rbind]. rewrite stress_ok by done. cbn [rbind].
  generalize false_filter, false_merge, false_ring. intros x y z. by rewrite Z.add_0_l.
Qed.

Lemma bloom_test_verdict_witness :
  bloom_test true (fun i j => 7) (fun n => 15 * n) 4096 4096 4096 0 =
    Ok (if 0 <? false_filter + false_merge + false_ring + false_ring then 1 else 0).
Proof.
  apply (bloom_test_verdict true (fun i j => 7) (fun n => 15 * n) 4096 4096 4096 0);
    [lia | | | | unfold is_u64; lia]; split; (lia || vm_compute; reflexivity).
Defined.

(** After the [i]-th rotation the test means to look for the numbers still in the
    ring, but that loop starts beyond its end: with only the first inner loop the
    test is the same. *)
Theorem removal_never_looks_for_kept (le : bool) (junk : nat -> nat -> Z) (slot : nat) (q : bloom_ring_queue_t) (e : Z) :
  test_removal le junk slot q e =
  ('(_, error_count) ← for_loop slot (fun i '(brq, error_count) =>
      brq ← rotate_bloom_ring_queue (junk i) brq;
      error_count ← for_loop ((i + 1) * slot - i) (fun _ error_count =>
          d ← number le i;
          b ← is_in_ring_queue brq d;
          Ok (error_if b error_count)) error_count;
      Ok (brq, error_count)) (q, e);
   Ok error_count).
Proof.
  unfold test_removal. f_equal. apply for_loop_ext. intros i [brq e1]. destruct (rotate_bloom_ring_queue _ _); [|done]. cbn [rbind].
  destruct (for_loop _ _ e1); [|done]. cbn [rbind]. by replace (slot - (i + 1) * slot)%nat with 0%nat by lia.
Qed.
