(* ===== verification/Sha256Test.v ===== *)
(** * Printed digests and the test of SHA-256 ([src/src/sha256.c], [src/src/sha256-test.c])

    The hexadecimal digest in its buffer, and the test program over any table of
    messages and reference digests; the table of [src/include/sha256-test.h] is
    its argument.  What the program prints is left out. *)

From S2P Require Import Prelude Print Sha256.

(** ** Printing *)

(** [%08x] *)
Definition hex8 (z : Z) : cstr := replicate (8 - length (hex z)) "0"%char ++ hex z.

Definition hex_words (d : sha_256_t) : cstr :=
  hex8 (h0 d) ++ cs " " ++ hex8 (h1 d) ++ cs " " ++ hex8 (h2 d) ++ cs " " ++ hex8 (h3 d) ++ cs " " ++
  hex8 (h4 d) ++ cs " " ++ hex8 (h5 d) ++ cs " " ++ hex8 (h6 d) ++ cs " " ++ hex8 (h7 d).

(** The [option] is that of [Sha256.sha256]. *)
Definition sha256_hexdigest (le : bool) (to : list ascii) (message : list Z) : Res (list ascii) :=
  digest ← match sha256 le message with Some d => Ok d | None => Fail Undefined end;
  snprintf_at to 0 72 (hex_words digest).

Definition string_sha256_hexdigest (le : bool) (to : list ascii) (message : cstr) : Res (list ascii) :=
  sha256_hexdigest le to (byte_of <$> message).

Definition debug_print_digest (digest : sha_256_t) (with_newline : bool) : cstr :=
  cs "sha256: " ++ hex_words digest ++ (if with_newline then [nl] else []).

(** ** The test *)

Definition MAX_MESSAGE_LEN : Z := 1024.

(** [strncpy(buf, s, MAX_MESSAGE_LEN)] into a buffer of that size: without its
    terminator a string cannot be used. *)
Definition strncpy_max (s : cstr) : Res cstr :=
  if Z.of_nat (length s) <? MAX_MESSAGE_LEN then Ok s else Fail OutOfBounds.

(** One message: the digest, the buffer it is printed in and the number of errors. *)
Definition check_vector (le : bool) (message reference_digest : cstr) (digest_hex : list ascii) (error_count : Z) : Res (list ascii * Z) :=
  digest_hex ← string_sha256_hexdigest le digest_hex message;
  Ok (digest_hex, if cstr_eqb (c_string digest_hex) reference_digest then error_count else error_count + 1).

Fixpoint test_vectors_loop (le : bool) (tests : list (cstr * cstr)) (digest_hex : list ascii) (error_count : Z) : Res (list ascii * Z) :=
  match tests with
  | [] => Ok (digest_hex, error_count)
  | (message, reference_digest) :: tests =>
      message ← strncpy_max message;
      reference_digest ← strncpy_max reference_digest;
      '(digest_hex, error_count) ← check_vector le message reference_digest digest_hex error_count;
      test_vectors_loop le tests digest_hex error_count
  end.

Definition LONG_DIGEST : cstr := cs "cdc76e5c 9914fb92 81a1c7e2 84d73e67 f1809a48 a497200e 046d39cc c7112cd0".
Definition long_message : cstr := replicate (Z.to_nat 1000000) "a"%char.

Definition sha256_test (le : bool) (test_vectors : list (cstr * cstr)) : Res Z :=
  '(digest_hex, error_count) ← test_vectors_loop le test_vectors (replicate (Z.to_nat MAX_MESSAGE_LEN) NUL) 0;
  '(_, error_count) ← check_vector le long_message LONG_DIGEST digest_hex error_count;
  Ok (if 0 <? error_count then 1 else 0).

(** ** The digits *)

Lemma hex_val_zeros n l : hex_val (replicate n "0"%char ++ l) 0 = hex_val l 0.
Proof. induction n as [|n IH]; [done|]. cbn. apply IH. Qed.

Lemma hex8_spec z : is_u32 z -> length (hex8 z) = 8%nat /\ hex_val (hex8 z) 0 = z /\ NUL ∉ hex8 z.
Proof.
  intros Hz. unfold hex8, hex. rewrite u32_id by done.
  destruct (hex_digits_spec 8 8 z []) as (l & -> & Hl & Hv & Hd); [done | lia |]. rewrite app_nil_r.
  assert (NUL ∉ l) as Hn by (intros Hin; rewrite Forall_forall in Hd; by destruct (Hd _ Hin) as (_ & ? & _)).
  split_and!; [rewrite length_app, length_replicate; lia | rewrite hex_val_zeros, Hv; lia |].
  rewrite elem_of_app. intros [H|H]; [|done]. apply elem_of_replicate in H as [[=] _].
Qed.

(** Word [i] of the printed digest. *)
Definition nth_word (text : cstr) (i : nat) : cstr := take 8 (drop (9 * i) text).

Lemma hex_words_spec d :
  is_digest d -> length (hex_words d) = 71%nat /\ NUL ∉ hex_words d /\
    (fun i => hex_val (nth_word (hex_words d) i) 0) <$> seq 0 8 = [h0 d; h1 d; h2 d; h3 d; h4 d; h5 d; h6 d; h7 d].
Proof.
  intros (H0 & H1 & H2 & H3 & H4 & H5 & H6 & H7). unfold hex_words.
  destruct (hex8_spec _ H0) as (L0 & V0 & N0), (hex8_spec _ H1) as (L1 & V1 & N1), (hex8_spec _ H2) as (L2 & V2 & N2),
    (hex8_spec _ H3) as (L3 & V3 & N3), (hex8_spec _ H4) as (L4 & V4 & N4), (hex8_spec _ H5) as (L5 & V5 & N5),
    (hex8_spec _ H6) as (L6 & V6 & N6), (hex8_spec _ H7) as (L7 & V7 & N7).
  generalize dependent (hex8 (h0 d)). generalize dependent (hex8 (h1 d)). generalize dependent (hex8 (h2 d)). generalize dependent (hex8 (h3 d)).
  generalize dependent (hex8 (h4 d)). generalize dependent (hex8 (h5 d)). generalize dependent (hex8 (h6 d)). generalize dependent (hex8 (h7 d)).
  intros w7 L7 V7 N7 w6 L6 V6 N6 w5 L5 V5 N5 w4 L4 V4 N4 w3 L3 V3 N3 w2 L2 V2 N2 w1 L1 V1 N1 w0 L0 V0 N0.
  split; [rewrite !length_app, L0, L1, L2, L3, L4, L5, L6, L7; done|]. split; [cbn; set_solver|].
  do 8 (destruct w0 as [|? w0]; [done|]; destruct w1 as [|? w1]; [done|]; destruct w2 as [|? w2]; [done|]; destruct w3 as [|? w3]; [done|];
        destruct w4 as [|? w4]; [done|]; destruct w5 as [|? w5]; [done|]; destruct w6 as [|? w6]; [done|]; destruct w7 as [|? w7]; [done|]).
  destruct w0, w1, w2, w3, w4, w5, w6, w7; try done. unfold nth_word. cbn [app drop take fmap list_fmap seq Nat.mul Nat.add cs String.list_ascii_of_string].
  by rewrite V0, V1, V2, V3, V4, V5, V6, V7.
Qed.

(** ** The buffer *)

Lemma message_bytes (m : cstr) : Forall is_byte (byte_of <$> m).
Proof. apply Forall_fmap, Forall_true. intros. apply byte_of_range. Qed.

Lemma sha256_hexdigest_ok le to m :
  (72 <= length to)%nat -> Forall is_byte m -> Z.of_nat (length m) + 72 < 2 ^ 32 ->
  exists b, sha256_hexdigest le to m = Ok b /\ length b = length to /\ c_string b = hex_words (Fips.sha256 m) /\ is_digest (Fips.sha256 m).
Proof.
  intros Hto Hm Hn. unfold sha256_hexdigest. pose proof (sha256_Fips le m Hm Hn) as E. rewrite E. cbn [rbind].
  assert (is_digest (Fips.sha256 m)) as Hd by (by apply (sha256_is_digest le m)).
  destruct (hex_words_spec _ Hd) as (Hl & Hnul & _).
  rewrite snprintf_at_fits by (rewrite ?Hl; unfold INT_MAX; lia). eexists. split; [done|]. split_and!; [| |done].
  - apply length_memcpy_at. rewrite length_app, Hl. cbn. lia.
  - unfold memcpy_at. cbn [Z.to_nat take app]. rewrite <-app_assoc. by apply c_string_app.
Qed.

(** The printed digest: the buffer of at least 72 bytes holds the eight words of
    the SHA-256 of the message, and each can be read back from its digits. *)
Theorem hexdigest_reads_back le to message :
  (72 <= length to)%nat -> Z.of_nat (length message) + 72 < 2 ^ 32 ->
  exists b, string_sha256_hexdigest le to message = Ok b /\ length b = length to /\
    let d := Fips.sha256 (byte_of <$> message) in
    (fun i => hex_val (nth_word (c_string b) i) 0) <$> seq 0 8 = [h0 d; h1 d; h2 d; h3 d; h4 d; h5 d; h6 d; h7 d].
Proof.
  intros Hto Hn. unfold string_sha256_hexdigest.
  destruct (sha256_hexdigest_ok le to (byte_of <$> message)) as (b & -> & Hl & Hc & Hd); [done | apply message_bytes | by rewrite length_fmap |].
  exists b. split_and!; [done | done |]. cbv zeta. rewrite Hc. by apply hex_words_spec.
Qed.

(** ** The verdict *)

(** Whether a reference digest is right. *)
Definition right (v : cstr * cstr) : bool := bool_decide (hex_words (Fips.sha256 (byte_of <$> v.1)) = v.2).

Lemma check_vector_ok le m r b e :
  length b = Z.to_nat MAX_MESSAGE_LEN -> Z.of_nat (length m) + 72 < 2 ^ 32 ->
  exists b', check_vector le m r b e = Ok (b', if right (m, r) then e else e + 1) /\ length b' = length b.
Proof.
  intros Hb Hm. unfold check_vector, string_sha256_hexdigest.
  destruct (sha256_hexdigest_ok le b (byte_of <$> m)) as (b' & -> & Hl & Hc & _);
    [rewrite Hb; unfold MAX_MESSAGE_LEN; lia | apply message_bytes | by rewrite length_fmap |].
  exists b'. cbn [rbind]. rewrite Hc. done.
Qed.

Lemma vectors_ok le tests b e :
  Forall (fun v => Z.of_nat (length v.1) < MAX_MESSAGE_LEN /\ Z.of_nat (length v.2) < MAX_MESSAGE_LEN) tests ->
  length b = Z.to_nat MAX_MESSAGE_LEN ->
  exists b', test_vectors_loop le tests b e = Ok (b', e + countZ (fun v => negb (right v)) tests) /\ length b' = length b.
Proof.
  intros Ht. revert b e. induction Ht as [|[m r] tests [Hm Hr] _ IH]; intros b e Hb; [exists b; cbn; by rewrite Z.add_0_r|].
  cbn [test_vectors_loop fst snd] in *. unfold strncpy_max. rewrite !(proj2 (Z.ltb_lt _ _)) by done. cbn [rbind].
  destruct (check_vector_ok le m r b e Hb) as (b1 & -> & Hb1); [unfold MAX_MESSAGE_LEN in Hm; lia|]. cbn [rbind].
  destruct (IH b1 (if right (m, r) then e else e + 1)) as (b2 & -> & Hb2); [congruence|]. exists b2. split; [|congruence].
  unfold countZ. cbn [sumZ foldr]. do 2 f_equal. destruct (right (m, r)); cbn [negb]; unfold sumZ; lia.
Qed.

(** The test passes exactly when every reference digest of the table, and the one
    of the million letters, is the SHA-256 of FIPS 180-4 of its message, printed
    in eight words. *)
Theorem sha256_test_verdict le (test_vectors : list (cstr * cstr)) :
  Forall (fun v => Z.of_nat (length v.1) < MAX_MESSAGE_LEN /\ Z.of_nat (length v.2) < MAX_MESSAGE_LEN) test_vectors ->
  sha256_test le test_vectors = Ok (if forallb right ((long_message, LONG_DIGEST) :: test_vectors) then 0 else 1).
Proof.
  intros Ht. unfold sha256_test. destruct (vectors_ok le test_vectors (replicate (Z.to_nat MAX_MESSAGE_LEN) NUL) 0 Ht) as (b & -> & Hb);
    [by rewrite length_replicate|]. rewrite length_replicate in Hb. cbn [rbind].
  destruct (check_vector_ok le long_message LONG_DIGEST b (0 + countZ (fun v => negb (right v)) test_vectors) Hb) as (b' & -> & _).
  { unfold long_message. rewrite length_replicate. lia. }
  cbn [rbind forallb]. clear. generalize (right (long_message, LONG_DIGEST)). intros x. rewrite Z.add_0_l.
  assert (0 <= countZ (fun v => negb (right v)) test_vectors /\
    (forallb right test_vectors = (countZ (fun v => negb (right v)) test_vectors =? 0))) as [Hge ->].
  { unfold countZ, sumZ. induction test_vectors as [|v l [IH1 IH2]]; [done|]. cbn [foldr forallb]. rewrite IH2. destruct (right v); cbn [negb andb].
    - split; [lia|]. f_equal. 
    - split; [lia|]. symmetry. apply Z.eqb_neq. lia. }
  destruct x; cbn [andb]; destruct (Z.eqb_spec (countZ (fun v => negb (right v)) test_vectors) 0), (Z.ltb_spec 0 (countZ (fun v => negb (right v)) test_vectors)),
    (Z.ltb_spec 0 (countZ (fun v => negb (right v)) test_vectors + 1)); done || lia.
Qed.
