(* ===== verification/Sha256Vectors.v ===== *)
(** * The table of the test of SHA-256 ([src/include/sha256-test.h])

    The messages and reference digests the test program runs over, in the order
    of the source and without the null entry at the end.  After six known
    messages there is one of each length from 0 on. *)

From S2P Require Import Prelude Print Sha256 Sha256Test.

Definition vec (message reference_digest : string) : cstr * cstr := (cs message, cs reference_digest).

Definition vectors_1 : list (cstr * cstr) :=
  [vec "abc" "ba7816bf 8f01cfea 414140de 5dae2223 b00361a3 96177a9c b410ff61 f20015ad";
   vec "Lorem ipsum dolor sit amet, consectetur adipisicing elit, sed do eiusmod tempor incididunt ut labore et dolore magna aliqua. Ut enim ad minim veniam, quis nostrud exercitation ullamco laboris nisi ut aliquip ex ea commodo consequat. Duis aute irure dolor in reprehenderit in voluptate velit esse cillum dolore eu fugiat nulla pariatur. Excepteur sint occaecat cupidatat non proident, sunt in culpa qui officia deserunt mollit anim id est laborum." "2c7c3d5f 244f1a40 069a3222 4215e0cf 9b42485c 99d80f35 7d76f006 359c7a18";
   vec "abcdbcdecdefdefgefghfghighijhijkijkljklmklmnlmnomnopnopq" "248d6a61 d20638b8 e5c02693 0c3e6039 a33ce459 64ff2167 f6ecedd4 19db06c1";
   vec "The quick brown fox jumps over the lazy dog" "d7a8fbb3 07d78094 69ca9abc b0082e4f 8d5651e4 6d3cdb76 2d02d0bf 37c9e592";
   vec "The quick brown fox jumps over the lazy cog" "e4c4d8f3 bf76b692 de791a17 3e053211 50f7a345 b46484fe 427f6acc 7ecc81be";
   vec "" "e3b0c442 98fc1c14 9afbf4c8 996fb924 27ae41e4 649b934c a495991b 7852b855";
   vec "e" "3f79bb7b 435b0532 1651daef d374cdc6 81dc06fa a65e374e 38337b88 ca046dea";
   vec "rs" "571b0e35 55013658 5f653a70 460974d3 2f858791 42300ecb 361eff42 3ac62cd4";
   vec "5cl" "ab784168 a7c98fef c174c01b 18dafea3 cd8f059c 3c8e173e 28cf1351 27f5e534";
   vec "9ce4" "2eeb427d 416b5792 d954a07d 4c25d918 e5ee1031 c3a4110f b5b4914c 23016467";
   vec "5sexo" "6d7ff7c5 f6d90fe3 3bdb53f9 94d1d0e6 6964fba9 632d4780 3da5b291 165f18f1";
   vec "5q92c1" "b1098ea2 59194e87 13e79e13 7d68b6b8 c1a679f0 59748915 fa320c7c 2e54f9ba";
   vec "dsqz3nw" "8d5fed0d 39f1c052 8d77d036 46d8c0fb c2308ff2 8847b7ca 0c2bc653 3f1dd6a5";
   vec "knof79n0" "6144ab4b e116ee12 60a53814 08633a9b a7b48e90 303d12c5 4b61a25c 9e708aa0";
   vec "6qvys666v" "9d2078ad d88a940f 7401970d b74d151d 0c7b140e 471de035 75712200 490bee16";
   vec "6kjygkwyr1" "0b751075 9a25c626 c5bc2f4f a8b94f07 bec0436b 37d0d79d 23cbc7c2 07ebd734";
   vec "jygqqljdvw7" "93ab157a ece3ba7b 316f20f6 7738899f 410ed06f 8252cc34 969a3ccc d00d8d3f";
   vec "q53euhepvcyb" "03079ddc 13004cc0 f5f20222 64e2a558 5fdbf640 1762daf4 56250891 ae809685";
   vec "4kri2nhpefmx9" "edabccb2 0f75be99 79639a27 f87af7e9 2cbe4974 cbf22cb6 c5103bbe 425dd3c4";
   vec "9q4qz678exufh2" "ae045b60 d1a97317 11829626 40d8606d 5c3ad285 1297a4ec 9a6f6f82 bf061aa2";
   vec "a52vt4xiq8ukc8x" "92f3ee75 113ddafb ef1d7658 83d0eda2 6880b3ec 00e53c87 d22148a4 ec2029f8";
   vec "dihvpzt6rsg4flcn" "8e8cd744 5974272b 22e4239a 66aa4094 72b4eaa8 c0699575 f7cbffa5 40b90b94";
   vec "a5fbdua1iqd14hxge" "3ea03473 024b1f82 3f300d91 2b3587fe b0f68dda bbbaa705 0db47e81 d580b3fe";
   vec "al6jbtmypvolob65q1" "fce7601c 70313f1d 8158c2a8 e55d9b42 dc1a646e 551954bb bade538f 075dad9d";
   vec "y73cm6ipo0qsiuq92bt" "9417627d 70971710 fe9fc32a 44536ba0 9cc0a1f8 8896a532 a6bffcfa bf155fb5";
   vec "e8e0sf0dhbmq6n445f5i" "2a373d66 ab6a6cb2 df1e4cef b18bbf3b f4f015e6 3a0cba92 a4899639 0090e6d5";
   vec "yohc6aovjkoezl8n8ou06" "9f8381b2 77bdeffc 0c8c329f 324e2b79 1b6cd48b 41cc30c4 e58b52de 01d99917";
   vec "icwauk7dapf3wsju0ccrfh" "cb56adc4 c4e672cb b2255a9f f10ce4d3 33103ca8 6db4f02b 25e7c5d1 09927fa6";
   vec "j305nm6q1h9yrbjml5gek21" "0c9dd89c b7b4e06d 1aba1952 45dae984 21ef0bba 0cc6a570 5814424f 71cb00aa";
   vec "bhb9byqq6ue8kiyvumlo6fmw" "41eede03 b154f440 7acba61b ff4414c8 349ba18d ac07f26c 4f2fcd42 063c42ac";
   vec "d10789653yf2mrw5j7uhvhv1p" "3a6f0a0f 686f6415 12ef3237 9f45042e 6db1cfc4 e1a2d202 daa9247a d6dec7f6";
   vec "ti59540rl5mezi4kmpd2wa7cze" "4f05e670 5400d68e be311e9a b4a83e91 800bb13d 858d7934 a0751407 4e6270d5";
   vec "2p46xwvme67itj1pz2wgvhyymcy" "679b0257 ebad80a1 804179fb 9f8e02c2 4befb13a 7a9728e8 dd79b99b 341a972d";
   vec "c0wo7og1fcziheco32blsn4wefvc" "4bce3215 4d0695bc e64985cb aa7aa8df 1dacf5b5 242d1f29 13a40873 214856e9";
   vec "53btj1a50n9iqjz01nk5085g1ineg" "a5e6ea58 6182f704 92ec5b9a f379d276 8ed13df5 78650618 d77be4b0 5e52333c";
   vec "qslildm31m949k79ggmdlkqy9vg8ny" "323bd809 facfcd1d 48aff8ff 3b01ffd6 d62d7993 8ae5c332 1772bc95 d982194f";
   vec "j5ai2mqn5oepsamk0sco8bewkuxamte" "ce5174bc f3f2f40d c844ca6a e95dca78 a71b74a0 bff6a4be 28d2f83a 9e05b4eb";
   vec "76qmtlp7xf6uv51shz6ketnef07jh6yh" "da22bdf8 13ab8a1b 0b40191c 27d60e6f 25ba18e8 2d3d3fd8 13293ade 8d13f668";
   vec "c06xib8ovxzpz8hegoxry7cr9jac4iujc" "7c7c2334 8f011ab7 a519e5a9 7fdb36d7 986f8ccc 0f043436 0fab9e03 c26edcac";
   vec "l22kolsa5tczteyo4hojg8omko4f02v9kg" "cd7f702c 8b0c1b22 2c071107 ad48bd6a 3f0faec7 92bff9b6 1476eea0 901d34a0";
   vec "rp273pcqj3aquck0r95fmvcw6vg0ls9cd7b" "71a44adb ae101881 a583c04f f9252489 edc73526 6c5e001e b34f3781 9d1e19d5";
   vec "oraulb74bqmzu2lfgb64czjchgo7px5x7i64" "6000f44b 88566ce7 a013751e 98eaed53 ce8eec8b e5500286 a811164f 0ef2fe3e";
   vec "6l9gf9symky918o2951g6nr0fbmdbz26ihsvo" "1151a131 71d3a2ac 317d4d2d 1067c87f 5585df43 d6b65cf2 d6e2a3d7 91884b8a";
   vec "dpl03rbpwg7wzxfuil70nu1yzmwnr402vdf265" "debf2a6f 157536c2 dff4649b 0d6907d6 8970204a 984b293d 6871c516 cbd68e77";
   vec "ytncsnsfhhy4lh5pmn6r64zm087d2ftbffjvirk" "8ba2d9cc 29916ea2 03037602 c4589e9b b2334383 018f45fa 7bd97ce9 52ac2e3a";
   vec "62b88nh7firjynflsda2h3e878lpz5ewv291m4y8" "566c7f46 a333ff14 08c96c90 92e368c4 f93a5cc4 98c37bc1 d5e54e39 599d1565";
   vec "9abhkqvetc403bpyp12ico2uciua9ew9y0ler2x1n" "a9877692 2de160e9 9a26bf53 a3bc3afd 03a2ba79 b4e70c31 3ae2d3de c1770e71";
   vec "0h465hm7zdsi7j9dfxuimqguhromm7spqni6zmjuti" "c10d4393 3e8d20d8 d37ed9a1 403230d3 0c0f72c3 c76b5712 e3bb1258 46982855";
   vec "6sci3x39vb4cr59uv56q7o4yepj4eigw1s64k5scovo" "7c0a95c0 d7afe4cd 0398b907 d288a596 d0136637 2284f660 7dda8a3f 13b5fa32";
   vec "mmtq06108a36oen53cpwqmdbnu6qnl9b43mgh51ljpkl" "c962108a f6132b12 b47d1156 9b829843 c313764c 33856702 c14ef45f 48ac17ac";
   vec "r5q55i78na5pyk48lcos43azkc5lo8ldmfqmh1iu65908" "2c1685ac a7fa0ee3 0f14d853 237d71fc 7619faa3 0cc2dc65 19fc0b5d 0bd601f8";
   vec "od35jh8n1q5rz8wkhdwo7ei58fe9pjghnbpxd2pwwpib8n" "6ea923a9 26106b1e e6c0cb41 7e67e676 fde736ee 1de66e33 9d0021d1 3e68221b";
   vec "aeqee5pjv3hn1rq2e2maag2ikciofdlv3389gmanyz6aur3" "cef09747 14937bd7 44079ac5 afa5ab24 286738b4 ba770b9b 8c608dc6 2e57918a";
   vec "n77w48i07beztvdthh5gq64psayk0iqfuncfi0sotgrq1ufj" "cede4643 f92af4aa 8cc07e3a ec7b786a cad031bd 935b560f 2d78e1bc e846546b";
   vec "5gxujv6xmf1mqt8b9c3oemec0s31a4qnf260frwdjleizd5an" "6f6cf2e9 61628993 fa48ba00 cc49b5a1 afc8d429 fe6a2ab2 9f7c99dc 95d71821";
   vec "s8o3rdm8u4j6ozbfjgrnewlq1hdvazja73ynrt23x9u6bfsnf4" "64fab12d a85b0212 a338dd84 e5961f7c f6e1f871 0f378684 ecbe0653 b72134f3";
   vec "x3ppx6n9wos1oieq59wcbrun6jm04stzzzx9zbc8eq3b29fb8lt" "b4a0a263 72cabff0 25b3a9d0 c1147ae7 231a14bf 5b002104 7290e4e0 dc1275ed";
   vec "ffmyd6cpke5r2080dhwvdlg2g34bk39y0adl7ady9o8jcp2e8lg2" "30aa2f7f cc5cdab7 cd4e4e7d ffe122c9 d785cd99 0dfce3ff 1496a20e dddc92e5";
   vec "05l2whoitoyu5796tbnwsp2te793dslg75ocqi8g3cgpzz9ya2y3d" "d707d1a4 d6e6a2fb 16399e53 c8bfb89c 701e1104 29c05048 4615ccf1 80c66217";
   vec "5j3gd42ccyxtypw1uri61kje7kdpbj8fjw9oxihn3eebhgnhb012zi" "3404b969 fa8ae366 6b15f47a 3cde7303 b48397e8 dca7fa2a 913473e3 86b7e176";
   vec "520qqzjr1hodrlflml0bzmxih6jee6enid4w8xfczd3chc52nl43l0a" "cbcb0b62 5b4ff684 9fbb902f 36569dd1 f544bfd9 e11a3897 20d32abc efd61df0";
   vec "qmncs17coebpvdy2wdr5rfnfcver7xxeksvwo369wd1ywqjk21b0bhac" "4aaf7ba1 b2d2b3b2 8431e38e e31566a9 df1a787e b08171d3 4963d885 ce496297";
   vec "p0myujoznyrljc7pwysdlhpxznmkxrs882ynan59jxn3zb7mgiogl1wq9" "c8cd7e9e 6b34c11f 85b63a40 ef75397e 8cfd18f4 bf525cd3 42dedb73 8a473e4e";
   vec "8zs49hpcttdojixw3fc6sn42s70cv1039th6ayau8yxk7op2rdb96hlr1a" "fb5296f5 b68e1b22 1bd230b6 ddcb804a 15b40ac2 da229dc1 da6710d7 e276001e";
   vec "fsrced90u9ldvcos05gze82t7x1uxgdko9kwqehw39h16pdexyutxuv2xzi" "e5c21f20 b5237726 1066ac63 4e1823eb 8ec068b3 5d52e4ce 9203a6e3 234defe3";
   vec "y3e7ujoipcev4i8a3eh86f9ewccfnk3r790cpebyh99t6yp2bdoxdl9bloab" "fc3dff9d 10ae9ccc 33eda1b1 5ef3220c 1817759d 623e10e7 b0d587ad c6837a3b";
   vec "yc6g9mqo2ez6m4x7mdp71jrxxq87xf8rw80v29yt75o0y8z55uj802osrz9mh" "a72d200c 521e6799 374edb2f 6240dc1b 3b7b1565 5f3fcad0 3703b6f4 8337a771";
   vec "hru7tblu8jc20hx6toavoliwav8eod5ab10jl0iqq354x8id0sbfvsexx5mgop" "f245bfcf 00e3a3e8 c5f4422f 42ddf272 efeb567f 8f038f82 5d1fc0b6 3882a5ff";
   vec "gr31kq5umeze0hkmdmaiie4pz2essuo3e8naytoddlroiir3ajougbfff8wcuuo" "d36f04fd 5e0179a0 9cc568a0 e1f8aadf e4aa6555 2dd2b8a5 6ff22fcf 82b4f2f0";
   vec "55zjup3usz6mepmd7kh9r9fx55udur9cizf7ut777yamrkztzbbeqbykpkyltlj8" "3d0b9c1d 79bf8d57 859bd3ed 49480dea 5d24b320 e32765a5 184f28c0 1cc904d0";
   vec "wkj6nubq6zem9vpnq9zchaejykchx66qkakzdxm5t9fwtr1s7z11xeqmw28zdabxb" "d5bba474 33a64171 48520a62 970c3295 98fbeb94 ab942485 5e7ebb00 d08254ad";
   vec "hl782d9t5mp6hwzw29kb7t5nutma2vj0dt9m2oagij1jlra9pw0wtyfuxsax7z1a83" "db4990b1 4cbbee80 21880764 065fb5a1 c6a65691 e2498c30 f9af28a2 d42fc69e";
   vec "aiw9d68gr2ozt6kty9ye92ylz9e9gbo1maj2jdceard5eb14r31adn4x97tsy072jx9" "72533325 89905265 ede8c7e4 657a6cdb 45582327 63bf43b5 03ec4071 73866d15";
   vec "ybnsaua2ysjcrrvhbfpe9pnhvvpalv8qkw5bd1q2tvelhi6ylexezrc6nu5mnq4at7hc" "646d75d3 ce8e7f44 9d6ea01f 450ed403 7827acd9 7d5e1d6d 7d40fa7c c2e53249";
   vec "0gw4ypqv7b5kkbxevwixjxd1waabrgoh42x50x49yfdpox7jf9rkkq0wfosyxjot3l90q" "93f4c217 20c48cd7 5285aea4 4b919f6b 5a6c89a5 4fc33f34 798a4f28 bd066742";
   vec "su4vr92txlm8ks7jloqe9a2tjuz7stxvbgahsyqu1o6yaqd8y01hf979fzduucn51jofzq" "1f337070 e31f9fca 1ecf9741 48e45ab7 5780c192 decf5b47 4888b0e9 f317674c";
   vec "w4b7a3mu8dfa7l94yj7m755uw0si4ckvtmkqtdg63tvikvv41reytxf629wi172jybs2oyn" "dc2a28e7 9773c939 61b4a463 919c66ea a0503d61 b4d3f9d6 30a1cddc c3360441";
   vec "y1yglfxo7tm6a43agm3ye1sfiuxz67z90e06mlcvgi6jetartbr41wpuituq2a55e1rdo3kw" "6bdd9724 68d3e2fd 24d2d162 38166104 0189e756 ccf7b8a5 f83f58a7 fe7919c4";
   vec "xizmqg35h6c8x4tbxxfc4z79834f7qsv5s7r0dgqhc67esck3sfo6wqmd2y5bbxyct138dvp5" "f30db052 d5726352 34d76c35 dd12b875 bc0c6af4 6d7a06d3 1d81efdc 3795d39e";
   vec "f3d7iqriumlkxmawwfwoatyypwzuwx9m31isyh221865ovs6tcqe2dgbeptytgwte503h642eo" "ede0bebe e90f9007 b544c45c cdc4e03b 54baef3c 58a7c099 6ece3145 52c73ea9";
   vec "6517y3ojxovizwqa5ugzkumnkp6c8wgp514puwnr0u1uh881mjtyaxv1338birlestmt2g73ktc" "b6cc25a6 9a65b1a4 d3493e33 f504c155 1c34c1a4 40dc4e7d 8c354bb3 2aeba9fe";
   vec "qbqw2whjhdycmbe39udcbp8qcq685lgdyg1wk76nlgf22rowa2a43tzlvp9oh2uuf4w7324qfj0c" "538df5fb 2f2f860a a40cd360 76a3ee70 2391a000 5d94b6f5 03ac36b9 27b7474a";
   vec "me8vrxyb1urhwccl5tjxhbmdp9nu4q3yms1i2yonoitrixm2da3t5l6ahi3jk8mh645ajvk4ltz7b" "0a95e7d1 f5c1c8d8 e2978e7a befc0358 1ccd5113 f86a90bf 877ddebf ece502fc";
   vec "f3hlajcogqtcrlprlbn29o0h7u14ickipfwkn54tynf9u2jruj6xztzn5jcyv26uiozsoftr2ikr65" "871961d4 61bb927d bae2aab9 baf31b91 b58bed56 0dcc64a5 6bc1bb28 a3a7eca6";
   vec "owspeldnatjp3l9zp19rkgycwe69ywvikobi2v82axc3a7g0l6oo2gni0444mwr769evbxh2szoxk0y" "b2787f06 61a0c252 7d329f4d 252fecbc 784e07b2 32c21cd3 b360b8fd caf49740";
   vec "i3gxeh7nj8oi3k3eja57vmp4oe5smow8its3s477pe0r1ydrh131u3syk72txwvpyd1qvt2sk79u60rj" "6cb701b3 65a3933a 7353e46c 41326011 45bf1857 8bdfa3a9 d12fb9f0 908f31a4";
   vec "9u4q3ww46ojo3urk4veb7u078jsxqadjjovea4u0pmnfsskh1wn4h7c60g8jnapt4rkf5mqg8woot7o2b" "b620bb61 d60544a1 15652690 7f6dc0af d98b09f0 cfc55d0b 4d6891bc b453df54";
   vec "r83vthwy3pkn42s60plr9asqwdb322q2bbebt4jvhrwoww868rsynnct5720bxukxx6ut9ofkatjp8ngv3" "92636ea1 7d7a2993 6f5b3f42 300b7df0 080ef6b3 1dc37afd 45b59803 1e3221ff";
   vec "jyiq5vck38deqt41pozqsv7aey783f8pxmg0kzb07uwqjyrhr3ss4hbfiok31cgefdw6d369wnilr9ptpcf" "d22f1d85 3378ced8 30b37a5c 494cd5b7 4ae60759 b9eeff44 bea8e52e 0cbac180";
   vec "ihkxsqzwjidioznk64xg7u7s3zuff3y07f7n569veohqcs6t6hr30msxtms50164kg5mw12xlf2i40emd4ia" "172f2bda 58235c07 d5754141 ccba7191 3aef8bfc 5ded088a f87e9508 184847e3";
   vec "yrrerpiir7jannyk6vi052x9g2qlwo3hjn7k1rrfmys7yb6k6cks06zntomq8nl0tw7hsxlavbv47bq4z1nno" "4411736c 716f2d5e 14ec6f60 38fc0142 af9dd970 4d281ed0 8623d6cf 20a76565"].

Definition vectors_2 : list (cstr * cstr) :=
  [vec "cwgu3t9fy4i1x9ncccxuczdpmux4hpqmem3spkev4cmnk55ezfa740fpg6vlrwpm93xod9fhgvymgm2grjlnzw" "3203cd08 14ae1129 ff401235 f8f27d9a 31f3edb6 50a1c0aa 47640628 5cf01fdb";
   vec "m1lr7ssgzd9pb82rvocez64z2ubt1i4nc9s5sm5n1v33u0nkgyl4dp18othulpo8y4rt9n7ph9qg4bv0cn9730l" "87be1937 a557713d 8b2d2527 dd079a84 73eb0011 63983341 22087050 1057166e";
   vec "bhn5bjmoniertqea40wro2upyflkydsibsk8ylkmgbvwi420t44cq034eou1szc1k0mk46oeb7ktzmlxqkbte2sy" "9085df2f 02e0cc45 5928d0f5 1b27b4bf 1d9cd260 a66ed1fd a11b0a3f f5756d99";
   vec "6tln7if0lojuu2sok3grdw8y42jqmmyziilxbfmbhl91szp7vpl953lwfu5kgrk75bow9jnf6ojdtb6yc6rolqyj2" "398f733a 6ddf10a7 96c8e641 3b0f971d 5c0856be 6c00baae 8c910d2f 7dda4cf7";
   vec "s0soom49fh3kccbx9n6q0ez6aw9vkd177anrpzxllv6jt00bdhb9d83s5ylehx598om6xeecjpju4hhtkt7htv31rl" "f793467a aa95fece 6ca0cd5f b0ae177f 928f54d1 4eea185b 0a36aee4 a14b9900";
   vec "bj7g8wsgfaynfp8zaifezfook74t5491n81nv4in9bcgsf9ymjviw409wcw1koeifdz8bmqmox90wwi0o34t1cpemuc" "89124a3a 769da845 df856488 6c4e4be2 af1ce991 f0f819d7 7d0ec603 5b39acbe";
   vec "d8tbarfme04t7g6lqacjh39qg1tnbyqe4amrc349iwm8ftit7hndg9sjreaeprrab1xeyhu034oktcwtq7so0e9abaq7" "c3dc9919 b0c9553c b80445bb 6e3eeee5 6300e4a1 be7248bc ca24f690 9e89c07d";
   vec "gki73ts56j56tb23z7wtw89kw7pd81fxq5c5mdsme5bttks7gco0obhib8ly3idrznb2irmwem9jid3z6dxbaldcii3e0" "275c508a 75b889df 7a9aa756 3b634265 422bc33b 63dc62f6 3d1929ed 9d83a254";
   vec "r9wkrh3p96hvbttcmyj2pa5j4u5am3l1bpodi9gvp1it5nauhxdizasd8m6q2v207ghlx7z0b4hiqz8sex1ewug6a98tjr" "73950b10 b2df4bb3 abba07d4 f50260b5 6437c90d c2847fbb 76c1f7eb 2aedeaa3";
   vec "ufjqegx8sfplkwvwl9dwic0i5nwltdq16ml4qx2trx8qwgshyh6holam7x8078rdbcnrgxau8fv391wvp2j21owfaxruk4g" "c81bcaf3 1c58055e e4d0c77b 1c9cca9b 38bb2fe6 45bc7fb5 0aa20930 3a3d77bd";
   vec "uc0q9yaxdofc9rg14vav3j13drg5ppexmycghr2ifau5df9lca62wjlq12xt2f3gh3pgpz7wepdiodjs691m1v9u8hj7acef" "0ec1c26e 4eeb0477 c33b9acf b2ab7b4e c8a84990 b632cf84 d5f01bd4 1e3470c8";
   vec "vz60vgallvy118cae7qzd3l2zy5cibywdbvs0nmaseksdfkx50o5zwjasnb325zvjqa766d7gc01nz28cxidei4lk9uid0glr" "0a80a5d2 45078043 1b0d8241 42cd2bb6 9a21a3da 7f54bb49 b3138b22 c9f2fc3e";
   vec "g0gcbwfq22cr06k0xwn2mx5h3oobqwrm3bpa4rx76umswtcf5dzumncgukt5r9gvidn0zuwfjb5s5khaklg8mfni1yuwguf4aq" "e6056b45 59297393 aa046d5c 0f2d9562 27327ee9 e570f423 72948675 00f557f4";
   vec "m1if9b4o60uhlfwtovpgykjif80rvv9nlce0dg0wc3gbrvhovbssnmj0pdpzhm9f2q3ihwprj1k6lob30l86kawhwe7lkevbj2h" "cf1049ce adfc6006 954ab01b 13fe489e 9e084773 b75b128e 681e8cd8 f47d9ddb";
   vec "hkoit92dkghiqijcsr1pcro2kmur9a4zx4jps0qthrw3y6jgyoob0j0wtp39tz7toon44n0iex3k9b0ube3l3c61cqm3qhobu8s9" "89b85843 511d56ec 67c0d6b9 57cf6a8f c2e5a953 ef583dc6 a5b3d37b 86b82c1b";
   vec "114yxa05kb2ktez5r7u2sieqss6iwg12g44pwni7r7oyz1pmsgbkvncuz2vdfptnamvta45d6ed9rzubo7pipdxn1c2roemnwtkkt" "1b308b7d ce830a12 96333d33 60083795 39a81854 cbf90901 e0139596 2afd0a09";
   vec "d9w5fqcmumutaj2mywxrb87cx6wxbxr0e3l5jyp8aoq87hhfwgzpquxnkusm2yyvoesjungmp10xz318be7zn3pp52a0sf4x7skd3q" "3416f94c 2c40ab2a 784bfca9 3f83297c 48bb40fb dc2a413e afa60f06 d4aa17bb";
   vec "nev7qkfbh7v698ru7yr97zyw7ty5ycmbo0poghtpo23z4zkzlt3x5pvsk6tljug3pd3aasmg3p33x4nijtddsmxqgr2z2ll0byufblx" "3807f816 4f182657 0f98ba7e db35e152 c7e749aa b74bda9d 222b6d87 6125cb97";
   vec "zjrocz9l7bu2d4lskceidwgusvwmciyna9y8w8p3di7dbw3yjfjzp3skngf1ci4f3mw1npe459nr0gpa5ffxonvj8swqk73xr3bq3osr" "ad92a9ac a76212d7 43ed7f41 ee77fc74 4624228d f038660b 86e0d1a4 0d6592b5";
   vec "wb69h0hzy8npcwb0g9346g6bw3jctw70fbbxz3ub7darrbthevbbr844zy43f3qs85nfpl9hxw38zun5kuml4104w8gi6irf4rerzd44n" "48e04ebf f223cf5e 065b916e 2b0cad4c af245e18 238e7acf 4a3dbd4d ec82f745";
   vec "h6q1t4av1p303nayvq9yzpz554hhxzqgac1gikd9qe2j53mk17ut1yo9rx9n708xxq2hhg3ylstpy09qkaqffletdk6o6scjqd55qxkd1c" "bbcf07bf 416424cd 38c3e855 2df70f45 07aa404d 60d3c019 ee85638b 7b58c9a6";
   vec "0baa39rs39js0vfnvfd8brxoduuc0xys563b8pjpila7ctvz1lvsqx8dj7tsj92nmyubpev6rtcsxkpk9qqgh4l6siarhmaf6q7pjopc01z" "9cc34586 3b2e758a 4ef2e79b ec9ac5ae d4f05993 8306f6f2 f1d21ede 5b58d51f";
   vec "kb0fnc4qz3gmy2tmzyv7y33ratlcy9sjes5kl9yd4mi6awe8v8atdzvs0k60mncrms6yzog4ftqh6ksvecbxvk4foot154uevmmtvee7oqt0" "a610e2f8 b83bd02c dbeb2b53 b27751b6 3a8b6740 ce168e5d 20c5c571 6b28b062";
   vec "380ab931pugf5lv68yaqifzipm27rezxvhrvf6e4oa7qcjq3kgy6ve2xoien5sdqzpvin1fxw04y9dl9h2lfg3x4amwzao290hax3j6oih7vf" "ff193b76 8845bb30 d2f5cabc c72a0b30 ec505515 01744ad4 e42044b9 a47e83da";
   vec "p2mwj3eemy8n6zyu7g6klb2w4gqr3qlfl8l40cm8etkv823vh4y8j6qw5as7oruo10lj7sovcz4tkit0ubo80hboycki3uvlvrfg702nb9zscy" "31c14e21 b7ced24e 2930ccbb 5c34a4fc 7cdb735d 52fbf13a 7b6dbed2 af5063eb";
   vec "fvnl8354fi3a0anxqh4baery9x8jgs7oa5pa4495ylg6fc3nekbgcsdghm3ai9a9565k7wqwq30lkfshywkhoog323evpoyegvns83m9a593kjf" "790035eb 6b3ea467 45f9e003 525d795c 0a2bd721 48619805 14af3ae7 de343696";
   vec "n8uqolg3s67fait0r0jabqzpekq3pp6rp2j9yk1nog55sri0r7jvjhltbiz2pf4fpzmn6f2a3vf4sfjswungvzchf4iqyybrr39euhowgnxflbco" "ba161cf7 f060f048 c0e48cfb d7e5e63c ddfce9a0 a3d14bca a6dfde43 1e0811e6";
   vec "f5cg1obuucho3pbg4ckojyp6qt2xs7mqwvtupr3lrqgbuxjrakh3qyfmxqxnumn1r99410ews61brry6utl8d3ll1aet3zyj7zdsq2f9w3n06bnbo" "89e0ab9a 7fd14122 b9cc8528 b7665b80 5dfa7773 97920f88 9fc7d67e 3e83e029";
   vec "q32runzoj5fs5zal3t3bmpco4bpsc6vrnwr3wx2zbk6k8job5h5arlm2lxc1yx66ds9bd6dr8xrqtmzl0b0r4j3il19ok7zrdtiz0w9tfyurc589li" "1d8bf2ad 76fac392 7a6b72aa cb66fe40 fab33f23 267c88b5 1aab4bdb 7cc50689";
   vec "nue87e4gvau003jxt4pqm1x2n4vco5vyprgtxruwtgn90sjjia1bi3kfi3skab00lxqajr8jrm2x6so2cruqw5bwt6dc9msyjrxro91ef9cf6f6ixfv" "a7a603c6 9d55848d 42f7226f e5f370bd f6528798 11d3b91b 144a670e 6a6fb8d8";
   vec "wgvh7bpuwexkuecss067d71ww79o6goubdwuppbzgaxj0poyxd5t1unl73gqwdxus9zpn4aca2kbq8boup8y0me96gupmclulvr4tur1hg4x6gwfuf88" "a842b00a 25e3716f c76b5d90 7aa5dd83 0f96743f 52f56026 7db0c8ec 92bf88cd";
   vec "l5k2ow3jlz32sjdsg9p5qjv9zwnm1rldhs0ma67r7u5xgwrfyd4qsm4oz78zbdg74ff9c3q6ht5a0cvv8ya8qnv90cf9viem3pepbmcg99l2fwrhfbwlk" "2dfd0b15 ba7b6b70 4daca125 29822f53 bfb47ab6 a19b7f0f 39ae1e76 3c8b855d";
   vec "0m69atyvhjy1bar3t2atnb05pj4awty7fo3owx3k4qa13aa1oopm3b4qlsrhr8fv56jw02p05rx0gourcjk235qjxo3vi2gl9f5at1nyrswqzu0840i1lw" "9e957a38 43c78dd3 894bed49 e55d1297 3e382351 b4d3d5a9 082224a6 c4832d28";
   vec "cf6agcwvjvfvxve4zn4wkiha2rod0fa2o889h9s4nfmdhyoifare9yxky26ly6uhstoscag8f6uuwkvk8pnhxp4pvlrl4a7inss8ptc660cfrdb57gbdwdl" "1609481c 58ba2c98 778d80b5 f4387935 6927f155 fa858335 29799afd 00422ed2";
   vec "9sqfyt1315y78i23ex95khp247wehmj9vz4e8dru44kqdqjv9x8nyj5t2kxq72a49ixc0addr7e3fmsq1ch3k509s8x93duzpqndgoaq61xkebqdhqdd3ti6" "fe13eac2 df8ac413 1207dacb 429d049a e0744634 77761f54 9adc8768 839627bd";
   vec "rr6mmctw35i4mlfdsue4q90b0ql2mg8kb4b1lqgg45sv1ler4rh3uc9wkmhady2mcde2vguvruqlb588js2ap0w5pvycyu7rbv57sdy5z070p48jiugytdje2" "19615c23 1aff77a2 186167e7 11b58f11 01341f05 d18e6871 7c2091c9 c32d11ca";
   vec "yygjrjt5kev162zerapcuz5qm494pvsee9hfdzv9oqkxtvv8nyvwml30cgr8ab5nc6qj71y9b1cm8jse3q7tkr22cd41hqxqz8eqj7s0ljrsckvnl4kae1lvhv" "7f72b616 27607170 99bcaa08 cfeb7284 5dfad65f 48480cae c05d71cd 95d12d43";
   vec "9pqpslvvqjbcobr5uzbtdafoxxl8b8npjfkyb3qcaiaio7tqbnecedcvnpeztpscp4dfqilu0o2w2473wram0stod6o1o6wam5upb876xb6xqfjx2celg6gzsvj" "44435529 790b86ef 388fc779 9454441f fadec595 73573138 4471f4e0 2ec25325";
   vec "ht34mg5lumg53hl34y0h7832zjvusghy9cbn3pt5u787wezgf6mmgk9qk2u2qbdkurusyxwy1fvzv252l05iw4l5wnlnt43cwhzs68kcvsp5f8j1le11eyv53btj" "3ac456b5 258838e1 487b7835 3a3c0159 5d9516b6 2b38360a 62d85690 6f3656fe";
   vec "oucbgzqyttsx1d5s93llpkjvk44o79lcpxk12d4kqhw12ved3kdpynvzn0c4edcxjc290mud0r4vpgsrt7ja8fy9n62vgzme1lk85ntwb32w33gkxx5ie6n3fa1q9" "b7c57ee3 d0846445 3acd5924 2417b6a5 93f7d3cd c9802dbc 422d051e 4e1d42c3";
   vec "el9qkp4o37n5r2cg3ovbnr88d5jg01h4i6599f96ncq29dscoc41tcidna1md2g6zvg6sbkv6yel6ylh65dhqkb7q2r1rqjbmnuqeps1wr5fdjfwkrwgxt2268mvlb" "345fbf31 1cc5c6d3 b75235e0 3b7a04d3 ffcb37ed 58935cca 816fd1a1 59b5cc02";
   vec "5a409slica0pk2z3s6aq79tis8mpl8co124y0r32x9zm3tjcjghf9f5oxz0s0ck2pnoi7tl1o8u8nmvbi1ychlyijeff62gyan34s1hhx96azvni76f4wytkux6i2im" "b060061f bf63ce3a 7a521796 a1896c4c 730efa51 82dd9943 a214f0c1 8c24fff8";
   vec "yy8dv09eq3vz3vnu4oz03z17gbr3rdqozjtilrta6ldxqledkp9y8fc5vpwjwkjiqpg5uh79ylujsk233lz3kuegnd6f2056w8pxwidxva1swi51vdvxgaccw2da719n" "0add5825 e8ab6b3f 1fbc1115 4885ccd3 c872b464 bd8ede35 e44e873b 2a89db61";
   vec "q10ge874g4k4s3nnhuxsl890nqyye21k7p96dkox8jodaqzbcg8oywmqwye6olb7qvy4rq0d0923ziaw7a57qllz20mnuiy84ljl2f3wm1eociykomsdqnocpescdt9vo" "b2e22584 01ac36a2 d003ae0b e7f63129 3b164a72 d552c302 78365713 a300bfae";
   vec "zdrtjfframggi1k2quw6cqgyyyqmzy3t7blr6w7w689hf71x1nmoaq8ume2d5jqw2la8egf1w7xnsnzfo5t41kyugkii6tktg7ckutuentnypbjxrv4pdim2o6bflgseyw" "f8091dba 2780e912 44e84a42 22cf9637 2ba52fad 1db4fb9f 99aeb1ea 88c04238";
   vec "ocz356fvit3x7geibhanqeamv8claiwvq65hwogdn9j08eyyihyzh5ikjv0k9f8iajcl893s9ntgdhfnf0s03y74rjpsg7pi999cz3upgyrlmgfof1k758xp2zafnixi66e" "0d8b3a04 cdff0c0a f0451cbd d5386b18 a1930b12 f60df650 ba38475e 115289a4";
   vec "0rum09ddaps4rdtj9fggmm0rujmi2mqt9ly0s5uzco55jbnf079vdva15yh49lm9ql2gvbag04300pmw9jahjuypjr2rn9m47u3defkgevurxpyj2v14ab3xajeinr75ozll" "9c858950 54b623ad fff03992 a6372605 e832f708 a1e27ff1 77d11f94 8a3610c9";
   vec "ks0wm784qbl46xv6qerj40b1wjxwlnz10574ew1h741jtw3n6dzao79ko8w6ix8qskyhd13wwdehq9uwigezhgmhhphv0guhmdcy3z1d4bukxvnoz8lo0poesxa55osmj9sqb" "d67ef69f b772a8df dc3fd912 399c1fd9 4c5ae5a7 3cd23802 00acb666 18d316dd";
   vec "cow4p4hfu9cv76u0kywx7hlc6sb4rpy99nejllqg2fbi4e660af413m6qvc2j59givxjawvjljd81dj79o8ok49o88mbxr0ufmu31cm002bxiui6xxsdo6r9uqyzf6a8cp6qu3" "d0e00d91 f6505285 ef261a2c 10026bb7 04c8e790 e08f3931 2783f37d db090ffb";
   vec "0r53z32g42jo9lhton1n4vk3suqep5r21glh7145pfrbrjsvt3fcmrztuixyamoftntjho0k3rlv1pob5pwt7jjuts4bbdqioa0bwcbqtthae7a62joizdthe6mncfw1j1qfx9m" "2080b9a7 1b92f456 6a10e5a7 69fece8a 5eb8d403 47950d6a cbddbecf 558e0712";
   vec "7j97qj0hffqw8nl88tjaplkjm7ev3zkfrk9rf97s5k1u20qyrihcmskyz2advxws5q5phcvmxocjx8ag8j440r9k8867eb37bzfss2h7ajap6z76b8uli2yzg2efjjnxbtor5dut" "18631096 7b5ae082 40230f21 15bdce88 1f39d5a3 21321e0a b7c712bd 75a97109";
   vec "vsq7312zidsob33v85sljdgo44p5kltcod16gigiuut2hgou5q3hccimv0sut3mj1a9034v9yeoj8cht52fjut887pm9ot41vg30nvshmainntzffpyb5kxcuxsa5tqr0ki48y3nu" "b22b61f5 537dcf18 bbdd8062 de5f73b1 2e846e5b adf34aa9 3d6bac53 bc7ba46a";
   vec "t158voeic4e7oj4kruef27uobkyk3v4m7atlwqlc4ll39y9sjfm3shkp45d9ub021jki5up033237463dlz6rgds8s0hvitba39qgqvqfw46dg2ucj30rkg6dkklyjn0acejekmbgx" "897ba97f 6c5266bf d77cdf87 66f421db a970aec1 7b992ac7 294f4571 8c12f89b";
   vec "kuu5stcqwg5e90u5m3sdbhy6145u4dg5ipy6hslzuy43milsu7su8mztwg819zl4w383iewmbjlt4zjy39evu5oqc41q5ogziw2k5b5tkmg01klcgnhb7w0y4sxuh2b2n8j5t26hdkk" "d6efd43b a42d01da 7337d7e4 bbef7fdc c1cc2cc3 4280dfad 6e1aa7ae 4ca496fb";
   vec "j2dta1ykji95yg1dyl7qk8vxu10xxpqgnkevrk3qv0jt5d54kwxxh7mgw72xou9ylx059tdpsm0rvfbt8fqh9psprkqlbtzu1zitxy8vp4ghj24vd2rvfn7tdu6yzzkukrwh85hil2eq" "cc02544d eebe9133 6c314ebd 2cbde3ed 0096c85f a7abef44 08ce8f18 e0192f72";
   vec "tuhqqhkr4jvrvimtk38qa16qlpxc1danwoocxrxv6c6tfw691gbqo69lpaqgzn5dokfvxpt09dcaiyjo4rk0sdvx2t5kl5ic5m6dx54wnjevwupzbz5vhgw9glfekvoyn2mvxttnumgsh" "1cb9ae9b 19d8bcd7 5fa8fa52 8ab8c918 66fa5658 2a019768 9819ceb7 ea21953c";
   vec "3z5bgum96wae99macmnj83lmlj0uqd2jpokgt52c9axf1oxjuyhsn0t1pqds2z3ialkzg9hieaj5njh77oiga8pbd97rcdyu9r9e23i1zgg9i1rjns4yzk2t21mtbso0mvdpwjjjm6toi9" "8c65b93d dea41b76 08c2ce17 ff4df8a5 87f1aa92 3f87eac1 c981efa5 ae3a47dd";
   vec "zyem7toiqsft74w8n2xmwl8t5k57f05l5dncuq06z4128cnxn0cwn3f1qplbtepuhatbjoqs8u4mxbn4znrfdlcbsv2ql79bfoghylip6ir7ydfkzdc8qi7zzh8p31hkxb4z1nfvh3ft7l2" "76c7e996 6d310335 daef1de1 48f3b122 cec54cac e6855ccf 559fcf3c fe952fad";
   vec "vlvdi84wa473yodrp3lrhfk0xx73f743fjbp3ca6k07pvdvpg6h0h2691i9w2asw02781b8rv3lm8v77mlw4yfuujak8ipz2snzqsg43okjx4z0vdfp48d6f0w7t03965dc9a30gn558kt9f" "70b748a0 e43cb18e 5b6dc749 8d76e3ad cf4cb596 e9fb0f73 3e319755 0bf52a5b";
   vec "rh5g1c5xdqg9wty6ptpvo05kisspf29tyiarmjlbm8p6ih1hxhcq4l4igk4vr2fqe5uts7s47ului11eu4ypo4m68kd78xg2utjbtbccj4g53ed5wl6fhjes9ddtazbek4l7m7emvwdi34437" "9df54a38 d06bfa9e c9d6bf82 e0684da4 ede408d4 49de6cb0 2ac33032 9ac30aab";
   vec "dwavmaup2k3vpqheeqcn79z0a1pfvvje9k7ztoriu5tjl3eyh7v66w6z4rel1c6odl9bu8i3x3r3m4qe86k6p35ope2v947zgp2cq46wcvpw2eqidjatubr9qub6q0vkjvwq2o4i3skfclvg99" "0177951c eaa03495 36edaa16 ff59e1c3 f032bf47 fa0b0fa7 7ab16506 d626db03";
   vec "fh60h8guhcuvjd0cawerhqq1pmqmsneaw7149dbw6db87tfdnylifb8kgmpwpl92vi2bmkbi2s1zigysvp9z8djrmz6fcsb6x20re6ptx3ywkanc38iav9zjnnp6dijwfbauc53k30apy2d9ugq" "7dd2fb9c 5ba745f4 bd551505 cd425d7a 1282092a 3763e60b ad35f4c2 5e612b60";
   vec "vvv7wsdlt0amagjzx0y36u3oeg8axdunxvj4duy7hm875sakeuz80upzrenoxbtxnt6kvemhdixpotbw8qghrr8s6g2d6enkuel85kfrd6vt5wc0edk5exo9y7nscml07msl0xj2lterramxd6yu" "84525567 eef11ba4 4a6cade7 119598a1 f7c82ed4 7867ac14 e268cb92 5914cd45";
   vec "uqwt0i993myq8228zu2tywi2iqifkje5mndc9qtjlubwgzr3yqh4vmkenaxz3mzks9462y8596kq7lzl9ksbqwilyrlwq60qwrut4rdd4wnpttn097uafehxeonh6yqqd3ap19v0sdlxkxtnp2nrr" "14f5b991 8de68ed4 85d056ec 26d2f5d1 ed67144e de9d03c7 83a542c6 1e4619ae";
   vec "35ythnxxw23d38jzp4yyz17typ2zewzuk8h0yswf8jw512h1nzxddd8gzj14wj0sjevhfek5r2mnbzgx4y99e4g7woeb5m492l6qc359okcugd5het035nzrxp7g2zkqo9qm60r3t6doc7xh3ydds4" "745bd5ad 3912aeb6 4c2c70a4 7851d67b 769d4de3 cba48cf3 6c241bc9 043b419a";
   vec "q0u3vvlol29eia8puho1jt2n5wg4ahmj6929kn7n5vwz2848txqbob46lw3vwn3tz1nv9boe4og5aiz74pshnuw3uc5u5ydo37hzpzmffgbbpmdvyt6w4ah0ta1yvhwvmx8f1yzetm25lhqkytkph7z" "12c71a86 88ee447f 262267b9 c74f97d5 68772724 0c248968 f42a2316 1de80e34";
   vec "sabhyl3asri8ywad2b9407o01nqzi6eybabhuik211i2h2agllcxlbyr7zudplup8xbmc9r20xzlxf1e8042sd2qb3uteath6hjxwclcfdfyyclhxaz145znvq99wzrylfzuwn52ubqv3tyfccggkt95" "d518887a 1a06ae29 6cd9f7f2 9479d9a8 ce25f2af a437cfa4 cc67f99e 49bbc7d8";
   vec "kykkqfmcjdb0kpe0atr506uybvzlnv620h7pg7o69u649daxscsy9sygsqwuh4adfkd5998c5xh7d66l4ynq3gglfsccaty8ie7nnbrj1lykz89a7grqo267wshzo7l6ad1v923kna0x4copo0bne0oxz" "205df883 97ccf2f9 3930feea 1b194456 b310cc4e d3fb2782 2d49681f c0ebbed1";
   vec "s25vh5bmqd34uzwwtgcud5qu1p1pknmiskjn1aoict5ev4vuyhpe6vn160td2zn1u998g3kv0zvkssmy6pi7kh05h4h5uv2wb2x7tpo1mksgulqzzh4tgvq6ib2jemavz6zhqjpz9je7qahp5jqlln2lc8" "82b8a7f4 b8d0636d b1f76684 10db1bd5 81ea4b53 3b802d72 ab2cc47f 4b9aa5e0";
   vec "fyl90iwsfbrwq0s40bmetue2o854f9k87o82te9lumj5wbvvu01vw07f6mcz7dyh0x9liw20l80m1b5vd8but4jkastx9dim1zef0i296ej7leryzn9xnts620o2siqon19zcdtan4iczu46raplhf7y9nv" "bec5c0b7 0ae8cd6a f9132599 f6108950 6346bee1 12dd6c6c 67a91519 4a66ef96";
   vec "wflo0wprf16iw929r84ywcny4vs1bq7ged0malmjhnhun9jldacilkiev2jn6070l60h8lidr11t5l0ge2ot2fa1eot4ogpt8ehol12biah8bi9c7bnll4h7pqn0tayrvc49jgr6u2c86xgon0hql8gnajrk" "6bcaa5c7 3aa865df 048a8101 10ed96de b20dba85 fe646415 21602406 e520b65d";
   vec "px7080movjxb8qjfiqudrjvusqmery0r48kgm3ivxehmrrara3ih9foguaatljd7ox50gkymaj5u1qvibqgqfmtfld9ejyqjqa6zjyixoznz5b26b4fg5cipz3tmp10b293n0btzv0avp4d3g4nyrp94qwc94" "10f8da09 0e2da8a3 e439eae0 6a2ec1c9 4d3bfa7c 53323116 09046c95 09796672";
   vec "8q0s5avj6xcgaub2wbwe0htslq8z81wt3b71cxy8txmn4we2vgcido7e34ggumnthon5g3se0dzy3ah5x878qhsnduxktf70th395vo7ncv9bs43i65a3l3dy6z1xdaecegivxxv4dp8se1zgmg4do4k6wi27b" "d6c8e385 e3477280 97adc602 71e66b9a c2b53b17 9a453963 ce7d591a 6d9036f4";
   vec "bla31hp9n2c8omh6biq9y0gxgfmn90wmyvocoz15f6qakacc3q4tpmvsweb0fp7aen5t0jpb63ixkka04vd3ro7ktrnakguts4a0447ev9csk3cnb1u64nocshwekrdlttjt8cjycudrysikhmfjsmljdwsbjhr" "9f4a2107 76d13d7a 7979d955 98a0f0b4 ab1afc32 99019afc dc8c10ba 10ca4370";
   vec "u6ceqv0vdt7rhlu7cna7tel35ru5blfl3wmpriy2pqaigjtujf8jbat1vtbv5ebc1ek1gd8z2t0bywiyvht8rnoltflzx6da2f2ag8mgi5496bjg685p1668wlcg72psuoe8cyxwguaenbpq3775gt0a58t4ozm0" "70f48c64 19594490 0c81270d 861c6dff efaca0ae 9c783b33 69154094 eeabb6ab";
   vec "ffoyxhrnlelxkx84dnnhui0vcng6rjsx1e20flt90szbefapxnc1subv04778d4ne2rgfurrt7wd17mgr05lk0hb769cpzpoo2mqtfn62mvywqkz56c7jdyvdp9rar8v15v7g2r5oocv1f97pm2qqfomgm5abag39" "34ca233b 1f8b1cfd 1872afbe 847e7fef 36c3d72c 2124757e df46572d 2426f1ef";
   vec "xaf9mem5x5bcv3kos16d603t2umk38k9t5z1scjcg1r94egt32tw2fi7dpn6waqgyd9pkxcbjr982ul584u5cn7wjemkgsa879e1nj43rc6alkqao14cb2ynswpvensjxwdmzqubslzk9wutiiu6fjrhyg4brp3qap" "f62a1534 fa156213 867afd4a 80595b38 16d86c41 005f236f 44f1f2bc a15b9847";
   vec "elpqht2blrosjv9py8v8n086jwl1giraw7j8b9iamo5anbdr3flzqf5y0u1j784nc9pbzoxe3obi4sbfr92l9selvguuqve7vdghbvxheeq95blo2u5mmxaip3glpzg6drcfby40kkkgmb4dvxow42jea07yluksfns" "f696bab9 e670138b 7e373299 fde68dfc 262e7508 4e022d75 ac43ca5d 9896ecfa";
   vec "q4fz3cncg9zgxirhxpd2wgfjknztdgr81u2vn0xr70etn4l32rfmazkvmh751wrfj8o9if0zxhdf3pkshu6r3mu05pt00wbfauunelh2pkwibvz7gqfbbn4vf57dojyx6wt493hvyp2x9l7vv7xlpzjfstgufi97k27i" "d2c116c7 e93711ed 9116d297 b2175b4e 797c3279 00188522 665b61db b4a96ac4";
   vec "922irabcqi4nvzhna9n6vqvibpcsd2x5lp4yjzyyom5yjxj8hdn4u2cfj37exazye13uzu6ivt5p9nn6q52sf6aesplgmhisooruaxbnayielqtna4j1uc6mcdmp8q18hflwbo51mw4vls8hcno2dih37ijzfzar0y5g4" "b7ba5a27 01ed5edd 90610480 60a6f955 7a5fdfd9 e6cd20a4 41cd27cd f8f87576";
   vec "kma0ha8m2uwhr0fvg6x7hn2moku3h3s4hnkhq0ih048oa9o7mltro1ir9mddd2afbu9vi8d6a9apv9fuiozi6atydriu4t16x500k0ljcktg9zub7140l58rvkxz0zsmovzkmt9i3uthnt0ljwaskaqjl4jeyk25mbh713" "552d0b0c 8d289ab5 dd18fc8d ceb84bc7 885ec7aa aa807766 932eab3e b643a106";
   vec "nhibrusww4r75kdihx48xyc6o17vp0z6lcv5ois53sb7127vimc57151wxsura9eldbuedq6d75cwsgbt13jl2g38ghywnzb9ycyvhk7qiiyb6s8dkg94d6ymftntk3rz6sfr5adqlhd0vjoo9k129d824iu4trjt5j2bo4" "cad2af96 3120ba8b 7338d0b2 9e5aa290 5a92e62a 766e90b6 0d4381d5 21cc567b";
   vec "6t9hsiqn43swgp64ik3bj5s9fd1mk69dxi7pqat0rq96s4yf3hq9gpxhg0dsehv1yno8l18hby53l9axc22tp10ygazi22qh9yudgyfp7zjp7camhxeqpw2x8wxojenfavadm6vzqabn2paqe59wl1qermd2mxqrjhuhoi8z" "a82609a8 5063df70 5016b728 f1a3af95 be090b10 bd1d0cea d6a6b396 735b0112";
   vec "c1dhnmkxt6br5jbg7fpapswfu0nzja1tqyxm0zbwuilav2mvzzdevk6k8oy6rxbxr3bg0yvwj706q5zkqt3vpocf00jj4j9m79i2kgwnbyr55ry2rm3ztd9g9yt4htwm7fbzpix93q4wj9wm2bqt8769wm4rav8etwokfnrka" "dc14a6a7 001cc30c 0c455767 02a1c213 78c38ac2 f2fe187c 4de5f3aa 87f21949";
   vec "kyg5t86u8bufj0n5ei3ustat5brpo3ljo0xeqvdga3y25bzgvkswwlab5zjxumee56dyr08x2y8fblculfxk32pex2t5gaczvt31o5zpb953orrt3s8vwdgjzn5xyoqpxud98t2kwhioxi03fnxqgsv9f5wlvyrzyon8hha0lg" "72510ff3 473ca5fc 714de977 e44818e0 c8199151 917f0294 cd757d27 ad94f293";
   vec "fvlvbfdehycimzowiyk1cvujdj1y9mymbtyzds6v30vwkidl88n57bg1hcs5j0fipyaqqumjy0rkc5jic7yabksjw2e227qkfjftis60ye8y9wgttswgg9prjc27juzhtqflu3o4srw0qvry7jutq4awdanz82xaohxu8zhrwwo" "bc940fb8 195a2001 7798b6f0 caf91722 0cf52557 c7869dfd e6bd6e81 c42f8f5e";
   vec "fz16l1x3c0fgctd085kaaecza62j5h7g84t1nrc899wmjoaf430fg4wc8vl0sjtt8lsk2d1mi8r9ineqabcum81cqycm1lysbju90a2wuqci14cepwke5incl3ipz3hnwa4y4m07ihq6ki5j8zmcejm2z9xiaor3t8qr8pu1xy1p" "fa163675 ab88b102 a74c6846 22775b34 9f6265cf 6580c213 14ed8c0c 4cc9aabf";
   vec "b2pmmx2toiscnjjhbfzphz29nlu2y9di4wr722bcxsz72u10aub96tmmwi2ye5n0i7b9mq1f4uh6ku3f0usbwskz3vhp1t33y8p5uquutth3zg4xjlny5suwyhc6hci3jdcgzm16ewsubi9mie2yseqouv9tdx07r4dlnvixd6857" "a141c741 eb28def2 ec154d1a 217c9696 3071ed12 8f9db9f0 597415e7 860270ce";
   vec "ahb1ctbe1z9jhl1kk4jje8qcd1323wilxavk92mu3h7lzu9dxyniqklrtly7os0gyf3jc810sbcv9gwnxz1f61kidwddyxfepfl31ez2lpmcgo5mr07pl1m8fw9em22qbgevazhv5mc0mh20ofmu9u2fok0x0ptbw8b4zmedkmnr6s" "615065cc f94b43a5 fda117b0 6388e9cb 92332312 5197c693 977b4f80 f71863ce";
   vec "kniomfai7zafh0coxetrjsxhoxfzl01k8jjd7uf2qux5oagvyk9hfnv2omfvagx343iz91zx93zpewztkxqs92coz0tsk0of7bjgu7h7anwkwpbvjk0bjo1j8iexvua54pcyrof6bryk00euzdvjts52ei9z940mdw6zucgjv4ycjc7" "02355e7d 2ae8b5cb 846a4a8f 74413e02 eb5e8511 0af94ad3 8994175f b6fdb576";
   vec "4j3y31lhy35zlwiv1t5hjgzr6nnjv4hcer0w9vhgbszgwqj28ibwqqzbfkqj6spzfvp6fj589u9du3ss8yd08acaqww4l4hempe4mtbhtutb0sg7s0sfjuz5go2qkagcfyxqj23snyxkcm1egak34tlcyps6iagbkj5zs1u988pta83j" "2ff27d5e 4e28ddeb 417f6fb9 62d9049a 2da6a6ff b6b8f0ca b932522b 1793dead";
   vec "qtzp47ro2ixlhqbo509nr5f8t42sx2eegykui9q9i6c4rvsc0cjbnzvf731tfwihe5f390hxbqxjihg09iqlx29p6pxot9ttequikllot1mujiri6ke5cgeuzzepkmm8bpaej0vj3ogkfrcacsyvffzybq7l6ypycl39ij2ls92ndkqea" "17ddd61e a2d1251c 211b52e6 bf586585 5fa60007 19e00061 332214d9 bc9926b4";
   vec "cvbgn6aeib2fp21097v1m4saelk0uvrwdg3xi09my5xsavgqyq3mpq3ezwwy3z498mk4b8efhrewf72nxah6uxmojrkksve5titf4rabykxp7ebbfv1k4n19ush9letxtsji9kvg14blwdodvav744xyu0foks8jz3bhy9ho6jmuuyvcs9" "601279de 68e7949f 04a69170 adc70ca1 b00e06e2 be444f54 4405ea6b 3b5fd482";
   vec "07h4xecc9shvrsq6xeizcd37i2nvppuxauay5pdmj6k7fxoap8ombeoim7auqrijrl2yzsb45ywltoewyihtnm4qw9mmzm3wzozil8dyk7lk7cy8jq5q6a3el7xe3s8x8aoqzq0q1klp03ipfo2fkgwzeulm40f1kgkdjuarz9zuyewn9wd" "4fe15a67 18d969cd 8caf91bf abadd5a9 6314bbd5 98052a62 2c3489a3 27d82586";
   vec "6918kfa17vsg0l039m9mem2kwiolc5dvofdjc0v03920fqpp27qgm9uzdd7via2mod8hqf44hyyqdcw0g4kkqr3hj3ouz5u0n0j8nouipv2w2qgfkz14iek5vf38w41dx4pu2eg7ob00pkx0g0r3jk7ie6xgrdn8hb9gobuhnjas5gy2xu14" "01d69fc3 74b7204f ad5ce8ef e52e7191 13cfdf6c f30dc69e f9a35459 b3e8054b";
   vec "3iwxn18xs2a4pes5yn47i14cs3xdulr2qbu4dxr1mhm3v1a5ell993pq93ca96pk62sp5hzekvs9u5saxu0f6laq484i4znr3imx4tw71h7im6ydf28zoa1p4zrjwl3a0okvbnnwu4981gct2z8gqulnvn41ciqxwxutky4ck7qtlxd7h463i" "2dcebd4a fb387ec7 680f8e0f 002e1ba1 0650c64c b5f19de3 4750b9a3 3ed1fb89";
   vec "yxz3mxkai5da2z9py2a8m93qacwfs063w62avozp1sej1c1ramjrywo6zcp4andwsgo82u4kts9avt5ukiyi2s0dswcnanra00hfom1s2wfe3s2nnyzmqpe9lffc2thbrge2q4fq9a91dc7gvjgz9ayi56kvsdn94x2l13ghcm0wv3mern0yv7" "db22e0db 5af4af34 a8b5e180 c833977d 60ab72d4 dd214885 0edcb326 a1b52402";
   vec "3uei7ah5py2irsetvj299st4wfuox7dlk0idh8vg8ja0gsz013dc8cni7su86l35pzqe0h32pov0ykcv6gf7m65urhdqakup7mjxlt4yvdwr35rnxczfobw2f0y8mdrtlqklog8rx7q8c6mb3wdzcagvlvethr1z2coz2dgm7nlkzvv5nas3ibb" "4d5da76c 6dca35e1 8ac99527 771b074b c76cdcf0 8f92d152 cd9b81f9 1acd0294";
   vec "hxbjmfx2lqz6oo8daf565hftro6ec06uwjam6cb7ncopi5pfxs1f9a9xac94cyynzmg776tnuiunooqh0iiogtd3is8lo54dz2ak6mcbq30a003zjp3rx1no88sx1rrleeqfdod86rbvbpjd9egx2fy1ak1ehmokw6nqq1ydtyxsk7tjup1sgerx" "21559d49 195361e8 3a2c65f2 f1d99447 fc74d8f5 21d95bbb 64a2778b a289f098";
   vec "7sj08crj0xy8koki4anu4ao5u7yen4sldhet0sdqqm3ktpqnj3bqrsitvu83ajdaby0etck663xmjioya5d3xjuxgkr8u0k3l65cnah49p3rnz5ajpjqgg0je5kxo1ln7ir1uauveq4jfaeh0eoviopf9hbp9oumox5erbktfrhnqlm0p17ehdtue" "4f23b0cd f2558a57 861126f6 934a913e 41b8086d b56ab167 d42edc67 84c6ab3c";
   vec "ey2frz8amqced92cf9uu8cysyc8vf4rxgjux0rlawppp4v5ik07n2osrymsv1gmrsf1mpsbss6e6qfsm37j863cbw30sbzvy1ei5pgqhd104tvm361pmqxwsl30g5ygay0modvymrll0nau7cf9baw3nsyjy88pht77qlsh3z6xy8ujklr5fa5amgv" "2330d981 95c09c09 55213847 369b16e0 97aa3a8f 93a2ca1e 4635f5dd bf092b48";
   vec "e0y89ut2pu9kzi8m5azh3uu4tkdttda8ixz3keoe63xpr6cueaybok3204up4c6eo5205tytl8kdx782shrwz79c2zpcnwsd528k73fkwgtpeptboas5fwitlst116m2quhtaqz61cv9iy8qpiy2pxphkrs2w96k2c94akn576al4yn5ybzrhx612n6" "a0016af3 f2b09483 062a295a 4b28a46d d0e449c9 b9a4488f 09a012e5 a79a5516";
   vec "5dxruxovjagurpa3er1t60fkbke5ugcrpysa45rm33xzo1fgsm9dcymbrjt781sbdtokjecu3fco0cg7mhbcpg8ea3zl3fwax2oc7dswumw3e35k9is0g67gg1df6l82wty3nqxe945npk14nl44arl199rz5qpsxc487wbhz4knaq9qqny1nc1eaw2u" "a7c22ed1 17472641 f7a986c1 aa5a3477 fba4bc84 82adc64d 9afc6be7 022af8cf";
   vec "tfq8wdxwbg854i0f27n336vk8gmse3jid6dz3lmtxrhegoqpucssf1ibclduqfm3kttcqybv5639gk3lqme8cm7wlofqa8v86r1xjuo016mkue7r672u3y9fc86mk8zfsra6s52iz7z4mx2t1pvj02tyy82v18tkr6zz6jctf1pg2n18faiduagzoej4r" "791ad42f d76ddd0a f5d2de8c d60554d0 13341150 073a143b 2758851d e4e46ebd";
   vec "vmeaan4mzro3szizkcej6ux9cdi13istutvwx4u1ybmkvbt3oo3jihkutxnl99wznwkfe1pxc9k5o81cfhdhfzavd89exr79omcih761x95pm6fuhs9i8tuvklwo7iopk0nbnjtoid23ho0vsjjijlcznytfx1b0co99jvsmbaxbr9z1bjd7963qhh7q4p" "373a2f88 7e2df1aa 30f495f3 f13a71ea ece8e894 548a70f1 1baba8a5 257764e1";
   vec "yvq3zgqh51349txxme7v9v67kg4zud2da1hwml8sx176xqs5lrf2nk0j2d9kpcyndss4rjvhqn96jhk5mgkzo7k1y5dssw656319uj8x2jr7vumbkfxvvmbo0ucdvtzykf2ym4mrpakk0rixg4i3hvkh00xrw43ar3e5vgwlhfwl5t6dv3jit216pde7tj2" "6d5273d9 4967fb16 efd5b045 d667ff18 5c212b71 57ce2f6d 155ba41c eebae9cc";
   vec "l6stansh0l056rha8f89lkblzoxm9si30fgfym9buohk0bw723cfwzrzs9em8a8d4lric4o98hf52k0oxj65688qbjt4qwk1v3mbfy86tk61beb1w7lxmc3lk6d3w5r3m78ifg9rf1yty9x6s6ac01uloc60g58fr1455zzhl966e8slzim5y1rsvymi9nh4" "f69e89dd 667bac0b 8ed1f465 83a9b573 66f28f59 af6fc4db c6e5b656 866a61b7";
   vec "x8lr6b5oa7qdv4g1p59xc85pffe4fbyx8jlexry3ib6l0crda4pmixju58z2swad6ik05vtbcosjfzi6h0q30zf6hsl75ttz3buw13r5rv9pt1sbvscql31qqt8bt9vqjlrs568vcvfw2lz2sv8ravus3apy3v2o8xj4gev0d9qt0ppuxmvuqgxopq9i541vl" "026e7392 f2d5c54b 9be38415 8bf8f8d0 cfee0b49 0019c186 c8f27c18 7b680a3c";
   vec "62gch1d6v0xa2whg3ux424ifs4kybvi0ktc4s7nub1r0m274b6jj4nmrp0ucc9tj9ux751udmmkfxloh03fby2pljf24baj1qxs0t676eaiaotl45ybgxy9v909k9yxvkv1jvdnd8p4fphzmnyo59ci5p7i607yepevb7ul44zlvnv7t00u0ephpbm701ycl5g" "05eb4378 df597b34 5a3af8a6 cfb29aec 8f4ff677 8cfbf8a0 1ff961f4 368a3403";
   vec "fkjg5yx5u4y3zaa47jmh5lfh8ynrqiceolqh5ugiqc3y0gy734qg1080xypktxtclhv2ask69fzd824vaaaqbkzpq863vvplpld7h95zaq5v5yuw29y0ti4d8l6izs59fxmoh9juqv43fhajv4gzl7fz0n3bx2jkzokro1vk33ou4jzmenluryp195xp4h985ak" "3da03bf8 e407c8cc b1025c48 8ae7fdb8 83133a4d 86008772 4dc1b931 4a320d13";
   vec "3sw99n28ccdp0bbucfyddnmcd5j4c7hxotk6lff9jn32v46zojduq0x5r47k00e5unk9ot245ysy6sxj0qaxrlrrwy14b1bgxkszo1x8n0vikb9kmbjvdu98euhfewutwi9bnq1qk0rssc42zhjjk5qms6jsu092by87q22pho957s78xsfydaq4cy938pptyrzb" "1062f0e8 e158cbd6 8641b6db b6d0a6d2 00759dc1 972ac372 a258e82e 59438d12";
   vec "ikn7bu0nchps6j8dahracbd6vwczn3gyke6bwnmd3g570wcn6c9b3y7a31vkbehxykck16chi7afa5r7gfq5yyyn8crxsmbjttfc6zkz5hvj9phkpf2tynyuw41vriuc4lsroavdwn3e4zjw852xy2c1u1rhvswiy91bamgckumrolurqu0h1swy3kzd3h4y9oyj2" "c2a47b40 33de06ef 0959b16a 9cf36934 9bbbe176 0432e704 0ca4180f 126589dd";
   vec "ylesd9iq566u1lpdrg7ptx1km57m66v7y677vnfb4uqcdhxcy1m0qcrmr92jwupuj9t2gbdi6ttjb2hve2ce2icg7qytdkx4wjbd8f5vtkdn3jo8lyfo4334lxggq59aglmksxr1vx2qdidcbtilpjkb430jgngf3by0skdl6n50rgbffeyxwcu48l0gewvhz3oeg0" "e4c00453 a9090e24 42e58da8 7abe623b 602211fc 0ffe6e95 eb9c4b12 a60cd354";
   vec "q8zxnnthyd3fp1345emsx7al7hbyy0nesmu2vwclg629lp76d1e2ddjdwv9irrbfom54tmgk9amsz7qmqosuxjbd2748y92mexbmizh4im1n6tg96hxmaiijpub5f7opduod41npiobae0e399jhohtgbztjs5rc3ikiqe330qljzu9azmv0cfk8oc6hzsyvtf52ypj" "21bcfc15 1c93384a 97523360 424473fb 4bc3a867 5eb5877b 14c4633d 49c308b0";
   vec "aqxl9uioez811bnib25g4xpgkl0hmqe2t7gcd5mkfrhiofsodxuc637oxa0r7pv19a0ck48tscomj85sfbn7fb5lp06ovelf71v6zjt8t9qo7vgw9awlxejzxy8leizehsp28377ge0w97a6x8rnjd48bhzp0dzeswy483cu40qntacw2eqj8vqqr6hwvwbar6r14efd" "7d9602de 983c87f7 278a93c4 967daee2 98ca1391 22deafc0 5159dc05 dc2a1b77";
   vec "2cap05q3ydxon4q9tgg5wo8egfjv9xr4aetv733i0sfcn9wrumgnc8193nds09eppin6eh9xx5zoljjut9fbnsg723jjtth2tdbb937619d2boc1ir2i8dq1nh49ks35ja5b2ns5341pafwfmocb7e00p21vkv97t3sgtgeatftaoof3zypgoaojsvjrwk6ipkszweyav" "6a946f43 63d50996 5389f63d 8989092b 43fff4a9 328fbbd4 ad6a6556 e27c9551";
   vec "9r34njyorgm71dgzb6dveonrhgb9ldcrhtcdir46jg5ifhsc9tebet3l1muqpg0ko3pzdmcgx1h6fn55h6ef7tpkxajhcsig4b21ypd9n0ss4iyv1duew30gc89kbhx62isphew4vlftdp92ckraxalobjjow36p5l3rx7auydffef7t0dci7s5v7ewnnwube5ntsp5dxa" "973831bc 93dc6675 7ca19d90 1b7c7f1d 4395fc2b e9bf45ec f15a7f14 38f36579";
   vec "q89jv5oajef9uv24aamxqr6ulracwvwdsyb8xg7m1mtkvyxx455yz17t0zslblkmhut3hulwqxcixo0p8o66hjvb4cdgaaxgr00ze3tm03jrkzzn16tv1v0byfriijj5351aidh1iq5q9som6yfe0fibjkl97vrac5js1ee5jah0o9rljfrgjt15zoqdxnc5z2q9wxy7vcy" "7ee57259 c4b8b561 5d1b5b42 7288ac61 59feb73e c6a90f25 9bd7db51 aa323279";
   vec "yryedb243xk494f90magg1a21zypzromcgn37f3r99bdvn2au8gi5u6wgy73wszot6j4k83129po6j5c7cufhmsc49ioc2irgc16iv78akovbkdi2qu1zdcd7libq837rn2jl023p7dq7xvdktt2mjoyw8fbcqflrhnwzk5jqk72uqd1juun7b2n5dhoinfse2z9ji109r20" "0070c4d9 dd758d30 0c3f2d3e 0ec35122 f61f93d5 b6c2014a 16ed1112 e66798bf";
   vec "jxvbggkwkiw3ae2z0xauelp0xklg3b03ksyktaj5omke1snyye38l0h7l3111edzpq2x590rc9p8d77303lgihc67qmbfprk5us9rot5ltlvpwhyva978l24qp22ho3sm3642rue8ta85gxogm8rh41rayymu6nd4xl8fyrx57bhku9xta6j348wslb8i0whdfvkl3tpyyfqw" "67f1b859 d215916f 4d5e8691 531518be c1f7677b 4df4e703 b1c27b2b 7ded6208";
   vec "7e09q5or1vskmudivfiqr89svden719xy4uhvusaz66gl65y51fldje3xds3gdro8yih7l0g4zcxrqomvazse7q2jkvl52tejkn21imtlzbuy3kablun38j1cingd60l58fkxxgqy2ra04noqndsf1dk43u80x3yllpu2cm2nluotywgyzr3dyme3ginfkhk06u1ouzf94awod" "50fb45bb 1fb9b80d 9ff4e878 e98c66d1 6206ced9 d37482ac 1b04a402 2858bb32";
   vec "l2umnyb1vow5l7vfwe4kulbxr860sbri65y34059qydcp45nr3c47p3n0fctlg8l37o0a6h88o8hk0kfmg47dbbi6p7w15ccij87tc5cbf58wo96nlhlui4gzo8lo7oewmicez2sqx0y0a5lfc4u7iqv933iqjz27k16nhp6n4dcinp5mv81fj4iletfr7s5pqnr6xca352pm4k" "49343414 3171fb17 6f3bec82 4d74713c a0ec4302 8b0b55de fb6d0147 e9377180";
   vec "i6z9v8wm6twvsecmsnzy5farhsber97uwe2s663sq2s1eb0mbqnaggtcpinf03ustnm1eff33g1y34i8ixokzzihxbcdta05jufkdn2o3094evflydnb0jhkuc8clmfp072wrbmssr2a64vw5qnvc4s5jjft9nzi5u1054mby6v4s8aj2ueq2ambd1j5samaqwbe6d0nk430sc0j" "0f1e4544 c3868a2e 0c74a4ad b13ec44b fb87313f e5ad10e3 9c098c53 30f9efa3";
   vec "rdybex9asgliij1slxq0e63qr0kaqy2q3rns8vnniez22ps4hnho91tyktz9lp8d3e4ad6rfqrx217zw8srzjw91amspyyvl77is45rehcawzseru5wun4qkzpunixwy5zfl0onr34yomk0hajruajjj18mlgtfufoyybgg3rjvj9dnw1plkngf5jrmywxa5y8r6dzmwvjqsc82g9" "4b4ab653 e4437cfd 8094f760 0c941214 c53da2d8 b7864e16 3223cf26 b00531a4";
   vec "rux9wh32k0awgix0f6gdvgte3klqln67f9fpwmfkkng5z7tyq8rz7c8t1as7yvaw4ktzwngvcmm3r7xtz22glceg1gunsg78xpbbu2diaabkvplg1bxcl4osysxby5etnlof8a9t95r2za052b0f0r5lbx1xsgzi3tzpy904jysx112o4z6r98c3pcjyxagkcoj6jt4wq3ozobhoat" "b1d2cae4 deb52c59 ad96a9bf 50beddaa 389e3450 c286b0af 9b123805 417dab60";
   vec "kwx8qt66subcpm7w7olozu8pd27eujngwd6mvtwrp8vq6c0maxttmouvxypu5e6fx7xcd8b6qhsdxc2ggt1etwd1m94163n36ofvmwxgn98xoaydommz1u8x6f56aqvwah07b952jeymtsqanh1jmxka8p99zm8y1jachbzyapskx1y0au2kvmzr2n9w8aaus8quhfs9k6cuabfkvjf" "78589d7e 7b2f9f45 85d67ddc fc3d020b b08d7d83 3d76b506 3b53ae9a 6ae1381a";
   vec "tgxfxpp9alakuwcwikr6e4ioum6vjeam4ekhf9z92dqzdb1xumxijs5a7dsbc1hjtjy1bzysq4gc3nwv43uv8lbx5lrnealysrgdetynbw45ft7fvs36lbzkslubtsq1on5otdihq6rklo1tnh3ws0sw9c1xbf54hu2ayu3qi3zknpyhguxi5fnlbz1jkeokof2k51bwrnhngtj6tu8t" "1af00648 3545d9d3 556a2e72 6a5a379a f00a4e3d 377d943f 93b8c050 569c6bf4";
   vec "q62kv274lkgxhz4iztqlwas21zuja6gsbssy451quuw429mvj9uevxouvx272yjh90pvt12bj8kgo9g8vplwdjfe8ta9fdv1fct7p0nv2di6a8y112y2hull4zkosodsgfdbi568ws5ja7uvqdxd0oak9g3eyy1vsrespk3525kaz4t0kh55gn6w9r400vlx3ya8sh0xxkozyku3rmh6c" "99756a1b 4e94fa25 5b1a56b4 270e856b ee4f76c9 861f0cc7 a02e9083 ae6519b6";
   vec "bdodz1luy2bc0oqult50d14t4m0o9e1ds1zbmrzj3tggruj2siwp3ckj0y4i6jinb77v0xgch71ju3kmztuvntev33j9yle4l14ft9xl213zwz701xargz0dfmpb1mc7eiahlqet10vwun0t7nsa0carozpcg96mvljbgku2bgjcck9gbppavrydrghl5s7rqlkkakgwr8seun7sqp7k2d" "b14e5ad3 9cfe938a 007ad4cb 25392a07 a3da24df 1ad149ed 1ea5285f f681b02f"].

Definition vectors_3 : list (cstr * cstr) :=
  [vec "oxagq5fk4yonf3ppcvby5ssyd2k91d2m0kpt3jfx7p18muyzxyhkk1r96dcnz82jegyli1zaocuhhvulxfjmfg41d79sdsqua485kohjwi4x6srhd2bd2ybxwslpezcay7i28efx7a2n67s139ka5xbjomkj4kkhkq3z0pn4sure6dwz8hwdkh8rwqbemf9e1d5j17fbg3asb14kh2t425s" "74798dc5 73f350c8 aaa319e4 47fe6588 93d1f0fc d4230adb f6b36871 7f6b5d95";
   vec "0dl5foy8k10xriurcgc8nsfph6c7b4ysc7mcmz7vwxw3tzi8c9kbmt0lxzu5ccemv7ih13ccg0p5jewkyk86p46czt6hxrs0xmvy7nt8i3g6hw6z8h2h6f5pex6lustra3jko8td2i7n93yp7pakyhe4u1qajbdkqcuap9hsmuf7sar7c81wqhzaoco890ume59iu4ff8b6a1q8dxm3lk7m1" "98729ae1 8d28920b 5c4b643c 4f6f5923 5107e1be ba0db782 40c32704 3c3c3206";
   vec "bdj1ik7lqoqdwhht57uzxk57pp4ree33n2erxid9hx2796ydl6vzwmjp0uc1hbbk32up749b1rhh8fxlazu1lr5ayzjgywlzw6j3ak9x22dw4lif6ugejzl6r5wqqmxx61sl0nr9syowmf3m2rlwyk80tz8r8tz0ot4twipvgojp9oizmn66jkvu7ptp2tkjakkopknke2qw3adnddbpxryjg" "d03e6990 590fc720 8dad33be 8cf75856 c56c5fce 660b11c2 d752b2a5 19485557";
   vec "7oxmeh6igxkycy6zr9jopybwb5s0tmlvsd7p8v2fqxbz5avjjx50wi5jsdmpccqn6ipihorczmh2it0y9wejf6svqw7zuplwkzo7rcoe41gu4gavelzqq09rcyrs7qp23suecczxh0ise1uv7qrxs6jwkw5ie1ul5716pz1pkff2ia2rc1dkg8qqbb0swu0yc3njx6g75suuku4gilyy2x2dn2" "165487df 5fd4cf55 6885b29b d910d2b8 88685e7c bf4cb0db 670feadc 95fc579c";
   vec "migx47elmz8gzru0hry2mtovghzwqlonkwemez7hah9yb8an6s72njz08h2ks9sgrumm9n2xhusj7rlrd79o6aaft8pjhhik9wrz7j1okbcxx7hd6sdwwwssv0sjcep55z8jbiqwdjvbzhx0l65pao6ql3wu1wd6s7f6lt9rhs33oiwb7mf6svwcjby6aatvh0f3di0mbzbi0gcbwtgbxc85pwf" "bc707d39 c9acdf9f 37f55a2c c5211ee5 966f1bd3 ba270d59 0922a771 30ce246b";
   vec "6dppukg94rmq4tyoh67hnkq81hf7ulbbwn4rv62vs1rcodawuy0zuis25076hg711zytutdra1f4v98d7gt90j67f86p2pe5qv8qasfqlvvqd1ksrxg0b5saldqjcjqzqb1yxksaz23tpgjmkmokefnmo080ys5f82xzi72gf94j4cxgdq5oh2u25h2ddhn25dzcxxexf7bujgzmhcprw8uobk6u" "be4bf335 68121847 0ff76752 8f0df0fa 386346c3 a91de7f7 ae1ffd47 c1db973e";
   vec "xdn3zk4dwixy3tjabvx2pzq89xdofjn5ho9hjd7qbrmfjutliwuhb4lvkhx8xrxqah4u4nxbp6cf7a10eu7rzvth2tu8pylvfvdq58x18r5bgjxd7g0zu5dx2ic84fgybbbnemi612shkvaioq9a36fw2710zil2dv2nl400s3s8umyfttvf35sflu07zfbjz68v5qtbjmk9cbdvw5tqh2veh34si" "4854a16c 5f101bb9 dd71aefe 7483b865 e5a2aa61 9747ee3d 270f22df aaac4e97";
   vec "j1ok4uhm2y1ekgu9k1ct1a1cg5e7njvge43zbhfntevc3yym2elmg6vza30zvrs3pbq0c8cpv5dbk8swqnoqq8suaxitn97g1g9qabt1svazjpxdifgvf94qa0zjttnnw1ux0zxtju3k2h08zzlxga5zo5c04kotl6tvuhvml5qmicuwvunkrbb0c6jx2i7pmviz5evk5fj603097d5mgido6fyui3" "4d4ee37f 079aa91b 0f8223a5 2869a916 9f9a1130 0e17fd78 d5d46a84 b8d7d6bc";
   vec "bk2s666ox6pf934lmxfjuel0wi15d04kc61m31su09gz2uxracd44km4xwi2ln38r6iec15vhl33nsjw7dif8grtbkmaqa93i8sdhuvqt9am03jjx4bw7npeoeik519mzvi8ivha8drs471l7b5t2gy8i8dzg2bzjwvp6vydrcwchq6e2g5wws0fkae9u2chfcztt0duobnwnol1orukn50x21kecgm" "dae50a28 8ff350e0 7c108f2f 1b6c23be 1de9e473 a430e5ad e3efc2c2 cd276c45";
   vec "82nz65krgezi9s847nir1qwrp9wyjnv96u2jfbtxuj2w145qw283urmbn7yzo6h3jcourax2mrlrc3pq4vumq5v4mt5bjrb1g5s1axhjzpnqkekkm4cf2ab5vkvm56f256qapal7ezvlu3t9darprfuybjhacs1120g5q08gc774sjcvmq1niiogqtnp43xsr6kmv8e6ueluub2lmurrabw6r6bekvme" "2c5be6da c951355b 5b564e42 39933dba d0defc5c 7ae99e45 b18ef0cc e5a937fb";
   vec "vuocjfny2zzlzlhep1sasvsw217jdzr0agk9x8sgdrsplmzpj2qvcp5jiwlhi4eyr1goav3lilh1yblig090sbv2hy09aehlr0nlke3ktsi8ijajw8pn9sjf1lgz90xoi528xpt292x8w2q2yzv1c20km4b5q8dzsfplcvlt4xjl3xem9mqlmjve7jkhufwdfkhcuxe26magcsql0b8xzzdxd21qr35lc" "43d05437 99d46c94 3a2bef90 5235155c fe8873d5 b87aa529 b4046bf5 77fba3f3";
   vec "bmasxu5joqw2p7vy6h8ybk0jregtc9aznyyqb1wjr8o1xa5bk2afpn6ediqtmmjhef18q8eakg7v7m26zqqufph6rt0kkuolsnb4snx4fihn3oss05av002di46tkuspyf2fu5aelivpa86z5nbh2lv9ijbvh82ilwlrqgtuomuden6hl62x9wwc3b6y0q396od05r22hkxne27nc2yhzxz9b11m0uz3fl" "b85d4e57 c44b365b 9860a3f5 bd348089 9caa813c a8b2f7bf 6f0e2ff4 623e117e";
   vec "a8b8j496nunq3bc20wus5bo85p9hi3udwvaqev3e2wpgpxoprfj3ofi3hiwelvjthkuevkxmzchcsu86g31nu9ifq46eck4ozcis4zyzrmvg7775xeoggu7ox2odv2w9ukx3l81o6uvwdstc0s4zfxdmj0dpo0wng5bwwprmlp9x1xs65ztpo62tygs97mj4g7uf6zonrwtjuj7jd22untik9hocz8gtj4n" "3b4c29a5 6f46629e 45316be8 27a34127 175da61a d35c4104 055e7dc8 4cad498a";
   vec "l8a8l8lxts0wwgp8p0hj166fiqeeowrxretr6uauie0sqtd6mw0ewyr38ixphq315epz7kzivcdhgfxfhuofth2z0xhevuzwpra5ca7767pli56nul7bclhb9kgs6dnxbdhvrbd96mobcmgm32zqz1i9z10bpzi49concnpx45hf549h5q0tkmu5aur07w02isacb0o4mgxp1us39kxcrpvjdfiw25485a6k" "f1a8a95f 48947e18 f785797f 35d66c5d 54c39924 19028890 d7394067 82b473e9";
   vec "l8iunwtljos51mk4zio57uyzpgiv1hjhtj40sb0mglpu65eky98hmbtvrw6awa707d7p1ez5thbswo6k81m0snqk1sdvrouvyqrgto0t0layam4glb0osrnysx8x0fmqb89te9omv17wck8r51yld95mkazasjw4qmhrpgmic24j9wt3vsyc8y4lwaxequ33byrm3lve7ec80upzeyoiw9y95p1h3a97cplu1" "df54ceb2 bce7003c 93fa5d4a ca85764f d1580803 0f9e6d9d ed34526b ad34f648";
   vec "5tp6ouhgbu4rra828g8pl3a6ud708x5j2l13izq101nayl0i7ygh9m117i509d6pp6ma265zt7zjwiur9lzwt21h0rjukzrtgeekvbetmn86t47wp7tzvs1scdvdchrxctuy8ansqsw3kth5f50pvn6zk2n37yl1peuiqmyrhvo7sg680fpnig8820pyagukiha9bp9bruojeffgpkzm3gei0pax9sir2bmg38" "0a25f30c 7499f292 e117970d 2e8a8006 fb395ce9 d29956a4 f95a9dda 47e0fcae";
   vec "7j6b03efua0a1bm0but99znq4eszse9c2cz2f3xuzrppmy98kao07h7a0ccyphflbsbgx90yfkosaus2ym65eowaxirp5c2jfe6513411aqtidvq7aycr67fsukt866e4k8hm6sqnaf2q292rx7jqb0ef22llo5qhzipdvpswl2vqexrjst2bhn5xxnt2kzfnc1hvawpt4hxjrhdw7xmyamea9d3lxngklhybkt" "90e19057 f92c73a2 ee39b917 6b5b29a9 ab6aa331 85b0533a 1d8856f6 4622de05";
   vec "kyjsdhqjbgjnx9j5kwunwqtw3rtdxo7odnr6t43l4b32kexcq725mvpxnvvcoc1nposc70n6jgycyzhomm960j2v9z80t8e9pytzm9zb5mbfew63nfqq7wam54l8tb5t2syyyczongn2mi4fj82x9wuwb48hl6wfp982ysxo732gy4z0artiqmrdoc5496ycd7i5a0llkh932lrhwwva7clqwurnvnipb47l311t" "1ad93110 5c53b28d e4640ca0 51f88097 d4632734 917350b3 4d20ecc4 a2eb6f6a";
   vec "l0e15jgr3e4evmyfmoh38xjx31117zgrd6bulbexevkxo18p5k8y4wltnvofruh7m72tbyag2e6pwom102sk1avr6oykjmyunf7b8l3ylp7c37mjbydkd7qzbpu9coerb85kbwbka8l8g32kveuqeqslewjyvflmj35eeewq3b9078us9w2d3vyd5sbgjgvjsm4nnjr2bwcw0irjjld493xqgfg4gmjp3snq33a23" "9d39947b 2edce0e2 36391c91 033c12b6 d3bf21e3 05f96c6e 79fb8824 d909b0cd";
   vec "nqr7gey04irfnvgb0pu5sudxjtwlvce5zf8fxloxb8d0uazouv8kmaf57o1sy4i2n84lqyq4kmjqc8zz1y6v27t983kgvu8rmfkcwdhqf2zemp3z9ymr3bxch1msyic38zbf3bbsbp1bjjqa1wy7kwjbn1wjvxiwov9c6a454o6mwc4yf6fvgz7es5upsa8wu14xarkv0r4qgu5j411wmfln6nnkl1mwm79rl14sad" "2d048475 d9cca8c0 0b540a11 d434ef6d c4e32c6d f567dcf4 11a26586 3e371352";
   vec "2uanv3f2qv1ee7afoaql52z8rhi9pjljjro9xgi69avxxp5rh8z7jk6rmtxvwvspbplig9klibp340csd7y9tc7pa5bunom359ednndo01bai7ujpp47ep3r1irauk5ticajym2f4wwk45ymnt9y4ksd8s6wvk5fta526vt7v8m0sg7xpepumisow2iml292b4bnmf2r38m88grkpvdad2ga3bypqqee22cmbqsf20p" "5c2114fb 76dc707c afe11ee3 35e4d7e3 4fab1786 6564d397 6230130b 9cd3c8fe";
   vec "vnhrmebftt2stearbh6l3xf7ct2m5hjisl5knz3weoregqu4e0kuk1zzznojxstqn85smmzh0goowx1hnvfotb9hdycc3fadm3e14fm94h2qt0eslvc8p96axmindmadsxpxbqzadt349tgwvka25kd5lo9feppszlohxgtqlzc5lnwr8aam8fxddtpozxtv0h6wvdhr0dyqik2aqgjcrckg3aj4ugjz5pnnyqnjss4p" "a5bf6481 30260c9c afdd28a3 6433bc36 da7460e4 f6f3e459 13f56aa9 d8fcb32a";
   vec "annqyt8x88a8xgye16k3y3owsji506wnphgg3or8mn2o5z48gb966zp1d1sfd3lqmbp4fvi2yyribjvvowkqp649xdsjm4s46eslicl10ffd0diqsud0otjbh7737ecojdbwt81m4j28st9het789bgs4qi905uylh9ri47abkk4f8vkw8svemdzzp9vm6fh36qnwqrs4qec7xe9y7frpinfst3f6imr1p73lghmox1ao" "710d704c 8ddadc4d c795ccc0 2ba8f09d d7ce6626 1c954a77 20399811 fa0ff20e";
   vec "c4cvdd7pu0zo61cjxze3w8sm5hn9pb2m4phm7a77krwdx0rr4ibidkhhza9unqi18e0kwc87mug1bw41qm1iq6dq9wfchsnq2b1r4daeownqssn0wckaeptxco09wzklgufdmo8oahiqsnxwt8zjo4vzwgx5hw4dvtsoim4phlsvxtjyy6830zuw2fjvbkr69zebs84sbinb71t1vdoym2mqkm783asm6evinshiqibxp6" "cf6cf5e0 6aab038c 8c965f76 fc6af4f6 d560fa1b c6113a6d 0af93432 268030cd";
   vec "7lr34ognocfe7w8srv3rzhm828qwn0thookkf2mes7vy1dwkhj0t2alifhdn272b53171cancm42l9l4lzxrzwgzze5vxp3k96cg5adn4d3yx4aln33mod6z8qwxvkr9hx2byr7gckggmnmmu3at13tnsnzjsw79cbntfc2yz503iccsxxr34557nsry1nax2egiczd9o87cyvmt44t3fbsn1jx7xh99ffyvqalb772egi1" "0a8e618c 1e026799 3c0425a5 e2e056fa 085fdb02 87ca2a50 2e724dd0 fa10401e";
   vec "u4p109d1tvnfcf0hskrkr2wvqrpuy7rcfybv7q1cxv3w5u9weqnoouwg8m1h506o8x67ld9nqv1it99awot7oswi5fe1szdk3wwpiwoay2j2vj1y9a06ctm9vf6qyul3b1ey4tyschn53j08q42cluwc8ho812wiik9zivukewb15x82w9p388jmbg4z7hg6bf5spz5a7jh8on9hi1rjx6dhiz5v54mbonpkz9xh4i5r07zs" "d4b595db 6db709da 9a1f1292 d601d479 7caa3bee e041d505 a29d8314 aa22c8b1";
   vec "mqa5yy1y4l825p7heausqcxw3e0y889lv93o95u0k0mo5ygjagqnaj9tpmdn07hbmgodny4aegscdgln5j23rp7edrzbwbccp38b0ieq36018zgkbahbj8ls6hdb44r63vrmcnchrxmfwfdcy0n7sp95x1it7naloa7wl446wfc2py2krubpwo6l72e38bor6ayp929a06glkc54qs9jxpmvwgtn9yex8hpo0046naaqziicr" "d501b275 cc5751a2 37c72443 add44a28 8eeb994c c8b21728 cfa18795 71e49045";
   vec "fatv0k2zkjeyiomptydqaad0ygcqgg60rbczbez29ljn9a9pp4hnxlxd54um4y9vl2sod1zbvrnhzo22ho9e91l8g21zlgq0ffw7ejkcvtebn2hy5osiibqbx8b46i6gx6b4959irhdfam8aadtvq252oprdtz0alvbmnd05eti9krsz8w5zidsxqe946gu6z0sfx7lc97buoew2i36ll8x3etc8mwp3hfr1ijsrmr2egd08e3" "8afeac49 3718783f 90b1b4c6 bd6df76f 7dd24018 7e79c246 d21c1fbe 8fc975d0";
   vec "p402g27kv8oe6xqdhdlqjvkdjc0dj6040hn6f3ceeaagi7q2ncp4yxyk499izt5dgjr3tvrggkg71p88r8nifdlnkxijdnsf3uwviqqdlu6iwgmlwglh3pdx3o3awgb4abjk72rfghyaylxknkqyoled54ylp7yviwkalyqwbnpv5cp3lihgciazzru8ucvdo0cdjf5hnrp74h2p022h4ro42lhu00sxfus97omkqk6si1dzodx" "a0b618ed 50829711 b00f0664 6431a287 1a181943 207092e2 824cfdfd 7fbcd5be";
   vec "m23luc436n9i9u8qxkhm84jhl5w09di5w5y9q8vwqyifgqen30cidx2w63dqbkxj0fo8ashq9l9n5kjmwyznkocke3l9fk059tj0dtywq3g2n1yok0blu9wjr5rvepmo1q6x5pp3xi3muphwmvuydvry3uqwewk57murrv4c2lw8p5i1lre3jz30rtu5ms7pqvdardtxapmyw7vaaaif4o6djtn8qvpzpxi0hrum90ibbtntd91d" "af712a49 28349797 737e47d7 8b41764c 2d4b8e5e 374616bc 53a99e9e 0301370e";
   vec "exj49q6dcp6m7ud113ffickfsglav39ritmrbnx6awij7bsh6zvkk29ioe6zjhhvnsbx7hcugb6cnd3nn1qsf0hiyu742p7zojzy91qxs4ppuj9xqtnfl5aqdu2wjsglrn8ke81bs8pb7bcc75s1oqbf15cdtv9i4v0u3d1jwl984phtnxg45ojtg5a9dnubah0ymey4e13pqjupoupvmc6dqazy6a4g1sln4n4bjyo0k4x7m48sc" "6244055d 5c79fe4b 30bfa6c9 636127ad d02f9af6 ab2456f8 d3bf87e7 ba111e1f";
   vec "alv9qly5iiy1dswr2swhlyc9kwfvdjc5g7kifb0d3v7wtm5bl7e13x7epmw7z7uhvhnfzp06innzfcrorigmk2t1jibgrvb4uiit1f7e8z5wquesuv01ay1nvsnq17m1xctp1inkqkfvp0donox7le2kb85h7cdki1d0dtrbn3hqtiw7r9y3mg7n7amu57mtpidk87ognfb75kyqg51owpfqeh46ihe5s5ibmn42ac6n0kauscsdo8" "1fbe0512 450ba4c2 d94d15b6 d0de6237 f649f7ed bb59e870 66e45694 9ddfa6cd";
   vec "1l1nibn2zr4at1g1m0jvb4d0nladj3oiqtowiy9legie7j5phosaxclmq6mi2fig8daf0jd4o39siacpn5f6mzbxypsfei3bz8dcww2ziww13muwv3eu9yn8uombo2vfw7mkvhmhloo2igt2cdu26sdrdrln1ididm3zld73b6iavdatttube0me8djc1ovwb0yr7t2n6ac1v4ub02hj5zd8p4u9atx0wwkq84ek792vujbg6u90z40" "7c97f373 5f16ead7 5498ae2f 6494aa54 a3d3979d 005b978b adf7e4e7 f94447d6";
   vec "8ta7ginoqlvkdsycdm1rgk7z0gm2d51dap6wncazsciwz1u5hniiwnquoyjouzhjmdxgmyy36p75nnswacnthwp1vhkibafyrihi6qk9hukau0hainzqbq1b4zyafk0osxvlp5lgfy8ed8iyg4e703ua0b1ez32i3oddil3ickcnapo5hk5p64xs2vahj8iyf79ly4p8uh6bv2m1fntf0u5vfzjhux1bl3jy3fmyixxhmpzyvxuwcfr5" "524716da 3f9b7160 66011e5e bc70596b 1965ce1f 6ed36440 388d87b4 da3282a3";
   vec "upmx1wryahbvdubsz2xwo2lyfyhco1evwl48a5k0i24i8lmvmh6ju0vyqbmqeyavwkna9ovg2ur87nqptyp43dupqnq4qax58f5vzfdb97qkt17555zy4cdff6q5jbpz7v4dgx5ompevgvz8vhato07ywkeyk34jo0wqvo4if3wkvuqyvsha8jdmuzs247a341egrdh6y7xx48wnfvn393smienc4u6uay7jsnju9b8qhjy8vqnatgdcd" "d2b5952f 2b5eef37 95806380 6f0f575c e2e529fe ea931512 cd5414f0 76eb5592";
   vec "uco3maupyy5zrw0jjqqputi50uhue5v0y9uf205e6pj20djo8w3de05c017lzhhtq7e8q7z3lu4zcvk16fwoc3i6jcz007k957bah6w44psx73qvjrrunbdgg4lrpijnto9svmyo4ki5no9mjha61mihnjza5jkh1v617sxktm9ma6x2s6prf4egqrylqn9tcdrvomcx81neat5ffhkml0s71biujagb1surxzp59uct5afeng8r8gw4vx" "b2e6c39e 5f67d0b7 1f79b3b6 749d5de8 8b57d6bf fc887191 cfbddfde 67056113";
   vec "f23zz4qj8k7vldz0tsq0s202njn9w3h3urtkq1xi6yvoykwpi22ewpl8awxhfckp4g6lcl4i609tiucw68koyhajkbi22myzcy2nfqtx7xgmfm1g5r3x6p0r5vhoo9nw01wjapmslt7py9tcsbi77yci9a384ppj3qz1e0ljadhjb0hsi5hgwkkywsul5gm7gk1lgo5xt3cu5pjo1946eho92gs4n6kjkqjmu0ec3q4usw2p25nechfytas" "04c81a11 5f028bad e9af0400 9fef7025 8d1acf8e 0b0a465e 8197bf0f cb243481";
   vec "ak4hyj8rwcl4an2qz66vgibeot1n5w9mgxr3es44w7p2ew69qauefltq1lo85ujqcpst2o7z3b8xtpp87e269sqyd7zrw7dx95fvmnqa5ek1jlqh96emufl9hksjbcyo0tp69rugqgbkg55vsdgn4bh8emdq7acvzjh997xd4f546wj557iqu471orpecdyglrjj2028l46909v2185s8kyl4f411bxdrk7y8uv4b5qjlzjm1qeidzwtwryh" "553ca114 88e1e8e5 65b271cc 182d78a2 d9fe36a9 6d99ec35 e83f869e 4d096476";
   vec "ef286o54tiy3mratnwjghkupk7eufurz4civ9b469mqu6ewjfs1oo3pquixsb4hzqphsvg9xdh8a20x0740wrscd120i28gr05bcl5qyjhp2byuezzqszvi63h7ma3h525chniedztz5qoxhh03quxla33cry8o67rag09j2p7opyxi19dpk5ff73idgk7s1928a04zhhqelet3efop0pfj5b1l35uh65wjr8z9mxm5pk3zi25vx1i8b6zspb" "44085487 706e0d2f 147ac3b7 4a398722 35276b26 bf099bec cf8a6ceb 92abcb62";
   vec "900zfm0obx14x4r9uzy0c3v8xucmfxwcqvdr0xt2bq896m5jlj2akv0nfnkqitm894ufgvy7svx0p3wggqywozjo02daub016zf6lpfrodswaav57prqjyye5cv7maktewu26n3kc8d09cwd6mrvzzpogvcv5p5pe2keco4x5hng8o9wh6b3p8repwjoh7k270otuv76u0d2jukh1snln0b4a44c4vr3dqomzruqq8t4z5b1yli5e18aq6gw14" "e15015df d75cf383 6e8bffe0 506c30b5 12ed2dba f9a5b8ec c0ed2ff5 15441dd1";
   vec "0emw73s3if76c42xxsxw9amjw4eybjvc74lsa15bsxgcm198da28nkus3nfpfe16tmxsj5s6ew61kxpiye79vu333dm5ijcegl6aeu6rytsx2oy8qh6a2k3kn7l9zqggddhqhro74ii27pb1jilyezm4z4ce0h1xrijj2vx8jv2qp86t2yf6b5pe92bpevk3rzl518scsxiwuf4xrdyrqhm6p165wd0m61gawgeeowyt4u5fgozyov1j2hk6frr" "dca78539 53fd46df 43f413f8 c64f5441 cb775802 be033aae 06221cc0 3bec294f";
   vec "iwyzh3xnzvwrmzxn7c6hi3ktsvqkggcbfml05ps3jaqmdwf6eotho0bvct9wxd24u9u84j5aaqv8ocwelvl596mh172mtb0f15vrqnmli0m6z6qt515t7vir66f3lre565dq6d6wnv47zkrols07i7jq6mgh08tq5inelpfgt10kknysb08quu0j2m1j7xrsez2xwvfx13qcrjruiy4pxjzsy27t9tfxdaf0y40uun31px5aoe5z1zthyro6uwb3" "71087f3e 4bfcea03 69af4d24 e783d491 34c482e8 388b8461 52300b76 9d96f016";
   vec "8grmxcux3m8jyfhqcbsnnfcnbw0663qtpic6s1i4w0q3livsbytonk8xxzhdi3xv4kdpt06a9spio16sdxmrf15wgb7zsatnbu1uj8b5o7v6w9mi1c3u4j33574zjj6ll19usozp9z5jlqxz9l5yu390wu7twxc9n24vy22yegv3k7makhq3x9a2we1lk3lxiyfvrdou50si8zb5ugiowxjltpdfxdju01af43gu7q4x89l0tgbb3jmqq6gdk3f6b" "0b3cd6e1 42467505 11fff20f ebbea83e ae966dde 4cf1a48c 6c822637 228e2ff7";
   vec "srukh6qopkl3vq1x6cel0af7il0luhs1p54ytmo66zwpmh979chs9cwbx71gzwd4vx4h8xqvh5v30z18v14xalrjtmf7qz48uu9pr4vmheo3pll6qzees39kylkh9c928n5ff9h0cthdofisx7z6ks9x46gyn5hu0ycpk3rlvzs264o2gop1uht3r706op911oqs2bzkwgciyiyhpu3t7fozf1weok53lx0le5ol3y30ou558jdly2dh945u0m9u7p" "7426e6bb d5a76943 c03cde5a fbf26f12 0e1adb67 b0aa836c 5d613d1e 74aed9e3";
   vec "8lurcuwke9rm9p3k8ti43mbn2j1xfduhlir682w1p1smup19y9r1fkquj6sjkfzmkdwpj4we8ff2owgy54y8rxj9dzp6xoifgt510v5wtn9wui9ew90msntwbab24haj6dwk353t7216j3wr98ggpl3rowtt2yku1rh328e2g5xkz4dihs51vdqo6ic3r48enenj9whma2it2qw5cv0gcocf84qa9wpz2p40flml14vcc58xjfdc1gzbh1lilo7v7ok" "4b02098c 9ea03f48 f366d67e 95c84904 dcac2478 24be2d0e f5c77a6e e3ed7738";
   vec "n5gw49vdywspko4pp59qclaq8x5i8wt5oidjeqmyg1r4vutyntcsb30u8giljrcev6htlv9hby9y80o5s425mi0ayagvlr94odnr06cwgtqk41a5e6gumklurq8sw8ot6l9nw2y645e7eo51i6gflqx9h6rdqaueersze14hfglnfdgrxdu9kiki8mwh6wqbb2oouzlk2qe1z06mewph7pns1snijyxdepwnjq34rhngfqnk2bs93ln30lrykg01bd8s" "c88b7a31 08d37951 afdefc49 7edcb7fc a53d59b5 c88c4bf7 7df4ded0 20970fa4";
   vec "c7whj99n8x683z6j3473g02opt12p496iaopedxlmf8zgx8ntvvkj9268scqjcwpqqvs6a4or66ic8y7wcot6o494ggltidfyovrs7al5h856lnui4sr5k7b9s5vrf4k2p0939ymvrglcsw09jox3pfkx7wm6ej0eo9pt0er35yux1hczrd9w3vevt1hukoiiw2ubhci07jfhop1ifbbu04fize5npf7lnx2g46t0oth1mfdzhnmwzdjeky9uze7f6pup" "b0d0331c 1fc9b19d 67861a91 d5245587 cadc06b2 bacd5ea4 4afbc603 7ab8a8f4";
   vec "hvlwfdzgzp7nul0g48meeqcz7zvtqhez3di62qc5daeyv9zcypikdllbyh37jdlkoi3y710by9nfvzojelgpy2q5mvxftb1vzswx7i199on12t0qvwc7kne5fy43rjdyn1zfqiwwg449ru8yh6jl8zoqi9xx7evkdjrn9ggtwh5tcxpwrspz4wmsssn57ycybjjv9ojmqmjpchidih48yskvnivp3gbfp8bshubkzmgil4qw3ndz7mrwe7qyl6e3lsepv1" "c501be50 3fa043c7 6d1f36c0 8784b3fc 50a9f513 bd4899e1 939114a4 45c33737";
   vec "ey2u2ysfkueb366pg35fjvft0kur8iiu4uhdxkpti51j9vc8aym886xsurqhqmqsebm6vvb5u0rv0vnefpf1mr271ndljxb9zlodivtkoxz3x4upa3elljgk33a343shtoyxtqm1p6p8ksqjg5jieq0o8oo8x1ufzsklqv8048u3l2gai0i8nk5i12vsx4st9383e2ik04feljmi60uqxzd6yut4jkrk6uzlgevwd07qcmv9vetumh9euzp5gndiwt7vhee" "36cbd119 eca10116 5dd69a6f dd0c9809 f51ada6c 2e82efca 3602438d 3f5f828d";
   vec "8r5qswiu22l7erfoedsrku2hsvhdbawgdcf7kgwrx7h99ltu01aablc38hyj4o6qwnczpo1ami334plpt4ko2nr009pblffa0om7yjj03zkrk7byot2gp2h1lpj6ymbn84c08kry5la491mhs2whjeihwqxnk7lbdn1js213k0iqnikvywvs6pr78j6yzuucms7eblip77rv5k6eo4ona9uyb2wpej64duv7mmpjwj7xo1rng44ws3h6sxp2ry78301eu67f" "9faf78c2 74d81cfe bfbc7029 8e233f3d afdc57fe 6bb545af 176b1e87 b90611f3";
   vec "hsq7joj5kr70y5q9gfojgjzqxswqovsd9yk4mwkw4y5ohv7w4eig8rx8q1vorcpq1q6vx4wuw5sw3ns6uqyp5ec3nb6hhv2jm7di93adj4dtmxfvluyxxsrdi0dt8uuf2sd2rv8yf4zj27qmutt17qykwlm6ugc93238pscbhrxa49fbk2zisfwk7hdiq6xedvavby7mejdacamqw32ccnoy6xi7auj806asbb4tbwn56ycjud0h3n49mlhzk79zwl4489z7l" "4ab28978 6162d4b4 a5f9406c c0ca9350 e4e88a6c 875067bb b8c99983 69ca85e7";
   vec "uwe33wpd7k376c3pg7gf3dhibteomgfhq2bni6j5lan9rbxdx1e5uj4q9spt9nhjeba0tqu5av7ykryvj9diw93yy5ef041vi3hvek9scs09nlb4qsna9lvv6js02rfmnf4m636m9mj5yqy4d6vsqvyqfk8fz1dkhcx9zruk3te37n2insvjlj7ugrb7qykmwsjdqps6a48vdma1xrfhnlypj6h12wop7z9xxu5ap7m7fkp1cd7gehiyq4n5ksaszchrgyhcs3" "edae472f b29ee314 44dc8570 20d11256 3e4eee28 c015d669 325c7484 32d7b959";
   vec "bho9ljbz4nln8ef6qny0nm3cx08zk6wrykgktovo6gbno10747gact61b9zflfn74uotn1hylbxxwpkef4jlv6foq0r7258smzrlp7z1kf35jgpalq8fhu4icjcv8963hn7afeyv7rdb2oifaco4u8ylv3uyvbmi6rt7e9caz4di1w88v9hggqqzmulpwv53toewbdo100l4syqu9obpbnpi6227xbm19p8tilh8ojhomvhojjj0zs71ckhvpgrn2f6i1qp2stb" "e072478a ab443c98 e0b7b9f0 fa57595d f559d149 4e4c75d1 eecd76a2 e2b9ae51";
   vec "7gvx0nbpfziy3em2cae8j25gh5sb36reo0qgn5y6irjlg0i2f5cv37yb9oywefcec4pnj19utzhbpaurduj8ri36rux2uebhyul12onyy0fmgfv3xg62zu76x3423y3pedx4qorejegzhtcj0pxpmyicbqs405vv8448ibcbj5pdq60t1u1ga6qpcy4qehtqcpx4y5ntciiu42nalnkemwnvy5mb13dtwx6bvpoazppo2i9wdkquobwbs2tiync8yjjg7rsbarxp" "d69c443a f00de5fc 8f5c5ace 8dae9ea1 741300b7 38845e96 2b5a516f 680ceba9";
   vec "5axgqpbtjw9sud3d4ug1xdyi3gq7i84oaz4t167znxvg99ljxzjdckr7o4wf0qgr6jzu2prpz7pbirvp2c27v63ipzt8f4jdw9hadg57vbq8q6xansr2d9q1dmi3z5txt8826u3x06e54xrdlbgtkn9eknaooddcd0k73ne8x99lhbj83cao5z99icaepr57gbmexyhemfkbm1m035pk10nnf9ewlsccyytdgpl306xgbutyt4zmxk5yj86fweoxg4g9zowf5odap" "f25f843a 305c2f2e a1660175 57553b7d d3a9dbf8 39a17f63 9c7f9c2e 5a24ced8";
   vec "qyy1e7klykvksw2zrdcqwxq3tzv0xoji9vkf4fr1dl6zqzf2rrz0m0dfopgx3egnnznn4iyd7vu3j2met92urvol0o1svf778htum152s7g91xhcln6wm0gk50l1aqdu4aoqyewgzmebkv0n79uin0kpy0kwadc4trwhhddaayznud12397ip9p6u1rtm345ppeszsr0zayo930uuox5kafhn1100i2o6821ombaik6whchh92kol925cqyehmkwk2ftkh176doxvw" "4245e197 9f26beec 4900918a 3136c90f e5b9e22b 672e9baa 252b0d6b 31000b82";
   vec "jhdudfhfp81bv0t0wel3udmy9ltf8fohx7rzwlyytcn67jy840we1zkc1aozp9dm2mhhf2rpd45u0snr58b7q9fwhore6dycutlcntp62xjuthnb3aa0h43ph2oqzp29uk48q5b0bz0ka5u071v6tu9qj4wf4hrxa0e95par2vntt42itae1gshvlplf0ragqw7j3b4gbjew8ykn6qavv5w342iu28u0ntz2dgso8rghsqrivukg09qzotqyf9t6i9utaqdwrdpjaup" "1a534785 4364198a dd4d1e09 e543b755 f26d0352 9d377ab5 bc4ae240 bdd9a085";
   vec "usci5z44ht9a9niiwxl15ytwqo81so595mhk35rk6khsbykwgf1simb825rhqhxm21z58n1ay65k0eju2yyqqqoof1d1uio9fkynr4gj9xzqwz4i03lrh1ndjcvh7ah1ax925e74u1e9dk42pvi9i9dpe6t7s6hq7ov50ymudkeqm888er0nc1mbvi6gl9odfsdrb2veo9dwyw2agslowaq5hms2536utmisqsh0gxrtbdag7295g5pjisp6gu3vq56m2o12jlrtrpux" "3f646aa0 c2b6a4ca ae3283e5 40cabd67 3138c220 400410fe 716b261d 21f9dc5c";
   vec "ln4at010kenlficop83v9q4o777k64jv9ugxc1lhsun4tuxv3gvtxeogb5zlu0cjqdo0shkscfoqtap1sgjtlccuk1r7czz0zjk9erf9aydye7yg8irxk49narkiv5010jx4f602cxv5rmanh7y47amez1dhlxqlu9qtmpcioh94jb1v2ety5g6g4dw2ub55nn0p7dquwsq8j2jeci4oxwk6vxmqt905mnzu7gmmacv4ga3pef5p44stmgvpqyya8c5v0ccotsnhymf6l" "0a1c2dd1 588c620b 87a8d575 77e49744 cd43e560 30d7a53c 674e1281 e1cc3554";
   vec "7sda1jjzacwrzxe4zrjz312cclul743t3obuenz7h3wst2srn0ivathc135cmccojdwgioqlcevjavc6yyr3f7z2nfe29svj6yujwtq851j3lh3j2e2v2o5llxi8yyffplxtqxwhfm3j42iiueon92a3unvvq6fi7ixe507v1v2pzbs7c3373urle7h4864jv66phb6krqnfx2x9y1hteqhd07x9f2npuv44diemfvn2h40ukgozqbx38ysaitqwm8dsnd5tlqpfar87ao" "aff40832 0e53ac1d 3c7035da b4c70ea8 ecd06fc1 2976e6ca 94f0fde8 5bebae22";
   vec "nnaspy6igxk38c8f6x227213jkywpc6zeju9lg61c5x90tcuv209u7fvgsef4674vo9yotzfw28zigszisv8r0dzei249ecncr6j6sun3mmdkngoz9nrifx7612c3gydysuz0jvgy3cdwgi5ic9qa0819dacmd3fre154th8n8hk61jxqlfru71djx1joip60k6fin3xv1ca2xs205bqwdip486affh94487nm8ntye5nwey19qtjiuk8obil1lctclevhwcnukhtvuavga" "7ead5ed3 50ea3e00 602540c0 e40ba267 23805841 0a76a385 48f1f163 2d856ad8";
   vec "q0bs0tzb8xg20cprm33peffqs4emowatapze5lgu43qyrypu7uly9ketn4yrlvjwl27hipr0kjy29ukcvahjxsq3lhwzpg2xqggzjtckesbr9qikabiq7rd67hz4ojel0cdrw94ueydmv4belb010kc1gzhoqznt4eb0pjpc5akzihq152qedytc525613izv2l25frkalsvutmttokmer14o5kb8h72v9jfvchd0oyhnukwox8exw0otvtpvqfaf9wo9lhxv3di6e3pd448" "a839083d 4aff3b12 0be5f021 b09073e5 6e08ee23 c0d92d36 d99ddf36 9cec06e1";
   vec "4w6rvrzx6f25or306za3qkr5reac8ibgwuay45cc5k84fr6dhm3o90h2i6r2047gjxw1isivmz18t05szh4jk2nful5eyj8yxn617x2adi1o9c34ijoxuro4bwqfh61ip23mfsjoqsrriabg1n5xgd03f7bsx5npwwjai3zy4bo3lfw4h70n8vv33szhexdpikc0yzlcyuxomcxj0a5huhzg5y3a4ad8q50suokqdfqpotgo5tecwyd2m7suvge8dfoqgcvustyerc7vjbowt" "472fb5a8 2edcde7c ee011d87 a56418e5 7cd660cf b569fb6f e3448da4 26e8e0fb";
   vec "iikj2a5pu3szedn8602xpgat0z81ias7f4u6pzpc9nf71u18tlvozru9zal35r57v3ilm6jbtfuhx80oi582is3jhqcf5a0gtit2fxjc5zwsn1wehwm6f55q85p5z099fx43osf4acemlczankkl8vhvbugshmz3qowo8ki84sao82mx9fyqy2axi3ecwo7k8uzcmuustefotmajsgve2g0le4dilanf6dc184suxtzu6h3840xljxwul8186y14v85tkgh66hboxd6anecl3x" "c51d9c0c 10c8f842 ca443f16 88745e51 a1bc379b 5878e28c 9ec2f9ed 828e188f";
   vec "ti9w5o9qehw4t6t1e49fm0jgk920hq858j167al2ple10bmn2yvhkr35ls4g8fvbefphlk7s3jwevn1gdthgohozqmda4m22fy2cot14necprr8g11kl7gftry0ngoi5mpdice80fx0whzl4xqo7ackffcomvrxp6jnyl9yqocl4w65cftcf1250mvjsrdnoigmee68qwecxsii70jxzhx9imctk75d83nce7ws5w8mwn3y5m6usav6rinrfr8te88xsbpbkl9au1b7mjtoy21a" "f76f6f2b 00fd6bd3 1c91ebc7 0e1ca1da baa3c21e 083848b9 17bdf473 af15add1";
   vec "zheljit9lb2w5kpbd13fd4h754kjw2lt6ha1c0oe2jci7kjdq7b1opn7qe1lvdlpfzg8s69q34rp76qtz0ugmyfap4gue44dxjxtrvkvdqebe9ace1nj3fdmiawqxlz3kwxcjokgb0qv0sig1oennrna5hde3cm4lzwdn44h02t6d2if2lfb6aw89xwmt1cu8taetww9j2s8sco71yiorbpztzi2j60a0km446xuo28ztxzm3a74wjpm9740jix2zekavyvpcj78dg5hszrjmf88" "c480d1e3 4be2046d 7195c65f 3e724b6c a389c35c 13fd9a7d 04baaa02 41e3cfb5";
   vec "c3rc9jiwi12xeyb854cj0b0oo9l7q1pxfvv79h0ub3qmx4dv7upaukslmoepl4i2d2127yjex4ruye8n1kq7pom6rjrgsdyy2uo2cp8402hzkb2dqwcbq4jf3exfa1biw5ohbs0chatad6xsy53z54dq9r238l31qylr8x7x3etvqxc68a1m67qg704sk5845kke39itxoz442k2ltymiiz818r235ux89x1faoab91rkt7j4n5ejbfo4jxtokn8tu8n0ulwadg7agwta2plvgklu" "059d99df 593d0f5e 782131cf d6f13e89 c27bdd17 5970d2df 25fa34d8 7b2c236a";
   vec "ioks4juki6yljhddr2tipe0xyz9nsm2bfsuxqcesxtl5xqsg6focsv1ptygbblph6qs7nk1bmi3opg99y9gey02chkp4y6dumkde0frlb6oohc6bnnc8k8ujhbmj22ian9sy5rf138vkz84j5pid6ne7jm2ba5gd6w3mzu3cyafeblwaybju189wn4iuzoxj8eygygqss621z759shagbt4yz2ng19g89wkmo1gznjcqu4cn8xoscconx6vpxcdkyzio3ji8ezho4nst2f418z1ras" "b9fb7638 93ff51fe 0d713e1b 17bc7d26 67b0177a 377d5156 0a4d3ad8 38d235ce";
   vec "h7wo0v260og2ncit01p7iusa1wn37ofg9bqr34t4hsb2ugv8steni5odhyvnh7ybcsxbm2ins01b5e0ijgvz8t1to5jvtkmmvae59sdi1g8fzjca47ur7ceoago39024plnrjjaqb57q1l02zc3o2gtziktsefpqh5n6w9szsnzadcu5u526wmkiidvdoyxyfwc6k248lwuscw7nrp3oe5odctwi7kfdi50f7psrdft3kfr5fmhe7bwzwrvprgd6fjxuqjo9mr6gj82jnbcvyqe78zc" "9383df5a c6d6d897 255ec43f cb519dbc 5af47adb 45978ae8 2a88de7f 4a2fad0b";
   vec "akkok83twseyoad96oabbqpd2sxid0euje9klcgyj99c2dhadpbt3otvbyqcwb85yso7nmsueibyfknmt3rzdg8avi6quj57u2ok0q9j9j2lmkcekv05di3y0vz342a9ohfjzny5athib6px9hj3f63a1xnloo8cesj5jmdk5w6d2vedpgcx36lepfzybx9he0woxw6eck8dl5e1dkoyt1cufwh0f2e2u66p0b7yrezpz5on52g35tbedgo2qg50qhlud0mzdx11xahh5bl5bvnd0u6w" "5e427dc9 b6aed951 284800d1 83d25e42 a1750563 272c6989 31f02f7b 910519ba";
   vec "3ehfu63kpg3pc5zps1q8cl7d34rkg1iua5jtcfpodn70rfngi9s2j4e00q89osrk3ns43nzzgauh3pjarwbb82ilelalejvinyo5np9acaw7no5npctf9k6ufadgfc1dqelyfzpa17k92w36ln0hmp39y2wzkkzed94tty2irf8vkqy0j1hl1rre44t22yar6tdz50d2cgcbmadw4qfbisfm1deb99ovomnoi2w376ixd11y5m83xjfxg3vor1e8alxwbsb5wh954515a12g9qpg9j355" "d872cf19 32704011 e1dea80a ac701989 a537afea 9d57c3cf 136983f1 5a91ad3a";
   vec "o99pabgqd7mns0mrpz43u8i59e65fzrsu1eae33lxexu3jpnhtxahjobba4u0o6o0z7xfyez84dz0vle14zzvxvycrsvl3vlowxdqqu17bjjh1rns2ovqhbgyvt6z57nq4drqmsx2vdcshp0d41qdmc88zwczgch71zztjeee4bwwb52xzdryagghlcfszyjq7w9c5e6h1qvs1jqof8zl3ozm76zlmf6ra6u7mwbwb1eu844ze0jmobd60v36p7gke5swziehy0bf292sremblsoj55iyr" "7543312d d402de59 2b92d73d f2671a24 f79eec6b 8f743cec 14aed5bd 45982eaf";
   vec "83nex9boyhbxvdmc27phz8nipitluqid67gvv5o12gsuw8ewcmn9dxlejyufsgjm2c01aw9a4dzfdrsxud4se84poe8xcx3v09y6w8d6chsmsqpift69k6pnfs2rxet9zep88jumw8cnk4vpclm7so2v8zf4lmvlrbpfxsxtq3by3pwaz8abxtc5qsvf3mexu0wuctj1pn1ek0063vf3vzgwwqkxq5pap9kv6hp5d7j3dzlry1qvhfgjzgf4cd14whxusq7uvy9510jnwqo0v8n9ei4nvkp" "72551a22 7ab57bf7 6a926664 a1a54b39 b9375df2 10fb7664 7fe8e280 26b0c90f";
   vec "98lcxc8x5k2n7ivnf3uhli0g3rik7qc58gin538a86vmpeh3zbiratmldniquz3fliwhmytj17gmbhmc6pj5d6lh8ou4wvstvgrzhykinqze5s43yaeg8q4lb4v4jo5whxvaklqsadlnmnlc8z1w62wiyckv251czoy0gk1bf31b7cpwtmtialunx3n1o5rieip4n4pn1n9hybjgt1e8ave13b5hc6t350goo9gasp66s44x1rydyu1448uul7x1tei8hw77gelqs1mnngzaidzy4q0gieeh" "f2d7cafd 2c4b2a5c eea1be18 1dc90c93 553943b2 58006cbc b8b3cf05 958ee3a9";
   vec "5c860u0l8us6s5zsgqgn362nvpr7td19qf29lafkndbyn5u3iro91t0owrv7obytw52tc6rn6tiw6sb9fn54ercpmmf56vo9sryennx2gjyu4y1l607pxv7rhn4fwjixnekyy3elgxingjmpgmuzxbugpu9agn59iaiqhd4lyor00rwrabwrad06nfahzbp9dpg6t6hfugm0ftmk0ll7u9e2mpvv0z3seez2d9o50hq9xmmugwcs5v0x0v87idohodzlxq3lt0s4nvc1pn840hsciuvhif8qp" "5eb1d4d3 b7f3a214 58f66e16 2160b62f 52e37286 d29328f3 8fb587fe 172ecb97";
   vec "qav6sjjvk4m3ju7861lh4zk2wqym2lpthv9s45427fwufweommv92xa7p87b2j3or0xp7bacd8xr8u6xe5r9tp1vutxyc0txxzomhchv079n37qf4jdgj7vv8m18by34bwu3ltf025b6gmra872t1dct5f4014led4re5pvvyplcfj5ksr1e1lz70ds3nek7p36dxqxt133e1yvtsipj2mo8ddzavbcer6dvc6e4q8jgpvb3mkwo8b063zrl34dwtic0xv4rbgdj8ocjtwcxzpeq7kvk0drhsv" "b5bc3733 afe98015 9af4b695 4ef6ad9b bd0b1c8c 3cd420ca 1550ddf5 307e09a1";
   vec "7os1i4858a6cqvshugp4nd28vz2r72vl4kj8sk7fy4xnhds5vq6r2d5swl8aq05gex3jsepam8i0jxze010h4kus0khzd0gbrx172nyojbh4t1zc4awjjce24fyccql047tlkho6qonusgf03t3nzq00raqximh59prk8v650jit0512zmv4ay7z6efrnjjg3ttnsveoffw2rn6qiqz2tx4nbopmzkx6s14ov0jin4i5f7slufslze13xgke292ear2g75ivo6aeodfking9fegxkzm6mnw2k9w" "bae7ec4c 96067bad 0270f9fa ef006a49 93d4c2f1 f9f89858 f068d9ce c21a2132";
   vec "pf8xzl5whfa2ddayfl6hsmqis6732gl0dv6heigt1d18roddbe4cle2re3ueclf59sec347vgojg271lensgb86iozx623w86k1h8c9rt2397z5yxp6q1gwe4mda01iuzk8xa1d69t8uc64h6r4cytv6uqktsop0jy5lad2xir8j4it92mt8gawf2wg3vpntlydi33n18nzaixzndocchmrhlq2jt873b53e93mfay6g3dbab5uxklg2swg5tqt1geajpxeaa23ou4mixrk82pb6r2et7flp1yin" "60ba65f6 40533833 ec69a496 57571bd3 501aee77 f042fd0a b818dd6b 8367c7fe";
   vec "4f8rytq0o36uualpoosepqq08in83nf8dmcx86s8uo2esnoqe51gepkm7c30fuduhm4hd4q7eknxc3sw61kqagijvl5liiiplq043fah02khr2bikoskaouvfv1l24v41etdz49umujfyxuggq2hmy3l3koebynfykiyil70u3thhv6efelk3mbe3fhhp2ca5bgzjra3sdca73k4sq0dajttpgvrygaunrt6fd8dxxwnsa5n4nex72ajjkznql8xz0om02l8xroyweq8lpiknfpasecdfzbiuff73" "2a89a902 9133ac76 63a78343 d964f609 8ff8cf3a 1096b94b bb6293bd 0b048e0c";
   vec "fwdfe83gtee3r4jig5ht4932pf5l14fxn8r3b0fom5y0kfsqosb8iw7dcp6bb8367xoc4noinw93gkvg9b1clvvep9695xtqf1xm92kybrjs2h1l853wi6brluszwvh7785zsl13dlovcxlw675srvyiul34umr63637h6hjymxxwf9rcdsy4bdaedqum9chzuwottyvqxj8rofb5le2febygmnxmmj9s4b3199nnd5sqadl04yukpxrvvwrkg3nw3tqqb0qj9p5qs2j7lvq4wdpiulbar1kdd5ehc" "5aeac05f 520adb31 ba7dc684 27089299 6142fb51 f497a7bd 0cb7f0d0 66ed2cf8";
   vec "kw2niv2lu3lqgi7iid6b4hiqlwq2w368r3ohngdzbjdue0gl2cq2hpqgmk7jlnzy7z43g34wv86pkag5z2qidwderj4xe3k00uugwwdpqopekijjwmeuaavtiqexpr65viftqh0nudaa9vpznoaag2xbzklse1fmw21achhaa5ann9qp9jv3dglgcexd2j5l4t9zvw87a75igf0kyurw5x3l9917yn8n1p2pts07b01mgjelcirjhp7ad1zgoelfie4c5xxfirc0rnpqp6zlyglzfktdvxocqcjpena" "e82e7117 466c89d5 f574e3e8 d554c51e a16307b7 69fde780 81f05d34 8f4fcd31";
   vec "q636qh09mf4kt6tp32fff6z7qf6ga82wwwtgr0oihfqj1cwd4t373wvpo62wr1v3h8pdl9sltvc7f9twewz8cg9e6itxhc7fgq7furhupai5llc9jgfketp7558z3xjxnqxsodcys8ijvsucsvvpqexw4uzd5lsj9cmd8u860uqdy0y5u1g8bc93gmipq72gkz9lqvtgnyudeduavxpxuoop3yevtuh7ruslfg14cn5r2wsoq138ekgw4ebl0rucf53hehmuc6fhfmue8g4fe7mkoiouhtbwzu47uh1q" "bda703a1 4e784c39 789c75f0 62fd6122 873a8389 fc1a4d51 ec632490 00db771a";
   vec "nsziwxwv7f35lzlm9az6tvphgcfkvk7s08epkxp41dij5kftk4090xoyq3lg9rhitpluukv3kvt5x1h0jcexm1dy0getcgie3mci5aq51bwuqirbiw3q1vpx0fwyon9h4zqc92btq72wsggw32bwwhu0du6rz7p7mh5od3y89e764kp2v3qs0wl0ywzc326wah1j5es50219drd7bya4mp98qjgemf4enwsnor5ev5clyxfm3xz0j2va6y1hdapolazdhnlpsfqomqahojqvhxiortxp2j53c0t49ljdp" "2110cc41 a56aca05 104db0f5 a35f647e 59dc64de 779b8271 02c0401c a13f1428";
   vec "sc1ky3d908tst7i0sdrab4gkw0r668o8pqhoujmq10e6ta2dal5w184ztchc403bfxs2y5a5e0mn3a7y95yo2kfs9rwcns1tba0llalin4ne107xwun52k7qofdz3bk9irb5a9nyqdl9vz11k9c5da9jihwarev6nablgcuo8c7voadfxyrfenivi03mob4cnqf914oe17m983xbz5h32n0upr0rz9f31fi9v9rjv9vzwfh3obkwmyvjjvaskv49rp5uhvil0uth3yzv9lzvz4kb6zlx6wyrvasdo50pol" "5a588178 81c44a27 33fa554b c5fd70d1 7dc063f5 5f240181 2ed067e6 07859ebe";
   vec "15d61h4qvpe98lmrquzbqwmx5njaja2egcshxgt87d019ttqrfl1f0gizbwup07l1f43e7gv3b8hg676yvnp90acrytwhi9lxvvc00a5zv6ku9gfb07itnn1dzvb9o7v3e92v41j59wgxn3px5d4zznns0fdaze8pco9f6zan19vjkr87uzbvu62dty9r01bcfv4bgpjwopxh7x6e61gp5cjrd2oaq5c3ukac53ja2ssi23j9bk9zqsmgdke7f8qr4h9wbq8qxag1t6zsy7p1w6okpru5smrkystlt5km8a" "cae387af 826ddaad 53c59df2 16ad727b b6334bae 705d8e46 00b31c89 f5454756";
   vec "bvmsfagz1nu1ml2dplnul3sxxh3onstl0yt0wu2ecew96qa7ox33lcv5hy5a333ij3d4f8c1hd5pqi46pzslpc6txkd0lblszg3erbk9e32zxzrsn2jyiw6dw206iyg8c75urasqr7dpq3xilwy6zlpiesbp2fvcuzfwhiwyfqgt6oojkfcdu3mmcgnl1m9m7tk92fe3q5q5t91k24al305r3089fgm1mzvq9l5kzuyqf57hn41ox7lqnoota2ha0xx9ltsp09vi6hpp6w7ppmxolxdze5g6uumuhwbq5v2h" "2bc23406 64df5492 ad78c5c1 d03885b5 38a18b40 93019390 4eb31bb5 22fd09cb";
   vec "y7y9bxuai053rvzvzx0oqednjhuiawwgoc9lupymm5bvpmpff86bakhyonu8li0azd393yso8vqx4vuuohalfvcyh0kpux6rz10922kwuxh2vkbi8lylhmy2dxy68tnpmeolnpajjyvtjh21vg4lv42k7ahfpkdwzd8mw9urpadh97duh1su6ohbjzrbghnxfh7dd7zmepvp21p6hjwgdsx5l5et6on034d0ngr3j8npx0vc9byvp6acs50d1784i7142uj5fn76db7hy2de3r8hxyorzg30c498zd1kyizzu" "bef1d412 18b0bdd8 3887e927 d01d1b4b 1df98578 bf916fc2 7500cea4 fd9387e1";
   vec "vvzoruqiyesv1dmxc34m160qg6cqw4ckxgbp8xkw6hn4zbtwy1df3o44jarl6bekghskyfjoyvh1nul21j7fks1vln0ff4rwhxwu7y5on9jidbit7oa9t3zcqjs94h0e8rml7vl70e26gstpzyvtrw1iy8aojhpv7vct75hgk4gpfp92l5lnlyflevrsowhwbigf891sh3lbiei7u63k0jrylbt3vqs9eky8i84e2rrp6u6csl9ogrti32agzlj8c4u262qjb1xbsgl67hejzxtw36pl2v3j29m04rfeaacoal" "abb5bb3b 06355c78 73323186 1ca5505e bca64da5 bf9d0335 22161ff1 ef152758";
   vec "0didoj5ci386mpy8v371v24qtgdt0qsob36h1zvujzc50z382hwnv00rfxa48pv33xz9km220592sco2rby52ssda08tfwfq5l9x2rj0syvepmzm4608at5fc7j78fve7z9t1stf21jj7yl4796s6d6jignnsu3xr05wusblyxlv71rnlzb6sm2zr3mtajw415be0x034naztv03gmqr361cftn2djz6iflydpssm391wokobyvcn2m9k8cwm9ljtsx0ubfkts2bv5b8zq1xv0kisutamnots218kn9zv1pca7t" "1ec5cf53 335af320 47fb3588 04302ea4 a2447ad8 5213af22 946f2400 767bca10";
   vec "1jqhtw8cy24q45tcyjjilymgusb656ljs4mcibf748xixc1oog38s0v1bani9nic544jwil87e2ei3gqfn99l4z694by2nnr01jxh2er6drxu4u8sdkzvpyfgc7642f1wn7s8cre6lb6haw5ol4ols2cbql6po8p5wjgsw3hpvyaxsasb59upi75mwuxg68lozb8dqzavjwmgexix0rlnjk08x22yqck4cgp1pu3j63qc1b9chjidyx1ujk84dx4bpfrzwz3k8bjrs8f63qrmaz36g6jobmj5v8cx2cjk3naoqdj" "776c446d a915108b 985d8bf9 2e9096ba 23670b0c 302f0f14 4f3587c1 e485c7f0";
   vec "akx6m43jnpf39em27wmqcfo25a42zqamhsn77aqfv7s6gbdjaphpn2vhesbns7ecxzw61rfo9kgk77vi9b69zl8lwlw2mg2h9o15to21yy1yh4o69fcm0n407ezmtis6bphoxb3ofnnkudz4wc240l49l4uyoyymsu7uxfohuolxv49vssvy7x8e9b5h9k761500p0qs6uhryolr5wfgi63khkaaiyr8a8wx6xw9t3mqn0bteynydualq0rw5umhcw66lou3cas0dmn5n9rmnw0fpmjy0aro371dd153au0zshboj" "ce31708f 5ee7d51a 97f28589 21a12143 806507d2 c2809c0d bd64c3a2 efaa5be2";
   vec "ciz23x2fh5dhklejyd5htkdb1fzsl425jxruc70ddlwvxydfd4nedgbjjdq93gt4cxlf0tx5cep9ffrgy8l6hepx2a08zk3jpvaa03e5tl9oqlvzwlja5ju8o2fqrgs2a0banpd04029t4dx4zk2p3oe0lms8ukakltvkjz2fu97a15lqie7dne65ilzyuowlk96t1w3hf150omfg4p4k6i2pai0fpgo9hklmu45985n8w0ogzqly7jjfbecwm8tshr6bl87c2kn3mxu1ngfqacrvfzf15w8gr2o6sn88pdwhx4sm5" "6abc64be 779e6132 199b9807 a06c5566 a15f7e72 482a3912 9d3ea5a4 6fc18e85";
   vec "yokq3u097lnvj1h2rmwutqzr8wsxuohzm6guey309zgjc3yg7tswvkegg2pmnelazifannuby6ocntksnfywz62po8ecab2dvbwsrvdl66kjr7loafucgjfmigfzpsc9rnscsi050qasdyfay1l6tbpp2mkcfv19zicbwf1nmlrpsrp4ty0r82fgotl85bwusq5dmkf63a8aakvvzept1b6ua4x5q3ps5hhahv9v40vzplkcczj4xpw08170khc6gmwpw0xs6bknfvgh2xi06i0vlvkslcxxkq7y6rvn02r882spmmj" "3f279e9c 45d7ece4 16fbab43 d4ee74bb 686ecfa1 74d0d764 602758b7 ebc34f68";
   vec "t0xnktffjb6g5ateir5mv2sr7zqa1ij3grgpye3o2sd1i216vs0ztbf4be4y8ehtkj5p4gk6umdhs81myyqr9hz8hms9jqphta4af3ikt95epxivwbhaciff85mzrp96raftaie2yoh3orm6p4xvbg27gi7tp0b52cxtwclkh94h7zn3xrayi104xgatkbfwyudwxe25opdx9di2rgxfeithiqblfzrizmtj0hgxr4ckw0615k6oz2wjm1qpmlqob7khz6qhwfzckcxe2wos6juvmnrgx03qnm43n4t22sksy2pw35cg" "227107d5 26919b80 bf4332b0 03bfe355 9ac29bd3 3624cdda 2a42c1f5 00c943e9";
   vec "n36vqx0roav2qcuxdoq2yo20y94wk5e8f1oidb5y0lixnkj4nm43yq2v5m9vtu9s3otfzu08ivry34b6h7azw0tepj4aii4v3a3bnp58bdt9tw8kq5o6l9uo750ahfj2mqfkmjordruqam6n44xphzbw3up2c8ubcrydo1zvcqgaz5rj3g51azi5m3jns7soahel1b9xlkovpp7twmmbtugxyvhu8niqcmeqsvxzywbksierii92ev7iu1enemal0m876mb4d9jv4mtlp14ntr1dszucexp07qvaaamj8p6ocaa3umw7b" "0fd4dd35 22168da0 ecf1d311 c3e4cf58 4bc8590e d978cf86 07393e92 180d8d5f";
   vec "pg1nll9mq0797un7vimt67shp151ld743t6f2xyi0ppbsg4inw0e8d58vgkgqm15zbj60rf7vsq2c1azjjj40m7smuu6nb8gsw6c6z6bq6ixytp6lgnzyhu2y8h6swevgo0zbl0c695nb0xcsqex82c9abyfy2mjec93gqohm61nspv4z6sb2kfh7tcez7ko5npgtt3c61xyj5ddpb6sfy566tps6jwsyqkrd7ya41x6ctzq4o0z3pe8rikzvmuumq9htjee4tn8hol3pgvkelxrgzgq6ju8c1zmqm9bag5zhdup3tlego" "16262d6f e02983bb bc9ebccf ae7332c4 657cbee4 48f41d68 c7fe4652 eedcd74b";
   vec "gzi1rwxncz2qiii2gj7jrvqr25w894bh0ct9zso303yndh3b7vg8j96l9jx2r8lulamgy0m97gppwf50l97czcgt2fopwgj3ldo791ebok5vqum78ce01tkg9owxshhav11y6txe5vke2m4durgwlnqhdoudql281mcydwz4ve5hfrffyp6g5u7fhxl2hay7bu1v81arkk0smd4lhcu7scpjq6hqmxhgnf13lp6utzhsznqmaf3d1eei3m00glzibyqxsfev7uabl027m0japukok78d2g7okpyqhsd5c9ashl09az0tsup" "6f64f0ba 37adf010 50781bc1 bfd71c84 b794dc56 1b189c47 94a5ade5 f869add6";
   vec "f6ukvmup70jbcpcwt08gh9kwzjyq976grkmlvc2h380jrspp8t2hlm2rn9jte600omubowqv5u2oyvrn22ex79ywkmw2cy7ymykmhn7pzvxoxd351gkhzfbecufcyqbo2d6h1yndu5egma278pa1vf144wwabn8ok6tifl4dptaw9y7a4vacic07tu3696qtttoyz70aranb8qazy85n8weq8apn70e5d2jh92rzlw5sloqdamk7n3ntrck5s7niovnzywqqrni0vl1jhc5nn56l8ms5kdyw6hohezdv5774wwf8rq3hhd5b" "890dc8a2 ff260c7d 0ac7adc5 0d7ea3d9 437e66f5 442ddec0 f38e0567 1cf7bff9";
   vec "w7l6izuct0p1aierz9bbpvk89xgni9defhgupbwz4bxfrqphrxgwpnyts3kb08p0jhb5cxex5g0t6o7tnmynpc26ogjckc4bk4ufp4lla604aeg8zye4nl6s74934jq27t3v2nn3wr9xomd5l1mle8zdgniiycx54sgvjki7c8nj172dfiu9kgpw8iot1mbghasvz08t2nv54e91ou5oh01g9foqwqsidf8wgpd22haeg1ieuzlic59iews1osj20ypj21rrj5twaxyuh70n07bgj0qc7jlpo81ar5h0umz4rkjpixcoc44kr" "1bcb50c7 ae0803c7 72b028fc 9352ee97 efa75f18 6274d701 803bb368 6aee2941";
   vec "3y9e51cjmdcsxp2y1bzesp4s135nozdl7l70qmc89121pc1o0c5qyhl79vh2kjjwj9909ysmrpc2vc9se7ia2h2ecznlu68l6t582mvwysa7m81cxwji3e8gvt3ruzd02n4iho2oj5qmi0ih9gaasvy5tjc1q36h76znuhx9e9o0vqskqe6rsti4qu81xz5msn94ae1iqndiym41dz6gltcisubdmwocflzjfekp90072qnywcarw42xcidhibahdbgi83x1225z0y6w4geio2372eyc6ei5uubm53dsy32eh2gl7x3hu8wpfb" "73f7b683 afc51e25 79d49d00 85e76c6e 1baf34b4 4f09c316 f2943d34 7899d9da";
   vec "04rvj3sbrosx5a22uik5emrcpysl8xh4dzpk7vz6aj1d33nc96aqst7j4g9yawxme1vcj6isof1hgezo68r09f8kyo0h380k1fscemrmj9y9uql108mqm3fex54dm1taxdn3p0ecx6bqk4a5114gtaaope2h01xom43x3lokzoyomcubi0jgbfdcppir75koldj7fuqepl10mrubir6rbdkigi3hw9br2wj0m9xnpjgtp5lvbx7luo73z5l42y6jags0hdj58v5kdeg3scqpk6bh9p6yr76a43z85wamlu78ee7gf38p9l9v0y9" "ea162004 3f47bcb8 df0299b1 5bee89fb 05e7024d 99e37891 f6cd982f fcb1987f";
   vec "2d58and9af0jgn7un636xqlamb37sr3fz6fsnazxwr368q0tmijnsog7c8eonjv487248jdj6fgqntpeqb2dsqt759cs426fynp0fb7iygp9m7h0hc48wtt8o8yj2w1lsjwdebtgoynka0ac2d079oradqed4eeo6zizcuk50kzfmfdsgi68xnz63g7rj1mvvtgwusi1ppncduzva32c137inae5zwc0nppn3i187y2521ktj3i8vrb6rbpjnrvz7kzh6tapkg8wcozyv0ecxpmdmk53lyadmvji2azap1a2nggezt081ycpktuh" "089040df 57da461b 5acfa4aa dc2e2152 9ce62c7e ec667462 58a5bb3c 23aac0d7";
   vec "h9wmtt9j0ltv2drl07rai76mdqzk70b3elu0oanhbil8dog1eitog718wfzr82mignhyc5hc2thd1t8zoxvh92fvn9eu07f0h0u7cx2v3eh8ucsbvcon9tbyq043ua72bhviss82wftivrkor9uvychuosdivsorkki2apsd4mndjz69jb2d28p92kr28hy6039jm765g65hc2juumly1shqsrhmksyifeef8wszzp50lrb0quhtd818afjitxu3z97ca3wupuk5rekmss06md4o8ah2r7nj4nn7v6sz52lyqv1p4ckrek4kgshrp" "a4024917 6493e8e4 bf345e6c 38798e79 15aecfd0 3d9d8c29 0d85b59e 28b58399";
   vec "5x7yos07s6fh66lek4jzpxovfv7cr93uhsq6a1ygtz3wpv44a9vrwrmid74xy61hg66vgjotjbr908zad7zpxjlsyposreo89jd1b1mww1a2bfuqjexso0kuu8clpx7lmzasemikkr6tvhgtrlvudep2t5b24w4ht7ku9votls2bbo9a0pnnisnt9cdimhnqtfc9ltz28uv0qgv3lgji452mnqndv1rs19b9law76mbjjbxwjf2xxdhtk24xfq80m2hdhf67gsmw80uab3othea5k4a0offng6bhmkc3rsl8df3tn5ag85wqkt982k" "2c76461e 9767dd72 35b485c1 0d66dcd6 88e06365 6cd3499a c92e54d7 49db4879";
   vec "h0cbx87cwmpdcrn2jr3i8e5lfkr9i747fjrr6yxvnhdtbz23p2ygvpq8hmgpue3glow38ti8yn0ctwvubx3p7wq6m2a0wlpvrcpvlaggn58ap114fjokqvgrzjpb9qkp871yg92soxng7gnby91f827tkio81w4demn46qvesq9dkqcd3r0em678xovxj1l0gobotld9ub4z174dqv96dlaqa9ylilwcwakqd6umqn42xvk66n1hjlhiphuxb00j9p1b0bjvsheqtahag3l05knw8w0r2isrfmp8tabwn5ls1mo8t0ih16jpncvxdhb" "858f75b8 a8422fe0 2d76c05e 78a54f4f e7335638 ce5f1aed c21e3709 9c89c38e";
   vec "5ijw2i0c4jneiso0hp14assq6noy3bexwbr21dwdkwtgbc3r0yx0mf5rehi0w1q1627tduz94edfxqfceae11zmulwj7zoz8qzwnyxz8erpnrvyd40kl0aw3o0coqj1pyf2jcrwtpp1jrhld0k0uix96hmcs8dh7bofh8a2w2zfnjxf95g0nriggot9l433m4dkm4zdpl50oyvq991ogm3xkit3eydwuo4rqktsead7o0b9rl44yb3fwpx8gjjlxk42aj6qeswrckvko3j73olps2ug3jfwtshfdgdewpki1yef647vbnk9i9zgx29yh" "cdc0a1e9 d4cead97 f115adfa 3055526d 67595194 e67deb4f 5011b447 0c11ebe0";
   vec "u5p2v5bipbbvepz3n8hy5ok7gzbslye0qdqmubi2lna33vprp6ekrdoc67vxl66ofismej1bvtr2zd1kv2q781vgerub14wc35q4kopmjuvvdcnhyuim0avujyeicacvporhhl1mrljt8jrhv0gp6g85462hbeewob5svlz2ev98nzz65caokz7bq0v122le2kfpafyx2g0xtfxbu8uwtv5p2f14xbtg268kgp80wo6cfi98j4ou2zloulbhadfgr64e7hbg0h5712t9fj37cuaj0l37u4a27kxxj2pw625e97z1069colrxql52xdcb5" "9475a070 826aea6d 2adf9fa9 ae9acb22 575f090e 06337639 623c6df1 0a62ac9f";
   vec "lej93h9910ou0ln7m9hopnj239lefy4yl3zcm5ov7re9m3406ncppamlpwq9iy1njhk4vqi5j256sy6v4cizpgedyo6l9hqai0qu1l53yy3soe457egmcyop345eip3bhxubbkjp4iwcsh85drttuf287fqjejwow3k7w3kdnjiq8hy3lhgbs8w03w3zwn8t1p8ew4pmvrzrzru4emmnr5q9rcxyd8yo0le6gqb6bmjc0aq5dmq2cbloajn5upueg5bljpm5xpmz6e8exeu41thmga07vm4168q27kzk0fve2bdoplx642qyir1fl2zzjb" "fd9cf9d3 4cf56721 2ce6c1bb df05e5da 72f8129b c8d8cf10 f922cf55 f99b42e2";
   vec "gy9kfmfvjirmvm5ykld0onk1j2r4gevdfcfhriscx8krsw1o3m4umdhk9n9ohs1ztzzmk38vs59cdidzl92bquc0sm6390ivcwo58z58g96mee1wk4qsncm5qjupeqpm4aznq4ln0nfi7e324n0ubf8tp9hh3xicr6d74hj8w3yqylc7sjh4msdl07pmrjxm3rnbim1yp61f7e6qjeiy10s82yvo937p0uvtwvqlvr5wfm8usqyevafgesq9ynfqb3y5b0t0famw13s2lzavof4crwcxlrxg5zh6d1ld33lxrqh46r59t8cxnoqygqlosro" "54c0e3e6 fd09e975 fa37a151 f35a744f f1e835ff a154df37 cf36b057 c0d65138";
   vec "35j3oiw3tra7fbd8q59j78r4fj3b3gezxq4lbp6fugjlfkwomd2f5rfqrlj8gizjabq38rer7emb2sv7thyd4dev8kdofpqvm2jz6lmfbfnqqozxoxudhgwwwo08epumwoz9mulowmcx5wulygfsb1bj8egvz3amnmbtld20jucz7ybbl1jqh0op2q0oiy7jwekdke8iq7fymag0b3uzovt1ib90zad22mz55dzzs7ih8qjn2std7elyv3a3zihbanltj4k729ldebt6hozbi5wvl8b6kb12mam7ofvl4efnw9k36qzma82lu504oz0e4kjg" "24b423b0 66e64f85 f08d9b37 4bbf3be4 24ccbd6c 6b18efe1 7de711da 74077bc9";
   vec "h0lnr3j0b5lsd57gg4m0bfameajiewtpwbmq21c9298x94s1jvs7zrot679b58qft8z1w0rsimjua1ldtvy70gbnv8t8274azgeci008sclvpbbpkt4izcn7i37j6ncss0i12sbfvhqfyr8frw9nqe98gb42n4hfo0fyivdhjc6xadle2ige3vsgafpd5jmdgkpjkg5tcrbh2byeyzphjrrp7t0vvicfli8dq79oue4w9yzg4c6zc7fy0tqxjzbgap1s0srm53opkq6x82i30og06gt8gt0lojw1l32hyhsizkequ52af411vaflcfpnr4lso" "fb39d77b 1ebbecde 837a7015 7974d957 fad10159 f6a51d90 5cb99b9a adff4925";
   vec "pr1myt4xv4kr7tlz141582rou3jqym76b11q9b86c6xxtpnuzyr3jqm17n6adrt9zdyr4gryx8x3se2prvm26rayd0acdwhnqms8d421w7jnehqamslkfy33xrsyh034l7rswk1zyyxgk9oi4z0e9dmgwp1ql8viy8hpcy8fxhhijsiyvqg45ts5nsbik7ff07pmnashulzhm3s9f29klinsgayz9q575r7gs8f2ei8rzwia3ovf0cyezsfgkskvyyuo3ahmkxr8vmi79j2sse56y5t3i0tr3jb072jcbx1cjzkg3hpvgzdw2qjbmk9mr1jzu0" "e8cb3edd 1cc10c5f c410f81d 20a63371 7e870407 ceff3a04 c78ed7a8 7270d37e";
   vec "5aeo7jq5jf9keh089eolewjl6omf73hz3l0wy59oyeto35k67ee4dlzr8gkkejr7p5d12ewn55l95m17m6on6yockvcdrpa2ij9ezym1d23vjqvf09nzysfwkslp6hqy1bmlqtey5n2nnoklme40tsjs2ju0lqwcgdetsbtwhrd45fjdd3phu75seplnrhkehbiteb6tbx9nb55s2303kbzoi2dcxr1lva9cdwmb8waq4uwl0i6ue599g7h4h2pv5vwdw0onu3277rcyt2jhipwmq4xe2qt3i05qjz9lhrzm0mnbvpnzgtkut69j82vln8j54ht" "57c82b91 69847382 c531d68e 0a617b97 605fd662 9ecd0a93 2bc5ddf1 988ee45f";
   vec "hjs572a67h88k75iq3u7kecfvh1rzjtyf4k4jwodt9vbskxwymuwfn45x8y9ve4xsdr2wprz1oto1hru96vzmwpspxp0hodshxyztna6ckrug0wanm8vegihae71lw7qkistrzezpfoyghytph1wmzg1ftqn0e0kjpv9ejlphnyaeykqdze20y7ij52vsax0e0dpqdfwv8qpvx48uwg8cx2tbhf9ajwekbaowvuh6844zemnm18k7rj3p6x7n33qh2gtqku9k8f6eudvbnhmda03lfy3ig1m9z1yq96bkxuvcd06gpwisrfngcaygfetvibn8kbr" "c7a8d6a9 da68d6da b6836bd2 740601e0 113868d4 681928a2 5d7f33e4 b9eb31d9";
   vec "hteqe3thcsnn1we3iybvi2dn9xpvffybq6e7zhi4kc1afoyskw7ctw16w1g1zgvdhum389p8oir56olqyan36gj2y87rl1bitieqhzrevg2x1p8ovmhv1xj4ibfi1s36ie2dn1vfg8hr3v4jxbzeskiycern8gilmbvid4nhwri9ztpyfarkb2bpt2v47nxthqmbcm0uno7knm81yxn0a4zb1dhuclhi2q8szas37e2sc15v3c71g39i3d7jvzhaf0hh1n6flkwlhc3n9zfiif7e3xol3d36pm3spx95t91n1amknliy35kf8w2vn2dabdvtwrtqe" "e46c07b9 d46515b1 462ca5cf c16abe21 a3daf565 a3e85c1d aaed1bd2 68f48d9f";
   vec "inrjd721k224tdzvx66x0v6urlymkyhqgvc8nrvrvhu8ujoc16kab9k47cdkmbxai6n9dwmu8yz99pomww79prdruswtvmao5o2btjykx4cy1ej1slq9q3vzhatmi2n5td9j67l4npm57hsxw92ba3ak6z6i9dmfpqnglnrqumz7ss21h07d2pow56xjd0gewavesxxlzkger1fni48v9xj02rl0it28td1m5nxijrow4x9upqfuwgytia1b1vs534qxfqjvdvjvy1b5jf2bon5t31bsts2mup3dkdbgyj76z93muu8mfo06qzcudoznn2baiwo782" "c3a87ec1 4c72cd94 562af43f 6582135d 8f895ede 2e5f9a26 d3d096b6 2c6837e0";
   vec "19wx0gfovdn1obuv30l0k1eaadmgafqy14yyvy89gps28imrpgsqued3afsycqs40kqq7xkh56l6dlrxdgk3ro4n1i1yhgivuvblijziw2ebk7mfx1wdiyifl2q1ntsy64wr1kc815j2ifacpg5c3ofgekrx3vdk14ykrvbgaz1hox78sz9tfytiauobjfflfi994ot6osmkcpamfte7k7drn6d77zjzcux58c4a3mbiwa3fg08tffgu2i3wiu1uar6req4p56eh3hc8mlifq1dii140qgb11zl0svt3q8ofno1ymdb5z3my0p64gzr3ckots7vtekw" "67af1472 a7f0fe30 ab3511a8 7fad1889 7e3330c7 e874f452 509c5fb0 b23526d4";
   vec "fb0iyjbexiheie1k6e7wbry4ec1aetqu7gj13wre5lz00kvgahx2qnmebtzjzps9sha1orqalhyi4abs3bnoigk5e1w7lsccqa6y7r8tqeeibsztpytujsbt4ze2om6ehz44b86msfqp51u8i3p8g56o0hoftgo6wf6nun0kwjgbuqd6j4uqhc667rxnm3jtpyumju2qecz2y5y43i4egu03a9ikkq0ssqkd6d2n3ggqoqjxf0prql88j2ifmbxa9nqaloe49667cr04v9k63rnk5bz06nvaj11h7huwhx5ux7vsqvg0zd9l7pzq49i3qtlb262xnchi" "efc9eda2 774c3d18 d9eafce6 8dc3d887 d6f37b00 3aed2e4f a8df036c a301cbff";
   vec "elhaxr7i6blkqlj99uhtq2wsho26fytmm9ubvv8xkq1q1l01fwclbnayn79t42g87n2exw3fgt31dy3a4ifnl46l6jfw85q4cks1qaj3wff57a1zq051e7p7nudjzcvi3p1830naqkonb4df2n17up2szogsx2iv11ynixsau2bwyhkxhcaixhlmi8ol8ke08jwvp73j39kha1oves47nzlkrkw3qfcesq9rwkhauiwgo3blsfe1h8bzwglggk8fajz0emusblix7wgbynt02resyhaqwcwjn5aiynw9yhs0y0ktdzvx4k2z42tvxlvmnxqi7oaxiu0j5" "c6159d71 a8440f85 17e0617e b76835fc 5ab5a6fe 52e14eb1 67e3f0f7 6f653c7f";
   vec "djdmfa5l459tri0bte6wy0dkc5zewiymurz0vgv9fsblrwz3kmno7176a1i91fozh2jocom1l1jl8gyg095bb7wasdpvz9cned8k5brit3448z7sei9dt3pl6ovl59ro6kl6r2nyx3clf9vrxtucxqnd2ll8kgr997a2u9ofl663rgzxe8a343dpvnyn3gp46sh3p3jux3qo8i0e0m8n9ci4ymecsem8v2b8l1se6y8yj8dkhcs5kj1fb9g7mf8t0ju2nzim77n6m4nfi194f4pp84qqwv8vrwwqr3glah2la6fcfksy2lip307tpulazgejezf5w481kw" "9b952b36 69d29784 4b33342f eacee50b 3ba37476 970c210e b8c9dc0f 8449c136";
   vec "mkm8cws7ez4u0cq2nhz8orl6vjv0ifqfbe82c7fvgmdh5o2sq0gpswyggrcy2fqn7pe8a6ujmp5r4lmh8rzkwke69yy9knj9bgxqgkp6yu5eduxssdko8820180024jc5xdvp6nqyj099fcxim3c2smh5dbqvcp30lobx1cfjsmxrpc2aydv1uithtt98xdm2sr435nlq7gsng5ri0jr9x9jtir57u9n87ygnh9mpz4evaypuj23pf7sv4d25l3j62q5cyuxg0gatxok1csx1akwcwu8kq6nhw6466ohnrxmplqwc2imcwnfpj6uj8iq5hxy7aywmn02ymm" "d9c93e58 998d5fb8 cf73c105 9192d948 81c7b584 5895f0dc c4e2bef9 194b2737";
   vec "k9x1vdjxnae355vva8wp063yp7nihgk8s9fg7jjujyzi8upjmfjpkjsn2cj58m4eocjpt7h3ufgvzzt5gzh5mvxjt1t780uan1n2ut305oogf681fqunisszsdycy0zpe9t55247eynt6lbpu37ycbc3slxy3unbqfdvmgjdkgsagfrcnwvrvlpfpitatukthm382fdr5myw4yhtms91t93mlkr7h0h34ve48i7ji7eticx2bzq9fs16w6hxk5ug9nk50q4ul938qnof4crqybiqgqnprpwa9zhrspah7f26uggaccrykytssoiwhdcokb1se13nh0n8hg9y" "0b8caeff fa9773c7 2228f16b 4ceced3e 3b031fcc c209bd6b 9f9f97d0 3e662721";
   vec "6x0oj1dp2h4d30zungzhteohdomzupdj3mxjqlyixb8slgy8r9xj7558crqkq8qyk1hh9dipqualmn6ox3ti9rcvzym7w3ov7nna3t3ffe0mhte0i0tac4155hieli2lg1tsm3gicrb2pulpbputrtp3ulxb772nh4ryf748w4glxbqbua5vo0lvvaqndwcm36zzx6sebhmar7z09t63izihl0g3tt8guvmgfsp3fm0koc6m7smi3yte8wipxyjhcrzlu17vquyeo28oqw4jezgufgfrf6iwyl2o4aa70g6ah74ht26dj7bl3gzd0kgr56ii4ent6dks2uzpz" "6ce02a9c 8480beff 6407bbe9 6f422ae9 d6a8e0aa aab6754c df51412f 780bf683";
   vec "qv15xi6f2ibrqdr8r1zu0wxg4qdfyypktnafmr55ghqraz350uuislhlp5p7lsfvcscvv1ta0wb5yax5ytm5lk9ahlzf4l6obazshjuzkj3r0gjtaa5mgfxkhr7syd5t7qyte2tz8opbqk2ijv2upbqf8u5yni6ustomootvewtsau4q76oktg52b2x3fywbbhticbcweyy17suu6rvwi5ypk47bf83v5u0oufce042aorntoztvgk4752ar0fcqw1svcvdwc4ztzm4d81r0bymvjonx2kpd0gr6o70mzntj1vsmcma9xwlus764u0m07x7ib4lw81e3eopukn" "ab043625 bb6a351a 381e7080 4857b231 067a1475 7152df6b ba13117e 2ca429f2";
   vec "eousph3ucsb47ufjotqmwm73dslfgueaf7dnqrint7ygsrxksc3385vnmplredwrbp3my4ha4ezkg7iyd2lpnojcrrv1jm4b19t7gs6o01ibjuznf62h1shlixijfrp5j0p3jyjtx1nmmtf4v8i375j95mnf2qiippyfrnxdc87y5fih8xyi798kuxftzufy1c60xa70ikq96yg6hz2t2yb1osrdmovm1go106yxtq9hr0smdsms9g01vwpcmfbebc1p2xsj8hstl2lea8zjzwnegme708lddjt7u6fpc0kt27iywuoaqw2b4ikgcqhyvt3u0hau9xb974rtc4b" "70980995 c1a387f2 2ae8afeb 3cf39753 6770e8cd 681c4cbe de73983b 7106a766";
   vec "3462tlg41cdcd739608n0djumzvrxmhjkpwl6dii7ggde8ug7fsd8arxkbbq94w1onjfbqq07200rp8x2ziiudl2oess69dfk5nr0xj0c6ixsw12zizzt0mgotq6z6y48hnxticu5lvg129kvaxjfgs6i59c3ayzewri8ffdd6s8wxg2ec148mgvfz1apeisbqstzcc27h7wvhu36lvsbx70r396c867k07fxlps1wsed3pkw8ii249gr4usqlav6m6k813uj7qe74c26zd5u3jyzusnf4d3o7dc8po8zs4mjxn6g11gjwp42vvfrvz5bzn4kl0xqp3d8h3c4u0g" "c5524ede 5a81d239 d93b4b2f 2d7c1ec2 67b3999a b3be3e47 2c7e645e dbbe890c";
   vec "yktv766jvbav1bapanhf7s4yj0r5npguw0ougpc1dchsgemlhq0ehs4r7ehtlcgljgp5kw900lyhghylcy4lalaxsg7hj8qsfl61votodwh0krzuxe7keql0ij4m99o65d8hr47x6zb0118gz0n9etk9sxrz4b8x3a6lld8j1f6ywa4av3eu487ccbr5hhdft7vrgb6oi7t11gz12pehf9pbe0zi1iki5aldwbld12ycj6e9ix9wrgdcf1lib8hxd6uf0c7wxu6ms103akhvj3vrtnmn11b41g6hf0xfpn03t1wf31zc71yon9bn3puoqzdhs4q8ucbk39kos6xft" "a7882263 bfce40d1 6464e335 3d1f5f48 b549ec7d 46b497e6 1116e04b 44dea166";
   vec "99nfj9wp1zsrhvwz74yz9bewd9cmfmbixk2x1ir881t4zypcku2qijtibrxc0dka4ejkir9b52ibkkxh3b4imz81vbnqqlmvcj9lu2x8slrul1lwvx7mx3z8201wcix4j32l55y9999wsjgbpv4jkxd5lo5tcnwddw6hwy756xidm6spa02caqplm1jop40zkv49njdbwphn66pags6kwhjxqftvejof79y39sacp43h5xaky34q3azty03qgjjm36s2njhw236ntcgis8mmzxi12idx37v61j26yz48h2a7bf9unc8ckoqja06k9umd5t1ej0phdbgfm3t5jb0g24" "515f43f3 102ab9f5 778957ec 51dfb313 aab59d44 72e30114 d7962e8e cbfa7e57";
   vec "50dd6kuk6e4aa9a0dwsldnck5afymnf30wso7bzap443h3htzj4dzrq3bm3ana28g8xaina5fy6k92t7vjydwax7q5lbv6y1yezrnlbmljgafd0s88lf2c0ru1xo1izz730su9xs20gov4egsla2m10vwclfha98ms9qld0y1wf06e53t5d17s7k9m9lsuv0qk5fpfyuvmcmvn7j1wytbi5ayfkngnyirg4d24ofbojspmy2tdgrv8fs6ugi7h38s0tsatfn77f0efggj6zbp0jk5qsutv0d2g7tbhs3dk5e83tm0cz5a7trs65cqsqhmuf76r1s08z535mu3mb40ze" "0638037b b19468df 8de45f6b 3cb3411f c943bbed 33949e14 c801f3db c82310d5";
   vec "qly7icnliefntg5dl0r1mvxdhmrcxrwt2f27vn653gqziotwj0rv3m05fvbafmi0pign0fah5mgc8oqvhiujv5otz7dakokr35omtiik7lul5bs6h9o7md8sfqm91fnjfjs605yoep9u9tke08mq8wph9tbk2v7aoyff4u5d86858rrapczekbs0mo6pksin1fhp1djxqrf6f1m8mk202k57emhja4qjbbk3rgr1plfj6pj5bb8u12u1fs7r5emlnm133k4bvwtpqj4h6m30dobjfz4v0kokhx8za6m1ypqh2xuqam2rphglh2up1kj0i0twzy3grf4n6vl94qnmhgii" "c743d74e f35e853f e48ddc34 43aa7098 3be2fc94 39a1a772 850d0651 43a0bf67";
   vec "tybow43yifxm0396fr2anhngaglrxsmxfp337kh7ibaz4krv91mziy69ilwq78n9qq9r2q5lj9abp93lt4wxnw364natvuzhifbvq4o47cu4i6ash9l43qlttvv31ryerii6oigrj4kc5y70in3k05ga7355qxdfrn2srx4xyh6a22w4sogow6ntuyvhfmbjufh883efhy7ehgyr23djps5zm6wgq0mkbqpg3duzy5q7ka7v6vtwpsbali63jxcrwhwxzn8w5qu7dg7q8c5w8u0omnwiu8z4nxsw5ce44jqkgr38xwnu0gssdt8sbiyjoxntmec92o17dulsnxezn6h41" "6352a250 570b85f9 bc31e076 53b7735e 8ce6b438 c353f3ff 2563b779 11dec0c8";
   vec "m07md2j3080dg8nb3xvlwgqmu6iqbo5trhm5lyj08drv4xfb6bkzjc40tkyez4x1bwx6gpl3ztkqb2a299dnjofr30ij2qz6srkigfzet76vojiieaq1chaopg6eatzq3m8flvre1v5snq1693kmm3yq9s44xzpysilwy3ra3df2cfb1yvfex89d1nhq1icdfjr2lhbxh1tdre56ucbdhr5hxbvrtb8q1ydeky9dlrjqs0gk68okn3z7ykz4egd1nux791qelpnv7q90kc1gs79kfqpuhvaue1esri7ngwnhpa38j4dtxrvbiapm74miucky6mdc9ngx3ia7gv9gksjp4a" "ca08181f 39187539 b4d97955 01ce3bc7 de714e7a 542e6210 5fb52f7c 71822357";
   vec "ofl0le9lnwi0nxbzfaufjym8470mj6b35ed7pfcmqssqf2ae7y8ghmprz4hcgfbjwzfuheau4pcl9c8l9oe8opgmujf6rnmxnnik40ikigm67wnpnj4ph93vp88xmtxiasye0b1dcyn64qylbqryuw4ydc1snc7haj60x2gzu54cuyozupt1tw1gdg1vdsgnup9cmnkxedphfwkz63n7wl83yfmdbownklk4rwomxk4s4h9s3ivmqc2u0p6zodn7395b2wg0evc2ma0xgzzh4dbcu5sujjcmcu2y06v8jqpghlgl1rhicl07yq06h06buratb7f48r0stzcwmk04xfe91px" "1667d4c6 8f2b8faa 3a51e2f3 70820f6e 6ace6ff2 4f810687 e23a6e00 a53874a5";
   vec "tyzf502mhp9miu72c59mwdosu9g53kokpn9rhmhcc48by6d7zjhvj0x1girpjbcmh8ya0abgs3u6r2bk2p99p46dtfi8siz12f5m1x2yyzslnuguvryvo6xy46p0z8zi9tr9cn953ytknsh3cgfjj1fsa90u2vdhcugnb49fb6tyiej9k4c6ahsp90f42xkw76yryaxkph8dhvl5lbkx0hzyhk26sg70m9tnl5pqa7kz3wgf4ddm5fzyllwdhrqmnbvyc443hv47i10ic7rb5mg5gmhmysolku2etlcfrxotmdd2ypwztxf0r2m4drgjwe88saw90r472zmi26lbhio9km0p" "d82cd658 caee4b5c ff91c1e1 bb759820 e5e9045b 90ceffa5 a417ce44 297ec235";
   vec "h0bwv7xgiet75tbrzfqm5whu0qj3qm3pfpxtkwfi8h9wfil3frciotyl9n96bc3hrn35thz9m7uuhekh3r32kx3u2f1urzknc49tzwf7uvbyc2rq2zvtqvf7303fhhrzecftz63ccljdf55j8hbfousciinr1n3sjd57d2f4th2x9inmhl3k3t4eoli3yjaz1ie7db0l0dnyzewyprahc66ig483eytz0x8bzfrugnzf5aeqz4bkq03k62n3j1s8zimwires0xrd8gkj7n8ld94o9qnlclql8uskr97i6ksgpsdpv3161pra1wmq6kjo1efa10n91dt67pd9pvrw2abiyvohd" "22d6333f 487af1b1 982d5740 6354a621 900d2f53 655307ab 667cfc2e d1722e09";
   vec "zyoohh9p076ywge7y2oec5wyp8m2i7bnh2mdgt05hic0d06q5msexhlx985ii7gox8iz90pwvmgx5k7wsbvqs5isyj86r636fyfpu883zt8dw5szyl2f0kav3jecvfo0qk3nqqtuvue416ivuikzqpf5y6b6srpcmwed7hwrgns0szmjhizv5q7tcwenz4fyc77sfa8jlfe3qwjzw67pllc12tpjle13rnd56fhi7clxszrd8ooe6764sjbqphocnzi1p86lhvmu3m8me6olnhdsqpsh9m5zdjethvaw0snx8wx96th5p3brehw4v139buu9uedy72djllktw5tk5479xn0cgl" "bd49ebb4 6df240c2 0d186c72 38360ed4 87d5332a 4a922108 62710609 549fccf7";
   vec "aspg5c2kzpmfkf6y21dwyqps57q2dlrf3abgkqoulh3vx1odid7pq51ijkjyul2wm82j3qcixxshds0rcso23hg2us6fagn8jzrc440cne57jyfprdneuvvzylzesiqvt9ok0f0mrqoq14hzj7rly8jthzcqz26eha9zqe1yhhhmfcx2q9qkj6w1cisrorztichzklbtrmm47rvstao4zzdl35jpizmkmhri0pxrpi66optpsvc1bgqdwzc4h1rawt91y69j6rqk6xr4j9x6rythhex3sxn0hqjgptbdwg5yup3bazu3i9xv19ecj12n15hvwyqbl9xeuvazo9zrphqwg0jzfvr" "94fa84e8 23c1c806 bcd5545b 04ea6b59 8b278245 ef6acf04 d2bca4b5 713febd6";
   vec "s57cgh0kchatfa3p8hu0nb0xmkvjnij7m3vgs7heawlpznhkbbhmhiav24gxm8ib7gvwior34u3bbv3r85e6ytuizfa5bq5ay49j0cuoosszks1cpsa1abvtnd78jssdu754oiz5bgxhxr7djyhe4gdwrtq86vjn6iw4z6m9omwd1clv9f88kly2p4kqvuckqyw4cfi5yz6uuxuz91w5ji3b6mw8m7n4g7a30ze9gx3vd8s7wilm0ut6jhl9tevo9ep2hse00xj2mzpnr7ltn3r3n233xttnhyquix893asnbeqegsxme5ecpn2de8h41n6bxmgjokzqk5if3w0u0nsyylik59d3" "2ec63b9c bddd20f6 10be6879 530b83df 9fe5d20b 2ea9bd18 a5798b6d 15ffbdbf";
   vec "b9xub04af90cefu24srqniy3pa0b9t5q36cbpisn6anumwkupvosr90uxea1xn7l2juhctprqswdtu1ky4yebliv1vr1ud7lifnp5qq087e4azjiff8zfd11au0l6nks6egkz8ct188mw0zowt09zajl1ibgys76a0wke553pnzgn88weio6pl1fhh9y9q2xk5aoa7yzzfsijpwqxec29opza38cuii1wtust94z38nr4s1x0at35tppii7r1quk21lra63h4euwc7r3j6axprffsbv7ulg62nz6loz574uf5vcuduc4goum5la657aiifupoku3cycmxhwkerurln323k2svw4zd" "791b20d3 0ccc78ba 501f2174 0c39ae01 bd5d8826 c24e1daf 9aca1ed8 ceab092c";
   vec "xqrrtz0ayntmhi1ul3wa96pmy9bdumpa5ciw23newcnpm8eyfunq99pvww6wsvho8uk2c1r4ub95enccbmyrjg5s34bk8uowa556z2psiob7t6phks5gxfw65zt6fqbtydcx7fmofk3abi8sypozixedrf8q9271oy1istppnswwvxxob8xgvaj7bhe391fr4kpdvztk60d4a0kf8m90nf3trlavtsr9q8ej0n49massui36ujxzeoyivxwyfjf6gkp7i2tz60b11zo2eclwj1awsscpbrr1ckg0gn8afxqzjarrccyw8hi8x9v5nrg6vz59jb0e0678ur1668lormkz1uddgne4u3" "5d3e5690 d50c602e 89062f1a 3956dd8b b5b08954 8aa29667 ac81d5d9 0adccf49";
   vec "ay3ohs4trjudmzkvm89ia07us8nkq4nrmr1m3hwl6l20dety4vn17lqiaj7zznd3fx2vhfrjjdnv76mm5wppt9v8g1vh4y2821yrihe2pkwjf694w2d729to7liub9uj8yar3b6zxdpmk5p4ygceaimfrmgojd5jp6hv6nm6rbtokwiiqixw1jippb5dq3s3gfrhe81yp1nkt425a8d6kmiys2kvp0mikl0cvcj8rqpvmcz25bq8o7te9r4fp4ccew7f1u8z3xanq344y8r5ffnxn86ghxbf0fvkigne7jy91c0zvdcxb73jku5p2d8bnn1xu2cml2zzg5y5812t768ucnvlwfdbskf" "b148c3f4 23be5c24 177dc203 412e6ef1 0e2a50a4 31c4f23d d14d86c1 1364c63a";
   vec "4vsyuqhiqmin4a8d9o29a8f3l0novrmye5upb7a10m469fpcxsj4a6jhl1gszlc4llfii3ggcxh8jnjb9hripv7wv0aa64rrbtvveti9hkfqmn9b6ft6feel1gkqbglrbkunspr9ixdu2ngss1lhzqg6270ut1w9tk52z0ixvtr4qknxcw65i3fxguldjqonm1vtntey296j734o2me1ujzl0lrf5zcdvh4rm33xr4dtirwvf5fg4v1qy95n0dt4z655iocpqcnbvfzbvdw832wo9fylx1qokuibeawe5zl9ljfth5v2us0wdmwf917ltjs148px4tguip70k13lwude2ur5q3p7hirk" "43c92c7d 1bc6d8fb 3eee7d79 88a07bc1 19ede78c 136bb343 d752f75c 75731d6e";
   vec "ssxz0vnqgmfn7t2wacg1pejomdwdmhzeibruwhw7zaiwpg298md7l7jvu4yxc1q872nf0iik0z9st5mj5at2ha40py55811y495hxboqv9bn8p16lsgwwbrcjh5wp2ajyn36sipsvecdg0irvhzfu6kz7garxxbwrg1thp9ddik247j2z58ay8vdde3gu1g1jy97jaaokdy64239uh2sz2fg7a4o0pfm4bdp0sntjm57sjnow7t59yue82gbonptiv04f1kz5e8x7csca48lrbr65kkhn4x7dj0icuyehpdw997htlj6yhzagf4lsp4hamfj8evfxh99piewtxmh2hk37df5t1r4gt9js" "ecfec073 a1dbf52c a30e896f 0dbe3f00 e0cf0ebd d770b68a a68b56d5 97d9a663";
   vec "r06c2v2o157if2d0e7e8w1i5j6zi92ynbh6or8omnawfysnwxhtfqfjn024v15btjy34jr1xdyo846nu6ehlwkbtq3zjjf730bfreaxi8tu71gozfdjegy4h82lpdl4kdqfol8j293z137ykbjyqrv1z6roz77a0bgs10prsg53w3lbqgk4tujgk4nip17e166xtcl8aggmkw1eg4jw8boc5qvgjoc6y1hsbyd9z4c6zo4cvaobidh8xxh2j4s50t6bz0rw3ty5chwzxhdbolzbrxx81yoiwbnulkyp38b2ab6gedwdim7uiqifzzxv73x9n9hjgpa1f8llrze8tr75g85wmtei3llvbkw" "794dab45 a693c302 f8fed831 7f15c53f 98189858 597dbe32 5ed63e2c ced20717";
   vec "knwdhpy76yofe9ng210c9jc770jxa4y1il6d7nwu48fq0v2rg6xvw1yoqfaavhuo2az4azisfo5xqel2qnl0uw6mhwnn0uac3keuyz761alciag9iejpixxb5b5nz25vg62ukk2lay9b148awibi8p4vqoukcb7wlxyjgo4c3sa24us0pm5hwe80z82w53zfbpfhj513c7a0pn0g05qnyt39hfl4opgoq28y7gyxo6kpinqrfemu9yud1vnxme9bdhtb5zr2killjgitd8f7f7emhkbbhgd3g8sw9hlb4cae6eu9idtdot8ieu10sxehq186hob7i950i62lt9s6mzzk0vy7podnftqarof" "89d12051 e0c74d74 b6079972 86a8d238 853d3e1b 44359f3e 19b6ec86 09c87963";
   vec "2ntg7ka21tjotxzr4uz7ydc4n0y50q5cekotlmolfrytmcfutnpno71ea71pxq7wxdt2wp2y052qdy41ysqag0m2og7cattj66alrvbfg74mgsi2ush6g8ee634i2ohuhojenhabkwkfuxxq6h7h58y744fyulaj0wpookooh3jpt3ngiwxasv6ikdzaq59xr75gd9q3sk2kl5p89mgq7wf8r5rmd21znh34ukvyz8thz5rjy41vhleji8wz02x1s62fobrf9is6ddsq1k7zn3xmz5meyj35l6g34k7qiljwn2eyvw5n72uwsrnhd3jkump343juyw37zry6imo8nofw24wg2g1x7jmirz8a" "1370a3be 4e294cb3 8ac2f166 3f8ee1ba e5eb3f73 80bdc09c 3847c39a 949f9d21";
   vec "5bv7nza347nx6p92hxs6p1wvlllcreeppswkrfwsk818wp0e7k35tsu2iaaq3xicim1qew96a7lu04zr1j37tkmj3h069ruxuy1jhx57h2yjdha9tr22byyk2ynj9rc8erth520o3oyupu0qky6wtl7589uzpxbq70bmbxrt85l7y7g35lnpu7o0lxywclhs0d17stvn3947s9d5m51kj71w23l9wbgdjp8gstawve54vxajjacvfkh8c5sp2v2kycxvr7s24qzk5x061zru2kx8n8ok76qq6u7e19h86iufftherfbl0gwxq90imgxj5g6561vegy347fkzqg4x9zad619airjzq0xcrfi57" "da59b779 275185c8 508ca442 646e5fe3 e8901949 f8bae52f 620f0a9b 597653a2";
   vec "z88qrvqbmb4cogic5qj57joe51um4wihk9a181d5435wnewk5dxhg3rv9ozuvwauu47mb7jo0gz7eqf2zfu3untt7j3qydex5euu1pyorp4rpkbo2r2ucysburxh9sasg1vwukd6w8qdred2f1tlb9peit7gd2e3269tcme5tnh14ftig8rhnnfpeez10hfko6oskgfm0nh8xact3jazaq0wadnktb7y6kiycbobr1zy2sgruw72is0qfe9ay18o9zq5gwaoldk9qvrfiujvvqvdfo2ryrjzek645nqn88ubqqr2j4gwx9fncrgy5rdu1aq2isrtragdax8k80erbh4bnw375zsqiere4ioek7" "84cfafe7 73697edf 906e2441 973d83db 88793cf0 febb5f25 488b5a58 6f5e9e0c";
   vec "9h19y2yyv4ltf6bdg8cu9or4g87ticdcfx79dlxzigz0ko3amz77lic9807jcnc6a6vo6ai02kpcy70qb0zjaq7o25k7lxtxeygfchhkm9ueq5bao6mzl4z4n37sqt8uzsu033rlz4ublmz3lud01cf2jj7ywobl68gvn48zm6makk4x4szv8swc1zi7wblktkbd1r2axok07ptbuxegr2zvq673pgcsh3ikdz9hwvbizabd7sajf487vlm856btogvkighpvi3186n7qg9uh639cxwmocjzjcu0fo4v152cpp7hsuy92u8q9lfipdgbxegxl9dbo44sy1xqinqlkqdkapbw7tln0wzd3yyglvw" "2c6253f6 e81fe423 7cdfaed4 99285816 5bf493d7 a34e0dbb d7e58bc7 36752ec8";
   vec "zbb0v9rbtxem84rmin4zojgf435o4esub9hwvbnahfjghmxszeyxy3cick8mq5g8wwcozvhtuzi8jxstupr4jp5po3un7r10kcr0tgl7a9ofscrifcwizqxi4jtevtrgufw8oi9ik26mmhtfzq3b1pp3bmkpghkjgbp3dwc8dxultewph71yixlweo33k3xodfver9nscmffimjgdzt0idch842bc9tkzo65ivrq2l2kig0xkleig04ads5075jcft6663dttkhawdv5g041gz4qfjhsv390lqcmcsgu8330zwtiegxb2yq1mvuf3k2yoch470ld6nsuiimhie1nuiu0uni9795fyvlyzx2mkrur" "2400b6a1 2dc1b712 b0e7fb50 c7fa172a c8fc9be3 64fa9fe5 f8a864c7 9b0251bf"].

Definition vectors_4 : list (cstr * cstr) :=
  [vec "enjwy2ux89i7jo6cl7v4hnszobsw14ogatd2uwj7ejeetru528kikb9o70ywt8xj1voidc3mlkjfid8tq9aozqtuoehjpf6ni8undhs8zx78t5po63uqrgfk9jwbiy9ly102vyqvzesqpzcm8qxij4e7ga3efq8qxwfup85kceas1hcergrwu39e3qmt85sj4ud3hqo8nykxf3tf9736ohg3dzyjomk7igp3axmfvs0udgb385yseci5eg7ttfv4cq80h543xk6uchgv50i6t3on3pdfnkkn4gcj6mqyac98srr5kmf36nb1xlr7wdcs8wvvb4xmbid9r43rtwpkc4mi0vgh5wsimf44ol02jphl1" "a9f2601e 6071a4c0 5389d3c5 e6c4e309 2562b58c 91aefd5f eba6bce1 a9ea252c";
   vec "6brml93qj3jgqv1bs1pzu0sobw5t3e1zaabqtgm276meg185wl5unu31x69fjg4wz94gcqboj484q3pzb4bm1h1jqa84drng1ghy1e2red6b4bsovw960lkbbqdf3u1rc8x2imm3hfnnqtyc718vaczvsmagijybokd70xkheuhvpnmrt9ytv9pem4859oi4qzukdnsyp1n3yfgsbz88o6yerpv7c7qxkpxo9oc1eng73idlacpbxrt03olkddaml38clrdkv4finfobqhlk59878xk60qh0uv45hn3effp74l1fc3flundsfozezc47b9tfz06l3uhhpvrug2azn5ms5s9bfjscpzlxn1b83k6a8l" "ebd14aa3 f765cf63 361085fb bab76e79 6b0e4d12 e887af89 97e4fd70 9503d362";
   vec "jsoj1ztniugp0gxbpm0fxd4dmuv3ehyl8kf6dq1trwn8l76f6pajv03xzs23ofujc0c1joubciifh872dh8f8ffe8gn9bmjyl0k37pjh3h3v8vyhen0xpw2h08ko8yqpnguqarfjhy29pe7vacf09jvl1aphfgjpcq7bic8ywp9j6yhzprgi96zfo6hj0r9tuz26qah69pqz1e7uwr2s6rsj3l1adfdjrnn0i0b9a65shvglogydl0vh7e34o6hnkk35xphska4lnoc4zmlt1yrkntpulihwlo63627k58qnouvi7oisjm1n0ep1sdfbst2504t2g9adl6gbrmw9c7v0vvnomx9i3b4r253t2xwlqem" "0b488ad8 e7abe6b0 d3577687 d251618c f029f16c ae3685e1 675da382 80732a4d";
   vec "ku9lj8yj977guddyghatjuky799yt1y10bo4jrej353ti1kb46lrwhg4f1f6m4dg3p9y96j709myfu26bsuc19d4vh6mxivoxvl16bljtdapd9o38btyrvxssw7dqunqbhsazxilbe34uoz1m12an7vyfhc3ddwzmwk663llle974ak5gmk9i32gkqu8jg2jrjo6flu1trwxb50qsqcvgm8m0k8vuo0cwdgbh14nusrzxy0do9037ptcs19qv7cjf100awt7k5v81kivn30n82bi06ub9dutwrtmf1r0qwt56vkn5z7z88fa0z8stwp0nnnj613f81qy9qe8t0b5otwgvcyydczrwinyvagkbrn1fqq5" "35dd88af fa5557ad fa498725 228769d2 cfeca43c 9ca19908 d291b38d b68fee73";
   vec "605rgs3bthv9lbx09yleelpy4y66aeffwsuojqol0ipygz5hmouod8k429dl0vetbhimn3zfcy69lmdlkprtx220y4gmrhnxmnsdmzcptnfhps2rwe1s3uwhwc8lgdt3iaw7uy7z0nt8n2f8he5d3f2xlnur86ehnwpkcmdhcdnj28bc565ouarrs5dyeo2pousafzlmx80w3r4le3f2073u4w9ae5nay90nclbp9wbexhkqib6hdnu9sxn4dr1o43vmy11b1x9pgv8dm80olmhw4z9x6iqhh3wxxkspxsltay3e0rvhwe9wkt13e4mbobjftvlvrjzl14kvl8hrjgp7vkkiid3xt7hubxy7oodzd4vq2" "0b5ca024 1aaf3907 70cfd53a 8aaac48a 8789dda8 110b8855 ad291455 6a629551";
   vec "v4ea1lglhqrhep4pcgygyon6dpy077lsl5j4ibffax70l1ecuxb3cj98ofc5tlg2i0bo22ukoo4tdev9fqylk0y1ptaka1p4tjyu1z8lqo4bu0754ygv6pgm60x7q9mnok5o40v2cujjbrmqdun9jl56el8wouu4zf7xjxoo0ziowxtgvz9xigacepnid8xcmj7w9yjuwpvwpehj6ytxaxk1hsromp8jeubwglli8pl0ms73re2z9vx4ecwlk9m7h62pxuusz2k9a7h1z0zivii7lj71zgvnsu1fwrmvzqd88ha0zqa4q9cjtu20oa269p0i68ijt5jnfdi6vxhcvvzw1rw86oh5bgv9j4d2o6gh1j453v" "06860b3a cc406450 e6156819 95b21fe9 fa93ce01 40d2f147 fa90e54b fa5e31d0";
   vec "m3gt2mnn1739bj7vmgl2y2ylnd99bcmfss1gjbcfwgtwlvcg68s9enh8emnis6kveg6izk40feig86245u6ba3ur44ua6b07yznkvgndlszwqct3ab5e8o1wrb61pn5krdpbvcu1rfhjalf6b6oco2k60x7jzrtfqhe88r76w9vct4js73my0oba9osrxk2ab4xeyhwdfwp2ff7upovz1wgvu8tbwoxga562jqqafn86cdd4sfwe5e3k3runrscqr6c45n4yay6ii5qmpylm9v4in3dr8kqk56ntv6eij5aik3m0yv5ka9juo4a35810h00ybixgbxscs71a8x38fn3t3nd992dyvs5syy7ephl8os11cgg" "04fdde8f f8becd30 bbfb1107 289c6ecc 12f7746f a5f72614 cb0972fa 895fcb38";
   vec "xbyccx8i5umodwpm76n8urzbd5jgu1b9ixms3q2unste7yz1sctyzh29h6i6vnibbubgv28l5sshggrshb7c4dd6cgon0i4tz89z4j726idewqb9e21oj3o746lad4341837fq1x5f6i6a0p42ptf8b2aen1kja42hq4skjy73m4u08obwtsdao84hdbzf284o00q3qkpfc6wpt8o2iu86s4bvhtul1b1zk59unistb52decucthn4p1pc2zgvhsoivpsfjqso7mkyguoaoxt3iuduyyylusimdfkmv0ht3s7miokduz799jsups17z4se1lq99sjxyy3p77cxpvvxv2kkj49aksqroh0aloxw8ani0fi9px" "da8549ea 55c6c0d9 793ec9a9 5967dd70 1f7ee2c6 ba8105c6 e640911b fc927769";
   vec "c7cmkinz3j9uo9mt20hbfn8dg702b8getuwt7tw1gi9hlaz7ve7okk7edayeuh07nrsdx85o5ez4aa8zhn6bk5fpzx34lqeagr2bkvj0le3erd7rlgbagkywyd5t6lxmzyp03bh70ozh28t7xttulben9g2v2egxtg8t93dfr6jgm1sq0356swurzzahr87tf3e4vb00zxb3l1eoau897thy4kid4ri8bmjosad88pur6otsgj2p70csz0hb7r9xa8zgjioctqg9padr93u2ixkb6npu3ppjuh4529bwzrrmyl08lvk7q5lolcmp49azlbf0fkgxkv1nqwmvwfy3igd0ddzgsc6rq4g0d7du6etpt01i257hj" "617cbc85 2538506e a6b95460 b67581d2 3be2c74d adaac573 b6a0497e 603fa434";
   vec "aerrpwgplrc579d61bshor6gyhczlfzycttj78rhdibo8isnec24g7ofd7yzfhhffqnx2n30ut5s9otvempxs5tswcmqp55twfy96qyofy8ptrioyeb99z779gs74huu4jqfo66mpxjm3442u9kefbk0q1sc1xx7mp2iehzqztrzdzp5tb2ve77gqe5r90808y5psq4f0hvaldmc59i130eeh10a6ywbdi3m72acgsajmp513226mo1st93x8jqs082ih6s2d94v7u8gfuhfnabckhse1e7j6s18j1evd1w2dvw5bvjhkvmzla2ipyqms24r72c9qyybfha1731aagvvwxacl52g2xpebez8xk1ykddl2kj9cr" "d46a6ad6 4bf1a636 ca1a0622 723a9724 4cd409fc cb33dd32 0c732112 dbef9732";
   vec "pzizi0mo0vc2dcpbviqu4miukdna7mghqeya6nzc4ef741xw7j2f29m7bjburjzw6vtbdf545cunghca883bzax7rv5kcen8spd082oqttpz5h99mzviaeo7qjyxcmwekz3sg2977ic8h7liu6c2xo4zrh571yl2yhzjnctn5epq2mokvb9py5gfmnav2io7m06gi75lb03u7cruc0w6v2mwp60r334myccoh8bc0xdmv4xkh921w7msid1ntdtea3ydm5jaqkmshmtnj96m3j8bhav3s1h7wepjth0rqm1i7zptjj74ccdpdbaanpy9et2k9dh1vq870ysn4wx83lulz008esip80gfx4uwwl79h03jyvljyrs" "307897d8 73582d90 ee503a39 fecaa02a ef4eb55c 37312f4b 87a6cbd1 0631675a";
   vec "0gyxbaydfjy4z3fcqfuue87kfhftjp2zlnm8iahch52zyo9wlarti2oy0m5w52b01pbl7udmwm7c71a0n3fr6c6h8gi3u5d5ogybe7233j3sdptd5o87q241es2n03zz8ypee3kmjvg0oir4h4tfsnv8jvogsiyvzb2auskj3bq79to6u7xfmuxyrts1rpc8ju1kjbv6i1q98kchjqwx0r4cwhoawop68yb097mhteddet106ecaojy06ze79kayucmejcocfo0or0nq6h7ptesa9e2u47auovbwpoy6oklhvznzid17dwmcz0qic9ksuqzi3mernidjq9y1b8i2a63n6erklyrc6t5efd7ejxk4wyr9zqog8cwk" "b071f9b4 1433ca03 18c9c287 d5d59461 20444d34 940153cc 3bebeb9b 41785879";
   vec "1glt4fpkicmmqe1l0tu5cs8bjel29wmfo6405x346qk2uaaovtbx9oedn35pirl4mus645ydq7m5tp7z2tm2e9hxvl5p3cay2e1vp735xaulwg95n9ovguj98zc1w4lel9mls9d20y81ar448y1lmslaxvt809pp9eq4bgrakpsnaypjxuo13i7ldp44eiongidynwj98wojrv1alssq8acbwoc2rthlunf3cp89hgk2ulvfgt8pj75vmiqnq0cx3fetg45pat5srs632jbcr713rvnlum1c45519k6gw4c34vki7tz5k7m18f5kh6r1q3j14t0o2xjjxui4h8las8rbxrlhno648ypmc36iksjet5qcydp6byws9" "c9abcc65 ad29131d 89ba0ca9 2cdf2f14 453eca57 5390261e 37c06a0f ee17cd3d";
   vec "m8ub5rbhh1hmsogxlhmes83p29gzpp0vywauhxm3njpujscd2ys0a26bfxy0t2c7hsh4d0dj93sjfvtvxpxq74hkp05c4vzcxba68822z2uwmuufplb01zubrczqzlrm5hipqmvuji46ya5wsp1vf1d9vw9uc9g49xma2zduikr29p6cv5ij9syli5m8xkn8ppbmlh2hl1fqhmfq9z79spglwdemyc2ah33pggg0gw8jzx2i4n5673msrbkr4ep1aobdyk67tzgbsc7g46ktu2yc6igb77m2a7jtpzlg5zpl7jy9n8kaz7ynnm6oiw42fkqn69hquupyh8t63eiq6h5ar46l1cvmxd11hrfxvt3xpi91b4sjjq5fdn" "488d44ef 4dcf667e a5f68820 cb70a539 5aa2498c a1f079c4 c6291a00 dc7c9ff8";
   vec "rywr9pbgilffwqdbdq3b7bt1hoazkykecgq3wpvi3hh4i1ny81z392wfoash0crev93ggcja2raf57bmf9nx6w0tvas4bqyc1oep5rnn5j0w8i755xuxiie8gpzccsxrreeytzufzumf9j01nqhhffs1ou08a9wg8pbnxxnsqp3r72ticxpzk47e1uj2lhrt2uiorr03p8b3m7unxkzgegho1kze4js0difika1u59dzk6y0lw2kn52lx6qaijelrxx50mexn89qsxtajuv6tpnjfpuk19a50gyy2uy6psonimagw4jrg4wwzr4lg9hpq4mu2uzvbsn3m2ff0c9ea1acy2nd6flnii1dnwqr9t9h0a4plroi5llu4h8" "07bdbee6 3b06d84b 9842e40b 28132724 8411bed5 47364542 98ad70dc 9033f3fc";
   vec "ga6ni93lqj0t7sk96x39hh87uzvejzcmndusqnm9d8zp3gt2e40ctebyxtag5o4iou5rkrqcans1k39hj56uza98jwy80buv4i53ryf94wk1m9aeh2wwt96kfka3oywxyu6oqvsdpyz2f24bmaq7oyyo4zev041o61001btuotl1u9vhzihxab9ms48n7rjtaddny5h8askanko0hh11uxaae3afud0jb4apm1mclhyi7jwik9rv8dkbx44oxn80qwdy4ende9l8p8ig1xsmxgdrvco2333k0i3zxy7ce5f7jme3f0gcrm9iupz5ji8lbd9qrmd4owydr1gtzhf3uffhxr3wk3uuigidrg41aox9cgxqyf8fi6tunz61" "4005aeb1 729e0aed 2f58d51f 938c4de9 04a76c67 36d9a7af 66174da5 01ad692f";
   vec "kmoozuziw0r1rr3mlh5r5uh6pkwrn7svzjbvsgggh5gtfqzccmxh3uq4kpem387576q6rs8f8r8us30q8sl9lzwakifk1scdpxwvwowq790jh8ikq5rrykozl86j5n6u01ewhv2aqs8nopss9jarrttl4txubbvkwb1ptdmoubs7zetbemgmslnzip7z1hhpylfskrfl5uwz4hwlqkuhp4rasto6l97vgmvvkh53bbsjndmrfa2b3q8rp8z0sqkc3sgy2mterylyeiflu5wqdngnbrvfhkdjwcbgcpt4baxllr0rtqjluss6jip1zebepqphmhwzv2fdsh5lte6eogggzuwzm54rwjpkfrz2jzoph27fh26ph6gynu3va" "69da74b3 7edd78e2 2675ffa5 e2eb223a e5445885 a960a13d 33b4d934 1ae3a176";
   vec "ziv2j2hdqfnzd6mcqsr1ywgkam9bzp5ys4izwkroozgkglpd9q1t17goadzjauam25tuywje9gxggcn0or3zzs5ayjmzyrqddefn0j2lor8xc7h5qimshum6crakqsdx5xdzl82jpi0n8spjsuxxgwefl9i6ufyimy80j7i6webcfsdkqdpw8kerkhccbut1foryelgem9c537qsnsam224joisis0tegnm975luecafhdmnt15x2167j0a0e43a141v373k32ygeq3sq099wpdaynq1w3heq7jkfnsri2j3qgf4t4j2x06dkaig5106i8ixttd64958x8fr04asszlejbm7joe4f5ijzmw04e37y51gj9bjw88fg1ytcz" "f5794cd7 bc65f784 77ee864c 49e9d731 45c68d9b 4c17a16a adcbf69d bd42c556";
   vec "vyg8bsy8bkl7v7ylnkn5f9azxyn3sg8eqjsz35abp7795vb8t2t5uhp35b82hbi46t4pqphn7czexyckt6dntqwzapvpzs2wp0y5zkii4txu0biz732uy4lflmk21f06g8y09f1vke392qkngugabrekt72l5ejxhn29t30p7eyyou6ni7ka5i3942xxev5j6afkb4ryraa5ed27ln4t34h62b8tk9dao9i4kzu7w7k1v11rfr317xi4qi3jrv399kug1oy9khfuwuve2w1iodvvnfi3xwlsrz716ulsw5cbc0i9v7fwz3e2hrwopgwwnsl51vugxfuwxvsuu5oullwm6qycrnf9n8tmx6zphon6s89q3hdnt7x4hz4lsws" "d70b8c4e 9828cf43 e00d1771 43e5caaf dd7b8260 5eeb80ce 4b7463bb 393082e7";
   vec "b48g3yem4h9oawrxqq8pkg8hbdagcubwpzqyf9ik7h8o1jotnjw9zde9x665zolw0ockub5fk4cb5f1rus0tn2t88e63aljkaw5pec6nati2fstqy9h2c7b5v0sgbeytyep9mx77jlgpiw78nc1rosaizsft9id0hjkg25pp1nnsojevvzsd00oqyf5e6byx570pgfqtqckd437pp6iu6xaobfx1bblw1ysmzt6crxp1y0x8ei7yuq1tfou1y9d0thw3xhmooodnn9scmqd3q0vwmigfs3e8t6jp4mlla58o0f9nq7aw9tbwt8iw5liojo6nendb9z49nxfe8xuwga0gj9gnmkl3cbrmuaykceysae1vub4m4jpfa12vklkd" "d6e8b99e 9321faee 94e3ed64 dc404020 9386aa35 11994539 a565ca67 44b8216a";
   vec "yr9u8nhjpzsza6rdk6yhldanxrghzskl0pzav8buuomgwl2afph8r6n5tegwljekmdvsyarze28xrg894zzybhmefe3lqcfl6e2f33jsfm1zkk1xvx3o1sg1z7jqe055capaw0gmadef6wjc4f8jk0a0gxidc03ho18tfpbs8yrmfzuxxq63jjotva1a33yw9v8yz5yp5k0jrwiky7twsl4vqdjoww29yhvlny3qp9b0i09s6rnq0dx65zs0qnvbiwgh62jh4mcwb90wryrv7aeu1o4qu3tyt3olgu62gcfd9kvlg4gkm6o0jmidh1bjyp099mcdttj6fb0f3u3ft4hqxa17qpjp12ccz0r6ijy4ad901w7mrcsf8srw2ktwa" "b4033418 01307e1f d9f3e360 e8db60f8 fdfe4677 6ec5c711 438a3637 64b9e2ed";
   vec "a3f8zvq3nrbkv96pbsn3jp747qgalv8uii7gde9w7a7h4sy3gfge3j6vs3vx28rl2r21e6tlqwiijr8agf5riunucn72qaovc58i41u19wgbgwgk6b6k6ia75gqu5amhuje410050mzd1a81hc5c3s3m1ffhj91z86lw67ubov7jnfg6gna20e6vz2yoiocj6ibakrxp67yh9wkqr1y6j0a25s42pjrojyoqiiodfah6c6smstdn9qlwdamedt0rkutwj3en1nkkwn6rlvxklgjnjox1k3fkrotm34f0aqb75xmm74fyvew9lfx02x9dav64i2rzsb4xidf63emhj3mdv4kk94wl8oy400ajmyn4fw3m9c4a9x5eku2q1qsze8" "39672c1b e6417154 1c53da0e f1aca24b 9280d189 7d9550c9 9b15be49 abe529e7";
   vec "4jm84rjhxbspeb6gbr54k0elkhj8y175iejo7chemda8ebc86m8oo1revmg3mgb0limp25yyl2x0u3wzintfu8yhkxp3rvmfq2v3sgd03of3p46lq59v7156ewyatbeknuuu0dkx8itv2mknidv6rnpbfi5yy623aj9hk05xbrmwr6tk1oxt5f6v5ph1p5ent8olsm644kt5xzrrqy4kfft5llj393x0k1hkpwt397dxz43dzg2tqw4vdn137dsabjls74prtquqz3fjg0chemr8226p822ad4mx4lhk7grbty8tn4lvhjj8rhfcu1z1wlvids4uegz8imm5pjjbh272rltw8t7fiojtuzxa92ftd9b8he0x07ipalemxzwoq0j" "af475df5 e0c43fcf 53da753b 9165608b 8b6df6b2 0c9a5ca9 a8338a4c b689bc5c";
   vec "lljya0ywls3ch5477ju8s8lgjjx15rw96tteltf85xavz5qkn5127ulzef7t58kvj0t3htd8fc77s9ogqt0vafnmeu59hlxyuonad8tpr0fmcgv0jpo7i51j0yd5653csstsnm62hgjllqxqnqaelrah3ptu9bvqmvhqogj36a2598mqvwpfxykops27dbp1ci2hab0xp8om9wmb4rw5s8z3hawlax0hes8tudy0ggidyh7zhf0vq6yeyvgv6kp4ny8w1gs5xrsk8yxdr6ht44ov256nvnmpy2w4ku42ijpd6px0vhdb7oigrvazr64f6slo0h02q6bsxwfu9yhqdxa70enxy6a3dgz6u4lga39qkspyh7fmrbocv528br6r01j6" "111ffcfb 53f69c9e 4c623416 242807e3 a15b35b9 2e5e6cd1 bb0ce57d 3cf52e06";
   vec "71zvxqw68od3runi9jpngivlnm0t7czc3ax0ab0i5eb6vj6l7au4gbrztqgrmmxbzlv5bwu96np9sjdzx8bq5cg2gmy43picnad9gqx06qvzdh8vqwz49hy2ghi8fh2kbjf01gucj9zbztcmwxphb8n61uxnnz6h9qawuj60hurzqyp9ltezriyhlmkkzth50nvbt9z3rjeppu5lw9ti7rjg3rl173cj5wky6n0hoz8u6mm0d8n2g48zhmesayfczmvgzi9lo1zwomso32ajx0d7vl0k28kn6vrshptm3t9svzsogmgjfxf2uyzfgzejewuvwjoqn8zoih2u697ib17w5qt8j0almje4nnaqwfwp25izcw7cazg4qdc3l2jeqm9h8" "7d1392f7 c3fcce67 f30fd7c0 3dd4590c ade3d29e e7ee8b22 4c2799a3 7c09f318";
   vec "1dulhqoko62o3gah65pjoz1t1cj23b3pzqei8myi1nxcz180wxh08b1ie91ltgrb46fpcpdra61ienfmj8k4yq2pmqdsz0a3kpm4qk8ls1zlobyo9v1j5xd3sl7b8exgveuvetfy666l5uzdlp3ek6ardh340gaofk39mvvj80mgznz7m2rgi1lnrlp52uexo44797xvp68jbk46kptqe16tkev8h7vbcbyv1cxtz86wfweyvu980g8mcrz4iqtko32oa7j8gr9zb4f4cm8hix22omg2khfvjn4cx1bqf0v3vb6vt9fwrr8vitim8u5h1p9i2d6mav876rqd14kjpajhsap4fi649ltoq2j77q6ri99d6wt9j3dldbv3ew92f6flz4" "8a222c3d c676db4f b1cc1f5b 15c5287b 85adc38e 99992da2 58a1184a 31cff96d";
   vec "wb354e3kk12ycg0c3le4unrcuzx5f4hf4hnqvbsnwy8u1iwxfp1548g25fzu1is9t3s4w3vmtcheblkct4ylkdhivyja357m7ifh43drmbxal24ve8a7fncz94cov3o1zc8luqv706fxvb0kfkhzgia94o7hh88wiqd11cbzb9m5fbmtdrr85898zmdxveuut5cagn1j285puxbiz69140quawxdqj1lf5li7rhwk7ixj0h6881ul4pg7mvx2u1iy3impjaa4l4g45hru393ymsellkgieok7cw7fh1t5v1mfcs5uykkud0qr68ktci3kpp594l5jlelqqk7j7dn6n3zqtktc9lio0nks3yzxssu3uissbqq4hsuv8416xof0ipetot" "1badc128 878ed155 fd1dde8f 7a7b2405 14e59294 eb4e562f a9a3a805 751e9ba4";
   vec "ft9urcgdja75x4pz7txbly5qz265umvew83oq98eke39ltkpchf1evkti1s6d0r5f7sqew53o3agee783frdvhevppymn18hlzd2zbl0b7e8uxen1q7ugb8u0563tanrbqzcgao4cvhtbbbyk8mr12j8y4dp50k3fa8e9f931hrwikxi1skt3knd8op2opvs9j66mlxpf0qc12nnidvq7y92fk4xsytd4if8nuyx5b9g4zcjiifmgsmrpyjowrwknc0mev4qg6ekyr2k2r8di5m3wnfcon2b14p0cvd2klt88pwsb8mzcnlovp4icw7m4plmumquplq8kw3xd1lpy3un88q1xjuuhqeu8ju4j4umydoy4jgdkxdkx7erifiqau360vzs" "c7b05550 d4b6f293 cceeae24 71358267 0f5613dd 3a15b315 bc5e3372 52d40ed6";
   vec "gqq4a9w35jkhf16sg5lun6yqktvkzo669h4pjsardll9hk6hno6cnyiy57xzzrhej27s6imwhfkjd3pu4crcp83iokh0qkka1wrlxbt59bpfmg932nw2t25iy9pvcvezqk9z0ez45c2azxjb3zel4k76gqthb9d7klj2qguicjib52jzproy62fmmbokf4zhyygothmx0n6ddl8d7xov1rdf9268za7zggznb9n9p9l3teiqaegr5uvaglr7mpmazeop7sswmjp00pd0n35v3b49xrohovhszr2yp91figj66233o1vq6k47u9dwu5nx1no0g4ip0lbbjgdv2s9qbgwi7kojekxmrrzds6vh5w4nmhcbvpvhsv4kaf1yeibxfk924hvyb" "9af0ac56 cd96c4f8 f45c0c59 6d836efb abd30b7f 3445b722 b58dfbb8 2fe46d8f";
   vec "iqcnneuot0v5kmrchy92adcgnjziiaee1k7jva7vjb5dbnxk94xn74oanniq7848jklo5ukf657hqhnbtb6m30hjgvd36dx5kbd5h7jwqpbrcvrhr4kyi163b2hid6issjlbu0yq943tfb4tit8igoxgdusgll1fo56rcifb4wmi7cb157b7gwafdjpqiof6vu94m0h034fhfirnp9n3odzno2lmnzsfdxx7mwcuhudvwmgor0qenwtzenl6u0m3kwkv45wr55p63xfgkauudrvn68jb4gocu8bofny8rwc0f8kdh3pyc5grk4gyrthzda5kljd1vnictly2yyg53ykp3iuq23ym9p8w7j0sh3bhxkvi1sybe61po39b2q3i20vb25wamd" "ecd63dae 5c9e760b 4debd901 1adb818d 6c78e934 eab34dcd 26c6566f c8ce6517";
   vec "2scq6p7elsrcl9j69pny330jczrz9h3y0lnc3sh7p2dqa7g87ec94ao0djgwjc655wcc50czdsacwi6abmtu7e3dqhffybvwcofv180nuhhy1rrjv1ifu7vowm4lqdn18obwsraz9ufqbdq9xre7x6iiorup4d8mcxivj2z3dal8ni58da7q9onxvdzl2ka9zgd3kst1koc4lj8f175ofvw6dma4c5gov5jqjcszror4gnl18kxvs3fcgok9wrgccd1mkvjluxmvr1fa1rxjq2t46qxgoq1dvuep27ehnx1jyp9kwsmb25mm7u6xc14bgu2zparu77tqoda71mkc16vhe193rtsa34yxs0kqxijpwhdfo98lqccsg32iy69bmfijhulkn9i" "78147b5d 6c7ce2c2 70741043 9e7acf75 1d995f9a 3599d4b7 046bd822 43b2877d";
   vec "exmshpqql2qdfah2cyvb4skim6p9y2qjmci7zrqoh3mafwiozfrl298z7g3415en8zufh2ly9ml0dur0dmux5lrjl38prr6ywvc2anho3twq2l0efofgz7pnzhlzsj69r78vnvr7b86txvsmfe5tlujw8fwgk358r9gwqppu9188utt5rkcknmeo7tik5to7hcznz2dhwwwqnih1m9qglxegj0vfq9ttjh8sd20b2scl7fezezj1nhz5jve6otafgtew0i02j43hp9fdm50ygoejbe4nsj8sjc6lyi0g0bb61jzrj77nck5jbgpchfrwftzjcyp2v9pa86on6soubcwz3pxnjvr9r8svjx4qswmv1gceccje1mg94s4xp5wzdzu3tqymuu5z" "c8c87b65 2d3b965a be5b1cd4 89b7f9b2 c477b148 69f9b16a d5e2a943 80815b91";
   vec "9yv7qt4ab19vnt8o3iwq46jk0a3xdt5im0oomelgneyrnwyy6wfp9xmcqkvuj7amlhbg8c5uui55fcssuymocmtcy88gup8rhzar57bh8fc516e0ht0qi8e8ub0r253pkxjor5vgmv9f8a7vfdr2a0ou1adgc3lgdfdmxaukr5d6wx4icw0njkneu6pdvjhjlng4hqqm51dte57u8xexiyrf1pe71xvweupoqmqmeqlykqrfqxrxr3e3gfyjmvko6cxmu7w9f4c7jskf4vgnqaj59jml5fij2dqcv6jcyzy8tstgz1j5ebz236kiggekzb59e7ts1kj1l3ejibwyt97f14xx91yk0msq12mq8r4g4ffoyw6fzic7q5rgnj76m4kn8szsea8oq" "03c8c7ed 16ec8632 129569eb 4e08fc9e f36447cc 0660216f 3ffd1eea 5ae2a317";
   vec "o55ber3ws1z1mcg4d5m0b4nvml5ye82yh4j7kq1c02webze4s5eda4x8pqu433usiqs5ddf9abquhrl8rmmhbonq31bnhj6beq66uz4sd6azs99dcwmv4rstnq48l9a3nk5mf0bm19mr2p51vjnzehaumnkwke2pokm5g68yuf309otinsw537jrcp2yrihco26zuqmgi6yqcl3utf6um8ix7hx6xn4h2qrk3isnw9wov68i8hlqnunu2hjt7xmr17o86g4evlm9u8tjttyeczwi59fzmldpnphm2i57i21xwbp86na1s1jr0mswyeezn559guino3j9618v1o8euvv95xtsqv3wdqmwwq9h7loab12aaqlk986z2nerkjvmribh0ynr5pub7f" "e6c97cc0 93427b71 ee5d53ef d282061b 3890fd7c 8c7ce3f8 f5d880f3 13b864ba";
   vec "54uz6yrzshmblpkeb2wm1u7fzda5rxzyjhcr474jbo7980m7f1ok7axnd0tisbzof28m2r2d1w27av84ir5capde3prqhb2rfotbuz9740zokjvckre8p935demtvzjma5wjqindi8odd8vpqf3urod09mqd6dlw0e9daiy33isq1difebqwi4tvau0w38fpupsxlj0ercyg2yatgrgtbjzscrzmuabgvmhiraw0tjkiw3dqwxljbd1r2nhxpmt2xhrpjx0zmw3q9726hjl65ud716pc8wzthnh6kgn0apo6nlzqmbe5ypvkyt379m2xxx60trolqp76ljqnmc4i4njon71sbpc2emiih9x7eu567vnk4ikqh5z1t1ks59836v2rvhmuziarzrs" "2d57d3fe e45cfd9f 03b75f2d d2377137 7f7ea1b1 797626eb 407a0350 62b9d9f7";
   vec "7i294cw5sgk2kincyjhd4gvg2wnl5lxfmj60hfd9y7cjmlp0g4x2bu7yj34wvgmsv40b6p06f0n1gbmmb0a85y96e41tuefmy2sdnquak5at3vr41q8w28eggfqlu6k6gsj8ng1lo32avlzkgn2t291h2ro3uu5i1wxve3bdnm9eoihhq197ghdqxnjs667mx8333j7vb9mys3uajy2qwd2kl13rhcgjhu81aenp09qcoxf4c59xr3gnniwvd5bmbpw0t1le99leaydbsq3znkk5vr52rrrloijqijdk4iw78vseujmoby0xjm6tt6ld9673lekhxvrcspoq2xvajiz0nkg2t699qm4nvrvt04z23d22fe6zppmwxoc2wcgh8isx49zggz9pw6k5" "6f372a19 cee8853a 3fc46460 ffcc29de 5f9e63e3 26e8a0f6 d9ebcf41 f8d4e692";
   vec "qg2b5fc3fs4bvcaoyasspkip3jcu3gl7ias75dg8xpxufqb18hek9gi3y1jqdz4h3xwp9jiwt3dwzmq0fe1a2czjpa7wqgghk4l3w2p71dvkkbl00ixxbxrav685jm4temheed8ozv9fc37pdvaknsqu3ylt6aqqekpqnicyh2pdo3wdd3gfh3llkmoazev8izam2b8clnu3y444yrmle4tpucheasy84vxvwet9xvrjlkuphwd67flctu10vmsiivx25nzxf34oik56d3mdncuit6bqtcs5tclqq648rznqx1xh6m10bitd2ty0c5b9r8z7dalwjbx0as9m6m1ht2offk1k093jd57jfb92wxajlk0l9jndcwf75jzrxzmcsj61thiidr3i6k3i4" "1a704470 1566ecbf 58cfb950 61ad27c4 4c20202f 1255908b df6b5005 3f9abed2";
   vec "4zkma47eszrhjbj42fkyf9jlcoxwkk3tinaea7wpkmkdpno0qw7ho2fyfml63u99muu9oqjg7qdqcl9o75mor19kxx64twwdbszbu33wri5lu93gbyu9bhlmktd5ol9iq04223kri9cttcce3sxwd9llvyypxabunkcbvasqfz1j3rjloqsqq9xs0u1i9oont57hwbja47ylewy2nijefmb1kng2xiai8lf11qgq0axwn2mwjcjsuoz967rz2peosltkgxcw6n0z2hgmhvhldt6wcbmvwfe4on0g950ogsujarw3dbat8ea8rj8xhmhyzt7r2ymf20pmakzsosd5px1e0hap8d5m7ts2m484t3a1l7d0bhnshakjohqhov4p7f7m8evvrcai2kbqg0" "c8ab1b46 496f28d1 1b19f9af 9a1e9e5c 59274724 75030283 edf4c313 56466bd6";
   vec "fmhdbfw1fme4xv9e7sfbsvngsiof9k14xuvsy0r4b8ag7euavq4hocvazx8saqch53t41h6o6v167bj969z75t89b54px5du8q2ag10cxqb362wawyc4zew8yyf5q7ej4fjfabcsrqeqon6p6fzazcn900gsdvpl7f0bx0bj84u6341ulcrvw0x3encrv7kiwk0k5k7lgo28f3j0318sy0ha3tjhc4jv2yg8jotjnbw9ii4xour9s8ax6uphsd0gh614k69rtc9w8f9x40ud74tqs197pi4neikq8af0bm9175mbf3lvmgc27ykcsgplfdcls0294rks4qux374me730itlhwxxhgbs8ncplbme04n60qyedtkdbda7mc9vo9zogbt4jwj7vrumml48" "76e1fd4a d9d7f785 5637a6e4 39886933 62044c84 44476c3e 514482d9 b12f095b";
   vec "h085aubh4q28u8lsb8ztysrwqu948qbqgmf3okkhjugkz9cf2teyjrynns8gfwf21bvh7ksr1lbjtnh3oi6nclhspyzmblf6ujsk0ezoa39efwpwhu9wyjdtp3ict9p8z08lavs86vu9t6n7s0jo3oo2okgtlh1hdudc4jpdu7bvqnhovvpksnaubp6yjmtcve1cimqmg89u4popdg842l58qgq76elmngvgwf2016gahki2l46q9dq5d3lha7pneg0jt7t3okyto112jgwn7isn2aaux32i3nphhl6gbci0q24lenkmfkloc0b706biqja1vzg2chyqrmr5c572dkt0fg45qo26dvzcm281czq2bp70tmin9mg5qanyrmsq5hhm23c3t03uu2eun5pe" "b182c165 98acd27e d988f1a4 a74cea9b 937c8469 d03ef196 fcf040a6 adc5666b";
   vec "u6o4tgu8qu7tvcsc6qpz7axrhgs7ofjdu8loji32jm08dmni9ssm9gehc8w545xyezse8ft0l4qstjz658ztge7a8hmv4fzfnoq1drw8hxkcks9qdv5ztcy0z34vd46fcchxtosh3i626gnf689eef4feben5wtu7jq1gzpjjjh4rmzlddtuxkvbmi79md8skix5qfxmfsqd806vvtqd7paxtl59qzvcmojapbp8kwnx3pgh5ezim7fd6v1xvpt7dtbdowhcziwurmrtynvmu5z64iouv9whzjbzkmdnorqkgvtd1iohmmw0d0rp30j6dri17abb4udtga21cwavq16bttxpb6t6enf6075newepejlkx2iir6ir7sfutk1w3h8cm8p8nm8o5zojmw2og" "bdd42bf4 935d58cb a21f303e 135228bf ce776e27 10084dcb a8962270 ffcfe315";
   vec "z2q9ii1vmalghj3jxdcdjb1ml6l77sokfmp83mmwt2mnfxpyecq61gpv9gf2kvwdnf8ru5bvayfnf7g55imhjepbmp3i2rvps53kuys6z2jrvy2eek40izafsk5shepv5nb6cxqajwmb8z17q14asftnmh572ns8h0mrky92zpf9pmbwprj4ib6k5jk2kbdfs6rgspu5c2y1bmqn399ek3qnf5w67bfctx8h4yo48hmzt64g97fsf7y3atqg55rx6v4qpoyshyczmlg4p84nchtrpx25898rld20qkize0xymmf0fh16a0i8nyux7p9utfu3bv8n5fhxgq88vc4k8ttsob0iynn5gb9kvq8n7vy9tzsleqx2mjluzzdrv8irg1pfv9kygmn89g86dohkl8" "9702f10e 4ed50117 85f75f78 0aeeb2f7 f6c084f1 39a2dfba 96d466cc 6c0a8e4f";
   vec "ktcjbjft3eyxl5kcuk84221z77xmfrkmtxcksjr5ij006lb59fu9f2y94xbedndwvayxdhmqghstv1eygqf45v9z2fngl3yjaxml06d653kjmpu558is9yja2eghk44c2x9lismkahmoj0v45dpxfcxzho1ad787487zgnguw0xt63twedugwjkwx9dd60viwidszqrb1vlt8bzfnr47we854munyjssubc9nkblrn8ak5c4dhf8zim9dk551xveeodcky6p2yo7lhxx4p9mrtxq5fl6bnunyr6dpt0nmwde7xuq2jkwp514r2eqyb7in7e6mziyru1wix2rfke9m6ikjgiogfvtquj4c2y83rx58fx8b9tl43z57w0rqihkehwtdztl8jz60whgpoylvw0" "c9ed9c48 e7060a81 c6a3daca 26fdfab0 dac75152 9af6b80e 49db8628 c16e8fe3";
   vec "pxxnc8sz2327rzrp2k79n4786mah8e6q9j8265c2j6n18lty93wx0y3fvja56j2my0xqmzl1qjhq4mav897l93wym7y2zt1x6an34o0csu2gee8m8grlim9dwotvyn9zy19bl145gdwtxxxu8j92aml18wy57l7gbk1szppvikcj6m8ttkrkfbsz0tfpzrlqk58nxijcm7ocng7vdrqzm1i9mw09ahfguh5g1krwqtqpro2hjcs873pdgo2kswjonx4u33k6xkzf9wmmgcg3v7lufjuet7npt0wds2k6cjl1kfjfth0u8z6bbgs8twwq5slk8r2u4xmm6bsfigb04iyhtsryjesnupmg6j54xzz8esxqbnwith9dou1nmet30w0ln4jp54a6x68ukasmghdy" "fb378b05 16bef6ef 5bd1b244 0eb8780a 9a5891a5 afaf2664 0834658f 2da66a4f";
   vec "1mcc0hz8vrcg6sm5aqz0wo3pwhuqm4qccn71ni15zv5ajp5bfyfej1d3x1s5vbcji6w3rhc36l23272i208ck3yqmwtvu1jxlgpmbtgppkg6wctpmw6jh4jcbh13ig6ygzjabko39ytdsu74v8smdpj7bp58sj1099vborptnwtm2vyn8htafwz9hy671gkolu8514tx6mqgbz0mrrrj3lj3u057qj5hcnqhoxmrhsac7rtrpkz7q5ncaxytd1m35ied00ehbav22grcctog6wsngg6iu00cli6bfp3ehxh7fwf8gvamgz5wak2wntetb7bkoas6xmai7qs7462wm895wpnvjjk8al30tk7x6fdri7nqusobgixsylo42fu0w32q9f8myfubdyitbyphczb7q" "f0c6c292 18bad592 17757ad3 378eeb2e ec12a8a6 921889e6 053518d8 baf0911c";
   vec "c1t9hf0jqur7dqmxmkftl4s0gmeq15docp6ogdpj8jyq4w0sua8wz04jazgtpxx8rn1ooxgktagepthhdif7mcgvrkxaiglyfklyx5nyuomzajed52fb38wpsq40lpws4fcb9rrpau7qzr2xf982ukytkbtejrctxetwpk5yflbh696raqrkir32hm0cunltxmbzojieksflsyu9g84lcm4kjteqp3fjod9yj2n258us6vf09womlhaziw5szh4hkjrmrgpgauss4mhn5ck5z32shbh3aqqd3km962dyqqweflltz8vt1ehmuzpzwtouw3ntdaqrx0lvmby75r3s7dypwlrt9zl8t03oxo9zbteendctky55vm0tl42thc5q65hntovzpll17mom8yma9vmhok" "7386b943 b5acf3fa d9e21a58 2437ade1 dd5f8ccf 7fa59d8c 49a186f3 52f70211";
   vec "7g6dbobnxbu95dwojybk4ii1z25wn35ccvo96pl6vnym7xw9lo1ife8t43tif51ybjseumbu66n8ssfyf5hfufkd8thv0q1m0bwl1fppo75n428quasqpfujjy4homtex1inu4h9qy1zpgopwrbfkvnxc2bnw3pxp92j8uar2bndtnx7fsul7b99qtczufe89wje90hwz47y5hc5emydwtz5q6w652u8dok2p9svzfwrszczywt1ydkrxo77v08ioau34yn86851xwoql9q56uhrsplpfzjaa0eqhu699l8tjw93sj7lk5my7uf6ajmgmmvcodtayg0h0ikjci71gh9peb9xotmwlhwwssn4lqvjr2oufldt3x0iupj4o3oy2sinuo22809dm6nsmmdt4wfeajo" "4d99933c 3151e792 2a25dd45 22e6a027 e3715872 ebb4c892 1ca9433c 229526e0";
   vec "qg4ts2wqr2pst3d8elm7naackujcce3spq5xjedzskljazweeeia9ok0pr4ve5erzywt5t4exijk7lvpq6p6l8tyaxvy5seco024q1b7wll417th55xz61vi63b85zmz9xhec29me2btd23mddpunz7fcc3tfbv7eymm3fnmsud4rznz5v67xckci2kjox784ry2jllkl56w28dnlo8bd04brrlt4l3x9cyme8ipysqakq2tp5rt3mk3ec2tm6ozedcmp0h3m5x8pxlday8vdlqlnrdmtf02trueyw6p9xqpi9jzuqu08y1w3pauu0zqrsyklngh0abknkxar54od21p7fxerw0myp1dyuienr68yzqa6zl2nfbgh16bkkj6v77oocf27xw8uwq2s0ncu80fchat" "969ccf0c 030785df 117058f9 337f741e 295dc0c3 18e0bc5a 04e052fe 9dfb0dbc";
   vec "ihwtn2pz2057a7qavmka1g2m09twygf36dljudyo5a85c99onlnwohg8ldkgg8mmdnjoqxu4uhlhzvlh6tmy5a3emvj81thg4ih3lhqpftnd1io2nnxfl3anikq20dsvgo1kqmqgp35tggdq8y14xl8o4go1b9v5m6p040wur9j8l0u6tpi8jvtjuxxrd5jtkv2yfho4iyhvfky5j1y4a3ybrfe5nrr17m5c8bb781ykewxvxfmr5vay55k046weavtodri6yk57i1ymzy7z4frruhp1k8xmgei7ngz4815tl0qpaedrdmkcipgfz4navbgwuir0utcfurvk06ocbod7dp09osd2qoip6wbhdh1whj45kkagmnrdh6531tzoa66vv02zqec3amxn7ioq292hamqev" "27b08f20 9a6a083b 5b810454 4524a3ca 2c96d9ea 3d7a1a0d 9d842fd1 574e429f";
   vec "dfoe5c731c1c0o3dktghe137b5m59t52wenwh7pyesosbxqdaayrzt6yw1fsq6dhl99rvn1h175cghfjfl0qc2o6b3mj9z05hnowm0ex4dc5mawyhtr1xakrtikz0arlluf3sg1vsnmxy7cocfgykiudkcsljwt1vp0hgdhdqnp7yinw1olpnr4hqm09mwuz2z18x6kl5t0dokm7sktntiq54xpx4t57x6ponizdgpzhfh90q4bjvlpduor2dd68aphcqy93nkv1fh9mcqedjwizjds20bqwmbfcjazsgwf1d39w788k7k2tuekv7wwuoajecb4eodvo5ctmds65xnvg1leiptk8l9w3xadtgbg5j984ancx9mvbauq7jxwxbu8h04s6gxwyvajab1dvka79pu6v9f" "b3d625fb 95474b66 6d49159c 7a9c05d8 18e1473d 113a2658 15fd25e9 d90a61a5";
   vec "2raw0u1sfarzzrot7g82zhffef3b9u4o0auzhgynul7ze5wh4jvbk0eksr7rwo7cq7e01cpk4zp527tuv1oxh9xuj5pc7s1a5vljqj3ksrtpbjwvuvcqkfde1xs0kvwlcuzscsfqpvf6eqlh1vctute6qlec9e08vupbfuwqg7ps9a6mphh75sofdci47cnm32pl6ysq8exf10po6cym7dg3ckdsblxcotqx370594nlsx1ve7c1qxyyk21fzxmummpzbs1gtdxihpivcr3z5u3xnx723rbg9k59fugi54u6ldfwgsinsz045wucyk3idbf6t7j8mp9qlje61c3j23ui17ayevwuqb40bap09al4xgsaqi2bv1q4dmera8vuhth5ay6nea2egzsku59me0scogaha3c" "45b0231d 183613e8 1807395c 85e20780 141ed27a c5cb46cb 82f5bbc4 0dd1ee26";
   vec "3lj8obv5tyq45478dzxswq2hbyjj1gj85hscyaahcc6dsruwcz9ktfmc92axcylkesqkpab27m402jlyusvk90tj0i7qtnhtvue8n1uwfkmqpmsif24epwgw6plntqoodvxsv0hljtf3n80s35v7lschbr7cftlk3hw04ndc1tt6xftfex6g7ccglpq9u31sgsg4cflyszpc36v5rqmj3ego1n5q1f142qmztcax7jdkypfshzea4p481popl6uaaic6uwfa2dl8dlwce2txzyairy2munndsrfwoapjsbcouqqf9avqlnqx58ucja33qvqywznmroyzueqm5m8elut6jwoaony7ywk4r9pos1p1raeo0nst8uwfxfwfx3bnzadllylva2b6axvg67j5vzn7grr9x59y" "daddb467 b009a3a7 f6bd9e4c 716ccd1c dccd3df6 5e2aa6e5 2f1c21c6 4d0e0928";
   vec "wki818z94v1u60fsvbwdielgoijaqng03jpvshpya5zqxu73depd3gcxinrkej8f2cdrqzhnq9t043tq2hf2a0t6pjhiv116hvuk1y6ptpq0dc0axikwv60lyyo7szpllk6iyuy23zag8crr0rt78j7jxrhf0p2sur831oz2jj7n92ew1jqkgeeb5of914nnwlvperxbhbpxtknih1lq0452ewduz44hpt5dyikn8tanzm5w8al3u0wkkwef39fosm0vil13l4hdwl2jplcd54xfelh3jk3f8ljvh6strdwj4jvhk860ii9yixr7gzgqgp59ndvx0lr13l9wggkms6tl58yur1lfocesyd1dk8aw0i6q4xw8cs7hw7p7kpaidjsgs5i1ri0cgo07zukgde400dca2ob8t" "1b1e0637 e41526f8 68548d7c 16f86ebb da8fc4c7 f9c5e886 85881fd3 b887922a";
   vec "pn4idyv2z6jamfpx2pkdqmwm3ukfh8lkfyoivmrqd6k2kbwo1ilewb7nan0lleokkkfc6uur6h4d8ss4b98ug9c7uw4z8z3i4m5nlj46tr7u1z9pajagipgbi6o2nkgll3k7yr18smohrrqbz655oznibwu59ll66n3wsyxnbcqil57be36lbw86di84lriv3i5qi6xwuke9yn0an6ntr1y36nzvltah90uukr55fx3fmr6ghs944p89fpcktkz4otdtjcgxx57v7d246pkhkeeejfsy2mk2da9w6kjfkp29hsduiuurk07m7menho7rvi377knrmel5vdcwgyxbcmwpjg3jqob6mdvwn3gt5w8j2su8vybjyyhrqq7iaz7tufkjq7lytyl8i0o7bsrc95kk89hr8vfw2x" "2550a99c 2b0f1f54 5a021b21 763accdb 68fc1fa4 36f24f48 e38caa45 8b4665ec";
   vec "1pnspxlqly6rbhk2jcxga5zfdygxkbu5htvd9dt5ab4tjgtqwn9byo425ukvyclailu6kuyt8xai6699h7qpitvme5onuqppud8lvj2xo6petnn9zdqixwowoul5msj0ix569cysyzcg8c958pnpdru36zcohg2awrrqfdovl50zyk1iom1t1vpgdnrblmoqo8l5khbqur0mh06n053ug1qqahj7w03eo4465sz7wy880i0cujeujm1jta7c1p8tuzkxih19320tpjco43qq8wokpxvoakfga5s9eic98o52gd3q5wyah4x4tvg7i9pi6brwz0gl615o10mumgjvt1zutxx89f0jwiuzcl51y48jqivzbew9erq85p3d9qdnnimap9e9n94qcmudux55ex11kf6f1cdabiq" "943fe444 a61bb349 8e136574 c9e8a971 1e410707 82e3894e eade0307 9471c305";
   vec "t1cd7sioxbgz6qejb6tmanudt63aydkblxy6zbqsrjeb57gkfbwkah7sd1hbipr7l6rkn8okwvdzqr2roij2ovxh8xyha2hwszjot643alf5mbxc6epvx77gxujgrslnljt0qja839z2rvjwl3rujoedk5nv2tmpuypn1yiop2jpxg5ad407iktmw9dza3niaqwzuz4aexvrb2wryodtd3i61as3sxpnm9ub8wdeaxxv857j01albpu2lpl25a9miz2h536oa5nfotkq866dq2a4c6xivokr3ctj5mhbsxher1fvlxai3rnpm5qxqjh27sb2aznhgbj1vn63ezqnj9mtzu1dwre4774iwlnfuavg6d85g5gw8fvulye8wwlm8862pbgzyg4e1emds8ejzgyljjbqehlg06ab" "882c55fb 2340f5c6 583106c1 58acecbd bf389350 7814dd2f 7a83afe7 0c071426";
   vec "lfi1ijdv4tt351nqcb4l407dvurvyohyaaglajo12d9fjm4ji54xsqlu109tz3ndq4fz96toizrxrdpzilvwb5z8993tbqq99os8737vvuudm3udhjuezci3q64bufjombuzn2titq19itkefgqv84cgaksttk6f5t8j8k9attr6fuj9znzlf5pkw504d5386vyqo76s9fqbh4v23mn8znhcayc7hxzp60zujfmlz1avbxfa4ovn1diordqb26d2j8r18fmym4zl3qp6lrbh96e5btwxmigmfojntn1ipafdbnr5u01xfkt0dbkxmtmqs9m0nzmgf57j70n3qun90oksdfrlwrquipfvpr8njws5wr0ihz6ie5i8k8xhp9v7rf9kla2upypa64e8u25z8xm0jujri89n1ir1q" "7427c303 e09cdac5 16e82a70 3ffb3c18 b1293ddd 7cf66bf0 991e320f 903b9f08";
   vec "n2lbufhbia2ctpii1sypqpdl40fqliiall5trmb45hasssr8z3xlbtgz7wqjdi1ou7wvu35jzot9eo2aytru802b6op6umkg572jn1vuuqw6k7sfq87chdaxovkoczs40hx5r45spd5nyb318kr6wq61mw4fyvdentxgpw4bx2dqest4wqq9pn0380jo3tkqr1sez91444bum6g9lloxarv9157wwigm3zfyxhcoqxtcfcfwqrpxckpmi7scfun0d82mnlc7so5sc7r7ze5y254zo9ddxjkwz7449gv33jh4k4cp7wi2hdnpq1xueeji13cpg6ywqh4zqsxmlnbgbpvx7mm39cbi23m150tu43fnq4rdmg8f5ywn0lu2knas49zlmyabzunc18i61buwqx4g37jynb5d1nwwq7" "216a86e2 0c72a43d 967a7cbf d59e486f 9522aaf3 9db67532 dd28b750 b4675db9";
   vec "uw4kjiuanzjr5u8fmedejg8cucvasb416ixlas6378s6ss76vct8kbe7i224jwewngp1hpepb6afe3yn75fyc36nu9wjm231zxdp8acw1kt9fyijao8qs9jo6n14vwdt9hml0ksple55frzv747e8df821prhiubik90s0vypn2qu0cedyl19hdzhdagrhwb3vagowlpx2z86jc20owg0nzwc36vi12zyp8y5r0vwyfuaioiq8at4w1veakf5ug04bh2eq9aaam87cl01xxqkhta7mh2v3pmya4gwy7f3gcsv2a0u55rurum5yoqj2dmxjh2d2cshc8pvhwh2sgre20a1a24gcm2j5y7isu9ef0ns3jsubpbdgzb1s9553llrc0332dnq9ajj0z5u8rgr0b5c1vjgb6a0zda5r3" "28e0d543 5a09a906 d29b4308 b46d3060 8fad211e 090d6991 cd2d1250 e4647495";
   vec "4rmvfndgc80mad28v4ie0u56fmjpyxaxp0sqoh9tdb8y5euni3nelpjfp5cb8qwwlfqemfex0fodvp5nv4ulie4x4pzrprz45buga52llylbavu3uavrwma5ucb3gqs0et23303pf54x99ygjx4sopt4lntp1qban34uwcfmfr1ity4y6k3ehqcaxjelquzdq5qth6hzpvhzlkx25y3e8aijfzupcctcazru89ld2cdsw34d6ngz3z8edemkw9uw56vv450bi21z8azpwqtw0m1bpcymgwwnk29jt55gaqswut0opknlgtj0k1s2yfurw02x8f7dpzpxvkdyy0hfh6wpp7haa9eyo8qiv2ybmbhyuw60xmnfgtf41597t34in7uc7sbebwz5upkl3lm2tdj7az005cev8hrqh02w" "dc1e4219 14d4ff7f 6421ad7e 37cd910d a8fa54ab 6ccca1f6 f4cab987 979122d7";
   vec "7sv333eo5vegwpetll9eij8yluxx70stlh4nv71vm2u966qojud7gq8vpa6r01x1nm9ic58nh71iv8f2oncww26ugnw4a5mkk1lqkasy2bpe6gh56c6ve5t0hfsffrs0dfefwxi9tq1yy0zhw67mj4aeo0tgj1vnpnl5t7g4hx3h37dqg9m685cckznnycb74p86unlbncnucd6owf87myu9vjitng6pyrd2ftg806a2me9ehwmnkzk4h0rq7hnwwt7cymhhtpeh8t03nizoluwe8wtky5j0hjhtp7nn7mtulvddpj2465sowql7d45zezmcka4ywr1cirts23q88xlqf7k0z72bocza0x7h5bq9kj0ibsngflo3iu8tkolw5m6esvu2mw1n5zyot7i3sjgnhj3bak4418xfabz7j" "c58fa9d3 c2703557 2baf118e 4016b49e 355d7936 976ddec2 45012aae 633c6c32";
   vec "or09i5dvyjxaj2ecwdx2b0j1wz03zo3cvuo61hwwvhf3j0wdxg9gcdis6353wwi4vql12hf5w11wxksj2qtmdwxyoylgln4kln3hs3f2enkbz08snotwrnl7lsblzjbchaak0jpf4xwroa7ty4sw2zzcw3a3gvhbgjcfqtm24kqcmkef12rrrv81ntimcmigkftnuwxt4r9b0waftvzdnyx1ctw88hyugpoq1adtxafean2tmrqzex647pnufs3sjg60i1vjm0ar6rpkspydl5caadbsho1lrsi28kv1qmk5ldowrpgshc02zwlabe59e5nnihp3tqza8fol161dt0rdtl4e5y8vdahglb3fxf5citapnp6ibz90v6sw53w669q3utief5vj9ylsmlerymwh57ahnseoct81hzfpf1" "d7cc9616 a77db4ad 8ec93e65 eb37397b d3ce7378 4c780e93 4345cdd8 72602e31";
   vec "3p7nw31h7rj8l8avztv73jgqqcqt60yvmryiup3uh4swcq2tjacstpm1cl987d5tbmd833nev4x02oovoxc23t2rr85vxmmz1a6wbe9a2rfxoaw2j7ucspitdsgu9k185o738c9bln3pbpymclqbpvo5y021zz67deopaligjyd6n0gifqlln83a223peuhoh7tca9ah6e6nwqby1ykpivi4vjugjmr6vcd5j4z25udi8n8xf62nyho9cqbbtgdxneff8i0wqsuh3l8o0dn2p70skhzen9o8unps1ula3r28l0wifugdr5014eag4fucq8su9irsv5vk8gt9hwza0q97npvcp3ssjuc1svtpaiywk04aoshgzt22axflpus0usdrqyju38iwmse7dy691j07bm19d9wwe3uh3fne75q" "6587bb9f b838d4e1 d7dae543 8ccacd54 57ce8374 1f9973ff e4cf706f 111128b5";
   vec "b8tsyfv9lzrq8zse8g2akx1t4qbuwwpxl2ntac73se6xitxhgizn25sb9j1eewhvkj30zz1p1ji1i2k5bgw0yyos2h37daqqybiehp3my77z76bugnvy1oxcc509x0gloascnlmtoexaa7gsw2s34rad32hu9nl42a6go2tqmyt3dkasvrxsr0z23kayhgi2janammk9b7bzp0uxk0o1uexgszuc4dt7g1djmcidfxo0la5lzlfr34rd51j8zn5x0w0ibe6uk49ui1la8xz2z9il3thb200xbxsv1ossrn1yrhg0ed2uftpyzioli7wawu9m6ciwrwewx9hr6onzfqrla412ge4znel4nxcqppwiga7wc2bjlaliigg6h9xs04omx462z0rwvokluhv69aiqs6w3dehn7bl2lesyjdy1" "657229b0 6a4a4b31 c9953cb8 9ac23f24 614cd23e bc41b606 a00ae875 aea297e0";
   vec "48mz143u3hvlcfu66uh1pub3t0i35dqph0093kktaij1j5svtbyp745hz0delmzvf302y6vs0dvgkofitb202tu4uyeqso9bs6vzigruh09ntyn518wl4lyd8dz86ksc49ha4m4k4yumski0n5bloyqox4ven61tssw1hbcf2st1un9352dd3rhir6tjtew4nxavp41d9pfnmhi2lbvk0qypnxuwoikzehx934uzg94af84oldlgxumep89yudfxj63v8a5gl2o1iqkqx60kkbjnhnd0b5045k4i57d6scjy7yztbtpkrlsrxtv1h9s1qcr7o4y6qd0f5fev81mufyjzkeo826vsnj1jni0jgxbestoaqtl7xsttywy38cq13keec06cjjvvbfvss6ywf7mfmju4qvwf5fhetet5ix0oo" "d9008835 6f766960 b1e7b3fc 28a63376 74d33548 6283cc55 b3c30fb5 d596379b";
   vec "iv91jc6in55kv2xhapz746kacs9tgmgn6yi1rz53zmth213civm3ltckbanz0tvs9ced84r72lrfs6sytfk241z5erzmmue2uepfojl3tzo68fkspb3128gc1qwcmnz4c2ha1cznywa1fqqu5m1lykfa8ddwx6qephsjzkj4djzu0278am0ko9zm1ygd4n946f1ps8z3zmxdlubks3p1lrs3r9hghpasfxacqb5khk92bj5uowh09qby5eyjwlcpljh0op89xtwa0fmbv79gka1x0bdp28o2vojj5l5y682gxz0tnbesw6nbengf4u6fbb8huvs759m3we995lz5mna6bhare37r55by550v7a3h1nhwoyclce7mm730wnxp0biiyu09zajpke0b997juhbpxfh4azetyavnlx7ex3nc1x" "a4ed09dd 59526adb 9ae63402 719c2c86 28cc8c93 b6ef4274 edba1db7 7f15d549";
   vec "rpndz5fsheir5h4kaijbogf0men2zfbl50dvew1k998j4v4unovf4j2nwoe24a1yv0l9z3zbinjf4yi6582oewp3n0c6ts8ke7p9s5kiwdep607l8ekoy7v9pis8ubzq1xhyiie8l9l7fnzxkbkafo98a4jhaci4eurq6jagm2g1hqy91v5alpj9l1tpp1jvspcfnoj9v1ruer7dcooofjhtoktfot8r8857aat9fqg6lq3x4oobe3qpp22i0cgv5t3heerrllrkrrxthe6pkt6vhhvfmdpeyt4z4z71ow7mi7n93k3zcdi11dyylkvuop0w44fa1q25awtqszc4hjm63z6n15wkxb5q30wjxnab34ziu3lasthrow7lmlh5zun06iybsmlbwq76yjwv5oxyz9cw42jdric70vm53a5zh0e" "0c609edb cc666546 76a78d36 37c6d80c 375e972c 5f61085d d4ef1c41 c4e22db8";
   vec "9chxkdw1vv60z1ups241lgyp898dsnseckljnl9yrih7ad1sso6decku1ou50k8dwp0lm2bwdm57c1fwserua6pq1hsaxv68k6vjiwy7zzct4j8hn9k5ggh2zy3lns2hbg4ec9n5mlrx0cp3zjz72if2uk5oti6vd71u5w3m3ii69mia09oxm2k86emh9vd7m106h45efr3vv1dnlpvjz6t0d44fvzb564ao9logz9opmwy4orghomx1kyhd8mhp8oc6bhxdsbtpsbrs4ix8sp4zx3gfhaxcetb7i6abo32zn28iep384r1yn0dgo5te48mtf8uzz3o4zq0wvp44si00m9gbpdobromf43v03v35wz72vugcw9g42xy93zspxbhwnz34wzoj2a5e7pclo40nzsppn2uxgx8as877qjjp9cs0" "93527377 5ff767cc ebb7db24 4fed4b7d 138c3bac f491d2e3 793f6cac 0c42598a";
   vec "jkybub298ebwo00jp1m0qg47sr1basrtlelsiq81ilcmdy51kyd0hbceicfxzimddviazf2yyhfzrokaco5j83f8b8i0i4bnyalosjqw3pjdy7sszpddjio8qvqaiwtttxalooocwm55gg7memavf7q9shn48s63jqrdfoenkiamn11a4idv8i2zvz7ekkgjwoxqasty3elcysfzjzvr2hh0mxeyvtlhkjluxzbe18jdz4uzxh5p8t0zq1yp6w27i0192vhn6geydeoyjum8r5diceuzfk8xxfbuiq00aoxxivzwfmptq9ifpbh92u0t01cmhqfq4r44hmbr5gp9zjwzqk73naz46yh1z3bktzy26gafy5lx9r3k8o85xc7mwo1cd05qibxsde4cs2j982tz32bargrs7d0xq9g1o9kwq980k" "75a1eae4 7fe16071 3d3bd448 54083cad d2452bb2 498bd2ce e74cda71 d20892de";
   vec "wdjnarlsk6a6xn197wnmp1ox93nps0qq8sdlslzzkom5r1nb3uhlpq13yydi8mqvgo8vynsync94d5dmjvzciyvt27850fh660ip7j0xh19o8o8si9ddq6cv9u0d7hbambmsc4ernmvk650vdc8kq6p38l7anm4z0lmstkzi990i1igl94k1kycru5zgg1h8qg4aeurc5we3ck52kpz4y8xv0swaouq9bbuxudkyov9g5he5h5du0m1vnna4ivned25mzccqsqfhlxh2rwggzsdnsepny6acwbl5g7jkxajfcemgx82jhvxeoxqsp5520wxfyjirqj17vnei9cpfpy05g14sbo2fptvj7ypa11wz0e06xrwmht2f1kzko6bvpvomd4tamj1gwb4b6ek4cy4jgknlqg1s0njd4xiecxpplewc1j" "341b0c8b a5a88f2e 1a2c4e2a 655f05ec 099bcad9 5386dfc0 a6d70bca 7546b1df";
   vec "yvl23ox97snrjikorq7psbsiezrqt63ayf5iq8cgq0stug3bprrjv79dptrunljoxaviiyroa3b4b0pj9zjn5wc0saoosbehdht01v726orlp2b6whjf0lisznq2cyvavk22me7x7ggkerqhxqrt2gmpovhr0k0j7byg54f4lbu8ac91uwlxjub8tvydfix50to3tj037638ff2gtqurmm35i028pesidomuy0ok3ex6zc8btisudqprnsiw3awrx9rp7v8tneqczwmqnluo3eq86oiymuh699voo47lkmukzzm5192zn1l9hmk8wmv19y58t9e3l6f5wkh7wgdq0s9w9xyctiy3bn4afhmejbqrd9crdjoeax003hdwr4g0hyq15xu14dx4ph08gx307vxaeanvixv6talta67avxwby3xfx8t" "cd6359b0 28beaa98 e4de6aaf f7aa7796 f10f5720 22618ae7 9dfa2215 35c394c3";
   vec "w4hwv0qdxpexo6l988bo156qjivb1ob7o69cssbx5zmxl7idpgboerw5hmu46p3lbdajly7cty1xi7gm90tniseypzu1mnshi7k0ea2jniqbexew1059zw2cnxsr130n0colgl8iudbxkolvzmvmicoeod3mg5jy2iokr2nuqfew3gpkgy50qxqf93tif0pot3xt85ty3zubje5u077wz08ej3fpzycwf32ohd5iad0q6i6srkvzj2co2nt7a2jfbk6ha7g86olgx60zmog3k68db736x8jbmhrpf4cpxb2hj6r5pq4dutbmhnhlfybqpmtgjkp49395a8exmi70vcyxx2k744y23zv8yvkfbty4ufgtpc9njcrp6tfjp0st19nqfwues1ffsn45tfuuhs0jvx0kbme9ruyq4sfplt9cqhcseznl" "d98be02a e83dfe7d 2343a960 1b5a8cf7 903c0c1a 080026e5 9e75b9a4 8317f28a";
   vec "yzm3vfxy3wfw1z44ulg156p1y9n6hyylqi7bn7qjwi972j99hzbe87kcdjemezg16k8u44qid17q4agw015zu71adxq36d7s390hglxs6f2xg7480h4fh91mgqbqzpy48r8fu4t9xkuo78611rotgw7wzgn9ys02x9lvsx6biytkd3u4o5u651mrefyza6rvigvn0v9v9rqzebttq6scm7sek500h9nod77yk158ptsbemlkbs65vfajfghfcq4g79fecphdli8h6xxim5377lrx2agujucycrxi6yducvono4xaxex7sr0zuy6bghzbdqsdszj7erg3z6bwnszrl3lko2khfuzbl5oz6tn1lrfu9vk086crzyqeg0bqxbulz0jc33arj73fn17toz06b840lewpww8ihcubgq5mmpmtjr0q1q33o" "00ca889c 01f41cd5 47986683 51806e13 12942165 eeca0653 339b13d5 1325a901";
   vec "9sfkv6kwyybic6gl0ell0y5m1r1pjw6hktn74t9ryyziy34w0ih64xqb1d2t0rogdfffv3ihx0nwbrilrmt5x2q66wxwhkm9qnmowqeq8519ncvu698enwnt4ewgatc6rixqg2utly8rl5s84l8o5bu7gbvqmmyqcbgy76u0bhkmnjvpqwpzxisfvj7ry4ube2ne85q63kr1p0iv5tt4glxyu7igxi6lr0lozervlk4sbuyzk1koqk8ps6rr57s02kjge2dwokxoqwnjzv7tmjms9t2ze41y0lxibgmefg07j5ajnppraj1b87ivabkhf0x9mn1tnddiob0zfxocmbx385oqya1s0z9ld58bwxwy2xcngofkz2ypkzdhng9zx6gt00chdopjvvmkiyga6h8xk7y3w3gn9bsrjt2sswumfmzv7wp5dn" "8415bcdd 3c05ba07 013070a1 5b1a70f2 8cf067cc 65403653 4821a19f edd68ac7";
   vec "2us40ln4ayg2e8hnr9xfolnr2t1jz4aww5ys53qbrsuzvzte578q3vm38zwcfd4pg5cjn2wugt9t4jmdarfgq3hwocumbk9s2qrf070uncawz8686sfe5vyhgf0ghothyyb7d36mdq2cdfjdd7o72ikx2uchdqhqproyj7c1qsllp0p6twc0kgtqeslswrq8zb398wzgz1nxasq24ic2w2ftis0dfduvwynnnh630342ihz9oyjebqu8gug180k221pgf094wfhrc2z9ymskjixi97komwl0af0lwxrh205mtblpdg9h2n729a6p24x2etdvf1f3mcit0muq01aclkh1fi49y8mmcza2jxuek571d57pkabq3s47c3dkcy1qxwayltrb9cvun0jr9hcj4ifuox3938pp7d1iwf54wiv1gkagqhftl6v" "a72adfec f401ba1d ce5f5919 8b4b127a f9a6d760 c67ba360 c197831a ebc9e641";
   vec "eow4uekjz6bsk6akbqwm10gaamodfws3thkvur04zancz1xdtsu1q6kvs3ztbzdf2vlq4rvqom0idoxmnffl1uz3b92se41u71as8y7ql0pkts0b8s6vxngwnbug8nsgdqrbmbtloag701i5toh6tzh63afgyh4hgrky8wfbnwrm6dd11cexqoffriiezalmr12n8q55c738v4wbnr68ulzxvep0i8n6mb7dg5noldj8k6qc6m14cs532uwogoymilpikg2784gb4t9drsibvdsqybex0tk2k88k9n852n2rakd9ixi1c3pf3vyuor7yhefhbcd8skfckindhv1lyf5r9gw7zi1iyzf30fehbf8r7whbmiramseo5daqq2oqcecb6d8opijwks01guc3p9khotb8eofxf1xhz2mnzfhwpfy5sco5ce2b" "d5d29120 4b9aa588 d149123a d30dfc96 770137fb 1ef45ee6 ac132716 1fba57da";
   vec "obc5yrslyz6ozpnjmn7fw4kyollqdopefhzc7jag732fza5vg7rgy78tv9ur5gpvml2ynyo17wgxqrls3lujumctzi1qgzjvdphfdry3m9hazl1wwepypqhdoexgwwlbt55vqwrw4na2nlh9i4p39gekod2l5qtsxdjdohyvuhy9rmq8kdpylhv93w9vy47i2vmhp9w59g15sovqfpvmkk3aigicp2qfdc3cktnnj8l321pj75duj7g6bbjrad54wnekr9f8gmv7qr0l4sipbykagxbn8fy8bz2nurjltb5kg6ot1djhntowy72ibzq160ev22k29tpfydcp4c5vnkuimmfe783x1qgbgblrr147kr9n01zrhn85rifbiodgau8jkku1av1ckiwr7lkhqdy1mdg9bdcorakh5t6c1xeuwbx02yvcxkoyv" "9e2e0b88 b391d646 3b18a12b a6db3612 202c8a2b 44972416 df5fb905 e3cf4ba3";
   vec "ohctt7v4vd5mvcronwfb2ody7of7fjn3d18y3cd1xbxajzvzm21mvy4kneb3atloa6vkjs1ltu52psze2n215a3r68aire411plqwq5vzk9o554kioyqouoi0uentv22j1twp4ms2j160wnjb9b9zvwtfxqqjnbi4crmolnv5rbdw7wezuimog9waz39gzruocoawewlei2vzhldw3aovbbchkwoueazh03um0yrvcdfm3ybrtk9jsc4whlgno8fni2y1gs4vc1wtfdcwoft23mw3lmkre0bw3vzsmhg6fpj164w2yuhtw5qfarqwc8p3ckvo9jj8pu4xgf7kuacunrpwy9hocsew91ovq7gzjtyq61oilfxm5f0om3zllmb1g10to6cwart5vpabyft368rr12fmvz2wfwq0u06423kxp6m3r6txw3p75" "7bd21646 c32d82fd f6fbfe58 b1dd5512 1b33f979 2c3026f8 516ea411 9a28d36d";
   vec "1tj6l1huuwbkyvs1o4werxjtjctkvl49os5hfw00dhr52dalh20uvuimdpglq07qdgztobogad4ek52nhe8bp86l9iud9s6ptiq14rh75rzuvl95uauga4o3tazzzfla0n7h3wemsoc03b6nlzcgajeto0c11qo1j02vu4r8bz6556p9rgokyvperowkxwpq8iqcj6dwxxie2e5ayk40dmgcj05sh8gww8kt9vp678640hopofw51m5jp0m8w30j58m862pmhogq9duuo75883vf4so76mnynlaggjcf7xus0mrzh4izmd1yl7891piyxkqlsk6rxpvq8dxp27t748mj9gs9q4l7uqgc4ctb3dyefz457wekslcjajcgcs1nl88vr75s236e63eogg0xzudodzlattzsfmrxm2loei20xbujrv25wonn6s1" "28739834 4f1b64f8 0c1913af 91e4886d 6deeaca4 dd7cabf9 4ba18af0 cc849a1b";
   vec "pttd2jmzsu0mvaf23pr2jl411sbv14de2cdeozw6de6u63fvzto9xam5shy44hxsn71arvua5zj73rwf8pvvu6phohx44ypgpbo08rdsx7zj1jmk62iwz1jz933ecrxlyhqximx6ae3xpx29i5r430ci7z4vd32egu3x8azkda5ap4u61tgl8enlaefhna5333rxoodjjwjdj2t4salznial5r696aiuvzwm57w28wirnnjctw0pvokgrwzpksyknayegtl1kziv642ennltiw8xc3kuz0j8jsp84dzh8jbkyjopb13zskjhepql2mfc7qjqc3r2rir5srjkarzpvt8peyduuvui59ogt1vhp0kpy3ao3lo7b1znbtc35mqbdr5b37oftezea7wxttxksj75xezv9top8ujerrqkfw5yab6pe701b92zqbwm" "b779a803 f3a8c949 81db53de 51bcee20 2d10797b f5e52301 8941b5c7 606e9b89";
   vec "78995ok4hy57uzidwwm3bdxm70dcqiiws1kz8t97mhaxkfxnt2hfpexlmbfm9568xp1r9qdzr0k92vud75zg7zcbj6ydm3xdcw2v38m1ifk861lkxd1mf31rpz08g10fhqgdheqj4e2bqdudg12q6ac1ab9lqs81666ahr37dpcitgost1w7rs4gaavaoo7y1vjynwih7nz956lvetgeco5zw7ag036gjz0bujl57txqwiyqzeosvc4vcgjhgm65wxhivl8w3sx9nxgltj5r6t9v4a4gkb6w3xwy8znxvc7gj78h7vqexwx7522vkhironcgzv5x8vunkiof71ifgkmn1cgz8bct5m5uv7dc2b80d5z3ih63snkuseqo5m5lz6sck90u19h0uz86mh6dkoz07rivykxb4vt39k8tc9j6u66tqn97aonpwja44" "da797045 c014618d 6d7ad0d7 a4743ae3 9fc359fa b52bab21 5eea9a13 f3523eb6";
   vec "udyn3vqtkq54kez3bjjruubv5nxvf8hq4exvj7qbs2r8qkslxn3reersf1rebwbwy043880i50gjtc2o86dw281xv3d3hz8ynfbz94aypfndhr8gqsa7vs1sml42xr69hxdr5uphbjqvs1d69sm312ee2o3tqp2ufaeurty74lgx8znerb9fvsziryhbft7khjgmogpc7pbev9toguz5j703vm3atjhn1t6rvvsdfjcmgmh6goxwl3nyedend0fptqcacy8s4y5xxb4m20yemiuv2nuxsozb7ic9gu72nx53l9qkkps38hvboz4fy30waol4xj1axga5hx3zxuez5maw6v9tixcqe9bwtcmik5cz3os703foqxbq71n2goqmaz4rr3drgeclgzh7up2dqm7g9ul0uspfoz4mahsmc6zrbghyrzyf9cia918fv6" "576cec62 0c313e46 22f95a6e c6172950 7dca0dfb afa5cc4a ddc84cd1 b34aef4b";
   vec "bmknhru17xm3tnekcv9mc5hvnyta7etpkuxy9fvcfzz11ut18274088dp129krul5weqcujerf860moi3tv8v4rwxvw45cz2nwr07zd4gbq0mzbqij4m5qnuryytuq6ojgjcoxd6gz372pyahhykzxsaz6bzqdw95y91heitbhw0huj7yv2rlep0d5r5wnatk7hg1r2tvislbeol56wsmca994ae91zmh4ocxnuenbfco9k5g8h3y16u2qr7c5shzeai12302mf8ahuvbfz4f9jhzs2ayvjqsrb70hdb28qlyqifah0uty1o21dhdx6qesl8dpaa3divlkts5k26m14kr4sb491r0cibclpbhndxr4nogz2xhgj7xcbjhr694jeju6omq73bff0dq3t8tf2rzhcn34frm87ce06x6tui2r0vsib0k2w7shnw8my" "2621ee54 d19c6437 721fb43e 8d63018d 8a8f72f3 0a8c9f7a cd14614c 7d4bde69";
   vec "szz3uztphkffz5dkg2vf1gdjiz8753typzbon76vmi16vf0qx63yjslpxe5o428dhoozigmuq6a5vscr6tu08l5w0uwkc2fojopfp5r2s0x14limz6jkixog64h7qg3q8klnikb0338ybn020m9qxygtfc0wo1vi0xfo51pwoc0o69wxal3pakmx5idb9kl42aqz0pgz3teg6gdxqzyvbkmsyz7j4q4zvdhit2ecg6s8plkg95fb4saei1fx9la9tidiu9f5pvijn7sf25t8kl7oc9nue54hxgr8s53nedgf8s0uy2gzeexakcpyaipvn9ssr0lsalpdb46ed4newdr27atzfuahtazjyxxs976ggrfjawwroasgtk6pt52kwsm9bnt4c7u49ffr5ex1oz28szm24tb0bn51dkq6a188h2z4cmvuaoi6mm393rt6" "d5877e32 43cf2fa1 9d837e49 8c42caa0 ebe62446 a3635869 157ce1df 24acf2ed";
   vec "l810omu3t4sg2zdyq8jygnsdpinp8oz735v221j68nf8vwev1r9by0tbe19f203zm6i3zbxs78cl6hquxbbfzy0hppz07v9l9171yjv23hls85yfh21vxrfyppif2mt9hkdsux1adcdhkmc0tq52v532s20fpuiv3crmxjp0ra2itxldijavhfkawi0f1mymoqxos7j04rejfk7n94ln1awzz164m4qiohlfbahzbmvgjq2kzs7zlinf6ph269mnm57urmyk5duviic7vs0icaj64myzfzyohse9nlss60yq53qh0izh7wc45fmij8m5mcy1d725hu0xhcwr2qqrlct382n1hl7vrgljkyn2xrv3sp65pxn0q4eyzgs2wwxf3xcdw243qzah0gpgmgq41xzw9vlpnhuz300ze9fp147z2nugbg2mhmwkywv9lf5r7" "0d864422 02ef5b34 fe47b756 73f632f3 3cb96217 c06581c9 0aa9bc99 90dbb026";
   vec "65wve9nryfsj9m4kiqcdyfo3717qcxt57emnty91mrbs68j5u44jw8rajmd4je66h59cbk955yylnd0qh097vvs9kg5n642mthaqxh28sy36784gi5h6ay4pzngyntjctyl4jdyv9n0z8wffrlg0uh8eor828itr97ammkq0enx92iml4xphqsql4y2itfcxfa89uhbs5mdrdc7f2d3xsr9u676q1jlvx834fvvu2h72k6nt6o64q9uiz69zt3jd39gt24apz1m2jaliwq941c1c5ra9ys53k8ya6ds7dkjl35hdqsnrs15hosi4ghug7d40qilv6vd2ywn0rs3yxhc112es1pysy0x6z9xe5dqwgr8q9txzx253z9ni3o0eoyyz2wlfn4nkbtuja5w1xskum6sissyn3yks5disikjtz5iclpdlnm2l9hzas43tz6" "50fafdac a7990f15 dc3c9dc1 8eeef122 051d94af 2ea305b8 7eb60e79 c5acfc6b";
   vec "ss7gyi77r2xl80vd2sbvjrg584p0gwgck565qotegibjkotgjbs51t1vfb41v31oewozswpr9rwi7ejd4teubl9sld5dkv553c05bybnv4dep1ym988n9gj60l5ppauhxsa40y9z0ip86l3ybndbhrw906hysyghlgfo1mtbzwf6p1o4wnovbof4ds4hfjrdpk3fzbc5q09ykz5bi3ob3wkxfzx00wvebhth79vby9x94mz0ok4j5xjaimy14eunqokosao63egrfe9x651jvv97ton1k7tywvdd49xcbw61zospb265cc1ce6u16ubpr770nlyse39l9l8p5il4er91pgr2wfeg8b2l09do06revczxe62602rzfgd04w5f7io83zw50g0n8ocobdqobyexq1t6vvhilbvg2z0d5rhkwu4lledglvjcn29gb6fr5bq" "183bc75a ab274331 eb319adc bb93d5d8 51247f66 44da919b 2e9154f5 88476ef9";
   vec "jcxf6oyk7pprcxjkdoxsw4zazk84ho1zzk7zq6ve6iayeliye6oi9rr9s7jmtkfmgeh9wnqvw4dahbsotwrrzat4lpqc3f6fk6l17famabh13bm5zqs9ysmqyj0r25heus91uoo1qyw2ms0533zoozcoztxp307xg1t1rcjfa5qnovndgsindonraocf77kx8jktzcm0f5vsawbk31jhsdyus4uwsqvdhhvmbzf77y64scdd2hxpevostto4tge3btwpoq9rbmsqf5tafy7zzlcnznz8a99h3bz0qogimkuxvbllj1bsspwlxrezh2u8ahmmm5zus0o10627ks8hssr0oc4perk6cg80n6rwau7rptrth8r68t3srnsck8hxce7jwwi3tlo00yrw49w2lyhd7hqb8kwqydpymhy1z7rzht1a1va3iyzuxberigi8032a" "8734831f ad05e8d8 7644f774 abf657ca a78781e3 6db5b09f b801b842 9799c726";
   vec "6puv9u2kit93c1rrtiyodaopbbnfsp2pnvy8jxl81p3sqg4gg54svr05f3ud3oxsbrkrtu35tgsyim1d7tfuq3t5n81c6gqxr5n2t532ye7yjnhl3yjznoj5b2ih7arg96a5d6u1y5yic0e2ck6yxvwe14eiz0juma9e7y7u0rb1ognit7jifj8rqiozsiha0hkiuzuj5y44xw32psqm8icjpgjbrg7bcp7br4zr24prlhci1w7ow4hocg5fyfkm83lfhkdppiyh7hvtqx6ccwk4cix8n7aqvbe6nr9n03tl3nal1qsdwid8550i0uvqibs8lyqxauwf57mshiyecdknbbn1rqqtb00nep6ehiviicx7vyepd6l2svlp91oe1w4qqo1ef4fv0jdwj4sf7cui05ko07pa5d0co95mp6g5qeycs4uyoil5pq3gcanluph83" "ba6155b5 a9790177 ccb5ec4b 48bdd801 ad3310c6 38de6e22 faf5d027 d51dc9f1";
   vec "5r4yw2fpfuscfrenlazv1is9hrm99sgl4dzg6h1km4syb8jwmcmtifjds25y0dm64dwe2k5uf06g639h77jdpe4vd6bmny4pmrayh3qzh0dxuj63nitq1hx6713m866nnwq23hlkbhcmmyxvaw2vrklg4te9bhm1zn716gusxgmvr65koz2mdhe6tbw2juv7qnrcbuapt6du187lnqei7gqf6mpnj0luw5y7o5nng9hrg7eyekfsj7ucj8wy811mqupukx9vcrxu5t47xd3y4eo914b7hpjomqb5xf853gg04ripuedqi3f42647896spzvq8ctz2wt8qi27gk5zv6d8u8b63s7lnhg2qjzq7wh31acte2ybhw007uc757m2mfgw1bqd9s66l08mfb7krikqhlrt1ojz2htjsp1usqghyzq9t1la331qrrbs7dpo5qqvtv" "1ce24e63 5a9c8b0f 47d288e0 1ec00595 c8629dd9 e4938214 66d0614d b1859998";
   vec "cn8byvc8evwt0hofpm9j0vi0mhvlq8on6q5wpyl6tp9fo5hdlzqecb6ttjob8u2w6qcnfta1xyt20jnahze7ytyqsq5vjovqvnyzdgcueacp0yl2zgoay0fvgm4lm8gq81ol6t66jxpe90qz44xju9phvnbnjzwsi4lepjtzxi2thuqz0kol6yo2l8zsuo8fcizz80c2m87f154ixq2vnijfba3tm0lko6qjbohco7u38f8974bdf5ahicu8blrm7kdslvn1zyk6109muntswlu898y5tstpzw4qmazgw98ya2i7c5q7ano1kif3e0tw65otynqku2gegl36wvigbxezgib3e1yfduj4aj0s4jbasucjfx2sh1xscf8mvcdisog7rjof4mixgwbh50f8hu980q3f9hj0bfx9qtfumnkaktqc60gl1jffvt7bnul1rjpwy9o" "f4f73db2 e28c04e6 679e9b8e 5c73c4bb 977f57e5 df5d0f32 4f31b287 d7f5b530";
   vec "g42iwf9elvt6r0lxiikj5675cln50q3l2ncaze5lkvgliey87jll46tq5ansioqgzb1becyk4el2szchhyyundozpumrc7btj2poktc80ngt1y4h01tvbpygxm8mzvxqb7h3t9s83z63i2c6jde5ruhw6cs5kj1byg3morkvicg94yy2svlbborec10itb1ikljlaswy70in538z30jkq1hx09r7nh4m3tkxmgqdchm19q553l10nw30bkou3icoqhmyeymb4ggio7gourm14q05unsl60nbkyhdrk4bs57h7ad0v4zjjocnlhz711h55mcj9eyl4h75gq9kxxyescy7ptvpu3cmx7a2cs1pdx7ejfrpr2kfj8r6xumvnbqgnkpmv1u5kam121infbvm7x3pi6v5x356f1e5hyraulstufxdz4kdt6pmtgbxwhrs8c78lftx" "64fc1edd 8bf97d8d f1c897e9 9a5e9c7c 6f873774 b0364568 aad00b08 b30338bd";
   vec "gth0jk0shqvq2fjui9sypenyybtj0l70xytx49zfqcbbug3bkqq8xz5zoho32cbto7m5u18hvhxhcqk8df0qzuelhd7mx9awymfa7tyw77gxu5mu5iznwos6x5cqql835or0ehnwunv4q1vde9i6t99h4vzvutbdejtl4kag1tpxbo9bjm4ljh0mhdkhyjwy4e043tf4ll6e88gaelt44smiotm2sgacwml7zw20mtdwwwncpd6d8ggcznxo7ugrcm7qfuwxxrvb3f7f9nvczy0c3wvjl8u8xa1rbfitd93uy3kz9ftt5pcxevadhu902y78mwyy57c5midlkljyfg2ihxyjpdp33bixsufdlaajb93snqjqf0k7lopi0pn67om2wu37rtkfiwn3dxpgt4j04o4a4jfh2acg2hf53egox0x1wdey01s4hd0o8d2f6uno0j31v" "247f6f2e a60a09db 169acb76 d37be66e bd51e294 5a44a76d 5c597296 7a5f604a";
   vec "1ycmqfrv3e0v25q286qk2cw90q139cterr110g21lwvh1kar9sxf7hdmvrvoaz63hj4mzqm37qebrg4w68v64banhh9724d62fm00cwu3sxpce347tnt2h6i3qzfvbc49u4a7gom0gguka351ip7ipxjohydiq4trqyg5hw0zayir3ods2rgjgoan4xg7feo4hrwafg020asis8v3nuua78qojof0spb5jnnoacc1c8qc4ygy7w983c0eqth3rrp0udwgva9cvt7hs7dmvqmvgbxmnhqdit2239oe7pik9z7aca17t1dq5fsaojo93h26r3uflrs8xi3tl0q9chzisu4pqdce9sr6lnjviy41991ommff84gn2wlpvvlf2sf20e0z3plmmzj5qe053b98mw3g8zeqmhk0rgfael5ljxpyv4s24m735l4qbpbnc17em5b2dphwv" "0c9b5f0d 18f88e0e f0aa3601 96a7d975 989d1abb b866509a 522b76fd e90d5500";
   vec "bf6bo0cl7reef3ibj1jbw0kcj5p3tmv6o5wcsyfb653ablj0vy6zc5qiiljzzcfafnjzdkpgikuyp15336a6oo8pxmugv91i73df423gebcx3u7zxi87rfy6b45lbyg48hu0fs3zhvns0ffnxqx1klf2k38f7rztwjxi529agzai57pyrcn9utr9vcm6kda9cx5akwn1a8rjv8s63ku9v82rvedy7ez69kyi3dnhevogrzdh2jslk8b0mabighpcl7290s4qowo79fgswzfi5yths01ags8fpk52hzfwnl9erl9pbnpmviabyymc0ptuk05ahbyicinmiwr80q6pvv4ojq76nbtoqzve83e9sh62jxlgf8ya762g6zsrohirdmsor81s6o0ttwp2glb7031txj4tole2ktagey9xl2unld8ii5nksshckafwtbo9csb6g41gxom" "67d889c0 4c670885 0d57bd8b 817ce1af 777ef9f4 a5d7c1aa 6a22a11a a927b05a";
   vec "qbiy13rziehah3mkf3sl63l7ce58v0oooltm0gwsgczs20j3zogngotaj05y8i22aizssh4y1lm4txa9mkb5luqv4xn5xq065xgdjp58mh194f4zwqtaflgoawyahwdu0wy9rkufq1a9yqclnod50c7bocdytijicquag5w0lbzq79twmc08rix3qs31iyn8ws3upivqtkqv1ocavxqeqx00lhwmflea7zwzs0xnkbsl06w3xx3kr9e3bqvwcqe40lcpyje2cxvz8y2ve2o909ltu996wwmrcv9ryfhz25r1rw8ouqijg9mf9l4bqjdage0kj5ll9vsr2dsqsfizlyb6nindww6bcqpxzug6ai1xwwol4lfmidu0737q5zvumlkauhg3szpnu9515du8poj1xk20swxeqjz1x71nlmyd16q90vbfqud7qz8jysl46k9kt1wcp8mp" "786ffb4e 3c8dceaf d95fb54e c826827e 31e6a483 2dbfc894 4dea483b edcd9afb";
   vec "tu08qbk0kqr9o3bdfdlk1w1csz64677lhbf2ndgg884bs5xdi6xu8fx6k265tk4b93779xe6dkgf4lwcbrves4fepeeu06732hpb0tlga7berjs3o6ki32ylkojhg97x0yvp5ykxjhuzxey8ixmeqqupn5shkmyybv279x0kv32xwd1qkctmk2qytknlzx8ggycqr0r3r4giyh1s5rucsp4ord8x0t02kbr4ykfybxu2jz92kzb3tb9nf8kb10ilhnk7ie0so4p2pe2px4zmsfqbbbb1d4sl4ikgpp0s3e94i7t6qpuio8crzvf638nt8zwn11xxla0zwiwii15urqpf8qfxpo3w09l7bm7j7mb5uqgt0eqe6rorgn7p12vhnieljguwc9ubsn3opjwas71vlk4m530f609xnbuxjm4k9fgz9h414wwknf432wbqh0bsxuqt984si" "db3918c8 8b0c6c87 692c5592 b35cea1f ca1505e5 753038fc 35c8eda4 bbf60cda";
   vec "48944navb0e5a0dzyktitldocgue7h7zn2vtrh4skrd324eucqeo32mh64wiojds5y3ekm1lm9dfos0klrph8otx2souuaby999sjaey95m3h5x7sw2xbsraetjdd97sacxsufzwiv1ccc6qfrx90gd83hc24e1stj32rdsxo6zv9urxlha5d13v2mydlyzi6grfc060aurmpu00vhtcl1e5wolma9fcoc0kgfuipts2q9sziwyme61d3m07f7znwwg1sckq22yvqoxwsubdgslct6cgnuiayqau20c4wayijqher2yxu2g2ds9jprsqyy9w0l6mknqqvntp7yzs62zs0mt7kbuf4gg1knwnj6tzkhjpqp1sg1oy35iq2hah84immdgkaugda0pdatcpr7lawbs1muas93n80j9eei02x752lycvkhqyibudifjkaciwm4dzsmtlss" "4197a965 73b3b59f ea99b3ec e96e3dd5 5f4828be 4b1c54f6 d83aab4e d6412b26";
   vec "qgi5c2oixc8c54czp5c8i5ey24t6k1r59o6l48uujy4lzjwgmrfn6008wztwfdzqj729y5flg9hbyef6enosnetobgy1idhgh2xn3ejh9educ7fgsjtkyk8mxy0deidl0vtra4j0o8aqjolm1pld48l13b0asehkc2araaeifn006bbrccn5z0rtbb4mexxbcoppoc1fpxu5vi8xpsg3tzfty17ube7ftcyl1405u87cty28jfrwoul0yxbd0tmqsbnl6zelptlk0qqdjie3kbzro5faqvex9vbc5jnnlfd8youc41s4blptpzw7ht3jfvp049cjt0xxu6wiv1z7v2ybl0bs4s0iiexdcv45z5226e846tc4uhb88k7fuxei74wmcaf8jwky83lt6kspvygvj0us69z6ibkcet8dg5dtvppxrd58bxr1kgncmflctm1s4041c76yf8h" "df800821 e13decbb 159b5268 74349ba2 f07fda2a 7a48b20a 4d14572a 00cee7d6";
   vec "xp4opgn28nykp1ghga3subky1yfkbu2j0pwdrz1p0y2srf10opgvvc8t8r1htsu2vy1qhqgjeji8z7zo9jrjq3jwtbkh3fi60zonft6fud9f9tct14pt68jh1auenf81x61ov8u67tpi6oql3w2ne3xmwbt64wnpmrpy1jdm52d0l7v77inczgyhda0yvlpfiz6smz31zhnbmy8rxhe67j2egrw6mow1ep60wv26t8jy83u758d759bm2vt17jnol1f4hfcu57ek1yhmg9v7ibh4ijmar0h2zb2xg8xot4q7gh777e765qq2nzvjruf4znshl17zsdnhnwova8daiktrthm4cj82f7w0zcwlc8oxm43vp9vgxpbwkihoujff80yqa2nh6l1apcul0isp1r5o0mlhxgz92jzitgsgvdzcpkiu65u1k4xp56azgiyqkzp3raj0bdz8hxfv" "3019babb 302ff92d c43c5c68 e278be26 1b47767c 0e225fee 7cd9b332 710fc075";
   vec "q10t3digwl496hq9fpab8s4wrbutm23d4ofwxi5tv4wezky9gp0ihh9g6lyogd1lbuk6ifdrorrbbx9kqgkiabp70a2xjrffxl8e6q3nxaprs4wu4j648y8l1a9ft30xnpuct0f340fasqwuft5s3fxe4lwegqeby0tfwithe16i6452jbejth0f446hlgz06vfus0405pkhhe126bx6hvkujbi4rulnn5uuy3wqrqt45xavxlwierjfhz25dwka0yphw4on55ubdlrp8z7bdov2vx985uhbyj0jbad2boi51rucu72hcqznk03uq3v60dn8nrti17mgpgtftpoubvkt5vyygogjxc7i071s2om1vn7c0g4cps5pd3y3d314sra921wjt4uh8b58unhsig6v8slvju51jjj1kua0g8raqfakd9bn9jnqjy0uxb5urxh8v4p86pv8peum6" "36663d09 9e87a0d0 0e9adf3a 5f27a868 aa2a55a9 c2d82a07 1d4f5219 3776edc3";
   vec "bb66gp52pewyj7xf50uew4fpqhna7tciu9u68ty6llafqm5bcpdloa0zob45emy2wvjyftt7tmxhfe3zzrpby0e57cdlq2ahweqkp52fzk58r1odsdur1t5lkwxphbk5cyhmy2c6b8deru8s892aeal7tyern8hc2om9bosuw3rdobwfum5l9cl20pihw1xfqzwhemnt7k5eghur8vtv7eqwxff0grcqnvfr89r0akjkoowxjmbrcbgeeao6piz6qchhlukydqihq8dfxtb6b7dtnqt1mbhhalx24ghq2pxbn6g8qkqd6onh0f53klhnmiw44pwj2tudcs0w86p6gm725acfwltr1dgobnjbabex3r58n01v5c39u43wkj4cw48avxic8e7v2p15qc15soy1re1xoyo0vvj79bga30eelwasfz444sy4arqwfftdzoansvbrbxwode8axn" "72bbc9dd 1d203184 ad2d4af6 bfa29a04 88cf7015 d544d509 de787eb2 397d6fb6";
   vec "nmkttk6kj719t0wo3j179op7l0fqjl2wn9wgm6shaw4xcm5t471ys7mbd2uyr1vj28i85buz3ogarp3rc3u8ln32bxw2evbnnews3wc12ulxcak2qkqn03x4oekdn1qghhjyex16nz8n68phjoxd7mu0hx8mg9r03ghy6g3ykw24ybyv74bdyr6g0n02z57ks8u2ygi2dzc59h03j4lely02zevrq8q9jisej5dy0h65snl17cwsni0dzt1r17ot5j13y84ytzgvfz5q84lf629v90je2t67dephvc08qa1esaiyqq7jvi7jqqao3xtmnyt0to2cd0mgs2zcfgqx5grumdd3u2l032qgoq0zl0k3qzp7hliz0e07ti14822xj4noeue1zuzqc8zai87qs72eb52beo92gwq7cifunfbbx7z9lwepa4nfppshinhy1bqee6hdb4hukifza8z" "b192a552 a234dc63 7fc07c71 71268e5c 1bf9d1dd 2bef7f7d f0485e0d 55bfd5fc";
   vec "vto7vcemi2ofiefuo538zybe1zzdzj0q7akrfh41zap0o3boupp9e536fv2s9cnpsq9m23r3o1t4f7g3ibtdke4mm7qjhp7ug6wffqaz7famrlxt0p9ultlxh5ihx5blg8bt9yu0ydghe1g8isbtas3i6pu6t3tug48bto8hmyguxisq7uncaan7fuorjvmmxasrzp14d8uawqm3ih9vhyv32lfz9yxrb5mblwqqoiid61majc7fitjgg003w0c5r231qtj62cuh0f5wz8jh1hmgp41dc5d9re9j1ku4vh5mhlfg5l34mo6kysg0uazuupap8j3l3k49052c1o25wn1inbmcwqv15vuxb8dvy1ls2yzumdh8pagi4xpoatqi6mlwvi15waj3fo8jksc8lkbdyw02nya0hwboeh389w0lwv8hgb47t92vc63q3113bkuvq724ghw9tbzgbet9" "753afc91 3213082d e76e68b8 3dff5f7e b521ea1a 88c8bf1c e5545165 09a9635f";
   vec "bvgneiynrvrov0dxfnq1cvd2dlbwdjt0ldnhr1130gisats6hgkfnncjrgt2sdmtv6qb9q9t49ow8muio1urvxgf1g79bxirgrds481rujbaz9t1tculs3psfef3sfgnmzqoyshe1uc9tuywoudvo6izeyq1etwvqqhyr7ztll7jdkp5fb02jbzjpslmk1sknx2dd67fdnur1vs31v79tl89jf3me99lu1lnibnw52ths2n5y9940jr32vicu6q3pml5ege5gbivpwfyf9xhh8u4t8ck38twz1zmg6r8dsd5azul9kayevul9qfj0fabkk6u29e3jnwo3s1poz1pzd1evbwrkb9g38ah767hjv9oy4osfyaft4goxp0qhvssf41u1pf95o67vxi3svj8dom4notdyljtuskly0ab3rqpvp1bv963p6w8bbp2abbhqoc59d3snfxtzuadnakbq" "ce483939 1eb1f726 e63508c0 97badc87 9b15069f fd8085f3 2517d620 1fbab68a";
   vec "06mfva1ve4efsc7e5xtkh3lro34ujt6p891vt76wa7mkmss0cvembsfv95l1r08b1tksxydn4clme24vc45pyw1bv51r1rn29n5hidktjacon3gga6vmxxggfw4ncob3whfgic9bh7l6wf2zqmfl4pzlinsbmdqvkltgwf4sey8x1qmrz45jszs0rwfcy6lcut4hn19wcbkekzov9gt8z8euxmbs5ho4hykl1zbrkxboi10i0u6dv3czbktt6w9xcvtazqkyn1ik01fof2lyan0x5dygh7xt1pns0uuros2qqh6m9slvr98c5yxnunf5c24iqo3ttwo0q1e1g3yoixwn1kasvir02vcjmry04eby1070q7mos0ksisbr5t4kcmfmzpys6gv6a6bq6u64wnkz0gydth85amegj27l4i188qypea4lu41hsulj8b53kn6zmj7tni7x98jl5a46t3" "c4f574b0 4fe4b8f4 2a19fd3c c4889deb 781b80cf 6bb76681 da025fed 62bb81d9";
   vec "vtha96pirkfbqf5wie3q24hfvcwruqfdfqku8t9foxetlr2f5n9r91cr4vf5hs6pa3jt66s3uor0m6fztk0ohtenwgj5rs64w3pfnj5uyo90aq0avh891wlguu0m2iu91mlq36591wtqmi3pl49y0i2qw6j5idk6swqtf1hk51t8e2i2mpxigb47i3w86izdtuw660c9frs072wac1e38f7gcje6097l02ebqjtqkpf13teakwuw7e7y86pvw6agh2147smo9b3li9m8py02vjwq6mkf0a120c5g853achmraexbe6001kp4wx125uzhxwtxxiryppv43l6kuqyjq5324viw2bp8k55gbx5wc4znmrztfjr9q9i04wj1ptf9x99v38lfytj9ksnrdpiixbir0dm3u6f2q18sn9ywb25r84ksnyn4pkon0cvgxnr1kmaaj5sw3nu1nl3x8dqs464" "27f14504 5ba787de 42d1a7e1 7dbc4427 72f5476c 224aeb8d 4f5a7529 063d7ca8";
   vec "noy5yk3lohgnab7lkfx6tnp9iz7yu7e6q2u089yqciquqf43hrim0snasq3w1szzg8hwa77edoagxxr6ofmxp1vvpwe3yf8e45j4zsdta95x0oqxnqpvfpj7pivquowuvbdk08r2qemkp9sgg4kan67kduimo603v6hekye90nb0dffl00qnz60m8qjohggrceb1z8i8es4bzzj9l24bwv2m4jah6xqgr5ysr5db5r5wr8fbujwcjmj8su3mwb7868uch10d30atcsa59jc6iyi3sl5bnc3v1j261qqf0b6r8x1a7fotaonz2pr10l8rv0lqk67u2lnskikn8n31brjkc2ed0rzztnvx67x4ajpag0elvmucqoox8g9ymfmkaashhdzifjgmdlxz2zn9u4cztubt3bztywh4bv7p4ndp081oz4kobuncoe1skg9aeu71kfbw1ablcgs9x92tssjf" "ccf8d93b d305d685 d667ab41 16b86427 fb5d5a33 d6ba9bdc 96ed8459 f0bdf4d4";
   vec "4e8bsy68h555m0knczpptnc7vf9srapmqjjicj9yien7s0n5cmqsdnnnxspf1spmdppfptezvblkeuied59gs9pihqapx2jihmor873mdu9sui79yw71miilehlrjy1b748ecyjihgwbgrbvfmq1x3wdxgsj7pledljtmr8r6t8jhlegzqzbyscpt8wtphzpuocsl9itqnrk1q0ws0uvb1t1z04k2oujltn6cwrqasvxbi159defizsixxyfuugm65sk55m3actl1ysvnumjbttmxh7btyhbudvz5r77yg0bw9ymdw8575e4egladj25dhl9r0bbfsapg3h7jyz6lodwra26xqvpx47dvo77xb67s71696sajxcdnao3jy4xptuvjffnieqcfnxctydrwi0igzz1il91an2ui98pd3tmsizgekv25cbyvqe72bb8xeaioakrywwt19hzgche1vymw" "d1abb92c 20366f23 9341461d bdaf17a7 35eb6eab c9e1df86 a6f9d906 f26f3af7";
   vec "uyx6urx6i7x39jwipyzufz773xnnatnytgxcrz97ir3kj9qwwph6nn726zti7praza2qc2tfajqje8jd2vspqif147kmxgq6symmi2xul9xhylg531qf0lc4hgoi76sasyozgbxqy3c003yirq3ywagnt4f33cu9s4q394tfa3tbdps73apa6uhlm5crtsz4cog8yiompt0m3v4y2n4cl8adshtil1buuew9av5f33jksz1xoplef4afs755qk9ofvuogfg8gcjt070clf0lcc83mvg4ni2lsytqi5s5jl6riyupwhm47l04e8zqt607nodc2fqle51lbelar8lq350fyy2gzx76pcgxvg62zwf5n8ba4yn5xy8dht0wb4quvu5tggt7ah3uespetazufddo61u75llhjw8li2rj1ile6n6yv8co5qfy32drcwhpb26m5d4w43cw8l170mzjr1w3mv" "a0cc2265 57f61dae 5d9e0eb9 ed34ef5a 7bfb6d9a 8977a11f fdcf96ca 87301340";
   vec "xnz87363ng8pbci989ou9dol10hmgiofts01xii1ukrywumcsy23q94mb7xsiw0fxlh4cjq8wlioifw3w862ufyzdhes68n00gvx6meltamz9fdqt7o934ckw0cem8d8j98piswbjb8x08zumwdkga3jyl6o5jgtnc73nbmfkiflckpcfhepkbyysdu47ytp9nwe20jq37cw06u6mtxv0tmhqdav8fr5ndtb8wafcxos3qyfvf3yx74b9slnjuonvup8ixz48tvv2hawg24yy60twyszb4rssbzyan635vatl5dk24dd1rdiojwfwotyhr1d00jb3memmqjusrvhk4ay7xq7lzegepgcq68kvjc3beryw9grk8ycey7h33ey7ksr6orhd0byfbic9uboerdldwxni5v9a99423pft4jxskqg16pfur5uaxl7ltine9dyfn8j16vdltk2pdbdqxsuc19" "1cc3ec2b 8ebe4506 53b1a23d cc3fd301 abcc5166 8babbf2f 9eea9be3 988acb34";
   vec "9x9hfeq92bwjbepsi1ethswhryyurtfb8quqw5km5yb49a95hr2fw7cegguoxz7m1cth1n49ew8akn3j420s5n0l3lkrmao1x2ip9r8qox952grezdds5jx5gqj7jpvxiewofkm2bqcein1syykvjqf1xd3rg7lsmouipvttpji3204q2h1z4qs5i1z1bfn91uy5vygzf9nbz5orhovcinh0tec4597ov61zt97dts087h05ubxt6ms6bi1qc3ehmppvz9f9qfa39a9k073vjw4hzlzung4rpomljtv0uhi5b1yu11dl4k3uror35ekoz5xgnsx5yqiueuazut3ws18kr9kaur8nme9b0rwn9jgeqjjilxlu9yykv03kf567lq0brkj3o7hqnvb9451s4vzvb47ojbbrcmv4wo56evbie0v0c1qfsbts6hpod774d77bl4avqzdonj5q9dhnb4b2tp93" "718d8ecd 5f357b4e d936833d 883af1b3 43262b11 3e68faee 49852d2e 3c49fe18";
   vec "hvgwn2xgidpxnaa1limi00snoqmi6zf6r8wcxl8j78a3krx56hahqdkf269ygzx3qu5z8jmlqzbaky2jdgb0o2kzcb8urdvntjx2gvzbo7u3edult3d01q75p9nwz00cngp3kictldwy75m8a3weolcae71hp8o8c84n6677d7ur5oe3nui4gzng18x4asm7t1gwjb9y9e5vxktau8w1zgva4wmmmbin59nscc3kv9apnb1h3ekab14k4l9n0xkzu4ebd7o6exozcjpdptgcojf13bor6csk3mf7lrfmt58j4wrj9tgzowrqtgjqp4sppbyp44w97owtbangqem2becjlfh9z090wqgxroiy3wknejp5bdgujf85qd5weqr428fzpmegyvbr7tefc9ov79i5e5eipz1rcafdrgrscmrxuw974sjk3xdkvy0vdlyatbs6sumyzcruua5g1qggza1rgzqn1" "e5bd97d8 f98c4201 c4863388 a172dfa9 0636f80c 434ad737 5ffe5880 3604c373";
   vec "xu8rs0cro2ai3ywbcd9s0fj843k0z3y65jvsf9p04sr1uufpokcdtlp4y2t9zdc0f2vltcvv4s92ld6ogwnx1p5r6c0x3hgejnksp34f87gow1js62mxcu6rkcdjju04veh9mi289zux1tsugz7hc83eq4inkr5ggh7xcnp2bastbzaivsru14j6c3gx8r8lc2mgiuzk75m7geqlclfnfioan5xegaevb1btkz5xjcs1lzj94lttm42t9rois8tzr9jqg05hbtlyq8pk4tm9r26vk39yttbis4bmh7hel0d2baov7qa0pd9wu3kkqj2jckucw60v8gritynvo48czny7a2cae2xsk7g0euarcmsz7hz0xl4edkoy8mkvh4ugnp3zvk5ltq1yu03doglmch0h18w2gksjw3h4eidemfqhqhbox1axe742sllh8gpa0ht1v17k5yibx9uzunchv48zxn92e6" "65990142 d30f621b a1b4d3d6 06e4ceea 8bab9700 6964bca5 37316126 a7a14a11";
   vec "ygbkb3i32o6piwvni2lr4n6e1qkmsqkbh0k9tv4h4ubto4qatzlas379wzxs7l3ixv2ierpahesc0785jvd23qsouqnh8tmploqeb8fxy6okrvh781nc4f2zzxvg0q7hqeqdbgak22kwu5tj0o6ecfcyuay3kdd9m016s3ahtrj1n7m7mg5xb613n9w8awoay99x8yaapqoscrnl312m7faoszy26t3povq7nh1p61pe1zcy2v73jadtks32j9dh9sl4lmekbpyluve86his69pa20d1582nevsl783cqhg7a17ltdnmcik7ulklqzeg4kvfm0fu7t1m0rark5flqm4uudsjva4qfyaf6y12af7vuernxlyfdsdxe0brz15ss95id4xcwqsm8bnynx7lrn6xq8ywb0vben6mc2ps0jucme7pkuqzc5eu3dfi6osew3tt6lxk9yta6xx8i9dmlpl9y9iz0sm" "d8776171 d2f559b3 e3dd6cda 5e834c14 6646dd0e ea1796ba 5f60e4fe b4c9eddb";
   vec "h7tmlbkb1ipw2ymjthxlmkzwy3skf8jt5rhtd04txtmd7wl22uxw09vgkfl6ozzx0ixszh6d81w3znvke583mjketjc6hzpw48h9zn8t2jd8bc5euvk5k8g97s007rv7pnbwhh3gf98fnc01dd8pilkd43d6ckkgnkl5hkcea0y2gqd12e9em8mb5i0x68r426cilywp4brq7zkcwp516950uayxw478wu3v126q434asgqfn06600obp22yprhz1ib0dmumle1ebta3cpzdpjsgzpkj42w3kzypaet764ck4on4zl9dzssfkfl0qe4ll00q7vkq4uvti45ign3wfiipau12ftg1v3x9ufwh6t2zk6opi40xr6d1a8i20edsbjjjq60v4bmyxb8ar1mi74gif6elln2j8qfd8i9e97rdfb02guixnr8jkvs3j75htoza79wibkwhqne0giwtqcbzctrmogyz" "ef783a37 67d53182 9f6344cf 858852b8 a3b107c9 264676a0 2f6b83b4 db521803";
   vec "x5u16pmfcj4g0irb1wte0sfubwfirg2ph2qyi4i1wtmmtiom78vjlplty9ykg4k1tu8bfggbze7sbpahyq9y42vk0iqtrai1ekdgngrw5p1rca6ye0vyb0kb3akspz7xkzdjxjx4ynrlb9b5vau8gicdq0gfkw0m3y6pm564kglbuqpeero7vpy3lw5mmy8flgf3f5hyp1s64zwbnb783saa9jl90gz33e7ggn3dunxnvs82wfdz0fmgp2tuauwftg3iknmfs4o0c17khx4lxuex93pvg3cznmieduyg66mkfntzqgdhch93ntthxrjqh0m2th97gd11iyu1k2ek7ahmoqsjx0tvaeusgscymi4eqsyy7sy780god459ct47q90f63vx3pkdga0qb55s2p34mb85w53nu7ochdv3b3z4zlf3rxuxfafd09iq70jeva0rig31j24trxji26jnsoqrc29tlfijk" "6efc66ab 0d67bd39 f9c44d7b 032ec89d 6e2b60a3 001f1c25 7b95c42e 0de59a96";
   vec "3a2wwqv8uacsun8sioreid5pbrepa2ocab71d77pp4jzn7gzh8qlggo5k7gbkpe8l0mnonzt8vxaieswnnwriqy07dtik4oltvssqrh35f55y639t6tpp2iu2crqn2rnhn9lkz8jdrk93ic4f8kss4temjms5ihkoc9qlaegtxi116jic5wlz4n2ala7wb2hv7vq4z7ffyeo0xbfwqtu2zs17j33vu45pr1unptdpuhb1w8ui9opsgk2u676q1fug3y32jems99v2qkygx8dzpvfjp9q4zhlwfc4ckvay4f2o07fswda63svev8gxnsnd3v9w4ons5v0fv3rq5xii81p8ie51ei4xb84p5rrd9dija1198zbi3odxg4gsdw9zitoidgds28jcy6lkf1hntpbnialqjc7yg9g9igkeax61s73ofegkwytrggin0nhvfaitq2hhjtjmvq0qp06j97lf7thj72nn4" "268f67ff a8e4a73b d85c068a 69366ecb d070a8be 57d82a80 8b238162 83fc03c6";
   vec "pz042xpkid9e48d300sks6avu9udf8n4lf9dwkg0zyvdryl0x07adep6xxj1vqsh29mietbho9vj2oib8h5kru5pjgw4sno4ojzdn3bducvlcq45jgbsflf7iupbhjx92bwex3w4nnd5s5dnxqfvy6lancnd3z9zbxui7mhj99saytaurdlvpeg7drecbaioq4n2vel42yqiyf8wuostsgs56p560tfier1xyidl5d2fdcbv8fduesqbmzln1bz8yayiloz3s85gmmhjymmcm7h6zx1x2qaj4zrvz0zer9yxikus5bnk19ehfvpsrd8mrn4oofnvqohqh1lj082serlu5gibht4btul6smrx0gkoutl5w1h7agwm8vecwst56jww1b4uje0ekg4b6xec66k6ogvocqz2gbhm2l5nku8gw7wvk346wa5j17u905dh1wbce4lo5zenv13ulcfteihh86zo9oj8v5k" "e5d0511b e4c9905a b0a61755 b43076ac 2bb64352 ac0b70d6 d014b1f2 344fd46f";
   vec "hr9x7vp1x1gm6r66sso572sctzt1tx7d5psfqxdbyjrm6al1kra2yg7unjgscvc48qwlv2wm99bz8xenblp8bki7s916581n3dk9qrumnepjim04od7dusakdf65jp3xiuknyz4wa3vdf80hyk5gdp6m9kvfdmjh2oeve1o19md4stcgn709z2dmk4n7xtjrhj27iy2qijl9itbk3nmsmr0c3cdwg0ucejrz5q9n3sqyvin80b4757wnhe08davzj9bwd3olii0w7iild4yw68lz5gup9h0tbg4ji0urmaqlupxywol9isjp85dk3yu1k8ptayz7he68trgtirget07v6u7xqhi6p4czvm2854z62yi1kshk1hgc28ahmsp9a7ii8dcm3w1jbs7xfelyjgvdcufice8mi51w9ibbgo18rbmhdv7426ifafkuhk2qz9fhy5ft7fzfnplpiidvvikuc195k1c4as5k" "bdefbcd2 21e1f012 516fc537 b5d72d36 9604cd22 f970d2ce 0ea3116f 8af0bb1c";
   vec "oz541tp3jy2lyrs0fzgkpp6oq3ag8zuhqwx3jgvbdb9n3n2eklhqfxrssg2j2c84ft5xjsk0a9d56epbf9sxiaup9ftvqwgg8ztjziz2uwqqbrbobjo2t8b67demsk1awacs6a4sjl6odp2t1qs0whibpdp2107stfg6yevjnr7g5lzdqnixcitz2nt9qwek0jus1boon7dgwn0ttsoegto6l963smkmx9rbxgtuvhi3fa0ham52g4tle5hxiatf3977bxwtloq8ot897jugexqra6gnmo8jbm42w2xvu43xmexaybzq13baaaw5lcdtwhyw1wp4re2jdyytcyq7pt5twq458yq8yg3h5y4rlo57g1v8g86yjyirby4t12yue7le29nnh5x3jghtbqam22s4chunpc9kvrzf11w2sfz03i8llyajbeogbghiv1oqer1gqcf9jscuefbzwjmzy9amrnhkyr1adhwln" "55c6d7be b3332a4a babf2de2 3f0a1fb3 0c0cc83c 256db9c9 b7286e37 2b9ad0c1";
   vec "nt2xo1fknknbbu4hqiyxywywlv1aqswml7rzfo9q2mkcoob8fr3pltiv28ew0uipgt4yw4gt8zntuh821tpztcb2vvl1yqd29ra5fmhiabmgevj8os48svx20be4563jjgxbucqgxnyndugddp2t4zsjogwmpmrpypd7kz9yfzg3tum5l6bcsux7zydj1ebmfed6y9cv96a23qzybm5fosy0u8c4fn46zj3nevz5zdptzzbffs0d43gvagze0764dziell2m4o6jwfld1466ei0u8a6upqunu7zhwpos155nhga9gdaaxh07hb2ye5qfhx4icu31cce225cr7afg5budb8mamcq1mbxo8stx6ntl7j8ig3gp5e4xcoezjrxwexnrkemmczubj41evamo5w6n4mhoeckq6jxx9tcqvxfpa1ek9u6dzhfvqyppbihgrdm7zvu0hbcuutb27hgkt2t8qriryyhnst6lvk" "42ee3f84 e12395e0 c04709da 4362b3e6 90ff93d1 0a99cd2b 1f04204f 5e4d26d1";
   vec "px14hpfl60imhsecum3i9m5oamieu210g3ci32r6k94c0l6ws0i4dkq01wa92sxkwif34jrks31yjwiijof2ojuwge24y40s7xc5u8y8gjmsbej3rhc054q5qgx1tdhrc1rdxtx59hq1139kmje2u8wtqhhojbdzve0nra02xpru0hfkkilb495nfgngaj1iyqumfdrdtg74pqw6oxvvfgslx88j092g36v5oc0ppthk98896uqd2qv3uztxdym3jhhi1caabhjd7jpc4ymay7bt8xbaz4l9jt0xyhhpzsa4kj0ttvmrinqtwxe6j95gw1e7qdida0vkjtkka64jeifhfij27f7n9r8x1zcke2p15piyz5fyd7r0f98p2icatv4tmhaj5xv868sv7umt9egh9ndutt77uydzvt2ykrnjjriv9urcd18qnr7p0bgd0le3gr8ja6pjn9a4jb04rkqla7klfawabvf5fe9" "a423db81 f9287388 ef5c9e0b 9403f487 6ddff5d1 3857fe0e 4deea520 bef82ca1";
   vec "t1itb4dmmyjcreysh7o1tlko43yrn14ih4yz9r2hrs36jtjk0jyeeud1mgthzh0d8gsa1rlojv08rbhl87c4id45mk77vshivqqx0dl54dsixil5c4dohq5gk0pykcjueiqfc5a9dmfdw9o82w4kuoqcjknwqyp18d0wsk4l3l3cof7aju3oxng2jh7btrwxgibu3vn8xacxdy1worrsj8vkgbuo1tm01iv8rwrc1uxukfs1grwptqexfdpelqcgxh9w8zgr3g7h2nd33wg3ydus5u2oriepxt0qttbcx9p6soaiy1cx8tqtu3da81j2k1ranqkuuyj9nvznmdmxugv3dy4afbi53q7i5xzm2t2ulicrc2v3h946b6p01cruyk83gwc1mgsg2f509y6j8u3nr1watq303mbomu4it1hl9bfiqnzi6s9w8bvpbvawcu8byfi90g5ntv7d8662wkfppoasg25f4dlb59mo" "ce54aae8 d5530514 6b8fc413 b6ff396e d0ce0215 61bf6667 400b9f07 f62accc2";
   vec "uqbsujeg6f1vhpn0zxhs1modmkemwmmefepslcdwvv29in3748yjl2ih55jag5kcu3oa51esjq9yvarzk4lh6zyi24jgma8e5qsbtmd5u9inqswcnxhuqac8n9rmqpvnl6z4l83rto9cdcqv020ei0v9qdvos3x0olxjm6ic6fd7bl376fjkvk8e09t4b1znorb1c1aokod4j0e6r8j92rhtchke4wtw8wu29uyhp0h3es1ux8qi0l73guty2u0po65p5w07chwlizw2x2ye7c4sr62pt1jgyxezapk5xlo8bftn8iyxlj1pbfpvt4or8hoadcuy12bztj0dd3h7lxuwo00s1i5j9x32kf9wfc4290hw4k0b3ilo2wkw2x8cegdlnco267aehqhn0zsftojyb3t88x1lg3zzpbld9myvm9avu1sgws949n2ixsdoxt1uutmo2p7sx4jkko89pa3sawlg81k8683f20asg" "231c5675 ef5b15db e2780189 fd85898a 42db3b65 0c8658fe eef7d533 64eb3fe4";
   vec "7mx15dp53qgjzovx7jyhrqnz0zc3cetmeejf0bov9i5codwe7gl4dvi1rtlemp3fvzpmly9j53945ubxej8k3jmnysidsuqmq30eeuu8um6adqk9db3hevr2vgubq8z80d0gd60f1v5tuf3shl39jlvw4f4l25816ixodwgmh4zcskbjbaxublomhswvsd7po9yqij21sz99vsf1fdjsnr3kbro74dfz34bvb7r3so6ahh8ft0o44jzz0tyblhl9hfufnm2daqlpe1otrw5ume0lohumqhq4na9txg5dwcf85h576iffgfnw2gcubmwb99z0rx9j2acehyv2chshj283tx8914yehqb3rae5p425a2iwk1jbwzqwqxm9rb95ko84m2h2le0xdg2o8l9nv570ar8durthyshym30ds47dre640pik5cschjo8hz6ls9jm1mmlk6754uhj8ygej7lnnu9cfwjik6f8s2j4rj" "42514866 e4a35c7a 41531562 c142e504 27873432 656d1d75 f5d5d637 5529be30";
   vec "q7txeblienh0v7uj7pmqoo6mnwjfzzy5buxwcml9kdvfh4d5b0m8fv446jfd8ibb327q79jlzp9kzi1k35rou625dtejkp3evu9tmkt5uu363q9jb0mo1lsb2okynfjz8bpouaqtbbttcmqdxc5sel2e8if9my0nx4doxgh09dpqsy56zzcvzae6aun16cjuoe5bap9eaumzv8x2a07zg2xkifkpbc2aqg8agzrhqdpnuv7mt3gjraumph91t5ze90rdifxeduwws1x4rw11j6fop64v9mqylrbm40s2f6ziyxnwbep1903erlcn928c52ceciqkqi1yd41dedlldotmfeb2jtovq63bhtaj401ma6uj77konay88a2r8ew4r3kufh75lbl2a1qr98axkmnmlczwtho90kpoj2l27qsn4zc9co0icc1gtsmoig8rnpctvhfrl4ue8y06m10zmv67iueeptekwjfwg00w1i5" "ff37f332 63a006ae 4fcdb00a 166c97da 5bb9a944 079b9667 ad4415db 3431186b";
   vec "tmuv7ff239v8mscskiw9wqtpzyt1ejyxtfip6qdvv67pr04x0m5k6jd66rn4ytn5ibid1dm2gp3duj49t7xtjvg7r7cfna28nl5jk1jv2rwvpxsa6nc93gfowr1uaggpihytzyssihz4ixmuf8q2n6y4s4pcgxysdtua2jx9xgsbu5mhq4bsbfoqq3hj83x56kk6h6dfd8qr8d8dwhmq0g559qn5oyny042onbshi7jtufssnmjtaq77tw4cyu1yb2i4ewousu4e2jdnd9ejpohrt09okcm6r5cfoxrw8lpcgfpbb91aaf0cfu3mhwn69j5qmgzgg9k3vhf2m3cgjf5gzky3tuokhwfxean91a4ynroqpnj4vm0xhbdn5pzolqkdxbyqq89q2lvy6qfzbo1c2pqt687j4qa62aknhvhcwz1q0ophsilduyz0jdm710am9nr1qqh7aa8azt69waeccvkfss8v26ssk1a02vu3" "f28568fe 28c24aec 36408422 d9c183a6 dad11aed dcb2f57c a9384b04 9fd314c7";
   vec "30obiwhxbvtvws4lia7d7uhz0g6fq4yi3yky4eye5xr5hci4pyl7bellxh1rjyvyc9ofje1ohsuzb4s2jozpwjowgef93dzd8zt95nsmvwqea0i3le5zeuokkwoyyvedwer00czeuxtjlayzdb23va7j7megr02uoz1him4jk7mjfxyy0j34xm1y490exko4o4npwk11lzbj6y6y9bwa84kcbqqg5vubxyft6w0g1dhz68804p9u7f92b83vfvdnwyllpq1vqdw0xe0npg04kdrb9j5ykm9mtzmmt0n8igqgbcek84m9f19tcb8rfspxwlq6zt7co6oxcnvw6f4h820a0gfnbuyb8md43y0wkpu2fy1gx08rwj0fmedbqmu8xqcne9xtbnnipasbnpai5h26d32yqrbrfh6olzda3bkyzbv5qv8cj15dzfmf30v2sbd84c4mr18exgnibzozc9no9kv22s50yz7tepwd2kzaz" "37f7343f 67fcdbb4 e61aebc3 e569e92f 664a150c bdd5d9b5 9badab78 afa8f30c";
   vec "qqga7mxyaoeoyh0zdac3ntk1chfsqhkcvk0q84nlhkixqitpc5s59suadxf08yabe6qiwctax8n0dkmhnruqlb5byagf5mhqtckvii6bc62gh8fxu6dvsy9pvloy5zsv2njk5dppoo4htlw1lammusqlenitvwxnzzsjp35se5447pdbtehyyndz555l9o8ocbm1dqtu1kgvxidqk5ticc71dxs8tg46qo0poj67a1bpmxo6e6zc0ut21we5dtl57ocknzzqdjzf2q9hiylqezx35f27jxsl5p6jvl6atchuvesw2h4pon9thepsws7yyknt2hw5hpanx67i4txwp4alzo91s5jfb9j8hktfpwj1lchf8depbazbkqiwodm21ma7kihh7vlvcm56cgk0wgyt00ghe8lzykfwajjt46u0x5yiuu1cgnzkqo9x5xdx9d9agg3w1vt762uy7uns0pzt9rnkn2ezgb40bnbkb5a2us" "be953ab9 0f272ed0 b02096cf 0e06484a dbe3bd91 e543c5b0 98e8638d 9337fd0e";
   vec "1nhhgjfven3yvfaut4jxbdsdb8sbn5u2kfbtw85o7thxyiz9nxxx74h9sjbkoudkiizpjowhw39hk72dz3w49qyldpezrg765jdn3yjfgz6p93xje0f4x740398w5nak6nsgv0ektnu65eb3283alb6bnngnbvzo6js2mgm8x1ryko6ouzcxlbxbpmzfih7cnbu7ag2enjfsujny9ttf14iacn20km8q1x5mti4iddsk7x1o9yh402hnqxgouub43l70ft5t0yf27goaptx97vts8y7kb32gnpxthgihhstazd89w1zlc2c9g797o8gc3jx9vm9y2249ummbrmhpz6vfbzjz21ufwsecb506m5yrq5rpcol2vskwq22vnwbhyl603lus4yzkx55moxg3o5vst4aoknyb6yyvtff8w45fkmvm05pvybz5o4jjte2f31cql4dsgz9vlxmkyyni82bo3ynmt7a5edkfaj1c20eufre" "22042cab 700d1b49 907a5474 15c2d18c 8c7d5c8e efe5a3de 52bae15c becd2f81";
   vec "g34rbnt39akiobnd6s4oqv0cfj970wy4xs2kv6vzc4bxfyicj615zivyoici9kqejapdffozky5dq4y22wkq0vh9eb3af8ggvus6y2z9n71cep86sn9zjtggz9q1ddahwli47iebznjqb8k9mkt2m2gljx35j92j6snx1cbcd48s1ahzwtwc5glg3njq8ywkqh1q1ch3b3py52vs6toz0htyglligczzc9lhqdoqovfap6zyz10m7pn3w12h04jd1rokk0noto12h19sn4fshaizrc67oimx8ts61qyl0mv1cwsm037ojwhdsur3ckpq50qucuphvakzas1df2q3ccw59mrhfgj8ijc3gdkow22jrrhev8dr49oe96txsd3fqb1ios7yryxkrjf1j5y29yeb2fj5it19tpyfvm5eaahi1ghky86vawpufcdodd5lg00u9jd4k2g9uupjgj6dasguw8i0uma3f55ugqq2f8lg6q8r" "29a51925 80cd67cb a67be2db 79cb0696 a87e4f4b de496fde 07df8c44 51e43ec5";
   vec "slryknuoif2yo9q8l8ozl1ixmzl1qxy8dpxt9b1wod1fysgz56533vsoeiqo6cq26zr0m06xkr2s7n1ruyypa4jnfix96qso2631g4e66kcyund6ubs97lww57jx8z2diq8pb3orkxh3vjwr803l2audpw5a6lmy86l737h7xuhy56g65bxfajbyf6gkv9ja08294petmq4li7zwmvk1669rbv7glk7b90b749uu42zes81vso8dvv79l6avmfrdr8hxiufxkr526l1rngajerl211kj2ihrrrn5pjkiixy7a2nabjtg1fnb6y5n16nkqjh554wz1jzo6pjtjytr0buhqlcs7qucmt4uua3ibaxdvzzoy2s1mdb8svexlyrytuujuu6u4z4ed5olgbcglp0u0t4llumpghsaxjbhix0n97s0vxcctkk148lvfi6enmy5esfjl3yj3h0p1nufxy32f4enju193x2ue1zqoz8pzrqld" "fd4d3fe4 5fbdb5e4 f07b66e0 ac6fcaf3 4d281478 49cac3fb b01e4217 e6b34461";
   vec "v80kqopbd9rrm0q7dfvafjjwd59dwlzhq361skr1fshu1btcpedz31odugdtjd2dxbvwbrsz47tsex02z038xazhy4pod1w70kq5f0abx6mw6907avex89ecudnsurdlzb7ip2vejh2rf2ssa5dv3i8sqcg0xvs2kwaviulsh9p7ng4fkxt40ysqn8tajxl3yezk7lvkivha3o2fthu94p3dhmri1dsqjfjqfwaoflfg8tnxpupo8hai5w1lz1vld3gwdk9h7xargx76rgrxorubq22s3ex07hiirepp1nb4i795nlwezntmhplhivqxf1uds62zgobogkqd6qixsy2zopuqqpibvslzgnoyollfgv1lafskrpruvnjseguga29uyq5rzf2zbx9xtlnumr6lm6h5gkfmqtvzxnhi33tms8dxrcayml91cfh3lb04jqpzd6u4k8ya1bqfa5sm7l1sn2lpq0cjntt3hw5rqil3hgirto" "d1ed3bdc a9ace957 909b5950 5055eb25 a8c67ab3 9d0de33f c193fbe5 4ebf1aca";
   vec "r5fakhojvparkvughrxxu5al57dvqvbcyw59cl5q8s86a6eaveddf0stn964j0sz46tij821epedirxz56ovqcva43ekp9yrbldmb7glt5pdq5gw5kjde4es4beuh136gponyvffjfqjwrumpwplbmt2hvcg1zcktckffowhqq4p1hh2xij1nmhc0jy44f77s9phzk11w18r4hdz0nlwcdecob84jezh7mtwstogr55wg5f48fo3myvj45zjyxsj9mdu5ytngpnagrlicwn11kmi5ldhiq5ux9e6z16xm9kh1rzvickvr8ursvvyt3do63qej3hwq4qjgruvtrr4l4k6jklid1jyjj42xex3foh9w5la4s0feo1ht03sfan9oax44p69m6xwoi7qkhtmlby1clgmwtctt0i9j5kl153zw8ttwdmv0b3fripusc3j6zl8kldqtcov01inoipsfilw2ws4oyl2x2v1pc5pvc5mnzadl4v" "83648180 8bbd9668 433b370c b827ad33 443493e0 7435e54c 91557558 b83e8a86";
   vec "419najk3r3jemm5iu2ednzbrvyixobfzf7eibdwyx77779in5yxpzsk8cdswyy9zwd1u02yymqxtd1ozyzshuibx0qtcopxkl0lp4rwzfqcagm24x03tsw7l87x8g66aglx84tyz9s3blr3urldq8zp2lqihxrfczl37d506m5tcoftzznlanvhokyx24l4p44gf5531oaghy31ih1s8dliht0fkzzqyd5t4sum9plk9du0qz9ugx87xl6wp9sw4iloesk0oe7x44be7brll8koe35x4kcuy48u958naxof03poyfesj66gdlzzswsexcl0mzi4awnzy2tajev3f59zxc45u1fv6gtolrkgz878kbln4l1g4ew1drd932fycufoqp1sst8b07wq91b2gfzoardehy09emzg6wgloeguusyihtfubwmp7nxz1cy81iqd3x0dcaq0mbmn0bicka38y2efb8fzbplis8rpk15h5ke8l0zmq" "7b593383 d81d7c92 ade7b668 cb58fd3d 055fd051 d448ad3f 30187054 40fbefbc";
   vec "osetqq75d9bpsu15kdf6xexhuzgtrqsxe5a2ehvjfjun6tz9x7dhjxu3txw1webgiimovb1hhsl7rotk5dr0rs42xndyczf7ggmsegod24k119luznkbyefcx2m4zi7sxthy2981ci7tqqghq3m1ea6t6wnifwdrhxirj3vkw9wanhtif2dj8rwwuavbynnxa7wn8gq3q494ybcrgcpy3c7rqa0666c8a4cd2y4jb2r56a8v1i632ulg2e0jpjbo5yhe3es98t0881a8qsc5g2lbvjx2tncontvzfk7tbb1ddft3de8rntmow9z3hlj5ehg8kuwijc0subwn4q58856wtbl4ifowcj46ac2ahidmjorw8q2xrn2689n42g5w4myqx2bluwp5rpooktsundszrucfj5rs5cq2s31gqzk9zix1tcavgqk0ukf5ue14lhzevldxdiu5ugdul1i02y96tirtgkzthz3l6spi4kcbuncal6m21" "93b605bd 95ec164e dd45103a 01db4210 eec6b332 848ef922 aa7eb66d 4d9e5f40";
   vec "c5pkcc3ssbdigc4xg1x5z5tmatdgyczj3v5utgd1jhfiwwfams85q0pgs1jhfoidi6f797j0z4ppoah1e9v7fv6dsuyxwtzc6h97tfip3h3oqulyx5phiggmqdsyvflu4be3f5kn2xr8ncurfotjs9zkhvpf1bs7os2bn2cqp1ez4bit86o6cku58u2wazhj2kakihmgy7hll3w33bd7wi73f4hol4qz2u5ks7vvmijyxwv74t7g85nc9d0yifdun2neqifq50qlchnvjx4ozlaq7b7b5e6ofg2k0k0sip740g8zg3dy838erl7i70htkr7ggerf2h09t24cneuyeq9b3uc88wz5auggtsjf2wodj39j521ugo1q39yy5pakjlq38ttixdks34rsepohuhfpgk4835nnf5warpq93comxrmw1963g1k42y5w10pmy3hg8cwiosyld9z645ifg6r4z5a0331hujb1nvxqhl3uzy9h5nargz" "001302e9 6cf32e04 3ee853b2 99668735 a8dfcb29 56fbd0eb 8ff6f859 89da0bca";
   vec "3svh43ntvjhpxhlncqj29vyfnz9mze4xtss3dkwxaf0lwzrifvs2swbntj22m9o4xre9wptfw0k8bn4rsdhd9l3jm2fazy0tr9c8xm72elr09dhxgw4ywfp8barb8wy22moojqy0cnual1kbu5x9yihf947rkw9affnu5g1abxtartquj6rflb2kt4mmsq32fcr5k2ky4hsgftdj8owymvuvnolk9buuhtnk7drze84tlxwbolivtucxo6e54xdkrn49o9wnpio3yd6eh6xabccmgzmr3y8vl6ve5ya9tzt690q1t7yxt0dakp8c8jt1e56xpt2h4m87t163axgjrixobvrqguajq39mzb4bmp8aj35f2k45irzroq4l986k9t9bncs2zoyhd875v1l7u6qg6otbfozjlm7wrx1s3p9os3myxqoucbdtz5u4cs1qfqnlv3jdoopfm5nutuea0ojlpdmnrf56z1wj0gxpj7459893pq0iojz" "57473c35 f120168f 47399846 b955252a 207acbe9 a2581b41 14a79c04 2b13d3da";
   vec "vmos8kmiierdnptg1qornal6dbumrxcga24fyfdnbhyugzjerc2zvf0ovy45qzlgijgmiakzvkco9rb9shubackcu3m2997gyqreplpg9c7wi8n5l3kzyq2on8cofnmc9w7ofb1ixnj62gdva1gpwkcwb0uu6495y8tl2naqxp7mtiwevw0awfvagv6pq7l5cnxpirc0916zt7uubg6q6f1d2udi4yla81wqtw8q6g3euzie8fybsx64jt0n22co0v70yqudh2f1qgeurps7ejoh3y15ayqy5cbpj0j1wtbxt7s8u8adtuwoyysbx9ahu5uf7cw11xb0l4iwmi3xjsbfxojzhbtxhy7520r6vbg4som0sq6xbu2uajwdkyt3mj5drdeajqc3ab3heywsv1te7wxaxy1vhds8q1sb89zi19dxs5lshq34zyr4nsb7rt2qouyypwcyqbdrh9ktrb84dyy6cw80vkviemfyc98rzza7a826191l" "401e809e 3b78b43c 4cb6a891 25e65a91 65c8e9bf 0f663208 59264dae 436d1aca";
   vec "z9q31s5jhgxuahjuh45xiwm11y6jryo1vj0et1vblney9r98f5u65wvs96bpz0tmw5ve44ikxhb7g81z3dq5mwrdj309coygkgzme3s0ojkqyushgbzxnygxwqevyh46ypu9asxosbvj17ycosmjfp387k7uzx1djz82sjbtr6c7337dqkki43jffbru81v9ukyiau5d3neh41hyp00lyuqqilu4ypntwvvurjtml1cafxfc1ykxlela6bd18b3n9fq1oxfa8pvyig2jm721vyr1ccccdnfh894brmufpnjxi32ues2vprv4qcww1kvyiwlps34ic62ue0iimubgrc8a5zn2ain8cnx4rijejo9kt4cgwbgdfafea2lzzpawetczheynl8y4dmn0o2tg0g41b5ychtlej7g3y98h26w18egyoqd5n36yb70j4ildsi5svwmstzfw1koujhpbtn45truf8le1ev7n3mybwjlz0gpljfae4f10v" "ff1b7263 1740c89c 5cf2b0b9 60e399d5 1248d924 ff8526b4 50b9f803 ff2c39e4";
   vec "u7jgb5oart6bi527igph9z5s8qtksv5ucruayevadlbf74fh7upu73upphb8812anwaip5pwxw79x4hq5f9fbvf1bl7erw397ojgvjsp8x1hpqhd09ic2at64y8k2pris5svhnqtxjkxz2uw361jxaptdmmpp9nshqto6y7gm6o6ix2b2cg44ifqb1bka938l4v5brjn0fm2o827easmh79h5t7hs6ofsu6z307hxnra7g8iri15o6ncszm91w1unmdi2dttq9nq4twmwnaim6gyg9gn4q9fvygi14khcr9mfx72dq6omaxqvp6b8yxmiuvuq3zb9ed988va353a5jok1dwkzsg8q4x1n6qtcxsegcqfupqvkpf3bwhjh355dfyi4fh4lscrv34rfo5liggdj62obc2cuscsljkfavels196di5iqfb25o1mdc1pcolig8c1jy89y1bst1bmzubsguvp5crc3fujxyzdg07mg1597s3mhyk5d7" "424bdfc4 e6d264f6 436a83bd 70290344 09fd1bbb a1d62805 300cb453 e2a36c3e";
   vec "nmshyfx92io36tcbujemhz6o6vzbc36m0ykml24l2290k25vlpbgshrvocapith3n3fk1dmzgrfywlkx2buur9odeytv0x88kry5icwbgj5l1my5ccsom8nlt8ts7k8i7g1rggv35ab9lo3vzkxkyob8gm8nx91xq8g0wslpasfg3ndblky509s13sjb8urw7bxoqdq3weghklokmcql46itz86agqaajc3bovgp4qrgn6heepwae22740o7wbs6eejzll3mj72ankwigajos2needz5sc4fmmyhqywcacbynzeordzzde6x086qjj2wa8md4jg1jjpn9tiqscxmkj87ntzu6eu1qxg0t89u7zftwkv7sho0vxtiwh84vaxh67xe3ne6abjwsooc7nz3gcqkrz746l96qpljvbrdtn28tmhcjxzaie2u31fm8kw9rvqur8amh6hofdzyxitir0hgah79epkjj8x1nj4gqpv29vkkyttop8n5c22" "ce07a70a a97e19f3 3ea28514 197af882 02a5c26d bdfe132f 0d567f60 d06ee90e";
   vec "wkbo7o8n6ilxhtthibnorip6sb7cfcakdops9shltjhg6owjtwb0e2okcejlhggmpznm4x5euudv8h981az00don0u4agdinkinlwhqq0b9h1sag3htfsdkth7w3dcuw0qhhcwuadiz0doxcsbmo39x80pdzjajtm59vkf5aj890oja2aekrkpce8pxnxe2wvplbczdo7owb9xa0unfzgttm6hofnowlcjhslxbtkgey5tk1l1i7haxrhl4gorjca7ll56xu9nd4o3vl2759k92r5051uk5k3n5m7nxtrmw7r0o4t9gvax3qezke7pu936evwqjfzksekyub36e2s5s8vb8pgrs8zlxqth2z6fd2hgmv35lz0bjtrqlqcdlmql8vin00x1zmxo70ctkdr02n8baxu6ilt0xfzvcdzjkakzewht3dcm5qwsiv6x523aex1sv544hyyzbe3dn7z4uyr9vzhji7isnxp9c1w9r9zrce1a4rfj9awpj5" "51cf16e8 58859eab f72644e7 c9fa85c6 8efc6bf2 ab778b35 16a83d9e 852f3dbb";
   vec "gjjzlmh3k6qtau35nx0orzpew2eapki9h03h0ovbhhrf9pbahxeic4bzvqng205bj6wctffrk5xky5j9asfyrh1tu2r96up1i2z9wb7ltuelhdklodnbqk6n7ah03591a1dly3lysv9bwy7bkysagb11l6ee4kuq9mps17cqcd52n3w31hozorm1u4xjdhp0joccjr1kqm6k0t4783fepx4zt5aa1ht6lwrz0aomnldwwitzjsz26dj0zdu9w15irewllxe2whc2jzld4vhvjqbj9pdxj60p9qtby8xrp324mq9k6gdmfgbzkn032nul6fetb0bdotx8wu5bvu3w8cac53h45z3mbf870m04fgqodpokwsnmtrrk3p1ch73bm4uj3s88jcn287dtcuqznr57i9j7nz87fr53u9kuk6kayysr030rivapo2q2fckehkmje8pc1tmvzrawdpxu72ffubpdscl666sfg8bdtl3uqwv7hece5gu6e4oc8" "fe88856b 99b077ea 45f88cd4 2f0314ad 01bd888d 80269f1c dee6aa5f b26f56c8";
   vec "xi3tmi9f9p6jxirl78v1gq0c9hzdnv8cmrrg6ffr2wqxe4g7nh8k17gzya1wi8ruofmwcy598ij3jfqp5hulhiemnacuice2e4ie8kuhs9ls268fweps7tygt6wahbse0y538w8a338nvgtiuqhhfdf1jyotvvyw9ft56st9j1pyjm6ro4q5xbw8640f808tqviyo1t8rvy6hy4kgwbncgeh1fahwsqfr0l7pvms8936s7hrmy7vyxv649uu1d6dgigu7qmogr8p0lzbaq9m7966oafgltjth4a5x4yjsz32zwrxiqaaeqegd29r0xkxeq9uq38q1eb24wwpv65idwgephs1mnqpw915y5whzhemfdhb9ps42616bvx0hfhdroyd976hgboth5ow61w5hqja2c51w1plcasanhhf42qaieek5s167jbvq7yx4g6ok0yuhol8pffzpc1zjc8u00wy7ghahtdt5snn176k7178yr2r9t87r2w8dgqwqh" "0de71fd5 54736f2e 9cb55169 8ab6c12b fc242419 e6a4e10b 37d20120 b03b2636";
   vec "fvpktu40b3quzvpdeugqnid4le9ien6cn2j68uhog7etz04fga8pxyqtvuqhlk3vx1c4e5ow1peuttxugpwq7tzt33hleyvp6q83077j9kxfp73kxalschu7s7nxc6xmuy5oqnctqrpxgo1f749ku8u0luaecjkvdb3cpt46ahqe00wm9iwyuqubcalt8htt7dqcqbho2i6qbxdjkq0kwgpebu05s5djcttpdyumgnh7p4du6wrgvyk77amyt6vt44wlrj9ewyqboop7hqimiaufuc4ginr8peldt12jph17qsw83eyd451mrn25cv5t4jyf1gn7edj7o29xn1fcxhwlh6pjb686bv1sszygyvylplme23phf0d3hytzq2hao43hcow5pnw7gmtyw39kb94aykd7oplj5m03wyeb1a57balv7fuq5vio6ux5bhw99j5utgivkvjcbllqz5splhutpa77wz9l6thpn1ge25cyog1juze1ynhqc8cj7gq" "fd00c6a0 02d9119f dc2ae534 e11f4ed1 064de4d6 faa756c8 3f6dc042 6b5f1187"].

Definition test_vectors : list (cstr * cstr) :=
  vectors_1 ++ vectors_2 ++ vectors_3 ++ vectors_4.

(** ** The test on its table *)

Definition fits (v : cstr * cstr) : bool :=
  (Z.of_nat (length v.1) <? MAX_MESSAGE_LEN) && (Z.of_nat (length v.2) <? MAX_MESSAGE_LEN).

(** What the program computes, compared with the reference. *)
Definition confirmed (v : cstr * cstr) : bool :=
  match sha256_string true v.1 with Some d => bool_decide (hex_words d = v.2) | None => false end.

Lemma confirmed_right v : Z.of_nat (length v.1) + 72 < 2 ^ 32 -> confirmed v = right v.
Proof.
  intros Hn. unfold confirmed, right, sha256_string. by rewrite (sha256_Fips true) by (apply message_bytes || by rewrite length_fmap).
Qed.

(** The messages at which the padding changes: as long as [l] says. *)
Definition by_length (l : nat) : cstr * cstr := default (vec "" "") (test_vectors !! (5 + l)%nat).
Definition sample : list (cstr * cstr) := take 6 test_vectors ++ (by_length <$> [1; 54; 55; 56; 57; 63; 64; 65; 119; 120]%nat).

Lemma forallb_member {A} (p : A -> bool) (l : list A) x : forallb p l = true -> x ∈ l -> p x = true.
Proof. intros H Hx. apply (proj1 (forallb_forall p l) H). by apply list_elem_of_In. Qed.

Lemma fits_short v : fits v = true -> Z.of_nat (length v.1) < MAX_MESSAGE_LEN /\ Z.of_nat (length v.2) < MAX_MESSAGE_LEN.
Proof. unfold fits. intros [H1 H2]%andb_prop. by rewrite !Z.ltb_lt in *. Qed.

Lemma table_fits : forallb fits test_vectors = true.
Proof. vm_compute. reflexivity. Qed.

Lemma sample_confirmed : forallb confirmed sample = true.
Proof. vm_compute. reflexivity. Qed.

Lemma sample_short : forallb fits sample = true.
Proof. vm_compute. reflexivity. Qed.

(** The test program on its own table ends without a fault and exits 0 exactly if
    the references are the SHA-256 of their messages.  The six known messages and
    those around the lengths at which the padding needs another block are. *)
Theorem sha256_table_verdict le :
  sha256_test le test_vectors = Ok (if forallb right ((long_message, LONG_DIGEST) :: test_vectors) then 0 else 1) /\
  Forall (fun v => right v = true) sample /\
  (fun v => length v.1) <$> sample = [3; 446; 56; 43; 43; 0; 1; 54; 55; 56; 57; 63; 64; 65; 119; 120]%nat.
Proof.
  split_and!; [| |vm_compute; reflexivity].
  - apply sha256_test_verdict, Forall_forall. intros v Hv. by apply fits_short, (forallb_member _ _ _ table_fits).
  - apply Forall_forall. intros v Hv. rewrite <-confirmed_right; [by apply (forallb_member _ _ _ sample_confirmed)|].
    destruct (fits_short v (forallb_member _ _ _ sample_short Hv)) as [H _]. unfold MAX_MESSAGE_LEN in H. lia.
Qed.
