(* ===== verification/AddrTest.v ===== *)
(** * The tests of the addresses ([src/src/mask-test.c], [src/src/reverse_ip-test.c])

    The two programs, with their tables, over any conversion of addresses; with
    that of the C library ([InetText]) they are evaluated.  What they print is
    left out. *)

From S2P Require Import Prelude Print AddrUtils InetText.

Section Tests.
Context `{Inet} (le : bool).

(** ** Masks *)

Record mask_vector := MaskVector { mv_orig_addr : cstr; mv_masked_addr : option cstr; mv_mask : Z }.

Definition mask_vectors : list mask_vector :=
  [MaskVector (cs "1.2.3.4") (Some (cs "1.0.0.0")) 8;
   MaskVector (cs "1.2.3.4") (Some (cs "1.2.0.0")) 16;
   MaskVector (cs "1.2.3.4") (Some (cs "1.2.3.0")) 24;
   MaskVector (cs "1.2.3.4") (Some (cs "1.2.3.4")) 32;
   MaskVector (cs "210.123.110.220") (Some (cs "208.0.0.0")) 6;
   MaskVector (cs "210.123.110.220") (Some (cs "210.96.0.0")) 11;
   MaskVector (cs "210.123.110.220") (Some (cs "210.123.96.0")) 19;
   MaskVector (cs "210.123.110.220") (Some (cs "210.123.110.220")) 30;
   MaskVector (cs "2600:abcd::f03c:91ff:fe50:d2") (Some (cs "2600::")) 16;
   MaskVector (cs "2600:abcd::f03c:91ff:fe50:d2") (Some (cs "2600:abcd::")) 32;
   MaskVector (cs "2600:abcd::f03c:91ff:fe50:d2") (Some (cs "2600:abcd::")) 64;
   MaskVector (cs "2600:abcd::f03c:91ff:fe50:d2") (Some (cs "2600:abcd:0:0:8000::")) 65;
   MaskVector (cs "2600:abcd::f03c:91ff:fe50:d2") (Some (cs "2600:abcd::f03c:8000:0:0")) 83;
   MaskVector (cs "2600:abcd::f03c:91ff:fe50:d2") (Some (cs "2600:abcd::f03c:91ff:fe50:d0")) 124;
   MaskVector (cs "1.2.3.4.5") None 24;
   MaskVector (cs "1.2.3") None 24;
   MaskVector (cs "asdf::") None 64;
   MaskVector (cs "1234:1234:1234:1234:1234:1234:1234:12345") None 42;
   MaskVector [] None 0].

Fixpoint mask_loop (tests : list mask_vector) (error_count : Z) : Res Z :=
  match tests with
  | [] => Ok error_count
  | t :: tests =>
      masked ← grey_mask le (MaskConfig (mv_mask t) (mv_mask t)) (mv_orig_addr t);
      mask_loop tests
        (match masked, mv_masked_addr t with
         | None, None => error_count
         | Some m, Some r => if cstr_eqb r m then error_count else error_count + 1
         | _, _ => error_count + 1
         end)
  end.

Definition mask_test : Res Z :=
  error_count ← mask_loop mask_vectors 0; Ok (if 0 <? error_count then 1 else 0).

(** ** Reversed addresses *)

Definition MAX_ADDR_LEN : Z := 1024.

Record reverse_vector := ReverseVector { rv_orig_addr : cstr; rv_rev_addr : cstr; rv_res : Z }.

Definition reverse_vectors : list reverse_vector :=
  [ReverseVector (cs "1.2.3.4") (cs "4.3.2.1") 0;
   ReverseVector (cs "210.123.110.220") (cs "220.110.123.210") 0;
   ReverseVector (cs "2600:abcd::f03c:91ff:fe50:d2") (cs "2.d.0.0.0.5.e.f.f.f.1.9.c.3.0.f.0.0.0.0.0.0.0.0.d.c.b.a.0.0.6.2") 0;
   ReverseVector (cs "1234:4321:5678:8765:90ab:ba09:cdef:fedc") (cs "c.d.e.f.f.e.d.c.9.0.a.b.b.a.0.9.5.6.7.8.8.7.6.5.1.2.3.4.4.3.2.1") 0;
   ReverseVector (cs "::") (cs "0.0.0.0.0.0.0.0.0.0.0.0.0.0.0.0.0.0.0.0.0.0.0.0.0.0.0.0.0.0.0.0") 0;
   ReverseVector (cs "1.2.3.4.5") [] (-1);
   ReverseVector (cs "1.2.3") [] (-1);
   ReverseVector (cs "asdf::") [] (-1);
   ReverseVector (cs "1234:1234:1234:1234:1234:1234:1234:12345") [] (-1);
   ReverseVector [] [] (-1)].

Fixpoint reverse_loop (tests : list reverse_vector) (error_count : Z) : Res Z :=
  match tests with
  | [] => Ok error_count
  | t :: tests =>
      '(res, addr) ← reverse_inet_addr le (rv_orig_addr t);
      reverse_loop tests
        (if negb (res =? rv_res t) || ((res =? 0) && negb (cstr_eqb addr (rv_rev_addr t))) then error_count + 1 else error_count)
  end.

Definition reverse_test : Res Z :=
  error_count ← reverse_loop reverse_vectors 0; Ok (if 0 <? error_count then 1 else 0).

End Tests.

Import Text.

(** With the C library's text of addresses both tests pass, on machines of
    either byte order. *)
Theorem address_tests_pass le : mask_test le = Ok 0 /\ reverse_test le = Ok 0.
Proof. destruct le; vm_compute; done. Qed.

(** ** Reversed IPv6 addresses in general *)

Lemma text_has_colon b : is_addr 16 b -> ":"%char ∈ text_ntop6 b.
Proof.
  intros Hb. destruct (words16 b Hb) as (Hl & Hw & _). unfold text_ntop6. set (ws := words_of b) in *.
  destruct (best ws) as [[base len]|]; [set_solver|]. destruct ws as [|w [|w2 ws]]; [done..|].
  unfold word_texts. cbn [fmap list_fmap]. rewrite join_cons. cbn. set_solver.
Qed.

(** The text of a reversed IPv6 address names every half byte, from the last to
    the first, and its length is that of the array the callers have. *)
Theorem reverse_inet_addr_v6 le b :
  is_addr 16 b ->
  exists r, reverse_inet_addr le (ntop6 b) = Ok (0, r) /\ length r = 63%nat /\
    (forall i, (i < 16)%nat ->
      r !! (4 * i)%nat = Some (hex_digit (b !!! (15 - i)%nat mod 16)) /\
      r !! (4 * i + 2)%nat = Some (hex_digit (b !!! (15 - i)%nat / 16))).
Proof.
  intros Hb. unfold reverse_inet_addr. cbn [ntop6 text]. rewrite bool_decide_true by (by apply text_has_colon).
  unfold reverse_inet6_addr. pose proof (text_ntop6_fits b Hb) as Hf. rewrite (proj2 (Z.leb_gt _ _)) by lia.
  cbn [pton6 text]. rewrite text_round_trip by done. eexists. split; [done|]. destruct Hb as [Hl Hb].
  do 16 (destruct b as [|? b]; [done|]). destruct b; [|done]. split; [done|].
  intros i Hi. do 16 (destruct i as [|i]; [cbn; rewrite ?Z.shiftr_div_pow2 by lia; change 15 with (Z.ones 4); rewrite ?Z.land_ones by lia; done|]). lia.
Qed.
