(* ===== verification/DnsTest.v ===== *)
(** * The test of the DNS helper ([src/src/helper_dns-test.c])

    Two hundred threads look one name up and compare the first address with the
    one it is known to have.  The threads run one after another here; the count
    of errors, which they share without a lock, is passed from one to the next. *)

From S2P Require Import Prelude Utils MsgQueue AddrUtils InetText Lookup3 HelperDns DnsHeap.
#[local] Open Scope st_scope.

Definition THREADCOUNT : nat := 200.

(** What c-ares answers a thread, if it has to ask, and the times of its steps. *)
Record turn := Turn { t_reply : option (nat * hostent); t_now : timespec; t_done : timespec }.

Section Test.
Context `{Inet}.

(** The first address, as text: the four bytes [inet_ntop] reads. *)
Definition first_address (host : nat) : stt mem cstr :=
  let* h := load host in
  match h with
  | OHost _ _ addr_list _ _ =>
      let* a := deref addr_list in
      let* l := load_ptrs a in
      let* p := st_lift (match l with Some p :: _ => Ok p | _ => Fail OutOfBounds end) in
      let* b := load_addr p in
      let buf := ntop4 (take 4 b) in
      st_lift (if 4 <=? Z.of_nat (length b) then Ok tt else Fail OutOfBounds) ;;;
      st_lift (c_assert (Z.of_nat (length buf) <? INET_ADDRSTRLEN)) ;;;
      st_ret buf
  | _ => st_lift (Fail Undefined)
  end.

(** A timeout of 0: the thread waits for the reply. *)
Definition dnstest (t : turn) (errors : Z) : stt dheap Z :=
  let* host := Gethostbyname (cs "ns1.utu.fi") (fst <$> t_reply t) (t_now t) (t_done t) in
  match host with
  | None => st_lift (Fail OutOfBounds)
  | Some host =>
      let* buf := on_mem (first_address host) in
      let errors := if cstr_eqb (cs "130.232.1.1") buf then errors else errors + 1 in
      on_mem (free_hostent host) ;;;
      st_ret errors
  end.

(** The creation of the threads, and what is left to them when they are joined. *)
Fixpoint run_turns (l : list turn) (errors : Z) : stt dheap Z :=
  match l with
  | [] => st_ret errors
  | t :: l => let* errors := dnstest t errors in run_turns l errors
  end.

Definition dns_test (turns : list turn) : stt dheap Z := run_turns (take THREADCOUNT turns) 0.

(** ** What the threads see *)

(** An entry whose first address is an IPv4 address, and whether it is the one. *)
Definition address_entry (good : bool) (v : hostent) : Prop :=
  host_ok v /\ exists b l, h_addr_list v = b :: l /\ is_addr 4 b /\ cstr_eqb (cs "130.232.1.1") (ntop4 b) = good.

Definition all_entries (P : hostent -> Prop) (s : dns) : Prop := forall i n, hashtab s !! i = Some (Some n) -> P (value n).

Lemma all_entries_set P s k x t : all_entries P s -> aset (hashtab s) (key_hash k) x = Ok t ->
  (forall n, x = Some n -> P (value n)) -> all_entries P (set_hashtab s t).
Proof.
  intros Hs Et Hx i n Hi. apply aset_inv in Et as [Hb ->]. cbn in Hi. destruct (decide (i = Z.to_nat (key_hash k))) as [->|Hne].
  - rewrite list_lookup_insert_eq in Hi by lia. apply Hx. congruence.
  - rewrite list_lookup_insert_ne in Hi by done. by eapply Hs.
Qed.

(** What a lookup finds is an entry of the cache. *)
Lemma lookup_all good k now s e s1 : all_entries (address_entry good) s -> HelperDns.lookup_str k now s = Ok (e, s1) ->
  all_entries (address_entry good) s1 /\ forall w, e = Some w -> address_entry good w.
Proof.
  intros Hs El. unfold HelperDns.lookup_str in El. apply st_bind_inv in El as (? & ? & [= <- <-] & El).
  apply st_bind_inv in El as (node & s2 & Eg & El). unfold st_lift in Eg. destruct (aget _ _) as [x|] eqn:Ex; [|done]. injection Eg as <- <-.
  destruct x as [n|]; [|by injection El as <- <-]. apply aget_inv in Ex as [_ Ex]. pose proof (Hs _ _ Ex) as Hn.
  destruct (cstr_eqb (key n) k); [|by injection El as <- <-]. destruct (_ <? _).
  - apply st_bind_inv in El as (t & s2 & Et & El). unfold st_lift in Et. destruct (aset _ _ _) as [t'|] eqn:Ea; [|done]. injection Et as -> <-.
    injection El as <- <-. split; [|done]. by eapply all_entries_set.
  - rewrite deepcopy_ok in El by apply Hn. injection El as <- <-. split; [done|]. by intros w [= <-].
Qed.

Lemma store_all good k h now s s' : all_entries (address_entry good) s -> address_entry good h -> HelperDns.cache_str k h now s = Ok (tt, s') ->
  all_entries (address_entry good) s'.
Proof.
  intros Hs Hh Ec. unfold HelperDns.cache_str in Ec. apply st_bind_inv in Ec as (? & ? & [= <- <-] & Ec).
  apply st_bind_inv in Ec as (node & s3 & Eg & Ec). unfold st_lift in Eg. destruct (aget _ _) as [slot|]; [|done]. injection Eg as <- <-.
  rewrite deepcopy_ok in Ec by apply Hh. cbn [st_bind st_lift] in Ec. unfold st_bind, st_lift in Ec.
  destruct (aset _ _ _) as [t'|] eqn:Ea; [|done]. injection Ec as <-. eapply all_entries_set; [done..|]. by intros n [= <-].
Qed.

(** A lookup that is answered gives an entry of the cache or the answer. *)
Lemma fetch_all good k q f h now now' s v s' :
  all_entries (address_entry good) s -> address_entry good h -> fetch k q f (Some (Some h)) now now' s = Ok (v, s') ->
  all_entries (address_entry good) s' /\ exists w, v = Some w /\ address_entry good w.
Proof.
  intros Hs Hh E. unfold fetch in E. apply st_bind_inv in E as (r & s1 & Ea & E). unfold ask in Ea. apply st_bind_inv in Ea as (e & s0 & El & Ea).
  destruct (lookup_all good k now s e s0 Hs El) as [Hs0 He]. destruct e as [w|]; [injection Ea as <- <-; injection E as <- <-; eauto|].
  apply st_bind_inv in Ea as (i & s2 & Es & Ea). injection Ea as <- <-. destruct (send_pending _ _ _ _ _ Es) as (l & Ep & Elive).
  assert (hashtab s2 = hashtab s0) as Et.
  { revert Es. unfold HelperDns.send_request, HelperDns.get_response_q, HelperDns.write_request, st_bind, st_get, st_put, st_mod, st_ret. cbn [a_qstep]. by destruct (free (d_queues s0)); intros [= <- <-]. }
  apply st_bind_inv in E as ([] & s3 & Ew & E). unfold wait_reply in Ew. apply st_bind_inv in Ew as (? & ? & [= <- <-] & Ew).
  destruct (answer_queued _ _ _ q f i _ _ Ew) as (x & Eq & Et3 & Hx); [by rewrite Ep, length_app, Nat.add_sub; apply list_lookup_middle | done |].
  rewrite Hx in Eq by (intros h' [= <-]; apply Hh). rewrite bool_decide_false in E by done. apply st_bind_inv in E as (y & s4 & Ec & E). injection E as <- <-.
  unfold collect in Ec. apply st_bind_inv in Ec as (? & ? & [= <- <-] & Ec). cbn [a_qstep] in Ec. rewrite Eq in Ec. cbn in Ec.
  apply st_bind_inv in Ec as ([] & s5 & Ec & Er). injection Er as <- <-. split; [|by exists h]. eapply store_all; [|exact Hh | exact Ec].
  intros j n Hj. cbn in Hj. rewrite Et3, Et in Hj. by eapply Hs0.
Qed.

Context `{!InetLaws H}.

Lemma first_address_ok h s F p v Hp good : heap_rep h s (Hp ++ F) -> host_rep p v Hp -> address_entry good v ->
  exists buf, on_mem (first_address p) h = Ok (buf, h) /\ cstr_eqb (cs "130.232.1.1") buf = good.
Proof.
  intros (Q & P & _ & _ & T & _ & _ & L) Hh (Hok & b & l & Eb & Hb & Hg). exists (ntop4 b). split; [|done].
  enough (first_address p (dh_mem h) = Ok (ntop4 b, dh_mem h)) as E by (rewrite (on_mem_ok _ _ _ _ E); by destruct h).
  set (m := dh_mem h) in *.
  destruct Hh as [pn pa pl qa ql Ha Hl]. rewrite Eb in *. destruct qa as [|q qa]; [done|]. unfold first_address.
  rewrite (st_bind_ok (load p) _ m (OHost (PTo pn) (PTo pl) (PTo pa) (h_addrtype v) (h_length v)) m) by (eapply load_ok; [exact L | set_solver]).
  cbn [deref]. rewrite ret_bind.
  rewrite (st_bind_ok (load_ptrs pa) _ m ((Some <$> q :: qa) ++ [None]) m).
  2: { unfold load_ptrs. rewrite (st_bind_ok (load pa) _ m (arr (q :: qa)) m) by (eapply load_ok; [exact L | unfold block; set_solver]). done. }
  cbn [fmap list_fmap app]. change (st_lift (Ok q)) with (st_ret (S := mem) q). rewrite ret_bind.
  rewrite (st_bind_ok (load_addr q) _ m b m).
  2: { unfold load_addr. rewrite (st_bind_ok (load q) _ m (OAddr b) m) by (eapply load_ok; [exact L | unfold block; cbn; set_solver]). done. }
  pose proof (ntop4_fits b Hb) as Hf. destruct Hb as [Hb _]. rewrite take_ge by lia. unfold c_assert, st_bind, st_lift.
  rewrite (proj2 (Z.leb_le _ _)), (proj2 (Z.ltb_lt _ _)) by lia. done.
Qed.

Section Arena.
Context (arena : list (nat * hostent)) (A : list (nat * obj)) (HA : arena_rep arena A) (good : bool).

(** A thread: c-ares has an entry for the name. *)
Definition turn_ok (t : turn) : Prop := exists x, t_reply t = Some x /\ x ∈ arena /\ address_entry good x.2.

Lemma dnstest_ok h s t errors : heap_rep h s A -> all_entries (address_entry good) s -> turn_ok t ->
  exists h' s', dnstest t errors h = Ok (if good then errors else errors + 1, h') /\ heap_rep h' s' A /\ all_entries (address_entry good) s'.
Proof.
  intros Hm Hs ([p v] & Et & Hx & Hv). unfold dnstest. rewrite Et.
  destruct (Gethostbyname_refines arena A h s A (cs "ns1.utu.fi") AF_INET (Some (p, v)) (t_now t) (t_done t) HA) as (a & h1 & v1 & s1 & G1 & E & E' & Ha & Hm1);
    [done | by intros x [= <-] | done |].
  destruct (fetch_all good _ _ _ _ _ _ _ _ _ Hs Hv E') as (Hs1 & w & -> & Hw). inversion Ha as [|q ? ? Hq Hok]. subst.
  rewrite (st_bind_ok _ _ _ _ _ E). destruct (first_address_ok h1 s1 A q w G1 good Hm1 Hq Hw) as (buf & Ef & Eb).
  rewrite (st_bind_ok _ _ _ _ _ Ef), Eb. destruct (heap_free_hostent h1 s1 A q w G1 Hq Hm1) as (h2 & E2 & Hm2).
  rewrite (st_bind_ok _ _ _ _ _ E2). exists h2, s1. split; [reflexivity | split; assumption].
Qed.

(** The test program's verdict: when c-ares has an entry for the name each time
    it is asked, no thread faults, the program returns 0 if those entries have
    the expected address and the number of its threads if none has; and all
    memory but the cache is given back. *)
Theorem dns_test_verdict (turns : list turn) (m0 : mem) :
  ledger m0 A -> table m0 = replicate (Z.to_nat HASHSIZE) None -> Forall turn_ok turns -> length turns = THREADCOUNT ->
  exists h s, dns_test turns (DHeap m0 aqs0 []) = Ok (if good then 0 else Z.of_nat THREADCOUNT, h) /\ heap_rep h s A.
Proof.
  intros L Ht Hok Hl. unfold dns_test. rewrite take_ge by lia. rewrite <-Hl. clear Hl.
  assert (heap_rep (DHeap m0 aqs0 []) dns0 A) as I by (exists [], []; split_and!; [apply qs_rep0 | apply reps_nil | by apply empty_holds]).
  assert (all_entries (address_entry good) dns0) as Hs. { intros i n Hi. apply lookup_replicate in Hi as [? _]. done. }
  enough (forall h s errors, heap_rep h s A -> all_entries (address_entry good) s ->
    exists h' s', run_turns turns errors h = Ok (if good then errors else errors + Z.of_nat (length turns), h') /\ heap_rep h' s' A) as Hr.
  { exact (Hr _ dns0 0 I Hs). }
  clear -HA Hok InetLaws0. induction Hok as [|t turns Ht _ IH]; intros m s errors Hm Hs; [exists m, s; cbn; rewrite Z.add_0_r; by destruct good|].
  destruct (dnstest_ok m s t errors Hm Hs Ht) as (m1 & s1 & E & Hm1 & Hs1). cbn [run_turns]. rewrite (st_bind_ok _ _ _ _ _ E).
  destruct (IH m1 s1 (if good then errors else errors + 1) Hm1 Hs1) as (m2 & s2 & E2 & Hm2). exists m2, s2. rewrite E2. split; [|done].
  do 2 f_equal. cbn [length]. destruct good; [done|]. lia.
Qed.

End Arena.
End Test.

Definition ns1 : hostent := host4 (cs "ns1.utu.fi") [130; 232; 1; 1].
Definition ns1_arena : list (nat * hostent) := [(0%nat, ns1)].
Definition ns1_objs : list (nat * obj) :=
  [(0%nat, OHost (PTo 1) (PTo 4) (PTo 2) AF_INET 4); (1%nat, OStr (cs "ns1.utu.fi"))] ++ block OAddr 2 [3%nat] [[130; 232; 1; 1]] ++ block OStr 4 [] [].
Definition ns1_mem : mem := Mem (list_to_map ns1_objs) 5 (replicate (Z.to_nat HASHSIZE) None).
Definition ns1_turns : list turn := replicate THREADCOUNT (Turn (Some (0%nat, ns1)) (Timespec 5 0) (Timespec 5 0)).

Example ns1_test : exists h s, @dns_test Text.text ns1_turns (DHeap ns1_mem aqs0 []) = Ok (0, h) /\ heap_rep h s ns1_objs.
Proof.
  apply (@dns_test_verdict Text.text Text.text_laws ns1_arena ns1_objs) with (good := true); [| |reflexivity| |apply length_replicate].
  - repeat constructor. exists ns1_objs. split; [exact (host_rep_intro 0 ns1 1 2 4 [3%nat] [] eq_refl eq_refl)|].
    split; [split; [reflexivity | repeat constructor] | done].
  - split_and!; [done | by apply (bool_decide_unpack _) | repeat constructor].
  - apply Forall_replicate. exists (0%nat, ns1). split; [done|]. split; [by apply list_elem_of_here|].
    split; [split; [reflexivity | repeat constructor]|]. exists [130; 232; 1; 1], []. split; [done|]. split; [|vm_compute; reflexivity].
    split; [done|]. repeat constructor; done.
Qed.

(** A name that c-ares does not find is a null pointer the test reads through. *)
Example not_found_faults :
  @dns_test Text.text [Turn None (Timespec 5 0) (Timespec 5 0)] (DHeap ns1_mem aqs0 []) = Fail OutOfBounds.
Proof. vm_compute. reflexivity. Qed.
